(* ===== verification/_CoqProject ===== *)
-Q . S2P
Prelude.v
PyDecimal.v
DecimalFacts.v
DecimalText.v
PyFloat.v
Sha256.v
PyText.v
JsonText.v
JsonIndent.v
IsoTime.v
Serialize.v
Attribution.v
PosixPath.v
AuditLog.v
AuditSuccessor.v
VerifiedJson.v
Domain.v
TradeLedger.v
Events.v
OrderBook.v
StreamRecovery.v
ConnectorHealth.v
Filters.v
OrderState.v
Recovery.v
OrderCommand.v
Authorization.v
LiveGate.v
PromotionEvidence.v
PromotionLedger.v
GateEvidence.v
Executor.v
LiveOrder.v
Approval.v
ApprovalText.v
RateLimit.v
Candidate.v
Risk.v
Surface.v
Eligibility.v
Paper.v
PaperLifecycle.v
PaperLedger.v
VirtualWallet.v
WalletJournal.v
CandleViews.v
Backtest.v
BacktestReplay.v
BacktestMetrics.v
Backtester.v
Journal.v
JournalLog.v
Delivery.v
EventRuntime.v
Cpcv.v
CostBasis.v
PublicStream.v
MarketClient.v
OrderPreview.v
