(* ===== verification/Prelude.v ===== *)
(** * ai4binance: the trading core

    The repository is a Spot-only research and trading system for Binance.  Most
    of its code reports, documents and governs; a real order can leave the
    program only through a narrow core, and this development models that core,
    together with the market-data components whose evidence it needs.  All paths
    below are under [src/src/ai4binance/].

    ** How the parts interact

    Public data arrives through the order book, the recoverable stream and the
    request governor; connector health and time checks turn their state into
    readiness.  An operator proposes an action, a human approves a preview of
    one exact order, and the approval queue stores both with an authorization.
    The executor resolves that authorization, asks the evidence registries for
    validation and promotion facts, evaluates the live gate, claims the
    authorization in its single-use ledger, resolves it again, and only then
    tests and places the order.  The outcome becomes a chain of domain events
    that the order lifecycles replay, and after a restart open orders are rebuilt
    from journals and compared with the exchange.

    ** Files, from the ground up

    - [Prelude]: results with Python exceptions ([res]), methods of mutable
      objects ([method]: the state an exception leaves behind is kept), ASCII
      text, insertion-ordered dictionaries ([dict_*]), stable [sorted], aware and
      naive datetimes, and the tactics [inv_res] and [inv_method].
    - [PyDecimal], [DecimalFacts], [DecimalText]: Python's [decimal] at the
      default context (28 digits, half-even, its traps), the [faithful] rounding
      property every operation has, and the text round trip.
    - [PyFloat]: binary64 on the Standard Library's [SpecFloat].
      [Sha256]: FIPS 180-4.  [PyText]: [isoformat], [json.dumps], [str], [int].
    - [Domain]: the shared enumerations of [domain.py].
    - [Events]: [events/models.py], [events/bus.py].  [DomainEvent],
      [create_event], the hash-chained bus and replay.
    - [OrderBook]: [exchange/order_book.py].  [StreamRecovery]:
      [exchange/stream_state.py].  [ConnectorHealth]: [exchange/readiness.py] and
      [exchange/resilience.py].  [RateLimit]: [exchange/rate_limit.py].
      [Filters]: [exchange/filters.py].
    - [OrderState]: [execution/order_state.py].  [Recovery]:
      [execution/recovery.py] and [portfolio/reconciliation.py].
    - [OrderCommand]: [domain/order_command.py].  [Authorization]:
      [execution/authorization.py].  [Approval]: [execution/manual_approval.py].
    - [LiveGate]: [domain/live_gate.py].  [PromotionEvidence] and [GateEvidence]:
      [domain/promotion_evidence.py], [validation/promotion_evidence.py],
      [domain/live_gate_evidence.py], [validation/live_gate_evidence.py].
    - [Executor]: [execution/live_spot.py].  [LiveOrder]:
      [execution/live_order_lifecycle.py].
    - [JsonText]: [json.loads] and its round trip with [json.dumps];
      [IsoTime]: [datetime.fromisoformat]; [Serialize]:
      [core/serialization.py].  [AuditLog]: [storage/jsonl.py], the hash-linked
      audit file with redaction, and [AuditSuccessor], its chained successors and
      their recovery.  [JsonIndent]: [json.dumps] over several lines;
      [PosixPath]: paths; [VerifiedJson]: [storage/destination_verification.py],
      the verified writing of a JSON object.
    - [Candidate]: the trade candidate of [schemas.py] and its safety checks.
      [Risk]: [risk.py].  [Surface]: the execution surfaces and their envelopes
      ([domain/execution_authority.py], [domain/execution_envelope.py]).
      [Eligibility]: the reduction of blockers and the eligibility of a virtual
      simulation ([domain/blocker_reduction.py],
      [application/virtual_runtime_eligibility.py]).
      [Paper], [PaperLifecycle]: the paper broker and the paper positions
      ([execution/paper.py], [domain/research/paper_models.py],
      [domain/research/paper_lifecycle.py], [domain/research/trailing.py]).
      [Attribution]: [domain/research/virtual_runtime_attribution.py], the
      decision evidence they carry, and [TradeLedger], the closed trades and the
      views that aggregate them.  [PaperLedger]: [execution/ledger.py], the
      stored positions as the lines of their file.
    - [Journal], [JournalLog]: [events/journal.py], the durable event file on the
      characters of its segments, and the refinement to an append-only log.
      [Delivery]: [events/delivery.py], consumers and their checkpoints.
      [EventRuntime]: the bus and the journal together.
    - [VirtualWallet]: [domain/research/virtual_runtime_portfolio_state.py] and
      [domain/research/virtual_runtime_portfolios.py], the state of one virtual
      wallet.  [WalletJournal]: [virtual_wallet_journal.py], the movements of the
      wallets in a sealed file of [AuditLog] and the state file written by
      [VerifiedJson].
    - [ApprovalText]: the approval queue as the lines of its file.
      [PromotionLedger]: the promotion records as lines of their file.
    - [Cpcv]: [validation/cpcv.py], combinatorial purged cross-validation.
      [CostBasis]: [portfolio/cost_basis.py], the cost of a holding from paged
      trades.
    - [PublicStream]: [exchange/public_stream.py], kline messages from bytes to
      decision candles over [StreamRecovery].  [MarketClient]:
      [exchange/client.py] and [exchange/models.py].  [OrderPreview]:
      [execution/order_preview.py], over [MarketClient], [Filters] and
      [OrderCommand].
    - [Backtest]: [domain/research/backtest_models.py],
      [domain/research/liquidity.py], [research/backtesting/exit_engine.py] and
      the operations on one trade of [research/backtesting/engine.py];
      [CandleViews]: its views of candle prefixes and suffixes;
      [BacktestReplay]: its counterfactual replays; [BacktestMetrics]:
      [research/backtesting/metrics.py]; [Backtester]: the bar loop and the
      result, over all of these.
    ** What the theorems show

    - Reaching the exchange: [Executor.exchange_contact_authorized],
      [Executor.authorization_places_once], [Executor.place_status_truthful],
      [Approval.exchange_contact_needs_approval],
      [Authorization.authorization_single_use] and [LiveGate.live_gate_exact]
      together say that order entry is contacted only for one authorized,
      evidenced and freshly approved order, at most once, and that the returned
      status tells the truth, whatever the outside answers or raises.
    - Lifecycles: every replayable order respects its stages, fills and
      contiguity, and the chain written for an outcome replays to it.
    - Evidence: the registries answer exactly on current, exact-bound records.
    - Market data: a live book, as long as no call raised, is uncrossed, bounded and contiguous; a stream
      never skips an update; the governor never spends past the hard stop and
      its waiting loop ends with the periods.
    - Text and numbers: rounding, validation and conversion are exact where
      the code relies on it, in spite of 28-digit arithmetic.
    - Durability: the journal file refines an append-only log
      ([JournalLog.journal_refines_log]), loading never skips a record,
      recovery resumes where the file ends, consumers see every event at least
      once and an event is published only after it is stored; the audit file
      refines a log too as long as no write is torn, equal last hashes mean equal records unless a hashed
      text collides, and a redacted value contains nothing below a sensitive
      key ([AuditLog]); a successor of a legacy file is bound to its bytes and a
      recovery stays in force ([AuditSuccessor]); a verified write is all or
      nothing ([VerifiedJson]); the approval queue's file carries the queue of
      [Approval] ([ApprovalText.queue_file_refines]).
    - Research surfaces: an assessment is approved exactly within the
      limits the engine enforces (not [max_risk_per_trade]), paper fills follow the
      candle rules, positions keep their quantities and a stop never moves down; the
      ledger file restores exactly the last position of every identity
      ([PaperLedger.paper_ledger_refines]), a recorded cycle moves one virtual
      wallet once or changes nothing, and the wallets read back are those of the
      movements ([WalletJournal.wallet_journal_refines]), decision evidence is bound by its
      digest and used only when it precedes the entry ([Attribution]); every
      cross-validation split is free of leakage and the splits are complete
      ([Cpcv]).
    - Data in: decision candles are in order and come only from klines that
      continue a live stream ([PublicStream]); paged trade history is loaded
      whole, and the reconstructed holding and its blockers are exact on the grid
      of eight decimals ([CostBasis]); a READY
      preview is an order that can be placed ([OrderPreview]).
    - Backtesting: every observed signal ends as one rejection or one closed
      trade, trades follow each other, and nothing a backtest records depends on
      later candles ([Backtester]); fills are conservative ([Backtest]), the fast
      counterfactual replay equals the general one ([BacktestReplay]), and the
      trade views partition the trades ([TradeLedger]).
    Where the code does not do what it means to, a theorem states what it does
    (a refused snapshot that leaves a crossed book, a padded action id that can
    never be enqueued, a request that waits for ever, an overflow that escapes
    the recovery, a promotion event that reopens an order, a torn audit record
    that spoils the file, a cost that is not reset when a holding is sold out, a
    simulated entry that is no multiple of its tick, a repeated cycle that moves a
    wallet in the state file only).

    ** Bounds and fuel

    [RateLimit.reserve] may really run for ever: [None] means "still waiting",
    [RateLimit.reserve_terminates] says how much fuel is enough, and
    [RateLimit.heavy_weight_waits_forever] gives the requests for which no fuel
    is.  The scanner of [JsonText] takes twice the length of the text and two
    more; [JsonText.loads_quiet] proves that this is never used up.  Backward
    block reading in [AuditLog] takes one unit per character of the file, and
    [AuditLog.last_line_exact] shows that it reads the whole line.  Digit,
    month, hashing and replacement loops take the size of their input.  Every
    other function is structural.

    Text is ASCII.  JSON floats, other forms of ISO dates than the extended one,
    instants from 2**32 seconds on and the limits of the interpreter leave the
    model: the definitions raise [Unmodelled] there, and no theorem calls that a
    success.  Exchange, verifiers, file and database failures, locks and clocks
    are arguments of the definitions and every theorem holds for all of them.

    ** Not modelled, and why

    Sockets, HTTP and SQLite are third-party or platform code and are arguments.
    Locks only make the modelled methods atomic; [RateLimit.reserve_shared] has
    the calls other threads make during the sleeps of a reservation, for which
    the lock is released.  [Events.bus_step] has subscribers that call the bus
    again while it calls them; [EventRuntime] has none that publish on the
    runtime again.  A verified write has no concurrent writer of its
    destination.  Of the wallet journal, decisions with a request, managed
    positions and the user reports written last, whose failure also fails a
    cycle, are left out.  Reports, dashboards, command lines, agents, documentation
    validators and research pipelines hold no order authority; the manifest
    lists each of them with its reason. *)
From Stdlib Require Export String Ascii ZArith Lia Bool List.
From stdpp Require Export base tactics option list strings.
Local Open Scope Z_scope.
Local Open Scope bool_scope.

(** ** Exceptions and results *)

(** The Python exceptions the modelled code raises or catches.  The three
    [Decimal*] constructors are the signals the default [decimal] context
    traps; all of them are [ArithmeticError]s and none is a [ValueError]. *)
#[warnings="-register-all"]
Inductive exn : Type :=
| ValueError (msg : string)
| RuntimeError (msg : string)
| TypeError
| KeyError
| IndexError
| OSError
| OverflowError (msg : string)
| DecimalInvalidOperation
| DecimalDivisionByZero
| DecimalOverflow
| EventJournalCorruptionError (msg : string)
| DurableEventCheckpointCorruptionError (msg : string)
| DurableEventDeliveryError
| AuthorizationAlreadyConsumedError
| AuthorizationLedgerUnavailableError
| SqliteError
| ExchangeHttpError (msg : string)
| ExchangePayloadError (msg : string)
| ExceptionGroup (exceptions : list exn)
(** Not an exception of the code: the inputs leave what is modelled. *)
| Unmodelled (what : string).

(** [except ValueError] *)
Definition is_value_error (e : exn) : bool :=
  match e with ValueError _ => true | _ => false end.

(** [except ArithmeticError]: [decimal]'s signals and [OverflowError]. *)
Definition is_arithmetic_error (e : exn) : bool :=
  match e with
  | OverflowError _ | DecimalInvalidOperation | DecimalDivisionByZero
  | DecimalOverflow => true
  | _ => false
  end.

Inductive res (A : Type) : Type :=
| Ok (a : A)
| Raise (e : exn).
Arguments Ok {A} a.
Arguments Raise {A} e.

#[export] Instance res_ret : MRet res := @Ok.
#[export] Instance res_bind : MBind res := fun A B f m =>
  match m with Ok a => f a | Raise e => Raise e end.
#[export] Instance res_fmap : FMap res := fun A B f m =>
  match m with Ok a => Ok (f a) | Raise e => Raise e end.

(** [if b: raise e] *)
Definition raise_if (b : bool) (e : exn) : res unit :=
  if b then Raise e else Ok tt.

(** [try: m except ValueError: h] *)
Definition catch {A} (m : res A) (p : exn -> bool) (h : exn -> res A) : res A :=
  match m with
  | Ok a => Ok a
  | Raise e => if p e then h e else Raise e
  end.

Definition is_ok {A} (m : res A) : bool :=
  match m with Ok _ => true | Raise _ => false end.

(** Methods of mutable objects: the object is the state, and the mutations
    done before an exception stay visible to the caller. *)
Definition method (S A : Type) : Type := S -> res A * S.

#[export] Instance method_ret {S} : MRet (method S) := fun A a s => (Ok a, s).
#[export] Instance method_bind {S} : MBind (method S) := fun A B f m s =>
  match m s with
  | (Ok a, s') => f a s'
  | (Raise e, s') => (Raise e, s')
  end.

Definition get {S} : method S S := fun s => (Ok s, s).
Definition put {S} (s : S) : method S unit := fun _ => (Ok tt, s).
Definition modify {S} (f : S -> S) : method S unit := fun s => (Ok tt, f s).
Definition lift {S A} (m : res A) : method S A := fun s => (m, s).

(** ** Lemmas and tactics for the monads *)

Lemma bind_Ok {A B} (m : res A) (f : A -> res B) b :
  (m ≫= f) = Ok b -> exists a, m = Ok a /\ f a = Ok b.
Proof. destruct m; [eauto | discriminate]. Qed.

Lemma raise_if_Ok b e u : raise_if b e = Ok u -> b = false.
Proof. by destruct b. Qed.

Lemma Ok_bind {A B} (a : A) (f : A -> res B) : (Ok a ≫= f) = f a.
Proof. reflexivity. Qed.

Lemma mret_Ok {A} (a b : A) : (mret a : res A) = Ok b -> a = b.
Proof. by intros [= ->]. Qed.

Lemma fmap_Ok {A B} (m : res A) (f : A -> B) b :
  (f <$> m) = Ok b -> exists a, m = Ok a /\ b = f a.
Proof. destruct m; [intros [= <-]; eauto | discriminate]. Qed.

Lemma catch_Ok {A} (m : res A) p h a :
  catch m p h = Ok a ->
  m = Ok a \/ exists e, m = Raise e /\ p e = true /\ h e = Ok a.
Proof.
  destruct m as [a'|e]; simpl; [by left|].
  destruct (p e) eqn:Hp; [|discriminate]. intros. right. eauto.
Qed.

Lemma mapM_Ok {A B} (f : A -> res B) l : forall l', mapM f l = Ok l' ->
  Forall2 (fun x y => f x = Ok y) l l'.
Proof.
  induction l as [|x l IH]; simpl; intros l' H; [injection H as <-; constructor|].
  apply bind_Ok in H as (y & Hy & H). apply bind_Ok in H as (k & Hk & H).
  injection H as <-. constructor; auto.
Qed.

Lemma Ok_mapM {A B} (f : A -> res B) l l' : Forall2 (fun x y => f x = Ok y) l l' -> mapM f l = Ok l'.
Proof. induction 1 as [|x y l l' H _ IH]; [done|]. simpl. rewrite H. simpl. by rewrite IH. Qed.

Lemma Forall2_In_l {A B} (R : A -> B -> Prop) l k x : Forall2 R l k -> In x l ->
  exists y, In y k /\ R x y.
Proof. induction 1 as [|a b l k Hab _ IH]; simpl; [done|].
  intros [Heq|Hin]; [subst; eauto|]. destruct (IH Hin) as (z & ? & ?). eauto.
Qed.

Lemma Forall2_In_r {A B} (R : A -> B -> Prop) l k y : Forall2 R l k -> In y k ->
  exists x, In x l /\ R x y.
Proof. induction 1 as [|a b l k Hab _ IH]; simpl; [done|].
  intros [Heq|Hin]; [subst; eauto|]. destruct (IH Hin) as (z & ? & ?). eauto.
Qed.

(** [inv_res] takes apart every hypothesis saying that a bind, a guard or a
    state update returned normally. *)
Ltac inv_res_step :=
  match goal with
  | H : (_ ≫= _) = Ok _ |- _ =>
      let a := fresh "a" in let Ha := fresh "Hm" in
      apply bind_Ok in H; destruct H as (a & Ha & H)
  | H : mbind _ _ = Ok _ |- _ =>
      let a := fresh "a" in let Ha := fresh "Hm" in
      apply bind_Ok in H; destruct H as (a & Ha & H)
  | H : raise_if _ _ = Ok _ |- _ => apply raise_if_Ok in H
  | H : Ok _ = Ok _ |- _ => injection H as H
  | H : mret _ = Ok _ |- _ => injection H as H
  | H : Raise _ = Ok _ |- _ => discriminate H
  | H : Ok _ = Raise _ |- _ => discriminate H
  | H : (_ || _)%bool = false |- _ =>
      let H1 := fresh H in apply orb_false_iff in H; destruct H as [H1 H]
  | H : (_ && _)%bool = true |- _ =>
      let H1 := fresh H in apply andb_true_iff in H; destruct H as [H1 H]
  | H : negb _ = false |- _ => apply negb_false_iff in H
  | H : negb _ = true |- _ => apply negb_true_iff in H
  end.
Ltac inv_res := repeat inv_res_step.

Lemma method_bind_Ok {S A B} (m : method S A) (f : A -> method S B) s b s' :
  (m ≫= f) s = (Ok b, s') ->
  exists a s1, m s = (Ok a, s1) /\ f a s1 = (Ok b, s').
Proof.
  unfold mbind, method_bind. destruct (m s) as [[a|e] s1]; [eauto | done].
Qed.

Lemma method_bind_run {S A B} (m : method S A) (f : A -> method S B) s :
  (m ≫= f) s = match m s with
               | (Ok a, s1) => f a s1
               | (Raise e, s1) => (Raise e, s1)
               end.
Proof. reflexivity. Qed.

Lemma lift_bind {S A B} (m : res A) (f : A -> method S B) s :
  (lift m ≫= f) s = match m with Ok a => f a s | Raise e => (Raise e, s) end.
Proof. by destruct m. Qed.

Lemma get_bind {S B} (f : S -> method S B) s : (get ≫= f) s = f s s.
Proof. reflexivity. Qed.

Lemma modify_bind {S B} (g : S -> S) (f : unit -> method S B) s :
  (modify g ≫= f) s = f tt (g s).
Proof. reflexivity. Qed.

Lemma lift_raise_if_bind {S B} b e (f : unit -> method S B) s :
  (lift (raise_if b e) ≫= f) s = if b then (Raise e, s) else f tt s.
Proof. by destruct b. Qed.

Lemma mret_run {S A} (a : A) (s : S) : (mret a : method S A) s = (Ok a, s).
Proof. reflexivity. Qed.

Lemma lift_Raise_run {S A} e (s : S) : lift (@Raise A e) s = (Raise e, s).
Proof. reflexivity. Qed.

(** Evaluation of method bodies by rewriting, for both outcomes. *)
Create Rewrite HintDb method.
#[export] Hint Rewrite @lift_raise_if_bind @get_bind @modify_bind @mret_run
  @lift_Raise_run : method.

Lemma lift_Ok {S A} (m : res A) (s : S) a s' : lift m s = (Ok a, s') -> m = Ok a /\ s' = s.
Proof. unfold lift. by intros [= -> ->]. Qed.

Lemma get_Ok {S} (s a s' : S) : get s = (Ok a, s') -> a = s /\ s' = s.
Proof. by intros [= -> ->]. Qed.

Lemma put_Ok {S} (x s s' : S) u : put x s = (Ok u, s') -> s' = x.
Proof. by intros [= _ ->]. Qed.

Lemma modify_Ok {S} (f : S -> S) s s' u : modify f s = (Ok u, s') -> s' = f s.
Proof. by intros [= _ ->]. Qed.

(** [inv_method] runs a method's equation forward: the state is threaded
    through every call that returned normally. *)
Ltac inv_method_step :=
  match goal with
  | H : mbind _ _ _ = (Ok _, _) |- _ =>
      let a := fresh "a" in let s := fresh "s" in let Hm := fresh "Hm" in
      apply method_bind_Ok in H; destruct H as (a & s & Hm & H)
  | H : get _ = (Ok _, _) |- _ => apply get_Ok in H; destruct H as [-> ->]
  | H : put _ _ = (Ok _, _) |- _ => apply put_Ok in H; subst
  | H : modify _ _ = (Ok _, _) |- _ => apply modify_Ok in H; subst
  | H : mret _ _ = (Ok _, _) |- _ => injection H; clear H; intros; subst
  | H : lift _ _ = (Ok _, _) |- _ => apply lift_Ok in H; destruct H as [H ->]
  end.
Ltac inv_method := repeat inv_method_step.

(** Turns boolean comparisons on [Z] into propositions. *)
Ltac zify_bool :=
  repeat match goal with
  | H : (_ <? _) = true |- _ => apply Z.ltb_lt in H
  | H : (_ <? _) = false |- _ => apply Z.ltb_ge in H
  | H : (_ <=? _) = true |- _ => apply Z.leb_le in H
  | H : (_ <=? _) = false |- _ => apply Z.leb_gt in H
  | H : (_ =? _) = true |- _ => apply Z.eqb_eq in H
  | H : (_ =? _) = false |- _ => apply Z.eqb_neq in H
  | H : bool_decide _ = true |- _ => apply bool_decide_eq_true in H
  | H : bool_decide _ = false |- _ => apply bool_decide_eq_false in H
  | H : String.eqb _ _ = true |- _ => apply String.eqb_eq in H
  | H : String.eqb _ _ = false |- _ => apply String.eqb_neq in H
  end.

(** ** Text: Python [str] restricted to ASCII *)

Definition is_space (c : ascii) : bool :=
  let n := N_of_ascii c in
  ((9 <=? n) && (n <=? 13) || (28 <=? n) && (n <=? 32))%N.

Definition ascii_upper (c : ascii) : ascii :=
  let n := N_of_ascii c in
  if ((97 <=? n) && (n <=? 122))%N then ascii_of_N (n - 32) else c.

Definition ascii_lower (c : ascii) : ascii :=
  let n := N_of_ascii c in
  if ((65 <=? n) && (n <=? 90))%N then ascii_of_N (n + 32) else c.

Definition is_digit (c : ascii) : bool :=
  let n := N_of_ascii c in ((48 <=? n) && (n <=? 57))%N.

Definition is_alpha (c : ascii) : bool :=
  let n := N_of_ascii c in
  ((65 <=? n) && (n <=? 90) || (97 <=? n) && (n <=? 122))%N.

Definition is_ascii (c : ascii) : bool := (N_of_ascii c <=? 127)%N.

Fixpoint drop_spaces (l : list ascii) : list ascii :=
  match l with
  | [] => []
  | c :: l' => if is_space c then drop_spaces l' else l
  end.

Definition strip_list (l : list ascii) : list ascii :=
  rev (drop_spaces (rev (drop_spaces l))).

Definition strip (s : string) : string :=
  string_of_list_ascii (strip_list (list_ascii_of_string s)).
Definition upper (s : string) : string :=
  string_of_list_ascii (map ascii_upper (list_ascii_of_string s)).
Definition lower (s : string) : string :=
  string_of_list_ascii (map ascii_lower (list_ascii_of_string s)).
Definition isascii (s : string) : bool :=
  forallb is_ascii (list_ascii_of_string s).
Definition isalnum (s : string) : bool :=
  negb (String.eqb s "") &&
  forallb (fun c => is_digit c || is_alpha c) (list_ascii_of_string s).
Definition blank (s : string) : bool := String.eqb (strip s) "".
Definition str_len (s : string) : Z := Z.of_nat (String.length s).
Definition str_contains_char (c : ascii) (s : string) : bool :=
  existsb (Ascii.eqb c) (list_ascii_of_string s).
(** [s.strip().upper()] *)
Definition normalize (s : string) : string := upper (strip s).

(** [x in {...}] for a set of strings written in the source *)
Definition str_in (s : string) (l : list string) : bool :=
  existsb (String.eqb s) l.

(** A lower-case hexadecimal SHA-256 digest. *)
Definition is_hex_lower (c : ascii) : bool :=
  let n := N_of_ascii c in
  ((48 <=? n) && (n <=? 57) || (97 <=? n) && (n <=? 102))%N.
Definition is_sha256_text (s : string) : bool :=
  (str_len s =? 64) && forallb is_hex_lower (list_ascii_of_string s).

Lemma list_ascii_string_id l : list_ascii_of_string (string_of_list_ascii l) = l.
Proof. induction l; simpl; congruence. Qed.

Lemma string_list_ascii_id s : string_of_list_ascii (list_ascii_of_string s) = s.
Proof. induction s; simpl; congruence. Qed.

Lemma list_ascii_inj s t : list_ascii_of_string s = list_ascii_of_string t -> s = t.
Proof.
  intros H. rewrite <- (string_list_ascii_id s), <- (string_list_ascii_id t).
  by rewrite H.
Qed.

Lemma drop_spaces_idem l : drop_spaces (drop_spaces l) = drop_spaces l.
Proof.
  induction l as [|c l IH]; simpl; [done|].
  destruct (is_space c) eqn:Hc; [done|]. simpl. by rewrite Hc.
Qed.

(** A list that does not start with white space stays so when a suffix is cut. *)
Lemma drop_spaces_fix_app l m :
  drop_spaces (l ++ m) = l ++ m -> drop_spaces l = l.
Proof.
  destruct l as [|c l]; simpl; [done|].
  destruct (is_space c) eqn:Hc; [|done].
  intros H. exfalso.
  assert (forall k, (length (drop_spaces k) <= length k)%nat) as Hle.
  { induction k as [|d k IH]; simpl; [lia|]. destruct (is_space d); simpl; lia. }
  specialize (Hle (l ++ m)). rewrite H in Hle. simpl in Hle. lia.
Qed.

Lemma drop_spaces_suffix l : exists p, l = p ++ drop_spaces l.
Proof.
  induction l as [|c l [p IH]]; simpl; [by exists []|].
  destruct (is_space c); [exists (c :: p); by rewrite IH at 1 | by exists []].
Qed.

Lemma strip_list_idem l : strip_list (strip_list l) = strip_list l.
Proof.
  unfold strip_list.
  set (m := drop_spaces l).
  assert (drop_spaces (rev (drop_spaces (rev m))) = rev (drop_spaces (rev m))) as H.
  { destruct (drop_spaces_suffix (rev m)) as [p Hp].
    apply (drop_spaces_fix_app _ (rev p)).
    rewrite <- rev_app_distr, <- Hp, rev_involutive. apply drop_spaces_idem. }
  rewrite H, rev_involutive. by rewrite drop_spaces_idem.
Qed.

Lemma strip_idem s : strip (strip s) = strip s.
Proof. unfold strip. by rewrite list_ascii_string_id, strip_list_idem. Qed.

Definition all_ascii : list ascii :=
  map ascii_of_nat (seq 0 256).

Lemma all_ascii_complete c : In c all_ascii.
Proof.
  unfold all_ascii. rewrite in_map_iff. exists (nat_of_ascii c). split.
  - apply ascii_nat_embedding.
  - apply in_seq. pose proof (nat_ascii_bounded c). lia.
Qed.

(** A decidable property of characters is checked on all 256 of them. *)
Lemma ascii_forall (P : ascii -> bool) : forallb P all_ascii = true -> forall c, P c = true.
Proof. rewrite forallb_forall. eauto using all_ascii_complete. Qed.

Lemma is_space_upper c : is_space (ascii_upper c) = is_space c.
Proof.
  apply eqb_prop. revert c.
  apply (ascii_forall (fun c => eqb (is_space (ascii_upper c)) (is_space c))).
  vm_compute. reflexivity.
Qed.

Lemma ascii_upper_idem c : ascii_upper (ascii_upper c) = ascii_upper c.
Proof.
  apply Ascii.eqb_eq. revert c.
  apply (ascii_forall (fun c => (ascii_upper (ascii_upper c) =? ascii_upper c)%char)).
  vm_compute. reflexivity.
Qed.

Lemma drop_spaces_upper l : drop_spaces (map ascii_upper l) = map ascii_upper (drop_spaces l).
Proof.
  induction l as [|c l IH]; simpl; [done|].
  rewrite is_space_upper. by destruct (is_space c).
Qed.

Lemma strip_list_upper l : strip_list (map ascii_upper l) = map ascii_upper (strip_list l).
Proof.
  unfold strip_list. by rewrite drop_spaces_upper, <- map_rev, drop_spaces_upper, <- map_rev.
Qed.

Lemma upper_idem s : upper (upper s) = upper s.
Proof.
  unfold upper. rewrite list_ascii_string_id, map_map. f_equal.
  apply map_ext. intros. apply ascii_upper_idem.
Qed.

Lemma strip_upper s : strip (upper s) = upper (strip s).
Proof. unfold strip, upper. by rewrite !list_ascii_string_id, strip_list_upper. Qed.

(** Normalising an identifier twice changes nothing. *)
Lemma normalize_idem s : normalize (normalize s) = normalize s.
Proof. unfold normalize. by rewrite strip_upper, strip_idem, upper_idem. Qed.

Lemma str_in_In s l : str_in s l = true <-> In s l.
Proof.
  unfold str_in. rewrite existsb_exists. split.
  - intros (x & Hx & ->%String.eqb_eq). done.
  - intros H. exists s. split; [done | apply String.eqb_refl].
Qed.

Lemma str_in_false s l : str_in s l = false <-> ~ In s l.
Proof. rewrite <- str_in_In. destruct (str_in s l); split; congruence. Qed.

(** ** [dict.fromkeys]: duplicates removed, first occurrence kept *)

Fixpoint dedup_from (seen : list string) (l : list string) : list string :=
  match l with
  | [] => []
  | s :: l' => if str_in s seen then dedup_from seen l'
               else s :: dedup_from (s :: seen) l'
  end.
Definition fromkeys (l : list string) : list string := dedup_from [] l.

Lemma dedup_from_In seen l x :
  In x (dedup_from seen l) <-> In x l /\ ~ In x seen.
Proof.
  revert seen. induction l as [|s l IH]; intros seen; simpl; [tauto|].
  destruct (str_in s seen) eqn:E.
  - apply str_in_In in E. rewrite IH. split; [tauto|].
    intros [[->|Hx] Hs]; [done|by split].
  - apply str_in_false in E. simpl. rewrite IH. simpl. split.
    + intros [->|[Hx Hs]]; [by split; [left|]|]. split; [by right|]. tauto.
    + intros [[->|Hx] Hs]; [by left|]. destruct (decide (s = x)); [by left|].
      right. split; [done|]. intros [?|?]; done.
Qed.

Lemma fromkeys_In l x : In x (fromkeys l) <-> In x l.
Proof. unfold fromkeys. rewrite dedup_from_In. simpl. tauto. Qed.

Lemma dedup_from_NoDup seen l : List.NoDup (dedup_from seen l).
Proof.
  revert seen. induction l as [|s l IH]; intros seen; simpl; [constructor|].
  destruct (str_in s seen); [apply IH|]. constructor; [|apply IH].
  rewrite dedup_from_In. simpl. tauto.
Qed.

Lemma fromkeys_NoDup l : List.NoDup (fromkeys l).
Proof. apply dedup_from_NoDup. Qed.

Lemma fromkeys_nil l : fromkeys l = [] <-> l = [].
Proof.
  split; [|by intros ->]. intros H. destruct l as [|s l]; [done|].
  assert (In s (fromkeys (s :: l))) as Hin by (apply fromkeys_In; by left).
  by rewrite H in Hin.
Qed.

Definition is_nil {A} (l : list A) : bool := match l with [] => true | _ => false end.

Lemma is_nil_true {A} (l : list A) : is_nil l = true <-> l = [].
Proof. by destruct l. Qed.
Lemma is_nil_false {A} (l : list A) : is_nil l = false <-> l <> [].
Proof. by destruct l. Qed.

(** Blocker lists are written in the source as a sequence of guarded
    [append]s; each guard contributes at most one code. *)
Definition block_if (b : bool) (code : string) : list string :=
  if b then [code] else [].

Lemma block_if_In b code x : In x (block_if b code) <-> b = true /\ x = code.
Proof. destruct b; simpl; intuition congruence. Qed.

Lemma block_if_nil b code : block_if b code = [] <-> b = false.
Proof. by destruct b. Qed.

(** ** [sorted]: stable insertion sort by a boolean order *)

Section Sorting.
Context {A : Type} (leb : A -> A -> bool).

Fixpoint insert_sorted (x : A) (l : list A) : list A :=
  match l with
  | [] => [x]
  | y :: l' => if leb x y then x :: y :: l' else y :: insert_sorted x l'
  end.

Fixpoint py_sorted (l : list A) : list A :=
  match l with [] => [] | x :: l' => insert_sorted x (py_sorted l') end.

Lemma insert_sorted_perm x l : Permutation (insert_sorted x l) (x :: l).
Proof.
  induction l as [|y l IH]; simpl; [done|]. destruct (leb x y); [done|].
  rewrite IH. apply perm_swap.
Qed.

Lemma py_sorted_perm l : Permutation (py_sorted l) l.
Proof. induction l as [|x l IH]; simpl; [done|]. by rewrite insert_sorted_perm, IH. Qed.

Lemma py_sorted_length l : length (py_sorted l) = length l.
Proof. apply Permutation_length, py_sorted_perm. Qed.

Lemma py_sorted_In l x : In x (py_sorted l) <-> In x l.
Proof.
  split; apply Permutation_in; [|symmetry]; apply py_sorted_perm.
Qed.

(** With a total and transitive order the result is ordered. *)
Context (leb_total : forall x y, leb x y = true \/ leb y x = true).
Context (leb_trans : forall x y z, leb x y = true -> leb y z = true -> leb x z = true).

Fixpoint ordered (l : list A) : Prop :=
  match l with
  | [] => True
  | x :: l' => (forall y, In y l' -> leb x y = true) /\ ordered l'
  end.

Lemma insert_sorted_ordered x l : ordered l -> ordered (insert_sorted x l).
Proof.
  induction l as [|y l IH]; simpl; [naive_solver|].
  intros [Hy Hl]. destruct (leb x y) eqn:E.
  - simpl. split; [|done]. intros z [->|Hz]; eauto.
  - simpl. split; [|auto]. intros z Hz.
    apply (Permutation_in z (insert_sorted_perm x l)) in Hz.
    destruct Hz as [<-|Hz]; [|auto].
    destruct (leb_total x y); congruence.
Qed.

Lemma py_sorted_ordered l : ordered (py_sorted l).
Proof. induction l; simpl; auto using insert_sorted_ordered. Qed.
End Sorting.

(** Code-point order on text. *)
Lemma string_leb_total s t : String.leb s t = true \/ String.leb t s = true.
Proof. apply String.leb_total. Qed.

Lemma ascii_compare_lt_trans a b c :
  Ascii.compare a b = Lt -> Ascii.compare b c = Lt -> Ascii.compare a c = Lt.
Proof. unfold Ascii.compare. rewrite !N.compare_lt_iff. lia. Qed.

Lemma ascii_compare_eq a b : Ascii.compare a b = Eq -> a = b.
Proof. apply Ascii.compare_eq_iff. Qed.

Lemma ascii_compare_refl a : Ascii.compare a a = Eq.
Proof. unfold Ascii.compare. apply N.compare_refl. Qed.

Lemma string_leb_trans s t u :
  String.leb s t = true -> String.leb t u = true -> String.leb s u = true.
Proof.
  unfold String.leb. revert t u.
  induction s as [|a s IH]; intros [|b t] [|c u]; simpl; try done.
  destruct (Ascii.compare a b) eqn:E1; try done.
  - apply ascii_compare_eq in E1 as ->.
    destruct (Ascii.compare b c) eqn:E2; try done. apply IH.
  - destruct (Ascii.compare b c) eqn:E2; try done.
    + apply ascii_compare_eq in E2 as ->. by rewrite E1.
    + by rewrite (ascii_compare_lt_trans _ _ _ E1 E2).
Qed.

Definition sorted_strings (l : list string) : list string := py_sorted String.leb l.

(** [sorted(set(l))] *)
Definition sorted_set (l : list string) : list string := sorted_strings (fromkeys l).

(** ** Dictionaries in insertion order *)

(** What [dict] and [set] need of [__eq__] on keys. *)
Class KeyEq {K : Type} (keqb : K -> K -> bool) : Prop := {
  keqb_refl : forall x, keqb x x = true;
  keqb_sym : forall x y, keqb x y = keqb y x;
  keqb_trans : forall x y z, keqb x y = true -> keqb y z = true -> keqb x z = true
}.

#[export] Instance string_KeyEq : KeyEq String.eqb.
Proof.
  split; [apply String.eqb_refl | apply String.eqb_sym |].
  intros x y z ->%String.eqb_eq ?. done.
Qed.

#[export] Instance Z_KeyEq : KeyEq Z.eqb.
Proof. split; [apply Z.eqb_refl | apply Z.eqb_sym |]. intros x y z. lia. Qed.

(** A Python [dict]: association list in insertion order.  Assigning to a
    key that is present keeps its position and the stored key object. *)
Section Dict.
Context {K V : Type} (keqb : K -> K -> bool).

Fixpoint dict_get (k : K) (d : list (K * V)) : option V :=
  match d with
  | [] => None
  | (k', v) :: d' => if keqb k k' then Some v else dict_get k d'
  end.

Fixpoint dict_set (k : K) (v : V) (d : list (K * V)) : list (K * V) :=
  match d with
  | [] => [(k, v)]
  | (k', v') :: d' => if keqb k k' then (k', v) :: d' else (k', v') :: dict_set k v d'
  end.

Fixpoint dict_pop (k : K) (d : list (K * V)) : list (K * V) :=
  match d with
  | [] => []
  | (k', v) :: d' => if keqb k k' then d' else (k', v) :: dict_pop k d'
  end.

Definition dict_mem (k : K) (d : list (K * V)) : bool :=
  match dict_get k d with Some _ => true | None => false end.

(** [{k: v for ...}] *)
Definition dict_of (l : list (K * V)) : list (K * V) :=
  fold_left (fun d kv => dict_set kv.1 kv.2 d) l [].

Context {HK : KeyEq keqb}.

Let krefl : forall x, keqb x x = true := keqb_refl.
Let ksym : forall x y, keqb x y = keqb y x := keqb_sym.
Let ktrans : forall x y z, keqb x y = true -> keqb y z = true -> keqb x z = true :=
  keqb_trans.

Lemma keqb_cong x y z : keqb x y = true -> keqb x z = keqb y z.
Proof.
  intros H. destruct (keqb y z) eqn:E; [by eapply ktrans|].
  destruct (keqb x z) eqn:E'; [|done].
  rewrite ksym in H. rewrite (ktrans y x z) in E; done.
Qed.

Lemma dict_get_set k k' v d :
  dict_get k (dict_set k' v d) = if keqb k k' then Some v else dict_get k d.
Proof.
  induction d as [|[k0 v0] d IH]; simpl; [done|].
  destruct (keqb k' k0) eqn:E; simpl.
  - destruct (keqb k k0) eqn:E1, (keqb k k') eqn:E2; try done.
    + rewrite ksym in E. rewrite (ktrans k k0 k') in E2; done.
    + rewrite (ktrans k k' k0) in E1; done.
  - destruct (keqb k k0) eqn:E1; [|done].
    destruct (keqb k k') eqn:E2; [|done].
    rewrite ksym in E2. rewrite (ktrans k' k k0) in E; done.
Qed.

(** Keys pairwise different under [keqb]. *)
Fixpoint dict_wf (d : list (K * V)) : Prop :=
  match d with
  | [] => True
  | (k, _) :: d' => (forall k' v', In (k', v') d' -> keqb k k' = false) /\ dict_wf d'
  end.

Lemma dict_set_In k v d x y :
  In (x, y) (dict_set k v d) -> In (x, y) d \/ (keqb k x = true /\ y = v).
Proof.
  induction d as [|[k0 v0] d IH]; simpl.
  - intros [[= <- <-]|[]]. right. split; [apply krefl | done].
  - destruct (keqb k k0) eqn:E; simpl.
    + intros [[= <- <-]|H]; auto.
    + intros [[= <- <-]|H]; [auto|]. apply IH in H as [?|?]; auto.
Qed.

Lemma dict_set_wf k v d : dict_wf d -> dict_wf (dict_set k v d).
Proof.
  induction d as [|[k0 v0] d IH]; simpl; [naive_solver|].
  intros [Hk Hd]. destruct (keqb k k0) eqn:E; simpl; [auto|].
  split; [|auto]. intros x y Hin. apply dict_set_In in Hin as [H|[H ->]]; [eauto|].
  destruct (keqb k0 x) eqn:E'; [|done].
  rewrite ksym in H. rewrite ksym in E.
  rewrite (ktrans k0 x k) in E; done.
Qed.

Lemma dict_pop_In k d x y : In (x, y) (dict_pop k d) -> In (x, y) d.
Proof.
  induction d as [|[k0 v0] d IH]; simpl; [done|].
  destruct (keqb k k0); simpl; [auto|]. intros [H|H]; auto.
Qed.

Lemma dict_pop_wf k d : dict_wf d -> dict_wf (dict_pop k d).
Proof.
  induction d as [|[k0 v0] d IH]; simpl; [done|]. intros [Hk Hd].
  destruct (keqb k k0); simpl; [done|]. split; [|auto].
  intros x y Hin. apply (Hk x y). by apply dict_pop_In in Hin.
Qed.

Lemma dict_get_None k d :
  dict_get k d = None <-> forall k' v', In (k', v') d -> keqb k k' = false.
Proof.
  induction d as [|[k0 v0] d IH]; simpl; [naive_solver|].
  destruct (keqb k k0) eqn:E.
  - split; [done|]. intros H. rewrite (H k0 v0) in E; [done|by left].
  - rewrite IH. split; [intros H x y [[= <- <-]|Hin]; eauto | eauto].
Qed.

Lemma dict_get_pop k k' d :
  dict_wf d ->
  dict_get k (dict_pop k' d) = if keqb k k' then None else dict_get k d.
Proof.
  induction d as [|[k0 v0] d IH]; simpl; [by destruct (keqb k k')|].
  intros [Hk Hd]. destruct (keqb k' k0) eqn:E; simpl.
  - destruct (keqb k k') eqn:E1.
    + apply dict_get_None. intros x y Hin.
      rewrite (keqb_cong k k0 x); [eauto | by apply (ktrans k k' k0)].
    + destruct (keqb k k0) eqn:E2; [|done].
      rewrite ksym in E. by rewrite (ktrans k k0 k') in E1.
  - destruct (keqb k k0) eqn:E1; [|auto].
    destruct (keqb k k') eqn:E2; [|done].
    rewrite ksym in E2. by rewrite (ktrans k' k k0) in E.
Qed.

Lemma dict_get_In k d v :
  dict_get k d = Some v -> exists k', In (k', v) d /\ keqb k k' = true.
Proof.
  induction d as [|[k0 v0] d IH]; simpl; [done|].
  destruct (keqb k k0) eqn:E; [intros [= <-]; eauto|].
  intros H. apply IH in H as (k' & ? & ?). eauto.
Qed.

Lemma In_dict_get k v d : dict_wf d -> In (k, v) d -> dict_get k d = Some v.
Proof.
  induction d as [|[k0 v0] d IH]; simpl; [done|].
  intros [Hk Hd] [[= -> ->]|Hin]; [by rewrite krefl|].
  rewrite ksym, (Hk k v Hin). auto.
Qed.
(** Assignments to absent keys append; a dict built from items that all have
    different keys is the list of items. *)
Lemma dict_set_absent k v d : dict_get k d = None -> dict_set k v d = d ++ [(k, v)].
Proof.
  induction d as [|[k0 v0] d IH]; simpl; [done|].
  destruct (keqb k k0); [done|]. intros H. by rewrite IH.
Qed.

Lemma dict_set_present k v d w : dict_get k d = Some w -> length (dict_set k v d) = length d.
Proof.
  induction d as [|[k0 v0] d IH]; simpl; [done|].
  destruct (keqb k k0); [done|]. intros H. simpl. by rewrite IH.
Qed.

Lemma dict_fold_length l : forall acc,
  (length (fold_left (fun d kv => dict_set kv.1 kv.2 d) l acc) <= length acc + length l)%nat.
Proof.
  induction l as [|[k v] l IH]; intros acc; simpl; [lia|].
  etransitivity; [apply IH|]. destruct (dict_get k acc) eqn:E.
  - rewrite (dict_set_present k v acc _ E). lia.
  - rewrite dict_set_absent by done. rewrite length_app. simpl. lia.
Qed.

Lemma dict_of_unique l : length (dict_of l) = length l -> dict_of l = l.
Proof.
  unfold dict_of. assert (forall acc,
    length (fold_left (fun d kv => dict_set kv.1 kv.2 d) l acc) = (length acc + length l)%nat ->
    fold_left (fun d kv => dict_set kv.1 kv.2 d) l acc = acc ++ l) as G; [|by apply (G [])].
  induction l as [|[k v] l IH]; intros acc; simpl; [by rewrite app_nil_r|].
  intros H. pose proof (dict_fold_length l (dict_set k v acc)) as Hle.
  destruct (dict_get k acc) eqn:E.
  - rewrite (dict_set_present k v acc _ E) in Hle. lia.
  - rewrite dict_set_absent in * by done. rewrite IH, <- app_assoc; [done|].
    rewrite length_app in *. simpl in *. lia.
Qed.

Lemma dict_fold_wf l : forall acc, dict_wf acc ->
  dict_wf (fold_left (fun d kv => dict_set kv.1 kv.2 d) l acc).
Proof. induction l as [|[k v] l IH]; intros acc H; simpl; auto using dict_set_wf. Qed.

Lemma dict_of_wf l : dict_wf (dict_of l).
Proof. by apply dict_fold_wf. Qed.

End Dict.

(** [set(l)] under an equality, in first-occurrence order. *)
Section PySet.
Context {K : Type} (keqb : K -> K -> bool).

Fixpoint set_of (l : list K) : list K :=
  match l with
  | [] => []
  | k :: l' => k :: List.filter (fun x => negb (keqb k x)) (set_of l')
  end.

(** [len(set(l)) == len(l)]: the comparison the code uses to refuse
    repeated keys. *)
Definition all_unique (l : list K) : bool := Nat.eqb (length (set_of l)) (length l).

Fixpoint pairwise_distinct (l : list K) : Prop :=
  match l with
  | [] => True
  | k :: l' => (forall x, In x l' -> keqb k x = false) /\ pairwise_distinct l'
  end.

Lemma filter_length_le {A} (f : A -> bool) l : (length (List.filter f l) <= length l)%nat.
Proof. induction l as [|x l IH]; simpl; [lia|]. destruct (f x); simpl; lia. Qed.

Lemma filter_length_all {A} (f : A -> bool) l :
  length (List.filter f l) = length l -> forall x, In x l -> f x = true.
Proof.
  induction l as [|y l IH]; simpl; [done|].
  pose proof (filter_length_le f l). destruct (f y) eqn:E; simpl; [|lia].
  intros H' x [<-|Hx]; [done|]. apply IH; [lia|done].
Qed.

Lemma set_of_length l : (length (set_of l) <= length l)%nat.
Proof.
  induction l as [|k l IH]; simpl; [lia|].
  pose proof (filter_length_le (fun x => negb (keqb k x)) (set_of l)). lia.
Qed.

Lemma filter_id {A} (f : A -> bool) l :
  (forall x, In x l -> f x = true) -> List.filter f l = l.
Proof.
  induction l as [|x l IH]; simpl; [done|]. intros H.
  rewrite (H x) by auto. f_equal. auto.
Qed.

Lemma pairwise_distinct_set_of l : pairwise_distinct l -> set_of l = l.
Proof.
  induction l as [|k l IH]; simpl; [done|]. intros [Hk Hl].
  rewrite IH by done. f_equal. apply filter_id. intros x Hx. by rewrite Hk.
Qed.

Lemma all_unique_spec l : all_unique l = true <-> pairwise_distinct l.
Proof.
  unfold all_unique. rewrite Nat.eqb_eq. split;
    [|by intros ->%pairwise_distinct_set_of].
  induction l as [|k l IH]; simpl; [done|]. intros H.
  pose proof (filter_length_le (fun x => negb (keqb k x)) (set_of l)) as H1.
  pose proof (set_of_length l) as H2.
  assert (pairwise_distinct l) as Hl by (apply IH; lia).
  split; [|done]. intros x Hx.
  apply negb_true_iff, (filter_length_all (fun x => negb (keqb k x)) (set_of l)); [lia|].
  by rewrite pairwise_distinct_set_of.
Qed.
End PySet.

(** ** Time *)

(** [datetime]: the wall-clock reading in microseconds since 0001-01-01
    and the UTC offset in microseconds; [None] is a naive value. *)
Record datetime : Type := mk_datetime { dt_local : Z; dt_offset : option Z }.

#[export] Instance datetime_eq_dec : EqDecision datetime.
Proof. solve_decision. Defined.

(** [value.tzinfo is None or value.utcoffset() is None] *)
Definition naive (d : datetime) : bool :=
  match dt_offset d with None => true | Some _ => false end.

(** The instant of an aware value; the code compares timestamps only after
    it has checked that they are aware. *)
Definition instant (d : datetime) : Z :=
  dt_local d - default 0 (dt_offset d).

Definition dt_ltb (a b : datetime) : bool := instant a <? instant b.
Definition dt_leb (a b : datetime) : bool := instant a <=? instant b.
Definition dt_eqb (a b : datetime) : bool := instant a =? instant b.
(** [a - b], a [timedelta] in microseconds *)
Definition dt_sub (a b : datetime) : Z := instant a - instant b.
(** [value.astimezone(UTC)] *)
Definition astimezone_utc (d : datetime) : datetime := mk_datetime (instant d) (Some 0).

Definition utc (us : Z) : datetime := mk_datetime us (Some 0).
Definition seconds (n : Z) : Z := n * 1000000.

Lemma instant_astimezone d : instant (astimezone_utc d) = instant d.
Proof. unfold astimezone_utc, instant. simpl. lia. Qed.

(** The marker every authority-free record of the code carries. *)
Definition LIVE_ORDER_BLOCKED : string := "LIVE_ORDER_BLOCKED".

(** ** Text that normalisation leaves alone *)

Lemma strip_no_space s :
  forallb (fun c => negb (is_space c)) (list_ascii_of_string s) = true -> strip s = s.
Proof.
  intros H. assert (forall l, forallb (fun c => negb (is_space c)) l = true -> drop_spaces l = l) as Hd.
  { intros [|c l]; simpl; [done|]. intros [Hc _]%andb_true_iff. apply negb_true_iff in Hc. by rewrite Hc. }
  unfold strip, strip_list. rewrite (Hd _ H), Hd.
  - by rewrite rev_involutive, string_list_ascii_id.
  - rewrite forallb_forall in *. intros x Hx. apply H. by apply in_rev.
Qed.

Lemma map_fixed {A} (f : A -> A) l : (forall x, In x l -> f x = x) -> map f l = l.
Proof. intros H. rewrite <- (map_id l) at 2. by apply map_ext_in. Qed.

Lemma sha256_text_fixed s : is_sha256_text s = true -> strip s = s /\ lower s = s.
Proof.
  unfold is_sha256_text. intros [_ H]%andb_true_iff. rewrite forallb_forall in H.
  assert (forall c, is_hex_lower c = true -> negb (is_space c) = true /\ ascii_lower c = c) as Hc.
  { intros c Hh. assert (implb (is_hex_lower c) (negb (is_space c) && Ascii.eqb (ascii_lower c) c) = true) as E.
    { clear Hh. revert c. apply ascii_forall. vm_compute. reflexivity. }
    rewrite Hh in E. simpl in E. apply andb_true_iff in E as [? ?%Ascii.eqb_eq]. done. }
  split.
  - apply strip_no_space, forallb_forall. intros c Hin. by apply Hc, H.
  - unfold lower. rewrite map_fixed, string_list_ascii_id; [done|]. intros c Hin. by apply Hc, H.
Qed.

(** ** Sorting what is sorted, and dictionaries under permutation *)

Lemma py_sorted_fixed {A} (leb : A -> A -> bool) l : ordered leb l -> py_sorted leb l = l.
Proof.
  induction l as [|x l IH]; simpl; [done|]. intros [Hx Hl]. rewrite IH by done.
  destruct l as [|y l]; simpl; [done|]. by rewrite (Hx y) by by left.
Qed.

Lemma pairwise_distinct_perm (l k : list string) : Permutation l k ->
  pairwise_distinct String.eqb l -> pairwise_distinct String.eqb k.
Proof.
  induction 1 as [|x l k Hp IH|x y l|l k m _ IH1 _ IH2]; simpl; [done| | |auto].
  - intros [H1 H2]. split; [|auto]. intros z Hz. apply H1. by eapply Permutation_in; [symmetry|].
  - intros (H1 & H2 & H3). split; [|split; [|done]].
    + intros z [<-|Hz]; [|auto]. rewrite String.eqb_sym. apply H1. by left.
    + intros z Hz. apply H1. by right.
Qed.

Lemma dict_get_distinct {V} (d : list (string * V)) k v :
  pairwise_distinct String.eqb (map fst d) -> In (k, v) d -> dict_get String.eqb k d = Some v.
Proof.
  induction d as [|[k0 v0] d IH]; simpl; [done|]. intros [H1 H2] [[= -> ->]|Hin].
  - by rewrite String.eqb_refl.
  - rewrite String.eqb_sym, H1; [auto|]. apply in_map_iff. by exists (k, v).
Qed.

Lemma dict_get_perm {V} (d d' : list (string * V)) k : Permutation d d' ->
  pairwise_distinct String.eqb (map fst d) -> dict_get String.eqb k d' = dict_get String.eqb k d.
Proof.
  intros Hp Hd.
  assert (pairwise_distinct String.eqb (map fst d')) as Hd'
    by (eapply pairwise_distinct_perm; [|exact Hd]; by apply Permutation_map).
  destruct (dict_get String.eqb k d) as [v|] eqn:E.
  - apply dict_get_In in E as (k' & Hin & ->%String.eqb_eq). apply dict_get_distinct; [done|].
    by eapply Permutation_in.
  - destruct (dict_get String.eqb k d') as [v|] eqn:E'; [|done].
    apply dict_get_In in E' as (k' & Hin & ->%String.eqb_eq).
    rewrite (dict_get_distinct d k' v) in E; [done|done|]. by eapply Permutation_in; [symmetry|].
Qed.

(** Blank text is white space throughout. *)
Lemma drop_spaces_nil l : drop_spaces l = [] <-> forallb is_space l = true.
Proof.
  induction l as [|c l IH]; simpl; [done|]. destruct (is_space c); simpl; [done|]. split; done.
Qed.

Lemma blank_spaces s : blank s = forallb is_space (list_ascii_of_string s).
Proof.
  unfold blank, strip, strip_list. set (l := list_ascii_of_string s).
  destruct (forallb is_space l) eqn:E.
  - apply drop_spaces_nil in E. by rewrite E.
  - apply String.eqb_neq. intros H. apply (f_equal list_ascii_of_string) in H.
    rewrite list_ascii_string_id in H. simpl in H.
    destruct (drop_spaces (rev (drop_spaces l))) as [|c k] eqn:Ed; [|simpl in H; by destruct (rev k)].
    apply drop_spaces_nil in Ed. rewrite forallb_forall in Ed.
    assert (drop_spaces l = []) as Hn.
    { pose proof (drop_spaces_idem l) as Hi. destruct (drop_spaces l) as [|x m]; [done|].
      simpl in Hi. rewrite (Ed x) in Hi; [|apply in_rev; rewrite rev_involutive; by left].
      exfalso. apply (f_equal (@length _)) in Hi. destruct (drop_spaces_suffix m) as [p Hp].
      apply (f_equal (@length _)) in Hp. rewrite length_app in Hp. simpl in Hi. lia. }
    apply drop_spaces_nil in Hn. congruence.
Qed.

Lemma list_ascii_app s t : list_ascii_of_string (s ++ t) = (list_ascii_of_string s ++ list_ascii_of_string t)%list.
Proof.
  induction s as [|a s IH]; [done|].
  change (a :: list_ascii_of_string (s ++ t) = a :: (list_ascii_of_string s ++ list_ascii_of_string t)%list).
  by rewrite IH.
Qed.

Lemma blank_app s t : blank (s ++ t) = blank s && blank t.
Proof. by rewrite !blank_spaces, list_ascii_app, forallb_app. Qed.

Lemma stripped_not_blank s : strip s = s -> s <> "" -> blank s = false.
Proof. intros H Hn. unfold blank. rewrite H. by apply String.eqb_neq. Qed.

Lemma app_nil_iff {A} (l k : list A) : l ++ k = [] <-> l = [] /\ k = [].
Proof. split; [apply app_eq_nil|by intros [-> ->]]. Qed.

(** The value of a computation known to return, for examples. *)
Definition ok_or {A} (d : A) (m : res A) : A := match m with Ok a => a | Raise _ => d end.

(** [for field_name in (...): if ...: raise ValueError(f"{field_name} ...")] *)
Fixpoint first_failing (l : list (string * bool)) (suffix : string) : res unit :=
  match l with
  | [] => Ok tt
  | (name, bad) :: l' => raise_if bad (ValueError (name ++ suffix));; first_failing l' suffix
  end.

Lemma first_failing_Ok l suffix u : first_failing l suffix = Ok u -> forallb (fun nb => negb nb.2) l = true.
Proof.
  induction l as [|[n b] l IH]; intros H; [done|]. cbn in H. apply bind_Ok in H as (v & Hb & H).
  apply raise_if_Ok in Hb. subst b. by apply IH.
Qed.

(** A computation that returns a [P], or stops with a signal of [decimal]. *)
Definition safely {A} (m : res A) (P : A -> Prop) : Prop :=
  match m with Ok a => P a | Raise e => is_arithmetic_error e = true end.

Lemma safely_bind {A B} (m : res A) (f : A -> res B) P Q :
  safely m P -> (forall a, P a -> safely (f a) Q) -> safely (m ≫= f) Q.
Proof. destruct m as [a|e]; cbn; auto. Qed.

Lemma safely_weaken {A} (m : res A) (P Q : A -> Prop) : safely m P -> (forall a, P a -> Q a) -> safely m Q.
Proof. destruct m; cbn; auto. Qed.

Lemma safely_Ok {A} (m : res A) P a : safely m P -> m = Ok a -> P a.
Proof. by intros H ->. Qed.

Lemma safely_guard {A} b e (f : unit -> res A) P : b = false -> safely (f tt) P -> safely (raise_if b e ≫= f) P.
Proof. by intros ->. Qed.
