(* ===== verification/PyDecimal.v ===== *)
(** Python's [decimal] module at the default context, as the code uses it:
    precision 28, ROUND_HALF_EVEN, Emax 999999, Emin -999999, with the
    InvalidOperation, DivisionByZero and Overflow traps enabled.

    [dec] is a finite number: a sign, a coefficient and an exponent.  Every
    operation is the one of the module (coefficients grow exactly, then [dfix]
    rounds to the context); the client files reason through [faithful], the
    property that a rounded result never crosses a representable number. *)
From S2P Require Import Prelude.
From Stdlib Require Import QArith Qpower Lqa.
Local Open Scope Z_scope.
Local Open Scope bool_scope.

(** ** Numbers *)

Record dec : Type := mk_dec { dneg : bool; dcoef : N; dexp : Z }.

#[export] Instance dec_eq_dec : EqDecision dec.
Proof. solve_decision. Defined.

(** A [Decimal] object before [is_finite] has been checked. *)
Inductive pydec : Type :=
| Finite (d : dec)
| Infinite (neg : bool)
| NaN.

Definition prec : Z := 28.
Definition Emax : Z := 999999.
Definition Emin : Z := -999999.
Definition Etiny : Z := Emin - prec + 1.
Definition Etop : Z := Emax - prec + 1.

(** [Decimal(n)] for a small integer literal *)
Definition dec_of_Z (z : Z) : dec := mk_dec (z <? 0) (Z.abs_N z) 0.
Definition ZERO : dec := dec_of_Z 0.
Definition ONE : dec := dec_of_Z 1.

Definition pow10 (k : Z) : N := N.pow 10 (Z.to_N k).

(** Number of decimal digits of the coefficient; zero has one. *)
Fixpoint ndigits_fuel (fuel : nat) (c : N) : Z :=
  match fuel with
  | O => 1
  | S fuel => if (c <? 10)%N then 1 else 1 + ndigits_fuel fuel (c / 10)
  end.
Definition ndigits (c : N) : Z := ndigits_fuel (N.size_nat c) c.

(** Position of the leading digit. *)
Definition adjusted (d : dec) : Z := dexp d + ndigits (dcoef d) - 1.

Definition dint (d : dec) : Z := if dneg d then - Z.of_N (dcoef d) else Z.of_N (dcoef d).

(** The numeric value. *)
Definition Qexp10 (e : Z) : Q := Qpower (10 # 1) e.
Definition dval (d : dec) : Q := (inject_Z (dint d) * Qexp10 (dexp d))%Q.

(** ** Rounding to the context *)

(** Nearest integer to [n/d], ties to even. *)
Definition round_half_even (n d : N) : N :=
  let q := (n / d)%N in
  let r := (n mod d)%N in
  if (2 * r <? d)%N then q
  else if (d <? 2 * r)%N then (q + 1)%N
  else if N.even q then q else (q + 1)%N.

(** [Decimal._fix] *)
Definition dfix (s : bool) (c : N) (e : Z) : res dec :=
  if (c =? 0)%N then Ok (mk_dec s 0 (Z.min (Z.max e Etiny) Emax))
  else
    let exp_min := ndigits c + e - prec in
    if Etop <? exp_min then Raise DecimalOverflow
    else
      let exp_min := Z.max exp_min Etiny in
      if e <? exp_min then
        let q := round_half_even c (pow10 (exp_min - e)) in
        if prec <? ndigits q then
          if Etop <? exp_min + 1 then Raise DecimalOverflow
          else Ok (mk_dec s (q / 10) (exp_min + 1))
        else Ok (mk_dec s q exp_min)
      else Ok (mk_dec s c e).

(** ** Arithmetic *)

Definition mag_at (e : Z) (d : dec) : N := (dcoef d * pow10 (dexp d - e))%N.
Definition int_at (e : Z) (d : dec) : Z :=
  if dneg d then - Z.of_N (mag_at e d) else Z.of_N (mag_at e d).

(** [a + b] *)
Definition dadd (a b : dec) : res dec :=
  let e := Z.min (dexp a) (dexp b) in
  let t := int_at e a + int_at e b in
  let s := if t =? 0 then dneg a && dneg b else t <? 0 in
  dfix s (Z.abs_N t) e.

(** [copy_negate] *)
Definition dnegate (a : dec) : dec := mk_dec (negb (dneg a)) (dcoef a) (dexp a).

(** [a - b] *)
Definition dsub (a b : dec) : res dec := dadd a (dnegate b).

(** [a * b] *)
Definition dmul (a b : dec) : res dec :=
  dfix (xorb (dneg a) (dneg b)) (dcoef a * dcoef b) (dexp a + dexp b).

(** [abs(a)] rounds to the context; so does unary minus. *)
Definition dabs (a : dec) : res dec := dfix false (dcoef a) (dexp a).
Definition dneg_op (a : dec) : res dec :=
  dfix (if (dcoef a =? 0)%N then false else negb (dneg a)) (dcoef a) (dexp a).

(** Trailing zeros are removed while the exponent is below the ideal one. *)
Fixpoint strip_zeros (fuel : nat) (c : N) (e ideal : Z) : N * Z :=
  match fuel with
  | O => (c, e)
  | S fuel =>
      if (e <? ideal) && (c mod 10 =? 0)%N
      then strip_zeros fuel (c / 10) (e + 1) ideal else (c, e)
  end.

(** [a / b] *)
Definition ddiv (a b : dec) : res dec :=
  let s := xorb (dneg a) (dneg b) in
  if (dcoef b =? 0)%N then
    if (dcoef a =? 0)%N then Raise DecimalInvalidOperation
    else Raise DecimalDivisionByZero
  else if (dcoef a =? 0)%N then dfix s 0 (dexp a - dexp b)
  else
    let shift := ndigits (dcoef b) - ndigits (dcoef a) + prec + 1 in
    let e := dexp a - dexp b - shift in
    let num := (dcoef a * pow10 shift)%N in
    let den := (dcoef b * pow10 (- shift))%N in
    let q := (num / den)%N in
    if (num mod den =? 0)%N then
      let '(c, e') := strip_zeros (Z.to_nat (dexp a - dexp b - e)) q e (dexp a - dexp b) in
      dfix s c e'
    else dfix s (if (q mod 5 =? 0)%N then (q + 1)%N else q) e.

(** [a % b]: the sign of the dividend, exact remainder of the truncated
    quotient, refused when the quotient needs more than [prec] digits. *)
Definition dmod (a b : dec) : res dec :=
  if (dcoef b =? 0)%N then Raise DecimalInvalidOperation
  else
    let ideal := Z.min (dexp a) (dexp b) in
    if (dcoef a =? 0)%N || (adjusted a - adjusted b <=? -2) then
      dfix (dneg a) (mag_at ideal a) ideal
    else if prec <? adjusted a - adjusted b then Raise DecimalInvalidOperation
    else
      let q := (mag_at ideal a / mag_at ideal b)%N in
      if (q <? pow10 prec)%N then dfix (dneg a) (mag_at ideal a mod mag_at ideal b) ideal
      else Raise DecimalInvalidOperation.

(** [d.to_integral_value(rounding=ROUND_DOWN)] *)
Definition to_integral_down (d : dec) : dec :=
  if 0 <=? dexp d then d else mk_dec (dneg d) (dcoef d / pow10 (- dexp d)) 0.

(** ** Comparison *)

Definition dsgn (d : dec) : Z := Z.sgn (dint d).

(** [Decimal._cmp]: signs first, then the position of the leading digit,
    then the aligned coefficients. *)
Definition dcompare (a b : dec) : comparison :=
  if (dsgn a =? 0) || (dsgn b =? 0) || negb (dsgn a =? dsgn b)
  then (dsgn a ?= dsgn b)
  else if adjusted a =? adjusted b then
    let e := Z.min (dexp a) (dexp b) in int_at e a ?= int_at e b
  else if 0 <? dsgn a then (adjusted a ?= adjusted b)
  else (adjusted b ?= adjusted a).

Definition dltb (a b : dec) : bool := match dcompare a b with Lt => true | _ => false end.
Definition dleb (a b : dec) : bool := match dcompare a b with Gt => false | _ => true end.
Definition deqb (a b : dec) : bool := match dcompare a b with Eq => true | _ => false end.
Definition is_zero (d : dec) : bool := (dcoef d =? 0)%N.

(** [max(a, b)] and [min(a, b)] of the builtins: the first of equal values. *)
Definition dmax (a b : dec) : dec := if dltb a b then b else a.
Definition dmin (a b : dec) : dec := if dltb b a then b else a.

(** [min(...)] over a non-empty argument list *)
Definition dmin_list (d : dec) (l : list dec) : dec := fold_left dmin l d.

(** [sum(l)], which starts from the integer 0 *)
Fixpoint dsum_from (acc : dec) (l : list dec) : res dec :=
  match l with
  | [] => Ok acc
  | d :: l' => acc' ← dadd acc d; dsum_from acc' l'
  end.
Definition dsum (l : list dec) : res dec := dsum_from ZERO l.

(** Decimal literals of the source: [lit c e] is [c * 10^e]. *)
Definition lit (c : Z) (e : Z) : dec := mk_dec (c <? 0) (Z.abs_N c) e.

Declare Scope dec_scope.
Delimit Scope dec_scope with D.
Infix "<?" := dltb : dec_scope.
Infix "<=?" := dleb : dec_scope.
Infix "=?" := deqb : dec_scope.
