(* ===== verification/DecimalFacts.v ===== *)
(** Facts about the [decimal] model: digit counts, the numeric value of a
    number, correctness of the comparison, and the rounding property
    [faithful] that every arithmetic operation satisfies. *)
From S2P Require Import Prelude PyDecimal.
From Stdlib Require Import QArith Qpower Qabs Lqa.
Local Open Scope Z_scope.

(** ** Powers of ten *)

Lemma pow10_spec k : 0 <= k -> Z.of_N (pow10 k) = 10 ^ k.
Proof.
  intros. unfold pow10. rewrite N2Z.inj_pow, Z2N.id by lia. reflexivity.
Qed.

Lemma pow10_pos k : (0 < pow10 k)%N.
Proof. unfold pow10. assert (10 ^ Z.to_N k <> 0)%N by (apply N.pow_nonzero; lia). lia. Qed.

Lemma pow10_nonpos k : k <= 0 -> pow10 k = 1%N.
Proof. intros. unfold pow10. by replace (Z.to_N k) with 0%N by lia. Qed.

Lemma Qexp10_pos e : (0 < Qexp10 e)%Q.
Proof. apply Qpower_0_lt. reflexivity. Qed.

Lemma Qexp10_plus a b : (Qexp10 (a + b) == Qexp10 a * Qexp10 b)%Q.
Proof. apply Qpower_plus. discriminate. Qed.

Lemma Qexp10_Z k : 0 <= k -> (Qexp10 k == inject_Z (10 ^ k))%Q.
Proof. intros. unfold Qexp10. rewrite <- (Zpower_Qpower 10 k) by lia. reflexivity. Qed.

Lemma Qexp10_split e k : e <= k -> (Qexp10 k == inject_Z (10 ^ (k - e)) * Qexp10 e)%Q.
Proof.
  intros. rewrite <- Qexp10_Z by lia. rewrite <- Qexp10_plus.
  replace (k - e + e) with k by lia. reflexivity.
Qed.

Lemma Qexp10_le a b : a <= b -> (Qexp10 a <= Qexp10 b)%Q.
Proof.
  intros. rewrite (Qexp10_split a b) by done.
  rewrite <- (Qmult_1_l (Qexp10 a)) at 1.
  apply Qmult_le_compat_r; [|apply Qlt_le_weak, Qexp10_pos].
  change 1%Q with (inject_Z 1). rewrite <- Zle_Qle. pose proof (Z.pow_pos_nonneg 10 (b - a)). lia.
Qed.

(** The magnitude [c * 10^e]. *)
Definition mag (c : N) (e : Z) : Q := (inject_Z (Z.of_N c) * Qexp10 e)%Q.

Lemma mag_nonneg c e : (0 <= mag c e)%Q.
Proof.
  unfold mag. apply Qmult_le_0_compat; [|apply Qlt_le_weak, Qexp10_pos].
  change 0%Q with (inject_Z 0). rewrite <- Zle_Qle. lia.
Qed.

Lemma mag_le_iff a b e : (mag a e <= mag b e)%Q <-> (a <= b)%N.
Proof.
  unfold mag. rewrite Qmult_le_r by apply Qexp10_pos. rewrite <- Zle_Qle. lia.
Qed.

Lemma mag_lt_iff a b e : (mag a e < mag b e)%Q <-> (a < b)%N.
Proof.
  unfold mag. rewrite Qmult_lt_r by apply Qexp10_pos. rewrite <- Zlt_Qlt. lia.
Qed.

(** Lowering the exponent multiplies the coefficient. *)
Lemma mag_shift c e e' : e' <= e -> (mag c e == mag (c * pow10 (e - e')) e')%Q.
Proof.
  intros. unfold mag. rewrite N2Z.inj_mul, pow10_spec, inject_Z_mult by lia.
  rewrite (Qexp10_split e' e) by done. ring.
Qed.

Lemma mag_pow10 k e : 0 <= k -> (mag (pow10 k) e == Qexp10 (k + e))%Q.
Proof.
  intros. unfold mag. rewrite pow10_spec, <- Qexp10_Z, <- Qexp10_plus by done. reflexivity.
Qed.

Lemma mag_zero e : (mag 0 e == 0)%Q.
Proof. unfold mag. simpl. ring. Qed.

(** ** Digit counts *)

Lemma ndigits_fuel_spec fuel c :
  (c < 2 ^ N.of_nat fuel)%N -> (0 < c)%N ->
  1 <= ndigits_fuel fuel c /\
  10 ^ (ndigits_fuel fuel c - 1) <= Z.of_N c < 10 ^ ndigits_fuel fuel c.
Proof.
  revert c. induction fuel as [|fuel IH]; intros c Hc Hpos.
  - simpl in Hc. lia.
  - cbn [ndigits_fuel]. destruct (N.ltb_spec c 10) as [H|H].
    + change (10 ^ (1 - 1)) with 1. change (10 ^ 1) with 10. lia.
    + destruct (IH (c / 10)%N) as (H1 & H2 & H3).
      * rewrite Nat2N.inj_succ, N.pow_succ_r' in Hc.
        apply N.Div0.div_lt_upper_bound. lia.
      * apply N.div_str_pos. lia.
      * set (k := ndigits_fuel fuel (c / 10)) in *. split; [lia|].
        replace (1 + k - 1) with (k - 1 + 1) by lia.
        rewrite Z.pow_add_r by lia. replace (1 + k) with (k + 1) by lia.
        rewrite Z.pow_add_r by lia. change (10 ^ 1) with 10.
        rewrite N2Z.inj_div in H2, H3. change (Z.of_N 10) with 10 in *.
        pose proof (Z.div_mod (Z.of_N c) 10). pose proof (Z.mod_pos_bound (Z.of_N c) 10).
        lia.
Qed.

Lemma size_nat_gt c : (c < 2 ^ N.of_nat (N.size_nat c))%N.
Proof.
  destruct c as [|p]; [reflexivity|]. simpl N.size_nat.
  assert (Z.pos p < 2 ^ Z.of_nat (Pos.size_nat p)) as H.
  { induction p as [p IH|p IH|]; simpl Pos.size_nat;
      rewrite ?Nat2Z.inj_succ, ?Z.pow_succ_r by lia; lia. }
  apply N2Z.inj_lt. rewrite N2Z.inj_pow, nat_N_Z. exact H.
Qed.

Lemma ndigits_spec c : (0 < c)%N ->
  1 <= ndigits c /\ 10 ^ (ndigits c - 1) <= Z.of_N c < 10 ^ ndigits c.
Proof. intros. apply ndigits_fuel_spec; [apply size_nat_gt | done]. Qed.

Lemma ndigits_pos c : 1 <= ndigits c.
Proof.
  destruct (N.eq_0_gt_0_cases c) as [->|H]; [done|]. by apply ndigits_spec.
Qed.

Lemma ndigits_lt c : Z.of_N c < 10 ^ ndigits c.
Proof.
  destruct (N.eq_0_gt_0_cases c) as [->|H]; [done|]. by apply ndigits_spec.
Qed.

(** A coefficient below [10^k] has at most [k] digits, and conversely. *)
Lemma ndigits_le_iff c k : 1 <= k -> ndigits c <= k <-> Z.of_N c < 10 ^ k.
Proof.
  intros Hk. split; intros H.
  - eapply Z.lt_le_trans; [apply ndigits_lt|]. apply Z.pow_le_mono_r; lia.
  - destruct (N.eq_0_gt_0_cases c) as [->|Hc]; [done|].
    destruct (ndigits_spec c Hc) as (H1 & H2 & H3).
    destruct (Z.le_gt_cases (ndigits c) k) as [|Hgt]; [done|].
    assert (10 ^ k <= 10 ^ (ndigits c - 1)) by (apply Z.pow_le_mono_r; lia). lia.
Qed.

Lemma mag_bounds c e : (0 < c)%N ->
  (Qexp10 (ndigits c - 1 + e) <= mag c e)%Q /\ (mag c e < Qexp10 (ndigits c + e))%Q.
Proof.
  intros Hc. destruct (ndigits_spec c Hc) as (H1 & H2 & H3).
  rewrite <- !mag_pow10 by lia. rewrite mag_le_iff, mag_lt_iff.
  split; apply N2Z.inj_le || apply N2Z.inj_lt; rewrite pow10_spec; lia.
Qed.

(** ** Rounding *)

Lemma round_half_even_le n d m : (0 < d)%N -> (n <= m * d)%N -> (round_half_even n d <= m)%N.
Proof.
  intros Hd H. unfold round_half_even.
  pose proof (N.div_mod n d ltac:(lia)) as E. pose proof (N.mod_lt n d ltac:(lia)) as L.
  assert (n / d <= m)%N as Hq by (apply N.Div0.div_le_upper_bound; lia).
  assert (2 * (n mod d) < d \/ n / d < m)%N as Hs.
  { destruct (N.lt_ge_cases (n / d) m) as [|Hm]; [by right|]. left.
    assert (n / d = m)%N as Hnm by lia. rewrite Hnm in E. nia. }
  destruct (N.ltb_spec (2 * (n mod d)) d); [done|].
  destruct (N.ltb_spec d (2 * (n mod d))); [lia|]. destruct (N.even _); lia.
Qed.

Lemma round_half_even_ge n d m : (0 < d)%N -> (m * d <= n)%N -> (m <= round_half_even n d)%N.
Proof.
  intros Hd H. assert (m <= n / d)%N as Hq by (apply N.div_le_lower_bound; lia).
  unfold round_half_even.
  destruct (_ <? _)%N; [done|]. destruct (_ <? _)%N; [lia|]. destruct (N.even _); lia.
Qed.

Lemma round_half_even_exact m d : (0 < d)%N -> round_half_even (m * d) d = m.
Proof.
  intros. apply N.le_antisymm;
    [apply round_half_even_le | apply round_half_even_ge]; lia.
Qed.

(** Numbers the context can hold: at most [prec] digits, exponent at least
    [Etiny]. *)
Definition repr (d : dec) : Prop := ndigits (dcoef d) <= prec /\ Etiny <= dexp d.

(** Coefficient-exponent pairs of representable magnitudes. *)
Definition mrepr (c : N) (e : Z) : Prop := ndigits c <= prec /\ Etiny <= e.

(** What [dfix] returns when it does not overflow: the sign is kept, the
    result is representable, and the magnitude crosses no representable one. *)
Record fixed (c : N) (e : Z) (c' : N) (e' : Z) : Prop := mk_fixed {
  fixed_repr : mrepr c' e';
  fixed_upper : forall cy ey, mrepr cy ey -> (mag c e <= mag cy ey)%Q ->
                              (mag c' e' <= mag cy ey)%Q;
  fixed_lower : forall cy ey, mrepr cy ey -> (mag cy ey <= mag c e)%Q ->
                              (mag cy ey <= mag c' e')%Q
}.

(** Two magnitudes with a common lower exponent are compared as integers. *)
Lemma mag_aligned_le c e cy ey : e <= ey ->
  (mag c e <= mag cy ey)%Q <-> (c <= cy * pow10 (ey - e))%N.
Proof. intros. rewrite (mag_shift cy ey e) by done. by rewrite mag_le_iff. Qed.

Lemma mag_aligned_ge c e cy ey : e <= ey ->
  (mag cy ey <= mag c e)%Q <-> (cy * pow10 (ey - e) <= c)%N.
Proof. intros. rewrite (mag_shift cy ey e) by done. by rewrite mag_le_iff. Qed.

Lemma pow10_add a b : 0 <= a -> 0 <= b -> pow10 (a + b) = (pow10 a * pow10 b)%N.
Proof.
  intros. apply N2Z.inj. rewrite N2Z.inj_mul, !pow10_spec by lia. by apply Z.pow_add_r.
Qed.

(** Dropping [k] digits of a coefficient that keeps all its leading digits
    at or above the precision crosses no representable magnitude. *)
Lemma round_drop_faithful c e E :
  (0 < c)%N -> e < E -> Z.max (ndigits c + e - prec) Etiny = E ->
  let q := round_half_even c (pow10 (E - e)) in
  (forall cy ey, mrepr cy ey -> (mag c e <= mag cy ey)%Q -> (mag q E <= mag cy ey)%Q) /\
  (forall cy ey, mrepr cy ey -> (mag cy ey <= mag c e)%Q -> (mag cy ey <= mag q E)%Q).
Proof.
  intros Hc HeE HE q.
  assert (0 < pow10 (E - e))%N as Hd by apply pow10_pos.
  (* a representable number below the quantum is below the whole binade *)
  assert (forall cy ey, mrepr cy ey -> ey < E ->
          (mag cy ey < Qexp10 (prec - 1 + E))%Q /\ (Qexp10 (prec - 1 + E) <= mag c e)%Q) as Hsmall.
  { intros cy ey [Hy1 Hy2] Hey. assert (E = ndigits c + e - prec) as -> by lia.
    replace (prec - 1 + (ndigits c + e - prec)) with (ndigits c - 1 + e) by lia.
    destruct (mag_bounds c e Hc) as [Hb _]. split; [|done].
    destruct (N.eq_0_gt_0_cases cy) as [->|Hcy].
    - rewrite mag_zero. apply Qexp10_pos.
    - destruct (mag_bounds cy ey Hcy) as [_ Hb'].
      eapply Qlt_le_trans; [apply Hb'|]. apply Qexp10_le. lia. }
  split; intros cy ey Hy Hle; (destruct (Z.le_gt_cases E ey) as [Hey|Hey];
    [|destruct (Hsmall cy ey Hy Hey) as [H1 H2]]).
  - rewrite mag_aligned_le in Hle |- * by lia.
    apply round_half_even_le; [done|].
    replace (ey - e) with ((ey - E) + (E - e)) in Hle by lia.
    rewrite pow10_add in Hle by lia. lia.
  - exfalso. lra.
  - rewrite mag_aligned_ge in Hle |- * by lia.
    apply round_half_even_ge; [done|].
    replace (ey - e) with ((ey - E) + (E - e)) in Hle by lia.
    rewrite pow10_add in Hle by lia. lia.
  - apply Qlt_le_weak in H1. eapply Qle_trans; [apply H1|].
    rewrite <- mag_pow10 in H2 |- * by (unfold prec; lia).
    rewrite mag_le_iff. rewrite mag_aligned_ge in H2 by lia.
    by apply round_half_even_ge.
Qed.

Lemma round_drop_digits c e E :
  (0 < c)%N -> e < E -> Z.max (ndigits c + e - prec) Etiny = E ->
  (round_half_even c (pow10 (E - e)) <= pow10 prec)%N.
Proof.
  intros Hc HeE HE. apply round_half_even_le; [apply pow10_pos|].
  rewrite <- pow10_add by (unfold prec; lia). apply N2Z.inj_le.
  rewrite pow10_spec by (unfold prec; lia).
  apply Z.lt_le_incl. eapply Z.lt_le_trans; [apply ndigits_lt|].
  apply Z.pow_le_mono_r; unfold prec in *; lia.
Qed.

(** The carry: a coefficient of [prec + 1] digits after rounding is [10^prec]. *)
Lemma carry_value q E : (q <= pow10 prec)%N -> prec < ndigits q ->
  q = pow10 prec /\ (mag (q / 10) (E + 1) == mag q E)%Q /\ ndigits (q / 10) <= prec.
Proof.
  intros Hq Hn. assert (q = pow10 prec) as Hqe.
  { apply N.le_antisymm; [done|]. apply N2Z.inj_le. rewrite pow10_spec by done.
    destruct (Z.le_gt_cases (10 ^ prec) (Z.of_N q)) as [|Hlt]; [done|].
    apply (ndigits_le_iff q prec) in Hlt; [lia|done]. }
  split; [done|]. rewrite Hqe. split; [|by vm_compute].
  change (pow10 prec / 10)%N with (pow10 (prec - 1)). rewrite !mag_pow10 by done.
  replace (prec - 1 + (E + 1)) with (prec + E) by lia. reflexivity.
Qed.

Theorem dfix_fixed s c e r :
  dfix s c e = Ok r -> dneg r = s /\ fixed c e (dcoef r) (dexp r).
Proof.
  unfold dfix. destruct (N.eqb_spec c 0) as [->|Hc].
  { intros [= <-]. simpl. split; [done|]. split.
    - split; [done|]. simpl. unfold Etiny, Emax, Emin, prec. lia.
    - intros. rewrite mag_zero. apply mag_nonneg.
    - intros cy ey _. by rewrite !mag_zero. }
  assert (0 < c)%N as Hpos by lia.
  destruct (Z.ltb_spec Etop (ndigits c + e - prec)) as [|Htop]; [discriminate|].
  set (E := Z.max (ndigits c + e - prec) Etiny).
  destruct (Z.ltb_spec e E) as [HeE|HeE].
  - pose proof (round_drop_digits c e E Hpos HeE eq_refl) as Hdig.
    destruct (round_drop_faithful c e E Hpos HeE eq_refl) as [Hup Hlo].
    set (q := round_half_even c (pow10 (E - e))) in *.
    destruct (Z.ltb_spec prec (ndigits q)) as [Hn|Hn].
    + destruct (carry_value q E Hdig Hn) as (Hq & Hmag & Hd).
      destruct (Z.ltb_spec Etop (E + 1)); [discriminate|]. intros [= <-]. simpl.
      split; [done|]. split.
      * split; simpl; [done | unfold E; lia].
      * intros cy ey Hy Hle. rewrite Hmag. by apply Hup.
      * intros cy ey Hy Hle. rewrite Hmag. by apply Hlo.
    + intros [= <-]. simpl. split; [done|]. split; [|done|done].
      split; simpl; [done | unfold E; lia].
  - intros [= <-]. simpl. split; [done|]. split; [|by auto|by auto].
    split; simpl; unfold E in *; lia.
Qed.

(** No rounding takes place on a number the context can hold. *)
Theorem dfix_exact s c e :
  (c <> 0)%N -> ndigits c <= prec -> Etiny <= e -> ndigits c + e - prec <= Etop ->
  dfix s c e = Ok (mk_dec s c e).
Proof.
  intros Hc Hn He Htop. unfold dfix.
  destruct (N.eqb_spec c 0); [done|].
  destruct (Z.ltb_spec Etop (ndigits c + e - prec)); [lia|].
  destruct (Z.ltb_spec e (Z.max (ndigits c + e - prec) Etiny)); [lia|done].
Qed.

(** Rounding fails only on overflow, and not within the exponent range. *)
Lemma dfix_total s c e :
  ndigits c + e - prec < Etop -> exists r, dfix s c e = Ok r.
Proof.
  intros H. unfold dfix. destruct (c =? 0)%N; [eauto|].
  destruct (Z.ltb_spec Etop (ndigits c + e - prec)); [lia|].
  destruct (_ <? _); [|eauto]. destruct (_ <? _); [|eauto].
  destruct (Z.ltb_spec Etop (Z.max (ndigits c + e - prec) Etiny + 1)) as [Ht|]; [|eauto].
  exfalso. unfold Etop, Etiny, Emax, Emin, prec in *. lia.
Qed.

Lemma dfix_raise s c e x : dfix s c e = Raise x -> x = DecimalOverflow.
Proof. unfold dfix. repeat case_match; intros; simplify_eq; done. Qed.

(** ** Values *)

Lemma dval_mag d :
  (dval d == (if dneg d then - mag (dcoef d) (dexp d) else mag (dcoef d) (dexp d)))%Q.
Proof.
  unfold dval, mag, dint. destruct (dneg d); [|reflexivity].
  rewrite inject_Z_opp. ring.
Qed.

Lemma dval_nonneg d : dneg d = false -> (0 <= dval d)%Q.
Proof. intros H. rewrite dval_mag, H. apply mag_nonneg. Qed.

Lemma dval_nonpos d : dneg d = true -> (dval d <= 0)%Q.
Proof. intros H. rewrite dval_mag, H. pose proof (mag_nonneg (dcoef d) (dexp d)). lra. Qed.

Lemma dval_int_at e d : e <= dexp d -> (dval d == inject_Z (int_at e d) * Qexp10 e)%Q.
Proof.
  intros. pose proof (dval_mag d) as E. pose proof (mag_shift (dcoef d) (dexp d) e H) as E'.
  unfold int_at, mag_at. destruct (dneg d); rewrite E, E'; unfold mag; [|reflexivity].
  rewrite inject_Z_opp. ring.
Qed.

Lemma scaled_compare a b e : (inject_Z a * Qexp10 e ?= inject_Z b * Qexp10 e)%Q = (a ?= b).
Proof.
  pose proof (Qexp10_pos e).
  destruct (Z.compare_spec a b) as [->|Hlt|Hlt].
  - apply Qeq_alt. reflexivity.
  - apply (proj1 (Qlt_alt _ _)). apply Qmult_lt_r; [done|]. by rewrite <- Zlt_Qlt.
  - apply (proj1 (Qgt_alt _ _)). apply Qmult_lt_r; [done|]. by rewrite <- Zlt_Qlt.
Qed.

Lemma dval_zero d : dcoef d = 0%N -> (dval d == 0)%Q.
Proof.
  intros H. pose proof (dval_mag d) as E. rewrite H in E.
  destruct (dneg d); rewrite E, mag_zero; ring.
Qed.

(** The sign of the value is the sign of the signed coefficient. *)
Inductive sign_view (d : dec) : Z -> Prop :=
| sign_pos : (0 < dval d)%Q -> dneg d = false -> (0 < dcoef d)%N -> sign_view d 1
| sign_neg : (dval d < 0)%Q -> dneg d = true -> (0 < dcoef d)%N -> sign_view d (-1)
| sign_zero : (dval d == 0)%Q -> dcoef d = 0%N -> sign_view d 0.

Lemma dsgn_view d : sign_view d (dsgn d).
Proof.
  unfold dsgn, dint.
  destruct (N.eq_0_gt_0_cases (dcoef d)) as [Hz|Hp].
  - rewrite Hz. replace (Z.sgn _) with 0 by (by destruct (dneg d)).
    constructor; [by apply dval_zero|done].
  - pose proof (dval_mag d) as E. destruct (mag_bounds _ (dexp d) Hp) as [Hm _].
    pose proof (Qexp10_pos (ndigits (dcoef d) - 1 + dexp d)).
    destruct (dneg d) eqn:Hs.
    + rewrite Z.sgn_neg by lia. constructor; [lra|done|done].
    + rewrite Z.sgn_pos by lia. constructor; [lra|done|done].
Qed.

Lemma same_sign_adjusted a b :
  (0 < dcoef a)%N -> (0 < dcoef b)%N -> adjusted a < adjusted b ->
  (mag (dcoef a) (dexp a) < mag (dcoef b) (dexp b))%Q.
Proof.
  intros Ha Hb H. destruct (mag_bounds _ (dexp a) Ha) as [_ H1].
  destruct (mag_bounds _ (dexp b) Hb) as [H2 _].
  eapply Qlt_le_trans; [apply H1|]. eapply Qle_trans; [|apply H2].
  apply Qexp10_le. unfold adjusted in H. lia.
Qed.

Ltac q_compare := symmetry; first
  [ apply (proj1 (Qlt_alt _ _)); lra | apply (proj1 (Qgt_alt _ _)); lra
  | apply (proj1 (Qeq_alt _ _)); lra ].

(** The comparison the code performs is the comparison of the values. *)
Theorem dcompare_spec a b : dcompare a b = (dval a ?= dval b)%Q.
Proof.
  unfold dcompare.
  destruct (dsgn_view a) as [Va Sa Ca|Va Sa Ca|Va Ca];
  destruct (dsgn_view b) as [Vb Sb Cb|Vb Sb Cb|Vb Cb]; cbn -[Qcompare]; try q_compare.
  all: pose proof (dval_mag a) as Ea; pose proof (dval_mag b) as Eb;
    rewrite Sa in Ea; rewrite Sb in Eb.
  all: destruct (Z.eqb_spec (adjusted a) (adjusted b)) as [H|H];
    [rewrite (dval_int_at (Z.min (dexp a) (dexp b)) a),
             (dval_int_at (Z.min (dexp a) (dexp b)) b) by lia;
     by rewrite scaled_compare|].
  all: destruct (Z.lt_total (adjusted a) (adjusted b)) as [L|[L|L]]; [|done|].
  all: pose proof L as L'; apply same_sign_adjusted in L'; [|done|done].
  all: first [apply Z.compare_lt_iff in L as -> | idtac].
  all: rewrite ?(proj2 (Z.compare_gt_iff _ _) L); q_compare.
Qed.

Lemma dltb_spec a b : dltb a b = true <-> (dval a < dval b)%Q.
Proof. unfold dltb. rewrite dcompare_spec, Qlt_alt. by destruct (_ ?= _)%Q. Qed.

Lemma dleb_spec a b : dleb a b = true <-> (dval a <= dval b)%Q.
Proof. unfold dleb. rewrite dcompare_spec, Qle_alt. destruct (_ ?= _)%Q; naive_solver. Qed.

Lemma deqb_spec a b : deqb a b = true <-> (dval a == dval b)%Q.
Proof. unfold deqb. rewrite dcompare_spec, Qeq_alt. by destruct (_ ?= _)%Q. Qed.

Lemma dltb_false a b : dltb a b = false <-> (dval b <= dval a)%Q.
Proof.
  rewrite <- not_true_iff_false, dltb_spec. split; [apply Qnot_lt_le | apply Qle_not_lt].
Qed.

Lemma dleb_false a b : dleb a b = false <-> (dval b < dval a)%Q.
Proof.
  rewrite <- not_true_iff_false, dleb_spec. split; [apply Qnot_le_lt | apply Qlt_not_le].
Qed.

Lemma deqb_false a b : deqb a b = false <-> ~ (dval a == dval b)%Q.
Proof. by rewrite <- not_true_iff_false, deqb_spec. Qed.

Lemma deqb_refl a : deqb a a = true.
Proof. apply deqb_spec. reflexivity. Qed.

Lemma deqb_sym a b : deqb a b = deqb b a.
Proof.
  apply eq_bool_prop_intro. rewrite !Is_true_true, !deqb_spec. split; intros ->; reflexivity.
Qed.

Lemma deqb_trans a b c : deqb a b = true -> deqb b c = true -> deqb a c = true.
Proof. rewrite !deqb_spec. intros -> ->. reflexivity. Qed.

(** [zify_dec] turns the boolean comparisons in the context into statements
    about values, ready for [lra]. *)
Ltac zify_dec :=
  repeat match goal with
  | H : dltb _ _ = true |- _ => apply dltb_spec in H
  | H : dltb _ _ = false |- _ => apply dltb_false in H
  | H : dleb _ _ = true |- _ => apply dleb_spec in H
  | H : dleb _ _ = false |- _ => apply dleb_false in H
  | H : deqb _ _ = true |- _ => apply deqb_spec in H
  | H : deqb _ _ = false |- _ => apply deqb_false in H
  end.

Lemma dval_ZERO : (dval ZERO == 0)%Q.
Proof. reflexivity. Qed.
Lemma dval_ONE : (dval ONE == 1)%Q.
Proof. reflexivity. Qed.
Lemma dval_negate a : (dval (dnegate a) == - dval a)%Q.
Proof.
  unfold dval, dint, dnegate. simpl. destruct (dneg a); simpl;
    rewrite ?inject_Z_opp; ring.
Qed.

Lemma dmax_spec a b : (dval a <= dval (dmax a b))%Q /\ (dval b <= dval (dmax a b))%Q /\
  (dmax a b = a \/ dmax a b = b).
Proof.
  unfold dmax. destruct (dltb a b) eqn:E; zify_dec; (repeat split; [..|auto]); lra.
Qed.

Lemma dmin_spec a b : (dval (dmin a b) <= dval a)%Q /\ (dval (dmin a b) <= dval b)%Q /\
  (dmin a b = a \/ dmin a b = b).
Proof.
  unfold dmin. destruct (dltb b a) eqn:E; zify_dec; (repeat split; [..|auto]); lra.
Qed.

(** ** Faithful results *)

(** [r] is [x] rounded to the context: representable, and no representable
    number lies between them. *)
Record faithful (x : Q) (r : dec) : Prop := mk_faithful {
  faithful_repr : repr r;
  faithful_le : forall y, repr y -> (x <= dval y)%Q -> (dval r <= dval y)%Q;
  faithful_ge : forall y, repr y -> (dval y <= x)%Q -> (dval y <= dval r)%Q
}.

Lemma faithful_exact x r y : faithful x r -> repr y -> (dval y == x)%Q -> (dval r == x)%Q.
Proof.
  intros [_ Hle Hge] Hy E. specialize (Hle y Hy). specialize (Hge y Hy).
  apply Qle_antisym; rewrite <- E; [apply Hle | apply Hge]; rewrite E; apply Qle_refl.
Qed.

Lemma repr_ZERO : repr ZERO.
Proof. split; vm_compute; discriminate. Qed.
Lemma repr_ONE : repr ONE.
Proof. split; vm_compute; discriminate. Qed.

Lemma faithful_nonneg x r : faithful x r -> (0 <= x)%Q -> (0 <= dval r)%Q.
Proof. intros H Hx. rewrite <- dval_ZERO. apply (faithful_ge _ _ H); [apply repr_ZERO|]. by rewrite dval_ZERO. Qed.

Lemma faithful_nonpos x r : faithful x r -> (x <= 0)%Q -> (dval r <= 0)%Q.
Proof. intros H Hx. rewrite <- dval_ZERO. apply (faithful_le _ _ H); [apply repr_ZERO|]. by rewrite dval_ZERO. Qed.

Lemma faithful_proper x y r : (x == y)%Q -> faithful x r -> faithful y r.
Proof. intros E [H1 H2 H3]. split; [done|..]; intros z Hz; rewrite <- E; by auto. Qed.

Lemma repr_mrepr d : repr d <-> mrepr (dcoef d) (dexp d).
Proof. done. Qed.

Lemma fixed_faithful s c e r :
  dneg r = s -> fixed c e (dcoef r) (dexp r) ->
  faithful (if s then - mag c e else mag c e)%Q r.
Proof.
  intros Hs [Hr Hup Hlo]. pose proof (mag_nonneg c e) as Hn.
  pose proof (mag_nonneg (dcoef r) (dexp r)) as Hn'.
  pose proof (dval_mag r) as Er. rewrite Hs in Er.
  split; [done|..]; intros y Hy Hle;
    pose proof (dval_mag y) as Ey; pose proof (mag_nonneg (dcoef y) (dexp y));
    specialize (Hup (dcoef y) (dexp y) Hy); specialize (Hlo (dcoef y) (dexp y) Hy);
    destruct s, (dneg y); lra || (
    assert (mag c e <= mag (dcoef y) (dexp y))%Q as Hx by lra; specialize (Hup Hx); lra) || (
    assert (mag (dcoef y) (dexp y) <= mag c e)%Q as Hx by lra; specialize (Hlo Hx); lra).
Qed.

Lemma dfix_faithful s c e r x :
  dfix s c e = Ok r -> (x == if s then - mag c e else mag c e)%Q -> faithful x r.
Proof.
  intros H E. apply dfix_fixed in H as [Hs Hf].
  eapply faithful_proper; [symmetry; apply E|]. by apply fixed_faithful.
Qed.

(** ** Correctness of the operations *)

Lemma signed_mag t s e : (s = if t =? 0 then s else t <? 0) ->
  (inject_Z t * Qexp10 e == if s then - mag (Z.abs_N t) e else mag (Z.abs_N t) e)%Q.
Proof.
  intros Hs. unfold mag. rewrite N2Z.inj_abs_N.
  destruct (Z.eqb_spec t 0) as [->|Ht].
  { change (Z.abs 0) with 0. change (inject_Z 0) with 0%Q. destruct s; ring. }
  destruct (Z.ltb_spec t 0); rewrite Hs.
  - rewrite Z.abs_neq, inject_Z_opp by lia. ring.
  - rewrite Z.abs_eq by lia. ring.
Qed.

Lemma dadd_value a b e : e <= dexp a -> e <= dexp b ->
  (dval a + dval b == inject_Z (int_at e a + int_at e b) * Qexp10 e)%Q.
Proof.
  intros. rewrite (dval_int_at e a), (dval_int_at e b) by done.
  rewrite inject_Z_plus. ring.
Qed.

Theorem dadd_faithful a b r : dadd a b = Ok r -> faithful (dval a + dval b) r.
Proof.
  unfold dadd. intros H. eapply dfix_faithful; [apply H|].
  rewrite (dadd_value a b (Z.min (dexp a) (dexp b))) by lia.
  apply signed_mag. by destruct (_ =? 0).
Qed.

Theorem dsub_faithful a b r : dsub a b = Ok r -> faithful (dval a - dval b) r.
Proof.
  intros H. apply dadd_faithful in H. eapply faithful_proper; [|apply H].
  rewrite dval_negate. ring.
Qed.

Lemma mag_mul c1 c2 e1 e2 : (mag (c1 * c2) (e1 + e2) == mag c1 e1 * mag c2 e2)%Q.
Proof. unfold mag. rewrite N2Z.inj_mul, inject_Z_mult, Qexp10_plus. ring. Qed.

Theorem dmul_faithful a b r : dmul a b = Ok r -> faithful (dval a * dval b) r.
Proof.
  unfold dmul. intros H. eapply dfix_faithful; [apply H|].
  pose proof (dval_mag a) as Ea. pose proof (dval_mag b) as Eb.
  pose proof (mag_mul (dcoef a) (dcoef b) (dexp a) (dexp b)) as E.
  destruct (dneg a), (dneg b); simpl; rewrite Ea, Eb, E; ring.
Qed.

(** The loop that removes trailing zeros keeps the value. *)
Lemma strip_zeros_value fuel c e ideal c' e' :
  strip_zeros fuel c e ideal = (c', e') -> (mag c' e' == mag c e)%Q.
Proof.
  revert c e. induction fuel as [|fuel IH]; intros c e; simpl; [by intros [= -> ->]|].
  destruct ((e <? ideal) && (c mod 10 =? 0)%N) eqn:E; [|by intros [= -> ->]].
  intros H. rewrite (IH _ _ H). apply andb_true_iff in E as [_ E]. apply N.eqb_eq in E.
  rewrite (mag_shift c _ _ ltac:(reflexivity)).
  rewrite (mag_shift (c / 10) (e + 1) e) by lia.
  replace (e + 1 - e) with 1 by lia. replace (e - e) with 0 by lia.
  change (pow10 1) with 10%N. change (pow10 0) with 1%N.
  pose proof (N.div_mod c 10 ltac:(lia)) as D.
  replace (c / 10 * 10)%N with (c * 1)%N by lia. reflexivity.
Qed.

Section Division.
Context (a b : dec) (Ha : (0 < dcoef a)%N) (Hb : (0 < dcoef b)%N).

Let shift := ndigits (dcoef b) - ndigits (dcoef a) + prec + 1.
Let e := dexp a - dexp b - shift.
Let num := (dcoef a * pow10 shift)%N.
Let den := (dcoef b * pow10 (- shift))%N.
Let q := (num / den)%N.

Lemma div_den_pos : (0 < den)%N.
Proof. unfold den. pose proof (pow10_pos (- shift)). lia. Qed.

(** [num / den * 10^e] is the exact quotient of the magnitudes. *)
Lemma div_value :
  (mag num e == mag (dcoef a) (dexp a) / mag (dcoef b) (dexp b) * inject_Z (Z.of_N den))%Q.
Proof.
  assert (~ mag (dcoef b) (dexp b) == 0)%Q as Hnz.
  { destruct (mag_bounds _ (dexp b) Hb) as [H _].
    pose proof (Qexp10_pos (ndigits (dcoef b) - 1 + dexp b)). lra. }
  assert (mag num e * mag (dcoef b) (dexp b) ==
          mag (dcoef a) (dexp a) * inject_Z (Z.of_N den))%Q as E;
    [|rewrite <- (Qdiv_mult_l (mag num e) _ Hnz), E; unfold Qdiv; ring].
  unfold mag, num, den. rewrite !N2Z.inj_mul, !inject_Z_mult.
  assert (inject_Z (Z.of_N (pow10 shift)) * Qexp10 (- shift) ==
          inject_Z (Z.of_N (pow10 (- shift))))%Q as Hp.
  { destruct (Z.le_ge_cases 0 shift).
    - rewrite pow10_spec, <- Qexp10_Z, <- Qexp10_plus, Z.add_opp_diag_r by done.
      rewrite pow10_nonpos by lia. reflexivity.
    - rewrite (pow10_spec (- shift)), <- Qexp10_Z by lia.
      rewrite pow10_nonpos by lia. change (inject_Z (Z.of_N 1)) with 1%Q. ring. }
  rewrite <- Hp. unfold e.
  replace (dexp a - dexp b - shift) with (dexp a + (- dexp b + - shift)) by lia.
  rewrite !Qexp10_plus.
  assert (Qexp10 (- dexp b) * Qexp10 (dexp b) == 1)%Q as H1.
  { rewrite <- Qexp10_plus, Z.add_opp_diag_l. reflexivity. }
  transitivity (inject_Z (Z.of_N (dcoef a)) * inject_Z (Z.of_N (pow10 shift)) *
    Qexp10 (dexp a) * Qexp10 (- shift) * inject_Z (Z.of_N (dcoef b)) *
    (Qexp10 (- dexp b) * Qexp10 (dexp b)))%Q; [ring|]. rewrite H1. ring.
Qed.

(** The quotient keeps at least one digit more than the precision. *)
Lemma div_digits : (pow10 prec <= q)%N.
Proof.
  unfold q. apply N.div_le_lower_bound; [pose proof div_den_pos; lia|].
  unfold num, den. apply N2Z.inj_le. rewrite !N2Z.inj_mul.
  destruct (ndigits_spec _ Ha) as (_ & A1 & _), (ndigits_spec _ Hb) as (_ & _ & B2).
  pose proof (ndigits_pos (dcoef a)). pose proof (ndigits_pos (dcoef b)).
  destruct (Z.le_ge_cases 0 shift) as [Hsh|Hsh].
  - rewrite (pow10_nonpos (- shift)), !pow10_spec by (unfold prec; lia).
    assert (10 ^ prec * 10 ^ ndigits (dcoef b) <= 10 ^ (ndigits (dcoef a) - 1) * 10 ^ shift)
      as Hpow.
    { rewrite <- !Z.pow_add_r by (unfold prec, shift in *; lia).
      apply Z.pow_le_mono_r; unfold shift; lia. }
    pose proof (Z.pow_pos_nonneg 10 shift). pose proof (Z.pow_pos_nonneg 10 prec). nia.
  - rewrite (pow10_nonpos shift), !pow10_spec by (unfold prec; lia).
    assert (10 ^ prec * (10 ^ ndigits (dcoef b) * 10 ^ (- shift)) <=
            10 ^ (ndigits (dcoef a) - 1)) as Hpow.
    { rewrite <- !Z.pow_add_r by (unfold prec, shift in *; lia).
      apply Z.pow_le_mono_r; unfold shift; lia. }
    pose proof (Z.pow_pos_nonneg 10 (- shift)). pose proof (Z.pow_pos_nonneg 10 prec). nia.
Qed.

Let x := (mag (dcoef a) (dexp a) / mag (dcoef b) (dexp b))%Q.

Lemma div_floor : (mag q e <= x)%Q /\ (x < mag (q + 1) e)%Q /\
  ((num mod den = 0)%N -> (mag q e == x)%Q) /\ ((num mod den <> 0)%N -> (mag q e < x)%Q).
Proof.
  assert (0 < inject_Z (Z.of_N den))%Q as Hd.
  { change 0%Q with (inject_Z 0). rewrite <- Zlt_Qlt. pose proof div_den_pos. lia. }
  assert (forall m, (mag m e * inject_Z (Z.of_N den) == mag (m * den) e)%Q) as Hm.
  { intros m. unfold mag. rewrite N2Z.inj_mul, inject_Z_mult. ring. }
  pose proof div_value as Hv. fold x in Hv.
  pose proof (N.div_mod num den ltac:(pose proof div_den_pos; lia)) as D. fold q in D.
  pose proof (N.mod_lt num den ltac:(pose proof div_den_pos; lia)) as L.
  generalize dependent (num mod den)%N. intros m D L.
  clearbody x. clearbody q. clearbody num den.
  repeat split.
  - rewrite <- (Qmult_le_r _ _ _ Hd), <- Hv, Hm. apply mag_le_iff. lia.
  - rewrite <- (Qmult_lt_r _ _ _ Hd), <- Hv, Hm. apply mag_lt_iff. lia.
  - intros H0. apply (Qmult_inj_r _ _ _ (Qnot_eq_sym _ _ (Qlt_not_eq _ _ Hd))).
    rewrite <- Hv, Hm. replace (q * den)%N with num by lia. reflexivity.
  - intros H0. rewrite <- (Qmult_lt_r _ _ _ Hd), <- Hv, Hm. apply mag_lt_iff. lia.
Qed.
End Division.

(** A magnitude at or above the quotient is an integer multiple of its last
    place, because it has at most [prec] digits. *)
Lemma sticky_upper q e x cy ey :
  (pow10 prec <= q)%N -> (mag q e < x)%Q -> mrepr cy ey -> (x <= mag cy ey)%Q ->
  (mag (q + 1) e <= mag cy ey)%Q.
Proof.
  intros Hq Hx [Hy _] Hle.
  assert (Qexp10 (prec + e) <= mag q e)%Q as H1.
  { rewrite <- mag_pow10 by (unfold prec; lia). by apply mag_le_iff. }
  destruct (N.eq_0_gt_0_cases cy) as [->|Hcy].
  { rewrite mag_zero in *. pose proof (mag_nonneg q e). lra. }
  destruct (mag_bounds cy ey Hcy) as [_ H2].
  assert (e <= ey) as Hey.
  { destruct (Z.le_gt_cases e ey) as [|Hgt]; [done|].
    pose proof (Qexp10_le (ndigits cy + ey) (prec + e) ltac:(lia)). lra. }
  assert (mag q e < mag cy ey)%Q as Hlt by lra.
  rewrite (mag_shift cy ey e) in Hlt |- * by done.
  rewrite mag_lt_iff in Hlt. rewrite mag_le_iff. lia.
Qed.

Lemma quotient_sign a b : (0 < dcoef b)%N ->
  (dval a / dval b ==
   if xorb (dneg a) (dneg b)
   then - (mag (dcoef a) (dexp a) / mag (dcoef b) (dexp b))
   else mag (dcoef a) (dexp a) / mag (dcoef b) (dexp b))%Q.
Proof.
  intros Hb. pose proof (dval_mag a) as Ea. pose proof (dval_mag b) as Eb.
  assert (~ mag (dcoef b) (dexp b) == 0)%Q as Hnz.
  { destruct (mag_bounds _ (dexp b) Hb) as [H _].
    pose proof (Qexp10_pos (ndigits (dcoef b) - 1 + dexp b)). lra. }
  destruct (dneg a), (dneg b); simpl; rewrite Ea, Eb; field; (done || lra).
Qed.

Lemma fixed_weaken c e c' e' x :
  fixed c e c' e' -> (mag c e == x)%Q ->
  (forall cy ey, mrepr cy ey -> (x <= mag cy ey)%Q -> (mag c' e' <= mag cy ey)%Q) /\
  (forall cy ey, mrepr cy ey -> (mag cy ey <= x)%Q -> (mag cy ey <= mag c' e')%Q).
Proof. intros [_ Hu Hl] E. split; intros cy ey Hy; rewrite <- E; auto. Qed.

(** Rounding a magnitude known to lie at the quotient, or strictly between
    its truncation and the next unit. *)
Lemma magnitude_faithful s x r :
  dneg r = s -> (0 <= x)%Q -> mrepr (dcoef r) (dexp r) ->
  (forall cy ey, mrepr cy ey -> (x <= mag cy ey)%Q ->
     (mag (dcoef r) (dexp r) <= mag cy ey)%Q) ->
  (forall cy ey, mrepr cy ey -> (mag cy ey <= x)%Q ->
     (mag cy ey <= mag (dcoef r) (dexp r))%Q) ->
  faithful (if s then - x else x)%Q r.
Proof.
  intros Hs Hn Hr Hup Hlo.
  pose proof (mag_nonneg (dcoef r) (dexp r)) as Hn'.
  pose proof (dval_mag r) as Er. rewrite Hs in Er.
  split; [done|..]; intros y Hy Hle;
    pose proof (dval_mag y) as Ey; pose proof (mag_nonneg (dcoef y) (dexp y));
    specialize (Hup (dcoef y) (dexp y) Hy); specialize (Hlo (dcoef y) (dexp y) Hy);
    destruct s, (dneg y); lra || (
    assert (x <= mag (dcoef y) (dexp y))%Q as Hx by lra; specialize (Hup Hx); lra) || (
    assert (mag (dcoef y) (dexp y) <= x)%Q as Hx by lra; specialize (Hlo Hx); lra).
Qed.

Theorem ddiv_faithful a b r : ddiv a b = Ok r -> faithful (dval a / dval b) r.
Proof.
  unfold ddiv. destruct (N.eqb_spec (dcoef b) 0) as [|Hb]; [by destruct (_ =? _)%N|].
  assert (0 < dcoef b)%N as Hb' by lia.
  set (s := xorb (dneg a) (dneg b)).
  destruct (N.eqb_spec (dcoef a) 0) as [Ha|Ha].
  { intros H. apply (dfix_faithful _ _ _ _ _ H).
    destruct s; rewrite (dval_zero a Ha), mag_zero; unfold Qdiv; ring. }
  assert (0 < dcoef a)%N as Ha' by lia.
  pose proof (div_digits a b Ha' Hb') as Hq. pose proof (div_floor a b Ha' Hb') as Hfl.
  cbv zeta in Hq, Hfl |- *.
  set (x := (mag (dcoef a) (dexp a) / mag (dcoef b) (dexp b))%Q) in *.
  set (e := dexp a - dexp b - _) in *. set (num := (dcoef a * _)%N) in *.
  set (den := (dcoef b * _)%N) in *. set (q := (num / den)%N) in *.
  destruct Hfl as (F1 & F2 & F3 & F4).
  assert (0 <= x)%Q as Hx by (pose proof (mag_nonneg q e); lra).
  intros H. eapply faithful_proper; [symmetry; apply (quotient_sign a b Hb')|].
  fold s x. destruct (N.eqb_spec (num mod den) 0) as [Hm|Hm].
  - destruct (strip_zeros _ _ _ _) as [c e'] eqn:Es. apply strip_zeros_value in Es.
    eapply dfix_faithful; [apply H|].
    assert (mag c e' == x)%Q as E by (rewrite Es; auto). destruct s; rewrite E; reflexivity.
  - specialize (F4 Hm). apply dfix_fixed in H as [Hs Hf].
    set (c := if (q mod 5 =? 0)%N then (q + 1)%N else q) in *.
    assert (mag q e <= mag c e)%Q as Hc1
      by (apply mag_le_iff; unfold c; destruct (_ =? _)%N; lia).
    assert (mag c e <= mag (q + 1) e)%Q as Hc2
      by (apply mag_le_iff; unfold c; destruct (_ =? _)%N; lia).
    destruct Hf as [Hr Hu Hl]. apply magnitude_faithful; try done.
    + intros cy ey Hy Hle. apply Hu; [done|].
      pose proof (sticky_upper q e x cy ey Hq F4 Hy Hle). lra.
    + intros cy ey Hy Hle. apply Hl; [done|].
      destruct (Qlt_le_dec (mag c e) (mag cy ey)) as [Hlt|]; [|done]. exfalso.
      assert (mag q e < mag cy ey)%Q as Hlt' by lra.
      assert (x <= mag (q + 1) e)%Q by lra.
      pose proof (sticky_upper q e (mag cy ey) cy ey Hq Hlt' Hy ltac:(apply Qle_refl)). lra.
Qed.

Theorem dabs_faithful a r : dabs a = Ok r -> faithful (Qabs (dval a)) r.
Proof.
  unfold dabs. intros H. eapply dfix_faithful; [apply H|]. cbv iota.
  pose proof (dval_mag a) as E. pose proof (mag_nonneg (dcoef a) (dexp a)).
  destruct (dneg a);
    [rewrite Qabs_neg by lra; rewrite E; ring | rewrite Qabs_pos by lra; apply E].
Qed.

(** *** Which signal an operation can raise *)

Lemma dadd_raise a b x : dadd a b = Raise x -> x = DecimalOverflow.
Proof. apply dfix_raise. Qed.
Lemma dsub_raise a b x : dsub a b = Raise x -> x = DecimalOverflow.
Proof. apply dfix_raise. Qed.
Lemma dmul_raise a b x : dmul a b = Raise x -> x = DecimalOverflow.
Proof. apply dfix_raise. Qed.

Lemma ddiv_raise a b x : ddiv a b = Raise x ->
  x = DecimalOverflow \/
  (is_zero b = true /\ x = if is_zero a then DecimalInvalidOperation else DecimalDivisionByZero).
Proof.
  unfold ddiv, is_zero. destruct (dcoef b =? 0)%N.
  { destruct (dcoef a =? 0)%N; intros [= <-]; auto. }
  left. revert H. destruct (dcoef a =? 0)%N; [apply dfix_raise|]. cbv zeta.
  destruct (_ mod _ =? 0)%N; [destruct (strip_zeros _ _ _ _)|]; apply dfix_raise.
Qed.

Lemma is_zero_spec d : is_zero d = true <-> (dval d == 0)%Q.
Proof.
  unfold is_zero. rewrite N.eqb_eq.
  destruct (dsgn_view d) as [H _ C|H _ C|H C]; split; intros E; try lia; try done; lra.
Qed.

(** *** Rounding down to an integer *)

Lemma to_integral_down_spec d : dneg d = false ->
  exists n, (dval (to_integral_down d) == inject_Z n)%Q /\
    (inject_Z n <= dval d)%Q /\ (dval d < inject_Z n + 1)%Q.
Proof.
  intros Hs. pose proof (dval_mag d) as E. rewrite Hs in E.
  unfold to_integral_down. destruct (Z.leb_spec 0 (dexp d)) as [He|He].
  - exists (Z.of_N (dcoef d) * 10 ^ dexp d).
    assert (dval d == inject_Z (Z.of_N (dcoef d) * 10 ^ dexp d))%Q as Ed.
    { rewrite E. unfold mag. by rewrite inject_Z_mult, Qexp10_Z. }
    rewrite Ed. split; [reflexivity|]. split; [apply Qle_refl|]. lra.
  - exists (Z.of_N (dcoef d / pow10 (- dexp d))). split.
    { unfold dval, dint. simpl. rewrite Hs. change (Qexp10 0) with 1%Q. ring. }
    pose proof (pow10_pos (- dexp d)) as Hp.
    pose proof (N.div_mod (dcoef d) (pow10 (- dexp d)) ltac:(lia)) as D.
    pose proof (N.mod_lt (dcoef d) (pow10 (- dexp d)) ltac:(lia)) as L.
    set (n := (dcoef d / pow10 (- dexp d))%N) in *.
    assert (inject_Z (Z.of_N n) == mag (n * pow10 (- dexp d)) (dexp d))%Q as En.
    { pose proof (mag_shift n 0 (dexp d) ltac:(lia)) as Em.
      replace (0 - dexp d) with (- dexp d) in Em by lia. rewrite <- Em.
      unfold mag. change (Qexp10 0) with 1%Q. ring. }
    assert (inject_Z (Z.of_N n) + 1 == mag ((n + 1) * pow10 (- dexp d)) (dexp d))%Q as En1.
    { pose proof (mag_shift (n + 1) 0 (dexp d) ltac:(lia)) as Em.
      replace (0 - dexp d) with (- dexp d) in Em by lia. rewrite <- Em.
      unfold mag. rewrite N2Z.inj_add, inject_Z_plus. change (Qexp10 0) with 1%Q. ring. }
    rewrite E, En1, En. rewrite mag_le_iff, mag_lt_iff. clear E En En1.
    clearbody n. revert Hp D L. generalize (dcoef d `mod` pow10 (- dexp d))%N as m.
    generalize (pow10 (- dexp d)) as p. intros p m Hp D L. rewrite D. lia.
Qed.

(** *** Sums *)

Lemma dsum_from_nonneg l : forall acc s,
  dsum_from acc l = Ok s -> (0 <= dval acc)%Q ->
  (forall d, In d l -> (0 <= dval d)%Q) -> (0 <= dval s)%Q.
Proof.
  induction l as [|d l IH]; simpl; intros acc s H Ha Hl; [by injection H as <-|].
  apply bind_Ok in H as (acc' & Hadd & H). apply dadd_faithful in Hadd.
  apply (IH _ _ H); [|eauto]. eapply faithful_nonneg; [apply Hadd|].
  specialize (Hl d ltac:(by left)). lra.
Qed.

Create HintDb decimal discriminated.
#[export] Hint Resolve dadd_faithful dsub_faithful dmul_faithful ddiv_faithful
  repr_ZERO repr_ONE faithful_repr : decimal.

#[export] Instance dec_KeyEq : KeyEq deqb.
Proof. split; [apply deqb_refl | apply deqb_sym | apply deqb_trans]. Qed.

(** ** Remainders *)

Lemma faithful_pos x c e r : faithful x r -> Etiny <= e -> (0 < c)%N ->
  (mag c e <= x)%Q -> (0 < dval r)%Q.
Proof.
  intros H He Hc Hx. pose proof (Qexp10_pos e).
  assert (dval (mk_dec false 1 e) == Qexp10 e)%Q as E.
  { rewrite dval_mag. simpl. unfold mag. simpl. ring. }
  assert (Qexp10 e <= mag c e)%Q.
  { rewrite <- E, dval_mag. simpl. apply mag_le_iff. lia. }
  assert (dval (mk_dec false 1 e) <= dval r)%Q; [|lra].
  apply (faithful_ge _ _ H); [|lra]. split; [|done]. simpl. by vm_compute.
Qed.

Lemma dval_mag_at e d : e <= dexp d -> dneg d = false -> (dval d == mag (mag_at e d) e)%Q.
Proof.
  intros He Hs. rewrite (dval_int_at e d He). unfold int_at, mag. by rewrite Hs.
Qed.

Lemma multiple_mod A B : (0 < B)%N ->
  (exists n : Z, Z.of_N A = n * Z.of_N B) <-> (A mod B = 0)%N.
Proof.
  intros HB. split.
  - intros [n Hn]. apply N2Z.inj. rewrite N2Z.inj_mod, Hn. apply Z.mod_mul. lia.
  - intros H. exists (Z.of_N (A / B)). pose proof (N.div_mod A B). nia.
Qed.

Lemma multiple_at e a b : e <= dexp a -> e <= dexp b -> dneg a = false -> dneg b = false ->
  (exists n : Z, (dval a == inject_Z n * dval b)%Q) <->
  (exists n : Z, Z.of_N (mag_at e a) = n * Z.of_N (mag_at e b)).
Proof.
  intros Ha Hb Sa Sb. pose proof (dval_mag_at e a Ha Sa) as Ea. pose proof (dval_mag_at e b Hb Sb) as Eb.
  unfold mag in *. pose proof (Qexp10_pos e).
  assert (forall n, (dval a == inject_Z n * dval b)%Q <-> Z.of_N (mag_at e a) = n * Z.of_N (mag_at e b)) as Hn.
  { intros n. rewrite Ea, Eb, Qmult_assoc, <- inject_Z_mult.
    split; [intros E|intros ->; reflexivity].
    apply inject_Z_injective. apply Qmult_inj_r in E; [exact E|lra]. }
  split; intros [n H']; exists n; by apply Hn.
Qed.

Lemma dmod_zero a b r :
  dneg a = false -> dneg b = false -> (0 < dval b)%Q -> Etiny <= dexp a -> Etiny <= dexp b ->
  dmod a b = Ok r ->
  (dval r == 0)%Q <-> exists n : Z, (dval a == inject_Z n * dval b)%Q.
Proof.
  intros Sa Sb Hb Ea Eb. unfold dmod.
  destruct (N.eqb_spec (dcoef b) 0) as [|Nb]; [done|].
  set (ideal := Z.min (dexp a) (dexp b)). assert (Etiny <= ideal) as Hi by (unfold ideal; lia).
  assert (ideal <= dexp a /\ ideal <= dexp b) as [Ha' Hb'] by (unfold ideal; lia).
  assert (forall c r', dfix (dneg a) c ideal = Ok r' -> (dval r' == 0)%Q <-> c = 0%N) as Hfix.
  { intros c r' H. rewrite Sa in H. apply (dfix_faithful false c ideal r' (mag c ideal)) in H;
      [|reflexivity]. split.
    - intros E. destruct (N.eq_0_gt_0_cases c) as [|Hc]; [done|].
      pose proof (faithful_pos _ c ideal r' H Hi Hc (Qle_refl _)). lra.
    - intros ->. apply (faithful_proper _ 0 _ (mag_zero ideal)) in H. apply (faithful_exact _ _ ZERO H); [apply repr_ZERO|reflexivity]. }
  assert (mag_at ideal b <> 0%N) as Nb'.
  { unfold mag_at. pose proof (pow10_pos (dexp b - ideal)). lia. }
  rewrite (multiple_at ideal a b), multiple_mod by (done || lia).
  destruct (((dcoef a =? 0)%N || (adjusted a - adjusted b <=? -2))) eqn:E.
  - intros H. rewrite (Hfix _ _ H). apply orb_true_iff in E as [E|E].
    + apply N.eqb_eq in E. unfold mag_at. rewrite E, N.mul_0_l, N.Div0.mod_0_l. done.
    + apply Z.leb_le in E. assert (mag_at ideal a < mag_at ideal b)%N; [|by rewrite N.mod_small].
      destruct (N.eq_0_gt_0_cases (dcoef a)) as [E0|E0]; [unfold mag_at at 1; lia|].
      pose proof (same_sign_adjusted a b E0 ltac:(lia) ltac:(lia)) as L.
      rewrite (mag_shift (dcoef a) (dexp a) ideal), (mag_shift (dcoef b) (dexp b) ideal) in L by done.
      by apply mag_lt_iff in L.
  - destruct (prec <? _); [done|]. destruct (_ <? _)%N; [|done]. intros H. by apply Hfix.
Qed.

(** The sign of a quotient. *)
Lemma dfix_sign s c e r : dfix s c e = Ok r -> dneg r = s.
Proof. intros H. by apply dfix_fixed in H as [? _]. Qed.

Lemma ddiv_sign a b r : ddiv a b = Ok r -> dneg r = xorb (dneg a) (dneg b).
Proof.
  unfold ddiv. destruct (dcoef b =? 0)%N; [by destruct (dcoef a =? 0)%N|].
  destruct (dcoef a =? 0)%N; [apply dfix_sign|]. cbv zeta.
  destruct (_ mod _ =? 0)%N; [destruct (strip_zeros _ _ _ _)|]; apply dfix_sign.
Qed.

Lemma ndigits_mono a b : (a <= b)%N -> ndigits a <= ndigits b.
Proof.
  intros H. apply ndigits_le_iff; [apply ndigits_pos|]. pose proof (ndigits_lt b). lia.
Qed.

Lemma to_integral_down_digits d : ndigits (dcoef (to_integral_down d)) <= ndigits (dcoef d).
Proof.
  unfold to_integral_down. destruct (0 <=? dexp d); [lia|]. simpl. apply ndigits_mono.
  pose proof (pow10_pos (- dexp d)). apply N.Div0.div_le_upper_bound. nia.
Qed.

(** ** Minimum of a list *)

Lemma dmin_list_le l : forall d x, In x (d :: l) -> (dval (dmin_list d l) <= dval x)%Q.
Proof.
  unfold dmin_list. induction l as [|y l IH]; intros d x Hx; cbn.
  - destruct Hx as [<-|[]]. apply Qle_refl.
  - destruct (dmin_spec d y) as (H1 & H2 & _).
    destruct Hx as [<-|[<-|Hx]].
    + eapply Qle_trans; [apply IH; by left|exact H1].
    + eapply Qle_trans; [apply IH; by left|exact H2].
    + apply IH. by right.
Qed.

Lemma dmin_list_ge l : forall d b, (forall x, In x (d :: l) -> (b <= dval x)%Q) -> (b <= dval (dmin_list d l))%Q.
Proof.
  unfold dmin_list. induction l as [|y l IH]; intros d b H; cbn; [apply H; by left|].
  apply IH. intros x [<-|Hx]; [|apply H; by right; right].
  unfold dmin. destruct (dltb y d); apply H; [by right; left|by left].
Qed.

Lemma dmin_list_nonneg d l : (dltb (dmin_list d l) ZERO) = false <-> forall x, In x (d :: l) -> (0 <= dval x)%Q.
Proof.
  rewrite dltb_false, dval_ZERO. split; [|apply dmin_list_ge].
  intros H x Hx. eapply Qle_trans; [exact H|by apply dmin_list_le].
Qed.

Lemma dmin_list_pos d l : (dleb (dmin_list d l) ZERO) = false -> forall x, In x (d :: l) -> (0 < dval x)%Q.
Proof.
  rewrite dleb_false, dval_ZERO. intros H x Hx. eapply Qlt_le_trans; [exact H|by apply dmin_list_le].
Qed.

Lemma dmin_list_pos_iff d l : (dleb (dmin_list d l) ZERO) = false <-> forall x, In x (d :: l) -> (0 < dval x)%Q.
Proof.
  split; [apply dmin_list_pos|]. unfold dmin_list. intros H. apply dleb_false. rewrite dval_ZERO.
  assert (In (fold_left dmin l d) (d :: l)) as Hin; [|by apply H]. clear H. revert d.
  induction l as [|y l IH]; intros d; cbn; [by left|].
  destruct (IH (dmin d y)) as [E|Hin]; [|by right; right].
  rewrite <- E. unfold dmin. destruct (dltb y d); [by right; left|by left].
Qed.

(** ** Arithmetic that may signal *)

Lemma safely_dadd a b : safely (dadd a b) (faithful (dval a + dval b)).
Proof. destruct (dadd a b) eqn:E; cbn; [by apply dadd_faithful|]. by apply dadd_raise in E as ->. Qed.
Lemma safely_dsub a b : safely (dsub a b) (faithful (dval a - dval b)).
Proof. destruct (dsub a b) eqn:E; cbn; [by apply dsub_faithful|]. by apply dsub_raise in E as ->. Qed.
Lemma safely_dmul a b : safely (dmul a b) (faithful (dval a * dval b)).
Proof. destruct (dmul a b) eqn:E; cbn; [by apply dmul_faithful|]. by apply dmul_raise in E as ->. Qed.
Lemma safely_ddiv a b : safely (ddiv a b) (faithful (dval a / dval b)).
Proof. destruct (ddiv a b) eqn:E; cbn; [by apply ddiv_faithful|]. apply ddiv_raise in E as [->|[_ ->]]; [done|by destruct (is_zero a)]. Qed.
