(* ===== verification/DecimalText.v ===== *)
(** Decimal numbers as text: the constructor [Decimal(str)], [str(Decimal)]
    and the round trip between them.  Text is ASCII. *)
From S2P Require Import Prelude PyDecimal DecimalFacts.
Local Open Scope Z_scope.
Local Open Scope bool_scope.

(** ** Digits *)

Definition digit (n : N) : ascii := ascii_of_N (48 + n).
Definition digit_value (c : ascii) : N := (N_of_ascii c - 48)%N.

Fixpoint digits_fuel (fuel : nat) (n : N) (acc : list ascii) : list ascii :=
  match fuel with
  | O => acc
  | S fuel =>
      let acc := digit (n mod 10) :: acc in
      if (n <? 10)%N then acc else digits_fuel fuel (n / 10) acc
  end.
(** [str(n)] of a natural number *)
Definition digits (n : N) : list ascii := digits_fuel (S (N.size_nat n)) n [].

Definition num_of (l : list ascii) : N :=
  fold_left (fun n c => 10 * n + digit_value c)%N l 0%N.

(** The longest prefix of digits and the rest. *)
Fixpoint span_digits (l : list ascii) : list ascii * list ascii :=
  match l with
  | [] => ([], [])
  | c :: l' => if is_digit c then let '(a, b) := span_digits l' in (c :: a, b) else ([], l)
  end.

(** ** [Decimal(text)] *)

Definition MAX_EMAX : Z := 999999999999999999.
Definition MIN_ETINY : Z := -1999999999999999997.

(** Exponent part: nothing, or E with an optional sign and digits to the end. *)
Definition parse_exponent (l : list ascii) : option Z :=
  match l with
  | [] => Some 0
  | c :: l' =>
      if Ascii.eqb (ascii_lower c) "e" then
        let '(neg, l'') :=
          match l' with
          | s :: t => if Ascii.eqb s "-" then (true, t)
                      else if Ascii.eqb s "+" then (false, t) else (false, l')
          | [] => (false, l')
          end in
        let '(ds, rest) := span_digits l'' in
        if is_nil ds || negb (is_nil rest) then None
        else Some (if neg then - Z.of_N (num_of ds) else Z.of_N (num_of ds))
      else None
  end.

Definition exponent_in_range (d : dec) : bool :=
  (adjusted d <=? MAX_EMAX) && (MIN_ETINY <=? dexp d).

Definition parse_finite (neg : bool) (l : list ascii) : option dec :=
  let '(ip, l1) := span_digits l in
  let '(fp, l2) :=
    match l1 with
    | c :: r => if Ascii.eqb c "." then span_digits r else ([], l1)
    | [] => ([], l1)
    end in
  if is_nil ip && is_nil fp then None
  else
    match parse_exponent l2 with
    | None => None
    | Some e =>
        let d := mk_dec neg (num_of (ip ++ fp)) (e - Z.of_nat (length fp)) in
        if exponent_in_range d then Some d else None
    end.

Definition is_special_text (l : list ascii) : option pydec :=
  let s := lower (string_of_list_ascii l) in
  if str_in s ["inf"; "infinity"] then Some (Infinite false)
  else
    let '(head, tail) := (String.substring 0 3 s, String.substring 3 (String.length s - 3) s) in
    let '(head4, tail4) := (String.substring 0 4 s, String.substring 4 (String.length s - 4) s) in
    if String.eqb head "nan" && forallb is_digit (list_ascii_of_string tail) then Some NaN
    else if String.eqb head4 "snan" && forallb is_digit (list_ascii_of_string tail4) then Some NaN
    else None.

(** [Decimal(s)]; [None] is InvalidOperation. *)
Definition parse_decimal (s : string) : option pydec :=
  let l := List.filter (fun c => negb (Ascii.eqb c "_")) (strip_list (list_ascii_of_string s)) in
  let '(neg, l') :=
    match l with
    | c :: t => if Ascii.eqb c "-" then (true, t)
                else if Ascii.eqb c "+" then (false, t) else (false, l)
    | [] => (false, l)
    end in
  match is_special_text l' with
  | Some (Infinite _) => Some (Infinite neg)
  | Some d => Some d
  | None => option_map Finite (parse_finite neg l')
  end.

Definition Decimal (s : string) : res pydec :=
  match parse_decimal s with Some d => Ok d | None => Raise DecimalInvalidOperation end.

(** ** [str(d)] *)

Definition zeros (n : Z) : list ascii := repeat "0"%char (Z.to_nat n).

Definition str_list (d : dec) : list ascii :=
  let ds := digits (dcoef d) in
  let leftdigits := dexp d + Z.of_nat (length ds) in
  let body :=
    if (dexp d <=? 0) && (-6 <? leftdigits) then
      if leftdigits <=? 0 then "0"%char :: "."%char :: zeros (- leftdigits) ++ ds
      else if dexp d =? 0 then ds
      else firstn (Z.to_nat leftdigits) ds ++ "."%char :: skipn (Z.to_nat leftdigits) ds
    else
      let e := leftdigits - 1 in
      firstn 1 ds ++ (if is_nil (skipn 1 ds) then [] else "."%char :: skipn 1 ds) ++
      "E"%char :: (if e <? 0 then "-"%char else "+"%char) :: digits (Z.abs_N e) in
  if dneg d then "-"%char :: body else body.

Definition str_decimal (d : dec) : string := string_of_list_ascii (str_list d).

(** ** Digits and numbers *)

Lemma digit_is_digit n : (n < 10)%N -> is_digit (digit n) = true.
Proof.
  intros H. unfold is_digit, digit. rewrite N_ascii_embedding by lia.
  apply andb_true_iff. split; apply N.leb_le; lia.
Qed.

Lemma digit_value_digit n : (n < 10)%N -> digit_value (digit n) = n.
Proof. intros H. unfold digit_value, digit. rewrite N_ascii_embedding by lia. lia. Qed.

Lemma num_of_from l : forall a, fold_left (fun n c => 10 * n + digit_value c)%N l a =
  (a * 10 ^ N.of_nat (length l) + num_of l)%N.
Proof.
  unfold num_of. induction l as [|c l IH]; intros a; simpl fold_left; [simpl; lia|].
  rewrite IH, (IH (10 * 0 + _)%N). simpl length. rewrite Nat2N.inj_succ, N.pow_succ_r'. lia.
Qed.

Lemma num_of_cons c l : num_of (c :: l) = (digit_value c * 10 ^ N.of_nat (length l) + num_of l)%N.
Proof. unfold num_of at 1. simpl. rewrite num_of_from. lia. Qed.

Lemma size_nat_div10 n : (10 <= n)%N -> (N.size_nat (n / 10) < N.size_nat n)%nat.
Proof.
  intros H. assert (forall m, (0 < m)%N -> N.size_nat m = S (N.to_nat (N.log2 m))) as Hs.
  { intros m Hm. destruct m as [|p]; [lia|]. simpl.
    clear. induction p; simpl; try lia.
    - rewrite IHp. destruct p; simpl; lia.
    - rewrite IHp. destruct p; simpl; lia. }
  assert (0 < n / 10)%N by (apply N.div_str_pos; lia).
  rewrite !Hs by lia. pose proof (N.log2_le_mono (n / 10) (n / 2)) as M.
  assert (n / 10 <= n / 2)%N by (apply N.div_le_compat_l; lia).
  assert (N.log2 (n / 2) < N.log2 n)%N; [|lia].
  pose proof (N.div_lt n 2).
  rewrite <- N.div2_div. destruct n as [|[p|p|]]; try lia; simpl; destruct p; simpl; lia.
Qed.

Lemma digits_fuel_spec f : forall n acc, (N.size_nat n < f)%nat ->
  exists ds, digits_fuel f n acc = ds ++ acc /\ ds <> [] /\
    forallb is_digit ds = true /\ num_of ds = n.
Proof.
  induction f as [|f IH]; intros n acc Hf; [lia|]. simpl.
  pose proof (N.mod_lt n 10 ltac:(lia)) as Hm.
  destruct (N.ltb_spec n 10) as [Hn|Hn].
  - exists [digit (n mod 10)]. rewrite N.mod_small by done. simpl.
    rewrite digit_is_digit by done. split_and!; try done.
    rewrite num_of_cons, digit_value_digit by done. unfold num_of. simpl. lia.
  - destruct (IH (n / 10)%N (digit (n mod 10) :: acc)) as (ds & E & Hne & Hd & Hv).
    { pose proof (size_nat_div10 n Hn). lia. }
    exists (ds ++ [digit (n mod 10)]). rewrite E, <- app_assoc. split_and!; try done.
    + by destruct ds.
    + rewrite forallb_app, Hd. simpl. by rewrite digit_is_digit.
    + unfold num_of in *. rewrite fold_left_app, Hv. simpl.
      rewrite digit_value_digit by done. pose proof (N.div_mod n 10). lia.
Qed.

Lemma digits_spec n : digits n <> [] /\ forallb is_digit (digits n) = true /\ num_of (digits n) = n.
Proof.
  unfold digits. destruct (digits_fuel_spec (S (N.size_nat n)) n []) as (ds & E & H); [lia|].
  rewrite E, app_nil_r. exact H.
Qed.

(** ** Scanning *)

Definition not_digit_first (l : list ascii) : Prop :=
  match l with [] => True | c :: _ => is_digit c = false end.

Lemma span_digits_app ds l : forallb is_digit ds = true -> not_digit_first l ->
  span_digits (ds ++ l) = (ds, l).
Proof.
  induction ds as [|c ds IH]; simpl; intros Hd Hl.
  - destruct l as [|c l]; [done|]. simpl in *. by rewrite Hl.
  - apply andb_true_iff in Hd as [Hc Hd]. by rewrite Hc, IH.
Qed.

Lemma span_digits_all ds : forallb is_digit ds = true -> span_digits ds = (ds, []).
Proof. intros H. rewrite <- (app_nil_r ds) at 1. by apply span_digits_app. Qed.

(** The characters [str] produces. *)
Definition decimal_char (c : ascii) : bool :=
  is_digit c || Ascii.eqb c "." || Ascii.eqb c "E" || Ascii.eqb c "+" || Ascii.eqb c "-".

Lemma decimal_char_plain c :
  decimal_char c = true -> is_space c = false /\ Ascii.eqb c "_" = false.
Proof.
  intros H. assert (implb (decimal_char c) (negb (is_space c) && negb (Ascii.eqb c "_")) = true) as E.
  { revert c H. intros c _. revert c. apply ascii_forall. vm_compute. reflexivity. }
  rewrite H in E. simpl in E. apply andb_true_iff in E as [E1 E2].
  by rewrite negb_true_iff in E1, E2.
Qed.

Lemma strip_list_plain l : forallb decimal_char l = true -> strip_list l = l.
Proof.
  assert (forall l, forallb decimal_char l = true -> drop_spaces l = l) as Hd.
  { intros [|c t]; simpl; [done|]. intros [Hc _]%andb_true_iff.
    by destruct (decimal_char_plain c Hc) as [-> _]. }
  intros H. unfold strip_list. rewrite (Hd l H), Hd; [apply rev_involutive|].
  apply forallb_forall. intros x Hx. rewrite forallb_forall in H. apply H. by apply in_rev.
Qed.

Lemma filter_plain l : forallb decimal_char l = true ->
  List.filter (fun c => negb (Ascii.eqb c "_")) l = l.
Proof.
  intros H. apply filter_id. intros c Hc. rewrite forallb_forall in H.
  by destruct (decimal_char_plain c (H c Hc)) as [_ ->].
Qed.

Lemma digit_facts c : is_digit c = true ->
  Ascii.eqb c "-" = false /\ Ascii.eqb c "+" = false /\
  Ascii.eqb (ascii_lower c) "i" = false /\ Ascii.eqb (ascii_lower c) "n" = false /\
  Ascii.eqb (ascii_lower c) "s" = false.
Proof.
  intros H. assert (implb (is_digit c)
    (negb (Ascii.eqb c "-") && negb (Ascii.eqb c "+") && negb (Ascii.eqb (ascii_lower c) "i") &&
     negb (Ascii.eqb (ascii_lower c) "n") && negb (Ascii.eqb (ascii_lower c) "s")) = true) as E.
  { revert c H. intros c _. revert c. apply ascii_forall. vm_compute. reflexivity. }
  rewrite H in E. simpl in E. rewrite !andb_true_iff, !negb_true_iff in E. tauto.
Qed.

Lemma no_special_text c l : is_digit c = true -> is_special_text (c :: l) = None.
Proof.
  intros (_ & _ & Hi & Hn & Hs)%digit_facts. unfold is_special_text.
  unfold lower. simpl.
  simpl. rewrite Hi, Hn, Hs. done.
Qed.

(** ** The round trip *)

Lemma digits_plain n : forallb decimal_char (digits n) = true.
Proof.
  destruct (digits_spec n) as (_ & H & _). rewrite forallb_forall in *.
  intros c Hc. unfold decimal_char. by rewrite H.
Qed.

Lemma zeros_digits n : forallb is_digit (zeros n) = true.
Proof. unfold zeros. by induction (Z.to_nat n). Qed.

Lemma zeros_length n : 0 <= n -> Z.of_nat (length (zeros n)) = n.
Proof. intros. unfold zeros. rewrite repeat_length. lia. Qed.

Lemma num_of_zeros n ds : num_of (zeros n ++ ds) = num_of ds.
Proof.
  unfold zeros. induction (Z.to_nat n) as [|k IH]; [done|].
  cbn [repeat app]. rewrite num_of_cons, IH. change (digit_value "0") with 0%N. lia.
Qed.

Lemma parse_exponent_str e :
  parse_exponent ("E"%char :: (if e <? 0 then "-"%char else "+"%char) :: digits (Z.abs_N e)) = Some e.
Proof.
  destruct (digits_spec (Z.abs_N e)) as (Hne & Hd & Hv). unfold parse_exponent.
  change (Ascii.eqb (ascii_lower "E") "e") with true. cbv iota.
  destruct (Z.ltb_spec e 0); simpl Ascii.eqb; cbv iota;
    rewrite span_digits_all by done; apply is_nil_false in Hne; rewrite Hne; simpl;
    rewrite Hv; f_equal; lia.
Qed.

(** Parsing an integer part, an optional fraction and an exponent part. *)
Lemma parse_finite_parts neg ip fp (point : bool) ex e :
  forallb is_digit ip = true -> forallb is_digit fp = true -> ip <> [] ->
  (point = false -> fp = []) -> parse_exponent ex = Some e ->
  not_digit_first ex -> (match ex with c :: _ => Ascii.eqb c "." | [] => false end = false) ->
  parse_finite neg (ip ++ (if point then "."%char :: fp else []) ++ ex) =
  let d := mk_dec neg (num_of (ip ++ fp)) (e - Z.of_nat (length fp)) in
  if exponent_in_range d then Some d else None.
Proof.
  intros Hip Hfp Hne Hpt He Hx Hdot. unfold parse_finite.
  rewrite span_digits_app; [|done|by destruct point].
  apply is_nil_false in Hne. destruct point; simpl app.
  - cbv iota. change (Ascii.eqb "." ".") with true. cbv iota.
    rewrite span_digits_app by done. by rewrite Hne, He.
  - rewrite (Hpt eq_refl). destruct ex as [|c ex]; simpl in Hdot; [|rewrite Hdot];
      by rewrite Hne, He.
Qed.

Definition unsigned (d : dec) : dec := mk_dec false (dcoef d) (dexp d).

Lemma parse_unsigned_str d : exponent_in_range d = true ->
  parse_finite (dneg d) (str_list (unsigned d)) = Some d.
Proof.
  intros Hr. destruct (digits_spec (dcoef d)) as (Hne & Hd & Hv).
  assert (forall neg ip fp e, num_of (ip ++ fp) = dcoef d -> e - Z.of_nat (length fp) = dexp d ->
    neg = dneg d -> (let d' := mk_dec neg (num_of (ip ++ fp)) (e - Z.of_nat (length fp)) in
    if exponent_in_range d' then Some d' else None) = Some d) as Hfin.
  { intros neg ip fp e E1 E2 ->. rewrite E1, E2. cbv zeta.
    replace (mk_dec (dneg d) (dcoef d) (dexp d)) with d by by destruct d. by rewrite Hr. }
  unfold str_list, unsigned. cbn [dneg dcoef dexp]. set (ds := digits (dcoef d)) in *.
  assert (0 < length ds)%nat as Hlen by (destruct ds; [done|simpl; lia]).
  destruct ((dexp d <=? 0) && _) eqn:E1.
  - apply andb_true_iff in E1 as [E1 E1']. zify_bool.
    destruct (Z.leb_spec (dexp d + Z.of_nat (length ds)) 0).
    + pose proof (parse_finite_parts (dneg d) ["0"%char] (zeros (- (dexp d + Z.of_nat (length ds))) ++ ds)
        true [] 0) as P. simpl in P. rewrite app_nil_r in P. rewrite P; try done.
      * apply (Hfin _ ["0"%char]); [| |done].
        -- cbn [app]. rewrite num_of_cons, num_of_zeros, Hv. change (digit_value "0") with 0%N. lia.
        -- rewrite length_app, Nat2Z.inj_add, zeros_length by lia. lia.
      * by rewrite forallb_app, zeros_digits, Hd.
    + destruct (Z.eqb_spec (dexp d) 0) as [E0|E0].
      * pose proof (parse_finite_parts (dneg d) ds [] false [] 0) as P. simpl in P.
        rewrite app_nil_r in P. specialize (Hfin (dneg d) ds [] 0). rewrite app_nil_r in Hfin.
        rewrite P; try done. apply Hfin; [done|simpl; lia|done].
      * set (k := Z.to_nat (dexp d + Z.of_nat (length ds))).
        pose proof (parse_finite_parts (dneg d) (firstn k ds) (skipn k ds) true [] 0) as P.
        simpl in P. rewrite app_nil_r in P. rewrite <- (firstn_skipn k ds), forallb_app in Hd.
        apply andb_true_iff in Hd as [Hd1 Hd2]. rewrite P; try done.
        -- apply Hfin; [by rewrite firstn_skipn|rewrite length_skipn; lia|done].
        -- intros Hnil. apply (f_equal length) in Hnil. rewrite length_firstn in Hnil.
           simpl in Hnil. lia.
  - rewrite <- (firstn_skipn 1 ds), forallb_app in Hd. apply andb_true_iff in Hd as [Hd1 Hd2].
    set (e := dexp d + Z.of_nat (length ds) - 1).
    pose proof (parse_finite_parts (dneg d) (firstn 1 ds) (skipn 1 ds) (negb (is_nil (skipn 1 ds)))
      ("E"%char :: (if e <? 0 then "-"%char else "+"%char) :: digits (Z.abs_N e)) e) as P.
    replace (if negb _ then _ else _) with (if is_nil (skipn 1 ds) then [] else "."%char :: skipn 1 ds) in P
      by by destruct (is_nil _).
    rewrite P; try done.
    + apply Hfin; [by rewrite firstn_skipn|rewrite length_skipn; lia|done].
    + by destruct ds.
    + by destruct (skipn 1 ds).
    + apply parse_exponent_str.
Qed.

Lemma forallb_sublist (f : ascii -> bool) n l : forallb f l = true ->
  forallb f (firstn n l) = true /\ forallb f (skipn n l) = true.
Proof.
  intros H. rewrite <- (firstn_skipn n l), forallb_app in H. by apply andb_true_iff in H.
Qed.

Lemma str_unsigned_shape d : exists c t, str_list (unsigned d) = c :: t /\ is_digit c = true /\
  forallb decimal_char (c :: t) = true.
Proof.
  destruct (digits_spec (dcoef d)) as (Hne & Hd & _). pose proof (digits_plain (dcoef d)) as Hp.
  unfold str_list, unsigned. cbn [dneg dcoef dexp]. set (ds := digits (dcoef d)) in *.
  assert (forall n, forallb decimal_char (firstn n ds) = true /\ forallb decimal_char (skipn n ds) = true)
    as Hs by (intros; by apply forallb_sublist).
  destruct ds as [|c t] eqn:Eds; [done|]. simpl in Hd. apply andb_true_iff in Hd as [Hc _].
  destruct ((dexp d <=? 0) && _) eqn:E; [|].
  - apply andb_true_iff in E as [E1 E2]. zify_bool. destruct (Z.leb_spec (dexp d + Z.of_nat (length (c :: t))) 0).
    + eexists _, _. split; [reflexivity|]. split; [done|]. cbn [forallb]. rewrite forallb_app, Hp.
      assert (forallb decimal_char (zeros (- (dexp d + Z.of_nat (length (c :: t))))) = true) as ->; [|done].
      unfold zeros. by induction (Z.to_nat _).
    + destruct (dexp d =? 0); [eexists _, _; split; [reflexivity|done]|].
      destruct (Hs (Z.to_nat (dexp d + Z.of_nat (length (c :: t))))) as [H1 H2].
      destruct (Z.to_nat _) as [|k] eqn:Ek; [lia|]. cbn [firstn skipn] in *. eexists _, _.
      split; [reflexivity|]. split; [done|]. rewrite app_comm_cons, forallb_app, H1. cbn. by rewrite H2.
  - destruct (Hs 1%nat) as [H1 H2]. cbn [firstn skipn] in *. eexists _, _.
    split; [reflexivity|]. split; [done|]. cbn [app forallb] in *. rewrite andb_true_r in H1. rewrite H1.
    rewrite !forallb_app. cbn [forallb]. rewrite digits_plain.
    change (drop 0 t) with t in *. change (take 0 t) with (@nil ascii).
    destruct (is_nil t); cbn [forallb]; rewrite ?H2; by destruct (_ <? 0).
Qed.

Lemma parse_decimal_text l neg u c t :
  forallb decimal_char l = true -> u = c :: t -> is_digit c = true ->
  l = (if neg : bool then "-"%char :: u else u) ->
  parse_decimal (string_of_list_ascii l) = option_map Finite (parse_finite neg u).
Proof.
  intros Hp -> Hc Hl. unfold parse_decimal.
  rewrite list_ascii_string_id, strip_list_plain, filter_plain by done.
  rewrite Hl. destruct neg.
  - change (Ascii.eqb "-" "-") with true. cbv iota. by rewrite no_special_text.
  - destruct (digit_facts c Hc) as (E1 & E2 & _). rewrite E1, E2. by rewrite no_special_text.
Qed.

(** Decimals survive a round trip through text.  [Decimal(str(d))] is the
    same number with the same sign, coefficient and exponent, for every finite
    decimal whose exponents the module can represent; all three layouts of
    [str] (plain, leading zeros, scientific) are covered. *)
Lemma decimal_text_roundtrip d :
  exponent_in_range d = true -> Decimal (str_decimal d) = Ok (Finite d).
Proof.
  intros Hr. destruct (str_unsigned_shape d) as (c & t & Hu & Hc & Hp).
  unfold Decimal, str_decimal.
  rewrite (parse_decimal_text _ (dneg d) (str_list (unsigned d)) c t); [|..]; try done.
  - by rewrite parse_unsigned_str.
  - unfold str_list, unsigned in *. cbn [dneg dcoef dexp] in *. rewrite <- Hu in Hp.
    destruct (dneg d); [|exact Hp]. cbn [forallb]. by rewrite Hp.
Qed.
