(* ===== verification/PyFloat.v ===== *)
(** Python's [float] (binary64) as the code uses it, on the Standard Library's
    [SpecFloat]: comparisons, sums, products, correctly rounded integer
    quotients and the floor-style remainder. *)
From S2P Require Import Prelude.
From Stdlib Require Export SpecFloat.
Local Open Scope Z_scope.
Local Open Scope bool_scope.

Definition float : Type := spec_float.
Definition fadd : float -> float -> float := SFadd 53 1024.
Definition fsub : float -> float -> float := SFsub 53 1024.
Definition fmul : float -> float -> float := SFmul 53 1024.
Definition flt (x y : float) : bool := SFltb x y.
Definition fle (x y : float) : bool := SFleb x y.
Definition feq (x y : float) : bool := SFeqb x y.

(** The float nearest to [m * 2^e], ties to even. *)
Definition float_of (m e : Z) : float := binary_normalize 53 1024 m e false.
Definition fzero : float := float_of 0 0.

(** [int] converted to [float]; too large a magnitude raises. *)
Definition float_of_int (n : Z) : res float :=
  match float_of n 0 with
  | S754_infinity _ => Raise (OverflowError "int too large to convert to float")
  | f => Ok f
  end.

(** [n / d] on integers: the float nearest to the exact quotient.  The
    quotient is taken with at least 60 significant bits, and a last bit records
    whether the division was exact, so the rounding to 53 bits is correct. *)
Definition true_div (n d : Z) : res float :=
  if d =? 0 then Raise (RuntimeError "division by zero")
  else
    let a := Z.abs n in
    let b := Z.abs d in
    let k := Z.max 0 (60 + Z.log2 b - Z.log2 a) in
    let q := Z.shiftl a k / b in
    let sticky := if Z.shiftl a k mod b =? 0 then 0 else 1 in
    let m := 2 * q + sticky in
    match float_of (if (n <? 0) && (0 <? d) || (0 <? n) && (d <? 0) then - m else m) (- k - 1) with
    | S754_infinity _ => Raise (OverflowError "integer division result too large for a float")
    | f => Ok f
    end.

(** [min(a, b)] and [max(a, b)] keep the first of equal arguments. *)
Definition fmin (a b : float) : float := if flt b a then b else a.
Definition fmax (a b : float) : float := if flt a b then b else a.

(** Exact integer value of a finite float at exponent [e]. *)
Definition sf_int (e : Z) (x : float) : option Z :=
  match x with
  | S754_zero _ => Some 0
  | S754_finite s m ex =>
      let v := Z.shiftl (Zpos m) (ex - e) in Some (if s then - v else v)
  | _ => None
  end.
Definition sf_exp (x : float) : Z :=
  match x with S754_finite _ _ e => e | _ => 0 end.

(** [x % n] for a positive integer [n]: the remainder of the floored division;
    [nan] for infinities and [nan]. *)
Definition fmod_int (x : float) (n : Z) : float :=
  let e := Z.min 0 (sf_exp x) in
  match sf_int e x with
  | Some v => float_of (v mod (Z.shiftl n (- e))) e
  | None => S754_nan
  end.

(** [timedelta.total_seconds()] of a duration in microseconds. *)
Definition total_seconds (us : Z) : res float := true_div us 1000000.

Lemma fmin_le a b : fmin a b = a \/ flt (fmin a b) a = true.
Proof. unfold fmin. destruct (flt b a) eqn:E; auto. Qed.

(** [x % n] with the conversion of the integer [n] to a float first. *)
Definition fmod_by (x : float) (n : Z) : res float :=
  f ← float_of_int n;
  match sf_int 0 f with
  | Some v => mret (fmod_int x v)
  | None => mret S754_nan
  end.

(** [int(x)] of a finite float *)
Definition float_trunc (x : float) : Z :=
  match x with
  | S754_finite s m e =>
      let v := if 0 <=? e then Z.shiftl (Zpos m) e else Z.shiftr (Zpos m) (- e) in if s then - v else v
  | _ => 0
  end.
