(* ===== verification/Sha256.v ===== *)
(** [hashlib.sha256(...).hexdigest()]: SHA-256 of FIPS 180-4 on bytes, with
    32-bit words as [N] and the wrap-around written out. *)
From S2P Require Import Prelude.
Local Open Scope N_scope.

Definition w32 (n : N) : N := N.land n 4294967295.
Definition add32 (a b : N) : N := w32 (a + b).
Definition rotr (n x : N) : N := N.lor (N.shiftr x n) (w32 (N.shiftl x (32 - n))).
Definition not32 (x : N) : N := 4294967295 - x.

Definition Ch (x y z : N) : N := N.lxor (N.land x y) (N.land (not32 x) z).
Definition Maj (x y z : N) : N := N.lxor (N.lxor (N.land x y) (N.land x z)) (N.land y z).
Definition Sigma0 (x : N) : N := N.lxor (N.lxor (rotr 2 x) (rotr 13 x)) (rotr 22 x).
Definition Sigma1 (x : N) : N := N.lxor (N.lxor (rotr 6 x) (rotr 11 x)) (rotr 25 x).
Definition sigma0 (x : N) : N := N.lxor (N.lxor (rotr 7 x) (rotr 18 x)) (N.shiftr x 3).
Definition sigma1 (x : N) : N := N.lxor (N.lxor (rotr 17 x) (rotr 19 x)) (N.shiftr x 10).

Definition K256 : list N :=
  [1116352408; 1899447441; 3049323471; 3921009573; 961987163; 1508970993;
   2453635748; 2870763221; 3624381080; 310598401; 607225278; 1426881987;
   1925078388; 2162078206; 2614888103; 3248222580; 3835390401; 4022224774;
   264347078; 604807628; 770255983; 1249150122; 1555081692; 1996064986;
   2554220882; 2821834349; 2952996808; 3210313671; 3336571891; 3584528711;
   113926993; 338241895; 666307205; 773529912; 1294757372; 1396182291;
   1695183700; 1986661051; 2177026350; 2456956037; 2730485921; 2820302411;
   3259730800; 3345764771; 3516065817; 3600352804; 4094571909; 275423344;
   430227734; 506948616; 659060556; 883997877; 958139571; 1322822218;
   1537002063; 1747873779; 1955562222; 2024104815; 2227730452; 2361852424;
   2428436474; 2756734187; 3204031479; 3329325298].

Definition H256 : list N :=
  [1779033703; 3144134277; 1013904242; 2773480762; 1359893119; 2600822924;
   528734635; 1541459225].

(** Padding: 0x80, zeros to 56 modulo 64, the bit length in eight bytes. *)
Definition byte_of (n k : N) : N := N.land (N.shiftr n (8 * k)) 255.
Definition pad (msg : list N) : list N :=
  let len := N.of_nat (List.length msg) in
  let z := (119 - len mod 64) mod 64 in
  msg ++ 128 :: repeat 0 (N.to_nat z) ++ map (byte_of (8 * len)) [7;6;5;4;3;2;1;0].

Fixpoint words (bytes : list N) : list N :=
  match bytes with
  | a :: b :: c :: d :: rest =>
      (N.shiftl a 24 + N.shiftl b 16 + N.shiftl c 8 + d) :: words rest
  | _ => []
  end.

(** Message schedule, newest word first. *)
Fixpoint schedule (n : nat) (w : list N) : list N :=
  match n with
  | O => w
  | S n =>
      let t := add32 (add32 (sigma1 (nth 1 w 0)) (nth 6 w 0))
                     (add32 (sigma0 (nth 14 w 0)) (nth 15 w 0)) in
      schedule n (t :: w)
  end.

Definition round (s : list N) (kw : N * N) : list N :=
  match s with
  | [a; b; c; d; e; f; g; h] =>
      let t1 := add32 (add32 (add32 h (Sigma1 e)) (add32 (Ch e f g) (fst kw))) (snd kw) in
      let t2 := add32 (Sigma0 a) (Maj a b c) in
      [add32 t1 t2; a; b; c; add32 d t1; e; f; g]
  | _ => s
  end.

Definition compress (h : list N) (block : list N) : list N :=
  let w := rev (schedule 48 (rev block)) in
  zip_with add32 h (fold_left round (zip K256 w) h).

Fixpoint blocks (fuel : nat) (ws : list N) (h : list N) : list N :=
  match fuel, ws with
  | S fuel, _ :: _ => blocks fuel (skipn 16 ws) (compress h (firstn 16 ws))
  | _, _ => h
  end.

Definition hex_digit (n : N) : ascii :=
  ascii_of_N (if n <? 10 then 48 + n else 87 + n).
Definition hex32 (w : N) : list ascii :=
  map (fun k => hex_digit (N.land (N.shiftr w (4 * k)) 15)) [7;6;5;4;3;2;1;0].

Definition sha256 (s : string) : string :=
  let ws := words (pad (map N_of_ascii (list_ascii_of_string s))) in
  string_of_list_ascii (flat_map hex32 (blocks (List.length ws) ws H256)).

(** A digest is always 64 lower-case hexadecimal characters. *)
Lemma hex_digit_spec n : n <= 15 -> is_hex_lower (hex_digit n) = true.
Proof.
  intros H. unfold is_hex_lower, hex_digit.
  destruct (N.ltb_spec n 10); rewrite N_ascii_embedding by lia; apply orb_true_iff;
    [left|right]; apply andb_true_iff; split; apply N.leb_le; lia.
Qed.

Lemma hex32_spec w : length (hex32 w) = 8%nat /\ forallb is_hex_lower (hex32 w) = true.
Proof.
  unfold hex32. rewrite length_map. split; [reflexivity|]. cbn [map forallb].
  assert (forall x, is_hex_lower (hex_digit (N.land x 15)) = true) as E.
  { intros x. apply hex_digit_spec. change 15 with (N.ones 4). rewrite N.land_ones.
    change (2 ^ 4) with 16. change (N.ones 4) with 15. pose proof (N.mod_lt x 16 ltac:(done)). lia. }
  rewrite !E. reflexivity.
Qed.

Lemma round_length s kw : length s = 8%nat -> length (round s kw) = 8%nat.
Proof.
  intros H. destruct s as [|a [|b [|c [|d [|e [|f [|g [|h [|? ?]]]]]]]]]; try discriminate H.
  reflexivity.
Qed.

Lemma rounds_length l : forall s, length s = 8%nat -> length (fold_left round l s) = 8%nat.
Proof.
  induction l as [|x l IH]; intros s H; cbn [fold_left]; [exact H|]. by apply IH, round_length.
Qed.

Lemma compress_length h b : length h = 8%nat -> length (compress h b) = 8%nat.
Proof.
  intros H. unfold compress. rewrite length_zip_with, H, rounds_length by done. done.
Qed.

Lemma blocks_length f : forall ws h, length h = 8%nat -> length (blocks f ws h) = 8%nat.
Proof.
  induction f as [|f IH]; intros ws h H; [done|]. simpl.
  destruct ws; [done|]. by apply IH, compress_length.
Qed.

Lemma hex_words l : length (flat_map hex32 l) = (8 * length l)%nat /\
  forallb is_hex_lower (flat_map hex32 l) = true.
Proof.
  induction l as [|w l [IH1 IH2]]; [done|]. destruct (hex32_spec w) as [H1 H2].
  cbn [flat_map]. rewrite length_app, forallb_app, H1, H2, IH1, IH2. cbn [length]. split; [lia|done].
Qed.

Lemma sha256_text s : is_sha256_text (sha256 s) = true.
Proof.
  unfold is_sha256_text, str_len, sha256.
  set (ws := words _). destruct (hex_words (blocks (length ws) ws H256)) as [H1 H2].
  rewrite list_ascii_string_id, H2, andb_true_r.
  set (l := flat_map _ _) in *.
  assert (String.length (string_of_list_ascii l) = length l) as ->.
  { clear. induction l; simpl; congruence. }
  rewrite H1, blocks_length by done. done.
Qed.
