(* ===== verification/PyText.v ===== *)
(** The texts the code hashes and stores: [datetime.isoformat()] and
    [json.dumps(..., ensure_ascii=True, separators=(",", ":"), sort_keys=True)].
    Text is ASCII; bytes above 126 are escaped like control characters. *)
From S2P Require Import Prelude PyDecimal DecimalFacts DecimalText Sha256.
Local Open Scope Z_scope.
Local Open Scope bool_scope.

(** ** Integers *)

(** [str(n)] *)
Definition str_int (n : Z) : string :=
  string_of_list_ascii (if n <? 0 then "-"%char :: digits (Z.abs_N n) else digits (Z.abs_N n)).

(** [f"{n:0wd}"] of a non-negative number *)
Definition padded (w : nat) (n : Z) : string :=
  let ds := digits (Z.abs_N n) in
  string_of_list_ascii (repeat "0"%char (w - length ds)%nat ++ ds).

(** ** [isoformat] *)

Definition day_us : Z := 86400000000.

Definition days_before_month (leap : bool) (m : Z) : Z :=
  nth (Z.to_nat (m - 1)) [0; 31; 59; 90; 120; 151; 181; 212; 243; 273; 304; 334; 365] 0
  + (if leap && (3 <=? m) then 1 else 0).

(** Month and day of a day of the year, counting from zero. *)
Fixpoint month_of (fuel : nat) (leap : bool) (m n : Z) : Z * Z :=
  match fuel with
  | O => (m, n + 1 - days_before_month leap m)
  | S fuel => if n <? days_before_month leap (m + 1) then (m, n + 1 - days_before_month leap m)
              else month_of fuel leap (m + 1) n
  end.

(** [date.fromordinal(n + 1)]: year, month and day. *)
Definition civil (n : Z) : Z * Z * Z :=
  let y400 := n / 146097 in let n := n mod 146097 in
  let n100 := n / 36524 in let n := n mod 36524 in
  let n4 := n / 1461 in let n := n mod 1461 in
  let n1 := n / 365 in let n := n mod 365 in
  let year := y400 * 400 + 1 + n100 * 100 + n4 * 4 + n1 in
  if (n1 =? 4) || (n100 =? 4) then (year - 1, 12, 31)
  else
    let leap := (n1 =? 3) && (negb (n4 =? 24) || (n100 =? 3)) in
    let '(m, d) := month_of 11 leap 1 n in (year, m, d).

Definition fraction_text (us : Z) : string :=
  if us =? 0 then "" else "." ++ padded 6 us.

Definition offset_text (o : option Z) : string :=
  match o with
  | None => ""
  | Some o =>
      let a := Z.abs o in
      let s := a / 1000000 in
      (if o <? 0 then "-" else "+") ++ padded 2 (s / 3600) ++ ":" ++ padded 2 (s / 60 mod 60) ++
      (if (s mod 60 =? 0) && (a mod 1000000 =? 0) then ""
       else ":" ++ padded 2 (s mod 60) ++ fraction_text (a mod 1000000))
  end.

Definition isoformat (d : datetime) : string :=
  let '(y, m, day) := civil (dt_local d / day_us) in
  let t := dt_local d mod day_us in
  let s := t / 1000000 in
  padded 4 y ++ "-" ++ padded 2 m ++ "-" ++ padded 2 day ++ "T" ++
  padded 2 (s / 3600) ++ ":" ++ padded 2 (s / 60 mod 60) ++ ":" ++ padded 2 (s mod 60) ++
  fraction_text (t mod 1000000) ++ offset_text (dt_offset d).

(** ** [json.dumps] *)

#[warnings="-register-all"]
Inductive json : Type :=
| JNull
| JBool (b : bool)
| JInt (n : Z)
| JStr (s : string)
| JList (l : list json)
| JObj (l : list (string * json)).

Definition quote : ascii := ascii_of_N 34.
Definition backslash : ascii := ascii_of_N 92.

(** [ESCAPE_ASCII] of the encoder: everything outside the printable range,
    the quote and the backslash. *)
Definition escape_char (c : ascii) : list ascii :=
  let n := N_of_ascii c in
  if (n =? 34)%N || (n =? 92)%N then [backslash; c]
  else if (n =? 10)%N then [backslash; "n"%char]
  else if (n =? 13)%N then [backslash; "r"%char]
  else if (n =? 9)%N then [backslash; "t"%char]
  else if (n =? 8)%N then [backslash; "b"%char]
  else if (n =? 12)%N then [backslash; "f"%char]
  else if ((32 <=? n) && (n <=? 126))%N then [c]
  else backslash :: "u"%char :: "0"%char :: "0"%char ::
       [hex_digit (N.shiftr n 4); hex_digit (N.land n 15)].

(** What [json.dumps] is told: how a character inside a string is written, and
    what follows a comma or a colon. *)
Section Dump.

Context (escape : ascii -> list ascii) (space : list ascii).

Definition dump_string_with (s : string) : list ascii :=
  quote :: flat_map escape (list_ascii_of_string s) ++ [quote].

Fixpoint separated_with (l : list (list ascii)) : list ascii :=
  match l with
  | [] => []
  | [x] => x
  | x :: l' => x ++ ","%char :: space ++ separated_with l'
  end.

(** Objects are written in the order of their fields; the code always passes
    [sort_keys=True], so every object of the model lists its keys sorted. *)
Fixpoint dump_with (j : json) : list ascii :=
  match j with
  | JNull => list_ascii_of_string "null"
  | JBool b => list_ascii_of_string (if b then "true" else "false")
  | JInt n => list_ascii_of_string (str_int n)
  | JStr s => dump_string_with s
  | JList l => "["%char :: separated_with (map dump_with l) ++ ["]"%char]
  | JObj l => "{"%char ::
      separated_with (map (fun kv => dump_string_with (fst kv) ++ ":"%char :: space ++ dump_with (snd kv)) l)
      ++ ["}"%char]
  end.

End Dump.

(** [json.dumps(j, ensure_ascii=True, separators=(",", ":"))] *)
Definition dump (j : json) : list ascii := dump_with escape_char [] j.

(** [json.dumps(j)], with the separators ", " and ": " *)
Definition dump_spaced (j : json) : list ascii := dump_with escape_char [" "%char] j.

(** [ensure_ascii=False] leaves every character from the space on alone. *)
Definition escape_raw (c : ascii) : list ascii :=
  if (N_of_ascii c =? 127)%N then [c] else escape_char c.

(** [json.dumps(j, ensure_ascii=False, separators=(",", ":"))] *)
Definition dump_raw (j : json) : list ascii := dump_with escape_raw [] j.

Definition dumps (j : json) : string := string_of_list_ascii (dump j).

(** ** [str.replace] *)

Fixpoint is_prefix (p l : list ascii) : option (list ascii) :=
  match p, l with
  | [], _ => Some l
  | c :: p', d :: l' => if Ascii.eqb c d then is_prefix p' l' else None
  | _, [] => None
  end.

(** Every occurrence of a non-empty [old], left to right. *)
Fixpoint replace_fuel (fuel : nat) (old new l : list ascii) : list ascii :=
  match fuel, l with
  | S fuel, c :: l' =>
      match is_prefix old l with
      | Some rest => new ++ replace_fuel fuel old new rest
      | None => c :: replace_fuel fuel old new l'
      end
  | _, _ => l
  end.

Definition str_replace (old new s : string) : string :=
  let l := list_ascii_of_string s in
  string_of_list_ascii
    (replace_fuel (length l) (list_ascii_of_string old) (list_ascii_of_string new) l).

(** [value.astimezone(UTC).isoformat().replace("+00:00", "Z")] *)
Definition timestamp_z (d : datetime) : string :=
  str_replace "+00:00" "Z" (isoformat (astimezone_utc d)).

Definition opt_str (o : option string) : json :=
  match o with Some s => JStr s | None => JNull end.

(** ** [str] and [repr] of decoded JSON values *)

(** [repr] of one character inside the chosen quotes. *)
Definition repr_char (q c : ascii) : list ascii :=
  let n := N_of_ascii c in
  if Ascii.eqb c q || (n =? 92)%N then [backslash; c]
  else if (n =? 10)%N then [backslash; "n"%char]
  else if (n =? 13)%N then [backslash; "r"%char]
  else if (n =? 9)%N then [backslash; "t"%char]
  else if ((32 <=? n) && (n <=? 126))%N then [c]
  else [backslash; "x"%char; hex_digit (N.shiftr n 4); hex_digit (N.land n 15)].

(** Single quotes unless the text has one and no double quote. *)
Definition repr_string (s : string) : list ascii :=
  let single := ascii_of_N 39 in
  let q := if str_contains_char single s && negb (str_contains_char quote s) then quote else single in
  q :: flat_map (repr_char q) (list_ascii_of_string s) ++ [q].

Fixpoint joined (l : list (list ascii)) : list ascii :=
  match l with
  | [] => []
  | [x] => x
  | x :: l' => x ++ ","%char :: " "%char :: joined l'
  end.

Fixpoint py_repr (j : json) : list ascii :=
  match j with
  | JNull => list_ascii_of_string "None"
  | JBool b => list_ascii_of_string (if b then "True" else "False")
  | JInt n => list_ascii_of_string (str_int n)
  | JStr s => repr_string s
  | JList l => "["%char :: joined (map py_repr l) ++ ["]"%char]
  | JObj l => "{"%char ::
      joined (map (fun kv => repr_string (fst kv) ++ ":"%char :: " "%char :: py_repr (snd kv)) l) ++ ["}"%char]
  end.

(** [str(value)] *)
Definition py_str (j : json) : string :=
  match j with JStr s => s | _ => string_of_list_ascii (py_repr j) end.

(** ** [int(text)] *)

(** Digits, with single underscores between them. *)
Fixpoint int_digits (after_digit : bool) (l : list ascii) (n : N) : option N :=
  match l with
  | [] => if after_digit then Some n else None
  | c :: l' =>
      if is_digit c then int_digits true l' (10 * n + digit_value c)
      else if Ascii.eqb c "_"%char && after_digit then int_digits false l' n
      else None
  end.

Definition parse_int (s : string) : option Z :=
  match list_ascii_of_string (strip s) with
  | "-"%char :: l => option_map (fun n => - Z.of_N n) (int_digits false l 0)
  | "+"%char :: l => option_map Z.of_N (int_digits false l 0)
  | l => option_map Z.of_N (int_digits false l 0)
  end.

(** ** [str.startswith] and the text after the last separator *)

Definition starts_with (p s : string) : bool :=
  match is_prefix (list_ascii_of_string p) (list_ascii_of_string s) with Some _ => true | None => false end.

Fixpoint after_last (c : ascii) (acc l : list ascii) : list ascii :=
  match l with
  | [] => acc
  | x :: l' => if Ascii.eqb x c then after_last c l' l' else after_last c acc l'
  end.
(** [s.rsplit(c, 1)[-1]] *)
Definition last_part (c : ascii) (s : string) : string :=
  let l := list_ascii_of_string s in string_of_list_ascii (after_last c l l).
