(* ===== verification/JsonText.v ===== *)
(** [json.loads], and the round trip with [json.dumps].  Floats and characters
    outside ASCII leave the model ([Unmodelled]); every other text is decoded,
    or refused with the [JSONDecodeError] (a [ValueError]) of the scanner. *)
From S2P Require Import Prelude PyDecimal DecimalFacts DecimalText Sha256 PyText.
Local Open Scope Z_scope.
Local Open Scope bool_scope.

(** ** The scanner *)

Definition json_error : exn := ValueError "JSONDecodeError".

Definition is_ws (c : ascii) : bool :=
  let n := N_of_ascii c in ((n =? 32) || (n =? 9) || (n =? 10) || (n =? 13))%N.

Fixpoint skip_ws (l : list ascii) : list ascii :=
  match l with
  | c :: l' => if is_ws c then skip_ws l' else l
  | [] => []
  end.

Definition hex_value (c : ascii) : option N :=
  let n := N_of_ascii c in
  if is_digit c then Some (n - 48)%N
  else if ((97 <=? n) && (n <=? 102))%N then Some (n - 87)%N
  else if ((65 <=? n) && (n <=? 70))%N then Some (n - 55)%N
  else None.

(** The four digits after [\u]. *)
Definition hex4 (a b c d : ascii) : option N :=
  va ← hex_value a; vb ← hex_value b; vc ← hex_value c; vd ← hex_value d;
  Some (((va * 16 + vb) * 16 + vc) * 16 + vd)%N.

(** A character of the string being read, in front of what follows it. *)
Definition put_char (c : ascii) (r : res (list ascii * list ascii)) : res (list ascii * list ascii) :=
  '(s, rest) ← r; mret (c :: s, rest).

Definition simple_escape (c : ascii) : option ascii :=
  let n := N_of_ascii c in
  if ((n =? 34) || (n =? 92) || (n =? 47))%N then Some c
  else if (n =? 98)%N then Some (ascii_of_N 8)
  else if (n =? 102)%N then Some (ascii_of_N 12)
  else if (n =? 110)%N then Some (ascii_of_N 10)
  else if (n =? 114)%N then Some (ascii_of_N 13)
  else if (n =? 116)%N then Some (ascii_of_N 9)
  else None.

(** After the opening quote: the text up to the closing one, and the rest. *)
Fixpoint scan_string (l : list ascii) : res (list ascii * list ascii) :=
  match l with
  | [] => Raise json_error
  | c :: l1 =>
      let n := N_of_ascii c in
      if (n =? 34)%N then Ok ([], l1)
      else if (n =? 92)%N then
        match l1 with
        | [] => Raise json_error
        | e :: l2 =>
            if Ascii.eqb e "u"%char then
              match l2 with
              | h1 :: h2 :: h3 :: h4 :: l3 =>
                  match hex4 h1 h2 h3 h4 with
                  | None => Raise json_error
                  | Some u => if (127 <? u)%N then Raise (Unmodelled "non-ASCII text")
                              else put_char (ascii_of_N u) (scan_string l3)
                  end
              | _ => Raise json_error
              end
            else match simple_escape e with
                 | Some x => put_char x (scan_string l2)
                 | None => Raise json_error
                 end
        end
      else if (n <=? 31)%N then Raise json_error
      else put_char c (scan_string l1)
  end.

(** Digits not starting with a zero, or one zero. *)
Definition int_token (l : list ascii) : option (list ascii * list ascii) :=
  match l with
  | c :: l' => if Ascii.eqb c "0"%char then Some ([c], l')
               else if is_digit c then Some (span_digits l) else None
  | [] => None
  end.

(** The text of a fraction or of an exponent follows: the number is a float. *)
Definition float_follows (l : list ascii) : bool :=
  match l with
  | c :: d :: l' =>
      (Ascii.eqb c "."%char && is_digit d)
      || ((Ascii.eqb c "e"%char || Ascii.eqb c "E"%char)
          && (is_digit d
              || ((Ascii.eqb d "+"%char || Ascii.eqb d "-"%char)
                  && match l' with x :: _ => is_digit x | [] => false end)))
  | _ => false
  end.

(** [sys.get_int_max_str_digits()] *)
Definition int_max_str_digits : nat := N.to_nat 4300.

Definition number (neg : bool) (l : list ascii) : res (json * list ascii) :=
  match int_token l with
  | None => Raise json_error
  | Some (ds, rest) =>
      if float_follows rest then Raise (Unmodelled "float")
      else if (int_max_str_digits <? length ds)%nat then
        Raise (ValueError "Exceeds the limit for integer string conversion")
      else
        let n := Z.of_N (num_of ds) in Ok (JInt (if neg then - n else n), rest)
  end.

Definition keyword (word : string) (j : json) (l : list ascii) : res (json * list ascii) :=
  match is_prefix (list_ascii_of_string word) l with
  | Some rest => Ok (j, rest)
  | None => Raise json_error
  end.

Definition is_float_word (l : list ascii) : bool :=
  existsb (fun w => match is_prefix (list_ascii_of_string w) l with Some _ => true | None => false end)
    ["NaN"; "Infinity"; "-Infinity"].

(** Values that are neither a string nor a container. *)
Definition scan_scalar (l : list ascii) : res (json * list ascii) :=
  match l with
  | [] => Raise json_error
  | c :: l' =>
      if Ascii.eqb c "n"%char then keyword "null" JNull l
      else if Ascii.eqb c "t"%char then keyword "true" (JBool true) l
      else if Ascii.eqb c "f"%char then keyword "false" (JBool false) l
      else if is_float_word l then Raise (Unmodelled "float")
      else if Ascii.eqb c "-"%char then number true l'
      else number false l
  end.

(** What a closed object becomes: [dict(pairs)], or [object_pairs_hook]. *)
Section Scanner.

Context (hook : list (string * json) -> res (list (string * json))).

(** The next significant character must be [c]. *)
Definition expect (c : ascii) (l : list ascii) : res (list ascii) :=
  match skip_ws l with
  | x :: l' => if Ascii.eqb x c then Ok l' else Raise json_error
  | [] => Raise json_error
  end.

(** [scan_once], and the loops of arrays and objects after their first
    bracket.  The fuel bounds the characters left; [acc] holds what the
    container has so far. *)
Fixpoint scan_value (fuel : nat) (l : list ascii) : res (json * list ascii) :=
  match fuel with
  | O => Raise (Unmodelled "fuel")
  | S fuel =>
      match l with
      | c :: l' =>
          if Ascii.eqb c quote then '(s, rest) ← scan_string l'; mret (JStr (string_of_list_ascii s), rest)
          else if Ascii.eqb c "["%char then
            match skip_ws l' with
            | d :: rest => if Ascii.eqb d "]"%char then Ok (JList [], rest)
                           else scan_items fuel [] (d :: rest)
            | [] => Raise json_error
            end
          else if Ascii.eqb c "{"%char then
            match skip_ws l' with
            | d :: rest => if Ascii.eqb d "}"%char then ps ← hook []; mret (JObj ps, rest)
                           else scan_members fuel [] (d :: rest)
            | [] => Raise json_error
            end
          else scan_scalar l
      | [] => Raise json_error
      end
  end
with scan_items (fuel : nat) (acc : list json) (l : list ascii) : res (json * list ascii) :=
  match fuel with
  | O => Raise (Unmodelled "fuel")
  | S fuel =>
      '(j, rest) ← scan_value fuel l;
      match skip_ws rest with
      | c :: l' =>
          if Ascii.eqb c "]"%char then Ok (JList (acc ++ [j]), l')
          else if Ascii.eqb c ","%char then scan_items fuel (acc ++ [j]) (skip_ws l')
          else Raise json_error
      | [] => Raise json_error
      end
  end
with scan_members (fuel : nat) (acc : list (string * json)) (l : list ascii) : res (json * list ascii) :=
  match fuel with
  | O => Raise (Unmodelled "fuel")
  | S fuel =>
      match l with
      | q :: l1 =>
          if Ascii.eqb q quote then
            '(k, l2) ← scan_string l1;
            l3 ← expect ":"%char l2;
            '(j, rest) ← scan_value fuel (skip_ws l3);
            let acc := acc ++ [(string_of_list_ascii k, j)] in
            match skip_ws rest with
            | c :: l' =>
                if Ascii.eqb c "}"%char then ps ← hook acc; mret (JObj ps, l')
                else if Ascii.eqb c ","%char then scan_members fuel acc (skip_ws l')
                else Raise json_error
            | [] => Raise json_error
            end
          else Raise json_error
      | [] => Raise json_error
      end
  end.

(** [json.loads(text, object_pairs_hook=hook)] on the characters of a text *)
Definition loads_with (l : list ascii) : res json :=
  '(j, rest) ← scan_value (2 * S (length l)) (skip_ws l);
  match skip_ws rest with [] => Ok j | _ => Raise json_error end.

End Scanner.

(** [json.loads]: the last of several equal keys wins. *)
Definition plain_hook (ps : list (string * json)) : res (list (string * json)) :=
  Ok (dict_of String.eqb ps).

(** The encodings [json.loads] guesses and decodes for bytes agree on ASCII
    text without NUL characters. *)
Definition decode_text (l : list ascii) : res (list ascii) :=
  raise_if (existsb (fun c => negb (is_ascii c) || (N_of_ascii c =? 0)%N) l) (Unmodelled "non-ASCII text");;
  mret l.

Definition loads (l : list ascii) : res json := t ← decode_text l; loads_with plain_hook t.

(** ** Reading decoded values *)

Definition lookup (key : string) (fields : list (string * json)) : res json :=
  match dict_get String.eqb key fields with Some j => Ok j | None => Raise KeyError end.

(** [str(payload[key])] *)
Definition text_field (key : string) (fields : list (string * json)) : res string :=
  py_str <$> lookup key fields.

(** [int(value)] *)
Definition py_int (j : json) : res Z :=
  match j with
  | JInt n => Ok n
  | JBool b => Ok (if b then 1 else 0)
  | JStr s =>
      raise_if (int_max_str_digits <? length (List.filter is_digit (list_ascii_of_string s)))%nat
        (ValueError "Exceeds the limit for integer string conversion");;
      match parse_int s with Some n => Ok n | None => Raise (ValueError "invalid literal for int()") end
  | _ => Raise TypeError
  end.

(** [value[i]] of a decoded value, for a non-negative integer *)
Definition subscript (i : nat) (j : json) : res json :=
  match j with
  | JList l => match nth_error l i with Some x => Ok x | None => Raise IndexError end
  | JStr s => match String.get i s with Some c => Ok (JStr (String c EmptyString)) | None => Raise IndexError end
  | JObj _ => Raise KeyError
  | _ => Raise TypeError
  end.

(** ** Decimal digits *)

Lemma digits_fuel_head f : forall n acc, (N.size_nat n < f)%nat -> (0 < n)%N ->
  exists d ds, digits_fuel f n acc = digit d :: ds /\ (1 <= d < 10)%N.
Proof.
  induction f as [|f IH]; intros n acc Hf Hn; [lia|]. cbn [digits_fuel].
  destruct (N.ltb_spec n 10) as [H|H].
  - exists n, acc. rewrite N.mod_small by done. split; [done|lia].
  - apply IH; [pose proof (size_nat_div10 n H); lia|]. apply N.div_str_pos. lia.
Qed.

Lemma digits_head n : (0 < n)%N -> exists d ds, digits n = digit d :: ds /\ (1 <= d < 10)%N.
Proof. intros H. unfold digits. apply digits_fuel_head; [lia|done]. Qed.

Lemma digits_zero : digits 0 = ["0"%char].
Proof. reflexivity. Qed.

Lemma digits_length n w : (0 < w)%nat -> (n < 10 ^ N.of_nat w)%N -> (length (digits n) <= w)%nat.
Proof.
  intros Hw H. destruct (N.eq_0_gt_0_cases n) as [->|Hn]; [rewrite digits_zero; simpl; lia|].
  destruct (digits_head n Hn) as (d & ds & E & Hd). destruct (digits_spec n) as (_ & _ & Hv).
  rewrite E in *. rewrite num_of_cons, digit_value_digit in Hv by lia. simpl.
  destruct (Nat.le_gt_cases (S (length ds)) w) as [|Hl]; [done|].
  assert (10 ^ N.of_nat w <= 10 ^ N.of_nat (length ds))%N by (apply N.pow_le_mono_r; lia). nia.
Qed.

Lemma num_of_padding k ds : num_of (repeat "0"%char k ++ ds) = num_of ds.
Proof. induction k as [|k IH]; [done|]. cbn [repeat app]. rewrite num_of_cons, IH. done. Qed.

(** ** Round trip *)

Section Json_ind.

Context (P : json -> Prop) (Hnull : P JNull) (Hbool : forall b, P (JBool b)) (Hint : forall n, P (JInt n))
  (Hstr : forall s, P (JStr s)) (Hlist : forall l, Forall P l -> P (JList l))
  (Hobj : forall l, Forall (fun kv => P kv.2) l -> P (JObj l)).

Fixpoint json_nested_ind (j : json) : P j :=
  match j with
  | JNull => Hnull
  | JBool b => Hbool b
  | JInt n => Hint n
  | JStr s => Hstr s
  | JList l => Hlist l ((fix all (l : list json) : Forall P l :=
      match l with [] => List.Forall_nil _ | x :: l' => List.Forall_cons _ _ _ (json_nested_ind x) (all l') end) l)
  | JObj l => Hobj l ((fix all (l : list (string * json)) : Forall (fun kv => P kv.2) l :=
      match l with [] => List.Forall_nil _ | x :: l' => List.Forall_cons _ _ _ (json_nested_ind x.2) (all l') end) l)
  end.

End Json_ind.

(** Values whose text decodes to themselves: ASCII text, integers short
    enough to convert, different keys. *)
Fixpoint json_ok (j : json) : bool :=
  match j with
  | JNull | JBool _ => true
  | JInt n => (length (digits (Z.abs_N n)) <=? int_max_str_digits)%nat
  | JStr s => isascii s
  | JList l => forallb json_ok l
  | JObj l => forallb (fun kv => isascii kv.1 && json_ok kv.2) l && all_unique String.eqb (map fst l)
  end.

Lemma scan_escape c l : is_ascii c = true ->
  scan_string (escape_char c ++ l) = put_char c (scan_string l).
Proof. destruct c as [[] [] [] [] [] [] [] []]; intros H; try discriminate H; reflexivity. Qed.

Lemma scan_escape_raw c l : is_ascii c = true ->
  scan_string (escape_raw c ++ l) = put_char c (scan_string l).
Proof. destruct c as [[] [] [] [] [] [] [] []]; intros H; try discriminate H; reflexivity. Qed.

(** What may follow a value without changing how it is read. *)
Definition ends (rest : list ascii) : bool :=
  match rest with
  | [] => true
  | c :: _ => is_ws c || Ascii.eqb c ","%char || Ascii.eqb c "]"%char || Ascii.eqb c "}"%char
  end.

Lemma ends_number rest : ends rest = true -> not_digit_first rest /\ float_follows rest = false.
Proof.
  destruct rest as [|c rest]; [done|]. cbn [ends not_digit_first]. intros H.
  assert (implb (is_ws c || Ascii.eqb c ","%char || Ascii.eqb c "]"%char || Ascii.eqb c "}"%char)
    (negb (is_digit c) && negb (Ascii.eqb c "."%char) && negb (Ascii.eqb c "e"%char)
     && negb (Ascii.eqb c "E"%char)) = true) as E.
  { clear H. revert c. apply ascii_forall. vm_compute. reflexivity. }
  rewrite H in E. cbn [implb] in E. inv_res. split; [done|].
  destruct rest as [|d rest]; [done|]. unfold float_follows.
  by repeat match goal with F : _ = false |- _ => rewrite F; clear F end.
Qed.

Lemma int_token_digits n rest : not_digit_first rest ->
  int_token (digits n ++ rest) = Some (digits n, rest).
Proof.
  intros Hr. destruct (N.eq_0_gt_0_cases n) as [->|Hn]; [done|].
  destruct (digits_spec n) as (_ & Hd & _). destruct (digits_head n Hn) as (d & ds & E & Hd1).
  rewrite E in *. unfold int_token. cbn [app].
  assert (Ascii.eqb (digit d) "0"%char = false) as ->.
  { apply Ascii.eqb_neq. intros F. apply (f_equal digit_value) in F.
    rewrite digit_value_digit in F by lia. change (digit_value "0") with 0%N in F. lia. }
  rewrite digit_is_digit by lia.
  change (digit d :: ds ++ rest) with ((digit d :: ds) ++ rest). by rewrite span_digits_app.
Qed.

Lemma number_digits neg n rest : ends rest = true ->
  (length (digits n) <=? int_max_str_digits)%nat = true ->
  number neg (digits n ++ rest) = Ok (JInt (if neg then - Z.of_N n else Z.of_N n), rest).
Proof.
  intros [Hr Hf]%ends_number Hl. unfold number. rewrite int_token_digits by done. rewrite Hf.
  rewrite Nat.ltb_antisym, Hl. destruct (digits_spec n) as (_ & _ & ->). done.
Qed.

Section RoundTrip.

Context (escape : ascii -> list ascii)
  (scan_escape : forall c l, is_ascii c = true -> scan_string (escape c ++ l) = put_char c (scan_string l))
  (space : list ascii) (space_ws : forallb is_ws space = true)
  (hook : list (string * json) -> res (list (string * json)))
  (hook_unique : forall ps, all_unique String.eqb (map fst ps) = true -> hook ps = Ok ps).

Local Abbreviation dump := (dump_with escape space).
Local Abbreviation dump_string := (dump_string_with escape).
Local Abbreviation separated := (separated_with space).

Lemma scan_escaped s rest : forallb is_ascii s = true ->
  scan_string (flat_map escape s ++ quote :: rest) = Ok (s, rest).
Proof using scan_escape.
  induction s as [|c s IH]; [done|]. cbn [forallb flat_map]. intros [Hc Hs]%andb_true_iff.
  rewrite <- app_assoc, scan_escape, IH by done. done.
Qed.

(** The white space after a separator is skipped. *)
Lemma skip_space l : skip_ws (space ++ l) = skip_ws l.
Proof using space_ws.
  induction space as [|c k IH]; [done|]. apply andb_true_iff in space_ws as [Hc Hk].
  cbn. rewrite Hc. by apply IH.
Qed.

(** Values read back from their text, whatever follows. *)
Definition reads_back (j : json) : Prop := forall fuel rest,
  (2 * length (dump j) < fuel)%nat -> ends rest = true -> json_ok j = true ->
  scan_value hook fuel (dump j ++ rest) = Ok (j, rest).

Lemma skip_ws_ends c l : is_ws c = false -> skip_ws (c :: l) = c :: l.
Proof. intros H. cbn [skip_ws]. by rewrite H. Qed.

(** The first character of a value's text. *)
Definition opens_value (c : ascii) : bool :=
  negb (is_ws c) && negb (Ascii.eqb c "]"%char) && negb (Ascii.eqb c "}"%char).

Lemma digit_opens c : is_digit c = true -> opens_value c = true.
Proof.
  intros H. assert (implb (is_digit c) (opens_value c) = true) as E; [|by rewrite H in E].
  clear H. revert c. apply ascii_forall. vm_compute. reflexivity.
Qed.

Lemma dump_opens j : exists c t, dump j = c :: t /\ opens_value c = true.
Proof.
  destruct j as [|[]|n|s|l|l]; cbn [dump_with]; try by repeat eexists.
  unfold str_int. rewrite list_ascii_string_id. destruct (n <? 0); [by repeat eexists|].
  destruct (digits_spec (Z.abs_N n)) as (Hne & Hd & _).
  destruct (digits (Z.abs_N n)) as [|c ds]; [done|]. exists c, ds. split; [done|].
  apply digit_opens. by apply andb_true_iff in Hd as [? _].
Qed.

Lemma skip_dump j l : skip_ws (dump j ++ l) = dump j ++ l.
Proof.
  destruct (dump_opens j) as (c & t & -> & H). unfold opens_value in H. inv_res.
  by apply skip_ws_ends.
Qed.

(** Numbers reach [number], with their sign read. *)
Lemma scan_digit fuel c l : is_digit c = true ->
  scan_value hook (S fuel) (c :: l) = number false (c :: l).
Proof. destruct c as [[] [] [] [] [] [] [] []]; intros H; try discriminate H; reflexivity. Qed.

Lemma scan_minus fuel c l : is_digit c = true ->
  scan_value hook (S fuel) ("-"%char :: c :: l) = number true (c :: l).
Proof. destruct c as [[] [] [] [] [] [] [] []]; intros H; try discriminate H; reflexivity. Qed.

Lemma reads_int n : reads_back (JInt n).
Proof.
  intros fuel rest Hf Hr Hok. cbn [dump_with] in *. unfold str_int in *. rewrite list_ascii_string_id in *.
  destruct fuel as [|fuel]; [lia|]. cbn [json_ok] in Hok.
  pose proof (number_digits (n <? 0) (Z.abs_N n) rest Hr Hok) as N.
  destruct (digits_spec (Z.abs_N n)) as (Hne & Hd & _).
  destruct (digits (Z.abs_N n)) as [|c ds] eqn:E; [done|]. apply andb_true_iff in Hd as [Hc _].
  destruct (Z.ltb_spec n 0) as [Hn|Hn]; cbn [app] in *.
  - rewrite scan_minus, N by done. repeat f_equal. lia.
  - rewrite scan_digit, N by done. repeat f_equal. lia.
Qed.

Lemma separated_cons {A} (f : A -> list ascii) x y l :
  separated (map f (x :: y :: l)) = f x ++ ","%char :: space ++ separated (map f (y :: l)).
Proof. done. Qed.

Lemma separated_head {A} (f : A -> list ascii) x l : exists t, separated (map f (x :: l)) = f x ++ t.
Proof. destruct l as [|y l]; [exists []; by rewrite app_nil_r|]. rewrite separated_cons. eauto. Qed.

(** No white space in front of the text of a value. *)
Lemma skip_items x l k : skip_ws (separated (map dump (x :: l)) ++ k) = separated (map dump (x :: l)) ++ k.
Proof. destruct (separated_head dump x l) as [t ->]. rewrite <- app_assoc. apply skip_dump. Qed.

Lemma scan_items_back l : Forall reads_back l -> forall x acc fuel rest, reads_back x ->
  (2 * length (separated (map dump (x :: l))) + 1 < fuel)%nat ->
  forallb json_ok (x :: l) = true ->
  scan_items hook fuel acc (separated (map dump (x :: l)) ++ "]"%char :: rest) =
  Ok (JList (acc ++ x :: l), rest).
Proof.
  induction l as [|y l IH]; intros Hall x acc fuel rest Hx Hf [Hok Hl]%andb_true_iff;
    (destruct fuel as [|fuel]; [lia|]); cbn [scan_items].
  - cbn [map separated] in *. rewrite Hx by (done || lia). done.
  - apply Forall_cons in Hall as [Hy Hall].
    rewrite separated_cons in *. rewrite length_app in Hf. cbn [length] in Hf. rewrite length_app in Hf.
    rewrite <- app_assoc. cbn [app]. rewrite Hx by (done || lia). rewrite Ok_bind.
    rewrite skip_ws_ends, <- app_assoc by done. cbn -[scan_items separated_with map].
    rewrite skip_space, skip_items. rewrite IH by (done || lia). by rewrite <- app_assoc.
Qed.

Definition dump_member (kv : string * json) : list ascii := dump_string kv.1 ++ ":"%char :: space ++ dump kv.2.

Lemma skip_members x l k :
  skip_ws (separated (map dump_member (x :: l)) ++ k) = separated (map dump_member (x :: l)) ++ k.
Proof. destruct (separated_head dump_member x l) as [t ->]. by rewrite <- app_assoc. Qed.

Lemma skip_padding pad c l : forallb is_ws pad = true -> is_ws c = false -> skip_ws (pad ++ c :: l) = c :: l.
Proof.
  intros Hp Hc. induction pad as [|x pad IH]; [by apply skip_ws_ends|].
  cbn [forallb] in Hp. apply andb_true_iff in Hp as [Hx Hp]. cbn [app skip_ws]. rewrite Hx. auto.
Qed.

(** One member, white space and the character after it. *)
Lemma scan_member_back fuel acc k j pad c rest : reads_back j -> isascii k = true -> json_ok j = true ->
  (2 * length (dump_member (k, j)) < fuel)%nat -> forallb is_ws pad = true -> is_ws c = false ->
  ends (pad ++ c :: rest) = true ->
  scan_members hook (S fuel) acc (dump_member (k, j) ++ pad ++ c :: rest) =
  let acc := acc ++ [(k, j)] in
  if Ascii.eqb c "}"%char then ps ← hook acc; mret (JObj ps, rest)
  else if Ascii.eqb c ","%char then scan_members hook fuel acc (skip_ws rest)
  else Raise json_error.
Proof.
  intros Hj Hk Hok Hf Hp Hc He. unfold dump_member, dump_string_with in *. cbn [fst snd] in *.
  rewrite !length_app in Hf. cbn [length] in Hf. rewrite !length_app in Hf.
  cbn [app scan_members]. rewrite Ascii.eqb_refl, <- !app_assoc. cbn [app].
  rewrite scan_escaped by done. rewrite Ok_bind. cbn [fst snd].
  unfold expect. rewrite skip_ws_ends, <- app_assoc by done. cbn -[scan_value dump_with scan_members].
  rewrite skip_space, skip_dump.
  rewrite Hj by (done || lia). rewrite Ok_bind, skip_padding by done.
  by rewrite string_list_ascii_id.
Qed.

Lemma scan_member_tight fuel acc k j c rest : reads_back j -> isascii k = true -> json_ok j = true ->
  (2 * length (dump_member (k, j)) < fuel)%nat -> is_ws c = false -> ends (c :: rest) = true ->
  scan_members hook (S fuel) acc (dump_member (k, j) ++ c :: rest) =
  let acc := acc ++ [(k, j)] in
  if Ascii.eqb c "}"%char then ps ← hook acc; mret (JObj ps, rest)
  else if Ascii.eqb c ","%char then scan_members hook fuel acc (skip_ws rest)
  else Raise json_error.
Proof. intros. by apply (scan_member_back fuel acc k j []). Qed.

Lemma scan_members_back l : Forall (fun kv => reads_back kv.2) l -> forall x acc fuel rest,
  reads_back x.2 -> (2 * length (separated (map dump_member (x :: l))) + 1 < fuel)%nat ->
  forallb (fun kv => isascii kv.1 && json_ok kv.2) (x :: l) = true ->
  all_unique String.eqb (map fst (acc ++ x :: l)) = true ->
  scan_members hook fuel acc (separated (map dump_member (x :: l)) ++ "}"%char :: rest) =
  Ok (JObj (acc ++ x :: l), rest).
Proof.
  induction l as [|y l IH]; intros Hall [k j] acc fuel rest Hx Hf [[Hk Hok]%andb_true_iff Hl]%andb_true_iff Hu;
    (destruct fuel as [|fuel]; [lia|]); cbn [fst snd] in *.
  - cbn [map separated] in *. rewrite scan_member_tight by (done || lia). cbv zeta.
    rewrite Ascii.eqb_refl, hook_unique by done. done.
  - apply Forall_cons in Hall as [Hy Hall].
    rewrite separated_cons in *. rewrite length_app in Hf. cbn [length] in Hf. rewrite length_app in Hf.
    rewrite <- app_assoc. cbn [app]. rewrite scan_member_tight by (done || lia).
    rewrite <- app_assoc. cbn -[scan_members separated_with map]. rewrite skip_space, skip_members.
    rewrite IH; rewrite <- ?app_assoc; done || lia.
Qed.

Lemma reads_all j : reads_back j.
Proof.
  induction j as [|b|n|s|l IH|l IH] using json_nested_ind; intros fuel rest Hf He Hok.
  - destruct fuel; [lia|]. done.
  - destruct fuel; [lia|]. by destruct b.
  - by apply reads_int.
  - destruct fuel as [|fuel]; [lia|]. cbn [dump_with scan_value]. unfold dump_string_with. cbn [app].
    rewrite Ascii.eqb_refl, <- app_assoc. cbn [app]. rewrite scan_escaped by done.
    rewrite Ok_bind. by rewrite string_list_ascii_id.
  - destruct fuel as [|fuel]; [lia|]. cbn [dump_with json_ok] in *. rewrite <- app_comm_cons, <- app_assoc.
    cbn [app length] in *. rewrite length_app in Hf. cbn [length] in Hf.
    destruct l as [|x l]; [done|]. pose proof (skip_items x l ("]"%char :: rest)) as Hs.
    apply Forall_cons in IH as [Hx IH].
    destruct (separated_head dump x l) as [t Ht]. destruct (dump_opens x) as (c & u & Eu & Hc).
    pose proof (scan_items_back l IH x [] fuel rest Hx ltac:(lia) Hok) as G.
    rewrite Ht, Eu in *. cbn [app] in *. unfold opens_value in Hc. inv_res.
    cbn -[scan_items skip_ws]. by rewrite Hs, Hc0.
  - destruct fuel as [|fuel]; [lia|]. cbn [dump_with json_ok] in *. rewrite <- app_comm_cons, <- app_assoc.
    cbn [app length] in *. rewrite length_app in Hf. cbn [length] in Hf.
    apply andb_true_iff in Hok as [Hok Hu].
    destruct l as [|x l]; [cbn; by rewrite hook_unique|]. apply Forall_cons in IH as [Hx IH].
    change (fun kv : string * json => dump_string kv.1 ++ ":"%char :: space ++ dump kv.2) with dump_member in *.
    pose proof (scan_members_back l IH x [] fuel rest Hx ltac:(lia) Hok Hu) as G.
    destruct (separated_head dump_member x l) as [t Ht].
    rewrite Ht in *. unfold dump_member, dump_string_with in G |- *. cbn [app] in *.
    exact G.
Qed.

Lemma dumps_reads_with j rest : json_ok j = true -> forallb is_ws rest = true ->
  loads_with hook (dump j ++ rest) = Ok j.
Proof.
  intros Hok Hr. unfold loads_with. rewrite skip_dump.
  assert (ends rest = true) as He.
  { destruct rest as [|c rest]; [done|]. apply andb_true_iff in Hr as [Hc _]. cbn. by rewrite Hc. }
  rewrite reads_all; [|rewrite length_app; lia|done|done]. rewrite Ok_bind.
  assert (skip_ws rest = []) as ->; [|done].
  clear He. induction rest as [|c rest IH]; [done|]. cbn in *. apply andb_true_iff in Hr as [-> Hr]. auto.
Qed.

End RoundTrip.

Lemma dict_of_distinct {V} (l : list (string * V)) :
  pairwise_distinct String.eqb (map fst l) -> dict_of String.eqb l = l.
Proof.
  unfold dict_of. assert (forall acc, pairwise_distinct String.eqb (map fst (acc ++ l)) ->
    fold_left (fun d kv => dict_set String.eqb kv.1 kv.2 d) l acc = acc ++ l) as G; [|by apply (G [])].
  induction l as [|[k v] l IH]; intros acc H; cbn [fold_left fst snd]; [by rewrite app_nil_r|].
  rewrite dict_set_absent, IH, <- ?app_assoc; [done|by rewrite <- app_assoc|].
  apply dict_get_None. intros k' v' Hin. clear IH. induction acc as [|[k0 v0] acc IH]; [done|].
  cbn in H. destruct H as [H1 H2], Hin as [[= -> ->]|Hin]; [|by apply IH].
  rewrite String.eqb_sym. apply H1. rewrite map_app. apply in_app_iff. right. by left.
Qed.

Lemma plain_hook_unique ps : all_unique String.eqb (map fst ps) = true -> plain_hook ps = Ok ps.
Proof. intros H. unfold plain_hook. by rewrite dict_of_distinct by by apply all_unique_spec. Qed.

(** The text of a value is printable ASCII on one line. *)
Definition printable (c : ascii) : bool := ((32 <=? N_of_ascii c) && (N_of_ascii c <=? 126))%N.

Lemma escape_printable c : forallb printable (escape_char c) = true.
Proof.
  apply (ascii_forall (fun c => forallb printable (escape_char c))). vm_compute. reflexivity.
Qed.

(** What every character of a text satisfies. *)
Section Characters.

Context (escape : ascii -> list ascii) (space : list ascii) (P : ascii -> bool)
  (escape_P : forall c, forallb P (escape c) = true) (space_P : forallb P space = true)
  (printable_P : forall c, printable c = true -> P c = true).

Lemma dump_string_all s : forallb P (dump_string_with escape s) = true.
Proof using escape_P printable_P.
  unfold dump_string_with. cbn [forallb]. rewrite forallb_app. cbn [forallb].
  rewrite !(printable_P quote) by done. rewrite andb_true_r, andb_true_l.
  induction (list_ascii_of_string s) as [|c l IH]; [done|]. cbn [flat_map].
  by rewrite forallb_app, escape_P, IH.
Qed.

Lemma all_printable l : forallb printable l = true -> forallb P l = true.
Proof using printable_P. rewrite !forallb_forall. auto. Qed.

Lemma digits_printable n : forallb printable (digits n) = true.
Proof.
  destruct (digits_spec n) as (_ & H & _). rewrite forallb_forall in *. intros c Hc. apply H in Hc.
  assert (implb (is_digit c) (printable c) = true) as E; [|by rewrite Hc in E].
  clear. revert c. apply ascii_forall. vm_compute. reflexivity.
Qed.

Lemma separated_all l : Forall (fun x => forallb P x = true) l ->
  forallb P (separated_with space l) = true.
Proof using printable_P space_P.
  induction 1 as [|x l Hx Hl IH]; [done|]. destruct l as [|y l]; [done|].
  change (separated_with space (x :: y :: l)) with (x ++ ","%char :: space ++ separated_with space (y :: l)).
  rewrite forallb_app, Hx. cbn [forallb]. rewrite forallb_app, space_P, (printable_P ","%char) by done. exact IH.
Qed.

Lemma dump_all j : forallb P (dump_with escape space j) = true.
Proof using escape_P printable_P space_P.
  induction j as [|[]|n|s|l IH|l IH] using json_nested_ind; cbn [dump_with]; try by apply all_printable.
  - apply all_printable. unfold str_int. rewrite list_ascii_string_id.
    destruct (n <? 0); cbn [forallb]; by rewrite digits_printable.
  - apply dump_string_all.
  - cbn [forallb]. rewrite forallb_app, separated_all by by apply Forall_map. cbn [forallb].
    by rewrite !printable_P.
  - cbn [forallb]. rewrite forallb_app, separated_all.
    + cbn [forallb]. by rewrite !printable_P.
    + apply Forall_map. eapply Forall_impl; [exact IH|]. intros [k j] H. cbn [fst snd] in *.
      rewrite forallb_app, dump_string_all. cbn [forallb].
      by rewrite forallb_app, space_P, H, (printable_P ":"%char).
Qed.

End Characters.

Lemma dump_printable j : forallb printable (dump j) = true.
Proof. apply dump_all; [apply escape_printable|done|done]. Qed.

Lemma dump_spaced_printable j : forallb printable (dump_spaced j) = true.
Proof. apply dump_all; [apply escape_printable|done|done]. Qed.

(** Without [ensure_ascii] the DEL character is left as it is. *)
Definition unescaped (c : ascii) : bool := printable c || (N_of_ascii c =? 127)%N.

Lemma dump_raw_unescaped j : forallb unescaped (dump_raw j) = true.
Proof.
  apply dump_all; [|done|by intros c H; unfold unescaped; rewrite H].
  intros c. apply (ascii_forall (fun c => forallb unescaped (escape_raw c))). vm_compute. reflexivity.
Qed.

Lemma decode_text_Ok l : forallb (fun c => unescaped c || is_ws c) l = true -> decode_text l = Ok l.
Proof.
  intros H. unfold decode_text. assert (existsb (fun c => negb (is_ascii c) || (N_of_ascii c =? 0)%N) l = false) as ->; [|done].
  apply not_true_iff_false. intros (c & Hc & Hx)%existsb_exists. rewrite forallb_forall in H.
  specialize (H c Hc).
  assert (implb (unescaped c || is_ws c) (negb (negb (is_ascii c) || (N_of_ascii c =? 0)%N)) = true) as E.
  { clear. revert c. apply ascii_forall. vm_compute. reflexivity. }
  by rewrite H, Hx in E.
Qed.

Lemma text_decodes l ws : forallb unescaped l = true -> forallb is_ws ws = true ->
  decode_text (l ++ ws) = Ok (l ++ ws).
Proof.
  intros Hd H. apply decode_text_Ok. rewrite forallb_app, andb_true_iff, !forallb_forall in *.
  split; intros c Hc; [by rewrite (Hd c Hc)|by rewrite (H c Hc), orb_true_r].
Qed.

Lemma printable_unescaped l : forallb printable l = true -> forallb unescaped l = true.
Proof. rewrite !forallb_forall. intros H c Hc. unfold unescaped. by rewrite H. Qed.

Lemma dump_decodes j ws : forallb is_ws ws = true -> decode_text (dump j ++ ws) = Ok (dump j ++ ws).
Proof. intros H. by apply text_decodes; [apply printable_unescaped, dump_printable|]. Qed.

(** What [json.dumps] writes, [json.loads] reads back, followed by any white
    space; whichever way it is told to write it. *)
Lemma dump_reads_with hook (hook_unique : forall ps, all_unique String.eqb (map fst ps) = true -> hook ps = Ok ps)
  j ws : json_ok j = true -> forallb is_ws ws = true -> loads_with hook (dump j ++ ws) = Ok j.
Proof. apply dumps_reads_with; [apply scan_escape|done|done]. Qed.

Lemma loads_dump j ws : json_ok j = true -> forallb is_ws ws = true -> loads (dump j ++ ws) = Ok j.
Proof.
  intros Hj Hw. unfold loads. rewrite dump_decodes by done. rewrite Ok_bind.
  by apply dump_reads_with; [apply plain_hook_unique| |].
Qed.

Lemma loads_dump_spaced j ws : json_ok j = true -> forallb is_ws ws = true -> loads (dump_spaced j ++ ws) = Ok j.
Proof.
  intros Hj Hw. unfold loads. rewrite text_decodes by (done || apply printable_unescaped, dump_spaced_printable).
  rewrite Ok_bind. apply dumps_reads_with; [apply scan_escape|done|apply plain_hook_unique|done|done].
Qed.

Lemma loads_dump_raw j ws : json_ok j = true -> forallb is_ws ws = true -> loads (dump_raw j ++ ws) = Ok j.
Proof.
  intros Hj Hw. unfold loads. rewrite text_decodes by (done || apply dump_raw_unescaped).
  rewrite Ok_bind. apply dumps_reads_with; [apply scan_escape_raw|done|apply plain_hook_unique|done|done].
Qed.

(** Texts and integers the records of the code have. *)
Lemma hex_text_ascii s : forallb is_hex_lower (list_ascii_of_string s) = true -> isascii s = true.
Proof.
  unfold isascii. rewrite !forallb_forall. intros H c Hc. specialize (H c Hc).
  assert (implb (is_hex_lower c) (is_ascii c) = true) as E; [|by rewrite H in E].
  clear. revert c. apply ascii_forall. vm_compute. reflexivity.
Qed.

Lemma sha256_ascii s : isascii (sha256 s) = true.
Proof.
  pose proof (sha256_text s) as H. unfold is_sha256_text in H. apply andb_true_iff in H as [_ H].
  by apply hex_text_ascii.
Qed.

Lemma small_int_ok n : 0 <= n <= 1000000 -> json_ok (JInt n) = true.
Proof.
  intros H. cbn [json_ok]. apply Nat.leb_le. etransitivity; [apply (digits_length _ 7); [lia|]|].
  - apply N2Z.inj_lt. rewrite N2Z.inj_pow. cbn. lia.
  - unfold int_max_str_digits. lia.
Qed.

(** ** The fuel is enough *)

(** A step of the scanner that reads at least one character, or raises one of
    the code's own exceptions. *)
Definition consumes {A} (r : res (A * list ascii)) (l : list ascii) : Prop :=
  match r with
  | Ok (_, rest) => (length rest < length l)%nat
  | Raise e => e <> Unmodelled "fuel"
  end.

Lemma consumes_longer {A} (r : res (A * list ascii)) l k :
  consumes r l -> (length l <= length k)%nat -> consumes r k.
Proof. destruct r as [[a rest]|e]; cbn; [lia|done]. Qed.

Lemma consumes_bind {A B} (r : res (A * list ascii)) (f : A * list ascii -> res (B * list ascii)) l :
  consumes r l -> (forall a rest, (length rest < length l)%nat -> consumes (f (a, rest)) l) ->
  consumes (r ≫= f) l.
Proof. destruct r as [[a rest]|e]; cbn; auto. Qed.

Lemma skip_ws_length l : (length (skip_ws l) <= length l)%nat.
Proof. induction l as [|c l IH]; cbn; [lia|]. destruct (is_ws c); cbn; lia. Qed.

Lemma put_char_consumes c r l k : consumes r l -> (length l <= length k)%nat -> consumes (put_char c r) k.
Proof.
  intros H Hl. apply consumes_bind; [by eapply consumes_longer|]. intros s rest Hr. exact Hr.
Qed.

Lemma scan_string_consumes n : forall l, (length l <= n)%nat -> consumes (scan_string l) l.
Proof.
  induction n as [|n IH]; intros l Hl; (destruct l as [|c l1]; [done|]); cbn [length] in Hl; [lia|].
  cbn [scan_string]. destruct (_ =? 34)%N; [cbn; lia|]. destruct (_ =? 92)%N.
  - destruct l1 as [|e l2]; [done|]. cbn [length] in Hl. destruct (Ascii.eqb e "u").
    + destruct l2 as [|h1 [|h2 [|h3 [|h4 l3]]]]; try done. cbn [length] in Hl.
      destruct (hex4 h1 h2 h3 h4) as [u|]; [|done]. destruct (127 <? u)%N; [done|].
      apply (put_char_consumes _ _ l3); [apply IH; lia|cbn; lia].
    + destruct (simple_escape e) as [x|]; [|done].
      apply (put_char_consumes _ _ l2); [apply IH; lia|cbn; lia].
  - destruct (_ <=? 31)%N; [done|]. apply (put_char_consumes _ _ l1); [apply IH; lia|cbn; lia].
Qed.

Lemma span_digits_rest l : (length (span_digits l).2 <= length l)%nat.
Proof.
  induction l as [|c l IH]; [done|]. cbn. destruct (is_digit c); [|done].
  destruct (span_digits l) as [a b]. cbn in *. lia.
Qed.

Lemma number_consumes neg l : consumes (number neg l) l.
Proof.
  unfold number. assert (match int_token l with Some (_, rest) => (length rest < length l)%nat | None => True end) as H.
  { destruct l as [|c l]; [done|]. cbn [int_token]. destruct (Ascii.eqb c "0"); [cbn; lia|].
    destruct (is_digit c) eqn:E; [|done]. cbn [span_digits]. rewrite E.
    pose proof (span_digits_rest l). destruct (span_digits l). cbn in *. lia. }
  destruct (int_token l) as [[ds rest]|]; [|done].
  destruct (float_follows rest); [done|]. destruct (_ <? _)%nat; [done|]. exact H.
Qed.

Lemma is_prefix_length p : forall l rest, is_prefix p l = Some rest -> (length rest + length p = length l)%nat.
Proof.
  induction p as [|c p IH]; intros [|d l] rest; cbn; try (intros [= <-]; cbn; lia).
  destruct (Ascii.eqb c d); [|done]. intros H%IH. lia.
Qed.

Lemma keyword_consumes w j l : w <> "" -> consumes (keyword w j l) l.
Proof.
  intros Hw. unfold keyword. destruct (is_prefix _ l) as [rest|] eqn:E; [|done].
  apply is_prefix_length in E. destruct w; [done|]. cbn in *. lia.
Qed.

Lemma scan_scalar_consumes l : consumes (scan_scalar l) l.
Proof.
  destruct l as [|c l]; [done|]. unfold scan_scalar.
  destruct (Ascii.eqb c "n"); [by apply keyword_consumes|].
  destruct (Ascii.eqb c "t"); [by apply keyword_consumes|].
  destruct (Ascii.eqb c "f"); [by apply keyword_consumes|].
  destruct (is_float_word _); [done|].
  destruct (Ascii.eqb c "-"); [|apply number_consumes].
  eapply consumes_longer; [apply number_consumes|cbn; lia].
Qed.

Section Fuel.

Context (hook : list (string * json) -> res (list (string * json)))
  (hook_quiet : forall ps, hook ps <> Raise (Unmodelled "fuel")).

Lemma hook_consumes ps rest l : (length rest < length l)%nat ->
  consumes (ps ← hook ps; mret (JObj ps, rest)) l.
Proof.
  intros H. pose proof (hook_quiet ps) as Hq. destruct (hook ps) as [x|e]; cbn; [done|]. congruence.
Qed.

(** The characters after a value: end of the container or the next element. *)
Lemma after_value_consumes {A} (stop : ascii) rest l (f g : list ascii -> res (A * list ascii)) :
  (length rest < length l)%nat ->
  (forall l', (length l' < length rest)%nat -> consumes (f l') l) ->
  (forall l', (length l' < length rest)%nat -> consumes (g (skip_ws l')) l) ->
  consumes (match skip_ws rest with
    | c :: l' => if Ascii.eqb c stop then f l'
                 else if Ascii.eqb c ","%char then g (skip_ws l') else Raise json_error
    | [] => Raise json_error end) l.
Proof.
  intros Hr Hf Hg. pose proof (skip_ws_length rest) as H. destruct (skip_ws rest) as [|c l']; [done|].
  cbn [length] in H. destruct (Ascii.eqb c stop); [apply Hf; lia|].
  destruct (Ascii.eqb c ","); [apply Hg; lia|done].
Qed.

Lemma scan_consumes fuel : forall l,
  ((2 * length l < fuel)%nat -> consumes (scan_value hook fuel l) l) /\
  ((2 * length l + 1 < fuel)%nat -> (forall acc, consumes (scan_items hook fuel acc l) l) /\
                                   (forall acc, consumes (scan_members hook fuel acc l) l)).
Proof.
  induction fuel as [|fuel IH]; intros l; [split; lia|].
  assert (forall k, (length k < length l)%nat -> (2 * length l < fuel)%nat ->
    (forall acc, consumes (scan_items hook fuel acc k) l) /\
    (forall acc, consumes (scan_members hook fuel acc k) l)) as Hloop.
  { intros k Hk Hf. destruct (IH k) as [_ [Hi Hm]]; [lia|].
    split; intros acc; eapply consumes_longer; eauto; lia. }
  split; intros Hf.
  - destruct l as [|c l']; [done|]. cbn [length] in *. cbn [scan_value].
    pose proof (skip_ws_length l') as Hs. destruct (Ascii.eqb c quote).
    { apply consumes_bind; [eapply consumes_longer; [by eapply (scan_string_consumes (length l'))|cbn; lia]|].
      intros s rest Hr. exact Hr. }
    destruct (Ascii.eqb c "["); [|destruct (Ascii.eqb c "{"); [|apply scan_scalar_consumes]];
      (destruct (skip_ws l') as [|d rest]; [done|]); cbn [length] in Hs;
      destruct (Ascii.eqb d _); try (apply hook_consumes; cbn; lia); try (cbn; lia);
      (destruct (IH (d :: rest)) as [_ [Hi Hm]]; [cbn; lia|]);
      eapply consumes_longer; eauto; cbn; lia.
  - split; intros acc.
    + cbn [scan_items]. destruct (IH l) as [Hv _]. apply consumes_bind; [apply Hv; lia|].
      intros j rest Hr. apply after_value_consumes; [done| |].
      * intros l' Hl'. cbn. lia.
      * intros l' Hl'. apply Hloop; [pose proof (skip_ws_length l'); lia|lia].
    + cbn [scan_members]. destruct l as [|q l1]; [done|]. destruct (Ascii.eqb q quote); [|done].
      cbn [length] in *. apply consumes_bind.
      { eapply consumes_longer; [by eapply (scan_string_consumes (length l1))|cbn; lia]. }
      intros k l2 H2. unfold expect. pose proof (skip_ws_length l2) as Hs.
      destruct (skip_ws l2) as [|x l3]; [done|]. destruct (Ascii.eqb x ":"); [|done]. rewrite Ok_bind.
      pose proof (skip_ws_length l3). cbn [length] in *. destruct (IH (skip_ws l3)) as [Hv _].
      apply consumes_bind; [eapply consumes_longer; [apply Hv; lia|cbn; lia]|].
      intros j rest Hr. cbv zeta. apply after_value_consumes; [done| |].
      * intros l' Hl'. apply hook_consumes. cbn in *. lia.
      * intros l' Hl'. apply Hloop; [pose proof (skip_ws_length l'); cbn in *; lia|cbn; lia].
Qed.

Lemma loads_with_quiet l : loads_with hook l <> Raise (Unmodelled "fuel").
Proof.
  unfold loads_with. destruct (scan_consumes (2 * S (length l)) (skip_ws l)) as [Hv _].
  pose proof (skip_ws_length l). specialize (Hv ltac:(lia)).
  destruct (scan_value hook _ _) as [[j rest]|e]; cbn in *; [|congruence]. by destruct (skip_ws rest).
Qed.

End Fuel.

(** [json.loads] always ends with a value or an exception of its own: the fuel
    of the scanner is never used up. *)
Lemma loads_quiet l : loads l <> Raise (Unmodelled "fuel").
Proof.
  unfold loads, decode_text. destruct (existsb _ l); [done|]. by apply loads_with_quiet.
Qed.

(** ** Examples *)

Definition json_text (s : string) : res json := loads (list_ascii_of_string s).

Example loads_numbers : map json_text ["[1, -20 ,0]"; "01"; "-"; "1.5"; " 7 "; "1.x"] =
  [Ok (JList [JInt 1; JInt (-20); JInt 0]); Raise json_error; Raise json_error;
   Raise (Unmodelled "float"); Ok (JInt 7); Raise json_error].
Proof. vm_compute. reflexivity. Qed.

Example loads_malformed : map json_text [""; "[1,]"; "{1:2}"; "nul"; "[] []"; "[[]"] = repeat (Raise json_error) 6.
Proof. vm_compute. reflexivity. Qed.
