(* ===== verification/JsonIndent.v ===== *)
(** [json.dumps(..., indent=n)]: values over several lines, and how they are
    read back. *)
From S2P Require Import Prelude PyText JsonText.
Local Open Scope Z_scope.
Local Open Scope bool_scope.

Section Writer.

Context (escape : ascii -> list ascii) (indent : nat).

(** A new line, at a depth. *)
Definition line_start (level : nat) : list ascii := ascii_of_N 10 :: repeat " "%char (indent * level).

(** An empty container stays on its line; the others put every item on a line
    of its own. *)
Fixpoint dump_indent (level : nat) (j : json) : list ascii :=
  match j with
  | JList (x :: l) =>
      "["%char :: line_start (S level) ++ separated_with (line_start (S level)) (map (dump_indent (S level)) (x :: l))
      ++ line_start level ++ ["]"%char]
  | JObj (x :: l) =>
      "{"%char :: line_start (S level)
      ++ separated_with (line_start (S level))
           (map (fun kv => dump_string_with escape kv.1 ++ ":"%char :: " "%char :: dump_indent (S level) kv.2) (x :: l))
      ++ line_start level ++ ["}"%char]
  | _ => dump_with escape [] j
  end.

End Writer.

(** ** Reading back *)

Lemma line_start_ws n level : forallb is_ws (line_start n level) = true.
Proof. unfold line_start. cbn [forallb]. by induction (n * level)%nat. Qed.

Lemma line_start_ends n level rest : ends (line_start n level ++ rest) = true.
Proof. reflexivity. Qed.

Section Reader.

Context (escape : ascii -> list ascii)
  (scan_escape : forall c l, is_ascii c = true -> scan_string (escape c ++ l) = put_char c (scan_string l))
  (hook : list (string * json) -> res (list (string * json)))
  (hook_unique : forall ps, all_unique String.eqb (map fst ps) = true -> hook ps = Ok ps)
  (n : nat).

(** A text that is read as a value, whatever ends it. *)
Definition text_reads (t : list ascii) (j : json) : Prop :=
  (exists c u, t = c :: u /\ opens_value c = true)
  /\ forall fuel rest, (2 * length t < fuel)%nat -> ends rest = true -> scan_value hook fuel (t ++ rest) = Ok (j, rest).

Lemma skip_pad pad l : forallb is_ws pad = true -> skip_ws (pad ++ l) = skip_ws l.
Proof using.
  induction pad as [|c pad IH]; [done|]. cbn [forallb app skip_ws]. intros [-> H]%andb_true_iff. auto.
Qed.

Lemma opens_skip t j l : text_reads t j -> skip_ws (t ++ l) = t ++ l.
Proof using. intros ((c & u & -> & H) & _). cbn [app]. apply skip_ws_ends. unfold opens_value in H. by inv_res. Qed.

Section Separated.

Context (space pad : list ascii) (Hspace : forallb is_ws space = true) (Hpad : forallb is_ws pad = true).

Local Notation separated := (separated_with space).

Lemma pad_ends c rest : is_ws c || Ascii.eqb c ","%char || Ascii.eqb c "]"%char || Ascii.eqb c "}"%char = true ->
  ends (pad ++ c :: rest) = true.
Proof using Hpad.
  intros Hc. destruct pad as [|x p]; [exact Hc|]. cbn [forallb] in Hpad. apply andb_true_iff in Hpad as [Hx _].
  cbn. by rewrite Hx.
Qed.

Lemma separated_first (x : list ascii) l : exists t, separated (x :: l) = x ++ t.
Proof using. destruct l as [|y l]; [exists []; by rewrite app_nil_r|]. cbn [separated_with]. eauto. Qed.

Lemma skip_separated x l k : text_reads x.1 x.2 ->
  skip_ws (separated (map fst (x :: l)) ++ k) = separated (map fst (x :: l)) ++ k.
Proof using. intros Hx. destruct (separated_first x.1 (map fst l)) as [t E]. cbn [map]. rewrite E, <- app_assoc. by eapply opens_skip. Qed.

Lemma scan_items_texts (l : list (list ascii * json)) : Forall (fun p => text_reads p.1 p.2) l ->
  forall x acc fuel rest, text_reads x.1 x.2 -> (2 * length (separated (map fst (x :: l))) + 1 < fuel)%nat ->
  scan_items hook fuel acc (separated (map fst (x :: l)) ++ pad ++ "]"%char :: rest) = Ok (JList (acc ++ map snd (x :: l)), rest).
Proof using Hspace Hpad.
  induction l as [|y l IH]; intros Hall x acc fuel rest Hx Hf; (destruct fuel as [|fuel]; [lia|]); cbn [scan_items].
  - cbn [map separated_with] in *. rewrite (proj2 Hx) by (lia || by apply pad_ends). rewrite Ok_bind, skip_padding by done. done.
  - apply Forall_cons in Hall as [Hy Hall]. change (separated (map fst (x :: y :: l)))
      with (x.1 ++ ","%char :: space ++ separated (map fst (y :: l))) in *.
    rewrite length_app in Hf. cbn [length] in Hf. rewrite length_app in Hf.
    rewrite <- app_assoc. cbn [app]. rewrite (proj2 Hx) by (done || lia). rewrite Ok_bind.
    rewrite skip_ws_ends, <- app_assoc by done. cbn -[scan_items separated_with map].
    rewrite skip_pad, skip_separated by done. rewrite IH by (done || lia). by rewrite <- app_assoc.
Qed.

Definition member_text (p : string * (list ascii * json)) : list ascii :=
  dump_string_with escape p.1 ++ ":"%char :: " "%char :: p.2.1.

Lemma scan_member_text fuel acc p pad' c rest : text_reads p.2.1 p.2.2 -> isascii p.1 = true ->
  (2 * length (member_text p) < fuel)%nat -> forallb is_ws pad' = true -> is_ws c = false -> ends (pad' ++ c :: rest) = true ->
  scan_members hook (S fuel) acc (member_text p ++ pad' ++ c :: rest) =
  let acc := acc ++ [(p.1, p.2.2)] in
  if Ascii.eqb c "}"%char then ps ← hook acc; mret (JObj ps, rest)
  else if Ascii.eqb c ","%char then scan_members hook fuel acc (skip_ws rest)
  else Raise json_error.
Proof using scan_escape.
  destruct p as [k [t j]]. cbn [fst snd]. intros Hj Hk Hf Hp Hc He. unfold member_text, dump_string_with in *. cbn [fst snd] in *.
  rewrite !length_app in Hf. cbn [length] in Hf. rewrite length_app in Hf.
  cbn [app scan_members]. rewrite Ascii.eqb_refl, <- !app_assoc. cbn [app].
  rewrite scan_escaped by done. rewrite Ok_bind. cbn [fst snd].
  unfold expect. rewrite skip_ws_ends by done. cbn -[scan_value scan_members].
  rewrite (opens_skip _ _ _ Hj). change (is_ws " ") with true. cbn match. rewrite (proj2 Hj) by (done || lia). rewrite Ok_bind, skip_padding by done.
  by rewrite string_list_ascii_id.
Qed.

Lemma skip_members_text x l k : skip_ws (separated (map member_text (x :: l)) ++ k) = separated (map member_text (x :: l)) ++ k.
Proof using. destruct (separated_first (member_text x) (map member_text l)) as [t E]. cbn [map]. by rewrite E, <- app_assoc. Qed.

Lemma scan_members_texts l : Forall (fun p => text_reads p.2.1 p.2.2) l ->
  forall x acc fuel rest, text_reads x.2.1 x.2.2 -> (2 * length (separated (map member_text (x :: l))) + 1 < fuel)%nat ->
  forallb (fun p => isascii p.1) (x :: l) = true ->
  all_unique String.eqb (map fst (acc ++ map (fun p => (p.1, p.2.2)) (x :: l))) = true ->
  scan_members hook fuel acc (separated (map member_text (x :: l)) ++ pad ++ "}"%char :: rest) =
  Ok (JObj (acc ++ map (fun p => (p.1, p.2.2)) (x :: l)), rest).
Proof using scan_escape hook_unique Hspace Hpad.
  induction l as [|y l IH]; intros Hall x acc fuel rest Hx Hf [Hk Hl]%andb_true_iff Hu; (destruct fuel as [|fuel]; [lia|]).
  - cbn [map separated_with] in *. rewrite scan_member_text by (done || lia || by apply pad_ends). cbv zeta.
    rewrite Ascii.eqb_refl, hook_unique by done. done.
  - apply Forall_cons in Hall as [Hy Hall]. change (separated (map member_text (x :: y :: l)))
      with (member_text x ++ ","%char :: space ++ separated (map member_text (y :: l))) in *.
    rewrite length_app in Hf. cbn [length] in Hf. rewrite length_app in Hf.
    rewrite <- app_assoc, <- app_comm_cons, <- app_assoc.
    etransitivity; [apply (scan_member_text _ _ _ []); done || lia|]. cbv zeta.
    change (Ascii.eqb "," "}"%char) with false. rewrite Ascii.eqb_refl. cbn match. rewrite skip_pad, skip_members_text by done.
    cbn [map] in *. rewrite IH; rewrite <- ?app_assoc; done || lia.
Qed.

End Separated.

(** Every value is read back from its lines. *)
Lemma indent_reads j : forall level, json_ok j = true -> text_reads (dump_indent escape n level j) j.
Proof using scan_escape hook_unique.
  assert (forall j, json_ok j = true -> text_reads (dump_with escape [] j) j) as Hleaf.
  { intros k Hk. split; [apply dump_opens|]. intros fuel rest Hf He.
    by apply (reads_all escape scan_escape [] eq_refl hook hook_unique). }
  induction j as [| | | |l IH|l IH] using json_nested_ind; intros level Hok; try by apply Hleaf.
  - destruct l as [|x l]; [by apply Hleaf|]. split; [by repeat eexists|]. intros fuel rest Hf He.
    destruct fuel as [|fuel]; [lia|]. cbn [dump_indent json_ok] in *.
    set (texts := map (fun j => (dump_indent escape n (S level) j, j)) (x :: l)).
    assert (Forall (fun p => text_reads p.1 p.2) texts) as Ht.
    { unfold texts. apply Forall_map. rewrite List.Forall_forall in IH |- *. intros y Hy. apply IH; [done|].
      rewrite forallb_forall in Hok. by apply Hok. }
    assert (map (dump_indent escape n (S level)) (x :: l) = map fst texts) as Et by (unfold texts; by rewrite map_map).
    assert (map snd texts = x :: l) as Es by (unfold texts; rewrite map_map; apply map_id).
    rewrite Et in *. unfold texts in Es, Ht, Hf |- *. cbn [map] in Es, Ht, Hf |- *. apply Forall_cons in Ht as [Hx Ht].
    rewrite <- app_comm_cons. cbn [length] in Hf. rewrite !length_app in Hf. cbn [length] in Hf.
    rewrite <- !app_assoc. cbn [scan_value]. change (Ascii.eqb "[" quote) with false. rewrite Ascii.eqb_refl. cbn match.
    rewrite skip_pad by apply line_start_ws.
    set (y := (dump_indent _ _ _ x, x)) in *. set (k := map _ l) in *.
    pose proof (skip_separated (line_start n (S level)) y k (line_start n level ++ ["]"%char] ++ rest) Hx) as Hskip.
    cbn [map] in Hskip. rewrite Hskip.
    pose proof (scan_items_texts (line_start n (S level)) (line_start n level) (line_start_ws _ _) (line_start_ws _ _) _ Ht
      y [] fuel rest Hx ltac:(cbn [map]; lia)) as G. cbn [map app] in G. rewrite Es in G.
    destruct Hx as ((c & u & Ec & Hc) & _).
    destruct (separated_first (line_start n (S level)) y.1 (map fst k)) as [t E].
    rewrite E, Ec in G |- *. cbn [app] in G |- *. unfold opens_value in Hc. inv_res. by rewrite Hc0.
  - destruct l as [|x l]; [by apply Hleaf|]. split; [by repeat eexists|]. intros fuel rest Hf He.
    destruct fuel as [|fuel]; [lia|]. cbn [dump_indent json_ok] in *. apply andb_true_iff in Hok as [Hok Hu].
    set (texts := map (fun kv : string * json => (kv.1, (dump_indent escape n (S level) kv.2, kv.2))) (x :: l)).
    assert (Forall (fun p => text_reads p.2.1 p.2.2) texts) as Ht.
    { unfold texts. apply Forall_map. rewrite List.Forall_forall in IH |- *. intros y Hy. apply IH; [done|].
      rewrite forallb_forall in Hok. specialize (Hok y Hy). by apply andb_true_iff in Hok as [_ ?]. }
    assert (forallb (fun p => isascii p.1) texts = true) as Hk.
    { unfold texts. rewrite forallb_forall in *. intros p (kv & <- & Hkv)%in_map_iff. specialize (Hok kv Hkv).
      by apply andb_true_iff in Hok as [? _]. }
    assert (map (fun p => (p.1, p.2.2)) texts = x :: l) as Es.
    { unfold texts. rewrite map_map. rewrite <- (map_id (x :: l)) at 2. apply map_ext. by intros []. }
    assert (map (fun kv => dump_string_with escape kv.1 ++ ":"%char :: " "%char :: dump_indent escape n (S level) kv.2) (x :: l)
      = map member_text texts) as Et by (unfold texts; by rewrite map_map).
    rewrite Et in *. unfold texts in Es, Ht, Hf, Hk |- *. cbn [map] in Es, Ht, Hf, Hk |- *. apply Forall_cons in Ht as [Hx Ht].
    rewrite <- app_comm_cons. cbn [length] in Hf. rewrite !length_app in Hf. cbn [length] in Hf.
    rewrite <- !app_assoc. cbn [scan_value]. change (Ascii.eqb "{" quote) with false.
    change (Ascii.eqb "{" "["%char) with false. rewrite Ascii.eqb_refl. cbn match.
    rewrite skip_pad by apply line_start_ws.
    set (y := (x.1, _)) in *. set (k := map _ l) in *.
    pose proof (scan_members_texts (line_start n (S level)) (line_start n level) (line_start_ws _ _) (line_start_ws _ _) _ Ht
      y [] fuel rest Hx ltac:(cbn [map]; lia) Hk) as G. cbn [map app] in G. rewrite Es in G. rewrite <- Es in Hu. specialize (G Hu).
    pose proof (skip_members_text (line_start n (S level)) y k (line_start n level ++ ["}"%char] ++ rest)) as Hskip.
    cbn [map] in Hskip. rewrite Hskip.
    destruct (separated_first (line_start n (S level)) (member_text y) (map member_text k)) as [t E].
    rewrite E in G |- *. unfold member_text at 1, dump_string_with at 1 in G. unfold member_text at 1, dump_string_with at 1.
    cbn [app] in *. exact G.
Qed.

End Reader.

(** ** Through [json.loads] *)

Lemma dump_indent_all escape n (P : ascii -> bool) : (forall c, forallb P (escape c) = true) ->
  (forall c, printable c = true -> P c = true) -> P (ascii_of_N 10) = true ->
  forall j level, forallb P (dump_indent escape n level j) = true.
Proof.
  intros He Hp Hn. assert (forall level, forallb P (line_start n level) = true) as Hl.
  { intros level. unfold line_start. cbn [forallb]. rewrite Hn. induction (n * level)%nat as [|k IH]; [done|].
    cbn [repeat forallb] in *. by rewrite (Hp " "%char). }
  assert (forall j, forallb P (dump_with escape [] j) = true) as Hleaf by (intros k; by apply dump_all).
  induction j as [| | | |l IH|l IH] using json_nested_ind; intros level; try (by apply Hleaf);
    (destruct l as [|x l]; [by apply Hleaf|]).
  - cbn [dump_indent forallb]. rewrite !forallb_app, !Hl. cbn [forallb].
    rewrite (Hp "["%char), (Hp "]"%char) by done. rewrite separated_all; [done..|].
    apply Forall_map. eapply Forall_impl; [exact IH|]. auto.
  - cbn [dump_indent forallb]. rewrite !forallb_app, !Hl. cbn [forallb].
    rewrite (Hp "{"%char), (Hp "}"%char) by done. rewrite separated_all; [done..|].
    apply Forall_map. eapply Forall_impl; [exact IH|]. intros [k j] H. cbn [fst snd] in *.
    rewrite forallb_app, (dump_string_all escape P) by done. cbn [forallb].
    by rewrite H, (Hp ":"%char), (Hp " "%char).
Qed.

Section Loads.

Context (escape : ascii -> list ascii)
  (scan_escape : forall c l, is_ascii c = true -> scan_string (escape c ++ l) = put_char c (scan_string l))
  (escape_unescaped : forall c, forallb unescaped (escape c) = true).

Lemma loads_dump_indent n j ws : json_ok j = true -> forallb is_ws ws = true -> loads (dump_indent escape n 0 j ++ ws) = Ok j.
Proof using scan_escape escape_unescaped.
  intros Hj Hw. unfold loads. rewrite decode_text_Ok, Ok_bind.
  2: { rewrite forallb_app. apply andb_true_iff. split.
       - apply dump_indent_all; [|intros c Hc; unfold unescaped; by rewrite Hc|done].
         intros c. specialize (escape_unescaped c). rewrite forallb_forall in *. intros x Hx. by rewrite escape_unescaped.
       - rewrite forallb_forall in *. intros c Hc. by rewrite (Hw c Hc), orb_true_r. }
  destruct (indent_reads escape scan_escape plain_hook plain_hook_unique n j 0 Hj) as ((c & u & Ec & Hc) & Hr).
  unfold loads_with. assert (skip_ws (dump_indent escape n 0 j ++ ws) = dump_indent escape n 0 j ++ ws) as ->.
  { rewrite Ec. cbn [app]. apply skip_ws_ends. unfold opens_value in Hc. by inv_res. }
  rewrite Hr; [|rewrite length_app; lia|].
  - rewrite Ok_bind, <- (app_nil_r ws), skip_pad by done. done.
  - destruct ws as [|x ws]; [done|]. cbn [forallb] in Hw. apply andb_true_iff in Hw as [Hx _]. cbn. by rewrite Hx.
Qed.

End Loads.

Lemma escape_raw_unescaped c : forallb unescaped (escape_raw c) = true.
Proof. apply (ascii_forall (fun c => forallb unescaped (escape_raw c))). vm_compute. reflexivity. Qed.

Lemma escape_char_unescaped c : forallb unescaped (escape_char c) = true.
Proof. apply (ascii_forall (fun c => forallb unescaped (escape_char c))). vm_compute. reflexivity. Qed.

(** [ensure_ascii=False] and [ensure_ascii=True] *)
Lemma loads_indent_raw n j ws : json_ok j = true -> forallb is_ws ws = true -> loads (dump_indent escape_raw n 0 j ++ ws) = Ok j.
Proof. apply loads_dump_indent; [apply scan_escape_raw|apply escape_raw_unescaped]. Qed.

Lemma loads_indent_ascii n j ws : json_ok j = true -> forallb is_ws ws = true -> loads (dump_indent escape_char n 0 j ++ ws) = Ok j.
Proof. apply loads_dump_indent; [apply scan_escape|apply escape_char_unescaped]. Qed.

Example ex_indented : string_of_list_ascii (dump_indent escape_char 1 0 (JObj [("a", JList [JInt 1; JList []]); ("b", JNull)])) =
  string_of_list_ascii (list_ascii_of_string "{" ++ [ascii_of_N 10] ++ list_ascii_of_string " " ++ [quote; "a"%char; quote]
    ++ list_ascii_of_string ": [" ++ [ascii_of_N 10] ++ list_ascii_of_string "  1," ++ [ascii_of_N 10]
    ++ list_ascii_of_string "  []" ++ [ascii_of_N 10] ++ list_ascii_of_string " ]," ++ [ascii_of_N 10]
    ++ list_ascii_of_string " " ++ [quote; "b"%char; quote] ++ list_ascii_of_string ": null" ++ [ascii_of_N 10; "}"%char]).
Proof. vm_compute. reflexivity. Qed.
