(* ===== verification/IsoTime.v ===== *)
(** [datetime.fromisoformat] on the extended format [isoformat] writes, and
    their round trip.  The other formats Python accepts (basic and week dates,
    times without seconds, 24:00) leave the model. *)
From S2P Require Import Prelude PyDecimal DecimalFacts DecimalText Sha256 PyText JsonText.
Local Open Scope Z_scope.
Local Open Scope bool_scope.

(** ** Parsing *)

Definition is_leap (y : Z) : bool := (y mod 4 =? 0) && (negb (y mod 100 =? 0) || (y mod 400 =? 0)).

Definition days_in_month (y m : Z) : Z :=
  days_before_month (is_leap y) (m + 1) - days_before_month (is_leap y) m.

(** [date(y, m, d).toordinal() - 1] *)
Definition day_number (y m d : Z) : Z :=
  let p := y - 1 in
  p * 365 + p / 4 - p / 100 + p / 400 + days_before_month (is_leap y) m + d - 1.

(** [n] digits *)
Fixpoint take_digits (n : nat) (acc : N) (l : list ascii) : option (Z * list ascii) :=
  match n, l with
  | O, _ => Some (Z.of_N acc, l)
  | S n, c :: l' => if is_digit c then take_digits n (10 * acc + digit_value c)%N l' else None
  | S _, [] => None
  end.
Definition number_of (n : nat) (l : list ascii) : option (Z * list ascii) := take_digits n 0 l.

Definition take_char (c : ascii) (l : list ascii) : option (list ascii) :=
  match l with x :: l' => if Ascii.eqb x c then Some l' else None | [] => None end.

(** Microseconds: nothing, or a point and digits of which six count. *)
Definition take_fraction (l : list ascii) : option (Z * list ascii) :=
  match take_char "."%char l with
  | None => Some (0, l)
  | Some l1 =>
      let '(ds, rest) := span_digits l1 in
      if is_nil ds then None
      else Some (Z.of_N (num_of (firstn 6 (ds ++ repeat "0"%char 6))), rest)
  end.

(** [HH:MM] and, when [seconds] or the next character asks for them, seconds
    with their fraction. *)
Definition take_clock (seconds : bool) (l : list ascii) : option (Z * Z * Z * Z * list ascii) :=
  '(h, l) ← number_of 2 l; l ← take_char ":"%char l; '(m, l) ← number_of 2 l;
  match take_char ":"%char l with
  | Some l => '(s, l) ← number_of 2 l; '(us, l) ← take_fraction l; Some (h, m, s, us, l)
  | None => if seconds then None else Some (h, m, 0, 0, l)
  end.

Definition iso_error : exn := ValueError "Invalid isoformat string".
Definition iso_format : exn := Unmodelled "isoformat text".

(** The UTC offset in microseconds. *)
Definition parse_offset (l : list ascii) : res (option Z) :=
  match l with
  | [] => Ok None
  | c :: l' =>
      if Ascii.eqb c "Z"%char then if is_nil l' then Ok (Some 0) else Raise iso_format
      else if Ascii.eqb c "+"%char || Ascii.eqb c "-"%char then
        match take_clock false l' with
        | Some (h, m, s, us, []) =>
            raise_if ((59 <? m) || (59 <? s)) iso_format;;
            let o := ((h * 60 + m) * 60 + s) * 1000000 + us in
            raise_if (day_us <=? o) (ValueError "offset must be less than a day");;
            mret (Some (if Ascii.eqb c "-"%char then - o else o))
        | _ => Raise iso_format
        end
      else Raise iso_format
  end.

(** Microseconds since midnight, and the offset. *)
Definition parse_time (l : list ascii) : res (Z * option Z) :=
  match take_clock true l with
  | None => Raise iso_format
  | Some (h, m, s, us, rest) =>
      o ← parse_offset rest;
      raise_if (h =? 24) iso_format;;
      raise_if ((23 <? h) || (59 <? m) || (59 <? s)) (ValueError "time out of range");;
      mret (((h * 60 + m) * 60 + s) * 1000000 + us, o)
  end.

Definition parse_date (l : list ascii) : option (Z * Z * Z * list ascii) :=
  '(y, l) ← number_of 4 l; l ← take_char "-"%char l; '(m, l) ← number_of 2 l;
  l ← take_char "-"%char l; '(d, l) ← number_of 2 l; Some (y, m, d, l).

(** After the date: nothing, one character, or a separator and a time. *)
Definition parse_rest (l : list ascii) : res (Z * option Z) :=
  match l with
  | [] | [_] => Ok (0, None)
  | _ :: clock => parse_time clock
  end.

(** [datetime.fromisoformat(s)] *)
Definition fromisoformat (s : string) : res datetime :=
  let l := list_ascii_of_string s in
  raise_if (length l <? 7)%nat iso_error;;
  match parse_date l with
  | None => Raise iso_format
  | Some (y, m, d, rest) =>
      '(t, o) ← parse_rest rest;
      raise_if ((y <? 1) || (m <? 1) || (12 <? m)) (ValueError "date out of range");;
      raise_if ((d <? 1) || (days_in_month y m <? d)) (ValueError "day is out of range for month");;
      mret (mk_datetime (day_number y m d * day_us + t) o)
  end.

(** ** The calendar *)

(** A [datetime] object: year 1 to 9999, offset below a day. *)
Definition dt_valid (d : datetime) : bool :=
  (0 <=? dt_local d) && (dt_local d <? 3652059 * day_us) &&
  match dt_offset d with None => true | Some o => (- day_us <? o) && (o <? day_us) end.

(** Every day of a year, leap or not: month and day are in range and count back
    to the day. *)
Definition month_check (leap : bool) (n : Z) : bool :=
  let '(m, d) := month_of 11 leap 1 n in
  (1 <=? m) && (m <=? 12) && (1 <=? d)
  && (d <=? days_before_month leap (m + 1) - days_before_month leap m)
  && (days_before_month leap m + d - 1 =? n).

Lemma forallb_range (f : Z -> bool) (k : nat) : forallb f (map Z.of_nat (List.seq 0 k)) = true ->
  forall n, 0 <= n < Z.of_nat k -> f n = true.
Proof.
  intros H n Hn. rewrite forallb_forall in H. apply H. apply in_map_iff. exists (Z.to_nat n).
  split; [lia|]. apply in_seq. lia.
Qed.

Lemma month_check_ok (leap : bool) n : 0 <= n < (if leap then 366 else 365) -> month_check leap n = true.
Proof.
  destruct leap; intros H.
  - apply (forallb_range _ 366); [vm_compute; reflexivity|lia].
  - apply (forallb_range _ 365); [vm_compute; reflexivity|lia].
Qed.

(** Years by 400-, 100-, 4- and 1-year cycles. *)
Lemma cycle_spec a b c k : 0 <= b <= 3 -> 0 <= c <= 24 -> 0 <= k <= 3 ->
  let p := 400 * a + 100 * b + 4 * c + k in
  p / 4 = 100 * a + 25 * b + c /\ p / 100 = 4 * a + b /\ p / 400 = a /\
  is_leap (p + 1) = (k =? 3) && (negb (c =? 24) || (b =? 3)).
Proof.
  intros Hb Hc Hk p. split_and!.
  - symmetry. apply (Z.div_unique _ _ _ k); lia.
  - symmetry. apply (Z.div_unique _ _ _ (4 * c + k)); lia.
  - symmetry. apply (Z.div_unique _ _ _ (100 * b + 4 * c + k)); lia.
  - assert ((p + 1) mod 4 = if k =? 3 then 0 else k + 1) as E4.
    { destruct (Z.eqb_spec k 3); symmetry.
      - apply (Z.mod_unique _ _ (100 * a + 25 * b + c + 1)); lia.
      - apply (Z.mod_unique _ _ (100 * a + 25 * b + c)); lia. }
    unfold is_leap. rewrite E4. destruct (Z.eqb_spec k 3) as [->|Hn]; [|destruct (Z.eqb_spec (k + 1) 0); [lia|done]].
    assert ((p + 1) mod 100 = if c =? 24 then 0 else 4 * c + 4) as ->.
    { destruct (Z.eqb_spec c 24); symmetry.
      - apply (Z.mod_unique _ _ (4 * a + b + 1)); lia.
      - apply (Z.mod_unique _ _ (4 * a + b)); lia. }
    destruct (Z.eqb_spec c 24) as [->|Hc']; [|destruct (Z.eqb_spec (4 * c + 4) 0); [lia|done]].
    assert ((p + 1) mod 400 = if b =? 3 then 0 else 100 * b + 100) as ->.
    { destruct (Z.eqb_spec b 3); symmetry.
      - apply (Z.mod_unique _ _ (a + 1)); lia.
      - apply (Z.mod_unique _ _ a); lia. }
    destruct (Z.eqb_spec b 3); [done|]. destruct (Z.eqb_spec (100 * b + 100) 0); [lia|done].
Qed.

(** The last day of a leap year. *)
Lemma last_of_cycle a b c : 0 <= b <= 3 -> 0 <= c <= 24 -> negb (c =? 24) || (b =? 3) = true ->
  days_in_month (400 * a + 100 * b + 4 * c + 4) 12 = 31 /\
  day_number (400 * a + 100 * b + 4 * c + 4) 12 31 = 146097 * a + 36524 * b + 1461 * c + 1460.
Proof.
  intros Hb Hc Hl. destruct (cycle_spec a b c 3 Hb Hc ltac:(lia)) as (E1 & E2 & E3 & E4).
  unfold days_in_month, day_number.
  replace (400 * a + 100 * b + 4 * c + 4) with (400 * a + 100 * b + 4 * c + 3 + 1) by lia.
  rewrite E4, Hl. cbn [Z.eqb Pos.eqb andb]. rewrite Z.add_simpl_r, E1, E2, E3.
  change (days_before_month true 12) with 335. change (days_before_month true (12 + 1)) with 366. lia.
Qed.

Lemma civil_spec n : 0 <= n < 3652059 ->
  let '(y, m, d) := civil n in
  1 <= y <= 9999 /\ 1 <= m <= 12 /\ 1 <= d <= days_in_month y m /\ day_number y m d = n.
Proof.
  intros H. unfold civil. cbv zeta.
  set (a := n / 146097). set (r := n mod 146097). set (b := r / 36524). set (r1 := r mod 36524).
  set (c := r1 / 1461). set (r2 := r1 mod 1461). set (k := r2 / 365). set (r3 := r2 mod 365).
  assert (n = 146097 * a + r /\ 0 <= r < 146097) as [E1 B1].
  { pose proof (Z.div_mod n 146097). pose proof (Z.mod_pos_bound n 146097). subst a r. lia. }
  assert (r = 36524 * b + r1 /\ 0 <= r1 < 36524) as [E2 B2].
  { pose proof (Z.div_mod r 36524). pose proof (Z.mod_pos_bound r 36524). subst b r1. lia. }
  assert (r1 = 1461 * c + r2 /\ 0 <= r2 < 1461) as [E3 B3].
  { pose proof (Z.div_mod r1 1461). pose proof (Z.mod_pos_bound r1 1461). subst c r2. lia. }
  assert (r2 = 365 * k + r3 /\ 0 <= r3 < 365) as [E4 B4].
  { pose proof (Z.div_mod r2 365). pose proof (Z.mod_pos_bound r2 365). subst k r3. lia. }
  clearbody a r b r1 c r2 k r3.
  destruct ((k =? 4) || (b =? 4)) eqn:Elast.
  - assert (exists b' c', 0 <= b' <= 3 /\ 0 <= c' <= 24 /\ negb (c' =? 24) || (b' =? 3) = true /\
      400 * a + 100 * b' + 4 * c' + 4 = a * 400 + 1 + b * 100 + c * 4 + k - 1 /\
      146097 * a + 36524 * b' + 1461 * c' + 1460 = n) as (b' & c' & Hb & Hc & Hl & Ey & En).
    { apply orb_true_iff in Elast as [->%Z.eqb_eq| ->%Z.eqb_eq].
      - exists b, c. destruct (Z.eqb_spec c 24), (Z.eqb_spec b 3); split_and!; try lia; done.
      - exists 3, 24. split_and!; try lia; done. }
    rewrite <- Ey. destruct (last_of_cycle a b' c' Hb Hc Hl) as [Hd Hn]. rewrite Hd, Hn. lia.
  - apply orb_false_iff in Elast as [Hk%Z.eqb_neq Hb%Z.eqb_neq].
    destruct (cycle_spec a b c k) as (F1 & F2 & F3 & F4); [lia..|].
    set (leap := (k =? 3) && (negb (c =? 24) || (b =? 3))) in *.
    assert (0 <= r3 < if leap then 366 else 365) as Hr by (destruct leap; lia).
    pose proof (month_check_ok leap r3 Hr) as Hm. unfold month_check in Hm.
    destruct (month_of 11 leap 1 r3) as [m d]. inv_res. zify_bool.
    unfold days_in_month, day_number.
    replace (a * 400 + 1 + b * 100 + c * 4 + k) with (400 * a + 100 * b + 4 * c + k + 1) by lia.
    rewrite F4, Z.add_simpl_r, F1, F2, F3. lia.
Qed.

(** ** Round trip *)

Lemma take_digits_app ds : forall acc rest, forallb is_digit ds = true ->
  take_digits (length ds) acc (ds ++ rest) =
  Some (Z.of_N (fold_left (fun n c => 10 * n + digit_value c)%N ds acc), rest).
Proof.
  induction ds as [|c ds IH]; intros acc rest; [done|]. cbn [forallb length app take_digits fold_left].
  intros [-> Hd]%andb_true_iff. by apply IH.
Qed.

(** [padded w n]: [w] digits with value [n]. *)
Lemma padded_spec w n : (0 < w)%nat -> 0 <= n < 10 ^ Z.of_nat w ->
  let ds := list_ascii_of_string (padded w n) in
  length ds = w /\ forallb is_digit ds = true /\ Z.of_N (num_of ds) = n.
Proof.
  intros Hw Hn. unfold padded. cbv zeta. rewrite list_ascii_string_id.
  assert (length (digits (Z.abs_N n)) <= w)%nat as Hl.
  { apply digits_length; [done|]. apply N2Z.inj_lt. rewrite N2Z.inj_pow, nat_N_Z. lia. }
  destruct (digits_spec (Z.abs_N n)) as (_ & Hd & Hv). split_and!.
  - rewrite length_app, repeat_length. lia.
  - rewrite forallb_app, Hd, andb_true_r. by induction (w - _)%nat.
  - rewrite num_of_padding, Hv. lia.
Qed.

Lemma number_of_padded w n rest : (0 < w)%nat -> 0 <= n < 10 ^ Z.of_nat w ->
  number_of w (list_ascii_of_string (padded w n) ++ rest) = Some (n, rest).
Proof.
  intros Hw Hn. destruct (padded_spec w n Hw Hn) as (Hl & Hd & Hv). unfold number_of.
  pose proof (take_digits_app _ 0%N rest Hd) as E. rewrite Hl in E.
  rewrite E. unfold num_of in Hv. by rewrite Hv.
Qed.

(** What may follow a fraction: neither a digit nor a point. *)
Definition after_fraction (l : list ascii) : Prop :=
  match l with [] => True | c :: _ => is_digit c = false /\ c <> "."%char end.

Lemma take_fraction_text us rest : 0 <= us < 1000000 -> after_fraction rest ->
  take_fraction (list_ascii_of_string (fraction_text us) ++ rest) = Some (us, rest).
Proof.
  intros Hu Hr. unfold fraction_text, take_fraction. destruct (Z.eqb_spec us 0) as [->|Hn].
  - cbn [list_ascii_of_string app]. destruct rest as [|c rest]; [done|]. destruct Hr as [_ Hc].
    apply Ascii.eqb_neq in Hc. cbn [take_char]. by rewrite Hc.
  - destruct (padded_spec 6 us) as (Hl & Hd & Hv); [lia|done|].
    change (list_ascii_of_string ("." ++ padded 6 us)) with ("."%char :: list_ascii_of_string (padded 6 us)).
    cbn [app take_char]. rewrite Ascii.eqb_refl, span_digits_app; [|done|by destruct rest; [|apply Hr]].
    destruct (list_ascii_of_string (padded 6 us)) as [|c ds] eqn:E; [done|].
    cbn [is_nil]. rewrite <- E in *. rewrite firstn_app, Hl, Nat.sub_diag, firstn_O, app_nil_r, firstn_all2, Hv by lia. done.
Qed.

Lemma take_char_other c l : match l with x :: _ => x <> c | [] => True end -> take_char c l = None.
Proof. destruct l as [|x l]; [done|]. intros H. cbn. apply Ascii.eqb_neq in H. by rewrite H. Qed.

Lemma take_char_same c l : take_char c (c :: l) = Some l.
Proof. cbn. by rewrite Ascii.eqb_refl. Qed.

(** [HH:MM:SS] with the fraction, as [isoformat] writes the time. *)
Definition clock_text (t : Z) : string :=
  padded 2 (t / 1000000 / 3600) ++ ":" ++ padded 2 (t / 1000000 / 60 mod 60) ++ ":" ++
  padded 2 (t / 1000000 mod 60) ++ fraction_text (t mod 1000000).

Lemma clock_fields t : 0 <= t < day_us ->
  0 <= t / 1000000 / 3600 < 24 /\ 0 <= t / 1000000 / 60 mod 60 < 60 /\ 0 <= t / 1000000 mod 60 < 60 /\
  0 <= t mod 1000000 < 1000000 /\
  ((t / 1000000 / 3600 * 60 + t / 1000000 / 60 mod 60) * 60 + t / 1000000 mod 60) * 1000000
    + t mod 1000000 = t.
Proof. unfold day_us. intros H. Z.to_euclidean_division_equations. lia. Qed.

Ltac list_text := rewrite ?list_ascii_app, <- ?app_assoc;
  repeat match goal with |- context [list_ascii_of_string (String ?c EmptyString)] =>
    change (list_ascii_of_string (String c EmptyString)) with [c] end; cbn [app].

Lemma take_clock_text sec t rest : 0 <= t < day_us -> after_fraction rest ->
  take_clock sec (list_ascii_of_string (clock_text t) ++ rest) =
  Some (t / 1000000 / 3600, t / 1000000 / 60 mod 60, t / 1000000 mod 60, t mod 1000000, rest).
Proof.
  intros Ht Hr. destruct (clock_fields t Ht) as (H1 & H2 & H3 & H4 & _).
  unfold clock_text, take_clock. list_text.
  rewrite number_of_padded by lia. cbn [mbind option_bind].
  rewrite take_char_same. cbn [mbind option_bind].
  rewrite number_of_padded by lia. cbn [mbind option_bind].
  rewrite take_char_same, number_of_padded by lia. cbn [mbind option_bind].
  by rewrite take_fraction_text.
Qed.

Definition offset_valid (o : option Z) : bool :=
  match o with None => true | Some o => (- day_us <? o) && (o <? day_us) end.

Lemma take_clock_minutes h m : 0 <= h < 100 -> 0 <= m < 100 ->
  take_clock false (list_ascii_of_string (padded 2 h ++ ":" ++ padded 2 m)) = Some (h, m, 0, 0, []).
Proof.
  intros Hh Hm. unfold take_clock. list_text. rewrite number_of_padded by lia.
  cbn [mbind option_bind]. rewrite take_char_same. cbn [mbind option_bind].
  rewrite <- (app_nil_r (list_ascii_of_string (padded 2 m))), number_of_padded by lia. done.
Qed.

Lemma offset_clock o : - day_us < o < day_us -> exists h m s us,
  let text := list_ascii_of_string (offset_text (Some o)) in
  text = (if o <? 0 then "-"%char else "+"%char) :: tl text /\
  take_clock false (tl text) = Some (h, m, s, us, []) /\
  0 <= m < 60 /\ 0 <= s < 60 /\ ((h * 60 + m) * 60 + s) * 1000000 + us = Z.abs o.
Proof.
  intros Ho. set (a := Z.abs o). assert (0 <= a < day_us) as Ha by lia.
  destruct (clock_fields a Ha) as (H1 & H2 & H3 & H4 & H5).
  exists (a / 1000000 / 3600), (a / 1000000 / 60 mod 60), (a / 1000000 mod 60), (a mod 1000000).
  unfold offset_text. cbv zeta. fold a. rewrite list_ascii_app.
  destruct ((a / 1000000 mod 60 =? 0) && (a mod 1000000 =? 0)) eqn:E.
  - apply andb_true_iff in E as [E1%Z.eqb_eq E2%Z.eqb_eq].
    rewrite E1, E2. split; [by destruct (o <? 0)|]. split; [|lia].
    rewrite <- (take_clock_minutes (a / 1000000 / 3600) (a / 1000000 / 60 mod 60)) by lia.
    f_equal. rewrite !list_ascii_app. cbn [list_ascii_of_string]. rewrite app_nil_r. by destruct (o <? 0).
  - split; [by destruct (o <? 0)|]. split; [|done].
    transitivity (take_clock false (list_ascii_of_string (clock_text a) ++ [])).
    { rewrite app_nil_r. by destruct (o <? 0). }
    by rewrite take_clock_text.
Qed.

Lemma parse_offset_text o : offset_valid o = true ->
  parse_offset (list_ascii_of_string (offset_text o)) = Ok o.
Proof.
  destruct o as [o|]; [|done]. intros [H1%Z.ltb_lt H2%Z.ltb_lt]%andb_true_iff.
  destruct (offset_clock o (conj H1 H2)) as (h & m & s & us & Et & Ec & Hm & Hs & Hv).
  rewrite Et. unfold parse_offset. rewrite Ec. cbv zeta. rewrite Hv.
  destruct (Z.ltb_spec 59 m); [lia|]. destruct (Z.ltb_spec 59 s); [lia|].
  destruct (Z.leb_spec day_us (Z.abs o)); [lia|].
  destruct (Z.ltb_spec o 0); cbn; repeat f_equal; lia.
Qed.

Lemma offset_after o : offset_valid o = true ->
  after_fraction (list_ascii_of_string (offset_text o)).
Proof.
  destruct o as [o|]; [|done]. intros [H1%Z.ltb_lt H2%Z.ltb_lt]%andb_true_iff.
  destruct (offset_clock o (conj H1 H2)) as (h & m & s & us & -> & _). by destruct (o <? 0).
Qed.

Lemma isoformat_text d : isoformat d =
  (let '(y, m, day) := civil (dt_local d / day_us) in
   padded 4 y ++ "-" ++ padded 2 m ++ "-" ++ padded 2 day ++ "T" ++
   clock_text (dt_local d mod day_us) ++ offset_text (dt_offset d))%string.
Proof.
  unfold isoformat, clock_text. destruct (civil _) as [[y m] day].
  apply list_ascii_inj. rewrite !list_ascii_app, <- !app_assoc. done.
Qed.

(** A [datetime] is what its ISO text says. *)
Lemma fromisoformat_isoformat d : dt_valid d = true -> fromisoformat (isoformat d) = Ok d.
Proof.
  intros H. unfold dt_valid in H. apply andb_true_iff in H as [H Ho]. inv_res. zify_bool.
  assert (0 <= dt_local d mod day_us < day_us) as Ht by (apply Z.mod_pos_bound; done).
  assert (0 <= dt_local d / day_us < 3652059) as Hn.
  { split; [by apply Z.div_pos|]. apply Z.div_lt_upper_bound; [done|]. lia. }
  pose proof (civil_spec _ Hn) as Hc. rewrite isoformat_text.
  destruct (civil (dt_local d / day_us)) as [[y m] day]. destruct Hc as (Hy & Hm & Hd & Hday).
  assert (day < 100) as Hd100.
  { unfold days_in_month in Hd. assert (1 <= m <= 12) as Hm' by done.
    assert (forall leap : bool, days_before_month leap (m + 1) - days_before_month leap m < 100) as G; [|specialize (G (is_leap y)); lia].
    intros leap. assert (m = 1 \/ m = 2 \/ m = 3 \/ m = 4 \/ m = 5 \/ m = 6 \/ m = 7 \/ m = 8 \/ m = 9 \/ m = 10 \/ m = 11 \/ m = 12) as Hx by lia.
    destruct leap; naive_solver. }
  unfold fromisoformat. list_text.
  set (rest := "T"%char :: list_ascii_of_string (clock_text (dt_local d mod day_us)) ++
               list_ascii_of_string (offset_text (dt_offset d))).
  assert (parse_rest rest = Ok (dt_local d mod day_us, dt_offset d)) as Hrest.
  { assert (exists c l, list_ascii_of_string (clock_text (dt_local d mod day_us)) ++
      list_ascii_of_string (offset_text (dt_offset d)) = c :: l) as (c & l & El).
    { destruct (padded_spec 2 (dt_local d mod day_us / 1000000 / 3600)) as (Hl & _); [lia| |].
      { destruct (clock_fields _ Ht) as (H1' & _). lia. }
      unfold clock_text. rewrite list_ascii_app. set (x := list_ascii_of_string (padded 2 _)) in *.
      destruct x; [done|]. by repeat eexists. }
    unfold rest. rewrite El. cbn [parse_rest]. rewrite <- El. unfold parse_time.
    destruct (clock_fields _ Ht) as (H1' & H2' & H3' & H4' & H5').
    rewrite take_clock_text by (done || by apply offset_after).
    rewrite parse_offset_text by done. rewrite Ok_bind, H5'.
    rewrite (proj2 (Z.eqb_neq _ 24)) by lia.
    match goal with |- context [raise_if ?b (ValueError _)] => assert (b = false) as -> by lia end. done. }
  assert (parse_date (list_ascii_of_string (padded 4 y) ++ "-"%char :: list_ascii_of_string (padded 2 m) ++
    "-"%char :: list_ascii_of_string (padded 2 day) ++ rest) = Some (y, m, day, rest)) as Hdate.
  { unfold parse_date. repeat (rewrite number_of_padded by lia; cbn [mbind option_bind];
      rewrite ?take_char_same; cbn [mbind option_bind]). done. }
  destruct (padded_spec 4 y) as (Hl4 & _); [lia|lia|]. destruct (padded_spec 2 m) as (Hl2 & _); [lia|lia|].
  rewrite Hdate. rewrite (proj2 (Nat.ltb_ge _ 7)) by (rewrite !length_app; cbn [length]; rewrite length_app; cbn [length]; lia).
  rewrite Hrest. cbn [raise_if]. rewrite !Ok_bind.
  match goal with |- context [raise_if ?b (ValueError "date out of range")] => assert (b = false) as -> by lia end.
  match goal with |- context [raise_if ?b (ValueError _)] => assert (b = false) as -> by lia end.
  cbn [raise_if]. rewrite !Ok_bind. rewrite Hday. destruct d as [loc off]. cbn [dt_local dt_offset] in *.
  do 2 f_equal. pose proof (Z.div_mod loc day_us). lia.
Qed.

(** ** Examples *)

Example iso_examples : map fromisoformat
  ["2024-02-29T12:30:00+00:00"; "2023-02-29T00:00:00Z"; "2024-01-31"; "0001-01-01T00:00:00.5-01:30"; "2024"] =
  [Ok (mk_datetime 63844806600000000 (Some 0)); Raise (ValueError "day is out of range for month");
   Ok (mk_datetime 63842256000000000 None); Ok (mk_datetime 500000 (Some (-5400000000))); Raise iso_error].
Proof. vm_compute. reflexivity. Qed.

(** [isoformat] writes ASCII. *)
Lemma digits_ascii ds : forallb is_digit ds = true -> forallb is_ascii ds = true.
Proof.
  rewrite !forallb_forall. intros H c Hc. specialize (H c Hc).
  assert (implb (is_digit c) (is_ascii c) = true) as E; [|by rewrite H in E].
  clear. revert c. apply ascii_forall. vm_compute. reflexivity.
Qed.

Lemma isascii_app s t : isascii (s ++ t) = isascii s && isascii t.
Proof. unfold isascii. by rewrite list_ascii_app, forallb_app. Qed.

Lemma padded_ascii w n : isascii (padded w n) = true.
Proof.
  unfold isascii, padded. cbv zeta. rewrite list_ascii_string_id. apply digits_ascii.
  rewrite forallb_app. destruct (digits_spec (Z.abs_N n)) as (_ & -> & _).
  rewrite andb_true_r. by induction (w - _)%nat.
Qed.

Lemma isoformat_ascii d : isascii (isoformat d) = true.
Proof.
  assert (forall us, isascii (fraction_text us) = true) as Hf.
  { intros us. unfold fraction_text. destruct (us =? 0); [done|]. by rewrite isascii_app, padded_ascii. }
  unfold isoformat, offset_text. destruct (civil _) as [[y m] day].
  destruct (dt_offset d) as [o|]; cbv zeta; rewrite !isascii_app, !padded_ascii, ?Hf; [|done].
  destruct (o <? 0); match goal with |- context [if ?b then EmptyString else _] => destruct b end;
    by rewrite ?isascii_app, ?padded_ascii, ?Hf.
Qed.
