(* ===== verification/Serialize.v ===== *)
(** [core/serialization.py], the primitives of audit records, with what the
    standard library adds on their way to a text and back: the sorted keys of
    [json.dumps] and the equality of decoded values. *)
From S2P Require Import Prelude PyDecimal DecimalFacts DecimalText Sha256 PyText JsonText.
Local Open Scope Z_scope.
Local Open Scope bool_scope.

(** ** Values of the domain *)

(** The values [to_primitive] tells apart.  Sets hold texts, dictionaries have
    text keys; [VOther] is a value of a type it does not support. *)
Inductive pyval : Type :=
| VNone
| VBool (b : bool)
| VInt (n : Z)
| VStr (s : string)
| VDecimal (d : pydec)
| VDatetime (d : datetime)
| VEnum (value : string)
| VData (fields : list (string * pyval))
| VMap (items : list (string * pyval))
| VSet (items : list string)
| VList (items : list pyval)
| VOther.

(** [str] of a [Decimal] *)
Definition str_pydec (d : pydec) : string :=
  match d with
  | Finite d => str_decimal d
  | Infinite neg => if neg then "-Infinity" else "Infinity"
  | NaN => "NaN"
  end.

Definition key_leb {V} (a b : string * V) : bool := String.leb a.1 b.1.

(** [sorted(items, key=repr)] *)
Definition sorted_by_repr (l : list string) : list string :=
  py_sorted (fun a b => String.leb (string_of_list_ascii (repr_string a)) (string_of_list_ascii (repr_string b))) l.

(** [to_primitive] *)
Fixpoint to_primitive (v : pyval) : res json :=
  let members := mapM (fun kv : string * pyval => j ← to_primitive kv.2; mret (kv.1, j)) in
  match v with
  | VNone => mret JNull
  | VBool b => mret (JBool b)
  | VInt n => mret (JInt n)
  | VStr s => mret (JStr s)
  | VDecimal d => mret (JStr (str_pydec d))
  | VDatetime d => mret (JStr (isoformat d))
  | VEnum s => mret (JStr s)
  | VData fields => ps ← members fields; mret (JObj ps)
  | VMap items => ps ← members items; mret (JObj (py_sorted key_leb ps))
  | VSet items => mret (JList (map JStr (sorted_by_repr items)))
  | VList items => js ← mapM to_primitive items; mret (JList js)
  | VOther => Raise TypeError
  end.

(** ** [json.dumps(..., sort_keys=True)] *)

(** The objects with their keys in order, at every depth. *)
Fixpoint sort_keys (j : json) : json :=
  match j with
  | JList l => JList (map sort_keys l)
  | JObj l => JObj (py_sorted key_leb (map (fun kv => (kv.1, sort_keys kv.2)) l))
  | _ => j
  end.

(** ** [==] on decoded values *)

(** Dictionaries are equal whatever the order of their keys, and the booleans
    are the integers 0 and 1. *)
Fixpoint py_eqb (a b : json) : bool :=
  match a, b with
  | JNull, JNull => true
  | JBool x, JBool y => Bool.eqb x y
  | JBool x, JInt n | JInt n, JBool x => n =? (if x then 1 else 0)
  | JInt m, JInt n => m =? n
  | JStr s, JStr t => String.eqb s t
  | JList l, JList k =>
      (fix all (l k : list json) : bool :=
         match l, k with
         | [], [] => true
         | x :: l, y :: k => py_eqb x y && all l k
         | _, _ => false
         end) l k
  | JObj l, JObj k =>
      (length l =? length k)%nat
      && forallb (fun kv => match dict_get String.eqb kv.1 k with
                            | Some w => py_eqb kv.2 w
                            | None => false
                            end) l
  | _, _ => false
  end.

(** [bool(value)] *)
Definition truthy (j : json) : bool :=
  match j with
  | JNull => false
  | JBool b => b
  | JInt n => negb (n =? 0)
  | JStr s => negb (String.eqb s "")
  | JList l => negb (is_nil l)
  | JObj l => negb (is_nil l)
  end.

(** ** Facts *)

Lemma key_leb_total {V} (a b : string * V) : key_leb a b = true \/ key_leb b a = true.
Proof. apply string_leb_total. Qed.

Lemma key_leb_trans {V} (a b c : string * V) : key_leb a b = true -> key_leb b c = true -> key_leb a c = true.
Proof. apply string_leb_trans. Qed.

(** Two orderings of a dictionary's items by key are the same. *)
Lemma key_ordered_unique {V} (l : list (string * V)) : forall k, Permutation l k ->
  pairwise_distinct String.eqb (map fst l) -> ordered key_leb l -> ordered key_leb k -> l = k.
Proof.
  induction l as [|x l IH]; intros k Hp Hd Hl Hk.
  { apply Permutation_nil in Hp. by subst. }
  destruct k as [|y k]; [by apply Permutation_sym, Permutation_nil in Hp|].
  cbn [map pairwise_distinct ordered] in *. destruct Hl as [Hx Hl], Hk as [Hy Hk], Hd as [Hdx Hd].
  assert (x = y) as <-.
  { assert (In y (x :: l)) as [|Hin] by (apply (Permutation_in y (Permutation_sym Hp)); by left); [done|].
    assert (In x (y :: k)) as [|Hin'] by (apply (Permutation_in x Hp); by left); [done|].
    specialize (Hdx (fst y) ltac:(by apply in_map)). apply String.eqb_neq in Hdx. exfalso. apply Hdx.
    apply String.leb_antisym; [by apply Hx|by apply Hy]. }
  f_equal. apply IH; try done. by eapply Permutation_cons_inv.
Qed.

Lemma key_sorted_perm {V} (l k : list (string * V)) : Permutation l k ->
  pairwise_distinct String.eqb (map fst l) -> py_sorted key_leb l = py_sorted key_leb k.
Proof.
  intros Hp Hd. apply key_ordered_unique.
  - by rewrite !py_sorted_perm.
  - eapply pairwise_distinct_perm; [|exact Hd]. by rewrite py_sorted_perm.
  - apply py_sorted_ordered; [apply key_leb_total|apply key_leb_trans].
  - apply py_sorted_ordered; [apply key_leb_total|apply key_leb_trans].
Qed.

Lemma map_fst_entries {V W} (f : string * V -> W) (l : list (string * V)) :
  map fst (map (fun kv => (kv.1, f kv)) l) = map fst l.
Proof. rewrite map_map. by apply map_ext. Qed.

(** Sorting the keys again changes nothing. *)
Lemma sort_keys_idem j : json_ok j = true -> sort_keys (sort_keys j) = sort_keys j.
Proof.
  induction j as [|b|n|s|l IH|l IH] using json_nested_ind; try done; cbn [json_ok sort_keys]; intros H.
  - f_equal. rewrite map_map. rewrite forallb_forall in H. apply map_ext_in. intros x Hx.
    rewrite List.Forall_forall in IH. by apply IH, H.
  - apply andb_true_iff in H as [H Hu]. apply all_unique_spec in Hu. f_equal.
    apply key_ordered_unique.
    + rewrite py_sorted_perm. rewrite <- (map_id (py_sorted _ (map _ l))) at 2.
      assert (map (fun kv => (kv.1, sort_keys kv.2)) (py_sorted key_leb (map (fun kv => (kv.1, sort_keys kv.2)) l)) =
              map (fun kv => kv) (py_sorted key_leb (map (fun kv => (kv.1, sort_keys kv.2)) l))) as ->; [|done].
      apply map_ext_in. intros kv Hin. apply py_sorted_In in Hin. apply in_map_iff in Hin as (x & <- & Hin).
      cbn [fst snd]. f_equal. rewrite forallb_forall in H. specialize (H x Hin).
      apply andb_true_iff in H as [_ H]. rewrite List.Forall_forall in IH. by apply IH.
    + eapply pairwise_distinct_perm; [|exact Hu]. rewrite py_sorted_perm, map_fst_entries.
      by rewrite py_sorted_perm, map_fst_entries.
    + apply py_sorted_ordered; [apply key_leb_total|apply key_leb_trans].
    + apply py_sorted_ordered; [apply key_leb_total|apply key_leb_trans].
Qed.

Lemma forallb_perm {A} (f : A -> bool) l k : Permutation l k -> forallb f l = forallb f k.
Proof.
  induction 1 as [|x l k _ IH|x y l|l k m _ IH1 _ IH2]; cbn; [done|by rewrite IH| |congruence].
  destruct (f x), (f y); done.
Qed.

Lemma all_unique_perm l k : Permutation l k -> all_unique String.eqb l = all_unique String.eqb k.
Proof.
  intros H. apply eq_true_iff_eq. rewrite !all_unique_spec.
  split; apply pairwise_distinct_perm; [done|by symmetry].
Qed.

Lemma sort_keys_ok j : json_ok j = true -> json_ok (sort_keys j) = true.
Proof.
  induction j as [|b|n|s|l IH|l IH] using json_nested_ind; try done; cbn [json_ok sort_keys]; intros H.
  - rewrite forallb_forall in *. intros y (x & <- & Hx)%in_map_iff. rewrite List.Forall_forall in IH. auto.
  - apply andb_true_iff in H as [H Hu]. apply andb_true_iff. split.
    + rewrite (forallb_perm _ _ _ (py_sorted_perm _ _)). rewrite forallb_forall in *.
      intros y (x & <- & Hx)%in_map_iff. cbn [fst snd]. pose proof (H x Hx) as Hi. apply andb_true_iff in Hi as [-> Hi].
      rewrite List.Forall_forall in IH. by apply IH.
    + rewrite <- Hu. apply all_unique_perm. by rewrite py_sorted_perm, map_fst_entries.
Qed.

(** The order of an object's items is forgotten. *)
Lemma sort_keys_perm l k : Permutation l k -> all_unique String.eqb (map fst l) = true ->
  sort_keys (JObj l) = sort_keys (JObj k).
Proof.
  intros Hp Hu. apply all_unique_spec in Hu. cbn [sort_keys]. f_equal. apply key_sorted_perm.
  - by rewrite Hp.
  - by rewrite map_fst_entries.
Qed.

(** The text determines the value. *)
Lemma dump_raw_injective a b : json_ok a = true -> json_ok b = true -> dump_raw a = dump_raw b -> a = b.
Proof.
  intros Ha Hb E. pose proof (loads_dump_raw a [] Ha eq_refl) as Ea.
  pose proof (loads_dump_raw b [] Hb eq_refl) as Eb. rewrite E, Eb in Ea. congruence.
Qed.

Lemma py_eqb_refl j : json_ok j = true -> py_eqb j j = true.
Proof.
  induction j as [|[]|n|s|l IH|l IH] using json_nested_ind; cbn [json_ok py_eqb]; intros H; try done.
  - apply Z.eqb_refl.
  - apply String.eqb_refl.
  - induction IH as [|x l Hx IH' IHl]; [done|]. apply andb_true_iff in H as [H1 H2]. by rewrite Hx, IHl.
  - apply andb_true_iff in H as [H Hu]. rewrite Nat.eqb_refl. cbn [andb]. rewrite forallb_forall in *.
    intros [k v] Hin. cbn [fst snd]. rewrite (dict_get_distinct l k v); [|by apply all_unique_spec|done].
    rewrite List.Forall_forall in IH. apply (IH (k, v) Hin). pose proof (H _ Hin) as G.
    by apply andb_true_iff in G as [_ G].
Qed.

(** ** What [json.loads] returns *)

(** ASCII text is read into values with ASCII text, bounded integers and
    different keys, and leaves ASCII text. *)
Definition reads_ok {A} (P : A -> bool) (r : res (A * list ascii)) : Prop :=
  match r with Ok (a, rest) => P a = true /\ forallb is_ascii rest = true | Raise _ => True end.

Lemma reads_ok_bind {A B} (P : A -> bool) (Q : B -> bool) (r : res (A * list ascii))
  (f : A * list ascii -> res (B * list ascii)) : reads_ok P r ->
  (forall a rest, P a = true -> forallb is_ascii rest = true -> reads_ok Q (f (a, rest))) ->
  reads_ok Q (r ≫= f).
Proof. destruct r as [[a rest]|e]; cbn; [|done]. intros [H1 H2] H. by apply H. Qed.

Lemma skip_ws_ascii l : forallb is_ascii l = true -> forallb is_ascii (skip_ws l) = true.
Proof.
  induction l as [|c l IH]; [done|]. cbn [forallb skip_ws]. intros H. destruct (is_ws c); [|done].
  apply andb_true_iff in H as [_ H]. auto.
Qed.

Lemma put_char_ascii c r : is_ascii c = true -> reads_ok (forallb is_ascii) r ->
  reads_ok (forallb is_ascii) (put_char c r).
Proof. destruct r as [[s rest]|e]; cbn; [|done]. by intros -> [-> ->]. Qed.

Lemma simple_escape_ascii c x : simple_escape c = Some x -> is_ascii x = true.
Proof.
  intros H.
  assert (match simple_escape c with Some x => is_ascii x | None => true end = true) as E; [|by rewrite H in E].
  clear. revert c. apply ascii_forall. vm_compute. reflexivity.
Qed.

Lemma unicode_ascii u : (127 <? u)%N = false -> is_ascii (ascii_of_N u) = true.
Proof.
  intros H. apply N.ltb_ge in H. unfold is_ascii. rewrite N_ascii_embedding by lia. by apply N.leb_le.
Qed.

Lemma scan_string_ascii n : forall l, (length l <= n)%nat -> forallb is_ascii l = true ->
  reads_ok (forallb is_ascii) (scan_string l).
Proof.
  induction n as [|n IH]; intros l Hn Hl; (destruct l as [|c l1]; [done|]); cbn [length] in Hn; [lia|].
  cbn [forallb] in Hl. apply andb_true_iff in Hl as [Hc Hl]. cbn [scan_string].
  destruct (_ =? 34)%N; [done|]. destruct (_ =? 92)%N.
  - destruct l1 as [|e l2]; [done|]. cbn [length forallb] in *. apply andb_true_iff in Hl as [_ Hl].
    destruct (Ascii.eqb e "u").
    + destruct l2 as [|h1 [|h2 [|h3 [|h4 l3]]]]; try done. cbn [length forallb] in *.
      destruct (hex4 h1 h2 h3 h4) as [u|]; [|done]. destruct (127 <? u)%N eqn:E; [done|].
      apply put_char_ascii; [by apply unicode_ascii|]. apply IH; [lia|].
      do 4 (apply andb_true_iff in Hl as [_ Hl]). done.
    + destruct (simple_escape e) as [x|] eqn:E; [|done].
      apply put_char_ascii; [by eapply simple_escape_ascii|]. apply IH; [lia|done].
  - destruct (_ <=? 31)%N; [done|]. apply put_char_ascii; [done|]. apply IH; [lia|done].
Qed.

Lemma digits_no_longer ds : ds <> [] -> forallb is_digit ds = true ->
  (length (digits (num_of ds)) <= length ds)%nat.
Proof.
  intros Hn Hd. apply digits_length; [destruct ds; [done|cbn; lia]|]. clear Hn.
  induction ds as [|c ds IH]; [done|]. apply andb_true_iff in Hd as [Hc Hd]. specialize (IH Hd).
  rewrite num_of_cons. cbn [length]. rewrite Nat2N.inj_succ, N.pow_succ_r by lia.
  assert (digit_value c <= 9)%N as H9; [|nia].
  unfold digit_value. unfold is_digit in Hc. apply andb_true_iff in Hc as [_ Hc]. apply N.leb_le in Hc. lia.
Qed.

Lemma span_digits_split l : exists ds rest, span_digits l = (ds, rest) /\ l = ds ++ rest /\ forallb is_digit ds = true.
Proof.
  induction l as [|c l (ds & rest & E & -> & H)]; [by exists [], []|]. cbn [span_digits].
  destruct (is_digit c) eqn:Ec; [|by exists [], (c :: ds ++ rest)].
  rewrite E. exists (c :: ds), rest. cbn. by rewrite Ec, H.
Qed.

Lemma number_ok neg l : forallb is_ascii l = true -> reads_ok json_ok (number neg l).
Proof.
  intros Hl. unfold number. destruct (int_token l) as [[ds rest]|] eqn:E; [|done].
  assert (ds <> [] /\ forallb is_digit ds = true /\ forallb is_ascii rest = true) as (Hn & Hd & Hr).
  { destruct l as [|c l]; [done|]. cbn [int_token] in E. destruct (Ascii.eqb_spec c "0").
    - injection E as <- <-. subst c. apply andb_true_iff in Hl as [_ Hl]. done.
    - destruct (is_digit c) eqn:Ec; [|done]. destruct (span_digits_split (c :: l)) as (ds' & r' & E' & El & Hd).
      rewrite E' in E. injection E as -> ->. rewrite El, forallb_app, andb_true_iff in Hl.
      split_and!; [|done|by destruct Hl]. intros ->. cbn [app] in El. subst rest. cbn [span_digits] in E'.
      rewrite Ec in E'. by destruct (span_digits l). }
  destruct (float_follows rest); [done|]. destruct (_ <? _)%nat eqn:Em; [done|]. cbn [reads_ok json_ok].
  split; [|done]. apply Nat.leb_le. apply Nat.ltb_ge in Em. pose proof (digits_no_longer ds Hn Hd).
  assert (Z.abs_N (if neg then - Z.of_N (num_of ds) else Z.of_N (num_of ds)) = num_of ds) as ->
    by (destruct neg; lia). lia.
Qed.

Lemma is_prefix_ascii p : forall l rest, is_prefix p l = Some rest -> forallb is_ascii l = true ->
  forallb is_ascii rest = true.
Proof.
  induction p as [|c p IH]; intros l rest; [by intros [= ->]|]. destruct l as [|d l]; [done|]. cbn.
  destruct (Ascii.eqb c d); [|done]. intros E [_ H]%andb_true_iff. by eapply IH.
Qed.

Lemma keyword_ok w j l : forallb is_ascii l = true -> json_ok j = true -> reads_ok json_ok (keyword w j l).
Proof.
  intros Hl Hj. unfold keyword. destruct (is_prefix _ l) as [rest|] eqn:E; [|done].
  split; [done|]. by eapply is_prefix_ascii.
Qed.

Lemma scan_scalar_ok l : forallb is_ascii l = true -> reads_ok json_ok (scan_scalar l).
Proof.
  intros Hl. destruct l as [|c l]; [done|]. unfold scan_scalar.
  destruct (Ascii.eqb c "n"); [by apply keyword_ok|]. destruct (Ascii.eqb c "t"); [by apply keyword_ok|].
  destruct (Ascii.eqb c "f"); [by apply keyword_ok|]. destruct (is_float_word _); [done|].
  destruct (Ascii.eqb c "-"); apply number_ok; [|done]. by apply andb_true_iff in Hl as [_ Hl].
Qed.

Section Loads.

Definition member_ok (kv : string * json) : bool := isascii kv.1 && json_ok kv.2.

Context (hook : list (string * json) -> res (list (string * json)))
  (hook_ok : forall ps qs, hook ps = Ok qs -> forallb member_ok ps = true ->
     forallb member_ok qs = true /\ all_unique String.eqb (map fst qs) = true).

Lemma hook_reads ps rest : forallb member_ok ps = true -> forallb is_ascii rest = true ->
  reads_ok json_ok (ps ← hook ps; mret (JObj ps, rest)).
Proof using hook_ok.
  intros Hp Hr. destruct (hook ps) as [qs|e] eqn:E; [|done]. apply hook_ok in E as [H1 H2]; [|done].
  split; [|done]. change (json_ok (JObj qs)) with (forallb member_ok qs && all_unique String.eqb (map fst qs)).
  by rewrite H1, H2.
Qed.

Lemma scan_ok fuel : forall l, forallb is_ascii l = true ->
  reads_ok json_ok (scan_value hook fuel l) /\
  (forall acc, forallb json_ok acc = true -> reads_ok json_ok (scan_items hook fuel acc l)) /\
  (forall acc, forallb member_ok acc = true -> reads_ok json_ok (scan_members hook fuel acc l)).
Proof using hook_ok.
  induction fuel as [|fuel IH]; intros l Hl; [done|]. split_and!.
  - destruct l as [|c l']; [done|]. pose proof Hl as Hl'. cbn [forallb] in Hl'.
    apply andb_true_iff in Hl' as [_ Hl']. pose proof (skip_ws_ascii l' Hl') as Hs. cbn [scan_value].
    destruct (Ascii.eqb c quote).
    { eapply reads_ok_bind; [by eapply scan_string_ascii|]. intros s rest H1 H2. split; [|done].
      cbn [json_ok]. unfold isascii. by rewrite list_ascii_string_id. }
    destruct (Ascii.eqb c "["); [|destruct (Ascii.eqb c "{"); [|by apply scan_scalar_ok]];
      (destruct (skip_ws l') as [|d rest]; [done|]); pose proof Hs as Hr; cbn [forallb] in Hr;
      apply andb_true_iff in Hr as [_ Hr]; destruct (IH (d :: rest) Hs) as (_ & Hi & Hm);
      destruct (Ascii.eqb d _); auto; [done|]. by apply hook_reads.
  - intros acc Ha. cbn [scan_items]. destruct (IH l Hl) as (Hv & _). eapply reads_ok_bind; [exact Hv|].
    intros j rest Hj Hr. apply skip_ws_ascii in Hr. destruct (skip_ws rest) as [|c l']; [done|].
    cbn [forallb] in Hr. apply andb_true_iff in Hr as [_ Hr].
    destruct (Ascii.eqb c "]"); [|destruct (Ascii.eqb c ","); [|done]].
    + split; [|done]. cbn [json_ok]. rewrite forallb_app, Ha. cbn. by rewrite Hj.
    + apply (IH (skip_ws l')); [by apply skip_ws_ascii|]. rewrite forallb_app, Ha. cbn. by rewrite Hj.
  - intros acc Ha. cbn [scan_members]. destruct l as [|q l1]; [done|]. cbn [forallb] in Hl.
    apply andb_true_iff in Hl as [_ Hl]. destruct (Ascii.eqb q quote); [|done].
    eapply reads_ok_bind; [by eapply scan_string_ascii|]. intros k l2 Hk H2. unfold expect.
    apply skip_ws_ascii in H2. destruct (skip_ws l2) as [|x l3]; [done|]. cbn [forallb] in H2.
    apply andb_true_iff in H2 as [_ H3]. destruct (Ascii.eqb x ":"); [|done]. rewrite Ok_bind.
    destruct (IH (skip_ws l3) (skip_ws_ascii _ H3)) as (Hv & _). eapply reads_ok_bind; [exact Hv|].
    intros j rest Hj Hr. cbv zeta. apply skip_ws_ascii in Hr. destruct (skip_ws rest) as [|c l']; [done|].
    cbn [forallb] in Hr. apply andb_true_iff in Hr as [_ Hr].
    assert (forallb member_ok (acc ++ [(string_of_list_ascii k, j)]) = true) as Hn.
    { rewrite forallb_app, Ha. cbn. unfold member_ok, isascii. cbn. by rewrite list_ascii_string_id, Hk, Hj. }
    destruct (Ascii.eqb c "}"); [by apply hook_reads|]. destruct (Ascii.eqb c ","); [|done].
    apply (IH (skip_ws l')); [by apply skip_ws_ascii|done].
Qed.

Lemma loads_with_ok l j : forallb is_ascii l = true -> loads_with hook l = Ok j -> json_ok j = true.
Proof using hook_ok.
  unfold loads_with. intros Hl H. apply bind_Ok in H as ([x rest] & H & E).
  destruct (scan_ok (2 * S (length l)) (skip_ws l) (skip_ws_ascii l Hl)) as (Hv & _). rewrite H in Hv.
  destruct (skip_ws rest); [|done]. injection E as <-. apply Hv.
Qed.

End Loads.

Lemma dict_set_all {V} (f : string * V -> bool) k v d :
  forallb f d = true -> (forall k', String.eqb k k' = true -> f (k', v) = true) -> f (k, v) = true ->
  forallb f (dict_set String.eqb k v d) = true.
Proof.
  intros Hd Hk H. induction d as [|[k0 v0] d IH]; cbn; [by rewrite H|].
  cbn in Hd. apply andb_true_iff in Hd as [H0 Hd]. destruct (String.eqb k k0) eqn:E; cbn.
  - by rewrite Hk, Hd.
  - by rewrite H0, IH.
Qed.

Lemma dict_wf_distinct {V} (d : list (string * V)) : dict_wf String.eqb d -> pairwise_distinct String.eqb (map fst d).
Proof.
  induction d as [|[k v] d IH]; [done|]. cbn. intros [H Hd]. split; [|auto].
  intros k' ([k0 v0] & <- & Hin)%in_map_iff. by apply (H _ v0).
Qed.

Lemma plain_hook_ok ps qs : plain_hook ps = Ok qs -> forallb member_ok ps = true ->
  forallb member_ok qs = true /\ all_unique String.eqb (map fst qs) = true.
Proof.
  intros [= <-] H. split.
  - unfold dict_of. assert (forall acc, forallb member_ok acc = true ->
      forallb member_ok (fold_left (fun d kv => dict_set String.eqb kv.1 kv.2 d) ps acc) = true) as G; [|by apply G].
    induction ps as [|[k v] ps IH]; intros acc Ha; [done|]. cbn [forallb] in H. apply andb_true_iff in H as [Hk H].
    cbn [fold_left]. apply IH; [done|]. apply dict_set_all; [done| |done].
    cbn [fst snd]. intros k' E. apply String.eqb_eq in E. by subst k'.
  - apply all_unique_spec, dict_wf_distinct, (dict_of_wf String.eqb).
Qed.

Lemma decode_text_ascii l t : decode_text l = Ok t -> t = l /\ forallb is_ascii l = true.
Proof.
  unfold decode_text. intros H. apply bind_Ok in H as (u & Hr & H). apply mret_Ok in H. split; [done|].
  apply raise_if_Ok in Hr. apply forallb_forall. intros c Hc. apply not_true_iff_false in Hr.
  destruct (is_ascii c) eqn:E; [done|]. destruct Hr. apply existsb_exists. exists c. by rewrite E.
Qed.

(** Every value [json.loads] returns has a text that reads back to it. *)
Lemma loads_ok l j : loads l = Ok j -> json_ok j = true.
Proof.
  unfold loads. intros H. apply bind_Ok in H as (t & Ht & H). apply decode_text_ascii in Ht as [-> Ha].
  by eapply loads_with_ok; [apply plain_hook_ok|exact Ha|exact H].
Qed.

(** ** The lines of a text file *)

(** [str.splitlines], after the universal newlines of [read_text] *)
Definition is_line_break (c : ascii) : bool :=
  let n := N_of_ascii c in (((10 <=? n) && (n <=? 13)) || ((28 <=? n) && (n <=? 30)))%N.

Fixpoint str_lines_from (line l : list ascii) : list (list ascii) :=
  match l with
  | [] => if is_nil line then [] else [rev line]
  | c :: l' =>
      if is_line_break c then
        rev line ::
          match l' with
          | d :: l'' => if Ascii.eqb c (ascii_of_N 13) && Ascii.eqb d (ascii_of_N 10)
                        then str_lines_from [] l'' else str_lines_from [] l'
          | [] => []
          end
      else str_lines_from (c :: line) l'
  end.
Definition str_lines (l : list ascii) : list (list ascii) := str_lines_from [] l.

(** Lines of text without control characters are what the file splits into. *)
Lemma line_break_unescaped c : unescaped c = true -> is_line_break c = false.
Proof.
  intros H. assert (implb (unescaped c) (negb (is_line_break c)) = true) as E.
  { clear. revert c. apply ascii_forall. vm_compute. reflexivity. }
  rewrite H in E. by apply negb_true_iff in E.
Qed.

Lemma str_lines_line t : forall acc, forallb unescaped t = true ->
  str_lines_from acc (t ++ [ascii_of_N 10]) = [rev acc ++ t].
Proof.
  induction t as [|c t IH]; intros acc H; [cbn; by rewrite app_nil_r|].
  cbn [forallb] in H. apply andb_true_iff in H as [Hc H]. cbn [app str_lines_from].
  rewrite (line_break_unescaped c Hc), IH by done. cbn [rev]. by rewrite <- app_assoc.
Qed.

(** A text that is empty or ends with a newline. *)
Definition ends_line (l : list ascii) : bool := match last l with Some c => Ascii.eqb c (ascii_of_N 10) | None => true end.

Lemma str_lines_app n : forall acc l k, (length l <= n)%nat -> (acc = [] \/ l <> []) -> ends_line l = true ->
  str_lines_from acc (l ++ k) = str_lines_from acc l ++ str_lines k.
Proof.
  induction n as [|n IH]; intros acc l k Hn Ha He.
  { destruct l; [|cbn in Hn; lia]. destruct Ha as [-> |]; done. }
  destruct l as [|c l]; [by destruct Ha as [-> |]|]. cbn [length] in Hn. cbn [app str_lines_from].
  destruct (is_line_break c) eqn:Ec.
  - destruct l as [|d l].
    + cbn in He. apply Ascii.eqb_eq in He. subst c. cbn [app]. destruct k as [|d k]; [done|]. done.
    + cbn [app]. assert (ends_line (d :: l) = true) as Hd by exact He.
      destruct (Ascii.eqb c (ascii_of_N 13) && Ascii.eqb d (ascii_of_N 10)).
      * cbn [app]. f_equal. destruct l as [|x l]; [done|]. apply IH; [cbn in *; lia|by left|exact Hd].
      * change (d :: l ++ k) with ((d :: l) ++ k). rewrite (IH [] (d :: l)); [done|lia|by left|done].
  - destruct l as [|d l].
    + cbn in He. apply Ascii.eqb_eq in He. by subst c.
    + rewrite (IH (c :: acc) (d :: l)); [done|lia|by right|exact He].
Qed.

