(* ===== verification/Attribution.v ===== *)
(** [domain/research/virtual_runtime_attribution.py], the evidence a trade
    carries: the parameter methods, the decision evidence with its digest, and
    the closure assessment derived from them.  [TradeLedger] has the closed
    trades and their aggregation. *)
From S2P Require Import Prelude PyDecimal DecimalFacts DecimalText Sha256 PyText JsonText IsoTime Serialize.
From Stdlib Require Import QArith.
Local Open Scope Z_scope.
Local Open Scope bool_scope.

Definition NOT_RECORDED : string := "NOT_RECORDED".

(** ** Parameter methods *)

Record TradeParameterMethods : Type := mk_methods {
  m_quantity : string; m_leverage : string; m_stop_loss : string; m_entry : string;
  m_take_profit : string; m_risk_reward : string; m_pnl : string
}.
#[export] Instance TradeParameterMethods_eq_dec : EqDecision TradeParameterMethods.
Proof. solve_decision. Defined.

(** The fields by name, in the order of the class. *)
Definition method_fields (m : TradeParameterMethods) : list (string * string) :=
  [ ("quantity", m_quantity m); ("leverage", m_leverage m); ("stop_loss", m_stop_loss m); ("entry", m_entry m);
    ("take_profit", m_take_profit m); ("risk_reward", m_risk_reward m); ("pnl", m_pnl m) ].

(** [TradeParameterMethods.__post_init__] *)
Definition new_methods (m : TradeParameterMethods) : res TradeParameterMethods :=
  raise_if (existsb (fun kv => blank kv.2) (method_fields m))
    (ValueError "trade parameter methods must be nonblank strings");;
  mret m.

Definition default_methods : TradeParameterMethods :=
  mk_methods NOT_RECORDED NOT_RECORDED NOT_RECORDED NOT_RECORDED NOT_RECORDED NOT_RECORDED NOT_RECORDED.

(** [payload.get(key, "NOT_RECORDED")], which must be a text. *)
Definition method_of (fields : list (string * json)) (key : string) : res string :=
  match default (JStr NOT_RECORDED) (dict_get String.eqb key fields) with
  | JStr s => mret s
  | _ => Raise (ValueError "trade parameter methods must be strings")
  end.

(** [TradeParameterMethods.from_payload] *)
Definition methods_from_payload (payload : json) : res TradeParameterMethods :=
  match payload with
  | JNull => new_methods default_methods
  | JObj fields =>
      quantity ← method_of fields "quantity"; leverage ← method_of fields "leverage";
      stop_loss ← method_of fields "stop_loss"; entry ← method_of fields "entry";
      take_profit ← method_of fields "take_profit"; risk_reward ← method_of fields "risk_reward";
      pnl ← method_of fields "pnl";
      new_methods (mk_methods quantity leverage stop_loss entry take_profit risk_reward pnl)
  | _ => Raise (ValueError "trade parameter methods must be a mapping")
  end.

(** ** Decision evidence *)

Record TradeDecisionEvidence : Type := mk_evidence {
  de_status : string;
  as_of : option datetime;
  direction_method : string;
  entry_method : string;
  factors_json : string;
  de_sha256 : string
}.

(** [json.dumps(value, sort_keys=True, separators=(",", ":"))] *)
Definition canonical_json (j : json) : string := string_of_list_ascii (dump (sort_keys j)).

(** The digest of the definitions a recorded method registry names. *)
Definition check_registry (factors : list (string * json)) : res unit :=
  match default JNull (dict_get String.eqb "method_registry" factors) with
  | JNull => mret tt
  | JObj registry =>
      match default JNull (dict_get String.eqb "definition" registry) with
      | JObj definition =>
          raise_if (negb (py_eqb (JStr (sha256 (canonical_json (JObj definition))))
                                 (default JNull (dict_get String.eqb "sha256" registry))))
            (ValueError "recorded method registry digest mismatch")
      | _ => Raise (ValueError "recorded method registry requires definitions and digest")
      end
  | _ => Raise (ValueError "recorded method registry requires definitions and digest")
  end.

(** What the status claims, and what must then be there. *)
Definition check_claim (status : string) (as_of : option datetime) (direction entry : string)
  (factors : list (string * json)) : res unit :=
  if String.eqb status NOT_RECORDED then
    raise_if (negb (is_nil factors) || match as_of with Some _ => true | None => false end
              || negb (String.eqb direction NOT_RECORDED && String.eqb entry NOT_RECORDED))
      (ValueError "unrecorded evidence cannot claim observed factors")
  else
    raise_if (match as_of with Some d => naive d | None => true end || is_nil factors || blank direction || blank entry
              || str_in NOT_RECORDED [direction; entry])
      (ValueError "recorded evidence requires aware time, methods and factors").

(** What the digest covers. *)
Definition evidence_fields (status : string) (as_of : option datetime) (direction entry canonical : string) : json :=
  JList [ JStr status; opt_str (isoformat <$> as_of); JStr direction; JStr entry; JStr canonical ].
Definition evidence_digest (status : string) (as_of : option datetime) (direction entry canonical : string) : string :=
  sha256 (dumps (evidence_fields status as_of direction entry canonical)).

Definition evidence_statuses : list string := [NOT_RECORDED; "RECORDED_AT_DECISION"; "RECONSTRUCTED_FROM_ARCHIVE"].

(** [json.loads] of the factors, which must be an object *)
Definition load_factors (text : string) : res (list (string * json)) :=
  j ← json_text text;
  match j with JObj factors => mret factors | _ => Raise (ValueError "decision factors must be a JSON object") end.

(** [TradeDecisionEvidence(...)] with [__post_init__] *)
Definition new_evidence (status : string) (as_of : option datetime) (direction entry factors_text : string)
  : res TradeDecisionEvidence :=
  raise_if (negb (str_in status evidence_statuses)) (ValueError "unsupported decision evidence status");;
  raise_if (1000000 <? str_len factors_text) (ValueError "decision evidence exceeds the payload bound");;
  factors ← load_factors factors_text;
  check_registry factors;;
  check_claim status as_of direction entry factors;;
  let canonical := canonical_json (JObj factors) in
  mret (mk_evidence status as_of direction entry canonical (evidence_digest status as_of direction entry canonical)).

(** [TradeDecisionEvidence()] *)
Definition default_evidence : res TradeDecisionEvidence := new_evidence NOT_RECORDED None NOT_RECORDED NOT_RECORDED "{}".

(** [TradeDecisionEvidence.from_payload] *)
Definition evidence_from_payload (payload : json) : res TradeDecisionEvidence :=
  match payload with
  | JNull => default_evidence
  | JObj fields =>
      status ← text_field "status" fields;
      stamp ← match default JNull (dict_get String.eqb "as_of" fields) with
              | JNull => mret None
              | stamp => Some <$> fromisoformat (py_str stamp)
              end;
      direction ← text_field "direction_method" fields;
      entry ← text_field "entry_method" fields;
      factors ← text_field "factors_json" fields;
      evidence ← new_evidence status stamp direction entry factors;
      raise_if (negb (py_eqb (default JNull (dict_get String.eqb "sha256" fields)) (JStr (de_sha256 evidence))))
        (ValueError "decision evidence digest mismatch");;
      mret evidence
  | _ => Raise (ValueError "decision evidence payload must be a mapping")
  end.

(** The fields as [to_primitive] walks them. *)
Definition methods_value (m : TradeParameterMethods) : pyval :=
  VData (map (fun kv => (kv.1, VStr kv.2)) (method_fields m)).
Definition evidence_value (e : TradeDecisionEvidence) : pyval :=
  VData [ ("status", VStr (de_status e));
          ("as_of", match as_of e with Some d => VDatetime d | None => VNone end);
          ("direction_method", VStr (direction_method e)); ("entry_method", VStr (entry_method e));
          ("factors_json", VStr (factors_json e)); ("sha256", VStr (de_sha256 e)) ].

(** ** Closure assessment *)

Record TradeClosureAssessment : Type := mk_assessed {
  decision_evidence_sha256 : string;
  decision_lineage_status : string;
  selected_scenario_id : option string;
  entry_quality : string;
  as_stop_quality : string;
  target_quality : string;
  method_accuracy : string;
  scenario_accuracy : string;
  execution_quality : string;
  rule_evaluation_status : string
}.

Definition NO_ZONE : string := "NOT_EVALUABLE_NO_RECORDED_ENTRY_ZONE".
Definition INVALID_ZONE : string := "NOT_EVALUABLE_INVALID_RECORDED_ENTRY_ZONE".
Definition WITHIN_ZONE : string := "FILL_WITHIN_RECORDED_ENTRY_ZONE".
Definition OUTSIDE_ZONE : string := "FILL_OUTSIDE_RECORDED_ENTRY_ZONE".

(** [Decimal(str(zone.get(name)))] *)
Definition zone_bound (zone : list (string * json)) (name : string) : option pydec :=
  parse_decimal (py_str (default JNull (dict_get String.eqb name zone))).

(** [TradeClosureAssessment._entry_quality], for a finite price *)
Definition _entry_quality (zone : json) (price : dec) : string :=
  match zone with
  | JObj zone =>
      match zone_bound zone "lower", zone_bound zone "upper" with
      | Some (Finite low), Some (Finite high) =>
          if negb ((ZERO <? low)%D && (low <=? high)%D) then INVALID_ZONE
          else if (low <=? price)%D && (price <=? high)%D then WITHIN_ZONE else OUTSIDE_ZONE
      | _, _ => INVALID_ZONE
      end
  | _ => NO_ZONE
  end.

(** The evidence was recorded, and not after the entry. *)
Definition causal (e : TradeDecisionEvidence) (entry_time : datetime) : bool :=
  String.eqb (de_status e) "RECORDED_AT_DECISION"
  && match as_of e with
     | Some d => negb (naive entry_time) && dt_leb d entry_time
     | None => false
     end.

(** The scenario the recorded state selects, when the state lists it. *)
Definition selected_scenario (factors : list (string * json)) : option string :=
  match default JNull (dict_get String.eqb "state" factors) with
  | JObj state =>
      match default JNull (dict_get String.eqb "selected_scenario_id" state),
            default (JList []) (dict_get String.eqb "scenarios" state) with
      | JStr id, JList rows =>
          if existsb (fun row => match row with
                                 | JObj row => py_eqb (default JNull (dict_get String.eqb "scenario_id" row)) (JStr id)
                                 | _ => false
                                 end) rows
          then Some id else None
      | _, _ => None
      end
  | _ => None
  end.

(** [TradeClosureAssessment.build] *)
Definition assess (e : TradeDecisionEvidence) (entry_time : datetime) (price : dec) (exit_reason : string)
  : res TradeClosureAssessment :=
  let is_causal := causal e entry_time in
  factors ← (if is_causal then load_factors (factors_json e) else mret []);
  mret (mk_assessed (de_sha256 e)
    (if is_causal then "CAUSAL_DECISION_EVIDENCE"
     else "NOT_EVALUABLE_MISSING_OR_NONCAUSAL_DECISION_EVIDENCE")
    (selected_scenario factors)
    (_entry_quality (default JNull (dict_get String.eqb "entry_zone" factors)) price)
    (if str_in exit_reason ["HARD_STOP"; "STOP_LOSS_EXIT"] then "INITIAL_STOP_EXIT_RECORDED"
     else if str_in exit_reason ["TRAILING_STOP"; "TRAILING_STOP_EXIT"] then "TRAILING_STOP_EXIT_RECORDED"
     else "NO_STOP_EXIT_RECORDED")
    (if str_in exit_reason ["TARGET"; "TAKE_PROFIT_EXIT"] then "TARGET_EXIT_RECORDED"
     else "NO_FINAL_TARGET_EXIT_RECORDED")
    "NOT_EVALUABLE_NO_METHOD_OUTCOME_LABELS" "NOT_EVALUABLE_NO_SCENARIO_OUTCOME_LABELS"
    "NOT_EVALUABLE_NO_FILL_BENCHMARK" "NOT_EVALUABLE_NO_RULE_EXECUTION_TRACE").

(** ** Facts *)

Lemma new_methods_Ok m m' : new_methods m = Ok m' <-> m' = m /\ forallb (fun kv => negb (blank kv.2)) (method_fields m) = true.
Proof.
  unfold new_methods.
  assert (negb (existsb (fun kv => blank kv.2) (method_fields m)) = forallb (fun kv => negb (blank kv.2)) (method_fields m)) as E.
  { induction (method_fields m) as [|x l IH]; [done|]. cbn. by rewrite negb_orb, IH. }
  rewrite <- E. destruct (existsb _ _); cbn; split; [done|by intros (_ & ?)|by intros [= <-]|by intros (-> & _)].
Qed.

Lemma method_fields_ok m : forallb (fun kv => isascii kv.2) (method_fields m) = true ->
  json_ok (JObj (map (fun kv => (kv.1, JStr kv.2)) (method_fields m))) = true.
Proof.
  intros H. cbn [json_ok]. apply andb_true_iff. split; [|vm_compute; reflexivity].
  cbn in H |- *. rewrite !andb_true_iff in *. naive_solver.
Qed.

(** Methods survive their primitives. *)
Lemma methods_roundtrip m : new_methods m = Ok m ->
  to_primitive (methods_value m) = Ok (JObj (map (fun kv => (kv.1, JStr kv.2)) (method_fields m)))
  /\ methods_from_payload (JObj (map (fun kv => (kv.1, JStr kv.2)) (method_fields m))) = Ok m.
Proof. intros H. split; [done|]. cbn -[new_methods]. by destruct m. Qed.

Lemma load_factors_Ok text factors : load_factors text = Ok factors -> json_ok (JObj factors) = true.
Proof.
  unfold load_factors, json_text. intros H. apply bind_Ok in H as (j & Hj & H). apply loads_ok in Hj.
  destruct j; try discriminate. by apply mret_Ok in H as ->.
Qed.

Lemma canonical_loads factors : json_ok (JObj factors) = true ->
  exists sorted, sort_keys (JObj factors) = JObj sorted /\ load_factors (canonical_json (JObj factors)) = Ok sorted.
Proof.
  intros H. pose proof (sort_keys_ok _ H) as Hs. destruct (sort_keys (JObj factors)) as [| | | | |sorted] eqn:E; try discriminate.
  exists sorted. split; [done|]. unfold load_factors, json_text, canonical_json. rewrite E, list_ascii_string_id.
  rewrite <- (app_nil_r (dump _)), loads_dump by done. done.
Qed.

Lemma isascii_dumps j : isascii (dumps j) = true.
Proof.
  unfold isascii, dumps. rewrite list_ascii_string_id. apply forallb_forall. intros c Hc.
  pose proof (dump_printable j) as H. rewrite forallb_forall in H. specialize (H c Hc).
  assert (implb (printable c) (is_ascii c) = true) as E; [|by rewrite H in E].
  clear. revert c. apply ascii_forall. vm_compute. reflexivity.
Qed.

Lemma dumps_injective a b : json_ok a = true -> json_ok b = true -> dumps a = dumps b -> a = b.
Proof.
  unfold dumps. intros Ha Hb E. apply (f_equal list_ascii_of_string) in E. rewrite !list_ascii_string_id in E.
  pose proof (loads_dump a [] Ha eq_refl) as Ea. pose proof (loads_dump b [] Hb eq_refl) as Eb. rewrite E, Eb in Ea.
  congruence.
Qed.

(** Sorting the keys keeps what a key holds, up to the order of keys inside. *)
Lemma get_sort_keys k l sorted : json_ok (JObj l) = true -> sort_keys (JObj l) = JObj sorted ->
  dict_get String.eqb k sorted = sort_keys <$> dict_get String.eqb k l.
Proof.
  cbn [json_ok sort_keys]. intros H E. injection E as <-. apply andb_true_iff in H as (_ & Hu).
  apply all_unique_spec in Hu. rewrite (dict_get_perm (map (fun kv => (kv.1, sort_keys kv.2)) l)).
  - clear. induction l as [|[k' v] l IH]; [done|]. cbn. by destruct (String.eqb k k').
  - by rewrite py_sorted_perm.
  - by rewrite map_fst_entries.
Qed.

Lemma value_ok k l v : json_ok (JObj l) = true -> dict_get String.eqb k l = Some v -> json_ok v = true.
Proof.
  cbn [json_ok]. intros (H & _)%andb_true_iff (k' & Hin & _)%dict_get_In. rewrite forallb_forall in H.
  specialize (H _ Hin). by apply andb_true_iff in H as (_ & H).
Qed.

Lemma registry_sorted factors sorted : json_ok (JObj factors) = true -> sort_keys (JObj factors) = JObj sorted ->
  check_registry sorted = check_registry factors.
Proof.
  intros H E. unfold check_registry. rewrite (get_sort_keys _ _ _ H E).
  destruct (dict_get String.eqb "method_registry" factors) as [r|] eqn:Er; [|done].
  pose proof (value_ok _ _ _ H Er) as Hr.
  cbn [fmap option_fmap option_map default]. destruct r as [|b|n|s|l|registry]; try done.
  assert (exists rs, sort_keys (JObj registry) = JObj rs) as (rs & Ers) by (eexists; reflexivity).
  rewrite Ers. cbv beta iota delta [id]. rewrite !(get_sort_keys _ _ _ Hr Ers).
  destruct (dict_get String.eqb "definition" registry) as [d|] eqn:Ed; [|done].
  pose proof (value_ok _ _ _ Hr Ed) as Hd.
  cbn [fmap option_fmap option_map default]. destruct d as [|b|n|s|l|definition]; try done.
  assert (exists ds, sort_keys (JObj definition) = JObj ds) as (ds & Eds) by (eexists; reflexivity).
  rewrite Eds. cbv beta iota delta [id]. f_equal. f_equal. unfold canonical_json. rewrite <- Eds, sort_keys_idem by done.
  destruct (dict_get String.eqb "sha256" registry) as [s|]; [|done]. by destruct s.
Qed.

(** What the constructor computes. *)
Lemma new_evidence_Ok status at_ direction entry text e : new_evidence status at_ direction entry text = Ok e <->
  str_in status evidence_statuses = true /\ str_len text <= 1000000
  /\ exists factors, load_factors text = Ok factors /\ check_registry factors = Ok tt
     /\ check_claim status at_ direction entry factors = Ok tt
     /\ e = mk_evidence status at_ direction entry (canonical_json (JObj factors))
              (evidence_digest status at_ direction entry (canonical_json (JObj factors))).
Proof.
  unfold new_evidence. split.
  - intros H. apply bind_Ok in H as (u1 & H1 & H). apply bind_Ok in H as (u2 & H2 & H).
    apply bind_Ok in H as (factors & Hf & H). apply bind_Ok in H as ([] & Hr & H). apply bind_Ok in H as ([] & Hc & H).
    apply mret_Ok in H as <-. apply raise_if_Ok in H1, H2. apply negb_false_iff in H1. apply Z.ltb_ge in H2.
    split; [done|]. split; [done|]. by exists factors.
  - intros (H1 & H2 & factors & Hf & Hr & Hc & ->). rewrite H1. apply Z.ltb_ge in H2. rewrite H2.
    cbn [negb raise_if]. rewrite !Ok_bind, Hf, Ok_bind, Hr, Ok_bind, Hc. done.
Qed.

(** The canonical factors are factors of the same evidence. *)
Lemma evidence_again status at_ direction entry text e : new_evidence status at_ direction entry text = Ok e ->
  str_len (factors_json e) <= 1000000 -> new_evidence status at_ direction entry (factors_json e) = Ok e.
Proof.
  intros (H1 & _ & factors & Hf & Hr & Hc & ->)%new_evidence_Ok. cbn [factors_json]. intros Hlen.
  apply load_factors_Ok in Hf. destruct (canonical_loads _ Hf) as (sorted & E & Hs).
  apply new_evidence_Ok. split; [done|]. split; [done|]. exists sorted. split; [done|].
  split; [by rewrite (registry_sorted _ _ Hf E)|]. split.
  - unfold check_claim in *. assert (is_nil sorted = is_nil factors) as ->; [|done].
    cbn [sort_keys] in E. injection E as <-. apply eq_true_iff_eq. rewrite !is_nil_true. split.
    + intros En. apply (f_equal length) in En. rewrite py_sorted_length, length_map in En. by apply nil_length_inv in En.
    + by intros ->.
  - unfold canonical_json. rewrite <- E, sort_keys_idem by done. done.
Qed.

Definition time_ok (at_ : option datetime) : bool := match at_ with Some d => dt_valid d | None => true end.

Lemma evidence_status_ascii status : str_in status evidence_statuses = true -> isascii status = true.
Proof. rewrite str_in_In. by intros [<-|[<-|[<-|[]]]]. Qed.

Lemma canonical_ascii j : isascii (canonical_json j) = true.
Proof. exact (isascii_dumps (sort_keys j)). Qed.

Definition evidence_items (e : TradeDecisionEvidence) : list (string * json) :=
  [ ("status", JStr (de_status e)); ("as_of", opt_str (isoformat <$> as_of e));
    ("direction_method", JStr (direction_method e)); ("entry_method", JStr (entry_method e));
    ("factors_json", JStr (factors_json e)); ("sha256", JStr (de_sha256 e)) ].

Lemma evidence_primitive e : to_primitive (evidence_value e) = Ok (JObj (evidence_items e)).
Proof. destruct e as [s [d|] ? ? ? ?]; done. Qed.

Lemma evidence_items_ok e status at_ direction entry text : new_evidence status at_ direction entry text = Ok e ->
  isascii direction = true -> isascii entry = true -> json_ok (JObj (evidence_items e)) = true.
Proof.
  intros (H1 & _ & factors & _ & _ & _ & ->)%new_evidence_Ok Hd He. cbn [json_ok]. apply andb_true_iff.
  split; [|vm_compute; reflexivity]. cbn -[isascii canonical_json evidence_digest isoformat].
  rewrite (evidence_status_ascii _ H1), Hd, He, canonical_ascii. unfold evidence_digest. rewrite sha256_ascii. destruct at_ as [d|]; cbn -[isascii isoformat]; [|done].
  by rewrite isoformat_ascii.
Qed.

(** A decoded object whose values are scalars, whatever the order of its keys. *)
Definition scalar (j : json) : bool := match j with JList _ | JObj _ => false | _ => true end.

Lemma scalar_sorted j : scalar j = true -> sort_keys j = j.
Proof. by destruct j. Qed.

Definition same_items (l k : list (string * json)) : Prop :=
  forall key, dict_get String.eqb key k = dict_get String.eqb key l.

Lemma scalars_sorted l : json_ok (JObj l) = true -> forallb (fun kv => scalar kv.2) l = true ->
  exists sorted, sort_keys (JObj l) = JObj sorted /\ same_items l sorted.
Proof.
  intros H Hs. eexists. split; [reflexivity|]. intros k. erewrite get_sort_keys; [|exact H|reflexivity].
  destruct (dict_get String.eqb k l) as [v|] eqn:E; [|done]. cbn. f_equal. apply scalar_sorted.
  apply dict_get_In in E as (k' & Hin & _). rewrite forallb_forall in Hs. by apply (Hs (k', v)).
Qed.

(** The primitives of an evidence restore it. *)
Lemma evidence_restores e status at_ direction entry text fields : new_evidence status at_ direction entry text = Ok e ->
  time_ok at_ = true -> str_len (factors_json e) <= 1000000 -> same_items (evidence_items e) fields ->
  evidence_from_payload (JObj fields) = Ok e.
Proof.
  intros H Ht Hlen Hsame. pose proof (evidence_again _ _ _ _ _ _ H Hlen) as Ha.
  apply new_evidence_Ok in H as (_ & _ & factors & _ & _ & _ & E).
  unfold evidence_from_payload, text_field, lookup. rewrite !Hsame. unfold evidence_items.
  cbn -[new_evidence fromisoformat isoformat].
  assert (as_of e = at_ /\ de_status e = status /\ direction_method e = direction /\ entry_method e = entry)
    as (E1 & E2 & E3 & E4) by (rewrite E; done).
  rewrite E1, E2, E3, E4. destruct at_ as [d|]; cbn -[new_evidence fromisoformat isoformat].
  - rewrite fromisoformat_isoformat by done. cbn -[new_evidence]. rewrite Ha. cbn. by rewrite String.eqb_refl.
  - rewrite Ha. cbn. by rewrite String.eqb_refl.
Qed.

Lemma evidence_items_scalar e : forallb (fun kv => scalar kv.2) (evidence_items e) = true.
Proof. destruct e as [? [d|] ? ? ? ?]; done. Qed.

(** Decision evidence survives storage.  The primitives of an evidence the
    constructor accepted, written as canonical JSON and read back, restore the
    same evidence, its digest included, when its canonical factors are within
    the payload bound. *)
Theorem evidence_roundtrip e status at_ direction entry text : new_evidence status at_ direction entry text = Ok e ->
  isascii direction = true -> isascii entry = true -> time_ok at_ = true -> str_len (factors_json e) <= 1000000 ->
  exists j stored, to_primitive (evidence_value e) = Ok j /\ json_text (canonical_json j) = Ok stored
  /\ evidence_from_payload stored = Ok e.
Proof.
  intros H Hd He Ht Hlen. pose proof (evidence_items_ok _ _ _ _ _ _ H Hd He) as Hok.
  destruct (scalars_sorted _ Hok (evidence_items_scalar e)) as (sorted & Es & Hsame).
  exists (JObj (evidence_items e)), (JObj sorted). split; [apply evidence_primitive|]. split.
  - unfold json_text, canonical_json. rewrite Es, list_ascii_string_id, <- (app_nil_r (dump _)).
    apply loads_dump; [|done]. rewrite <- Es. by apply sort_keys_ok.
  - by eapply evidence_restores.
Qed.

Lemma isoformat_injective d d' : dt_valid d = true -> dt_valid d' = true -> isoformat d = isoformat d' -> d = d'.
Proof.
  intros H H' E. apply fromisoformat_isoformat in H, H'. rewrite E, H' in H. congruence.
Qed.

(** The digest of a decision evidence binds all of it.  Two evidences the
    constructor accepted with the same digest are equal, or exhibit two different
    texts with the same SHA-256. *)
Theorem evidence_digest_binds e e' status status' at_ at_' direction direction' entry entry' text text' :
  new_evidence status at_ direction entry text = Ok e -> new_evidence status' at_' direction' entry' text' = Ok e' ->
  forallb isascii [direction; direction'; entry; entry'] = true -> time_ok at_ = true -> time_ok at_' = true ->
  de_sha256 e = de_sha256 e' -> e = e' \/ exists s t, s <> t /\ sha256 s = sha256 t.
Proof.
  intros H H' Ha Ht Ht' Hs. cbn [forallb] in Ha. rewrite !andb_true_iff in Ha. destruct Ha as (A1 & A2 & A3 & A4 & _).
  apply new_evidence_Ok in H as (S1 & _ & factors & _ & _ & _ & ->).
  apply new_evidence_Ok in H' as (S2 & _ & factors' & _ & _ & _ & ->). cbn [de_sha256] in Hs.
  unfold evidence_digest in Hs. apply evidence_status_ascii in S1, S2.
  assert (forall st at_ dir en fs, isascii st = true -> isascii dir = true -> isascii en = true ->
    json_ok (evidence_fields st at_ dir en (canonical_json (JObj fs))) = true) as Hok.
  { intros st a dir en fs B1 B2 B3. unfold evidence_fields. cbn -[isascii canonical_json isoformat].
    rewrite B1, B2, B3, canonical_ascii. destruct a; cbn -[isascii isoformat]; [by rewrite isoformat_ascii|done]. }
  set (a := evidence_fields status _ _ _ _) in *. set (b := evidence_fields status' _ _ _ _) in *.
  destruct (decide (dumps a = dumps b)) as [E|]; [|by right; exists (dumps a), (dumps b)].
  left. apply dumps_injective in E; [|by apply Hok..]. subst a b. unfold evidence_fields in *. revert E. clear Hs Hok.
  generalize (canonical_json (JObj factors)) (canonical_json (JObj factors')). intros c c' E. injection E as -> Et -> -> ->.
  assert (at_ = at_') as ->; [|done].
  destruct at_ as [d|], at_' as [d'|]; try discriminate; [|done]. injection Et as Et. f_equal.
  by apply isoformat_injective.
Qed.

(** ** Closure assessment *)

(** The evidence was recorded as of a time not after an aware entry time. *)
Definition decided_before (e : TradeDecisionEvidence) (entry_time : datetime) : Prop :=
  de_status e = "RECORDED_AT_DECISION" /\ naive entry_time = false
  /\ exists d, as_of e = Some d /\ instant d <= instant entry_time.

Lemma causal_true e t : causal e t = true <-> decided_before e t.
Proof.
  unfold causal, decided_before, dt_leb. rewrite andb_true_iff, String.eqb_eq.
  destruct (as_of e) as [d|]; [rewrite andb_true_iff, negb_true_iff, Z.leb_le|]; naive_solver.
Qed.

(** A recorded zone of positive bounds in order. *)
Definition recorded_zone (factors : list (string * json)) (low high : dec) : Prop :=
  exists zone, dict_get String.eqb "entry_zone" factors = Some (JObj zone)
  /\ zone_bound zone "lower" = Some (Finite low) /\ zone_bound zone "upper" = Some (Finite high)
  /\ (0 < dval low)%Q /\ (dval low <= dval high)%Q.

Lemma entry_quality_within factors price :
  _entry_quality (default JNull (dict_get String.eqb "entry_zone" factors)) price = WITHIN_ZONE
  <-> exists low high, recorded_zone factors low high /\ (dval low <= dval price)%Q /\ (dval price <= dval high)%Q.
Proof.
  unfold recorded_zone. split.
  - destruct (dict_get _ _ factors) as [[| | | | |zone]|]; try discriminate. cbn [default].
    unfold _entry_quality, id. destruct (zone_bound zone "lower") as [[low| |]|] eqn:El; try discriminate.
    destruct (zone_bound zone "upper") as [[high| |]|] eqn:Eh; try discriminate.
    destruct ((ZERO <? low)%D && (low <=? high)%D) eqn:E1; [|discriminate]. cbn [negb].
    destruct ((low <=? price)%D && (price <=? high)%D) eqn:E2; [|discriminate]. intros _.
    apply andb_true_iff in E1 as (A1 & A2), E2 as (B1 & B2). apply dltb_spec in A1. rewrite dval_ZERO in A1.
    apply dleb_spec in A2, B1, B2. exists low, high. split; [|done]. by exists zone.
  - intros (low & high & (zone & -> & El & Eh & P1 & P2) & Q1 & Q2). cbn [default]. unfold _entry_quality, id.
    rewrite El, Eh. rewrite <- dval_ZERO in P1. apply dltb_spec in P1. apply dleb_spec in P2, Q1, Q2.
    by rewrite P1, P2, Q1, Q2.
Qed.

Lemma assess_Ok e t price reason status at_ direction entry text :
  new_evidence status at_ direction entry text = Ok e ->
  exists factors a, load_factors (factors_json e) = Ok factors /\ assess e t price reason = Ok a
  /\ let used := if causal e t then factors else [] in
     a = mk_assessed (de_sha256 e) (decision_lineage_status a) (selected_scenario used)
           (_entry_quality (default JNull (dict_get String.eqb "entry_zone" used)) price)
           (as_stop_quality a) (target_quality a) (method_accuracy a) (scenario_accuracy a) (execution_quality a)
           (rule_evaluation_status a)
     /\ (decision_lineage_status a = "CAUSAL_DECISION_EVIDENCE" <-> causal e t = true).
Proof.
  intros (_ & _ & factors & Hf & _ & _ & ->)%new_evidence_Ok. apply load_factors_Ok in Hf.
  destruct (canonical_loads _ Hf) as (sorted & _ & Hs). exists sorted. cbn [factors_json].
  unfold assess. cbn [factors_json]. destruct (causal _ t).
  - rewrite Hs, Ok_bind. eexists. split; [done|]. split; [reflexivity|]. done.
  - eexists. split; [done|]. split; [reflexivity|]. split; [done|]. split; discriminate.
Qed.

(** A closure is assessed from what was known before the entry, and only
    from that.  For every evidence the constructor accepted the assessment
    returns; it is causal exactly when the evidence was recorded at the decision
    and not after the entry; only then a scenario or an entry zone of the recorded
    factors is used, and the fill is reported within the zone exactly when the
    recorded bounds are positive, in order and enclose the entry price. *)
Theorem closure_assessment_causal e t price reason status at_ direction entry text :
  new_evidence status at_ direction entry text = Ok e ->
  exists factors a, load_factors (factors_json e) = Ok factors /\ assess e t price reason = Ok a
  /\ decision_evidence_sha256 a = de_sha256 e
  /\ (decision_lineage_status a = "CAUSAL_DECISION_EVIDENCE" <-> decided_before e t)
  /\ (forall id, selected_scenario_id a = Some id -> decided_before e t /\ selected_scenario factors = Some id)
  /\ (~ decided_before e t -> entry_quality a = NO_ZONE)
  /\ (entry_quality a = WITHIN_ZONE <-> decided_before e t
      /\ exists low high, recorded_zone factors low high /\ (dval low <= dval price)%Q /\ (dval price <= dval high)%Q).
Proof.
  intros H. destruct (assess_Ok e t price reason _ _ _ _ _ H) as (factors & a & Hf & Ha & E & Hc).
  exists factors, a. split; [done|]. split; [done|]. setoid_rewrite <- causal_true. split; [by rewrite E|]. split; [done|].
  rewrite E. cbn [selected_scenario_id entry_quality]. destruct (causal e t).
  - split; [intros id Hid; split; [reflexivity|exact Hid]|]. split; [by intros []|]. rewrite entry_quality_within. tauto.
  - split; [intros id Hid; discriminate Hid|]. split; [done|]. split; [discriminate|]. intros (Hf' & _). discriminate Hf'.
Qed.

(** ** Evidence that outgrows its bound *)

Definition DEL : ascii := ascii_of_N 127.
Definition dels (n : nat) : list (string * json) := [("a", JStr (string_of_list_ascii (repeat DEL n)))].

Lemma flat_repeat {A} (f : ascii -> list A) c n : length (flat_map f (repeat c n)) = (n * length (f c))%nat.
Proof. induction n as [|n IH]; [done|]. cbn [repeat flat_map]. rewrite length_app, IH. done. Qed.

Lemma text_length l : str_len (string_of_list_ascii l) = Z.of_nat (length l).
Proof. unfold str_len. f_equal. induction l as [|c l IH]; [done|]. cbn. by rewrite IH. Qed.

Lemma dels_raw n : length (dump_raw (JObj (dels n))) = (n + 8)%nat.
Proof.
  unfold dump_raw, dels. cbn -[escape_raw repeat DEL]. unfold dump_string_with. rewrite list_ascii_string_id. cbn -[escape_raw repeat DEL].
  repeat (rewrite length_app; cbn [length]). rewrite flat_repeat. change (length (escape_raw DEL)) with 1%nat. change (length (escape_raw "a"%char)) with 1%nat. cbn [length]. lia.
Qed.

Lemma dels_dump n : length (dump (JObj (dels n))) = (6 * n + 8)%nat.
Proof.
  unfold dump, dels. cbn -[escape_char repeat DEL]. unfold dump_string_with. rewrite list_ascii_string_id. cbn -[escape_char repeat DEL].
  repeat (rewrite length_app; cbn [length]). rewrite flat_repeat. change (length (escape_char DEL)) with 6%nat. change (length (escape_char "a"%char)) with 1%nat. cbn [length]. lia.
Qed.

Lemma dels_ok n : json_ok (JObj (dels n)) = true.
Proof.
  unfold dels. cbn -[repeat DEL isascii]. unfold isascii. rewrite list_ascii_string_id.
  assert (forallb is_ascii (repeat DEL n) = true) as ->; [|done]. by induction n.
Qed.

(** The bound is checked on the text that was passed and not on the canonical
    text that is kept: an evidence can be accepted whose own payload is refused. *)
Lemma evidence_outgrows_bound : exists text e,
  new_evidence "RECORDED_AT_DECISION" (Some (utc 0)) "D" "E" text = Ok e
  /\ forall fields, same_items (evidence_items e) fields ->
     evidence_from_payload (JObj fields) = Raise (ValueError "decision evidence exceeds the payload bound").
Proof.
  assert (exists n, Z.of_nat n = 200000) as (n & En) by (exists (Z.to_nat 200000); lia). pose proof (dels_ok n) as Hok.
  exists (string_of_list_ascii (dump_raw (JObj (dels n)))).
  assert (load_factors (string_of_list_ascii (dump_raw (JObj (dels n)))) = Ok (dels n)) as Hl.
  { unfold load_factors, json_text. rewrite list_ascii_string_id, <- (app_nil_r (dump_raw _)), loads_dump_raw by done. done. }
  eexists. split.
  - apply new_evidence_Ok. split; [done|]. rewrite text_length, dels_raw. split; [lia|].
    exists (dels n). split; [done|]. split; [reflexivity|]. split; reflexivity.
  - intros fields Hsame. unfold evidence_from_payload, text_field, lookup. rewrite !Hsame.
    cbn [evidence_items dict_get String.eqb Ascii.eqb Bool.eqb fmap option_fmap option_map res_fmap default de_status as_of
      direction_method entry_method factors_json opt_str py_str].
    change (fromisoformat (isoformat (utc 0))) with (Ok (utc 0)).
    unfold new_evidence. cbn -[str_len canonical_json Z.ltb load_factors check_registry evidence_digest].
    unfold canonical_json. rewrite text_length. replace (sort_keys (JObj (dels n))) with (JObj (dels n)) by reflexivity.
    rewrite dels_dump. replace (1000000 <? _) with true; [done|]. symmetry. apply Z.ltb_lt. lia.
Qed.

(** The evidences the constructor returns. *)
Definition evidence_built (e : TradeDecisionEvidence) : Prop :=
  exists status at_ direction entry text, new_evidence status at_ direction entry text = Ok e.

Lemma evidence_built_loads e : evidence_built e -> exists factors, load_factors (factors_json e) = Ok factors.
Proof.
  intros (status & at_ & direction & entry & text & (_ & _ & factors & Hf & _ & _ & ->)%new_evidence_Ok).
  apply load_factors_Ok in Hf. destruct (canonical_loads _ Hf) as (sorted & _ & Hs). by exists sorted.
Qed.

Lemma evidence_built_restores e fields : evidence_built e -> time_ok (as_of e) = true ->
  str_len (factors_json e) <= 1000000 -> same_items (evidence_items e) fields ->
  evidence_from_payload (JObj fields) = Ok e.
Proof.
  intros (status & at_ & direction & entry & text & H) Ht. assert (as_of e = at_) as E.
  { by apply new_evidence_Ok in H as (_ & _ & factors & _ & _ & _ & ->). }
  rewrite E in Ht. by eapply evidence_restores.
Qed.

(** The evidence of a trade without any. *)
Definition no_evidence : TradeDecisionEvidence := Eval vm_compute in ok_or (mk_evidence "" None "" "" "" "") default_evidence.

Lemma default_evidence_Ok : default_evidence = Ok no_evidence.
Proof. vm_compute. reflexivity. Qed.

(** ** Examples *)

Definition ex_factors : json := JObj
  [ ("state", JObj [("selected_scenario_id", JStr "s-1"); ("scenarios", JList [JObj [("scenario_id", JStr "s-1")]])]);
    ("entry_zone", JObj [("upper", JStr "101.5"); ("lower", JStr "99")]) ].
Definition ex_evidence : TradeDecisionEvidence := Eval vm_compute in
  ok_or (mk_evidence "" None "" "" "" "")
    (new_evidence "RECORDED_AT_DECISION" (Some (utc 5)) "CONFIRMED_SWING_GRAPH" "CLOSE_RECLAIM" (dumps ex_factors)).

Lemma ex_evidence_new : new_evidence "RECORDED_AT_DECISION" (Some (utc 5)) "CONFIRMED_SWING_GRAPH" "CLOSE_RECLAIM"
  (dumps ex_factors) = Ok ex_evidence.
Proof. vm_compute. reflexivity. Qed.

Lemma evidence_roundtrip_witness : exists j stored, to_primitive (evidence_value ex_evidence) = Ok j
  /\ json_text (canonical_json j) = Ok stored /\ evidence_from_payload stored = Ok ex_evidence.
Proof.
  apply (evidence_roundtrip ex_evidence _ _ _ _ _ ex_evidence_new); try reflexivity. vm_compute. discriminate.
Defined.

Lemma evidence_digest_binds_witness : ex_evidence = ex_evidence \/ exists s t, s <> t /\ sha256 s = sha256 t.
Proof.
  apply (evidence_digest_binds _ _ _ _ _ _ _ _ _ _ _ _ ex_evidence_new ex_evidence_new); vm_compute; reflexivity.
Defined.

(** The scenario and the zone are used for an entry after the decision, and for
    an earlier entry nothing is. *)
Example ex_assessed :
  (entry_quality <$> assess ex_evidence (utc 6) (lit 100 0) "TARGET",
   selected_scenario_id <$> assess ex_evidence (utc 6) (lit 100 0) "TARGET",
   entry_quality <$> assess ex_evidence (utc 4) (lit 100 0) "TARGET",
   selected_scenario_id <$> assess ex_evidence (utc 4) (lit 100 0) "TARGET")
  = (Ok WITHIN_ZONE, Ok (Some "s-1"), Ok NO_ZONE, Ok None).
Proof. vm_compute. reflexivity. Qed.

Lemma closure_assessment_causal_witness : exists factors a,
  load_factors (factors_json ex_evidence) = Ok factors /\ assess ex_evidence (utc 6) (lit 100 0) "TARGET" = Ok a
  /\ decision_evidence_sha256 a = de_sha256 ex_evidence.
Proof.
  destruct (closure_assessment_causal ex_evidence (utc 6) (lit 100 0) "TARGET" _ _ _ _ _ ex_evidence_new)
    as (factors & a & Hf & Ha & Hd & _).
  exists factors, a. split; [exact Hf|]. split; [exact Ha|exact Hd].
Defined.
