(* ===== verification/PosixPath.v ===== *)
(** What the code uses of [pathlib.Path]: a path is its folder and its name, on
    a platform whose separator is the slash.  The second part is about the names
    built from the stem of another name. *)
From S2P Require Import Prelude PyText Serialize.
Local Open Scope Z_scope.
Local Open Scope bool_scope.

(** ** [pathlib.Path] *)

(** [folder] ends with a separator, or is empty. *)
Record Path : Type := mk_path { folder : string; name : string }.

(** [str(path)] *)
Definition path_text (p : Path) : string := (folder p ++ name p)%string.

Definition dot : ascii := "."%char.
Definition slash : ascii := "/"%char.

(** A reversed name behind its last dot. *)
Fixpoint behind_dot (l : list ascii) : option (list ascii) :=
  match l with
  | [] => None
  | c :: l' => if Ascii.eqb c dot then Some l' else behind_dot l'
  end.

(** [os.path.splitext(name)[0]]: leading dots begin no suffix. *)
Definition stem_chars (l : list ascii) : list ascii :=
  match behind_dot (rev l) with
  | Some r => if forallb (Ascii.eqb dot) r then l else rev r
  | None => l
  end.

(** [path.stem], [path.suffix] *)
Definition stem (p : Path) : string := string_of_list_ascii (stem_chars (list_ascii_of_string (name p))).
Definition suffix (p : Path) : string :=
  let l := list_ascii_of_string (name p) in string_of_list_ascii (skipn (length (stem_chars l)) l).

(** What may stand for the last part of a path. *)
Definition valid_name (n : string) : bool :=
  negb (String.eqb n "") && negb (String.eqb n ".") && negb (str_contains_char slash n).

(** [path.with_name(n)] *)
Definition with_name (p : Path) (n : string) : res Path :=
  raise_if (negb (valid_name n)) (ValueError "Invalid name");;
  raise_if (String.eqb (name p) "") (ValueError "the path has an empty name");;
  mret (mk_path (folder p) n).

(** [path.with_suffix(s)] *)
Definition with_suffix (p : Path) (s : string) : res Path :=
  raise_if (String.eqb (stem p) "") (ValueError "the path has an empty name");;
  raise_if (negb (String.eqb s "") && negb (String.prefix "." s)) (ValueError "Invalid suffix");;
  with_name p (stem p ++ s)%string.

(** [Path(text).name == text and not Path(text).is_absolute()] *)
Definition is_filename (text : string) : bool := valid_name text.

(** ** Names beside a file *)

Definition no_dot (l : list ascii) : bool := forallb (fun c => negb (Ascii.eqb c dot)) l.

Lemma behind_dot_None l : behind_dot l = None -> no_dot l = true.
Proof. induction l as [|c l IH]; [done|]. cbn. destruct (Ascii.eqb c dot); [done|]. cbn. auto. Qed.

Lemma behind_dot_Some l r : behind_dot l = Some r -> exists e, l = e ++ dot :: r /\ no_dot e = true.
Proof.
  induction l as [|c l IH]; [done|]. cbn. destruct (Ascii.eqb_spec c dot) as [->|Hc].
  - intros [= ->]. by exists [].
  - intros (e & -> & He)%IH. exists (c :: e). split; [done|]. cbn. apply andb_true_iff. split; [|done].
    by apply negb_true_iff, Ascii.eqb_neq.
Qed.

Lemma behind_dot_found e r : no_dot e = true -> behind_dot (e ++ dot :: r) = Some r.
Proof. induction e as [|c e IH]; [done|]. cbn. intros [Hc He]%andb_true_iff. apply negb_true_iff in Hc. by rewrite Hc, IH. Qed.

Lemma forallb_rev {A} (f : A -> bool) l : forallb f (rev l) = forallb f l.
Proof. apply forallb_perm. symmetry. apply Permutation_rev. Qed.

(** A stem ends before at most one dot, and is empty only for the empty name. *)
Lemma stem_split l : exists e, l = stem_chars l ++ e /\ (e = [] \/ exists e', e = dot :: e' /\ no_dot e' = true)
  /\ (l <> [] -> stem_chars l <> []).
Proof.
  unfold stem_chars. destruct (behind_dot (rev l)) as [r|] eqn:E; [|exists []; rewrite app_nil_r; auto].
  destruct (forallb (Ascii.eqb dot) r) eqn:Er; [exists []; rewrite app_nil_r; auto|].
  apply behind_dot_Some in E as (e & E & He). exists (dot :: rev e).
  split; [by rewrite <- (rev_involutive l), E, rev_app_distr; cbn; rewrite <- app_assoc|].
  split; [right; exists (rev e); split; [done|]; unfold no_dot; by rewrite forallb_rev|].
  intros _ Hr. apply (f_equal (@rev ascii)) in Hr. rewrite rev_involutive in Hr. by subst r.
Qed.

Lemma stem_dotted a b : no_dot b = true -> forallb (Ascii.eqb dot) a = false -> stem_chars (a ++ dot :: b) = a.
Proof.
  intros Hb Ha. unfold stem_chars. rewrite rev_app_distr. cbn [rev]. rewrite <- app_assoc. cbn [app].
  rewrite behind_dot_found by (unfold no_dot; by rewrite forallb_rev). by rewrite forallb_rev, Ha, rev_involutive.
Qed.

(** What the names beside a file end with. *)
Definition dotted (e : string) : Prop :=
  exists c d t, list_ascii_of_string e = dot :: c ++ dot :: d :: t /\ str_contains_char slash e = false.

Section Beside.

Context (p : Path) (Hp : valid_name (name p) = true).

Lemma path_name_nonempty : name p <> "".
Proof using Hp. intros E. by rewrite E in Hp. Qed.

Lemma stem_nonempty : stem p <> "".
Proof using Hp.
  destruct (stem_split (list_ascii_of_string (name p))) as (e & _ & _ & H). unfold stem. intros E.
  apply H.
  - intros En. apply path_name_nonempty, list_ascii_inj. by rewrite En.
  - apply (f_equal list_ascii_of_string) in E. by rewrite list_ascii_string_id in E.
Qed.

Lemma stem_no_slash : str_contains_char slash (stem p) = false.
Proof using Hp.
  destruct (stem_split (list_ascii_of_string (name p))) as (e & E & _). unfold str_contains_char, stem.
  rewrite list_ascii_string_id. unfold valid_name in Hp. inv_res. unfold str_contains_char in Hp.
  rewrite E, existsb_app in Hp. by apply orb_false_iff in Hp as [? _].
Qed.

Lemma beside_valid e : dotted e -> valid_name (stem p ++ e) = true.
Proof using Hp.
  intros (c & d & t & E & Hs). unfold valid_name. rewrite !andb_true_iff, !negb_true_iff, !String.eqb_neq.
  split; [split|].
  - intros H. apply (f_equal list_ascii_of_string) in H. rewrite list_ascii_app, E in H. by apply app_nil_iff in H as [_ H].
  - intros H. apply (f_equal (fun s => length (list_ascii_of_string s))) in H. rewrite list_ascii_app, E, length_app in H.
    cbn in H. rewrite length_app in H. cbn in H. lia.
  - unfold str_contains_char in *. rewrite list_ascii_app, existsb_app, Hs, orb_false_r. apply stem_no_slash.
Qed.

Lemma with_name_beside e : dotted e ->
  with_name p (stem p ++ e) = Ok (mk_path (folder p) (stem p ++ e)).
Proof using Hp.
  intros He. unfold with_name. rewrite beside_valid by done. cbn [negb raise_if]. rewrite Ok_bind.
  by rewrite (proj2 (String.eqb_neq _ _) path_name_nonempty).
Qed.

(** They are not the file itself, and differ from each other. *)
Lemma beside_not_self e : dotted e -> path_text p <> (folder p ++ stem p ++ e)%string.
Proof using Hp.
  intros (c & d & t & E & _) H. unfold path_text in H. apply (f_equal list_ascii_of_string) in H.
  rewrite !list_ascii_app in H. apply app_inv_head in H. unfold stem in H. rewrite list_ascii_string_id, E in H.
  destruct (stem_split (list_ascii_of_string (name p))) as (x & Ex & [->|(x' & -> & Hx)] & _);
    rewrite Ex in H at 1; apply app_inv_head in H; [discriminate|].
  injection H as ->. unfold no_dot in Hx. by rewrite forallb_app, andb_false_r in Hx.
Qed.

Lemma beside_inj e e' : (folder p ++ stem p ++ e = folder p ++ stem p ++ e')%string -> e = e'.
Proof.
  intros H. apply (f_equal list_ascii_of_string) in H. rewrite !list_ascii_app in H.
  do 2 apply app_inv_head in H. by apply list_ascii_inj.
Qed.

End Beside.
