(* ===== verification/AuditLog.v ===== *)
(** [storage/jsonl.py]: the append-only audit store of JSON lines, its
    redaction of credentials, and the hash chain of its sealed records.

    The store keeps no state of its own between calls; its state is the file
    system, and every call runs under the lock of its file.  What the operating
    system does with a write is an argument of the call. *)
From S2P Require Import Prelude PyDecimal DecimalFacts DecimalText Sha256 PyText JsonText IsoTime Serialize.
From stdpp Require Import gmap strings.
Local Open Scope Z_scope.
Local Open Scope bool_scope.

(** ** Redaction *)

Definition _SENSITIVE_KEY_FRAGMENTS : list string :=
  ["api_key"; "apikey"; "secret"; "signature"; "authorization"; "password"; "private_key"; "token"].

Definition _SAFE_TOKEN_METRIC_KEYS : list string :=
  ["cached_input_tokens"; "cached_prompt_tokens"; "completion_tokens"; "input_tokens"; "output_tokens";
   "prompt_tokens"; "reasoning_tokens"; "token_accounting_source"; "token_source_required"; "total_tokens"].

(** [fragment in text] *)
Fixpoint contains (fragment l : list ascii) : bool :=
  match is_prefix fragment l with
  | Some _ => true
  | None => match l with [] => false | _ :: l' => contains fragment l' end
  end.

Definition REDACTED : string := "[REDACTED]".

(** [SecretRedactor._is_sensitive] *)
Definition _is_sensitive (key : string) : bool :=
  let normalized := str_replace "-" "_" (lower (strip key)) in
  if str_in normalized _SAFE_TOKEN_METRIC_KEYS then false
  else existsb (fun f => contains (list_ascii_of_string f) (list_ascii_of_string normalized))
         _SENSITIVE_KEY_FRAGMENTS.

(** [SecretRedactor.redact], on the primitives it is given *)
Fixpoint redact (j : json) : json :=
  match j with
  | JObj l => JObj (map (fun kv => (kv.1, if _is_sensitive kv.1 then JStr REDACTED else redact kv.2)) l)
  | JList l => JList (map redact l)
  | _ => j
  end.

(** ** Events and results *)

Record AuditEvent : Type := mk_audit_event {
  event_type : string;
  timestamp : datetime;
  payload : list (string * pyval);
  snapshot_id : option string;
  schema_version : string
}.

Definition is_upper_letter (c : ascii) : bool := let n := N_of_ascii c in ((65 <=? n) && (n <=? 90))%N.

(** [_EVENT_TYPE_PATTERN.fullmatch] *)
Definition _EVENT_TYPE_PATTERN (s : string) : bool :=
  match list_ascii_of_string s with
  | c :: l =>
      is_upper_letter c && (1 <=? length l)%nat && (length l <=? 63)%nat
      && forallb (fun c => is_upper_letter c || is_digit c || Ascii.eqb c "_"%char) l
  | [] => false
  end.

(** [AuditEvent.__post_init__] *)
Definition new_audit_event (e : AuditEvent) : res AuditEvent :=
  raise_if (negb (_EVENT_TYPE_PATTERN (event_type e))) (ValueError "event_type must be uppercase snake case");;
  raise_if (naive (timestamp e)) (ValueError "audit timestamp must be timezone-aware");;
  raise_if (match snapshot_id e with Some s => blank s | None => false end)
    (ValueError "snapshot_id cannot be blank");;
  mret e.

(** The fields of the event, as [to_primitive] walks them. *)
Definition event_value (e : AuditEvent) : pyval :=
  VData [ ("event_type", VStr (event_type e)); ("timestamp", VDatetime (timestamp e));
          ("payload", VMap (payload e));
          ("snapshot_id", match snapshot_id e with Some s => VStr s | None => VNone end);
          ("schema_version", VStr (schema_version e)) ].

(** [VerifiedWriteResult] of a write that was proven; its status has no
    blockers. *)
Record VerifiedWriteResult : Type := mk_verified {
  destination : string; subject_id : string; operation : string;
  expected_sha256 : string; observed_sha256 : string
}.

(** [fail_verification]: the exception it builds *)
Definition fail_verification (blocker destination subject : string) : exn :=
  if blank destination || blank subject then ValueError "verified write identity is required"
  else ValueError blocker.

(** [verified] *)
Definition verified (destination subject operation expected observed : string) : res VerifiedWriteResult :=
  raise_if (blank destination || blank subject) (ValueError "verified write identity is required");;
  raise_if (blank operation) (ValueError "verified write operation is required");;
  raise_if (negb (is_sha256_text expected && is_sha256_text observed)) (ValueError "verified write hash is invalid");;
  mret (mk_verified destination subject operation expected observed).

(** ** Canonical texts and sealing *)

Definition _GENESIS_RECORD_HASH : string := "GENESIS".

Definition canonical_text (v : json) : list ascii := dump_raw (sort_keys v).

(** [_canonical_json_sha256] *)
Definition _canonical_json_sha256 (v : json) : string := sha256 (string_of_list_ascii (canonical_text v)).

(** What a record's own hash covers. *)
Definition link (position : Z) (event_sha previous : string) : json :=
  JObj [("chain_position", JInt position); ("event_sha256", JStr event_sha);
        ("previous_record_sha256", JStr previous)].

(** [_seal_tamper_evident_record] *)
Definition _seal_tamper_evident_record (event : json) (previous : string) (position : Z) : res json :=
  match event with
  | JObj fields =>
      let event_sha := _canonical_json_sha256 (JObj fields) in
      let record_sha := _canonical_json_sha256 (link position event_sha previous) in
      mret (JObj (dict_set String.eqb "record_sha256" (JStr record_sha)
                 (dict_set String.eqb "event_sha256" (JStr event_sha)
                 (dict_set String.eqb "previous_record_sha256" (JStr previous)
                 (dict_set String.eqb "tamper_evident" (JBool true)
                 (dict_set String.eqb "chain_position" (JInt position) fields))))))
  | _ => Raise TypeError
  end.

Definition sealing_keys : list string :=
  ["chain_position"; "tamper_evident"; "previous_record_sha256"; "event_sha256"; "record_sha256"].

(** Integers too long to print make [json.dumps] raise. *)
Fixpoint prints (j : json) : bool :=
  match j with
  | JInt n => (length (digits (Z.abs_N n)) <=? int_max_str_digits)%nat
  | JList l => forallb prints l
  | JObj l => forallb (fun kv => prints kv.2) l
  | _ => true
  end.

(** ** The store *)

(** The files of the machine, by path. *)
Abbreviation files := (gmap string (list ascii)).

(** [JsonlAuditStore]; the last two fields are set on a chained successor. *)
Record JsonlAuditStore : Type := mk_store {
  path : string;
  durable : bool;
  tamper_evident : bool;
  max_event_bytes : Z;
  _legacy_path : option string;
  _legacy_sha256 : option string
}.

(** [JsonlAuditStore.__post_init__] *)
Definition new_store (p : string) (durable tamper_evident : bool) (maximum : Z) : res JsonlAuditStore :=
  raise_if (maximum <? 1) (ValueError "maximum JSONL event size must be positive");;
  mret (mk_store p (durable || tamper_evident) tamper_evident maximum None None).

(** The outcome of writing to the end of a file: refused before a byte was
    written, broken off with an [OSError] after some of them, or complete. *)
Inductive write_outcome : Type := Refused | BrokenOff (reached : nat) | Written.

Definition newline : ascii := ascii_of_N 10.

Definition append_to (p : string) (t : list ascii) (fs : files) : files := <[p := default [] (fs !! p) ++ t]> fs.

(** [_file_sha256_or_none] *)
Definition _file_sha256_or_none (p : string) (fs : files) : option string :=
  (fun c => sha256 (string_of_list_ascii c)) <$> fs !! p.

(** Iterating over a binary file: lines with their newline. *)
Fixpoint raw_lines_from (line l : list ascii) : list (list ascii) :=
  match l with
  | [] => if is_nil line then [] else [rev line]
  | c :: l' => if Ascii.eqb c newline then rev (c :: line) :: raw_lines_from [] l'
               else raw_lines_from (c :: line) l'
  end.
Definition raw_lines (l : list ascii) : list (list ascii) := raw_lines_from [] l.

(** [not raw_line.strip()] on bytes *)
Definition is_byte_space (c : ascii) : bool :=
  let n := N_of_ascii c in ((n =? 32) || ((9 <=? n) && (n <=? 13)))%N.
Definition blank_bytes (l : list ascii) : bool := forallb is_byte_space l.

(** [_load_event_line] *)
Definition _load_event_line (raw : list ascii) (label : string) : res (list (string * json)) :=
  j ← loads raw;
  match j with JObj fields => mret fields | _ => Raise (ValueError (label ++ " must be a JSON object")) end.

(** [payload.get(name)] *)
Definition get_field (name : string) (fields : list (string * json)) : json :=
  default JNull (dict_get String.eqb name fields).

(** [_text_field] *)
Definition _text_field (fields : list (string * json)) (name label : string) : res string :=
  match get_field name fields with
  | JStr s => raise_if (blank s) (ValueError (label ++ " " ++ name ++ " is invalid"));; mret s
  | _ => Raise (ValueError (label ++ " " ++ name ++ " is invalid"))
  end.

Definition unsealed (fields : list (string * json)) : json :=
  JObj (List.filter (fun kv => negb (str_in kv.1 sealing_keys)) fields).

(** One turn of the loop of [_verify_chain_state_unlocked]: from the hash and
    the position expected to the ones after the line. *)
Definition verify_line (line_number : Z) (expected : string * Z) (raw : list ascii) : res (string * Z) :=
  let '(expected_previous, expected_position) := expected in
  let label := ("tamper-evident JSONL line " ++ str_int line_number)%string in
  raise_if (blank_bytes raw) (ValueError (label ++ " cannot be blank"));;
  event ← _load_event_line raw label;
  raise_if (negb (match get_field "tamper_evident" event with JBool true => true | _ => false end))
    (ValueError (label ++ " is missing sealing"));;
  raise_if (negb (py_eqb (get_field "chain_position" event) (JInt expected_position)))
    (ValueError (label ++ " position is invalid"));;
  previous ← _text_field event "previous_record_sha256" label;
  raise_if (negb (String.eqb previous expected_previous)) (ValueError (label ++ " hash chain is broken"));;
  event_sha ← _text_field event "event_sha256" label;
  record_sha ← _text_field event "record_sha256" label;
  let expected_event_sha := _canonical_json_sha256 (unsealed event) in
  raise_if (negb (String.eqb event_sha expected_event_sha)) (ValueError (label ++ " event hash is invalid"));;
  let expected_record_sha := _canonical_json_sha256 (link expected_position expected_event_sha expected_previous) in
  raise_if (negb (String.eqb record_sha expected_record_sha)) (ValueError (label ++ " record hash is invalid"));;
  mret (record_sha, expected_position + 1).

Fixpoint verify_lines (line_number : Z) (state : string * Z) (lines : list (list ascii)) : res (string * Z) :=
  match lines with
  | [] => mret state
  | raw :: lines => state ← verify_line line_number state raw; verify_lines (line_number + 1) state lines
  end.

Definition verify_content (c : list ascii) : res (string * Z) :=
  verify_lines 1 (_GENESIS_RECORD_HASH, 1) (raw_lines c).

(** [_verify_chain_state_unlocked] *)
Definition _verify_chain_state_unlocked (s : JsonlAuditStore) (fs : files) : res (string * Z) :=
  match fs !! path s with
  | None => mret (_GENESIS_RECORD_HASH, 1)
  | Some c => verify_content c
  end.

(** [except (OSError, TypeError, UnicodeDecodeError, json.JSONDecodeError, ValueError)] *)
Definition is_chain_error (e : exn) : bool :=
  match e with OSError | TypeError | ValueError _ => true | _ => false end.

(** [_chain_state_or_fail] *)
Definition _chain_state_or_fail (s : JsonlAuditStore) (subject : string) (fs : files) : res (string * Z) :=
  catch
    (raise_if (match _legacy_path s with
               | Some p => negb (bool_decide (_file_sha256_or_none p fs = _legacy_sha256 s))
               | None => false
               end) (ValueError "JSONL_AUDIT_LEGACY_ANCHOR_MISMATCH");;
     if tamper_evident s then _verify_chain_state_unlocked s fs else mret (_GENESIS_RECORD_HASH, 1))
    is_chain_error
    (fun _ => Raise (fail_verification "JSONL_AUDIT_TAMPER_EVIDENT_CHAIN_INVALID" (path s) subject)).

(** [_render] *)
Definition _render (s : JsonlAuditStore) (e : AuditEvent) (previous : string) (position : Z) : res (list ascii) :=
  primitive ← to_primitive (event_value e);
  let redacted := redact primitive in
  raise_if (negb (prints redacted)) (ValueError "Exceeds the limit for integer string conversion");;
  record ← (if tamper_evident s then _seal_tamper_evident_record redacted previous position else mret redacted);
  mret (dump_raw (sort_keys record)).

(** [_append_line] *)
Definition _append_line (s : JsonlAuditStore) (line : list ascii) (out : write_outcome) : method files unit :=
  lift (raise_if (max_event_bytes s <? Z.of_nat (length line)) OSError);;
  match out with
  | Refused => lift (Raise OSError)
  | BrokenOff reached => modify (append_to (path s) (firstn reached (line ++ [newline])));; lift (Raise OSError)
  | Written => modify (append_to (path s) (line ++ [newline]))
  end.

(** ** The last line of a file, read in blocks from its end *)

Section Tail.

Context (_TAIL_READ_CHUNK_BYTES : nat).

(** [stream.seek(start); stream.read(stop - start)] *)
Definition block (c : list ascii) (start stop : nat) : list ascii := firstn (stop - start) (skipn start c).

Definition is_tail_space (c : ascii) : bool :=
  let n := N_of_ascii c in ((n =? 32) || (n =? 9) || (n =? 13) || (n =? 10))%N.

(** [block.rstrip(b" \t\r\n")] *)
Fixpoint drop_tail_spaces (l : list ascii) : list ascii :=
  match l with c :: l' => if is_tail_space c then drop_tail_spaces l' else l | [] => [] end.
Definition rstrip (l : list ascii) : list ascii := rev (drop_tail_spaces (rev l)).

(** [_trim_trailing_whitespace]; every turn of the loop moves the end. *)
Fixpoint _trim_trailing_whitespace (fuel : nat) (c : list ascii) (end_ : nat) : nat :=
  match fuel, end_ with
  | S fuel, S _ =>
      let start := (end_ - _TAIL_READ_CHUNK_BYTES)%nat in
      let stripped := rstrip (block c start end_) in
      if is_nil stripped then _trim_trailing_whitespace fuel c start else (start + length stripped)%nat
  | _, _ => 0%nat
  end.

(** The text after the last newline, and whether there is one. *)
Fixpoint before_newline (l : list ascii) : list ascii * bool :=
  match l with
  | [] => ([], false)
  | c :: l' => if Ascii.eqb c newline then ([], true)
               else let '(t, found) := before_newline l' in (c :: t, found)
  end.
Definition after_newline (l : list ascii) : list ascii * bool :=
  let '(t, found) := before_newline (rev l) in (rev t, found).

(** The second loop of [_read_last_nonempty_line]; [parts] is what the blocks
    read so far join to. *)
Fixpoint read_parts (fuel : nat) (maximum : Z) (c : list ascii) (cursor : nat) (parts : list ascii)
  : res (list ascii) :=
  match fuel, cursor with
  | S fuel, S _ =>
      let start := (cursor - _TAIL_READ_CHUNK_BYTES)%nat in
      let '(part, found) := after_newline (block c start cursor) in
      raise_if (maximum <? Z.of_nat (length part + length parts)) OSError;;
      if (found : bool) then mret (part ++ parts) else read_parts fuel maximum c start (part ++ parts)
  | _, _ => mret parts
  end.

(** [_read_last_nonempty_line], on an existing file *)
Definition _read_last_nonempty_line (maximum : Z) (c : list ascii) : res (list ascii) :=
  let end_ := _trim_trailing_whitespace (length c) c (length c) in
  raise_if (end_ =? 0)%nat OSError;;
  read_parts end_ maximum c end_ [].

End Tail.

(** [_TAIL_READ_CHUNK_BYTES] *)
Definition _TAIL_READ_CHUNK_BYTES : nat := N.to_nat 65536.

(** [_last_event_unlocked] *)
Definition _last_event_unlocked (s : JsonlAuditStore) (fs : files) : res json :=
  match fs !! path s with
  | None => Raise OSError
  | Some c => _read_last_nonempty_line _TAIL_READ_CHUNK_BYTES (max_event_bytes s) c ≫= loads
  end.

(** [_last_event] *)
Definition _last_event (s : JsonlAuditStore) (fs : files) : res json :=
  catch (_last_event_unlocked s fs) (fun e => match e with OSError | ValueError _ => true | _ => false end)
    (fun _ => Raise (fail_verification "JSONL_AUDIT_DESTINATION_VERIFY_FAILED" (path s) (path s))).

Definition opt_json (o : option string) : json := match o with Some s => JStr s | None => JNull end.

Fixpoint find_identity (line_number : Z) (type : string) (snapshot : option string) (lines : list (list ascii))
  : res (option (list (string * json))) :=
  match lines with
  | [] => mret None
  | raw :: lines =>
      let label := ("JSONL audit line " ++ str_int line_number)%string in
      raise_if (blank_bytes raw) (ValueError (label ++ " cannot be blank"));;
      record ← _load_event_line raw label;
      if py_eqb (get_field "event_type" record) (JStr type)
         && py_eqb (get_field "snapshot_id" record) (opt_json snapshot)
      then mret (Some record) else find_identity (line_number + 1) type snapshot lines
  end.

(** [_event_by_identity_unlocked] *)
Definition _event_by_identity_unlocked (s : JsonlAuditStore) (type : string) (snapshot : option string) (fs : files)
  : res (option (list (string * json))) :=
  match fs !! path s with
  | None => mret None
  | Some c => find_identity 1 type snapshot (raw_lines c)
  end.

(** ** The operations *)

(** [event.snapshot_id or event.event_type] *)
Definition subject_of (e : AuditEvent) : string :=
  match snapshot_id e with Some s => if String.eqb s "" then event_type e else s | None => event_type e end.

(** Rendering and writing under the lock, once the chain is known. *)
Definition write_event (s : JsonlAuditStore) (e : AuditEvent) (state : string * Z) (out : write_outcome)
  : method files (list ascii) :=
  line ← lift (_render s e state.1 state.2);
  _append_line s line out;;
  mret line.

(** [append] *)
Definition append (s : JsonlAuditStore) (e : AuditEvent) (out : write_outcome) : method files unit :=
  fs ← get;
  state ← lift (_chain_state_or_fail s (subject_of e) fs);
  write_event s e state out;;
  mret tt.

(** Reading back what was written. *)
Definition write_verified (s : JsonlAuditStore) (e : AuditEvent) (operation : string) (state : string * Z)
  (out : write_outcome) : method files VerifiedWriteResult :=
  line ← lift (_render s e state.1 state.2);
  expected ← lift (loads line);
  _append_line s line out;;
  fs ← get;
  observed ← lift (_last_event_unlocked s fs);
  lift (raise_if (negb (py_eqb observed expected))
    (fail_verification "JSONL_AUDIT_DESTINATION_VERIFY_FAILED" (path s) (subject_of e)));;
  lift (verified (path s) (subject_of e) operation (_canonical_json_sha256 expected) (_canonical_json_sha256 observed)).

(** [append_verified] *)
Definition append_verified (s : JsonlAuditStore) (e : AuditEvent) (out : write_outcome)
  : method files VerifiedWriteResult :=
  fs ← get;
  state ← lift (_chain_state_or_fail s (subject_of e) fs);
  write_verified s e "jsonl_append" state out.

Definition identity_keys : list string := ["event_type"; "timestamp"; "payload"; "snapshot_id"; "schema_version"].

(** [append_verified_idempotent] *)
Definition append_verified_idempotent (s : JsonlAuditStore) (e : AuditEvent) (out : write_outcome)
  : method files (option VerifiedWriteResult) :=
  expected_event ← lift (redact <$> to_primitive (event_value e));
  fs ← get;
  state ← lift (_chain_state_or_fail s (subject_of e) fs);
  existing ← lift (_event_by_identity_unlocked s (event_type e) (snapshot_id e) fs);
  match existing with
  | Some record =>
      let existing_event := JObj (map (fun k => (k, get_field k record)) identity_keys) in
      lift (raise_if (negb (py_eqb existing_event expected_event)) (ValueError "JSONL_AUDIT_IDEMPOTENCY_CONFLICT"));;
      mret None
  | None => r ← write_verified s e "jsonl_append_idempotent" state out; mret (Some r)
  end.

(** [verify_chain] *)
Definition verify_chain (s : JsonlAuditStore) (fs : files) : res string :=
  fst <$> _chain_state_or_fail s (path s) fs.

(** [read_verified_event] *)
Definition read_verified_event (s : JsonlAuditStore) (type snapshot : string) (expected : option string) (fs : files)
  : res (list (string * json)) :=
  raise_if (negb (tamper_evident s) || negb (bool_decide (is_Some (fs !! path s))))
    (ValueError "JSONL_AUDIT_COMMIT_UNAVAILABLE");;
  _chain_state_or_fail s snapshot fs;;
  event ← _event_by_identity_unlocked s type (Some snapshot) fs;
  match event with
  | Some fields =>
      raise_if (match expected with
                | Some h => negb (String.eqb (_canonical_json_sha256 (JObj fields)) h)
                | None => false
                end) (ValueError "JSONL_AUDIT_COMMIT_MISMATCH");;
      mret fields
  | None => Raise (ValueError "JSONL_AUDIT_COMMIT_MISMATCH")
  end.

(** ** Redaction hides and keeps *)

(** A place inside a value. *)
Inductive step : Type := Key (k : string) | Index (i : nat).

Fixpoint at_path (p : list step) (j : json) : option json :=
  match p, j with
  | [], _ => Some j
  | Key k :: p, JObj l => x ← dict_get String.eqb k l; at_path p x
  | Index i :: p, JList l => x ← nth_error l i; at_path p x
  | _, _ => None
  end.

Definition sensitive_step (x : step) : bool := match x with Key k => _is_sensitive k | Index _ => false end.

Lemma get_redacted k l : dict_get String.eqb k (map (fun kv : string * json =>
    (kv.1, if _is_sensitive kv.1 then JStr REDACTED else redact kv.2)) l) =
  (fun x => if _is_sensitive k then JStr REDACTED else redact x) <$> dict_get String.eqb k l.
Proof.
  induction l as [|[k0 x] l IH]; [done|]. cbn. destruct (String.eqb_spec k k0) as [->|]; [done|exact IH].
Qed.

Lemma redact_path p : forall j, existsb sensitive_step p = false ->
  at_path p (redact j) = redact <$> at_path p j.
Proof.
  induction p as [|[k|i] p IH]; intros j H; [done| |]; cbn [existsb] in H; apply orb_false_iff in H as [Hk H].
  - destruct j as [| | | | |l]; try done. cbn [redact at_path]. rewrite get_redacted. cbn [sensitive_step] in Hk.
    rewrite Hk. destruct (dict_get String.eqb k l) as [x|]; [|done]. cbn. by apply IH.
  - destruct j as [| | | |l|]; try done. cbn [redact at_path]. rewrite nth_error_map.
    destruct (nth_error l i) as [x|]; [|done]. cbn. by apply IH.
Qed.

Lemma redacted_path p k q : forall j, existsb sensitive_step p = false -> _is_sensitive k = true ->
  at_path (p ++ Key k :: q) (redact j) =
  match at_path (p ++ [Key k]) j, q with Some _, [] => Some (JStr REDACTED) | _, _ => None end.
Proof.
  induction p as [|[k'|i] p IH]; intros j H Hk; cbn [app].
  - destruct j as [| | | | |l]; try done. cbn [redact at_path]. rewrite get_redacted, Hk.
    destruct (dict_get String.eqb k l) as [x|]; [|done]. cbn. by destruct q as [|[]].
  - cbn [existsb] in H. apply orb_false_iff in H as [Hk' H]. cbn [sensitive_step] in Hk'.
    destruct j as [| | | | |l]; try done. cbn [redact at_path]. rewrite get_redacted, Hk'.
    destruct (dict_get String.eqb k' l) as [x|]; [|done]. cbn. by apply IH.
  - cbn [existsb] in H. apply orb_false_iff in H as [_ H].
    destruct j as [| | | |l|]; try done. cbn [redact at_path]. rewrite nth_error_map.
    destruct (nth_error l i) as [x|]; [|done]. cbn. by apply IH.
Qed.

(** The first sensitive key of a path, and what leads to it. *)
Lemma first_sensitive p : existsb sensitive_step p = true ->
  exists p1 k q, p = p1 ++ Key k :: q /\ existsb sensitive_step p1 = false /\ _is_sensitive k = true.
Proof.
  induction p as [|x p IH]; [done|]. cbn [existsb]. destruct (sensitive_step x) eqn:E.
  - intros _. destruct x as [k|i]; [|done]. by exists [], k, p.
  - intros H. destruct (IH H) as (p1 & k & q & -> & H1 & Hk). exists (x :: p1), k, q.
    cbn [existsb app]. by rewrite E, H1.
Qed.

Lemma redact_ok j : json_ok j = true -> json_ok (redact j) = true.
Proof.
  induction j as [|b|n|s|l IH|l IH] using json_nested_ind; try done; cbn [json_ok redact]; intros H.
  - rewrite forallb_forall in *. intros y (x & <- & Hx)%in_map_iff. rewrite List.Forall_forall in IH. auto.
  - apply andb_true_iff in H as [H Hu]. apply andb_true_iff. split.
    + rewrite forallb_forall in *. intros y (x & <- & Hx)%in_map_iff. cbn [fst snd]. pose proof (H x Hx) as Hi.
      apply andb_true_iff in Hi as [-> Hi]. destruct (_is_sensitive x.1); [done|].
      rewrite List.Forall_forall in IH. by apply IH.
    + rewrite <- Hu. f_equal. rewrite map_map. done.
Qed.

(** ** The last line *)

Lemma drop_tail_spaces_app l k : drop_tail_spaces (l ++ k) =
  if is_nil (drop_tail_spaces l) then drop_tail_spaces k else drop_tail_spaces l ++ k.
Proof. induction l as [|c l IH]; [done|]. cbn. by destruct (is_tail_space c). Qed.

Lemma is_nil_rev {A} (l : list A) : is_nil (rev l) = is_nil l.
Proof. destruct l as [|x l]; [done|]. cbn. by destruct (rev l). Qed.

Lemma rstrip_app a b : rstrip (a ++ b) = if is_nil (rstrip b) then rstrip a else a ++ rstrip b.
Proof.
  unfold rstrip. rewrite rev_app_distr, drop_tail_spaces_app, is_nil_rev.
  destruct (is_nil _); [done|]. by rewrite rev_app_distr, rev_involutive.
Qed.

Lemma rstrip_prefix l : exists k, l = rstrip l ++ k.
Proof.
  assert (forall l, exists k, l = k ++ drop_tail_spaces l) as G.
  { clear. induction l as [|c l [k E]]; [by exists []|]. cbn. destruct (is_tail_space c); [|by exists []].
    exists (c :: k). cbn. by rewrite <- E. }
  destruct (G (rev l)) as [k E]. exists (rev k). unfold rstrip.
  rewrite <- rev_app_distr, <- E. by rewrite rev_involutive.
Qed.

Lemma before_newline_app a b : before_newline (a ++ b) =
  let '(x, found) := before_newline a in
  if found then (x, true) else let '(y, found') := before_newline b in (x ++ y, found').
Proof.
  induction a as [|c a IH]; cbn [app before_newline]; [by destruct (before_newline b)|].
  destruct (Ascii.eqb c newline); [done|]. rewrite IH.
  destruct (before_newline a) as [x []]; [done|]. by destruct (before_newline b).
Qed.

Lemma after_newline_app a b : after_newline (a ++ b) =
  let '(y, found) := after_newline b in
  if found then (y, true) else let '(x, found') := after_newline a in (x ++ y, found').
Proof.
  unfold after_newline. rewrite rev_app_distr, before_newline_app.
  destruct (before_newline (rev b)) as [y []]; [done|]. destruct (before_newline (rev a)) as [x f].
  by rewrite rev_app_distr.
Qed.

Lemma block_split c start stop : (start <= stop)%nat -> (stop <= length c)%nat ->
  firstn stop c = firstn start c ++ block c start stop.
Proof.
  intros H1 H2. unfold block. rewrite <- (firstn_skipn start (firstn stop c)) at 1.
  rewrite firstn_firstn, Nat.min_l by done. f_equal. by rewrite skipn_firstn_comm.
Qed.

Section Tail_facts.

Context (chunk : nat) (Hchunk : (0 < chunk)%nat).

Lemma trim_exact fuel : forall c e, (e <= fuel)%nat -> (e <= length c)%nat ->
  _trim_trailing_whitespace chunk fuel c e = length (rstrip (firstn e c)).
Proof using Hchunk.
  induction fuel as [|fuel IH]; intros c e Hf Hc; [by destruct e; [|lia]|].
  destruct e as [|e]; [done|]. cbn -[firstn Nat.sub]. rewrite (block_split c (S e - chunk) (S e)) by lia.
  rewrite rstrip_app. destruct (is_nil _); [apply IH; lia|].
  rewrite length_app, length_firstn. lia.
Qed.

Lemma read_parts_exact fuel maximum : forall c cursor parts, (cursor <= fuel)%nat -> (cursor <= length c)%nat ->
  Z.of_nat (length parts) <= maximum ->
  read_parts chunk fuel maximum c cursor parts =
  let x := fst (after_newline (firstn cursor c)) in
  if maximum <? Z.of_nat (length (x ++ parts)) then Raise OSError else Ok (x ++ parts).
Proof using Hchunk.
  induction fuel as [|fuel IH]; intros c cursor parts Hf Hc Hp; cbv zeta.
  - destruct cursor; [|lia]. cbn. by rewrite (proj2 (Z.ltb_ge _ _)).
  - destruct cursor as [|cursor]; [cbn; by rewrite (proj2 (Z.ltb_ge _ _))|].
    cbn -[firstn Nat.sub]. rewrite (block_split c (S cursor - chunk) (S cursor)) by lia.
    rewrite after_newline_app. destruct (after_newline (block _ _ _)) as [y f].
    destruct (after_newline (firstn (S cursor - chunk) c)) as [x f'] eqn:Ex.
    destruct (Z.ltb_spec maximum (Z.of_nat (length y + length parts))) as [Hm|Hm].
    + cbn [raise_if]. destruct f; cbn [fst]; rewrite !length_app;
        by rewrite (proj2 (Z.ltb_lt _ _)) by lia.
    + cbn [raise_if]. rewrite Ok_bind. destruct f; cbn [fst].
      * rewrite length_app. by rewrite (proj2 (Z.ltb_ge _ _)) by lia.
      * rewrite IH by (rewrite ?length_app; lia). cbv zeta. rewrite Ex. cbn [fst]. by rewrite <- !app_assoc.
Qed.

(** What the reading in blocks amounts to. *)
Lemma read_last_exact maximum c : 0 <= maximum ->
  _read_last_nonempty_line chunk maximum c =
  let line := fst (after_newline (rstrip c)) in
  if is_nil (rstrip c) then Raise OSError
  else if maximum <? Z.of_nat (length line) then Raise OSError else Ok line.
Proof using Hchunk.
  intros Hm. unfold _read_last_nonempty_line. rewrite trim_exact, firstn_all by lia. cbv zeta.
  destruct (rstrip_prefix c) as [k E]. destruct (rstrip c) as [|x t] eqn:Er; [done|].
  cbn [is_nil]. rewrite (proj2 (Nat.eqb_neq _ _)) by done. cbn [raise_if]. rewrite Ok_bind.
  rewrite read_parts_exact; [|done| |cbn; lia].
  - assert (firstn (length (x :: t)) c = x :: t) as ->; [|cbv zeta; by rewrite !app_nil_r].
    rewrite E, firstn_app, Nat.sub_diag, firstn_all. cbn [firstn]. by rewrite app_nil_r.
  - rewrite E. rewrite length_app. lia.
Qed.

End Tail_facts.

(** ** The chain of a log *)

Definition genesis : string * Z := (_GENESIS_RECORD_HASH, 1).

Definition record_sha (state : string * Z) (e : json) : string :=
  _canonical_json_sha256 (link state.2 (_canonical_json_sha256 e) state.1).

(** The hash and the position after an event. *)
Definition next_state (state : string * Z) (e : json) : string * Z := (record_sha state e, state.2 + 1).

Definition log_state (state : string * Z) (es : list json) : string * Z := fold_left next_state es state.

(** The items sealing adds. *)
Definition seal (state : string * Z) (e : json) : list (string * json) :=
  [ ("chain_position", JInt state.2); ("tamper_evident", JBool true);
    ("previous_record_sha256", JStr state.1); ("event_sha256", JStr (_canonical_json_sha256 e));
    ("record_sha256", JStr (record_sha state e)) ].

Definition sealed (state : string * Z) (e : json) : json :=
  match e with JObj fields => JObj (fields ++ seal state e) | _ => e end.

Definition line_of (state : string * Z) (e : json) : list ascii := dump_raw (sort_keys (sealed state e)).

Fixpoint log_lines (state : string * Z) (es : list json) : list (list ascii) :=
  match es with [] => [] | e :: es => line_of state e :: log_lines (next_state state e) es end.

Definition lines_text (ls : list (list ascii)) : list ascii := flat_map (fun t => t ++ [newline]) ls.

(** The contents of a file that holds these events. *)
Definition log_text (es : list json) : list ascii := lines_text (log_lines genesis es).

(** Events a record can be built from: an object with distinct keys, none of
    the sealing ones, that its text gives back. *)
Definition recordable (e : json) : bool :=
  match e with
  | JObj fields => json_ok e && forallb (fun kv => negb (str_in kv.1 sealing_keys)) fields
  | _ => false
  end.

Definition plain_line (t : list ascii) : bool := forallb (fun c => negb (Ascii.eqb c newline)) t.

Lemma raw_lines_line t : forall acc l, plain_line t = true ->
  raw_lines_from acc (t ++ newline :: l) = (rev acc ++ t ++ [newline]) :: raw_lines l.
Proof.
  induction t as [|c t IH]; intros acc l H.
  - cbn [app raw_lines_from]. rewrite Ascii.eqb_refl. done.
  - cbn [plain_line forallb] in H. apply andb_true_iff in H as [Hc H]. apply negb_true_iff in Hc.
    cbn [app raw_lines_from]. rewrite Hc, IH by done. cbn [rev]. by rewrite <- app_assoc.
Qed.

Lemma raw_lines_text ls l : forallb plain_line ls = true ->
  raw_lines (lines_text ls ++ l) = map (fun t => t ++ [newline]) ls ++ raw_lines l.
Proof.
  induction ls as [|t ls IH]; [done|]. cbn [forallb lines_text flat_map map app]. intros [Ht H]%andb_true_iff.
  change (flat_map (fun t => t ++ [newline]) ls) with (lines_text ls).
  rewrite <- !app_assoc. cbn [app]. unfold raw_lines at 1. rewrite raw_lines_line by done. cbn [rev app].
  by rewrite IH.
Qed.

Lemma dump_raw_plain j : plain_line (dump_raw j) = true.
Proof.
  pose proof (dump_raw_unescaped j) as H. unfold plain_line. rewrite forallb_forall in *. intros c Hc.
  specialize (H c Hc). assert (implb (unescaped c) (negb (Ascii.eqb c newline)) = true) as E; [|by rewrite H in E].
  clear. revert c. apply ascii_forall. vm_compute. reflexivity.
Qed.

Lemma log_lines_plain es : forall st, forallb plain_line (log_lines st es) = true.
Proof. induction es as [|e es IH]; intros st; [done|]. cbn [log_lines forallb]. unfold line_of. by rewrite dump_raw_plain, IH. Qed.

Lemma log_lines_app es : forall st fs, log_lines st (es ++ fs) = log_lines st es ++ log_lines (log_state st es) fs.
Proof. induction es as [|e es IH]; intros st fs; [done|]. cbn [app log_lines log_state fold_left]. by rewrite IH. Qed.

Lemma log_state_position es : forall st, (log_state st es).2 = st.2 + Z.of_nat (length es).
Proof. induction es as [|e es IH]; intros st; cbn [log_state fold_left length]; [lia|]. unfold log_state in IH. rewrite IH. cbn. lia. Qed.

(** One more event at the end of the file. *)
Lemma log_text_snoc es e : log_text (es ++ [e]) = log_text es ++ line_of (log_state genesis es) e ++ [newline].
Proof.
  unfold log_text, lines_text. rewrite log_lines_app, flat_map_app. cbn [log_lines flat_map]. by rewrite app_nil_r.
Qed.

Lemma canonical_sha_ascii v : isascii (_canonical_json_sha256 v) = true.
Proof. apply sha256_ascii. Qed.

Lemma get_sorted k l : all_unique String.eqb (map fst l) = true ->
  dict_get String.eqb k (py_sorted key_leb (map (fun kv => (kv.1, sort_keys kv.2)) l)) =
  sort_keys <$> dict_get String.eqb k l.
Proof.
  intros Hu. apply all_unique_spec in Hu. rewrite (dict_get_perm (map (fun kv => (kv.1, sort_keys kv.2)) l)).
  - clear Hu. induction l as [|[k0 v] l IH]; [done|]. cbn. by destruct (String.eqb k k0).
  - by rewrite py_sorted_perm.
  - by rewrite map_fst_entries.
Qed.

(** What must hold of a hash and a position to be written in a record. *)
Definition state_ok (st : string * Z) : bool := isascii st.1 && negb (blank st.1) && json_ok (JInt st.2).

Lemma sealed_keys fields st e : all_unique String.eqb (map fst fields) = true ->
  forallb (fun kv : string * json => negb (str_in kv.1 sealing_keys)) fields = true ->
  all_unique String.eqb (map fst (fields ++ seal st e)) = true.
Proof.
  intros Hu Hk. apply all_unique_spec in Hu. apply all_unique_spec. rewrite map_app.
  rewrite forallb_forall in Hk. induction fields as [|[k v] fields IH]; [by apply all_unique_spec|].
  cbn [map fst app pairwise_distinct] in *. destruct Hu as [Hx Hu]. split; [|by apply IH; auto; intros; apply Hk; right].
  intros y [Hy|Hy]%in_app_iff; [by apply Hx|]. specialize (Hk (k, v) ltac:(by left)).
  apply negb_true_iff, str_in_false in Hk. apply String.eqb_neq. intros <-. apply Hk. exact Hy.
Qed.

Lemma sealed_ok st fields : recordable (JObj fields) = true -> state_ok st = true ->
  json_ok (JObj (fields ++ seal st (JObj fields))) = true.
Proof.
  unfold recordable, state_ok. intros [Hj Hk]%andb_true_iff [[Ha Hb]%andb_true_iff Hn]%andb_true_iff.
  cbn [json_ok] in Hj. apply andb_true_iff in Hj as [Hj Hu]. cbn [json_ok].
  rewrite sealed_keys, forallb_app, Hj by done. cbn [seal forallb fst snd].
  change (json_ok (JInt st.2)) with (json_ok (JInt (snd st))) in *. rewrite Hn. cbn [json_ok]. rewrite Ha.
  unfold record_sha. rewrite !canonical_sha_ascii. done.
Qed.

Lemma seal_Ok st fields : recordable (JObj fields) = true ->
  _seal_tamper_evident_record (JObj fields) st.1 st.2 = Ok (sealed st (JObj fields)).
Proof.
  unfold recordable. intros [Hj Hk]%andb_true_iff. cbn [_seal_tamper_evident_record sealed].
  assert (forall s l, In s sealing_keys -> ~ In s (map fst l) ->
    dict_get String.eqb s (fields ++ l) = None) as G.
  { intros s l Hs Hl. apply dict_get_None. intros k v Hin. apply String.eqb_neq. intros ->.
    apply in_app_iff in Hin as [Hin|Hin].
    - rewrite forallb_forall in Hk. specialize (Hk _ Hin). apply negb_true_iff, str_in_false in Hk. done.
    - apply Hl. by apply (in_map fst) in Hin. }
  assert (forall s, In s sealing_keys -> dict_get String.eqb s fields = None) as G0.
  { intros s Hs. specialize (G s [] Hs). rewrite app_nil_r in G. apply G. by intros []. }
  rewrite (dict_set_absent String.eqb "chain_position") by (apply G0; cbn; tauto).
  rewrite (dict_set_absent String.eqb "tamper_evident"), <- app_assoc
    by (apply G; [cbn; tauto|cbn; intuition discriminate]).
  rewrite (dict_set_absent String.eqb "previous_record_sha256"), <- app_assoc
    by (apply G; [cbn; tauto|cbn; intuition discriminate]).
  rewrite (dict_set_absent String.eqb "event_sha256"), <- app_assoc
    by (apply G; [cbn; tauto|cbn; intuition discriminate]).
  rewrite (dict_set_absent String.eqb "record_sha256"), <- app_assoc
    by (apply G; [cbn; tauto|cbn; intuition discriminate]).
  done.
Qed.

Lemma filter_perm {A} (f : A -> bool) l k : Permutation l k -> Permutation (List.filter f l) (List.filter f k).
Proof.
  induction 1 as [|x l k _ IH|x y l|l k m _ IH1 _ IH2]; cbn; [done| | |by rewrite IH1].
  - destruct (f x); [by apply perm_skip|done].
  - destruct (f x), (f y); try done. apply perm_swap.
Qed.

Lemma sorted_entries l : json_ok (JObj l) = true ->
  sort_keys (JObj (map (fun kv => (kv.1, sort_keys kv.2)) l)) = sort_keys (JObj l).
Proof.
  cbn [json_ok]. intros [H _]%andb_true_iff. cbn [sort_keys]. rewrite map_map. do 2 f_equal.
  apply map_ext_in. intros kv Hin. cbn [fst snd]. f_equal. rewrite forallb_forall in H.
  specialize (H kv Hin). apply andb_true_iff in H as [_ H]. by apply sort_keys_idem.
Qed.

(** What a record decodes to. *)
Definition record_fields (st : string * Z) (fields : list (string * json)) : list (string * json) :=
  py_sorted key_leb (map (fun kv => (kv.1, sort_keys kv.2)) (fields ++ seal st (JObj fields))).

(** What is left of a record without the sealing items. *)
Lemma unsealed_sealed st fields :
  recordable (JObj fields) = true -> state_ok st = true ->
  sort_keys (unsealed (record_fields st fields)) = sort_keys (JObj fields).
Proof.
  intros Hr Hs. unfold record_fields. pose proof Hr as Hr'. unfold recordable in Hr'. apply andb_true_iff in Hr' as [Hj Hk].
  rewrite <- sorted_entries by done. unfold unsealed. symmetry. apply sort_keys_perm.
  - rewrite (filter_perm _ _ _ (py_sorted_perm _ _)). rewrite map_app, List.filter_app. cbn [seal map].
    assert (forall l, List.filter (fun kv : string * json => negb (str_in kv.1 sealing_keys)) (map
      (fun kv => (kv.1, sort_keys kv.2)) l) = map (fun kv => (kv.1, sort_keys kv.2)) (List.filter (fun kv =>
      negb (str_in kv.1 sealing_keys)) l)) as E.
    { clear. induction l as [|x l IH]; [done|]. cbn [map List.filter fst].
      destruct (negb _); cbn [map]; by rewrite IH. }
    rewrite E, filter_id by (by apply forallb_forall). by rewrite app_nil_r.
  - rewrite map_fst_entries. cbn [json_ok] in Hj. by apply andb_true_iff in Hj as [_ Hj].
Qed.

Lemma canonical_sorted a b : sort_keys a = sort_keys b -> _canonical_json_sha256 a = _canonical_json_sha256 b.
Proof. unfold _canonical_json_sha256, canonical_text. by intros ->. Qed.

Lemma newline_ws : forallb is_ws [newline] = true.
Proof. reflexivity. Qed.

Lemma record_loads st fields : recordable (JObj fields) = true -> state_ok st = true ->
  loads (line_of st (JObj fields) ++ [newline]) = Ok (JObj (record_fields st fields)).
Proof.
  intros Hr Hs. unfold line_of. cbn [sealed]. rewrite loads_dump_raw; [done| |exact newline_ws].
  apply sort_keys_ok. by apply sealed_ok.
Qed.

Lemma dict_get_skip {V} k (l r : list (string * V)) : (forall kv, In kv l -> kv.1 <> k) ->
  dict_get String.eqb k (l ++ r) = dict_get String.eqb k r.
Proof.
  intros H. induction l as [|[k0 v] l IH]; [done|]. cbn [app dict_get].
  pose proof (H (k0, v) ltac:(by left)) as H0. cbn [fst] in H0. rewrite (proj2 (String.eqb_neq _ _)) by congruence.
  apply IH. intros kv Hin. apply H. by right.
Qed.

Lemma get_sealing st fields k : recordable (JObj fields) = true ->
  In k sealing_keys -> get_field k (record_fields st fields) =
  default JNull (sort_keys <$> dict_get String.eqb k (seal st (JObj fields))).
Proof.
  intros Hr Hin. unfold get_field, record_fields. unfold recordable in Hr. apply andb_true_iff in Hr as [Hj Hk].
  cbn [json_ok] in Hj. apply andb_true_iff in Hj as [_ Hu]. rewrite get_sorted by by apply sealed_keys.
  rewrite dict_get_skip; [reflexivity|]. intros kv H E. rewrite forallb_forall in Hk. specialize (Hk kv H).
  apply negb_true_iff, str_in_false in Hk. apply Hk. by rewrite E.
Qed.

Lemma line_not_blank j l : blank_bytes (dump_raw j ++ l) = false.
Proof.
  pose proof (dump_raw_unescaped j) as H. destruct (dump_opens escape_raw [] j) as (c & t & E & Hc).
  unfold dump_raw in *. rewrite E in *. cbn [app forallb] in *. apply andb_true_iff in H as [H _].
  unfold blank_bytes. cbn [forallb]. apply andb_false_iff. left.
  assert (implb (unescaped c && opens_value c) (negb (is_byte_space c)) = true) as G.
  { clear. revert c. apply ascii_forall. vm_compute. reflexivity. }
  rewrite H, Hc in G. by apply negb_true_iff in G.
Qed.

#[local] Opaque _canonical_json_sha256.

Lemma record_sha_unfold st e : _canonical_json_sha256 (link st.2 (_canonical_json_sha256 e) st.1) = record_sha st e.
Proof. reflexivity. Qed.

Lemma text_field_Ok fields name label s : get_field name fields = JStr s -> blank s = false ->
  _text_field fields name label = Ok s.
Proof. intros E H. unfold _text_field. by rewrite E, H. Qed.

Lemma sha_not_blank v : blank (_canonical_json_sha256 v) = false.
Proof.
  pose proof (sha256_text (string_of_list_ascii (canonical_text v))) as G.
  change (_canonical_json_sha256 v) with (sha256 (string_of_list_ascii (canonical_text v))).
  apply stripped_not_blank; [by apply sha256_text_fixed|]. intros F. rewrite F in G. discriminate G.
Qed.

(** A record the store wrote passes the verification of its line. *)
Lemma verify_line_sealed n st e : recordable e = true -> state_ok st = true ->
  verify_line n st (line_of st e ++ [newline]) = Ok (next_state st e).
Proof.
  intros Hr Hs. pose proof Hr as Hr'. destruct e as [| | | | |fields]; try discriminate Hr'. clear Hr'.
  destruct st as [prev pos]. unfold verify_line. cbv zeta.
  assert (blank_bytes (line_of (prev, pos) (JObj fields) ++ [newline]) = false) as -> by apply line_not_blank.
  cbn [raise_if]. rewrite Ok_bind. unfold _load_event_line. rewrite record_loads, !Ok_bind by done.
  pose proof (fun k Hk => get_sealing (prev, pos) fields k Hr Hk) as G.
  rewrite (G "tamper_evident") by (cbn; tauto). cbn -[get_field _text_field verify_lines]. rewrite (G "chain_position") by (cbn; tauto).
  cbn -[get_field _text_field]. rewrite Z.eqb_refl. cbn [negb raise_if]. rewrite Ok_bind.
  pose proof Hs as Hs'. unfold state_ok in Hs'. cbn [fst snd] in Hs'.
  apply andb_true_iff in Hs' as [Hb _]. apply andb_true_iff in Hb as [_ Hb]. apply negb_true_iff in Hb.
  rewrite (text_field_Ok _ "previous_record_sha256" _ prev), Ok_bind
    by first [exact Hb|rewrite (G "previous_record_sha256") by (cbn; tauto); reflexivity].
  rewrite String.eqb_refl. cbn [negb raise_if]. rewrite Ok_bind.
  rewrite (text_field_Ok _ "event_sha256" _ (_canonical_json_sha256 (JObj fields))), Ok_bind
    by first [apply sha_not_blank|rewrite (G "event_sha256") by (cbn; tauto); reflexivity].
  rewrite (text_field_Ok _ "record_sha256" _ (record_sha (prev, pos) (JObj fields))), Ok_bind
    by first [apply sha_not_blank|rewrite (G "record_sha256") by (cbn; tauto); reflexivity].
  rewrite (canonical_sorted _ _ (unsealed_sealed (prev, pos) fields Hr Hs)).
  rewrite String.eqb_refl. cbn [negb raise_if]. rewrite Ok_bind.
  change (_canonical_json_sha256 (link pos (_canonical_json_sha256 (JObj fields)) prev)) with (record_sha (prev, pos) (JObj fields)).
  rewrite String.eqb_refl. reflexivity.
Qed.

(** Record numbers the interpreter prints without complaint. *)
Definition maximum_records : Z := 10 ^ 18.

Lemma position_ok n : 0 <= n < maximum_records -> json_ok (JInt n) = true.
Proof.
  unfold maximum_records. intros H. cbn [json_ok]. apply Nat.leb_le.
  etransitivity; [apply (digits_length _ 18); [lia|]|].
  - apply N2Z.inj_lt. rewrite N2Z.inj_pow. change (Z.of_N (N.of_nat 18)) with 18. lia.
  - unfold int_max_str_digits. lia.
Qed.

Definition state_fits (st : string * Z) (n : nat) : Prop :=
  isascii st.1 = true /\ blank st.1 = false /\ 0 <= st.2 /\ st.2 + Z.of_nat n < maximum_records.

Lemma state_fits_ok st n : state_fits st n -> state_ok st = true.
Proof.
  intros (H1 & H2 & H3 & H4). unfold state_ok. rewrite H1, H2, position_ok by lia. done.
Qed.

Lemma state_fits_next st n e : state_fits st (S n) -> state_fits (next_state st e) n.
Proof.
  intros (H1 & H2 & H3 & H4). unfold next_state, record_sha. split_and!; cbn [fst snd]; try lia.
  - apply canonical_sha_ascii.
  - apply sha_not_blank.
Qed.

Lemma log_state_fits es : forall st n, state_fits st (length es + n) -> state_fits (log_state st es) n.
Proof.
  induction es as [|e es IH]; intros st n H; [done|]. cbn [log_state fold_left]. apply IH.
  by apply state_fits_next.
Qed.

Lemma genesis_fits n : Z.of_nat n + 1 < maximum_records -> state_fits genesis n.
Proof. intros H. split_and!; [done|done|cbn; lia|cbn [genesis snd]; lia]. Qed.

Lemma verify_log es : forall n st, forallb recordable es = true -> state_fits st (length es) ->
  verify_lines n st (map (fun t => t ++ [newline]) (log_lines st es)) = Ok (log_state st es).
Proof.
  induction es as [|e es IH]; intros n st Hr Hs; [done|]. cbn [forallb] in Hr. apply andb_true_iff in Hr as [He Hr].
  cbn [log_lines map verify_lines]. rewrite verify_line_sealed by (by eapply state_fits_ok || done).
  rewrite Ok_bind. rewrite IH; [done|done|]. by apply state_fits_next.
Qed.

Lemma raw_lines_log es : raw_lines (log_text es) = map (fun t => t ++ [newline]) (log_lines genesis es).
Proof.
  pose proof (raw_lines_text (log_lines genesis es) [] (log_lines_plain es genesis)) as H.
  rewrite app_nil_r in H. unfold log_text. rewrite H. by rewrite app_nil_r.
Qed.

(** ** The store as a log of events *)

(** The file of the store holds exactly these events, sealed in order. *)
Definition holds (s : JsonlAuditStore) (fs : files) (es : list json) : Prop :=
  default [] (fs !! path s) = log_text es /\ forallb recordable es = true.

(** A chained successor's legacy file is another file, and unchanged. *)
Definition legacy_ok (s : JsonlAuditStore) (fs : files) : Prop :=
  match _legacy_path s with
  | Some p => p <> path s /\ _file_sha256_or_none p fs = _legacy_sha256 s
  | None => True
  end.

Lemma log_text_nil es : log_text es = [] -> es = [].
Proof.
  destruct es as [|e es]; [done|]. unfold log_text. cbn [log_lines lines_text flat_map].
  intros H. apply app_nil_iff in H as [H _]. by apply app_nil_iff in H as [_ H].
Qed.

Lemma chain_state_log s subject fs es : tamper_evident s = true -> legacy_ok s fs -> holds s fs es ->
  Z.of_nat (length es) + 1 < maximum_records ->
  _chain_state_or_fail s subject fs = Ok (log_state genesis es).
Proof.
  intros Ht Hl [Hc Hr] Hn. unfold _chain_state_or_fail.
  assert (match _legacy_path s with Some p => negb (bool_decide (_file_sha256_or_none p fs = _legacy_sha256 s))
    | None => false end = false) as ->.
  { unfold legacy_ok in Hl. destruct (_legacy_path s) as [p|]; [|done]. destruct Hl as [_ Hl].
    by rewrite bool_decide_eq_true_2. }
  cbn [raise_if]. rewrite Ok_bind, Ht. unfold _verify_chain_state_unlocked.
  destruct (fs !! path s) as [c|]; cbn [default] in Hc.
  - unfold id in Hc. subst c. unfold verify_content. rewrite raw_lines_log, verify_log; [done|done|].
    by apply genesis_fits.
  - unfold id in Hc. symmetry in Hc. apply log_text_nil in Hc. by subst es.
Qed.

(** The redacted primitives of an event. *)
Definition body (e : AuditEvent) : res json := redact <$> to_primitive (event_value e).

Lemma json_ok_prints j : json_ok j = true -> prints j = true.
Proof.
  induction j as [|b|n|s|l IH|l IH] using json_nested_ind; try done; cbn [json_ok prints]; intros H.
  - rewrite List.Forall_forall in IH. rewrite forallb_forall in *. auto.
  - apply andb_true_iff in H as [H _]. rewrite List.Forall_forall in IH. rewrite forallb_forall in *.
    intros kv Hin. apply IH; [done|]. specialize (H kv Hin). by apply andb_true_iff in H as [_ H].
Qed.

(** The top of an event's primitives. *)
Definition body_items (e : AuditEvent) (ps : json) : list (string * json) :=
  [ ("event_type", JStr (event_type e)); ("timestamp", JStr (isoformat (timestamp e))); ("payload", ps);
    ("snapshot_id", opt_json (snapshot_id e)); ("schema_version", JStr (schema_version e)) ].

Lemma event_primitive e : to_primitive (event_value e) =
  ps ← to_primitive (VMap (payload e)); mret (JObj (body_items e ps)).
Proof.
  unfold event_value, body_items. set (m := to_primitive (VMap (payload e))).
  change (to_primitive (VData ?l)) with (ps ← mapM (fun kv => j ← to_primitive kv.2; mret (kv.1, j)) l; mret (JObj ps)).
  cbn [mapM]. cbn [snd fst]. fold m. destruct m as [ps|x]; [|done]. by destruct (snapshot_id e).
Qed.

Lemma body_Ok e b : body e = Ok b -> exists ps, b = JObj (body_items e (redact ps)).
Proof.
  unfold body. rewrite event_primitive. destruct (to_primitive _) as [ps|x]; [|done]. cbn.
  intros [= <-]. exists ps. unfold body_items, opt_json. by destruct (snapshot_id e).
Qed.

Lemma body_recordable e b : body e = Ok b -> json_ok b = true -> recordable b = true.
Proof. intros (ps & ->)%body_Ok H. unfold recordable. by rewrite H. Qed.

Lemma render_line s e b st : tamper_evident s = true -> body e = Ok b -> json_ok b = true ->
  _render s e st.1 st.2 = Ok (line_of st b).
Proof.
  intros Ht Hb Hj. pose proof (body_recordable e b Hb Hj) as Hr. unfold _render.
  unfold body in Hb. destruct (to_primitive (event_value e)) as [p|x]; [|done].
  apply mret_Ok in Hb. cbn [mbind res_bind]. rewrite Hb, (json_ok_prints b Hj). cbn [negb raise_if].
  rewrite Ok_bind, Ht. destruct b as [| | | | |fields]; try discriminate Hr.
  by rewrite (seal_Ok st fields Hr), Ok_bind.
Qed.

Lemma append_to_lookup p t fs : append_to p t fs !! p = Some (default [] (fs !! p) ++ t).
Proof. unfold append_to. by rewrite lookup_insert_eq. Qed.

Lemma append_to_other p q t fs : q <> p -> append_to p t fs !! q = fs !! q.
Proof. intros H. unfold append_to. by rewrite lookup_insert_ne. Qed.

Lemma holds_append s fs es b : holds s fs es -> recordable b = true ->
  holds s (append_to (path s) (line_of (log_state genesis es) b ++ [newline]) fs) (es ++ [b]).
Proof.
  intros [Hc Hr] Hb. split.
  - rewrite append_to_lookup, log_text_snoc, <- Hc. reflexivity.
  - rewrite forallb_app, Hr. cbn [forallb]. by rewrite Hb.
Qed.

Lemma legacy_append s fs t : legacy_ok s fs -> legacy_ok s (append_to (path s) t fs).
Proof.
  unfold legacy_ok, _file_sha256_or_none. destruct (_legacy_path s) as [p|]; [|done]. intros [Hp H].
  split; [done|]. by rewrite append_to_other.
Qed.

(** Writing one line: complete or refused. *)
Lemma append_line_run s line out fs : match out with BrokenOff _ => False | _ => True end ->
  _append_line s line out fs =
  if (max_event_bytes s <? Z.of_nat (length line)) || match out with Written => false | _ => true end
  then (Raise OSError, fs) else (Ok tt, append_to (path s) (line ++ [newline]) fs).
Proof.
  intros Ho. unfold _append_line. rewrite lift_raise_if_bind.
  destruct (_ <? _); [done|]. by destruct out.
Qed.

Lemma rstrip_line c l k : is_tail_space k = false -> rstrip (c ++ (l ++ [k]) ++ [newline]) = c ++ l ++ [k].
Proof.
  intros H. unfold rstrip. rewrite !rev_app_distr. cbn [rev app drop_tail_spaces].
  change (is_tail_space newline) with true. cbn match. rewrite H.
  change (k :: rev l ++ rev c) with ([k] ++ (rev l ++ rev c)). rewrite !rev_app_distr, !rev_involutive.
  cbn [rev app]. by rewrite app_assoc.
Qed.

Lemma before_newline_plain l : plain_line l = true -> before_newline l = (l, false).
Proof.
  induction l as [|c l IH]; [done|]. cbn. intros [Hc Hl]%andb_true_iff. apply negb_true_iff in Hc.
  by rewrite Hc, IH.
Qed.

Lemma plain_rev l : plain_line (rev l) = plain_line l.
Proof. unfold plain_line. apply forallb_perm. symmetry. apply Permutation_rev. Qed.

(** The text of an object ends with its brace. *)
Lemma object_text l : exists t, dump_raw (JObj l) = t ++ ["}"%char].
Proof. eexists. unfold dump_raw. cbn [dump_with]. rewrite app_comm_cons. reflexivity. Qed.

Lemma line_object st b : recordable b = true -> exists l, sort_keys (sealed st b) = JObj l.
Proof. destruct b as [| | | | |fields]; try discriminate. intros _. cbn [sealed sort_keys]. by eexists. Qed.

Lemma after_newline_log es t : plain_line t = true -> fst (after_newline (log_text es ++ t)) = t.
Proof.
  intros Ht. rewrite after_newline_app. unfold after_newline at 1.
  rewrite before_newline_plain by by rewrite plain_rev. rewrite rev_involutive.
  assert (exists f, after_newline (log_text es) = ([], f)) as [f ->]; [|done].
  unfold log_text. destruct (log_lines genesis es) as [|x ls] using rev_ind; [by exists false|].
  unfold lines_text. rewrite flat_map_app. cbn [flat_map]. rewrite app_nil_r, app_assoc.
  rewrite after_newline_app. exists true. done.
Qed.

(** The record just written is the one read back. *)
Lemma last_event_written s fs es b : holds s fs es -> recordable b = true ->
  Z.of_nat (length (line_of (log_state genesis es) b)) <= max_event_bytes s -> state_ok (log_state genesis es) = true ->
  _last_event_unlocked s (append_to (path s) (line_of (log_state genesis es) b ++ [newline]) fs) =
  loads (line_of (log_state genesis es) b).
Proof.
  intros [Hc Hr] Hb Hl Hs. unfold _last_event_unlocked. rewrite append_to_lookup, Hc.
  rewrite read_last_exact by (unfold _TAIL_READ_CHUNK_BYTES; lia). cbv zeta.
  destruct (line_object (log_state genesis es) b Hb) as [l El].
  destruct (object_text l) as [t Et].
  assert (rstrip (log_text es ++ line_of (log_state genesis es) b ++ [newline]) =
    log_text es ++ line_of (log_state genesis es) b) as ->.
  { unfold line_of in *. rewrite El, Et. by apply rstrip_line. }
  rewrite after_newline_log by apply dump_raw_plain.
  assert (is_nil (log_text es ++ line_of (log_state genesis es) b) = false) as ->.
  { apply is_nil_false. intros H. apply app_nil_iff in H as [_ H]. unfold line_of in H. rewrite El, Et in H.
    by apply app_nil_iff in H as [_ H]. }
  rewrite (proj2 (Z.ltb_ge _ _)) by done. done.
Qed.

(** ** Calls, and what they do to the log *)

Inductive call_kind : Type := Append | AppendVerified | AppendVerifiedIdempotent.
Inductive outcome : Type := Recorded | AlreadyThere | Failed (e : exn).

Definition outcome_of {A} (f : A -> outcome) (r : res A) : outcome :=
  match r with Ok a => f a | Raise x => Failed x end.

Definition audit_call : Type := call_kind * AuditEvent * write_outcome.

Definition run_call (s : JsonlAuditStore) (c : audit_call) (fs : files) : outcome * files :=
  let '(k, e, out) := c in
  match k with
  | Append => let '(r, fs) := append s e out fs in (outcome_of (fun _ => Recorded) r, fs)
  | AppendVerified => let '(r, fs) := append_verified s e out fs in (outcome_of (fun _ => Recorded) r, fs)
  | AppendVerifiedIdempotent =>
      let '(r, fs) := append_verified_idempotent s e out fs in
      (outcome_of (fun o => match o with Some _ => Recorded | None => AlreadyThere end) r, fs)
  end.

Fixpoint run_calls (s : JsonlAuditStore) (cs : list audit_call) (fs : files) : list outcome * files :=
  match cs with
  | [] => ([], fs)
  | c :: cs => let '(o, fs) := run_call s c fs in let '(os, fs) := run_calls s cs fs in (o :: os, fs)
  end.

Definition same_identity (e : AuditEvent) (b : json) : bool :=
  match b with
  | JObj fields => py_eqb (get_field "event_type" fields) (JStr (event_type e))
                   && py_eqb (get_field "snapshot_id" fields) (opt_json (snapshot_id e))
  | _ => false
  end.

Definition identity_of (b : json) : json :=
  match b with JObj fields => JObj (map (fun k => (k, get_field k fields)) identity_keys) | _ => b end.

(** The specification: a call appends its event to the log, or reports that
    the log has it, or fails and changes nothing. *)
Definition spec_call (s : JsonlAuditStore) (c : audit_call) (b : json) (es : list json) : outcome * list json :=
  let '(k, e, out) := c in
  let write :=
    if (max_event_bytes s <? Z.of_nat (length (line_of (log_state genesis es) b)))
       || match out with Written => false | _ => true end
    then (Failed OSError, es) else (Recorded, es ++ [b]) in
  match k, List.find (same_identity e) es with
  | AppendVerifiedIdempotent, Some old =>
      if py_eqb (identity_of old) b then (AlreadyThere, es)
      else (Failed (ValueError "JSONL_AUDIT_IDEMPOTENCY_CONFLICT"), es)
  | _, _ => write
  end.

Fixpoint spec_calls (s : JsonlAuditStore) (cs : list (audit_call * json)) (es : list json) : list outcome * list json :=
  match cs with
  | [] => ([], es)
  | (c, b) :: cs => let '(o, es) := spec_call s c b es in let '(os, es) := spec_calls s cs es in (o :: os, es)
  end.

(** A call the model covers: a valid event whose primitives have a text, and a
    write that is not broken off half way. *)
Definition call_ok (c : audit_call) (b : json) : Prop :=
  let '(k, e, out) := c in
  new_audit_event e = Ok e /\ body e = Ok b /\ json_ok b = true /\
  match out with BrokenOff _ => False | _ => True end.

Lemma subject_not_blank e : new_audit_event e = Ok e -> blank (subject_of e) = false.
Proof.
  unfold new_audit_event, subject_of. intros H. apply bind_Ok in H as (? & H1 & H).
  apply bind_Ok in H as (? & _ & H). apply bind_Ok in H as (? & H2 & _). apply raise_if_Ok in H1, H2.
  assert (blank (event_type e) = false) as Ht.
  { apply negb_false_iff in H1. unfold _EVENT_TYPE_PATTERN in H1. rewrite blank_spaces.
    destruct (list_ascii_of_string (event_type e)) as [|c l]; [done|]. rewrite !andb_true_iff in H1.
    destruct H1 as (((Hc & _) & _) & _). cbn [forallb]. apply andb_false_iff. left.
    assert (implb (is_upper_letter c) (negb (is_space c)) = true) as E.
    { clear. revert c. apply ascii_forall. vm_compute. reflexivity. }
    rewrite Hc in E. by apply negb_true_iff in E. }
  destruct (snapshot_id e) as [i|]; [|done]. by destruct (String.eqb i "").
Qed.

Lemma verified_Ok p subject op v w : blank p = false -> blank subject = false -> blank op = false ->
  verified p subject op (_canonical_json_sha256 v) (_canonical_json_sha256 w) =
  Ok (mk_verified p subject op (_canonical_json_sha256 v) (_canonical_json_sha256 w)).
Proof.
  intros H1 H2 H3. unfold verified. rewrite H1, H2, H3. cbn [orb raise_if]. rewrite !Ok_bind.
  assert (forall v, is_sha256_text (_canonical_json_sha256 v) = true) as G
    by (intros u; exact (sha256_text (string_of_list_ascii (canonical_text u)))).
  by rewrite !G.
Qed.

Lemma py_eqb_sort a : forall b, json_ok a = true -> py_eqb (sort_keys a) b = py_eqb a b.
Proof.
  induction a as [|x|n|s|l IH|l IH] using json_nested_ind; intros b H; try done; destruct b as [| | | |k|k]; try done.
  - cbn [sort_keys json_ok] in *. cbn [py_eqb]. revert k.
    induction IH as [|x l Hx IH' IHl]; intros k; [done|]. cbn [map forallb] in *.
    apply andb_true_iff in H as [H1 H2]. destruct k as [|y k]; [done|]. rewrite Hx by done. by rewrite IHl.
  - cbn [sort_keys json_ok] in *. apply andb_true_iff in H as [H Hu]. cbn [py_eqb].
    rewrite py_sorted_length, length_map. f_equal. rewrite (forallb_perm _ _ _ (py_sorted_perm _ _)).
    clear Hu. induction IH as [|x l Hx IH' IHl]; [done|]. cbn [map forallb fst snd] in *.
    apply andb_true_iff in H as [H1 H2]. apply andb_true_iff in H1 as [_ H1]. rewrite IHl by done. f_equal.
    destruct (dict_get String.eqb x.1 k) as [w|]; [|done]. by apply Hx.
Qed.

(** Members as they come back from a record, sorted at every depth. *)
Lemma py_eqb_entries l b : forallb (fun kv => json_ok kv.2) l = true ->
  py_eqb (JObj (map (fun kv => (kv.1, sort_keys kv.2)) l)) b = py_eqb (JObj l) b.
Proof.
  intros H. destruct b as [| | | | |k]; try done. cbn [py_eqb]. rewrite length_map. f_equal.
  induction l as [|x l IH]; [done|]. cbn [map forallb fst snd] in *. apply andb_true_iff in H as [H1 H2].
  rewrite IH by done. f_equal. destruct (dict_get String.eqb x.1 k) as [w|]; [|done]. by apply py_eqb_sort.
Qed.

Lemma dict_get_app {V} k (l r : list (string * V)) : dict_get String.eqb k (l ++ r) =
  match dict_get String.eqb k l with Some v => Some v | None => dict_get String.eqb k r end.
Proof. induction l as [|[k0 v] l IH]; [done|]. cbn [app dict_get]. by destruct (String.eqb k k0). Qed.

Lemma forallb_get (fields : list (string * json)) k : json_ok (JObj fields) = true -> json_ok (get_field k fields) = true.
Proof.
  cbn [json_ok]. intros [H _]%andb_true_iff. unfold get_field.
  destruct (dict_get String.eqb k fields) as [v|] eqn:E; [|done]. apply (dict_get_In String.eqb) in E as (k' & Hin & _).
  rewrite forallb_forall in H. specialize (H _ Hin). by apply andb_true_iff in H as [_ H].
Qed.

(** What a record says of the keys that identify its event. *)
Lemma get_recorded st fields k : recordable (JObj fields) = true -> In k identity_keys ->
  get_field k (record_fields st fields) = sort_keys (get_field k fields).
Proof.
  intros Hr Hin. unfold get_field, record_fields. pose proof Hr as Hr'. unfold recordable in Hr'.
  apply andb_true_iff in Hr' as [Hj Hk]. cbn [json_ok] in Hj. apply andb_true_iff in Hj as [_ Hu].
  rewrite get_sorted by by apply sealed_keys.
  assert (dict_get String.eqb k (seal st (JObj fields)) = None) as Hs.
  { apply dict_get_None. intros k' v Hv. apply String.eqb_neq. intros ->.
    cbn in Hin, Hv. intuition congruence. }
  rewrite dict_get_app, Hs.
  by destruct (dict_get String.eqb k fields).
Qed.

Lemma find_identity_log n e es : forall st, forallb recordable es = true -> state_fits st (length es) ->
  exists r, find_identity n (event_type e) (snapshot_id e) (map (fun t => t ++ [newline]) (log_lines st es)) = Ok r /\
  match List.find (same_identity e) es with
  | Some old => exists st' fields, old = JObj fields /\ r = Some (record_fields st' fields)
  | None => r = None
  end.
Proof.
  revert n. induction es as [|b es IH]; intros n st Hr Hs; [by exists None|].
  cbn [forallb] in Hr. apply andb_true_iff in Hr as [Hb Hr]. cbn [log_lines map find_identity]. cbv zeta.
  assert (blank_bytes (line_of st b ++ [newline]) = false) as -> by apply line_not_blank.
  cbn [raise_if]. rewrite Ok_bind. pose proof Hb as Hb'. destruct b as [| | | | |fields]; try discriminate Hb'. clear Hb'.
  unfold _load_event_line. rewrite record_loads, !Ok_bind by (done || by eapply state_fits_ok).
  rewrite (get_recorded st fields "event_type"), (get_recorded st fields "snapshot_id") by (done || cbn; tauto).
  rewrite !py_eqb_sort by (apply forallb_get; by apply andb_true_iff in Hb as [? _]).
  cbn [List.find]. unfold same_identity at 1.
  destruct (py_eqb (get_field "event_type" fields) _ && py_eqb _ _).
  - exists (Some (record_fields st fields)). split; [done|]. by exists st, fields.
  - apply IH; [done|]. by apply state_fits_next.
Qed.

Lemma existing_event st fields b : recordable (JObj fields) = true ->
  py_eqb (JObj (map (fun k => (k, get_field k (record_fields st fields))) identity_keys)) b =
  py_eqb (identity_of (JObj fields)) b.
Proof.
  intros Hr. pose proof Hr as Hj. unfold recordable in Hj. apply andb_true_iff in Hj as [Hj _].
  assert (map (fun k => (k, get_field k (record_fields st fields))) identity_keys =
    map (fun kv => (kv.1, sort_keys kv.2)) (map (fun k => (k, get_field k fields)) identity_keys)) as ->.
  { rewrite map_map. apply map_ext_in. intros k Hk. cbn [fst snd]. by rewrite get_recorded. }
  unfold identity_of. apply py_eqb_entries. apply forallb_forall.
  intros kv (k & <- & _)%in_map_iff. cbn [snd]. by apply forallb_get.
Qed.

(** ** A call refines its specification *)

Section Calls.

Context (s : JsonlAuditStore) (Hs : tamper_evident s = true) (Hp : blank (path s) = false).

Lemma write_event_log e b out fs es : body e = Ok b -> json_ok b = true ->
  match out with BrokenOff _ => False | _ => True end ->
  write_event s e (log_state genesis es) out fs =
  let line := line_of (log_state genesis es) b in
  if (max_event_bytes s <? Z.of_nat (length line)) || match out with Written => false | _ => true end
  then (Raise OSError, fs) else (Ok line, append_to (path s) (line ++ [newline]) fs).
Proof using Hs.
  intros Hb Hj Ho. unfold write_event. rewrite lift_bind, (render_line s e b) by done.
  rewrite method_bind_run, append_line_run by done. cbv zeta. by destruct (_ || _).
Qed.

Lemma write_verified_log e b op out fs es : new_audit_event e = Ok e -> body e = Ok b -> json_ok b = true ->
  blank op = false -> match out with BrokenOff _ => False | _ => True end ->
  holds s fs es -> Z.of_nat (length es) + 1 < maximum_records ->
  exists r, write_verified s e op (log_state genesis es) out fs =
  let line := line_of (log_state genesis es) b in
  if (max_event_bytes s <? Z.of_nat (length line)) || match out with Written => false | _ => true end
  then (Raise OSError, fs) else (Ok r, append_to (path s) (line ++ [newline]) fs).
Proof using Hs Hp.
  intros He Hb Hj Hop Ho Hh Hn. pose proof (body_recordable e b Hb Hj) as Hr.
  assert (state_ok (log_state genesis es) = true) as Hst.
  { eapply (state_fits_ok _ 0), log_state_fits. rewrite Nat.add_0_r. by apply genesis_fits. }
  unfold write_verified. rewrite lift_bind, (render_line s e b) by done.
  set (line := line_of (log_state genesis es) b) in *. rewrite lift_bind.
  assert (exists j, loads line = Ok j) as [j Ej].
  { eexists. unfold line, line_of. rewrite <- (app_nil_r (dump_raw _)). apply loads_dump_raw; [|done].
    apply sort_keys_ok. destruct b as [| | | | |fields]; try discriminate Hr. by apply sealed_ok. }
  rewrite Ej. eexists. rewrite method_bind_run, append_line_run by done. cbv zeta.
  destruct (_ || _) eqn:E; [done|]. apply orb_false_iff in E as [El _].
  rewrite get_bind, lift_bind. unfold line. rewrite (last_event_written s fs es b) by (done || by apply Z.ltb_ge).
  fold line. rewrite Ej, lift_raise_if_bind, py_eqb_refl by by eapply loads_ok.
  cbn [negb]. unfold lift. rewrite verified_Ok; [reflexivity|done|by apply subject_not_blank|done].
Qed.

(** Every call does what the specification says, to the file of the store and
    to no other file. *)
Lemma run_call_spec c b fs es : call_ok c b -> legacy_ok s fs -> holds s fs es ->
  Z.of_nat (length es) + 1 < maximum_records ->
  let '(o, fs') := run_call s c fs in let '(o', es') := spec_call s c b es in
  o = o' /\ holds s fs' es' /\ legacy_ok s fs' /\ (forall p, p <> path s -> fs' !! p = fs !! p).
Proof using Hs Hp.
  destruct c as [[k e] out]. intros (He & Hb & Hj & Ho) Hl Hh Hn.
  pose proof (body_recordable e b Hb Hj) as Hr.
  assert (forall o : outcome, o = o /\ holds s fs es /\ legacy_ok s fs /\ (forall p, p <> path s -> fs !! p = fs !! p)) as Hsame by done.
  assert (forall o : outcome, let fs' := append_to (path s) (line_of (log_state genesis es) b ++ [newline]) fs in
    o = o /\ holds s fs' (es ++ [b]) /\ legacy_ok s fs' /\ (forall p, p <> path s -> fs' !! p = fs !! p)) as Hmore.
  { intros o. split_and!; [done|by apply holds_append|by apply legacy_append|]. intros p. apply append_to_other. }
  pose proof (chain_state_log s (subject_of e) fs es Hs Hl Hh Hn) as Hc.
  destruct k; cbn [run_call spec_call].
  - unfold append. rewrite get_bind, lift_bind, Hc, method_bind_run, (write_event_log e b out fs es) by done.
    cbv zeta. destruct (_ || _); [by apply (Hsame (Failed OSError))|by apply (Hmore Recorded)].
  - unfold append_verified. rewrite get_bind, lift_bind, Hc.
    destruct (write_verified_log e b "jsonl_append" out fs es) as [r ->]; try done.
    cbv zeta. destruct (_ || _); [by apply (Hsame (Failed OSError))|by apply (Hmore Recorded)].
  - unfold append_verified_idempotent. rewrite lift_bind. fold (body e). rewrite Hb, get_bind, lift_bind, Hc, lift_bind.
    assert (exists r, _event_by_identity_unlocked s (event_type e) (snapshot_id e) fs = Ok r /\
      match List.find (same_identity e) es with
      | Some old => exists st' fields, old = JObj fields /\ r = Some (record_fields st' fields)
      | None => r = None end) as (r & -> & Hf).
    { unfold _event_by_identity_unlocked. destruct Hh as [Hc' Hre]. destruct (fs !! path s) as [c|] eqn:Ec.
      - change (default [] (Some c)) with c in Hc'. rewrite Hc', raw_lines_log.
        apply find_identity_log; [done|by apply genesis_fits].
      - change (default [] (@None (list ascii))) with (@nil ascii) in Hc'. symmetry in Hc'.
        apply log_text_nil in Hc'. subst es. by exists None. }
    destruct (List.find (same_identity e) es) as [old|] eqn:Ef.
    + destruct Hf as (st' & fields & -> & ->). rewrite lift_raise_if_bind.
      apply find_some in Ef as [Hin _]. destruct Hh as [Hc' Hre]. rewrite forallb_forall in Hre.
      rewrite existing_event by by apply Hre. destruct (py_eqb _ b); cbn [negb].
      * by apply (Hsame AlreadyThere).
      * by apply (Hsame (Failed (ValueError "JSONL_AUDIT_IDEMPOTENCY_CONFLICT"))).
    + subst r. rewrite method_bind_run.
      destruct (write_verified_log e b "jsonl_append_idempotent" out fs es) as [r ->]; try done.
      cbv zeta. destruct (_ || _); [by apply (Hsame (Failed OSError))|by apply (Hmore Recorded)].
Qed.

Lemma spec_call_grows c b es : exists new, (spec_call s c b es).2 = es ++ new /\ (length new <= 1)%nat.
Proof.
  destruct c as [[k e] out]. unfold spec_call. cbv zeta.
  destruct k; repeat (destruct (_ || _) || destruct (List.find _ _) || destruct (py_eqb _ _));
    (exists []; rewrite app_nil_r; cbn; split; [done|lia]) || (exists [b]; cbn; split; [done|lia]).
Qed.

Lemma run_calls_spec cs : forall fs es, Forall (fun c => call_ok c.1 c.2) cs -> legacy_ok s fs -> holds s fs es ->
  Z.of_nat (length es + length cs) + 1 < maximum_records ->
  let '(os, fs') := run_calls s (map fst cs) fs in let '(os', es') := spec_calls s cs es in
  os = os' /\ holds s fs' es' /\ legacy_ok s fs' /\ (forall p, p <> path s -> fs' !! p = fs !! p) /\
  (exists new, es' = es ++ new /\ (length new <= length cs)%nat).
Proof using Hs Hp.
  induction cs as [|[c b] cs IH]; intros fs es Hok Hl Hh Hn; cbn [map run_calls spec_calls fst].
  { split_and!; try done. exists []. rewrite app_nil_r. cbn. split; [done|lia]. }
  apply Forall_cons in Hok as [Hc Hok]. cbn [fst snd length] in *.
  pose proof (run_call_spec c b fs es Hc Hl Hh ltac:(lia)) as H1. pose proof (spec_call_grows c b es) as (n1 & G & L1).
  destruct (run_call s c fs) as [o fs1], (spec_call s c b es) as [o' es1]. destruct H1 as (-> & Hh1 & Hl1 & Hf1).
  cbn [snd] in G. subst es1.
  pose proof (IH fs1 (es ++ n1) Hok Hl1 Hh1 ltac:(rewrite length_app; lia)) as H2.
  destruct (run_calls s (map fst cs) fs1) as [os fs2], (spec_calls s cs (es ++ n1)) as [os' es2].
  destruct H2 as (-> & Hh2 & Hl2 & Hf2 & n2 & -> & L2). split_and!; try done.
  - intros p H. rewrite Hf2 by done. by apply Hf1.
  - exists (n1 ++ n2). rewrite app_assoc, length_app. split; [done|lia].
Qed.

End Calls.

(** ** Two files with the same last hash *)

(** The events of a file, as its lines decode. *)
Definition recorded_events (c : list ascii) : res (list json) :=
  mapM (fun raw => unsealed <$> _load_event_line raw "record") (raw_lines c).

(** The texts whose hashes the verification of these events computes. *)
Fixpoint hashed (st : string * Z) (es : list json) : list (list ascii) :=
  match es with
  | [] => []
  | e :: es => canonical_text e :: canonical_text (link st.2 (_canonical_json_sha256 e) st.1)
               :: hashed (next_state st e) es
  end.

Fixpoint events_ok (st : string * Z) (es : list json) : Prop :=
  match es with
  | [] => True
  | e :: es => json_ok (JInt st.2) = true /\ json_ok e = true /\ events_ok (next_state st e) es
  end.

Lemma filter_json_ok f fields : json_ok (JObj fields) = true -> json_ok (JObj (List.filter f fields)) = true.
Proof.
  cbn [json_ok]. intros [H Hu]%andb_true_iff. apply all_unique_spec in Hu. apply andb_true_iff. split.
  - rewrite forallb_forall in *. intros kv Hin. apply H. by apply filter_In in Hin as [? _].
  - apply all_unique_spec. clear H. induction fields as [|[k v] fields IH]; [done|].
    cbn [map fst pairwise_distinct List.filter] in *. destruct Hu as [H1 H2]. destruct (f (k, v)); [|auto].
    cbn [map fst pairwise_distinct]. split; [|auto].
    intros y (kv & <- & Hin)%in_map_iff. apply filter_In in Hin as [Hin _]. apply H1. by apply in_map.
Qed.

Lemma text_field_inv fields name label s : _text_field fields name label = Ok s -> get_field name fields = JStr s.
Proof.
  unfold _text_field. destruct (get_field name fields) as [| | |t| |]; try done.
  intros H. apply bind_Ok in H as (? & _ & H). apply mret_Ok in H. by subst.
Qed.

Lemma verify_line_inv n st raw st' : verify_line n st raw = Ok st' ->
  exists fields, loads raw = Ok (JObj fields) /\ st' = next_state st (unsealed fields) /\
    json_ok (unsealed fields) = true /\ json_ok (JInt st.2) = true.
Proof.
  destruct st as [prev pos]. unfold verify_line. cbv zeta. intros H. apply bind_Ok in H as (? & _ & H).
  apply bind_Ok in H as (fields & Hl & H). unfold _load_event_line in Hl. apply bind_Ok in Hl as (j & Hj & Hl).
  destruct j as [| | | | |l]; try done. apply mret_Ok in Hl. subst l. pose proof (loads_ok _ _ Hj) as Hok.
  apply bind_Ok in H as (? & _ & H). apply bind_Ok in H as (? & Hpos & H). apply raise_if_Ok, negb_false_iff in Hpos.
  apply bind_Ok in H as (p & _ & H). apply bind_Ok in H as (? & Hprev & H). apply raise_if_Ok, negb_false_iff, String.eqb_eq in Hprev.
  apply bind_Ok in H as (es & _ & H). apply bind_Ok in H as (rs & _ & H).
  apply bind_Ok in H as (? & He & H). apply bind_Ok in H as (? & Hr & H). apply mret_Ok in H.
  apply raise_if_Ok, negb_false_iff, String.eqb_eq in He, Hr. subst es rs st'.
  exists fields. split; [done|]. split; [done|]. split; [by apply filter_json_ok|].
  pose proof (forallb_get fields "chain_position" Hok) as G. unfold snd.
  destruct (get_field "chain_position" fields) as [|b|m| | |]; try done; cbn [py_eqb] in Hpos; apply Z.eqb_eq in Hpos; subst pos.
  - by destruct b.
  - exact G.
Qed.

Lemma verify_lines_inv lines : forall n st st', verify_lines n st lines = Ok st' ->
  exists es, mapM (fun raw => unsealed <$> _load_event_line raw "record") lines = Ok es /\
    st' = log_state st es /\ events_ok st es.
Proof.
  induction lines as [|raw lines IH]; intros n st st' H; cbn [verify_lines] in H.
  { apply mret_Ok in H. subst st'. by exists []. }
  apply bind_Ok in H as (st1 & H1 & H). apply verify_line_inv in H1 as (fields & Hl & -> & Hok & Hn).
  apply IH in H as (es & Hm & -> & He). exists (unsealed fields :: es). split_and!; try done.
  assert ((unsealed <$> _load_event_line raw "record") = Ok (unsealed fields)) as E.
  { unfold _load_event_line. by rewrite Hl. }
  cbn [mapM]. rewrite E, Ok_bind. by rewrite Hm.
Qed.

Lemma log_state_snoc st es e : log_state st (es ++ [e]) = next_state (log_state st es) e.
Proof. unfold log_state. by rewrite fold_left_app. Qed.

Lemma events_ok_snoc es : forall st e, events_ok st (es ++ [e]) ->
  events_ok st es /\ json_ok (JInt (log_state st es).2) = true /\ json_ok e = true.
Proof.
  induction es as [|x es IH]; intros st e; cbn [app events_ok log_state fold_left]; [tauto|].
  intros (H1 & H2 & H3). apply IH in H3. tauto.
Qed.

Lemma hashed_snoc es : forall st e, hashed st (es ++ [e]) =
  hashed st es ++ [canonical_text e; canonical_text (link (log_state st es).2 (_canonical_json_sha256 e) (log_state st es).1)].
Proof. induction es as [|x es IH]; intros st e; [done|]. cbn [app hashed log_state fold_left]. by rewrite IH. Qed.

Lemma log_state_ascii es st : isascii st.1 = true -> isascii (log_state st es).1 = true.
Proof.
  intros H. induction es as [|e es _] using rev_ind; [done|]. rewrite log_state_snoc. apply canonical_sha_ascii.
Qed.

(** Two different texts of these lists with the same hash. *)
Definition collision (l k : list (list ascii)) : Prop :=
  exists s t, In s l /\ In t k /\ s <> t /\ sha256 (string_of_list_ascii s) = sha256 (string_of_list_ascii t).

Lemma collision_incl l k l' k' : collision l k -> incl l l' -> incl k k' -> collision l' k'.
Proof. intros (s & t & H1 & H2 & H3 & H4) Hl Hk. exists s, t. auto. Qed.

(** Equal hashes: equal values up to the order of keys, or a collision. *)
Lemma same_sha a b l k : json_ok a = true -> json_ok b = true ->
  _canonical_json_sha256 a = _canonical_json_sha256 b -> In (canonical_text a) l -> In (canonical_text b) k ->
  sort_keys a = sort_keys b \/ collision l k.
Proof.
  intros Ha Hb E Hl Hk. destruct (decide (canonical_text a = canonical_text b)) as [H|H].
  - left. by apply dump_raw_injective in H; [|apply sort_keys_ok..].
  - right. by exists (canonical_text a), (canonical_text b).
Qed.

Lemma link_ok pos v prev : json_ok (JInt pos) = true -> isascii prev = true ->
  json_ok (link pos (_canonical_json_sha256 v) prev) = true.
Proof.
  intros Hp Ha. unfold link. cbn [json_ok forallb fst snd]. change (json_ok (JInt pos)) with (json_ok (JInt pos)) in Hp.
  cbn [json_ok] in Hp. by rewrite Hp, canonical_sha_ascii, Ha.
Qed.

Lemma same_head es1 : forall es2, events_ok genesis es1 -> events_ok genesis es2 ->
  (log_state genesis es1).1 = (log_state genesis es2).1 ->
  map sort_keys es1 = map sort_keys es2 \/ collision (hashed genesis es1) (hashed genesis es2).
Proof.
  assert (forall st e, (next_state st e).1 <> genesis.1) as Hg.
  { intros st e H. pose proof (sha256_text (string_of_list_ascii (canonical_text
      (link st.2 (_canonical_json_sha256 e) st.1)))) as G.
    change (sha256 _) with (next_state st e).1 in G. rewrite H in G. discriminate G. }
  induction es1 as [|e1 es1 IH] using rev_ind; intros es2 H1 H2 E.
  - destruct es2 as [|e2 es2 _] using rev_ind; [by left|]. rewrite log_state_snoc in E. by destruct (Hg _ _ (eq_sym E)).
  - destruct es2 as [|e2 es2 _] using rev_ind; [rewrite log_state_snoc in E; by destruct (Hg _ _ E)|].
    apply events_ok_snoc in H1 as (H1 & N1 & O1). apply events_ok_snoc in H2 as (H2 & N2 & O2).
    rewrite !log_state_snoc in E. rewrite !hashed_snoc, !map_app. cbn [map].
    pose proof (log_state_ascii es1 genesis eq_refl) as A1. pose proof (log_state_ascii es2 genesis eq_refl) as A2.
    set (st1 := log_state genesis es1) in *. set (st2 := log_state genesis es2) in *.
    set (r1 := hashed genesis es1) in *. set (r2 := hashed genesis es2) in *.
    cbn [next_state fst] in E. unfold record_sha in E.
    destruct (same_sha _ _ (r1 ++ [canonical_text e1; canonical_text (link st1.2 (_canonical_json_sha256 e1) st1.1)])
      (r2 ++ [canonical_text e2; canonical_text (link st2.2 (_canonical_json_sha256 e2) st2.1)])
      (link_ok _ e1 _ N1 A1) (link_ok _ e2 _ N2 A2) E) as [El|Hc]; [| |  |by right];
      [apply in_app_iff; right; right; by left|apply in_app_iff; right; right; by left|].
    assert (st1.2 = st2.2 /\ _canonical_json_sha256 e1 = _canonical_json_sha256 e2 /\ st1.1 = st2.1) as (_ & Es & Ep).
    { unfold link in El. cbn [sort_keys map fst snd] in El. 
      change (py_sorted key_leb ?l) with l in El. by injection El. }
    destruct (same_sha e1 e2 (r1 ++ [canonical_text e1; canonical_text (link st1.2 (_canonical_json_sha256 e1) st1.1)])
      (r2 ++ [canonical_text e2; canonical_text (link st2.2 (_canonical_json_sha256 e2) st2.1)]) O1 O2 Es) as [Ee|Hc];
      [apply in_app_iff; right; by left|apply in_app_iff; right; by left| |by right].
    destruct (IH es2 H1 H2 Ep) as [Em|Hc]; [left; by rewrite Em, Ee|right].
    eapply collision_incl; [exact Hc|apply incl_appl, incl_refl|apply incl_appl, incl_refl].
Qed.

#[local] Transparent _canonical_json_sha256.

(** ** Properties *)

(** C3: the store is an append-only log as long as no write is torn.  Whatever
    sequence of calls, by any process, works on a sealed store, where every call
    has a valid event whose primitives have a text, and every write is complete
    or refused before a byte is written, each call has the outcome the
    specification gives it (the event recorded; reported as there already;
    refused, with the file unchanged), the file holds exactly the accepted
    events behind the old ones, verification succeeds and returns the hash of
    the last record, and no other file changes.  A write that breaks off half
    way is excluded: [torn_record_spoils_the_log] shows that the file may then
    verify no more. *)
Theorem audit_refines_log s cs fs es :
  tamper_evident s = true -> blank (path s) = false -> legacy_ok s fs -> holds s fs es ->
  Forall (fun c => call_ok c.1 c.2) cs -> Z.of_nat (length es + length cs) + 1 < maximum_records ->
  let '(os, fs') := run_calls s (map fst cs) fs in
  let '(os', es') := spec_calls s cs es in
  os = os' /\ holds s fs' es' /\ (exists new, es' = es ++ new) /\
  verify_chain s fs' = Ok (log_state genesis es').1 /\
  forall p, p <> path s -> fs' !! p = fs !! p.
Proof.
  intros Hs Hp Hl Hh Hok Hn. pose proof (run_calls_spec s Hs Hp cs fs es Hok Hl Hh Hn) as H.
  destruct (run_calls s (map fst cs) fs) as [os fs'], (spec_calls s cs es) as [os' es'].
  destruct H as (-> & Hh' & Hl' & Hf & new & -> & L). split_and!; try done; [by exists new|].
  unfold verify_chain. by rewrite (chain_state_log s (path s) fs' (es ++ new)) by (done || rewrite length_app; lia).
Qed.

(** C6: tampering shows.  Two files that both verify to the same last hash
    record the same events in the same order, up to the order of keys, unless
    two different texts hashed on the way have the same SHA-256. *)
Theorem audit_tamper_evident c1 c2 h n1 n2 :
  verify_content c1 = Ok (h, n1) -> verify_content c2 = Ok (h, n2) ->
  exists es1 es2, recorded_events c1 = Ok es1 /\ recorded_events c2 = Ok es2 /\
    (map sort_keys es1 = map sort_keys es2 \/ collision (hashed genesis es1) (hashed genesis es2)).
Proof.
  intros (es1 & M1 & E1 & O1)%verify_lines_inv (es2 & M2 & E2 & O2)%verify_lines_inv.
  exists es1, es2. split; [exact M1|]. split; [exact M2|]. apply same_head; [exact O1|exact O2|].
  apply (f_equal fst) in E1, E2. cbn [fst] in E1, E2. unfold genesis. congruence.
Qed.

(** C16: nothing under a credential's key is written.  In what the redactor
    returns, a place below a sensitive key holds nothing but the redaction
    mark, and only at the key itself; every other place has what it had. *)
Theorem redaction_exact j p :
  match at_path p (redact j) with
  | Some x =>
      if existsb sensitive_step p
      then x = JStr REDACTED /\ exists p1 k, p = p1 ++ [Key k] /\ _is_sensitive k = true
      else exists y, at_path p j = Some y /\ x = redact y
  | None => existsb sensitive_step p = false -> at_path p j = None
  end.
Proof.
  destruct (existsb sensitive_step p) eqn:E.
  - destruct (first_sensitive p E) as (p1 & k & q & -> & H1 & Hk). rewrite redacted_path by done.
    destruct (at_path (p1 ++ [Key k]) j); [|done]. destruct q; [|done]. split; [done|]. by exists p1, k.
  - rewrite redact_path by done. destruct (at_path p j) as [y|]; [|done]. by exists y.
Qed.

(** Reading the last line in blocks from the end of the file gives what
    reading the whole file gives: the text after the last newline once trailing
    white space is dropped, if there is one and it is within the bound. *)
Theorem last_line_exact chunk maximum c : (0 < chunk)%nat -> 0 <= maximum ->
  _read_last_nonempty_line chunk maximum c =
  let line := fst (after_newline (rstrip c)) in
  if is_nil (rstrip c) || (maximum <? Z.of_nat (length line)) then Raise OSError else Ok line.
Proof.
  intros Hc Hm. rewrite read_last_exact by done. cbv zeta. by destruct (is_nil (rstrip c)).
Qed.

Lemma identity_of_body e b : body e = Ok b -> identity_of b = b.
Proof. intros (ps & ->)%body_Ok. reflexivity. Qed.

Lemma same_identity_body e b : body e = Ok b -> json_ok b = true -> same_identity e b = true.
Proof.
  intros (ps & ->)%body_Ok H. unfold same_identity. cbn [body_items get_field dict_get].
  assert (get_field "event_type" (body_items e (redact ps)) = JStr (event_type e)) as -> by reflexivity.
  assert (get_field "snapshot_id" (body_items e (redact ps)) = opt_json (snapshot_id e)) as -> by reflexivity.
  cbn [py_eqb]. rewrite String.eqb_refl. unfold opt_json. destruct (snapshot_id e) as [i|]; [|done].
  apply String.eqb_refl.
Qed.

Lemma find_snoc {A} (f : A -> bool) l x : List.find f l = None -> f x = true -> List.find f (l ++ [x]) = Some x.
Proof.
  induction l as [|y l IH]; cbn; [by intros _ ->|]. destruct (f y); [done|]. exact IH.
Qed.

(** An idempotent append records an event once.  After one call has
    recorded it, every repetition of the call reports that it is there already
    and leaves every file as it is. *)
Theorem audit_append_once s e b out out' fs es fs1 :
  tamper_evident s = true -> blank (path s) = false -> legacy_ok s fs -> holds s fs es ->
  call_ok (AppendVerifiedIdempotent, e, out) b -> call_ok (AppendVerifiedIdempotent, e, out') b ->
  Z.of_nat (length es) + 2 < maximum_records ->
  run_call s (AppendVerifiedIdempotent, e, out) fs = (Recorded, fs1) ->
  run_call s (AppendVerifiedIdempotent, e, out') fs1 = (AlreadyThere, fs1).
Proof.
  intros Hs Hp Hl Hh H1 H2 Hn Hrun.
  pose proof (run_call_spec s Hs Hp _ b fs es H1 Hl Hh ltac:(lia)) as G1. rewrite Hrun in G1.
  destruct H1 as (_ & Hb & Hj & _). cbn [spec_call] in G1.
  destruct (List.find (same_identity e) es) as [old|] eqn:Ef.
  { destruct (py_eqb (identity_of old) b); by destruct G1. }
  destruct (_ || _); [by destruct G1|]. destruct G1 as (_ & Hh1 & Hl1 & Hf1).
  pose proof (run_call_spec s Hs Hp _ b fs1 (es ++ [b]) H2 Hl1 Hh1 ltac:(rewrite length_app; cbn; lia)) as G2.
  cbn [spec_call] in G2.
  rewrite (find_snoc _ _ _ Ef (same_identity_body e b Hb Hj)), (identity_of_body e b Hb), (py_eqb_refl b Hj) in G2.
  destruct (run_call s (AppendVerifiedIdempotent, e, out') fs1) as [o fs2]. destruct G2 as (-> & Hh2 & _ & Hf2).
  f_equal. apply map_eq. intros p. destruct (decide (p = path s)) as [->|Hne]; [|by apply Hf2].
  destruct Hh1 as [C1 _], Hh2 as [C2 _]. rewrite <- C1 in C2.
  assert (forall f : files, default [] (f !! path s) = log_text (es ++ [b]) -> f !! path s = Some (log_text (es ++ [b]))) as G.
  { intros f Hf. destruct (f !! path s) as [c|]; [by f_equal|]. symmetry in Hf. apply log_text_nil in Hf.
    by destruct es. }
  rewrite (G fs2), (G fs1); congruence.
Qed.

(** ** Examples and witnesses *)

Definition ex_store : JsonlAuditStore := mk_store "audit.jsonl" true true 4096 None None.

Definition ex_event (id : string) (n : Z) : AuditEvent :=
  mk_audit_event "ORDER_PLACED" (utc (seconds n)) [("qty", VDecimal (Finite (lit 1 1))); ("api_key", VStr "k")]
    (Some id) "1.0".

Definition ex_body (id : string) (n : Z) : json :=
  match body (ex_event id n) with Ok b => b | Raise _ => JNull end.

Definition ex_calls : list (audit_call * json) :=
  [ ((Append, ex_event "a" 1, Written), ex_body "a" 1);
    ((AppendVerified, ex_event "b" 2, Refused), ex_body "b" 2);
    ((AppendVerifiedIdempotent, ex_event "a" 1, Written), ex_body "a" 1);
    ((AppendVerifiedIdempotent, ex_event "a" 3, Written), ex_body "a" 3);
    ((AppendVerified, ex_event "b" 2, Written), ex_body "b" 2) ].

Lemma ex_calls_ok : Forall (fun c => call_ok c.1 c.2) ex_calls.
Proof. repeat constructor; vm_compute; reflexivity. Qed.

Lemma ex_legacy fs : legacy_ok ex_store fs.
Proof. exact I. Qed.

Lemma ex_call_ok : call_ok (AppendVerifiedIdempotent, ex_event "a" 1, Written) (ex_body "a" 1).
Proof. repeat split; vm_compute; reflexivity. Qed.

Lemma ex_holds : holds ex_store ∅ [].
Proof. split; reflexivity. Qed.

(** The outcomes of the five calls. *)
Example ex_outcomes : fst (spec_calls ex_store ex_calls []) =
  [Recorded; Failed OSError; AlreadyThere; Failed (ValueError "JSONL_AUDIT_IDEMPOTENCY_CONFLICT"); Recorded].
Proof. vm_compute. reflexivity. Qed.

Lemma audit_refines_log_witness :
  fst (run_calls ex_store (map fst ex_calls) ∅) = fst (spec_calls ex_store ex_calls []).
Proof.
  pose proof (audit_refines_log ex_store ex_calls ∅ [] eq_refl eq_refl (ex_legacy ∅) ex_holds ex_calls_ok
    ltac:(vm_compute; reflexivity)) as H.
  destruct (run_calls ex_store (map fst ex_calls) ∅), (spec_calls ex_store ex_calls []).
  exact (proj1 H).
Defined.

Definition ex_text : list ascii := log_text [ex_body "a" 1].
Definition ex_state : string * Z := log_state genesis [ex_body "a" 1].

Lemma ex_text_verifies : verify_content ex_text = Ok (ex_state.1, ex_state.2).
Proof. vm_compute. reflexivity. Qed.

Lemma audit_tamper_evident_witness : exists es, recorded_events ex_text = Ok es.
Proof.
  destruct (audit_tamper_evident ex_text ex_text ex_state.1 ex_state.2 ex_state.2 ex_text_verifies ex_text_verifies)
    as (es & _ & H & _). exists es. exact H.
Defined.

Lemma last_line_exact_witness :
  _read_last_nonempty_line 2 5 (list_ascii_of_string "ab" ++ [newline; "c"%char; "d"%char; newline]) =
  Ok ["c"%char; "d"%char].
Proof. rewrite last_line_exact; [reflexivity|lia|lia]. Defined.

Definition ex_once : audit_call := (AppendVerifiedIdempotent, ex_event "a" 1, Written).
Definition ex_after : files := snd (run_call ex_store ex_once ∅).

Lemma ex_once_run : run_call ex_store ex_once ∅ = (Recorded, ex_after).
Proof.
  unfold ex_after. pose proof (run_call_spec ex_store eq_refl eq_refl ex_once (ex_body "a" 1) ∅ [] ex_call_ok
    (ex_legacy ∅) ex_holds ltac:(vm_compute; reflexivity)) as H.
  assert (spec_call ex_store ex_once (ex_body "a" 1) [] = (Recorded, [ex_body "a" 1])) as E by (vm_compute; reflexivity).
  rewrite E in H. destruct (run_call ex_store ex_once ∅) as [o fs]. by destruct H as (-> & _).
Qed.

Lemma audit_append_once_witness : run_call ex_store ex_once ex_after = (AlreadyThere, ex_after).
Proof.
  apply (audit_append_once ex_store (ex_event "a" 1) (ex_body "a" 1) Written Written ∅ [] ex_after eq_refl eq_refl
    (ex_legacy ∅) ex_holds ex_call_ok ex_call_ok); [vm_compute; reflexivity|exact ex_once_run].
Defined.

(** A write broken off between a record and its newline is not noticed: the
    file still verifies, the next append succeeds, and from then on the file is
    refused. *)
Definition ex_torn : files :=
  snd (run_call ex_store (Append, ex_event "a" 1, BrokenOff (length (line_of genesis (ex_body "a" 1)))) ∅).

Lemma torn_record_spoils_the_log :
  fst (run_call ex_store (Append, ex_event "a" 1, BrokenOff (length (line_of genesis (ex_body "a" 1)))) ∅) = Failed OSError /\
  is_ok (verify_chain ex_store ex_torn) = true /\
  fst (run_call ex_store (Append, ex_event "b" 2, Written) ex_torn) = Recorded /\
  verify_chain ex_store (snd (run_call ex_store (Append, ex_event "b" 2, Written) ex_torn)) =
    Raise (ValueError "JSONL_AUDIT_TAMPER_EVIDENT_CHAIN_INVALID").
Proof. split_and!; vm_compute; reflexivity. Qed.
