(* ===== verification/AuditSuccessor.v ===== *)
(** [storage/jsonl.py], continued: the sealed successor of a legacy audit file,
    the anchor that binds it to the legacy bytes, and the approved recovery after
    those bytes changed.

    The clock, and what the operating system does with each write and with the
    replacement of the receipt, are arguments of the calls.  A path is its folder
    and its name; the names are texts of the platform without a NUL. *)
From stdpp Require Import gmap strings.
From S2P Require Import Prelude PyDecimal DecimalFacts DecimalText Sha256 PyText JsonText IsoTime Serialize JsonIndent PosixPath AuditLog.
Local Open Scope Z_scope.
Local Open Scope bool_scope.

(** [try: m except ...: h] around calls that change files *)
Definition try_files {A} (m : method files A) (p : exn -> bool) (h : method files A) : method files A := fun fs =>
  match m fs with
  | (Raise e, fs') => if p e then h fs' else (Raise e, fs')
  | r => r
  end.

(** ** The anchor *)

Definition _DEFAULT_MAX_EVENT_BYTES : Z := 8 * 1024 * 1024.

(** [cls(path, tamper_evident=True)] *)
Definition sealed_store (p : Path) : res JsonlAuditStore :=
  new_store (path_text p) false true _DEFAULT_MAX_EVENT_BYTES.

(** [stream.readline(size)] *)
Definition readline (size : Z) (c : list ascii) : list ascii := firstn (Z.to_nat size) (hd [] (raw_lines c)).

(** The first record of the store's file. *)
Definition first_event (s : JsonlAuditStore) (fs : files) : res (list (string * json)) :=
  match fs !! path s with
  | None => Raise OSError
  | Some c => _load_event_line (readline (max_event_bytes s + 1) c) "audit anchor"
  end.

Definition anchor_payload (legacy : Path) (legacy_sha : option string) : list (string * json) :=
  [("legacy_filename", JStr (name legacy)); ("legacy_sha256", opt_json legacy_sha);
   ("historical_authenticity_verified", JBool false)].

Definition anchor_event (legacy : Path) (legacy_sha : option string) (now : datetime) : AuditEvent :=
  mk_audit_event "LEGACY_AUDIT_ANCHOR" now
    [("legacy_filename", VStr (name legacy));
     ("legacy_sha256", match legacy_sha with Some h => VStr h | None => VNone end);
     ("historical_authenticity_verified", VBool false)]
    (Some "legacy-audit-anchor") "1.0".

Definition is_anchor (fields : list (string * json)) : bool :=
  py_eqb (get_field "event_type" fields) (JStr "LEGACY_AUDIT_ANCHOR").

Definition MISMATCH : exn := ValueError "JSONL_AUDIT_LEGACY_ANCHOR_MISMATCH".

(** [_anchored_successor] *)
Definition _anchored_successor (legacy successor : Path) (legacy_sha : option string) (now : datetime)
  (out : write_outcome) : method files JsonlAuditStore :=
  fresh ← lift (sealed_store successor);
  let s := mk_store (path fresh) (durable fresh) (tamper_evident fresh) (max_event_bytes fresh)
             (Some (path_text legacy)) legacy_sha in
  fs ← get;
  state ← lift (_chain_state_or_fail s "legacy-audit-anchor" fs);
  (if state.2 =? 1 then
     event ← lift (new_audit_event (anchor_event legacy legacy_sha now));
     line ← lift (_render s event _GENESIS_RECORD_HASH 1);
     _append_line s line out
   else
     anchor ← lift (first_event s fs);
     lift (raise_if (negb (is_anchor anchor)
                     || negb (py_eqb (get_field "payload" anchor) (JObj (anchor_payload legacy legacy_sha)))) MISMATCH));;
  mret s.

(** ** The recovery receipt *)

(** [_recovery_receipt_path] *)
Definition _recovery_receipt_path (legacy : Path) : res Path := with_name legacy (stem legacy ++ ".audit-recovery.json")%string.

(** [_read_recovery_receipt] *)
Definition _read_recovery_receipt (legacy : Path) (fs : files) : res (option (list (string * json))) :=
  p ← _recovery_receipt_path legacy;
  match fs !! path_text p with
  | None => mret None
  | Some c =>
      if 16384 <? Z.of_nat (length c) then mret None
      else
        payload ← catch (loads c) (fun e => match e with ValueError m => String.eqb m "JSONDecodeError" | _ => false end)
                    (fun _ => mret JNull);
        mret (match payload with JObj fields => Some fields | _ => None end)
  end.

Definition is_false (j : json) : bool := match j with JBool b => negb b | _ => false end.

(** [_recovery_receipt_matches] *)
Definition _recovery_receipt_matches (receipt : list (string * json)) (legacy primary : Path) (legacy_sha : option string)
  (fs : files) : res bool :=
  match get_field "successor_filename" receipt with
  | JStr successor =>
      if negb (is_filename successor) then mret false
      else
        expected ← with_name legacy successor;
        mret (py_eqb (get_field "schema_version" receipt) (JInt 1)
          && py_eqb (get_field "status" receipt) (JStr "LEGACY_AUDIT_RECOVERY_APPROVED")
          && py_eqb (get_field "legacy_filename" receipt) (JStr (name legacy))
          && py_eqb (get_field "current_legacy_sha256" receipt) (opt_json legacy_sha)
          && py_eqb (get_field "primary_successor_filename" receipt) (JStr (name primary))
          && py_eqb (get_field "primary_successor_sha256" receipt) (opt_json (_file_sha256_or_none (path_text primary) fs))
          && String.eqb (folder expected) (folder legacy)
          && String.eqb (name expected) successor
          && is_false (get_field "historical_authenticity_verified" receipt)
          && is_false (get_field "execution_allowed" receipt)
          && py_eqb (get_field "live_eligibility_status" receipt) (JStr "LIVE_ORDER_BLOCKED"))
  | _ => mret false
  end.

(** [json.dumps(receipt, ensure_ascii=True, sort_keys=True, indent=2)], of an
    object whose values are not containers *)
Definition dump_indented (l : list (string * json)) : list ascii :=
  dump_indent escape_char 2 0 (JObj (py_sorted key_leb l)).

(** [_write_recovery_receipt]; [replaced] tells whether [os.replace] succeeded,
    and the temporary file is removed whatever happens. *)
Definition _write_recovery_receipt (legacy : Path) (receipt : list (string * json)) (out : write_outcome)
  (replaced : bool) : method files unit :=
  p ← lift (_recovery_receipt_path legacy);
  let expected := dump_indented receipt ++ [newline] in
  fs ← get;
  match fs !! path_text p with
  | Some _ =>
      current ← lift (_read_recovery_receipt legacy fs);
      lift (raise_if (match current with Some c => negb (py_eqb (JObj c) (JObj receipt)) | None => true end)
              (ValueError "JSONL_AUDIT_RECOVERY_RECEIPT_CONFLICT"))
  | None =>
      temporary ← lift (with_suffix p (suffix p ++ ".tmp"));
      match out, replaced with
      | Written, true => modify (fun fs => delete (path_text temporary) (<[path_text p := expected]> fs))
      | _, _ => modify (delete (path_text temporary));; lift (Raise OSError)
      end
  end.

(** ** Opening and recovering *)

(** [chained_successor] *)
Definition chained_successor (legacy : Path) (now : datetime) (out : write_outcome) : method files JsonlAuditStore :=
  fs ← get;
  let legacy_sha := _file_sha256_or_none (path_text legacy) fs in
  primary ← lift (with_suffix legacy ".chained.jsonl");
  try_files (_anchored_successor legacy primary legacy_sha now out)
    (fun e => match e with ValueError m => String.eqb m "JSONL_AUDIT_LEGACY_ANCHOR_MISMATCH" | _ => false end)
    (fs ← get;
     recovery ← lift (_read_recovery_receipt legacy fs);
     match recovery with
     | None => lift (Raise MISMATCH)
     | Some receipt =>
         matches ← lift (_recovery_receipt_matches receipt legacy primary legacy_sha fs);
         lift (raise_if (negb matches) MISMATCH);;
         successor ← lift (match get_field "successor_filename" receipt with
                           | JStr t => with_name legacy t
                           | _ => Raise (Unmodelled "a matching receipt names its successor")
                           end);
         _anchored_successor legacy successor legacy_sha now out
     end).

Definition receipt_fields (legacy : Path) (previous : string) (current : option string) (primary : Path)
  (primary_sha : string) (successor : Path) (recovered_at : datetime) : list (string * json) :=
  [("schema_version", JInt 1); ("status", JStr "LEGACY_AUDIT_RECOVERY_APPROVED"); ("legacy_filename", JStr (name legacy));
   ("previous_legacy_sha256", JStr previous); ("current_legacy_sha256", opt_json current);
   ("primary_successor_filename", JStr (name primary)); ("primary_successor_sha256", JStr primary_sha);
   ("successor_filename", JStr (name successor)); ("recovered_at", JStr (isoformat recovered_at));
   ("historical_authenticity_verified", JBool false); ("execution_allowed", JBool false);
   ("live_eligibility_status", JStr "LIVE_ORDER_BLOCKED")].

(** The name of the successor of a recovery. *)
Definition recovery_name (legacy : Path) (current : option string) : string :=
  (stem legacy ++ ".recovery-" ++ match current with Some h => String.substring 0 16 h | None => "absent" end
   ++ ".chained.jsonl")%string.

(** [recover_chained_successor] *)
Definition recover_chained_successor (legacy : Path) (recovered_at now : datetime) (receipt_out : write_outcome)
  (replaced : bool) (anchor_out : write_outcome) : method files JsonlAuditStore :=
  fs ← get;
  let legacy_sha := _file_sha256_or_none (path_text legacy) fs in
  primary_path ← lift (with_suffix legacy ".chained.jsonl");
  primary ← lift (sealed_store primary_path);
  state ← lift (_chain_state_or_fail primary "legacy-audit-recovery" fs);
  lift (raise_if (state.2 =? 1) (ValueError "JSONL_AUDIT_RECOVERY_PRIMARY_ANCHOR_MISSING"));;
  anchor ← lift (first_event primary fs);
  lift (raise_if (negb (is_anchor anchor)) (ValueError "JSONL_AUDIT_RECOVERY_PRIMARY_ANCHOR_INVALID"));;
  previous ← lift (match get_field "payload" anchor with
                   | JObj payload =>
                       match get_field "legacy_sha256" payload with
                       | JStr h => mret h
                       | _ => Raise (ValueError "JSONL_AUDIT_RECOVERY_PRIMARY_ANCHOR_INVALID")
                       end
                   | _ => Raise (ValueError "JSONL_AUDIT_RECOVERY_PRIMARY_ANCHOR_INVALID")
                   end);
  lift (raise_if (bool_decide (Some previous = legacy_sha)) (ValueError "JSONL_AUDIT_RECOVERY_NOT_REQUIRED"));;
  primary_sha ← lift (match _file_sha256_or_none (path_text primary_path) fs with
                      | Some h => mret h
                      | None => Raise (ValueError "JSONL_AUDIT_RECOVERY_PRIMARY_MISSING")
                      end);
  successor ← lift (with_name legacy (recovery_name legacy legacy_sha));
  existing ← lift (_read_recovery_receipt legacy fs);
  matched ← lift (match existing with
                  | Some receipt => _recovery_receipt_matches receipt legacy primary_path legacy_sha fs
                  | None => mret false
                  end);
  (if (matched : bool) then mret tt
   else _write_recovery_receipt legacy
          (receipt_fields legacy previous legacy_sha primary_path primary_sha successor recovered_at) receipt_out replaced);;
  _anchored_successor legacy successor legacy_sha now anchor_out.

(** ** The text of a receipt *)

(** The order of the keys does not matter. *)
Lemma json_ok_perm l k : Permutation l k -> json_ok (JObj l) = json_ok (JObj k).
Proof.
  intros H. cbn [json_ok]. rewrite (forallb_perm _ _ _ H). f_equal. apply all_unique_perm. by rewrite H.
Qed.

Lemma loads_indented l : json_ok (JObj l) = true ->
  loads (dump_indented l ++ [newline]) = Ok (JObj (py_sorted key_leb l)).
Proof.
  intros Hok. apply loads_indent_ascii; [|done]. by rewrite (json_ok_perm _ _ (py_sorted_perm key_leb l)).
Qed.

(** ** Anchored stores *)

(** The store of a successor. *)
Definition store_for (legacy successor : Path) (legacy_sha : option string) : JsonlAuditStore :=
  mk_store (path_text successor) true true _DEFAULT_MAX_EVENT_BYTES (Some (path_text legacy)) legacy_sha.

(** Its file verifies and begins with the anchor of these legacy bytes. *)
Definition anchored (s : JsonlAuditStore) (legacy : Path) (legacy_sha : option string) (fs : files) : Prop :=
  exists st fields, (forall subject, _chain_state_or_fail s subject fs = Ok st) /\ st.2 <> 1
    /\ first_event s fs = Ok fields /\ is_anchor fields = true
    /\ py_eqb (get_field "payload" fields) (JObj (anchor_payload legacy legacy_sha)) = true.

Lemma sealed_store_Ok p : sealed_store p = Ok (mk_store (path_text p) true true _DEFAULT_MAX_EVENT_BYTES None None).
Proof. reflexivity. Qed.

(** The reason a chain is asked for does not change what it is. *)
Lemma chain_state_subject s subject subject' fs st :
  _chain_state_or_fail s subject fs = Ok st -> _chain_state_or_fail s subject' fs = Ok st.
Proof.
  unfold _chain_state_or_fail. set (m := _;; _). destruct m as [x|e]; [done|]. cbn [catch].
  by destruct (is_chain_error e).
Qed.

Lemma chain_state_inv s subject fs st : tamper_evident s = true -> _chain_state_or_fail s subject fs = Ok st ->
  match _legacy_path s with Some p => _file_sha256_or_none p fs = _legacy_sha256 s | None => True end
  /\ _verify_chain_state_unlocked s fs = Ok st.
Proof.
  intros Ht. unfold _chain_state_or_fail. intros H.
  apply catch_Ok in H as [H|(e & _ & _ & H)]; [|discriminate].
  apply bind_Ok in H as (u & Hu & H). apply raise_if_Ok in Hu. rewrite Ht in H. split; [|done].
  destruct (_legacy_path s); [|done]. by apply negb_false_iff, bool_decide_eq_true in Hu.
Qed.


(** The position is 1 exactly as long as nothing is recorded. *)
Lemma position_one s fs st : _verify_chain_state_unlocked s fs = Ok st -> st.2 = 1 -> default [] (fs !! path s) = [].
Proof.
  unfold _verify_chain_state_unlocked. destruct (fs !! path s) as [c|]; [|done]. cbn. unfold verify_content.
  intros (es & Hm & -> & _)%verify_lines_inv Hp. rewrite log_state_position in Hp. cbn in Hp.
  destruct es as [|e es]; [|cbn in Hp; lia]. destruct c as [|x c]; [done|]. exfalso.
  assert (raw_lines (x :: c) <> []) as Hr.
  { unfold raw_lines. assert (forall l acc, acc <> [] -> raw_lines_from acc l <> []) as G.
    { induction l as [|y l IH]; intros acc Ha; cbn; [by destruct acc|].
      destruct (Ascii.eqb y _); [discriminate|]. by apply IH. }
    cbn [raw_lines_from]. destruct (Ascii.eqb x _); [discriminate|]. by apply G. }
  destruct (raw_lines (x :: c)) as [|r rs]; [done|]. cbn [mapM] in Hm.
  apply bind_Ok in Hm as (? & _ & Hm). apply bind_Ok in Hm as (? & _ & Hm). discriminate.
Qed.

Section Anchors.

Context (legacy successor : Path) (legacy_sha : option string).
Context (Hname : isascii (name legacy) = true)
        (Hsha : match legacy_sha with Some h => isascii h | None => true end = true).
Context (Hother : path_text legacy <> path_text successor).

Local Notation s := (store_for legacy successor legacy_sha).

Definition anchor_body (now : datetime) : json :=
  JObj (body_items (anchor_event legacy legacy_sha now)
    (JObj [("historical_authenticity_verified", JBool false); ("legacy_filename", JStr (name legacy));
           ("legacy_sha256", opt_json legacy_sha)])).

Lemma anchor_body_Ok now : body (anchor_event legacy legacy_sha now) = Ok (anchor_body now).
Proof using. clear. unfold body, anchor_body. rewrite event_primitive. by destruct legacy_sha. Qed.

Lemma anchor_body_ok now : json_ok (anchor_body now) = true.
Proof using Hname Hsha.
  cbn [anchor_body body_items json_ok forallb fst snd anchor_event event_type timestamp snapshot_id schema_version opt_json].
  rewrite isoformat_ascii, Hname. by destruct legacy_sha; cbn; rewrite ?Hsha.
Qed.

(** The first record as it is read back. *)
Lemma anchor_recorded now :
  let fields := match anchor_body now with JObj l => l | _ => [] end in
  is_anchor (record_fields genesis fields) = true
  /\ py_eqb (get_field "payload" (record_fields genesis fields)) (JObj (anchor_payload legacy legacy_sha)) = true.
Proof using Hname Hsha.
  pose proof (body_recordable _ _ (anchor_body_Ok now) (anchor_body_ok now)) as Hr.
  pose proof (anchor_body_ok now) as Hj. unfold anchor_body in *. set (fields := body_items _ _) in *. cbv zeta.
  unfold is_anchor. rewrite !get_recorded by (done || cbn; tauto). rewrite !py_eqb_sort by by apply forallb_get.
  split; [reflexivity|]. cbn. rewrite String.eqb_refl. destruct legacy_sha; cbn; [by rewrite String.eqb_refl|done].
Qed.

(** The anchor written into an empty file. *)
Lemma anchor_written now fs :
  legacy_ok s fs -> default [] (fs !! path_text successor) = [] ->
  Z.of_nat (length (line_of genesis (anchor_body now))) <= _DEFAULT_MAX_EVENT_BYTES ->
  anchored s legacy legacy_sha (append_to (path_text successor) (line_of genesis (anchor_body now) ++ [newline]) fs).
Proof using Hname Hsha.
  intros Hl Hc Hm. pose proof (body_recordable _ _ (anchor_body_Ok now) (anchor_body_ok now)) as Hr.
  assert (holds s fs []) as Hh by (split; [exact Hc|done]).
  apply (holds_append s fs [] (anchor_body now)) in Hh; [|done]. cbn [app] in Hh.
  change (log_state genesis []) with genesis in Hh. change (path s) with (path_text successor) in Hh.
  apply (legacy_append s fs (line_of genesis (anchor_body now) ++ [newline])) in Hl. change (path s) with (path_text successor) in Hl.
  set (fs' := append_to _ _ fs) in *.
  exists (log_state genesis [anchor_body now]), (record_fields genesis (match anchor_body now with JObj l => l | _ => [] end)).
  split; [intros subject; apply (chain_state_log s subject fs' [anchor_body now]); [done|done|done|unfold maximum_records; cbn; lia]|].
  split; [done|]. split; [|apply anchor_recorded].
  unfold first_event. change (path s) with (path_text successor). unfold fs'. rewrite append_to_lookup, Hc.
  change ([] ++ ?l) with l. unfold readline.
  assert (hd [] (raw_lines (line_of genesis (anchor_body now) ++ [newline])) = line_of genesis (anchor_body now) ++ [newline]) as ->.
  { pose proof (raw_lines_log [anchor_body now]) as E. unfold log_text, lines_text in E. cbn [log_lines flat_map map] in E.
    rewrite app_nil_r in E. by rewrite E. }
  rewrite firstn_all2.
  2: { rewrite length_app. change (max_event_bytes s) with _DEFAULT_MAX_EVENT_BYTES. cbn [length].
       unfold _DEFAULT_MAX_EVENT_BYTES in *. lia. }
  unfold _load_event_line. unfold anchor_body in *. by rewrite record_loads.
Qed.


Lemma new_audit_event_id e e' : new_audit_event e = Ok e' -> e' = e.
Proof using. unfold new_audit_event. intros H. do 3 (apply bind_Ok in H as (? & _ & H)). by apply mret_Ok in H. Qed.

Lemma render_anchor now :
  _render s (anchor_event legacy legacy_sha now) _GENESIS_RECORD_HASH 1 = Ok (line_of genesis (anchor_body now)).
Proof using Hname Hsha.
  apply (render_line s _ _ genesis); [done|apply anchor_body_Ok|apply anchor_body_ok].
Qed.

(** A write that succeeds was complete. *)
Lemma append_line_Ok st line out fs u fs' : _append_line st line out fs = (Ok u, fs') ->
  Z.of_nat (length line) <= max_event_bytes st /\ fs' = append_to (path st) (line ++ [newline]) fs.
Proof using.
  unfold _append_line. rewrite lift_raise_if_bind. destruct (Z.ltb_spec (max_event_bytes st) (Z.of_nat (length line))); [discriminate|].
  destruct out; [discriminate|rewrite modify_bind; discriminate|]. intros Hw. split; [done|]. by apply (f_equal snd) in Hw.
Qed.

(** Opening succeeds only on an anchored store, with at most the anchor written. *)
Lemma anchored_inv now out fs s' fs' :
  _anchored_successor legacy successor legacy_sha now out fs = (Ok s', fs') ->
  s' = s /\ anchored s legacy legacy_sha fs' /\ (fs' = fs \/ exists t, fs' = append_to (path_text successor) t fs).
Proof using Hname Hsha Hother.
  unfold _anchored_successor. rewrite lift_bind, sealed_store_Ok. cbv zeta. rewrite get_bind, lift_bind.
  change (mk_store _ _ _ _ _ _) with s.
  destruct (_chain_state_or_fail s "legacy-audit-anchor" fs) as [st|] eqn:Hst; [|discriminate]. intros H.
  apply method_bind_Ok in H as (u & fs1 & H & Hs). rewrite mret_run in Hs. injection Hs as <- <-. split; [done|].
  destruct (Z.eqb_spec st.2 1) as [Hp|Hp].
  - rewrite lift_bind in H. destruct (new_audit_event _) as [e|] eqn:He; [|discriminate]. apply new_audit_event_id in He as ->.
    rewrite lift_bind, render_anchor in H.
    apply append_line_Ok in H as (Hm & ->). apply chain_state_inv in Hst as (Hl & Hv); [|done].
    pose proof (position_one _ _ _ Hv Hp) as Hc.
    assert (path s = path_text successor) as Ep by done. rewrite Ep in Hc |- *.
    split; [|right; by eexists]. by apply anchor_written.
  - rewrite lift_bind in H. destruct (first_event s fs) as [fields|] eqn:Hf; [|discriminate].
    apply lift_Ok in H as (H & ->). apply raise_if_Ok, orb_false_iff in H as (Ha & Hy). rewrite negb_false_iff in Ha, Hy.
    split; [|by left]. exists st, fields. split; [|done]. intros subject. by eapply chain_state_subject.
Qed.



End Anchors.



(** ** The files beside a legacy file *)

Lemma substring_firstn n s : list_ascii_of_string (String.substring 0 n s) = firstn n (list_ascii_of_string s).
Proof. revert n. induction s as [|c s IH]; intros [|n]; cbn; [done..|]. by rewrite IH. Qed.

Lemma hex_no_slash l : forallb is_hex_lower l = true -> existsb (Ascii.eqb slash) l = false.
Proof.
  intros H. apply not_true_iff_false. intros (c & Hin & Hc)%existsb_exists. apply Ascii.eqb_eq in Hc as <-.
  rewrite forallb_forall in H. by specialize (H _ Hin).
Qed.

Lemma file_sha_hex p fs h : _file_sha256_or_none p fs = Some h -> is_sha256_text h = true.
Proof. unfold _file_sha256_or_none. destruct (fs !! p) as [c|]; [|done]. intros [= <-]. apply sha256_text. Qed.

Lemma file_sha_ascii p fs : match _file_sha256_or_none p fs with Some h => isascii h | None => true end = true.
Proof. unfold _file_sha256_or_none. destruct (fs !! p) as [c|]; [|done]. cbn [fmap option_fmap option_map]. apply sha256_ascii. Qed.

Definition hex_or_none (o : option string) : Prop := match o with Some h => is_sha256_text h = true | None => True end.

Lemma file_sha_ok p fs : hex_or_none (_file_sha256_or_none p fs).
Proof. destruct (_file_sha256_or_none p fs) as [h|] eqn:E; [|done]. exact (file_sha_hex _ _ _ E). Qed.

Definition recovery_tag (current : option string) : string :=
  (".recovery-" ++ match current with Some h => String.substring 0 16 h | None => "absent" end ++ ".chained.jsonl")%string.

Lemma recovery_tag_dotted current : hex_or_none current -> dotted (recovery_tag current).
Proof.
  intros H. set (x := match current with Some h => String.substring 0 16 h | None => "absent" end).
  assert (str_contains_char slash x = false) as Hx.
  { unfold x. destruct current as [h|]; [|done]. unfold str_contains_char. rewrite substring_firstn. apply hex_no_slash.
    cbn in H. unfold is_sha256_text in H. apply andb_true_iff in H as [_ H]. rewrite forallb_forall in *. intros c Hc.
    apply H. rewrite <- (firstn_skipn 16 (list_ascii_of_string h)). apply in_app_iff. by left. }
  exists (list_ascii_of_string "recovery-" ++ list_ascii_of_string x), "c"%char, (list_ascii_of_string "hained.jsonl").
  unfold recovery_tag. fold x. unfold str_contains_char in *. rewrite !list_ascii_app, !existsb_app, Hx. split; [|done].
  by rewrite <- app_assoc.
Qed.

Lemma chained_dotted : dotted ".chained.jsonl".
Proof. by exists (list_ascii_of_string "chained"), "j"%char, (list_ascii_of_string "sonl"). Qed.

Lemma receipt_dotted : dotted ".audit-recovery.json".
Proof. by exists (list_ascii_of_string "audit-recovery"), "j"%char, (list_ascii_of_string "son"). Qed.

Lemma temporary_dotted : dotted ".audit-recovery.json.tmp".
Proof. by exists (list_ascii_of_string "audit-recovery"), "j"%char, (list_ascii_of_string "son.tmp"). Qed.

#[export] Hint Resolve recovery_tag_dotted chained_dotted receipt_dotted temporary_dotted file_sha_ok : dotted_names.

Definition beside (legacy : Path) (e : string) : Path := mk_path (folder legacy) (stem legacy ++ e).

Definition primary_of (legacy : Path) : Path := beside legacy ".chained.jsonl".
Definition receipt_of (legacy : Path) : Path := beside legacy ".audit-recovery.json".
Definition temporary_of (legacy : Path) : Path := beside legacy ".audit-recovery.json.tmp".
Definition recovered_of (legacy : Path) (current : option string) : Path := beside legacy (recovery_tag current).


Section Names.

Context (legacy : Path) (Hlegacy : valid_name (name legacy) = true).

Lemma beside_differs e e' : e <> e' -> path_text (beside legacy e) <> path_text (beside legacy e').
Proof using. intros H E. apply H. exact (beside_inj legacy e e' E). Qed.

Lemma legacy_differs e : dotted e -> path_text legacy <> path_text (beside legacy e).
Proof using Hlegacy. intros He. exact (beside_not_self legacy Hlegacy e He). Qed.

Lemma primary_path : with_suffix legacy ".chained.jsonl" = Ok (primary_of legacy).
Proof using Hlegacy.
  unfold with_suffix. rewrite (proj2 (String.eqb_neq _ _) (stem_nonempty legacy Hlegacy)). cbn [raise_if]. rewrite Ok_bind.
  cbn [String.prefix String.eqb negb andb raise_if]. by apply with_name_beside; [|apply chained_dotted].
Qed.

Lemma receipt_path : _recovery_receipt_path legacy = Ok (receipt_of legacy).
Proof using Hlegacy. by apply with_name_beside; [|apply receipt_dotted]. Qed.

Lemma recovered_path current : hex_or_none current ->
  with_name legacy (recovery_name legacy current) = Ok (recovered_of legacy current).
Proof using Hlegacy. intros H. by apply with_name_beside; [|apply recovery_tag_dotted]. Qed.

Lemma temporary_path : with_suffix (receipt_of legacy) (suffix (receipt_of legacy) ++ ".tmp") = Ok (temporary_of legacy).
Proof using Hlegacy.
  assert (stem_chars (list_ascii_of_string (name (receipt_of legacy))) =
          list_ascii_of_string (stem legacy) ++ list_ascii_of_string ".audit-recovery") as E.
  { cbn [receipt_of beside name]. rewrite list_ascii_app.
    change (list_ascii_of_string ".audit-recovery.json")
      with (list_ascii_of_string ".audit-recovery" ++ dot :: list_ascii_of_string "json").
    rewrite app_assoc. apply stem_dotted; [done|]. rewrite forallb_app. apply andb_false_iff. by right. }
  assert (stem (receipt_of legacy) = (stem legacy ++ ".audit-recovery")%string) as Es.
  { unfold stem at 1. rewrite E. apply list_ascii_inj. by rewrite list_ascii_string_id, list_ascii_app. }
  assert (suffix (receipt_of legacy) = ".json") as Ex.
  { unfold suffix. rewrite E. cbn [receipt_of beside name]. rewrite list_ascii_app.
    change (list_ascii_of_string ".audit-recovery.json")
      with (list_ascii_of_string ".audit-recovery" ++ list_ascii_of_string ".json").
    rewrite app_assoc, drop_app_length. apply string_list_ascii_id. }
  unfold with_suffix. rewrite Es, Ex. destruct (String.eqb_spec (stem legacy ++ ".audit-recovery") "") as [H|_].
  { apply (f_equal list_ascii_of_string) in H. rewrite list_ascii_app in H. by apply app_nil_iff in H as [_ H]. }
  cbn [raise_if]. rewrite Ok_bind. change (".json" ++ ".tmp")%string with ".json.tmp".
  change (raise_if (negb (String.eqb ".json.tmp" "") && negb (String.prefix "." ".json.tmp")) ?e) with (Ok tt). rewrite Ok_bind.
  assert ((stem legacy ++ ".audit-recovery") ++ ".json.tmp" = stem legacy ++ ".audit-recovery.json.tmp")%string as ->.
  { apply list_ascii_inj. rewrite !list_ascii_app, <- app_assoc. done. }
  unfold with_name. rewrite beside_valid by (done || apply temporary_dotted). cbn [negb raise_if]. rewrite Ok_bind.
  destruct (String.eqb_spec (name (receipt_of legacy)) "") as [H|_]; [|done].
  cbn in H. apply (f_equal list_ascii_of_string) in H. rewrite list_ascii_app in H. by apply app_nil_iff in H as [_ H].
Qed.

End Names.

(** ** Receipts *)

Section Receipts.

Context (legacy : Path) (Hlegacy : valid_name (name legacy) = true) (Hname : isascii (name legacy) = true).

(** The receipt of a recovery, and its text. *)
Definition receipt_for (previous : string) (current : option string) (primary_sha : string) (at_ : datetime)
  : list (string * json) :=
  receipt_fields legacy previous current (primary_of legacy) primary_sha (recovered_of legacy current) at_.
Definition receipt_text (fields : list (string * json)) : list ascii := dump_indented fields ++ [newline].

Definition receipt_at (fs : files) (previous : string) (current : option string) (primary_sha : string) (at_ : datetime) : Prop :=
  fs !! path_text (receipt_of legacy) = Some (receipt_text (receipt_for previous current primary_sha at_))
  /\ json_ok (JObj (receipt_for previous current primary_sha at_)) = true /\ hex_or_none current.

(** The place of the receipt is free, or holds a receipt of some recovery. *)
Definition receipt_ok (fs : files) : Prop :=
  fs !! path_text (receipt_of legacy) = None \/ exists previous current primary_sha at_, receipt_at fs previous current primary_sha at_.


Lemma read_receipt fs previous current primary_sha at_ : receipt_at fs previous current primary_sha at_ ->
  _read_recovery_receipt legacy fs =
  Ok (if 16384 <? Z.of_nat (length (default [] (fs !! path_text (receipt_of legacy)))) then None
      else Some (py_sorted key_leb (receipt_for previous current primary_sha at_))).
Proof using Hlegacy.
  intros (H & Hj & _). unfold _read_recovery_receipt. rewrite receipt_path, Ok_bind, H by done. cbn [default].
  change (id ?x) with x. destruct (_ <? _); [done|]. unfold receipt_text. rewrite loads_indented by done. done.
Qed.

Lemma get_receipt previous current primary_sha at_ k :
  get_field k (py_sorted key_leb (receipt_for previous current primary_sha at_)) =
  get_field k (receipt_for previous current primary_sha at_).
Proof using.
  unfold get_field. f_equal. apply dict_get_perm; [symmetry; apply py_sorted_perm|].
  apply all_unique_spec. reflexivity.
Qed.

(** Such a receipt matches exactly the bytes it was written for. *)
Lemma receipt_matches fs previous current primary_sha at_ legacy_sha : hex_or_none current ->
  _recovery_receipt_matches (py_sorted key_leb (receipt_for previous current primary_sha at_)) legacy (primary_of legacy)
    legacy_sha fs =
  Ok (bool_decide (current = legacy_sha)
      && bool_decide (Some primary_sha = _file_sha256_or_none (path_text (primary_of legacy)) fs)).
Proof using Hlegacy.
  intros Hc. unfold _recovery_receipt_matches. rewrite !get_receipt.
  change (get_field "successor_filename" _) with (JStr (stem legacy ++ recovery_tag current)).
  unfold is_filename. rewrite beside_valid by auto with dotted_names. cbn [negb].
  rewrite with_name_beside, Ok_bind by auto with dotted_names.
  change (get_field "current_legacy_sha256" _) with (opt_json current).
  change (get_field "legacy_filename" _) with (JStr (name legacy)).
  change (get_field "primary_successor_filename" _) with (JStr (name (primary_of legacy))).
  change (get_field "primary_successor_sha256" _) with (JStr primary_sha). cbn -[_file_sha256_or_none].
  rewrite !String.eqb_refl. f_equal. rewrite !andb_true_r. cbn [andb]. f_equal.
  - destruct current as [h|], legacy_sha as [h'|]; cbn; [|done..].
    destruct (String.eqb_spec h h') as [->|Hne]; [by rewrite bool_decide_true|]. rewrite bool_decide_false; [done|congruence].
  - destruct (_file_sha256_or_none _ _) as [h|]; cbn; [|done].
    destruct (String.eqb_spec primary_sha h) as [->|Hne]; [by rewrite bool_decide_true|]. rewrite bool_decide_false; [done|congruence].
Qed.

Lemma isascii_append s t : isascii (s ++ t)%string = isascii s && isascii t.
Proof using. unfold isascii. by rewrite list_ascii_app, forallb_app. Qed.

Lemma stem_ascii : isascii (stem legacy) = true.
Proof using Hname.
  destruct (stem_split (list_ascii_of_string (name legacy))) as (e & E & _). unfold isascii, stem in *.
  rewrite list_ascii_string_id. rewrite E, forallb_app in Hname. by apply andb_true_iff in Hname as [? _].
Qed.

Lemma tag_ascii current : hex_or_none current -> isascii (recovery_tag current) = true.
Proof using.
  intros H. unfold recovery_tag. rewrite !isascii_append. destruct current as [h|]; [|done]. cbn in H.
  unfold is_sha256_text in H. apply andb_true_iff in H as [_ H]. apply hex_text_ascii in H.
  assert (isascii (String.substring 0 16 h) = true) as ->; [|done]. unfold isascii in *. rewrite substring_firstn.
  rewrite <- (firstn_skipn 16 (list_ascii_of_string h)), forallb_app in H. by apply andb_true_iff in H as [? _].
Qed.

Lemma receipt_json_ok previous current primary_sha at_ :
  isascii previous = true -> hex_or_none current -> isascii primary_sha = true ->
  json_ok (JObj (receipt_for previous current primary_sha at_)) = true.
Proof using Hname.
  intros H1 H2 H3. unfold receipt_for, receipt_fields. cbn [json_ok forallb fst snd].
  cbn [primary_of recovered_of beside name]. rewrite Hname, H1, H3, isoformat_ascii, !isascii_append, stem_ascii.
  rewrite tag_ascii by done. destruct current as [h|]; [|reflexivity]. cbn in H2. unfold is_sha256_text in H2.
  apply andb_true_iff in H2 as [_ H2]. apply hex_text_ascii in H2. cbn [opt_json json_ok]. rewrite H2. reflexivity.
Qed.

End Receipts.

(** ** Opening, recovering and opening again *)

(** The calls that give a chained store. *)
Definition opens (legacy : Path) (fs : files) (s : JsonlAuditStore) (fs' : files) : Prop :=
  (exists now out, chained_successor legacy now out fs = (Ok s, fs'))
  \/ (exists at_ now receipt_out replaced anchor_out,
        recover_chained_successor legacy at_ now receipt_out replaced anchor_out fs = (Ok s, fs')).

(** A failed opening that is not an [OSError] changed nothing. *)
Lemma anchored_error legacy successor legacy_sha now out fs e fs' :
  _anchored_successor legacy successor legacy_sha now out fs = (Raise e, fs') -> e = OSError \/ fs' = fs.
Proof.
  unfold _anchored_successor. rewrite lift_bind, sealed_store_Ok. cbv zeta. rewrite get_bind, lift_bind.
  set (s := mk_store _ _ _ _ _ _). destruct (_chain_state_or_fail s _ fs) as [st|]; [|intros H; right; by apply (f_equal snd) in H].
  rewrite method_bind_run. destruct (st.2 =? 1).
  - rewrite lift_bind. destruct (new_audit_event _) as [ev|]; [|intros H; right; by apply (f_equal snd) in H].
    rewrite lift_bind. destruct (_render s ev _ _) as [line|]; [|intros H; right; by apply (f_equal snd) in H].
    unfold _append_line. rewrite lift_raise_if_bind. destruct (_ <? _); [intros [= <- _]; by left|].
    destruct out; [intros [= <- _]; by left|rewrite modify_bind; intros [= <-]; by left|].
    intros H. apply (f_equal fst) in H. discriminate.
  - rewrite lift_bind. destruct (first_event s fs) as [fields|]; [|intros H; right; by apply (f_equal snd) in H].
    unfold lift. destruct (raise_if _ _); intros H; apply (f_equal snd) in H; right; done.
Qed.



Section Successors.

Context (legacy : Path) (Hlegacy : valid_name (name legacy) = true) (Hname : isascii (name legacy) = true).

Local Notation sha fs := (_file_sha256_or_none (path_text legacy) fs).

(** What recovering does before it opens the new successor: the primary is
    sealed by the anchor of other bytes, and a matching receipt is in place. *)
Record recovering (fs fs1 : files) : Prop := mk_recovering {
  rc_state : exists st fields payload previous,
    _verify_chain_state_unlocked (store_for legacy (primary_of legacy) (sha fs)) fs = Ok st /\ st.2 <> 1
    /\ first_event (store_for legacy (primary_of legacy) (sha fs)) fs = Ok fields /\ is_anchor fields = true
    /\ get_field "payload" fields = JObj payload /\ get_field "legacy_sha256" payload = JStr previous
    /\ Some previous <> sha fs;
  rc_receipt : exists previous primary_sha at_, receipt_at legacy fs1 previous (sha fs) primary_sha at_
    /\ Some primary_sha = _file_sha256_or_none (path_text (primary_of legacy)) fs;
  rc_frame : forall p, p <> path_text (receipt_of legacy) -> p <> path_text (temporary_of legacy) -> fs1 !! p = fs !! p
}.

(** Writing the receipt: it is complete, or there was an equal one. *)
Lemma write_receipt_new fs previous primary_sha at_ out replaced u fs1 :
  fs !! path_text (receipt_of legacy) = None ->
  json_ok (JObj (receipt_for legacy previous (sha fs) primary_sha at_)) = true ->
  _write_recovery_receipt legacy (receipt_for legacy previous (sha fs) primary_sha at_) out replaced fs = (Ok u, fs1) ->
  receipt_at legacy fs1 previous (sha fs) primary_sha at_
  /\ forall p, p <> path_text (receipt_of legacy) -> p <> path_text (temporary_of legacy) -> fs1 !! p = fs !! p.
Proof using Hlegacy.
  intros Hn Hj. unfold _write_recovery_receipt. rewrite lift_bind, receipt_path by done. cbv zeta. rewrite get_bind, Hn.
  rewrite lift_bind, temporary_path by done.
  destruct out, replaced; try (rewrite modify_bind; discriminate).
  intros H. apply (f_equal snd) in H. cbn [snd modify] in H. subst fs1. split.
  - split; [|split; [done|apply file_sha_ok]]. rewrite lookup_delete_ne by (apply beside_differs; discriminate).
    by rewrite lookup_insert_eq.
  - intros p H1 H2. by rewrite lookup_delete_ne, lookup_insert_ne.
Qed.

(** A receipt that is not this one is never replaced. *)
Lemma write_receipt_present fs c receipt out replaced :
  fs !! path_text (receipt_of legacy) = Some c ->
  forall u fs1, _write_recovery_receipt legacy receipt out replaced fs = (Ok u, fs1) ->
  fs1 = fs /\ exists current, _read_recovery_receipt legacy fs = Ok (Some current) /\ py_eqb (JObj current) (JObj receipt) = true.
Proof using Hlegacy.
  intros Hc u fs1. unfold _write_recovery_receipt. rewrite lift_bind, receipt_path by done. cbv zeta. rewrite get_bind, Hc.
  rewrite lift_bind. destruct (_read_recovery_receipt legacy fs) as [[current|]|]; [|discriminate..].
  intros H. apply lift_Ok in H as (H & ->). apply raise_if_Ok, negb_false_iff in H. eauto.
Qed.

Lemma receipt_equal p c h a p' c' h' a' :
  py_eqb (JObj (py_sorted key_leb (receipt_for legacy p' c' h' a'))) (JObj (receipt_for legacy p c h a)) = true ->
  c' = c /\ h' = h.
Proof using.
  cbn [py_eqb]. intros (_ & H)%andb_true_iff. rewrite (forallb_perm _ _ _ (py_sorted_perm _ _)) in H.
  cbn in H. repeat (apply andb_true_iff in H as (? & H)). split.
  - destruct c as [x|], c' as [y|]; cbn in *; try done. f_equal. by apply String.eqb_eq.
  - by apply String.eqb_eq.
Qed.

(** The receipt in place after [recover_chained_successor] has read or written it. *)
Lemma receipt_step fs previous primary_sha at_ out replaced existing matched u fs1 :
  receipt_ok legacy fs -> isascii previous = true -> Some primary_sha = _file_sha256_or_none (path_text (primary_of legacy)) fs ->
  _read_recovery_receipt legacy fs = Ok existing ->
  match existing with
  | Some receipt => _recovery_receipt_matches receipt legacy (primary_of legacy) (sha fs) fs
  | None => mret false
  end = Ok matched ->
  (if (matched : bool) then mret tt
   else _write_recovery_receipt legacy (receipt_for legacy previous (sha fs) primary_sha at_) out replaced) fs = (Ok u, fs1) ->
  (exists previous at_, receipt_at legacy fs1 previous (sha fs) primary_sha at_)
  /\ forall p, p <> path_text (receipt_of legacy) -> p <> path_text (temporary_of legacy) -> fs1 !! p = fs !! p.
Proof using Hlegacy Hname.
  intros [Hn|(p' & c' & h' & a' & Hr)] Hp Hh He Hm H.
  - assert (existing = None) as ->.
    { unfold _read_recovery_receipt in He. rewrite receipt_path, Ok_bind, Hn in He by done. by apply mret_Ok in He. }
    apply mret_Ok in Hm as <-. apply write_receipt_new in H as (Hr & Hf); [|done|].
    + split; [by exists previous, at_|done].
    + apply receipt_json_ok; [done|done|apply file_sha_ok|].
      pose proof (file_sha_ascii (path_text (primary_of legacy)) fs) as G. by rewrite <- Hh in G.
  - pose proof Hr as (Hc & _ & Hx). rewrite (read_receipt _ Hlegacy _ _ _ _ _ Hr) in He. apply mret_Ok in He. subst existing.
    destruct matched.
    + apply (f_equal snd) in H. cbn [snd mret method_ret] in H. subst fs1. split; [|done].
      destruct (16384 <? _); [discriminate|]. rewrite receipt_matches in Hm by done. apply mret_Ok in Hm.
      apply andb_true_iff in Hm as (Hm1 & Hm2). apply bool_decide_eq_true in Hm1, Hm2.
      rewrite <- Hh in Hm2. injection Hm2 as ->. rewrite Hm1 in Hr. by exists p', a'.
    + apply (write_receipt_present _ _ _ _ _ Hc) in H as (-> & cur & He & Hq). split; [|done].
      rewrite (read_receipt _ Hlegacy _ _ _ _ _ Hr) in He. apply mret_Ok in He. destruct (16384 <? _); [discriminate|].
      injection He as <-. apply receipt_equal in Hq as (-> & ->). by exists p', a'.
Qed.

Lemma recover_inv fs at_ now receipt_out replaced anchor_out s fs' : receipt_ok legacy fs ->
  recover_chained_successor legacy at_ now receipt_out replaced anchor_out fs = (Ok s, fs') ->
  exists fs1, recovering fs fs1
    /\ _anchored_successor legacy (recovered_of legacy (sha fs)) (sha fs) now anchor_out fs1 = (Ok s, fs').
Proof using Hlegacy Hname.
  intros Hok H. unfold recover_chained_successor in H. rewrite get_bind in H. cbv zeta in H.
  rewrite lift_bind, primary_path, lift_bind, sealed_store_Ok, lift_bind in H by done. set (primary := mk_store _ _ _ _ _ _) in H.
  destruct (_chain_state_or_fail primary _ fs) as [st|] eqn:Hst; [|discriminate]. apply chain_state_inv in Hst as (_ & Hv); [|done].
  rewrite lift_raise_if_bind in H. destruct (Z.eqb_spec st.2 1) as [|Hp]; [discriminate|]. rewrite lift_bind in H.
  destruct (first_event primary fs) as [fields|] eqn:Hf; [|discriminate]. rewrite lift_raise_if_bind in H.
  destruct (is_anchor fields) eqn:Ha; [|discriminate]. cbn [negb] in H. rewrite lift_bind in H.
  destruct (get_field "payload" fields) as [| | | | |payload] eqn:Hy; try discriminate.
  destruct (get_field "legacy_sha256" payload) as [| | |previous| |] eqn:Hs; try discriminate.
  cbn [mret res_ret] in H. rewrite lift_raise_if_bind in H. destruct (bool_decide_reflect (Some previous = sha fs)) as [|Hne]; [discriminate|].
  rewrite lift_bind in H. destruct (_file_sha256_or_none (path_text (primary_of legacy)) fs) as [h|] eqn:Hh; [|discriminate].
  cbn [mret res_ret] in H. rewrite lift_bind, recovered_path, lift_bind in H by (done || apply file_sha_ok).
  destruct (_read_recovery_receipt legacy fs) as [existing|] eqn:He; [|discriminate]. rewrite lift_bind in H.
  destruct (match existing with Some _ => _ | None => _ end) as [matched|] eqn:Hm; [|discriminate].
  apply method_bind_Ok in H as (u & fs1 & Hw & H). exists fs1. split; [|exact H].
  assert (isascii previous = true) as Hasc.
  { unfold first_event, _load_event_line in Hf. destruct (fs !! path primary) as [c|]; [|discriminate].
    apply bind_Ok in Hf as (j & Hl & Hf). apply loads_ok in Hl. destruct j as [| | | | |l]; try discriminate.
    apply mret_Ok in Hf as ->. apply (forallb_get _ "payload") in Hl. rewrite Hy in Hl.
    apply (forallb_get _ "legacy_sha256") in Hl. by rewrite Hs in Hl. }
  apply (receipt_step _ _ _ _ _ _ _ _ _ _ Hok Hasc (eq_sym Hh) He Hm) in Hw as ((p' & a' & Hr) & Hframe).
  split; [|by exists p', h, a'|done]. by exists st, fields, payload, previous.
Qed.





End Successors.

(** A store whose legacy file changed answers nothing and writes nothing. *)
Lemma changed_legacy s p fs subject : _legacy_path s = Some p -> _file_sha256_or_none p fs <> _legacy_sha256 s ->
  _chain_state_or_fail s subject fs =
  Raise (fail_verification "JSONL_AUDIT_TAMPER_EVIDENT_CHAIN_INVALID" (path s) subject).
Proof. intros E H. unfold _chain_state_or_fail. rewrite E, bool_decide_false by done. reflexivity. Qed.

Lemma changed_legacy_blocks s p fs : _legacy_path s = Some p -> _file_sha256_or_none p fs <> _legacy_sha256 s ->
  (forall c, exists e, run_call s c fs = (Failed e, fs)) /\ is_ok (verify_chain s fs) = false
  /\ forall type snapshot expected, is_ok (read_verified_event s type snapshot expected fs) = false.
Proof.
  intros E H. pose proof (fun subject => changed_legacy s p fs subject E H) as Hc. split_and!.
  - intros [[[] e] out]; unfold run_call, append, append_verified, append_verified_idempotent;
      [| |rewrite lift_bind; destruct (redact <$> _) as [x|]; [|by eexists]];
      rewrite get_bind, lift_bind, Hc; by eexists.
  - unfold verify_chain. by rewrite Hc.
  - intros type snapshot expected. unfold read_verified_event. destruct (raise_if _ _); [|done]. cbn [mbind res_bind].
    by rewrite Hc.
Qed.

Section Outcomes.

Context (legacy : Path) (Hlegacy : valid_name (name legacy) = true) (Hname : isascii (name legacy) = true).

Local Notation sha fs := (_file_sha256_or_none (path_text legacy) fs).

(** What an opening by [chained_successor] comes to. *)
Lemma chained_inv now out fs s fs' : receipt_ok legacy fs -> chained_successor legacy now out fs = (Ok s, fs') ->
  exists e, dotted e /\ e <> ".audit-recovery.json" /\ s = store_for legacy (beside legacy e) (sha fs)
    /\ anchored s legacy (sha fs) fs' /\ (fs' = fs \/ exists t, fs' = append_to (path_text (beside legacy e)) t fs).
Proof using Hlegacy Hname.
  intros Hok. unfold chained_successor. rewrite get_bind. cbv zeta. rewrite lift_bind, primary_path by done. unfold try_files.
  assert (forall e, dotted e -> path_text legacy <> path_text (beside legacy e)) as Hd by (intros; by apply legacy_differs).
  destruct (_anchored_successor legacy (primary_of legacy) _ now out fs) as [[s1|e] fs1] eqn:E.
  - intros H. injection H as <- <-.
    apply anchored_inv in E as (-> & Ha & Hf); [|done|apply file_sha_ascii|apply Hd, chained_dotted].
    exists ".chained.jsonl". split; [apply chained_dotted|]. by split; [discriminate|].
  - destruct (match e with ValueError m => _ | _ => false end) eqn:Em; [|discriminate].
    apply anchored_error in E as [->| ->]; [discriminate|]. rewrite get_bind, lift_bind.
    destruct Hok as [Hn|(p & c & h & a & Hr)].
    { unfold _read_recovery_receipt. rewrite receipt_path, Ok_bind, Hn by done. discriminate. }
    rewrite (read_receipt _ Hlegacy _ _ _ _ _ Hr). destruct (16384 <? _); [discriminate|].
    pose proof Hr as (_ & _ & Hx). rewrite lift_bind, receipt_matches by done. rewrite lift_raise_if_bind.
    destruct (bool_decide_reflect (c = sha fs)) as [->|]; [|discriminate]. destruct (bool_decide _); [|discriminate].
    cbn [andb negb]. rewrite get_receipt. change (get_field "successor_filename" _) with (JStr (recovery_name legacy (sha fs))).
    rewrite lift_bind, recovered_path by done. intros H.
    apply anchored_inv in H as (-> & Ha & Hf); [|done|apply file_sha_ascii|apply Hd; auto with dotted_names].
    exists (recovery_tag (sha fs)). split; [auto with dotted_names|]. by split; [discriminate|].
Qed.

End Outcomes.

(** ** Properties *)

(** C7: a successor is bound to the legacy bytes.  Whichever call opens a store,
    and in whatever state, the store's file then verifies and begins with the
    anchor of the legacy bytes found; the legacy file is as it was, and so is
    every file but the store's and the receipt's.  As soon as the legacy bytes
    differ, every append and every read of the store fails and writes nothing. *)
Theorem successor_binds_legacy legacy fs s fs' :
  valid_name (name legacy) = true -> isascii (name legacy) = true -> receipt_ok legacy fs -> opens legacy fs s fs' ->
  anchored s legacy (_file_sha256_or_none (path_text legacy) fs) fs'
  /\ fs' !! path_text legacy = fs !! path_text legacy
  /\ (forall p, p <> path s -> p <> path_text (receipt_of legacy) -> p <> path_text (temporary_of legacy) ->
      fs' !! p = fs !! p)
  /\ forall later, _file_sha256_or_none (path_text legacy) later <> _file_sha256_or_none (path_text legacy) fs ->
     (forall c, exists e, run_call s c later = (Failed e, later)) /\ is_ok (verify_chain s later) = false
     /\ forall type snapshot expected, is_ok (read_verified_event s type snapshot expected later) = false.
Proof.
  intros Hl Hn Hok Hopen.
  assert (exists e, dotted e /\ s = store_for legacy (beside legacy e) (_file_sha256_or_none (path_text legacy) fs)
    /\ anchored s legacy (_file_sha256_or_none (path_text legacy) fs) fs'
    /\ forall p, p <> path s -> p <> path_text (receipt_of legacy) -> p <> path_text (temporary_of legacy) ->
       fs' !! p = fs !! p) as (e & He & Es & Ha & Hf).
  { destruct Hopen as [(now & out & H)|(at_ & now & rout & replaced & aout & H)].
    - apply chained_inv in H as (e & He & _ & -> & Ha & Hf); [|done..]. exists e. split_and!; try done.
      intros p Hp _ _. destruct Hf as [->|(t & ->)]; [done|]. by apply append_to_other.
    - apply recover_inv in H as (fs1 & [_ _ Hframe] & H); [|done..].
      apply anchored_inv in H as (-> & Ha & Hf); [|done|apply file_sha_ascii|by apply legacy_differs; auto with dotted_names].
      exists (recovery_tag (_file_sha256_or_none (path_text legacy) fs)). split_and!; try done; [auto with dotted_names|].
      intros p Hp H1 H2. rewrite <- (Hframe p H1 H2). destruct Hf as [->|(t & ->)]; [done|]. by apply append_to_other. }
  split_and!; [done| |done|].
  - apply Hf; [subst s| |]; apply legacy_differs; auto with dotted_names.
  - intros later Hne. apply (changed_legacy_blocks s (path_text legacy)); by subst s.
Qed.


(** ** A legacy file that changes *)

Definition ex_legacy : Path := mk_path "/audit/" "orders.jsonl".
Definition ex_now : datetime := mk_datetime 1767225600000000 (Some 0).
Definition ex_files (c : string) : files := {["/audit/orders.jsonl" := list_ascii_of_string c]}.

(** The first successor, the legacy file changed behind it, and the recovery. *)
Definition ex_opened : res JsonlAuditStore * files := chained_successor ex_legacy ex_now Written (ex_files "old").
Definition ex_changed : files := <["/audit/orders.jsonl" := list_ascii_of_string "older"]> ex_opened.2.
Definition ex_recovered : res JsonlAuditStore * files :=
  recover_chained_successor ex_legacy ex_now ex_now Written true Written ex_changed.
Definition ex_store (name : string) (c : string) : JsonlAuditStore :=
  store_for ex_legacy (mk_path "/audit/" name) (Some (sha256 c)).

Example ex_names : (name (primary_of ex_legacy), name (receipt_of ex_legacy), stem ex_legacy, suffix ex_legacy)
  = ("orders.chained.jsonl", "orders.audit-recovery.json", "orders", ".jsonl").
Proof. vm_compute. reflexivity. Qed.

Example ex_hidden : (stem (mk_path "" ".hidden"), stem (mk_path "" "a.b."), stem (mk_path "" "..c")) = (".hidden", "a.b", "..c").
Proof. vm_compute. reflexivity. Qed.

Lemma ex_opened_Ok : ex_opened = (Ok (ex_store "orders.chained.jsonl" "old"), ex_opened.2).
Proof. vm_compute. reflexivity. Qed.

Example ex_reopened : (chained_successor ex_legacy ex_now Refused ex_opened.2).1 = Ok (ex_store "orders.chained.jsonl" "old").
Proof. vm_compute. reflexivity. Qed.

(** A recovery is refused while nothing changed. *)
Example ex_unneeded : (recover_chained_successor ex_legacy ex_now ex_now Written true Written ex_opened.2).1 =
  Raise (ValueError "JSONL_AUDIT_RECOVERY_NOT_REQUIRED").
Proof. vm_compute. reflexivity. Qed.


(** When the replacement of the receipt fails, so does the recovery, and it can
    be repeated. *)
Example ex_retried :
  recover_chained_successor ex_legacy ex_now ex_now Written false Written ex_changed = (Raise OSError, ex_changed).
Proof. vm_compute. reflexivity. Qed.

(** A second change of the legacy file cannot be recovered: the receipt of the
    first recovery is in the way. *)
Example ex_second_change :
  let again := <["/audit/orders.jsonl" := list_ascii_of_string "oldest"]> ex_recovered.2 in
  ((chained_successor ex_legacy ex_now Written again).1,
   (recover_chained_successor ex_legacy ex_now ex_now Written true Written again).1) =
  (Raise MISMATCH, Raise (ValueError "JSONL_AUDIT_RECOVERY_RECEIPT_CONFLICT")).
Proof. vm_compute. reflexivity. Qed.

Lemma ex_sha : _file_sha256_or_none (path_text ex_legacy) (ex_files "old") = Some (sha256 "old").
Proof. vm_compute. reflexivity. Qed.

Lemma ex_sha_changed : _file_sha256_or_none (path_text ex_legacy) ex_changed <>
  _file_sha256_or_none (path_text ex_legacy) (ex_files "old").
Proof. vm_compute. discriminate. Qed.



Lemma successor_binds_legacy_witness :
  anchored (ex_store "orders.chained.jsonl" "old") ex_legacy (Some (sha256 "old")) ex_opened.2
  /\ is_ok (verify_chain (ex_store "orders.chained.jsonl" "old") ex_changed) = false.
Proof.
  destruct (successor_binds_legacy ex_legacy (ex_files "old") (ex_store "orders.chained.jsonl" "old") ex_opened.2
    eq_refl eq_refl (or_introl eq_refl) (or_introl (ex_intro _ ex_now (ex_intro _ Written ex_opened_Ok)))) as (Ha & _ & _ & Hb).
  rewrite ex_sha in Ha. split; [exact Ha|]. destruct (Hb ex_changed ex_sha_changed) as (_ & Hv & _). exact Hv.
Defined.




