(* ===== verification/VerifiedJson.v ===== *)
(** [storage/destination_verification.py], and its copy in
    [infrastructure/persistence/safe_json.py]: writing one JSON object and
    proving the write from its destination.

    The random part of the temporary name and what the operating system does with
    the write, with every attempt of the replacement, with the reading back and
    with the removal of the temporary file are arguments.  The folder of the
    destination exists; a refused attempt changes nothing; no other process
    writes the destination between the replacement and the reading. *)
From stdpp Require Import gmap strings.
From S2P Require Import Prelude Sha256 PyText JsonText JsonIndent Serialize PosixPath AuditLog.
Local Open Scope Z_scope.
Local Open Scope bool_scope.

(** ** Reading *)

(** [read_json_object] *)
Definition read_json_object (p : Path) (blocker : string) (fs : files) : res (list (string * json)) :=
  let failed := fail_verification blocker (path_text p) (path_text p) in
  match fs !! path_text p with
  | None => Raise failed
  | Some c =>
      payload ← catch (loads c) (fun e => match e with ValueError m => String.eqb m "JSONDecodeError" | _ => false end)
                  (fun _ => Raise failed);
      match payload with JObj fields => mret fields | _ => Raise failed end
  end.

(** ** Writing *)

(** [_json_dumps] *)
Definition _json_dumps (payload : json) (indent : option nat) : res (list ascii) :=
  raise_if (negb (prints payload)) (ValueError "Exceeds the limit for integer string conversion");;
  mret (match indent with
        | None => dump_raw (sort_keys payload)
        | Some n => dump_indent escape_raw n 0 (sort_keys payload)
        end).

(** What [os.replace] does at an attempt: replace, raise [PermissionError], or
    raise another [OSError]. *)
Inductive replace_outcome : Type := Replaced | Denied | Impossible.

Definition _REPLACE_RETRY_DELAYS_SECONDS : list Z := [10; 20; 40; 80; 160; 250; 250].

(** [_replace_with_retry]: one attempt for each delay (in milliseconds) and a
    last one. *)
Fixpoint replace_attempts (delays : list Z) (attempts : nat -> replace_outcome) (turn : nat) : res unit :=
  match attempts turn, delays with
  | Replaced, _ => mret tt
  | Impossible, _ => Raise OSError
  | Denied, _ :: delays => replace_attempts delays attempts (S turn)
  | Denied, [] => Raise OSError
  end.
Definition _replace_with_retry (attempts : nat -> replace_outcome) : res unit :=
  replace_attempts _REPLACE_RETRY_DELAYS_SECONDS attempts 0.

(** The name of the temporary file. *)
Definition temporary_name (p : Path) (uuid : string) : string := ("." ++ name p ++ "." ++ uuid ++ ".tmp")%string.

(** [subject_id or str(path)] *)
Definition subject_or_path (subject : option string) (p : Path) : string :=
  match subject with Some s => if String.eqb s "" then path_text p else s | None => path_text p end.

(** What the operating system does after the replacement: whether the
    destination can be read, and the temporary file be removed. *)
Record aftermath : Type := mk_aftermath { readable : bool; unlinked : bool }.

(** The body of the [try]: the payload as it was encoded, and as it was read. *)
Definition write_and_read (p temporary : Path) (payload : list (string * json)) (blocker : string) (indent : option nat)
  (out : write_outcome) (attempts : nat -> replace_outcome) (after : aftermath)
  : method files (list (string * json) * list (string * json)) :=
  encoded ← lift (_json_dumps (JObj payload) indent);
  normalized ← lift (loads (encoded ++ [newline]));
  expected ← lift (match normalized with JObj l => mret l | _ => Raise TypeError end);
  (match out with
   | Refused => lift (Raise OSError)
   | BrokenOff reached =>
       modify <[path_text temporary := firstn reached (encoded ++ [newline])]>;; lift (Raise OSError)
   | Written => modify <[path_text temporary := encoded ++ [newline]]>
   end);;
  lift (_replace_with_retry attempts);;
  modify (fun fs => <[path_text p := default [] (fs !! path_text temporary)]> (delete (path_text temporary) fs));;
  fs ← get;
  observed ← lift (if readable after then read_json_object p blocker fs
                   else Raise (fail_verification blocker (path_text p) (path_text p)));
  mret (expected, observed).

(** [write_json_object_verified]; the [finally] removes the temporary file, or
    raises in place of what the body returned or raised. *)
Definition write_json_object_verified (p : Path) (payload : list (string * json)) (blocker : string)
  (subject : option string) (indent : option nat) (uuid : string) (out : write_outcome)
  (attempts : nat -> replace_outcome) (after : aftermath) : method files VerifiedWriteResult :=
  temporary ← lift (with_name p (temporary_name p uuid));
  both ← (fun fs => let '(r, fs) := write_and_read p temporary payload blocker indent out attempts after fs in
                    if unlinked after then (r, delete (path_text temporary) fs) else (Raise OSError, fs));
  let '(expected, observed) := both in
  lift (raise_if (negb (py_eqb (JObj observed) (JObj expected)))
    (fail_verification blocker (path_text p) (subject_or_path subject p)));;
  lift (verified (path_text p) (subject_or_path subject p) "json_state_write" (_canonical_json_sha256 (JObj expected))
          (_canonical_json_sha256 (JObj observed))).

(** ** The replacement *)

Lemma replace_attempts_exact delays attempts : forall turn,
  replace_attempts delays attempts turn = Ok tt <->
  exists k, (k <= length delays)%nat /\ attempts (turn + k)%nat = Replaced /\ forall i, (i < k)%nat -> attempts (turn + i)%nat = Denied.
Proof.
  induction delays as [|d delays IH]; intros turn; cbn [replace_attempts]; destruct (attempts turn) eqn:E.
  - split; [|done]. intros _. exists 0%nat. rewrite Nat.add_0_r. split; [lia|]. split; [done|]. lia.
  - split; [discriminate|]. intros (k & Hk & Hr & _). cbn in Hk. replace k with 0%nat in Hr by lia. rewrite Nat.add_0_r in Hr. congruence.
  - split; [discriminate|]. intros (k & Hk & Hr & _). cbn in Hk. replace k with 0%nat in Hr by lia. rewrite Nat.add_0_r in Hr. congruence.
  - split; [|done]. intros _. exists 0%nat. rewrite Nat.add_0_r. split; [lia|]. split; [done|]. lia.
  - rewrite IH. split.
    + intros (k & Hk & Hr & Hd). exists (S k). cbn [length]. split; [lia|]. rewrite Nat.add_succ_r. split; [exact Hr|].
      intros [|i] Hi; [by rewrite Nat.add_0_r|]. rewrite Nat.add_succ_r. apply Hd. lia.
    + intros ([|k] & Hk & Hr & Hd); [rewrite Nat.add_0_r in Hr; congruence|]. exists k. cbn [length] in Hk. split; [lia|].
      rewrite Nat.add_succ_r in Hr. split; [exact Hr|]. intros i Hi. specialize (Hd (S i) ltac:(lia)). by rewrite Nat.add_succ_r in Hd.
  - split; [discriminate|]. intros ([|k] & Hk & Hr & Hd); [rewrite Nat.add_0_r in Hr; congruence|].
    specialize (Hd 0%nat ltac:(lia)). rewrite Nat.add_0_r in Hd. congruence.
Qed.

(** The operating system replaces the file, after at most seven refusals. *)
Definition replaces (attempts : nat -> replace_outcome) : Prop :=
  exists k, (k <= 7)%nat /\ attempts k = Replaced /\ forall i, (i < k)%nat -> attempts i = Denied.

Lemma replace_with_retry_exact attempts : _replace_with_retry attempts = Ok tt <-> replaces attempts.
Proof. apply replace_attempts_exact. Qed.

Lemma replace_fails attempts e : _replace_with_retry attempts = Raise e -> e = OSError.
Proof.
  unfold _replace_with_retry. generalize 0%nat. induction _REPLACE_RETRY_DELAYS_SECONDS as [|d delays IH]; intros turn; cbn;
    destruct (attempts turn); try done; try (by intros [= <-]). apply IH.
Qed.

(** ** Properties *)

(** The text of a payload. *)
Definition payload_text (payload : list (string * json)) (indent : option nat) : list ascii :=
  match indent with
  | None => dump_raw (sort_keys (JObj payload))
  | Some n => dump_indent escape_raw n 0 (sort_keys (JObj payload))
  end ++ [newline].

Definition sorted_items (payload : list (string * json)) : list (string * json) :=
  py_sorted key_leb (map (fun kv => (kv.1, sort_keys kv.2)) payload).

Lemma payload_loads payload indent : json_ok (JObj payload) = true ->
  loads (payload_text payload indent) = Ok (JObj (sorted_items payload)).
Proof.
  intros H. pose proof (sort_keys_ok _ H) as Hs. unfold payload_text.
  destruct indent as [n|]; [by apply loads_indent_raw|by apply loads_dump_raw].
Qed.

Lemma payload_dumps payload indent : json_ok (JObj payload) = true ->
  (text ← _json_dumps (JObj payload) indent; mret (text ++ [newline])) = Ok (payload_text payload indent).
Proof. intros H. unfold _json_dumps. by rewrite (json_ok_prints _ H). Qed.

Section Write.

Context (p : Path) (payload : list (string * json)) (blocker : string) (subject : option string) (indent : option nat)
  (uuid : string) (out : write_outcome) (attempts : nat -> replace_outcome) (after : aftermath).
Context (Hp : valid_name (name p) = true) (Huuid : str_contains_char slash uuid = false)
  (Hok : json_ok (JObj payload) = true).

Definition temporary_of : Path := mk_path (folder p) (temporary_name p uuid).

Lemma temporary_Ok : with_name p (temporary_name p uuid) = Ok temporary_of.
Proof using Hp Huuid.
  pose proof Hp as H. unfold valid_name in H. rewrite !andb_true_iff, !negb_true_iff in H. destruct H as ((H1 & H2) & H3).
  unfold with_name.
  assert (valid_name (temporary_name p uuid) = true) as ->.
  { unfold valid_name, temporary_name, str_contains_char in *. rewrite !andb_true_iff, !negb_true_iff, !String.eqb_neq. split; [split|].
    - discriminate.
    - intros E. apply (f_equal (fun s => length (list_ascii_of_string s))) in E. rewrite !list_ascii_app, !length_app in E.
      cbn in E. lia.
    - rewrite !list_ascii_app, !existsb_app, Huuid. cbn. by rewrite H3, orb_false_r. }
  cbn [negb raise_if]. rewrite Ok_bind. by rewrite H1.
Qed.

Lemma temporary_differs : path_text temporary_of <> path_text p.
Proof using.
  intros E. unfold path_text, temporary_of, temporary_name in E. cbn [folder name] in E.
  apply (f_equal list_ascii_of_string) in E. rewrite !list_ascii_app in E. apply app_inv_head in E.
  apply (f_equal length) in E. rewrite !length_app in E. cbn in E. lia.
Qed.

(** The destination is replaced. *)
Definition placed : bool := match out with Written => is_ok (_replace_with_retry attempts) | _ => false end.

Lemma placed_spec : placed = true <-> out = Written /\ replaces attempts.
Proof using.
  unfold placed. rewrite <- replace_with_retry_exact. destruct out; [naive_solver..|].
  destruct (_replace_with_retry attempts) as [[]|]; naive_solver.
Qed.

(** The body of the [try], in its outcomes. *)
Lemma write_and_read_run fs :
  write_and_read p temporary_of payload blocker indent out attempts after fs =
  match out with
  | Refused => (Raise OSError, fs)
  | BrokenOff reached => (Raise OSError, <[path_text temporary_of := firstn reached (payload_text payload indent)]> fs)
  | Written =>
      let fs1 := <[path_text temporary_of := payload_text payload indent]> fs in
      match _replace_with_retry attempts with
      | Ok _ => (if readable after then Ok (sorted_items payload, sorted_items payload)
                 else Raise (fail_verification blocker (path_text p) (path_text p)),
                 <[path_text p := payload_text payload indent]> (delete (path_text temporary_of) fs1))
      | Raise e => (Raise e, fs1)
      end
  end.
Proof using Hok.
  unfold write_and_read. rewrite lift_bind. pose proof (payload_dumps payload indent Hok) as Hd.
  destruct (_json_dumps _ _) as [encoded|]; [|discriminate]. apply mret_Ok in Hd. rewrite Hd, lift_bind, payload_loads by done.
  rewrite lift_bind. cbn [mret res_ret]. destruct out; [done|done|]. rewrite modify_bind, lift_bind.
  destruct (_replace_with_retry attempts); [|done]. rewrite modify_bind, get_bind. rewrite lookup_insert_eq. cbn [default].
  change (id ?x) with x. rewrite lift_bind. destruct (readable after); [|done].
  unfold read_json_object. rewrite lookup_insert_eq, payload_loads by done. done.
Qed.

(** What a write returns. *)
Definition write_result : res VerifiedWriteResult :=
  let h := _canonical_json_sha256 (JObj payload) in
  if placed && unlinked after then
    if readable after then Ok (mk_verified (path_text p) (subject_or_path subject p) "json_state_write" h h)
    else Raise (fail_verification blocker (path_text p) (path_text p))
  else Raise OSError.

(** The result of a write, and the files after it: complete, or as they were but
    for the temporary file. *)
Lemma verified_write_run fs :
  blank (path_text p) = false -> blank (subject_or_path subject p) = false ->
  exists fs', write_json_object_verified p payload blocker subject indent uuid out attempts after fs = (write_result, fs')
  /\ (unlinked after = true -> fs' !! path_text temporary_of = None)
  /\ (forall q, q <> path_text p -> q <> path_text temporary_of -> fs' !! q = fs !! q)
  /\ fs' !! path_text p = if placed then Some (payload_text payload indent) else fs !! path_text p.
Proof using Hp Huuid Hok.
  intros Hb Hs. pose proof temporary_differs as Hne. unfold write_json_object_verified.
  rewrite lift_bind, temporary_Ok, method_bind_run, write_and_read_run. unfold write_result.
  set (t := path_text temporary_of) in *. set (text := payload_text payload indent).
  assert (forall c (gs : files), (forall q, q <> path_text p -> q <> t -> gs !! q = fs !! q) -> gs !! path_text p = c ->
    let fs' := if unlinked after then delete t gs else gs in
    (unlinked after = true -> fs' !! t = None)
    /\ (forall q, q <> path_text p -> q <> t -> fs' !! q = fs !! q) /\ fs' !! path_text p = c) as Hend.
  { intros c gs H <-. destruct (unlinked after); cbv zeta; [|by auto].
    rewrite lookup_delete_eq, lookup_delete_ne by done. split; [done|]. split; [|done].
    intros q H1 H2. rewrite lookup_delete_ne by done. auto. }
  assert (forall x, (forall q, q <> path_text p -> q <> t -> <[t := x]> (fs : files) !! q = fs !! q)
    /\ <[t := x]> (fs : files) !! path_text p = fs !! path_text p) as Htmp.
  { intros x. split; [intros q _ H; by rewrite lookup_insert_ne|]. by rewrite lookup_insert_ne. }
  unfold placed. destruct out as [|reached|]; [| |destruct (_replace_with_retry attempts) as [[]|e] eqn:E]; cbn [is_ok andb].
  - exists (if unlinked after then delete t fs else fs). split; [by destruct (unlinked after)|by apply Hend].
  - exists (if unlinked after then delete t (<[t := firstn reached text]> fs) else <[t := firstn reached text]> fs).
    split; [by destruct (unlinked after)|apply Hend; apply Htmp].
  - set (gs := <[path_text p := text]> (delete t (<[t := text]> fs))).
    exists (if unlinked after then delete t gs else gs). split; [|apply Hend; [|apply lookup_insert_eq]].
    + destruct (unlinked after); [|done]. destruct (readable after); [|done].
      assert (py_eqb (JObj (sorted_items payload)) (JObj (sorted_items payload)) = true) as Heq
        by by apply (py_eqb_refl (sort_keys (JObj payload))), sort_keys_ok.
      rewrite lift_raise_if_bind, Heq. cbn [negb]. unfold lift. rewrite verified_Ok by done.
      assert (_canonical_json_sha256 (JObj (sorted_items payload)) = _canonical_json_sha256 (JObj payload)) as ->; [|done].
      apply canonical_sorted. by apply (sort_keys_idem (JObj payload)).
    + intros q Q1 Q2. unfold gs. by rewrite lookup_insert_ne, lookup_delete_ne, lookup_insert_ne.
  - rewrite (replace_fails _ _ E). exists (if unlinked after then delete t (<[t := text]> fs) else <[t := text]> fs).
    split; [by destruct (unlinked after)|apply Hend; apply Htmp].
Qed.

(** C9: a verified write is all or nothing, and readable.  It succeeds exactly
    when the write is complete, the file is replaced after at most seven
    refusals, and afterwards the destination can be read and the temporary file
    be removed; then the destination reads back as the payload, whatever the
    layout chosen, and the result carries the payload's hash twice.  When only the
    reading or the removal fails, the write raises, with the destination replaced
    as a whole.  In every other case it raises and the destination is as it was.
    No other file changes, and no temporary file stays unless it cannot be
    removed.  No other process writes the destination meanwhile. *)
Theorem verified_write_exact fs :
  blank (path_text p) = false -> blank (subject_or_path subject p) = false ->
  let '(r, fs') := write_json_object_verified p payload blocker subject indent uuid out attempts after fs in
  (unlinked after = true -> fs' !! path_text temporary_of = None)
  /\ (forall q, q <> path_text p -> q <> path_text temporary_of -> fs' !! q = fs !! q)
  /\ ((out = Written /\ replaces attempts
       /\ read_json_object p blocker fs' = Ok (sorted_items payload)
       /\ (readable after = true /\ unlinked after = true
            /\ (exists v, r = Ok v /\ expected_sha256 v = _canonical_json_sha256 (JObj payload)
                    /\ observed_sha256 v = expected_sha256 v)
           \/ (readable after = false \/ unlinked after = false) /\ is_ok r = false))
      \/ (~ (out = Written /\ replaces attempts) /\ r = Raise OSError /\ fs' !! path_text p = fs !! path_text p)).
Proof using Hp Huuid Hok.
  intros Hb Hs. destruct (verified_write_run fs Hb Hs) as (fs' & -> & Ht & Hf & Hc).
  split; [done|]. split; [done|]. unfold write_result. rewrite <- placed_spec. destruct placed eqn:Ep.
  - apply placed_spec in Ep as (Hw & Hr). left. split; [done|]. split; [done|].
    split; [unfold read_json_object; by rewrite Hc, payload_loads|]. cbn [andb].
    destruct (unlinked after), (readable after); [left; split_and!; [done..|by eexists]|right; auto..].
  - right. by split.
Qed.

End Write.

(** ** A write refused twice *)

Definition ex_path : Path := mk_path "/state/" "latest.json".
Definition ex_payload : list (string * json) := [("status", JStr "READY"); ("counts", JList [JInt 2; JObj [("b", JNull); ("a", JInt 1)]])].
Definition ex_denied (k : nat) (turn : nat) : replace_outcome := if (turn <? k)%nat then Denied else Replaced.

Example ex_seven : _replace_with_retry (ex_denied 7) = Ok tt /\ _replace_with_retry (ex_denied 8) = Raise OSError.
Proof. split; reflexivity. Qed.

Lemma verified_write_exact_witness :
  let '(r, fs') := write_json_object_verified ex_path ex_payload "STATE_WRITE_FAILED" None (Some 2%nat) "5f" Written (ex_denied 2)
    (mk_aftermath true true) ∅ in
  fs' !! path_text (temporary_of ex_path "5f") = None.
Proof.
  pose proof (verified_write_exact ex_path ex_payload "STATE_WRITE_FAILED" None (Some 2%nat) "5f" Written (ex_denied 2)
    (mk_aftermath true true) eq_refl eq_refl eq_refl ∅ eq_refl eq_refl) as H.
  destruct (write_json_object_verified _ _ _ _ _ _ _ _ _ _) as [r fs']. exact (proj1 H eq_refl).
Defined.
