(* ===== verification/Domain.v ===== *)
(** [domain.py]: the enumerations the components share.  A Python [StrEnum] is
    a type with the text of each member; calling the class parses a text. *)
From S2P Require Import Prelude.

Class StrEnum (A : Type) := {
  members : list A;
  enum_text : A -> string;
  members_complete : forall a, In a members;
  enum_text_inj : forall a b, enum_text a = enum_text b -> a = b
}.

(** [Enum(text)]; [None] is ValueError. *)
Definition enum_parse {A} `{StrEnum A} (s : string) : option A :=
  List.find (fun a => String.eqb (enum_text a) s) members.

Lemma enum_parse_text {A} `{StrEnum A} (a : A) : enum_parse (enum_text a) = Some a.
Proof.
  unfold enum_parse. destruct (List.find _ members) as [b|] eqn:E.
  - apply find_some in E as [_ E%String.eqb_eq]. f_equal. by apply enum_text_inj.
  - pose proof (find_none _ _ E a (members_complete a)) as F. simpl in F.
    by rewrite String.eqb_refl in F.
Qed.

Lemma enum_parse_Some {A} `{StrEnum A} s (a : A) : enum_parse s = Some a -> s = enum_text a.
Proof. unfold enum_parse. intros [_ E%String.eqb_eq]%find_some. done. Qed.

Ltac solve_enum :=
  first [ intros []; simpl; tauto | intros [] []; simpl; intros; congruence ].

Inductive Action : Type := BUY | SELL | HOLD | WAIT | NO_TRADE.
#[export] Instance Action_eq_dec : EqDecision Action.
Proof. solve_decision. Defined.
#[export, refine] Instance Action_enum : StrEnum Action := {
  members := [BUY; SELL; HOLD; WAIT; NO_TRADE];
  enum_text a := match a with
    | BUY => "BUY" | SELL => "SELL" | HOLD => "HOLD" | WAIT => "WAIT" | NO_TRADE => "NO_TRADE"
    end
}.
Proof. all: solve_enum. Defined.

Inductive ExecutionStatus : Type :=
| EXECUTION_NOT_ALLOWED | EXECUTION_BLOCKED | EXECUTION_ALLOWED.
#[export] Instance ExecutionStatus_eq_dec : EqDecision ExecutionStatus.
Proof. solve_decision. Defined.

Inductive ValidationStatus : Type :=
| UNVALIDATED | RESEARCH_ONLY | STAGED_CANDIDATE | PAPER_APPROVED | LIVE_ELIGIBLE | REJECTED.
#[export] Instance ValidationStatus_eq_dec : EqDecision ValidationStatus.
Proof. solve_decision. Defined.
