(* ===== verification/TradeLedger.v ===== *)
(** [domain/research/virtual_runtime_attribution.py], the closed trades: their
    lineage, the record of a closed virtual trade, and the views that aggregate
    trades by strategy, regime and both.

    What an aggregation reads of a trade is the class [EdgeTrade], so the views
    of the backtest engine and of the attribution ledger share one definition
    and one set of lemmas. *)
From S2P Require Import Prelude PyDecimal DecimalFacts DecimalText PyFloat Sha256 PyText JsonText Serialize Domain Attribution.
From Stdlib Require Import QArith.
Local Open Scope Z_scope.
Local Open Scope bool_scope.

(** ** Labels and lineage *)

Inductive BacktestExitReason : Type :=
| LIQUIDATION | HARD_STOP | TARGET | TRAILING_STOP | STRUCTURE_INVALIDATION | TIME_EXIT | REGIME_EXIT
| MOMENTUM_FAILURE | END_OF_DATA.
#[export] Instance BacktestExitReason_eq_dec : EqDecision BacktestExitReason.
Proof. solve_decision. Defined.
#[export, refine] Instance BacktestExitReason_enum : StrEnum BacktestExitReason := {
  members := [LIQUIDATION; HARD_STOP; TARGET; TRAILING_STOP; STRUCTURE_INVALIDATION; TIME_EXIT; REGIME_EXIT;
              MOMENTUM_FAILURE; END_OF_DATA];
  enum_text r := match r with
    | LIQUIDATION => "LIQUIDATION" | HARD_STOP => "HARD_STOP" | TARGET => "TARGET" | TRAILING_STOP => "TRAILING_STOP"
    | STRUCTURE_INVALIDATION => "STRUCTURE_INVALIDATION" | TIME_EXIT => "TIME_EXIT" | REGIME_EXIT => "REGIME_EXIT"
    | MOMENTUM_FAILURE => "MOMENTUM_FAILURE" | END_OF_DATA => "END_OF_DATA"
    end
}.
Proof. all: solve_enum. Defined.

Inductive TradeDirection : Type := LONG | SHORT.

Record ClosedTradeAttribution : Type := mk_attribution {
  ca_strategy_id : string; ca_strategy_version : string; ca_config_version : string; ca_config_hash : string;
  ca_market : string; ca_symbol : string; ca_regime : string; ca_timeframe : string;
  ca_snapshot_id : string; ca_decision_id : string; ca_opportunity_id : string;
  ca_evidence : TradeDecisionEvidence
}.

(** The identities that must not be blank, with the names the messages use. *)
Definition lineage_fields (a : ClosedTradeAttribution) : list (string * string) :=
  [ ("strategy_id", ca_strategy_id a); ("strategy_version", ca_strategy_version a);
    ("strategy_config_version", ca_config_version a); ("strategy_config_hash", ca_config_hash a);
    ("market", ca_market a); ("symbol", ca_symbol a); ("regime", ca_regime a); ("timeframe", ca_timeframe a);
    ("snapshot_id", ca_snapshot_id a); ("decision_id", ca_decision_id a); ("opportunity_id", ca_opportunity_id a) ].

(** [ClosedTradeAttribution.__post_init__] *)
Fixpoint require_lineage (fields : list (string * string)) : res unit :=
  match fields with
  | [] => mret tt
  | (name, value) :: rest =>
      raise_if (blank value) (ValueError ("closed trade attribution " ++ name ++ " is required"));;
      require_lineage rest
  end.
Definition new_attribution (a : ClosedTradeAttribution) : res ClosedTradeAttribution :=
  require_lineage (lineage_fields a);; mret a.

(** ** Closed trades *)

Record VirtualClosedTradeRecord : Type := mk_closed {
  vc_trade_id : string;
  vc_attribution : ClosedTradeAttribution;
  vc_direction : TradeDirection;
  vc_entry_time : datetime;
  vc_exit_time : datetime;
  vc_entry_price : dec;
  vc_exit_price : dec;
  vc_quantity : dec;
  vc_risk_at_entry : dec;
  vc_entry_reason : list string;
  vc_exit_reason : BacktestExitReason;
  dge_decision : string;
  risk_policy_version : string;
  validation_version : string;
  vc_gross_pnl : dec;
  vc_fee_cost : dec;
  vc_slippage_cost : dec;
  vc_funding_cost : dec;
  vc_net_pnl : dec;
  vc_realized_r : dec;
  vc_mfe : dec;
  vc_mae : dec;
  false_breakout : bool;
  vc_leverage : option Z;
  vc_stop_loss : option dec;
  vc_targets : list dec;
  vc_planned_rr : option dec;
  vc_methods : TradeParameterMethods;
  vc_assessment : option TradeClosureAssessment
}.

Definition set_closed_assessment (a : TradeClosureAssessment) (t : VirtualClosedTradeRecord) : VirtualClosedTradeRecord :=
  mk_closed (vc_trade_id t) (vc_attribution t) (vc_direction t) (vc_entry_time t) (vc_exit_time t) (vc_entry_price t)
    (vc_exit_price t) (vc_quantity t) (vc_risk_at_entry t) (vc_entry_reason t) (vc_exit_reason t) (dge_decision t)
    (risk_policy_version t) (validation_version t) (vc_gross_pnl t) (vc_fee_cost t) (vc_slippage_cost t)
    (vc_funding_cost t) (vc_net_pnl t) (vc_realized_r t) (vc_mfe t) (vc_mae t) (false_breakout t) (vc_leverage t)
    (vc_stop_loss t) (vc_targets t) (vc_planned_rr t) (vc_methods t) (Some a).

(** [VirtualClosedTradeRecord.__post_init__] *)
Definition new_closed_trade (t : VirtualClosedTradeRecord) : res VirtualClosedTradeRecord :=
  raise_if (blank (vc_trade_id t)) (ValueError "virtual closed trade identity is required");;
  raise_if (existsb blank (vc_entry_reason t))
    (ValueError "virtual closed trade entry reason cannot contain blanks");;
  raise_if (existsb blank [dge_decision t; risk_policy_version t; validation_version t])
    (ValueError "virtual closed trade governance lineage is required");;
  a ← assess (ca_evidence (vc_attribution t)) (vc_entry_time t) (vc_entry_price t) (enum_text (vc_exit_reason t));
  mret (set_closed_assessment a t).

(** [int((exit - entry).total_seconds())] *)
Definition whole_seconds (entry exit : datetime) : res Z := float_trunc <$> total_seconds (dt_sub exit entry).

(** ** Grouping *)

Definition keys_eqb (a b : list string) : bool := bool_decide (a = b).
#[export] Instance keys_KeyEq : KeyEq keys_eqb.
Proof.
  unfold keys_eqb. split; [intros x; by apply bool_decide_eq_true| |].
  - intros x y. apply bool_decide_ext. split; congruence.
  - intros x y z Hx%bool_decide_eq_true Hy%bool_decide_eq_true. apply bool_decide_eq_true. congruence.
Qed.

(** The order of tuples of texts. *)
Fixpoint keys_leb (a b : list string) : bool :=
  match a, b with
  | [], _ => true
  | _ :: _, [] => false
  | x :: a', y :: b' => if String.eqb x y then keys_leb a' b' else String.leb x y
  end.

Section Grouping.
Context {T : Type} (key_fn : T -> list string).

(** [grouped.setdefault(key_fn(trade), []).append(trade)] over the trades *)
Definition append_group (d : list (list string * list T)) (t : T) : list (list string * list T) :=
  dict_set keys_eqb (key_fn t) (default [] (dict_get keys_eqb (key_fn t) d) ++ [t]) d.
Definition grouped (trades : list T) : list (list string * list T) := fold_left append_group trades [].

(** [for key in sorted(grouped): views.append(view(grouped[key]))] *)
Definition views_by {V : Type} (view : list T -> res V) (trades : list T) : res (list V) :=
  let d := grouped trades in
  mapM (fun key => view (default [] (dict_get keys_eqb key d))) (py_sorted keys_leb (map fst d)).
End Grouping.

(** ** Trade-edge views *)

(** What the aggregation of trade edges reads of a trade. *)
Class EdgeTrade (T : Type) := {
  et_attribution : T -> ClosedTradeAttribution;
  et_gross : T -> dec; et_fee : T -> dec; et_slippage : T -> dec; et_funding : T -> dec; et_net : T -> dec;
  et_realized_r : T -> dec; et_mfe : T -> dec; et_mae : T -> dec; et_holding : T -> res Z
}.

#[export] Instance closed_edge : EdgeTrade VirtualClosedTradeRecord := {
  et_attribution := vc_attribution;
  et_gross := vc_gross_pnl; et_fee := vc_fee_cost; et_slippage := vc_slippage_cost; et_funding := vc_funding_cost;
  et_net := vc_net_pnl; et_realized_r := vc_realized_r; et_mfe := vc_mfe; et_mae := vc_mae;
  et_holding t := whole_seconds (vc_entry_time t) (vc_exit_time t)
}.

Record TradeEdgeAggregateView : Type := mk_edge {
  ev_trade_count : Z;
  ev_gross_pnl : dec; ev_fee_cost : dec; ev_slippage_cost : dec; ev_funding_cost : dec; ev_net_pnl : dec;
  ev_average_r : dec; ev_average_mfe : dec; ev_average_mae : dec; ev_average_holding : dec;
  ev_strategy_id : option string; ev_regime : option string; ev_symbol : option string; ev_timeframe : option string
}.
(** [TradeEdgeAggregateView.__post_init__] *)
Definition new_edge (v : TradeEdgeAggregateView) : res TradeEdgeAggregateView :=
  raise_if (ev_trade_count v <? 1) (ValueError "trade edge aggregate requires at least one trade");; mret v.

Definition mean_of (total : dec) (count : Z) : res dec := ddiv total (dec_of_Z count).

(** The labels a view carries: strategy, regime, symbol and timeframe. *)
Definition labels : Type := (option string * option string * option string * option string)%type.

(** One view of the aggregation, over a group that is not empty. *)
Definition edge_view {T} `{EdgeTrade T} (view_fn : ClosedTradeAttribution -> labels) (group : list T)
  : res TradeEdgeAggregateView :=
  match group with
  | [] => Raise IndexError
  | first :: _ =>
      let count := Z.of_nat (length group) in
      let total (f : T -> dec) := dsum (map f group) in
      gross ← total et_gross; fee ← total et_fee; slippage ← total et_slippage; funding ← total et_funding;
      net ← total et_net;
      r ← total et_realized_r; average_r ← mean_of r count;
      mfe ← total et_mfe; average_mfe ← mean_of mfe count;
      mae ← total et_mae; average_mae ← mean_of mae count;
      holdings ← mapM et_holding group; holding ← dsum (map dec_of_Z holdings); average_holding ← mean_of holding count;
      let '(strategy, regime, symbol, timeframe) := view_fn (et_attribution first) in
      new_edge (mk_edge count gross fee slippage funding net average_r average_mfe average_mae average_holding
        strategy regime symbol timeframe)
  end.

Record TradeEdgeLedger : Type := mk_edges {
  by_strategy : list TradeEdgeAggregateView;
  by_regime : list TradeEdgeAggregateView;
  by_strategy_regime : list TradeEdgeAggregateView;
  by_symbol : list TradeEdgeAggregateView;
  by_timeframe : list TradeEdgeAggregateView
}.

(** The grouping keys. *)
Definition strategy_key (a : ClosedTradeAttribution) : list string := [ca_strategy_id a].
Definition regime_key (a : ClosedTradeAttribution) : list string := [ca_regime a].
Definition strategy_regime_key (a : ClosedTradeAttribution) : list string := [ca_strategy_id a; ca_regime a].

(** The labels of the views of [_trade_edge_views]: the symbol and the timeframe
    are those of the group's first trade. *)
Definition strategy_labels (a : ClosedTradeAttribution) : labels :=
  (Some (ca_strategy_id a), None, Some (ca_symbol a), Some (ca_timeframe a)).
Definition regime_labels (a : ClosedTradeAttribution) : labels :=
  (None, Some (ca_regime a), Some (ca_symbol a), Some (ca_timeframe a)).
Definition strategy_regime_labels (a : ClosedTradeAttribution) : labels :=
  (Some (ca_strategy_id a), Some (ca_regime a), Some (ca_symbol a), Some (ca_timeframe a)).

(** [_trade_edge_views] *)
Definition _trade_edge_views {T} `{EdgeTrade T} (key_fn : ClosedTradeAttribution -> list string)
  (view_fn : ClosedTradeAttribution -> labels) (trades : list T) : res (list TradeEdgeAggregateView) :=
  views_by (fun t => key_fn (et_attribution t)) (edge_view view_fn) trades.

(** ** Attribution views *)

Record VirtualTradeAttributionAggregate : Type := mk_aggregate {
  va_trade_count : Z;
  va_net_pnl : dec; va_expectancy : dec; va_average_r : dec; va_fee_drag : dec; va_slippage_drag : dec;
  va_funding_drag : dec; va_average_mfe : dec; va_average_mae : dec; va_false_breakout_rate : dec;
  va_drawdown_contribution : dec;
  va_strategy_id : option string; va_regime : option string
}.
(** [VirtualTradeAttributionAggregate.__post_init__] *)
Definition new_aggregate (v : VirtualTradeAttributionAggregate) : res VirtualTradeAttributionAggregate :=
  raise_if (va_trade_count v <? 1) (ValueError "virtual trade attribution aggregate requires trades");; mret v.

Record VirtualTradeAttributionLedger : Type := mk_trade_ledger {
  tl_closed_trades : list VirtualClosedTradeRecord;
  tl_edges : TradeEdgeLedger;
  tl_by_strategy : list VirtualTradeAttributionAggregate;
  tl_by_regime : list VirtualTradeAttributionAggregate;
  tl_by_strategy_regime : list VirtualTradeAttributionAggregate
}.

Section Attribution.
Context (float_repr : float -> string).

(** [Decimal(str(flagged / count))], of a finite quotient *)
Definition rate_of (flagged count : Z) : res dec :=
  q ← true_div flagged count;
  match parse_decimal (float_repr q) with Some (Finite d) => mret d | _ => Raise DecimalInvalidOperation end.

Definition attribution_view (view_fn : ClosedTradeAttribution -> option string * option string)
  (group : list VirtualClosedTradeRecord) : res VirtualTradeAttributionAggregate :=
  match group with
  | [] => Raise IndexError
  | first :: _ =>
      let count := Z.of_nat (length group) in
      let total (f : VirtualClosedTradeRecord -> dec) := dsum (map f group) in
      losses ← dsum (List.filter (fun d => d <? ZERO)%D (map vc_net_pnl group));
      gross_losses ← dabs losses;
      net ← total vc_net_pnl; net_size ← dabs net;
      let drawdown := dmin (if (gross_losses =? ZERO)%D then ZERO else gross_losses) net_size in
      expectancy ← mean_of net count;
      r ← total vc_realized_r; average_r ← mean_of r count;
      fee ← total vc_fee_cost; slippage ← total vc_slippage_cost; funding ← total vc_funding_cost;
      mfe ← total vc_mfe; average_mfe ← mean_of mfe count;
      mae ← total vc_mae; average_mae ← mean_of mae count;
      rate ← rate_of (Z.of_nat (length (List.filter false_breakout group))) count;
      let '(strategy, regime) := view_fn (vc_attribution first) in
      new_aggregate (mk_aggregate count net expectancy average_r fee slippage funding average_mfe average_mae rate drawdown
        strategy regime)
  end.

(** [_attribution_views] *)
Definition _attribution_views (key_fn : ClosedTradeAttribution -> list string)
  (view_fn : ClosedTradeAttribution -> option string * option string) (trades : list VirtualClosedTradeRecord)
  : res (list VirtualTradeAttributionAggregate) :=
  views_by (fun t => key_fn (vc_attribution t)) (attribution_view view_fn) trades.

(** [build_virtual_trade_attribution_ledger] *)
Definition build_virtual_trade_attribution_ledger (trades : list VirtualClosedTradeRecord)
  : res VirtualTradeAttributionLedger :=
  e_strategy ← _trade_edge_views strategy_key strategy_labels trades;
  e_regime ← _trade_edge_views regime_key regime_labels trades;
  e_both ← _trade_edge_views strategy_regime_key strategy_regime_labels trades;
  a_strategy ← _attribution_views strategy_key (fun a => (Some (ca_strategy_id a), None)) trades;
  a_regime ← _attribution_views regime_key (fun a => (None, Some (ca_regime a))) trades;
  a_both ← _attribution_views strategy_regime_key (fun a => (Some (ca_strategy_id a), Some (ca_regime a))) trades;
  mret (mk_trade_ledger trades (mk_edges e_strategy e_regime e_both [] []) a_strategy a_regime a_both).
End Attribution.

(** ** The views partition the trades *)

Lemma keys_eqb_spec a b : keys_eqb a b = true <-> a = b.
Proof. apply bool_decide_eq_true. Qed.

Lemma keys_leb_total a : forall b, keys_leb a b = true \/ keys_leb b a = true.
Proof.
  induction a as [|x a IH]; intros [|y b]; cbn; auto. rewrite (String.eqb_sym y x).
  destruct (String.eqb x y); [apply IH|apply string_leb_total].
Qed.

Lemma keys_leb_trans a : forall b c, keys_leb a b = true -> keys_leb b c = true -> keys_leb a c = true.
Proof.
  induction a as [|x a IH]; intros [|y b] [|z c]; cbn; try done.
  destruct (String.eqb_spec x y) as [<-|Hxy].
  - destruct (String.eqb_spec x z); [apply IH|done].
  - intros H1. destruct (String.eqb_spec y z) as [<-|Hyz].
    + intros _. by destruct (String.eqb_spec x y).
    + intros H2. destruct (String.eqb_spec x z) as [<-|Hxz]; [|by eapply string_leb_trans].
      by destruct Hxy; apply String.leb_antisym.
Qed.

Section GroupingFacts.
Context {T : Type} (key_fn : T -> list string).

(** The trades of one key, in their order. *)
Definition trades_of (key : list string) (trades : list T) : list T :=
  List.filter (fun t => keys_eqb key (key_fn t)) trades.

Lemma grouped_snoc trades t : grouped key_fn (trades ++ [t]) = append_group key_fn (grouped key_fn trades) t.
Proof. unfold grouped. by rewrite fold_left_app. Qed.

Lemma grouped_get key trades : dict_get keys_eqb key (grouped key_fn trades)
  = match trades_of key trades with [] => None | g => Some g end.
Proof.
  induction trades as [|t trades IH] using rev_ind; [done|].
  rewrite grouped_snoc. unfold append_group. rewrite (dict_get_set keys_eqb).
  unfold trades_of in *. rewrite List.filter_app. cbn [List.filter].
  destruct (keys_eqb key (key_fn t)) eqn:E; [|by rewrite app_nil_r].
  apply keys_eqb_spec in E as <-. rewrite IH. by destruct (List.filter _ _).
Qed.

Lemma grouped_wf trades : dict_wf keys_eqb (grouped key_fn trades).
Proof.
  induction trades as [|t trades IH] using rev_ind; [done|].
  rewrite grouped_snoc. by apply (dict_set_wf keys_eqb).
Qed.

Lemma grouped_keys key trades : In key (map fst (grouped key_fn trades)) <-> trades_of key trades <> [].
Proof.
  assert (In key (map fst (grouped key_fn trades)) <-> dict_get keys_eqb key (grouped key_fn trades) <> None) as ->.
  - rewrite in_map_iff. split.
    + intros ([k g] & <- & Hin). cbn. by rewrite (In_dict_get keys_eqb k g _ (grouped_wf trades) Hin).
    + destruct (dict_get _ _ _) as [g|] eqn:E; [|done]. intros _.
      apply (dict_get_In keys_eqb) in E as (k & Hin & Hk). apply keys_eqb_spec in Hk as <-. by exists (key, g).
  - rewrite grouped_get. by destruct (trades_of key trades).
Qed.

Lemma wf_keys_NoDup {V} (d : list (list string * V)) : dict_wf keys_eqb d -> List.NoDup (map fst d).
Proof.
  induction d as [|[k v] d IH]; cbn; [constructor|]. intros (H & Hd). constructor; [|auto].
  rewrite in_map_iff. intros ([k' v'] & E & Hin). cbn in E. subst. specialize (H _ _ Hin).
  by rewrite (proj2 (keys_eqb_spec k k) eq_refl) in H.
Qed.

(** The [views] are computed from the trades of each key, every trade having
    exactly one view, in the order of the keys. *)
Record partitioned {V : Type} (view : list T -> res V) (trades : list T) (views : list V) (keys : list (list string))
  : Prop := mk_partitioned {
  pt_ordered : ordered keys_leb keys;
  pt_distinct : List.NoDup keys;
  pt_covers : forall t, In t trades -> In (key_fn t) keys;
  pt_views : Forall2 (fun key v => trades_of key trades <> [] /\ view (trades_of key trades) = Ok v) keys views
}.

Lemma views_partition {V} (view : list T -> res V) trades views : views_by key_fn view trades = Ok views ->
  exists keys, partitioned view trades views keys.
Proof.
  unfold views_by. intros H. set (keys := py_sorted keys_leb (map fst (grouped key_fn trades))) in *.
  assert (forall key, In key keys <-> trades_of key trades <> []) as Hk
    by (intros key; unfold keys; rewrite py_sorted_In; apply grouped_keys).
  exists keys. split.
  - apply py_sorted_ordered; [intros; apply keys_leb_total|intros ? ? ?; apply keys_leb_trans].
  - eapply Permutation_NoDup; [symmetry; apply py_sorted_perm|]. apply wf_keys_NoDup, grouped_wf.
  - intros t Ht. apply Hk. intros E. assert (In t (trades_of (key_fn t) trades)) as Hin
      by (apply filter_In; split; [done|by apply keys_eqb_spec]). by rewrite E in Hin.
  - apply mapM_Ok in H. revert H.
    assert (forall key, In key keys -> trades_of key trades <> []) as Hk' by (intros; by apply Hk).
    clear -Hk'. intros H. induction H as [|key v keys views H F IH]; constructor.
    + assert (trades_of key trades <> []) as Hne by (apply Hk'; by left). split; [done|].
      rewrite <- H, grouped_get. by destruct (trades_of key trades).
    + apply IH. intros k Hin. apply Hk'. by right.
Qed.

Lemma trades_of_cons key t trades :
  trades_of key (t :: trades) = if keys_eqb key (key_fn t) then t :: trades_of key trades else trades_of key trades.
Proof. done. Qed.

Lemma groups_other keys t trades : (forall k, In k keys -> k <> key_fn t) ->
  sum_list_with (fun key => length (trades_of key (t :: trades))) keys
  = sum_list_with (fun key => length (trades_of key trades)) keys.
Proof.
  intros Hne. induction keys as [|k keys IH]; [done|]. cbn [sum_list_with].
  rewrite trades_of_cons, IH by (intros; apply Hne; by right).
  unfold keys_eqb. rewrite bool_decide_false; [done|]. apply Hne. by left.
Qed.

Lemma groups_total keys trades : List.NoDup keys -> (forall t, In t trades -> In (key_fn t) keys) ->
  sum_list_with (fun key => length (trades_of key trades)) keys = length trades.
Proof.
  intros Hn. induction trades as [|t trades IH]; intros Hc.
  - clear. induction keys as [|k keys IHk]; [done|]. cbn. done.
  - cbn [length]. rewrite <- IH by (intros; apply Hc; by right).
    assert (In (key_fn t) keys) as Hin by (apply Hc; by left). clear IH Hc. revert Hin.
    induction Hn as [|k keys Hk Hn IHn]; [done|]. intros [->|Hin]; cbn [sum_list_with]; rewrite trades_of_cons.
    + rewrite (proj2 (keys_eqb_spec _ _) eq_refl). cbn [length].
      rewrite (groups_other keys t trades) by (intros k' Hin; by intros ->). lia.
    + unfold keys_eqb at 1. rewrite bool_decide_false by (by intros ->). rewrite IHn by done. lia.
Qed.

Lemma partition_counts {V} (view : list T -> res V) (count : V -> Z) trades views keys :
  (forall g v, view g = Ok v -> count v = Z.of_nat (length g)) -> partitioned view trades views keys ->
  foldr Z.add 0 (map count views) = Z.of_nat (length trades).
Proof.
  intros Hv [_ Hn Hc F]. rewrite <- (groups_total keys trades Hn Hc). clear Hn Hc.
  induction F as [|key v keys views (_ & H) F IH]; [done|]. cbn. rewrite IH, (Hv _ _ H). lia.
Qed.

Lemma views_counted {V} (view : list T -> res V) (count : V -> Z) trades views : views_by key_fn view trades = Ok views ->
  (forall g v, view g = Ok v -> count v = Z.of_nat (length g)) ->
  (exists keys, partitioned view trades views keys) /\ foldr Z.add 0 (map count views) = Z.of_nat (length trades).
Proof.
  intros H Hv. apply views_partition in H as (keys & H). split; [by exists keys|by eapply partition_counts].
Qed.
End GroupingFacts.

Lemma edge_view_count {T} `{EdgeTrade T} view_fn (group : list T) v : edge_view view_fn group = Ok v ->
  ev_trade_count v = Z.of_nat (length group).
Proof.
  unfold edge_view. destruct group as [|t group]; [done|]. cbv zeta. intros Hv.
  do 14 (apply bind_Ok in Hv as (? & _ & Hv)). destruct (view_fn _) as [[[? ?] ?] ?].
  apply bind_Ok in Hv as (? & _ & Hv). by apply mret_Ok in Hv as <-.
Qed.

Lemma attribution_view_count repr view_fn group v : attribution_view repr view_fn group = Ok v ->
  va_trade_count v = Z.of_nat (length group).
Proof.
  unfold attribution_view. destruct group as [|t group]; [done|]. cbv zeta. intros Hv.
  do 15 (apply bind_Ok in Hv as (? & _ & Hv)). destruct (view_fn _) as [? ?].
  apply bind_Ok in Hv as (? & _ & Hv). by apply mret_Ok in Hv as <-.
Qed.

(** C28: the attribution ledger partitions the closed trades.  Every view of the
    ledger is computed from exactly the trades of its key, in their order; the
    views of a grouping are in the order of their keys, which are distinct and
    cover every trade, so the counts of the views of a grouping add up to the
    number of trades.  The views by symbol and by timeframe are left empty. *)
Theorem ledger_partitions_trades repr trades ledger :
  build_virtual_trade_attribution_ledger repr trades = Ok ledger ->
  let by_key {V} (key : ClosedTradeAttribution -> list string) (view : list VirtualClosedTradeRecord -> res V)
        (count : V -> Z) (views : list V) :=
    (exists keys, partitioned (fun t => key (vc_attribution t)) view trades views keys)
    /\ foldr Z.add 0 (map count views) = Z.of_nat (length trades) in
  let edges := tl_edges ledger in
  tl_closed_trades ledger = trades
  /\ by_key strategy_key (edge_view strategy_labels) ev_trade_count (by_strategy edges)
  /\ by_key regime_key (edge_view regime_labels) ev_trade_count (by_regime edges)
  /\ by_key strategy_regime_key (edge_view strategy_regime_labels) ev_trade_count (by_strategy_regime edges)
  /\ by_key strategy_key (attribution_view repr (fun a => (Some (ca_strategy_id a), None))) va_trade_count
       (tl_by_strategy ledger)
  /\ by_key regime_key (attribution_view repr (fun a => (None, Some (ca_regime a)))) va_trade_count (tl_by_regime ledger)
  /\ by_key strategy_regime_key (attribution_view repr (fun a => (Some (ca_strategy_id a), Some (ca_regime a))))
       va_trade_count (tl_by_strategy_regime ledger)
  /\ by_symbol edges = [] /\ by_timeframe edges = [].
Proof.
  unfold build_virtual_trade_attribution_ledger. intros H.
  do 6 (let v := fresh "v" in let Hv := fresh "Hv" in apply bind_Ok in H as (v & Hv & H)).
  apply mret_Ok in H as <-. split; [done|].
  do 3 (split; [eapply views_counted; [eassumption|intros; by eapply edge_view_count]|]).
  do 3 (split; [eapply views_counted; [eassumption|intros; by eapply attribution_view_count]|]).
  done.
Qed.

(** ** Examples *)

Definition ex_rate (_ : float) : string := "0.5".
Definition ex_lineage (strategy regime : string) : ClosedTradeAttribution :=
  mk_attribution strategy "1" "1" "default" "SPOT" "BTCUSDT" regime "1h" "snapshot" "decision" "opportunity"
    (ok_or (mk_evidence "" None "" "" "" "") default_evidence).
Definition ex_closed_trade (strategy regime : string) (flagged : bool) (net : dec) : VirtualClosedTradeRecord :=
  mk_closed "trade" (ex_lineage strategy regime) LONG (utc 0) (utc (seconds 60)) (lit 100 0) (lit 101 0) (lit 1 0) (lit 2 0)
    ["BACKTEST_SIGNAL"] TARGET "PASS" "1" "1" net ZERO ZERO ZERO net (lit 1 0) (lit 1 0) ZERO flagged None None [] None
    default_methods None.
Definition ex_trades : list VirtualClosedTradeRecord := Eval vm_compute in
  map (fun t => ok_or t (new_closed_trade t))
    [ex_closed_trade "trend" "BULL" false (lit 3 0); ex_closed_trade "range" "BULL" true (lit (-1) 0);
     ex_closed_trade "trend" "BEAR" false (lit 4 0)].

Lemma ledger_partitions_trades_witness : exists ledger,
  build_virtual_trade_attribution_ledger ex_rate ex_trades = Ok ledger
  /\ map ev_trade_count (by_strategy (tl_edges ledger)) = [1; 2]
  /\ foldr Z.add 0 (map va_trade_count (tl_by_regime ledger)) = 3.
Proof.
  eexists. split; [vm_compute; reflexivity|]. split; [vm_compute; reflexivity|].
  refine (proj2 (proj1 (proj2 (proj2 (proj2 (proj2 (proj2 (ledger_partitions_trades ex_rate ex_trades _ _)))))))).
  vm_compute. reflexivity.
Defined.
