(* ===== verification/Events.v ===== *)
(** [events/models.py] and [events/bus.py]: hash-linked domain events and the
    in-memory bus that validates a chain before committing to it. *)
From S2P Require Import Prelude Sha256 PyText.
From stdpp Require Import relations.
Local Open Scope Z_scope.
Local Open Scope bool_scope.

(** ** Events *)

Definition payload_t : Type := list (string * string).

Record DomainEvent : Type := mk_event {
  event_id : string;
  aggregate_id : string;
  event_type : string;
  sequence : Z;
  occurred_at : datetime;
  payload : payload_t;
  previous_hash : string;
  event_hash : string
}.

#[export] Instance DomainEvent_eq_dec : EqDecision DomainEvent.
Proof. solve_decision. Defined.

(** Tuple order on payload items. *)
Definition item_leb (x y : string * string) : bool :=
  if String.eqb x.1 y.1 then String.leb x.2 y.2 else String.leb x.1 y.1.

Definition payload_json (p : payload_t) : json :=
  JList (map (fun kv => JList [JStr kv.1; JStr kv.2]) p).

(** [DomainEvent.compute_hash] *)
Definition compute_hash (id agg ty : string) (seq : Z) (at_ : datetime) (p : payload_t)
  (prev : string) : string :=
  sha256 (dumps (JObj
    [ ("aggregate_id", JStr agg); ("event_id", JStr id); ("event_type", JStr ty);
      ("occurred_at", JStr (isoformat at_)); ("payload", payload_json p);
      ("previous_hash", JStr prev); ("sequence", JInt seq) ])).

Definition event_digest (e : DomainEvent) : string :=
  compute_hash (event_id e) (aggregate_id e) (event_type e) (sequence e) (occurred_at e)
    (payload e) (previous_hash e).

(** [DomainEvent.__post_init__] *)
Definition new_event (e : DomainEvent) : res DomainEvent :=
  raise_if (blank (event_id e) || blank (aggregate_id e) || blank (event_type e)
            || (sequence e <? 1))
    (ValueError "event identity and positive sequence are required");;
  raise_if (naive (occurred_at e)) (ValueError "event timestamp must be timezone-aware");;
  raise_if (existsb (fun kv => blank kv.1) (payload e)
            || negb (all_unique String.eqb (map fst (payload e))))
    (ValueError "event payload keys must be non-empty and unique");;
  raise_if (negb (bool_decide (py_sorted item_leb (payload e) = payload e)))
    (ValueError "event payload must be sorted");;
  raise_if (negb (String.eqb (event_hash e) (event_digest e)))
    (ValueError "event content hash is invalid");;
  mret e.

(** [DomainEvent.create] *)
Definition create_event (id agg ty : string) (seq : Z) (at_ : datetime) (p : payload_t)
  (prev : string) : res DomainEvent :=
  let ordered := py_sorted item_leb p in
  new_event (mk_event id agg ty seq at_ ordered prev
    (compute_hash id agg ty seq at_ ordered prev)).

(** [DomainEvent.payload_dict] with [dict.get]; the keys are unique. *)
Definition payload_get (e : DomainEvent) (key : string) : option string :=
  dict_get String.eqb key (payload e).

Definition GENESIS : string := "GENESIS".

(** Creation succeeds on sound fields, and stores the payload as a dictionary
    with the same entries. *)
Lemma item_leb_total x y : item_leb x y = true \/ item_leb y x = true.
Proof.
  unfold item_leb. rewrite (String.eqb_sym y.1). destruct (String.eqb x.1 y.1); apply string_leb_total.
Qed.

Lemma string_leb_antisym s t : String.leb s t = true -> String.leb t s = true -> s = t.
Proof. apply String.leb_antisym. Qed.

Lemma item_leb_trans x y z : item_leb x y = true -> item_leb y z = true -> item_leb x z = true.
Proof.
  unfold item_leb. destruct (String.eqb_spec x.1 y.1) as [->|Hxy].
  - destruct (String.eqb y.1 z.1); [apply string_leb_trans|done].
  - destruct (String.eqb_spec y.1 z.1) as [<-|Hyz].
    + apply String.eqb_neq in Hxy as ->. done.
    + intros H1 H2. destruct (String.eqb_spec x.1 z.1) as [E|Hn]; [|by eapply string_leb_trans].
      exfalso. apply Hxy. apply string_leb_antisym; [done|]. by rewrite E.
Qed.

Lemma create_event_Ok id agg ty seq at_ p prev :
  blank id || blank agg || blank ty = false -> 1 <= seq -> naive at_ = false ->
  existsb (fun kv => blank kv.1) p = false -> all_unique String.eqb (map fst p) = true ->
  exists e, create_event id agg ty seq at_ p prev = Ok e /\ event_id e = id /\ aggregate_id e = agg /\
    event_type e = ty /\ sequence e = seq /\ occurred_at e = at_ /\ previous_hash e = prev /\
    forall k, payload_get e k = dict_get String.eqb k p.
Proof.
  intros H1 H2 H3 H4 H5. pose proof (py_sorted_perm item_leb p) as Hp.
  apply all_unique_spec in H5.
  assert (all_unique String.eqb (map fst (py_sorted item_leb p)) = true) as U.
  { apply all_unique_spec. eapply pairwise_distinct_perm; [|exact H5].
    apply Permutation_map. by symmetry. }
  assert (existsb (fun kv => blank kv.1) (py_sorted item_leb p) = false) as B.
  { apply not_true_iff_false. intros (x & Hx & Hb)%existsb_exists.
    apply py_sorted_In in Hx. apply not_true_iff_false in H4. apply H4, existsb_exists. eauto. }
  unfold create_event, new_event. cbv zeta.
  cbn [event_id aggregate_id event_type sequence occurred_at payload event_hash].
  rewrite H1, H3, B, U. destruct (Z.ltb_spec seq 1); [lia|].
  rewrite (bool_decide_eq_true_2 (py_sorted item_leb (py_sorted item_leb p) = py_sorted item_leb p)).
  2:{ apply py_sorted_fixed, py_sorted_ordered; [apply item_leb_total|apply item_leb_trans]. }
  unfold event_digest. cbn [event_id aggregate_id event_type sequence occurred_at payload previous_hash].
  rewrite String.eqb_refl. cbn [orb negb raise_if]. rewrite !Ok_bind.
  eexists. split; [reflexivity|]. cbn. split; [done|]. split; [done|]. split; [done|]. split; [done|].
  split; [done|]. split; [done|]. intros k. unfold payload_get. cbn [payload].
  by apply dict_get_perm.
Qed.

(** ** The bus *)

(** [_validate_next_event] against a verified tail *)
Definition _validate_next_event (event : DomainEvent) (capacity event_count : Z)
  (event_ids : list string) (latest : option DomainEvent) : res unit :=
  raise_if (capacity <=? event_count) (OverflowError "event journal capacity exceeded");;
  raise_if (str_in (event_id event) event_ids) (ValueError "duplicate event identity");;
  let expected_hash := match latest with Some l => event_hash l | None => GENESIS end in
  raise_if (negb (sequence event =? event_count + 1))
    (ValueError "event sequence is not contiguous");;
  raise_if (negb (String.eqb (previous_hash event) expected_hash))
    (ValueError "event hash chain is broken");;
  raise_if (match latest with Some l => dt_ltb (occurred_at event) (occurred_at l) | None => false end)
    (ValueError "event time cannot move backwards").

(** Subscribers are callables compared by identity; what one does to its own
    world [W] is [handler]. *)
Section Bus.

Context {W : Type} (handler : N -> DomainEvent -> method W unit).

Record bus : Type := mk_bus {
  capacity : Z;
  events : list DomainEvent;
  event_ids : list string;
  subscribers : list N
}.

(** [DeterministicEventBus(capacity)] *)
Definition new_bus (capacity : Z) : res bus :=
  raise_if (negb ((1 <=? capacity) && (capacity <=? 1000000)))
    (ValueError "event bus capacity must be between 1 and 1000000");;
  mret (mk_bus capacity [] [] []).

Definition subscribe (s : N) : method bus unit :=
  b ← get;
  lift (raise_if (existsb (N.eqb s) (subscribers b))
    (ValueError "event subscriber is already registered"));;
  put (mk_bus (capacity b) (events b) (event_ids b) (subscribers b ++ [s])).

Definition commit (e : DomainEvent) (b : bus) : bus :=
  mk_bus (capacity b) (events b ++ [e]) (event_ids b ++ [event_id e]) (subscribers b).

Definition validate_next (e : DomainEvent) (b : bus) : res unit :=
  _validate_next_event e (capacity b) (Z.of_nat (length (events b))) (event_ids b) (last (events b)).

(** Calls every subscriber in registration order; the first exception ends
    the loop after the event was committed. *)
Fixpoint notify (ss : list N) (e : DomainEvent) : method W unit :=
  match ss with
  | [] => mret tt
  | s :: ss' => handler s e;; notify ss' e
  end.

(** [DeterministicEventBus.publish] *)
Definition publish (e : DomainEvent) : method (bus * W) unit := fun '(b, w) =>
  match validate_next e b with
  | Raise x => (Raise x, (b, w))
  | Ok _ =>
      let b' := commit e b in
      let '(r, w') := notify (subscribers b') e w in (r, (b', w'))
  end.

(** [DeterministicEventBus.replay] *)
Fixpoint replay (es : list DomainEvent) : method (bus * W) unit :=
  match es with
  | [] => mret tt
  | e :: es' => publish e;; replay es'
  end.

End Bus.

(** ** Chains *)

Definition tail_hash (es : list DomainEvent) : string :=
  match last es with Some l => event_hash l | None => GENESIS end.

(** A chain: positions, hashes, identities and times all link up. *)
Inductive chain : list DomainEvent -> Prop :=
| chain_nil : chain []
| chain_snoc es e :
    chain es ->
    ~ In (event_id e) (map event_id es) ->
    sequence e = Z.of_nat (length es) + 1 ->
    previous_hash e = tail_hash es ->
    (forall l, last es = Some l -> instant (occurred_at l) <= instant (occurred_at e)) ->
    chain (es ++ [e]).

Lemma validate_next_event_spec e cap ids es :
  ids = map event_id es ->
  _validate_next_event e cap (Z.of_nat (length es)) ids (last es) = Ok tt <->
  Z.of_nat (length es) < cap /\ ~ In (event_id e) (map event_id es) /\
  sequence e = Z.of_nat (length es) + 1 /\ previous_hash e = tail_hash es /\
  (forall l, last es = Some l -> instant (occurred_at l) <= instant (occurred_at e)).
Proof.
  intros ->. unfold _validate_next_event. cbv zeta. fold (tail_hash es). split.
  - intros H. inv_res. apply str_in_false in Hm0. zify_bool. split_and!; try done.
    intros l Hl. rewrite Hl in H. unfold dt_ltb in H. by zify_bool.
  - intros (H1 & H2 & H3 & H4 & H5). apply str_in_false in H2.
    rewrite H2, H3, H4, Z.eqb_refl, String.eqb_refl.
    destruct (Z.leb_spec cap (Z.of_nat (length es))); [lia|]. simpl.
    destruct (last es) as [l|] eqn:El; [|done]. specialize (H5 l eq_refl).
    unfold dt_ltb. destruct (Z.ltb_spec (instant (occurred_at e)) (instant (occurred_at l))); [lia|done].
Qed.

Lemma chain_snoc_inv es e : chain (es ++ [e]) ->
  chain es /\ ~ In (event_id e) (map event_id es) /\ sequence e = Z.of_nat (length es) + 1 /\
  previous_hash e = tail_hash es /\
  (forall l, last es = Some l -> instant (occurred_at l) <= instant (occurred_at e)).
Proof.
  intros H. inversion H as [E|es' e' Hc H1 H2 H3 H4 E]; [by destruct es|].
  apply app_inj_tail in E as [-> ->]. auto.
Qed.

Lemma chain_prefix es es' : chain (es ++ es') -> chain es.
Proof.
  induction es' as [|e es' IH] using rev_ind; [by rewrite app_nil_r|].
  rewrite app_assoc. intros H. apply chain_snoc_inv in H as [H _]. auto.
Qed.

(** Position [i] of a chain holds the event with sequence [i + 1]. *)
Lemma chain_position es i e : chain es -> nth_error es i = Some e -> sequence e = Z.of_nat i + 1.
Proof.
  intros H. induction H as [|es e' H IH _ Hs _ _]; [by destruct i|].
  destruct (Nat.lt_ge_cases i (length es)) as [Hi|Hi].
  - rewrite nth_error_app1 by done. auto.
  - rewrite nth_error_app2 by done. destruct (i - length es)%nat as [|k] eqn:E.
    + intros [= <-]. lia.
    + simpl. by destruct k.
Qed.

Section BusFacts.

Context {W : Type} (handler : N -> DomainEvent -> method W unit).

Record bus_ok (b : bus) : Prop := mk_bus_ok {
  bus_chain : chain (events b);
  bus_ids : event_ids b = map event_id (events b);
  bus_bounded : Z.of_nat (length (events b)) <= capacity b
}.

Lemma commit_ok e b : bus_ok b -> validate_next e b = Ok tt -> bus_ok (commit e b).
Proof.
  intros [Hc Hi Hb] H. apply validate_next_event_spec in H as (H1 & H2 & H3 & H4 & H5); [|done].
  split; simpl.
  - by apply chain_snoc.
  - by rewrite Hi, map_app.
  - rewrite length_app. simpl. lia.
Qed.

Lemma publish_run e b w r b' w' : publish handler e (b, w) = (r, (b', w')) ->
  (b' = b /\ exists x, r = Raise x /\ validate_next e b = Raise x) \/
  (b' = commit e b /\ validate_next e b = Ok tt).
Proof.
  unfold publish. destruct (validate_next e b) as [[]|x] eqn:E.
  - destruct (notify handler _ e w). intros [= _ <- _]. auto.
  - intros [= <- <- _]. left. eauto.
Qed.

Lemma replay_quiet es : forall b (w : W), subscribers b = [] -> bus_ok b ->
  chain (events b ++ es) -> Z.of_nat (length (events b ++ es)) <= capacity b ->
  replay handler es (b, w) =
  (Ok tt, (mk_bus (capacity b) (events b ++ es) (map event_id (events b ++ es)) [], w)).
Proof.
  induction es as [|e es IH]; intros b w Hs Hb Hc Hl.
  { simpl. rewrite app_nil_r, <- (bus_ids b Hb), <- Hs. by destruct b. }
  assert (validate_next e b = Ok tt) as V.
  { apply validate_next_event_spec; [apply Hb|].
    change (e :: es) with ([e] ++ es) in Hc. rewrite app_assoc in Hc. apply chain_prefix in Hc.
    apply chain_snoc_inv in Hc as (_ & H1 & H2 & H3 & H4). split_and!; try done.
    rewrite length_app in Hl. simpl in Hl. lia. }
  simpl. rewrite method_bind_run. unfold publish at 1. rewrite V. simpl. rewrite Hs. simpl.
  rewrite IH; simpl; rewrite ?Hs, <- ?app_assoc; try done. by apply commit_ok.
Qed.

End BusFacts.

Lemma replay_sound {W} (h : N -> DomainEvent -> method W unit) es : forall b w b' w',
  bus_ok b -> replay h es (b, w) = (Ok tt, (b', w')) ->
  bus_ok b' /\ events b' = events b ++ es.
Proof.
  induction es as [|e es IH]; intros b w b' w' Hb H; simpl in H.
  { injection H as <- <-. by rewrite app_nil_r. }
  rewrite method_bind_run in H. destruct (publish h e (b, w)) as [[[]|x] [b1 w1]] eqn:E; [|done].
  apply publish_run in E as [(_ & x & ? & _)|[-> V]]; [done|].
  apply IH in H as [H1 H2]; [|by apply commit_ok]. split; [done|].
  rewrite H2. simpl. by rewrite <- app_assoc.
Qed.

(** ** Nested calls *)

(** The calls of [publish] under way, the innermost first: the event each one
    committed, with the subscribers it still has to call, the first of which is
    the one that runs. *)
Definition calls : Type := list (DomainEvent * list N).

(** One step of a bus with its calls under way.  A call comes from outside or
    from the subscriber that runs, which is free to subscribe and to publish
    again and to catch or to pass on what that raises. *)
Inductive bus_step : bus * calls -> bus * calls -> Prop :=
| step_subscribe b k s : bus_step (b, k) ((subscribe s b).2, k)
| step_refused b k e x : validate_next e b = Raise x -> bus_step (b, k) (b, k)
| step_publish b k e :
    validate_next e b = Ok tt -> bus_step (b, k) (commit e b, (e, subscribers (commit e b)) :: k)
| step_returns b k e s ss : bus_step (b, (e, s :: ss) :: k) (b, (e, ss) :: k)
| step_done b k e : bus_step (b, (e, []) :: k) (b, k)
| step_raises b k e s ss : bus_step (b, (e, s :: ss) :: k) (b, k).

Lemma notify_steps b k e ss : rtc bus_step (b, (e, ss) :: k) (b, k).
Proof.
  induction ss as [|s ss IH]; [apply rtc_once, step_done|]. eapply rtc_l; [apply step_returns|done].
Qed.

(** [publish] with subscribers that keep to their own state is a run of steps. *)
Lemma publish_steps {W} (h : N -> DomainEvent -> method W unit) e b w k :
  rtc bus_step (b, k) ((publish h e (b, w)).2.1, k).
Proof.
  destruct (publish h e (b, w)) as [r [b' w']] eqn:E.
  apply publish_run in E as [(-> & x & _ & V)|[-> V]]; cbn [fst snd].
  - by eapply rtc_once, step_refused.
  - eapply rtc_l; [by apply step_publish|]. apply notify_steps.
Qed.

Lemma subscribe_kept s b : events (subscribe s b).2 = events b /\ event_ids (subscribe s b).2 = event_ids b
  /\ capacity (subscribe s b).2 = capacity b.
Proof. unfold subscribe. autorewrite with method. by destruct (existsb _ _). Qed.

(** What a bus with calls under way keeps. *)
Definition calls_ok (c : Z) (st : bus * calls) : Prop :=
  bus_ok st.1 /\ capacity st.1 = c /\ Forall (fun f => In f.1 (events st.1)) st.2.

Lemma bus_step_ok c st st' : bus_step st st' -> calls_ok c st ->
  calls_ok c st' /\ exists l, events st'.1 = events st.1 ++ l.
Proof.
  intros H (Hb & Hc & Hk). destruct H as [b k s|b k e x V|b k e V|b k e s ss|b k e|b k e s ss]; cbn [fst snd] in *.
  - destruct (subscribe_kept s b) as (E1 & E2 & E3). destruct Hb as [H1 H2 H3].
    split; [|exists []; by rewrite E1, app_nil_r].
    split; [split; cbn [fst]; by rewrite ?E1, ?E2, ?E3|]. cbn [fst snd]. by rewrite E1, E3.
  - split; [done|]. exists []. by rewrite app_nil_r.
  - split; [|by exists [e]]. split; [by apply commit_ok|]. split; [done|]. cbn.
    constructor; [cbn; apply in_or_app; right; by left|].
    eapply Forall_impl; [exact Hk|]. intros f Hf. apply in_or_app. by left.
  - apply Forall_cons in Hk as [Hf Hk]. split; [split; [done|]; split; [done|]; by constructor|]. exists []. by rewrite app_nil_r.
  - apply Forall_cons in Hk as [_ Hk]. split; [done|]. exists []. by rewrite app_nil_r.
  - apply Forall_cons in Hk as [_ Hk]. split; [done|]. exists []. by rewrite app_nil_r.
Qed.

Lemma bus_steps_ok c st st' : rtc bus_step st st' -> calls_ok c st ->
  calls_ok c st' /\ exists l, events st'.1 = events st.1 ++ l.
Proof.
  induction 1 as [st|st st1 st2 H _ IH]; intros Hst; [split; [done|]; exists []; by rewrite app_nil_r|].
  destruct (bus_step_ok c _ _ H Hst) as [H1 (l & E)]. destruct (IH H1) as [H2 (l' & E')].
  split; [done|]. exists (l ++ l'). by rewrite E', E, app_assoc.
Qed.

(** C26: the bus holds a chain.  Whatever is published, accepted or refused,
    and whatever the subscribers do, raising or calling the bus again while it
    calls them, to any depth, the events of the bus stay a chain: sequences
    count from 1 without holes, every event carries the hash of its
    predecessor, identities are unique, time never goes back, and the journal
    stays within its capacity.  No event is ever taken back, an event is
    committed before the first subscriber is called with it, and a call of
    [publish] with subscribers that keep to their own state appends its event
    or raises and changes nothing. *)
Theorem bus_holds_chain {W} (h : N -> DomainEvent -> method W unit) c b0 b k b' k' :
  new_bus c = Ok b0 -> rtc bus_step (b0, []) (b, k) -> rtc bus_step (b, k) (b', k') ->
  bus_ok b' /\ capacity b' = c /\ (exists l, events b' = events b ++ l)
  /\ Forall (fun f => In f.1 (events b')) k'
  /\ forall e w, let '(r, (b1, _)) := publish h e (b', w) in
     bus_ok b1 /\ (b1 = commit e b' \/ b1 = b' /\ exists x, r = Raise x /\ validate_next e b' = Raise x).
Proof.
  intros H0 H1 H2. unfold new_bus in H0. inv_res. zify_bool. subst b0.
  assert (calls_ok c (mk_bus c [] [] [], [])) as Hok
    by (repeat split; cbn; [constructor|lia|constructor]).
  destruct (bus_steps_ok _ _ _ H1 Hok) as [Hb _].
  destruct (bus_steps_ok _ _ _ H2 Hb) as [(Hb' & Hc & Hk) (l & E)]. do 2 (split; [done|]).
  split; [by exists l|]. split; [done|]. intros e w. destruct (publish h e (b', w)) as [r [b1 w1]] eqn:Ep.
  apply publish_run in Ep as [[-> Hx]|[-> V]]; [by auto|]. split; [by apply commit_ok|by left].
Qed.

(** Replay accepts exactly the chains.  On a new bus without subscribers,
    [replay] of a list of events returns if and only if the list is a chain that
    fits the capacity, and then the bus holds exactly that list; this is the
    check a journal runs on every load. *)
Theorem replay_accepts_chains {W} (h : N -> DomainEvent -> method W unit) c b w es :
  new_bus c = Ok b ->
  (exists st, replay h es (b, w) = (Ok tt, st) /\ events st.1 = es) <->
  chain es /\ Z.of_nat (length es) <= c.
Proof.
  intros H. unfold new_bus in H. inv_res. zify_bool. subst b.
  assert (bus_ok (mk_bus c [] [] [])) as H0 by (split; simpl; [constructor|done|lia]).
  split.
  - intros ([b' w'] & H & He). pose proof (replay_sound _ _ _ _ _ _ H0 H) as [[Hc _ Hl] E].
    simpl in *. assert (capacity b' = c) as Ec; [|by rewrite <- He, <- Ec].
    clear - H. assert (forall es b w b' w', replay h es (b, w) = (Ok tt, (b', w')) ->
      capacity b' = capacity b) as G; [|by apply G in H].
    clear. induction es as [|e es IH]; simpl; intros b w b' w' H; [by injection H as <- <-|].
    rewrite method_bind_run in H. destruct (publish h e (b, w)) as [[[]|x] [b1 w1]] eqn:E; [|done].
    apply IH in H. apply publish_run in E as [[-> _]|[-> _]]; done.
  - intros [Hc Hl]. eexists. split; [by apply replay_quiet|]. done.
Qed.

(** ** Witnesses *)

Definition no_handler : N -> DomainEvent -> method unit unit := fun _ _ => mret tt.
Definition ex_event (id : string) (seq : Z) (p : payload_t) (prev : string) : DomainEvent :=
  let e := mk_event id "order-1" "ORDER_SUBMITTED" seq (utc (seq * 1000000)) p prev "" in
  mk_event id "order-1" "ORDER_SUBMITTED" seq (utc (seq * 1000000)) p prev (event_digest e).
Definition ex_chain : list DomainEvent := Eval vm_compute in
  let e1 := ex_event "e1" 1 [("action", "BUY")] GENESIS in
  let e2 := ex_event "e2" 2 [] (event_hash e1) in [e1; e2].

Lemma ex_chain_chain : chain ex_chain.
Proof.
  change ex_chain with ([] ++ firstn 1 ex_chain ++ skipn 1 ex_chain). rewrite app_assoc.
  apply chain_snoc; [apply (chain_snoc []); [constructor|simpl; tauto|done|done|done]| | | |].
  - simpl. intros [H|[]]. discriminate H.
  - reflexivity.
  - vm_compute. reflexivity.
  - intros l [= <-]. vm_compute. discriminate.
Qed.

(** The subscriber of the bus publishes the second event while it is called
    with the first, is called again and raises, publishes the second once more,
    which is refused, and passes that on. *)
Definition ex_none : DomainEvent := mk_event "" "" "" 0 (utc 0) [] "" "".
Definition ex_first : DomainEvent := Eval vm_compute in default ex_none (nth_error ex_chain 0).
Definition ex_second : DomainEvent := Eval vm_compute in default ex_none (nth_error ex_chain 1).
Definition ex_subscribed : bus := (subscribe 7%N (mk_bus 10 [] [] [])).2.

Lemma ex_nested_called :
  rtc bus_step (mk_bus 10 [] [] [], []) (commit ex_first ex_subscribed, [(ex_first, [7%N])]).
Proof.
  eapply rtc_l; [apply (step_subscribe _ _ 7%N)|]. change (subscribe 7%N _).2 with ex_subscribed.
  eapply rtc_l; [apply (step_publish _ _ ex_first); vm_compute; reflexivity|]. apply rtc_refl.
Qed.

Lemma ex_nested_raises :
  rtc bus_step (commit ex_first ex_subscribed, [(ex_first, [7%N])])
    (commit ex_second (commit ex_first ex_subscribed), []).
Proof.
  eapply rtc_l; [apply (step_publish _ _ ex_second); vm_compute; reflexivity|].
  eapply rtc_l; [apply step_raises|].
  eapply rtc_l; [apply (step_refused _ _ ex_second (ValueError "duplicate event identity")); vm_compute; reflexivity|].
  apply rtc_once, step_raises.
Qed.

Lemma bus_holds_chain_witness :
  let b := commit ex_second (commit ex_first ex_subscribed) in
  events b = ex_chain /\ bus_ok b /\ bus_ok (publish no_handler ex_first (b, tt)).2.1.
Proof.
  destruct (bus_holds_chain no_handler 10 (mk_bus 10 [] [] []) _ _ _ _ eq_refl ex_nested_called ex_nested_raises)
    as (H1 & _ & _ & _ & H2).
  split; [vm_compute; reflexivity|]. split; [exact H1|].
  specialize (H2 ex_first tt). destruct (publish _ _ _) as [r [b1 w1]]. apply H2.
Defined.

Lemma replay_accepts_chains_witness :
  exists st, replay no_handler ex_chain (mk_bus 10 [] [] [], tt) = (Ok tt, st) /\ events st.1 = ex_chain.
Proof.
  apply (replay_accepts_chains no_handler 10 (mk_bus 10 [] [] []) tt ex_chain eq_refl).
  split; [apply ex_chain_chain|]. vm_compute. discriminate.
Defined.

(** Checking a concrete chain by running the bus. *)
Lemma check_chain cap es : 0 <= cap ->
  fst (replay no_handler es (mk_bus cap [] [] [], tt)) = Ok tt -> chain es.
Proof.
  intros Hc H. destruct (replay no_handler es _) as [r [b w]] eqn:E. simpl in H. subst r.
  apply replay_sound in E as [[Hch _ _] He]; [by rewrite He in Hch|].
  split; simpl; [constructor|done|lia].
Qed.
