(* ===== verification/OrderBook.v ===== *)
(** [exchange/order_book.py]: the sequence-aware reconstruction of a public
    order book.  The book is a mutable object, so its methods are
    [method order_book]: what they assigned before an exception stays. *)
From S2P Require Import Prelude PyDecimal DecimalFacts.
From Stdlib Require Import QArith Lqa.
Local Open Scope Z_scope.
Local Open Scope bool_scope.

(** ** Data *)

Inductive BookState : Type := EMPTY | LIVE | GAP_DETECTED | DEGRADED.

#[export] Instance BookState_eq_dec : EqDecision BookState.
Proof. solve_decision. Defined.

Record BookLevel : Type := mk_BookLevel { price : dec; quantity : dec }.

(** [BookLevel.__post_init__] *)
Definition new_BookLevel (p q : pydec) : res BookLevel :=
  match p, q with
  | Finite p, Finite q =>
      if (p <=? ZERO)%D || (q <? ZERO)%D
      then Raise (ValueError "book level price and quantity are invalid")
      else Ok (mk_BookLevel p q)
  | _, _ => Raise (ValueError "book level price and quantity are invalid")
  end.

Record OrderBookSnapshot : Type := mk_Snapshot {
  snap_symbol : string;
  snap_last_update_id : Z;
  observed_at : datetime;
  snap_bids : list BookLevel;
  snap_asks : list BookLevel;
  sequence_bridged : bool
}.

(** [OrderBookSnapshot.__post_init__] *)
Definition new_Snapshot symbol last_update_id at_ bids asks bridged : res OrderBookSnapshot :=
  raise_if ((last_update_id <? 1) || blank symbol)
    (ValueError "order-book snapshot identity is invalid");;
  raise_if (naive at_) (ValueError "order-book snapshot timestamp must be timezone-aware");;
  raise_if (is_nil bids || is_nil asks)
    (ValueError "order-book snapshot must contain both sides");;
  mret (mk_Snapshot symbol last_update_id at_ bids asks bridged).

Record OrderBookDelta : Type := mk_Delta {
  first_update_id : Z;
  delta_last_update_id : Z;
  event_time : datetime;
  delta_bids : list BookLevel;
  delta_asks : list BookLevel;
  previous_update_id : option Z
}.

(** [OrderBookDelta.__post_init__] *)
Definition new_Delta first last at_ bids asks previous : res OrderBookDelta :=
  raise_if ((first <? 1) || (last <? first))
    (ValueError "order-book delta sequence is invalid");;
  raise_if (match previous with Some p => p <? 0 | None => false end)
    (ValueError "order-book previous sequence is invalid");;
  raise_if (naive at_) (ValueError "order-book delta timestamp must be timezone-aware");;
  mret (mk_Delta first last at_ bids asks previous).

Record OrderBookObservation : Type := mk_Observation {
  obs_state : BookState;
  accepted : bool;
  obs_last_update_id : option Z;
  best_bid : option dec;
  best_ask : option dec;
  spread_bps : option dec;
  top_imbalance : option dec;
  obs_blockers : list string;
  execution_allowed : bool
}.

(** [OrderBookObservation.__post_init__] *)
Definition new_Observation (o : OrderBookObservation) : res OrderBookObservation :=
  raise_if (execution_allowed o)
    (ValueError "public order-book evidence cannot authorize execution");;
  mret o.

Definition side : Type := list (dec * dec).

Record order_book : Type := mk_book {
  symbol : string;
  maximum_levels : Z;
  futures_sequence : bool;
  state : BookState;
  last_update_id : option Z;
  last_event_at : option datetime;
  bids : side;
  asks : side;
  bridged : bool
}.

(** [fullmatch] of the symbol pattern: 2 to 24 alphanumerics, then possibly
    an underscore and PERP or six digits. *)
Fixpoint split_underscore (l : list ascii) : list ascii * option (list ascii) :=
  match l with
  | [] => ([], None)
  | c :: l' =>
      if Ascii.eqb c "_" then ([], Some l')
      else let '(a, b) := split_underscore l' in (c :: a, b)
  end.

Definition symbol_matches (s : string) : bool :=
  let '(head, tail) := split_underscore (list_ascii_of_string s) in
  (2 <=? length head)%nat && (length head <=? 24)%nat &&
  forallb (fun c => is_digit c || is_alpha c) head &&
  match tail with
  | None => true
  | Some t => String.eqb (string_of_list_ascii t) "PERP" ||
              ((length t =? 6)%nat && forallb is_digit t)
  end.

(** [ReadOnlyOrderBook(...)] with [__post_init__] *)
Definition new_order_book (sym : string) (max_levels : Z) (futures : bool) : res order_book :=
  let normalized := normalize sym in
  raise_if (negb (symbol_matches normalized)) (ValueError "order-book symbol is invalid");;
  raise_if (negb ((1 <=? max_levels) && (max_levels <=? 100000)))
    (ValueError "order-book maximum levels are invalid");;
  mret (mk_book normalized max_levels futures EMPTY None None [] [] false).

Definition with_state s b := mk_book (symbol b) (maximum_levels b) (futures_sequence b)
  s (last_update_id b) (last_event_at b) (bids b) (asks b) (bridged b).
Definition with_bids x b := mk_book (symbol b) (maximum_levels b) (futures_sequence b)
  (state b) (last_update_id b) (last_event_at b) x (asks b) (bridged b).
Definition with_asks x b := mk_book (symbol b) (maximum_levels b) (futures_sequence b)
  (state b) (last_update_id b) (last_event_at b) (bids b) x (bridged b).
(** The three assignments after both sides are in place. *)
Definition with_position id at_ br b := mk_book (symbol b) (maximum_levels b)
  (futures_sequence b) (state b) (Some id) (Some at_) (bids b) (asks b) br.

(** ** Levels of one side *)

Definition level_prices (l : list BookLevel) : list dec := map price l.

(** [ReadOnlyOrderBook._levels] *)
Definition _levels (l : list BookLevel) : res side :=
  raise_if (negb (all_unique deqb (level_prices l)))
    (ValueError "order-book levels must have unique prices");;
  mret (dict_of deqb
    (map (fun i => (price i, quantity i))
         (List.filter (fun i => (ZERO <? quantity i)%D) l))).

Definition apply_level (s : side) (i : BookLevel) : side :=
  if (quantity i =? ZERO)%D then dict_pop deqb (price i) s
  else dict_set deqb (price i) (quantity i) s.

(** [ReadOnlyOrderBook._apply_side] *)
Definition _apply_side (s : side) (l : list BookLevel) : res side :=
  raise_if (negb (all_unique deqb (level_prices l)))
    (ValueError "order-book delta prices must be unique");;
  mret (fold_left apply_level l s).

(** ** Observations *)

Definition side_prices (s : side) : list dec := map fst s.
(** [max(self._bids)] and [min(self._asks)]; [None] for an empty side. *)
Definition max_price (s : side) : option dec :=
  match side_prices s with [] => None | p :: l => Some (fold_left dmax l p) end.
Definition min_price (s : side) : option dec :=
  match side_prices s with [] => None | p :: l => Some (fold_left dmin l p) end.

Definition getitem (p : dec) (s : side) : res dec :=
  match dict_get deqb p s with Some q => Ok q | None => Raise KeyError end.

Definition spread (bb ba : dec) : res dec :=
  sum ← dadd bb ba; midpoint ← ddiv sum (dec_of_Z 2);
  diff ← dsub ba bb; r ← ddiv diff midpoint; dmul r (dec_of_Z 10000).

Definition imbalance (bid_quantity ask_quantity : dec) : res dec :=
  total ← dadd bid_quantity ask_quantity;
  if (ZERO <? total)%D
  then diff ← dsub bid_quantity ask_quantity; ddiv diff total
  else mret ZERO.

(** [ReadOnlyOrderBook._observation] *)
Definition _observation (acc : bool) (blockers : list string) (b : order_book)
  : res OrderBookObservation :=
  match max_price (bids b), min_price (asks b) with
  | Some bb, Some ba =>
      sp ← spread bb ba;
      bq ← getitem bb (bids b);
      aq ← getitem ba (asks b);
      imb ← imbalance bq aq;
      new_Observation (mk_Observation (state b) acc (last_update_id b)
        (Some bb) (Some ba) (Some sp) (Some imb) blockers false)
  | _, _ =>
      new_Observation (mk_Observation (state b) acc (last_update_id b)
        None None None None blockers false)
  end.

Definition observe (acc : bool) (blockers : list string) : method order_book OrderBookObservation :=
  b ← get; lift (_observation acc blockers b).

Definition crossed (b : order_book) : bool :=
  match max_price (bids b), min_price (asks b) with
  | Some bb, Some ba => (ba <=? bb)%D
  | _, _ => false
  end.

(** [ReadOnlyOrderBook._validate_and_observe] *)
Definition _validate_and_observe : method order_book OrderBookObservation :=
  b ← get;
  if is_nil (bids b) || is_nil (asks b) then
    modify (with_state DEGRADED);; observe false ["ORDER_BOOK_SIDE_EMPTY"]
  else if (maximum_levels b <? Z.of_nat (length (bids b))) ||
          (maximum_levels b <? Z.of_nat (length (asks b))) then
    modify (with_state DEGRADED);; observe false ["ORDER_BOOK_LEVEL_LIMIT_EXCEEDED"]
  else if crossed b then
    modify (with_state DEGRADED);; observe false ["ORDER_BOOK_CROSSED"]
  else modify (with_state LIVE);; observe true [].

(** ** Operations *)

(** [ReadOnlyOrderBook.apply_snapshot] *)
Definition apply_snapshot (s : OrderBookSnapshot) : method order_book OrderBookObservation :=
  b ← get;
  lift (raise_if (negb (String.eqb (snap_symbol s) (symbol b)))
    (ValueError "order-book snapshot symbol mismatch"));;
  new_bids ← lift (_levels (snap_bids s));
  modify (with_bids new_bids);;
  new_asks ← lift (_levels (snap_asks s));
  modify (with_asks new_asks);;
  modify (with_position (snap_last_update_id s) (observed_at s) (sequence_bridged s));;
  _validate_and_observe.

(** The acceptance condition of a delta against the last applied id. *)
Definition expected_id (b : order_book) (last : Z) : Z :=
  last + (if futures_sequence b && negb (bridged b) then 0 else 1).

Definition valid_sequence (b : order_book) (last : Z) (d : OrderBookDelta) : bool :=
  let expected := expected_id b last in
  let straddles := (first_update_id d <=? expected) && (expected <=? delta_last_update_id d) in
  if futures_sequence b then
    match previous_update_id d with
    | None => false
    | Some p => if bridged b then p =? last else straddles
    end
  else straddles.

(** [ReadOnlyOrderBook.apply_delta] *)
Definition apply_delta (d : OrderBookDelta) : method order_book OrderBookObservation :=
  b ← get;
  match state b, last_update_id b with
  | LIVE, Some last =>
      lift (raise_if (match last_event_at b with
                      | Some t => dt_ltb (event_time d) t
                      | None => false
                      end) (ValueError "order-book event time cannot move backwards"));;
      if delta_last_update_id d <? expected_id b last then
        observe false ["ORDER_BOOK_OLD_DELTA"]
      else if negb (valid_sequence b last d) then
        modify (with_state GAP_DETECTED);; observe false ["ORDER_BOOK_SEQUENCE_GAP"]
      else
        new_bids ← lift (_apply_side (bids b) (delta_bids d));
        modify (with_bids new_bids);;
        new_asks ← lift (_apply_side (asks b) (delta_asks d));
        modify (with_asks new_asks);;
        modify (with_position (delta_last_update_id d) (event_time d) true);;
        _validate_and_observe
  | _, _ => observe false ["ORDER_BOOK_SNAPSHOT_REQUIRED"]
  end.

(** [sorted(side.items())], ascending or descending. *)
Definition item_leb (x y : dec * dec) : bool :=
  if (x.1 =? y.1)%D then (x.2 <=? y.2)%D else (x.1 <? y.1)%D.

(** [ReadOnlyOrderBook.levels] *)
Definition levels (b : order_book) : res (list BookLevel * list BookLevel) :=
  bs ← mapM (fun it => new_BookLevel (Finite it.1) (Finite it.2))
            (py_sorted (fun x y => item_leb y x) (bids b));
  ss ← mapM (fun it => new_BookLevel (Finite it.1) (Finite it.2))
            (py_sorted item_leb (asks b));
  mret (bs, ss).

(** ** Sides *)

Definition positive_level (i : BookLevel) : Prop :=
  (0 < dval (price i))%Q /\ (0 <= dval (quantity i))%Q.

Lemma new_BookLevel_Ok p q i : new_BookLevel p q = Ok i ->
  p = Finite (price i) /\ q = Finite (quantity i) /\ positive_level i.
Proof.
  unfold new_BookLevel. destruct p as [p| |]; try done. destruct q as [q| |]; try done.
  destruct (_ || _) eqn:E; [done|]. intros [= <-]. apply orb_false_iff in E as [E1 E2].
  zify_dec. rewrite dval_ZERO in *. repeat split; simpl; done.
Qed.

(** A side holds each price once, and only positive prices and quantities. *)
Record side_ok (s : side) : Prop := mk_side_ok {
  side_wf : dict_wf deqb s;
  side_positive : forall p q, In (p, q) s -> (0 < dval p)%Q /\ (0 < dval q)%Q
}.

Lemma side_ok_nil : side_ok [].
Proof. split; [done|]. intros p q []. Qed.

Lemma side_ok_set s p q :
  side_ok s -> (0 < dval p)%Q -> (0 < dval q)%Q -> side_ok (dict_set deqb p q s).
Proof.
  intros [Hwf Hpos] Hp Hq. split.
  - by apply (dict_set_wf deqb).
  - intros x y Hin. apply (dict_set_In deqb) in Hin as [Hin|[E ->]]; [by apply Hpos|].
    zify_dec. split; [|done]. by rewrite <- E.
Qed.

Lemma side_ok_pop s p : side_ok s -> side_ok (dict_pop deqb p s).
Proof.
  intros [Hwf Hpos]. split; [by apply dict_pop_wf|].
  intros x y Hin. apply (Hpos x y). by eapply dict_pop_In.
Qed.

Lemma apply_level_ok s i : side_ok s -> positive_level i -> side_ok (apply_level s i).
Proof.
  intros Hs [Hp Hq]. unfold apply_level. destruct (_ =? _)%D eqn:E.
  - by apply side_ok_pop.
  - zify_dec. rewrite dval_ZERO in E. apply side_ok_set; [done..|].
    apply Qnot_le_lt. intros H. apply E. by apply Qle_antisym.
Qed.

Lemma apply_levels_ok l s :
  side_ok s -> (forall i, In i l -> positive_level i) -> side_ok (fold_left apply_level l s).
Proof.
  revert s. induction l as [|i l IH]; simpl; [done|]. intros s Hs Hl.
  apply IH; [apply apply_level_ok|]; auto.
Qed.

Lemma _apply_side_ok s l s' : _apply_side s l = Ok s' ->
  side_ok s -> (forall i, In i l -> positive_level i) -> side_ok s'.
Proof. unfold _apply_side. intros H ??. inv_res. subst. by apply apply_levels_ok. Qed.

Lemma dict_of_ok l acc :
  side_ok acc -> (forall p q, In (p, q) l -> (0 < dval p)%Q /\ (0 < dval q)%Q) ->
  side_ok (fold_left (fun d kv => dict_set deqb kv.1 kv.2 d) l acc).
Proof.
  revert acc. induction l as [|[p q] l IH]; simpl; [done|]. intros acc Ha Hl.
  apply IH; [|auto]. destruct (Hl p q); auto using side_ok_set.
Qed.

Lemma _levels_ok l s : _levels l = Ok s ->
  (forall i, In i l -> positive_level i) -> side_ok s.
Proof.
  unfold _levels. intros H Hl. inv_res. subst. apply dict_of_ok; [apply side_ok_nil|].
  intros p q Hin. apply in_map_iff in Hin as (i & [= <- <-] & Hi).
  apply filter_In in Hi as [Hi Hq]. zify_dec. rewrite dval_ZERO in Hq.
  by destruct (Hl i Hi).
Qed.

Lemma fold_dmax_spec l p :
  let m := fold_left dmax l p in
  (m = p \/ In m l) /\ (dval p <= dval m)%Q /\ (forall x, In x l -> (dval x <= dval m)%Q).
Proof.
  revert p. induction l as [|y l IH]; intros p; simpl; [split_and!; [auto|apply Qle_refl|done]|].
  destruct (IH (dmax p y)) as (H1 & H2 & H3). destruct (dmax_spec p y) as (D1 & D2 & D3).
  split_and!.
  - destruct H1 as [->|H1]; [destruct D3; auto|auto].
  - lra.
  - intros x [<-|Hx]; [lra|auto].
Qed.

Lemma fold_dmin_spec l p :
  let m := fold_left dmin l p in
  (m = p \/ In m l) /\ (dval m <= dval p)%Q /\ (forall x, In x l -> (dval m <= dval x)%Q).
Proof.
  revert p. induction l as [|y l IH]; intros p; simpl; [split_and!; [auto|apply Qle_refl|done]|].
  destruct (IH (dmin p y)) as (H1 & H2 & H3). destruct (dmin_spec p y) as (D1 & D2 & D3).
  split_and!.
  - destruct H1 as [->|H1]; [destruct D3; auto|auto].
  - lra.
  - intros x [<-|Hx]; [lra|auto].
Qed.

Lemma max_price_spec s m : max_price s = Some m ->
  In m (side_prices s) /\ forall p q, In (p, q) s -> (dval p <= dval m)%Q.
Proof.
  unfold max_price. destruct s as [|[p0 q0] s]; simpl; [done|]. intros [= <-].
  destruct (fold_dmax_spec (side_prices s) p0) as (H1 & H2 & H3). split.
  - destruct H1 as [->|H1]; auto.
  - intros p q [[= <- <-]|Hin]; [done|]. apply H3. unfold side_prices.
    apply in_map_iff. by exists (p, q).
Qed.

Lemma min_price_spec s m : min_price s = Some m ->
  In m (side_prices s) /\ forall p q, In (p, q) s -> (dval m <= dval p)%Q.
Proof.
  unfold min_price. destruct s as [|[p0 q0] s]; simpl; [done|]. intros [= <-].
  destruct (fold_dmin_spec (side_prices s) p0) as (H1 & H2 & H3). split.
  - destruct H1 as [->|H1]; auto.
  - intros p q [[= <- <-]|Hin]; [done|]. apply H3. unfold side_prices.
    apply in_map_iff. by exists (p, q).
Qed.

(** ** Operations *)

(** What [_validate_and_observe] decides about the levels in place. *)
Definition judged (b : order_book) : BookState :=
  if is_nil (bids b) || is_nil (asks b) then DEGRADED
  else if (maximum_levels b <? Z.of_nat (length (bids b))) ||
          (maximum_levels b <? Z.of_nat (length (asks b))) then DEGRADED
  else if crossed b then DEGRADED else LIVE.

Lemma validate_run b r b' : _validate_and_observe b = (r, b') ->
  b' = with_state (judged b) b /\
  forall o, r = Ok o -> accepted o = bool_decide (judged b = LIVE) /\ obs_state o = judged b.
Proof.
  unfold _validate_and_observe, judged. rewrite method_bind_run. simpl.
  assert (forall acc bl c o, _observation acc bl c = Ok o ->
            accepted o = acc /\ obs_state o = state c) as Hobs.
  { intros acc bl c o. unfold _observation, new_Observation.
    destruct (max_price (bids c)), (min_price (asks c)); intros H; inv_res; subst; done. }
  repeat case_match; rewrite method_bind_run; simpl; intros [= <- <-];
    (split; [done|]); intros o Ho; apply Hobs in Ho; exact Ho.
Qed.

(** A reading of the invariant that clients use: every bid is below every
    ask, both sides are populated and within the level limit. *)
Record live_ok (b : order_book) : Prop := mk_live_ok {
  live_bids : bids b <> [];
  live_asks : asks b <> [];
  live_limit : Z.of_nat (length (bids b)) <= maximum_levels b /\
               Z.of_nat (length (asks b)) <= maximum_levels b;
  live_uncrossed : forall pb qb pa qa, In (pb, qb) (bids b) -> In (pa, qa) (asks b) ->
                   (dval pb < dval pa)%Q;
  live_positioned : exists id at_, last_update_id b = Some id /\ last_event_at b = Some at_
}.

Lemma judged_LIVE b : judged b = LIVE ->
  bids b <> [] /\ asks b <> [] /\
  (Z.of_nat (length (bids b)) <= maximum_levels b /\
   Z.of_nat (length (asks b)) <= maximum_levels b) /\
  (forall pb qb pa qa, In (pb, qb) (bids b) -> In (pa, qa) (asks b) -> (dval pb < dval pa)%Q).
Proof.
  unfold judged. destruct (is_nil (bids b) || is_nil (asks b)) eqn:E1; [done|].
  apply orb_false_iff in E1 as [Hb%is_nil_false Ha%is_nil_false].
  destruct (_ || _) eqn:E2; [done|]. destruct (crossed b) eqn:E3; [done|].
  apply orb_false_iff in E2 as [E21 E22]. zify_bool. intros _. split; [exact Hb|]. split; [exact Ha|]. split; [lia|].
  clear Hb Ha. intros pb qb pa qa Hb Ha. unfold crossed in E3.
  destruct (max_price (bids b)) as [mb|] eqn:Eb;
    [|unfold max_price in Eb; by destruct (bids b)].
  destruct (min_price (asks b)) as [ma|] eqn:Ea;
    [|unfold min_price in Ea; by destruct (asks b)].
  apply max_price_spec in Eb as [_ Eb]. apply min_price_spec in Ea as [_ Ea].
  specialize (Eb _ _ Hb). specialize (Ea _ _ Ha). zify_dec. lra.
Qed.

(** The book after both sides were replaced and the position was moved. *)
Definition placed (nb na : side) (id : Z) (at_ : datetime) (br : bool) (b : order_book) :=
  with_position id at_ br (with_asks na (with_bids nb b)).

Lemma apply_snapshot_run s b o b' : apply_snapshot s b = (Ok o, b') ->
  exists nb na, _levels (snap_bids s) = Ok nb /\ _levels (snap_asks s) = Ok na /\
    snap_symbol s = symbol b /\
    let b1 := placed nb na (snap_last_update_id s) (observed_at s) (sequence_bridged s) b in
    b' = with_state (judged b1) b1 /\ accepted o = bool_decide (judged b1 = LIVE).
Proof.
  unfold apply_snapshot. intros H. inv_method. inv_res. zify_bool.
  apply validate_run in H as [Hb Ho]. eexists _, _.
  split_and!; [done..|exact Hb|by apply Ho].
Qed.

(** The three ways a delta that does not raise can end. *)
Variant delta_outcome (d : OrderBookDelta) (b : order_book) (o : OrderBookObservation)
  : order_book -> Prop :=
| delta_refused : accepted o = false -> delta_outcome d b o b
| delta_gap last :
    state b = LIVE -> last_update_id b = Some last -> valid_sequence b last d = false ->
    accepted o = false -> delta_outcome d b o (with_state GAP_DETECTED b)
| delta_applied last nb na :
    state b = LIVE -> last_update_id b = Some last ->
    expected_id b last <= delta_last_update_id d -> valid_sequence b last d = true ->
    _apply_side (bids b) (delta_bids d) = Ok nb ->
    _apply_side (asks b) (delta_asks d) = Ok na ->
    let b1 := placed nb na (delta_last_update_id d) (event_time d) true b in
    accepted o = bool_decide (judged b1 = LIVE) ->
    delta_outcome d b o (with_state (judged b1) b1).

Lemma observation_accepted acc bl b o : _observation acc bl b = Ok o -> accepted o = acc.
Proof.
  unfold _observation, new_Observation.
  destruct (max_price (bids b)), (min_price (asks b)); intros H; inv_res; by subst.
Qed.

Lemma observe_run acc bl b o b' : observe acc bl b = (Ok o, b') -> b' = b /\ accepted o = acc.
Proof. intros H. unfold observe in H. inv_method. eauto using observation_accepted. Qed.

Lemma apply_delta_run d b o b' : apply_delta d b = (Ok o, b') -> delta_outcome d b o b'.
Proof.
  unfold apply_delta. intros H. inv_method_step. inv_method_step.
  assert (forall m, observe false m b = (Ok o, b') -> delta_outcome d b o b') as Hobs.
  { intros m [-> Ho]%observe_run. by apply delta_refused. }
  destruct (state b) eqn:Es; try by eapply Hobs.
  destruct (last_update_id b) as [last|] eqn:El; [|by eapply Hobs].
  inv_method_step. inv_method_step.
  destruct (_ <? _) eqn:E1; [by eapply Hobs|].
  destruct (negb _) eqn:E2; inv_res; inv_method.
  - apply observe_run in H as [-> Ho]. by eapply delta_gap.
  - apply validate_run in H as [-> Ho]. zify_bool.
    eapply delta_applied; try done. by apply Ho.
Qed.

(** ** Reachable books *)

Definition built_level (i : BookLevel) : Prop := exists p q, new_BookLevel p q = Ok i.

Lemma built_positive i : built_level i -> positive_level i.
Proof. intros (p & q & H). by apply new_BookLevel_Ok in H as (_ & _ & ?). Qed.

(** Messages are built by their constructors from levels built by theirs. *)
Inductive message : Type :=
| Snapshot (s : OrderBookSnapshot)
| Delta (d : OrderBookDelta).

Definition message_levels (m : message) : list BookLevel :=
  match m with
  | Snapshot s => snap_bids s ++ snap_asks s
  | Delta d => delta_bids d ++ delta_asks d
  end.

Definition built_message (m : message) : Prop :=
  (forall i, In i (message_levels m) -> built_level i) /\
  match m with
  | Snapshot s => exists sym id t bs ss br, new_Snapshot sym id t bs ss br = Ok s
  | Delta d => exists f l t bs ss p, new_Delta f l t bs ss p = Ok d
  end.

Definition deliver (m : message) : method order_book OrderBookObservation :=
  match m with Snapshot s => apply_snapshot s | Delta d => apply_delta d end.

(** Books produced by calls that all returned. *)
Inductive reachable : order_book -> Prop :=
| reach_new sym m f b : new_order_book sym m f = Ok b -> reachable b
| reach_deliver b msg o b' :
    reachable b -> built_message msg -> deliver msg b = (Ok o, b') -> reachable b'.

Definition sides_ok (b : order_book) : Prop := side_ok (bids b) /\ side_ok (asks b).

Lemma deliver_sides msg b r b' :
  sides_ok b -> built_message msg -> deliver msg b = (r, b') -> sides_ok b'.
Proof.
  intros [Hb Ha] [Hl _] H.
  assert (forall i, In i (message_levels msg) -> positive_level i) as Hp
    by eauto using built_positive.
  clear Hl. destruct msg as [s|d]; simpl in *.
  - unfold apply_snapshot in H. autorewrite with method in H.
    destruct (negb _); [by injection H as <- <-|]. rewrite lift_bind in H.
    destruct (_levels (snap_bids s)) as [nb|] eqn:Eb; [|by injection H as <- <-].
    apply _levels_ok in Eb; [|intros; apply Hp, in_app_iff; auto].
    autorewrite with method in H. rewrite lift_bind in H.
    destruct (_levels (snap_asks s)) as [na|] eqn:Ea; [|by injection H as <- <-].
    apply _levels_ok in Ea; [|intros; apply Hp, in_app_iff; auto].
    autorewrite with method in H. by apply validate_run in H as [-> _].
  - unfold apply_delta in H. autorewrite with method in H.
    destruct (state b); try by injection H as <- <-.
    destruct (last_update_id b); [|by injection H as <- <-].
    autorewrite with method in H.
    destruct (match last_event_at b with Some _ => _ | None => _ end);
      [by injection H as <- <-|].
    destruct (_ <? _); [by injection H as <- <-|].
    destruct (negb _); [by injection H as <- <-|]. rewrite lift_bind in H.
    destruct (_apply_side (bids b) _) as [nb|] eqn:Eb; [|by injection H as <- <-].
    apply _apply_side_ok in Eb; [|done|intros; apply Hp, in_app_iff; auto].
    autorewrite with method in H. rewrite lift_bind in H. simpl in H.
    destruct (_apply_side (asks b) _) as [na|] eqn:Ea; [|by injection H as <- <-].
    apply _apply_side_ok in Ea; [|done|intros; apply Hp, in_app_iff; auto].
    autorewrite with method in H. by apply validate_run in H as [-> _].
Qed.

Lemma reachable_sides b : reachable b -> sides_ok b.
Proof.
  induction 1 as [sym m f b H|b msg o b' _ IH Hm H]; [|eauto using deliver_sides].
  unfold new_order_book in H. inv_res. subst. split; apply side_ok_nil.
Qed.

Lemma placed_live nb na id t br b :
  judged (placed nb na id t br b) = LIVE ->
  live_ok (with_state LIVE (placed nb na id t br b)).
Proof.
  intros (H1 & H2 & H3 & H4)%judged_LIVE. split; try done. by exists id, t.
Qed.

Lemma deliver_live msg b o b' :
  (state b = LIVE -> live_ok b) -> deliver msg b = (Ok o, b') ->
  state b' = LIVE -> live_ok b'.
Proof.
  intros IH H. destruct msg as [s|d]; simpl in H.
  - apply apply_snapshot_run in H as (nb & na & _ & _ & _ & -> & _). simpl. intros E.
    rewrite E. by apply placed_live.
  - apply apply_delta_run in H as [| |]; [done|done|]. simpl. intros E.
    rewrite E. by apply placed_live.
Qed.

(** A delivery that reports acceptance leaves a LIVE book in order, whatever
    book it found. *)
Lemma deliver_accepted msg b o b' :
  deliver msg b = (Ok o, b') -> accepted o = true -> state b' = LIVE /\ live_ok b'.
Proof.
  intros H Ha. destruct msg as [s|d]; simpl in H.
  - apply apply_snapshot_run in H as (nb & na & _ & _ & _ & -> & E). rewrite Ha in E.
    symmetry in E. apply bool_decide_eq_true in E. simpl. rewrite E. split; [done|]. by apply placed_live.
  - apply apply_delta_run in H as [E|last _ _ _ E|last nb na _ _ _ _ _ _ b1 E]; [congruence..|].
    rewrite Ha in E. symmetry in E. apply bool_decide_eq_true in E. simpl. rewrite E. split; [done|]. by apply placed_live.
Qed.

(** Books after any calls, those that raised included. *)
Inductive called : order_book -> Prop :=
| called_new sym m f b : new_order_book sym m f = Ok b -> called b
| called_deliver b msg r b' : called b -> built_message msg -> deliver msg b = (r, b') -> called b'.

Lemma called_sides b : called b -> sides_ok b.
Proof.
  induction 1 as [sym m f b H|b msg r b' _ IH Hm H]; [|by eapply deliver_sides].
  unfold new_order_book in H. inv_res. subst. split; apply side_ok_nil.
Qed.

(** ** Absolute-quantity semantics of a delta side *)

Definition level_at (p : dec) (l : list BookLevel) : option BookLevel :=
  List.find (fun i => (p =? price i)%D) l.

Lemma apply_level_wf s i : dict_wf deqb s -> dict_wf deqb (apply_level s i).
Proof.
  intros. unfold apply_level. destruct (_ =? _)%D;
    [by apply dict_pop_wf | by apply (dict_set_wf deqb)].
Qed.

Lemma apply_level_get s i p : dict_wf deqb s ->
  dict_get deqb p (apply_level s i) =
  if (p =? price i)%D
  then (if (quantity i =? ZERO)%D then None else Some (quantity i))
  else dict_get deqb p s.
Proof.
  intros. unfold apply_level. destruct (quantity i =? ZERO)%D.
  - by rewrite (dict_get_pop deqb).
  - by rewrite (dict_get_set deqb).
Qed.

Lemma apply_levels_get l s p : dict_wf deqb s -> pairwise_distinct deqb (level_prices l) ->
  dict_get deqb p (fold_left apply_level l s) =
  match level_at p l with
  | Some i => if (quantity i =? ZERO)%D then None else Some (quantity i)
  | None => dict_get deqb p s
  end.
Proof.
  revert s. induction l as [|i l IH]; intros s Hs; simpl; [done|]. intros [Hi Hl].
  rewrite IH by (done || by apply apply_level_wf). rewrite apply_level_get by done.
  destruct (p =? price i)%D eqn:E; [|done].
  destruct (level_at p l) as [j|] eqn:Ej; [|done]. exfalso.
  apply find_some in Ej as [Hj Epj].
  assert ((price i =? price j)%D = false) as F by (apply Hi, in_map; exact Hj).
  rewrite deqb_sym in E. by rewrite (deqb_trans _ _ _ E Epj) in F.
Qed.

(** ** Properties *)

(** C14: a public book that reports LIVE is usable evidence.  In every book
    reached from the constructor through snapshots and deltas that did not
    raise, LIVE implies that both sides are populated and within the level
    limit, that every bid is strictly below every ask, that an update id and an
    event time are set, and that all prices and quantities are positive.  When
    calls before it raised, prices and quantities are still positive, and a
    snapshot or a delta that reports acceptance leaves a book with all of these
    properties.  In between, a snapshot that raises can leave a crossed book that is
    LIVE: [refused_snapshot_leaves_crossed_live_book]. *)
Theorem live_book_invariant b :
  (reachable b -> state b = LIVE -> live_ok b /\ side_ok (bids b) /\ side_ok (asks b)) /\
  (called b -> side_ok (bids b) /\ side_ok (asks b) /\
     forall msg o b', built_message msg -> deliver msg b = (Ok o, b') -> accepted o = true ->
       state b' = LIVE /\ live_ok b' /\ side_ok (bids b') /\ side_ok (asks b')).
Proof.
  split.
  - intros H. pose proof (reachable_sides b H) as Hs. intros Hl. split; [|done].
    revert Hl. clear Hs. induction H as [sym m f b H|b msg o b' _ IH _ H].
    + unfold new_order_book in H. inv_res. by subst.
    + by eapply deliver_live.
  - intros H. apply called_sides in H. split_and!; [apply H..|]. intros msg o b' Hm E Ha.
    destruct (deliver_accepted _ _ _ _ E Ha). split_and!; [done..| |]; by eapply deliver_sides.
Qed.

(** A delta is applied exactly against the last applied update id.  When
    [apply_delta] reports acceptance the book was LIVE at id [last], the new
    id is the delta's, and the delta continues [last]: for spot streams its id
    range contains [last + 1]; for futures streams it names [last] as its
    predecessor, or straddles [last] when it is the first after a snapshot. *)
Theorem accepted_delta_contiguous d b o b' :
  apply_delta d b = (Ok o, b') -> accepted o = true ->
  exists last,
    state b = LIVE /\ last_update_id b = Some last /\
    state b' = LIVE /\ last_update_id b' = Some (delta_last_update_id d) /\
    if futures_sequence b then
      if bridged b then previous_update_id d = Some last /\ last < delta_last_update_id d
      else first_update_id d <= last <= delta_last_update_id d
    else first_update_id d <= last + 1 <= delta_last_update_id d.
Proof.
  intros H Ha. apply apply_delta_run in H as [E|last _ _ _ E|last nb na E1 E2 E3 E4 _ _ b1 E];
    [congruence..|].
  rewrite Ha in E. symmetry in E. apply bool_decide_eq_true in E.
  exists last. split_and!; try done. unfold valid_sequence, expected_id in *.
  destruct (futures_sequence b), (bridged b); simpl in *;
    destruct (previous_update_id d); inv_res; zify_bool; subst; auto with lia.
Qed.

(** A sequence gap fails closed.  A delta whose ids do not continue a
    LIVE book returns a refusal, leaves every level, id and timestamp as it
    was, and puts the book in GAP_DETECTED, from where every further delta is
    refused without any change until a snapshot is applied. *)
Theorem gap_fails_closed d b last o b' :
  state b = LIVE -> last_update_id b = Some last ->
  expected_id b last <= delta_last_update_id d -> valid_sequence b last d = false ->
  apply_delta d b = (Ok o, b') ->
  b' = with_state GAP_DETECTED b /\ accepted o = false /\
  forall d2, exists r, apply_delta d2 b' = (r, b') /\
                       forall o2, r = Ok o2 -> accepted o2 = false.
Proof.
  intros Hs Hl He Hv H. unfold apply_delta in H. rewrite get_bind, Hs, Hl in H.
  autorewrite with method in H.
  destruct (match last_event_at b with Some _ => _ | None => _ end); [done|].
  rewrite Hv in H. destruct (Z.ltb_spec (delta_last_update_id d) (expected_id b last)); [lia|].
  simpl in H. autorewrite with method in H. apply observe_run in H as [-> Ho].
  split; [done|]. split; [done|]. intros d2. eexists. split; [reflexivity|].
  intros o2. apply observation_accepted.
Qed.

(** The levels of an applied delta are absolute quantities.  After
    [_apply_side] a price holds exactly the quantity the delta gives for it, is
    absent when the delta gives zero, and is untouched when the delta does not
    name it. *)
Theorem apply_side_absolute s l s' p :
  side_ok s -> _apply_side s l = Ok s' ->
  dict_get deqb p s' =
  match level_at p l with
  | Some i => if (quantity i =? ZERO)%D then None else Some (quantity i)
  | None => dict_get deqb p s
  end.
Proof.
  intros [Hs _] H. unfold _apply_side in H. inv_res.
  apply all_unique_spec in Hm. subst. by apply apply_levels_get.
Qed.

Lemma Qdiv_nonneg a b : (0 <= a)%Q -> (0 <= b)%Q -> (0 <= a / b)%Q.
Proof. intros. apply Qmult_le_0_compat; [done|]. by apply Qinv_le_0_compat. Qed.

Lemma spread_nonneg bb ba r :
  spread bb ba = Ok r -> (0 < dval bb)%Q -> (dval bb < dval ba)%Q -> (0 <= dval r)%Q.
Proof.
  unfold spread. intros H Hb Hlt. inv_res.
  apply dadd_faithful in Hm. apply dsub_faithful in Hm1. apply dmul_faithful in H.
  assert (0 <= dval a)%Q by (eapply faithful_nonneg; [done|lra]).
  assert (0 <= dval a1)%Q by (eapply faithful_nonneg; [done|lra]).
  apply ddiv_faithful in Hm0. apply ddiv_faithful in Hm2.
  assert (0 <= dval a0)%Q.
  { eapply faithful_nonneg; [done|]. apply Qdiv_nonneg; [done|]. by vm_compute. }
  assert (0 <= dval a2)%Q by (eapply faithful_nonneg; [done|]; by apply Qdiv_nonneg).
  eapply faithful_nonneg; [done|]. apply Qmult_le_0_compat; [done|]. by vm_compute.
Qed.

Lemma imbalance_bounded bq aq r :
  (0 < dval bq)%Q -> (0 < dval aq)%Q -> repr bq -> repr aq ->
  imbalance bq aq = Ok r -> (-1 <= dval r)%Q /\ (dval r <= 1)%Q.
Proof.
  unfold imbalance. intros Hb Ha Rb Ra H. apply bind_Ok in H as (t & Ht & H).
  destruct (_ <? _)%D eqn:E; [|injection H as <-; rewrite dval_ZERO; lra].
  inv_res. zify_dec. rewrite dval_ZERO in E.
  apply dadd_faithful in Ht. apply dsub_faithful in Hm. apply ddiv_faithful in H.
  (* rounding never crosses [bq] nor [- aq] *)
  assert (dval a <= dval bq)%Q as U1 by (apply (faithful_le _ _ Hm); [done|lra]).
  assert (dval bq <= dval t)%Q as U2 by (apply (faithful_ge _ _ Ht); [done|lra]).
  assert (dval aq <= dval t)%Q as U3 by (apply (faithful_ge _ _ Ht); [done|lra]).
  assert (- dval aq <= dval a)%Q as U4.
  { rewrite <- dval_negate. apply (faithful_ge _ _ Hm); [exact Ra|]. rewrite dval_negate. lra. }
  split.
  - assert (dval (dnegate ONE) == -1)%Q as E1 by reflexivity. rewrite <- E1.
    apply (faithful_ge _ _ H); [exact repr_ONE|]. rewrite E1.
    apply Qle_shift_div_l; [done|lra].
  - rewrite <- dval_ONE. apply (faithful_le _ _ H); [exact repr_ONE|]. rewrite dval_ONE.
    apply Qle_shift_div_r; [done|lra].
Qed.

Lemma getitem_In p s q : side_ok s -> getitem p s = Ok q -> exists p', In (p', q) s.
Proof.
  unfold getitem. intros _. destruct (dict_get deqb p s) eqn:E; [|done]. intros [= ->].
  apply (dict_get_In deqb) in E as (p' & ? & _). eauto.
Qed.

(** The evidence an accepted observation reports.  On a book that meets
    the LIVE invariant and whose quantities fit the decimal context, the best
    bid and ask are the extremes of the two sides, the spread in basis points
    is not negative and the top imbalance lies in [-1, 1] in spite of the
    rounding of every intermediate result; the observation never authorizes
    execution. *)
Theorem observation_evidence acc bl b o :
  live_ok b -> sides_ok b ->
  (forall p q, In (p, q) (bids b ++ asks b) -> repr q) ->
  _observation acc bl b = Ok o ->
  exists bb ba sp imb,
    best_bid o = Some bb /\ best_ask o = Some ba /\
    spread_bps o = Some sp /\ top_imbalance o = Some imb /\
    (forall p q, In (p, q) (bids b) -> (dval p <= dval bb)%Q) /\
    (forall p q, In (p, q) (asks b) -> (dval ba <= dval p)%Q) /\
    (dval bb < dval ba)%Q /\ (0 <= dval sp)%Q /\
    (-1 <= dval imb)%Q /\ (dval imb <= 1)%Q /\ execution_allowed o = false.
Proof.
  intros Hl [Sb Sa] Hr. unfold _observation.
  destruct (max_price (bids b)) as [bb|] eqn:Eb;
    [|destruct Hl as [Hn _ _ _ _]; unfold max_price in Eb; by destruct (bids b)].
  destruct (min_price (asks b)) as [ba|] eqn:Ea;
    [|destruct Hl as [_ Hn _ _ _]; unfold min_price in Ea; by destruct (asks b)].
  apply max_price_spec in Eb as [Ib Eb]. apply min_price_spec in Ea as [Ia Ea].
  apply in_map_iff in Ib as ((? & qb) & <- & Ib), Ia as ((? & qa) & <- & Ia).
  simpl in *. intros H. unfold new_Observation in H. inv_res. subst. simpl.
  apply getitem_In in Hm0 as (pb & Ib'), Hm1 as (pa & Ia'); [|done..].
  pose proof (live_uncrossed _ Hl _ _ _ _ Ib Ia) as Hlt.
  destruct (side_positive _ Sb _ _ Ib) as [Hp _].
  destruct (side_positive _ Sb _ _ Ib') as [_ Hb], (side_positive _ Sa _ _ Ia') as [_ Ha].
  apply imbalance_bounded in Hm2 as [L U]; [|done|done|..];
    [|apply (Hr pb), in_app_iff; auto|apply (Hr pa), in_app_iff; auto].
  apply spread_nonneg in Hm; [|done..]. eexists _, _, _, _. split_and!; try done.
Qed.

(** ** Concrete books *)

Definition ex_level (p q : Z) : BookLevel := mk_BookLevel (dec_of_Z p) (dec_of_Z q).
Definition ex_snapshot : OrderBookSnapshot := mk_Snapshot "BTCUSDT" 10 (utc 0)
  [ex_level 100 2; ex_level 99 1] [ex_level 101 1; ex_level 102 3] false.
Definition ex_delta (first last : Z) : OrderBookDelta := mk_Delta first last (utc 1)
  [ex_level 99 0; ex_level 100 4] [] None.
Definition run_snapshot (s : OrderBookSnapshot) (r : res order_book) : order_book :=
  match r with Ok b => snd (apply_snapshot s b) | Raise _ => mk_book "" 0 false EMPTY None None [] [] false end.
Definition ex_book : order_book :=
  Eval vm_compute in run_snapshot ex_snapshot (new_order_book " btcusdt" 5000 false).

Ltac built_levels :=
  intros ? Hin; simpl in Hin;
  repeat destruct Hin as [<-|Hin]; try destruct Hin;
  match goal with |- built_level ?i =>
    by exists (Finite (price i)), (Finite (quantity i)) end.

Lemma built_snapshot s :
  (forall i, In i (snap_bids s ++ snap_asks s) -> built_level i) ->
  new_Snapshot (snap_symbol s) (snap_last_update_id s) (observed_at s)
    (snap_bids s) (snap_asks s) (sequence_bridged s) = Ok s ->
  built_message (Snapshot s).
Proof. intros Hl H. split; [exact Hl|]. by eexists _, _, _, _, _, _. Qed.

Lemma ex_snapshot_built : built_message (Snapshot ex_snapshot).
Proof. apply built_snapshot; [built_levels|reflexivity]. Qed.

Lemma ex_book_reachable : reachable ex_book.
Proof.
  eapply (reach_deliver _ (Snapshot ex_snapshot)).
  - apply (reach_new " btcusdt" 5000 false). reflexivity.
  - apply ex_snapshot_built.
  - vm_compute. reflexivity.
Qed.

Lemma ex_book_sides : sides_ok ex_book.
Proof. apply reachable_sides, ex_book_reachable. Qed.

Lemma ex_book_live : live_ok ex_book.
Proof.
  split; try done. 2:{ by eexists _, _. }
  intros pb qb pa qa Hb Ha. simpl in Hb, Ha.
  destruct Hb as [[= <- <-]|[[= <- <-]|[]]], Ha as [[= <- <-]|[[= <- <-]|[]]]; reflexivity.
Qed.

(** A snapshot whose asks repeat a price raises and leaves its bids in place. *)
Definition ex_bad_snapshot : OrderBookSnapshot :=
  mk_Snapshot "BTCUSDT" 20 (utc 2) [ex_level 110 1] [ex_level 111 1; ex_level 111 2] false.
Definition ex_raised : order_book := Eval vm_compute in (deliver (Snapshot ex_bad_snapshot) ex_book).2.

Lemma ex_bad_snapshot_built : built_message (Snapshot ex_bad_snapshot).
Proof. apply built_snapshot; [built_levels|reflexivity]. Qed.

Lemma ex_raised_called : called ex_raised.
Proof.
  eapply (called_deliver ex_book (Snapshot ex_bad_snapshot)); [|exact ex_bad_snapshot_built|vm_compute; reflexivity].
  eapply (called_deliver _ (Snapshot ex_snapshot)); [|exact ex_snapshot_built|].
  - apply (called_new " btcusdt" 5000 false). reflexivity.
  - vm_compute. reflexivity.
Qed.

(** The book of a snapshot, and the book of the next good one after one that raised. *)
Lemma live_book_invariant_witness :
  (live_ok ex_book /\ side_ok (bids ex_book) /\ side_ok (asks ex_book)) /\
  crossed ex_raised = true /\ exists o b', deliver (Snapshot ex_snapshot) ex_raised = (Ok o, b') /\ live_ok b'.
Proof.
  split; [apply (proj1 (live_book_invariant ex_book)); [apply ex_book_reachable | reflexivity]|].
  split; [vm_compute; reflexivity|].
  destruct (proj2 (live_book_invariant ex_raised) ex_raised_called) as (_ & _ & H).
  assert (exists o b', deliver (Snapshot ex_snapshot) ex_raised = (Ok o, b') /\ accepted o = true) as (o & b' & E & Ha)
    by (eexists _, _; split; vm_compute; reflexivity).
  exists o, b'. split; [exact E|]. exact (proj1 (proj2 (H _ _ _ ex_snapshot_built E Ha))).
Defined.

Lemma accepted_delta_contiguous_witness :
  exists last, state ex_book = LIVE /\ last_update_id ex_book = Some last /\ 11 <= last + 1 <= 12.
Proof.
  edestruct (accepted_delta_contiguous (ex_delta 11 12) ex_book) as (last & H1 & H2 & _ & _ & H3);
    [vm_compute; reflexivity | reflexivity |].
  exists last. split; [exact H1|]. split; [exact H2|exact H3].
Defined.

Lemma gap_fails_closed_witness :
  exists o b', apply_delta (ex_delta 13 14) ex_book = (Ok o, b') /\
               state b' = GAP_DETECTED /\ accepted o = false.
Proof.
  eexists _, _. split; [vm_compute; reflexivity|].
  edestruct (gap_fails_closed (ex_delta 13 14) ex_book 10) as (H1 & H2 & _);
    [reflexivity | reflexivity | vm_compute; discriminate | reflexivity | vm_compute; reflexivity |].
  split; [reflexivity|exact H2].
Defined.

Lemma apply_side_absolute_witness :
  exists s', _apply_side (bids ex_book) [ex_level 99 0; ex_level 100 4] = Ok s' /\
             dict_get deqb (dec_of_Z 100) s' = Some (dec_of_Z 4).
Proof.
  eexists. split; [reflexivity|].
  rewrite (apply_side_absolute (bids ex_book) [ex_level 99 0; ex_level 100 4] _ (dec_of_Z 100)
    (proj1 ex_book_sides) eq_refl). reflexivity.
Defined.

Lemma observation_evidence_witness :
  exists o imb, _observation true [] ex_book = Ok o /\ top_imbalance o = Some imb /\
                (dval imb <= 1)%Q.
Proof.
  destruct (_observation true [] ex_book) as [o|] eqn:E; [|vm_compute in E; discriminate].
  destruct (observation_evidence true [] ex_book o ex_book_live ex_book_sides) as
    (bb & ba & sp & imb & _ & _ & _ & Himb & _ & _ & _ & _ & _ & U & _); [|exact E|eauto].
  intros p q Hin. simpl in Hin.
  destruct Hin as [[= <- <-]|[[= <- <-]|[[= <- <-]|[[= <- <-]|[]]]]]; split; vm_compute; discriminate.
Defined.

(** A refused message can leave a LIVE book corrupted.  [apply_snapshot]
    installs the new bids before it validates the asks; a snapshot whose asks
    repeat a price raises ValueError and leaves the object LIVE, at its old
    update id, with the new bids above the old asks. *)
Theorem refused_snapshot_leaves_crossed_live_book :
  exists b s e b',
    reachable b /\ built_message (Snapshot s) /\
    deliver (Snapshot s) b = (Raise (ValueError e), b') /\
    state b' = LIVE /\ crossed b' = true /\ last_update_id b' = last_update_id b.
Proof.
  exists ex_book, ex_bad_snapshot.
  eexists _, _. split; [apply ex_book_reachable|]. split; [exact ex_bad_snapshot_built|].
  split; [vm_compute; reflexivity|]. by vm_compute.
Qed.
