(* ===== verification/StreamRecovery.v ===== *)
(** [exchange/stream_state.py]: the gap, backfill and reconnect state machine
    of a public stream.  The retry delay is a binary64 number, modelled with
    the Standard Library's [SpecFloat]. *)
From S2P Require Import Prelude PyFloat.
Local Open Scope Z_scope.
Local Open Scope bool_scope.

(** [b * (2**exponent)]: the integer power is converted to a float, which
    fails from [2**1024] on. *)
Definition fmul_pow2 (b : float) (exponent : Z) : res float :=
  if 1024 <=? exponent then Raise (OverflowError "int too large to convert to float")
  else Ok (fmul b (float_of 1 exponent)).

(** ** Data *)

Inductive StreamState : Type :=
| DISCONNECTED | CONNECTING | SYNCING_SNAPSHOT | LIVE | GAP_DETECTED
| BACKFILLING | DEGRADED | STOPPED.

#[export] Instance StreamState_eq_dec : EqDecision StreamState.
Proof. solve_decision. Defined.

Record StreamRecoveryPolicy : Type := mk_policy {
  max_reconnect_attempts : Z;
  maximum_sequence_gap : Z;
  maximum_queue_depth : Z;
  stale_after : Z;
  base_retry_seconds : float;
  maximum_retry_seconds : float;
  maximum_connection_age : Z
}.

(** [StreamRecoveryPolicy.__post_init__] *)
Definition new_policy (p : StreamRecoveryPolicy) : res StreamRecoveryPolicy :=
  raise_if ((Z.min (max_reconnect_attempts p)
               (Z.min (maximum_sequence_gap p) (maximum_queue_depth p)) <? 1)
            || (stale_after p <=? 0) || (maximum_connection_age p <=? 0)
            || fle (base_retry_seconds p) (float_of 0 0)
            || flt (maximum_retry_seconds p) (base_retry_seconds p))
    (ValueError "stream recovery policy is invalid");;
  mret p.

Definition default_policy : StreamRecoveryPolicy := mk_policy 5 10000 50000
  (seconds 30) (float_of 1 0) (float_of 30 0) (seconds (23 * 3600 + 55 * 60)).

Record StreamTransition : Type := mk_transition {
  tr_state : StreamState;
  tr_accepted : bool;
  tr_last_sequence : option Z;
  retry_after_seconds : float;
  tr_blockers : list string;
  tr_execution_allowed : bool
}.

Record stream : Type := mk_stream {
  policy : StreamRecoveryPolicy;
  state : StreamState;
  last_sequence : option Z;
  reconnect_attempts : Z;
  last_event_at : option datetime;
  connected_at : option datetime
}.

(** [PublicStreamRecovery(policy)] *)
Definition new_stream (p : StreamRecoveryPolicy) : stream :=
  mk_stream p DISCONNECTED None 0 None None.

Definition with_state s x := mk_stream (policy x) s (last_sequence x)
  (reconnect_attempts x) (last_event_at x) (connected_at x).
Definition with_connected_at t x := mk_stream (policy x) (state x) (last_sequence x)
  (reconnect_attempts x) (last_event_at x) t.
Definition with_attempts n x := mk_stream (policy x) (state x) (last_sequence x)
  n (last_event_at x) (connected_at x).
Definition with_sequence s t x := mk_stream (policy x) (state x) (Some s)
  (reconnect_attempts x) (Some t) (connected_at x).

Definition transition : Type := method stream StreamTransition.

(** ** Checks *)

Definition state_name (s : StreamState) : string :=
  match s with
  | DISCONNECTED => "DISCONNECTED" | CONNECTING => "CONNECTING"
  | SYNCING_SNAPSHOT => "SYNCING_SNAPSHOT" | LIVE => "LIVE"
  | GAP_DETECTED => "GAP_DETECTED" | BACKFILLING => "BACKFILLING"
  | DEGRADED => "DEGRADED" | STOPPED => "STOPPED"
  end.

Definition _result_retry (accepted : bool) (blockers : list string) (retry : float) : transition :=
  x ← get;
  mret (mk_transition (state x) accepted (last_sequence x) retry blockers false).
Definition _result (accepted : bool) (blockers : list string) : transition :=
  _result_retry accepted blockers (float_of 0 0).

Definition _require_state (allowed : list StreamState) : method stream unit :=
  x ← get;
  lift (raise_if (negb (existsb (fun s => bool_decide (state x = s)) allowed))
    (ValueError ("invalid stream transition from " ++ state_name (state x)))).

Definition _require_aware (value : datetime) : res unit :=
  raise_if (naive value) (ValueError "stream timestamp must be timezone-aware").

Definition earlier_than (t : datetime) (o : option datetime) : bool :=
  match o with Some u => dt_ltb t u | None => false end.

Definition _validate_sequence_and_time (sequence : Z) (observed_at : datetime) : method stream unit :=
  lift (raise_if (sequence <? 1) (ValueError "stream sequence must be positive"));;
  lift (_require_aware observed_at);;
  x ← get;
  lift (raise_if (earlier_than observed_at (last_event_at x))
    (ValueError "stream event time cannot move backwards")).

(** ** Operations *)

Definition start : transition :=
  _require_state [DISCONNECTED];; modify (with_state CONNECTING);; _result true [].

Definition connected (observed_at : option datetime) : transition :=
  _require_state [CONNECTING];;
  lift (match observed_at with Some t => _require_aware t | None => Ok tt end);;
  modify (with_connected_at observed_at);;
  modify (with_state SYNCING_SNAPSHOT);;
  _result true [].

Definition apply_snapshot (sequence : Z) (observed_at : datetime) : transition :=
  _require_state [SYNCING_SNAPSHOT; BACKFILLING];;
  _validate_sequence_and_time sequence observed_at;;
  modify (with_sequence sequence observed_at);;
  modify (with_attempts 0);;
  modify (with_state LIVE);;
  _result true [].

Definition apply_update (first last : Z) (observed_at : datetime) (queue_depth : Z) : transition :=
  _require_state [LIVE];;
  _validate_sequence_and_time last observed_at;;
  lift (raise_if ((first <? 1) || (last <? first) || (queue_depth <? 0))
    (ValueError "stream update sequence or queue depth is invalid"));;
  x ← get;
  if maximum_queue_depth (policy x) <? queue_depth then
    modify (with_state DEGRADED);; _result false ["STREAM_BACKPRESSURE_LIMIT_EXCEEDED"]
  else
    match last_sequence x with
    | None => lift (Raise (RuntimeError "live stream is missing its snapshot sequence"))
    | Some current =>
        let expected := current + 1 in
        if last <? expected then _result false []
        else if expected <? first then
          if maximum_sequence_gap (policy x) <? first - expected then
            modify (with_state DEGRADED);; _result false ["STREAM_SEQUENCE_GAP_EXCEEDS_LIMIT"]
          else
            modify (with_state GAP_DETECTED);; _result false ["STREAM_SEQUENCE_GAP"]
        else modify (with_sequence last observed_at);; _result true []
    end.

Definition begin_backfill : transition :=
  _require_state [GAP_DETECTED];;
  modify (with_state BACKFILLING);; _result true ["REST_BACKFILL_IN_PROGRESS"].

Definition reject_unsequenced_update : transition :=
  _require_state [LIVE];; _result false ["KLINE_TRADE_SEQUENCE_UNAVAILABLE"].

Definition disconnected : transition :=
  _require_state [CONNECTING; SYNCING_SNAPSHOT; LIVE; GAP_DETECTED; BACKFILLING];;
  x0 ← get;
  modify (with_attempts (reconnect_attempts x0 + 1));;
  x ← get;
  if max_reconnect_attempts (policy x) <? reconnect_attempts x then
    modify (with_state DEGRADED);; _result false ["STREAM_RECONNECT_CIRCUIT_OPEN"]
  else
    modify (with_state DISCONNECTED);;
    delay ← lift (fmul_pow2 (base_retry_seconds (policy x)) (reconnect_attempts x - 1));
    _result_retry false ["PUBLIC_STREAM_DISCONNECTED"]
      (fmin (maximum_retry_seconds (policy x)) delay).

Definition server_shutdown : transition :=
  _require_state [SYNCING_SNAPSHOT; LIVE; GAP_DETECTED; BACKFILLING];;
  modify (with_state DISCONNECTED);;
  modify (with_connected_at None);;
  _result false ["STREAM_SERVER_SHUTDOWN"].

Definition check_connection_rollover (now : datetime) : transition :=
  _require_state [LIVE];;
  lift (_require_aware now);;
  x ← get;
  match connected_at x with
  | None => lift (Raise (ValueError "stream connection age is unavailable or invalid"))
  | Some t =>
      if dt_ltb now t then lift (Raise (ValueError "stream connection age is unavailable or invalid"))
      else if maximum_connection_age (policy x) <=? dt_sub now t then
        modify (with_state DISCONNECTED);;
        modify (with_connected_at None);;
        _result false ["STREAM_CONNECTION_ROLLOVER_REQUIRED"]
      else _result true []
  end.

Definition check_staleness (now : datetime) : transition :=
  _require_state [LIVE];;
  lift (_require_aware now);;
  x ← get;
  match last_event_at x with
  | None => lift (Raise (ValueError "stream staleness time is invalid"))
  | Some t =>
      if dt_ltb now t then lift (Raise (ValueError "stream staleness time is invalid"))
      else if stale_after (policy x) <? dt_sub now t then
        modify (with_state DEGRADED);; _result false ["PUBLIC_STREAM_STALE"]
      else _result true []
  end.

Definition stop : transition :=
  x ← get;
  lift (raise_if (bool_decide (state x = STOPPED)) (ValueError "stream is already stopped"));;
  modify (with_state STOPPED);;
  _result true [].

(** One call on the object. *)
Inductive call : Type :=
| Start | Connected (t : option datetime) | ApplySnapshot (s : Z) (t : datetime)
| ApplyUpdate (f l : Z) (t : datetime) (q : Z) | BeginBackfill | RejectUnsequenced
| Disconnected | ServerShutdown | CheckRollover (t : datetime)
| CheckStaleness (t : datetime) | Stop.

Definition perform (c : call) : transition :=
  match c with
  | Start => start | Connected t => connected t | ApplySnapshot s t => apply_snapshot s t
  | ApplyUpdate f l t q => apply_update f l t q | BeginBackfill => begin_backfill
  | RejectUnsequenced => reject_unsequenced_update | Disconnected => disconnected
  | ServerShutdown => server_shutdown | CheckRollover t => check_connection_rollover t
  | CheckStaleness t => check_staleness t | Stop => stop
  end.

(** ** Running the operations *)

Lemma require_state_bind {B} l (f : unit -> method stream B) x :
  (_require_state l ≫= f) x =
  if existsb (fun s => bool_decide (state x = s)) l then f tt x
  else (Raise (ValueError ("invalid stream transition from " ++ state_name (state x))), x).
Proof.
  unfold _require_state, mbind, method_bind, get, lift, raise_if. by destruct (existsb _ l).
Qed.

Lemma validate_bind {B} q t (f : unit -> method stream B) x :
  (_validate_sequence_and_time q t ≫= f) x =
  if q <? 1 then (Raise (ValueError "stream sequence must be positive"), x)
  else if naive t then (Raise (ValueError "stream timestamp must be timezone-aware"), x)
  else if earlier_than t (last_event_at x)
  then (Raise (ValueError "stream event time cannot move backwards"), x) else f tt x.
Proof.
  unfold _validate_sequence_and_time, _require_aware, mbind, method_bind, lift, raise_if.
  destruct (q <? 1); [done|]. destruct (naive t); [done|]. simpl.
  by destruct (earlier_than t (last_event_at x)).
Qed.

Lemma aware_bind {B} t (f : unit -> method stream B) x :
  (lift (_require_aware t) ≫= f) x =
  if naive t then (Raise (ValueError "stream timestamp must be timezone-aware"), x) else f tt x.
Proof. apply lift_raise_if_bind. Qed.

#[export] Hint Rewrite @require_state_bind @validate_bind @aware_bind : method.

(** [run H] evaluates the call in [H] on every branch. *)
Ltac run H :=
  unfold start, connected, apply_snapshot, apply_update, begin_backfill,
    reject_unsequenced_update, disconnected, server_shutdown, check_connection_rollover,
    check_staleness, stop in H;
  repeat (autorewrite with method in H; simpl in H;
          try match type of H with
          | context [if ?b then _ else _] => destruct b eqn:?
          | context [match ?o with Some _ => _ | None => _ end] => destruct o eqn:?
          | (lift ?m ≫= _) _ = _ => rewrite (lift_bind m) in H; destruct m eqn:?
          end);
  try (injection H as <- <-).

(** ** The state invariant *)

Definition synchronized (s : StreamState) : bool :=
  match s with LIVE | GAP_DETECTED | BACKFILLING => true | _ => false end.

Definition halted (s : StreamState) : bool :=
  match s with DEGRADED | STOPPED => true | _ => false end.

(** A synchronized stream has a positive position and an event time; the
    reconnect counter exceeds its limit only once the circuit is open. *)
Record stream_ok (x : stream) : Prop := mk_stream_ok {
  ok_position : synchronized (state x) = true ->
    exists s t, last_sequence x = Some s /\ 1 <= s /\ last_event_at x = Some t /\ naive t = false;
  ok_attempts : 0 <= reconnect_attempts x <= max_reconnect_attempts (policy x) + 1;
  ok_circuit : halted (state x) = false ->
    reconnect_attempts x <= max_reconnect_attempts (policy x)
}.

(** Objects built with a checked policy and any sequence of calls, including
    calls that raised. *)
Inductive reachable : stream -> Prop :=
| reach_new p : new_policy p = Ok p -> reachable (new_stream p)
| reach_call x c : reachable x -> reachable (snd (perform c x)).

Lemma perform_policy c x r x' : perform c x = (r, x') -> policy x' = policy x.
Proof. destruct c; simpl; intros H; run H; done. Qed.

Lemma perform_ok c x r x' :
  1 <= max_reconnect_attempts (policy x) -> stream_ok x -> perform c x = (r, x') -> stream_ok x'.
Proof.
  intros Hp [Hpos Hatt Hcir].
  destruct c; simpl; intros H; run H; try done;
    destruct (state x) eqn:Es; try discriminate;
    try (specialize (Hpos eq_refl) as (s0 & t0 & E1 & E2 & E3 & E4));
    try (specialize (Hcir eq_refl)); zify_bool; split; simpl; rewrite ?Es; simpl;
    try (intros; discriminate); try lia; intros _; eauto with lia.
  all: simplify_eq; do 2 eexists; (split; [done|]); (split; [lia|]); (split; [done|]); done.
Qed.

Lemma reachable_ok x : reachable x -> stream_ok x /\ 1 <= max_reconnect_attempts (policy x).
Proof.
  induction 1 as [p Hp|x c _ [IH Hp]].
  - unfold new_policy in Hp. inv_res. zify_bool. simpl. split; [|lia].
    split; simpl; [done|lia|lia].
  - destruct (perform c x) as [r x'] eqn:E. simpl. split; [by eapply perform_ok|].
    by rewrite (perform_policy _ _ _ _ E).
Qed.

(** ** Properties *)

(** The stream invariant.  After any sequence of calls, raising or not, on
    an object with a valid policy: a stream that is LIVE, has a gap or is
    backfilling has a positive sequence number and an aware event time; the
    reconnect counter never exceeds the policy's limit by more than one, and
    only a degraded or stopped stream is over the limit. *)
Theorem stream_invariant x : reachable x -> stream_ok x.
Proof. intros H. by apply reachable_ok. Qed.

(** Updates extend the position without holes.  An update that returns
    either extends the position from [last] to its own last number with a range
    that reaches [last + 1], or is an old duplicate and changes nothing, or
    leaves the position alone and takes the stream out of LIVE with a blocker. *)
Theorem update_contiguous f l t q x tr x' :
  apply_update f l t q x = (Ok tr, x') ->
  if tr_accepted tr then
    exists last, last_sequence x = Some last /\ f <= last + 1 <= l /\ x' = with_sequence l t x
  else
    (x' = x /\ exists last, last_sequence x = Some last /\ l <= last) \/
    ((state x' = GAP_DETECTED \/ state x' = DEGRADED) /\
     last_sequence x' = last_sequence x /\ tr_blockers tr <> []).
Proof.
  intros H. run H; try done; zify_bool; simpl;
    try (right; split; [by auto|]; split; [done|discriminate]).
  - left. split; [done|]. eexists. split; [done|lia].
  - eexists. split; [done|]. split; [lia|done].
Qed.

(** DEGRADED and STOPPED fail closed.  No call on a halted stream makes
    it usable again or moves its position, and the only call that returns is
    [stop]; every other one raises ValueError and changes nothing. *)
Theorem halted_absorbing c x r x' :
  halted (state x) = true -> perform c x = (r, x') ->
  halted (state x') = true /\ last_sequence x' = last_sequence x /\
  (c <> Stop -> x' = x /\ exists m, r = Raise (ValueError m)).
Proof.
  intros Hh H. destruct c; simpl in H; run H; destruct (state x) eqn:Es;
    try discriminate; simpl; rewrite ?Es; eauto 6; done.
Qed.

(** The reconnect circuit.  A disconnect in any connected state of a
    reachable stream whose policy allows at most 1024 attempts returns; below
    the limit it goes back to DISCONNECTED with one more attempt counted and a
    delay that is not above [maximum_retry_seconds]; at the limit it opens the
    circuit, from where only [stop] is possible. *)
Theorem reconnect_circuit x :
  reachable x -> max_reconnect_attempts (policy x) <= 1024 ->
  In (state x) [CONNECTING; SYNCING_SNAPSHOT; LIVE; GAP_DETECTED; BACKFILLING] ->
  exists tr x', disconnected x = (Ok tr, x') /\ tr_accepted tr = false /\
    reconnect_attempts x' = reconnect_attempts x + 1 /\
    if reconnect_attempts x <? max_reconnect_attempts (policy x) then
      state x' = DISCONNECTED /\
      (retry_after_seconds tr = maximum_retry_seconds (policy x) \/
       flt (retry_after_seconds tr) (maximum_retry_seconds (policy x)) = true)
    else state x' = DEGRADED.
Proof.
  intros Hr Hm Hin. apply reachable_ok in Hr as [[_ Hatt _] Hp].
  destruct (disconnected x) as [r x'] eqn:H.
  assert (existsb (fun s => bool_decide (state x = s))
    [CONNECTING; SYNCING_SNAPSHOT; LIVE; GAP_DETECTED; BACKFILLING] = true) as Hall.
  { apply existsb_exists. exists (state x). split; [done|]. by apply bool_decide_eq_true. }
  unfold disconnected in H. autorewrite with method in H. rewrite Hall in H.
  autorewrite with method in H. simpl in H.
  destruct (Z.ltb_spec (max_reconnect_attempts (policy x)) (reconnect_attempts x + 1));
    destruct (Z.ltb_spec (reconnect_attempts x) (max_reconnect_attempts (policy x))); try lia.
  - injection H as <- <-. eexists _, _. auto.
  - autorewrite with method in H. rewrite lift_bind in H. unfold fmul_pow2 in H.
    destruct (Z.leb_spec 1024 (reconnect_attempts x + 1 - 1)); [lia|].
    injection H as <- <-. eexists _, _. split; [reflexivity|]. simpl.
    do 3 (split; [done|]). apply fmin_le.
Qed.

(** ** Witnesses *)

Definition ex_run (cs : list call) : stream :=
  fold_left (fun x c => snd (perform c x)) cs (new_stream default_policy).
Definition ex_live : stream :=
  Eval vm_compute in ex_run [Start; Connected (Some (utc 0)); ApplySnapshot 100 (utc 1)].

Lemma ex_run_reachable cs : reachable (ex_run cs).
Proof.
  unfold ex_run. assert (reachable (new_stream default_policy)) as H by by apply reach_new.
  revert H. generalize (new_stream default_policy).
  induction cs as [|c cs IH]; simpl; auto using reach_call.
Qed.

Lemma ex_live_reachable : reachable ex_live.
Proof. apply (ex_run_reachable [Start; Connected (Some (utc 0)); ApplySnapshot 100 (utc 1)]). Qed.

Lemma stream_invariant_witness : exists s, last_sequence ex_live = Some s /\ 1 <= s.
Proof.
  destruct (ok_position _ (stream_invariant ex_live ex_live_reachable) eq_refl)
    as (s & t & H1 & H2 & _). eauto.
Defined.

Lemma update_contiguous_witness :
  exists tr x', apply_update 101 105 (utc 2) 0 ex_live = (Ok tr, x') /\
                tr_accepted tr = true /\ x' = with_sequence 105 (utc 2) ex_live.
Proof.
  eexists _, _. split; [vm_compute; reflexivity|].
  epose proof (update_contiguous 101 105 (utc 2) 0 ex_live _ _ ltac:(vm_compute; reflexivity)) as H.
  destruct H as (last & _ & _ & H). split; [reflexivity|exact H].
Defined.

Lemma halted_absorbing_witness :
  halted (state (snd (perform (ApplySnapshot 1 (utc 9)) (ex_run [Stop])))) = true.
Proof.
  eapply (halted_absorbing (ApplySnapshot 1 (utc 9)) (ex_run [Stop])); [reflexivity|].
  apply surjective_pairing.
Defined.

Lemma reconnect_circuit_witness :
  exists tr x', disconnected ex_live = (Ok tr, x') /\ state x' = DISCONNECTED.
Proof.
  destruct (reconnect_circuit ex_live ex_live_reachable) as (tr & x' & H1 & _ & _ & H2 & _).
  - vm_compute. discriminate.
  - simpl. auto.
  - eauto.
Defined.
