(* ===== verification/ConnectorHealth.v ===== *)
(** [exchange/readiness.py] and [exchange/resilience.py]: the connector
    readiness gate, the fixed-window request budget and the server-time gate. *)
From S2P Require Import Prelude PyFloat.
Local Open Scope Z_scope.
Local Open Scope bool_scope.

(** ** Connector readiness *)

Record ConnectorReadinessInput : Type := mk_readiness_input {
  api_reachable : bool;
  server_time_synchronized : bool;
  exchange_info_fresh : bool;
  trading_rules_loaded : bool;
  order_book_snapshot_ready : bool;
  stream_connected : bool;
  sequence_contiguous : bool;
  rest_backfill_complete : bool;
  private_state_required : bool;
  wallet_known : bool;
  open_orders_reconciled : bool
}.

Record ConnectorReadinessAssessment : Type := mk_readiness {
  ready_for_research : bool;
  readiness_blockers : list string;
  readiness_execution_allowed : bool;
  readiness_live_status : string
}.

(** [ConnectorReadinessAssessment.__post_init__] *)
Definition new_readiness (a : ConnectorReadinessAssessment) : res ConnectorReadinessAssessment :=
  raise_if (eqb (ready_for_research a) (negb (is_nil (readiness_blockers a))))
    (ValueError "connector readiness and blockers disagree");;
  raise_if (readiness_execution_allowed a)
    (ValueError "connector readiness cannot authorize execution");;
  mret a.

(** The table [checks] of the function. *)
Definition readiness_checks (e : ConnectorReadinessInput) : list (bool * string) :=
  [ (api_reachable e, "CONNECTOR_API_UNREACHABLE");
    (server_time_synchronized e, "CONNECTOR_TIME_UNSYNCHRONIZED");
    (exchange_info_fresh e, "EXCHANGE_INFO_STALE");
    (trading_rules_loaded e, "TRADING_RULES_UNAVAILABLE");
    (order_book_snapshot_ready e, "ORDER_BOOK_SNAPSHOT_UNAVAILABLE");
    (stream_connected e, "PUBLIC_STREAM_DISCONNECTED");
    (sequence_contiguous e, "STREAM_SEQUENCE_GAP");
    (rest_backfill_complete e, "REST_BACKFILL_INCOMPLETE") ].

Definition assess_connector_readiness (e : ConnectorReadinessInput)
  : res ConnectorReadinessAssessment :=
  let blockers :=
    map snd (List.filter (fun c => negb (fst c)) (readiness_checks e)) ++
    (if private_state_required e then
       block_if (negb (wallet_known e)) "WALLET_STATE_UNKNOWN" ++
       block_if (negb (open_orders_reconciled e)) "OPEN_ORDERS_NOT_RECONCILED"
     else []) in
  new_readiness (mk_readiness (is_nil blockers) blockers false LIVE_ORDER_BLOCKED).

(** ** Request budget *)

Record RateLimitDecision : Type := mk_decision {
  allowed : bool;
  used_weight : Z;
  remaining_weight : Z;
  retry_after : float;
  decision_blockers : list string
}.

Record RateLimitBudget : Type := mk_budget {
  maximum_weight : Z;
  window : Z;
  _window_started_at : option datetime;
  _used_weight : Z
}.

(** [RateLimitBudget(maximum_weight, window)] *)
Definition new_budget (maximum window : Z) : res RateLimitBudget :=
  raise_if ((maximum <? 1) || (window <=? 0))
    (ValueError "rate-limit budget and window must be positive");;
  mret (mk_budget maximum window None 0).

Definition restart_window now b := mk_budget (maximum_weight b) (window b) (Some now) 0.
Definition with_used n b :=
  mk_budget (maximum_weight b) (window b) (_window_started_at b) n.

(** The window has not been opened or has elapsed. *)
Definition window_elapsed (b : RateLimitBudget) (now : datetime) : bool :=
  match _window_started_at b with
  | None => true
  | Some t => window b <=? dt_sub now t
  end.

(** [RateLimitBudget.consume] *)
Definition consume (weight : Z) (now : datetime) : method RateLimitBudget RateLimitDecision :=
  b0 ← get;
  lift (raise_if ((weight <? 1) || (maximum_weight b0 <? weight))
    (ValueError "request weight must fit within the configured budget"));;
  lift (raise_if (naive now) (ValueError "rate-limit timestamp must be timezone-aware"));;
  lift (raise_if (match _window_started_at b0 with Some t => dt_ltb now t | None => false end)
    (ValueError "rate-limit time cannot move backwards"));;
  modify (fun b => if window_elapsed b now then restart_window now b else b);;
  b ← get;
  let projected := _used_weight b + weight in
  if maximum_weight b <? projected then
    let elapsed := dt_sub now (default now (_window_started_at b)) in
    remaining ← lift (total_seconds (window b - elapsed));
    mret (mk_decision false (_used_weight b) (maximum_weight b - _used_weight b)
      (fmax fzero remaining) ["EXCHANGE_RATE_LIMIT_BUDGET_EXHAUSTED"])
  else
    modify (with_used projected);;
    mret (mk_decision true projected (maximum_weight b - projected) fzero []).

(** ** Server time *)

Record ServerTimeAssessment : Type := mk_server_time {
  drift_ms : Z;
  acceptable : bool;
  time_blockers : list string
}.

Definition assess_server_time (local server maximum_drift_ms : Z) : res ServerTimeAssessment :=
  raise_if ((Z.min local server <? 0) || (maximum_drift_ms <? 1))
    (ValueError "server-time values and threshold are invalid");;
  let drift := Z.abs (local - server) in
  let blockers := block_if (maximum_drift_ms <? drift) "EXCHANGE_SERVER_TIME_DRIFT" in
  mret (mk_server_time drift (is_nil blockers) blockers).

(** ** The budget over a sequence of requests *)

Record budget_ok (b : RateLimitBudget) : Prop := mk_budget_ok {
  budget_used : 0 <= _used_weight b <= maximum_weight b;
  budget_limit : 1 <= maximum_weight b;
  budget_idle : _window_started_at b = None -> _used_weight b = 0
}.


(** A run of requests: the weights admitted in the current window. *)
Fixpoint admitted (reqs : list (Z * datetime)) (b : RateLimitBudget) (acc : Z) : RateLimitBudget * Z :=
  match reqs with
  | [] => (b, acc)
  | (w, t) :: reqs' =>
      let '(r, b') := consume w t b in
      let acc0 := if window_elapsed b t then 0 else acc in
      match r with
      | Ok d => admitted reqs' b' (if allowed d then acc0 + w else acc0)
      | Raise _ => admitted reqs' b' acc
      end
  end.

(** What one call does to the budget, on every outcome. *)
Lemma consume_run w t b r b' : budget_ok b -> consume w t b = (r, b') ->
  budget_ok b' /\ maximum_weight b' = maximum_weight b /\ window b' = window b /\
  match r with
  | Ok d =>
      let base := if window_elapsed b t then 0 else _used_weight b in
      used_weight d = _used_weight b' /\
      remaining_weight d = maximum_weight b - _used_weight b' /\
      if allowed d then _used_weight b' = base + w /\ 1 <= w
      else _used_weight b' = base /\ maximum_weight b < base + w
  | Raise _ => _used_weight b' = _used_weight b
  end.
Proof.
  intros [[U1 U2] L I] H. unfold consume in H. autorewrite with method in H.
  destruct ((w <? 1) || (maximum_weight b <? w)) eqn:E1; [injection H as <- <-; by repeat split|].
  destruct (naive t); [injection H as <- <-; by repeat split|].
  destruct (match _window_started_at b with Some _ => _ | None => _ end);
    [injection H as <- <-; by repeat split|].
  autorewrite with method in H. inv_res. zify_bool.
  destruct (window_elapsed b t) eqn:E; simpl in H.
  - destruct (Z.ltb_spec (maximum_weight b) (0 + w)); [lia|].
    autorewrite with method in H. injection H as <- <-. simpl.
    split; [split; simpl; [lia|lia|done]|]. repeat split; lia.
  - destruct (Z.ltb_spec (maximum_weight b) (_used_weight b + w)).
    + rewrite lift_bind in H. destruct (total_seconds _); autorewrite with method in H; injection H as <- <-; simpl;
        (split; [by split|]); repeat split; lia.
    + autorewrite with method in H. injection H as <- <-. simpl.
      split; [split; simpl; [lia|lia|]|repeat split; lia].
      intros Hst. unfold window_elapsed in E. by rewrite Hst in E.
Qed.

Lemma admitted_used reqs : forall b acc b' acc', budget_ok b -> acc = _used_weight b ->
  admitted reqs b acc = (b', acc') ->
  acc' = _used_weight b' /\ budget_ok b' /\ maximum_weight b' = maximum_weight b.
Proof.
  induction reqs as [|[w t] reqs IH]; simpl; intros b acc b' acc' Hb -> H.
  { by injection H as <- <-. }
  destruct (consume w t b) as [r b1] eqn:E.
  apply consume_run in E as (H1 & H2 & _ & H3); [|done].
  destruct r as [d|e].
  - destruct H3 as (_ & _ & H3). eapply IH in H; [|done|].
    + destruct H as (? & ? & ?). split_and!; congruence.
    + destruct (allowed d), (window_elapsed b t); lia.
  - eapply IH in H; [|done|done]. destruct H as (? & ? & ?). split_and!; congruence.
Qed.

(** ** Properties *)

(** The request budget holds in every window.  For any sequence of
    [consume] calls on a new budget, with whatever outcomes, the weights
    admitted since the current window was opened sum to the recorded usage and
    never exceed the maximum. *)
Theorem budget_never_exceeded m w b reqs b' total :
  new_budget m w = Ok b -> admitted reqs b 0 = (b', total) ->
  total = _used_weight b' /\ 0 <= total <= m.
Proof.
  intros Hn H. unfold new_budget in Hn. inv_res. zify_bool. subst b.
  apply admitted_used in H as (-> & [[U1 U2] _ _] & E); [simpl in E; lia|split; simpl; lia|done].
Qed.

(** The connector gate is exact and carries no authority.  The assessment
    always returns; it is ready exactly when every public check passed and,
    when private state is required, the wallet is known and the open orders are
    reconciled; being ready is the same as having no blocker, and execution is
    never allowed. *)
Theorem readiness_exact e :
  exists a, assess_connector_readiness e = Ok a /\
    (ready_for_research a = true <->
       forallb fst (readiness_checks e) = true /\
       (private_state_required e = true -> wallet_known e = true /\ open_orders_reconciled e = true)) /\
    (ready_for_research a = true <-> readiness_blockers a = []) /\
    readiness_execution_allowed a = false /\ readiness_live_status a = LIVE_ORDER_BLOCKED.
Proof.
  unfold assess_connector_readiness, new_readiness. cbn [ready_for_research readiness_blockers].
  set (bl := _ ++ _). assert (eqb (is_nil bl) (negb (is_nil bl)) = false) as ->
    by (by destruct (is_nil bl)).
  eexists. split; [reflexivity|]. cbn [ready_for_research readiness_blockers
    readiness_execution_allowed readiness_live_status].
  split; [|split; [apply is_nil_true|done]]. rewrite is_nil_true. subst bl.
  destruct e as [[] [] [] [] [] [] [] [] [] [] []]; cbn;
    (split; [intros H; first [discriminate H | by auto]
            |intros [H1 H2]; first [discriminate H1 | by auto
              | by destruct (H2 eq_refl)]]).
Qed.

Lemma budget_never_exceeded_witness :
  exists b, new_budget 10 (seconds 60) = Ok b /\
  snd (admitted [(6, utc 0); (6, utc 1); (4, utc 2)] b 0) = 10 /\ 0 <= 10 <= 10.
Proof.
  eexists. split; [reflexivity|].
  edestruct (budget_never_exceeded 10 (seconds 60) (mk_budget 10 (seconds 60) None 0)
    [(6, utc 0); (6, utc 1); (4, utc 2)]) as (_ & H); [reflexivity|vm_compute; reflexivity|].
  split; [vm_compute; reflexivity|exact H].
Defined.
