(* ===== verification/Filters.v ===== *)
(** [exchange/filters.py]: parsing of the exchange's symbol filters and the
    validation of an order against them. *)
From S2P Require Import Prelude PyDecimal DecimalFacts DecimalText PyFloat PyText.
From Stdlib Require Import QArith Lqa.
Local Open Scope Z_scope.
Local Open Scope bool_scope.

(** ** Payload values *)

(** A JSON scalar of a filter, as the parsed payload holds it. *)
Inductive FilterValue : Type :=
| FStr (s : string)
| FInt (n : Z)
| FFloat (x : float)
| FBool (b : bool)
| FNone.

Definition filter_fields : Type := list (string * FilterValue).

Record PriceFilter : Type := mk_price_filter { min_price : dec; max_price : dec; tick_size : dec }.
Record LotSizeFilter : Type :=
  mk_lot_filter { min_quantity : dec; max_quantity : dec; step_size : dec }.
Record NotionalFilter : Type := mk_notional_filter { min_notional : dec; max_notional : dec }.
Record SymbolFilters : Type := mk_filters {
  price : PriceFilter;
  lot_size : LotSizeFilter;
  notional : NotionalFilter
}.

Section Parsing.

(** [str(x)] of a float is the shortest decimal that reads back as [x]. *)
Variable float_repr : float -> string.

Definition str_value (v : FilterValue) : string :=
  match v with
  | FStr s => s
  | FInt n => str_int n
  | FFloat x => float_repr x
  | FBool b => if b then "True" else "False"
  | FNone => "None"
  end.

Definition _decimal_field (values : filter_fields) (name : string) (dflt : option dec) : res dec :=
  match default FNone (dict_get String.eqb name values), dflt with
  | FNone, Some d => Ok d
  | FNone, None | FBool _, _ =>
      Raise (ExchangePayloadError ("filter field " ++ name ++ " is missing or invalid"))
  | v, _ =>
      match parse_decimal (str_value v) with
      | None => Raise (ExchangePayloadError ("filter field " ++ name ++ " is invalid"))
      | Some (Finite d) =>
          if (d <? ZERO)%D
          then Raise (ExchangePayloadError ("filter field " ++ name ++ " must be non-negative"))
          else Ok d
      | Some _ => Raise (ExchangePayloadError ("filter field " ++ name ++ " must be non-negative"))
      end
  end.

Definition from_symbol_info (filters : list (string * filter_fields)) : res SymbolFilters :=
  let notional_values :=
    match dict_get String.eqb "NOTIONAL" filters with
    | Some v => Some v
    | None => dict_get String.eqb "MIN_NOTIONAL" filters
    end in
  match dict_get String.eqb "PRICE_FILTER" filters, dict_get String.eqb "LOT_SIZE" filters,
        notional_values with
  | Some p, Some l, Some n =>
      min_p ← _decimal_field p "minPrice" None;
      max_p ← _decimal_field p "maxPrice" None;
      tick ← _decimal_field p "tickSize" None;
      min_q ← _decimal_field l "minQty" None;
      max_q ← _decimal_field l "maxQty" None;
      step ← _decimal_field l "stepSize" None;
      min_n ← _decimal_field n "minNotional" None;
      max_n ← _decimal_field n "maxNotional" (Some ZERO);
      mret (mk_filters (mk_price_filter min_p max_p tick) (mk_lot_filter min_q max_q step)
                       (mk_notional_filter min_n max_n))
  | _, _, _ => Raise (ExchangePayloadError
      "PRICE_FILTER, LOT_SIZE and NOTIONAL/MIN_NOTIONAL are required")
  end.

End Parsing.

(** ** Rounding and validation *)

Definition _round_down (value step : dec) : res dec :=
  if (step <=? ZERO)%D then mret value
  else
    q ← ddiv value step;
    dmul (to_integral_down q) step.

(** [PriceFilter.round_down] and [LotSizeFilter.round_down] *)
Definition price_round_down (f : PriceFilter) (p : dec) : res dec := _round_down p (tick_size f).
Definition lot_round_down (f : LotSizeFilter) (q : dec) : res dec := _round_down q (step_size f).

(** [step > 0 and value % step != 0] *)
Definition misaligned (value step : dec) : res bool :=
  if (ZERO <? step)%D then r ← dmod value step; mret (negb (r =? ZERO)%D) else mret false.

(** [PriceFilter.blockers] *)
Definition price_blockers (f : PriceFilter) (p : dec) : res (list string) :=
  off ← misaligned p (tick_size f);
  mret (block_if ((ZERO <? min_price f)%D && (p <? min_price f)%D) "PRICE_BELOW_MINIMUM" ++
        block_if ((ZERO <? max_price f)%D && (max_price f <? p)%D) "PRICE_ABOVE_MAXIMUM" ++
        block_if off "PRICE_TICK_SIZE_INVALID").

(** [LotSizeFilter.blockers] *)
Definition lot_blockers (f : LotSizeFilter) (q : dec) : res (list string) :=
  off ← misaligned q (step_size f);
  mret (block_if (q <? min_quantity f)%D "QUANTITY_BELOW_MINIMUM" ++
        block_if ((ZERO <? max_quantity f)%D && (max_quantity f <? q)%D) "QUANTITY_ABOVE_MAXIMUM" ++
        block_if off "QUANTITY_STEP_SIZE_INVALID").

(** [NotionalFilter.blockers] *)
Definition notional_blockers (f : NotionalFilter) (p q : dec) : res (list string) :=
  n ← dmul p q;
  mret (block_if (n <? min_notional f)%D "NOTIONAL_BELOW_MINIMUM" ++
        block_if ((ZERO <? max_notional f)%D && (max_notional f <? n)%D) "NOTIONAL_ABOVE_MAXIMUM").

(** [SymbolFilters.validate_order] *)
Definition validate_order (f : SymbolFilters) (p q : dec) : res (list string) :=
  if (p <=? ZERO)%D || (q <=? ZERO)%D then mret ["PRICE_AND_QUANTITY_MUST_BE_POSITIVE"]
  else
    b1 ← price_blockers (price f) p;
    b2 ← lot_blockers (lot_size f) q;
    b3 ← notional_blockers (notional f) p q;
    mret (fromkeys (b1 ++ b2 ++ b3)).

(** ** Facts *)

Lemma decimal_field_nonneg fr values name dflt d :
  (forall x, dflt = Some x -> (0 <= dval x)%Q) ->
  _decimal_field fr values name dflt = Ok d -> (0 <= dval d)%Q.
Proof.
  unfold _decimal_field. intros Hd H.
  destruct (default FNone _) eqn:E, dflt as [dv|] eqn:Ed; try discriminate;
    try (injection H as <-; by apply Hd);
    (destruct (parse_decimal _) as [[y| |]|]; try discriminate;
     destruct (y <? ZERO)%D eqn:Ey; [discriminate|]; injection H as <-;
     zify_dec; by rewrite dval_ZERO in Ey).
Qed.

Definition multiple_of (x step : dec) : Prop := exists n : Z, (dval x == inject_Z n * dval step)%Q.

(** A number in the range and on the grid the context can handle. *)
Definition plain (d : dec) : Prop := dneg d = false /\ Etiny <= dexp d.

Lemma misaligned_spec value step b : plain value -> plain step ->
  misaligned value step = Ok b ->
  b = false <-> ((0 < dval step)%Q -> multiple_of value step).
Proof.
  intros [Sv Ev] [Ss Es] H. unfold misaligned in H.
  destruct (ZERO <? step)%D eqn:E; zify_dec; rewrite dval_ZERO in E.
  - inv_res. pose proof (dmod_zero value step a Sv Ss E Ev Es Hm) as Hz.
    rewrite <- H. destruct (a =? ZERO)%D eqn:Ea; zify_dec; rewrite dval_ZERO in Ea; simpl;
      unfold multiple_of; intuition (try discriminate).
  - inv_res. subst. split; [|done]. intros _ Hlt. lra.
Qed.

Lemma above_limit_false m x :
  ((ZERO <? m)%D && (m <? x)%D) = false <-> ((0 < dval m)%Q -> (dval x <= dval m)%Q).
Proof.
  destruct (ZERO <? m)%D eqn:E1, (m <? x)%D eqn:E2; zify_dec; rewrite ?dval_ZERO in *; simpl;
    split; intros; try done; try lra.
Qed.

Lemma below_minimum_false m x : (x <? m)%D = false <-> (dval m <= dval x)%Q.
Proof. apply dltb_false. Qed.

(** What an order must satisfy to pass the filters. *)
Record order_conforms (f : SymbolFilters) (p q : dec) : Prop := mk_conforms {
  conf_positive : (0 < dval p)%Q /\ (0 < dval q)%Q;
  conf_price_min : (dval (min_price (price f)) <= dval p)%Q;
  conf_price_max : (0 < dval (max_price (price f)))%Q -> (dval p <= dval (max_price (price f)))%Q;
  conf_tick : (0 < dval (tick_size (price f)))%Q -> multiple_of p (tick_size (price f));
  conf_qty_min : (dval (min_quantity (lot_size f)) <= dval q)%Q;
  conf_qty_max : (0 < dval (max_quantity (lot_size f)))%Q ->
                 (dval q <= dval (max_quantity (lot_size f)))%Q;
  conf_step : (0 < dval (step_size (lot_size f)))%Q -> multiple_of q (step_size (lot_size f));
  conf_notional : exists n, dmul p q = Ok n /\ (dval (min_notional (notional f)) <= dval n)%Q /\
    ((0 < dval (max_notional (notional f)))%Q -> (dval n <= dval (max_notional (notional f)))%Q)
}.

Lemma price_blockers_nil f p bl : plain p -> plain (tick_size f) ->
  (0 < dval p)%Q -> price_blockers f p = Ok bl ->
  bl = [] <-> (dval (min_price f) <= dval p)%Q /\
              ((0 < dval (max_price f))%Q -> (dval p <= dval (max_price f))%Q) /\
              ((0 < dval (tick_size f))%Q -> multiple_of p (tick_size f)).
Proof.
  intros Pp Pt Hp H. unfold price_blockers in H. inv_res. subst.
  rewrite !app_nil_iff, !block_if_nil, above_limit_false, (misaligned_spec p (tick_size f) a) by done.
  assert ((ZERO <? min_price f)%D && (p <? min_price f)%D = false <->
          (dval (min_price f) <= dval p)%Q) as E; [|tauto].
  destruct (ZERO <? min_price f)%D eqn:E1; simpl; [apply below_minimum_false|].
  zify_dec. rewrite dval_ZERO in E1. split; [intros _; lra|done].
Qed.

Lemma lot_blockers_nil f q bl : plain q -> plain (step_size f) -> lot_blockers f q = Ok bl ->
  bl = [] <-> (dval (min_quantity f) <= dval q)%Q /\
              ((0 < dval (max_quantity f))%Q -> (dval q <= dval (max_quantity f))%Q) /\
              ((0 < dval (step_size f))%Q -> multiple_of q (step_size f)).
Proof.
  intros Pq Ps H. unfold lot_blockers in H. inv_res. subst.
  rewrite !app_nil_iff, !block_if_nil, above_limit_false, below_minimum_false,
    (misaligned_spec q (step_size f) a) by done. tauto.
Qed.

Lemma notional_blockers_nil f p q bl : notional_blockers f p q = Ok bl ->
  bl = [] <-> exists n, dmul p q = Ok n /\ (dval (min_notional f) <= dval n)%Q /\
    ((0 < dval (max_notional f))%Q -> (dval n <= dval (max_notional f))%Q).
Proof.
  intros H. unfold notional_blockers in H. inv_res. subst.
  rewrite app_nil_iff, !block_if_nil, above_limit_false, below_minimum_false.
  split; [intros [? ?]; eauto|]. intros (n & E & H1 & H2). rewrite Hm in E. by injection E as ->.
Qed.

(** ** Properties *)

(** Order validation is exact.  On filters and an order with non-negative
    numbers inside the decimal context, [validate_order] returns no blocker if
    and only if price and quantity are positive, within the configured minima
    and maxima (a zero maximum or step disables the check), the price is an
    integer multiple of the tick, the quantity an integer multiple of the step,
    and the rounded notional is within its bounds. *)
Theorem validate_order_exact f p q bl :
  plain p -> plain q -> plain (tick_size (price f)) -> plain (step_size (lot_size f)) ->
  validate_order f p q = Ok bl -> bl = [] <-> order_conforms f p q.
Proof.
  intros Pp Pq Pt Ps H. unfold validate_order in H.
  destruct ((p <=? ZERO)%D || (q <=? ZERO)%D) eqn:E.
  - inv_res. subst. split; [done|]. intros [[H1 H2] _ _ _ _ _ _ _].
    apply orb_true_iff in E as [E|E]; zify_dec; rewrite dval_ZERO in E; lra.
  - apply orb_false_iff in E as [E1 E2]. zify_dec. rewrite dval_ZERO in *. inv_res. subst.
    apply price_blockers_nil in Hm; [|done..]. apply lot_blockers_nil in Hm0; [|done..].
    apply notional_blockers_nil in Hm1.
    rewrite fromkeys_nil, !app_nil_iff, Hm, Hm0, Hm1.
    split; [intros ((?&?&?)&(?&?&?)&?); by split|intros [? ? ? ? ? ? ? ?]; tauto].
Qed.

(** Parsed filters are well formed.  Whatever strings, integers or floats
    the exchange sends, filters that [from_symbol_info] accepts hold only finite
    non-negative numbers; everything else is refused with an
    ExchangePayloadError. *)
Theorem parsed_filters_nonneg fr filters :
  match from_symbol_info fr filters with
  | Ok f =>
      List.Forall (fun d => (0 <= dval d)%Q)
        [ min_price (price f); max_price (price f); tick_size (price f);
          min_quantity (lot_size f); max_quantity (lot_size f); step_size (lot_size f);
          min_notional (notional f); max_notional (notional f) ]
  | Raise e => exists m, e = ExchangePayloadError m
  end.
Proof.
  assert (forall v n d e, _decimal_field fr v n d = Raise e -> exists m, e = ExchangePayloadError m) as He.
  { intros v n d e. unfold _decimal_field.
    destruct (default FNone _), d; try (intros [= <-]; eauto; fail); try discriminate;
      (destruct (parse_decimal _) as [[y| |]|]; try (intros [= <-]; eauto; fail);
       destruct (y <? ZERO)%D; intros [= <-]; eauto). }
  unfold from_symbol_info. cbv zeta.
  destruct (dict_get _ "PRICE_FILTER" _) as [p|]; [|eauto].
  destruct (dict_get _ "LOT_SIZE" _) as [l|]; [|eauto].
  destruct (match dict_get _ "NOTIONAL" _ with Some _ => _ | None => _ end) as [n|]; [|eauto].
  repeat match goal with
  | |- context [_decimal_field fr ?v ?k ?d ≫= _] =>
      let E := fresh "E" in
      destruct (_decimal_field fr v k d) as [|] eqn:E; simpl; [|by eapply He];
      apply decimal_field_nonneg in E; [|intros x Hx; try discriminate Hx]
  end; repeat constructor; try done; injection Hx as <-; by vm_compute.
Qed.

(** A step written as a power of ten, possibly with trailing zeros. *)
Lemma power_step_value step j : dneg step = false -> 0 <= j -> dcoef step = pow10 j ->
  (dval step == Qexp10 (j + dexp step))%Q.
Proof. intros Hs Hj Hc. rewrite dval_mag, Hs, Hc. by apply mag_pow10. Qed.

Lemma scaled_value c e k : (dval (mk_dec false c e) * Qexp10 k == dval (mk_dec false c (e + k)))%Q.
Proof. unfold dval, dint. simpl. rewrite Qexp10_plus. ring. Qed.

Lemma Qexp10_opp k : (Qexp10 k * Qexp10 (- k) == 1)%Q.
Proof. rewrite <- Qexp10_plus, Z.add_opp_diag_r. reflexivity. Qed.

(** Rounding down to a power-of-ten step. *)
Lemma round_down_value value step j r :
  plain value -> repr value -> dneg step = false -> 0 <= j -> dcoef step = pow10 j ->
  Etiny <= dexp step -> Etiny <= dexp value - (j + dexp step) ->
  _round_down value step = Ok r ->
  exists n : Z, (dval r == inject_Z n * dval step)%Q /\
    (inject_Z n * dval step <= dval value)%Q /\
    (dval value < (inject_Z n + 1) * dval step)%Q.
Proof.
  intros [Sv _] [Rv _] Ss Hj Hc Es Ev H. set (k := j + dexp step) in *.
  pose proof (power_step_value step j Ss Hj Hc) as Vs. fold k in Vs. pose proof (Qexp10_pos k).
  unfold _round_down in H.
  destruct (step <=? ZERO)%D eqn:E; zify_dec; rewrite dval_ZERO in E; [lra|]. inv_res.
  pose proof (ddiv_sign _ _ _ Hm) as Sq. rewrite Sv, Ss in Sq.
  apply ddiv_faithful in Hm. apply dmul_faithful in H.
  pose proof (to_integral_down_digits a) as Du.
  set (y := mk_dec false (dcoef value) (dexp value - k)).
  assert (dval a == dval value / dval step)%Q as Ea.
  { apply (faithful_exact _ _ y Hm); [by split|].
    assert (dval y * dval step == dval value)%Q as Ey.
    { rewrite Vs. unfold y. rewrite scaled_value. replace (dexp value - k + k) with (dexp value) by lia.
      rewrite <- Sv. by destruct value. }
    rewrite <- Ey. field. lra. }
  destruct (to_integral_down_spec a Sq) as (n & En & L & U). exists n.
  assert (dneg (to_integral_down a) = false) as Su.
  { unfold to_integral_down. by destruct (0 <=? dexp a). }
  set (u := to_integral_down a) in *.
  set (y2 := mk_dec false (dcoef u) (dexp u + k)).
  assert (dval y2 == dval u * dval step)%Q as Ey2.
  { rewrite Vs. unfold y2. rewrite <- scaled_value, <- Su. by destruct u. }
  assert (repr y2) as Ry2.
  { destruct (faithful_repr _ _ Hm) as [Ra _]. split; simpl; [lia|].
    unfold u, to_integral_down. destruct (Z.leb_spec 0 (dexp a)); simpl; lia. }
  assert (dval a * dval step == dval value)%Q as Ea' by (rewrite Ea; field; lra).
  split_and!.
  - rewrite (faithful_exact _ _ y2 H Ry2 Ey2), En. reflexivity.
  - rewrite <- Ea'. apply Qmult_le_compat_r; [done|lra].
  - rewrite <- Ea'. apply Qmult_lt_compat_r; [lra|done].
Qed.

(** A representable value of either sign, and a step of at most one: the result
    is at most the value, or zero. *)
Lemma round_down_le value step j r bound :
  repr value -> dneg step = false -> 0 <= j -> dcoef step = pow10 j -> Etiny <= dexp step ->
  j + dexp step <= 0 -> _round_down value step = Ok r ->
  (dval value <= bound)%Q -> (0 <= bound)%Q -> (dval r <= bound)%Q.
Proof.
  intros Rv Ss Hj Hc Es Hk H Hb Hp. destruct (dneg value) eqn:Sv.
  - apply Qle_trans with 0%Q; [|done]. apply dval_nonpos. unfold _round_down in H.
    destruct (step <=? ZERO)%D; [by apply mret_Ok in H as <-|].
    apply bind_Ok in H as (q & Hq & H). apply ddiv_sign in Hq. rewrite Sv, Ss in Hq.
    unfold dmul in H. apply dfix_sign in H. rewrite H. unfold to_integral_down.
    by destruct (0 <=? dexp q); cbn [dneg]; rewrite Hq, Ss.
  - destruct Rv as [Rv1 Rv2].
    destruct (round_down_value value step j r) as (n & E & L & _); try done; [by split..|lia|].
    rewrite E. by apply Qle_trans with (dval value).
Qed.

(** Rounding down to a power-of-ten step is the floor.  For a value of at
    most 28 digits and a step 10^k however it is written, [_round_down] returns
    the largest multiple of the step that is not above the value. *)
Theorem round_down_floor value step j r :
  plain value -> repr value -> dneg step = false -> 0 <= j -> dcoef step = pow10 j ->
  Etiny <= dexp step -> Etiny <= dexp value - (j + dexp step) ->
  _round_down value step = Ok r ->
  exists n : Z, (dval r == inject_Z n * dval step)%Q /\
    (inject_Z n * dval step <= dval value)%Q /\
    (dval value < (inject_Z n + 1) * dval step)%Q.
Proof. apply round_down_value. Qed.

(** Beyond 28 digits [_round_down] can round up.  The quotient is rounded to 28 digits before it is
    truncated, so a value with more digits than that can move to the next
    multiple: the result is above the value it was meant to round down. *)
Theorem round_down_can_round_up :
  exists value step r, (0 < dval step)%Q /\ _round_down value step = Ok r /\
                       (dval value < dval r)%Q.
Proof.
  exists (lit 9999999999999999999999999999999 (-1)), ONE. eexists.
  split; [by vm_compute|]. split; [vm_compute; reflexivity|]. by vm_compute.
Qed.

(** ** Witnesses *)

Definition ex_filters : SymbolFilters := mk_filters
  (mk_price_filter (lit 1000000 (-8)) (lit 100000000000000 (-8)) (lit 1000000 (-8)))
  (mk_lot_filter (lit 1000 (-8)) (lit 900000000000 (-8)) (lit 1000 (-8)))
  (mk_notional_filter (lit 500000000 (-8)) (lit 0 0)).

Lemma validate_order_exact_witness :
  order_conforms ex_filters (lit 6500012 (-2)) (lit 123 (-5)).
Proof.
  apply (validate_order_exact ex_filters (lit 6500012 (-2)) (lit 123 (-5)) []);
    [split; vm_compute; done .. | vm_compute; reflexivity | reflexivity].
Defined.

Lemma round_down_floor_witness :
  exists r, _round_down (lit 123456 (-6)) (lit 1000 (-8)) = Ok r /\
  exists n : Z, (dval r == inject_Z n * dval (lit 1000 (-8)))%Q.
Proof.
  eexists. split; [vm_compute; reflexivity|].
  edestruct (round_down_floor (lit 123456 (-6)) (lit 1000 (-8)) 3) as (n & Hn & _);
    [split; vm_compute; done | split; vm_compute; done | reflexivity | done | reflexivity
    | vm_compute; done | vm_compute; done | vm_compute; reflexivity |]. eauto.
Defined.
