(* ===== verification/OrderState.v ===== *)
(** [execution/order_state.py]: the reduction of order events to an order
    state, with partial fills. *)
From S2P Require Import Prelude PyDecimal DecimalFacts DecimalText Domain Events.
From Stdlib Require Import QArith Lqa.
Local Open Scope Z_scope.
Local Open Scope bool_scope.

Inductive OrderStatus : Type :=
| SUBMITTED | ACCEPTED | PARTIALLY_FILLED | PENDING_CANCEL | FILLED | CANCELLED | REJECTED.

#[export] Instance OrderStatus_eq_dec : EqDecision OrderStatus.
Proof. solve_decision. Defined.

Record OrderState : Type := mk_order {
  order_id : string;
  symbol : string;
  action : Action;
  requested_quantity : dec;
  filled_quantity : dec;
  average_fill_price : dec;
  status : OrderStatus;
  last_sequence : Z
}.

(** The property [remaining_quantity] *)
Definition remaining_quantity (s : OrderState) : res dec :=
  dsub (requested_quantity s) (filled_quantity s).

Definition _positive_decimal (value : option string) (name : string) : res dec :=
  match parse_decimal (default "" value) with
  | None => Raise (ValueError (name ++ " must be decimal-compatible"))
  | Some (Finite d) =>
      if (d <=? ZERO)%D then Raise (ValueError (name ++ " must be positive")) else Ok d
  | Some _ => Raise (ValueError (name ++ " must be positive"))
  end.

Definition _require_status (s : OrderState) (allowed : list OrderStatus) : res unit :=
  raise_if (negb (existsb (fun x => bool_decide (status s = x)) allowed))
    (ValueError "illegal order state transition").

Definition _validate_identity_and_sequence (s : OrderState) (e : DomainEvent) : res unit :=
  raise_if (negb (String.eqb (aggregate_id e) (order_id s)))
    (ValueError "order event aggregate identity mismatch");;
  raise_if (negb (sequence e =? last_sequence s + 1))
    (ValueError "order event sequence is not contiguous").

Definition _with_status (s : OrderState) (st : OrderStatus) (seq : Z) : OrderState :=
  mk_order (order_id s) (symbol s) (action s) (requested_quantity s) (filled_quantity s)
    (average_fill_price s) st seq.

Definition _apply_fill (s : OrderState) (e : DomainEvent) : res OrderState :=
  _require_status s [ACCEPTED; PARTIALLY_FILLED; PENDING_CANCEL];;
  quantity ← _positive_decimal (payload_get e "fill_quantity") "fill_quantity";
  price ← _positive_decimal (payload_get e "fill_price") "fill_price";
  new_quantity ← dadd (filled_quantity s) quantity;
  raise_if (requested_quantity s <? new_quantity)%D
    (ValueError "order fill exceeds requested quantity");;
  let is_complete := (new_quantity =? requested_quantity s)%D in
  raise_if (negb (eqb (String.eqb (event_type e) "ORDER_FILLED") is_complete))
    (ValueError "fill event type and cumulative quantity disagree");;
  previous_value ← dmul (average_fill_price s) (filled_quantity s);
  fill_value ← dmul price quantity;
  total_value ← dadd previous_value fill_value;
  average ← ddiv total_value new_quantity;
  mret (mk_order (order_id s) (symbol s) (action s) (requested_quantity s) new_quantity average
    (if is_complete then FILLED else PARTIALLY_FILLED) (sequence e)).

(** The first event of an order *)
Definition open_order (e : DomainEvent) : res OrderState :=
  raise_if (negb (String.eqb (event_type e) "ORDER_SUBMITTED"))
    (ValueError "first order event must be ORDER_SUBMITTED");;
  quantity ← _positive_decimal (payload_get e "quantity") "quantity";
  act ← match enum_parse (default "" (payload_get e "action")) with
        | Some a => Ok (a : Action)
        | None => Raise (ValueError "order action is invalid")
        end;
  let sym := normalize (default "" (payload_get e "symbol")) in
  raise_if (String.eqb sym "") (ValueError "order symbol is required");;
  mret (mk_order (aggregate_id e) sym act quantity ZERO ZERO SUBMITTED (sequence e)).

(** [OrderStateMachine.apply] on an existing state *)
Definition advance_order (s : OrderState) (e : DomainEvent) : res OrderState :=
  _validate_identity_and_sequence s e;;
  let ty := event_type e in
  if String.eqb ty "ORDER_ACCEPTED" then
    _require_status s [SUBMITTED];; mret (_with_status s ACCEPTED (sequence e))
  else if String.eqb ty "ORDER_REJECTED" then
    _require_status s [SUBMITTED];; mret (_with_status s REJECTED (sequence e))
  else if String.eqb ty "ORDER_CANCELLED" then
    _require_status s [SUBMITTED; ACCEPTED; PARTIALLY_FILLED; PENDING_CANCEL];;
    mret (_with_status s CANCELLED (sequence e))
  else if String.eqb ty "ORDER_CANCEL_REQUESTED" then
    _require_status s [ACCEPTED; PARTIALLY_FILLED];;
    mret (_with_status s PENDING_CANCEL (sequence e))
  else if str_in ty ["ORDER_PARTIALLY_FILLED"; "ORDER_FILLED"] then _apply_fill s e
  else Raise (ValueError "unsupported order event type").

(** [OrderStateMachine.apply] *)
Definition apply (s : option OrderState) (e : DomainEvent) : res OrderState :=
  match s with None => open_order e | Some s => advance_order s e end.

Fixpoint apply_all (s : option OrderState) (es : list DomainEvent) : res (option OrderState) :=
  match es with
  | [] => mret s
  | e :: es' => s' ← apply s e; apply_all (Some s') es'
  end.

(** [OrderStateMachine.replay] *)
Definition replay (es : list DomainEvent) : res OrderState :=
  raise_if (is_nil es) (ValueError "order replay requires events");;
  s ← apply_all None es;
  match s with
  | Some s => mret s
  | None => Raise (RuntimeError "order replay did not produce state")
  end.

(** ** The state invariant *)

Definition terminal (st : OrderStatus) : bool :=
  match st with FILLED | CANCELLED | REJECTED => true | _ => false end.

(** Statuses reached before any fill. *)
Definition unfilled (st : OrderStatus) : bool :=
  match st with SUBMITTED | ACCEPTED | REJECTED => true | _ => false end.

Record order_ok (s : OrderState) : Prop := mk_order_ok {
  ok_requested : (0 < dval (requested_quantity s))%Q;
  ok_filled : (0 <= dval (filled_quantity s))%Q /\
              (dval (filled_quantity s) <= dval (requested_quantity s))%Q;
  ok_complete : status s = FILLED <-> (dval (filled_quantity s) == dval (requested_quantity s))%Q;
  ok_unfilled : unfilled (status s) = true -> (dval (filled_quantity s) == 0)%Q;
  ok_partial : status s = PARTIALLY_FILLED -> (0 < dval (filled_quantity s))%Q;
  ok_average : (0 <= dval (average_fill_price s))%Q;
  ok_repr : repr (filled_quantity s)
}.

(** The legal transitions of the machine. *)
Inductive legal_step : OrderStatus -> OrderStatus -> Prop :=
| step_accept : legal_step SUBMITTED ACCEPTED
| step_reject : legal_step SUBMITTED REJECTED
| step_cancel st : terminal st = false -> legal_step st CANCELLED
| step_cancel_request st : In st [ACCEPTED; PARTIALLY_FILLED] -> legal_step st PENDING_CANCEL
| step_fill st st' : In st [ACCEPTED; PARTIALLY_FILLED; PENDING_CANCEL] ->
    In st' [PARTIALLY_FILLED; FILLED] -> legal_step st st'.

Lemma positive_decimal_Ok v n d : _positive_decimal v n = Ok d -> (0 < dval d)%Q.
Proof.
  unfold _positive_decimal. destruct (parse_decimal _) as [[x| |]|]; try done.
  destruct (x <=? ZERO)%D eqn:E; [done|]. intros [= <-]. zify_dec. by rewrite dval_ZERO in E.
Qed.

Lemma require_status_Ok s l u : _require_status s l = Ok u -> In (status s) l.
Proof.
  unfold _require_status. intros H. inv_res. apply existsb_exists in H as (x & Hx & E).
  by apply bool_decide_eq_true in E as ->.
Qed.

(** What a successful fill computes. *)
Lemma apply_fill_run s e s' : _apply_fill s e = Ok s' ->
  exists quantity price new previous fill total average,
    In (status s) [ACCEPTED; PARTIALLY_FILLED; PENDING_CANCEL] /\
    _positive_decimal (payload_get e "fill_quantity") "fill_quantity" = Ok quantity /\
    _positive_decimal (payload_get e "fill_price") "fill_price" = Ok price /\
    dadd (filled_quantity s) quantity = Ok new /\
    (dval new <= dval (requested_quantity s))%Q /\
    dmul (average_fill_price s) (filled_quantity s) = Ok previous /\
    dmul price quantity = Ok fill /\ dadd previous fill = Ok total /\
    ddiv total new = Ok average /\
    s' = mk_order (order_id s) (symbol s) (action s) (requested_quantity s) new average
      (if (new =? requested_quantity s)%D then FILLED else PARTIALLY_FILLED) (sequence e).
Proof.
  unfold _apply_fill. intros H. inv_res. apply require_status_Ok in Hm. zify_dec.
  do 7 eexists. split_and!; [done..|]. by subst.
Qed.

Lemma ddiv_nonzero a b r : ddiv a b = Ok r -> ~ (dval b == 0)%Q.
Proof.
  intros H E. apply is_zero_spec in E. unfold is_zero in E. unfold ddiv in H. rewrite E in H.
  by destruct (dcoef a =? 0)%N.
Qed.

Lemma apply_fill_ok s e s' : order_ok s -> _apply_fill s e = Ok s' ->
  order_ok s' /\ (dval (filled_quantity s) <= dval (filled_quantity s'))%Q.
Proof.
  intros [Hr [Hf0 Hf1] Hc Hu Hp Ha Hrep] H.
  apply apply_fill_run in H as (q & p & new & prev & fill & tot & avg &
    Hst & Hq & Hpr & Hn & Hle & Hpv & Hfv & Ht & Hav & ->).
  apply positive_decimal_Ok in Hq, Hpr. apply dadd_faithful in Hn, Ht.
  apply dmul_faithful in Hpv, Hfv. pose proof (ddiv_nonzero _ _ _ Hav) as Hnz.
  apply ddiv_faithful in Hav.
  assert (dval (filled_quantity s) <= dval new)%Q as Hmono by (apply (faithful_ge _ _ Hn); [done|lra]).
  assert (0 <= dval prev)%Q by (eapply faithful_nonneg; [done|]; by apply Qmult_le_0_compat).
  assert (0 <= dval fill)%Q by (eapply faithful_nonneg; [done|]; apply Qmult_le_0_compat; lra).
  assert (0 <= dval tot)%Q by (eapply faithful_nonneg; [done|lra]).
  split; [|exact Hmono]. split; simpl; try done.
  - split; [lra|done].
  - destruct (new =? requested_quantity s)%D eqn:E; zify_dec; split; try done.
  - by destruct (new =? requested_quantity s)%D.
  - intros _. apply Qnot_le_lt. intros L. apply Hnz. apply Qle_antisym; lra.
  - eapply faithful_nonneg; [exact Hav|]. apply Qmult_le_0_compat; [done|].
    apply Qinv_le_0_compat. lra.
  - apply (faithful_repr _ _ Hn).
Qed.

Lemma with_status_ok s st seq : order_ok s -> terminal (status s) = false -> st <> FILLED ->
  st <> PARTIALLY_FILLED -> (unfilled st = true -> unfilled (status s) = true) ->
  order_ok (_with_status s st seq).
Proof.
  intros [Hr Hf Hc Hu Hp Ha Hrep] Ht H1 H2 H3. split; simpl; try done; [|auto].
  split; [done|]. intros E. apply Hc in E. by rewrite E in Ht.
Qed.

(** A successful step either only moves the status or is a fill. *)
Lemma advance_order_cases s e s' : advance_order s e = Ok s' ->
  aggregate_id e = order_id s /\ sequence e = last_sequence s + 1 /\
  ((exists st, s' = _with_status s st (sequence e) /\ legal_step (status s) st /\
      terminal (status s) = false /\ st <> FILLED /\ st <> PARTIALLY_FILLED /\
      (unfilled st = true -> unfilled (status s) = true)) \/
   _apply_fill s e = Ok s').
Proof.
  unfold advance_order, _validate_identity_and_sequence. intros H.
  apply bind_Ok in H as (u & Hid & H). inv_res. zify_bool. split; [done|]. split; [done|].
  repeat match type of H with (if ?b then _ else _) = _ => destruct b end; try discriminate;
    [..|by right]; left; apply bind_Ok in H as (u' & Hreq & H); injection H as <-;
    apply require_status_Ok in Hreq; simpl in Hreq; eexists; (split; [reflexivity|]);
    destruct (status s); try (exfalso; intuition discriminate);
    (split; [constructor; simpl; auto|]); done.
Qed.

Lemma legal_fill s (b : bool) :
  In (status s) [ACCEPTED; PARTIALLY_FILLED; PENDING_CANCEL] ->
  legal_step (status s) (if b then FILLED else PARTIALLY_FILLED).
Proof. intros. apply step_fill; [done|]. destruct b; simpl; auto. Qed.

Lemma advance_order_run s e s' : order_ok s -> advance_order s e = Ok s' ->
  order_ok s' /\ legal_step (status s) (status s') /\
  order_id s' = order_id s /\ requested_quantity s' = requested_quantity s /\
  last_sequence s' = last_sequence s + 1 /\ sequence e = last_sequence s' /\
  (dval (filled_quantity s) <= dval (filled_quantity s'))%Q.
Proof.
  intros Hs H. apply advance_order_cases in H as (_ & Hseq & [(st & -> & Hl & H1 & H2 & H3 & H4)|H]).
  - split; [by apply with_status_ok|]. simpl. split_and!; try done. apply Qle_refl.
  - destruct (apply_fill_ok s e s' Hs H) as [Hok Hmono]. split; [done|].
    apply apply_fill_run in H as (? & ? & new & ? & ? & ? & ? & Hst & _ & _ & _ & _ & _ & _ & _ & _ & ->).
    simpl in *. split; [by apply legal_fill|]. split_and!; done.
Qed.

Lemma open_order_ok e s : open_order e = Ok s ->
  order_ok s /\ status s = SUBMITTED /\ last_sequence s = sequence e /\ order_id s = aggregate_id e.
Proof.
  unfold open_order. intros H. apply bind_Ok in H as (u & _ & H). apply bind_Ok in H as (q & Hq & H).
  apply positive_decimal_Ok in Hq. apply bind_Ok in H as (a & _ & H). inv_res. subst. simpl.
  split; [|done]. split; simpl; try done.
  - split; [apply Qle_refl|]. rewrite dval_ZERO. lra.
  - rewrite dval_ZERO. split; [done|]. intros E. lra.
Qed.

Lemma apply_all_ok es : forall s r, order_ok s -> apply_all (Some s) es = Ok r ->
  exists s', r = Some s' /\ order_ok s' /\ order_id s' = order_id s /\
    requested_quantity s' = requested_quantity s /\
    last_sequence s' = last_sequence s + Z.of_nat (length es).
Proof.
  induction es as [|e es IH]; intros s r Hs H; simpl in H.
  { injection H as <-. exists s. split_and!; try done. simpl. lia. }
  apply bind_Ok in H as (s1 & H1 & H).
  apply advance_order_run in H1 as (Hok & _ & Hid & Hrq & Hseq & _); [|done].
  apply IH in H as (s' & -> & ? & ? & ? & ?); [|done]. exists s'. split_and!; try done; try congruence.
  cbn [length]. lia.
Qed.

(** ** Properties *)

(** Replayed orders are consistent.  An order rebuilt from its events has
    a positive requested quantity, a cumulative fill between zero and the
    request, a non-negative average price, is FILLED exactly when the fill equals
    the request and has no fill before it is accepted; it carries the identity of
    its first event and the sequence numbers were contiguous. *)
Theorem replay_order_ok es s :
  replay es = Ok s ->
  order_ok s /\
  exists e rest, es = e :: rest /\ order_id s = aggregate_id e /\
    last_sequence s = sequence e + Z.of_nat (length rest).
Proof.
  unfold replay. intros H. apply bind_Ok in H as (u & Hne & H). apply bind_Ok in H as (r & Hr & H).
  destruct es as [|e rest]; [discriminate|]. simpl in Hr. apply bind_Ok in Hr as (s0 & H0 & Hr).
  apply open_order_ok in H0 as (Hok & _ & Hseq & Hid).
  apply apply_all_ok in Hr as (s' & -> & H1 & H2 & _ & H3); [|done]. injection H as ->.
  split; [done|]. exists e, rest. split_and!; congruence.
Qed.

(** Only legal transitions.  Every event a consistent order accepts moves
    its status along the documented relation, keeps its identity and request,
    takes the next sequence number and never reduces the cumulative fill. *)
Theorem order_step_legal s e s' :
  order_ok s -> apply (Some s) e = Ok s' ->
  order_ok s' /\ legal_step (status s) (status s') /\
  order_id s' = order_id s /\ requested_quantity s' = requested_quantity s /\
  last_sequence s' = last_sequence s + 1 /\ sequence e = last_sequence s' /\
  (dval (filled_quantity s) <= dval (filled_quantity s'))%Q.
Proof. apply advance_order_run. Qed.

(** Terminal orders are final.  A FILLED, CANCELLED or REJECTED order
    refuses every further event. *)
Theorem terminal_order_refuses s e :
  order_ok s -> terminal (status s) = true -> exists x, apply (Some s) e = Raise x.
Proof.
  intros Hs Ht. destruct (apply (Some s) e) as [s'|x] eqn:H; [|eauto]. exfalso.
  apply advance_order_run in H as (_ & Hl & _); [|done].
  inversion Hl as [E|E|st E|st E|st st' E _]; subst; simpl in *;
    try (rewrite <- E in Ht; discriminate); try congruence;
    destruct (status s); try discriminate; intuition discriminate.
Qed.

(** A single complete fill is priced exactly.  When an order without
    fills is filled at once and price and notional fit the decimal context, the
    average fill price is the fill price and the filled quantity the request,
    although both went through rounded multiplication, addition and division. *)
Theorem single_fill_exact s e s' price quantity notional :
  order_ok s -> (dval (filled_quantity s) == 0)%Q ->
  payload_get e "fill_price" = Some price -> payload_get e "fill_quantity" = Some quantity ->
  forall p q, Decimal price = Ok (Finite p) -> Decimal quantity = Ok (Finite q) ->
  repr p -> repr q -> repr notional -> (dval notional == dval p * dval q)%Q ->
  _apply_fill s e = Ok s' ->
  (dval (average_fill_price s') == dval p)%Q /\ (dval (filled_quantity s') == dval q)%Q.
Proof.
  intros Hs Hz Hp Hq p q Ep Eq Rp Rq Rn En H.
  apply apply_fill_run in H as (q' & p' & new & prev & fill & tot & avg &
    Hst & Hq' & Hp' & Hn & Hle & Hpv & Hfv & Ht & Hav & ->). simpl.
  rewrite Hp in Hp'. rewrite Hq in Hq'. unfold Decimal, _positive_decimal in *. simpl in *.
  destruct (parse_decimal price); [injection Ep as ->|done].
  destruct (parse_decimal quantity); [injection Eq as ->|done].
  destruct (p <=? ZERO)%D eqn:Pp; [done|]. destruct (q <=? ZERO)%D eqn:Pq; [done|].
  injection Hp' as <-. injection Hq' as <-. zify_dec. rewrite dval_ZERO in *.
  apply dadd_faithful in Hn, Ht. apply dmul_faithful in Hpv, Hfv. apply ddiv_faithful in Hav.
  assert (dval new == dval q)%Q as E1.
  { rewrite (faithful_exact _ _ q Hn); [rewrite Hz; ring|done|rewrite Hz; ring]. }
  assert (dval prev == 0)%Q as E2.
  { rewrite (faithful_exact _ _ ZERO Hpv); [rewrite Hz; ring|apply repr_ZERO|].
    rewrite Hz, dval_ZERO. ring. }
  assert (dval fill == dval p * dval q)%Q as E3 by (apply (faithful_exact _ _ notional Hfv); done).
  assert (dval tot == dval p * dval q)%Q as E4.
  { rewrite (faithful_exact _ _ notional Ht); [rewrite E2, E3; ring|done|rewrite E2, E3, En; ring]. }
  split; [|exact E1]. rewrite (faithful_exact _ _ p Hav); [|done|]; rewrite E4, E1; field; lra.
Qed.

(** ** Witnesses *)

Definition ex_order_event (id ty : string) (seq : Z) (p : payload_t) : DomainEvent :=
  mk_event id "order-1" ty seq (utc (seq * 1000000)) p "" "".
Definition ex_events : list DomainEvent :=
  [ ex_order_event "e1" "ORDER_SUBMITTED" 1 [("action", "BUY"); ("quantity", "2.5"); ("symbol", " btcusdt ")];
    ex_order_event "e2" "ORDER_ACCEPTED" 2 [];
    ex_order_event "e3" "ORDER_PARTIALLY_FILLED" 3 [("fill_price", "100"); ("fill_quantity", "1")] ].
Definition ex_fill : DomainEvent :=
  ex_order_event "e4" "ORDER_FILLED" 4 [("fill_price", "103"); ("fill_quantity", "1.5")].
Definition ex_partial : OrderState := Eval vm_compute in
  match replay ex_events with Ok s => s | Raise _ => mk_order "" "" HOLD ZERO ZERO ZERO REJECTED 0 end.

Lemma replay_order_ok_witness : order_ok ex_partial.
Proof. apply (replay_order_ok ex_events ex_partial). vm_compute. reflexivity. Defined.

Lemma ex_partial_ok : order_ok ex_partial.
Proof.
  pose proof (apply_all_ok (skipn 1 ex_events)) as H.
  destruct (open_order (ex_order_event "e1" "ORDER_SUBMITTED" 1
    [("action", "BUY"); ("quantity", "2.5"); ("symbol", " btcusdt ")])) as [s0|] eqn:E;
    [|vm_compute in E; discriminate].
  pose proof (open_order_ok _ _ E) as [Hok _].
  destruct (H s0 (Some ex_partial) Hok) as (s' & E' & Hs' & _).
  - vm_compute in E. injection E as <-. vm_compute. reflexivity.
  - injection E' as <-. exact Hs'.
Qed.

Lemma order_step_legal_witness :
  exists s', apply (Some ex_partial) ex_fill = Ok s' /\ legal_step PARTIALLY_FILLED (status s') /\
             status s' = FILLED.
Proof.
  eexists. split; [vm_compute; reflexivity|].
  edestruct (order_step_legal ex_partial ex_fill) as (_ & H & _);
    [apply ex_partial_ok | vm_compute; reflexivity |]. split; [exact H|reflexivity].
Defined.

Definition ex_filled : OrderState := Eval vm_compute in
  match apply (Some ex_partial) ex_fill with Ok s => s | Raise _ => ex_partial end.

Lemma terminal_order_refuses_witness : exists x, apply (Some ex_filled) ex_fill = Raise x.
Proof.
  apply (terminal_order_refuses ex_filled ex_fill); [|reflexivity].
  apply (advance_order_run ex_partial ex_fill); [apply ex_partial_ok | vm_compute; reflexivity].
Defined.

Definition ex_accepted : OrderState := Eval vm_compute in
  match replay (firstn 2 ex_events) with Ok s => s | Raise _ => ex_partial end.
Definition ex_whole_fill : DomainEvent :=
  ex_order_event "e3" "ORDER_FILLED" 3 [("fill_price", "103.7"); ("fill_quantity", "2.5")].

Lemma ex_accepted_ok : order_ok ex_accepted.
Proof.
  split; vm_compute; done.
Qed.

Lemma single_fill_exact_witness :
  exists s', _apply_fill ex_accepted ex_whole_fill = Ok s' /\
             (dval (average_fill_price s') == dval (lit 1037 (-1)))%Q.
Proof.
  eexists. split; [vm_compute; reflexivity|].
  refine (proj1 (single_fill_exact ex_accepted ex_whole_fill _ "103.7" "2.5" (lit 25925 (-2))
    ex_accepted_ok _ _ _ (lit 1037 (-1)) (lit 25 (-1)) _ _ _ _ _ _ _));
    try reflexivity; try (vm_compute; reflexivity); split; vm_compute; done.
Defined.
