(* ===== verification/Recovery.v ===== *)
(** [portfolio/reconciliation.py] and [execution/recovery.py]: comparison of
    local and exchange open orders, and the fail-closed rebuild of paper orders
    from their journals after a restart. *)
From S2P Require Import Prelude PyDecimal DecimalFacts Domain Events OrderState.
From Stdlib Require Import QArith Lqa.
Local Open Scope Z_scope.
Local Open Scope bool_scope.

(** ** Reconciliation *)

Record OpenOrderView : Type := mk_view {
  client_order_id : string;
  view_symbol : string;
  view_remaining : dec
}.

(** [OpenOrderView.__post_init__] *)
Definition new_view (id sym : string) (remaining : dec) : res OpenOrderView :=
  raise_if (blank id || blank sym) (ValueError "open-order identity is required");;
  raise_if (remaining <=? ZERO)%D (ValueError "open-order remaining quantity must be positive");;
  mret (mk_view id sym remaining).

Record ReconciliationReport : Type := mk_reconciliation {
  local_count : Z;
  exchange_count : Z;
  missing_on_exchange : list string;
  unknown_on_exchange : list string;
  quantity_mismatches : list string;
  reconciliation_blockers : list string;
  reconciliation_execution_allowed : bool
}.

(** [ReconciliationReport.__post_init__] *)
Definition new_reconciliation (r : ReconciliationReport) : res ReconciliationReport :=
  raise_if (Z.min (local_count r) (exchange_count r) <? 0)
    (ValueError "reconciliation counts cannot be negative");;
  raise_if (reconciliation_execution_allowed r)
    (ValueError "reconciliation cannot authorize execution");;
  mret r.

Definition order_index : Type := list (string * OpenOrderView).

Definition _index (orders : list OpenOrderView) (source : string) : res order_index :=
  let indexed := dict_of String.eqb (map (fun v => (client_order_id v, v)) orders) in
  raise_if (negb (Nat.eqb (length indexed) (length orders)))
    (ValueError (source ++ " open orders must have unique identities"));;
  mret indexed.

Definition keys (d : order_index) : list string := map fst d.

(** Ids on both sides whose symbol or remaining quantity differs. *)
Definition disagrees (local exchange : order_index) (id : string) : bool :=
  match dict_get String.eqb id local, dict_get String.eqb id exchange with
  | Some l, Some x =>
      negb (String.eqb (upper (view_symbol l)) (upper (view_symbol x)))
      || negb (view_remaining l =? view_remaining x)%D
  | _, _ => false
  end.

Definition reconcile_open_orders (local_orders exchange_orders : list OpenOrderView)
  : res ReconciliationReport :=
  local ← _index local_orders "local";
  exchange ← _index exchange_orders "exchange";
  let missing := sorted_strings (List.filter (fun id => negb (str_in id (keys exchange))) (keys local)) in
  let unknown := sorted_strings (List.filter (fun id => negb (str_in id (keys local))) (keys exchange)) in
  let mismatches := sorted_strings
    (List.filter (fun id => str_in id (keys exchange) && disagrees local exchange id) (keys local)) in
  let blockers :=
    block_if (negb (is_nil missing)) "LOCAL_ORDER_MISSING_ON_EXCHANGE" ++
    block_if (negb (is_nil unknown)) "UNKNOWN_EXCHANGE_OPEN_ORDER" ++
    block_if (negb (is_nil mismatches)) "OPEN_ORDER_STATE_MISMATCH" in
  new_reconciliation (mk_reconciliation (Z.of_nat (length local)) (Z.of_nat (length exchange))
    missing unknown mismatches blockers false).

(** ** Restart recovery *)

(** What recovery needs of a journal: a validated load. *)
Class EventJournal (J : Type) := { load : J -> res (list DomainEvent) }.

Record PaperOrderRecoveryReport : Type := mk_recovery {
  orders : list OrderState;
  reconciliation : option ReconciliationReport;
  quarantined_order_ids : list string;
  recovery_blockers : list string;
  recovery_complete : bool;
  recovery_execution_allowed : bool;
  recovery_live_status : string
}.

(** [PaperOrderRecoveryReport.__post_init__] *)
Definition new_recovery (r : PaperOrderRecoveryReport) : res PaperOrderRecoveryReport :=
  raise_if (recovery_complete r && negb (is_nil (recovery_blockers r)))
    (ValueError "complete paper recovery cannot contain blockers");;
  raise_if (recovery_execution_allowed r) (ValueError "paper recovery cannot authorize execution");;
  mret r.

Definition open_status (s : OrderStatus) : bool :=
  match s with SUBMITTED | ACCEPTED | PARTIALLY_FILLED | PENDING_CANCEL => true | _ => false end.

(** The exceptions the loop catches. *)
Definition is_journal_error (e : exn) : bool :=
  match e with EventJournalCorruptionError _ | ValueError _ => true | _ => false end.

(** The lists the loop appends to. *)
Record recovery_state : Type := mk_rs {
  rs_orders : list OrderState;
  rs_quarantined : list string;
  rs_blockers : list string
}.

Definition rs_identities (st : recovery_state) : list string := map order_id (rs_orders st).
Definition rs_block (b : string) (st : recovery_state) : recovery_state :=
  mk_rs (rs_orders st) (rs_quarantined st) (rs_blockers st ++ [b]).

Section Recover.

Context {J : Type} `{EventJournal J}.

(** Loading and reducing one journal: [None] is an empty journal. *)
Definition rebuild (j : J) : res (option OrderState) :=
  events ← load j;
  if is_nil events then mret None
  else
    raise_if (negb (Nat.eqb (length (fromkeys (map aggregate_id events))) 1))
      (ValueError "paper order journal must contain one aggregate");;
    s ← OrderState.replay events;
    mret (Some s).

(** One iteration of the loop *)
Definition recover_one (st : recovery_state) (j : J) : res recovery_state :=
  match rebuild j with
  | Ok None => Ok (rs_block "PAPER_ORDER_JOURNAL_EMPTY" st)
  | Ok (Some s) =>
      if str_in (order_id s) (rs_identities st) then
        Ok (mk_rs (rs_orders st) (rs_quarantined st ++ [order_id s])
                  (rs_blockers st ++ ["DUPLICATE_PAPER_ORDER_IDENTITY"]))
      else Ok (mk_rs (rs_orders st ++ [s]) (rs_quarantined st) (rs_blockers st))
  | Raise e =>
      if is_journal_error e then Ok (rs_block "PAPER_ORDER_JOURNAL_INVALID" st) else Raise e
  end.

Fixpoint recover_loop (st : recovery_state) (js : list J) : res recovery_state :=
  match js with
  | [] => mret st
  | j :: js' => st' ← recover_one st j; recover_loop st' js'
  end.

Definition local_view (s : OrderState) : res OpenOrderView :=
  r ← remaining_quantity s; new_view (order_id s) (symbol s) r.

Definition order_id_leb (a b : OrderState) : bool := String.leb (order_id a) (order_id b).

Definition recover_paper_orders (journals : list J) (exchange_open : option (list OpenOrderView))
  : res PaperOrderRecoveryReport :=
  st ← recover_loop (mk_rs [] [] []) journals;
  local_open ← mapM local_view (List.filter (fun s => open_status (status s)) (rs_orders st));
  outcome ← match exchange_open with
            | None => Ok (None, block_if (negb (is_nil local_open))
                                  "EXCHANGE_OPEN_ORDER_SNAPSHOT_NOT_SUPPLIED", [])
            | Some ex =>
                r ← reconcile_open_orders local_open ex;
                mret (Some r, reconciliation_blockers r, unknown_on_exchange r)
            end;
  let '(rec, extra_blockers, extra_quarantined) := outcome in
  let unique_blockers := fromkeys (rs_blockers st ++ extra_blockers) in
  new_recovery (mk_recovery (py_sorted order_id_leb (rs_orders st)) rec
    (sorted_set (rs_quarantined st ++ extra_quarantined)) unique_blockers
    (is_nil unique_blockers) false LIVE_ORDER_BLOCKED).

End Recover.

(** ** Pending cancels *)

Record PendingCancelAssessment : Type := mk_pending_cancel {
  timed_out : bool;
  pending_blockers : list string
}.

Definition assess_pending_cancel (s : OrderState) (requested observed : datetime) (timeout : Z)
  : res PendingCancelAssessment :=
  raise_if (naive requested || naive observed)
    (ValueError "pending-cancel timestamps must be timezone-aware");;
  raise_if ((timeout <=? 0) || dt_ltb observed requested)
    (ValueError "pending-cancel timeout or chronology is invalid");;
  if negb (bool_decide (status s = PENDING_CANCEL)) then mret (mk_pending_cancel false [])
  else
    let out := timeout <? dt_sub observed requested in
    mret (mk_pending_cancel out (block_if out "PENDING_CANCEL_TIMEOUT")).

(** ** Facts about reconciliation *)

Lemma index_Ok l source d : _index l source = Ok d ->
  d = map (fun v => (client_order_id v, v)) l /\ dict_wf String.eqb d.
Proof.
  unfold _index. intros H. inv_res. apply Nat.eqb_eq in Hm. rewrite <- H.
  split; [|apply (dict_of_wf String.eqb)].
  apply dict_of_unique. by rewrite length_map.
Qed.

Lemma index_keys l : keys (map (fun v => (client_order_id v, v)) l) = map client_order_id l.
Proof. unfold keys. by rewrite map_map. Qed.

Lemma index_get l d id v : d = map (fun v => (client_order_id v, v)) l -> dict_wf String.eqb d ->
  dict_get String.eqb id d = Some v <-> In v l /\ client_order_id v = id.
Proof.
  intros Hd Hwf. split.
  - intros H. apply (dict_get_In String.eqb) in H as (id' & Hin & ->%String.eqb_eq).
    rewrite Hd in Hin. apply in_map_iff in Hin as (w & [= <- <-] & Hw). done.
  - intros [Hv <-]. apply (In_dict_get String.eqb); [done|]. rewrite Hd.
    apply in_map_iff. by exists v.
Qed.

(** Two views describe the same open order. *)
Definition same_order (l x : OpenOrderView) : Prop :=
  client_order_id l = client_order_id x /\ upper (view_symbol l) = upper (view_symbol x) /\
  (dval (view_remaining l) == dval (view_remaining x))%Q.

(** Both sides hold the same open orders. *)
Definition agree (local exchange : list OpenOrderView) : Prop :=
  (forall l, In l local -> exists x, In x exchange /\ same_order l x) /\
  (forall x, In x exchange -> exists l, In l local /\ same_order l x).

Lemma sorted_filter_nil f l : sorted_strings (List.filter f l) = [] <-> forall x, In x l -> f x = false.
Proof.
  unfold sorted_strings. split.
  - intros H x Hx. destruct (f x) eqn:E; [|done].
    assert (In x (py_sorted String.leb (List.filter f l))) as Hin.
    { apply py_sorted_In, filter_In. done. }
    by rewrite H in Hin.
  - intros H. assert (List.filter f l = []) as ->; [|done].
    induction l as [|y l IH]; simpl; [done|]. rewrite (H y) by (by left). apply IH. intros; apply H. by right.
Qed.

Lemma disagrees_false local exchange dl dx id l x :
  dl = map (fun v => (client_order_id v, v)) local -> dict_wf String.eqb dl ->
  dx = map (fun v => (client_order_id v, v)) exchange -> dict_wf String.eqb dx ->
  In l local -> client_order_id l = id -> In x exchange -> client_order_id x = id ->
  disagrees dl dx id = false <-> same_order l x.
Proof.
  intros Hl Wl Hx Wx Il El Ix Ex. unfold disagrees.
  rewrite (proj2 (index_get local dl id l Hl Wl)), (proj2 (index_get exchange dx id x Hx Wx)) by done.
  unfold same_order. rewrite orb_false_iff, !negb_false_iff, String.eqb_eq, deqb_spec.
  split; [intros [? ?]; split_and!; congruence || done | tauto].
Qed.

Lemma str_in_keys l id : str_in id (keys (map (fun v => (client_order_id v, v)) l)) = true <->
  exists v, In v l /\ client_order_id v = id.
Proof.
  rewrite str_in_In, index_keys, in_map_iff. split; intros (v & ? & ?); eauto.
Qed.

Lemma block_if_not_nil {A} (l : list A) code : block_if (negb (is_nil l)) code = [] <-> l = [].
Proof. rewrite block_if_nil, negb_false_iff. apply is_nil_true. Qed.

Lemma reconciliation_agree local exchange r :
  reconcile_open_orders local exchange = Ok r ->
  (reconciliation_blockers r = [] <-> agree local exchange) /\
  (forall id, In id (missing_on_exchange r) <->
     In id (map client_order_id local) /\ ~ In id (map client_order_id exchange)) /\
  (forall id, In id (unknown_on_exchange r) <->
     In id (map client_order_id exchange) /\ ~ In id (map client_order_id local)).
Proof.
  unfold reconcile_open_orders. intros H. apply bind_Ok in H as (dl & Hl & H).
  apply bind_Ok in H as (dx & Hx & H). apply index_Ok in Hl as [Hl Wl], Hx as [Hx Wx].
  assert (keys dl = map client_order_id local) as Kl by (rewrite Hl; apply index_keys).
  assert (keys dx = map client_order_id exchange) as Kx by (rewrite Hx; apply index_keys).
  unfold new_reconciliation in H. apply bind_Ok in H as (u1 & _ & H).
  apply bind_Ok in H as (u2 & _ & H). injection H as <-. simpl. rewrite Kl, Kx.
  split; [|split; intros id; unfold sorted_strings; rewrite py_sorted_In, filter_In,
    negb_true_iff, str_in_false; tauto].
  rewrite !app_nil_iff.
  rewrite !block_if_not_nil, !sorted_filter_nil.
  setoid_rewrite negb_false_iff. setoid_rewrite andb_false_iff.
  split.
  - intros (Hm & Hu & Hd). split.
    + intros l Il. pose proof (Hm _ (in_map client_order_id _ _ Il)) as E.
      rewrite str_in_In in E. apply in_map_iff in E as (x & Ex & Ix). exists x. split; [done|].
      apply (disagrees_false local exchange dl dx (client_order_id l)); try done.
      destruct (Hd _ (in_map client_order_id _ _ Il)) as [E|E]; [|done].
      exfalso. apply str_in_false in E. apply E, in_map_iff. eauto.
    + intros x Ix. pose proof (Hu _ (in_map client_order_id _ _ Ix)) as E.
      rewrite str_in_In in E. apply in_map_iff in E as (l & El & Il). exists l. split; [done|].
      apply (disagrees_false local exchange dl dx (client_order_id x)); try done.
      pose proof (in_map client_order_id _ _ Il) as Im. rewrite El in Im.
      destruct (Hd _ Im) as [E|E]; [|done].
      exfalso. apply str_in_false in E. apply E, in_map_iff. eauto.
  - intros [HA HB]. split_and!.
    + intros id (l & <- & Il)%in_map_iff. destruct (HA l Il) as (x & Ix & E & _).
      apply str_in_In. rewrite E. by apply in_map.
    + intros id (x & <- & Ix)%in_map_iff. destruct (HB x Ix) as (l & Il & E & _).
      apply str_in_In. rewrite <- E. by apply in_map.
    + intros id (l & <- & Il)%in_map_iff. right. destruct (HA l Il) as (x & Ix & E).
      apply (disagrees_false local exchange dl dx _ l x); try done. symmetry. apply E.
Qed.

(** Reconciliation reports exactly the differences.  On lists it accepts
    (unique ids on each side) the report has no blocker if and only if both
    sides hold the same orders (same ids, same symbols up to case, same
    remaining quantities); [missing] holds exactly the local ids the exchange
    does not have and [unknown] the exchange ids that are not local. *)
Theorem reconciliation_exact local exchange r :
  reconcile_open_orders local exchange = Ok r ->
  (reconciliation_blockers r = [] <-> agree local exchange) /\
  (forall id, In id (missing_on_exchange r) <->
     In id (map client_order_id local) /\ ~ In id (map client_order_id exchange)) /\
  (forall id, In id (unknown_on_exchange r) <->
     In id (map client_order_id exchange) /\ ~ In id (map client_order_id local)).
Proof. apply reconciliation_agree. Qed.

(** ** Facts about recovery *)

Section RecoverFacts.

Context {J : Type} `{EventJournal J}.

Lemma recover_one_clean st j st' : recover_one st j = Ok st' -> rs_blockers st' = [] ->
  exists s, rebuild j = Ok (Some s) /\ ~ In (order_id s) (rs_identities st) /\
    rs_blockers st = [] /\ st' = mk_rs (rs_orders st ++ [s]) (rs_quarantined st) [].
Proof.
  unfold recover_one. intros Hs Hb. destruct (rebuild j) as [[s|]|e].
  - destruct (str_in _ _) eqn:E; injection Hs as <-; simpl in Hb.
    + by destruct (rs_blockers st).
    + exists s. apply str_in_false in E. by rewrite Hb.
  - injection Hs as <-. simpl in Hb. by destruct (rs_blockers st).
  - destruct (is_journal_error e); [|done]. injection Hs as <-. simpl in Hb. by destruct (rs_blockers st).
Qed.

Lemma recover_loop_clean js : forall st st', recover_loop st js = Ok st' -> rs_blockers st' = [] ->
  List.NoDup (rs_identities st) ->
  rs_blockers st = [] /\ List.NoDup (rs_identities st') /\
  (forall s, In s (rs_orders st) -> In s (rs_orders st')) /\
  forall j, In j js -> exists s, rebuild j = Ok (Some s) /\ In s (rs_orders st').
Proof.
  induction js as [|j js IH]; simpl; intros st st' Hl Hb Hn.
  { injection Hl as <-. split_and!; done. }
  apply bind_Ok in Hl as (st1 & H1 & Hl).
  destruct (recover_one st j) as [st1'|] eqn:E1; [|done]. injection H1 as ->.
  assert (rs_blockers st1 = [] -> exists s, rebuild j = Ok (Some s) /\
    ~ In (order_id s) (rs_identities st) /\ rs_blockers st = [] /\
    st1 = mk_rs (rs_orders st ++ [s]) (rs_quarantined st) []) as C by (intros; by apply recover_one_clean).
  assert (rs_blockers st1 = []) as B1.
  { clear - IH Hl Hb. revert st1 Hl. clear IH. induction js as [|j js IH]; simpl; intros st1 Hl.
    - by injection Hl as <-.
    - apply bind_Ok in Hl as (st2 & H2 & Hl). apply IH in Hl.
      by apply recover_one_clean in H2 as (? & _ & _ & ? & _). }
  destruct (C B1) as (s & Hr & Hid & Hb0 & ->).
  destruct (IH _ _ Hl Hb) as (_ & N & Mon & All).
  { unfold rs_identities in *. simpl. rewrite map_app. simpl.
    rewrite <- (rev_involutive (map order_id (rs_orders st) ++ _)).
    apply List.NoDup_rev. rewrite rev_app_distr. simpl. constructor; [by rewrite <- in_rev|].
    by apply List.NoDup_rev. }
  split_and!; try done.
  - intros s' Hs'. apply Mon. simpl. apply in_app_iff. by left.
  - intros j' [<-|Hj']; [|auto]. exists s. split; [done|]. apply Mon. simpl. apply in_app_iff. right. by left.
Qed.

End RecoverFacts.

(** Recovery is complete only when nothing is unknown.  When
    [recover_paper_orders] reports completeness, every journal loaded, was not
    empty and replayed to an order that the report lists; order identities are
    unique; without an exchange snapshot no order is open, and with one every
    open order is on the exchange with the same symbol and remaining quantity
    and the exchange has no other; in every case the report grants nothing. *)
Theorem recovery_fail_closed {J} `{EventJournal J} (js : list J) ex rep :
  recover_paper_orders js ex = Ok rep ->
  recovery_execution_allowed rep = false /\ recovery_live_status rep = LIVE_ORDER_BLOCKED /\
  (recovery_complete rep = true <-> recovery_blockers rep = []) /\
  (recovery_complete rep = true ->
   (forall j, In j js -> exists es s, load j = Ok es /\ OrderState.replay es = Ok s /\ In s (orders rep)) /\
   List.NoDup (map order_id (orders rep)) /\
   match ex with
   | None => forall s, In s (orders rep) -> open_status (status s) = false
   | Some views =>
       (forall s, In s (orders rep) -> open_status (status s) = true ->
          exists l v, local_view s = Ok l /\ In v views /\ same_order l v) /\
       (forall v, In v views -> exists s l, In s (orders rep) /\ open_status (status s) = true /\
          local_view s = Ok l /\ same_order l v)
   end).
Proof.
  unfold recover_paper_orders. intros Hrec. apply bind_Ok in Hrec as (st & Hst & Hrec).
  apply bind_Ok in Hrec as (views & Hv & Hrec). apply mapM_Ok in Hv.
  apply bind_Ok in Hrec as ([[rec extra] quar] & Hout & Hrec).
  unfold new_recovery in Hrec. apply bind_Ok in Hrec as (u1 & _ & Hrec).
  apply bind_Ok in Hrec as (u2 & _ & Hrec). injection Hrec as <-. simpl.
  split; [done|]. split; [done|]. split; [apply is_nil_true|].
  intros Hnil. apply is_nil_true in Hnil. apply (proj1 (fromkeys_nil _)), app_eq_nil in Hnil as [Hb He].
  destruct (recover_loop_clean js _ _ Hst Hb) as (_ & Hnd & _ & Hall); [constructor|].
  assert (forall s, In s (py_sorted order_id_leb (rs_orders st)) <-> In s (rs_orders st)) as Hin
    by (intros; apply py_sorted_In).
  split_and!.
  - intros j Hj. destruct (Hall j Hj) as (s & Hr & Hs). unfold rebuild in Hr.
    apply bind_Ok in Hr as (es & Hl & Hr). destruct (is_nil es); [done|].
    apply bind_Ok in Hr as (u & _ & Hr). apply bind_Ok in Hr as (s' & Hp & Hr). injection Hr as <-.
    exists es, s'. by rewrite Hin.
  - eapply Permutation_NoDup; [|exact Hnd]. apply Permutation_map. symmetry. apply py_sorted_perm.
  - destruct ex as [xs|].
    + apply bind_Ok in Hout as (r & Hr & Hout). injection Hout as <- <- <-.
      apply reconciliation_agree in Hr as [Hr _]. apply Hr in He as [HA HB]. split.
      * intros s Hs Ho. destruct (Forall2_In_l _ _ _ s Hv) as (l & Hl & El).
        { apply filter_In. by rewrite <- Hin. }
        destruct (HA l Hl) as (v & ? & ?). eauto.
      * intros v Hvx. destruct (HB v Hvx) as (l & Hl & Es).
        destruct (Forall2_In_r _ _ _ l Hv Hl) as (s & Hs & El). apply filter_In in Hs as [Hs Ho].
        exists s, l. by rewrite Hin.
    + injection Hout as <- <- <-. apply block_if_not_nil in He. intros s Hs.
      destruct (open_status (status s)) eqn:Ho; [|done]. exfalso.
      destruct (Forall2_In_l _ _ _ s Hv) as (l & Hl & _).
      { apply filter_In. by rewrite <- Hin. }
      by rewrite He in Hl.
Qed.

(** ** Concrete journals *)

(** A journal whose load result is already known. *)
Definition loaded : Type := res (list DomainEvent).
#[export] Instance loaded_journal : EventJournal loaded := { load j := j }.

(** Events linked by real hashes. *)
Fixpoint link (prev : string) (seq : Z) (l : list (string * payload_t)) : list DomainEvent :=
  match l with
  | [] => []
  | (ty, p) :: l' =>
      let e := mk_event ("e" ++ PyText.str_int seq) "order-1" ty seq (utc (seq * 1000000)) p prev
        (compute_hash ("e" ++ PyText.str_int seq) "order-1" ty seq (utc (seq * 1000000)) p prev) in
      e :: link (event_hash e) (seq + 1) l'
  end.

Definition overflowing_events : list DomainEvent := Eval vm_compute in
  link GENESIS 1
    [ ("ORDER_SUBMITTED", [("action", "BUY"); ("quantity", "9"); ("symbol", "BTCUSDT")]);
      ("ORDER_ACCEPTED", []);
      ("ORDER_FILLED", [("fill_price", "9E+999999"); ("fill_quantity", "9")]) ].

Definition open_events : list DomainEvent := Eval vm_compute in
  link GENESIS 1
    [ ("ORDER_SUBMITTED", [("action", "BUY"); ("quantity", "2.5"); ("symbol", "BTCUSDT")]);
      ("ORDER_ACCEPTED", []);
      ("ORDER_PARTIALLY_FILLED", [("fill_price", "100"); ("fill_quantity", "1")]) ].

Definition ex_views : list OpenOrderView := [mk_view "order-1" "btcusdt" (lit 150 (-2))].

Lemma reconciliation_exact_witness :
  agree [mk_view "order-1" "BTCUSDT" (lit 15 (-1))] ex_views.
Proof.
  edestruct (reconciliation_exact [mk_view "order-1" "BTCUSDT" (lit 15 (-1))] ex_views) as [H _];
    [vm_compute; reflexivity|]. apply H. reflexivity.
Defined.

Lemma recovery_fail_closed_witness :
  exists rep, recover_paper_orders [Ok open_events] (Some ex_views) = Ok rep /\
    recovery_complete rep = true /\ List.NoDup (map order_id (orders rep)).
Proof.
  eexists. split; [vm_compute; reflexivity|]. split; [reflexivity|].
  edestruct (recovery_fail_closed [Ok open_events : loaded] (Some ex_views)) as (_ & _ & _ & H);
    [vm_compute; reflexivity|]. destruct (H eq_refl) as (_ & Hn & _). exact Hn.
Defined.

(** An arithmetic signal escapes the quarantine.  A journal that loads,
    whose events are all valid and form a chain, can make
    [recover_paper_orders] raise decimal's Overflow instead of reporting an
    invalid journal: the handler catches journal corruption and ValueError, and
    a fill price of 9E+999999 passes the text checks. *)
Theorem overflowing_fill_escapes_recovery :
  exists es, chain es /\ (forall e, In e es -> new_event e = Ok e) /\
    recover_paper_orders [Ok es : loaded] None = Raise DecimalOverflow.
Proof.
  exists overflowing_events. split; [|split].
  - apply (check_chain 10); [done|]. vm_compute. reflexivity.
  - intros e He. simpl in He. repeat destruct He as [<-|He]; try done; vm_compute; reflexivity.
  - vm_compute. reflexivity.
Qed.
