(* ===== verification/OrderCommand.v ===== *)
(** [domain/order_command.py]: the canonical Spot order command. *)
From S2P Require Import Prelude PyDecimal DecimalFacts DecimalText Sha256 PyText.
From Stdlib Require Import QArith Lqa.
Local Open Scope Z_scope.
Local Open Scope bool_scope.

Record SpotOrderCommand : Type := mk_command {
  symbol : string;
  side : string;
  order_type : string;
  quantity : dec;
  client_order_id : string;
  price : option dec;
  time_in_force : option string
}.

#[export] Instance SpotOrderCommand_eq_dec : EqDecision SpotOrderCommand.
Proof. solve_decision. Defined.

Definition positive_finite (d : pydec) : option dec :=
  match d with
  | Finite x => if (x <=? ZERO)%D then None else Some x
  | _ => None
  end.

(** [value in {...}] of an optional text *)
Definition opt_in (o : option string) (l : list string) : bool :=
  match o with Some s => str_in s l | None => false end.

Definition TIF : list string := ["GTC"; "IOC"; "FOK"].

(** The price constraints shared by commands and authorizations: a LIMIT order
    has a positive price and a time in force, a MARKET order has neither. *)
Definition price_terms (order_type : string) (price : option pydec) (tif : option string)
  (limit_error market_error : string) : res (option dec) :=
  if String.eqb order_type "LIMIT" then
    match price with
    | Some p =>
        match positive_finite p with
        | Some x => if opt_in tif TIF then Ok (Some x) else Raise (ValueError limit_error)
        | None => Raise (ValueError limit_error)
        end
    | None => Raise (ValueError limit_error)
    end
  else
    match price, tif with
    | None, None => Ok None
    | _, _ => Raise (ValueError market_error)
    end.

(** [SpotOrderCommand(...)] with [__post_init__] *)
Definition new_command (sym sd ty : string) (qty : pydec) (client : string)
  (price : option pydec) (tif : option string) : res SpotOrderCommand :=
  let symbol := normalize sym in
  let side := normalize sd in
  let order_type := normalize ty in
  let client_id := strip client in
  raise_if (negb (isascii symbol) || negb (isalnum symbol))
    (ValueError "order symbol must be ASCII alphanumeric");;
  raise_if (negb (str_in side ["BUY"; "SELL"]) || negb (str_in order_type ["LIMIT"; "MARKET"]))
    (ValueError "unsupported Spot order side or type");;
  q ← match positive_finite qty with
      | Some q => Ok q
      | None => Raise (ValueError "order quantity must be finite and positive")
      end;
  raise_if (String.eqb client_id "" || (36 <? str_len client_id) || negb (isascii client_id))
    (ValueError "client order ID is invalid");;
  p ← price_terms order_type price tif "LIMIT order requires valid price and time-in-force"
        "MARKET order cannot contain price or time-in-force";
  mret (mk_command symbol side order_type q client_id p tif).

(** [SpotOrderCommand.payload], with the keys in the order [sort_keys] gives *)
Definition payload (c : SpotOrderCommand) : json :=
  JObj ([ ("newClientOrderId", JStr (client_order_id c)); ("newOrderRespType", JStr "FULL") ] ++
        match price c with Some p => [("price", JStr (str_decimal p))] | None => [] end ++
        [ ("quantity", JStr (str_decimal (quantity c))); ("side", JStr (side c));
          ("symbol", JStr (symbol c)) ] ++
        match time_in_force c with Some t => [("timeInForce", JStr t)] | None => [] end ++
        [ ("type", JStr (order_type c)) ]).

Definition preview_hash (c : SpotOrderCommand) : string := sha256 (dumps (payload c)).

(** ** Well-formed commands *)

Record command_ok (c : SpotOrderCommand) : Prop := mk_command_ok {
  ok_symbol : normalize (symbol c) = symbol c /\ isascii (symbol c) = true /\ isalnum (symbol c) = true;
  ok_side : side c = "BUY" \/ side c = "SELL";
  ok_quantity : (0 < dval (quantity c))%Q;
  ok_client : strip (client_order_id c) = client_order_id c /\ client_order_id c <> "" /\
              str_len (client_order_id c) <= 36 /\ isascii (client_order_id c) = true;
  ok_terms : (order_type c = "LIMIT" /\
                (exists p, price c = Some p /\ (0 < dval p)%Q) /\ opt_in (time_in_force c) TIF = true) \/
             (order_type c = "MARKET" /\ price c = None /\ time_in_force c = None)
}.

Lemma positive_finite_Some d x : positive_finite d = Some x <-> d = Finite x /\ (0 < dval x)%Q.
Proof.
  unfold positive_finite. destruct d as [y| |]; [|split; [done|intros [? _]; done]..].
  destruct (y <=? ZERO)%D eqn:E; zify_dec; rewrite dval_ZERO in E.
  - split; [done|]. intros [[= ->] H]. lra.
  - split; [by intros [= ->]|by intros [[= ->] _]].
Qed.

Lemma price_terms_Ok ty p t le me r : str_in ty ["LIMIT"; "MARKET"] = true ->
  price_terms ty p t le me = Ok r ->
  (ty = "LIMIT" /\ (exists x, r = Some x /\ p = Some (Finite x) /\ (0 < dval x)%Q) /\
   opt_in t TIF = true) \/
  (ty = "MARKET" /\ r = None /\ p = None /\ t = None).
Proof.
  intros Ht%str_in_In H. unfold price_terms in H. destruct (String.eqb_spec ty "LIMIT") as [->|Hn].
  - left. split; [done|]. destruct p as [p|]; [|done].
    destruct (positive_finite p) as [x|] eqn:E; [|done]. destruct (opt_in t TIF); [|done].
    apply positive_finite_Some in E as [-> Hx]. injection H as <-. eauto.
  - right. destruct Ht as [<-|[<-|[]]]; [done|]. destruct p, t; try done. by injection H as <-.
Qed.

Lemma price_terms_back ty r t le me :
  (ty = "LIMIT" /\ (exists p, r = Some p /\ (0 < dval p)%Q) /\ opt_in t TIF = true) \/
  (ty = "MARKET" /\ r = None /\ t = None) ->
  price_terms ty (option_map Finite r) t le me = Ok r.
Proof.
  unfold price_terms. intros [(-> & (p & -> & Hp) & Ht)|(-> & -> & ->)]; simpl; [|done].
  assert (positive_finite (Finite p) = Some p) as E by by apply positive_finite_Some.
  unfold positive_finite in E. by rewrite E, Ht.
Qed.

Lemma new_command_ok sym sd ty q cl p t c : new_command sym sd ty q cl p t = Ok c -> command_ok c.
Proof.
  unfold new_command. cbv zeta. intros H. apply bind_Ok in H as (? & Hsym & H).
  apply bind_Ok in H as (? & Hside & H). apply bind_Ok in H as (qq & Hq & H).
  apply bind_Ok in H as (? & Hcl & H). apply bind_Ok in H as (r & Hp & H). injection H as <-.
  inv_res. apply price_terms_Ok in Hp; [|done].
  destruct (positive_finite q) as [y|] eqn:Eq; [|done]. injection Hq as ->.
  apply positive_finite_Some in Eq as [_ Hx]. zify_bool.
  split; simpl; try done.
  - split_and!; try done. apply normalize_idem.
  - match goal with S : str_in (normalize sd) _ = true |- _ => apply str_in_In in S; simpl in S end.
    intuition.
  - split_and!; try done. apply strip_idem.
  - destruct Hp as [(? & (z & ? & _ & ?) & ?)|(? & ? & _ & ?)]; [left|right]; eauto.
Qed.

(** Rebuilding a well-formed command from its own fields changes nothing. *)
Lemma new_command_fixed c : command_ok c ->
  new_command (symbol c) (side c) (order_type c) (Finite (quantity c)) (client_order_id c)
    (option_map Finite (price c)) (time_in_force c) = Ok c.
Proof.
  intros [(S1 & S2 & S3) Hsd Hq (C1 & C2 & C3 & C4) Ht]. unfold new_command. cbv zeta.
  rewrite S1, S2, S3.
  assert (normalize (side c) = side c) as -> by (destruct Hsd as [->| ->]; reflexivity).
  assert (normalize (order_type c) = order_type c) as ->
    by (destruct Ht as [(-> & _)|(-> & _)]; reflexivity).
  assert (str_in (side c) ["BUY"; "SELL"] = true) as -> by (destruct Hsd as [->| ->]; reflexivity).
  assert (str_in (order_type c) ["LIMIT"; "MARKET"] = true) as ->
    by (destruct Ht as [(-> & _)|(-> & _)]; reflexivity).
  assert (positive_finite (Finite (quantity c)) = Some (quantity c)) as E
    by by apply positive_finite_Some.
  rewrite E, C1, C4. apply String.eqb_neq in C2. rewrite C2.
  destruct (Z.ltb_spec 36 (str_len (client_order_id c))); [lia|]. simpl.
  rewrite price_terms_back by done. simpl. by destruct c.
Qed.
