(* ===== verification/Authorization.v ===== *)
(** [execution/authorization.py]: the human authorization of one exact Spot
    order and the ledger that lets it be used once.  The SQLite table is a list
    of rows with the primary key and the unique nonce of its schema; the
    statements of one claim can fail at every step. *)
From S2P Require Import Prelude PyDecimal DecimalFacts DecimalText Sha256 PyText OrderCommand.
From Stdlib Require Import QArith Lqa.
Local Open Scope Z_scope.
Local Open Scope bool_scope.

(** ** Text and time fields *)

Definition _required_text (value field : string) : res string :=
  let normalized := strip value in
  raise_if (String.eqb normalized "" || (256 <? str_len normalized) || negb (isascii normalized)
            || existsb (fun c => str_contains_char c normalized)
                 [ascii_of_N 13; ascii_of_N 10; ascii_of_N 0])
    (ValueError ("authorization " ++ field ++ " is invalid"));;
  mret normalized.

Definition _sha256 (value : string) : res string :=
  let normalized := lower (strip value) in
  raise_if (negb (is_sha256_text normalized)) (ValueError "authorization SHA-256 is invalid");;
  mret normalized.

Definition _aware_utc (value : datetime) (field : string) : res datetime :=
  raise_if (naive value) (ValueError ("authorization " ++ field ++ " must be timezone-aware"));;
  mret (astimezone_utc value).

Definition _timestamp (value : datetime) : string := timestamp_z value.

(** ** The envelope *)

(** Constructor arguments, before any check. *)
Record EnvelopeArgs : Type := mk_args {
  a_authorization_id : string; a_approval_id : string; a_preview_hash : string;
  a_decision_id : string; a_snapshot_id : string; a_strategy_id : string;
  a_strategy_version : string; a_symbol : string; a_market_type : string; a_side : string;
  a_order_type : string; a_quantity : pydec; a_client_order_id : string;
  a_risk_assessment_hash : string; a_validation_bundle_hash : string;
  a_created_at : datetime; a_expires_at : datetime; a_approved_by : string;
  a_single_use_nonce : string; a_price : option pydec; a_time_in_force : option string;
  a_execution_allowed : bool; a_live_eligibility_status : string
}.

Record ExecutionAuthorizationEnvelope : Type := mk_envelope {
  authorization_id : string; approval_id : string; auth_preview_hash : string;
  decision_id : string; snapshot_id : string; strategy_id : string; strategy_version : string;
  auth_symbol : string; market_type : string; auth_side : string; auth_order_type : string;
  auth_quantity : dec; auth_client_order_id : string;
  risk_assessment_hash : string; validation_bundle_hash : string;
  created_at : datetime; expires_at : datetime; approved_by : string;
  single_use_nonce : string; auth_price : option dec; auth_time_in_force : option string
}.

(** [ExecutionAuthorizationEnvelope(...)] with [__post_init__]; the two
    authority fields are refused unless they grant nothing. *)
Definition new_envelope (a : EnvelopeArgs) : res ExecutionAuthorizationEnvelope :=
  auth ← _required_text (a_authorization_id a) "authorization_id";
  approval ← _required_text (a_approval_id a) "approval_id";
  decision ← _required_text (a_decision_id a) "decision_id";
  snapshot ← _required_text (a_snapshot_id a) "snapshot_id";
  strategy ← _required_text (a_strategy_id a) "strategy_id";
  version ← _required_text (a_strategy_version a) "strategy_version";
  client ← _required_text (a_client_order_id a) "client_order_id";
  approver ← _required_text (a_approved_by a) "approved_by";
  nonce ← _required_text (a_single_use_nonce a) "single_use_nonce";
  preview ← _sha256 (a_preview_hash a);
  risk ← _sha256 (a_risk_assessment_hash a);
  bundle ← _sha256 (a_validation_bundle_hash a);
  let symbol := normalize (a_symbol a) in
  let market := normalize (a_market_type a) in
  let side := normalize (a_side a) in
  let order_type := normalize (a_order_type a) in
  raise_if (negb (isascii symbol) || negb (isalnum symbol))
    (ValueError "authorization symbol must be ASCII alphanumeric");;
  raise_if (negb (String.eqb market "SPOT")) (ValueError "authorization market type must be SPOT");;
  raise_if (negb (str_in side ["BUY"; "SELL"])) (ValueError "authorization side is invalid");;
  raise_if (negb (str_in order_type ["LIMIT"; "MARKET"]))
    (ValueError "authorization order type is invalid");;
  qty ← match positive_finite (a_quantity a) with
        | Some q => Ok q
        | None => Raise (ValueError "authorization quantity must be finite and positive")
        end;
  let tif := option_map normalize (a_time_in_force a) in
  price ← price_terms order_type (a_price a) tif
    "LIMIT authorization requires exact price constraints"
    "MARKET authorization cannot contain price constraints";
  created ← _aware_utc (a_created_at a) "created_at";
  expires ← _aware_utc (a_expires_at a) "expires_at";
  raise_if (dt_leb expires created) (ValueError "authorization expiry must follow creation");;
  raise_if (a_execution_allowed a ||
            negb (String.eqb (a_live_eligibility_status a) LIVE_ORDER_BLOCKED))
    (ValueError "authorization envelope cannot grant execution authority");;
  mret (mk_envelope auth approval preview decision snapshot strategy version symbol market side
    order_type qty client risk bundle created expires approver nonce price tif).

(** [ExecutionAuthorizationEnvelope.to_payload] *)
Definition to_payload (e : ExecutionAuthorizationEnvelope) : json :=
  JObj [ ("approval_id", JStr (approval_id e)); ("approved_by", JStr (approved_by e));
    ("authorization_id", JStr (authorization_id e)); ("client_order_id", JStr (auth_client_order_id e));
    ("created_at", JStr (_timestamp (created_at e))); ("decision_id", JStr (decision_id e));
    ("execution_allowed", JBool false); ("expires_at", JStr (_timestamp (expires_at e)));
    ("live_eligibility_status", JStr LIVE_ORDER_BLOCKED); ("market_type", JStr (market_type e));
    ("order_type", JStr (auth_order_type e)); ("preview_hash", JStr (auth_preview_hash e));
    ("price", opt_str (option_map str_decimal (auth_price e)));
    ("quantity", JStr (str_decimal (auth_quantity e)));
    ("risk_assessment_hash", JStr (risk_assessment_hash e)); ("side", JStr (auth_side e));
    ("single_use_nonce", JStr (single_use_nonce e)); ("snapshot_id", JStr (snapshot_id e));
    ("strategy_id", JStr (strategy_id e)); ("strategy_version", JStr (strategy_version e));
    ("symbol", JStr (auth_symbol e)); ("time_in_force", opt_str (auth_time_in_force e));
    ("validation_bundle_hash", JStr (validation_bundle_hash e)) ].

(** [ExecutionAuthorizationEnvelope.envelope_sha256] *)
Definition envelope_sha256 (e : ExecutionAuthorizationEnvelope) : string :=
  sha256 (dumps (to_payload e)).

Definition opt_dec_eqb (a b : option dec) : bool :=
  match a, b with
  | Some x, Some y => (x =? y)%D
  | None, None => true
  | _, _ => false
  end.

Definition opt_str_eqb (a b : option string) : bool := bool_decide (a = b).

(** The table [comparisons]: whether each pair agrees, and its label. *)
Definition comparisons (e : ExecutionAuthorizationEnvelope) (c : SpotOrderCommand)
  : list (bool * string) :=
  [ (String.eqb (auth_preview_hash e) (preview_hash c), "PREVIEW_HASH");
    (String.eqb (auth_symbol e) (symbol c), "SYMBOL");
    (String.eqb (auth_side e) (side c), "SIDE");
    (String.eqb (auth_order_type e) (order_type c), "ORDER_TYPE");
    ((auth_quantity e =? quantity c)%D, "QUANTITY");
    (opt_dec_eqb (auth_price e) (price c), "PRICE");
    (opt_str_eqb (auth_time_in_force e) (time_in_force c), "TIME_IN_FORCE");
    (String.eqb (auth_client_order_id e) (client_order_id c), "CLIENT_ORDER_ID") ].

(** [ExecutionAuthorizationEnvelope.blockers_for] *)
Definition blockers_for (e : ExecutionAuthorizationEnvelope) (c : SpotOrderCommand)
  (observed_at : datetime) : res (list string) :=
  now ← _aware_utc observed_at "observed_at";
  mret (block_if (dt_ltb now (created_at e)) "EXECUTION_AUTHORIZATION_NOT_YET_VALID" ++
        block_if (dt_leb (expires_at e) now) "EXECUTION_AUTHORIZATION_EXPIRED" ++
        map (fun x => "EXECUTION_AUTHORIZATION_" ++ snd x ++ "_MISMATCH")%string
            (List.filter (fun x => negb (fst x)) (comparisons e c))).

(** [ExecutionAuthorizationEnvelope.to_spot_order_command] *)
Definition to_spot_order_command (e : ExecutionAuthorizationEnvelope) : res SpotOrderCommand :=
  new_command (auth_symbol e) (auth_side e) (auth_order_type e) (Finite (auth_quantity e))
    (auth_client_order_id e) (option_map Finite (auth_price e)) (auth_time_in_force e).

(** ** The single-use ledger *)

Record ExecutionAuthorizationConsumption : Type := mk_consumption {
  c_authorization_id : string;
  c_single_use_nonce : string;
  c_envelope_sha256 : string;
  c_preview_hash : string;
  c_execution_id : string;
  c_claimed_at : datetime
}.

(** [ExecutionAuthorizationConsumption(...)] with [__post_init__] *)
Definition new_consumption (auth nonce sha preview exec : string) (at_ : datetime)
  (execution_allowed : bool) (live_status : string) : res ExecutionAuthorizationConsumption :=
  auth ← _required_text auth "authorization_id";
  nonce ← _required_text nonce "single_use_nonce";
  exec ← _required_text exec "execution_id";
  sha ← _sha256 sha;
  preview ← _sha256 preview;
  at_ ← _aware_utc at_ "claimed_at";
  raise_if (execution_allowed || negb (String.eqb live_status LIVE_ORDER_BLOCKED))
    (ValueError "authorization consumption cannot grant authority");;
  mret (mk_consumption auth nonce sha preview exec at_).

(** A row of the table, in the order of its columns. *)
Record row : Type := mk_row {
  row_authorization_id : string;
  row_nonce : string;
  row_sha : string;
  row_preview : string;
  row_execution_id : string;
  row_claimed_at : string
}.

#[export] Instance row_eq_dec : EqDecision row.
Proof. solve_decision. Defined.

Definition table : Type := list row.

(** The statements of a claim, where an [OSError] or [sqlite3.Error] can
    strike; [None] is a run without faults.  In the last four the [ROLLBACK]
    fails too, after the insertion found the row, or after a statement failed. *)
Inductive fault : Type :=
| FaultConnect | FaultCreate | FaultBegin | FaultInsert | FaultSelect | FaultCommit
| FaultConflictRollback | FaultInsertRollback | FaultSelectRollback | FaultCommitRollback.

#[export] Instance fault_eq_dec : EqDecision fault.
Proof. solve_decision. Defined.

Definition strikes (f : option fault) (at_ : fault) : bool := bool_decide (f = Some at_).

Definition conflicts (t : table) (e : ExecutionAuthorizationEnvelope) : bool :=
  existsb (fun r => String.eqb (row_authorization_id r) (authorization_id e)
                    || String.eqb (row_nonce r) (single_use_nonce e)) t.

Definition claim_row (e : ExecutionAuthorizationEnvelope) (exec : string) (at_ : datetime) : row :=
  mk_row (authorization_id e) (single_use_nonce e) (envelope_sha256 e) (auth_preview_hash e) exec
    (_timestamp at_).

(** The [try] block: the transaction opened by BEGIN IMMEDIATE inserts the
    row, reads it back and commits; every exception rolls it back.  When the
    [ROLLBACK] fails its error is what is raised, and closing the connection
    drops the open transaction. *)
Definition claim_transaction (e : ExecutionAuthorizationEnvelope) (exec : string) (at_ : datetime)
  (f : option fault) : method table unit := fun t =>
  let unavailable := Raise AuthorizationLedgerUnavailableError in
  if strikes f FaultConnect || strikes f FaultCreate || strikes f FaultBegin || strikes f FaultInsert
  then (unavailable, t)
  else if strikes f FaultInsertRollback then (Raise SqliteError, t)
  else if conflicts t e
  then (Raise (if strikes f FaultConflictRollback then SqliteError else AuthorizationAlreadyConsumedError), t)
  else
    let t' := t ++ [claim_row e exec at_] in
    if strikes f FaultSelect then (unavailable, t)
    else if strikes f FaultSelectRollback then (Raise SqliteError, t)
    else
      let found := List.find (fun r => String.eqb (row_authorization_id r) (authorization_id e)) t' in
      if negb (bool_decide (found = Some (claim_row e exec at_))) then (unavailable, t)
      else if strikes f FaultCommit then (unavailable, t)
      else if strikes f FaultCommitRollback then (Raise SqliteError, t)
      else (Ok tt, t').

(** [LocalExecutionAuthorizationLedger.claim] *)
Definition claim (e : ExecutionAuthorizationEnvelope) (execution_id : string) (claimed_at : datetime)
  (f : option fault) : method table ExecutionAuthorizationConsumption :=
  exec ← lift (_required_text execution_id "execution_id");
  at_ ← lift (_aware_utc claimed_at "claimed_at");
  claim_transaction e exec at_ f;;
  lift (new_consumption (authorization_id e) (single_use_nonce e) (envelope_sha256 e)
          (auth_preview_hash e) exec at_ false LIVE_ORDER_BLOCKED).

(** [LocalExecutionAuthorizationLedger.is_consumed] on an existing file *)
Definition is_consumed (auth : string) (t : table) : res bool :=
  id ← _required_text auth "authorization_id";
  mret (existsb (fun r => String.eqb (row_authorization_id r) id) t).

(** ** Facts *)

Lemma required_text_Ok v f s : _required_text v f = Ok s ->
  strip s = s /\ s <> "" /\ str_len s <= 256 /\ isascii s = true /\ forall g, _required_text s g = Ok s.
Proof.
  unfold _required_text. intros H. apply bind_Ok in H as (u & Hr & H). injection H as <-.
  apply raise_if_Ok in Hr. pose proof (strip_idem v) as Hs. rewrite Hs.
  pose proof Hr as Hr'. rewrite !orb_false_iff in Hr'. destruct Hr' as (((H1 & H2) & H3) & _).
  zify_bool. apply negb_false_iff in H3. split_and!; try done. intros g. by rewrite Hr.
Qed.

Lemma sha256_Ok v s : _sha256 v = Ok s -> is_sha256_text s = true /\ _sha256 s = Ok s.
Proof.
  unfold _sha256. intros H. apply bind_Ok in H as (u & Hr & H). injection H as <-.
  apply raise_if_Ok, negb_false_iff in Hr. split; [done|].
  destruct (sha256_text_fixed _ Hr) as [E1 E2]. by rewrite E1, E2, Hr.
Qed.

Lemma aware_utc_Ok d f r : _aware_utc d f = Ok r ->
  r = astimezone_utc d /\ instant r = instant d /\ forall g, _aware_utc r g = Ok r.
Proof.
  unfold _aware_utc. intros H. apply bind_Ok in H as (u & _ & H). injection H as <-.
  split_and!; [done|apply instant_astimezone|]. intros g. unfold naive, astimezone_utc. simpl.
  do 2 f_equal. unfold instant. simpl. lia.
Qed.

(** What the constructor guarantees. *)
Record envelope_ok (e : ExecutionAuthorizationEnvelope) : Prop := mk_envelope_ok {
  env_texts : forall s, In s [authorization_id e; single_use_nonce e; auth_client_order_id e] ->
    strip s = s /\ s <> "" /\ isascii s = true /\ forall g, _required_text s g = Ok s;
  env_preview : is_sha256_text (auth_preview_hash e) = true;
  env_symbol : normalize (auth_symbol e) = auth_symbol e /\ isascii (auth_symbol e) = true /\
               isalnum (auth_symbol e) = true;
  env_market : market_type e = "SPOT";
  env_side : auth_side e = "BUY" \/ auth_side e = "SELL";
  env_quantity : (0 < dval (auth_quantity e))%Q;
  env_terms : (auth_order_type e = "LIMIT" /\
      (exists p, auth_price e = Some p /\ (0 < dval p)%Q) /\ opt_in (auth_time_in_force e) TIF = true) \/
    (auth_order_type e = "MARKET" /\ auth_price e = None /\ auth_time_in_force e = None);
  env_window : instant (created_at e) < instant (expires_at e)
}.

Lemma new_envelope_ok a e : new_envelope a = Ok e -> envelope_ok e /\
  a_execution_allowed a = false /\ a_live_eligibility_status a = LIVE_ORDER_BLOCKED.
Proof.
  unfold new_envelope. intros H. do 12 (apply bind_Ok in H as (? & ? & H)). cbv zeta in H.
  apply bind_Ok in H as (? & Hsym & H). apply bind_Ok in H as (? & Hm & H).
  apply bind_Ok in H as (? & Hsd & H). apply bind_Ok in H as (? & Hty & H).
  apply bind_Ok in H as (? & Hq & H). apply bind_Ok in H as (? & Hp & H).
  apply bind_Ok in H as (? & Hc & H). apply bind_Ok in H as (? & He & H).
  apply bind_Ok in H as (? & Hw & H). apply bind_Ok in H as (? & Ha & H). injection H as <-.
  repeat match goal with
  | T : _required_text _ _ = Ok _ |- _ => apply required_text_Ok in T
  | T : _sha256 _ = Ok _ |- _ => apply sha256_Ok in T
  | T : raise_if _ _ = Ok _ |- _ => apply raise_if_Ok in T
  end.
  apply orb_false_iff in Hsym as [S1 S2], Ha as [A1 A2].
  apply negb_false_iff in S1, S2, Hm, Hsd, Hty, A2. apply String.eqb_eq in Hm, A2.
  apply price_terms_Ok in Hp; [|done].
  destruct (positive_finite _) as [y|] eqn:Eq; [|done]. injection Hq as ->.
  apply positive_finite_Some in Eq as [_ Hy]. apply str_in_In in Hsd. simpl in Hsd.
  split; [|done]. split; simpl; try done; try tauto.
  - intros s [E|[E|[E|[]]]]; rewrite <- E; naive_solver.
  - split; [apply normalize_idem|done].
  - destruct Hsd as [<-|[<-|[]]]; auto.
  - destruct Hp as [(-> & (z & -> & _ & ?) & ?)|(-> & -> & _ & ?)]; [left|right]; eauto.
  - unfold dt_leb in Hw. zify_bool. lia.
Qed.

(** The command an authorization stands for. *)
Definition authorized_command (e : ExecutionAuthorizationEnvelope) : SpotOrderCommand :=
  mk_command (auth_symbol e) (auth_side e) (auth_order_type e) (auth_quantity e)
    (auth_client_order_id e) (auth_price e) (auth_time_in_force e).

Lemma to_spot_ok e : envelope_ok e -> str_len (auth_client_order_id e) <= 36 ->
  to_spot_order_command e = Ok (authorized_command e).
Proof.
  intros [Ht Hp Hs Hm Hsd Hq Htm Hw] Hl. apply (new_command_fixed (authorized_command e)).
  destruct (Ht (auth_client_order_id e)) as (? & ? & ? & _); [simpl; auto|]. by split.
Qed.

Lemma blockers_nil_filter (l : list (bool * string)) :
  map (fun x => "EXECUTION_AUTHORIZATION_" ++ snd x ++ "_MISMATCH")%string
    (List.filter (fun x => negb (fst x)) l) = [] <-> forallb fst l = true.
Proof.
  induction l as [|[b s] l IH]; [done|]. simpl. destruct b; simpl; [exact IH|]. split; done.
Qed.

Lemma opt_dec_eqb_refl o : opt_dec_eqb o o = true.
Proof. destruct o; simpl; [apply deqb_refl|done]. Qed.

Lemma blockers_nil e c t bl : blockers_for e c t = Ok bl ->
  bl = [] <-> instant (created_at e) <= instant t < instant (expires_at e) /\
              forallb fst (comparisons e c) = true.
Proof.
  unfold blockers_for. intros H. apply bind_Ok in H as (now & Hn & H). apply mret_Ok in H. subst bl.
  apply aware_utc_Ok in Hn as (_ & Hn & _). unfold dt_ltb, dt_leb. rewrite Hn. split.
  - intros E. apply app_eq_nil in E as [E1 E]. apply app_eq_nil in E as [E2 E].
    apply block_if_nil in E1, E2. apply blockers_nil_filter in E. zify_bool. split; [lia|done].
  - intros [[H1 H2] H3]. apply blockers_nil_filter in H3. rewrite H3.
    destruct (Z.ltb_spec (instant t) (instant (created_at e))); [lia|].
    destruct (Z.leb_spec (instant (expires_at e)) (instant t)); [lia|]. done.
Qed.

(** ** The ledger *)

(** Ids and nonces of the table are pairwise different. *)
Definition table_ok (t : table) : Prop :=
  List.NoDup (map row_authorization_id t) /\ List.NoDup (map row_nonce t).

Lemma conflicts_false t e : conflicts t e = false <->
  ~ In (authorization_id e) (map row_authorization_id t) /\ ~ In (single_use_nonce e) (map row_nonce t).
Proof.
  unfold conflicts. rewrite <- not_true_iff_false, existsb_exists.
  setoid_rewrite orb_true_iff. setoid_rewrite String.eqb_eq. rewrite !in_map_iff.
  split.
  - intros H. split; intros (r & E & Hr); apply H; eauto.
  - intros [H1 H2] (r & Hr & [E|E]); [apply H1|apply H2]; eauto.
Qed.

Lemma claim_transaction_run e x at_ f t r t' : claim_transaction e x at_ f t = (r, t') ->
  (t' = t /\ exists err, r = Raise err) \/
  (r = Ok tt /\ t' = t ++ [claim_row e x at_] /\ conflicts t e = false
   /\ (f = None \/ f = Some FaultConflictRollback)).
Proof.
  unfold claim_transaction. cbv zeta.
  destruct (strikes f FaultConnect || strikes f FaultCreate || strikes f FaultBegin || strikes f FaultInsert)
    eqn:E1; [intros [= <- <-]; eauto|].
  destruct (strikes f FaultInsertRollback) eqn:E5; [intros [= <- <-]; eauto|].
  destruct (conflicts t e) eqn:E2; [intros [= <- <-]; eauto|].
  destruct (strikes f FaultSelect) eqn:E3; [intros [= <- <-]; eauto|].
  destruct (strikes f FaultSelectRollback) eqn:E6; [intros [= <- <-]; eauto|].
  destruct (negb _); [intros [= <- <-]; eauto|].
  destruct (strikes f FaultCommit) eqn:E4; [intros [= <- <-]; eauto|].
  destruct (strikes f FaultCommitRollback) eqn:E7; [intros [= <- <-]; eauto|].
  intros [= <- <-]. right. destruct f as [[]|]; try discriminate; auto.
Qed.

Lemma claim_run e x at_ f t r t' : claim e x at_ f t = (r, t') ->
  (t' = t /\ exists err, r = Raise err) \/
  (exists exec a, t' = t ++ [claim_row e exec a] /\ conflicts t e = false).
Proof.
  unfold claim. rewrite lift_bind. destruct (_required_text x _) as [exec|]; [|intros [= <- <-]; eauto].
  rewrite lift_bind. destruct (_aware_utc at_ _) as [a|]; [|intros [= <- <-]; eauto].
  rewrite method_bind_run. destruct (claim_transaction e exec a f t) as [r1 t1] eqn:E.
  apply claim_transaction_run in E as [[-> (err & ->)]|(-> & -> & Hc & _)].
  - intros [= <- <-]. eauto.
  - unfold lift. intros [= <- <-]. eauto.
Qed.

Lemma claim_table_ok e x at_ f t r t' : table_ok t -> claim e x at_ f t = (r, t') -> table_ok t'.
Proof.
  intros [H1 H2] H. apply claim_run in H as [[-> _]|(exec & a & -> & Hc)]; [by split|].
  apply conflicts_false in Hc as [C1 C2]. split; rewrite map_app; simpl.
  - apply (Permutation_NoDup (Permutation_cons_append _ _)). by constructor.
  - apply (Permutation_NoDup (Permutation_cons_append _ _)). by constructor.
Qed.

(** Tables after further claims of any envelopes, with any faults. *)
Inductive later : table -> table -> Prop :=
| later_refl t : later t t
| later_claim t t' e x at_ f : later t t' -> later t (snd (claim e x at_ f t')).

Lemma later_incl t t' : later t t' -> forall r, In r t -> In r t'.
Proof.
  induction 1 as [t|t t' e x at_ f _ IH]; [done|]. intros r Hr. specialize (IH r Hr).
  destruct (claim e x at_ f t') as [res t2] eqn:E. simpl.
  apply claim_run in E as [[-> _]|(exec & a & -> & _)]; [done|]. apply in_app_iff. by left.
Qed.

(** ** Properties *)

(** An authorization fits exactly one order in its window.  [blockers_for]
    returns no blocker if and only if the observation lies in
    [created_at, expires_at) and the command carries the approved preview hash
    and the very symbol, side, type, quantity, price, time in force and client
    id of the envelope (numbers compared by value). *)
Theorem authorization_exact e c t bl :
  blockers_for e c t = Ok bl ->
  bl = [] <->
  instant (created_at e) <= instant t < instant (expires_at e) /\
  auth_preview_hash e = preview_hash c /\ auth_symbol e = symbol c /\ auth_side e = side c /\
  auth_order_type e = order_type c /\ (dval (auth_quantity e) == dval (quantity c))%Q /\
  match auth_price e, price c with
  | Some p, Some q => (dval p == dval q)%Q
  | None, None => True
  | _, _ => False
  end /\
  auth_time_in_force e = time_in_force c /\ auth_client_order_id e = client_order_id c.
Proof.
  intros H. rewrite (blockers_nil _ _ _ _ H). unfold comparisons, opt_str_eqb. cbn [forallb fst].
  rewrite !andb_true_iff, !String.eqb_eq, deqb_spec, bool_decide_eq_true.
  assert (opt_dec_eqb (auth_price e) (price c) = true <->
    match auth_price e, price c with
    | Some p, Some q => (dval p == dval q)%Q | None, None => True | _, _ => False end) as ->; [|tauto].
  destruct (auth_price e), (price c); simpl; [apply deqb_spec|done..].
Qed.

(** An accepted envelope authorizes its own command.  Every envelope the
    constructor accepts, whose client id fits an order, converts to a command;
    when the approved preview hash is that command's, the command passes
    [blockers_for] at every aware time of the window.  The constructor accepts no
    envelope that claims execution authority. *)
Theorem envelope_authorizes_own_command a e :
  new_envelope a = Ok e ->
  a_execution_allowed a = false /\ a_live_eligibility_status a = LIVE_ORDER_BLOCKED /\
  (str_len (auth_client_order_id e) <= 36 ->
   exists c, to_spot_order_command e = Ok c /\ command_ok c /\
     forall t, auth_preview_hash e = preview_hash c -> naive t = false ->
       instant (created_at e) <= instant t < instant (expires_at e) ->
       blockers_for e c t = Ok []).
Proof.
  intros H. apply new_envelope_ok in H as (Hok & H1 & H2). split; [done|]. split; [done|]. intros Hl.
  pose proof (to_spot_ok e Hok Hl) as Hs. exists (authorized_command e). split; [done|].
  split; [eapply new_command_ok; exact Hs|]. intros t Hh Hn Hw.
  destruct (blockers_for e (authorized_command e) t) as [bl|x] eqn:E.
  - f_equal. apply (blockers_nil _ _ _ _ E). split; [done|].
    unfold comparisons. cbn [forallb fst symbol side order_type quantity price time_in_force
      client_order_id authorized_command]. rewrite <- Hh. unfold opt_str_eqb.
    by rewrite !String.eqb_refl, deqb_refl, opt_dec_eqb_refl, bool_decide_eq_true_2.
  - unfold blockers_for, _aware_utc in E. by rewrite Hn in E.
Qed.

(** C11: an authorization is used at most once.  After a claim that returned,
    and whatever claims (of any envelopes, with any database faults) follow,
    every claim with the same authorization id or the same nonce raises and
    writes nothing; the claimed id reads as consumed. *)
Theorem authorization_single_use e x at_ f t c t1 t2 e' x' at' f' :
  claim e x at_ f t = (Ok c, t1) -> later t1 t2 ->
  authorization_id e' = authorization_id e \/ single_use_nonce e' = single_use_nonce e ->
  (exists err, claim e' x' at' f' t2 = (Raise err, t2)) /\
  (strip (authorization_id e) = authorization_id e -> forall b,
     is_consumed (authorization_id e) t2 = Ok b -> b = true).
Proof.
  intros H Hl Hid. apply claim_run in H as [[_ (err & ?)]|(exec & a & -> & _)]; [done|].
  assert (In (claim_row e exec a) t2) as Hin.
  { eapply later_incl; [exact Hl|]. apply in_app_iff. right. by left. }
  assert (conflicts t2 e' = true) as Hc.
  { unfold conflicts. apply existsb_exists. exists (claim_row e exec a). split; [done|]. simpl.
    destruct Hid as [-> | ->]; rewrite String.eqb_refl; [done|]. apply orb_true_r. }
  split.
  - destruct (claim e' x' at' f' t2) as [r t3] eqn:E.
    apply claim_run in E as [[-> (err & ->)]|(? & ? & _ & Hn)]; [eauto|congruence].
  - intros Hs b Hb. unfold is_consumed, _required_text in Hb. rewrite Hs in Hb.
    apply bind_Ok in Hb as (id & Hb1 & Hb). apply bind_Ok in Hb1 as (u & _ & Hb1).
    apply mret_Ok in Hb1, Hb. subst. apply existsb_exists. exists (claim_row e exec a).
    split; [done|]. apply String.eqb_refl.
Qed.

(** A valid, unused authorization can be claimed.  For an envelope the
    constructor accepted, a claim without database faults, with a valid
    execution id and an aware time, succeeds exactly when neither id nor nonce is
    in the table; the consumption record carries the envelope's hash and
    preview, and the table keeps its ids and nonces unique. *)
Theorem claim_succeeds_once a e x at_ t :
  new_envelope a = Ok e -> table_ok t ->
  _required_text x "execution_id" = Ok (strip x) -> naive at_ = false ->
  (exists c t', claim e x at_ None t = (Ok c, t') /\ table_ok t' /\
     c_envelope_sha256 c = envelope_sha256 e /\ c_preview_hash c = auth_preview_hash e /\
     c_authorization_id c = authorization_id e) <->
  conflicts t e = false.
Proof.
  intros He Ht Hx Hn. apply new_envelope_ok in He as (He & _). split.
  - intros (c & t' & H & _). apply claim_run in H as [[_ (? & ?)]|(? & ? & _ & ?)]; done.
  - intros Hc. unfold claim. rewrite lift_bind, Hx, lift_bind.
    unfold _aware_utc at 1. rewrite Hn. cbn [raise_if].
    change ((Ok tt ≫= fun _ : unit => mret (astimezone_utc at_))) with (Ok (astimezone_utc at_)).
    set (a1 := astimezone_utc at_). cbv iota. rewrite method_bind_run.
    unfold claim_transaction. cbv zeta. rewrite Hc.
    change (strikes None FaultConnect || strikes None FaultCreate || strikes None FaultBegin
      || strikes None FaultInsert) with false. change (strikes None FaultInsertRollback) with false. cbv iota.
    change (strikes None FaultSelect) with false. change (strikes None FaultSelectRollback) with false.
    change (strikes None FaultCommit) with false. change (strikes None FaultCommitRollback) with false.
    assert (List.find (fun r => String.eqb (row_authorization_id r) (authorization_id e))
      (t ++ [claim_row e (strip x) a1]) = Some (claim_row e (strip x) a1)) as ->.
    { apply conflicts_false in Hc as [Hc _]. clear - Hc. induction t as [|r t IH]; simpl.
      - by rewrite String.eqb_refl.
      - destruct (String.eqb_spec (row_authorization_id r) (authorization_id e)) as [E|E].
        + exfalso. apply Hc. left. done.
        + apply IH. intros Hin. apply Hc. by right. }
    rewrite bool_decide_eq_true_2 by done. cbn [negb].
    destruct (env_texts e He (authorization_id e)) as (_ & _ & _ & R1); [simpl; auto|].
    destruct (env_texts e He (single_use_nonce e)) as (_ & _ & _ & R2); [simpl; auto|].
    unfold new_consumption. apply required_text_Ok in Hx as (_ & _ & _ & _ & R3).
    assert (forall s, is_sha256_text s = true -> _sha256 s = Ok s) as R4.
    { intros s Hs. unfold _sha256. destruct (sha256_text_fixed s Hs) as [E1 E2]. by rewrite E1, E2, Hs. }
    rewrite R1, Ok_bind, R2, Ok_bind, R3, Ok_bind, (R4 (envelope_sha256 e) (sha256_text _)), Ok_bind,
      (R4 _ (env_preview e He)), Ok_bind.
    eexists _, _. split; [reflexivity|]. split_and!; try done.
    apply conflicts_false in Hc as [C1 C2]. destruct Ht as [N1 N2].
    split; rewrite map_app; apply (Permutation_NoDup (Permutation_cons_append _ _)); by constructor.
Qed.

(** ** Witnesses *)

Definition ex_command : SpotOrderCommand :=
  mk_command "BTCUSDT" "BUY" "LIMIT" (lit 5 (-1)) "client-1" (Some (lit 64000 0)) (Some "GTC").
Definition ex_hash : string := Eval vm_compute in sha256 "evidence".
Definition ex_args : EnvelopeArgs := Eval vm_compute in
  mk_args "auth-1" "approval-1" (preview_hash ex_command) "decision-1" "snapshot-1" "strategy-1" "1"
    " btcusdt" "spot" "buy" "limit" (Finite (lit 5 (-1))) "client-1" ex_hash ex_hash
    (utc 0) (utc (seconds 60)) "operator" "nonce-1" (Some (Finite (lit 64000 0))) (Some "gtc")
    false LIVE_ORDER_BLOCKED.
Definition no_envelope : ExecutionAuthorizationEnvelope :=
  mk_envelope "" "" "" "" "" "" "" "" "" "" "" ZERO "" "" "" (utc 0) (utc 0) "" "" None None.
Definition ex_envelope : ExecutionAuthorizationEnvelope := Eval vm_compute in
  match new_envelope ex_args with Ok e => e | Raise _ => no_envelope end.
Definition ex_claimed : table := Eval vm_compute in
  snd (claim ex_envelope "exec-1" (utc 5) None []).

Lemma ex_envelope_built : new_envelope ex_args = Ok ex_envelope.
Proof. vm_compute. reflexivity. Qed.

Lemma authorization_exact_witness :
  0 <= seconds 1 < seconds 60 /\ auth_side ex_envelope = side ex_command.
Proof.
  destruct (proj1 (authorization_exact ex_envelope ex_command (utc (seconds 1)) []
    ltac:(vm_compute; reflexivity)) eq_refl) as (H1 & _ & _ & H2 & _). split; [exact H1|exact H2].
Defined.

Lemma envelope_authorizes_own_command_witness :
  exists c, to_spot_order_command ex_envelope = Ok c /\ command_ok c.
Proof.
  destruct (envelope_authorizes_own_command ex_args ex_envelope ex_envelope_built) as (_ & _ & H).
  destruct H as (c & H1 & H2 & _); [vm_compute; discriminate|]. eauto.
Defined.

Lemma authorization_single_use_witness :
  exists err, claim ex_envelope "exec-2" (utc 6) None ex_claimed = (Raise err, ex_claimed).
Proof.
  epose proof (authorization_single_use ex_envelope "exec-1" (utc 5) None [] _ ex_claimed ex_claimed
    ex_envelope "exec-2" (utc 6) None ltac:(vm_compute; reflexivity) (later_refl _)
    (or_introl eq_refl)) as [H _]. exact H.
Defined.

Lemma claim_succeeds_once_witness :
  exists c t', claim ex_envelope "exec-1" (utc 5) None [] = (Ok c, t') /\ table_ok t'.
Proof.
  destruct (proj2 (claim_succeeds_once ex_args ex_envelope "exec-1" (utc 5) [] ex_envelope_built
    (conj (List.NoDup_nil _) (List.NoDup_nil _)) eq_refl eq_refl) eq_refl) as (c & t' & H1 & H2 & _).
  eauto.
Defined.
