(* ===== verification/LiveGate.v ===== *)
(** [domain/live_gate.py] and the [LiveGateInput] of [domain.py]: every
    prerequisite of a real Spot order, and the fail-closed gate over them. *)
From S2P Require Import Prelude Domain.
Local Open Scope bool_scope.

Record LiveGateInput : Type := mk_gate_input {
  live_mode : bool; auto_mode : bool; allow_auto_live_orders : bool; confirm_live : bool;
  explicit_user_request : bool; api_valid : bool; account_status_valid : bool;
  server_time_valid : bool; exchange_info_valid : bool; price_filter_valid : bool;
  lot_size_valid : bool; notional_filter_valid : bool; tick_size_valid : bool;
  step_size_valid : bool; latest_spot_price_confirmed : bool; spread_acceptable : bool;
  slippage_acceptable : bool; balances_known : bool; inventory_known : bool;
  no_conflicting_open_orders : bool; latest_signal_exists : bool; signal_not_expired : bool;
  entry_not_missed : bool; backtest_approved : bool; walk_forward_approved : bool;
  tuning_report_approved : bool; oos_approved : bool; risk_approved : bool;
  strategy_promotion_approved : bool; daily_loss_limit_clear : bool; cooldown_clear : bool;
  circuit_breaker_clear : bool; decision_logged : bool; order_preview_created : bool;
  user_authorization_recorded : bool
}.

#[export] Instance LiveGateInput_eq_dec : EqDecision LiveGateInput.
Proof. solve_decision. Defined.

(** [LIVE_GATE_REQUIREMENTS]: the field names with their accessors. *)
Definition LIVE_GATE_REQUIREMENTS : list (string * (LiveGateInput -> bool)) :=
  [
    ("live_mode", live_mode); ("auto_mode", auto_mode);
    ("allow_auto_live_orders", allow_auto_live_orders); ("confirm_live", confirm_live);
    ("explicit_user_request", explicit_user_request); ("api_valid", api_valid);
    ("account_status_valid", account_status_valid); ("server_time_valid", server_time_valid);
    ("exchange_info_valid", exchange_info_valid); ("price_filter_valid", price_filter_valid);
    ("lot_size_valid", lot_size_valid); ("notional_filter_valid", notional_filter_valid);
    ("tick_size_valid", tick_size_valid); ("step_size_valid", step_size_valid);
    ("latest_spot_price_confirmed", latest_spot_price_confirmed);
    ("spread_acceptable", spread_acceptable); ("slippage_acceptable", slippage_acceptable);
    ("balances_known", balances_known); ("inventory_known", inventory_known);
    ("no_conflicting_open_orders", no_conflicting_open_orders);
    ("latest_signal_exists", latest_signal_exists); ("signal_not_expired", signal_not_expired);
    ("entry_not_missed", entry_not_missed); ("backtest_approved", backtest_approved);
    ("walk_forward_approved", walk_forward_approved);
    ("tuning_report_approved", tuning_report_approved); ("oos_approved", oos_approved);
    ("risk_approved", risk_approved);
    ("strategy_promotion_approved", strategy_promotion_approved);
    ("daily_loss_limit_clear", daily_loss_limit_clear); ("cooldown_clear", cooldown_clear);
    ("circuit_breaker_clear", circuit_breaker_clear); ("decision_logged", decision_logged);
    ("order_preview_created", order_preview_created);
    ("user_authorization_recorded", user_authorization_recorded)
  ].

Record LiveGateResult : Type := mk_gate_result {
  gate_status : ExecutionStatus;
  gate_blockers : list string
}.

(** [evaluate_live_gate] *)
Definition evaluate_live_gate (gate_input : LiveGateInput) : LiveGateResult :=
  let blockers := map fst (List.filter (fun r => negb (snd r gate_input)) LIVE_GATE_REQUIREMENTS) in
  mk_gate_result (if is_nil blockers then EXECUTION_ALLOWED else EXECUTION_BLOCKED) blockers.

(** [replace(gate_input, backtest_approved=..., ...)]: the five fields that
    only validation evidence may set. *)
Definition with_evidence (bt wf tuning oos promotion : bool) (g : LiveGateInput) : LiveGateInput :=
  mk_gate_input
    (live_mode g) (auto_mode g) (allow_auto_live_orders g) (confirm_live g)
    (explicit_user_request g) (api_valid g) (account_status_valid g) (server_time_valid g)
    (exchange_info_valid g) (price_filter_valid g) (lot_size_valid g) (notional_filter_valid g)
    (tick_size_valid g) (step_size_valid g) (latest_spot_price_confirmed g)
    (spread_acceptable g) (slippage_acceptable g) (balances_known g) (inventory_known g)
    (no_conflicting_open_orders g) (latest_signal_exists g) (signal_not_expired g)
    (entry_not_missed g) bt wf tuning oos (risk_approved g) promotion
    (daily_loss_limit_clear g) (cooldown_clear g) (circuit_breaker_clear g) (decision_logged g)
    (order_preview_created g) (user_authorization_recorded g).

(** ** Facts *)

Lemma filter_nil_forallb {A} (f : A -> bool) l :
  List.filter (fun x => negb (f x)) l = [] <-> forallb f l = true.
Proof.
  induction l as [|x l IH]; simpl; [done|]. destruct (f x); simpl; [exact IH|]. split; done.
Qed.

(** The gate is open when every requirement holds. *)
Definition all_met (g : LiveGateInput) : bool :=
  forallb (fun r => snd r g) LIVE_GATE_REQUIREMENTS.

Lemma gate_open g : gate_status (evaluate_live_gate g) = EXECUTION_ALLOWED <-> all_met g = true.
Proof.
  unfold evaluate_live_gate, all_met. cbv zeta. cbn [gate_status].
  rewrite <- filter_nil_forallb. destruct (List.filter _ _); simpl; split; done.
Qed.

Lemma gate_blockers_nil g : gate_blockers (evaluate_live_gate g) = [] <-> all_met g = true.
Proof.
  unfold evaluate_live_gate, all_met. cbv zeta. cbn [gate_blockers].
  rewrite <- filter_nil_forallb. destruct (List.filter _ _); simpl; split; done.
Qed.

Lemma all_met_In g r : all_met g = true -> In r LIVE_GATE_REQUIREMENTS -> snd r g = true.
Proof. unfold all_met. rewrite forallb_forall. auto. Qed.

Lemma with_evidence_eval bt wf t o p g :
  let g' := with_evidence bt wf t o p g in
  backtest_approved g' = bt /\ walk_forward_approved g' = wf /\ tuning_report_approved g' = t /\
  oos_approved g' = o /\ strategy_promotion_approved g' = p.
Proof. repeat split. Qed.

Lemma with_evidence_all_met bt wf t o p g :
  all_met (with_evidence bt wf t o p g) = true -> bt && wf && t && o && p = true.
Proof.
  intros H. destruct (with_evidence_eval bt wf t o p g) as (E1 & E2 & E3 & E4 & E5).
  rewrite <- E1, <- E2, <- E3, <- E4, <- E5 at 1.
  unfold all_met in H. rewrite forallb_forall in H.
  rewrite !andb_true_iff. repeat split.
  - apply (H ("backtest_approved", backtest_approved)). simpl. tauto.
  - apply (H ("walk_forward_approved", walk_forward_approved)). simpl. tauto.
  - apply (H ("tuning_report_approved", tuning_report_approved)). simpl. tauto.
  - apply (H ("oos_approved", oos_approved)). simpl. tauto.
  - apply (H ("strategy_promotion_approved", strategy_promotion_approved)). simpl. tauto.
Qed.

(** ** Properties *)

(** C12: the live gate is exact and fail-closed.  The gate allows execution if
    and only if all thirty-five prerequisites are true; otherwise its blockers
    are precisely the names of the prerequisites that are not, each once, and the
    status is LIVE_ORDER_BLOCKED. *)
Theorem live_gate_exact g :
  (gate_status (evaluate_live_gate g) = EXECUTION_ALLOWED <->
     forall name field, In (name, field) LIVE_GATE_REQUIREMENTS -> field g = true) /\
  (gate_status (evaluate_live_gate g) <> EXECUTION_ALLOWED ->
     gate_status (evaluate_live_gate g) = EXECUTION_BLOCKED) /\
  (forall name, In name (gate_blockers (evaluate_live_gate g)) <->
     exists field, In (name, field) LIVE_GATE_REQUIREMENTS /\ field g = false) /\
  List.NoDup (gate_blockers (evaluate_live_gate g)) /\
  length LIVE_GATE_REQUIREMENTS = 35%nat.
Proof.
  split; [|split; [|split; [|split]]].
  - rewrite gate_open. unfold all_met. rewrite forallb_forall. split.
    + intros H n f Hin. exact (H (n, f) Hin).
    + intros H [n f] Hin. exact (H n f Hin).
  - unfold evaluate_live_gate. cbv zeta. cbn [gate_status]. destruct (is_nil _); done.
  - intros name. unfold evaluate_live_gate. cbv zeta. cbn [gate_blockers]. rewrite in_map_iff. split.
    + intros ([n f] & <- & H). apply filter_In in H as [H1 H2]. exists f.
      by apply negb_true_iff in H2.
    + intros (f & H1 & H2). exists (name, f). split; [done|]. apply filter_In.
      split; [done|]. by apply negb_true_iff.
  - unfold evaluate_live_gate. cbv zeta. cbn [gate_blockers].
    assert (forall l : list (string * (LiveGateInput -> bool)), List.NoDup (map fst l) ->
      List.NoDup (map fst (List.filter (fun r => negb (snd r g)) l))) as Hs.
    { induction l as [|r l IH]; simpl; [auto|]. intros [Hn Hl]%NoDup_cons_iff.
      destruct (snd r g); simpl; [auto|]. constructor; [|auto].
      intros Hin. apply Hn. apply in_map_iff in Hin as (x & E & Hx). apply in_map_iff.
      exists x. split; [done|]. by apply filter_In in Hx as [? _]. }
    apply Hs, NoDup_ListNoDup. apply (bool_decide_unpack (NoDup (map fst LIVE_GATE_REQUIREMENTS))). vm_compute. exact I.
  - reflexivity.
Qed.
