(* ===== verification/PromotionEvidence.v ===== *)
(** [domain/promotion_evidence.py] and the registry of
    [validation/promotion_evidence.py]: which promotion status the current,
    exact-bound evidence of a strategy supports.  The file the records are
    kept in is modelled in [PromotionLedger]. *)
From S2P Require Import Prelude Domain.
Local Open Scope Z_scope.
Local Open Scope bool_scope.

(** ** The exact subject of the evidence *)

Record ExactPromotionIdentity : Type := mk_identity {
  strategy_id : string;
  strategy_version : string;
  strategy_sha256 : string;
  id_symbol : string;
  id_market_type : string;
  timeframe : string;
  parameter_set_sha256 : string;
  dataset_sha256 : string;
  code_revision : string
}.

#[export] Instance identity_eq_dec : EqDecision ExactPromotionIdentity.
Proof. solve_decision. Defined.

Definition MARKETS : list string := ["SPOT"; "USD_M_FUTURES"].

(** [_CODE_REVISION_PATTERN]: 40 or 64 lower-case hexadecimal digits. *)
Definition is_code_revision (s : string) : bool :=
  ((str_len s =? 40) || (str_len s =? 64)) && forallb is_hex_lower (list_ascii_of_string s).

(** [_normalize_exact_identity] *)
Definition _normalize_exact_identity (i : ExactPromotionIdentity) : res ExactPromotionIdentity :=
  raise_if (blank (strategy_id i)) (ValueError "promotion strategy_id is required");;
  raise_if (blank (strategy_version i)) (ValueError "promotion strategy_version is required");;
  raise_if (blank (timeframe i)) (ValueError "promotion timeframe is required");;
  let symbol := normalize (id_symbol i) in
  raise_if (negb (isascii symbol) || negb (isalnum symbol))
    (ValueError "promotion symbol identity is invalid");;
  let market := normalize (id_market_type i) in
  raise_if (negb (str_in market MARKETS)) (ValueError "promotion market type is invalid");;
  raise_if (negb (is_sha256_text (strategy_sha256 i)))
    (ValueError "promotion strategy_sha256 is invalid");;
  raise_if (negb (is_sha256_text (parameter_set_sha256 i)))
    (ValueError "promotion parameter_set_sha256 is invalid");;
  raise_if (negb (is_sha256_text (dataset_sha256 i)))
    (ValueError "promotion dataset_sha256 is invalid");;
  raise_if (negb (is_code_revision (code_revision i)))
    (ValueError "promotion code revision is invalid");;
  mret (mk_identity (strip (strategy_id i)) (strip (strategy_version i)) (strategy_sha256 i) symbol
    market (strip (timeframe i)) (parameter_set_sha256 i) (dataset_sha256 i) (code_revision i)).

Definition _require_aware (value : datetime) (label : string) : res unit :=
  raise_if (naive value) (ValueError (label ++ " must be timezone-aware")).

(** A query; its [subject_key] is the identity without [as_of]. *)
Record PromotionEvidenceQuery : Type := mk_query {
  subject_key : ExactPromotionIdentity;
  as_of : datetime
}.

(** [PromotionEvidenceQuery(...)] with [__post_init__] *)
Definition new_query (i : ExactPromotionIdentity) (at_ : datetime) : res PromotionEvidenceQuery :=
  i ← _normalize_exact_identity i;
  _require_aware at_ "promotion query as_of";;
  mret (mk_query i at_).

(** ** Records *)

Inductive PromotionEvidenceSourceKind : Type :=
| VALIDATION_SUMMARY | VALIDATION_LEDGER | MANUAL_REVIEW | GOVERNED_ARTIFACT.
#[export] Instance source_kind_eq_dec : EqDecision PromotionEvidenceSourceKind.
Proof. solve_decision. Defined.

Record PromotionEvidenceRecord : Type := mk_record {
  evidence_id : string;
  rec_symbol : string;
  source_kind : PromotionEvidenceSourceKind;
  source_ref : string;
  observed_at : datetime;
  promotion_status : ValidationStatus;
  rec_timeframe : option string;
  blockers : list string;
  rec_strategy_id : option string;
  rec_strategy_version : option string;
  rec_strategy_sha256 : option string;
  rec_market_type : option string;
  rec_parameter_set_sha256 : option string;
  rec_dataset_sha256 : option string;
  rec_code_revision : option string;
  expires_at : option datetime;
  revoked_at : option datetime
}.

(** [PromotionEvidenceRecord.exact_subject_key] *)
Definition exact_subject_key (r : PromotionEvidenceRecord) : option ExactPromotionIdentity :=
  match rec_strategy_id r, rec_strategy_version r, rec_strategy_sha256 r, rec_market_type r,
        rec_timeframe r, rec_parameter_set_sha256 r, rec_dataset_sha256 r, rec_code_revision r with
  | Some sid, Some ver, Some sha, Some market, Some tf, Some param, Some data, Some code =>
      Some (mk_identity sid ver sha (rec_symbol r) market tf param data code)
  | _, _, _, _, _, _, _, _ => None
  end.

Definition is_exact_bound (r : PromotionEvidenceRecord) : bool :=
  match exact_subject_key r with Some _ => true | None => false end.

(** The seven values that must be given together. *)
Definition exact_values (r : PromotionEvidenceRecord) : list (option string) :=
  [rec_strategy_id r; rec_strategy_version r; rec_strategy_sha256 r; rec_market_type r;
   rec_parameter_set_sha256 r; rec_dataset_sha256 r; rec_code_revision r].

Definition given (o : option string) : bool := match o with Some _ => true | None => false end.

Definition allowed_status (s : ValidationStatus) : bool :=
  match s with
  | RESEARCH_ONLY | STAGED_CANDIDATE | PAPER_APPROVED | LIVE_ELIGIBLE => true
  | UNVALIDATED | REJECTED => false
  end.

(** The record with the normalised identity written back. *)
Definition with_identity (r : PromotionEvidenceRecord) (i : ExactPromotionIdentity)
  : PromotionEvidenceRecord :=
  mk_record (evidence_id r) (id_symbol i) (source_kind r) (source_ref r) (observed_at r)
    (promotion_status r) (Some (timeframe i)) (blockers r) (Some (strategy_id i))
    (Some (strategy_version i)) (Some (strategy_sha256 i)) (Some (id_market_type i))
    (Some (parameter_set_sha256 i)) (Some (dataset_sha256 i)) (Some (code_revision i))
    (expires_at r) (revoked_at r).

(** The record with the normalised symbol and timeframe. *)
Definition with_symbol (r : PromotionEvidenceRecord) : PromotionEvidenceRecord :=
  mk_record (evidence_id r) (normalize (rec_symbol r)) (source_kind r) (source_ref r)
    (observed_at r) (promotion_status r) (option_map strip (rec_timeframe r)) (blockers r)
    (rec_strategy_id r) (rec_strategy_version r) (rec_strategy_sha256 r) (rec_market_type r)
    (rec_parameter_set_sha256 r) (rec_dataset_sha256 r) (rec_code_revision r)
    (expires_at r) (revoked_at r).

(** The identity block of the constructor: all seven values or none. *)
Definition bind_identity (r : PromotionEvidenceRecord) : res PromotionEvidenceRecord :=
  if existsb given (exact_values r) then
    match exact_subject_key r with
    | Some i => i ← _normalize_exact_identity i; mret (with_identity r i)
    | None => Raise (ValueError "promotion evidence exact identity must be complete")
    end
  else Ok r.

(** The optional end dates: [expires_at] follows the observation, [revoked_at]
    does not precede it. *)
Definition check_expiry (r : PromotionEvidenceRecord) : res unit :=
  match expires_at r with
  | None => Ok tt
  | Some e => _require_aware e "promotion evidence expiry";;
      raise_if (dt_leb e (observed_at r)) (ValueError "promotion evidence expiry must follow observation")
  end.
Definition check_revocation (r : PromotionEvidenceRecord) : res unit :=
  match revoked_at r with
  | None => Ok tt
  | Some v => _require_aware v "promotion evidence revocation";;
      raise_if (dt_ltb v (observed_at r))
        (ValueError "promotion evidence revocation cannot predate observation")
  end.

Definition is_live_eligible (s : ValidationStatus) : bool := bool_decide (s = LIVE_ELIGIBLE).

(** [PromotionEvidenceRecord(...)] with [__post_init__] *)
Definition new_record (r : PromotionEvidenceRecord) (execution_allowed : bool) (live_status : string)
  : res PromotionEvidenceRecord :=
  raise_if (blank (evidence_id r) || blank (rec_symbol r) || blank (source_ref r))
    (ValueError "promotion evidence identity is required");;
  raise_if (match rec_timeframe r with Some t => blank t | None => false end)
    (ValueError "promotion evidence timeframe cannot be blank");;
  let r := with_symbol r in
  _require_aware (observed_at r) "promotion evidence timestamp";;
  raise_if (negb (allowed_status (promotion_status r)))
    (ValueError "promotion evidence status is invalid");;
  r ← bind_identity r;
  raise_if (is_live_eligible (promotion_status r) && negb (is_exact_bound r))
    (ValueError "live-eligible promotion evidence must be exact-bound");;
  raise_if (is_live_eligible (promotion_status r) && negb (bool_decide (source_kind r = GOVERNED_ARTIFACT)))
    (ValueError "live-eligible promotion requires a governed artifact");;
  check_expiry r;;
  check_revocation r;;
  raise_if (execution_allowed || negb (String.eqb live_status LIVE_ORDER_BLOCKED))
    (ValueError "promotion evidence cannot grant execution authority");;
  mret r.

(** ** The registry *)

(** [latest_at = max(...)] and the records observed at that instant. *)
Section Latest.
Context {A : Type} (at_ : A -> datetime).

Definition latest_instant (l : list A) : Z :=
  match l with
  | [] => 0
  | x :: l' => fold_left (fun m y => Z.max m (instant (at_ y))) l' (instant (at_ x))
  end.

Definition latest (l : list A) : list A :=
  List.filter (fun x => instant (at_ x) =? latest_instant l) l.
End Latest.

Record PromotionEvidenceRegistry : Type := mk_registry {
  records : list PromotionEvidenceRecord;
  max_evidence_age : Z;
  future_tolerance : Z
}.

(** [PromotionEvidenceRegistry(...)] with [__post_init__] *)
Definition new_registry (rs : list PromotionEvidenceRecord) (age tolerance : Z)
  : res PromotionEvidenceRegistry :=
  raise_if (age <=? 0) (ValueError "promotion evidence age bound must be positive");;
  raise_if (tolerance <? 0) (ValueError "promotion future tolerance cannot be negative");;
  mret (mk_registry rs age tolerance).

Definition ended (o : option datetime) (at_ : datetime) : bool :=
  match o with Some e => dt_leb e at_ | None => false end.

(** [PromotionEvidenceRegistry._is_current] *)
Definition _is_current (g : PromotionEvidenceRegistry) (r : PromotionEvidenceRecord)
  (q : PromotionEvidenceQuery) : bool :=
  let age := dt_sub (as_of q) (observed_at r) in
  negb (negb (is_nil (blockers r)) || (age <? - future_tolerance g) || (max_evidence_age g <? age)
        || ended (expires_at r) (as_of q) || ended (revoked_at r) (as_of q)).

Definition matches (q : PromotionEvidenceQuery) (r : PromotionEvidenceRecord) : bool :=
  bool_decide (exact_subject_key r = Some (subject_key q)).

(** [PromotionEvidenceRegistry.resolve] *)
Definition resolve (g : PromotionEvidenceRegistry) (q : PromotionEvidenceQuery) : ValidationStatus :=
  match latest observed_at (List.filter (matches q) (records g)) with
  | [r] => if _is_current g r q then promotion_status r else RESEARCH_ONLY
  | _ => RESEARCH_ONLY
  end.

(** [PromotionEvidenceRegistry.has_promotion_evidence] *)
Definition has_promotion_evidence (g : PromotionEvidenceRegistry) (q : PromotionEvidenceQuery) : bool :=
  match resolve g q with STAGED_CANDIDATE | PAPER_APPROVED | LIVE_ELIGIBLE => true | _ => false end.

(** [PromotionEvidenceRegistry.with_record] *)
Definition with_record (g : PromotionEvidenceRegistry) (r : PromotionEvidenceRecord)
  : res PromotionEvidenceRegistry :=
  new_registry (records g ++ [r]) (max_evidence_age g) (future_tolerance g).

(** ** Facts *)

Lemma filter_single {A} (f : A -> bool) l r :
  List.filter f l = [r] <->
  exists l1 l2, l = l1 ++ r :: l2 /\ f r = true /\ forall x, In x (l1 ++ l2) -> f x = false.
Proof.
  split.
  - induction l as [|y l IH]; simpl; [done|]. destruct (f y) eqn:E.
    + intros [= -> H]. exists [], l. split; [done|]. split; [done|]. simpl. intros x Hx.
      destruct (f x) eqn:Ex; [|done]. exfalso.
      assert (In x (List.filter f l)) as Hin by by apply filter_In. by rewrite H in Hin.
    + intros (l1 & l2 & -> & Hr & Hx)%IH. exists (y :: l1), l2. split; [done|]. split; [done|].
      intros x [<-|Hin]; auto.
  - intros (l1 & l2 & -> & Hr & Hx). rewrite List.filter_app. simpl. rewrite Hr.
    assert (forall k, (forall x, In x k -> f x = false) -> List.filter f k = []) as Hn.
    { induction k as [|y k IH]; simpl; [done|]. intros H. rewrite (H y) by auto. auto. }
    rewrite !Hn; [done| |]; intros x ?; apply Hx, in_app_iff; auto.
Qed.

Section LatestFacts.
Context {A : Type} (at_ : A -> datetime).

Lemma fold_max_spec l : forall m,
  m <= fold_left (fun m y => Z.max m (instant (at_ y))) l m /\
  (forall x, In x l -> instant (at_ x) <= fold_left (fun m y => Z.max m (instant (at_ y))) l m) /\
  (fold_left (fun m y => Z.max m (instant (at_ y))) l m = m \/
   exists x, In x l /\ instant (at_ x) = fold_left (fun m y => Z.max m (instant (at_ y))) l m).
Proof.
  induction l as [|y l IH]; intros m; simpl; [split; [lia|]; split; [done|auto]|].
  destruct (IH (Z.max m (instant (at_ y)))) as (H1 & H2 & H3). split; [lia|]. split.
  - intros x [<-|Hx]; [lia|auto].
  - destruct H3 as [H3|(x & Hx & H3)]; [|eauto]. rewrite H3.
    destruct (Z.max_spec m (instant (at_ y))) as [[_ ->]|[_ ->]]; eauto.
Qed.

Lemma latest_instant_spec l x0 : In x0 l ->
  (forall x, In x l -> instant (at_ x) <= latest_instant at_ l) /\
  exists x, In x l /\ instant (at_ x) = latest_instant at_ l.
Proof.
  destruct l as [|y l]; [done|]. intros _. simpl.
  destruct (fold_max_spec l (instant (at_ y))) as (H1 & H2 & H3). split.
  - intros x [<-|Hx]; auto.
  - destruct H3 as [H3|(x & Hx & H3)]; [exists y; auto|exists x; auto].
Qed.

(** One latest record: it alone, among those the filter keeps, is newest. *)
Lemma latest_single (p : A -> bool) l r :
  latest at_ (List.filter p l) = [r] <->
  exists l1 l2, l = l1 ++ r :: l2 /\ p r = true /\
    forall x, In x (l1 ++ l2) -> p x = true -> instant (at_ x) < instant (at_ r).
Proof.
  unfold latest. set (m := latest_instant at_ (List.filter p l)).
  assert (List.filter (fun x => instant (at_ x) =? m) (List.filter p l)
          = List.filter (fun x => p x && (instant (at_ x) =? m)) l) as ->.
  { generalize m. clear m. intros m. induction l as [|y l IH]; simpl; [done|].
    destruct (p y); simpl; [|done]. destruct (instant (at_ y) =? m); by rewrite IH. }
  rewrite filter_single. split; intros (l1 & l2 & Hl & Hr & Hx); exists l1, l2; (split; [done|]).
  - apply andb_true_iff in Hr as [Hr Hm]. split; [done|]. intros x Hin Hp. zify_bool.
    assert (In x (List.filter p l)) as Hf.
    { apply filter_In. split; [|done]. rewrite Hl. apply in_app_iff in Hin as [?|?];
      apply in_app_iff; simpl; auto. }
    specialize (Hx x Hin). rewrite Hp in Hx. simpl in Hx. zify_bool.
    pose proof (proj1 (latest_instant_spec _ _ Hf) x Hf). unfold m in *. lia.
  - assert (In r (List.filter p l)) as Hf.
    { apply filter_In. split; [|done]. rewrite Hl. apply in_app_iff. simpl. auto. }
    assert (instant (at_ r) = m) as Hm.
    { destruct (latest_instant_spec _ _ Hf) as [Hle (y & Hy & Ey)]. fold m in Hle, Ey.
      specialize (Hle r Hf). apply filter_In in Hy as [Hy Hpy]. rewrite Hl in Hy.
      apply in_app_iff in Hy as [Hy|[<-|Hy]]; [|lia|];
      specialize (Hx y); rewrite in_app_iff in Hx; specialize (Hx ltac:(auto) Hpy); lia. }
    split; [rewrite Hr; simpl; by apply Z.eqb_eq|].
    intros x Hin. destruct (p x) eqn:Ep; simpl; [|done]. specialize (Hx x Hin Ep).
    apply Z.eqb_neq. lia.
Qed.
End LatestFacts.

Lemma ended_false o t : ended o t = false <-> forall e, o = Some e -> instant t < instant e.
Proof.
  destruct o as [e|]; simpl; [|done]. unfold dt_leb. rewrite Z.leb_gt. split.
  - intros H x [= <-]. done.
  - intros H. by apply H.
Qed.

Lemma is_current_spec g r q : _is_current g r q = true <->
  blockers r = [] /\
  - future_tolerance g <= instant (as_of q) - instant (observed_at r) <= max_evidence_age g /\
  (forall e, expires_at r = Some e -> instant (as_of q) < instant e) /\
  (forall v, revoked_at r = Some v -> instant (as_of q) < instant v).
Proof.
  unfold _is_current. cbv zeta. rewrite negb_true_iff, !orb_false_iff, negb_false_iff, is_nil_true,
    !ended_false, !Z.ltb_ge. unfold dt_sub. tauto.
Qed.

Lemma new_record_live r x l r' : new_record r x l = Ok r' ->
  x = false /\ l = LIVE_ORDER_BLOCKED /\
  (promotion_status r' = LIVE_ELIGIBLE ->
   source_kind r' = GOVERNED_ARTIFACT /\ is_exact_bound r' = true).
Proof.
  unfold new_record. cbv zeta. intros H.
  apply bind_Ok in H as (? & _ & H). apply bind_Ok in H as (? & _ & H).
  apply bind_Ok in H as (? & _ & H). apply bind_Ok in H as (? & _ & H).
  apply bind_Ok in H as (r1 & _ & H). apply bind_Ok in H as (? & H1 & H).
  apply bind_Ok in H as (? & H2 & H). apply bind_Ok in H as (? & _ & H).
  apply bind_Ok in H as (? & _ & H). apply bind_Ok in H as (? & H3 & H).
  apply mret_Ok in H. subst r'. apply raise_if_Ok in H1, H2, H3.
  apply orb_false_iff in H3 as [-> H3]. apply negb_false_iff, String.eqb_eq in H3.
  split; [done|]. split; [done|]. intros E. unfold is_live_eligible in H1, H2.
  rewrite bool_decide_eq_true_2 in H1, H2 by done. cbn [andb] in H1, H2.
  apply negb_false_iff in H1, H2. by apply bool_decide_eq_true in H2.
Qed.

(** ** Properties *)

(** Promotion is exact.  The registry answers a status other than
    RESEARCH_ONLY if and only if one record alone is the newest of those bound to
    exactly the queried subject (all nine identity fields), that record has no
    blockers, is neither older than the age bound nor further in the future than
    the tolerance, has not expired or been revoked by the query time, and carries
    that status. *)
Theorem promotion_resolve_exact g q s :
  s <> RESEARCH_ONLY ->
  resolve g q = s <->
  exists l1 r l2, records g = l1 ++ r :: l2 /\ exact_subject_key r = Some (subject_key q) /\
    (forall x, In x (l1 ++ l2) -> exact_subject_key x = Some (subject_key q) ->
       instant (observed_at x) < instant (observed_at r)) /\
    promotion_status r = s /\ blockers r = [] /\
    - future_tolerance g <= instant (as_of q) - instant (observed_at r) <= max_evidence_age g /\
    (forall e, expires_at r = Some e -> instant (as_of q) < instant e) /\
    (forall v, revoked_at r = Some v -> instant (as_of q) < instant v).
Proof.
  intros Hs. unfold resolve. split.
  - destruct (latest _ _) as [|r [|? ?]] eqn:E; [congruence| |congruence].
    apply latest_single in E as (l1 & l2 & Hl & Hr & Hx). unfold matches in Hr, Hx.
    apply bool_decide_eq_true in Hr. setoid_rewrite bool_decide_eq_true in Hx.
    destruct (_is_current g r q) eqn:Ec; [|congruence]. apply is_current_spec in Ec. intros E.
    exists l1, r, l2. tauto.
  - intros (l1 & r & l2 & Hl & Hr & Hx & Hp & Hc).
    assert (latest observed_at (List.filter (matches q) (records g)) = [r]) as ->.
    { apply latest_single. exists l1, l2. unfold matches. rewrite bool_decide_eq_true.
      setoid_rewrite bool_decide_eq_true. auto. }
    apply is_current_spec in Hc. by rewrite Hc.
Qed.

(** ** Witnesses *)

Definition ex_hex : string := string_of_list_ascii (repeat "a"%char 64).
Definition ex_identity : ExactPromotionIdentity :=
  mk_identity "strategy-1" "1" ex_hex "BTCUSDT" "SPOT" "1h" ex_hex ex_hex ex_hex.
Definition ex_raw (status : ValidationStatus) (at_ : Z) (revoked : option datetime) : PromotionEvidenceRecord :=
  mk_record "evidence-1" " btcusdt" GOVERNED_ARTIFACT "artifact" (utc (seconds at_)) status (Some "1h") []
    (Some "strategy-1") (Some "1") (Some ex_hex) (Some "spot") (Some ex_hex) (Some ex_hex)
    (Some ex_hex) None revoked.
Definition ex_record (status : ValidationStatus) (at_ : Z) (revoked : option datetime) : PromotionEvidenceRecord :=
  match new_record (ex_raw status at_ revoked) false LIVE_ORDER_BLOCKED with
  | Ok r => r | Raise _ => ex_raw RESEARCH_ONLY 0 None
  end.
Definition ex_registry : PromotionEvidenceRegistry := Eval vm_compute in
  mk_registry [ex_record PAPER_APPROVED 10 None; ex_record LIVE_ELIGIBLE 20 None] (seconds 1000) 0.
Definition ex_query : PromotionEvidenceQuery := Eval vm_compute in
  mk_query ex_identity (utc (seconds 30)).

(** A revoked approval, an ambiguous pair and an older approval do not count. *)
Example ex_resolve : resolve ex_registry ex_query = LIVE_ELIGIBLE /\
  resolve (mk_registry [ex_record LIVE_ELIGIBLE 20 (Some (utc (seconds 25)))] (seconds 1000) 0) ex_query
    = RESEARCH_ONLY /\
  resolve (mk_registry [ex_record LIVE_ELIGIBLE 20 None; ex_record LIVE_ELIGIBLE 20 None] (seconds 1000) 0)
    ex_query = RESEARCH_ONLY.
Proof. vm_compute. split; [|split]; reflexivity. Qed.

Lemma promotion_resolve_exact_witness :
  exists l1 r l2, records ex_registry = l1 ++ r :: l2 /\ promotion_status r = LIVE_ELIGIBLE.
Proof.
  destruct (proj1 (promotion_resolve_exact ex_registry ex_query LIVE_ELIGIBLE ltac:(discriminate))
    ltac:(vm_compute; reflexivity)) as (l1 & r & l2 & H1 & _ & _ & H2 & _). eauto.
Defined.
