(* ===== verification/PromotionLedger.v ===== *)
(** The rest of [validation/promotion_evidence.py]: the append-only ledger of
    promotion evidence, a plain JSON-lines audit store, the decoding of its
    records, and the registry made from a validation summary. *)
From S2P Require Import Prelude PyDecimal DecimalFacts DecimalText Sha256 PyText JsonText IsoTime Serialize.
From S2P Require Import AuditLog Domain PromotionEvidence.
From stdpp Require Import gmap strings.
Local Open Scope Z_scope.
Local Open Scope bool_scope.

#[export, refine] Instance ValidationStatus_enum : StrEnum ValidationStatus := {
  members := [UNVALIDATED; RESEARCH_ONLY; STAGED_CANDIDATE; PAPER_APPROVED; LIVE_ELIGIBLE; REJECTED];
  enum_text a := match a with
    | UNVALIDATED => "UNVALIDATED" | RESEARCH_ONLY => "RESEARCH_ONLY" | STAGED_CANDIDATE => "STAGED_CANDIDATE"
    | PAPER_APPROVED => "PAPER_APPROVED" | LIVE_ELIGIBLE => "LIVE_ELIGIBLE" | REJECTED => "REJECTED"
    end
}.
Proof. all: solve_enum. Defined.

#[export, refine] Instance SourceKind_enum : StrEnum PromotionEvidenceSourceKind := {
  members := [VALIDATION_SUMMARY; VALIDATION_LEDGER; MANUAL_REVIEW; GOVERNED_ARTIFACT];
  enum_text a := match a with
    | VALIDATION_SUMMARY => "VALIDATION_SUMMARY" | VALIDATION_LEDGER => "VALIDATION_LEDGER"
    | MANUAL_REVIEW => "MANUAL_REVIEW" | GOVERNED_ARTIFACT => "GOVERNED_ARTIFACT"
    end
}.
Proof. all: solve_enum. Defined.

(** [Enum(str(payload[key]))] *)
Definition enum_field {A} `{StrEnum A} (key : string) (fields : list (string * json)) : res A :=
  s ← text_field key fields;
  match enum_parse s with Some a => Ok a | None => Raise (ValueError "is not a valid member") end.

(** ** Writing *)

Definition opt_value {A} (f : A -> pyval) (o : option A) : pyval := match o with Some a => f a | None => VNone end.

(** The record's fields in order, as [to_primitive] walks them. *)
Definition record_value (r : PromotionEvidenceRecord) : pyval :=
  VData [ ("evidence_id", VStr (evidence_id r)); ("symbol", VStr (rec_symbol r));
    ("source_kind", VStr (enum_text (source_kind r))); ("source_ref", VStr (source_ref r));
    ("observed_at", VDatetime (observed_at r)); ("promotion_status", VStr (enum_text (promotion_status r)));
    ("timeframe", opt_value VStr (rec_timeframe r)); ("blockers", VList (map VStr (blockers r)));
    ("strategy_id", opt_value VStr (rec_strategy_id r)); ("strategy_version", opt_value VStr (rec_strategy_version r));
    ("strategy_sha256", opt_value VStr (rec_strategy_sha256 r)); ("market_type", opt_value VStr (rec_market_type r));
    ("parameter_set_sha256", opt_value VStr (rec_parameter_set_sha256 r));
    ("dataset_sha256", opt_value VStr (rec_dataset_sha256 r)); ("code_revision", opt_value VStr (rec_code_revision r));
    ("expires_at", opt_value VDatetime (expires_at r)); ("revoked_at", opt_value VDatetime (revoked_at r));
    ("execution_allowed", VBool false); ("live_eligibility_status", VStr LIVE_ORDER_BLOCKED) ].

(** Primitives as values again. *)
Fixpoint of_json (j : json) : pyval :=
  match j with
  | JNull => VNone
  | JBool b => VBool b
  | JInt n => VInt n
  | JStr s => VStr s
  | JList l => VList (map of_json l)
  | JObj l => VMap (map (fun kv => (kv.1, of_json kv.2)) l)
  end.

(** [JsonlAuditStore(self.path, durable=True)] *)
Definition ledger_store (p : string) : JsonlAuditStore := mk_store p true false (8 * 1024 * 1024) None None.

Definition ledger_event (r : PromotionEvidenceRecord) (record : json) : AuditEvent :=
  mk_audit_event "PROMOTION_EVIDENCE_RECORDED" (observed_at r) [("record", of_json record)] None "1.0".

(** [PromotionEvidenceLedger.append] *)
Definition ledger_append (p : string) (r : PromotionEvidenceRecord) (out : AuditLog.write_outcome) : method files unit :=
  record ← lift (to_primitive (record_value r));
  event ← lift (new_audit_event (ledger_event r record));
  append_verified (ledger_store p) event out;;
  mret tt.

(** ** Reading *)

(** [_optional_text] *)
Definition _optional_text (fields : list (string * json)) (key : string) : option string :=
  match get_field key fields with JNull => None | j => Some (py_str j) end.

(** [_optional_datetime] *)
Definition _optional_datetime (fields : list (string * json)) (key : string) : res (option datetime) :=
  match get_field key fields with JNull => mret None | j => Some <$> fromisoformat (py_str j) end.

(** [tuple(str(item) for item in payload.get("blockers", ()))] *)
Definition ledger_blockers (fields : list (string * json)) : res (list string) :=
  match dict_get String.eqb "blockers" fields with
  | None => mret []
  | Some (JList l) => mret (map py_str l)
  | Some (JStr s) => mret (map (fun c => String c EmptyString) (list_ascii_of_string s))
  | Some (JObj l) => mret (map fst l)
  | Some _ => Raise TypeError
  end.

(** [_record_from_payload] *)
Definition _record_from_payload (p : list (string * json)) : res PromotionEvidenceRecord :=
  evidence_id ← text_field "evidence_id" p;
  symbol ← text_field "symbol" p;
  source_kind ← enum_field "source_kind" p;
  source_ref ← text_field "source_ref" p;
  observed_at ← (text_field "observed_at" p ≫= fromisoformat);
  promotion_status ← enum_field "promotion_status" p;
  let timeframe := _optional_text p "timeframe" in
  blockers ← ledger_blockers p;
  let text := _optional_text p in
  expires_at ← _optional_datetime p "expires_at";
  revoked_at ← _optional_datetime p "revoked_at";
  new_record (mk_record evidence_id symbol source_kind source_ref observed_at promotion_status timeframe blockers
      (text "strategy_id") (text "strategy_version") (text "strategy_sha256") (text "market_type")
      (text "parameter_set_sha256") (text "dataset_sha256") (text "code_revision") expires_at revoked_at)
    (match dict_get String.eqb "execution_allowed" p with Some v => truthy v | None => false end)
    (match dict_get String.eqb "live_eligibility_status" p with Some v => py_str v | None => LIVE_ORDER_BLOCKED end).

(** The record of one decoded line; other lines are skipped. *)
Definition record_of_line (j : json) : option (list (string * json)) :=
  match j with
  | JObj payload =>
      match get_field "payload" payload with
      | JObj raw => match get_field "record" raw with JObj record => Some record | _ => None end
      | _ => None
      end
  | _ => None
  end.

Fixpoint records_of_lines (lines : list (list ascii)) : res (list PromotionEvidenceRecord) :=
  match lines with
  | [] => mret []
  | line :: lines =>
      if forallb is_space line then records_of_lines lines
      else
        j ← loads line;
        match record_of_line j with
        | Some record => r ← _record_from_payload record; rs ← records_of_lines lines; mret (r :: rs)
        | None => records_of_lines lines
        end
  end.

(** [PromotionEvidenceLedger.records] *)
Definition ledger_records (p : string) (fs : files) : res (list PromotionEvidenceRecord) :=
  match fs !! p with
  | None => mret []
  | Some text => records_of_lines (str_lines text)
  end.

Definition DEFAULT_MAX_EVIDENCE_AGE : Z := seconds (90 * 86400).
Definition DEFAULT_FUTURE_TOLERANCE : Z := seconds 300.

(** [PromotionEvidenceRegistry.from_records] *)
Definition from_records (rs : list PromotionEvidenceRecord) : res PromotionEvidenceRegistry :=
  new_registry rs DEFAULT_MAX_EVIDENCE_AGE DEFAULT_FUTURE_TOLERANCE.

(** [PromotionEvidenceLedger.as_registry] *)
Definition as_registry (p : string) (fs : files) : res PromotionEvidenceRegistry :=
  ledger_records p fs ≫= from_records.

(** [PromotionEvidenceLedger.append_if_absent] *)
Definition append_if_absent (p : string) (r : PromotionEvidenceRecord) (out : AuditLog.write_outcome) : method files bool :=
  fs ← get;
  existing ← lift (ledger_records p fs);
  if existsb (fun x => String.eqb (evidence_id x) (evidence_id r)) existing then mret false
  else ledger_append p r out;; mret true.

(** ** The registry of a validation summary *)

(** The fields of [ValidationRunSummary] that the registry reads. *)
Record ValidationRunSummary : Type := mk_run {
  run_timeframe : string; run_id : string; run_promotion_status : string; run_blockers : list string;
  run_created_at : string
}.

Record ValidationSummary : Type := mk_summary { summary_symbol : string; runs : list ValidationRunSummary }.

Definition record_of_run (symbol : string) (run : ValidationRunSummary) : res PromotionEvidenceRecord :=
  observed_at ← fromisoformat (run_created_at run);
  status ← match enum_parse (run_promotion_status run) with
           | Some s => Ok s | None => Raise (ValueError "is not a valid ValidationStatus") end;
  new_record (mk_record (symbol ++ ":" ++ run_timeframe run ++ ":" ++ run_id run) symbol VALIDATION_SUMMARY
      (run_id run) observed_at status (Some (run_timeframe run)) (run_blockers run)
      None None None None None None None None None) false LIVE_ORDER_BLOCKED.

(** [PromotionEvidenceRegistry.from_validation_summary] *)
Definition from_validation_summary (s : ValidationSummary) : res PromotionEvidenceRegistry :=
  rs ← mapM (record_of_run (summary_symbol s)) (runs s);
  from_records rs.

(** ** Facts *)

(** A validation summary promotes nothing.  The registry made from one
    answers RESEARCH_ONLY to every query, whatever statuses its runs claim: its
    records name no strategy, so none is bound to an exact subject. *)
Theorem summary_never_promotes s g q : from_validation_summary s = Ok g ->
  resolve g q = RESEARCH_ONLY /\ has_promotion_evidence g q = false.
Proof.
  intros H. apply bind_Ok in H as (rs & Hm & H).
  unfold from_records, new_registry in H. apply bind_Ok in H as (? & _ & H). apply bind_Ok in H as (? & _ & H).
  apply mret_Ok in H. subst g. apply mapM_Ok in Hm.
  assert (List.filter (matches q) rs = []) as E.
  { clear - Hm. induction Hm as [|run r l k Hr _ IH]; [done|]. cbn [List.filter].
    assert (matches q r = false) as ->; [|exact IH].
    unfold record_of_run in Hr. apply bind_Ok in Hr as (at_ & _ & Hr). apply bind_Ok in Hr as (st & _ & Hr).
    unfold new_record in Hr. cbv zeta in Hr. do 4 (apply bind_Ok in Hr as (? & _ & Hr)).
    apply bind_Ok in Hr as (r1 & Hb & Hr). cbn in Hb. injection Hb as <-.
    do 5 (apply bind_Ok in Hr as (? & _ & Hr)). apply mret_Ok in Hr. subst r. done. }
  unfold has_promotion_evidence, resolve. cbn [records]. rewrite E. done.
Qed.

(** ** A record on its way to a line *)

Definition opt_time (o : option datetime) : json := opt_str (option_map isoformat o).

(** The primitives of a record, with their keys in order. *)
Definition record_items (r : PromotionEvidenceRecord) : list (string * json) :=
  [ ("blockers", JList (map JStr (blockers r))); ("code_revision", opt_str (rec_code_revision r));
    ("dataset_sha256", opt_str (rec_dataset_sha256 r)); ("evidence_id", JStr (evidence_id r));
    ("execution_allowed", JBool false); ("expires_at", opt_time (expires_at r));
    ("live_eligibility_status", JStr LIVE_ORDER_BLOCKED); ("market_type", opt_str (rec_market_type r));
    ("observed_at", JStr (isoformat (observed_at r))); ("parameter_set_sha256", opt_str (rec_parameter_set_sha256 r));
    ("promotion_status", JStr (enum_text (promotion_status r))); ("revoked_at", opt_time (revoked_at r));
    ("source_kind", JStr (enum_text (source_kind r))); ("source_ref", JStr (source_ref r));
    ("strategy_id", opt_str (rec_strategy_id r)); ("strategy_sha256", opt_str (rec_strategy_sha256 r));
    ("strategy_version", opt_str (rec_strategy_version r)); ("symbol", JStr (rec_symbol r));
    ("timeframe", opt_str (rec_timeframe r)) ].

(** In the order of the dataclass. *)
Definition record_primitive (r : PromotionEvidenceRecord) : json :=
  JObj [ ("evidence_id", JStr (evidence_id r)); ("symbol", JStr (rec_symbol r));
    ("source_kind", JStr (enum_text (source_kind r))); ("source_ref", JStr (source_ref r));
    ("observed_at", JStr (isoformat (observed_at r))); ("promotion_status", JStr (enum_text (promotion_status r)));
    ("timeframe", opt_str (rec_timeframe r)); ("blockers", JList (map JStr (blockers r)));
    ("strategy_id", opt_str (rec_strategy_id r)); ("strategy_version", opt_str (rec_strategy_version r));
    ("strategy_sha256", opt_str (rec_strategy_sha256 r)); ("market_type", opt_str (rec_market_type r));
    ("parameter_set_sha256", opt_str (rec_parameter_set_sha256 r));
    ("dataset_sha256", opt_str (rec_dataset_sha256 r)); ("code_revision", opt_str (rec_code_revision r));
    ("expires_at", opt_time (expires_at r)); ("revoked_at", opt_time (revoked_at r));
    ("execution_allowed", JBool false); ("live_eligibility_status", JStr LIVE_ORDER_BLOCKED) ].

Lemma opt_text_primitive o : to_primitive (opt_value VStr o) = Ok (opt_str o).
Proof. by destruct o. Qed.
Lemma opt_time_primitive o : to_primitive (opt_value VDatetime o) = Ok (opt_time o).
Proof. by destruct o. Qed.
Lemma opt_str_sorted o : sort_keys (opt_str o) = opt_str o.
Proof. by destruct o. Qed.
Lemma list_primitive l : to_primitive (VList (map VStr l)) = Ok (JList (map JStr l)).
Proof.
  change (to_primitive (VList (map VStr l))) with (js ← mapM to_primitive (map VStr l); mret (JList js)).
  assert (mapM to_primitive (map VStr l) = Ok (map JStr l)) as ->; [|done].
  induction l as [|s l IH]; [done|]. cbn [map mapM]. by rewrite IH.
Qed.
Lemma list_sorted l : sort_keys (JList (map JStr l)) = JList (map JStr l).
Proof. cbn [sort_keys]. f_equal. rewrite map_map. by apply map_ext. Qed.

Lemma record_to_primitive r : to_primitive (record_value r) = Ok (record_primitive r).
Proof.
  unfold record_value.
  change (to_primitive (VData ?l)) with (ps ← mapM (fun kv => j ← to_primitive kv.2; mret (kv.1, j)) l; mret (JObj ps)).
  cbn [mapM snd fst]. rewrite list_primitive, !opt_text_primitive, !opt_time_primitive. reflexivity.
Qed.

Lemma record_sorted r : sort_keys (record_primitive r) = JObj (record_items r).
Proof.
  unfold record_primitive, record_items.
  change (sort_keys (JObj ?l)) with (JObj (py_sorted key_leb (map (fun kv => (kv.1, sort_keys kv.2)) l))).
  cbn [map fst snd]. unfold opt_time. rewrite list_sorted, !opt_str_sorted. reflexivity.
Qed.

(** [to_primitive] of primitives sorts their keys. *)
Lemma of_json_primitive j : to_primitive (of_json j) = Ok (sort_keys j).
Proof.
  induction j as [|b|n|s|l IH|l IH] using json_nested_ind; try done.
  - cbn [of_json]. change (to_primitive (VList ?x)) with (js ← mapM to_primitive x; mret (JList js)).
    assert (mapM to_primitive (map of_json l) = Ok (map sort_keys l)) as ->; [|done].
    induction IH as [|x l Hx _ IHl]; [done|]. cbn [map mapM]. rewrite Hx, Ok_bind. by rewrite IHl.
  - cbn [of_json].
    change (to_primitive (VMap ?x)) with (ps ← mapM (fun kv : string * pyval => j ← to_primitive kv.2; mret (kv.1, j)) x;
      mret (JObj (py_sorted key_leb ps))).
    assert (mapM (fun kv : string * pyval => j ← to_primitive kv.2; mret (kv.1, j)) (map (fun kv => (kv.1, of_json kv.2)) l)
      = Ok (map (fun kv => (kv.1, sort_keys kv.2)) l)) as ->; [|done].
    induction IH as [|x l Hx _ IHl]; [done|]. cbn [map mapM fst snd]. rewrite Hx, Ok_bind.
    cbn [mret res_ret]. change (Ok ?a ≫= ?f) with (f a). by rewrite IHl.
Qed.

(** The event's body: the record is not touched by the redaction. *)
Definition ledger_body (r : PromotionEvidenceRecord) : json :=
  JObj (body_items (ledger_event r (record_primitive r)) (JObj [("record", JObj (record_items r))])).

Lemma redact_atom o : redact (opt_str o) = opt_str o.
Proof. by destruct o. Qed.
Lemma redact_list l : redact (JList (map JStr l)) = JList (map JStr l).
Proof. cbn [redact]. f_equal. rewrite map_map. by apply map_ext. Qed.

Lemma redact_record r : redact (JObj (record_items r)) = JObj (record_items r).
Proof.
  unfold record_items.
  change (redact (JObj ?l)) with (JObj (map (fun kv => (kv.1, if _is_sensitive kv.1 then JStr REDACTED else redact kv.2)) l)).
  cbn [map fst snd]. unfold opt_time. rewrite redact_list, !redact_atom. reflexivity.
Qed.

Lemma ledger_event_body r : body (ledger_event r (record_primitive r)) = Ok (ledger_body r).
Proof.
  unfold body. rewrite event_primitive. cbn [payload ledger_event].
  change (to_primitive (VMap [("record", of_json (record_primitive r))])) with
    (ps ← (y ← (j ← to_primitive (of_json (record_primitive r)); mret ("record", j)); mret [y]);
     mret (JObj (py_sorted key_leb ps))).
  rewrite of_json_primitive, record_sorted. cbn [mbind res_bind mret res_ret fmap res_fmap]. f_equal.
  unfold ledger_body, body_items. cbn [event_type timestamp snapshot_id schema_version ledger_event].
  rewrite <- (redact_record r) at 2. reflexivity.
Qed.

(** ** Appending and reading back *)

Definition opt_ascii (o : option string) : bool := match o with Some s => isascii s | None => true end.

(** Records the constructor returns, with ASCII texts and times of the calendar. *)
Record ledger_record_ok (r : PromotionEvidenceRecord) : Prop := mk_ledger_record_ok {
  led_built : new_record r false LIVE_ORDER_BLOCKED = Ok r;
  led_texts : forallb isascii ([evidence_id r; rec_symbol r; source_ref r] ++ blockers r) = true;
  led_options : forallb opt_ascii [rec_timeframe r; rec_strategy_id r; rec_strategy_version r; rec_strategy_sha256 r;
    rec_market_type r; rec_parameter_set_sha256 r; rec_dataset_sha256 r; rec_code_revision r] = true;
  led_times : forallb dt_valid (observed_at r :: option_list (expires_at r) ++ option_list (revoked_at r)) = true
}.

Lemma opt_str_ok o : opt_ascii o = true -> json_ok (opt_str o) = true.
Proof. by destruct o. Qed.
Lemma opt_time_ok o : json_ok (opt_time o) = true.
Proof. destruct o; [|done]. apply isoformat_ascii. Qed.
Lemma strings_ok l : forallb isascii l = true -> forallb json_ok (map JStr l) = true.
Proof. induction l as [|s l IH]; [done|]. cbn [forallb map]. intros [H1 H2]%andb_true_iff. cbn [json_ok]. by rewrite H1, IH. Qed.
Lemma status_text_ascii (s : ValidationStatus) : isascii (enum_text s) = true.
Proof. by destruct s. Qed.
Lemma source_text_ascii (s : PromotionEvidenceSourceKind) : isascii (enum_text s) = true.
Proof. by destruct s. Qed.

Lemma record_items_ok r : ledger_record_ok r -> json_ok (JObj (record_items r)) = true.
Proof.
  intros [_ Ht Ho _]. rewrite forallb_app, andb_true_iff in Ht. destruct Ht as [Ht Hb]. cbn [forallb] in Ht, Ho.
  rewrite !andb_true_iff in Ht. rewrite !andb_true_iff in Ho. destruct Ht as (A1 & A2 & A3 & _), Ho as (O1 & O2 & O3 & O4 & O5 & O6 & O7 & O8 & _).
  apply opt_str_ok in O1, O2, O3, O4, O5, O6, O7, O8.
  assert (json_ok (JList (map JStr (blockers r))) = true) as Hl by by apply strings_ok.
  unfold record_items.
  change (json_ok (JObj ?l)) with (forallb (fun kv => isascii kv.1 && json_ok kv.2) l && all_unique String.eqb (map fst l)).
  cbn [forallb fst snd]. rewrite O1, O2, O3, O4, O5, O6, O7, O8, Hl, !opt_time_ok. cbn [json_ok].
  rewrite A1, A2, A3, isoformat_ascii, status_text_ascii, source_text_ascii. reflexivity.
Qed.

Lemma ledger_body_ok r : ledger_record_ok r -> json_ok (ledger_body r) = true.
Proof.
  intros H. pose proof (record_items_ok r H) as Hr. unfold ledger_body, body_items.
  cbn [event_type timestamp snapshot_id schema_version ledger_event].
  change (json_ok (JObj ?l)) with (forallb (fun kv => isascii kv.1 && json_ok kv.2) l && all_unique String.eqb (map fst l)).
  cbn [forallb fst snd].
  assert (json_ok (JObj [("record", JObj (record_items r))]) = true) as ->.
  { change (json_ok (JObj [("record", JObj (record_items r))])) with
      (isascii "record" && json_ok (JObj (record_items r)) && true && true). by rewrite Hr. }
  cbn [json_ok]. rewrite isoformat_ascii. reflexivity.
Qed.

(** The line of a record. *)
Definition ledger_line (r : PromotionEvidenceRecord) : list ascii := dump_raw (sort_keys (ledger_body r)).

Lemma items_sorted r : ledger_record_ok r -> sort_keys (JObj (record_items r)) = JObj (record_items r).
Proof.
  intros H. rewrite <- record_sorted. apply sort_keys_idem.
  pose proof (record_items_ok r H) as Hr. rewrite <- record_sorted in Hr. clear H. revert Hr.
  unfold record_primitive, record_items. cbn [json_ok sort_keys]. intros Hr.
  apply andb_true_iff in Hr as [H1 H2]. rewrite (forallb_perm _ _ _ (py_sorted_perm _ _)) in H1.
  apply andb_true_iff. split; [|reflexivity].
  cbn [map forallb fst snd] in H1 |- *. unfold opt_time in *. rewrite !opt_str_sorted in H1.
  change (JList (map sort_keys (map JStr (blockers r)))) with (sort_keys (JList (map JStr (blockers r)))) in H1.
  rewrite list_sorted in H1. exact H1.
Qed.

Lemma ledger_line_loads r : ledger_record_ok r -> exists j, loads (ledger_line r) = Ok j /\
  record_of_line j = Some (record_items r).
Proof.
  intros H. exists (sort_keys (ledger_body r)). unfold ledger_line. rewrite <- (app_nil_r (dump_raw _)).
  rewrite loads_dump_raw by (done || by apply sort_keys_ok, ledger_body_ok). split; [done|].
  unfold ledger_body, body_items. cbn [event_type timestamp snapshot_id schema_version ledger_event opt_json].
  assert (sort_keys (JObj [("record", JObj (record_items r))]) = JObj [("record", JObj (record_items r))]) as E.
  { change (sort_keys (JObj [("record", JObj (record_items r))])) with (JObj [("record", sort_keys (JObj (record_items r)))]).
    by rewrite items_sorted. }
  change (sort_keys (JObj ?l)) with (JObj (py_sorted key_leb (map (fun kv => (kv.1, sort_keys kv.2)) l))).
  cbn [map fst snd]. rewrite E. reflexivity.
Qed.

Lemma optional_text_back p k o : get_field k p = opt_str o -> _optional_text p k = o.
Proof. unfold _optional_text. intros ->. by destruct o. Qed.

Lemma optional_time_back p k o : get_field k p = opt_time o -> forallb dt_valid (option_list o) = true ->
  _optional_datetime p k = Ok o.
Proof.
  unfold _optional_datetime. intros ->. destruct o as [d|]; [|done]. intros H.
  change (dt_valid d && true = true) in H. apply andb_true_iff in H as [H _].
  unfold opt_time. cbn [option_map opt_str py_str]. by rewrite fromisoformat_isoformat.
Qed.

Lemma record_items_back r : ledger_record_ok r -> _record_from_payload (record_items r) = Ok r.
Proof.
  intros [Hb _ _ Ht]. cbn [forallb] in Ht. rewrite forallb_app, !andb_true_iff in Ht. destruct Ht as (V1 & V2 & V3).
  unfold _record_from_payload. cbv zeta.
  rewrite (optional_time_back (record_items r) "expires_at" (expires_at r) eq_refl V2).
  rewrite (optional_time_back (record_items r) "revoked_at" (revoked_at r) eq_refl V3).
  rewrite (optional_text_back (record_items r) "timeframe" (rec_timeframe r) eq_refl),
    (optional_text_back (record_items r) "strategy_id" (rec_strategy_id r) eq_refl),
    (optional_text_back (record_items r) "strategy_version" (rec_strategy_version r) eq_refl),
    (optional_text_back (record_items r) "strategy_sha256" (rec_strategy_sha256 r) eq_refl),
    (optional_text_back (record_items r) "market_type" (rec_market_type r) eq_refl),
    (optional_text_back (record_items r) "parameter_set_sha256" (rec_parameter_set_sha256 r) eq_refl),
    (optional_text_back (record_items r) "dataset_sha256" (rec_dataset_sha256 r) eq_refl),
    (optional_text_back (record_items r) "code_revision" (rec_code_revision r) eq_refl).
  unfold enum_field, text_field, lookup, ledger_blockers, record_items.
  cbn -[new_record fromisoformat isoformat enum_parse enum_text].
  rewrite !enum_parse_text, !Ok_bind, (fromisoformat_isoformat _ V1), !Ok_bind.
  assert (map py_str (map JStr (blockers r)) = blockers r) as -> by (rewrite map_map; apply map_id).
  by destruct r.
Qed.

Lemma records_of_lines_app l k : records_of_lines (l ++ k) =
  rs ← records_of_lines l; ks ← records_of_lines k; mret (rs ++ ks).
Proof.
  induction l as [|x l IH]; cbn [app records_of_lines].
  - rewrite Ok_bind. by destruct (records_of_lines k).
  - destruct (forallb is_space x); [exact IH|]. destruct (loads x) as [j|e]; [|done]. rewrite !Ok_bind.
    destruct (record_of_line j) as [p|]; [|exact IH]. destruct (_record_from_payload p) as [r|e]; [|done].
    rewrite !Ok_bind, IH. destruct (records_of_lines l) as [rs|e]; [|done]. rewrite !Ok_bind.
    by destruct (records_of_lines k).
Qed.

Lemma line_not_space r : forallb is_space (ledger_line r) = false.
Proof. reflexivity. Qed.

Lemma records_snoc text r rs : ends_line text = true -> ledger_record_ok r -> records_of_lines (str_lines text) = Ok rs ->
  records_of_lines (str_lines (text ++ ledger_line r ++ [newline])) = Ok (rs ++ [r]).
Proof.
  intros He Hr Hrs. unfold str_lines. rewrite (str_lines_app (length text)) by (done || by left).
  unfold str_lines. change newline with (ascii_of_N 10). rewrite str_lines_line by apply dump_raw_unescaped.
  unfold str_lines in Hrs. rewrite records_of_lines_app, Hrs, Ok_bind. cbn [rev app records_of_lines].
  rewrite line_not_space. destruct (ledger_line_loads r Hr) as (j & -> & Hj). rewrite Ok_bind, Hj.
  by rewrite record_items_back.
Qed.

(** ** A verified append to a plain store *)

Lemma after_newline_ended text t : ends_line text = true -> plain_line t = true ->
  fst (after_newline (text ++ t)) = t.
Proof.
  intros He Ht. rewrite after_newline_app. unfold after_newline at 1.
  rewrite before_newline_plain by by rewrite plain_rev. rewrite rev_involutive.
  assert (exists f, after_newline text = ([], f)) as [f ->]; [|done].
  destruct text as [|c text _] using rev_ind; [by exists false|]. unfold ends_line in He. rewrite last_snoc in He.
  apply Ascii.eqb_eq in He. subst c. rewrite after_newline_app. by exists true.
Qed.

Definition text_of (p : string) (fs : files) : list ascii := default [] (fs !! p).

Lemma ledger_append_run p r fs : blank p = false -> ends_line (text_of p fs) = true -> ledger_record_ok r ->
  Z.of_nat (length (ledger_line r)) <= 8 * 1024 * 1024 ->
  ledger_append p r Written fs = (Ok tt, append_to p (ledger_line r ++ [newline]) fs).
Proof.
  intros Hp He Hr Hl. pose proof (ledger_body_ok r Hr) as Hj. unfold ledger_append.
  rewrite lift_bind, record_to_primitive, lift_bind.
  assert (new_audit_event (ledger_event r (record_primitive r)) = Ok (ledger_event r (record_primitive r))) as Hev.
  { unfold new_audit_event. cbn [event_type timestamp snapshot_id ledger_event].
    assert (naive (observed_at r) = false) as ->; [|reflexivity].
    destruct Hr as [Hb _ _ _]. unfold new_record in Hb. cbv zeta in Hb.
    apply bind_Ok in Hb as (? & _ & Hb). apply bind_Ok in Hb as (? & _ & Hb). apply bind_Ok in Hb as (? & Ha & _).
    unfold _require_aware in Ha. by apply raise_if_Ok in Ha. }
  rewrite Hev, method_bind_run. unfold append_verified. rewrite get_bind, lift_bind.
  unfold _chain_state_or_fail. cbn [_legacy_path ledger_store tamper_evident raise_if]. rewrite Ok_bind.
  cbn [mret res_ret catch]. unfold write_verified. rewrite lift_bind.
  assert (forall a b, _render (ledger_store p) (ledger_event r (record_primitive r)) a b = Ok (ledger_line r)) as ->.
  { intros a b. unfold _render. pose proof (ledger_event_body r) as Hb. unfold body in Hb.
    destruct (to_primitive (event_value _)) as [j|x]; [|done]. apply mret_Ok in Hb. rewrite Ok_bind, Hb.
    rewrite (json_ok_prints _ Hj). reflexivity. }
  destruct (ledger_line_loads r Hr) as (j & Ej & _). rewrite lift_bind, Ej, method_bind_run.
  rewrite append_line_run by done. cbn [max_event_bytes ledger_store orb]. rewrite (proj2 (Z.ltb_ge _ _)) by done.
  cbn [orb path ledger_store]. rewrite get_bind, lift_bind.
  assert (_last_event_unlocked (ledger_store p) (append_to p (ledger_line r ++ [newline]) fs) = Ok j) as ->.
  { unfold _last_event_unlocked. cbn [path ledger_store max_event_bytes]. rewrite append_to_lookup.
    change (default [] (fs !! p)) with (text_of p fs).
    rewrite read_last_exact by (unfold _TAIL_READ_CHUNK_BYTES; lia). cbv zeta.
    unfold ledger_line in *. destruct (object_text (match sort_keys (ledger_body r) with JObj l => l | _ => [] end)) as [t Et].
    change (dump_raw (JObj (match sort_keys (ledger_body r) with JObj l => l | _ => [] end))) with
      (dump_raw (sort_keys (ledger_body r))) in Et.
    assert (rstrip (text_of p fs ++ dump_raw (sort_keys (ledger_body r)) ++ [newline]) =
      text_of p fs ++ dump_raw (sort_keys (ledger_body r))) as ->.
    { rewrite Et. by apply rstrip_line. }
    rewrite after_newline_ended by (done || apply dump_raw_plain).
    assert (is_nil (text_of p fs ++ dump_raw (sort_keys (ledger_body r))) = false) as ->.
    { rewrite Et, app_assoc. apply is_nil_false. intros F. by apply app_nil_iff in F as [_ F]. }
    rewrite (proj2 (Z.ltb_ge _ _)) by done. exact Ej. }
  rewrite lift_raise_if_bind, py_eqb_refl by by eapply loads_ok.
  cbn [negb]. unfold lift. rewrite verified_Ok; [reflexivity|done|reflexivity|reflexivity].
Qed.

(** ** Properties *)

(** The ledger keeps every record once.  On a ledger that decodes,
    [append_if_absent] of a record the constructor accepts returns whether no
    record had its id; if so, the record decodes from the file behind all the
    others, and otherwise no file changes; no other file is touched. *)
Theorem ledger_appends_once p r fs rs :
  blank p = false -> ends_line (text_of p fs) = true -> ledger_records p fs = Ok rs -> ledger_record_ok r ->
  Z.of_nat (length (ledger_line r)) <= 8 * 1024 * 1024 ->
  let absent := negb (existsb (fun x => String.eqb (evidence_id x) (evidence_id r)) rs) in
  exists fs', append_if_absent p r Written fs = (Ok absent, fs') /\
    ledger_records p fs' = Ok (if absent then rs ++ [r] else rs) /\
    ends_line (text_of p fs') = true /\ (absent = false -> fs' = fs) /\
    forall q, q <> p -> fs' !! q = fs !! q.
Proof.
  intros Hp He Hrs Hr Hl. cbv zeta. unfold append_if_absent. rewrite get_bind, lift_bind, Hrs.
  destruct (existsb _ rs) eqn:Ex; cbn [negb].
  { exists fs. by split_and!. }
  rewrite method_bind_run, ledger_append_run by done. eexists. split; [reflexivity|]. split_and!.
  - unfold ledger_records, text_of in *. rewrite append_to_lookup. apply records_snoc; [done|done|].
    destruct (fs !! p) as [c|]; [exact Hrs|exact Hrs].
  - unfold text_of. rewrite append_to_lookup.
    change (default [] (Some (default [] (fs !! p) ++ ledger_line r ++ [newline]))) with
      (default [] (fs !! p) ++ ledger_line r ++ [newline]).
    rewrite app_assoc. unfold ends_line. by rewrite last_snoc.
  - done.
  - intros q Hq. by apply append_to_other.
Qed.

(** ** Witnesses *)

Definition ex_ledger_record : PromotionEvidenceRecord := Eval vm_compute in ex_record LIVE_ELIGIBLE 20 None.

Lemma ex_ledger_record_ok : ledger_record_ok ex_ledger_record.
Proof. split; vm_compute; reflexivity. Qed.

Definition ex_no_files : files := ∅.

Lemma ledger_appends_once_witness : exists fs',
  append_if_absent "ledger.jsonl" ex_ledger_record Written ex_no_files = (Ok true, fs') /\
  ledger_records "ledger.jsonl" fs' = Ok [ex_ledger_record].
Proof.
  destruct (ledger_appends_once "ledger.jsonl" ex_ledger_record ex_no_files [] eq_refl
    ltac:(vm_compute; reflexivity) ltac:(vm_compute; reflexivity) ex_ledger_record_ok
    ltac:(vm_compute; discriminate)) as (fs' & H1 & H2 & _).
  exists fs'. split; [exact H1|exact H2].
Defined.

Lemma summary_never_promotes_witness : exists g,
  from_validation_summary (mk_summary "BTCUSDT" [mk_run "1h" "run-1" "PAPER_APPROVED" [] "2026-01-01T00:00:00+00:00"]) = Ok g /\
  resolve g ex_query = RESEARCH_ONLY.
Proof.
  eexists. split; [vm_compute; reflexivity|].
  eapply (summary_never_promotes (mk_summary "BTCUSDT" [mk_run "1h" "run-1" "PAPER_APPROVED" [] "2026-01-01T00:00:00+00:00"])).
  vm_compute. reflexivity.
Defined.
