(* ===== verification/GateEvidence.v ===== *)
(** [domain/live_gate_evidence.py] and [validation/live_gate_evidence.py]: the
    four independent validation facts the live gate needs, bound to one exact
    subject and to the hash of the bundle a human approved. *)
From S2P Require Import Prelude DecimalFacts Sha256 PyText Domain PromotionEvidence.
Local Open Scope Z_scope.
Local Open Scope bool_scope.

Inductive LiveGateEvidenceKind : Type := BACKTEST | WALK_FORWARD | TUNING | OOS.
#[export] Instance gate_kind_eq_dec : EqDecision LiveGateEvidenceKind.
Proof. solve_decision. Defined.
#[export, refine] Instance gate_kind_enum : StrEnum LiveGateEvidenceKind := {
  members := [BACKTEST; WALK_FORWARD; TUNING; OOS];
  enum_text k := match k with
    | BACKTEST => "BACKTEST" | WALK_FORWARD => "WALK_FORWARD" | TUNING => "TUNING" | OOS => "OOS"
    end
}.
Proof. all: solve_enum. Defined.

Definition kind_eqb (a b : LiveGateEvidenceKind) : bool := bool_decide (a = b).
#[export] Instance kind_KeyEq : KeyEq kind_eqb.
Proof.
  unfold kind_eqb. split.
  - intros x. by apply bool_decide_eq_true.
  - intros x y. by apply bool_decide_ext.
  - intros x y z. rewrite !bool_decide_eq_true. congruence.
Qed.

Inductive GateSourceKind : Type := GATE_GOVERNED_ARTIFACT | VALIDATION_ARTIFACT.
#[export] Instance gate_source_eq_dec : EqDecision GateSourceKind.
Proof. solve_decision. Defined.
Definition gate_source_text (s : GateSourceKind) : string :=
  match s with GATE_GOVERNED_ARTIFACT => "GOVERNED_ARTIFACT" | VALIDATION_ARTIFACT => "VALIDATION_ARTIFACT" end.

Inductive VerificationStatus : Type := VERIFIED | UNVERIFIED.
#[export] Instance verification_eq_dec : EqDecision VerificationStatus.
Proof. solve_decision. Defined.
Definition verification_text (s : VerificationStatus) : string :=
  match s with VERIFIED => "VERIFIED" | UNVERIFIED => "UNVERIFIED" end.

Definition _bounded_text (value field : string) (maximum : Z) : res string :=
  let normalized := strip value in
  raise_if (String.eqb normalized "" || (maximum <? str_len normalized) || negb (isascii normalized)
            || existsb (fun c => str_contains_char c normalized)
                 [ascii_of_N 13; ascii_of_N 10; ascii_of_N 0])
    (ValueError ("live gate evidence " ++ field ++ " is invalid"));;
  mret normalized.

Definition gate_sha256 (value field : string) : res string :=
  let normalized := lower (strip value) in
  raise_if (negb (is_sha256_text normalized))
    (ValueError ("live gate evidence " ++ field ++ " is invalid"));;
  mret normalized.

(** ** Resolutions *)

Record LiveGateEvidenceResolution : Type := mk_resolution {
  res_backtest : bool;
  res_walk_forward : bool;
  res_tuning : bool;
  res_oos : bool;
  res_bundle : option string;
  res_refs : list (string * string * string);
  res_blockers : list string
}.

Definition new_ref (ref : string * string * string) : res (string * string * string) :=
  let '(raw_kind, raw_id, raw_sha) := ref in
  kind ← match enum_parse raw_kind with
         | Some k => Ok (k : LiveGateEvidenceKind)
         | None => Raise (ValueError "live gate evidence reference kind is invalid")
         end;
  eid ← _bounded_text raw_id "evidence_id" 256;
  sha ← gate_sha256 raw_sha "artifact_sha256";
  mret (enum_text kind, eid, sha).

Definition expected_kinds : list string := map enum_text (members : list LiveGateEvidenceKind).

(** [LiveGateEvidenceResolution(...)] with [__post_init__]; the two authority
    fields and the promotion status keep their defaults at every call. *)
Definition new_resolution (backtest walk_forward tuning oos : bool) (bundle : option string)
  (refs : list (string * string * string)) (blockers : list string) : res LiveGateEvidenceResolution :=
  let any := backtest || walk_forward || tuning || oos in
  let all := backtest && walk_forward && tuning && oos in
  raise_if (any && negb all) (ValueError "partial live gate validation bundle is not permitted");;
  bundle ← match bundle with
           | None => Ok None
           | Some b => Some <$> gate_sha256 b "validation_bundle_sha256"
           end;
  refs ← mapM new_ref refs;
  raise_if (negb (is_nil refs) &&
            (negb (given bundle) || negb (bool_decide (map (fun r => r.1.1) refs = expected_kinds))))
    (ValueError "live gate evidence references are incomplete or unordered");;
  texts ← mapM (fun b => _bounded_text b "blocker" 256) blockers;
  let blockers := fromkeys texts in
  raise_if (all && (negb (given bundle) || negb (Nat.eqb (length refs) 4) || negb (is_nil blockers)))
    (ValueError "approved live gate evidence must be complete and clear");;
  mret (mk_resolution backtest walk_forward tuning oos bundle refs blockers).

(** [LiveGateEvidenceResolution(blockers=...)] *)
Definition denied (blockers : list string) : res LiveGateEvidenceResolution :=
  new_resolution false false false false None [] blockers.

(** ** Records *)

Record LiveGateEvidenceRecord : Type := mk_gate_record {
  ge_id : string;
  ge_kind : LiveGateEvidenceKind;
  ge_source : GateSourceKind;
  ge_source_ref : string;
  ge_artifact : string;
  ge_observed_at : datetime;
  ge_verification : VerificationStatus;
  ge_subject : ExactPromotionIdentity;
  ge_blockers : list string;
  ge_expires_at : option datetime;
  ge_revoked_at : option datetime
}.

Definition gate_aware_utc (value : datetime) (field : string) : res datetime :=
  raise_if (naive value) (ValueError ("live gate evidence " ++ field ++ " must be timezone-aware"));;
  mret (astimezone_utc value).

(** An optional end date, normalised to UTC and refused when [bad] of it and
    the observation holds. *)
Definition end_date (o : option datetime) (field msg : string) (bad : datetime -> bool)
  : res (option datetime) :=
  match o with
  | None => Ok None
  | Some d => d ← gate_aware_utc d field; raise_if (bad d) (ValueError msg);; mret (Some d)
  end.

(** [LiveGateEvidenceRecord(...)] with [__post_init__] *)
Definition new_gate_record (r : LiveGateEvidenceRecord) (promotion_status : ValidationStatus)
  (execution_allowed : bool) (live_status : string) : res LiveGateEvidenceRecord :=
  eid ← _bounded_text (ge_id r) "evidence_id" 256;
  ref ← _bounded_text (ge_source_ref r) "source_ref" 1024;
  sha ← gate_sha256 (ge_artifact r) "artifact_sha256";
  observed ← gate_aware_utc (ge_observed_at r) "observed_at";
  q ← new_query (ge_subject r) observed;
  texts ← mapM (fun b => _bounded_text b "blocker" 256) (ge_blockers r);
  let blockers := fromkeys texts in
  raise_if (eqb (bool_decide (ge_verification r = VERIFIED)) (negb (is_nil blockers)))
    (ValueError "live gate evidence verification result is inconsistent");;
  expires ← end_date (ge_expires_at r) "expires_at" "live gate evidence expiry must follow observation"
              (fun e => dt_leb e observed);
  revoked ← end_date (ge_revoked_at r) "revoked_at"
              "live gate evidence revocation cannot predate observation" (fun v => dt_ltb v observed);
  raise_if (negb (bool_decide (promotion_status = RESEARCH_ONLY)) || execution_allowed
            || negb (String.eqb live_status LIVE_ORDER_BLOCKED))
    (ValueError "live gate evidence cannot grant authority");;
  mret (mk_gate_record eid (ge_kind r) (ge_source r) ref sha observed (ge_verification r)
    (subject_key q) blockers expires revoked).

(** [LiveGateEvidenceRecord.canonical_payload] *)
Definition canonical_payload (r : LiveGateEvidenceRecord) : json :=
  let s := ge_subject r in
  JObj [ ("artifact_sha256", JStr (ge_artifact r)); ("blockers", JList (map JStr (ge_blockers r)));
    ("code_revision", JStr (code_revision s)); ("dataset_sha256", JStr (dataset_sha256 s));
    ("evidence_id", JStr (ge_id r)); ("evidence_kind", JStr (enum_text (ge_kind r)));
    ("execution_allowed", JBool false); ("expires_at", opt_str (option_map timestamp_z (ge_expires_at r)));
    ("live_eligibility_status", JStr LIVE_ORDER_BLOCKED); ("market_type", JStr (id_market_type s));
    ("observed_at", JStr (timestamp_z (ge_observed_at r)));
    ("parameter_set_sha256", JStr (parameter_set_sha256 s)); ("promotion_status", JStr "RESEARCH_ONLY");
    ("revoked_at", opt_str (option_map timestamp_z (ge_revoked_at r)));
    ("source_kind", JStr (gate_source_text (ge_source r))); ("source_ref", JStr (ge_source_ref r));
    ("strategy_id", JStr (strategy_id s)); ("strategy_sha256", JStr (strategy_sha256 s));
    ("strategy_version", JStr (strategy_version s)); ("symbol", JStr (id_symbol s));
    ("timeframe", JStr (timeframe s)); ("verification_status", JStr (verification_text (ge_verification r))) ].

(** ** The registry *)

Record LiveGateEvidenceRegistry : Type := mk_gate_registry {
  ge_records : list LiveGateEvidenceRecord;
  ge_max_age : Z
}.

(** [LiveGateEvidenceRegistry(...)] with [__post_init__] *)
Definition new_gate_registry (rs : list LiveGateEvidenceRecord) (age : Z) : res LiveGateEvidenceRegistry :=
  raise_if (age <=? 0) (ValueError "live gate evidence age bound must be positive");;
  raise_if (negb (all_unique String.eqb (map ge_id rs)))
    (ValueError "live gate evidence identity must be unique");;
  mret (mk_gate_registry rs age).

(** [_current_blocker]: the first reason a record does not count. *)
Definition _current_blocker (g : LiveGateEvidenceRegistry) (r : LiveGateEvidenceRecord)
  (q : PromotionEvidenceQuery) : option string :=
  let as_of := astimezone_utc (as_of q) in
  if negb (bool_decide (ge_source r = GATE_GOVERNED_ARTIFACT)) then Some "SOURCE_NOT_GOVERNED"
  else if dt_ltb as_of (ge_observed_at r) then Some "FUTURE_DATED"
  else if ge_max_age g <? dt_sub as_of (ge_observed_at r) then Some "STALE"
  else if ended (ge_expires_at r) as_of then Some "EXPIRED"
  else if ended (ge_revoked_at r) as_of then Some "REVOKED"
  else if negb (bool_decide (ge_verification r = VERIFIED)) then Some "NOT_VERIFIED"
  else if negb (is_nil (ge_blockers r)) then Some "BLOCKED"
  else None.

Definition gate_matches (q : PromotionEvidenceQuery) (k : LiveGateEvidenceKind)
  (r : LiveGateEvidenceRecord) : bool :=
  bool_decide (ge_kind r = k) && bool_decide (ge_subject r = subject_key q).

(** One turn of the loop of [_select]: the record of a kind, or its blocker. *)
Definition select_kind (g : LiveGateEvidenceRegistry) (q : PromotionEvidenceQuery)
  (k : LiveGateEvidenceKind) : LiveGateEvidenceRecord + string :=
  let prefix := ("LIVE_GATE_EVIDENCE_" ++ enum_text k)%string in
  let matching := List.filter (gate_matches q k) (ge_records g) in
  if is_nil matching then inr (prefix ++ "_MISSING")%string
  else match latest ge_observed_at matching with
       | [r] => match _current_blocker g r q with
                | Some b => inr (prefix ++ "_" ++ b)%string
                | None => inl r
                end
       | _ => inr (prefix ++ "_AMBIGUOUS")%string
       end.

Definition selection : Type := list (LiveGateEvidenceKind * LiveGateEvidenceRecord).

(** [LiveGateEvidenceRegistry._select] *)
Definition _select (g : LiveGateEvidenceRegistry) (q : PromotionEvidenceQuery)
  : selection * list string :=
  fold_left (fun acc k =>
    match select_kind g q k with
    | inl r => (dict_set kind_eqb k r acc.1, acc.2)
    | inr b => (acc.1, acc.2 ++ [b])
    end) members ([], []).

(** [selected[kind]] *)
Definition selected_at (sel : selection) (k : LiveGateEvidenceKind) : res LiveGateEvidenceRecord :=
  match dict_get kind_eqb k sel with Some r => Ok r | None => Raise KeyError end.

Definition bundle_payload (s : ExactPromotionIdentity) (evidence : list json) : json :=
  JObj [ ("evidence", JList evidence); ("execution_allowed", JBool false);
    ("live_eligibility_status", JStr LIVE_ORDER_BLOCKED); ("promotion_status", JStr "RESEARCH_ONLY");
    ("schema_version", JStr "1.0.0");
    ("subject", JObj [ ("code_revision", JStr (code_revision s)); ("dataset_sha256", JStr (dataset_sha256 s));
       ("market_type", JStr (id_market_type s)); ("parameter_set_sha256", JStr (parameter_set_sha256 s));
       ("strategy_id", JStr (strategy_id s)); ("strategy_sha256", JStr (strategy_sha256 s));
       ("strategy_version", JStr (strategy_version s)); ("symbol", JStr (id_symbol s));
       ("timeframe", JStr (timeframe s)) ]) ].

(** [_bundle_sha256] *)
Definition _bundle_sha256 (q : PromotionEvidenceQuery) (sel : selection) : res string :=
  rs ← mapM (selected_at sel) members;
  mret (sha256 (dumps (bundle_payload (subject_key q) (map canonical_payload rs)))).

(** [LiveGateEvidenceRegistry.canonical_bundle_sha256] *)
Definition canonical_bundle_sha256 (g : LiveGateEvidenceRegistry) (q : PromotionEvidenceQuery)
  : res (option string) :=
  let '(sel, blockers) := _select g q in
  if is_nil blockers then Some <$> _bundle_sha256 q sel else Ok None.

(** [LiveGateEvidenceRegistry.resolve] *)
Definition gate_resolve (g : LiveGateEvidenceRegistry) (q : PromotionEvidenceQuery) (expected : string)
  : res LiveGateEvidenceResolution :=
  let '(sel, blockers) := _select g q in
  if negb (is_nil blockers) then denied blockers
  else
    actual ← _bundle_sha256 q sel;
    refs ← mapM (fun k => r ← selected_at sel k; mret (enum_text k, ge_id r, ge_artifact r)) members;
    match gate_sha256 expected "expected_bundle_sha256" with
    | Raise _ => new_resolution false false false false (Some actual) refs
                   ["LIVE_GATE_EVIDENCE_BUNDLE_HASH_INVALID"]
    | Ok expected =>
        if negb (String.eqb actual expected)
        then new_resolution false false false false (Some actual) refs
               ["LIVE_GATE_EVIDENCE_BUNDLE_HASH_MISMATCH"]
        else new_resolution true true true true (Some actual) refs []
    end.

(** ** Facts *)

Lemma bounded_text_Ok v f m s : _bounded_text v f m = Ok s -> forall g, _bounded_text s g m = Ok s.
Proof.
  unfold _bounded_text. cbv zeta. intros H g. apply bind_Ok in H as (u & Hr & H).
  apply mret_Ok in H. subst s. apply raise_if_Ok in Hr. by rewrite strip_idem, Hr.
Qed.

Lemma gate_sha256_fixed s f : is_sha256_text s = true -> gate_sha256 s f = Ok s.
Proof.
  intros H. unfold gate_sha256. destruct (sha256_text_fixed s H) as [E1 E2]. by rewrite E1, E2, H.
Qed.

Lemma gate_sha256_Ok v f s : gate_sha256 v f = Ok s -> s = lower (strip v) /\ is_sha256_text s = true.
Proof.
  unfold gate_sha256. cbv zeta. intros H. apply bind_Ok in H as (u & Hr & H).
  apply mret_Ok in H. subst s. by apply raise_if_Ok, negb_false_iff in Hr.
Qed.

Lemma mapM_fixed {A} (f : A -> res A) l : (forall x, In x l -> f x = Ok x) -> mapM f l = Ok l.
Proof.
  induction l as [|x l IH]; intros H; [done|]. cbn [mapM]. rewrite (H x) by (by left).
  rewrite Ok_bind, IH; [done|]. intros y Hy. apply H. by right.
Qed.

(** What the record constructor guarantees of the two fields that are quoted in
    a resolution. *)
Definition built (r : LiveGateEvidenceRecord) : Prop :=
  exists raw ps x live, new_gate_record raw ps x live = Ok r.

Lemma built_ok r : built r ->
  (forall f, _bounded_text (ge_id r) f 256 = Ok (ge_id r)) /\ is_sha256_text (ge_artifact r) = true.
Proof.
  intros (raw & ps & x & live & H). unfold new_gate_record in H.
  apply bind_Ok in H as (eid & H1 & H). apply bind_Ok in H as (ref & _ & H).
  apply bind_Ok in H as (sha & H2 & H). do 3 (apply bind_Ok in H as (? & _ & H)). cbv zeta in H.
  do 4 (apply bind_Ok in H as (? & _ & H)). apply mret_Ok in H. subst r. cbn [ge_id ge_artifact].
  split; [by eapply bounded_text_Ok|]. by apply gate_sha256_Ok in H2 as [_ ?].
Qed.

(** A current record, by the conditions of [_current_blocker]. *)
Definition current (g : LiveGateEvidenceRegistry) (r : LiveGateEvidenceRecord)
  (q : PromotionEvidenceQuery) : Prop :=
  ge_source r = GATE_GOVERNED_ARTIFACT /\ ge_verification r = VERIFIED /\ ge_blockers r = [] /\
  0 <= instant (as_of q) - instant (ge_observed_at r) <= ge_max_age g /\
  (forall e, ge_expires_at r = Some e -> instant (as_of q) < instant e) /\
  (forall v, ge_revoked_at r = Some v -> instant (as_of q) < instant v).

Lemma current_blocker_None g r q : _current_blocker g r q = None <-> current g r q.
Proof.
  unfold _current_blocker, current. cbv zeta. unfold dt_ltb, dt_sub.
  pose proof (ended_false (ge_expires_at r) (astimezone_utc (as_of q))) as E1.
  pose proof (ended_false (ge_revoked_at r) (astimezone_utc (as_of q))) as E2.
  rewrite instant_astimezone in *.
  destruct (bool_decide_reflect (ge_source r = GATE_GOVERNED_ARTIFACT)); [|naive_solver].
  cbn [negb]. destruct (Z.ltb_spec (instant (as_of q)) (instant (ge_observed_at r))); [naive_solver lia|].
  destruct (Z.ltb_spec (ge_max_age g) (instant (as_of q) - instant (ge_observed_at r))); [naive_solver lia|].
  destruct (ended (ge_expires_at r) _); [naive_solver|].
  destruct (ended (ge_revoked_at r) _); [naive_solver|].
  destruct (bool_decide_reflect (ge_verification r = VERIFIED)); [|naive_solver]. cbn [negb].
  destruct (ge_blockers r); cbn [is_nil negb]; [|naive_solver]. split; [|done]. intros _.
  split; [done|]. split; [done|]. split; [done|]. split; [lia|]. split; [by apply E1|by apply E2].
Qed.

(** The record of a kind: alone newest among the kind's records of the exact
    subject, and current. *)
Definition chosen (g : LiveGateEvidenceRegistry) (q : PromotionEvidenceQuery) (k : LiveGateEvidenceKind)
  (r : LiveGateEvidenceRecord) : Prop :=
  exists l1 l2, ge_records g = l1 ++ r :: l2 /\ (ge_kind r = k /\ ge_subject r = subject_key q) /\
    (forall x, In x (l1 ++ l2) -> ge_kind x = k /\ ge_subject x = subject_key q ->
       instant (ge_observed_at x) < instant (ge_observed_at r)) /\
    current g r q.

Lemma gate_matches_spec q k r : gate_matches q k r = true <-> ge_kind r = k /\ ge_subject r = subject_key q.
Proof. unfold gate_matches. by rewrite andb_true_iff, !bool_decide_eq_true. Qed.

Lemma select_kind_inl g q k r : select_kind g q k = inl r <-> chosen g q k r.
Proof.
  pose proof (latest_single ge_observed_at (gate_matches q k) (ge_records g)) as L.
  setoid_rewrite gate_matches_spec in L. unfold select_kind, chosen. cbv zeta. split.
  - destruct (is_nil _); [done|]. destruct (latest _ _) as [|x [|? ?]] eqn:E; try done.
    destruct (proj1 (L x) eq_refl) as (l1 & l2 & Hl & Hk & Hx). destruct (_current_blocker g x q) eqn:Ec; [done|].
    intros [= ->]. apply current_blocker_None in Ec. exists l1, l2. auto.
  - intros (l1 & l2 & Hl & Hk & Hx & Hc). rewrite (proj2 (L r)); [|exists l1, l2; auto].
    apply current_blocker_None in Hc. rewrite Hc.
    assert (In r (List.filter (gate_matches q k) (ge_records g))) as Hin.
    { apply filter_In. rewrite Hl, gate_matches_spec. split; [|done]. apply in_app_iff. simpl. auto. }
    by destruct (List.filter _ _).
Qed.

Lemma select_kind_inr g q k b : select_kind g q k = inr b -> _bounded_text b "blocker" 256 = Ok b.
Proof.
  unfold select_kind, _current_blocker. cbv zeta.
  destruct (is_nil _); [intros [= <-]; destruct k; vm_compute; reflexivity|].
  destruct (latest _ _) as [|x [|? ?]];
    [intros [= <-]; destruct k; vm_compute; reflexivity| |intros [= <-]; destruct k; vm_compute; reflexivity].
  repeat match goal with |- context [if ?c then _ else _] => destruct c end;
    intros [= <-]; destruct k; vm_compute; reflexivity.
Qed.

Lemma select_spec g q :
  (exists f, (forall k, chosen g q k (f k)) /\
     _select g q = (map (fun k => (k, f k)) members, [])) \/
  (exists k b, select_kind g q k = inr b) /\ snd (_select g q) <> [] /\
    forall b, In b (snd (_select g q)) -> _bounded_text b "blocker" 256 = Ok b.
Proof.
  unfold _select. cbn [members gate_kind_enum fold_left].
  pose proof (select_kind_inl g q) as Hl. pose proof (select_kind_inr g q) as Hr.
  destruct (select_kind g q BACKTEST) as [r1|b1] eqn:E1, (select_kind g q WALK_FORWARD) as [r2|b2] eqn:E2,
    (select_kind g q TUNING) as [r3|b3] eqn:E3, (select_kind g q OOS) as [r4|b4] eqn:E4;
  [left; exists (fun k => match k with BACKTEST => r1 | WALK_FORWARD => r2 | TUNING => r3 | OOS => r4 end);
   split; [intros []; by apply Hl|reflexivity]
  |right; (split; [eauto|]); (split; [by cbn|]); cbn [snd fst app In]; intros b Hb;
   repeat destruct Hb as [<-|Hb]; solve [eauto | done] ..].
Qed.

Lemma denied_Ok bl : (forall b, In b bl -> _bounded_text b "blocker" 256 = Ok b) ->
  denied bl = Ok (mk_resolution false false false false None [] (fromkeys bl)).
Proof.
  intros H. unfold denied, new_resolution. cbn [mapM andb orb negb raise_if given is_nil].
  rewrite !Ok_bind. rewrite (mapM_fixed (fun b => _bounded_text b "blocker" 256)) by done. reflexivity.
Qed.

Section Chosen.
Context (g : LiveGateEvidenceRegistry) (q : PromotionEvidenceQuery).
Context (Hb : forall r, In r (ge_records g) -> built r).
Context (f : LiveGateEvidenceKind -> LiveGateEvidenceRecord) (Hf : forall k, chosen g q k (f k)).

Definition bundle_of : string :=
  sha256 (dumps (bundle_payload (subject_key q) (map (fun k => canonical_payload (f k)) members))).

Definition refs_of : list (string * string * string) :=
  map (fun k => (enum_text k, ge_id (f k), ge_artifact (f k))) members.

Lemma chosen_ok k : (forall fl, _bounded_text (ge_id (f k)) fl 256 = Ok (ge_id (f k))) /\
  is_sha256_text (ge_artifact (f k)) = true.
Proof.
  apply built_ok, Hb. destruct (Hf k) as (l1 & l2 & -> & _). apply in_app_iff. simpl. auto.
Qed.

Lemma refs_fixed : mapM new_ref refs_of = Ok refs_of.
Proof.
  apply mapM_fixed. intros x Hx. apply in_map_iff in Hx as (k & <- & _). unfold new_ref.
  rewrite (enum_parse_text k), Ok_bind. destruct (chosen_ok k) as [H1 H2].
  rewrite H1, Ok_bind, gate_sha256_fixed by done. reflexivity.
Qed.

Lemma bundle_fixed field : gate_sha256 bundle_of field = Ok bundle_of.
Proof. apply gate_sha256_fixed, sha256_text. Qed.

(** A resolution over the four chosen records. *)
Lemma new_resolution_chosen b bl : (b = true -> bl = []) ->
  (forall x, In x bl -> _bounded_text x "blocker" 256 = Ok x) ->
  new_resolution b b b b (Some bundle_of) refs_of bl =
  Ok (mk_resolution b b b b (Some bundle_of) refs_of (fromkeys bl)).
Proof.
  intros Hbl Hx. unfold new_resolution. cbv zeta.
  assert ((b || b || b || b) && negb (b && b && b && b) = false) as -> by by destruct b.
  change (raise_if false (ValueError "partial live gate validation bundle is not permitted")) with (Ok tt).
  rewrite Ok_bind, bundle_fixed. change (Some <$> Ok bundle_of) with (Ok (Some bundle_of)).
  rewrite Ok_bind, refs_fixed, Ok_bind.
  rewrite (bool_decide_eq_true_2 (map (fun r => r.1.1) refs_of = expected_kinds)) by reflexivity.
  cbn [given negb orb]. rewrite andb_false_r. cbn [raise_if]. rewrite Ok_bind.
  rewrite mapM_fixed, Ok_bind by done. change (Nat.eqb (length refs_of) 4) with true. cbn [negb orb].
  destruct b; [rewrite Hbl by done|]; reflexivity.
Qed.

Lemma gate_resolve_chosen expected :
  _select g q = (map (fun k => (k, f k)) members, []) ->
  let b := String.eqb bundle_of (lower (strip expected)) in
  exists bl, gate_resolve g q expected =
    Ok (mk_resolution b b b b (Some bundle_of) refs_of bl) /\ (b = true -> bl = []).
Proof.
  intros Hs. cbv zeta. unfold gate_resolve. rewrite Hs. cbn [is_nil negb].
  change (_bundle_sha256 q (map (fun k => (k, f k)) members)) with (Ok bundle_of). rewrite Ok_bind.
  change (mapM (fun k => r ← selected_at (map (fun k => (k, f k)) members) k;
    mret (enum_text k, ge_id r, ge_artifact r)) members) with (Ok refs_of). rewrite Ok_bind.
  destruct (gate_sha256 expected _) as [e|x] eqn:E.
  - apply gate_sha256_Ok in E as [-> _]. destruct (String.eqb bundle_of (lower (strip expected))); cbn [negb].
    + rewrite new_resolution_chosen by done. eexists. split; [reflexivity|done].
    + rewrite new_resolution_chosen; [eexists; split; [reflexivity|done]|done|]. intros y [<-|[]]. vm_compute. reflexivity.
  - assert (String.eqb bundle_of (lower (strip expected)) = false) as ->.
    { apply String.eqb_neq. intros En. unfold gate_sha256 in E. rewrite <- En in E.
      unfold bundle_of in E. by rewrite sha256_text in E. }
    rewrite new_resolution_chosen; [eexists; split; [reflexivity|done]|done|]. intros y [<-|[]]. vm_compute. reflexivity.
Qed.
End Chosen.

(** ** Properties *)

(** C17: the validation facts of the gate are exact, all-or-nothing and bound to
    the approved bundle.  For records the constructor accepted, [resolve] never
    raises; its four approvals are always equal; and they are true if and only if
    each of the four kinds has one newest record of the exact subject that is
    governed, verified, without blockers, not from the future, not older than the
    age bound, not expired and not revoked, and the SHA-256 of those four records
    is the one expected. *)
Theorem gate_evidence_exact g q expected :
  (forall r, In r (ge_records g) -> built r) ->
  exists v, gate_resolve g q expected = Ok v /\
    res_walk_forward v = res_backtest v /\ res_tuning v = res_backtest v /\ res_oos v = res_backtest v /\
    (res_backtest v = true -> res_blockers v = [] /\ res_bundle v = Some (lower (strip expected))) /\
    (res_backtest v = true <->
     exists f, (forall k, chosen g q k (f k)) /\ bundle_of q f = lower (strip expected)).
Proof.
  intros Hb. destruct (select_spec g q) as [(f & Hf & Hs)|((k & b & Hk) & Hn & Hv)].
  - destruct (gate_resolve_chosen g q Hb f Hf expected Hs) as (bl & Hr & Hbl). eexists.
    split; [exact Hr|]. clear Hr. cbn [res_backtest res_walk_forward res_tuning res_oos res_blockers res_bundle].
    set (bundle := bundle_of q f) in *. split; [done|]. split; [done|]. split; [done|]. split.
    + intros E. split; [auto|]. by apply String.eqb_eq in E as ->.
    + rewrite String.eqb_eq. split; [intros E; by exists f|]. intros (f' & Hf' & <-).
      assert (forall k, f k = f' k) as E.
      { intros k. pose proof (proj2 (select_kind_inl g q k _) (Hf k)).
        pose proof (proj2 (select_kind_inl g q k _) (Hf' k)). congruence. }
      unfold bundle, bundle_of. do 3 f_equal. apply map_ext. intros k. by rewrite E.
  - unfold gate_resolve. destruct (_select g q) as [sel bs]. cbn [snd] in Hn, Hv.
    apply is_nil_false in Hn. rewrite Hn. cbn [negb]. rewrite denied_Ok by done. eexists.
    split; [reflexivity|].
    cbn [res_backtest res_walk_forward res_tuning res_oos res_blockers res_bundle].
    split; [done|]. split; [done|]. split; [done|]. split; [done|].
    split; [done|]. intros (f & Hf & _). pose proof (proj2 (select_kind_inl g q k _) (Hf k)). congruence.
Qed.

(** ** Witnesses *)

Definition ex_gate_raw (k : LiveGateEvidenceKind) (id : string) (at_ : Z) : LiveGateEvidenceRecord :=
  mk_gate_record id k GATE_GOVERNED_ARTIFACT "artifact" ex_hex (utc (seconds at_)) VERIFIED ex_identity []
    None None.
Definition ex_gate_record (k : LiveGateEvidenceKind) (id : string) (at_ : Z) : LiveGateEvidenceRecord :=
  match new_gate_record (ex_gate_raw k id at_) RESEARCH_ONLY false LIVE_ORDER_BLOCKED with
  | Ok r => r | Raise _ => ex_gate_raw k id at_
  end.
Definition ex_gate_registry : LiveGateEvidenceRegistry := Eval vm_compute in
  mk_gate_registry [ex_gate_record BACKTEST "b" 1; ex_gate_record WALK_FORWARD "w" 2;
    ex_gate_record TUNING "t" 3; ex_gate_record OOS "o" 4] (seconds 1000).
Definition ex_bundle : string := Eval vm_compute in
  match canonical_bundle_sha256 ex_gate_registry ex_query with Ok (Some b) => b | _ => "" end.

Example ex_gate_missing :
  match gate_resolve (mk_gate_registry [ex_gate_record TUNING "t" 3] (seconds 1)) ex_query ex_bundle with
  | Ok v => res_blockers v
  | Raise _ => []
  end = ["LIVE_GATE_EVIDENCE_BACKTEST_MISSING"; "LIVE_GATE_EVIDENCE_WALK_FORWARD_MISSING";
         "LIVE_GATE_EVIDENCE_TUNING_STALE"; "LIVE_GATE_EVIDENCE_OOS_MISSING"].
Proof. vm_compute. reflexivity. Qed.

Lemma ex_gate_built r : In r (ge_records ex_gate_registry) -> built r.
Proof.
  intros Hr. exists r, RESEARCH_ONLY, false, LIVE_ORDER_BLOCKED.
  destruct Hr as [<-|[<-|[<-|[<-|[]]]]]; vm_compute; reflexivity.
Qed.

Lemma gate_evidence_exact_witness :
  exists v, gate_resolve ex_gate_registry ex_query ex_bundle = Ok v /\
    res_backtest v = true /\ res_oos v = true /\ res_blockers v = [].
Proof.
  destruct (gate_evidence_exact ex_gate_registry ex_query ex_bundle ex_gate_built)
    as (v & Hv & _ & _ & Ho & Hb & _).
  assert (match gate_resolve ex_gate_registry ex_query ex_bundle with
          | Ok v => res_backtest v | Raise _ => false end = true) as E by (vm_compute; reflexivity).
  rewrite Hv in E. exists v. split; [exact Hv|]. split; [exact E|]. split; [|exact (proj1 (Hb E))].
  rewrite Ho. exact E.
Defined.
