(* ===== verification/Executor.v ===== *)
(** [execution/live_spot.py]: placing and cancelling a real Spot order behind
    the live gate, the human authorization and its single-use ledger.

    The exchange session, the verifier and the authorization source are
    interfaces of the code.  They are answered here by an [Environment] of
    functions that see everything that was asked of them before, so every
    behaviour of the outside (errors included) is one environment; each call is
    recorded in the [log] of the state beside the ledger's table. *)
From S2P Require Import Prelude PyDecimal DecimalFacts PyText Domain LiveGate PromotionEvidence.
From S2P Require Import GateEvidence OrderCommand Authorization.
Local Open Scope Z_scope.
Local Open Scope bool_scope.

Inductive LiveCommandStatus : Type :=
| BLOCKED | SUBMITTED | CANCELLED | ATTEMPT_FAILED | UNVERIFIED_REVIEW_REQUIRED.
#[export] Instance live_status_eq_dec : EqDecision LiveCommandStatus.
Proof. solve_decision. Defined.

(** ** Verification of the destination *)

Record OrderDestinationVerification : Type := mk_verification {
  verified : bool;
  v_blockers : list string;
  observed_status : option string;
  order_snapshot : option json
}.

(** [OrderDestinationVerification(...)] with [__post_init__] *)
Definition new_verification (ok : bool) (bl : list string) (status : option string) (snapshot : option json)
  : res OrderDestinationVerification :=
  raise_if (ok && negb (is_nil bl)) (ValueError "verified order destination cannot contain blockers");;
  raise_if (negb ok && is_nil bl) (ValueError "unverified order destination requires blockers");;
  mret (mk_verification ok bl status snapshot).

(** [OrderDestinationVerification.failed] *)
Definition failed (bl : list string) : res OrderDestinationVerification :=
  new_verification false (fromkeys bl) None None.

(** [item.get(key, "")] as text *)
Definition field_text (item : list (string * json)) (key : string) : string :=
  match dict_get String.eqb key item with Some v => py_str v | None => "" end.

(** [ReadOnlySpotOrderHistoryVerifier._matching_order] on the history read. *)
Fixpoint matching_order (history : list json) (client exchange : string) : option (list (string * json)) :=
  match history with
  | [] => None
  | JObj item :: rest =>
      if String.eqb (strip (field_text item "clientOrderId")) client &&
         String.eqb (strip (field_text item "orderId")) exchange
      then Some item else matching_order rest client exchange
  | _ :: rest => matching_order rest client exchange
  end.

Definition _matching_order (history : json) (client exchange : string)
  : res (option (list (string * json))) :=
  match history with
  | JList l => Ok (matching_order l client exchange)
  | _ => Raise (RuntimeError "order destination read-back must be a list")
  end.

Definition PLACED : list string := ["NEW"; "PARTIALLY_FILLED"; "FILLED"; "CANCELED"; "EXPIRED"; "REJECTED"].
Definition ENDED : list string := ["CANCELED"; "EXPIRED"].

(** The common body of the two verifications: the order is found in the history
    under both ids and its status is one of the expected ones. *)
Definition verify_history (expected : list string) (missing bad : string) (history : json)
  (client exchange : string) : res OrderDestinationVerification :=
  order ← _matching_order history client exchange;
  match order with
  | None => failed [missing]
  | Some item =>
      let status := upper (field_text item "status") in
      if negb (str_in status expected) then failed [bad]
      else new_verification true [] (Some status) (Some (JObj item))
  end.

(** [ReadOnlySpotOrderHistoryVerifier.verify_placed] *)
Definition verify_placed (history : json) (c : SpotOrderCommand) (exchange : string)
  : res OrderDestinationVerification :=
  verify_history PLACED "ORDER_DESTINATION_READ_BACK_MISSING" "ORDER_DESTINATION_STATUS_UNVERIFIED"
    history (client_order_id c) exchange.

(** [ReadOnlySpotOrderHistoryVerifier.verify_cancelled] *)
Definition verify_cancelled (history : json) (client exchange : string)
  : res OrderDestinationVerification :=
  verify_history ENDED "ORDER_CANCEL_DESTINATION_READ_BACK_MISSING"
    "ORDER_CANCEL_DESTINATION_STATUS_UNVERIFIED" history client exchange.

(** ** The outside *)

Inductive call : Type :=
| CResolve (authorization_id : string)
| CTest (payload : json)
| CPlace (payload : json)
| CCancel (payload : json)
| CVerifyPlaced (command : SpotOrderCommand) (exchange_order_id : string)
| CVerifyCancelled (symbol client_order_id exchange_order_id : string).

(** A call to the exchange's order entry. *)
Definition is_session (c : call) : bool :=
  match c with CTest _ | CPlace _ | CCancel _ => true | _ => false end.

(** What the outside answers, given the calls made before. *)
Record Environment : Type := mk_environment {
  on_resolve : list call -> string -> res (option ExecutionAuthorizationEnvelope);
  on_ledger : list call -> option fault;
  on_test : list call -> json -> res json;
  on_place : list call -> json -> res json;
  on_cancel : list call -> json -> res json;
  on_verify_placed : list call -> SpotOrderCommand -> string -> res OrderDestinationVerification;
  on_verify_cancelled : list call -> string -> string -> string -> res OrderDestinationVerification
}.

Record exec_state : Type := mk_exec { ledger : table; log : list call }.

(** One call: it is recorded, and answered from the calls before it. *)
Definition ask {A} (c : call) (answer : list call -> res A) : method exec_state A :=
  fun s => (answer (log s), mk_exec (ledger s) (log s ++ [c])).

(** The executor's collaborators that may be missing. *)
Record GatedSpotOrderExecutor : Type := mk_executor {
  has_verifier : bool;
  has_source : bool;
  has_ledger : bool;
  live_gate_evidence_registry : option LiveGateEvidenceRegistry;
  promotion_evidence_registry : option PromotionEvidenceRegistry;
  promotion_query : option PromotionEvidenceQuery
}.

Record LiveCommandResult : Type := mk_result {
  r_status : LiveCommandStatus;
  r_blockers : list string;
  r_client_order_id : string;
  r_exchange_order_id : option string;
  r_preview_hash : option string;
  r_exchange_status : option string;
  r_snapshot : option json;
  r_authorization_id : option string;
  r_envelope_sha256 : option string;
  r_approval_id : option string
}.

(** [_exchange_order_id] *)
Definition _exchange_order_id (value : json) : res string :=
  match value with
  | JObj response =>
      match dict_get String.eqb "orderId" response with
      | None | Some JNull => Raise (RuntimeError "exchange order response has no orderId")
      | Some v => raise_if (blank (py_str v)) (RuntimeError "exchange order response has no orderId");;
                  mret (py_str v)
      end
  | _ => Raise (RuntimeError "exchange order response must be an object")
  end.

(** ** Evidence *)

(** [except TypeError, ValueError] *)
Definition is_type_or_value_error (e : exn) : bool :=
  match e with TypeError | ValueError _ => true | _ => false end.

(** [except OSError, TypeError, ValueError] *)
Definition is_lookup_error (e : exn) : bool :=
  match e with OSError | TypeError | ValueError _ => true | _ => false end.

(** The [validation] of [_evidence_bound_gate_input]. *)
Definition validation_of (x : GatedSpotOrderExecutor) (q : PromotionEvidenceQuery) (bundle : string)
  : res LiveGateEvidenceResolution :=
  match live_gate_evidence_registry x with
  | None => denied ["LIVE_GATE_EVIDENCE_REGISTRY_REQUIRED"]
  | Some g => catch (gate_resolve g q bundle) is_type_or_value_error
                (fun _ => denied ["LIVE_GATE_EVIDENCE_INVALID"])
  end.

(** The promotion status and its blockers. *)
Definition promotion_of (x : GatedSpotOrderExecutor) (q : PromotionEvidenceQuery)
  : ValidationStatus * list string :=
  match promotion_evidence_registry x with
  | None => (RESEARCH_ONLY, ["PROMOTION_EVIDENCE_REGISTRY_REQUIRED"])
  | Some g =>
      let status := resolve g q in
      (status, if is_live_eligible status then [] else ["PROMOTION_EVIDENCE_LIVE_ELIGIBLE_REQUIRED"])
  end.

(** The query and the authorization speak of the same strategy and market. *)
Definition same_subject (q : PromotionEvidenceQuery) (e : ExecutionAuthorizationEnvelope) : bool :=
  String.eqb (PromotionEvidence.strategy_id (subject_key q)) (strategy_id e)
  && String.eqb (PromotionEvidence.strategy_version (subject_key q)) (strategy_version e)
  && String.eqb (id_symbol (subject_key q)) (auth_symbol e)
  && String.eqb (id_market_type (subject_key q)) (market_type e).

(** [GatedSpotOrderExecutor._evidence_bound_gate_input] *)
Definition _evidence_bound_gate_input (x : GatedSpotOrderExecutor) (g : LiveGateInput)
  (e : ExecutionAuthorizationEnvelope) (observed_at : datetime) : res (LiveGateInput * list string) :=
  let refused := with_evidence false false false false false g in
  match promotion_query x with
  | None => Ok (refused, ["EXECUTION_EVIDENCE_EXACT_QUERY_REQUIRED"])
  | Some query =>
      q ← new_query (subject_key query) observed_at;
      if negb (same_subject q e) then Ok (refused, ["EXECUTION_EVIDENCE_AUTHORIZATION_SUBJECT_MISMATCH"])
      else
        v ← validation_of x q (validation_bundle_hash e);
        let '(status, promotion_blockers) := promotion_of x q in
        mret (with_evidence (res_backtest v) (res_walk_forward v) (res_tuning v) (res_oos v)
                (is_live_eligible status) g,
              fromkeys (res_blockers v ++ promotion_blockers))
  end.

(** ** Placing *)

(** [try: m except p: pass], as a method: [None] is a handled exception; the
    calls made before it stay recorded. *)
Definition attempt {A} (m : method exec_state A) (p : exn -> bool) : method exec_state (option A) :=
  fun s => match m s with
           | (Ok a, s1) => (Ok (Some a), s1)
           | (Raise e, s1) => if p e then (Ok None, s1) else (Raise e, s1)
           end.

Section Execution.
Context (env : Environment) (x : GatedSpotOrderExecutor).

(** The approved record of an authorization id. *)
Definition resolve_authorization (id : string)
  : method exec_state (option (option ExecutionAuthorizationEnvelope)) :=
  attempt (ask (CResolve id) (fun l => on_resolve env l id)) is_lookup_error.

(** The authorization part of [place]: its blockers and the approved record. *)
Definition authorization_blockers (auth : option ExecutionAuthorizationEnvelope) (observed_at : datetime)
  : method exec_state (list string * option ExecutionAuthorizationEnvelope) :=
  match auth with
  | None => mret (["EXECUTION_AUTHORIZATION_REQUIRED"], None)
  | Some e =>
      if negb (has_source x) then mret (["EXECUTION_AUTHORIZATION_SOURCE_UNAVAILABLE"], None)
      else
        found ← resolve_authorization (authorization_id e);
        match found with
        | None => mret (["EXECUTION_AUTHORIZATION_EVIDENCE_INVALID";
                         "EXECUTION_AUTHORIZATION_NOT_APPROVED"], None)
        | Some None => mret (["EXECUTION_AUTHORIZATION_NOT_APPROVED"], None)
        | Some (Some r) =>
            if negb (String.eqb (envelope_sha256 r) (envelope_sha256 e))
            then mret (["EXECUTION_AUTHORIZATION_RECORD_MISMATCH"], Some r)
            else
              c ← lift (to_spot_order_command e);
              bl ← lift (blockers_for e c observed_at);
              mret (bl, Some r)
        end
  end.

(** The result of a refused or unproven attempt. *)
Definition result (status : LiveCommandStatus) (bl : list string) (e : ExecutionAuthorizationEnvelope)
  (c : SpotOrderCommand) : LiveCommandResult :=
  mk_result status bl (client_order_id c) None (Some (preview_hash c)) None None
    (Some (authorization_id e)) (Some (envelope_sha256 e)) (Some (approval_id e)).

(** The result of a closed gate. *)
Definition refused (bl : list string) (auth : option ExecutionAuthorizationEnvelope) : LiveCommandResult :=
  mk_result BLOCKED (fromkeys bl) (match auth with Some e => auth_client_order_id e | None => "" end)
    None (option_map auth_preview_hash auth) None None (option_map authorization_id auth)
    (option_map envelope_sha256 auth) (option_map approval_id auth).

(** The claim of the authorization; [Some] is the blocker of a refused claim. *)
Definition claim_authorization (e : ExecutionAuthorizationEnvelope) (c : SpotOrderCommand)
  (observed_at : datetime) : method exec_state (option string) := fun s =>
  match claim e (client_order_id c) observed_at (on_ledger env (log s)) (ledger s) with
  | (Ok _, t) => (Ok None, mk_exec t (log s))
  | (Raise AuthorizationAlreadyConsumedError, t) =>
      (Ok (Some "EXECUTION_AUTHORIZATION_ALREADY_CONSUMED"), mk_exec t (log s))
  | (Raise AuthorizationLedgerUnavailableError, t) =>
      (Ok (Some "EXECUTION_AUTHORIZATION_LEDGER_UNAVAILABLE"), mk_exec t (log s))
  | (Raise err, t) => (Raise err, mk_exec t (log s))
  end.

(** The [try] block that reaches the exchange. *)
Definition contact (c : SpotOrderCommand) : method exec_state (string * OrderDestinationVerification) :=
  let p := payload c in
  ask (CTest p) (fun l => on_test env l p);;
  response ← ask (CPlace p) (fun l => on_place env l p);
  order_id ← lift (_exchange_order_id response);
  v ← ask (CVerifyPlaced c order_id) (fun l => on_verify_placed env l c order_id);
  mret (order_id, v).

Definition submit (e : ExecutionAuthorizationEnvelope) (c : SpotOrderCommand)
  : method exec_state LiveCommandResult :=
  outcome ← attempt (contact c) (fun _ => true);
  match outcome with
  | None => mret (result ATTEMPT_FAILED ["LIVE_ORDER_ATTEMPT_OUTCOME_UNVERIFIED"] e c)
  | Some (order_id, v) =>
      mret (mk_result (if verified v then SUBMITTED else UNVERIFIED_REVIEW_REQUIRED)
              (if verified v then [] else v_blockers v) (client_order_id c) (Some order_id)
              (Some (preview_hash c)) (observed_status v) (order_snapshot v)
              (Some (authorization_id e)) (Some (envelope_sha256 e)) (Some (approval_id e)))
  end.

(** [place] once the gate is open. *)
Definition place_admitted (e : ExecutionAuthorizationEnvelope) (c : SpotOrderCommand)
  (observed_at : datetime) : method exec_state LiveCommandResult :=
  if negb (has_source x) then lift (Raise (RuntimeError "validated authorization source is unavailable"))
  else if negb (has_verifier x) then mret (result BLOCKED ["ORDER_DESTINATION_VERIFIER_UNAVAILABLE"] e c)
  else if negb (has_ledger x) then mret (result BLOCKED ["EXECUTION_AUTHORIZATION_LEDGER_UNAVAILABLE"] e c)
  else
    claimed ← claim_authorization e c observed_at;
    match claimed with
    | Some blocker => mret (result BLOCKED [blocker] e c)
    | None =>
        again ← resolve_authorization (authorization_id e);
        match again with
        | Some (Some r) =>
            if String.eqb (envelope_sha256 r) (envelope_sha256 e) then submit e c
            else mret (result BLOCKED ["EXECUTION_AUTHORIZATION_REVOKED_BEFORE_ATTEMPT"] e c)
        | _ => mret (result BLOCKED ["EXECUTION_AUTHORIZATION_REVOKED_BEFORE_ATTEMPT"] e c)
        end
    end.

(** [GatedSpotOrderExecutor.place]; [now] is what the clock would say. *)
Definition place (gate_input : LiveGateInput) (auth : option ExecutionAuthorizationEnvelope)
  (attempted_at : option datetime) (now : datetime) : method exec_state LiveCommandResult :=
  let observed_at := default now attempted_at in
  command ← lift (match auth with Some e => Some <$> to_spot_order_command e | None => Ok None end);
  found ← authorization_blockers auth observed_at;
  bound ← lift (match fst found, snd found with
                | [], Some r => _evidence_bound_gate_input x gate_input r observed_at
                | bl, _ => Ok (gate_input, bl)
                end);
  let gate := evaluate_live_gate (fst bound) in
  let blockers := (snd bound ++ gate_blockers gate)%list in
  if negb (bool_decide (gate_status gate = EXECUTION_ALLOWED)) || negb (is_nil blockers)
  then mret (refused blockers auth)
  else match auth, command with
       | None, _ => lift (Raise (RuntimeError "validated execution authorization is unavailable"))
       | _, None => lift (Raise (RuntimeError "authorized Spot order command is unavailable"))
       | Some e, Some c => place_admitted e c observed_at
       end.

(** [GatedSpotOrderExecutor.cancel] *)
Definition cancel (symbol client_order_id : string) (gate_input : LiveGateInput)
  : method exec_state LiveCommandResult :=
  let gate := evaluate_live_gate gate_input in
  let sym := normalize symbol in
  let client := strip client_order_id in
  let blockers := (gate_blockers gate ++
    block_if (negb (isascii sym) || negb (isalnum sym)) "ORDER_SYMBOL_INVALID" ++
    block_if (String.eqb client "" || negb (isascii client)) "CLIENT_ORDER_ID_INVALID")%list in
  let plain status bl := mk_result status bl client None None None None None None None in
  if negb (bool_decide (gate_status gate = EXECUTION_ALLOWED)) || negb (is_nil blockers)
  then mret (plain BLOCKED (fromkeys blockers))
  else if negb (has_verifier x) then mret (plain BLOCKED ["ORDER_DESTINATION_VERIFIER_UNAVAILABLE"])
  else
    let p := JObj [("symbol", JStr sym); ("origClientOrderId", JStr client)] in
    response ← ask (CCancel p) (fun l => on_cancel env l p);
    order_id ← lift (_exchange_order_id response);
    v ← ask (CVerifyCancelled sym client order_id)
          (fun l => on_verify_cancelled env l sym client order_id);
    mret (mk_result (if verified v then CANCELLED else UNVERIFIED_REVIEW_REQUIRED)
            (if verified v then [] else v_blockers v) client (Some order_id) None
            (observed_status v) (order_snapshot v) None None None).
End Execution.

(** ** Facts *)

Lemma try_bind {A} (m : method exec_state A) p s :
  attempt m p s = match m s with
               | (Ok a, s1) => (Ok (Some a), s1)
               | (Raise e, s1) => if p e then (Ok None, s1) else (Raise e, s1)
               end.
Proof. reflexivity. Qed.

(** What an open gate says of the evidence behind it. *)
Record evidence_ok (x : GatedSpotOrderExecutor) (g : LiveGateInput) (e : ExecutionAuthorizationEnvelope)
  (t : datetime) : Prop := mk_evidence_ok {
  ev_gate : all_met (with_evidence true true true true true g) = true;
  ev_found : exists query q eg pg v,
    promotion_query x = Some query /\ new_query (subject_key query) t = Ok q /\ same_subject q e = true /\
    live_gate_evidence_registry x = Some eg /\
    gate_resolve eg q (validation_bundle_hash e) = Ok v /\
    res_backtest v && res_walk_forward v && res_tuning v && res_oos v = true /\
    promotion_evidence_registry x = Some pg /\ resolve pg q = LIVE_ELIGIBLE
}.

Lemma evidence_bound_ok x g e t g' :
  _evidence_bound_gate_input x g e t = Ok (g', []) -> all_met g' = true -> evidence_ok x g e t.
Proof.
  unfold _evidence_bound_gate_input. cbv zeta. intros H Hg.
  destruct (promotion_query x) as [query|] eqn:Eq; [|done].
  apply bind_Ok in H as (q & Hq & H). destruct (same_subject q e) eqn:Es; [|done]. cbn [negb] in H.
  apply bind_Ok in H as (v & Hv & H). destruct (promotion_of x q) as [status pb] eqn:Ep.
  apply mret_Ok in H. injection H as <- Hb. apply (proj1 (fromkeys_nil _)) in Hb.
  apply app_eq_nil in Hb as [Hb1 Hb2]. pose proof (with_evidence_all_met _ _ _ _ _ _ Hg) as Hf.
  rewrite !andb_true_iff in Hf. destruct Hf as ((((F1 & F2) & F3) & F4) & F5).
  rewrite F1, F2, F3, F4, F5 in Hg. split; [exact Hg|].
  unfold validation_of in Hv. unfold promotion_of in Ep.
  destruct (live_gate_evidence_registry x) as [eg|] eqn:Ee; [|injection Hv as <-; discriminate Hb1].
  destruct (promotion_evidence_registry x) as [pg|]; [|injection Ep as <- <-; discriminate Hb2].
  injection Ep as <- <-. apply catch_Ok in Hv as [Hv|(err & _ & _ & Hv)];
    [|injection Hv as <-; discriminate Hb1].
  exists query, q, eg, pg, v. split; [done|]. split; [done|]. split; [done|]. split; [done|].
  split; [done|]. split; [by rewrite F1, F2, F3, F4|]. split; [done|].
  unfold is_live_eligible in F5. by apply bool_decide_eq_true in F5.
Qed.

Section Runs.
Context (env : Environment) (x : GatedSpotOrderExecutor).

(** The calls of [tl] after those of the state. *)
Definition after (s s1 : exec_state) (tl : list call) : Prop := log s1 = (log s ++ tl)%list.

Lemma resolve_run id s r s1 : resolve_authorization env id s = (r, s1) ->
  ledger s1 = ledger s /\ after s s1 [CResolve id] /\
  forall e, r = Ok (Some (Some e)) -> on_resolve env (log s) id = Ok (Some e).
Proof.
  unfold resolve_authorization, attempt, ask, after. destruct (on_resolve env (log s) id) as [o|err].
  - intros [= <- <-]. split; [done|]. split; [done|]. by intros e [= ->].
  - destruct (is_lookup_error err); intros [= <- <-]; done.
Qed.

Lemma authorization_blockers_run auth t s r s1 :
  authorization_blockers env x auth t s = (r, s1) ->
  ledger s1 = ledger s /\
  (exists tl, after s s1 tl /\ (tl = [] \/ exists e, auth = Some e /\ tl = [CResolve (authorization_id e)])) /\
  forall o, r = Ok ([], o) -> exists rr e c, o = Some rr /\ auth = Some e /\
    after s s1 [CResolve (authorization_id e)] /\
    on_resolve env (log s) (authorization_id e) = Ok (Some rr) /\
    envelope_sha256 rr = envelope_sha256 e /\
    to_spot_order_command e = Ok c /\ blockers_for e c t = Ok [].
Proof.
  unfold authorization_blockers. destruct auth as [e|];
    [|intros [= <- <-]; split; [done|]; split; [exists []; unfold after; rewrite app_nil_r; auto|done]].
  destruct (negb (has_source x));
    [intros [= <- <-]; split; [done|]; split; [exists []; unfold after; rewrite app_nil_r; auto|done]|].
  rewrite method_bind_run. destruct (resolve_authorization env (authorization_id e) s) as [o s2] eqn:E.
  apply resolve_run in E as (L & A & R).
  assert (exists tl, after s s2 tl /\ (tl = [] \/ exists e', Some e = Some e' /\ tl = [CResolve (authorization_id e')]))
    as Htl by eauto 6.
  destruct o as [[[rr|]|]|err]; try (intros [= <- <-]; split; [done|]; split; [done|done]).
  destruct (String.eqb (envelope_sha256 rr) (envelope_sha256 e)) eqn:Es; cbn [negb];
    [|intros [= <- <-]; split; [done|]; split; [done|done]].
  rewrite lift_bind. destruct (to_spot_order_command e) as [c|err] eqn:Ec;
    [|intros [= <- <-]; split; [done|]; split; [done|done]].
  rewrite lift_bind. destruct (blockers_for e c t) as [bl|err] eqn:Eb;
    intros [= <- <-]; (split; [done|]); (split; [done|]); [|done].
  intros o [= -> <-]. apply String.eqb_eq in Es. exists rr, e, c. eauto 10.
Qed.

Lemma claim_authorization_run e c t s r s1 : claim_authorization env e c t s = (r, s1) ->
  log s1 = log s /\ later (ledger s) (ledger s1) /\
  (r = Ok None -> exists k, claim e (client_order_id c) t (on_ledger env (log s)) (ledger s) = (Ok k, ledger s1)).
Proof.
  unfold claim_authorization.
  pose proof (later_claim (ledger s) (ledger s) e (client_order_id c) t (on_ledger env (log s))
    (later_refl _)) as Hl.
  destruct (claim e (client_order_id c) t (on_ledger env (log s)) (ledger s)) as [[k|err] tb]; cbn [snd] in Hl.
  - intros [= <- <-]. simpl. split; [done|]. split; [done|]. eauto.
  - destruct err; intros [= <- <-]; simpl; done.
Qed.

(** The three ways the exchange can have been reached. *)
Definition contacted (c : SpotOrderCommand) (tl : list call) : Prop :=
  tl = [CTest (payload c)] \/ tl = [CTest (payload c); CPlace (payload c)] \/
  exists oid, tl = [CTest (payload c); CPlace (payload c); CVerifyPlaced c oid].

Lemma contact_run c s r s1 : contact env c s = (r, s1) ->
  ledger s1 = ledger s /\ exists tl, after s s1 tl /\ contacted c tl /\
  forall oid v, r = Ok (oid, v) ->
    tl = [CTest (payload c); CPlace (payload c); CVerifyPlaced c oid] /\
    on_verify_placed env (log s ++ [CTest (payload c); CPlace (payload c)]) c oid = Ok v.
Proof.
  unfold contact. cbv zeta. set (p := payload c). rewrite method_bind_run. unfold ask at 1.
  unfold contacted, after.
  destruct (on_test env (log s) p);
    [|intros [= <- <-]; simpl; split; [done|]; exists [CTest p]; split; [done|]; split; [auto|done]].
  cbn [log ledger]. rewrite method_bind_run. unfold ask at 1. cbn [log ledger].
  assert (((log s ++ [CTest p]) ++ [CPlace p] = log s ++ [CTest p; CPlace p])%list) as E1
    by by rewrite <- app_assoc.
  destruct (on_place env (log s ++ [CTest p]) p) as [resp|err];
    [|intros [= <- <-]; simpl; split; [done|]; exists [CTest p; CPlace p]; split; [done|]; split; [auto|done]].
  rewrite lift_bind. destruct (_exchange_order_id resp) as [oid|err];
    [|intros [= <- <-]; simpl; split; [done|]; exists [CTest p; CPlace p]; split; [done|]; split; [auto|done]].
  rewrite method_bind_run. unfold ask. cbn [log ledger]. rewrite E1.
  assert (((log s ++ [CTest p; CPlace p]) ++ [CVerifyPlaced c oid] =
    log s ++ [CTest p; CPlace p; CVerifyPlaced c oid])%list) as E2 by by rewrite <- app_assoc.
  destruct (on_verify_placed env (log s ++ [CTest p; CPlace p]) c oid) as [v|err] eqn:Ev;
    intros [= <- <-]; simpl; (split; [done|]); exists [CTest p; CPlace p; CVerifyPlaced c oid];
    (split; [done|]); (split; [eauto|]); [|done]. by intros o w [= <- <-].
Qed.

Lemma submit_run e c s r s1 : submit env e c s = (r, s1) ->
  ledger s1 = ledger s /\ exists tl v, after s s1 tl /\ contacted c tl /\ r = Ok v /\ r_status v <> BLOCKED /\
  (r_status v = SUBMITTED -> exists oid w,
     tl = [CTest (payload c); CPlace (payload c); CVerifyPlaced c oid] /\
     on_verify_placed env (log s ++ [CTest (payload c); CPlace (payload c)]) c oid = Ok w /\
     verified w = true).
Proof.
  unfold submit. rewrite method_bind_run, try_bind.
  destruct (contact env c s) as [[[oid w]|err] s2] eqn:E; apply contact_run in E as (L & tl & A & C & V).
  - intros [= <- <-]. split; [done|]. eexists tl, _. split; [done|]. split; [done|].
    split; [reflexivity|]. cbn [r_status]. destruct (V oid w eq_refl) as [V1 V2].
    destruct (verified w) eqn:Ew; [|done]. split; [done|]. eauto.
  - intros [= <- <-]. split; [done|]. eexists tl, _. split; [done|]. split; [done|].
    split; [reflexivity|]. done.
Qed.

(** The admitted part: refused without contact, or claimed, confirmed and
    submitted. *)
Lemma place_admitted_run e c t s r s1 : place_admitted env x e c t s = (r, s1) ->
  (later (ledger s) (ledger s1) /\
   (log s1 = log s \/ after s s1 [CResolve (authorization_id e)]) /\
   match r with Ok v => r_status v = BLOCKED | Raise _ => True end) \/
  exists k rr tl v, claim e (client_order_id c) t (on_ledger env (log s)) (ledger s) = (Ok k, ledger s1) /\
    on_resolve env (log s) (authorization_id e) = Ok (Some rr) /\ envelope_sha256 rr = envelope_sha256 e /\
    after s s1 (CResolve (authorization_id e) :: tl) /\ contacted c tl /\ r = Ok v /\ r_status v <> BLOCKED /\
    (r_status v = SUBMITTED -> exists oid w,
       tl = [CTest (payload c); CPlace (payload c); CVerifyPlaced c oid] /\
       on_verify_placed env
         (log s ++ [CResolve (authorization_id e); CTest (payload c); CPlace (payload c)]) c oid = Ok w /\
       verified w = true).
Proof.
  unfold place_admitted. destruct (negb (has_source x)); [intros [= <- <-]; left; eauto using later_refl|].
  destruct (negb (has_verifier x)); [intros [= <- <-]; left; eauto using later_refl|].
  destruct (negb (has_ledger x)); [intros [= <- <-]; left; eauto using later_refl|].
  rewrite method_bind_run. destruct (claim_authorization env e c t s) as [[[b|]|err] s2] eqn:Ec;
    apply claim_authorization_run in Ec as (L & Hl & K); [intros [= <- <-]; left; eauto| |intros [= <- <-]; left; eauto].
  destruct (K eq_refl) as (k & Hk). rewrite method_bind_run.
  destruct (resolve_authorization env (authorization_id e) s2) as [o s3] eqn:Er.
  apply resolve_run in Er as (L2 & A & R). rewrite L in R. unfold after in *. rewrite L in A.
  destruct o as [[[rr|]|]|err]; try (intros [= <- <-]; left; rewrite L2; auto).
  destruct (String.eqb (envelope_sha256 rr) (envelope_sha256 e)) eqn:Es;
    [|intros [= <- <-]; left; rewrite L2; auto].
  intros H. apply submit_run in H as (L3 & tl & v & A3 & C & Hv & Hn & S). right.
  unfold after in A3. rewrite A, <- app_assoc in A3. apply String.eqb_eq in Es.
  exists k, rr, tl, v. rewrite L3, L2. split; [done|]. split; [auto|]. split; [done|]. split; [done|].
  split; [done|]. split; [done|]. split; [done|]. intros Hs. destruct (S Hs) as (oid & w & S1 & S2 & S3).
  exists oid, w. split; [done|]. split; [|done]. by rewrite A, <- app_assoc in S2.
Qed.
End Runs.

(** Everything that holds of a placement that reached the exchange. *)
Record authorized (env : Environment) (x : GatedSpotOrderExecutor) (g : LiveGateInput)
  (auth : option ExecutionAuthorizationEnvelope) (t : datetime) (s s1 : exec_state)
  (e : ExecutionAuthorizationEnvelope) (c : SpotOrderCommand) : Prop := mk_authorized {
  az_given : auth = Some e;
  az_command : to_spot_order_command e = Ok c;
  az_window : instant (created_at e) <= instant t < instant (expires_at e);
  az_preview : auth_preview_hash e = preview_hash c;
  az_approved : exists rr, on_resolve env (log s) (authorization_id e) = Ok (Some rr) /\
    envelope_sha256 rr = envelope_sha256 e /\ evidence_ok x g rr t;
  az_confirmed : exists rr,
    on_resolve env (log s ++ [CResolve (authorization_id e)]) (authorization_id e) = Ok (Some rr) /\
    envelope_sha256 rr = envelope_sha256 e;
  az_claimed : exists k f, claim e (client_order_id c) t f (ledger s) = (Ok k, ledger s1)
}.

(** A run of [place] reached nothing and was refused, or is authorized. *)
Lemma place_run env x g auth at_ now s r s1 :
  place env x g auth at_ now s = (r, s1) ->
  (later (ledger s) (ledger s1) /\
   (exists tl, after s s1 tl /\ existsb is_session tl = false) /\
   match r with Ok v => r_status v = BLOCKED | Raise _ => True end) \/
  exists e c tl v, authorized env x g auth (default now at_) s s1 e c /\
    after s s1 (CResolve (authorization_id e) :: CResolve (authorization_id e) :: tl) /\
    contacted c tl /\ r = Ok v /\ r_status v <> BLOCKED /\
    (r_status v = SUBMITTED -> exists oid w prior,
       tl = [CTest (payload c); CPlace (payload c); CVerifyPlaced c oid] /\
       on_verify_placed env prior c oid = Ok w /\ verified w = true).
Proof.
  unfold place. cbv zeta. set (t := default now at_). rewrite lift_bind.
  assert (forall e, existsb is_session [CResolve e] = false) as Hres by done.
  assert (exists tl, after s s tl /\ existsb is_session tl = false) as A0
    by (exists []; unfold after; by rewrite app_nil_r).
  destruct (match auth with Some e => Some <$> to_spot_order_command e | None => Ok None end) as [cmd|err] eqn:Ecmd;
    [|intros [= <- <-]; left; split; [apply later_refl|]; split; [exact A0|exact I]].
  rewrite method_bind_run. destruct (authorization_blockers env x auth t s) as [[[bl rr]|err] s2] eqn:Ea;
    apply authorization_blockers_run in Ea as (L & (tl & A & Htl) & R);
    assert (later (ledger s) (ledger s2) /\ (exists tl, after s s2 tl /\ existsb is_session tl = false))
      as [Bl1 Bl2] by (rewrite L; split; [apply later_refl|]; exists tl; split; [exact A|];
                       destruct Htl as [->|(e & _ & ->)]; reflexivity);
    [|intros [= <- <-]; left; split; [exact Bl1|]; split; [exact Bl2|exact I]].
  cbn [fst snd]. rewrite lift_bind.
  destruct (match bl with [] => _ | _ => _ end) as [[g' bl']|err] eqn:Ev;
    [|intros [= <- <-]; left; split; [exact Bl1|]; split; [exact Bl2|exact I]].
  cbn [fst snd].
  remember (evaluate_live_gate g') as gate eqn:Egate.
  destruct (bool_decide (gate_status gate = EXECUTION_ALLOWED)) eqn:Hg;
    cbn [negb orb]; [|intros [= <- <-]; left; split; [exact Bl1|]; split; [exact Bl2|reflexivity]].
  destruct (bl' ++ gate_blockers gate)%list eqn:Eb; cbn [is_nil negb];
    [|intros [= <- <-]; left; split; [exact Bl1|]; split; [exact Bl2|reflexivity]].
  apply app_eq_nil in Eb as [-> Eb].
  apply bool_decide_eq_true in Hg. rewrite Egate in Hg. apply gate_open in Hg.
  destruct bl as [|b bl]; [|destruct rr; done].
  destruct (R rr eq_refl) as (r0 & e & c & -> & -> & A2 & R1 & R2 & R3 & R4).
  pose proof (evidence_bound_ok _ _ _ _ _ Ev Hg) as He. rewrite R3 in Ecmd. injection Ecmd as <-.
  apply (blockers_nil e c t []) in R4 as [R4 _]. destruct (R4 eq_refl) as [Hw Hc].
  assert (auth_preview_hash e = preview_hash c) as Hp.
  { unfold comparisons in Hc. cbn [forallb fst] in Hc. apply andb_true_iff in Hc as [Hc _].
    by apply String.eqb_eq in Hc. }
  intros H. apply place_admitted_run in H as [(P1 & P2 & P3)|(k & rr & tl2 & v & P1 & P2 & P3 & P4 & P5 & P6 & P7 & P8)].
  - left. rewrite L in P1. split; [exact P1|]. split; [|exact P3]. unfold after in *.
    destruct P2 as [P2|P2]; rewrite P2, A2, <- ?app_assoc; eexists; (split; [reflexivity|]); reflexivity.
  - right. unfold after in *. rewrite A2, <- app_assoc in P4. rewrite L in P1. rewrite A2 in P2.
    exists e, c, tl2, v. split; [|split; [exact P4|split; [exact P5|split; [exact P6|split; [exact P7|]]]]].
    + split; try done; eauto.
    + intros Hs. destruct (P8 Hs) as (oid & w & S1 & S2 & S3). exists oid, w. eexists. eauto.
Qed.

(** ** Properties *)

(** C1: the exchange is reached only for an authorized order.  If a call of
    [place] contacts order entry at all, it was given an authorization that
    converts to a command; the observation lies in the authorization's window and
    the approved preview hash is the command's; the source returned a record of
    the same hash before the claim and again after it; every prerequisite of the
    live gate held, the validation and promotion facts proved by the registries
    for the exact subject; the single-use claim was won; and what was sent is one
    order test of exactly that command's payload, then at most one placement of
    it, then at most one verification. *)
Theorem exchange_contact_authorized env x g auth at_ now s r s1 tl :
  place env x g auth at_ now s = (r, s1) -> log s1 = (log s ++ tl)%list ->
  existsb is_session tl = true ->
  exists e c tl2, authorized env x g auth (default now at_) s s1 e c /\
    tl = CResolve (authorization_id e) :: CResolve (authorization_id e) :: tl2 /\ contacted c tl2.
Proof.
  intros H Hl Hs. apply place_run in H as [(_ & (tl' & A & N) & _)|(e & c & tl2 & v & Az & A & C & _)];
    unfold after in A; rewrite Hl in A; apply app_inv_head in A; subst tl.
  - by rewrite N in Hs.
  - exists e, c, tl2. done.
Qed.

(** C5: an authorization reaches the exchange at most once.  After a placement
    that contacted order entry, and whatever claims follow on the ledger, no
    placement under the same authorization id or nonce, through any executor and
    whatever the outside answers, contacts order entry again. *)
Theorem authorization_places_once env x g auth at_ now s r s1 tl e
    env' x' g' e' at' now' s2 r' s3 tl' :
  place env x g auth at_ now s = (r, s1) -> log s1 = (log s ++ tl)%list ->
  existsb is_session tl = true -> auth = Some e ->
  later (ledger s1) (ledger s2) ->
  authorization_id e' = authorization_id e \/ single_use_nonce e' = single_use_nonce e ->
  place env' x' g' (Some e') at' now' s2 = (r', s3) -> log s3 = (log s2 ++ tl')%list ->
  existsb is_session tl' = false.
Proof.
  intros H Hl Hs -> Hlat Hid H' Hl'.
  apply place_run in H as [(_ & (t0 & A & N) & _)|(e0 & c & tl2 & v & Az & _)].
  { unfold after in A. rewrite Hl in A. apply app_inv_head in A. congruence. }
  apply place_run in H' as [(_ & (t0 & A & N) & _)|(e1 & c1 & tl3 & v1 & Az1 & _)].
  { unfold after in A. rewrite Hl' in A. apply app_inv_head in A. congruence. }
  exfalso. destruct (az_claimed _ _ _ _ _ _ _ _ _ Az) as (k & f & Hc).
  destruct (az_claimed _ _ _ _ _ _ _ _ _ Az1) as (k1 & f1 & Hc1).
  pose proof (az_given _ _ _ _ _ _ _ _ _ Az) as [= <-].
  pose proof (az_given _ _ _ _ _ _ _ _ _ Az1) as [= <-].
  apply claim_run in Hc as [[_ (err & ?)]|(exec & a & Ht & _)]; [done|].
  apply claim_run in Hc1 as [[_ (err & ?)]|(_ & _ & _ & Hn)]; [done|].
  assert (In (claim_row e exec a) (ledger s2)) as Hin.
  { eapply later_incl; [exact Hlat|]. rewrite Ht. apply in_app_iff. right. by left. }
  apply conflicts_false in Hn as [N1 N2]. destruct Hid as [E|E].
  - apply N1. rewrite E. apply in_map_iff. by exists (claim_row e exec a).
  - apply N2. rewrite E. apply in_map_iff. by exists (claim_row e exec a).
Qed.

(** C10: the status of a placement is truthful.  BLOCKED is returned exactly when
    order entry was not contacted, and SUBMITTED only after the order was placed
    with the exchange and the verifier confirmed it there; every failure after
    the first contact is reported as an unverified attempt, never raised. *)
Theorem place_status_truthful env x g auth at_ now s r s1 tl :
  place env x g auth at_ now s = (r, s1) -> log s1 = (log s ++ tl)%list ->
  (existsb is_session tl = true -> exists v, r = Ok v) /\
  forall v, r = Ok v ->
  (r_status v = BLOCKED <-> existsb is_session tl = false) /\
  (r_status v = SUBMITTED -> exists e c oid w prior, auth = Some e /\ to_spot_order_command e = Ok c /\
     In (CPlace (payload c)) tl /\ on_verify_placed env prior c oid = Ok w /\ verified w = true).
Proof.
  intros H Hl. apply place_run in H as [(_ & (tl' & A & N) & B)|(e & c & tl2 & v & Az & A & C & -> & Hn & S)];
    unfold after in A; rewrite Hl in A; apply app_inv_head in A; subst tl.
  - rewrite N. split; [done|]. intros v ->. rewrite B. split; [done|]. done.
  - split; [eauto|]. intros w [= <-]. split.
    + split; [done|]. destruct C as [->|[->|(oid & ->)]]; cbn; done.
    + intros Hs. destruct (S Hs) as (oid & w & prior & -> & V & Vw). exists e, c, oid, w, prior.
      split; [by apply (az_given _ _ _ _ _ _ _ _ _ Az)|].
      split; [by apply (az_command _ _ _ _ _ _ _ _ _ Az)|]. split; [|done]. simpl. auto.
Qed.

(** ** Witnesses *)

Definition ex_gate_input : LiveGateInput :=
  mk_gate_input true true true true true true true true true true true true true true true true true
    true true true true true true false false false false true false true true true true true true.
Definition ex_bound_args : EnvelopeArgs :=
  mk_args "auth-1" "approval-1" (preview_hash ex_command) "decision-1" "snapshot-1" "strategy-1" "1"
    "BTCUSDT" "SPOT" "BUY" "LIMIT" (Finite (lit 5 (-1))) "client-1" ex_hash ex_bundle
    (utc 0) (utc (seconds 60)) "operator" "nonce-1" (Some (Finite (lit 64000 0))) (Some "GTC")
    false LIVE_ORDER_BLOCKED.
Definition ex_bound : ExecutionAuthorizationEnvelope := Eval vm_compute in
  match new_envelope ex_bound_args with Ok e => e | Raise _ => no_envelope end.
Definition ex_executor : GatedSpotOrderExecutor :=
  mk_executor true true true (Some ex_gate_registry) (Some ex_registry) (Some ex_query).
Definition ex_environment : Environment :=
  mk_environment (fun _ _ => Ok (Some ex_bound)) (fun _ => None) (fun _ _ => Ok (JObj []))
    (fun _ _ => Ok (JObj [("orderId", JInt 7)])) (fun _ _ => Raise OSError)
    (fun _ c oid => verify_placed (JList [JObj [("clientOrderId", JStr (client_order_id c));
       ("orderId", JInt 7); ("status", JStr "new")]]) c oid)
    (fun _ _ _ _ => Raise OSError).
Definition ex_start : exec_state := mk_exec [] [].
Definition ex_run : res LiveCommandResult * exec_state := Eval vm_compute in
  place ex_environment ex_executor ex_gate_input (Some ex_bound) (Some (utc (seconds 30))) (utc 0) ex_start.
Definition ex_again : res LiveCommandResult * exec_state := Eval vm_compute in
  place ex_environment ex_executor ex_gate_input (Some ex_bound) (Some (utc (seconds 31))) (utc 0) (snd ex_run).

Lemma ex_run_eq : place ex_environment ex_executor ex_gate_input (Some ex_bound)
  (Some (utc (seconds 30))) (utc 0) ex_start = ex_run.
Proof. vm_compute. reflexivity. Qed.
Lemma ex_again_eq : place ex_environment ex_executor ex_gate_input (Some ex_bound)
  (Some (utc (seconds 31))) (utc 0) (snd ex_run) = ex_again.
Proof. vm_compute. reflexivity. Qed.

(** The first attempt is submitted, the second refused by the ledger. *)
Example ex_statuses :
  match fst ex_run, fst ex_again with
  | Ok a, Ok b => (r_status a, r_exchange_order_id a, r_exchange_status a, r_status b, r_blockers b)
  | _, _ => (BLOCKED, None, None, BLOCKED, [])
  end = (SUBMITTED, Some "7", Some "NEW", BLOCKED, ["EXECUTION_AUTHORIZATION_ALREADY_CONSUMED"]).
Proof. reflexivity. Qed.

Lemma exchange_contact_authorized_witness :
  exists e c, authorized ex_environment ex_executor ex_gate_input (Some ex_bound) (utc (seconds 30))
    ex_start (snd ex_run) e c.
Proof.
  edestruct (exchange_contact_authorized ex_environment ex_executor ex_gate_input (Some ex_bound)
    (Some (utc (seconds 30))) (utc 0) ex_start (fst ex_run) (snd ex_run)) as (e & c & tl2 & H & _);
    [exact ex_run_eq | reflexivity | reflexivity |]. eauto.
Defined.

Lemma authorization_places_once_witness : log (snd ex_again) = log (snd ex_run) ++ [CResolve "auth-1"] /\
  existsb is_session [CResolve "auth-1"] = false.
Proof.
  split; [reflexivity|].
  eapply (authorization_places_once ex_environment ex_executor ex_gate_input (Some ex_bound)
    (Some (utc (seconds 30))) (utc 0) ex_start (fst ex_run) (snd ex_run) (log (snd ex_run)) ex_bound
    ex_environment ex_executor ex_gate_input ex_bound (Some (utc (seconds 31))) (utc 0) (snd ex_run)
    (fst ex_again) (snd ex_again));
  [exact ex_run_eq | reflexivity | reflexivity | reflexivity | apply later_refl | left; reflexivity
  | exact ex_again_eq | reflexivity].
Defined.

Lemma place_status_truthful_witness :
  exists w prior c oid, on_verify_placed ex_environment prior c oid = Ok w /\ verified w = true.
Proof.
  destruct (place_status_truthful ex_environment ex_executor ex_gate_input (Some ex_bound)
    (Some (utc (seconds 30))) (utc 0) ex_start (fst ex_run) (snd ex_run) (log (snd ex_run))
    ex_run_eq eq_refl) as [H1 H2].
  destruct (H1 eq_refl) as (v & Hv). destruct (H2 v Hv) as [_ H3].
  assert (r_status v = SUBMITTED) as Hs by (injection Hv as <-; reflexivity).
  destruct (H3 Hs) as (e & c & oid & w & prior & _ & _ & _ & V1 & V2). eauto 6.
Defined.
