(* ===== verification/LiveOrder.v ===== *)
(** [execution/live_order_lifecycle.py]: the replayable lifecycle of a live
    order, its stage evidence, and the event chain written for the outcome of a
    placement.  The two authority fields of a record keep their defaults in
    every construction of the code and are left out. *)
From S2P Require Import Prelude PyDecimal DecimalFacts DecimalText PyText Domain OrderCommand.
From S2P Require Import Authorization Executor Events.
From Stdlib Require Import QArith Lqa.
Local Open Scope Z_scope.
Local Open Scope bool_scope.

(** ** Stages and events *)

Inductive LiveOrderLifecycleStage : Type :=
  | St_DRAFT | St_PREVIEWED | St_PROMOTION_REQUIRED | St_HUMAN_APPROVAL_REQUIRED |
  St_READY_FOR_SUBMISSION | St_SUBMISSION_ATTEMPT_FAILED_REVIEW_REQUIRED | St_SUBMITTED |
  St_ACCEPTED | St_PARTIALLY_FILLED | St_FILLED | St_CANCEL_REQUESTED | St_CANCELLED | St_REJECTED
  | St_EXPIRED.
#[export] Instance stage_eq_dec : EqDecision LiveOrderLifecycleStage.
Proof. solve_decision. Defined.

Inductive LiveOrderLifecycleEvent : Type :=
  | Ev_PREVIEWED | Ev_PROMOTION_REQUESTED | Ev_HUMAN_APPROVAL_REQUESTED | Ev_HUMAN_APPROVED |
  Ev_SUBMISSION_ATTEMPT_FAILED | Ev_SUBMITTED | Ev_ACCEPTED | Ev_PARTIALLY_FILLED | Ev_FILLED |
  Ev_CANCEL_REQUESTED | Ev_CANCELLED | Ev_REJECTED | Ev_EXPIRED.
#[export] Instance life_event_eq_dec : EqDecision LiveOrderLifecycleEvent.
Proof. solve_decision. Defined.
#[export, refine] Instance life_event_enum : StrEnum LiveOrderLifecycleEvent := {
  members := [Ev_PREVIEWED; Ev_PROMOTION_REQUESTED; Ev_HUMAN_APPROVAL_REQUESTED; Ev_HUMAN_APPROVED; Ev_SUBMISSION_ATTEMPT_FAILED; Ev_SUBMITTED; Ev_ACCEPTED; Ev_PARTIALLY_FILLED; Ev_FILLED; Ev_CANCEL_REQUESTED; Ev_CANCELLED; Ev_REJECTED; Ev_EXPIRED];
  enum_text e := match e with
    | Ev_PREVIEWED => "LIVE_ORDER_PREVIEWED"
    | Ev_PROMOTION_REQUESTED => "LIVE_ORDER_PROMOTION_REQUESTED"
    | Ev_HUMAN_APPROVAL_REQUESTED => "LIVE_ORDER_HUMAN_APPROVAL_REQUESTED"
    | Ev_HUMAN_APPROVED => "LIVE_ORDER_HUMAN_APPROVED"
    | Ev_SUBMISSION_ATTEMPT_FAILED => "LIVE_ORDER_SUBMISSION_ATTEMPT_FAILED_REVIEW_REQUIRED"
    | Ev_SUBMITTED => "LIVE_ORDER_SUBMITTED"
    | Ev_ACCEPTED => "LIVE_ORDER_ACCEPTED"
    | Ev_PARTIALLY_FILLED => "LIVE_ORDER_PARTIALLY_FILLED"
    | Ev_FILLED => "LIVE_ORDER_FILLED"
    | Ev_CANCEL_REQUESTED => "LIVE_ORDER_CANCEL_REQUESTED"
    | Ev_CANCELLED => "LIVE_ORDER_CANCELLED"
    | Ev_REJECTED => "LIVE_ORDER_REJECTED"
    | Ev_EXPIRED => "LIVE_ORDER_EXPIRED"
    end
}.
Proof. all: solve_enum. Defined.

Record LiveOrderLifecycleRecord : Type := mk_live {
  lo_order_id : string;
  lo_symbol : string;
  lo_stage : LiveOrderLifecycleStage;
  lo_preview_hash : string;
  lo_promotion_status : ValidationStatus;
  lo_requested_quantity : option dec;
  lo_approval_id : option string;
  lo_authorization_id : option string;
  lo_authorization_envelope_sha256 : option string;
  lo_promoted_at : option datetime;
  lo_human_approval_requested_at : option datetime;
  lo_human_approved_at : option datetime;
  lo_submission_attempted_at : option datetime;
  lo_submitted_at : option datetime;
  lo_accepted_at : option datetime;
  lo_filled_quantity : dec;
  lo_average_fill_price : dec;
  lo_last_sequence : Z
}.

(** [stage in {...}] *)
Definition in_stages (s : LiveOrderLifecycleStage) (l : list LiveOrderLifecycleStage) : bool :=
  existsb (fun x => bool_decide (s = x)) l.

Definition missing {A} (o : option A) : bool := match o with None => true | Some _ => false end.

(** The stage sets of [_validate_stage_evidence]. *)
Definition promoted_stages : list LiveOrderLifecycleStage :=
  [St_PREVIEWED; St_PROMOTION_REQUIRED; St_HUMAN_APPROVAL_REQUIRED; St_READY_FOR_SUBMISSION;
   St_SUBMISSION_ATTEMPT_FAILED_REVIEW_REQUIRED; St_SUBMITTED; St_ACCEPTED; St_PARTIALLY_FILLED;
   St_FILLED; St_CANCEL_REQUESTED; St_CANCELLED].
Definition requested_stages : list LiveOrderLifecycleStage :=
  [St_HUMAN_APPROVAL_REQUIRED; St_READY_FOR_SUBMISSION;
   St_SUBMISSION_ATTEMPT_FAILED_REVIEW_REQUIRED; St_SUBMITTED; St_ACCEPTED; St_PARTIALLY_FILLED;
   St_FILLED; St_CANCEL_REQUESTED; St_CANCELLED].
Definition approved_stages : list LiveOrderLifecycleStage :=
  [St_READY_FOR_SUBMISSION; St_SUBMISSION_ATTEMPT_FAILED_REVIEW_REQUIRED; St_SUBMITTED;
   St_ACCEPTED; St_PARTIALLY_FILLED; St_FILLED; St_CANCEL_REQUESTED; St_CANCELLED].
Definition submitted_stages : list LiveOrderLifecycleStage :=
  [St_SUBMITTED; St_ACCEPTED; St_PARTIALLY_FILLED; St_FILLED; St_CANCEL_REQUESTED; St_CANCELLED].
Definition accepted_stages : list LiveOrderLifecycleStage :=
  [St_ACCEPTED; St_PARTIALLY_FILLED; St_FILLED; St_CANCEL_REQUESTED; St_CANCELLED].
Definition filled_stages : list LiveOrderLifecycleStage :=
  [St_PARTIALLY_FILLED; St_FILLED; St_CANCEL_REQUESTED; St_CANCELLED].

(** [_validate_stage_evidence] *)
Definition _validate_stage_evidence (r : LiveOrderLifecycleRecord) : res unit :=
  let s := lo_stage r in
  if bool_decide (s = St_DRAFT) then Ok tt else
  raise_if (in_stages s promoted_stages && missing (lo_promoted_at r))
    (ValueError "promoted live orders require promotion evidence");;
  raise_if (in_stages s requested_stages && missing (lo_human_approval_requested_at r))
    (ValueError "human approval requested live orders require request evidence");;
  raise_if (in_stages s approved_stages && missing (lo_human_approved_at r))
    (ValueError "approved live orders require approval evidence");;
  raise_if (in_stages s approved_stages
            && (missing (lo_authorization_id r) || missing (lo_authorization_envelope_sha256 r)))
    (ValueError "approved live orders require exact authorization evidence");;
  raise_if (bool_decide (s = St_SUBMISSION_ATTEMPT_FAILED_REVIEW_REQUIRED)
            && missing (lo_submission_attempted_at r))
    (ValueError "failed live order attempts require an attempt timestamp");;
  raise_if (in_stages s submitted_stages && missing (lo_submitted_at r))
    (ValueError "submitted live orders require a submission timestamp");;
  raise_if (in_stages s accepted_stages && missing (lo_accepted_at r))
    (ValueError "accepted or terminal live orders require acceptance evidence");;
  raise_if (in_stages s filled_stages && missing (lo_requested_quantity r))
    (ValueError "filled live orders require requested quantity evidence");;
  match lo_requested_quantity r with
  | None => Ok tt
  | Some q =>
      raise_if (in_stages s [St_PARTIALLY_FILLED; St_FILLED] && (q <? lo_filled_quantity r)%D)
        (ValueError "live order fills cannot exceed requested quantity");;
      raise_if (bool_decide (s = St_FILLED) && negb (lo_filled_quantity r =? q)%D)
        (ValueError "filled live orders must match requested quantity")
  end.

(** [_validate_fill_geometry] *)
Definition _validate_fill_geometry (r : LiveOrderLifecycleRecord) : res unit :=
  if (lo_filled_quantity r =? ZERO)%D then Ok tt
  else raise_if (negb (in_stages (lo_stage r) filled_stages))
         (ValueError "fill evidence is only allowed after submission").

Definition set_symbol (sym : string) (r : LiveOrderLifecycleRecord) : LiveOrderLifecycleRecord :=
  mk_live (lo_order_id r) sym (lo_stage r) (lo_preview_hash r) (lo_promotion_status r)
    (lo_requested_quantity r) (lo_approval_id r) (lo_authorization_id r)
    (lo_authorization_envelope_sha256 r) (lo_promoted_at r) (lo_human_approval_requested_at r)
    (lo_human_approved_at r) (lo_submission_attempted_at r) (lo_submitted_at r) (lo_accepted_at
    r) (lo_filled_quantity r) (lo_average_fill_price r) (lo_last_sequence r).

(** [LiveOrderLifecycleRecord(...)] with [__post_init__], also run by every
    [replace]. *)
Definition new_live (r : LiveOrderLifecycleRecord) : res LiveOrderLifecycleRecord :=
  raise_if (blank (lo_order_id r) || blank (lo_symbol r) || blank (lo_preview_hash r))
    (ValueError "live order lifecycle identity is required");;
  let r := set_symbol (normalize (lo_symbol r)) r in
  raise_if (match lo_requested_quantity r with Some q => (q <=? ZERO)%D | None => false end)
    (ValueError "requested_quantity must be positive");;
  raise_if ((lo_filled_quantity r <? ZERO)%D || (lo_average_fill_price r <? ZERO)%D)
    (ValueError "live order fill evidence cannot be negative");;
  raise_if (lo_last_sequence r <? 0) (ValueError "live order lifecycle sequence cannot be negative");;
  raise_if (negb (eqb (missing (lo_authorization_id r)) (missing (lo_authorization_envelope_sha256 r))))
    (ValueError "live order authorization evidence must be complete");;
  raise_if (match lo_promotion_status r with UNVALIDATED | REJECTED => true | _ => false end)
    (ValueError "live order promotion status is invalid");;
  _validate_stage_evidence r;;
  _validate_fill_geometry r;;
  mret r.

(** ** The state machine *)

Definition life_required (value : option string) (name : string) : res string :=
  match value with
  | Some v => raise_if (blank v) (ValueError (name ++ " is required"));; mret (strip v)
  | None => Raise (ValueError (name ++ " is required"))
  end.

(** [_positive_decimal] of [str(value)] *)
Definition life_positive (value name : string) : res dec :=
  match parse_decimal value with
  | None => Raise (ValueError (name ++ " must be decimal-compatible"))
  | Some (Finite d) => if (d <=? ZERO)%D then Raise (ValueError (name ++ " must be positive")) else Ok d
  | Some _ => Raise (ValueError (name ++ " must be positive"))
  end.

Definition _decimal_or_none (value : option string) (name : string) : res (option dec) :=
  match value with None => Ok None | Some v => Some <$> life_positive v name end.

Definition life_identity (r : LiveOrderLifecycleRecord) (e : DomainEvent) : res unit :=
  raise_if (negb (String.eqb (aggregate_id e) (lo_order_id r)))
    (ValueError "live order event aggregate identity mismatch");;
  raise_if (negb (sequence e =? lo_last_sequence r + 1))
    (ValueError "live order event sequence is not contiguous").

(** A payload field that is present and differs from the recorded one. *)
Definition disagrees (given recorded : option string) : bool :=
  match given, recorded with Some a, Some b => negb (String.eqb a b) | _, _ => false end.

(** [_validate_symbol_and_preview_hash] *)
Definition life_subject (r : LiveOrderLifecycleRecord) (e : DomainEvent) : res unit :=
  raise_if (disagrees (option_map normalize (payload_get e "symbol")) (Some (lo_symbol r)))
    (ValueError "live order symbol mismatch");;
  raise_if (disagrees (payload_get e "preview_hash") (Some (lo_preview_hash r)))
    (ValueError "live order preview hash mismatch");;
  raise_if (disagrees (payload_get e "authorization_id") (lo_authorization_id r))
    (ValueError "live order authorization ID mismatch");;
  raise_if (disagrees (payload_get e "authorization_envelope_sha256") (lo_authorization_envelope_sha256 r))
    (ValueError "live order authorization envelope mismatch").

Definition _require_stage (r : LiveOrderLifecycleRecord) (allowed : list LiveOrderLifecycleStage) : res unit :=
  raise_if (negb (in_stages (lo_stage r) allowed)) (ValueError "illegal live order state transition").

(** The changes of the transitions, before [replace] validates them. *)
Definition move (stg : LiveOrderLifecycleStage) (seq : Z) (r : LiveOrderLifecycleRecord) : LiveOrderLifecycleRecord :=
  mk_live (lo_order_id r) (lo_symbol r) stg (lo_preview_hash r) (lo_promotion_status r)
    (lo_requested_quantity r) (lo_approval_id r) (lo_authorization_id r)
    (lo_authorization_envelope_sha256 r) (lo_promoted_at r) (lo_human_approval_requested_at r)
    (lo_human_approved_at r) (lo_submission_attempted_at r) (lo_submitted_at r) (lo_accepted_at
    r) (lo_filled_quantity r) (lo_average_fill_price r) seq.
Definition promote (at_ : datetime) (r : LiveOrderLifecycleRecord) : LiveOrderLifecycleRecord :=
  mk_live (lo_order_id r) (lo_symbol r) (lo_stage r) (lo_preview_hash r) STAGED_CANDIDATE
    (lo_requested_quantity r) (lo_approval_id r) (lo_authorization_id r)
    (lo_authorization_envelope_sha256 r) (Some at_) (lo_human_approval_requested_at r)
    (lo_human_approved_at r) (lo_submission_attempted_at r) (lo_submitted_at r) (lo_accepted_at
    r) (lo_filled_quantity r) (lo_average_fill_price r) (lo_last_sequence r).
Definition request_approval (at_ : datetime) (r : LiveOrderLifecycleRecord) : LiveOrderLifecycleRecord :=
  mk_live (lo_order_id r) (lo_symbol r) (lo_stage r) (lo_preview_hash r) STAGED_CANDIDATE
    (lo_requested_quantity r) (lo_approval_id r) (lo_authorization_id r)
    (lo_authorization_envelope_sha256 r) (lo_promoted_at r) (Some at_) (lo_human_approved_at r)
    (lo_submission_attempted_at r) (lo_submitted_at r) (lo_accepted_at r) (lo_filled_quantity r)
    (lo_average_fill_price r) (lo_last_sequence r).
Definition approve (approval auth sha : string) (at_ : datetime) (r : LiveOrderLifecycleRecord) : LiveOrderLifecycleRecord :=
  mk_live (lo_order_id r) (lo_symbol r) (lo_stage r) (lo_preview_hash r) PAPER_APPROVED
    (lo_requested_quantity r) (Some approval) (Some auth) (Some sha) (lo_promoted_at r)
    (lo_human_approval_requested_at r) (Some at_) (lo_submission_attempted_at r)
    (lo_submitted_at r) (lo_accepted_at r) (lo_filled_quantity r) (lo_average_fill_price r)
    (lo_last_sequence r).
Definition submitted (at_ : datetime) (r : LiveOrderLifecycleRecord) : LiveOrderLifecycleRecord :=
  mk_live (lo_order_id r) (lo_symbol r) (lo_stage r) (lo_preview_hash r) LIVE_ELIGIBLE
    (lo_requested_quantity r) (lo_approval_id r) (lo_authorization_id r)
    (lo_authorization_envelope_sha256 r) (lo_promoted_at r) (lo_human_approval_requested_at r)
    (lo_human_approved_at r) (Some at_) (Some at_) (lo_accepted_at r) (lo_filled_quantity r)
    (lo_average_fill_price r) (lo_last_sequence r).
Definition attempted (at_ : datetime) (r : LiveOrderLifecycleRecord) : LiveOrderLifecycleRecord :=
  mk_live (lo_order_id r) (lo_symbol r) (lo_stage r) (lo_preview_hash r) (lo_promotion_status r)
    (lo_requested_quantity r) (lo_approval_id r) (lo_authorization_id r)
    (lo_authorization_envelope_sha256 r) (lo_promoted_at r) (lo_human_approval_requested_at r)
    (lo_human_approved_at r) (Some at_) (lo_submitted_at r) (lo_accepted_at r)
    (lo_filled_quantity r) (lo_average_fill_price r) (lo_last_sequence r).
Definition accepted (at_ : datetime) (r : LiveOrderLifecycleRecord) : LiveOrderLifecycleRecord :=
  mk_live (lo_order_id r) (lo_symbol r) (lo_stage r) (lo_preview_hash r) (lo_promotion_status r)
    (lo_requested_quantity r) (lo_approval_id r) (lo_authorization_id r)
    (lo_authorization_envelope_sha256 r) (lo_promoted_at r) (lo_human_approval_requested_at r)
    (lo_human_approved_at r) (lo_submission_attempted_at r) (lo_submitted_at r) (Some at_)
    (lo_filled_quantity r) (lo_average_fill_price r) (lo_last_sequence r).
Definition filled (qty avg : dec) (r : LiveOrderLifecycleRecord) : LiveOrderLifecycleRecord :=
  mk_live (lo_order_id r) (lo_symbol r) (lo_stage r) (lo_preview_hash r) (lo_promotion_status r)
    (lo_requested_quantity r) (lo_approval_id r) (lo_authorization_id r)
    (lo_authorization_envelope_sha256 r) (lo_promoted_at r) (lo_human_approval_requested_at r)
    (lo_human_approved_at r) (lo_submission_attempted_at r) (lo_submitted_at r) (lo_accepted_at
    r) qty avg (lo_last_sequence r).

(** [_transition]: [replace(state, last_sequence=..., stage=..., **changes)] *)
Definition _transition (r : LiveOrderLifecycleRecord) (e : DomainEvent) (stg : LiveOrderLifecycleStage)
  (changes : LiveOrderLifecycleRecord -> LiveOrderLifecycleRecord) : res LiveOrderLifecycleRecord :=
  new_live (move stg (sequence e) (changes r)).

(** [_apply_fill] *)
Definition life_fill (r : LiveOrderLifecycleRecord) (e : DomainEvent) (partial : bool)
  : res LiveOrderLifecycleRecord :=
  quantity ← life_positive (default "None" (payload_get e "fill_quantity")) "fill_quantity";
  price ← life_positive (default "None" (payload_get e "fill_price")) "fill_price";
  next ← dadd (lo_filled_quantity r) quantity;
  match lo_requested_quantity r with
  | None => Ok tt
  | Some q =>
      raise_if (q <? next)%D (ValueError "live order fill exceeds requested quantity");;
      raise_if (negb partial && negb (next =? q)%D)
        (ValueError "filled live orders must match requested quantity");;
      raise_if (partial && (q <=? next)%D)
        (ValueError "partial fill cannot complete the requested quantity")
  end;;
  weighted ← dmul (lo_average_fill_price r) (lo_filled_quantity r);
  value ← dmul price quantity;
  total ← dadd weighted value;
  average ← ddiv total next;
  _transition r e (if partial then St_PARTIALLY_FILLED else St_FILLED) (filled next average).

Definition working : list LiveOrderLifecycleStage :=
  [St_READY_FOR_SUBMISSION; St_SUBMITTED; St_ACCEPTED; St_PARTIALLY_FILLED].

(** The first event of a live order *)
Definition open_live (e : DomainEvent) (ty : LiveOrderLifecycleEvent) : res LiveOrderLifecycleRecord :=
  raise_if (negb (bool_decide (ty = Ev_PREVIEWED)))
    (ValueError "first live order event must be LIVE_ORDER_PREVIEWED");;
  symbol ← life_required (payload_get e "symbol") "symbol";
  preview ← life_required (payload_get e "preview_hash") "preview_hash";
  quantity ← _decimal_or_none (payload_get e "requested_quantity") "requested_quantity";
  new_live (mk_live (aggregate_id e) symbol St_PREVIEWED preview RESEARCH_ONLY quantity None None None
    (Some (occurred_at e)) None None None None None ZERO ZERO (sequence e)).

(** [LiveOrderLifecycleStateMachine.apply] on an existing state *)
Definition advance_live (r : LiveOrderLifecycleRecord) (e : DomainEvent) (ty : LiveOrderLifecycleEvent)
  : res LiveOrderLifecycleRecord :=
  life_identity r e;;
  life_subject r e;;
  let at_ := occurred_at e in
  match ty with
  | Ev_PREVIEWED => Raise (ValueError "live order preview can only be recorded once")
  | Ev_PROMOTION_REQUESTED => _transition r e St_PROMOTION_REQUIRED (promote at_)
  | Ev_HUMAN_APPROVAL_REQUESTED =>
      _require_stage r [St_PROMOTION_REQUIRED];;
      _transition r e St_HUMAN_APPROVAL_REQUIRED (request_approval at_)
  | Ev_HUMAN_APPROVED =>
      _require_stage r [St_HUMAN_APPROVAL_REQUIRED];;
      approval ← life_required (payload_get e "approval_id") "approval_id";
      auth ← life_required (payload_get e "authorization_id") "authorization_id";
      sha ← life_required (payload_get e "authorization_envelope_sha256") "authorization_envelope_sha256";
      _transition r e St_READY_FOR_SUBMISSION (approve approval auth sha at_)
  | Ev_SUBMITTED =>
      _require_stage r [St_READY_FOR_SUBMISSION];;
      _transition r e St_SUBMITTED (submitted at_)
  | Ev_SUBMISSION_ATTEMPT_FAILED =>
      _require_stage r [St_READY_FOR_SUBMISSION];;
      life_required (payload_get e "blockers") "blockers";;
      _transition r e St_SUBMISSION_ATTEMPT_FAILED_REVIEW_REQUIRED (attempted at_)
  | Ev_ACCEPTED =>
      _require_stage r [St_SUBMITTED];;
      _transition r e St_ACCEPTED (accepted at_)
  | Ev_PARTIALLY_FILLED =>
      _require_stage r [St_ACCEPTED; St_PARTIALLY_FILLED];;
      life_fill r e true
  | Ev_FILLED =>
      _require_stage r [St_ACCEPTED; St_PARTIALLY_FILLED];;
      life_fill r e false
  | Ev_CANCEL_REQUESTED =>
      _require_stage r [St_SUBMITTED; St_ACCEPTED; St_PARTIALLY_FILLED];;
      _transition r e St_CANCEL_REQUESTED id
  | Ev_CANCELLED =>
      _require_stage r [St_SUBMITTED; St_ACCEPTED; St_PARTIALLY_FILLED; St_CANCEL_REQUESTED];;
      _transition r e St_CANCELLED id
  | Ev_REJECTED => _require_stage r working;; _transition r e St_REJECTED id
  | Ev_EXPIRED => _require_stage r working;; _transition r e St_EXPIRED id
  end.

Definition life_type (e : DomainEvent) : res LiveOrderLifecycleEvent :=
  match enum_parse (event_type e) with
  | Some ty => Ok ty
  | None => Raise (ValueError "unsupported live order event type")
  end.

(** [LiveOrderLifecycleStateMachine.apply] *)
Definition life_apply (r : option LiveOrderLifecycleRecord) (e : DomainEvent) : res LiveOrderLifecycleRecord :=
  ty ← life_type e;
  match r with None => open_live e ty | Some r => advance_live r e ty end.

Fixpoint life_fold (r : option LiveOrderLifecycleRecord) (es : list DomainEvent)
  : res (option LiveOrderLifecycleRecord) :=
  match es with
  | [] => mret r
  | e :: es' => r' ← life_apply r e; life_fold (Some r') es'
  end.

(** [LiveOrderLifecycleStateMachine.replay] *)
Definition life_replay (es : list DomainEvent) : res LiveOrderLifecycleRecord :=
  raise_if (is_nil es) (ValueError "live order replay requires events");;
  r ← life_fold None es;
  match r with
  | Some r => mret r
  | None => Raise (RuntimeError "live order replay did not produce state")
  end.

(** ** The event chain of a placement *)

(** [snapshot.get(key)], where a JSON null reads as [None]. *)
Definition snapshot_get (snapshot : option json) (key : string) : option json :=
  match snapshot with
  | Some (JObj item) =>
      match dict_get String.eqb key item with Some JNull | None => None | Some v => Some v end
  | _ => None
  end.

(** [_snapshot_status] *)
Definition _snapshot_status (status : option string) (snapshot : option json) : option string :=
  let text := match status with
              | Some s => Some s
              | None => option_map py_str (snapshot_get snapshot "status")
              end in
  match text with
  | None => None
  | Some s => if String.eqb (normalize s) "" then None else Some (normalize s)
  end.

(** [_snapshot_decimal] *)
Fixpoint snapshot_decimal (snapshot : option json) (keys : list string) (name : string) : res dec :=
  match keys with
  | [] => Raise (ValueError (name ++ " evidence is required"))
  | k :: keys' =>
      match snapshot_get snapshot k with
      | Some v => life_positive (py_str v) name
      | None => snapshot_decimal snapshot keys' name
      end
  end.

(** The second loop of [_snapshot_fill_price]: the quote turned over. *)
Fixpoint quote_price (snapshot : option json) (keys : list string) (fill_quantity : dec) : res dec :=
  match keys with
  | [] => Raise (ValueError "fill price evidence is required")
  | k :: keys' =>
      match snapshot_get snapshot k with
      | Some v => quote ← life_positive (py_str v) k; ddiv quote fill_quantity
      | None => quote_price snapshot keys' fill_quantity
      end
  end.

(** [_snapshot_fill_price] *)
Fixpoint fill_price (snapshot : option json) (keys : list string) (fill_quantity : dec) : res dec :=
  match keys with
  | [] => quote_price snapshot ["cummulativeQuoteQty"; "cumQuote"; "cumulativeQuoteQty"] fill_quantity
  | k :: keys' =>
      match snapshot_get snapshot k with
      | Some v => parsed ← life_positive (py_str v) "fill_price";
                  if (ZERO <? parsed)%D then Ok parsed else fill_price snapshot keys' fill_quantity
      | None => fill_price snapshot keys' fill_quantity
      end
  end.
Definition _snapshot_fill_price (snapshot : option json) (fill_quantity : dec) : res dec :=
  match snapshot with
  | None => Raise (ValueError "fill price evidence is required")
  | Some _ => fill_price snapshot ["avgPrice"; "avg_price"; "averagePrice"; "price"] fill_quantity
  end.

Definition planned : Type := list (LiveOrderLifecycleEvent * payload_t).

(** [_build_events] from a position and its predecessor's hash *)
Fixpoint build_from (agg : string) (at_ : datetime) (seq : Z) (prev : string) (ps : planned)
  : res (list DomainEvent) :=
  match ps with
  | [] => Ok []
  | (ty, p) :: ps' =>
      e ← create_event (agg ++ ":" ++ enum_text ty ++ ":" ++ str_int seq) agg (enum_text ty) seq at_ p prev;
      es ← build_from agg at_ (seq + 1) (event_hash e) ps';
      mret (e :: es)
  end.
Definition _build_events (agg : string) (ps : planned) (at_ : datetime) : res (list DomainEvent) :=
  build_from agg at_ 1 GENESIS ps.

Fixpoint join (sep : string) (l : list string) : string :=
  match l with [] => "" | [x] => x | x :: l' => x ++ sep ++ join sep l' end.

Section PlaceEvents.
Context (c : SpotOrderCommand) (v : LiveCommandResult) (approval auth sha : string).

Definition subject : payload_t := [("symbol", OrderCommand.symbol c); ("preview_hash", preview_hash c)].
Definition evidence : payload_t :=
  [("approval_id", approval); ("authorization_id", auth); ("authorization_envelope_sha256", sha)].
Definition requested : payload_t := [("requested_quantity", str_decimal (quantity c))].
Definition exchange_id : payload_t := [("exchange_order_id", default "" (r_exchange_order_id v))].

(** The four events every consumed attempt starts with. *)
Definition approved_events : planned :=
  [ (Ev_PREVIEWED, subject ++ requested ++ [("client_order_id", client_order_id c);
       ("side", side c); ("order_type", order_type c)]);
    (Ev_PROMOTION_REQUESTED, subject ++ requested);
    (Ev_HUMAN_APPROVAL_REQUESTED, subject ++ requested);
    (Ev_HUMAN_APPROVED, subject ++ evidence) ]%list.

Definition failed_event (blockers : string) : LiveOrderLifecycleEvent * payload_t :=
  (Ev_SUBMISSION_ATTEMPT_FAILED, subject ++ evidence ++
     [("client_order_id", client_order_id c); ("blockers", blockers)])%list.
Definition submitted_event : LiveOrderLifecycleEvent * payload_t :=
  (Ev_SUBMITTED, subject ++ evidence ++ exchange_id ++ [("client_order_id", client_order_id c)])%list.

(** An event that reports the exchange's status, with its fill if any. *)
Definition status_event (ty : LiveOrderLifecycleEvent) (status : string) (fill : option (dec * dec))
  : LiveOrderLifecycleEvent * payload_t :=
  (ty, subject ++ exchange_id ++ [("exchange_order_status", status)] ++
       match fill with
       | Some (q, p) => [("fill_quantity", str_decimal q); ("fill_price", str_decimal p)]
       | None => []
       end)%list.

Definition fill_events (ty : LiveOrderLifecycleEvent) (status : string) : res planned :=
  quantity ← snapshot_decimal (r_snapshot v) ["executedQty"; "executed_qty"] "executedQty";
  price ← _snapshot_fill_price (r_snapshot v) quantity;
  mret [status_event Ev_ACCEPTED status None; status_event ty status (Some (quantity, price))].

(** The events that follow a submission, by the status read back. *)
Definition outcome_events : res planned :=
  match _snapshot_status (r_exchange_status v) (r_snapshot v) with
  | None => Ok []
  | Some s =>
      if String.eqb s "NEW" then Ok [status_event Ev_ACCEPTED s None]
      else if String.eqb s "PARTIALLY_FILLED" then fill_events Ev_PARTIALLY_FILLED s
      else if String.eqb s "FILLED" then fill_events Ev_FILLED s
      else if String.eqb s "CANCELED" then Ok [status_event Ev_CANCELLED s None]
      else if String.eqb s "EXPIRED" then Ok [status_event Ev_EXPIRED s None]
      else if String.eqb s "REJECTED" then Ok [status_event Ev_REJECTED s None]
      else Ok []
  end.
End PlaceEvents.

(** [build_place_events] *)
Definition build_place_events (c : SpotOrderCommand) (v : LiveCommandResult) (observed_at : datetime)
  : res (list DomainEvent) :=
  approval ← life_required (r_approval_id v) "approval_id";
  auth ← life_required (r_authorization_id v) "authorization_id";
  sha ← life_required (r_envelope_sha256 v) "authorization_envelope_sha256";
  let start := approved_events c approval auth sha in
  match r_status v with
  | ATTEMPT_FAILED =>
      blockers ← life_required (Some (join "|" (r_blockers v))) "blockers";
      _build_events (client_order_id c) (start ++ [failed_event c approval auth sha blockers]) observed_at
  | SUBMITTED | UNVERIFIED_REVIEW_REQUIRED =>
      outcome ← outcome_events c v;
      _build_events (client_order_id c) (start ++ submitted_event c v approval auth sha :: outcome) observed_at
  | _ => Raise (ValueError "unsupported live order place result")
  end.

(** [LiveOrderLifecycleJournal.append_place_result] over a journal's [append]. *)
Section Journal.
Context {J : Type} (append : DomainEvent -> method J unit).

Fixpoint append_all (es : list DomainEvent) : method J unit :=
  match es with [] => mret tt | e :: es' => append e;; append_all es' end.

Definition append_place_result (c : SpotOrderCommand) (v : LiveCommandResult) (observed_at : datetime)
  : method J (option LiveOrderLifecycleRecord) :=
  if bool_decide (r_status v = BLOCKED) then mret None
  else
    es ← lift (build_place_events c v observed_at);
    append_all es;;
    r ← lift (life_replay es);
    mret (Some r).
End Journal.

(** ** Facts about the records *)

(** What every constructed record satisfies. *)
Record live_ok (r : LiveOrderLifecycleRecord) : Prop := mk_live_ok {
  lk_fill : (0 <= dval (lo_filled_quantity r))%Q /\ (0 <= dval (lo_average_fill_price r))%Q;
  lk_geometry : ~ (dval (lo_filled_quantity r) == 0)%Q -> in_stages (lo_stage r) filled_stages = true;
  lk_requested : forall q, lo_requested_quantity r = Some q -> (0 < dval q)%Q;
  lk_known : in_stages (lo_stage r) filled_stages = true -> lo_requested_quantity r <> None;
  lk_complete : lo_stage r = St_FILLED -> forall q, lo_requested_quantity r = Some q ->
    (dval (lo_filled_quantity r) == dval q)%Q;
  lk_approved : in_stages (lo_stage r) approved_stages = true ->
    lo_human_approved_at r <> None /\ lo_authorization_id r <> None /\
    lo_authorization_envelope_sha256 r <> None;
  lk_submitted : in_stages (lo_stage r) submitted_stages = true -> lo_submitted_at r <> None;
  lk_accepted : in_stages (lo_stage r) accepted_stages = true -> lo_accepted_at r <> None
}.

Lemma missing_false {A} (o : option A) : missing o = false -> o <> None.
Proof. by destruct o. Qed.

(** A stage check that passed gives the evidence it asks for. *)
Ltac evidence_of x :=
  match goal with
  | N : _ \/ missing x = false |- _ => destruct N as [N|N]; [congruence | exact (missing_false _ N)]
  end.

Lemma new_live_run r r' : new_live r = Ok r' ->
  r' = set_symbol (normalize (lo_symbol r)) r /\ live_ok r'.
Proof.
  unfold new_live. cbv zeta. intros H. apply bind_Ok in H as (? & _ & H).
  set (z := set_symbol (normalize (lo_symbol r)) r) in *.
  apply bind_Ok in H as (? & H1 & H). apply bind_Ok in H as (? & H2 & H).
  do 3 (apply bind_Ok in H as (? & _ & H)). apply bind_Ok in H as (? & H3 & H).
  apply bind_Ok in H as (? & H4 & H). apply mret_Ok in H. subst r'. split; [done|].
  apply raise_if_Ok in H1, H2. apply orb_false_iff in H2 as [H2 H2']. zify_dec. rewrite dval_ZERO in *.
  unfold _validate_stage_evidence in H3. cbv zeta in H3. unfold _validate_fill_geometry in H4.
  assert (~ (dval (lo_filled_quantity z) == 0)%Q -> in_stages (lo_stage z) filled_stages = true) as G.
  { intros Hn. destruct (lo_filled_quantity z =? ZERO)%D eqn:E; zify_dec; rewrite dval_ZERO in E; [done|].
    by apply raise_if_Ok, negb_false_iff in H4. }
  assert (forall q, lo_requested_quantity z = Some q -> (0 < dval q)%Q) as Q.
  { intros q E. rewrite E in H1. zify_dec. by rewrite dval_ZERO in H1. }
  destruct (bool_decide_reflect (lo_stage z = St_DRAFT)) as [E|E].
  { split; try done; rewrite E; try done; by intros; exfalso. }
  do 8 (apply bind_Ok in H3 as (? & ?%raise_if_Ok & H3)).
  repeat match goal with N : _ && _ = false |- _ => apply andb_false_iff in N end.
  split; try done.
  - intros K. by evidence_of (lo_requested_quantity z).
  - intros Es q Eq. rewrite Eq in H3. apply bind_Ok in H3 as (? & _ & H3). apply raise_if_Ok in H3.
    rewrite bool_decide_eq_true_2 in H3 by done. cbn [andb] in H3. apply negb_false_iff in H3. by zify_dec.
  - intros K. split; [by evidence_of (lo_human_approved_at z)|].
    match goal with N : in_stages _ approved_stages = false \/ (missing _ || missing _) = false |- _ =>
      destruct N as [N|N]; [congruence|]; apply orb_false_iff in N as [N1 N2] end.
    split; by apply missing_false.
  - intros K. by evidence_of (lo_submitted_at z).
  - intros K. by evidence_of (lo_accepted_at z).
Qed.

(** The stage an event leads to, and the stages it is accepted in. *)
Definition stage_of (ty : LiveOrderLifecycleEvent) : LiveOrderLifecycleStage :=
  match ty with
  | Ev_PREVIEWED => St_PREVIEWED
  | Ev_PROMOTION_REQUESTED => St_PROMOTION_REQUIRED
  | Ev_HUMAN_APPROVAL_REQUESTED => St_HUMAN_APPROVAL_REQUIRED
  | Ev_HUMAN_APPROVED => St_READY_FOR_SUBMISSION
  | Ev_SUBMISSION_ATTEMPT_FAILED => St_SUBMISSION_ATTEMPT_FAILED_REVIEW_REQUIRED
  | Ev_SUBMITTED => St_SUBMITTED
  | Ev_ACCEPTED => St_ACCEPTED
  | Ev_PARTIALLY_FILLED => St_PARTIALLY_FILLED
  | Ev_FILLED => St_FILLED
  | Ev_CANCEL_REQUESTED => St_CANCEL_REQUESTED
  | Ev_CANCELLED => St_CANCELLED
  | Ev_REJECTED => St_REJECTED
  | Ev_EXPIRED => St_EXPIRED
  end.

Definition sources (ty : LiveOrderLifecycleEvent) : list LiveOrderLifecycleStage :=
  match ty with
  | Ev_PREVIEWED => []
  | Ev_PROMOTION_REQUESTED =>
      [St_DRAFT; St_PREVIEWED; St_PROMOTION_REQUIRED; St_HUMAN_APPROVAL_REQUIRED; St_READY_FOR_SUBMISSION;
       St_SUBMISSION_ATTEMPT_FAILED_REVIEW_REQUIRED; St_SUBMITTED; St_ACCEPTED; St_PARTIALLY_FILLED;
       St_FILLED; St_CANCEL_REQUESTED; St_CANCELLED; St_REJECTED; St_EXPIRED]
  | Ev_HUMAN_APPROVAL_REQUESTED => [St_PROMOTION_REQUIRED]
  | Ev_HUMAN_APPROVED => [St_HUMAN_APPROVAL_REQUIRED]
  | Ev_SUBMISSION_ATTEMPT_FAILED | Ev_SUBMITTED => [St_READY_FOR_SUBMISSION]
  | Ev_ACCEPTED => [St_SUBMITTED]
  | Ev_PARTIALLY_FILLED | Ev_FILLED => [St_ACCEPTED; St_PARTIALLY_FILLED]
  | Ev_CANCEL_REQUESTED => [St_SUBMITTED; St_ACCEPTED; St_PARTIALLY_FILLED]
  | Ev_CANCELLED => [St_SUBMITTED; St_ACCEPTED; St_PARTIALLY_FILLED; St_CANCEL_REQUESTED]
  | Ev_REJECTED | Ev_EXPIRED => working
  end.

(** What the two kinds of step do to the request and the fill. *)
Definition same_fill (r r' : LiveOrderLifecycleRecord) : Prop :=
  lo_filled_quantity r' = lo_filled_quantity r.
Definition within_request (r : LiveOrderLifecycleRecord) : Prop :=
  forall q, lo_requested_quantity r = Some q -> (dval (lo_filled_quantity r) <= dval q)%Q.

Record stepped (r r' : LiveOrderLifecycleRecord) (e : DomainEvent) (stg : LiveOrderLifecycleStage)
  : Prop := mk_stepped {
  sp_ok : live_ok r';
  sp_stage : lo_stage r' = stg;
  sp_sequence : lo_last_sequence r' = sequence e;
  sp_order : lo_order_id r' = lo_order_id r;
  sp_requested : lo_requested_quantity r' = lo_requested_quantity r;
  sp_preview : lo_preview_hash r' = lo_preview_hash r
}.

Lemma transition_stepped r e stg ch r' :
  (lo_order_id (ch r) = lo_order_id r /\ lo_requested_quantity (ch r) = lo_requested_quantity r /\
   lo_preview_hash (ch r) = lo_preview_hash r) ->
  _transition r e stg ch = Ok r' ->
  stepped r r' e stg /\ r' = set_symbol (normalize (lo_symbol (move stg (sequence e) (ch r))))
                               (move stg (sequence e) (ch r)).
Proof.
  intros (C1 & C2 & C3) H. apply new_live_run in H as [-> Hok]. split; [|done]. split; done.
Qed.

Lemma life_fill_run r e b r' : life_fill r e b = Ok r' ->
  exists next avg, _transition r e (if b then St_PARTIALLY_FILLED else St_FILLED) (filled next avg) = Ok r' /\
    (forall q, lo_requested_quantity r = Some q -> (dval next <= dval q)%Q).
Proof.
  unfold life_fill. intros H. apply bind_Ok in H as (qty & _ & H). apply bind_Ok in H as (p & _ & H).
  apply bind_Ok in H as (next & _ & H). apply bind_Ok in H as (? & Hr & H).
  do 4 (apply bind_Ok in H as (? & _ & H)). exists next. eexists. split; [exact H|].
  intros q Eq. rewrite Eq in Hr. apply bind_Ok in Hr as (? & Hr & _). apply raise_if_Ok in Hr. by zify_dec.
Qed.

Lemma require_stage_Ok r l u : _require_stage r l = Ok u -> In (lo_stage r) l.
Proof.
  unfold _require_stage, in_stages. intros H. apply raise_if_Ok, negb_false_iff in H.
  apply existsb_exists in H as (x & Hx & E). by apply bool_decide_eq_true in E as ->.
Qed.

Lemma all_stages_promote s : In s (sources Ev_PROMOTION_REQUESTED).
Proof. destruct s; simpl; tauto. Qed.

(** Every accepted event of an existing order. *)
Lemma advance_live_run r e ty r' : advance_live r e ty = Ok r' ->
  In (lo_stage r) (sources ty) /\ sequence e = lo_last_sequence r + 1 /\ aggregate_id e = lo_order_id r /\
  stepped r r' e (stage_of ty) /\ (within_request r -> within_request r').
Proof.
  unfold advance_live, life_identity. intros H. apply bind_Ok in H as (u & Hid & H).
  apply bind_Ok in Hid as (u1 & I1 & I2). apply raise_if_Ok, negb_false_iff in I1, I2. zify_bool.
  apply bind_Ok in H as (u2 & _ & H). cbv zeta in H.
  assert (forall stg ch, (lo_order_id (ch r) = lo_order_id r /\
      lo_requested_quantity (ch r) = lo_requested_quantity r /\ lo_preview_hash (ch r) = lo_preview_hash r) ->
      lo_filled_quantity (ch r) = lo_filled_quantity r ->
      _transition r e stg ch = Ok r' -> stepped r r' e stg /\ (within_request r -> within_request r')) as T.
  { intros stg ch Hc Hf Ht. apply transition_stepped in Ht as [Ht Hr]; [|done]. split; [done|].
    unfold within_request. intros W q. rewrite (sp_requested _ _ _ _ Ht). rewrite Hr.
    cbn [lo_filled_quantity set_symbol move]. rewrite Hf. apply W. }
  assert (forall b, life_fill r e b = Ok r' ->
      stepped r r' e (if b then St_PARTIALLY_FILLED else St_FILLED) /\
      (within_request r -> within_request r')) as F.
  { intros b Hb. apply life_fill_run in Hb as (next & avg & Ht & Hn).
    apply transition_stepped in Ht as [Ht Hr]; [|done]. split; [done|].
    unfold within_request. intros _ q. rewrite (sp_requested _ _ _ _ Ht). rewrite Hr. apply Hn. }
  destruct ty; try discriminate H;
    try (apply bind_Ok in H as (u3 & Hs & H); apply require_stage_Ok in Hs);
    (split; [first [exact Hs | apply all_stages_promote]|]); (split; [exact I2|]); (split; [exact I1|]);
    repeat match type of H with (_ ≫= _) = _ => apply bind_Ok in H as (? & _ & H) end;
    match type of H with
    | life_fill _ _ ?b = _ => exact (F b H)
    | _transition _ _ ?stg ?ch = _ => apply (T stg ch); [split; [|split]; reflexivity|reflexivity|exact H]
    end.
Qed.

Lemma open_live_run e ty r : open_live e ty = Ok r ->
  ty = Ev_PREVIEWED /\ live_ok r /\ lo_stage r = St_PREVIEWED /\ lo_order_id r = aggregate_id e /\
  lo_last_sequence r = sequence e /\ within_request r.
Proof.
  unfold open_live. intros H. apply bind_Ok in H as (? & Ht & H). apply raise_if_Ok, negb_false_iff in Ht.
  apply bool_decide_eq_true in Ht. apply bind_Ok in H as (? & _ & H). apply bind_Ok in H as (? & _ & H).
  apply bind_Ok in H as (qty & _ & H). apply new_live_run in H as [-> Hok]. split; [done|].
  split; [done|]. split; [done|]. split; [done|]. split; [done|]. intros q Eq.
  pose proof (lk_requested _ Hok q Eq). cbn [lo_filled_quantity set_symbol]. rewrite dval_ZERO. lra.
Qed.

(** ** Histories *)

Lemma life_fold_snoc es : forall s e r,
  life_fold s (es ++ [e]) = Ok (Some r) <->
  exists s', life_fold s es = Ok s' /\ life_apply s' e = Ok r.
Proof.
  induction es as [|x es IH]; intros s e r; cbn [life_fold app].
  - split.
    + intros H. apply bind_Ok in H as (r1 & H1 & H). apply mret_Ok in H. injection H as ->. by exists s.
    + intros (s' & H1 & H2). apply mret_Ok in H1. subst s'. by rewrite H2.
  - split.
    + intros H. apply bind_Ok in H as (r1 & H1 & H). rewrite H1. apply (IH (Some r1)) in H. exact H.
    + intros (s' & H1 & H2). apply bind_Ok in H1 as (r1 & H1 & H3). rewrite H1, Ok_bind. apply IH. eauto.
Qed.

(** The last event of a history and the state before it. *)
Inductive last_step (es : list DomainEvent) (r : LiveOrderLifecycleRecord) : Prop :=
| first_event e : es = [e] -> life_type e = Ok Ev_PREVIEWED -> lo_stage r = St_PREVIEWED ->
    lo_order_id r = aggregate_id e -> lo_last_sequence r = sequence e ->
    live_ok r -> within_request r -> last_step es r
| next_event es0 r0 e ty : es = es0 ++ [e] -> life_fold None es0 = Ok (Some r0) -> life_type e = Ok ty ->
    advance_live r0 e ty = Ok r -> last_step es r.

Lemma life_fold_last es r : life_fold None es = Ok (Some r) -> last_step es r.
Proof.
  destruct es as [|e0 es0] using rev_ind; [done|]. clear IHes0. intros H.
  apply life_fold_snoc in H as (s & H1 & H2). unfold life_apply in H2.
  apply bind_Ok in H2 as (ty & Ht & H2). destruct s as [r0|]; [by eapply next_event|].
  assert (es0 = []) as ->.
  { destruct es0 as [|x es0 _] using rev_ind; [done|]. exfalso. clear - H1.
    assert (forall es s, life_fold (Some s) es <> Ok None) as N.
    { induction es as [|y es IH]; intros s H; [done|]. cbn [life_fold] in H.
      apply bind_Ok in H as (r1 & _ & H). by apply IH in H. }
    destruct es0 as [|y es0]; cbn [life_fold app] in H1; apply bind_Ok in H1 as (r1 & _ & H); [done|].
    by apply N in H. }
  apply open_live_run in H2 as (-> & H2 & H3 & H4 & H5 & H6). by eapply first_event.
Qed.

Lemma life_replay_fold es r : life_replay es = Ok r <-> life_fold None es = Ok (Some r).
Proof.
  unfold life_replay. split.
  - intros H. apply bind_Ok in H as (? & _ & H). apply bind_Ok in H as (o & H1 & H).
    destruct o as [r'|]; [|done]. apply mret_Ok in H. by subst.
  - intros H. destruct es as [|e es]; [done|]. cbn [is_nil raise_if]. by rewrite Ok_bind, H.
Qed.

(** The event behind a stage: who brought a replayed order where it is. *)
Lemma stage_event es r ty : life_fold None es = Ok (Some r) -> lo_stage r = stage_of ty ->
  ty <> Ev_PREVIEWED ->
  exists es0 r0 e, es = es0 ++ [e] /\ life_fold None es0 = Ok (Some r0) /\ life_type e = Ok ty /\
    advance_live r0 e ty = Ok r /\ In (lo_stage r0) (sources ty).
Proof.
  intros H Hs Hn. apply life_fold_last in H as [e _ _ Hp _ _ _ _|es0 r0 e ty' -> H0 Ht Ha].
  - rewrite Hp in Hs. by destruct ty.
  - pose proof (advance_live_run _ _ _ _ Ha) as (Hin & _ & _ & Hst & _).
    assert (ty' = ty) as ->.
    { pose proof (sp_stage _ _ _ _ Hst) as E. rewrite Hs in E. by destruct ty, ty'. }
    eauto 8.
Qed.

Lemma approve_evidence r e r' : advance_live r e Ev_HUMAN_APPROVED = Ok r' ->
  exists auth, payload_get e "authorization_id" = Some auth /\ lo_authorization_id r' = Some (strip auth).
Proof.
  unfold advance_live. intros H. apply bind_Ok in H as (? & _ & H). apply bind_Ok in H as (? & _ & H).
  cbv zeta in H. apply bind_Ok in H as (? & _ & H). apply bind_Ok in H as (? & _ & H).
  apply bind_Ok in H as (auth & Hau & H). apply bind_Ok in H as (? & _ & H).
  apply new_live_run in H as [-> _]. cbn [lo_authorization_id set_symbol move approve].
  unfold life_required in Hau. destruct (payload_get e "authorization_id") as [v|]; [|done].
  apply bind_Ok in Hau as (? & _ & Hau). apply mret_Ok in Hau. subst. eauto.
Qed.

Lemma submit_keeps r e r' ty : ty = Ev_SUBMITTED \/ ty = Ev_SUBMISSION_ATTEMPT_FAILED ->
  advance_live r e ty = Ok r' -> lo_authorization_id r' = lo_authorization_id r.
Proof.
  unfold advance_live. intros Hty H. apply bind_Ok in H as (? & _ & H).
  apply bind_Ok in H as (? & _ & H). cbv zeta in H.
  destruct Hty as [-> | ->]; apply bind_Ok in H as (? & _ & H);
    [|apply bind_Ok in H as (? & _ & H)]; by apply new_live_run in H as [-> _].
Qed.

(** An exit event is refused when no valid record can result. *)
Lemma exit_refused r e ty stg : stage_of ty = stg ->
  (forall r', live_ok r' -> lo_stage r' = stg -> lo_accepted_at r' = lo_accepted_at r ->
     lo_filled_quantity r' = lo_filled_quantity r -> False) ->
  In ty [Ev_CANCELLED; Ev_EXPIRED; Ev_REJECTED] -> exists x, advance_live r e ty = Raise x.
Proof.
  intros <- Hn Hty. destruct (advance_live r e ty) as [r'|x] eqn:H; [|eauto]. exfalso.
  pose proof (advance_live_run _ _ _ _ H) as (_ & _ & _ & Hst & _).
  apply (Hn r' (sp_ok _ _ _ _ Hst) (sp_stage _ _ _ _ Hst)); unfold advance_live in H;
  apply bind_Ok in H as (? & _ & H); apply bind_Ok in H as (? & _ & H); cbv zeta in H;
  destruct Hty as [<-|[<-|[<-|[]]]]; apply bind_Ok in H as (? & _ & H);
  by apply new_live_run in H as [-> _].
Qed.

(** ** Properties *)

(** C13: nothing is submitted without an approval.  In every event history that
    replays, a submission or a failed submission attempt comes directly after
    three events: the promotion request, the request for a human approval and the
    human approval; the order then carries the authorization id of that very
    approval. *)
Theorem submission_is_approved es e r ty :
  life_replay (es ++ [e]) = Ok r -> life_type e = Ok ty ->
  ty = Ev_SUBMITTED \/ ty = Ev_SUBMISSION_ATTEMPT_FAILED ->
  exists es0 p h a, es = es0 ++ [p; h; a] /\ es0 <> [] /\
    life_type p = Ok Ev_PROMOTION_REQUESTED /\ life_type h = Ok Ev_HUMAN_APPROVAL_REQUESTED /\
    life_type a = Ok Ev_HUMAN_APPROVED /\
    exists auth, payload_get a "authorization_id" = Some auth /\ lo_authorization_id r = Some (strip auth).
Proof.
  intros H%life_replay_fold Ht Hty.
  assert (ty <> Ev_PREVIEWED) as Hn by by destruct Hty as [-> | ->].
  apply life_fold_snoc in H as (s & H0 & Ha). unfold life_apply in Ha. rewrite Ht, Ok_bind in Ha.
  destruct s as [r1|]; [|apply open_live_run in Ha as (-> & _); by destruct Hty].
  pose proof (advance_live_run _ _ _ _ Ha) as (S1 & _).
  assert (lo_stage r1 = stage_of Ev_HUMAN_APPROVED) as E1
    by (destruct Hty as [-> | ->]; by destruct S1 as [<-|[]]).
  destruct (stage_event _ _ _ H0 E1) as (es1 & r2 & a & -> & H1 & T1 & A1 & S2); [done|].
  assert (lo_stage r2 = stage_of Ev_HUMAN_APPROVAL_REQUESTED) as E2 by by destruct S2 as [<-|[]].
  destruct (stage_event _ _ _ H1 E2) as (es2 & r3 & h & -> & H2 & T2 & _ & S3); [done|].
  assert (lo_stage r3 = stage_of Ev_PROMOTION_REQUESTED) as E3 by by destruct S3 as [<-|[]].
  destruct (stage_event _ _ _ H2 E3) as (es3 & r4 & p & -> & H3 & T3 & _ & _); [done|].
  exists es3, p, h, a. rewrite <- !app_assoc. split; [done|]. split; [by intros ->|].
  split; [done|]. split; [done|]. split; [done|]. rewrite (submit_keeps _ _ _ _ Hty Ha).
  by eapply approve_evidence.
Qed.

(** C36: replayed live orders are consistent.  A record rebuilt from its events
    never has more filled than requested, is FILLED only when both are equal, has
    no fill before its acceptance, carries approval time, authorization id and
    envelope hash from READY_FOR_SUBMISSION on, and counts its events from the
    first one. *)
Theorem live_replay_ok es r :
  life_replay es = Ok r ->
  live_ok r /\ within_request r /\
  exists e0 rest, es = e0 :: rest /\ lo_order_id r = aggregate_id e0 /\
    lo_last_sequence r = sequence e0 + Z.of_nat (length rest).
Proof.
  intros H%life_replay_fold. revert r H. induction es as [|e es IH] using rev_ind; [done|].
  intros r H. apply life_fold_last in H as [x E _ _ Ho Hq Hok Hw|es0 r0 x ty E H0 _ Ha].
  - destruct es as [|y es]; [|by destruct es]. injection E as ->. split; [done|]. split; [done|].
    exists x, []. split; [done|]. split; [done|]. rewrite Hq. simpl. lia.
  - apply app_inj_tail in E as [-> ->]. destruct (IH r0 H0) as (_ & W & e0 & rest & -> & Ho & Hq).
    apply advance_live_run in Ha as (_ & Hs & _ & Hst & Hw). split; [apply (sp_ok _ _ _ _ Hst)|].
    split; [auto|]. exists e0, (rest ++ [x]). split; [done|]. split.
    + by rewrite (sp_order _ _ _ _ Hst).
    + rewrite (sp_sequence _ _ _ _ Hst), Hs, Hq, length_app. simpl. lia.
Qed.

(** Two documented transitions can never be taken.  The machine lists
    SUBMITTED as a source of CANCELLED and PARTIALLY_FILLED as a source of
    REJECTED and EXPIRED, but the record's own validation refuses both: an order
    that was never accepted cannot be cancelled, and a partly filled one can
    neither expire nor be rejected. *)
Theorem dead_transitions r e :
  (lo_stage r = St_SUBMITTED -> lo_accepted_at r = None ->
     exists x, advance_live r e Ev_CANCELLED = Raise x) /\
  (lo_stage r = St_PARTIALLY_FILLED -> ~ (dval (lo_filled_quantity r) == 0)%Q ->
     (exists x, advance_live r e Ev_EXPIRED = Raise x) /\
     (exists x, advance_live r e Ev_REJECTED = Raise x)).
Proof.
  pose proof (exit_refused r e) as N.
  split; [intros Hs Hn|intros Hs Hf; split]; (eapply N; [reflexivity| |simpl; tauto]).
  - intros r' Hok Hs' Ha _. apply (lk_accepted _ Hok); [by rewrite Hs'|]. by rewrite Ha.
  - intros r' Hok Hs' _ Hq. pose proof (lk_geometry _ Hok) as G. rewrite Hq, Hs' in G.
    by specialize (G Hf).
  - intros r' Hok Hs' _ Hq. pose proof (lk_geometry _ Hok) as G. rewrite Hq, Hs' in G.
    by specialize (G Hf).
Qed.

Lemma deqb_zero d : (dval d == 0)%Q -> (d =? ZERO)%D = true.
Proof. intros H. apply deqb_spec. by rewrite dval_ZERO. Qed.

(** No stage of a live order without fills is final.  A promotion request
    has no stage guard: whatever the stage of a valid record without fills
    (submitted, rejected, cancelled, expired or failed), the next promotion event
    of that order takes it back to PROMOTION_REQUIRED with its earlier approval
    and submission kept, so that the same order can be approved and submitted
    again. *)
Theorem promotion_reopens_order r e :
  new_live r = Ok r -> (dval (lo_filled_quantity r) == 0)%Q ->
  life_type e = Ok Ev_PROMOTION_REQUESTED -> life_identity r e = Ok tt -> life_subject r e = Ok tt ->
  exists r', life_apply (Some r) e = Ok r' /\ lo_stage r' = St_PROMOTION_REQUIRED /\
    lo_submitted_at r' = lo_submitted_at r /\ lo_authorization_id r' = lo_authorization_id r /\
    lo_human_approved_at r' = lo_human_approved_at r.
Proof.
  intros Hr Hf Ht Hi Hsub. unfold life_apply. rewrite Ht, Ok_bind. unfold advance_live.
  rewrite Hi, Ok_bind, Hsub, Ok_bind. cbv zeta. unfold _transition, new_live. cbv zeta.
  unfold new_live in Hr. cbv zeta in Hr. apply bind_Ok in Hr as (? & H1%raise_if_Ok & Hr).
  apply bind_Ok in Hr as (? & H2%raise_if_Ok & Hr). apply bind_Ok in Hr as (? & H3%raise_if_Ok & Hr).
  apply bind_Ok in Hr as (? & H4%raise_if_Ok & Hr). apply bind_Ok in Hr as (? & H5%raise_if_Ok & Hr).
  do 3 (apply bind_Ok in Hr as (? & _ & Hr)).
  assert (lo_last_sequence r = lo_last_sequence (set_symbol (normalize (lo_symbol r)) r)) as E by done.
  unfold life_identity in Hi. apply bind_Ok in Hi as (? & _ & Hi). apply raise_if_Ok, negb_false_iff in Hi.
  cbn [lo_requested_quantity lo_filled_quantity lo_average_fill_price lo_last_sequence lo_authorization_id
    lo_authorization_envelope_sha256 lo_promotion_status set_symbol move promote lo_order_id lo_symbol
    lo_preview_hash] in *.
  rewrite H1, H2, H3, H5. destruct (Z.ltb_spec (sequence e) 0); [zify_bool; lia|].
  cbn [raise_if]. rewrite !Ok_bind. unfold _validate_stage_evidence. cbv zeta.
  cbn [lo_stage lo_promoted_at lo_requested_quantity set_symbol move promote].
  change (bool_decide (St_PROMOTION_REQUIRED = St_DRAFT)) with false. cbv iota.
  change (in_stages St_PROMOTION_REQUIRED promoted_stages) with true.
  change (in_stages St_PROMOTION_REQUIRED requested_stages) with false.
  change (in_stages St_PROMOTION_REQUIRED approved_stages) with false.
  change (bool_decide (St_PROMOTION_REQUIRED = St_SUBMISSION_ATTEMPT_FAILED_REVIEW_REQUIRED)) with false.
  change (in_stages St_PROMOTION_REQUIRED submitted_stages) with false.
  change (in_stages St_PROMOTION_REQUIRED accepted_stages) with false.
  change (in_stages St_PROMOTION_REQUIRED filled_stages) with false.
  cbn [missing andb raise_if]. rewrite !Ok_bind. unfold _validate_fill_geometry.
  cbn [lo_filled_quantity set_symbol move promote]. rewrite (deqb_zero _ Hf).
  eexists. split; [|split; [|split; [|split]]];
    [destruct (lo_requested_quantity r); reflexivity|reflexivity..].
Qed.

(** The fall-back to the quote amount is unreachable behind a zero price.
    The code tries the price fields before the traded quote amount and skips a
    price that is not positive; but the parser it calls raises for such a price,
    so a snapshot with price zero, as the exchange reports for a market order,
    raises although the quote amount is there. *)
Theorem zero_price_hides_quote item k quote fill_quantity :
  In k ["avgPrice"; "avg_price"; "averagePrice"; "price"] ->
  dict_get String.eqb k item = Some (JStr "0.00000000") ->
  dict_get String.eqb "cummulativeQuoteQty" item = Some (JStr quote) ->
  (forall k', In k' ["avgPrice"; "avg_price"; "averagePrice"; "price"] -> k' <> k ->
     dict_get String.eqb k' item = None) ->
  _snapshot_fill_price (Some (JObj item)) fill_quantity =
  Raise (ValueError "fill_price must be positive").
Proof.
  intros Hk Hv _ Hn. unfold _snapshot_fill_price.
  assert (life_positive (py_str (JStr "0.00000000")) "fill_price" =
          Raise (ValueError "fill_price must be positive")) as P by reflexivity.
  destruct Hk as [<-|[<-|[<-|[<-|[]]]]]; cbn [fill_price]; unfold snapshot_get; rewrite Hv;
    rewrite ?Hn by (first [discriminate | simpl; tauto]); by rewrite P.
Qed.

(** ** The chain of a placement replays *)

(** The events built from a plan carry the plan's types and fields. *)
Fixpoint follows (agg : string) (at_ : datetime) (seq : Z) (ps : planned) (es : list DomainEvent) : Prop :=
  match ps, es with
  | [], [] => True
  | (ty, p) :: ps', e :: es' =>
      aggregate_id e = agg /\ life_type e = Ok ty /\ sequence e = seq /\ occurred_at e = at_ /\
      (forall k, payload_get e k = dict_get String.eqb k p) /\ follows agg at_ (seq + 1) ps' es'
  | _, _ => False
  end.

Definition sound (p : payload_t) : bool :=
  negb (existsb (fun kv => blank kv.1) p) && all_unique String.eqb (map fst p).

Lemma build_from_Ok agg at_ ps : blank agg = false -> naive at_ = false ->
  forallb (fun tp => sound (snd tp)) ps = true ->
  forall seq prev, 1 <= seq -> exists es, build_from agg at_ seq prev ps = Ok es /\ follows agg at_ seq ps es.
Proof.
  intros Ha Ht. induction ps as [|[ty p] ps IH]; intros Hs seq prev Hq; [by exists []|].
  cbn [forallb snd] in Hs. apply andb_true_iff in Hs as [Hs Hps]. unfold sound in Hs.
  apply andb_true_iff in Hs as [Hs1 Hs2]. apply negb_true_iff in Hs1. cbn [build_from].
  destruct (create_event_Ok (agg ++ ":" ++ enum_text ty ++ ":" ++ str_int seq) agg (enum_text ty) seq at_ p prev)
    as (e & -> & _ & E2 & E3 & E4 & E5 & _ & E6); try done.
  - rewrite blank_app, Ha. by destruct ty.
  - destruct (IH Hps (seq + 1) (event_hash e) ltac:(lia)) as (es & B & F). rewrite Ok_bind, B, Ok_bind.
    exists (e :: es). split; [done|]. cbn [follows]. split; [done|]. split; [|done].
    unfold life_type. by rewrite E3, enum_parse_text.
Qed.

(** Validation of a record without fills. *)
Lemma new_live_unfilled r :
  blank (lo_order_id r) || blank (lo_symbol r) || blank (lo_preview_hash r) = false ->
  normalize (lo_symbol r) = lo_symbol r ->
  match lo_requested_quantity r with Some q => (q <=? ZERO)%D | None => false end = false ->
  lo_filled_quantity r = ZERO -> lo_average_fill_price r = ZERO -> 0 <= lo_last_sequence r ->
  missing (lo_authorization_id r) = missing (lo_authorization_envelope_sha256 r) ->
  match lo_promotion_status r with UNVALIDATED | REJECTED => true | _ => false end = false ->
  _validate_stage_evidence r = Ok tt -> new_live r = Ok r.
Proof.
  intros H1 H2 H3 H4 H5 H6 H7 H8 H9. unfold new_live. cbv zeta.
  assert (set_symbol (normalize (lo_symbol r)) r = r) as -> by (rewrite H2; by destruct r).
  rewrite H1, H3, H4, H5, H7, H8, H9. destruct (Z.ltb_spec (lo_last_sequence r) 0); [lia|].
  unfold _validate_fill_geometry. rewrite H4, eqb_reflx. reflexivity.
Qed.

(** The record of the order after its four opening events. *)
Definition opened (c : SpotOrderCommand) (stg : LiveOrderLifecycleStage) (status : ValidationStatus)
  (approval auth sha : option string) (asked approved attempted_at submitted_at accepted_at : option datetime)
  (at_ : datetime) (seq : Z) : LiveOrderLifecycleRecord :=
  mk_live (client_order_id c) (OrderCommand.symbol c) stg (preview_hash c) status (Some (quantity c))
    approval auth sha (Some at_) asked approved attempted_at submitted_at accepted_at ZERO ZERO seq.

Section Replays.
Context (c : SpotOrderCommand) (v : LiveCommandResult) (approval auth sha : string) (at_ : datetime).
Context (Hc : command_ok c) (Hq : exponent_in_range (quantity c) = true) (Hat : naive at_ = false).
Context (Hap : r_approval_id v = Some approval) (Hau : r_authorization_id v = Some auth)
  (Hsh : r_envelope_sha256 v = Some sha).
Context (Sap : strip approval = approval /\ approval <> "") (Sau : strip auth = auth /\ auth <> "")
  (Ssh : strip sha = sha /\ sha <> "").

Lemma id_not_blank : blank (client_order_id c) = false.
Proof. destruct (ok_client c Hc) as (H1 & H2 & _). by apply stripped_not_blank. Qed.

Lemma symbol_fixed : normalize (OrderCommand.symbol c) = OrderCommand.symbol c.
Proof. by destruct (ok_symbol c Hc). Qed.

Lemma symbol_strip : strip (OrderCommand.symbol c) = OrderCommand.symbol c.
Proof. rewrite <- symbol_fixed. unfold normalize. by rewrite strip_upper, strip_idem. Qed.

Lemma symbol_not_blank : blank (OrderCommand.symbol c) = false.
Proof.
  apply stripped_not_blank; [apply symbol_strip|]. intros E. destruct (ok_symbol c Hc) as (_ & _ & H).
  by rewrite E in H.
Qed.

Lemma preview_strip : strip (preview_hash c) = preview_hash c.
Proof. apply sha256_text_fixed, Sha256.sha256_text. Qed.

Lemma preview_not_blank : blank (preview_hash c) = false.
Proof.
  apply stripped_not_blank; [apply preview_strip|]. intros E.
  pose proof (Sha256.sha256_text (dumps (OrderCommand.payload c))) as H.
  fold (preview_hash c) in H. by rewrite E in H.
Qed.

Lemma required_fixed s name : strip s = s /\ s <> "" -> life_required (Some s) name = Ok s.
Proof. intros [H1 H2]. unfold life_required. by rewrite stripped_not_blank, H1. Qed.

Lemma quantity_parses : life_positive (str_decimal (quantity c)) "requested_quantity" = Ok (quantity c).
Proof.
  pose proof (decimal_text_roundtrip (quantity c) Hq) as H. unfold Decimal in H. unfold life_positive.
  destruct (parse_decimal _) as [d|]; [|done]. injection H as ->.
  destruct (quantity c <=? ZERO)%D eqn:E; [|done]. zify_dec. rewrite dval_ZERO in E.
  pose proof (ok_quantity c Hc). lra.
Qed.

Lemma quantity_positive : (quantity c <=? ZERO)%D = false.
Proof. apply dleb_false. rewrite dval_ZERO. apply (ok_quantity c Hc). Qed.

(** Every record on the way is valid. *)
Lemma opened_valid stg status ap au sh t1 t2 t3 t4 t5 seq :
  0 <= seq -> missing au = missing sh ->
  match status with UNVALIDATED | REJECTED => true | _ => false end = false ->
  _validate_stage_evidence (opened c stg status ap au sh t1 t2 t3 t4 t5 at_ seq) = Ok tt ->
  new_live (opened c stg status ap au sh t1 t2 t3 t4 t5 at_ seq) =
  Ok (opened c stg status ap au sh t1 t2 t3 t4 t5 at_ seq).
Proof.
  intros H1 H2 H3 H4. apply new_live_unfilled; try done; unfold opened;
    cbn [lo_order_id lo_symbol lo_preview_hash lo_requested_quantity].
  - by rewrite id_not_blank, symbol_not_blank, preview_not_blank.
  - apply symbol_fixed.
  - apply quantity_positive.
Qed.

(** The first event. *)
Lemma open_step e rest : aggregate_id e = client_order_id c -> life_type e = Ok Ev_PREVIEWED ->
  sequence e = 1 -> occurred_at e = at_ ->
  (forall k, payload_get e k = dict_get String.eqb k (subject c ++ requested c ++ rest)) ->
  life_apply None e = Ok (opened c St_PREVIEWED RESEARCH_ONLY None None None None None None None None at_ 1).
Proof.
  intros H1 H2 H3 H4 H5. unfold life_apply, open_live. rewrite H2, Ok_bind, !H5, H1, H3, H4.
  cbn -[OrderCommand.symbol preview_hash str_decimal life_required life_positive new_live].
  rewrite (required_fixed (OrderCommand.symbol c)), Ok_bind.
  2:{ split; [apply symbol_strip|]. intros E. pose proof symbol_not_blank as B. by rewrite E in B. }
  rewrite (required_fixed (preview_hash c)), Ok_bind.
  2:{ split; [apply preview_strip|]. intros E. pose proof preview_not_blank as B. by rewrite E in B. }
  rewrite quantity_parses. change (Some <$> Ok (quantity c)) with (Ok (Some (quantity c))). rewrite Ok_bind.
  by apply (opened_valid St_PREVIEWED RESEARCH_ONLY None None None None None None None None 1).
Qed.

(** Identity and subject checks of the later events. *)
Lemma subject_step stg status ap au sh t1 t2 t3 t4 t5 seq e rest :
  aggregate_id e = client_order_id c -> sequence e = seq + 1 ->
  (forall k, payload_get e k = dict_get String.eqb k (subject c ++ rest)) ->
  disagrees (dict_get String.eqb "authorization_id" rest) au = false ->
  disagrees (dict_get String.eqb "authorization_envelope_sha256" rest) sh = false ->
  let r := opened c stg status ap au sh t1 t2 t3 t4 t5 at_ seq in
  life_identity r e = Ok tt /\ life_subject r e = Ok tt.
Proof.
  intros H1 H2 H3 H4 H5 r. split.
  - unfold life_identity. cbn [lo_order_id lo_last_sequence opened r].
    by rewrite H1, H2, String.eqb_refl, Z.eqb_refl.
  - unfold life_subject. rewrite !H3. unfold r, opened.
    cbn [lo_symbol lo_preview_hash lo_authorization_id lo_authorization_envelope_sha256].
    change (dict_get String.eqb "symbol" (subject c ++ rest)) with (Some (OrderCommand.symbol c)).
    change (dict_get String.eqb "preview_hash" (subject c ++ rest)) with (Some (preview_hash c)).
    change (dict_get String.eqb "authorization_id" (subject c ++ rest))
      with (dict_get String.eqb "authorization_id" rest).
    change (dict_get String.eqb "authorization_envelope_sha256" (subject c ++ rest))
      with (dict_get String.eqb "authorization_envelope_sha256" rest).
    cbn [option_map disagrees]. by rewrite symbol_fixed, !String.eqb_refl, H4, H5.
Qed.

(** The state before the exchange is contacted. *)
Definition ready : LiveOrderLifecycleRecord :=
  opened c St_READY_FOR_SUBMISSION PAPER_APPROVED (Some approval) (Some auth) (Some sha) (Some at_)
    (Some at_) None None None at_ 4.

(** Runs one event against a known state: the checks pass and the transition
    gives the next known state. *)
Ltac live_step rest :=
  match goal with
  | H1 : aggregate_id ?e = _, H2 : life_type ?e = _, H3 : sequence ?e = _, H4 : occurred_at ?e = _,
    H5 : forall k, payload_get ?e k = _ |-
    context [life_apply (Some (opened c ?stg ?st ?ap ?au ?sh ?t1 ?t2 ?t3 ?t4 ?t5 at_ ?seq)) ?e] =>
      let I := fresh in let S := fresh in
      destruct (subject_step stg st ap au sh t1 t2 t3 t4 t5 seq e rest H1 H3 H5) as [I S];
        [first [reflexivity | cbn; by rewrite String.eqb_refl] ..|];
      unfold life_apply; rewrite H2, Ok_bind; unfold advance_live; rewrite I, Ok_bind, S, Ok_bind;
      cbv zeta; rewrite H4, ?H5; unfold _transition; rewrite H3
  end.

Lemma promotion_step e : aggregate_id e = client_order_id c -> life_type e = Ok Ev_PROMOTION_REQUESTED ->
  sequence e = 1 + 1 -> occurred_at e = at_ ->
  (forall k, payload_get e k = dict_get String.eqb k (subject c ++ requested c)) ->
  life_apply (Some (opened c St_PREVIEWED RESEARCH_ONLY None None None None None None None None at_ 1)) e = Ok (opened c St_PROMOTION_REQUIRED STAGED_CANDIDATE None None None None None None None None at_ 2).
Proof.
  intros H1 H2 H3 H4 H5. live_step (requested c).
  apply opened_valid; try reflexivity. lia.
Qed.

Lemma request_step e : aggregate_id e = client_order_id c -> life_type e = Ok Ev_HUMAN_APPROVAL_REQUESTED ->
  sequence e = 2 + 1 -> occurred_at e = at_ ->
  (forall k, payload_get e k = dict_get String.eqb k (subject c ++ requested c)) ->
  life_apply (Some (opened c St_PROMOTION_REQUIRED STAGED_CANDIDATE None None None None None None None None at_ 2)) e = Ok (opened c St_HUMAN_APPROVAL_REQUIRED STAGED_CANDIDATE None None None (Some at_) None None None None at_ 3).
Proof.
  intros H1 H2 H3 H4 H5. live_step (requested c).
  change (_require_stage _ _) with (Ok tt). rewrite Ok_bind.
  apply opened_valid; try reflexivity. lia.
Qed.

Lemma approve_step e : aggregate_id e = client_order_id c -> life_type e = Ok Ev_HUMAN_APPROVED ->
  sequence e = 3 + 1 -> occurred_at e = at_ ->
  (forall k, payload_get e k = dict_get String.eqb k (subject c ++ evidence approval auth sha)) ->
  life_apply (Some (opened c St_HUMAN_APPROVAL_REQUIRED STAGED_CANDIDATE None None None (Some at_) None None None None at_ 3)) e = Ok ready.
Proof.
  intros H1 H2 H3 H4 H5. live_step (evidence approval auth sha).
  change (_require_stage _ _) with (Ok tt). rewrite Ok_bind.
  change (dict_get String.eqb "approval_id" _) with (Some approval).
  change (dict_get String.eqb "authorization_id" _) with (Some auth).
  change (dict_get String.eqb "authorization_envelope_sha256" _) with (Some sha).
  rewrite !required_fixed, !Ok_bind by done. unfold ready.
  apply opened_valid; try reflexivity. lia.
Qed.

(** The states after the exchange was contacted. *)
Definition attempt_failed : LiveOrderLifecycleRecord :=
  opened c St_SUBMISSION_ATTEMPT_FAILED_REVIEW_REQUIRED PAPER_APPROVED (Some approval) (Some auth) (Some sha)
    (Some at_) (Some at_) (Some at_) None None at_ 5.
Definition submitted_order : LiveOrderLifecycleRecord :=
  opened c St_SUBMITTED LIVE_ELIGIBLE (Some approval) (Some auth) (Some sha)
    (Some at_) (Some at_) (Some at_) (Some at_) None at_ 5.
Definition accepted_order : LiveOrderLifecycleRecord :=
  opened c St_ACCEPTED LIVE_ELIGIBLE (Some approval) (Some auth) (Some sha)
    (Some at_) (Some at_) (Some at_) (Some at_) (Some at_) at_ 6.

Lemma failed_step e blockers : blank blockers = false -> aggregate_id e = client_order_id c -> life_type e = Ok Ev_SUBMISSION_ATTEMPT_FAILED ->
  sequence e = 4 + 1 -> occurred_at e = at_ ->
  (forall k, payload_get e k = dict_get String.eqb k (subject c ++ evidence approval auth sha ++ [("client_order_id", client_order_id c); ("blockers", blockers)])) ->
  life_apply (Some ready) e = Ok attempt_failed.
Proof.
  intros Hb H1 H2 H3 H4 H5. unfold ready. live_step (evidence approval auth sha ++ [("client_order_id", client_order_id c); ("blockers", blockers)]).
  change (_require_stage _ _) with (Ok tt). rewrite Ok_bind.
  change (dict_get String.eqb "blockers" _) with (Some blockers).
  unfold life_required. rewrite Hb. cbn [raise_if]. rewrite !Ok_bind.
  apply opened_valid; try reflexivity. lia.
Qed.

Lemma submit_step e : aggregate_id e = client_order_id c -> life_type e = Ok Ev_SUBMITTED ->
  sequence e = 4 + 1 -> occurred_at e = at_ ->
  (forall k, payload_get e k = dict_get String.eqb k (subject c ++ evidence approval auth sha ++ exchange_id v ++ [("client_order_id", client_order_id c)])) ->
  life_apply (Some ready) e = Ok submitted_order.
Proof.
  intros H1 H2 H3 H4 H5. unfold ready. live_step (evidence approval auth sha ++ exchange_id v ++ [("client_order_id", client_order_id c)]).
  change (_require_stage _ _) with (Ok tt). rewrite Ok_bind.
  apply opened_valid; try reflexivity. lia.
Qed.

Lemma accept_step e s : aggregate_id e = client_order_id c -> life_type e = Ok Ev_ACCEPTED ->
  sequence e = 5 + 1 -> occurred_at e = at_ ->
  (forall k, payload_get e k = dict_get String.eqb k (subject c ++ exchange_id v ++ [("exchange_order_status", s)] ++ [])) ->
  life_apply (Some submitted_order) e = Ok accepted_order.
Proof.
  intros H1 H2 H3 H4 H5. unfold submitted_order. live_step (exchange_id v ++ [("exchange_order_status", s)] ++ []).
  change (_require_stage _ _) with (Ok tt). rewrite Ok_bind.
  apply opened_valid; try reflexivity. lia.
Qed.

Lemma approved_replay tl es :
  follows (client_order_id c) at_ 1 (approved_events c approval auth sha ++ tl) es ->
  exists es', life_fold None es = life_fold (Some ready) es' /\ follows (client_order_id c) at_ 5 tl es'.
Proof.
  unfold approved_events. intros F. cbn [app] in F.
  destruct es as [|e1 es]; [done|]. destruct F as (A1 & A2 & A3 & A4 & A5 & F).
  destruct es as [|e2 es]; [done|]. destruct F as (B1 & B2 & B3 & B4 & B5 & F).
  destruct es as [|e3 es]; [done|]. destruct F as (C1 & C2 & C3 & C4 & C5 & F).
  destruct es as [|e4 es]; [done|]. destruct F as (D1 & D2 & D3 & D4 & D5 & F).
  exists es. split; [|exact F]. cbn [life_fold].
  rewrite (open_step e1 _ A1 A2 A3 A4 A5), Ok_bind, (promotion_step e2 B1 B2 B3 B4 B5), Ok_bind,
    (request_step e3 C1 C2 C3 C4 C5), Ok_bind, (approve_step e4 D1 D2 D3 D4 D5), Ok_bind. reflexivity.
Qed.

(** The last read-back status that needs no fill, and where it leads. *)
Definition settled (status : option string) : LiveOrderLifecycleRecord :=
  match status with None => submitted_order | Some _ => accepted_order end.

Lemma built ps : forallb (fun tp => sound (snd tp)) ps = true ->
  exists es, _build_events (client_order_id c) ps at_ = Ok es /\ follows (client_order_id c) at_ 1 ps es.
Proof. intros H. apply build_from_Ok; [apply id_not_blank|exact Hat|exact H|lia]. Qed.

Lemma failed_replays : r_status v = ATTEMPT_FAILED -> blank (join "|" (r_blockers v)) = false ->
  exists es, build_place_events c v at_ = Ok es /\ life_replay es = Ok attempt_failed.
Proof.
  intros Hs Hb. unfold build_place_events. rewrite Hap, Hau, Hsh, (required_fixed approval), (required_fixed auth), (required_fixed sha), !Ok_bind by done.
  cbv zeta. rewrite Hs. unfold life_required. rewrite Hb. cbn [raise_if]. rewrite !Ok_bind.
  set (blockers := strip (join "|" (r_blockers v))).
  assert (blank blockers = false) as Hb' by (unfold blank, blockers; rewrite strip_idem; exact Hb).
  destruct (built (approved_events c approval auth sha ++ [failed_event c approval auth sha blockers]))
    as (es & E & F); [reflexivity|].
  rewrite E. exists es. split; [done|]. apply life_replay_fold.
  apply approved_replay in F as (es' & -> & F). destruct es' as [|e [|? ?]]; [done| |].
  - destruct F as (A1 & A2 & A3 & A4 & A5 & _). cbn [life_fold].
    by rewrite (failed_step e blockers Hb' A1 A2 A3 A4 A5).
  - by destruct F as (_ & _ & _ & _ & _ & []).
Qed.

Lemma placed_replays : r_status v = Executor.SUBMITTED \/ r_status v = UNVERIFIED_REVIEW_REQUIRED ->
  let s := _snapshot_status (r_exchange_status v) (r_snapshot v) in
  (s = None \/ s = Some "NEW" -> exists es,
     build_place_events c v at_ = Ok es /\ life_replay es = Ok (settled s)) /\
  (s = Some "CANCELED" -> exists es x, build_place_events c v at_ = Ok es /\ life_replay es = Raise x).
Proof.
  intros Hs s. unfold build_place_events. rewrite Hap, Hau, Hsh, (required_fixed approval), (required_fixed auth), (required_fixed sha), !Ok_bind by done. cbv zeta.
  set (plan tl := (approved_events c approval auth sha ++ submitted_event c v approval auth sha :: tl)%list).
  assert (forall r : res (list DomainEvent), match r_status v with
    | ATTEMPT_FAILED => r
    | Executor.SUBMITTED | UNVERIFIED_REVIEW_REQUIRED =>
        outcome ← outcome_events c v; _build_events (client_order_id c) (plan outcome) at_
    | _ => Raise (ValueError "unsupported live order place result")
    end = (outcome ← outcome_events c v; _build_events (client_order_id c) (plan outcome) at_)) as ->
    by (intros; destruct Hs as [-> | ->]; reflexivity).
  unfold outcome_events. fold s.
  assert (forall tl es, follows (client_order_id c) at_ 1 (plan tl) es -> exists es',
    life_fold None es = life_fold (Some submitted_order) es' /\ follows (client_order_id c) at_ 6 tl es') as P.
  { intros tl es F. apply approved_replay in F as (es' & -> & F). destruct es' as [|e es']; [done|].
    destruct F as (A1 & A2 & A3 & A4 & A5 & F). exists es'. split; [|exact F]. cbn [life_fold].
    by rewrite (submit_step e A1 A2 A3 A4 A5), Ok_bind. }
  split; [intros [-> | ->]|intros ->]; cbn [String.eqb Ascii.eqb Bool.eqb]; rewrite Ok_bind.
  - destruct (built (plan [])) as (es & E & F); [reflexivity|]. exists es. split; [done|].
    apply life_replay_fold. apply P in F as (es' & -> & F). by destruct es'.
  - destruct (built (plan [status_event c v Ev_ACCEPTED "NEW" None])) as (es & E & F); [reflexivity|].
    exists es. split; [done|]. apply life_replay_fold. apply P in F as (es' & -> & F).
    destruct es' as [|e [|? ?]]; [done| |by destruct F as (_ & _ & _ & _ & _ & [])].
    destruct F as (A1 & A2 & A3 & A4 & A5 & _). cbn [life_fold].
    by rewrite (accept_step e "NEW" A1 A2 A3 A4 A5).
  - destruct (built (plan [status_event c v Ev_CANCELLED "CANCELED" None])) as (es & E & F); [reflexivity|].
    exists es. destruct (life_replay es) as [r|x] eqn:R; [|eauto]. exfalso.
    apply life_replay_fold in R. apply P in F as (es' & E' & F). rewrite E' in R.
    destruct es' as [|e [|? ?]]; [done| |by destruct F as (_ & _ & _ & _ & _ & [])].
    destruct F as (_ & A2 & _). cbn [life_fold] in R. unfold life_apply in R. rewrite A2, Ok_bind in R.
    destruct (exit_refused submitted_order e Ev_CANCELLED St_CANCELLED eq_refl) as (x & Ex);
      [|simpl; tauto|by rewrite Ex in R].
    intros r' Hok Hst Ha _. apply (lk_accepted _ Hok); [by rewrite Hst|]. by rewrite Ha.
Qed.
End Replays.

(** The outcome of a placement is a replayable order, with one exception.
    For a sound command and the ids the executor returns, the chain built for a
    failed attempt replays to the failed stage, and the chain of a submission
    whose read-back has no status or status NEW to a SUBMITTED or ACCEPTED order,
    always with the command's quantity (through its decimal text), preview hash
    and authorization; but when the exchange already reports CANCELED the chain is
    built, and appended, and then refused by its own replay. *)
Theorem place_outcome_replays c v approval auth sha at_ :
  command_ok c -> exponent_in_range (quantity c) = true -> naive at_ = false ->
  r_approval_id v = Some approval -> r_authorization_id v = Some auth -> r_envelope_sha256 v = Some sha ->
  strip approval = approval /\ approval <> "" -> strip auth = auth /\ auth <> "" ->
  strip sha = sha /\ sha <> "" ->
  let s := _snapshot_status (r_exchange_status v) (r_snapshot v) in
  (r_status v = ATTEMPT_FAILED -> blank (join "|" (r_blockers v)) = false ->
     exists es, build_place_events c v at_ = Ok es /\
       life_replay es = Ok (attempt_failed c approval auth sha at_)) /\
  (r_status v = Executor.SUBMITTED \/ r_status v = UNVERIFIED_REVIEW_REQUIRED ->
     (s = None \/ s = Some "NEW" -> exists es, build_place_events c v at_ = Ok es /\
        life_replay es = Ok (settled c approval auth sha at_ s)) /\
     (s = Some "CANCELED" -> exists es x, build_place_events c v at_ = Ok es /\ life_replay es = Raise x)).
Proof.
  intros. split; [by apply failed_replays|]. intros Hs. by apply (placed_replays c v approval auth sha at_).
Qed.

(** ** Witnesses *)

Definition ex_result (status : LiveCommandStatus) (exchange : option string) : LiveCommandResult :=
  mk_result status (if bool_decide (status = ATTEMPT_FAILED) then ["X"] else []) "client-1" (Some "7")
    (Some (preview_hash ex_command)) exchange None (Some "auth-1") (Some ex_hash) (Some "approval-1").
Definition ex_placed : list DomainEvent :=
  ok_or [] (build_place_events ex_command (ex_result Executor.SUBMITTED (Some "NEW")) (utc (seconds 9))).
Definition no_live : LiveOrderLifecycleRecord :=
  mk_live "" "" St_DRAFT "" RESEARCH_ONLY None None None None None None None None None None ZERO ZERO 0.
Definition replayed (es : list DomainEvent) : LiveOrderLifecycleRecord :=
  match life_replay es with Ok r => r | Raise _ => no_live end.
Definition ex_accepted : LiveOrderLifecycleRecord := Eval vm_compute in replayed ex_placed.
Definition ex_sent : LiveOrderLifecycleRecord := Eval vm_compute in replayed (firstn 5 ex_placed).
Definition ex_life_event (ty : LiveOrderLifecycleEvent) (seq : Z) (p : payload_t) : DomainEvent :=
  mk_event "e" "client-1" (enum_text ty) seq (utc (seconds 10)) p "" "".

(** The accepted order is promoted, approved and submitted a second time. *)
Example ex_submitted_twice :
  let again := [ ex_life_event Ev_PROMOTION_REQUESTED 7 []; ex_life_event Ev_HUMAN_APPROVAL_REQUESTED 8 [];
    ex_life_event Ev_HUMAN_APPROVED 9 [("approval_id", "a2"); ("authorization_id", "auth-1");
      ("authorization_envelope_sha256", ex_hash)];
    ex_life_event Ev_SUBMITTED 10 [] ] in
  (lo_stage (replayed ex_placed), lo_stage (replayed (ex_placed ++ again))) = (St_ACCEPTED, St_SUBMITTED).
Proof. vm_compute. reflexivity. Qed.

Lemma submission_is_approved_witness :
  exists auth, lo_authorization_id ex_sent = Some (strip auth).
Proof.
  epose proof (submission_is_approved (firstn 4 ex_placed) (nth 4 ex_placed (ex_life_event Ev_SUBMITTED 0 []))
    ex_sent Ev_SUBMITTED) as H.
  edestruct H as (es0 & p & h & a & E & _ & _ & _ & _ & auth & H1 & H2);
    [vm_compute; reflexivity | vm_compute; reflexivity | left; reflexivity |].
  exists auth. exact H2.
Defined.

Lemma live_replay_ok_witness : live_ok ex_accepted /\ within_request ex_accepted.
Proof.
  epose proof (live_replay_ok ex_placed ex_accepted ltac:(vm_compute; reflexivity)) as (H1 & H2 & _).
  split; [exact H1|exact H2].
Defined.

Lemma dead_transitions_witness : exists x, advance_live ex_sent (ex_life_event Ev_CANCELLED 6 []) Ev_CANCELLED = Raise x.
Proof. exact (proj1 (dead_transitions ex_sent (ex_life_event Ev_CANCELLED 6 [])) eq_refl eq_refl). Defined.

Lemma promotion_reopens_order_witness :
  exists r', life_apply (Some ex_accepted) (ex_life_event Ev_PROMOTION_REQUESTED 7 []) = Ok r' /\
    lo_stage r' = St_PROMOTION_REQUIRED.
Proof.
  edestruct (promotion_reopens_order ex_accepted (ex_life_event Ev_PROMOTION_REQUESTED 7 []))
    as (r' & H1 & H2 & _);
    [vm_compute; reflexivity | vm_compute; reflexivity | vm_compute; reflexivity | vm_compute; reflexivity
    | vm_compute; reflexivity |].
  exists r'. split; [exact H1|exact H2].
Defined.

Lemma zero_price_hides_quote_witness :
  _snapshot_fill_price (Some (JObj [("price", JStr "0.00000000"); ("cummulativeQuoteQty", JStr "32000")]))
    (lit 5 (-1)) = Raise (ValueError "fill_price must be positive").
Proof.
  apply (zero_price_hides_quote _ "price" "32000"); [simpl; tauto | reflexivity | reflexivity |].
  intros k' [<-|[<-|[<-|[<-|[]]]]] H; try reflexivity. exfalso. apply H. reflexivity.
Defined.

Lemma ex_command_ok : command_ok ex_command.
Proof.
  split; [split; [reflexivity|split; reflexivity]|left; reflexivity|vm_compute; reflexivity
         |split; [reflexivity|split; [discriminate|split; [vm_compute; discriminate|reflexivity]]]|].
  left. split; [reflexivity|]. split; [|reflexivity]. exists (lit 64000 0). split; [reflexivity|].
  vm_compute. reflexivity.
Qed.

Lemma place_outcome_replays_witness :
  exists es, build_place_events ex_command (ex_result Executor.SUBMITTED (Some "NEW")) (utc (seconds 9)) = Ok es /\
    life_replay es = Ok (accepted_order ex_command "approval-1" "auth-1" ex_hash (utc (seconds 9))).
Proof.
  destruct (place_outcome_replays ex_command (ex_result Executor.SUBMITTED (Some "NEW")) "approval-1" "auth-1"
    ex_hash (utc (seconds 9)) ex_command_ok) as [_ H];
    [reflexivity | reflexivity | reflexivity | reflexivity | reflexivity
    | split; [reflexivity | discriminate] | split; [reflexivity | discriminate]
    | split; [vm_compute; reflexivity | discriminate] |].
  destruct (H (or_introl eq_refl)) as [H1 _]. exact (H1 (or_intror eq_refl)).
Defined.
