(* ===== verification/Approval.v ===== *)
(** [execution/manual_approval.py]: the queue of manual approvals, and the
    resolution of an approved authorization that the executor relies on.

    The queue is a file of JSON lines.  Here it is the list of what its lines
    decode to; a damaged line is the exception its decoding raises.  What a
    record written to the file decodes to is the argument [reload]; in
    [ApprovalText] it is the decoding of the line the code writes. *)
From S2P Require Import Prelude PyDecimal DecimalFacts Sha256 PyText Domain PromotionEvidence OrderCommand.
From S2P Require Import LiveGate Authorization Executor.
From Stdlib Require Import QArith.
Local Open Scope Z_scope.
Local Open Scope bool_scope.

Inductive ManualActionType : Type :=
| PLACE_SPOT_ORDER | PLACE_FUTURES_ORDER | CANCEL_ORDER | REDUCE_SPOT_HOLDING | EXIT_SPOT_HOLDING
| CLOSE_FUTURES_POSITION | REDUCE_FUTURES_POSITION | TRANSFER_SPOT_TO_FUTURES
| TRANSFER_FUTURES_TO_SPOT | CONVERT_ASSET.
#[export] Instance action_type_eq_dec : EqDecision ManualActionType.
Proof. solve_decision. Defined.

Inductive ApprovalStatus : Type := AP_PENDING | AP_APPROVED | AP_REJECTED | AP_EXPIRED | AP_CANCELLED.
#[export] Instance approval_status_eq_dec : EqDecision ApprovalStatus.
Proof. solve_decision. Defined.

Record ManualActionProposal : Type := mk_proposal {
  action_id : string;
  action_type : ManualActionType;
  asset_or_symbol : string;
  suggested_notional_usdt : dec;
  reason : string;
  expected_effect : string;
  risk : string;
  action_status : ApprovalStatus;
  action_blockers : list string
}.
#[export] Instance proposal_eq_dec : EqDecision ManualActionProposal.
Proof. solve_decision. Defined.

(** [ManualActionProposal(...)] with [__post_init__] *)
Definition new_proposal (id : string) (ty : ManualActionType) (asset : string) (notional : pydec)
  (reason effect risk : string) (status : ApprovalStatus) (bl : list string)
  (execution_allowed : bool) (live_status : string) : res ManualActionProposal :=
  raise_if (blank id || blank asset || blank reason || blank effect || blank risk)
    (ValueError "manual action proposal identity is required");;
  notional ← match notional with
             | Finite n => if (n <? ZERO)%D then Raise (ValueError "manual action notional must be non-negative")
                           else Ok n
             | _ => Raise (ValueError "manual action notional must be non-negative")
             end;
  raise_if (existsb blank bl) (ValueError "manual action blockers cannot be empty");;
  raise_if (execution_allowed || negb (String.eqb live_status LIVE_ORDER_BLOCKED))
    (ValueError "manual action cannot grant execution authority");;
  mret (mk_proposal id ty asset notional reason effect risk status bl).

Record ApprovalRequest : Type := mk_request {
  req_approval_id : string;
  req_action_id : string;
  req_action_type : ManualActionType;
  req_status : ApprovalStatus
}.
#[export] Instance request_eq_dec : EqDecision ApprovalRequest.
Proof. solve_decision. Defined.

(** [ApprovalRequest(...)] with [__post_init__] *)
Definition new_request (approval action : string) (ty : ManualActionType) (status : ApprovalStatus)
  (execution_allowed : bool) (live_status : string) : res ApprovalRequest :=
  raise_if (blank approval || blank action) (ValueError "approval request identity is required");;
  raise_if (execution_allowed || negb (String.eqb live_status LIVE_ORDER_BLOCKED))
    (ValueError "approval request cannot grant execution authority");;
  mret (mk_request approval action ty status).

#[export] Instance envelope_eq_dec : EqDecision ExecutionAuthorizationEnvelope.
Proof. solve_decision. Defined.

Record ApprovalQueueRecord : Type := mk_queue_record {
  q_action : ManualActionProposal;
  q_approval : ApprovalRequest;
  q_created_at : datetime;
  q_authorization : option ExecutionAuthorizationEnvelope
}.
#[export] Instance queue_record_eq_dec : EqDecision ApprovalQueueRecord.
Proof. solve_decision. Defined.

(** The authorization names the approval and the symbol of its record. *)
Definition bound_to (action : ManualActionProposal) (approval : ApprovalRequest)
  (e : ExecutionAuthorizationEnvelope) : bool :=
  bool_decide (action_type action = PLACE_SPOT_ORDER)
  && String.eqb (approval_id e) (req_approval_id approval)
  && String.eqb (auth_symbol e) (normalize (asset_or_symbol action)).

(** [ApprovalQueueRecord(...)] with [__post_init__] *)
Definition new_queue_record (action : ManualActionProposal) (approval : ApprovalRequest) (at_ : datetime)
  (auth : option ExecutionAuthorizationEnvelope) : res ApprovalQueueRecord :=
  raise_if (naive at_) (ValueError "approval queue timestamp must be timezone-aware");;
  raise_if (negb (String.eqb (action_id action) (req_action_id approval)))
    (ValueError "approval record action IDs must match");;
  raise_if (negb (bool_decide (action_type action = req_action_type approval)))
    (ValueError "approval record action types must match");;
  raise_if (match auth with Some e => negb (bound_to action approval e) | None => false end)
    (ValueError "execution authorization does not match approval record");;
  mret (mk_queue_record action approval at_ auth).

(** ** The queue *)

Definition queue_file : Type := list (res ApprovalQueueRecord).

(** [LocalApprovalQueue.records] *)
Definition records (f : queue_file) : res (list ApprovalQueueRecord) := mapM id f.

(** [LocalApprovalQueue.by_action_id] *)
Definition by_action_id (f : queue_file) (id : string) : res (option ApprovalQueueRecord) :=
  rs ← records f;
  mret (List.find (fun r => String.eqb (action_id (q_action r)) (strip id)) rs).

(** The records that carry an authorization id. *)
Definition carries (id : string) (r : ApprovalQueueRecord) : bool :=
  match q_authorization r with Some e => String.eqb (authorization_id e) id | None => false end.

Definition approved (id : string) (r : ApprovalQueueRecord) (e : ExecutionAuthorizationEnvelope) : bool :=
  bool_decide (action_status (q_action r) = AP_APPROVED)
  && bool_decide (req_status (q_approval r) = AP_APPROVED)
  && String.eqb (authorization_id e) id
  && bool_decide (req_action_type (q_approval r) = PLACE_SPOT_ORDER)
  && bound_to (q_action r) (q_approval r) e.

(** The tail of the resolution: the one latest record of the approval. *)
Definition latest_approved (id approval : string) (rs : list ApprovalQueueRecord)
  : option ExecutionAuthorizationEnvelope :=
  match latest q_created_at (List.filter (fun r => String.eqb (req_approval_id (q_approval r)) approval) rs) with
  | [r] => match q_authorization r with
           | Some e => if approved id r e then Some e else None
           | None => None
           end
  | _ => None
  end.

(** The set of approval ids of the bound records, in order of occurrence. *)
Definition approval_ids (id : string) (rs : list ApprovalQueueRecord) : list string :=
  fromkeys (flat_map (fun r => match q_authorization r with Some e => [approval_id e] | None => [] end)
              (List.filter (carries id) rs)).

(** [LocalApprovalQueue.resolve_execution_authorization] *)
Definition resolve_execution_authorization (f : queue_file) (authorization_id : string)
  : res (option ExecutionAuthorizationEnvelope) :=
  let id := strip authorization_id in
  if String.eqb id "" then Ok None
  else
    rs ← records f;
    match approval_ids id rs with
    | [approval] => mret (latest_approved id approval rs)
    | _ => Ok None
    end.

(** [observed == record] for a record without authorization: dataclasses
    compare field by field, numbers by value and aware times by instant. *)
Definition same_record (a b : ApprovalQueueRecord) : bool :=
  String.eqb (action_id (q_action a)) (action_id (q_action b))
  && bool_decide (action_type (q_action a) = action_type (q_action b))
  && String.eqb (asset_or_symbol (q_action a)) (asset_or_symbol (q_action b))
  && (suggested_notional_usdt (q_action a) =? suggested_notional_usdt (q_action b))%D
  && String.eqb (reason (q_action a)) (reason (q_action b))
  && String.eqb (expected_effect (q_action a)) (expected_effect (q_action b))
  && String.eqb (risk (q_action a)) (risk (q_action b))
  && bool_decide (action_status (q_action a) = action_status (q_action b))
  && bool_decide (action_blockers (q_action a) = action_blockers (q_action b))
  && bool_decide (q_approval a = q_approval b)
  && dt_eqb (q_created_at a) (q_created_at b)
  && match q_authorization a with None => true | Some _ => false end.

Section Enqueue.
Context (reload : ApprovalQueueRecord -> res ApprovalQueueRecord).

(** [LocalApprovalQueue.enqueue]; an empty approval id takes the default one
    and [now] is what the clock says when no time is given. *)
Definition enqueue (action : ManualActionProposal) (approval : option string) (created_at : option datetime)
  (now : datetime) : method queue_file ApprovalQueueRecord :=
  f ← get;
  existing ← lift (by_action_id f (action_id action));
  match existing with
  | Some r => mret r
  | None =>
      let approval_id := match approval with
                         | Some a => if String.eqb a "" then "approval-" ++ action_id action else a
                         | None => "approval-" ++ action_id action
                         end%string in
      request ← lift (new_request approval_id (action_id action) (action_type action) AP_PENDING false
                        LIVE_ORDER_BLOCKED);
      record ← lift (new_queue_record action request (default now created_at) None);
      modify (fun f => f ++ [reload record]);;
      f ← get;
      observed ← lift (by_action_id f (action_id action));
      if match observed with Some r => same_record r record | None => false end then mret record
      else lift (Raise (ValueError "APPROVAL_QUEUE_DESTINATION_VERIFY_FAILED"))
  end.
End Enqueue.

(** ** Facts *)

Lemma fromkeys_single l x : fromkeys l = [x] <-> l <> [] /\ forall y, In y l -> y = x.
Proof.
  split.
  - intros H. split; [by intros ->|]. intros y Hy. apply fromkeys_In in Hy. rewrite H in Hy.
    by destruct Hy as [->|[]].
  - intros [Hn Hx]. destruct l as [|z l]; [done|].
    assert (z = x) as -> by (apply Hx; by left).
    pose proof (fromkeys_NoDup (x :: l)) as Hd. pose proof (fromkeys_In (x :: l)) as Hi.
    destruct (fromkeys (x :: l)) as [|a [|b k]] eqn:E; [by apply (fromkeys_nil _) in E| |].
    + assert (a = x) as -> by (apply Hx, Hi; by left). done.
    + exfalso. apply NoDup_cons_iff in Hd as [Hd _]. apply Hd.
      assert (a = x) as -> by (apply Hx, Hi; by left).
      assert (b = x) as -> by (apply Hx, Hi; right; by left). by left.
Qed.

Lemma approval_ids_single id rs approval : approval_ids id rs = [approval] <->
  (exists r, In r rs /\ carries id r = true) /\
  forall r e, In r rs -> q_authorization r = Some e -> authorization_id e = id -> approval_id e = approval.
Proof.
  unfold approval_ids. rewrite fromkeys_single.
  assert (forall y, In y (flat_map (fun r => match q_authorization r with Some e => [approval_id e] | None => [] end)
    (List.filter (carries id) rs)) <-> exists r e, In r rs /\ q_authorization r = Some e /\
      authorization_id e = id /\ approval_id e = y) as F.
  { intros y. rewrite in_flat_map. split.
    - intros (r & Hr & Hy). apply filter_In in Hr as [Hr Hc]. unfold carries in Hc.
      destruct (q_authorization r) as [e|] eqn:E; [|done]. destruct Hy as [<-|[]].
      apply String.eqb_eq in Hc. exists r, e. auto.
    - intros (r & e & Hr & E & Hi & <-). exists r. rewrite E. split; [|by left].
      apply filter_In. split; [done|]. unfold carries. rewrite E. by apply String.eqb_eq. }
  split.
  - intros [Hn Hy]. split.
    + destruct (List.filter (carries id) rs) as [|r k] eqn:E; [done|]. exists r.
      by apply filter_In; rewrite E; left.
    + intros r e Hr E Hi. apply Hy, F. eauto 6.
  - intros [(r & Hr & Hc) Hy]. split.
    + unfold carries in Hc. destruct (q_authorization r) as [e|] eqn:E; [|done]. apply String.eqb_eq in Hc.
      intros En. assert (In (approval_id e) []) as []. rewrite <- En. apply F. eauto 6.
    + intros y Hin. apply F in Hin as (r' & e & H1 & H2 & H3 & <-). by apply (Hy r').
Qed.

Lemma approved_spec id r e : approved id r e = true <->
  action_status (q_action r) = AP_APPROVED /\ req_status (q_approval r) = AP_APPROVED /\
  authorization_id e = id /\ req_action_type (q_approval r) = PLACE_SPOT_ORDER /\
  action_type (q_action r) = PLACE_SPOT_ORDER /\ approval_id e = req_approval_id (q_approval r) /\
  auth_symbol e = normalize (asset_or_symbol (q_action r)).
Proof.
  unfold approved, bound_to. rewrite !andb_true_iff, !bool_decide_eq_true, !String.eqb_eq. tauto.
Qed.

(** The one record that approves an authorization. *)
Definition approving (id : string) (rs : list ApprovalQueueRecord) (r : ApprovalQueueRecord)
  (e : ExecutionAuthorizationEnvelope) : Prop :=
  q_authorization r = Some e /\ approved id r e = true /\
  (forall x e', In x rs -> q_authorization x = Some e' -> authorization_id e' = id ->
     approval_id e' = approval_id e) /\
  exists l1 l2, rs = l1 ++ r :: l2 /\
    forall x, In x (l1 ++ l2) -> req_approval_id (q_approval x) = approval_id e ->
      instant (q_created_at x) < instant (q_created_at r).

Lemma approved_resolve_run f id rs e : records f = Ok rs -> strip id <> "" ->
  resolve_execution_authorization f id = Ok (Some e) <-> exists r, approving (strip id) rs r e.
Proof.
  intros Hr Hn. unfold resolve_execution_authorization. cbv zeta. apply String.eqb_neq in Hn. rewrite Hn, Hr.
  rewrite Ok_bind. set (i := strip id). split.
  - destruct (approval_ids i rs) as [|a [|? ?]] eqn:Ea; [done| |done].
    apply approval_ids_single in Ea as [_ Hall]. intros H. apply mret_Ok in H. unfold latest_approved in H.
    destruct (latest _ _) as [|r [|? ?]] eqn:El; [done| |done].
    apply latest_single in El as (l1 & l2 & -> & Hp & Hx).
    destruct (q_authorization r) as [e'|] eqn:Eq; [|done].
    destruct (approved i r e') eqn:Ep; [|done]. injection H as ->.
    pose proof (proj1 (approved_spec _ _ _) Ep) as (_ & _ & E1 & _ & _ & E2 & _).
    assert (approval_id e = a) as E3.
    { apply (Hall r); [|done|done]. apply in_app_iff. right. by left. }
    exists r. split; [done|]. split; [done|]. split; [by rewrite E3|].
    exists l1, l2. split; [done|]. intros x Hin Ex. apply Hx; [done|]. apply String.eqb_eq. congruence.
  - intros (r & Eq & Ep & Hall & l1 & l2 & E & Hx).
    pose proof (proj1 (approved_spec _ _ _) Ep) as (_ & _ & E1 & _ & _ & E2 & _).
    assert (approval_ids i rs = [approval_id e]) as ->.
    { apply approval_ids_single. split; [|by eauto]. exists r. split.
      - rewrite E. apply in_app_iff. right. by left.
      - unfold carries. rewrite Eq. by apply String.eqb_eq. }
    unfold latest_approved.
    assert (latest q_created_at (List.filter (fun x => String.eqb (req_approval_id (q_approval x)) (approval_id e)) rs)
            = [r]) as ->.
    { apply latest_single. exists l1, l2. split; [done|]. split; [apply String.eqb_eq; by rewrite E2|].
      intros x Hin Ex. apply Hx; [done|]. by apply String.eqb_eq. }
    by rewrite Eq, Ep.
Qed.

(** ** The queue as the executor's source *)

(** The queue may change between the calls of the executor. *)
Definition queue_source (q : list call -> queue_file) (l : list call) (id : string)
  : res (option ExecutionAuthorizationEnvelope) := resolve_execution_authorization (q l) id.

(** ** Properties *)

(** C25: approval is exact and revocable.  On a readable queue an authorization
    id resolves to an envelope if and only if all records that carry the id name
    one approval, exactly one record of that approval is the newest, and that
    record is approved on both sides, places a Spot order, and carries the
    envelope with its own approval id, symbol and the queried id; so any later
    record of the approval that does not approve it again revokes it, and a tie
    of two newest records resolves to nothing. *)
Theorem approval_resolution_exact f id rs e :
  records f = Ok rs -> strip id <> "" ->
  resolve_execution_authorization f id = Ok (Some e) <->
  exists r l1 l2, rs = l1 ++ r :: l2 /\ q_authorization r = Some e /\
    authorization_id e = strip id /\ approval_id e = req_approval_id (q_approval r) /\
    auth_symbol e = normalize (asset_or_symbol (q_action r)) /\
    action_status (q_action r) = AP_APPROVED /\ req_status (q_approval r) = AP_APPROVED /\
    action_type (q_action r) = PLACE_SPOT_ORDER /\ req_action_type (q_approval r) = PLACE_SPOT_ORDER /\
    (forall x e', In x rs -> q_authorization x = Some e' -> authorization_id e' = strip id ->
       approval_id e' = approval_id e) /\
    (forall x, In x (l1 ++ l2) -> req_approval_id (q_approval x) = approval_id e ->
       instant (q_created_at x) < instant (q_created_at r)).
Proof.
  intros Hr Hn. rewrite (approved_resolve_run f id rs e Hr Hn). unfold approving. split.
  - intros (r & Eq & Ep & Hall & l1 & l2 & E & Hx). apply approved_spec in Ep. exists r, l1, l2. tauto.
  - intros (r & l1 & l2 & E & Eq & H). exists r. split; [done|]. rewrite approved_spec.
    split; [tauto|]. split; [tauto|]. exists l1, l2. tauto.
Qed.

(** C4: no order without a standing human approval.  When the executor's source
    is the approval queue, a placement that contacts order entry had, both before
    its claim and again after it, a newest record of the approval in the queue,
    approved on both sides, whose envelope has the hash of the one placed;
    whatever happens to the queue in between. *)
Theorem exchange_contact_needs_approval env x g e at_ now s r s1 tl q :
  (forall l id, on_resolve env l id = queue_source q l id) ->
  place env x g (Some e) at_ now s = (r, s1) -> log s1 = (log s ++ tl)%list ->
  existsb is_session tl = true ->
  forall l, l = log s \/ l = (log s ++ [CResolve (authorization_id e)])%list ->
  exists rs rec rr, records (q l) = Ok rs /\ In rec rs /\ q_authorization rec = Some rr /\
    envelope_sha256 rr = envelope_sha256 e /\
    action_status (q_action rec) = AP_APPROVED /\ req_status (q_approval rec) = AP_APPROVED /\
    forall y, In y rs -> req_approval_id (q_approval y) = approval_id rr ->
      instant (q_created_at y) <= instant (q_created_at rec).
Proof.
  intros Hq H Hl Hs l Hcase.
  apply place_run in H as [(_ & (tl' & A & N) & _)|(e0 & c & tl2 & v & Az & _)].
  { unfold after in A. rewrite Hl in A. apply app_inv_head in A. congruence. }
  pose proof (az_given _ _ _ _ _ _ _ _ _ Az) as [= <-].
  assert (exists rr, on_resolve env l (authorization_id e) = Ok (Some rr) /\
    envelope_sha256 rr = envelope_sha256 e) as (rr & Hrr & Hsha).
  { destruct Hcase as [-> | ->]; [|apply (az_confirmed _ _ _ _ _ _ _ _ _ Az)].
    destruct (az_approved _ _ _ _ _ _ _ _ _ Az) as (rr & ? & ? & _). eauto. }
  rewrite Hq in Hrr. unfold queue_source in Hrr. pose proof Hrr as Hrun.
  unfold resolve_execution_authorization in Hrun. cbv zeta in Hrun.
  destruct (String.eqb_spec (strip (authorization_id e)) "") as [|Hne]; [done|].
  apply bind_Ok in Hrun as (rs & Hrs & _). apply (approved_resolve_run _ _ _ _ Hrs Hne) in Hrr as (rec & Ea & Ep & _ & l1 & l2 & E & Hx).
  apply approved_spec in Ep as (P1 & P2 & _). exists rs, rec, rr. split; [done|].
  split; [rewrite E; apply in_app_iff; right; by left|]. do 4 (split; [done|]).
  intros y Hy Ey. rewrite E in Hy. apply in_app_iff in Hy as [Hy|[<-|Hy]]; [|lia|];
    apply Z.lt_le_incl, Hx; try done; apply in_app_iff; auto.
Qed.

(** A padded action id can never be queued.  Lookups strip the id they are
    given but not the ids they compare with, so for an action whose id has outer
    white space every [enqueue] appends one more record and then raises. *)
Theorem padded_action_never_enqueued reload action approval created_at now f rs request record :
  strip (action_id action) <> action_id action ->
  records f = Ok rs ->
  (forall r, In r rs -> action_id (q_action r) = strip (action_id action) -> False) ->
  new_request (match approval with
               | Some a => if String.eqb a "" then "approval-" ++ action_id action else a
               | None => "approval-" ++ action_id action
               end)%string (action_id action) (action_type action) AP_PENDING false LIVE_ORDER_BLOCKED = Ok request ->
  new_queue_record action request (default now created_at) None = Ok record ->
  reload record = Ok record ->
  exists x, enqueue reload action approval created_at now f = (Raise x, f ++ [Ok record]).
Proof.
  intros Hpad Hr Hno Hreq Hrec Hrel.
  assert (forall l, records f = Ok l -> List.find (fun r => String.eqb (action_id (q_action r)) (strip (action_id action))) l = None) as Hf.
  { intros l El. rewrite Hr in El. injection El as <-. destruct (List.find _ rs) as [y|] eqn:E; [|done].
    apply find_some in E as [Hin E]. apply String.eqb_eq in E. by destruct (Hno y). }
  assert (action_id (q_action record) = action_id action) as Ha.
  { unfold new_queue_record in Hrec. do 4 (apply bind_Ok in Hrec as (? & _ & Hrec)).
    apply mret_Ok in Hrec. by subst. }
  assert (by_action_id f (action_id action) = Ok None) as E1.
  { unfold by_action_id. rewrite Hr, Ok_bind. by rewrite Hf. }
  assert (records (f ++ [Ok record]) = Ok (rs ++ [record])) as E2.
  { unfold records in *. clear - Hr. revert rs Hr. induction f as [|y f IH]; intros rs Hr; cbn [mapM app] in *.
    - apply mret_Ok in Hr. by subst.
    - apply bind_Ok in Hr as (a & Hy & Hr). apply bind_Ok in Hr as (k & Hk & Hr). apply mret_Ok in Hr.
      subst rs. rewrite (IH k Hk). unfold id in *. by rewrite Hy. }
  assert (by_action_id (f ++ [Ok record]) (action_id action) = Ok None) as E3.
  { unfold by_action_id. rewrite E2, Ok_bind. destruct (List.find _ (rs ++ [record])) as [y|] eqn:E; [|done].
    apply find_some in E as [Hin E]. apply String.eqb_eq in E. apply in_app_iff in Hin as [Hin|[<-|[]]].
    - by destruct (Hno y).
    - exfalso. apply Hpad. by rewrite <- E. }
  unfold enqueue. rewrite get_bind, lift_bind, E1. cbv zeta. rewrite lift_bind, Hreq, lift_bind, Hrec.
  rewrite modify_bind, get_bind, lift_bind, Hrel, E3. eexists. reflexivity.
Qed.

(** ** Witnesses *)

Definition ex_action (status : ApprovalStatus) : ManualActionProposal :=
  mk_proposal "action-1" PLACE_SPOT_ORDER "BTCUSDT" (lit 32000 0) "r" "e" "k" status [].
Definition ex_queued (status : ApprovalStatus) (at_ : Z) : ApprovalQueueRecord :=
  mk_queue_record (ex_action status) (mk_request "approval-1" "action-1" PLACE_SPOT_ORDER status)
    (utc (seconds at_)) (Some ex_bound).
Definition ex_queue : queue_file := [Ok (ex_queued AP_PENDING 1); Ok (ex_queued AP_APPROVED 2)].

(** The approved record resolves; a later rejection revokes it. *)
Example ex_revoked :
  is_ok (resolve_execution_authorization ex_queue " auth-1 ") = true /\
  resolve_execution_authorization (ex_queue ++ [Ok (ex_queued AP_REJECTED 3)]) "auth-1" = Ok None.
Proof. split; vm_compute; reflexivity. Qed.

Lemma approval_resolution_exact_witness :
  exists r, q_authorization r = Some ex_bound /\ req_status (q_approval r) = AP_APPROVED.
Proof.
  destruct (proj1 (approval_resolution_exact ex_queue "auth-1" [ex_queued AP_PENDING 1; ex_queued AP_APPROVED 2]
    ex_bound ltac:(vm_compute; reflexivity) ltac:(vm_compute; discriminate)) ltac:(vm_compute; reflexivity))
    as (r & l1 & l2 & _ & H1 & _ & _ & _ & _ & H2 & _).
  exists r. split; [exact H1|exact H2].
Defined.

Definition ex_queue_environment : Environment :=
  mk_environment (queue_source (fun _ => ex_queue)) (on_ledger ex_environment) (on_test ex_environment)
    (on_place ex_environment) (on_cancel ex_environment) (on_verify_placed ex_environment)
    (on_verify_cancelled ex_environment).
Lemma ex_queue_run : place ex_queue_environment ex_executor ex_gate_input (Some ex_bound)
  (Some (utc (seconds 30))) (utc 0) ex_start = ex_run.
Proof. vm_compute. reflexivity. Qed.

Lemma exchange_contact_needs_approval_witness :
  exists rs rec, records ex_queue = Ok rs /\ In rec rs /\ req_status (q_approval rec) = AP_APPROVED.
Proof.
  destruct (exchange_contact_needs_approval ex_queue_environment ex_executor ex_gate_input ex_bound
    (Some (utc (seconds 30))) (utc 0) ex_start (fst ex_run) (snd ex_run) (log (snd ex_run)) (fun _ => ex_queue)
    (fun _ _ => eq_refl) ex_queue_run eq_refl eq_refl [] (or_introl eq_refl))
    as (rs & rec & rr & H1 & H2 & _ & _ & _ & H3 & _).
  exists rs, rec. split; [exact H1|]. split; [exact H2|exact H3].
Defined.

Definition ex_padded : ManualActionProposal :=
  mk_proposal " action-1" PLACE_SPOT_ORDER "BTCUSDT" (lit 32000 0) "r" "e" "k" AP_PENDING [].
Definition ex_padded_request : ApprovalRequest :=
  mk_request "approval- action-1" " action-1" PLACE_SPOT_ORDER AP_PENDING.
Lemma padded_action_never_enqueued_witness :
  exists x, enqueue Ok ex_padded None (Some (utc 1)) (utc 0) [] =
    (Raise x, [Ok (mk_queue_record ex_padded ex_padded_request (utc 1) None)]).
Proof.
  apply (padded_action_never_enqueued Ok ex_padded None (Some (utc 1)) (utc 0) [] [] ex_padded_request);
    [vm_compute; discriminate | reflexivity | intros r [] | vm_compute; reflexivity | vm_compute; reflexivity
    | reflexivity].
Defined.
