(* ===== verification/ApprovalText.v ===== *)
(** The stored forms of authorizations and approvals:
    [ExecutionAuthorizationEnvelope.from_payload] of
    [execution/authorization.py], and the lines of the approval queue of
    [execution/manual_approval.py], [LocalApprovalQueue._record] and [records]
    on the text of its file. *)
From S2P Require Import Prelude PyDecimal DecimalFacts DecimalText Sha256 PyText JsonText IsoTime Serialize.
From S2P Require Import Domain OrderCommand LiveGate Authorization Executor Approval.
From Stdlib Require Import QArith.
Local Open Scope Z_scope.
Local Open Scope bool_scope.

(** ** Authorizations *)

(** [_datetime] *)
Definition _datetime (value : json) (field : string) : res datetime :=
  parsed ← catch (fromisoformat (str_replace "Z" "+00:00" (py_str value))) is_value_error
             (fun _ => Raise (ValueError ("authorization " ++ field ++ " is invalid")));
  _aware_utc parsed field.

(** [_decimal] *)
Definition _decimal (value : json) (field : string) : res dec :=
  parsed ← catch (Decimal (py_str value)) (fun e => match e with DecimalInvalidOperation => true | _ => false end)
             (fun _ => Raise (ValueError ("authorization " ++ field ++ " is invalid")));
  match parsed with
  | Finite d => mret d
  | _ => Raise (ValueError ("authorization " ++ field ++ " must be finite"))
  end.

Definition required_fields : list string :=
  ["approval_id"; "approved_by"; "authorization_id"; "client_order_id"; "created_at"; "decision_id"; "expires_at";
   "market_type"; "order_type"; "preview_hash"; "price"; "quantity"; "risk_assessment_hash"; "side";
   "single_use_nonce"; "snapshot_id"; "strategy_id"; "strategy_version"; "symbol"; "time_in_force";
   "validation_bundle_hash"].

Definition optional_fields : list string := ["execution_allowed"; "live_eligibility_status"].

(** [payload[k]] for a value that may be [None] *)
Definition optional {A} (j : json) (f : json -> res A) : res (option A) :=
  match j with JNull => mret None | _ => Some <$> f j end.

(** [ExecutionAuthorizationEnvelope.from_payload] *)
Definition from_payload (payload : json) : res ExecutionAuthorizationEnvelope :=
  match payload with
  | JObj p =>
      let keys := map fst p in
      raise_if (negb (forallb (fun k => str_in k keys) required_fields)
                || negb (forallb (fun k => str_in k required_fields || str_in k optional_fields) keys))
        (ValueError "execution authorization envelope fields are invalid");;
      authorization_id ← text_field "authorization_id" p;
      approval_id ← text_field "approval_id" p;
      preview_hash ← text_field "preview_hash" p;
      decision_id ← text_field "decision_id" p;
      snapshot_id ← text_field "snapshot_id" p;
      strategy_id ← text_field "strategy_id" p;
      strategy_version ← text_field "strategy_version" p;
      symbol ← text_field "symbol" p;
      market_type ← text_field "market_type" p;
      side ← text_field "side" p;
      order_type ← text_field "order_type" p;
      quantity ← (lookup "quantity" p ≫= fun v => _decimal v "quantity");
      client_order_id ← text_field "client_order_id" p;
      risk_assessment_hash ← text_field "risk_assessment_hash" p;
      validation_bundle_hash ← text_field "validation_bundle_hash" p;
      created_at ← (lookup "created_at" p ≫= fun v => _datetime v "created_at");
      expires_at ← (lookup "expires_at" p ≫= fun v => _datetime v "expires_at");
      approved_by ← text_field "approved_by" p;
      single_use_nonce ← text_field "single_use_nonce" p;
      price ← (lookup "price" p ≫= fun v => optional v (fun v => _decimal v "price"));
      time_in_force ← (lookup "time_in_force" p ≫= fun v => optional v (fun v => mret (py_str v)));
      new_envelope (mk_args authorization_id approval_id preview_hash decision_id snapshot_id strategy_id
        strategy_version symbol market_type side order_type (Finite quantity) client_order_id
        risk_assessment_hash validation_bundle_hash created_at expires_at approved_by single_use_nonce
        (option_map Finite price) time_in_force
        (match dict_get String.eqb "execution_allowed" p with Some v => truthy v | None => false end)
        (match dict_get String.eqb "live_eligibility_status" p with
         | Some v => py_str v | None => LIVE_ORDER_BLOCKED end))
  | _ => Raise (ValueError "execution authorization envelope must be an object")
  end.

(** ** The lines of the approval queue *)

Definition action_type_name (t : ManualActionType) : string :=
  match t with
  | PLACE_SPOT_ORDER => "PLACE_SPOT_ORDER"
  | PLACE_FUTURES_ORDER => "PLACE_FUTURES_ORDER"
  | CANCEL_ORDER => "CANCEL_ORDER"
  | REDUCE_SPOT_HOLDING => "REDUCE_SPOT_HOLDING"
  | EXIT_SPOT_HOLDING => "EXIT_SPOT_HOLDING"
  | CLOSE_FUTURES_POSITION => "CLOSE_FUTURES_POSITION"
  | REDUCE_FUTURES_POSITION => "REDUCE_FUTURES_POSITION"
  | TRANSFER_SPOT_TO_FUTURES => "TRANSFER_SPOT_TO_FUTURES"
  | TRANSFER_FUTURES_TO_SPOT => "TRANSFER_FUTURES_TO_SPOT"
  | CONVERT_ASSET => "CONVERT_ASSET"
  end.

Definition action_types : list ManualActionType :=
  [PLACE_SPOT_ORDER; PLACE_FUTURES_ORDER; CANCEL_ORDER; REDUCE_SPOT_HOLDING; EXIT_SPOT_HOLDING;
   CLOSE_FUTURES_POSITION; REDUCE_FUTURES_POSITION; TRANSFER_SPOT_TO_FUTURES; TRANSFER_FUTURES_TO_SPOT;
   CONVERT_ASSET].

Definition status_name (s : ApprovalStatus) : string :=
  match s with
  | AP_PENDING => "PENDING" | AP_APPROVED => "APPROVED" | AP_REJECTED => "REJECTED"
  | AP_EXPIRED => "EXPIRED" | AP_CANCELLED => "CANCELLED"
  end.

Definition statuses : list ApprovalStatus := [AP_PENDING; AP_APPROVED; AP_REJECTED; AP_EXPIRED; AP_CANCELLED].

(** [ManualActionType(text)], [ApprovalStatus(text)] *)
Definition enum_of {A} (name : A -> string) (members : list A) (s : string) : res A :=
  match List.find (fun a => String.eqb (name a) s) members with
  | Some a => Ok a
  | None => Raise (ValueError "is not a valid member")
  end.

(** [blockers_payload] *)
Definition decode_blockers (fields : list (string * json)) : list string :=
  match dict_get String.eqb "blockers" fields with
  | None => []
  | Some (JList l) => map py_str l
  | Some _ => ["MANUAL_APPROVAL_REQUIRED"]
  end.

Definition get_object (key : string) (fields : list (string * json)) : res (list (string * json)) :=
  match dict_get String.eqb key fields with
  | Some (JObj l) => Ok l
  | _ => Raise (ValueError "approval queue record payload is invalid")
  end.

(** [LocalApprovalQueue._record] *)
Definition _record (payload : json) : res ApprovalQueueRecord :=
  match payload with
  | JObj p =>
      action_payload ← get_object "action" p;
      approval_payload ← get_object "approval" p;
      let blockers := decode_blockers action_payload in
      id ← text_field "action_id" action_payload;
      ty ← (text_field "action_type" action_payload ≫= enum_of action_type_name action_types);
      asset ← text_field "asset_or_symbol" action_payload;
      notional ← (text_field "suggested_notional_usdt" action_payload ≫= Decimal);
      reason ← text_field "reason" action_payload;
      effect ← text_field "expected_effect" action_payload;
      risk ← text_field "risk" action_payload;
      status ← (text_field "approval_status" action_payload ≫= enum_of status_name statuses);
      action ← new_proposal id ty asset notional reason effect risk status blockers false LIVE_ORDER_BLOCKED;
      approval_id ← text_field "approval_id" approval_payload;
      approval_action ← text_field "action_id" approval_payload;
      approval_type ← (text_field "action_type" approval_payload ≫= enum_of action_type_name action_types);
      approval_status ← (text_field "approval_status" approval_payload ≫= enum_of status_name statuses);
      approval ← new_request approval_id approval_action approval_type approval_status false LIVE_ORDER_BLOCKED;
      authorization ← (match dict_get String.eqb "execution_authorization" p with
                       | None | Some JNull => mret None
                       | Some j => Some <$> from_payload j
                       end);
      created_at ← (text_field "created_at" p ≫= fromisoformat);
      new_queue_record action approval created_at authorization
  | _ => Raise (ValueError "approval queue record must be an object")
  end.

(** ** Rebuilding an authorization from its own fields *)

Definition args_of (e : ExecutionAuthorizationEnvelope) : EnvelopeArgs :=
  mk_args (authorization_id e) (approval_id e) (auth_preview_hash e) (decision_id e) (snapshot_id e)
    (strategy_id e) (strategy_version e) (auth_symbol e) (market_type e) (auth_side e) (auth_order_type e)
    (Finite (auth_quantity e)) (auth_client_order_id e) (risk_assessment_hash e) (validation_bundle_hash e)
    (created_at e) (expires_at e) (approved_by e) (single_use_nonce e) (option_map Finite (auth_price e))
    (auth_time_in_force e) false LIVE_ORDER_BLOCKED.

Lemma aware_back d f r : _aware_utc d f = Ok r -> forall g, _aware_utc r g = Ok r.
Proof. intros H. by apply aware_utc_Ok in H as (_ & _ & H). Qed.

Lemma sha256_back v s : _sha256 v = Ok s -> _sha256 s = Ok s.
Proof. intros H. by apply sha256_Ok in H as [_ H]. Qed.

Lemma required_back v f s : _required_text v f = Ok s -> forall g, _required_text s g = Ok s.
Proof. intros H. by apply required_text_Ok in H as (_ & _ & _ & _ & H). Qed.

Lemma required_ascii v f s : _required_text v f = Ok s -> isascii s = true.
Proof. intros H. by apply required_text_Ok in H as (_ & _ & _ & H & _). Qed.

Lemma option_normalize_idem (o : option string) : option_map normalize (option_map normalize o) = option_map normalize o.
Proof. destruct o as [s|]; [|done]. cbn. by rewrite normalize_idem. Qed.

(** The texts of an authorization, all ASCII. *)
Definition envelope_texts (e : ExecutionAuthorizationEnvelope) : list string :=
  [authorization_id e; approval_id e; auth_preview_hash e; decision_id e; snapshot_id e; strategy_id e;
   strategy_version e; auth_symbol e; market_type e; auth_side e; auth_order_type e; auth_client_order_id e;
   risk_assessment_hash e; validation_bundle_hash e; approved_by e; single_use_nonce e].

Lemma sha_arg_ascii v s : _sha256 v = Ok s -> isascii s = true.
Proof.
  intros [H _]%sha256_Ok. unfold is_sha256_text in H. apply andb_true_iff in H as [_ H]. by apply hex_text_ascii.
Qed.

Lemma str_in_ascii s l : forallb isascii l = true -> str_in s l = true -> isascii s = true.
Proof. intros H Hs%str_in_In. rewrite forallb_forall in H. auto. Qed.

(** Every envelope the constructor returns is the one it builds from the
    envelope's own fields; its texts are ASCII and its times in UTC. *)
Lemma new_envelope_back a e : new_envelope a = Ok e ->
  new_envelope (args_of e) = Ok e /\ forallb isascii (envelope_texts e) = true /\
  dt_offset (created_at e) = Some 0 /\ dt_offset (expires_at e) = Some 0 /\
  match auth_time_in_force e with Some t => str_in t TIF = true | None => True end.
Proof.
  unfold new_envelope at 1. intros H.
  apply bind_Ok in H as (auth & T1 & H). apply bind_Ok in H as (approval & T2 & H).
  apply bind_Ok in H as (decision & T3 & H). apply bind_Ok in H as (snapshot & T4 & H).
  apply bind_Ok in H as (strategy & T5 & H). apply bind_Ok in H as (version & T6 & H).
  apply bind_Ok in H as (client & T7 & H). apply bind_Ok in H as (approver & T8 & H).
  apply bind_Ok in H as (nonce & T9 & H). apply bind_Ok in H as (preview & S1 & H).
  apply bind_Ok in H as (risk & S2 & H). apply bind_Ok in H as (bundle & S3 & H). cbv zeta in H.
  apply bind_Ok in H as (? & Hsym & H). apply bind_Ok in H as (? & Hm & H).
  apply bind_Ok in H as (? & Hsd & H). apply bind_Ok in H as (? & Hty & H).
  apply bind_Ok in H as (q & Hq & H). apply bind_Ok in H as (price & Hp & H).
  apply bind_Ok in H as (created & Hc & H). apply bind_Ok in H as (expires & He & H).
  apply bind_Ok in H as (? & Hw & H). apply bind_Ok in H as (? & Ha & H). apply mret_Ok in H. subst e.
  apply raise_if_Ok in Hsym, Hm, Hsd, Hty, Hw.
  assert (positive_finite (Finite q) = Some q) as Eq.
  { destruct (positive_finite _) as [y|] eqn:Eq; [|done]. injection Hq as ->.
    apply positive_finite_Some in Eq as [_ Hy]. by apply positive_finite_Some. }
  pose proof (price_terms_Ok _ _ _ _ _ _ (proj1 (negb_false_iff _) Hty) Hp) as Hterms.
  assert (price_terms (normalize (a_order_type a)) (option_map Finite price) (option_map normalize (a_time_in_force a))
    "LIMIT authorization requires exact price constraints" "MARKET authorization cannot contain price constraints" = Ok price) as Hback.
  { apply price_terms_back. destruct Hterms as [(-> & (z & -> & _ & Hz) & Ht)|(-> & -> & _ & Ht)]; [left|right]; eauto. }
  split_and!.
  - unfold new_envelope, args_of.
    cbn [a_authorization_id a_approval_id a_preview_hash a_decision_id a_snapshot_id a_strategy_id
      a_strategy_version a_symbol a_market_type a_side a_order_type a_quantity a_client_order_id
      a_risk_assessment_hash a_validation_bundle_hash a_created_at a_expires_at a_approved_by
      a_single_use_nonce a_price a_time_in_force a_execution_allowed a_live_eligibility_status
      authorization_id approval_id auth_preview_hash decision_id snapshot_id strategy_id strategy_version
      auth_symbol market_type auth_side auth_order_type auth_quantity auth_client_order_id risk_assessment_hash
      validation_bundle_hash created_at expires_at approved_by single_use_nonce auth_price auth_time_in_force].
    cbv zeta.
    rewrite (required_back _ _ _ T1), (required_back _ _ _ T2), (required_back _ _ _ T3), (required_back _ _ _ T4),
      (required_back _ _ _ T5), (required_back _ _ _ T6), (required_back _ _ _ T7), (required_back _ _ _ T8),
      (required_back _ _ _ T9), (sha256_back _ _ S1), (sha256_back _ _ S2), (sha256_back _ _ S3), !Ok_bind.
    rewrite option_normalize_idem, !normalize_idem, Hsym, Hm, Hsd, Hty, Eq. cbn [raise_if]. rewrite !Ok_bind, Hback, Ok_bind.
    rewrite (aware_back _ _ _ Hc), Ok_bind, (aware_back _ _ _ He), Ok_bind, Hw. reflexivity.
  - unfold envelope_texts. cbn [forallb authorization_id approval_id auth_preview_hash decision_id snapshot_id
      strategy_id strategy_version auth_symbol market_type auth_side auth_order_type auth_client_order_id
      risk_assessment_hash validation_bundle_hash approved_by single_use_nonce].
    apply orb_false_iff in Hsym as [Hsym _]. apply negb_false_iff in Hsym, Hm, Hsd, Hty. apply String.eqb_eq in Hm.
    rewrite (required_ascii _ _ _ T1), (required_ascii _ _ _ T2), (required_ascii _ _ _ T3), (required_ascii _ _ _ T4),
      (required_ascii _ _ _ T5), (required_ascii _ _ _ T6), (required_ascii _ _ _ T7), (required_ascii _ _ _ T8),
      (required_ascii _ _ _ T9), (sha_arg_ascii _ _ S1), (sha_arg_ascii _ _ S2), (sha_arg_ascii _ _ S3), Hsym, Hm.
    by rewrite (str_in_ascii _ ["BUY"; "SELL"] eq_refl Hsd), (str_in_ascii _ ["LIMIT"; "MARKET"] eq_refl Hty).
  - by apply aware_utc_Ok in Hc as (-> & _).
  - by apply aware_utc_Ok in He as (-> & _).
  - cbn [auth_time_in_force]. destruct Hterms as [(_ & _ & Ht)|(_ & _ & _ & Ht)].
    + by destruct (option_map normalize (a_time_in_force a)).
    + by rewrite Ht.
Qed.

(** ** Times and numbers read back *)

Lemma replace_plain c0 o new l k f : forallb (fun c => negb (Ascii.eqb c0 c)) l = true ->
  replace_fuel (length l + f) (c0 :: o) new (l ++ k) = l ++ replace_fuel f (c0 :: o) new k.
Proof.
  induction l as [|c l IH]; [done|]. cbn [forallb]. intros [Hc Hl]%andb_true_iff. apply negb_true_iff in Hc.
  cbn [length Nat.add app replace_fuel is_prefix]. rewrite Hc. by rewrite IH.
Qed.

Definition stamp_char (c : ascii) : bool :=
  is_digit c || Ascii.eqb c "-"%char || Ascii.eqb c ":"%char || Ascii.eqb c "."%char || Ascii.eqb c "T"%char.

Lemma padded_digits w n : forallb is_digit (list_ascii_of_string (padded w n)) = true.
Proof.
  unfold padded. cbv zeta. rewrite list_ascii_string_id, forallb_app.
  destruct (digits_spec (Z.abs_N n)) as (_ & -> & _). rewrite andb_true_r. by induction (w - _)%nat.
Qed.

Lemma digits_stamp l : forallb is_digit l = true -> forallb stamp_char l = true.
Proof. rewrite !forallb_forall. intros H c Hc. unfold stamp_char. by rewrite H. Qed.

(** The text of a UTC time: date and clock, then the offset. *)
Lemma utc_text d : dt_offset d = Some 0 -> exists l, list_ascii_of_string (isoformat d) = l ++ list_ascii_of_string "+00:00" /\
  forallb stamp_char l = true.
Proof.
  intros Ho. unfold isoformat. rewrite Ho. destruct (civil _) as [[y m] day]. cbv zeta.
  rewrite !list_ascii_app. change (offset_text (Some 0)) with "+00:00". eexists. rewrite !app_assoc. split; [reflexivity|].
  rewrite !forallb_app. repeat (apply andb_true_iff; split);
    try (by apply digits_stamp, padded_digits); try reflexivity.
  unfold fraction_text. destruct (_ =? 0); [done|]. rewrite list_ascii_app, forallb_app. 
  by rewrite (digits_stamp _ (padded_digits _ _)).
Qed.

Lemma stamp_not c l : stamp_char c = false -> forallb stamp_char l = true ->
  forallb (fun x => negb (Ascii.eqb c x)) l = true.
Proof.
  rewrite !forallb_forall. intros Hc H x Hx. apply negb_true_iff, Ascii.eqb_neq. intros <-. rewrite H in Hc; done.
Qed.

Lemma replaced_text old new (s : string) l k : list_ascii_of_string s = l ++ k ->
  forallb (fun c => negb (Ascii.eqb (hd "000"%char (list_ascii_of_string old)) c)) l = true -> old <> "" ->
  list_ascii_of_string (str_replace old new s) =
  l ++ replace_fuel (length k) (list_ascii_of_string old) (list_ascii_of_string new) k.
Proof.
  intros E H Hn. unfold str_replace. cbv zeta. rewrite list_ascii_string_id, E, length_app.
  destruct old as [|c old]; [done|]. by apply replace_plain.
Qed.

(** A UTC time read from its own text. *)
Lemma datetime_read d f : dt_valid d = true -> dt_offset d = Some 0 ->
  (parsed ← catch (fromisoformat (isoformat d)) is_value_error
     (fun _ => Raise (ValueError ("authorization " ++ f ++ " is invalid")));
   _aware_utc parsed f) = Ok d.
Proof.
  intros Hv Ho. rewrite fromisoformat_isoformat by done. cbn [catch]. rewrite Ok_bind.
  unfold _aware_utc, naive. rewrite Ho. cbn [raise_if]. rewrite Ok_bind. unfold astimezone_utc, instant.
  destruct d as [x o]. cbn in *. subst o. cbn. by rewrite Z.sub_0_r.
Qed.

(** [_datetime] reads what [_timestamp] writes. *)
Lemma datetime_timestamp d f : dt_valid d = true -> dt_offset d = Some 0 ->
  _datetime (JStr (_timestamp d)) f = Ok d.
Proof.
  intros Hv Ho. unfold _datetime, _timestamp, timestamp_z. cbn [py_str].
  assert (astimezone_utc d = d) as ->.
  { unfold astimezone_utc, instant. destruct d as [l o]. cbn in *. rewrite Ho. cbn. by rewrite Z.sub_0_r. }
  destruct (utc_text d Ho) as (l & E & Hl).
  assert (list_ascii_of_string (str_replace "+00:00" "Z" (isoformat d)) = l ++ ["Z"%char]) as E1.
  { rewrite (replaced_text "+00:00" "Z" _ l (list_ascii_of_string "+00:00") E); [reflexivity| |done].
    by apply stamp_not. }
  assert (str_replace "Z" "+00:00" (str_replace "+00:00" "Z" (isoformat d)) = isoformat d) as ->.
  { apply list_ascii_inj. rewrite E. rewrite (replaced_text "Z" "+00:00" _ l ["Z"%char] E1); [reflexivity| |done].
    by apply stamp_not. }
  by apply datetime_read.
Qed.

Lemma decimal_text d f : exponent_in_range d = true -> _decimal (JStr (str_decimal d)) f = Ok d.
Proof. intros H. unfold _decimal. cbn [py_str]. by rewrite decimal_text_roundtrip. Qed.

(** ** An authorization reads back from its payload *)

(** What must hold of the values for their texts to be exact: times in the
    calendar, exponents the decimal module represents. *)
Definition envelope_values_ok (e : ExecutionAuthorizationEnvelope) : bool :=
  dt_valid (created_at e) && dt_valid (expires_at e) && exponent_in_range (auth_quantity e)
  && match auth_price e with Some p => exponent_in_range p | None => true end.

(** The payload with its times written by [stamp]: [to_payload] writes them in
    UTC with a "Z", [to_primitive] writes [isoformat]. *)
Definition envelope_items (stamp : datetime -> string) (e : ExecutionAuthorizationEnvelope) : json :=
  JObj [ ("approval_id", JStr (approval_id e)); ("approved_by", JStr (approved_by e));
    ("authorization_id", JStr (authorization_id e)); ("client_order_id", JStr (auth_client_order_id e));
    ("created_at", JStr (stamp (created_at e))); ("decision_id", JStr (decision_id e));
    ("execution_allowed", JBool false); ("expires_at", JStr (stamp (expires_at e)));
    ("live_eligibility_status", JStr LIVE_ORDER_BLOCKED); ("market_type", JStr (market_type e));
    ("order_type", JStr (auth_order_type e)); ("preview_hash", JStr (auth_preview_hash e));
    ("price", opt_str (option_map str_decimal (auth_price e)));
    ("quantity", JStr (str_decimal (auth_quantity e)));
    ("risk_assessment_hash", JStr (risk_assessment_hash e)); ("side", JStr (auth_side e));
    ("single_use_nonce", JStr (single_use_nonce e)); ("snapshot_id", JStr (snapshot_id e));
    ("strategy_id", JStr (strategy_id e)); ("strategy_version", JStr (strategy_version e));
    ("symbol", JStr (auth_symbol e)); ("time_in_force", opt_str (auth_time_in_force e));
    ("validation_bundle_hash", JStr (validation_bundle_hash e)) ].

Definition envelope_json : ExecutionAuthorizationEnvelope -> json := envelope_items isoformat.

Lemma to_payload_items e : to_payload e = envelope_items _timestamp e.
Proof. reflexivity. Qed.

(** [isoformat] of a UTC time has no "Z" to replace. *)
Lemma datetime_isoformat d f : dt_valid d = true -> dt_offset d = Some 0 ->
  _datetime (JStr (isoformat d)) f = Ok d.
Proof.
  intros Hv Ho. unfold _datetime. cbn [py_str]. destruct (utc_text d Ho) as (l & E & Hl).
  assert (str_replace "Z" "+00:00" (isoformat d) = isoformat d) as ->.
  { apply list_ascii_inj. rewrite (replaced_text "Z" "+00:00" _ _ _ E); [by rewrite E| |done]. by apply stamp_not. }
  by apply datetime_read.
Qed.

Lemma envelope_items_back stamp a e :
  (forall d f, dt_valid d = true -> dt_offset d = Some 0 -> _datetime (JStr (stamp d)) f = Ok d) ->
  new_envelope a = Ok e -> envelope_values_ok e = true -> from_payload (envelope_items stamp e) = Ok e.
Proof.
  intros Hstamp (Hb & _ & Hc & He & _)%new_envelope_back Hv. unfold envelope_values_ok in Hv.
  rewrite !andb_true_iff in Hv. destruct Hv as (((V1 & V2) & V3) & V4).
  unfold envelope_items, from_payload. cbv zeta.
  match goal with |- context [raise_if ?b _] => replace b with false by reflexivity end.
  cbn [raise_if]. rewrite Ok_bind. unfold text_field, lookup.
  cbn -[_decimal _datetime new_envelope str_decimal optional].
  rewrite (decimal_text _ _ V3), Ok_bind, (Hstamp _ _ V1 Hc), Ok_bind, (Hstamp _ _ V2 He), Ok_bind.
  assert (optional (opt_str (option_map str_decimal (auth_price e))) (fun v => _decimal v "price") = Ok (auth_price e)) as ->.
  { destruct (auth_price e) as [p|]; [|done]. cbn -[_decimal]. by rewrite decimal_text. }
  rewrite Ok_bind.
  assert (optional (opt_str (auth_time_in_force e)) (fun v => mret (py_str v)) = Ok (auth_time_in_force e)) as ->
    by by destruct (auth_time_in_force e).
  rewrite Ok_bind. exact Hb.
Qed.

(** ** What [enqueue] writes *)

Definition opt_value {A} (f : A -> pyval) (o : option A) : pyval := match o with Some a => f a | None => VNone end.

(** The dataclasses, with their fields in order, as [to_primitive] walks them. *)
Definition envelope_value (e : ExecutionAuthorizationEnvelope) : pyval :=
  VData [ ("authorization_id", VStr (authorization_id e)); ("approval_id", VStr (approval_id e));
    ("preview_hash", VStr (auth_preview_hash e)); ("decision_id", VStr (decision_id e));
    ("snapshot_id", VStr (snapshot_id e)); ("strategy_id", VStr (strategy_id e));
    ("strategy_version", VStr (strategy_version e)); ("symbol", VStr (auth_symbol e));
    ("market_type", VStr (market_type e)); ("side", VStr (auth_side e)); ("order_type", VStr (auth_order_type e));
    ("quantity", VDecimal (Finite (auth_quantity e))); ("client_order_id", VStr (auth_client_order_id e));
    ("risk_assessment_hash", VStr (risk_assessment_hash e));
    ("validation_bundle_hash", VStr (validation_bundle_hash e)); ("created_at", VDatetime (created_at e));
    ("expires_at", VDatetime (expires_at e)); ("approved_by", VStr (approved_by e));
    ("single_use_nonce", VStr (single_use_nonce e));
    ("price", opt_value (fun p => VDecimal (Finite p)) (auth_price e));
    ("time_in_force", opt_value VStr (auth_time_in_force e)); ("execution_allowed", VBool false);
    ("live_eligibility_status", VStr LIVE_ORDER_BLOCKED) ].

Definition proposal_value (p : ManualActionProposal) : pyval :=
  VData [ ("action_id", VStr (action_id p)); ("action_type", VStr (action_type_name (action_type p)));
    ("asset_or_symbol", VStr (asset_or_symbol p));
    ("suggested_notional_usdt", VDecimal (Finite (suggested_notional_usdt p))); ("reason", VStr (reason p));
    ("expected_effect", VStr (expected_effect p)); ("risk", VStr (risk p));
    ("approval_status", VStr (status_name (action_status p))); ("blockers", VList (map VStr (action_blockers p)));
    ("execution_allowed", VBool false); ("live_eligibility_status", VStr LIVE_ORDER_BLOCKED) ].

Definition request_value (q : ApprovalRequest) : pyval :=
  VData [ ("approval_id", VStr (req_approval_id q)); ("action_id", VStr (req_action_id q));
    ("action_type", VStr (action_type_name (req_action_type q)));
    ("approval_status", VStr (status_name (req_status q))); ("execution_allowed", VBool false);
    ("live_eligibility_status", VStr LIVE_ORDER_BLOCKED) ].

Definition record_value (r : ApprovalQueueRecord) : pyval :=
  VData [ ("action", proposal_value (q_action r)); ("approval", request_value (q_approval r));
    ("created_at", VDatetime (q_created_at r));
    ("execution_authorization", opt_value envelope_value (q_authorization r)) ].

(** [json.dumps(to_primitive(record), sort_keys=True)], and the newline *)
Definition record_line (r : ApprovalQueueRecord) : res (list ascii) :=
  j ← to_primitive (record_value r); mret (dump_spaced (sort_keys j)).

Definition stored_line (r : ApprovalQueueRecord) : list ascii :=
  match record_line r with Ok l => l ++ [ascii_of_N 10] | Raise _ => [] end.

(** [self._record(json.loads(line))] *)
Definition load_record (line : list ascii) : res ApprovalQueueRecord := loads line ≫= _record.

(** The queue file of a text: what [records] decodes, line by line. *)
Definition read_queue (text : list ascii) : queue_file :=
  map load_record (List.filter (fun line => negb (forallb is_space line)) (str_lines text)).

(** ** A line reads back *)

Definition record_json_with (blockers : list json) (r : ApprovalQueueRecord) : json :=
  let p := q_action r in let q := q_approval r in
  JObj [ ("action", JObj [ ("action_id", JStr (action_id p)); ("action_type", JStr (action_type_name (action_type p)));
      ("approval_status", JStr (status_name (action_status p))); ("asset_or_symbol", JStr (asset_or_symbol p));
      ("blockers", JList blockers); ("execution_allowed", JBool false);
      ("expected_effect", JStr (expected_effect p)); ("live_eligibility_status", JStr LIVE_ORDER_BLOCKED);
      ("reason", JStr (reason p)); ("risk", JStr (risk p));
      ("suggested_notional_usdt", JStr (str_decimal (suggested_notional_usdt p))) ]);
    ("approval", JObj [ ("action_id", JStr (req_action_id q));
      ("action_type", JStr (action_type_name (req_action_type q))); ("approval_id", JStr (req_approval_id q));
      ("approval_status", JStr (status_name (req_status q))); ("execution_allowed", JBool false);
      ("live_eligibility_status", JStr LIVE_ORDER_BLOCKED) ]);
    ("created_at", JStr (isoformat (q_created_at r)));
    ("execution_authorization", match q_authorization r with Some e => envelope_json e | None => JNull end) ].

Definition record_json (r : ApprovalQueueRecord) : json :=
  record_json_with (map JStr (action_blockers (q_action r))) r.

Lemma primitive_strings l : mapM to_primitive (map VStr l) = Ok (map JStr l).
Proof. induction l as [|s l IH]; [done|]. cbn [map mapM]. by rewrite IH. Qed.

Lemma sort_strings l : map sort_keys (map JStr l) = map JStr l.
Proof. rewrite map_map. by apply map_ext. Qed.

Lemma envelope_primitive e : sort_keys <$> to_primitive (envelope_value e) = Ok (envelope_json e).
Proof. unfold envelope_value, envelope_json, envelope_items. destruct (auth_price e), (auth_time_in_force e); reflexivity. Qed.

Lemma proposal_primitive p : to_primitive (proposal_value p) = Ok (JObj [ ("action_id", JStr (action_id p));
    ("action_type", JStr (action_type_name (action_type p))); ("asset_or_symbol", JStr (asset_or_symbol p));
    ("suggested_notional_usdt", JStr (str_decimal (suggested_notional_usdt p))); ("reason", JStr (reason p));
    ("expected_effect", JStr (expected_effect p)); ("risk", JStr (risk p));
    ("approval_status", JStr (status_name (action_status p))); ("blockers", JList (map JStr (action_blockers p)));
    ("execution_allowed", JBool false); ("live_eligibility_status", JStr LIVE_ORDER_BLOCKED) ]).
Proof.
  unfold proposal_value.
  change (to_primitive (VData ?l)) with (ps ← mapM (fun kv => j ← to_primitive kv.2; mret (kv.1, j)) l; mret (JObj ps)).
  cbn [mapM snd fst]. change (to_primitive (VList ?l)) with (js ← mapM to_primitive l; mret (JList js)).
  rewrite primitive_strings. reflexivity.
Qed.

Lemma record_primitive r : sort_keys <$> to_primitive (record_value r) = Ok (record_json r).
Proof.
  unfold record_value.
  change (to_primitive (VData ?l)) with (ps ← mapM (fun kv => j ← to_primitive kv.2; mret (kv.1, j)) l; mret (JObj ps)).
  cbn [mapM snd fst]. rewrite proposal_primitive.
  assert (record_json r = record_json_with (map sort_keys (map JStr (action_blockers (q_action r)))) r) as ->
    by (by rewrite sort_strings).
  unfold record_json_with.
  destruct (q_authorization r) as [e|]; cbn [opt_value].
  - pose proof (envelope_primitive e) as H. destruct (to_primitive (envelope_value e)) as [j|x]; [|done].
    apply mret_Ok in H. rewrite <- H. reflexivity.
  - reflexivity.
Qed.

Lemma record_line_text r : record_line r = Ok (dump_spaced (record_json r)).
Proof.
  pose proof (record_primitive r) as H. unfold record_line.
  destruct (to_primitive (record_value r)) as [j|x]; [|done]. apply mret_Ok in H. rewrite Ok_bind. by rewrite H.
Qed.

Lemma stored_line_text r : stored_line r = dump_spaced (record_json r) ++ [ascii_of_N 10].
Proof. unfold stored_line. by rewrite record_line_text. Qed.

Lemma read_queue_snoc text t : ends_line text = true -> forallb printable t = true -> forallb is_space t = false ->
  read_queue (text ++ t ++ [ascii_of_N 10]) = read_queue text ++ [load_record t].
Proof.
  intros He Hp Hs. unfold read_queue, str_lines. rewrite (str_lines_app (length text)) by (done || by left).
  unfold str_lines. rewrite str_lines_line by by apply printable_unescaped. cbn [rev app]. rewrite List.filter_app, map_app.
  cbn [List.filter]. by rewrite Hs.
Qed.

Lemma str_decimal_ascii d : isascii (str_decimal d) = true.
Proof.
  destruct (str_unsigned_shape d) as (c & t & Hu & _ & Hp). unfold isascii, str_decimal. rewrite list_ascii_string_id.
  assert (forallb decimal_char (str_list d) = true) as H.
  { unfold str_list, unsigned in *. cbn [dneg dcoef dexp] in *. rewrite <- Hu in Hp.
    destruct (dneg d); [|exact Hp]. cbn [forallb]. by rewrite Hp. }
  rewrite forallb_forall in *. intros x Hx. specialize (H x Hx).
  assert (implb (decimal_char x) (is_ascii x) = true) as E; [|by rewrite H in E].
  clear. revert x. apply ascii_forall. vm_compute. reflexivity.
Qed.

(** Records the constructors accept, whose texts are ASCII and whose numbers
    and times have exact texts. *)
Record record_ok (r : ApprovalQueueRecord) : Prop := mk_record_ok {
  rec_action : let p := q_action r in
    new_proposal (action_id p) (action_type p) (asset_or_symbol p) (Finite (suggested_notional_usdt p)) (reason p)
      (expected_effect p) (risk p) (action_status p) (action_blockers p) false LIVE_ORDER_BLOCKED = Ok p;
  rec_request : let q := q_approval r in
    new_request (req_approval_id q) (req_action_id q) (req_action_type q) (req_status q) false LIVE_ORDER_BLOCKED = Ok q;
  rec_record : new_queue_record (q_action r) (q_approval r) (q_created_at r) (q_authorization r) = Ok r;
  rec_texts : forallb isascii ([action_id (q_action r); asset_or_symbol (q_action r); reason (q_action r);
    expected_effect (q_action r); risk (q_action r); req_approval_id (q_approval r); req_action_id (q_approval r)]
    ++ action_blockers (q_action r)) = true;
  rec_values : dt_valid (q_created_at r) && exponent_in_range (suggested_notional_usdt (q_action r)) = true;
  rec_authorization : match q_authorization r with
    | Some e => (exists a, new_envelope a = Ok e) /\ envelope_values_ok e = true
    | None => True
    end
}.

Lemma envelope_json_ok a e : new_envelope a = Ok e -> json_ok (envelope_json e) = true.
Proof.
  intros (_ & Ht & _ & _ & Htif)%new_envelope_back. unfold envelope_texts in Ht. cbn [forallb] in Ht.
  rewrite !andb_true_iff in Ht. destruct Ht as (A1 & A2 & A3 & A4 & A5 & A6 & A7 & A8 & A9 & A10 & A11 & A12 & A13 & A14 & A15 & A16 & _).
  unfold envelope_json, envelope_items. cbn [json_ok forallb fst snd].
  rewrite A1, A2, A3, A4, A5, A6, A7, A8, A9, A10, A11, A12, A13, A14, A15, A16, !isoformat_ascii, !str_decimal_ascii.
  assert (json_ok (opt_str (option_map str_decimal (auth_price e))) = true) as ->.
  { destruct (auth_price e); [|done]. apply str_decimal_ascii. }
  assert (json_ok (opt_str (auth_time_in_force e)) = true) as ->; [|reflexivity].
  destruct (auth_time_in_force e); [|done]. exact (str_in_ascii _ TIF eq_refl Htif).
Qed.

Lemma name_ascii t : isascii (action_type_name t) = true.
Proof. by destruct t. Qed.
Lemma status_ascii s : isascii (status_name s) = true.
Proof. by destruct s. Qed.

Lemma record_json_ok r : record_ok r -> json_ok (record_json r) = true.
Proof.
  intros [_ _ _ Ht _ Ha]. rewrite forallb_app, andb_true_iff in Ht. destruct Ht as [Ht Hb].
  cbn [forallb] in Ht. rewrite !andb_true_iff in Ht. destruct Ht as (A1 & A2 & A3 & A4 & A5 & A6 & A7 & _).
  assert (json_ok match q_authorization r with Some e => envelope_json e | None => JNull end = true) as Hj.
  { destruct (q_authorization r) as [e|]; [|done]. destruct Ha as [[a H] _]. by eapply envelope_json_ok. }
  assert (forallb json_ok (map JStr (action_blockers (q_action r))) = true) as Hs.
  { clear -Hb. induction (action_blockers (q_action r)) as [|s l IH]; [done|].
    cbn [forallb map] in *. apply andb_true_iff in Hb as [H1 H2]. cbn [json_ok]. by rewrite H1, IH. }
  unfold record_json, record_json_with. cbv zeta.
  remember (match q_authorization r with Some e => envelope_json e | None => JNull end) as ja eqn:Eja. clear Eja.
  cbn [json_ok forallb fst snd].
  rewrite A1, A2, A3, A4, A5, A6, A7, !name_ascii, !status_ascii, isoformat_ascii, str_decimal_ascii, Hs, Hj.
  reflexivity.
Qed.

Lemma enum_back {A} (name : A -> string) l a : (forall b, In b l -> name b = name a -> b = a) -> In a l ->
  enum_of name l (name a) = Ok a.
Proof.
  intros Hi Hin. unfold enum_of. destruct (List.find _ l) as [b|] eqn:E.
  - apply find_some in E as [Hb E]. apply String.eqb_eq in E. by rewrite (Hi b).
  - pose proof (find_none _ _ E a Hin) as F. cbn in F. by rewrite String.eqb_refl in F.
Qed.

Lemma type_back t : enum_of action_type_name action_types (action_type_name t) = Ok t.
Proof. by destruct t. Qed.
Lemma status_back s : enum_of status_name statuses (status_name s) = Ok s.
Proof. by destruct s. Qed.

Lemma record_back r : record_ok r -> _record (record_json r) = Ok r.
Proof.
  intros [Hp Hq Hr _ Hv Ha]. apply andb_true_iff in Hv as [V1 V2]. unfold _record, record_json, record_json_with. cbv zeta in *.
  unfold get_object. cbn [dict_get]. cbn -[text_field decode_blockers new_proposal new_request new_queue_record
    from_payload dict_get envelope_json].
  unfold text_field, lookup, decode_blockers.
  cbn -[new_proposal new_request new_queue_record from_payload envelope_json enum_of action_type_name status_name
    str_decimal isoformat Decimal fromisoformat].
  rewrite !type_back, !status_back, !Ok_bind, (decimal_text_roundtrip _ V2), !Ok_bind.
  assert (map py_str (map JStr (action_blockers (q_action r))) = action_blockers (q_action r)) as ->
    by (rewrite map_map; apply map_id).
  rewrite Hp, !Ok_bind, Hq, Ok_bind, (fromisoformat_isoformat _ V1).
  destruct (q_authorization r) as [e|].
  - destruct Ha as [[a H] Hval]. pose proof (envelope_items_back isoformat a e datetime_isoformat H Hval) as G.
    change (envelope_items isoformat e) with (envelope_json e) in G. unfold envelope_json at 1, envelope_items at 1.
    rewrite G. cbn [fmap res_fmap]. rewrite !Ok_bind. exact Hr.
  - rewrite !Ok_bind. exact Hr.
Qed.

(** The line of a record is printable and not blank, and decodes to it. *)
Lemma record_line_back r : record_ok r -> load_record (dump_spaced (record_json r)) = Ok r.
Proof.
  intros H. unfold load_record. rewrite <- (app_nil_r (dump_spaced _)).
  rewrite loads_dump_spaced by (done || by apply record_json_ok). rewrite Ok_bind. by apply record_back.
Qed.

Lemma read_queue_line text r : ends_line text = true -> record_ok r ->
  read_queue (text ++ stored_line r) = read_queue text ++ [Ok r].
Proof.
  intros He Hr. rewrite stored_line_text, read_queue_snoc; [by rewrite record_line_back|done|apply dump_spaced_printable|].
  reflexivity.
Qed.

Lemma stored_line_ended text r : ends_line (text ++ stored_line r) = true.
Proof. rewrite stored_line_text, app_assoc. unfold ends_line. by rewrite last_snoc. Qed.

(** ** The queue on its file *)

(** [LocalApprovalQueue.enqueue], on the text of the file. *)
Definition enqueue_text (action : ManualActionProposal) (approval : option string) (created_at : option datetime)
  (now : datetime) : method (list ascii) ApprovalQueueRecord :=
  text ← get;
  existing ← lift (by_action_id (read_queue text) (action_id action));
  match existing with
  | Some r => mret r
  | None =>
      let approval_id := match approval with
                         | Some a => if String.eqb a "" then "approval-" ++ action_id action else a
                         | None => "approval-" ++ action_id action
                         end%string in
      request ← lift (new_request approval_id (action_id action) (action_type action) AP_PENDING false
                        LIVE_ORDER_BLOCKED);
      record ← lift (new_queue_record action request (default now created_at) None);
      line ← lift (record_line record);
      modify (fun text => text ++ line ++ [ascii_of_N 10]);;
      text ← get;
      observed ← lift (by_action_id (read_queue text) (action_id action));
      if match observed with Some r => same_record r record | None => false end then mret record
      else lift (Raise (ValueError "APPROVAL_QUEUE_DESTINATION_VERIFY_FAILED"))
  end.

(** What a record decodes to once written. *)
Definition reload_line (r : ApprovalQueueRecord) : res ApprovalQueueRecord :=
  load_record (dump_spaced (record_json r)).

(** C18: the file implements the queue.  On a file that is empty or ends with a
    newline, [enqueue] on the text returns what it returns on the decoded queue,
    and leaves a file whose text decodes to the queue it leaves there; the file
    ends with a newline again. *)
Theorem queue_file_refines action approval created_at now text :
  ends_line text = true ->
  let '(r, text') := enqueue_text action approval created_at now text in
  let '(r', f) := enqueue reload_line action approval created_at now (read_queue text) in
  r = r' /\ read_queue text' = f /\ ends_line text' = true.
Proof.
  intros He. unfold enqueue_text, enqueue. rewrite !get_bind, !lift_bind.
  destruct (by_action_id (read_queue text) (action_id action)) as [[x|]|x]; try done.
  cbv zeta. rewrite !lift_bind. destruct (new_request _ _ _ _ _ _) as [request|er]; [|done].
  rewrite !lift_bind. destruct (new_queue_record _ _ _ _) as [record|er]; [|done].
  rewrite lift_bind, record_line_text, !modify_bind, !get_bind, !lift_bind.
  assert (ends_line (text ++ dump_spaced (record_json record) ++ [ascii_of_N 10]) = true) as He'.
  { rewrite <- stored_line_text. apply stored_line_ended. }
  assert (read_queue (text ++ dump_spaced (record_json record) ++ [ascii_of_N 10]) =
    read_queue text ++ [reload_line record]) as Eq.
  { apply read_queue_snoc; [done|apply dump_spaced_printable|reflexivity]. }
  rewrite Eq. destruct (by_action_id _ _) as [observed|x]; [|by split_and!].
  destruct (match observed with Some _ => _ | None => _ end); by split_and!.
Qed.

(** A queue record survives its file.  A record the constructors accept,
    with or without an authorization, is what its line decodes to, behind the
    records that were there. *)
Theorem queue_line_roundtrip text r line :
  ends_line text = true -> record_ok r -> record_line r = Ok line ->
  read_queue (text ++ line ++ [ascii_of_N 10]) = read_queue text ++ [Ok r].
Proof.
  intros He Hr Hl. rewrite record_line_text in Hl. apply mret_Ok in Hl. subst line.
  rewrite <- stored_line_text. by apply read_queue_line.
Qed.

(** An authorization survives its payload: the stored payload of every
    envelope the constructor built gives the envelope back, with its hash. *)
Theorem envelope_payload_roundtrip a e :
  new_envelope a = Ok e -> envelope_values_ok e = true ->
  from_payload (to_payload e) = Ok e /\
  forall e', from_payload (to_payload e) = Ok e' -> envelope_sha256 e' = envelope_sha256 e.
Proof.
  intros Ha Hv. assert (from_payload (to_payload e) = Ok e) as H.
  { rewrite to_payload_items. eapply envelope_items_back; [apply datetime_timestamp|exact Ha|exact Hv]. }
  split; [exact H|]. intros e' H'. congruence.
Qed.

(** What every decoded record satisfies. *)
Record record_typed (r : ApprovalQueueRecord) : Prop := mk_record_typed {
  typed_ids : action_id (q_action r) = req_action_id (q_approval r);
  typed_types : action_type (q_action r) = req_action_type (q_approval r);
  typed_identity : blank (action_id (q_action r)) = false /\ blank (req_approval_id (q_approval r)) = false;
  typed_notional : (suggested_notional_usdt (q_action r) <? ZERO)%D = false;
  typed_time : naive (q_created_at r) = false;
  typed_authorization : match q_authorization r with
    | Some e => envelope_ok e /\ bound_to (q_action r) (q_approval r) e = true
    | None => True
    end
}.

Lemma from_payload_ok j e : from_payload j = Ok e -> envelope_ok e.
Proof.
  destruct j as [| | | | |p]; try done. unfold from_payload. cbv zeta. intros H.
  do 22 (apply bind_Ok in H as (? & _ & H)). by apply new_envelope_ok in H as [H _].
Qed.

Lemma new_proposal_ok id ty asset n rs ef rk st bl ea ls p :
  new_proposal id ty asset n rs ef rk st bl ea ls = Ok p ->
  blank (action_id p) = false /\ (suggested_notional_usdt p <? ZERO)%D = false /\ action_type p = ty /\ action_id p = id.
Proof.
  unfold new_proposal. intros H. apply bind_Ok in H as (u & H1 & H). apply bind_Ok in H as (m & Hn & H).
  apply bind_Ok in H as (? & _ & H). apply bind_Ok in H as (? & _ & H). apply mret_Ok in H. subst p.
  apply raise_if_Ok in H1. rewrite !orb_false_iff in H1. destruct H1 as ((((H1 & _) & _) & _) & _).
  cbn [action_id suggested_notional_usdt action_type]. split_and!; try done.
  destruct n as [y| |]; try done. destruct (y <? ZERO)%D eqn:E; [done|]. by injection Hn as <-.
Qed.

Lemma new_request_ok ap ac ty st ea ls q : new_request ap ac ty st ea ls = Ok q ->
  blank (req_approval_id q) = false.
Proof.
  unfold new_request. intros H. apply bind_Ok in H as (? & H1 & H). apply bind_Ok in H as (? & _ & H).
  apply mret_Ok in H. subst q. apply raise_if_Ok, orb_false_iff in H1 as [H1 _]. exact H1.
Qed.

Lemma new_queue_record_typed action approval at_ auth r : new_queue_record action approval at_ auth = Ok r ->
  r = mk_queue_record action approval at_ auth /\ naive at_ = false /\ action_id action = req_action_id approval /\
  action_type action = req_action_type approval /\
  match auth with Some e => bound_to action approval e = true | None => True end.
Proof.
  unfold new_queue_record. intros H. apply bind_Ok in H as (? & H1 & H). apply bind_Ok in H as (? & H2 & H).
  apply bind_Ok in H as (? & H3 & H). apply bind_Ok in H as (? & H4 & H). apply mret_Ok in H.
  apply raise_if_Ok in H1, H2, H3, H4. apply negb_false_iff in H2, H3. apply String.eqb_eq in H2.
  apply bool_decide_eq_true in H3. split_and!; try done. destruct auth; [|done]. by apply negb_false_iff in H4.
Qed.

Lemma record_typed_of j r : _record j = Ok r -> record_typed r.
Proof.
  destruct j as [| | | | |p]; try done. unfold _record. cbv zeta. intros H.
  do 10 (apply bind_Ok in H as (? & _ & H)). apply bind_Ok in H as (action & Ha & H).
  do 4 (apply bind_Ok in H as (? & _ & H)). apply bind_Ok in H as (approval & Hq & H).
  apply bind_Ok in H as (auth & Hau & H). apply bind_Ok in H as (at_ & _ & H).
  apply new_proposal_ok in Ha as (A1 & A2 & _). apply new_request_ok in Hq.
  apply new_queue_record_typed in H as (-> & H1 & H2 & H3 & H4).
  split; cbn [q_action q_approval q_created_at q_authorization]; try done.
  destruct auth as [e|]; [|done]. split; [|done].
  destruct (dict_get String.eqb "execution_authorization" p) as [j|]; [|done].
  destruct j; try done; apply fmap_Ok in Hau as (e' & He & Hau); injection Hau as ->; by eapply from_payload_ok.
Qed.

(** C38: whatever the file holds, the records it decodes to are well-formed:
    ids and action types of proposal and approval agree, identities are not
    blank, the notional is not negative, the time is aware, and an
    authorization is one the constructor accepts, bound to its approval and
    symbol. *)
Theorem queue_records_typed text rs : records (read_queue text) = Ok rs -> Forall record_typed rs.
Proof.
  unfold records, read_queue. intros H%mapM_Ok. apply List.Forall_forall. intros r Hr.
  destruct (Forall2_In_r _ _ _ _ H Hr) as (x & Hx & E). unfold id in E. subst x.
  apply in_map_iff in Hx as (line & E & _). unfold load_record in E. apply bind_Ok in E as (j & _ & E).
  by eapply record_typed_of.
Qed.

(** ** Witnesses *)

Definition ex_text_record : ApprovalQueueRecord := ex_queued AP_APPROVED 2.
Definition ex_text : list ascii := stored_line (ex_queued AP_PENDING 1).

Lemma ex_record_ok : record_ok ex_text_record.
Proof.
  split; [vm_compute; reflexivity|vm_compute; reflexivity|vm_compute; reflexivity|vm_compute; reflexivity
    |vm_compute; reflexivity|].
  cbn [q_authorization ex_text_record ex_queued]. split; [|vm_compute; reflexivity].
  exists ex_bound_args. vm_compute. reflexivity.
Qed.

Lemma queue_file_refines_witness : ends_line ex_text = true /\
  fst (enqueue_text (ex_action AP_PENDING) None (Some (utc 1)) (utc 0) ex_text) =
  fst (enqueue reload_line (ex_action AP_PENDING) None (Some (utc 1)) (utc 0) (read_queue ex_text)).
Proof.
  split; [vm_compute; reflexivity|].
  pose proof (queue_file_refines (ex_action AP_PENDING) None (Some (utc 1)) (utc 0) ex_text
    ltac:(vm_compute; reflexivity)) as H.
  destruct (enqueue_text _ _ _ _ _), (enqueue _ _ _ _ _ _). exact (proj1 H).
Defined.

Lemma queue_line_roundtrip_witness : exists line,
  read_queue (ex_text ++ line ++ [ascii_of_N 10]) = read_queue ex_text ++ [Ok ex_text_record].
Proof.
  eexists. apply (queue_line_roundtrip ex_text ex_text_record); [vm_compute; reflexivity|exact ex_record_ok|].
  apply record_line_text.
Defined.

Lemma envelope_payload_roundtrip_witness : from_payload (to_payload ex_envelope) = Ok ex_envelope.
Proof.
  exact (proj1 (envelope_payload_roundtrip ex_args ex_envelope ex_envelope_built ltac:(vm_compute; reflexivity))).
Defined.

Lemma queue_records_typed_witness : Forall record_typed [ex_text_record].
Proof. apply (queue_records_typed (stored_line ex_text_record)). vm_compute. reflexivity. Defined.
