(* ===== verification/RateLimit.v ===== *)
(** [exchange/rate_limit.py]: the governor that delays or refuses weighted
    public requests, and the documented weights.

    [clock] and [monotonic] are the readings the two clocks will give, in the
    order of the calls; sleeping is recorded.  The unbounded [while] loop takes a
    fuel, and [None] is a loop still waiting when it is spent.  The lock makes the
    calls atomic; the bands are shared by every governor state. *)
From S2P Require Import Prelude PyFloat DecimalText PyText.
Local Open Scope Z_scope.
Local Open Scope bool_scope.

Inductive RequestPriority : Type := METADATA | GAP_RECOVERY | BOOTSTRAP | SUPPLEMENTAL.
#[export] Instance priority_eq_dec : EqDecision RequestPriority.
Proof. solve_decision. Defined.

Record RateLimitBands : Type := mk_bands {
  soft_limit : float;
  warning : float;
  throttle : float;
  hard_stop : float
}.

(** [RateLimitBands(...)] with [__post_init__] *)
Definition new_bands (b : RateLimitBands) : res RateLimitBands :=
  raise_if (negb (flt fzero (soft_limit b) && flt (soft_limit b) (warning b) && flt (warning b) (throttle b)
                  && flt (throttle b) (hard_stop b) && flt (hard_stop b) (float_of 1 0)))
    (ValueError "rate-limit safety bands must be strictly increasing");;
  mret b.

(** The defaults 0.70, 0.80, 0.85 and 0.90: correctly rounded quotients. *)
Definition default_bands : RateLimitBands := Eval vm_compute in
  mk_bands (ok_or fzero (true_div 7 10)) (ok_or fzero (true_div 8 10)) (ok_or fzero (true_div 85 100))
    (ok_or fzero (true_div 9 10)).

Record window : Type := mk_window {
  w_seconds : Z;
  w_limit : Z;
  w_used : Z;
  w_started_at : float
}.

Record governor : Type := mk_governor {
  bands : RateLimitBands;
  cooldown_until : float;
  windows : list (Z * window);
  ticks : nat;                (* readings of [clock] so far *)
  mono_ticks : nat;           (* readings of [monotonic] so far *)
  slept : list float
}.

(** ** Windows *)

(** [now - (now % seconds)] *)
Definition period_start (now : float) (seconds : Z) : res float :=
  r ← fmod_by now seconds; mret (fsub now r).

Definition reset_window (now : float) (w : window) : res window :=
  started ← period_start now (w_seconds w);
  mret (if flt (w_started_at w) started then mk_window (w_seconds w) (w_limit w) 0 started else w).

(** [_reset_elapsed_windows]: an exception leaves the windows before it reset. *)
Fixpoint reset_elapsed (now : float) (ws : list (Z * window)) : res unit * list (Z * window) :=
  match ws with
  | [] => (Ok tt, [])
  | (k, w) :: ws' =>
      match reset_window now w with
      | Ok w' => let '(r, ws2) := reset_elapsed now ws' in (r, (k, w') :: ws2)
      | Raise e => (Raise e, ws)
      end
  end.

Definition with_windows (g : governor) (ws : list (Z * window)) : governor :=
  mk_governor (bands g) (cooldown_until g) ws (ticks g) (mono_ticks g) (slept g).

Section Governor.
Context (clock monotonic : nat -> float).

Definition read_clock : method governor float := fun g =>
  (Ok (clock (ticks g)),
   mk_governor (bands g) (cooldown_until g) (windows g) (S (ticks g)) (mono_ticks g) (slept g)).
Definition read_monotonic : method governor float := fun g =>
  (Ok (monotonic (mono_ticks g)),
   mk_governor (bands g) (cooldown_until g) (windows g) (ticks g) (S (mono_ticks g)) (slept g)).
Definition _reset_elapsed_windows (now : float) : method governor unit := fun g =>
  let '(r, ws) := reset_elapsed now (windows g) in (r, with_windows g ws).

(** *** Configuration *)

Definition UNITS : list (string * Z) := [("SECOND", 1); ("MINUTE", 60); ("HOUR", 3600); ("DAY", 86400)].

(** [item[key]] as text; a missing key is KeyError. *)
Definition item_text (item : list (string * json)) (key : string) : option string :=
  option_map py_str (dict_get String.eqb key item).

(** One item of [rateLimits]: [None] where the code skips it. *)
Definition limit_of (item : json) : option (Z * Z) :=
  match item with
  | JObj item =>
      match dict_get String.eqb "rateLimitType" item with
      | Some (JStr "REQUEST_WEIGHT") =>
          unit_ ← item_text item "interval" ≫= fun u => dict_get String.eqb u UNITS;
          num ← item_text item "intervalNum" ≫= parse_int;
          limit ← item_text item "limit" ≫= parse_int;
          if (0 <? unit_ * num) && (0 <? limit) then Some (unit_ * num, limit) else None
      | _ => None
      end
  | _ => None
  end.

Definition configured (items : list json) : list (Z * window) :=
  fold_left (fun d item => match limit_of item with
                           | Some (seconds, limit) => dict_set Z.eqb seconds (mk_window seconds limit 0 fzero) d
                           | None => d
                           end) items [].

(** The start of the current period for every configured window. *)
Definition started (now : float) (kw : Z * window) : res (Z * window) :=
  s ← period_start now (w_seconds kw.2);
  mret (kw.1, mk_window (w_seconds kw.2) (w_limit kw.2) (w_used kw.2) s).

(** [configure_from_exchange_info] *)
Definition configure_from_exchange_info (payload : json) : method governor unit :=
  match payload with
  | JObj p =>
      match dict_get String.eqb "rateLimits" p with
      | Some (JList items) =>
          let ws := configured items in
          if is_nil ws then mret tt
          else
            now ← read_clock;
            ws ← lift (mapM (started now) ws);
            modify (fun g => with_windows g ws)
      | _ => mret tt
      end
  | _ => mret tt
  end.

(** *** Headers *)

Definition suffix_of (seconds : Z) : option string :=
  if seconds =? 1 then Some "1s" else if seconds =? 60 then Some "1m"
  else if seconds =? 3600 then Some "1h" else if seconds =? 86400 then Some "1d" else None.

Definition observe_window (headers : list (string * string)) (seconds : Z) (w : window) : window :=
  match suffix_of seconds with
  | None => w
  | Some suffix =>
      match dict_get String.eqb ("x-mbx-used-weight-" ++ suffix)%string headers ≫= parse_int with
      | Some n => mk_window (w_seconds w) (w_limit w) (Z.max (w_used w) n) (w_started_at w)
      | None => w
      end
  end.

(** [observe_headers]; keys are folded to lower case, the last one wins. *)
Definition observe_headers (headers : list (string * string)) : method governor unit :=
  let normalized := dict_of String.eqb (map (fun kv => (lower kv.1, kv.2)) headers) in
  now ← read_clock;
  _reset_elapsed_windows now;;
  modify (fun g => with_windows g (map (fun kw => (kw.1, observe_window normalized kw.1 kw.2)) (windows g))).

(** *** Reservations *)

(** The wait one window asks for, or the hard stop. *)
Definition window_delay (b : RateLimitBands) (weight : Z) (priority : RequestPriority) (now : float)
  (w : window) (delay : float) : res float :=
  ratio ← true_div (w_used w + weight) (w_limit w);
  raise_if (fle (hard_stop b) ratio) (ExchangeHttpError "request-weight hard stop reached");;
  if fle (throttle b) ratio || fle (warning b) ratio && bool_decide (priority = SUPPLEMENTAL) then
    seconds ← float_of_int (w_seconds w);
    mret (fmax delay (fsub (fadd (w_started_at w) seconds) now))
  else mret delay.

Fixpoint scan (b : RateLimitBands) (weight : Z) (priority : RequestPriority) (now : float)
  (ws : list (Z * window)) (delay : float) : res float :=
  match ws with
  | [] => Ok delay
  | (_, w) :: ws' => d ← window_delay b weight priority now w delay; scan b weight priority now ws' d
  end.

Definition add_weight (weight : Z) (kw : Z * window) : Z * window :=
  (kw.1, mk_window (w_seconds kw.2) (w_limit kw.2) (w_used kw.2 + weight) (w_started_at kw.2)).

Definition MIN_SLEEP : float := Eval vm_compute in ok_or fzero (true_div 1 1000).
Definition sleep (d : float) : method governor unit := fun g =>
  (Ok tt, mk_governor (bands g) (cooldown_until g) (windows g) (ticks g) (mono_ticks g) (slept g ++ [d])).

(** One turn of the loop: [true] when the weight was reserved. *)
Definition reserve_turn (weight : Z) (priority : RequestPriority) : method governor bool :=
  m ← read_monotonic;
  g ← get;
  lift (raise_if (flt m (cooldown_until g)) (ExchangeHttpError "shared public request budget cooldown"));;
  now ← read_clock;
  _reset_elapsed_windows now;;
  g ← get;
  lift (raise_if (is_nil (windows g)) (ExchangeHttpError "request-weight limits are not configured"));;
  delay ← lift (scan (bands g) weight priority now (windows g) fzero);
  if fle delay fzero then
    modify (fun g => with_windows g (map (add_weight weight) (windows g)));;
    mret true
  else
    sleep (fmax MIN_SLEEP delay);;
    mret false.

Fixpoint reserve_loop (fuel : nat) (weight : Z) (priority : RequestPriority) (g : governor)
  : option (res unit * governor) :=
  match fuel with
  | O => None
  | S fuel =>
      match reserve_turn weight priority g with
      | (Ok true, g') => Some (Ok tt, g')
      | (Ok false, g') => reserve_loop fuel weight priority g'
      | (Raise e, g') => Some (Raise e, g')
      end
  end.

(** The loop while other threads use the governor: [others n] is what their
    calls made of it during the [n]-th sleep, for which the lock is released. *)
Fixpoint reserve_shared (others : nat -> governor -> governor) (fuel turn : nat) (weight : Z)
  (priority : RequestPriority) (g : governor) : option (res unit * governor) :=
  match fuel with
  | O => None
  | S fuel =>
      match reserve_turn weight priority g with
      | (Ok true, g') => Some (Ok tt, g')
      | (Ok false, g') => reserve_shared others fuel (S turn) weight priority (others turn g')
      | (Raise e, g') => Some (Raise e, g')
      end
  end.

(** [reserve] *)
Definition reserve (fuel : nat) (weight : Z) (priority : RequestPriority) (g : governor)
  : option (res unit * governor) :=
  if weight <=? 0 then Some (Raise (ValueError "request weight must be positive"), g)
  else reserve_loop fuel weight priority g.

(** [apply_retry_after] *)
Definition apply_retry_after (seconds : float) (banned : bool) : method governor unit :=
  let duration := fmax (if banned then float_of 120 0 else float_of 1 0) seconds in
  m ← read_monotonic;
  modify (fun g => mk_governor (bands g) (fmax (cooldown_until g) (fadd m duration)) (windows g) (ticks g)
                     (mono_ticks g) (slept g)).

(** *** Status *)

Inductive usage_state : Type := HARD_STOP | THROTTLE | WARNING | SOFT_LIMIT | NORMAL.

(** A row of the report: seconds, limit, used and their ratio. *)
Definition usage_row : Type := (Z * Z * Z * float)%type.

Definition usage_of (w : window) : res usage_row :=
  ratio ← true_div (w_used w) (w_limit w); mret (w_seconds w, w_limit w, w_used w, ratio).

Definition usage_class (b : RateLimitBands) (peak : float) : usage_state :=
  if fle (hard_stop b) peak then HARD_STOP else if fle (throttle b) peak then THROTTLE
  else if fle (warning b) peak then WARNING else if fle (soft_limit b) peak then SOFT_LIMIT else NORMAL.

(** [status]: the rows by window length and the class of the highest ratio. *)
Definition status : method governor (list usage_row * usage_state) :=
  now ← read_clock;
  _reset_elapsed_windows now;;
  g ← get;
  rows ← lift (mapM usage_of (py_sorted (fun a b => w_seconds a <=? w_seconds b) (map snd (windows g))));
  let peak := match rows with
              | [] => fzero
              | r :: rows' => fold_left (fun m x => fmax m x.2) rows' r.2
              end in
  mret (rows, usage_class (bands g) peak).
End Governor.

(** ** The weights *)

(** A query parameter is a text or an integer. *)
Definition params : Type := list (string * (string + Z)).

(** [int(query.get(key, default))] *)
Definition query_int (query : params) (key : string) (default : Z) : res Z :=
  match dict_get String.eqb key query with
  | None => Ok default
  | Some (inr n) => Ok n
  | Some (inl text) => match parse_int text with
                       | Some n => Ok n
                       | None => Raise (ValueError "invalid literal for int() with base 10")
                       end
  end.

(** [public_request_weight] *)
Definition public_request_weight (path : string) (query : params) : res Z :=
  let endpoint := last_part "/"%char path in
  let spot := starts_with "/api/" path in
  if str_in endpoint ["klines"; "markPriceKlines"; "indexPriceKlines"] then
    limit ← query_int query "limit" 500;
    mret (if spot then 2 else if limit <? 100 then 1 else if limit <? 500 then 2
          else if limit <=? 1000 then 5 else 10)
  else if String.eqb endpoint "depth" then
    limit ← query_int query "limit" 100;
    mret (if spot then if limit <=? 100 then 5 else if limit <=? 500 then 25
                       else if limit <=? 1000 then 50 else 250
          else if limit <=? 100 then 2 else if limit <=? 500 then 5 else if limit <=? 1000 then 10 else 20)
  else if String.eqb endpoint "24hr" then
    mret (if dict_mem String.eqb "symbol" query then 2 else if spot then 80 else 40)
  else if String.eqb endpoint "bookTicker" then
    mret (if dict_mem String.eqb "symbol" query then 2 else if spot then 4 else 5)
  else
    mret (if String.eqb endpoint "exchangeInfo" then if spot then 20 else 1
          else if String.eqb endpoint "premiumIndex" then 10
          else if String.eqb endpoint "fundingRate" then 1
          else if String.eqb endpoint "openInterestHist" then 1
          else if String.eqb endpoint "time" then 1 else 40).

(** ** Lemmas on the turns of the loop *)

(** The windows after a reset, when no remainder raises. *)
Lemma reset_elapsed_Ok now ws ws2 : reset_elapsed now ws = (Ok tt, ws2) ->
  Forall2 (fun kw kw2 => kw.1 = kw2.1 /\ reset_window now kw.2 = Ok kw2.2) ws ws2.
Proof.
  revert ws2. induction ws as [|[k w] ws IH]; intros ws2 H; cbn in H; [by simplify_eq; constructor|].
  destruct (reset_window now w) as [w'|e] eqn:E; [|done].
  destruct (reset_elapsed now ws) as [r ws'] eqn:E2. simplify_eq. constructor; [done|]. by apply IH.
Qed.

Lemma reset_window_Ok now w w' : reset_window now w = Ok w' ->
  exists st, period_start now (w_seconds w) = Ok st
    /\ (flt (w_started_at w) st = true /\ w' = mk_window (w_seconds w) (w_limit w) 0 st
        \/ flt (w_started_at w) st = false /\ w' = w).
Proof.
  unfold reset_window. intros H. apply bind_Ok in H as (st & Hst & H). apply mret_Ok in H. subst.
  exists st. split; [done|]. destruct (flt _ _) eqn:E; auto.
Qed.

(** A scan that finishes saw every window below the hard stop. *)
Lemma scan_below b weight priority now ws : forall d d', scan b weight priority now ws d = Ok d' ->
  Forall (fun kw => exists ratio, true_div (w_used kw.2 + weight) (w_limit kw.2) = Ok ratio
                      /\ fle (hard_stop b) ratio = false) ws.
Proof.
  induction ws as [|[k w] ws IH]; intros d d' H; [constructor|]. cbn in H.
  apply bind_Ok in H as (d1 & H1 & H). constructor; [|by eapply IH].
  unfold window_delay in H1. apply bind_Ok in H1 as (ratio & Hr & H1). apply bind_Ok in H1 as (u & Hu & _).
  apply raise_if_Ok in Hu. eauto.
Qed.

(** Windows all below their band ask for no wait. *)
Definition clear_of (b : RateLimitBands) (weight : Z) (priority : RequestPriority) (w : window) : Prop :=
  exists ratio, true_div (w_used w + weight) (w_limit w) = Ok ratio /\ fle (hard_stop b) ratio = false
    /\ fle (throttle b) ratio || fle (warning b) ratio && bool_decide (priority = SUPPLEMENTAL) = false.

Lemma scan_clear b weight priority now ws d : Forall (fun kw => clear_of b weight priority kw.2) ws ->
  scan b weight priority now ws d = Ok d.
Proof.
  induction 1 as [|[k w] ws (ratio & Hr & Hh & Hb) _ IH]; [done|]. cbn. unfold window_delay.
  cbn [snd] in Hr. rewrite Hr, Ok_bind, Hh. cbn [raise_if]. rewrite Ok_bind, Hb. exact IH.
Qed.

(** What one finished turn did. *)
Lemma reserve_turn_Ok clock monotonic weight priority g ok g' :
  reserve_turn clock monotonic weight priority g = (Ok ok, g') ->
  exists ws d, reset_elapsed (clock (ticks g)) (windows g) = (Ok tt, ws) /\ ws <> []
    /\ flt (monotonic (mono_ticks g)) (cooldown_until g) = false
    /\ scan (bands g) weight priority (clock (ticks g)) ws fzero = Ok d
    /\ ok = fle d fzero /\ bands g' = bands g /\ ticks g' = S (ticks g)
    /\ windows g' = (if ok then map (add_weight weight) ws else ws).
Proof.
  unfold reserve_turn, read_monotonic, read_clock, _reset_elapsed_windows, sleep, with_windows. intros H.
  inv_method. cbn in *. destruct (reset_elapsed _ _) as [r ws] eqn:E. simplify_eq.
  match goal with H : raise_if (is_nil _) _ = Ok _ |- _ => apply raise_if_Ok in H; apply is_nil_false in H end.
  match goal with H : raise_if (flt _ _) _ = Ok _ |- _ => apply raise_if_Ok in H end.
  cbn in *.
  match goal with H : scan _ _ _ _ _ _ = Ok ?d |- _ => exists ws, d; rename H into Hscan end.
  match goal with H : (if ?c then _ else _) _ = _ |- _ => destruct c eqn:Ed end;
    inv_method; cbn in *; simplify_eq; repeat match goal with u : unit |- _ => destruct u end; done.
Qed.

Lemma flt_irrefl x : flt x x = false.
Proof.
  unfold flt, SFltb. destruct x as [[]|[]| |[] m e]; cbn; try done.
  all: by rewrite Z.compare_refl, ?Pos.compare_cont_refl.
Qed.

Lemma flt_fle x y : flt x y = true -> fle y x = false.
Proof.
  unfold flt, fle, SFltb, SFleb.
  destruct x as [[]|[]| |[] m e], y as [[]|[]| |[] m' e']; cbn; try done.
  all: destruct (Z.compare_spec e e'), (Z.compare_spec e' e); try lia; try done.
  all: change Eq with (CompOpp Eq) at 2; rewrite <- (Pos.compare_cont_antisym m m' Eq); by destruct (Pos.compare_cont Eq m m').
Qed.

Lemma flt_asym x y : flt x y = true -> flt y x = false.
Proof. intros H%flt_fle. unfold flt, fle, SFltb, SFleb in *. by repeat case_match. Qed.

(** A period's start [s0] seen from a reading: either the reading is in a later period or the period's end lies ahead of it. *)
Definition left_or_ahead (seconds : Z) (secs now s0 : float) : Prop :=
  (exists st, period_start now seconds = Ok st /\ flt s0 st = true)
  \/ flt fzero (fsub (fadd s0 secs) now) = true.

(** One turn with a single unused window whose weight reaches the waiting
    band: the loop sleeps and the window is still unused. *)
Lemma heavy_turn clock monotonic weight priority g k w ratio secs :
  windows g = [(k, w)] -> w_used w = 0 -> flt (monotonic (mono_ticks g)) (cooldown_until g) = false ->
  true_div weight (w_limit w) = Ok ratio -> fle (hard_stop (bands g)) ratio = false ->
  fle (throttle (bands g)) ratio || fle (warning (bands g)) ratio && bool_decide (priority = SUPPLEMENTAL) = true ->
  float_of_int (w_seconds w) = Ok secs ->
  is_ok (period_start (clock (ticks g)) (w_seconds w)) = true ->
  left_or_ahead (w_seconds w) secs (clock (ticks g)) (w_started_at w) ->
  (forall s0, period_start (clock (ticks g)) (w_seconds w) = Ok s0 ->
     left_or_ahead (w_seconds w) secs (clock (ticks g)) s0) ->
  exists w' g', reserve_turn clock monotonic weight priority g = (Ok false, g') /\ windows g' = [(k, w')]
    /\ w_seconds w' = w_seconds w /\ w_limit w' = w_limit w /\ w_used w' = 0
    /\ (w_started_at w' = w_started_at w \/ exists j, period_start (clock j) (w_seconds w) = Ok (w_started_at w'))
    /\ cooldown_until g' = cooldown_until g /\ bands g' = bands g.
Proof.
  intros Hws Hused Hcool Hq Hbelow Hheavy Hsecs Hok Hfirst Hlater.
  destruct (period_start _ _) as [st|] eqn:Est; [|done]. specialize (Hlater st eq_refl).
  set (w' := if flt (w_started_at w) st then mk_window (w_seconds w) (w_limit w) 0 st else w).
  assert (Hr : reset_window (clock (ticks g)) w = Ok w') by (unfold reset_window; by rewrite Est).
  assert (Hahead : flt fzero (fsub (fadd (w_started_at w') secs) (clock (ticks g))) = true).
  { subst w'. destruct (flt (w_started_at w) st) eqn:E; cbn.
    - destruct Hlater as [(st' & Hst' & Hl)|]; [|done]. rewrite Est in Hst'. simplify_eq. by rewrite flt_irrefl in Hl.
    - destruct Hfirst as [(st' & Hst' & Hl)|]; [|done]. rewrite Est in Hst'. simplify_eq. congruence. }
  assert (Hw' : w_seconds w' = w_seconds w /\ w_limit w' = w_limit w /\ w_used w' = 0) by (subst w'; destruct (flt (w_started_at w) st); cbn; auto).
  destruct Hw' as (Hsec & Hlim & Hu).
  set (d := fsub (fadd (w_started_at w') secs) (clock (ticks g))) in *.
  assert (Hscan : scan (bands g) weight priority (clock (ticks g)) [(k, w')] fzero = Ok d).
  { cbn [scan]. unfold window_delay. rewrite Hu, Hlim, Z.add_0_l, Hq, Ok_bind, Hbelow. cbn [raise_if].
    rewrite Ok_bind, Hheavy, Hsec, Hsecs, !Ok_bind. unfold fmax. fold d. by rewrite Hahead. }
  assert (Hd : fle d fzero = false) by by apply flt_fle.
  exists w'. eexists. split.
  { unfold reserve_turn, read_monotonic, read_clock, _reset_elapsed_windows, sleep, mbind, method_bind, get, lift.
    cbn -[fzero fle flt fmax period_start scan reset_elapsed]. rewrite Hcool.
    cbn -[fzero fle fmax period_start scan reset_elapsed]. rewrite Hws.
    cbn -[fzero fle fmax period_start scan]. rewrite Hr.
    cbn -[fzero fle fmax period_start scan]. rewrite Hscan, Hd. reflexivity. }
  cbn. repeat (split; [done|]). split; [|done].
  subst w'. destruct (flt (w_started_at w) st); cbn; [right; by exists (ticks g)|by left].
Qed.

(** ** Properties *)

(** A window whose use, as a quotient of its limit, is below the hard stop. *)
Definition below_hard_stop (b : RateLimitBands) (w : window) : Prop :=
  exists ratio, true_div (w_used w) (w_limit w) = Ok ratio /\ fle (hard_stop b) ratio = false.

(** Alone, the shared loop is the loop. *)
Lemma reserve_shared_alone clock monotonic fuel weight priority : forall turn g,
  reserve_shared clock monotonic (fun _ g => g) fuel turn weight priority g =
  reserve_loop clock monotonic fuel weight priority g.
Proof.
  induction fuel as [|fuel IH]; intros turn g; [done|]. cbn.
  by destruct (reserve_turn _ _ _ _ _) as [[[|]|] g1].
Qed.

(** Whatever other threads do to the windows, the cooldown and the clocks while
    the loop sleeps, a reservation it makes stays below the hard stop. *)
Lemma reserve_shared_below clock monotonic others fuel weight priority g' :
  (forall n g, bands (others n g) = bands g) ->
  forall turn g, reserve_shared clock monotonic others fuel turn weight priority g = Some (Ok tt, g') ->
  windows g' <> [] /\ bands g' = bands g /\ Forall (fun kw => below_hard_stop (bands g) kw.2) (windows g').
Proof.
  intros Ho. induction fuel as [|fuel IH]; intros turn g H; [done|]. cbn in H.
  destruct (reserve_turn _ _ _ _ _) as [[ok|e] g1] eqn:E; [|done].
  apply reserve_turn_Ok in E as (ws & d & _ & Hne & _ & Hscan & _ & Hb & _ & Hws).
  destruct ok; [|by apply IH in H; rewrite Ho, Hb in H].
  simplify_eq. rewrite Hws. split; [by destruct ws|]. split; [done|].
  apply Forall_map. by eapply scan_below.
Qed.

(** C15: a reservation that succeeds leaves at least one window, and every
    window, the reserved weight included, below the hard stop: no priority
    spends past it, however long the loop waited.  [reserve_shared_below] says
    the same of a loop whose sleeps other threads use. *)
Theorem reserve_below_hard_stop clock monotonic fuel weight priority g g' :
  reserve clock monotonic fuel weight priority g = Some (Ok tt, g') ->
  0 < weight /\ windows g' <> [] /\ bands g' = bands g
  /\ Forall (fun kw => below_hard_stop (bands g) kw.2) (windows g').
Proof.
  unfold reserve. destruct (Z.leb_spec weight 0) as [|Hw]; [done|]. intros H. split; [done|].
  rewrite <- (reserve_shared_alone _ _ _ _ _ 0) in H. by apply reserve_shared_below in H.
Qed.

(** C37: a wait ends with the periods, for a request the bands can let through.
    When the request's weight alone, in a new and empty window, is below every
    band that applies to its priority ([clear_of], for every window), and one
    clock reading, the [n]-th from now, lies past every window's start and past
    the periods of the readings before it, the loop has returned or raised
    within [n + 1] turns.  For other weights it can wait for ever:
    [heavy_weight_waits_forever]. *)
Theorem reserve_terminates clock monotonic n weight priority g
  (starts : Forall (fun kw => exists st, period_start (clock (ticks g + n)%nat) (w_seconds kw.2) = Ok st
     /\ flt (w_started_at kw.2) st = true
     /\ (forall i s, (i < n)%nat -> period_start (clock (ticks g + i)%nat) (w_seconds kw.2) = Ok s ->
                     flt s st = true)
     /\ clear_of (bands g) weight priority (mk_window (w_seconds kw.2) (w_limit kw.2) 0 st)) (windows g)) :
  exists r g', reserve clock monotonic (S n) weight priority g = Some (r, g').
Proof.
  unfold reserve. destruct (weight <=? 0); [eauto|].
  revert g starts. induction n as [|n IH]; intros g starts.
  all: cbn [reserve_loop]; destruct (reserve_turn _ _ _ _ _) as [[[|]|e] g1] eqn:E; eauto;
    apply reserve_turn_Ok in E as (ws & d & Hreset & _ & _ & Hscan & Hok & Hb & Ht & Hws);
    apply reset_elapsed_Ok in Hreset.
  - (* the period is new: nothing is used and nothing waits *)
    exfalso. rewrite scan_clear in Hscan; [by simplify_eq|].
    clear -starts Hreset. induction Hreset as [|kw kw2 l k (_ & Hr) _ IHr]; [constructor|].
    apply Forall_cons in starts as ((st & Hst & Hlt & _ & Hclear) & starts).
    constructor; [|by apply IHr]. rewrite Nat.add_0_r in Hst.
    apply reset_window_Ok in Hr as (st' & Hst' & [(_ & ->)|(Hge & ->)]); congruence.
  - apply IH. rewrite Hws, Ht, Hb. clear -starts Hreset.
    induction Hreset as [|kw kw2 l k (_ & Hr) _ IHr]; [constructor|].
    apply Forall_cons in starts as ((st & Hst & Hlt & Hmono & Hclear) & starts).
    constructor; [|by apply IHr].
    replace (S (ticks g) + n)%nat with (ticks g + S n)%nat by lia.
    apply reset_window_Ok in Hr as (st' & Hst' & [(_ & Hk)|(Hge & Hk)]); rewrite Hk; exists st; cbn.
    all: split; [done|]; split; [first [done | apply (Hmono 0%nat); [lia|by rewrite Nat.add_0_r]]|].
    all: split; [intros i s Hi Hs; apply (Hmono (S i)); [lia|];
                 by replace (ticks g + S i)%nat with (S (ticks g) + i)%nat by lia|done].
Qed.

(** A weight that alone reaches the band at which the loop waits is never
    reserved, even by a governor whose only window is unused: the reset at each
    period's end only brings back the same wait, so the loop never returns and
    never raises.  (The clock is any one whose readings have either left a
    window's period or not reached its end.) *)
Theorem heavy_weight_waits_forever clock monotonic fuel weight priority g k w ratio secs
  (only : windows g = [(k, w)]) (unused : w_used w = 0) (positive : 0 < weight)
  (warm : forall i, flt (monotonic i) (cooldown_until g) = false)
  (quotient : true_div weight (w_limit w) = Ok ratio) (below : fle (hard_stop (bands g)) ratio = false)
  (heavy : fle (throttle (bands g)) ratio || fle (warning (bands g)) ratio && bool_decide (priority = SUPPLEMENTAL)
           = true)
  (length_ok : float_of_int (w_seconds w) = Ok secs)
  (period : forall i, is_ok (period_start (clock i) (w_seconds w)) = true)
  (first : forall i, left_or_ahead (w_seconds w) secs (clock i) (w_started_at w))
  (later : forall i j s0, period_start (clock j) (w_seconds w) = Ok s0 ->
     left_or_ahead (w_seconds w) secs (clock i) s0) :
  reserve clock monotonic fuel weight priority g = None.
Proof.
  unfold reserve. destruct (Z.leb_spec weight 0); [lia|].
  revert g w only unused warm quotient below heavy length_ok period first later.
  induction fuel as [|fuel IH]; intros; [done|]. cbn [reserve_loop].
  destruct (heavy_turn clock monotonic weight priority g k w ratio secs) as (w' & g' & -> & Hw' & Hsec & Hlim & Hused & Hst & Hcool & Hbands);
    [done||apply warm||apply period||apply first||(intros s0; apply later)..|].
  apply (IH g' w'); rewrite ?Hsec, ?Hlim, ?Hcool, ?Hbands; try done.
  intros i. destruct Hst as [->|(j & Hj)]; [apply first|by apply (later i j)].
Qed.

(** The documented weights of the collector's requests, where the query's
    [limit] is an integer text, lie between 1 and 250. *)
Theorem request_weight_bounds path query weight :
  public_request_weight path query = Ok weight -> 1 <= weight <= 250.
Proof.
  unfold public_request_weight. intros H.
  repeat match type of H with
         | (if ?c then _ else _) = Ok _ => destruct c
         | (_ ≫= _) = Ok _ => apply bind_Ok in H as (? & _ & H)
         end.
  all: apply mret_Ok in H; subst; repeat case_match; lia.
Qed.

(** An answer 429 or 418 never shortens the cooldown, and while the
    monotonic clock reads less than it a reservation of a positive weight raises
    on its first turn, for every priority, and changes no window. *)
Theorem retry_after_cools_down clock monotonic fuel weight priority g seconds banned
  (positive : 0 < weight) :
  let g1 := (apply_retry_after monotonic seconds banned g).2 in
  flt (cooldown_until g1) (cooldown_until g) = false
  /\ (flt (monotonic (mono_ticks g1)) (cooldown_until g1) = true ->
      exists g2, reserve clock monotonic (S fuel) weight priority g1
                   = Some (Raise (ExchangeHttpError "shared public request budget cooldown"), g2)
        /\ windows g2 = windows g).
Proof.
  intros g1. split.
  - subst g1. unfold apply_retry_after, read_monotonic, modify, mbind, method_bind. cbn [snd cooldown_until].
    set (c := fadd _ _). unfold fmax. destruct (flt (cooldown_until g) c) eqn:E; [|apply flt_irrefl].
    by apply flt_asym.
  - intros H. unfold reserve. destruct (Z.leb_spec weight 0); [lia|]. cbn [reserve_loop].
    unfold reserve_turn. unfold read_monotonic at 1, mbind, method_bind, get, lift. cbn in H |- *. rewrite H. cbn. eauto.
Qed.

(** ** Examples *)

Definition readings (l : list Z) (i : nat) : float := float_of (nth i l (List.last l 0)) 0.
Definition ex_governor (used limit seconds : Z) : governor :=
  mk_governor default_bands fzero [(seconds, mk_window seconds limit used (float_of 1700000000 0))] 0 0 [].
Definition ex_clock : nat -> float := readings [1700000003; 1700000013; 1700000027].

Example ex_bands : is_ok (new_bands default_bands) = true.
Proof. vm_compute. reflexivity. Qed.

(** A depth request waits for the period to end, then is reserved. *)
Example ex_reserved : option_map (fun '(r, g) => (r, map (fun kw => w_used kw.2) (windows g), length (slept g)))
    (reserve ex_clock ex_clock 5 50 SUPPLEMENTAL (ex_governor 200 300 10)) = Some (Ok tt, [50], 1%nat).
Proof. vm_compute. reflexivity. Qed.

Example ex_configured :
  let payload := JObj [("rateLimits", JList [JObj [("rateLimitType", JStr "REQUEST_WEIGHT");
     ("interval", JStr "MINUTE"); ("intervalNum", JInt 1); ("limit", JInt 2400)];
     JObj [("rateLimitType", JStr "ORDERS"); ("interval", JStr "SECOND"); ("intervalNum", JInt 10); ("limit", JInt 50)]])] in
  let g := (configure_from_exchange_info ex_clock payload (ex_governor 0 1 1)).2 in
  map (fun kw => (w_seconds kw.2, w_limit kw.2)) (windows g) = [(60, 2400)]
  /\ map (fun kw => w_used kw.2)
       (windows (observe_headers ex_clock [("X-MBX-Used-Weight-1M", "2000")] g).2) = [2000].
Proof. vm_compute. split; reflexivity. Qed.

Lemma reserve_below_hard_stop_witness : exists g',
  reserve ex_clock ex_clock 5 50 SUPPLEMENTAL (ex_governor 200 300 10) = Some (Ok tt, g')
  /\ windows g' <> [] /\ Forall (fun kw => below_hard_stop default_bands kw.2) (windows g').
Proof.
  eexists. split; [vm_compute; reflexivity|].
  edestruct (reserve_below_hard_stop ex_clock ex_clock 5 50 SUPPLEMENTAL (ex_governor 200 300 10)) as (_ & Hne & _ & Hall);
    [vm_compute; reflexivity|]. split; [exact Hne|exact Hall].
Defined.

Lemma reserve_terminates_witness : exists r g',
  reserve ex_clock ex_clock 3 50 SUPPLEMENTAL (ex_governor 200 300 10) = Some (r, g').
Proof.
  apply (reserve_terminates ex_clock ex_clock 2). repeat constructor. eexists.
  split; [vm_compute; reflexivity|]. split; [vm_compute; reflexivity|]. split.
  - intros i s Hi Hs. do 2 (destruct i as [|i]; [vm_compute in Hs; injection Hs as <-; vm_compute; reflexivity|]). lia.
  - eexists. repeat split; vm_compute; reflexivity.
Defined.

(** The three readings of [ex_clock], the last one repeated. *)
Lemma ex_clock_cases (P : float -> Prop) :
  P (float_of 1700000003 0) -> P (float_of 1700000013 0) -> P (float_of 1700000027 0) -> forall i, P (ex_clock i).
Proof. intros H0 H1 H2 [|[|[|[|i]]]]; assumption. Qed.

Ltac ex_reading i := pattern (ex_clock i); revert i; apply ex_clock_cases.
Ltac ex_ahead := first [right; vm_compute; reflexivity | left; eexists; split; vm_compute; reflexivity].

(** A spot depth request of weight 250 under a 300-per-10-seconds limit. *)
Lemma heavy_weight_waits_forever_witness :
  public_request_weight "/api/v3/depth" [("limit", inr 5000)] = Ok 250
  /\ reserve ex_clock ex_clock 1000 250 SUPPLEMENTAL (ex_governor 0 300 10) = None.
Proof.
  split; [vm_compute; reflexivity|].
  apply (heavy_weight_waits_forever ex_clock ex_clock 1000 250 SUPPLEMENTAL (ex_governor 0 300 10) 10
           (mk_window 10 300 0 (float_of 1700000000 0)) (ok_or fzero (true_div 250 300)) (ok_or fzero (float_of_int 10))).
  1-3: reflexivity.
  1: intros i; ex_reading i; vm_compute; reflexivity.
  1-4: vm_compute; reflexivity.
  1: intros i; ex_reading i; vm_compute; reflexivity.
  1: intros i; ex_reading i; ex_ahead.
  intros i j s0. ex_reading j; intros Hs; vm_compute in Hs; injection Hs as <-; ex_reading i; ex_ahead.
Defined.

Lemma request_weight_bounds_witness : 1 <= 250 <= 250.
Proof. apply (request_weight_bounds "/api/v3/depth" [("limit", inr 5000)]). vm_compute. reflexivity. Defined.

Lemma retry_after_cools_down_witness : exists g2,
  reserve ex_clock ex_clock 1 5 METADATA (apply_retry_after ex_clock (float_of 30 0) false (ex_governor 0 300 10)).2
    = Some (Raise (ExchangeHttpError "shared public request budget cooldown"), g2)
  /\ windows g2 = windows (ex_governor 0 300 10).
Proof.
  apply (retry_after_cools_down ex_clock ex_clock 0 5 METADATA (ex_governor 0 300 10) (float_of 30 0) false);
    [lia|vm_compute; reflexivity].
Defined.
