(* ===== verification/Candidate.v ===== *)
(** [domain.py] ([PriceZone], [StopCandidate], [TargetCandidate],
    [TradeCandidate]): the strategy proposal every later stage consumes, with
    the validation of its constructor.

    The decimal fields hold finite numbers: the constructor refuses the others
    before anything else is read from them. *)
From S2P Require Import Prelude PyDecimal DecimalFacts PyFloat Domain Attribution.
From Stdlib Require Import QArith Lqa.
Local Open Scope Z_scope.
Local Open Scope bool_scope.

Inductive CandidateStatus : Type :=
| CS_WAIT_FOR_RETEST | CS_READY_FOR_RISK | CS_RESEARCH_ONLY | CS_REJECTED.
#[export] Instance CandidateStatus_eq_dec : EqDecision CandidateStatus.
Proof. solve_decision. Defined.

(** [_validate_score] *)
Definition finite_float (x : float) : bool :=
  match x with S754_zero _ | S754_finite _ _ _ => true | _ => false end.
Definition within (lo x hi : float) : bool := finite_float x && fle lo x && fle x hi.
Definition score_ok (x : float) : bool := within fzero x (float_of 100 0).
Definition unit_ok (x : float) : bool := within fzero x (float_of 1 0).

(** [_normalize_market_type] *)
Definition _normalize_market_type (t : string) : res string :=
  let n := normalize t in
  raise_if (String.eqb n "") (ValueError "market_type cannot be empty");;
  raise_if (negb (str_in n ["SPOT"; "USD_M_FUTURES"])) (ValueError "market_type must be SPOT or USD_M_FUTURES");;
  mret n.

Record PriceZone : Type := mk_zone { zone_lower : dec; zone_upper : dec }.
(** [PriceZone(...)] *)
Definition new_zone (z : PriceZone) : res PriceZone :=
  raise_if ((zone_lower z <? ZERO)%D || (zone_upper z <? ZERO)%D)
    (ValueError "price zone values must be finite and non-negative");;
  raise_if (zone_upper z <? zone_lower z)%D (ValueError "price zone lower cannot exceed upper");;
  mret z.

Record StopCandidate : Type := mk_stop_candidate {
  sc_texts : list string;        (* source, method, family, timeframe, meaning, reason *)
  sc_price : dec;
  sc_distance : dec;
  sc_atr_distance : dec;
  sc_selected : bool;
  sc_buffers : list (option dec)  (* spread and slippage buffers *)
}.
(** [StopCandidate.__post_init__] *)
Definition new_stop_candidate (s : StopCandidate) : res StopCandidate :=
  raise_if (existsb blank (sc_texts s)) (ValueError "stop candidate requires provenance and rationale");;
  raise_if (existsb (fun d => d <? ZERO)%D [sc_price s; sc_distance s; sc_atr_distance s])
    (ValueError "stop candidate measurements must be finite");;
  raise_if (sc_price s <=? ZERO)%D (ValueError "stop candidate price must be positive");;
  raise_if (existsb (fun b => match b with Some d => (d <? ZERO)%D | None => false end) (sc_buffers s))
    (ValueError "stop buffer must be nonnegative when measured");;
  mret s.

Record TargetCandidate : Type := mk_target_candidate {
  tc_texts : list string;        (* source, evidence ref, family, timeframe, reason *)
  tc_price : dec;
  tc_observed_price : dec;
  tc_strength : float;
  tc_selected : bool
}.
(** [TargetCandidate.__post_init__] *)
Definition new_target_candidate (t : TargetCandidate) : res TargetCandidate :=
  raise_if (existsb blank (tc_texts t)) (ValueError "target candidate requires provenance and rationale");;
  raise_if (existsb (fun d => d <=? ZERO)%D [tc_price t; tc_observed_price t])
    (ValueError "target candidate prices must be finite and positive");;
  raise_if (negb (unit_ok (tc_strength t)))
    (ValueError "target structural strength must be between zero and one");;
  mret t.

Record TradeCandidate : Type := mk_candidate {
  candidate_id : string; cd_snapshot_id : string; cd_timestamp : datetime; cd_symbol : string;
  cd_timeframe : string; cd_action : Action; setup_name : string; cd_status : CandidateStatus;
  entry_zone : PriceZone; invalidation_level : dec; cd_stop_loss : dec;
  take_profit_levels : list dec; cd_trailing_stop : dec; cd_atr : dec; risk_reward : dec;
  cd_score : float; confidence : float; ranking_score : option float;
  cd_promotion : ValidationStatus; inventory_action : string; evidence : list string;
  cd_blockers : list string; cd_market_type : string; scenario_id : option string;
  scenario_type : option string; scenario_state : option string; scenario_invalidation : option string;
  structural_risk_reward : option dec; net_risk_reward : option dec;
  round_trip_cost : option dec;  (* estimated_round_trip_cost_ratio *)
  expected_r : option dec; calibration : string;
  entry_trigger : string; entry_state : string; entry_expiry : option datetime;
  target_sources : list string; target_net_rr : list dec; target_pnl : list dec;
  signed_funding : option dec; stop_alternatives : list (string * dec);
  stop_candidates : list StopCandidate; target_candidates : list TargetCandidate;
  cd_evidence : TradeDecisionEvidence
}.

(** [TradeCandidate.entry_price] *)
Definition entry_price (c : TradeCandidate) : res dec :=
  s ← dadd (zone_lower (entry_zone c)) (zone_upper (entry_zone c)); ddiv s (lit 2 0).

Definition set_texts (symbol market : string) (c : TradeCandidate) : TradeCandidate :=
  mk_candidate (candidate_id c) (cd_snapshot_id c) (cd_timestamp c) symbol
    (cd_timeframe c) (cd_action c) (setup_name c) (cd_status c) (entry_zone c) (invalidation_level c)
    (cd_stop_loss c) (take_profit_levels c) (cd_trailing_stop c) (cd_atr c) (risk_reward c) (cd_score c)
    (confidence c) (ranking_score c) (cd_promotion c) (inventory_action c) (evidence c) (cd_blockers c)
    market (scenario_id c) (scenario_type c) (scenario_state c) (scenario_invalidation c)
    (structural_risk_reward c) (net_risk_reward c) (round_trip_cost c) (expected_r c) (calibration c)
    (entry_trigger c) (entry_state c) (entry_expiry c) (target_sources c) (target_net_rr c) (target_pnl c)
    (signed_funding c) (stop_alternatives c) (stop_candidates c) (target_candidates c)
    (cd_evidence c).

(** [_validate_identity] *)
Definition _validate_identity (c : TradeCandidate) : res unit :=
  first_failing [("candidate_id", blank (candidate_id c)); ("snapshot_id", blank (cd_snapshot_id c));
      ("symbol", blank (cd_symbol c)); ("timeframe", blank (cd_timeframe c)); ("setup_name", blank (setup_name c))]
    " cannot be empty";;
  raise_if (naive (cd_timestamp c)) (ValueError "candidate timestamp must be timezone-aware");;
  raise_if (negb (bool_decide (cd_action c = BUY) || bool_decide (cd_action c = SELL)))
    (ValueError "trade candidate action must be BUY or SELL").

(** [_validate_plan_metrics] *)
Definition positive_if_known (o : option dec) : bool :=
  match o with Some d => (ZERO <? d)%D | None => true end.
Definition _validate_plan_metrics (c : TradeCandidate) : res unit :=
  first_failing [("structural_risk_reward", negb (positive_if_known (structural_risk_reward c)));
      ("net_risk_reward", negb (positive_if_known (net_risk_reward c)))] " must be finite and positive";;
  raise_if (match round_trip_cost c with Some d => (d <? ZERO)%D | None => false end)
    (ValueError "estimated round-trip cost ratio is invalid");;
  raise_if (negb (str_in (calibration c) ["PROBABILITY_NOT_CALIBRATED"; "OOS_CALIBRATED"]))
    (ValueError "probability calibration state is invalid");;
  raise_if (match expected_r c with
            | Some _ => negb (String.eqb (calibration c) "OOS_CALIBRATED") | None => false end)
    (ValueError "expected_r requires OOS-calibrated probability").

(** [_validate_entry_contract] *)
Definition _validate_entry_contract (c : TradeCandidate) : res unit :=
  match entry_expiry c with
  | None => Ok tt
  | Some x =>
      raise_if (naive x) (ValueError "entry_expiry must be timezone-aware");;
      raise_if (dt_leb x (cd_timestamp c)) (ValueError "entry_expiry must be after candidate timestamp")
  end;;
  raise_if (blank (entry_trigger c)
      || negb (str_in (entry_state c) ["ENTRY_NOT_READY"; "ENTRY_VALID"; "ENTRY_MISSED"; "ENTRY_INVALIDATED"]))
    (ValueError "entry trigger/state is invalid");;
  raise_if (existsb blank (target_sources c)) (ValueError "target_sources cannot contain blank values").

(** [_validate_economics] *)
Definition ladder_ok (c : TradeCandidate) (l : list dec) : bool :=
  is_nil l || Nat.eqb (length l) (length (take_profit_levels c)).
Definition _validate_economics (c : TradeCandidate) : res unit :=
  raise_if (negb (forallb (ladder_ok c) [target_net_rr c; target_pnl c]))
    (ValueError "target economics must be finite and match the target ladder");;
  raise_if (existsb (fun a => blank a.1 || (a.2 <=? ZERO)%D) (stop_alternatives c))
    (ValueError "stop alternatives require observed prices and provenance").

(** [tuple == tuple] on decimals *)
Fixpoint decs_eqb (l k : list dec) : bool :=
  match l, k with
  | [], [] => true
  | x :: l', y :: k' => (x =? y)%D && decs_eqb l' k'
  | _, _ => false
  end.

(** One row of the stop evidence agrees with the entry geometry; the second
    comparison is only made when the first agrees. *)
Definition stop_row_off (entry atr : dec) (s : StopCandidate) : res bool :=
  d ← dsub entry (sc_price s);
  d ← dabs d;
  if negb (sc_distance s =? d)%D then mret true
  else q ← ddiv (sc_distance s) atr; mret (negb (sc_atr_distance s =? q)%D).
Fixpoint any_row_off (entry atr : dec) (l : list StopCandidate) : res bool :=
  match l with
  | [] => Ok false
  | s :: l' => off ← stop_row_off entry atr s; if off : bool then mret true else any_row_off entry atr l'
  end.

(** [_validate_planning_candidates] *)
Definition _validate_stops (c : TradeCandidate) : res unit :=
  if is_nil (stop_candidates c) then Ok tt
  else
    raise_if (negb (decs_eqb (map sc_price (List.filter sc_selected (stop_candidates c))) [cd_stop_loss c]))
      (ValueError "selected stop evidence must match the initial stop");;
    entry ← entry_price c;
    off ← any_row_off entry (cd_atr c) (stop_candidates c);
    raise_if off (ValueError "stop evidence distance must match entry geometry").
Definition _validate_targets (c : TradeCandidate) : res unit :=
  if is_nil (target_candidates c) then Ok tt
  else
    let selected := map tc_price (List.filter tc_selected (target_candidates c)) in
    raise_if (negb (is_nil selected) && negb (decs_eqb selected (take_profit_levels c)))
      (ValueError "selected target evidence must match the ladder");;
    raise_if (is_nil selected && bool_decide (cd_status c = CS_READY_FOR_RISK))
      (ValueError "ready plan requires a selected structural target").
Definition _validate_planning_candidates (c : TradeCandidate) : res unit :=
  _validate_stops c;; _validate_targets c.

(** [_validate_scenario_contract] *)
Definition blank_or_missing (o : option string) : bool :=
  match o with Some s => blank s | None => true end.
Definition _validate_scenario_contract (c : TradeCandidate) : res unit :=
  match scenario_id c with
  | None =>
      raise_if (existsb (fun o : option string => match o with Some _ => true | None => false end)
                  [scenario_type c; scenario_state c; scenario_invalidation c])
        (ValueError "scenario metadata requires scenario_id")
  | Some id =>
      raise_if (blank id) (ValueError "scenario_id cannot be blank");;
      raise_if (blank_or_missing (scenario_type c)) (ValueError "scenario_type is required for a bound scenario");;
      raise_if (blank_or_missing (scenario_state c)) (ValueError "scenario_state is required for a bound scenario");;
      raise_if (match scenario_invalidation c with Some s => blank s | None => false end)
        (ValueError "scenario_invalidation cannot be blank")
  end.

(** [_validate_geometry] *)
Definition _validate_geometry (c : TradeCandidate) : res unit :=
  entry ← entry_price c;
  if bool_decide (cd_action c = BUY) then
    raise_if ((entry <=? cd_stop_loss c)%D || existsb (fun t => t <=? entry)%D (take_profit_levels c))
      (ValueError "BUY candidate geometry is invalid")
  else
    raise_if ((cd_stop_loss c <=? entry)%D || existsb (fun t => entry <=? t)%D (take_profit_levels c))
      (ValueError "SELL candidate geometry is invalid").

(** [TradeCandidate(...)] with [__post_init__] *)
Definition new_candidate (c0 : TradeCandidate) : res TradeCandidate :=
  _validate_identity c0;;
  market ← _normalize_market_type (cd_market_type c0);
  let c := set_texts (normalize (cd_symbol c0)) market c0 in
  raise_if (String.eqb market "SPOT" && bool_decide (cd_action c = SELL) && String.eqb (inventory_action c) "NONE")
    (ValueError "Spot SELL candidate requires inventory_action");;
  first_failing [("invalidation_level", (invalidation_level c <=? ZERO)%D); ("stop_loss", (cd_stop_loss c <=? ZERO)%D);
      ("trailing_stop", (cd_trailing_stop c <=? ZERO)%D); ("atr", (cd_atr c <=? ZERO)%D);
      ("risk_reward", (risk_reward c <=? ZERO)%D)] " must be positive";;
  raise_if (is_nil (take_profit_levels c) || existsb (fun d => d <=? ZERO)%D (take_profit_levels c))
    (ValueError "take_profit_levels must contain positive values");;
  raise_if (negb (score_ok (cd_score c))) (ValueError "score must be finite and between 0 and 100");;
  raise_if (negb (unit_ok (confidence c))) (ValueError "confidence must be finite and between 0 and 1");;
  raise_if (match ranking_score c with Some x => negb (score_ok x) | None => false end)
    (ValueError "ranking_score must be finite and between 0 and 100");;
  _validate_plan_metrics c;;
  _validate_entry_contract c;;
  _validate_economics c;;
  _validate_planning_candidates c;;
  _validate_scenario_contract c;;
  _validate_geometry c;;
  raise_if (bool_decide (cd_status c = CS_READY_FOR_RISK) && negb (is_nil (cd_blockers c)))
    (ValueError "READY_FOR_RISK candidate cannot contain blockers");;
  mret c.
