(* ===== verification/Risk.v ===== *)
(** [risk.py], [domain/risk_geometry.py] and [core/contracts/risk.py]: the
    capital-protection engine that sizes a candidate and lists every reason not
    to take it.

    All decimals are finite: the constructors refuse the others.  A market
    snapshot is cut down to the fields the engine reads; its metadata keeps the
    kinds of values a mapping can hold. *)
From S2P Require Import Prelude PyDecimal DecimalFacts DecimalText PyFloat PyText Domain Filters Attribution Candidate.
From Stdlib Require Import QArith Lqa.
Local Open Scope Z_scope.
Local Open Scope bool_scope.

(** ** Configuration *)

Record VirtualMarketPositionSizingPolicy : Type := mk_sizing_policy {
  risk_per_trade_ratio : dec;
  maximum_open_risk_ratio : dec;
  maximum_positions : Z
}.
Definition ratio_ok (d : dec) : bool := negb ((d <=? ZERO)%D || (ONE <? d)%D).
(** [VirtualMarketPositionSizingPolicy(...)] *)
Definition new_sizing_policy (p : VirtualMarketPositionSizingPolicy) : res VirtualMarketPositionSizingPolicy :=
  raise_if (negb (forallb ratio_ok [risk_per_trade_ratio p; maximum_open_risk_ratio p]))
    (ValueError "virtual market risk ratios must be within zero and one");;
  raise_if (maximum_positions p <? 1) (ValueError "virtual market maximum_positions must be positive");;
  mret p.

Record RiskConfig : Type := mk_risk_config {
  max_risk_per_trade : dec;
  max_trade_usdt : dec;
  daily_loss_limit_ratio : dec;
  max_open_position_size_usdt : dec;
  max_inventory_allocation_ratio : dec;
  minimum_risk_reward : dec;
  maximum_spread_ratio : dec;
  maximum_slippage_ratio : dec;
  repeated_loss_limit : Z;
  virtual_market : VirtualMarketPositionSizingPolicy
}.
(** [RiskConfig(...)] *)
Definition new_risk_config (c : RiskConfig) : res RiskConfig :=
  raise_if (negb (forallb ratio_ok [max_risk_per_trade c; daily_loss_limit_ratio c; max_inventory_allocation_ratio c;
                                    maximum_spread_ratio c; maximum_slippage_ratio c]))
    (ValueError "risk ratios must be within zero and one");;
  raise_if (dmin_list (max_trade_usdt c) [max_open_position_size_usdt c; minimum_risk_reward c] <=? ZERO)%D
    (ValueError "risk limits must be positive");;
  raise_if (repeated_loss_limit c <? 1) (ValueError "repeated_loss_limit must be positive");;
  mret c.

(** The defaults of the two contracts. *)
Definition default_config : RiskConfig :=
  mk_risk_config (lit 1 (-2)) (lit 100 0) (lit 3 (-2)) (lit 500 0) (lit 25 (-2)) (lit 2 0) (lit 5 (-3)) (lit 3 (-3)) 3
    (mk_sizing_policy (lit 5 (-3)) (lit 2 (-2)) 4).

(** ** Context and result *)

Record RiskContext : Type := mk_context {
  equity_usdt : option dec;
  current_exposure_usdt : dec;
  open_risk_usdt : dec;
  open_position_count : Z;
  inventory_quantity : option dec;
  daily_loss_usdt : dec;
  estimated_slippage_ratio : dec;
  consecutive_losses : Z;
  cooldown_active : bool
}.
(** [RiskContext(...)] *)
Definition new_context (c : RiskContext) : res RiskContext :=
  first_failing [("current_exposure_usdt", (current_exposure_usdt c <? ZERO)%D);
      ("open_risk_usdt", (open_risk_usdt c <? ZERO)%D); ("daily_loss_usdt", (daily_loss_usdt c <? ZERO)%D);
      ("estimated_slippage_ratio", (estimated_slippage_ratio c <? ZERO)%D)] " must be finite and non-negative";;
  raise_if (match equity_usdt c with Some e => (e <=? ZERO)%D | None => false end)
    (ValueError "equity_usdt must be positive when known");;
  raise_if (match inventory_quantity c with Some q => (q <? ZERO)%D | None => false end)
    (ValueError "inventory_quantity cannot be negative");;
  raise_if (consecutive_losses c <? 0) (ValueError "consecutive_losses cannot be negative");;
  raise_if (open_position_count c <? 0) (ValueError "open_position_count cannot be negative");;
  mret c.

Record RiskAssessment : Type := mk_assessment {
  ra_candidate_id : string;
  ra_approved : bool;
  ra_size_usdt : dec;
  ra_quantity : dec;
  ra_risk_amount : dec;
  ra_blockers : list string;
  ra_scenario_id : option string
}.
(** [RiskAssessment(...)] *)
Definition new_assessment (a : RiskAssessment) : res RiskAssessment :=
  raise_if (blank (ra_candidate_id a)) (ValueError "candidate_id cannot be empty");;
  raise_if (match ra_scenario_id a with Some s => blank s | None => false end)
    (ValueError "scenario_id cannot be blank");;
  raise_if (dmin_list (ra_size_usdt a) [ra_quantity a; ra_risk_amount a] <? ZERO)%D
    (ValueError "risk assessment values cannot be negative");;
  raise_if (ra_approved a && negb (is_nil (ra_blockers a)))
    (ValueError "approved risk assessment cannot contain blockers");;
  raise_if (ra_approved a && (dmin_list (ra_size_usdt a) [ra_quantity a; ra_risk_amount a] <=? ZERO)%D)
    (ValueError "approved risk assessment values must be positive");;
  mret a.

(** ** Snapshots and their metadata *)

#[warnings="-register-all"]
Inductive meta : Type :=
| MNone
| MStr (s : string)
| MInt (n : Z)
| MFloat (x : float)
| MBool (b : bool)
| MDec (d : pydec)
| MMap (l : list (string * meta))
| MOther.

Record MarketSnapshot : Type := mk_snapshot {
  ms_snapshot_id : string;
  ms_created_at : datetime;
  ms_market_type : string;
  ms_symbol : string;
  ms_timeframes : list string;
  ms_latest_price : option dec;
  ms_spread : option dec;
  ms_metadata : list (string * meta);
  ms_derivatives : list (string * meta)
}.

Inductive ExecutionSurface : Type := BINANCE_MARKET | VIRTUAL_MARKET.
#[export] Instance ExecutionSurface_eq_dec : EqDecision ExecutionSurface.
Proof. solve_decision. Defined.

Section Engine.
(** [str(x)] of a float is the shortest decimal that reads back as [x]. *)
Context (float_repr : float -> string).

Definition finite_only (d : option pydec) : option dec :=
  match d with Some (Finite x) => Some x | _ => None end.

(** [_metadata_decimal] *)
Definition _metadata_decimal (v : meta) : option dec :=
  match v with
  | MStr s => finite_only (parse_decimal s)
  | MInt n => finite_only (parse_decimal (str_int n))
  | MFloat x => finite_only (parse_decimal (float_repr x))
  | MDec d => finite_only (Some d)
  | _ => None
  end.

Definition meta_get (k : string) (d : list (string * meta)) : meta := default MNone (dict_get String.eqb k d).
Definition meta_is (v : meta) (s : string) : bool := match v with MStr t => String.eqb t s | _ => false end.

(** ** Geometry *)

Definition abs_diff (a b : dec) : res dec := d ← dsub a b; dabs d.

(** [structural_margin_loss_per_unit] *)
Definition structural_margin_loss_per_unit (entry stop mark cost_ratio stress : dec) : res (dec * dec) :=
  let sign := if (stop <? entry)%D then lit 1 0 else lit (-1) 0 in
  gap ← abs_diff mark entry;
  shock ← dmul entry stress;
  move ← dadd gap shock;
  move ← dmul sign move;
  stressed_stop ← dsub stop move;
  loss ← abs_diff entry stressed_stop;
  cost ← dmul entry cost_ratio;
  loss ← dadd loss cost;
  mret (stressed_stop, loss).

(** [candidate_risk_distance] *)
Definition candidate_risk_distance (c : TradeCandidate) : res dec :=
  entry ← entry_price c;
  distance ← abs_diff entry (invalidation_level c);
  match scenario_id c with
  | None => mret distance
  | Some _ =>
      stop ← abs_diff entry (cd_stop_loss c);
      let distance := dmax distance stop in
      match round_trip_cost c with
      | None => mret distance
      | Some ratio => cost ← dmul entry ratio; dadd distance cost
      end
  end.

(** [candidate.take_profit_levels[0]] *)
Definition first_target (c : TradeCandidate) : res dec :=
  match take_profit_levels c with t :: _ => Ok t | [] => Raise IndexError end.

(** [_candidate_economics_blockers] *)
Definition _candidate_economics_blockers (c : TradeCandidate) : res (list string) :=
  match round_trip_cost c, net_risk_reward c with
  | Some cost, Some net =>
      distance ← candidate_risk_distance c;
      target ← first_target c;
      entry ← entry_price c;
      gain ← abs_diff target entry;
      fee ← dmul entry cost;
      reward ← dsub gain fee;
      if (distance <=? ZERO)%D then mret ["NET_RISK_REWARD_INCONSISTENT"]
      else
        q ← ddiv reward distance;
        mret (block_if (q <? net)%D "NET_RISK_REWARD_INCONSISTENT")
  | _, _ => mret ["NET_RISK_REWARD_UNAVAILABLE"]
  end.

(** The scenario part of [candidate_safety_blockers]. *)
Definition scenario_blockers (c : TradeCandidate) : res (list string) :=
  let invalidation := match scenario_invalidation c with Some s => _metadata_decimal (MStr s) | None => None end in
  let buy := bool_decide (cd_action c = BUY) in
  economics ← _candidate_economics_blockers c;
  mret (block_if (negb (bool_decide (scenario_state c = Some "CONFIRMED") && String.eqb (entry_state c) "ENTRY_VALID"))
          "SCENARIO_ENTRY_NOT_VALID"
     ++ block_if (match entry_expiry c with None => true | Some _ => false end) "ENTRY_EXPIRY_UNAVAILABLE"
     ++ (match invalidation with
         | None => ["SCENARIO_INVALIDATION_UNAVAILABLE_OR_INVALID"]
         | Some i =>
             if negb (if buy then (ZERO <? i)%D && (i <? zone_lower (entry_zone c))%D
                      else (zone_upper (entry_zone c) <? i)%D)
             then ["SCENARIO_INVALIDATION_UNAVAILABLE_OR_INVALID"]
             else block_if (if buy then (cd_stop_loss c <? i)%D || (invalidation_level c <? i)%D
                            else bool_decide (cd_action c = SELL)
                                 && ((i <? cd_stop_loss c)%D || (i <? invalidation_level c)%D))
                    "CANDIDATE_RISK_EXTENDS_BEYOND_SCENARIO"
         end)
     ++ economics).

(** [candidate_safety_blockers] *)
Definition candidate_safety_blockers (c : TradeCandidate) (s : MarketSnapshot) : res (list string) :=
  scenario ← match scenario_id c with Some _ => scenario_blockers c | None => mret [] end;
  mret (fromkeys (cd_blockers c
     ++ block_if (negb (String.eqb (cd_snapshot_id c) (ms_snapshot_id s)) || negb (String.eqb (cd_symbol c) (ms_symbol s))
                  || negb (dt_eqb (cd_timestamp c) (ms_created_at s))
                  || negb (String.eqb (cd_market_type c) (upper (ms_market_type s)))
                  || negb (str_in (cd_timeframe c) (ms_timeframes s))) "CANDIDATE_SNAPSHOT_IDENTITY_MISMATCH"
     ++ block_if (negb (bool_decide (cd_status c = CS_READY_FOR_RISK))) "CANDIDATE_NOT_READY_FOR_RISK"
     ++ block_if (match entry_expiry c with Some x => dt_leb x (ms_created_at s) | None => false end)
          "CANDIDATE_ENTRY_EXPIRED"
     ++ scenario)).

(** The execution data of a snapshot: the historical mapping when the key is
    present, else the derivatives snapshot. *)
Definition execution_data (s : MarketSnapshot) : option (list (string * meta)) :=
  match dict_get String.eqb "historical_virtual_execution" (ms_metadata s) with
  | None => Some (ms_derivatives s)
  | Some (MMap l) => Some l
  | Some _ => None
  end.

(** [_structural_sizing_distance] *)
Definition _structural_sizing_distance (c : TradeCandidate) (s : MarketSnapshot) : res (option dec) :=
  match execution_data s with
  | None => Ok None
  | Some raw =>
      match meta_get "structural_margin_context" raw with
      | MMap proof =>
          if negb (meta_is (meta_get "snapshot_id" proof) (ms_snapshot_id s)
                   && meta_is (meta_get "symbol" proof) (ms_symbol s)
                   && meta_is (meta_get "margin_mode" proof) "ISOLATED") then Ok None
          else
            let num k d := _metadata_decimal (meta_get k d) in
            match num "mark_price" raw, num "fee_ratio" raw, num "slippage_ratio" raw, num "half_spread_ratio" raw,
                  num "liquidation_fee_ratio" raw, num "adverse_funding_ratio" proof, num "mark_stress_ratio" proof with
            | Some mark, Some fee, Some slippage, Some spread, Some liquidation, Some funding, Some stress =>
                if (mark <=? ZERO)%D || (dmin_list fee [slippage; spread; liquidation; funding; stress] <? ZERO)%D
                then Ok None
                else
                  t ← dadd fee slippage;
                  t ← dadd t spread;
                  t ← dmul (lit 2 0) t;
                  t ← dadd t liquidation;
                  t ← dadd t funding;
                  let known := match round_trip_cost c with
                               | Some d => if is_zero d then ZERO else d | None => ZERO end in
                  entry ← entry_price c;
                  sl ← structural_margin_loss_per_unit entry (cd_stop_loss c) mark (dmax known t) stress;
                  mret (if (ZERO <? fst sl)%D then Some (snd sl) else None)
            | _, _, _, _, _, _, _ => Ok None
            end
      | _ => Ok None
      end
  end.

(** ** Evaluation *)

Context (config : RiskConfig).

Definition futures (c : TradeCandidate) : bool := String.eqb (cd_market_type c) "USD_M_FUTURES".
Definition spot (c : TradeCandidate) : bool := String.eqb (cd_market_type c) "SPOT".
Definition live_limits (c : TradeCandidate) (surface : ExecutionSurface) : bool :=
  bool_decide (surface = BINANCE_MARKET) && bool_decide (cd_promotion c = LIVE_ELIGIBLE).

(** The blockers of [evaluate] before any sizing. *)
Definition admission_blockers (c : TradeCandidate) (s : MarketSnapshot) (x : RiskContext) (surface : ExecutionSurface)
  : res (list string) :=
  safety ← candidate_safety_blockers c s;
  loss_hit ← match equity_usdt x with
             | None => mret false
             | Some e => limit ← dmul e (daily_loss_limit_ratio config); mret (limit <=? daily_loss_usdt x)%D
             end;
  price ← match ms_latest_price s with
          | None => mret ["LATEST_PRICE_INVALID"]
          | Some p =>
              if (p <=? ZERO)%D then mret ["LATEST_PRICE_INVALID"]
              else match ms_spread s with
                   | None => mret ["SPREAD_EXCEEDS_LIMIT"]
                   | Some sp => q ← ddiv sp p;
                                mret (block_if (maximum_spread_ratio config <? q)%D "SPREAD_EXCEEDS_LIMIT")
                   end
          end;
  mret (safety
    ++ block_if (bool_decide (surface = BINANCE_MARKET)
                 && negb (bool_decide (cd_promotion c = PAPER_APPROVED) || bool_decide (cd_promotion c = LIVE_ELIGIBLE)))
         "STRATEGY_NOT_PROMOTED"
    ++ block_if (match equity_usdt x with None => true | Some _ => false end) "EQUITY_UNKNOWN"
    ++ block_if (cooldown_active x) "STOP_LOSS_COOLDOWN_ACTIVE"
    ++ block_if (repeated_loss_limit config <=? consecutive_losses x) "REPEATED_LOSS_CIRCUIT_BREAKER"
    ++ block_if loss_hit "DAILY_LOSS_LIMIT_REACHED"
    ++ block_if (maximum_slippage_ratio config <? estimated_slippage_ratio x)%D "SLIPPAGE_EXCEEDS_LIMIT"
    ++ price
    ++ block_if (risk_reward c <? minimum_risk_reward config)%D "RISK_REWARD_BELOW_MINIMUM"
    ++ block_if (futures c && match net_risk_reward c with None => true | Some _ => false end)
         "FUTURES_NET_RISK_REWARD_UNAVAILABLE"
    ++ block_if (match net_risk_reward c with Some n => (n <? minimum_risk_reward config)%D | None => false end)
         "NET_RISK_REWARD_BELOW_MINIMUM"
    ++ block_if (maximum_positions (virtual_market config) <=? open_position_count x) "MAX_OPEN_POSITIONS_EXCEEDED").

(** The stop distance the size is computed from, and its blockers. *)
Definition stop_distance (c : TradeCandidate) (s : MarketSnapshot) : res (dec * list string) :=
  entry ← entry_price c;
  distance ← candidate_risk_distance c;
  db ← (if futures c && str_in "STRUCTURAL_PLAN_V2" (evidence c) then
          stressed ← _structural_sizing_distance c s;
          match stressed with
          | None => mret (ZERO, ["STRUCTURAL_RISK_SIZING_EVIDENCE_UNAVAILABLE"])
          | Some d =>
              let distance := dmax distance d in
              gap ← abs_diff entry (cd_stop_loss c);
              reserve ← dsub distance gap;
              target ← first_target c;
              gain ← abs_diff target entry;
              reward ← dsub gain reserve;
              q ← ddiv reward distance;
              mret (distance, block_if (q <? minimum_risk_reward config)%D "STRESSED_NET_RISK_REWARD_BELOW_MINIMUM")
          end
        else mret (distance, []));
  mret (fst db, snd db ++ block_if (fst db <=? ZERO)%D "STOP_DISTANCE_INVALID").

(** Quantity, size and risk of a candidate with known equity and stop. *)
Definition sized (c : TradeCandidate) (x : RiskContext) (f : SymbolFilters) (surface : ExecutionSurface)
  (equity entry distance : dec) : res (dec * dec * dec) :=
  risk_amount ← dmul equity (risk_per_trade_ratio (virtual_market config));
  quantity ← ddiv risk_amount distance;
  size ← dmul quantity entry;
  room ← dsub (max_open_position_size_usdt config) (current_exposure_usdt x);
  let available := dmax ZERO room in
  let cap := if live_limits c surface then dmin (max_trade_usdt config) available else available in
  qs ← (if (cap <? size)%D && (ZERO <? entry)%D then q ← ddiv cap entry; mret (q, cap) else mret (quantity, size));
  let '(quantity, size) := qs in
  quantity ← match inventory_quantity x with
             | Some inv =>
                 if bool_decide (cd_action c = SELL) && spot c then
                   let q := dmin quantity inv in _ ← dmul q entry; mret q
                 else mret quantity
             | None => mret quantity
             end;
  quantity ← lot_round_down (lot_size f) quantity;
  size ← dmul quantity entry;
  risk_amount ← dmul quantity distance;
  mret (quantity, size, risk_amount).

(** The blockers of a sized position. *)
Definition size_blockers (x : RiskContext) (f : SymbolFilters) (equity entry : dec) (sizes : dec * dec * dec)
  : res (list string) :=
  let '(quantity, size, risk_amount) := sizes in
  open_risk ← dadd (open_risk_usdt x) risk_amount;
  risk_cap ← dmul equity (maximum_open_risk_ratio (virtual_market config));
  filters ← validate_order f entry quantity;
  exposure ← dadd size (current_exposure_usdt x);
  allocation ← dmul equity (max_inventory_allocation_ratio config);
  mret (block_if (risk_cap <? open_risk)%D "MAX_OPEN_RISK_EXCEEDED"
     ++ filters
     ++ block_if (quantity <=? ZERO)%D "ROUNDED_QUANTITY_IS_ZERO"
     ++ block_if (allocation <? exposure)%D "MAX_INVENTORY_ALLOCATION_EXCEEDED").

(** [RiskEngine.evaluate] *)
Definition evaluate (c : TradeCandidate) (s : MarketSnapshot) (x : RiskContext) (f : SymbolFilters)
  (surface : ExecutionSurface) : res RiskAssessment :=
  admission ← admission_blockers c s x surface;
  db ← stop_distance c s;
  let '(distance, stop_blockers) := db in
  let inventory := block_if (spot c && bool_decide (cd_action c = SELL)
                             && match inventory_quantity x with None => true | Some _ => false end)
                     "INVENTORY_UNKNOWN_FOR_SPOT_SELL" in
  sb ← match equity_usdt x with
       | Some equity =>
           if (ZERO <? distance)%D then
             entry ← entry_price c;
             sizes ← sized c x f surface equity entry distance;
             bl ← size_blockers x f equity entry sizes;
             mret (sizes, bl)
           else mret ((ZERO, ZERO, ZERO), [])
       | None => mret ((ZERO, ZERO, ZERO), [])
       end;
  let '((quantity, size, risk_amount), bl) := sb in
  let unique := fromkeys (admission ++ stop_blockers ++ inventory ++ bl) in
  new_assessment (mk_assessment (candidate_id c) (is_nil unique) size quantity risk_amount unique (scenario_id c)).

(** [RiskEngine.evaluate_many] *)
Definition evaluate_many (cs : list TradeCandidate) (s : MarketSnapshot) (x : RiskContext) (f : SymbolFilters)
  (limit : Z) (surface : ExecutionSurface) : res (list RiskAssessment) :=
  raise_if (negb ((1 <=? limit) && (limit <=? 5))) (ValueError "risk candidate limit must be between one and five");;
  mapM (fun c => evaluate c s x f surface) (firstn (Z.to_nat limit) cs).

(** [RiskAssessment.from_agent_result]: what a result's metadata restores. *)
Definition from_agent_result (agent : string) (metadata : list (string * meta)) (blockers : list string)
  : option RiskAssessment :=
  if negb (String.eqb agent "risk") then None
  else
    match meta_get "candidate_id" metadata with
    | MStr id =>
        if blank id then None
        else
          let approved := match meta_get "approved" metadata with MBool true => true | _ => false end in
          let scenario := match meta_get "scenario_id" metadata with MStr s => Some s | _ => None end in
          size ← _metadata_decimal (meta_get "size_usdt" metadata);
          quantity ← _metadata_decimal (meta_get "quantity" metadata);
          risk_amount ← _metadata_decimal (meta_get "risk_amount_usdt" metadata);
          match new_assessment (mk_assessment id approved size quantity risk_amount blockers scenario) with
          | Ok a => Some a
          | Raise _ => None
          end
    | _ => None
    end.
End Engine.

(** ** Properties *)

(** A candidate that is fit for sizing: its own state, its binding to the
    snapshot, and every limit that does not depend on the size. *)
Record admissible (fr : float -> string) (config : RiskConfig) (c : TradeCandidate) (s : MarketSnapshot)
  (x : RiskContext) (surface : ExecutionSurface) (equity : dec) : Prop := mk_admissible {
  adm_ready : cd_status c = CS_READY_FOR_RISK /\ cd_blockers c = [];
  adm_same_snapshot : cd_snapshot_id c = ms_snapshot_id s /\ cd_symbol c = ms_symbol s
    /\ instant (cd_timestamp c) = instant (ms_created_at s) /\ cd_market_type c = upper (ms_market_type s)
    /\ In (cd_timeframe c) (ms_timeframes s);
  adm_not_expired : forall e, entry_expiry c = Some e -> instant (ms_created_at s) < instant e;
  adm_scenario : forall id, scenario_id c = Some id -> scenario_blockers fr c = Ok [];
  adm_promoted : surface = BINANCE_MARKET -> cd_promotion c = PAPER_APPROVED \/ cd_promotion c = LIVE_ELIGIBLE;
  adm_equity : equity_usdt x = Some equity;
  adm_calm : cooldown_active x = false /\ consecutive_losses x < repeated_loss_limit config
    /\ open_position_count x < maximum_positions (virtual_market config);
  adm_daily_loss : exists limit, dmul equity (daily_loss_limit_ratio config) = Ok limit
    /\ (dval (daily_loss_usdt x) < dval limit)%Q;
  adm_slippage : (dval (estimated_slippage_ratio x) <= dval (maximum_slippage_ratio config))%Q;
  adm_spread : exists price spread ratio, ms_latest_price s = Some price /\ (0 < dval price)%Q
    /\ ms_spread s = Some spread /\ ddiv spread price = Ok ratio /\ (dval ratio <= dval (maximum_spread_ratio config))%Q;
  adm_reward : (dval (minimum_risk_reward config) <= dval (risk_reward c))%Q
    /\ (cd_market_type c = "USD_M_FUTURES" -> net_risk_reward c <> None)
    /\ forall n, net_risk_reward c = Some n -> (dval (minimum_risk_reward config) <= dval n)%Q
}.

Lemma not_None {A} (o : option A) : (match o with None => true | Some _ => false end) = false <-> exists a, o = Some a.
Proof. destruct o; naive_solver. Qed.

Lemma option_test {A} (o : option A) (p : A -> bool) :
  (match o with Some a => p a | None => false end) = false <-> forall a, o = Some a -> p a = false.
Proof. destruct o; naive_solver. Qed.

Lemma negb_bool_decide (P : Prop) `{Decision P} : negb (bool_decide P) = false <-> P.
Proof. rewrite negb_false_iff. apply bool_decide_eq_true. Qed.

Lemma dleb_false_lt a b : (a <=? b)%D = false <-> (dval b < dval a)%Q.
Proof. apply dleb_false. Qed.

(** The price part of the admission. *)
Lemma price_exact config s bl :
  match ms_latest_price s with
  | None => mret ["LATEST_PRICE_INVALID"]
  | Some p =>
      if (p <=? ZERO)%D then mret ["LATEST_PRICE_INVALID"]
      else match ms_spread s with
           | None => mret ["SPREAD_EXCEEDS_LIMIT"]
           | Some sp => q ← ddiv sp p;
                        mret (block_if (maximum_spread_ratio config <? q)%D "SPREAD_EXCEEDS_LIMIT")
           end
  end = Ok bl ->
  bl = [] <-> exists price spread ratio, ms_latest_price s = Some price /\ (0 < dval price)%Q
    /\ ms_spread s = Some spread /\ ddiv spread price = Ok ratio /\ (dval ratio <= dval (maximum_spread_ratio config))%Q.
Proof.
  destruct (ms_latest_price s) as [p|]; [|intros H; apply mret_Ok in H as <-; naive_solver].
  destruct (p <=? ZERO)%D eqn:Ep; [intros H; apply mret_Ok in H as <-|].
  { split; [done|]. intros (? & ? & ? & [= <-] & Hp & _). apply dleb_spec in Ep. rewrite dval_ZERO in Ep. lra. }
  apply dleb_false in Ep. rewrite dval_ZERO in Ep.
  destruct (ms_spread s) as [sp|]; [|intros H; apply mret_Ok in H as <-; naive_solver].
  intros H. apply bind_Ok in H as (q & Hq & H). apply mret_Ok in H as <-. rewrite block_if_nil, dltb_false.
  split; [naive_solver|]. intros (? & ? & ? & [= <-] & _ & [= <-] & Hq' & Hle). congruence.
Qed.

(** No safety blocker: the candidate is ready, belongs to the snapshot, has
    not expired and its scenario, if any, is clean. *)
Lemma safety_exact fr c s bl : candidate_safety_blockers fr c s = Ok bl ->
  bl = [] <->
    (cd_status c = CS_READY_FOR_RISK /\ cd_blockers c = [])
    /\ (cd_snapshot_id c = ms_snapshot_id s /\ cd_symbol c = ms_symbol s
        /\ instant (cd_timestamp c) = instant (ms_created_at s) /\ cd_market_type c = upper (ms_market_type s)
        /\ In (cd_timeframe c) (ms_timeframes s))
    /\ (forall e, entry_expiry c = Some e -> instant (ms_created_at s) < instant e)
    /\ (forall id, scenario_id c = Some id -> scenario_blockers fr c = Ok []).
Proof.
  unfold candidate_safety_blockers. intros H. apply bind_Ok in H as (sc & Hs & H). apply mret_Ok in H. subst bl.
  rewrite fromkeys_nil, !app_nil_iff, !block_if_nil, negb_bool_decide, !orb_false_iff, !negb_false_iff, !String.eqb_eq,
    str_in_In, option_test.
  unfold dt_eqb, dt_leb. rewrite Z.eqb_eq. setoid_rewrite Z.leb_gt.
  destruct (scenario_id c) as [id|].
  - rewrite Hs. split; [intros (A & ((((? & ?) & ?) & ?) & ?) & ? & ? & ->)|intros ((? & ?) & (? & ? & ? & ? & ?) & ? & Hsc)];
      repeat split; try done.
    specialize (Hsc id eq_refl). congruence.
  - apply mret_Ok in Hs as <-. naive_solver.
Qed.

(** Admission without blockers is [admissible]. *)
Lemma admission_exact fr config c s x surface equity bl :
  equity_usdt x = Some equity -> admission_blockers fr config c s x surface = Ok bl ->
  bl = [] <-> admissible fr config c s x surface equity.
Proof.
  intros Heq H. unfold admission_blockers in H. rewrite Heq in H.
  apply bind_Ok in H as (safety & Hs & H). apply bind_Ok in H as (hit & Hh & H).
  apply bind_Ok in H as (price & Hp & H). apply mret_Ok in H. subst bl.
  apply safety_exact in Hs. apply bind_Ok in Hh as (limit & Hl & Hh). apply mret_Ok in Hh. subst hit.
  rewrite !app_nil_iff, !block_if_nil, Hs, (price_exact _ _ _ Hp). unfold futures.
  rewrite !andb_false_iff, negb_false_iff, orb_true_iff, not_None, option_test, String.eqb_neq.
  rewrite dleb_false, !dltb_false, !Z.leb_gt, !bool_decide_eq_true, bool_decide_eq_false.
  setoid_rewrite dltb_false. split.
  - intros (A & B & _ & C & D & E & F & G & I & J & K & L). destruct A as (A1 & A2 & A3 & A4).
    split; try done.
    + intros ->. by destruct B.
    + by exists limit.
    + split; [done|]. split; [|done]. intros Hm. destruct J as [J|(n & J)]; [done|]. by rewrite J.
  - intros [R S T U V W (X1 & X2 & X3) (l & Y1 & Y2) Z0 Z1 (Z2 & Z3 & Z4)]. repeat (split; [done|]).
    assert (l = limit) as -> by congruence.
    split; [destruct surface; [right; by apply V|by left]|].
    repeat (split; [done|]). split; [|done].
    destruct (String.eqb_spec (cd_market_type c) "USD_M_FUTURES") as [Hm|Hm]; [right|by left].
    specialize (Z3 Hm). destruct (net_risk_reward c); [eauto|done].
Qed.

(** A sized position within every limit on the size that the engine enforces:
    the open risk, the allocation and the exchange's filters, and not
    [max_risk_per_trade], which no code reads. *)
Record within_limits (config : RiskConfig) (x : RiskContext) (f : SymbolFilters) (equity entry : dec)
  (quantity size risk : dec) : Prop := mk_within {
  lim_quantity : (0 < dval quantity)%Q;
  lim_open_risk : exists total cap, dadd (open_risk_usdt x) risk = Ok total
    /\ dmul equity (maximum_open_risk_ratio (virtual_market config)) = Ok cap /\ (dval total <= dval cap)%Q;
  lim_allocation : exists total cap, dadd size (current_exposure_usdt x) = Ok total
    /\ dmul equity (max_inventory_allocation_ratio config) = Ok cap /\ (dval total <= dval cap)%Q;
  lim_filters : validate_order f entry quantity = Ok []
}.

Lemma size_blockers_exact config x f equity entry quantity size risk bl :
  size_blockers config x f equity entry (quantity, size, risk) = Ok bl ->
  bl = [] <-> within_limits config x f equity entry quantity size risk.
Proof.
  unfold size_blockers. intros H.
  apply bind_Ok in H as (total & Ht & H). apply bind_Ok in H as (cap & Hc & H).
  apply bind_Ok in H as (fb & Hf & H). apply bind_Ok in H as (expo & He & H).
  apply bind_Ok in H as (alloc & Ha & H). apply mret_Ok in H as <-.
  rewrite !app_nil_iff, !block_if_nil, !dltb_false, dleb_false, dval_ZERO. split.
  - intros (A & -> & B & C). split; [done| | |done]; [by exists total, cap|by exists expo, alloc].
  - intros [B (t & k & Ht' & Hk & A) (t2 & k2 & Ht2 & Hk2 & C) F].
    assert (fb = [] /\ t = total /\ k = cap /\ t2 = expo /\ k2 = alloc) as (-> & -> & -> & -> & ->)
      by (repeat split; congruence). done.
Qed.

(** The quantity that [sized] rounds, and what it makes of it. *)
Lemma sized_parts config c x f surface equity entry distance quantity size risk :
  sized config c x f surface equity entry distance = Ok (quantity, size, risk) ->
  exists q0, lot_round_down (lot_size f) q0 = Ok quantity /\ dmul quantity entry = Ok size
    /\ dmul quantity distance = Ok risk
    /\ (cd_action c = SELL -> cd_market_type c = "SPOT" -> forall inv, inventory_quantity x = Some inv ->
        exists q, q0 = dmin q inv
          /\ exists a b, ddiv a b = Ok q).
Proof.
  unfold sized. intros H.
  apply bind_Ok in H as (risk0 & _ & H). apply bind_Ok in H as (q1 & Hq1 & H). apply bind_Ok in H as (s1 & _ & H).
  apply bind_Ok in H as (room & _ & H). cbv zeta in H. apply bind_Ok in H as ([q2 s2] & Hq2 & H).
  apply bind_Ok in H as (q3 & Hq3 & H). apply bind_Ok in H as (q4 & Hq4 & H). apply bind_Ok in H as (s4 & Hs4 & H).
  apply bind_Ok in H as (r4 & Hr4 & H). apply mret_Ok in H. simplify_eq. exists q3. repeat (split; [done|]).
  intros HS HM inv Hinv. rewrite Hinv in Hq3. unfold spot in Hq3.
  rewrite bool_decide_eq_true_2, HM in Hq3 by done. cbn [andb String.eqb Ascii.eqb Bool.eqb] in Hq3.
  apply bind_Ok in Hq3 as (u & _ & Hq3). apply mret_Ok in Hq3 as <-. exists q2. split; [done|].
  destruct (_ && _) eqn:E in Hq2.
  - apply bind_Ok in Hq2 as (q & Hq & Hq2). apply mret_Ok in Hq2. simplify_eq. eauto.
  - apply mret_Ok in Hq2. simplify_eq. eauto.
Qed.

(** What [evaluate] returns, branch by branch. *)
Lemma evaluate_parts fr config c s x f surface a : evaluate fr config c s x f surface = Ok a ->
  exists adm distance sb, admission_blockers fr config c s x surface = Ok adm
    /\ stop_distance fr config c s = Ok (distance, sb)
    /\ ra_candidate_id a = candidate_id c /\ ra_scenario_id a = scenario_id c
    /\ ra_approved a = is_nil (ra_blockers a)
    /\ let no_inventory := block_if (spot c && bool_decide (cd_action c = SELL)
                             && match inventory_quantity x with None => true | Some _ => false end)
                             "INVENTORY_UNKNOWN_FOR_SPOT_SELL" in
       ((equity_usdt x = None \/ (dval distance <= 0)%Q)
        /\ ra_quantity a = ZERO /\ ra_size_usdt a = ZERO /\ ra_risk_amount a = ZERO
        /\ ra_blockers a = fromkeys (adm ++ sb ++ no_inventory ++ [])
        \/ exists equity entry bl, equity_usdt x = Some equity /\ (0 < dval distance)%Q /\ entry_price c = Ok entry
           /\ sized config c x f surface equity entry distance = Ok (ra_quantity a, ra_size_usdt a, ra_risk_amount a)
           /\ size_blockers config x f equity entry (ra_quantity a, ra_size_usdt a, ra_risk_amount a) = Ok bl
           /\ ra_blockers a = fromkeys (adm ++ sb ++ no_inventory ++ bl)).
Proof.
  unfold evaluate. intros H. apply bind_Ok in H as (adm & Hadm & H). apply bind_Ok in H as ([distance sb] & Hd & H).
  apply bind_Ok in H as ([[[q z] r] bl] & Hs & H). cbv zeta in H.
  assert (a = mk_assessment (candidate_id c) (is_nil (ra_blockers a)) z q r (ra_blockers a) (scenario_id c)
    /\ ra_blockers a = fromkeys (adm ++ sb ++ block_if (spot c && bool_decide (cd_action c = SELL)
                             && match inventory_quantity x with None => true | Some _ => false end)
                             "INVENTORY_UNKNOWN_FOR_SPOT_SELL" ++ bl)) as (Ea & Eb).
  { unfold new_assessment in H. do 5 (apply bind_Ok in H as (? & _ & H)). apply mret_Ok in H. subst a. done. }
  clear H. exists adm, distance, sb. rewrite Ea. cbn [ra_candidate_id ra_approved ra_size_usdt ra_quantity
    ra_risk_amount ra_blockers ra_scenario_id]. repeat (split; [done|]). cbv zeta. rewrite Eb.
  destruct (equity_usdt x) as [equity|].
  2:{ apply mret_Ok in Hs. simplify_eq. left. split; [by left|done]. }
  destruct (ZERO <? distance)%D eqn:Ed.
  - right. apply dltb_spec in Ed. rewrite dval_ZERO in Ed. apply bind_Ok in Hs as (entry & He & Hs).
    apply bind_Ok in Hs as ([[q0 z0] r0] & Hz & Hs). apply bind_Ok in Hs as (bl0 & Hb & Hs).
    apply mret_Ok in Hs. simplify_eq. exists equity, entry, bl. done.
  - left. apply dltb_false in Ed. rewrite dval_ZERO in Ed. apply mret_Ok in Hs. simplify_eq. split; [by right|done].
Qed.

(** C39: approval is exact.  An assessment is approved if and only if the
    candidate is [admissible], its stop distance is positive and unblocked, a
    Spot sale has known inventory, and the position the engine sized is within
    the open-risk, allocation and exchange limits ([within_limits], which are
    all the limits on the size that the code enforces); a blocker is reported in
    every other case.  [max_risk_per_trade] is not among them: no code reads it,
    and [max_risk_per_trade_exceeded] shows an approval at five times it. *)
Theorem risk_approval_exact fr config c s x f surface a : evaluate fr config c s x f surface = Ok a ->
  (ra_approved a = true <-> ra_blockers a = [])
  /\ (ra_approved a = true <->
      exists equity entry distance, admissible fr config c s x surface equity
        /\ entry_price c = Ok entry /\ stop_distance fr config c s = Ok (distance, []) /\ (0 < dval distance)%Q
        /\ (cd_market_type c = "SPOT" -> cd_action c = SELL -> inventory_quantity x <> None)
        /\ sized config c x f surface equity entry distance = Ok (ra_quantity a, ra_size_usdt a, ra_risk_amount a)
        /\ within_limits config x f equity entry (ra_quantity a) (ra_size_usdt a) (ra_risk_amount a)).
Proof.
  intros H. apply evaluate_parts in H as (adm & distance & sb & Ha & Hd & _ & _ & Happ & H). cbv zeta in H.
  rewrite Happ, is_nil_true. split; [done|].
  destruct H as [(Hno & _ & _ & _ & ->)|(equity & entry & bl & He & Hpos & Hentry & Hsized & Hbl & ->)];
    rewrite fromkeys_nil, !app_nil_iff, block_if_nil.
  - split.
    + intros (-> & -> & _). destruct Hno as [Hno|Hno].
      * exfalso. unfold admission_blockers in Ha. rewrite Hno in Ha.
        apply bind_Ok in Ha as (? & _ & Ha). apply bind_Ok in Ha as (? & _ & Ha). apply bind_Ok in Ha as (? & _ & Ha).
        apply mret_Ok in Ha. rewrite !app_nil_iff, !block_if_nil in Ha. naive_solver.
      * exfalso. unfold stop_distance in Hd. apply bind_Ok in Hd as (? & _ & Hd). apply bind_Ok in Hd as (? & _ & Hd).
        apply bind_Ok in Hd as (db & _ & Hd). apply mret_Ok in Hd. simplify_eq.
        apply app_nil_iff in H0 as (_ & Hb). apply block_if_nil in Hb. apply dleb_false in Hb.
        rewrite dval_ZERO in Hb. lra.
    + intros (equity & entry & d & Hadm & _ & Hd' & Hpos & _). rewrite Hd in Hd'. simplify_eq.
      destruct Hno as [Hno|Hno]; [|lra]. by rewrite (adm_equity _ _ _ _ _ _ _ Hadm) in Hno.
  - rewrite (admission_exact _ _ _ _ _ _ _ _ He Ha), (size_blockers_exact _ _ _ _ _ _ _ _ _ Hbl).
    unfold spot. rewrite !andb_false_iff, String.eqb_neq, bool_decide_eq_false, not_None. split.
    + intros (A & -> & B & C). exists equity, entry, distance. repeat (split; [done|]). split; [|done].
      intros HM HS. destruct B as [[B|B]|(i & ->)]; done.
    + intros (e & en & d & A & E1 & E2 & _ & B & _ & C). rewrite Hd in E2. simplify_eq.
      pose proof (adm_equity _ _ _ _ _ _ _ A). simplify_eq. assert (en = entry) as -> by congruence. repeat (split; [done|]). split; [|done].
      destruct (decide (cd_market_type c = "SPOT")) as [HM|HM]; [|by left; left].
      destruct (decide (cd_action c = SELL)) as [HS|HS]; [|by left; right].
      right. specialize (B HM HS). destruct (inventory_quantity x); [eauto|done].
Qed.

(** A Spot sale never exceeds the inventory.  Whatever the blockers, the
    quantity computed for a sale on the Spot market is at most the known
    inventory, for an inventory of at most 28 digits and a step of ten to a
    power of at most zero. *)
Theorem spot_sell_within_inventory fr config c s x f surface a inv j :
  evaluate fr config c s x f surface = Ok a ->
  cd_action c = SELL -> cd_market_type c = "SPOT" -> inventory_quantity x = Some inv ->
  plain inv -> repr inv -> dneg (step_size (lot_size f)) = false -> 0 <= j ->
  dcoef (step_size (lot_size f)) = pow10 j -> Etiny <= dexp (step_size (lot_size f)) ->
  j + dexp (step_size (lot_size f)) <= 0 ->
  (dval (ra_quantity a) <= dval inv)%Q.
Proof.
  intros H HS HM Hinv Pinv Rinv Sn Hj Hc He Hk.
  assert (0 <= dval inv)%Q as Hpos by (apply dval_nonneg, Pinv).
  apply evaluate_parts in H as (adm & distance & sb & _ & _ & _ & _ & _ & H). cbv zeta in H.
  destruct H as [(_ & -> & _)|(equity & entry & bl & _ & _ & _ & Hz & _)]; [by rewrite dval_ZERO|].
  apply sized_parts in Hz as (q0 & Hq & _ & _ & Hmin). destruct (Hmin HS HM inv Hinv) as (q & -> & a0 & b0 & Hdiv).
  destruct (dmin_spec q inv) as (_ & Hle & _).
  eapply round_down_le; [|exact Sn|exact Hj|exact Hc|exact He|exact Hk|exact Hq|exact Hle|exact Hpos].
  unfold dmin. destruct (inv <? q)%D; [done|]. eapply faithful_repr, ddiv_faithful, Hdiv.
Qed.

(** ** Examples *)

Definition ex_candidate (action : Action) (stop target : Z) : TradeCandidate :=
  mk_candidate "c-1" "s-1" (utc 0) "BTCUSDT" "1h" action "BREAKOUT" CS_READY_FOR_RISK
    (mk_zone (lit 99 0) (lit 101 0)) (lit stop 0) (lit stop 0) [lit target 0] (lit stop 0) (lit 2 0) (lit 3 0)
    (float_of 80 0) (float_of 0 0) None PAPER_APPROVED "REDUCE" [] [] "spot" None None None None None None None None
    "PROBABILITY_NOT_CALIBRATED" "CLOSE_ABOVE" "ENTRY_VALID" (Some (utc (seconds 60))) [] [] [] None [] [] [] no_evidence.
Definition ex_buy : TradeCandidate := Eval vm_compute in ok_or (ex_candidate BUY 90 130) (new_candidate (ex_candidate BUY 90 130)).
Definition ex_sell : TradeCandidate := Eval vm_compute in ok_or (ex_candidate SELL 110 70) (new_candidate (ex_candidate SELL 110 70)).
Definition ex_snapshot : MarketSnapshot :=
  mk_snapshot "s-1" (utc 0) "SPOT" "BTCUSDT" ["1h"] (Some (lit 100 0)) (Some (lit 1 (-2))) [] [].
Definition ex_context (inv : option dec) : RiskContext :=
  mk_context (Some (lit 10000 0)) ZERO ZERO 0 inv ZERO ZERO 0 false.
(** The trade risk is five percent while [max_risk_per_trade] is one percent. *)
Definition ex_config : RiskConfig :=
  mk_risk_config (lit 1 (-2)) (lit 100 0) (lit 3 (-2)) (lit 5000 0) (lit 9 (-1)) (lit 2 0) (lit 5 (-3)) (lit 3 (-3)) 3
    (mk_sizing_policy (lit 5 (-2)) (lit 1 (-1)) 4).

Definition ex_repr (_ : float) : string := "0.5".

Example ex_configs : is_ok (new_risk_config default_config) && is_ok (new_risk_config ex_config)
  && is_ok (new_sizing_policy (virtual_market ex_config)) && is_ok (new_context (ex_context None)) = true.
Proof. vm_compute. reflexivity. Qed.

(** The limit the configuration names is not enforced: [max_risk_per_trade] is
    validated and never read, so an approved assessment can risk a multiple of
    it. *)
Lemma max_risk_per_trade_unread fr config r c s x f surface :
  evaluate fr (mk_risk_config r (max_trade_usdt config) (daily_loss_limit_ratio config)
                 (max_open_position_size_usdt config) (max_inventory_allocation_ratio config)
                 (minimum_risk_reward config) (maximum_spread_ratio config) (maximum_slippage_ratio config)
                 (repeated_loss_limit config) (virtual_market config)) c s x f surface
  = evaluate fr config c s x f surface.
Proof. reflexivity. Qed.

(** An approved assessment can risk five times [max_risk_per_trade], the
    limit its own accepted configuration sets on the risk of a trade. *)
Theorem max_risk_per_trade_exceeded :
  exists config c s x f a equity allowed, new_risk_config config = Ok config
    /\ evaluate ex_repr config c s x f BINANCE_MARKET = Ok a /\ ra_approved a = true
    /\ equity_usdt x = Some equity /\ dmul equity (max_risk_per_trade config) = Ok allowed
    /\ (dval (ra_risk_amount a) == 5 * dval allowed)%Q.
Proof.
  exists ex_config, ex_buy, ex_snapshot, (ex_context None), ex_filters. do 3 eexists.
  split; [vm_compute; reflexivity|]. split; [vm_compute; reflexivity|]. split; [reflexivity|].
  split; [reflexivity|]. split; [vm_compute; reflexivity|]. vm_compute. reflexivity.
Qed.

Lemma risk_approval_exact_witness : exists a,
  evaluate ex_repr ex_config ex_buy ex_snapshot (ex_context None) ex_filters BINANCE_MARKET = Ok a
  /\ ra_approved a = true /\ ra_blockers a = [].
Proof.
  eexists. split; [vm_compute; reflexivity|]. split; [reflexivity|].
  edestruct (risk_approval_exact ex_repr ex_config ex_buy ex_snapshot (ex_context None) ex_filters BINANCE_MARKET) as [H _];
    [vm_compute; reflexivity|]. apply H. reflexivity.
Defined.

Lemma spot_sell_within_inventory_witness : exists a,
  evaluate ex_repr ex_config ex_sell ex_snapshot (ex_context (Some (lit 7 0))) ex_filters BINANCE_MARKET = Ok a
  /\ ra_approved a = true /\ (dval (ra_quantity a) <= 7)%Q.
Proof.
  eexists. split; [vm_compute; reflexivity|]. split; [reflexivity|].
  apply Qle_trans with (dval (lit 7 0)); [|vm_compute; discriminate].
  eapply (spot_sell_within_inventory ex_repr ex_config ex_sell ex_snapshot (ex_context (Some (lit 7 0))) ex_filters
            BINANCE_MARKET _ (lit 7 0) 3); try (vm_compute; reflexivity).
  - split; vm_compute; [done|discriminate].
  - split; vm_compute; discriminate.
  - vm_compute. discriminate.
  - vm_compute. discriminate.
  - vm_compute. discriminate.
Defined.
