(* ===== verification/Surface.v ===== *)
(** [domain/execution_authority.py] and [domain/execution_envelope.py]: the
    authority profile of each execution surface and the envelope derived from
    it.  The fields that keep their defaults in every construction of the code
    ([execution_allowed], [live_execution_allowed], the two statuses) are fields
    here too, since the constructors check them. *)
From S2P Require Import Prelude PyDecimal PyFloat PyText Domain Risk.
Local Open Scope bool_scope.

Inductive ExecutionAutomationMode : Type :=
| HUMAN_HAND_MANUAL_ONLY | BOUNDED_AUTONOMOUS_SIMULATION | BOUNDED_AUTO_PAPER_ALGO.
#[export] Instance automation_mode_eq_dec : EqDecision ExecutionAutomationMode.
Proof. solve_decision. Defined.

Record ExecutionAuthorityProfile : Type := mk_profile {
  authority_profile_id : string;
  execution_surface : ExecutionSurface;
  automation_mode : ExecutionAutomationMode;
  simulated_execution_allowed : bool;
  paper_execution_allowed : bool;
  auto_execution_allowed : bool;
  autonomous_learning_allowed : bool;
  bounded_self_improvement_allowed : bool;
  simulated_spot_allowed : bool;
  simulated_futures_allowed : bool;
  requires_manual_confirmation : bool;
  reason_codes : list string;
  execution_allowed : bool;
  live_execution_allowed : bool;
  promotion_status : string;
  live_eligibility_status : string
}.

(** [_require_unique_nonblank] *)
Definition _require_unique_nonblank (name : string) (values : list string) : res unit :=
  raise_if (negb (all_unique String.eqb values)) (ValueError (name ++ " must be unique"));;
  raise_if (existsb blank values) (ValueError (name ++ " cannot contain blanks")).

Definition is_virtual (s : ExecutionSurface) : bool := match s with VIRTUAL_MARKET => true | BINANCE_MARKET => false end.
Definition is_manual (m : ExecutionAutomationMode) : bool := match m with HUMAN_HAND_MANUAL_ONLY => true | _ => false end.

(** [ExecutionAuthorityProfile.__post_init__] *)
Definition new_profile (p : ExecutionAuthorityProfile) : res ExecutionAuthorityProfile :=
  raise_if (blank (authority_profile_id p)) (ValueError "execution authority profile identity is required");;
  raise_if (execution_allowed p || live_execution_allowed p)
    (ValueError "execution authority profile cannot authorize live use");;
  raise_if (negb (String.eqb (promotion_status p) "RESEARCH_ONLY"))
    (ValueError "execution authority profile must remain research only");;
  raise_if (negb (String.eqb (live_eligibility_status p) LIVE_ORDER_BLOCKED))
    (ValueError "execution authority profile must remain live blocked");;
  _require_unique_nonblank "execution authority reason codes" (reason_codes p);;
  raise_if (simulated_execution_allowed p && negb (paper_execution_allowed p))
    (ValueError "simulated execution requires the paper execution compatibility flag");;
  raise_if (auto_execution_allowed p && negb (simulated_execution_allowed p))
    (ValueError "auto simulation requires simulated execution allowance");;
  raise_if (bounded_self_improvement_allowed p && negb (autonomous_learning_allowed p))
    (ValueError "bounded self-improvement requires autonomous learning allowance");;
  raise_if ((simulated_spot_allowed p || simulated_futures_allowed p) && negb (simulated_execution_allowed p))
    (ValueError "simulated market coverage requires simulated execution allowance");;
  raise_if (is_manual (automation_mode p)
            && (auto_execution_allowed p || simulated_execution_allowed p || autonomous_learning_allowed p
                || bounded_self_improvement_allowed p || simulated_spot_allowed p || simulated_futures_allowed p
                || negb (requires_manual_confirmation p)))
    (ValueError "human-hand manual execution requires manual confirmation and no autonomous simulation");;
  raise_if (negb (is_manual (automation_mode p))
            && (negb (simulated_execution_allowed p) || negb (auto_execution_allowed p)
                || negb (autonomous_learning_allowed p) || negb (bounded_self_improvement_allowed p)
                || negb (simulated_spot_allowed p) || negb (simulated_futures_allowed p)
                || requires_manual_confirmation p))
    (ValueError "bounded autonomous simulation requires governed simulated execution, learning, and self-improvement without manual confirmation");;
  mret p.

Record ExecutionEnvelope : Type := mk_envelope {
  env_profile_id : string;
  env_surface : ExecutionSurface;
  env_mode : ExecutionAutomationMode;
  manual_confirmation_required : bool;
  virtual_simulation_allowed : bool;
  auto_simulation_allowed : bool;
  env_paper_allowed : bool;
  external_order_allowed : bool;
  live_order_allowed : bool;
  bounded_simulation_only : bool;
  env_reason_codes : list string
}.

(** [ExecutionEnvelope.__post_init__] *)
Definition new_execution_envelope (e : ExecutionEnvelope) : res ExecutionEnvelope :=
  raise_if (blank (env_profile_id e)) (ValueError "execution envelope identity is required");;
  _require_unique_nonblank "execution envelope reason codes" (env_reason_codes e);;
  raise_if (external_order_allowed e || live_order_allowed e)
    (ValueError "execution envelope cannot authorize external orders");;
  raise_if (virtual_simulation_allowed e && negb (env_paper_allowed e))
    (ValueError "virtual execution envelope requires paper execution compatibility");;
  raise_if (auto_simulation_allowed e && negb (virtual_simulation_allowed e))
    (ValueError "auto simulation requires virtual simulation allowance");;
  raise_if (negb (Bool.eqb (bounded_simulation_only e) (is_virtual (env_surface e))))
    (ValueError "bounded simulation flag must match the execution surface");;
  raise_if (negb (is_virtual (env_surface e)) && (negb (manual_confirmation_required e) || auto_simulation_allowed e))
    (ValueError "Binance execution envelope must remain manual and non-autonomous");;
  raise_if (is_virtual (env_surface e) && (manual_confirmation_required e || negb (auto_simulation_allowed e)))
    (ValueError "virtual execution envelope must remain autonomous and unconfirmed");;
  mret e.

(** [execution_envelope_for_profile], with the profile's derived properties. *)
Definition execution_envelope_for_profile (p : ExecutionAuthorityProfile) : res ExecutionEnvelope :=
  new_execution_envelope
    (mk_envelope (authority_profile_id p) (execution_surface p) (automation_mode p) (requires_manual_confirmation p)
       (simulated_execution_allowed p) (auto_execution_allowed p) (paper_execution_allowed p) (execution_allowed p)
       (live_execution_allowed p) (is_virtual (execution_surface p)) (reason_codes p)).

Definition BINANCE_MARKET_MANUAL_PROFILE : ExecutionAuthorityProfile :=
  mk_profile "BINANCE_MANUAL_ONLY_V1" BINANCE_MARKET HUMAN_HAND_MANUAL_ONLY false true false false false false false true
    ["BINANCE_MARKET"; "HUMAN_HAND_MANUAL_ONLY"; "AUTO_SIMULATION_DISABLED"; "LIVE_ORDER_BLOCKED"]
    false false "RESEARCH_ONLY" LIVE_ORDER_BLOCKED.
Definition VIRTUAL_MARKET_AUTO_PROFILE : ExecutionAuthorityProfile :=
  mk_profile "VIRTUAL_AUTONOMOUS_SIMULATION_V1" VIRTUAL_MARKET BOUNDED_AUTONOMOUS_SIMULATION
    true true true true true true true false
    ["VIRTUAL_MARKET"; "BOUNDED_AUTONOMOUS_SIMULATION"; "EXTERNAL_ORDER_BLOCKED"; "LIVE_ORDER_BLOCKED"]
    false false "RESEARCH_ONLY" LIVE_ORDER_BLOCKED.

(** [authority_profile_for_surface] *)
Definition authority_profile_for_surface (s : ExecutionSurface) : res ExecutionAuthorityProfile :=
  match s with
  | BINANCE_MARKET => new_profile BINANCE_MARKET_MANUAL_PROFILE
  | VIRTUAL_MARKET => new_profile VIRTUAL_MARKET_AUTO_PROFILE
  end.

(** [execution_envelope_for_surface] *)
Definition execution_envelope_for_surface (s : ExecutionSurface) : res ExecutionEnvelope :=
  p ← authority_profile_for_surface s; execution_envelope_for_profile p.

(** ** Properties *)

Lemma require_unique_any n m l u : _require_unique_nonblank n l = Ok u -> _require_unique_nonblank m l = Ok tt.
Proof.
  unfold _require_unique_nonblank. intros H. apply bind_Ok in H as (v & H1 & H2). apply raise_if_Ok in H1, H2.
  by rewrite H1, H2.
Qed.

(** An accepted profile has an envelope exactly when its surface and its
    mode belong together (Binance with manual mode, the virtual market with a
    bounded mode), and no envelope of any profile allows an external or a live
    order, or automation on the Binance surface. *)
Theorem envelope_grants_no_authority p : new_profile p = Ok p ->
  (is_ok (execution_envelope_for_profile p) = true <->
   (execution_surface p = BINANCE_MARKET <-> automation_mode p = HUMAN_HAND_MANUAL_ONLY))
  /\ forall e, execution_envelope_for_profile p = Ok e ->
     external_order_allowed e = false /\ live_order_allowed e = false
     /\ (env_surface e = BINANCE_MARKET -> manual_confirmation_required e = true /\ auto_simulation_allowed e = false).
Proof.
  unfold new_profile. intros H.
  repeat (let u := fresh in apply bind_Ok in H as (u & ?Hr & H)).
  clear H. repeat match goal with H : raise_if _ _ = Ok _ |- _ => apply raise_if_Ok in H end.
  match goal with H : _require_unique_nonblank _ _ = Ok _ |- _ =>
    apply (require_unique_any _ "execution envelope reason codes") in H as Hu end.
  unfold execution_envelope_for_profile, new_execution_envelope.
  cbn [env_profile_id env_surface env_mode manual_confirmation_required virtual_simulation_allowed auto_simulation_allowed
       env_paper_allowed external_order_allowed live_order_allowed bounded_simulation_only env_reason_codes].
  rewrite Hr, Hu, Hr0, Hr4, Hr5, eqb_reflx. cbn [raise_if negb]. rewrite !Ok_bind. clear -Hr8 Hr9 Hr0.
  apply orb_false_iff in Hr0 as (-> & ->).
  destruct (execution_surface p), (automation_mode p); unfold is_virtual; cbn in *;
    destruct (auto_execution_allowed p), (requires_manual_confirmation p); cbn in *;
    try (rewrite !orb_true_r in *; discriminate); try discriminate.
  all: split; [naive_solver|intros e He; first [discriminate He | apply mret_Ok in He; subst e; cbn; split; [done|split; [done|try done]]]].
Qed.

Lemma envelope_grants_no_authority_witness : exists e,
  new_profile BINANCE_MARKET_MANUAL_PROFILE = Ok BINANCE_MARKET_MANUAL_PROFILE
  /\ execution_envelope_for_surface BINANCE_MARKET = Ok e /\ external_order_allowed e = false
  /\ auto_simulation_allowed e = false.
Proof.
  eexists. split; [vm_compute; reflexivity|]. split; [vm_compute; reflexivity|].
  edestruct (envelope_grants_no_authority BINANCE_MARKET_MANUAL_PROFILE) as (_ & H); [vm_compute; reflexivity|].
  edestruct H as (A & _ & B); [vm_compute; reflexivity|]. split; [exact A|]. apply B. reflexivity.
Defined.
