(* ===== verification/Eligibility.v ===== *)
(** [domain/blocker_reduction.py] and [application/virtual_runtime_eligibility.py]:
    the ordered reduction of the blockers of every stage to root causes, and the
    decision whether a virtual simulation may proceed.

    Whether a blocker code is known to the governed registry is the callable the
    code is given, the parameter [is_known_blocker]. *)
From S2P Require Import Prelude Domain Risk Surface.
Local Open Scope Z_scope.
Local Open Scope bool_scope.

(** ** Blocker reduction *)

(** [_unique_sequence] *)
Definition _unique_sequence (groups : list (list string)) : list string :=
  fold_left (fun ordered item => if str_in item ordered then ordered else ordered ++ [item]) (concat groups) [].

Record VirtualBlockerReduction : Type := mk_reduction {
  analysis_blockers : list string; candidate_blockers : list string; risk_blockers : list string;
  validation_blockers : list string; dge_blockers : list string; portfolio_blockers : list string;
  feasibility_blockers : list string; authority_blockers : list string;
  root_cause_codes : list string; known_blockers : list string; unknown_blockers : list string; blocker_count : Z
}.

(** [VirtualBlockerReduction.has_unknown_classifications] *)
Definition has_unknown_classifications (r : VirtualBlockerReduction) : bool := negb (is_nil (unknown_blockers r)).

(** The stages, in their order. *)
Definition stage_groups (r : VirtualBlockerReduction) : list (list string) :=
  [analysis_blockers r; candidate_blockers r; risk_blockers r; validation_blockers r; dge_blockers r;
   portfolio_blockers r; feasibility_blockers r; authority_blockers r].
Definition named_groups (r : VirtualBlockerReduction) : list (string * list string) :=
  [("analysis blockers", analysis_blockers r); ("candidate blockers", candidate_blockers r);
   ("risk blockers", risk_blockers r); ("validation blockers", validation_blockers r); ("dge blockers", dge_blockers r);
   ("portfolio blockers", portfolio_blockers r); ("feasibility blockers", feasibility_blockers r);
   ("authority blockers", authority_blockers r); ("root cause codes", root_cause_codes r);
   ("known blockers", known_blockers r); ("unknown blockers", unknown_blockers r)].

Fixpoint require_groups (groups : list (string * list string)) : res unit :=
  match groups with
  | [] => mret tt
  | (name, values) :: rest => _require_unique_nonblank name values;; require_groups rest
  end.

(** [set(a) != set(b)] *)
Definition sets_differ (a b : list string) : bool :=
  negb (forallb (fun x => str_in x b) a && forallb (fun x => str_in x a) b).

(** [VirtualBlockerReduction.__post_init__] *)
Definition new_reduction (r : VirtualBlockerReduction) : res VirtualBlockerReduction :=
  require_groups (named_groups r);;
  raise_if (negb (bool_decide (root_cause_codes r = _unique_sequence (stage_groups r))))
    (ValueError "virtual blocker reduction root cause codes must preserve stage order");;
  raise_if (negb (blocker_count r =? Z.of_nat (length (root_cause_codes r))))
    (ValueError "virtual blocker reduction blocker count is inconsistent");;
  raise_if (sets_differ (known_blockers r ++ unknown_blockers r) (root_cause_codes r))
    (ValueError "virtual blocker reduction classifications must cover every root cause");;
  mret r.

(** The blockers of the stages before the authority. *)
Record stage_blockers : Type := mk_stages {
  sb_analysis : list string; sb_candidate : list string; sb_risk : list string; sb_validation : list string;
  sb_dge : list string; sb_portfolio : list string; sb_feasibility : list string
}.
Definition stages_of (b : stage_blockers) : list (list string) :=
  [sb_analysis b; sb_candidate b; sb_risk b; sb_validation b; sb_dge b; sb_portfolio b; sb_feasibility b].

Section Eligibility.
Context (is_known_blocker : string -> bool).

(** [reduce_virtual_blockers] *)
Definition reduce_virtual_blockers (b : stage_blockers) (authority : list string) : res VirtualBlockerReduction :=
  let root := _unique_sequence (stages_of b ++ [authority]) in
  let known := List.filter is_known_blocker root in
  let unknown := List.filter (fun code => negb (str_in code known)) root in
  new_reduction (mk_reduction (sb_analysis b) (sb_candidate b) (sb_risk b) (sb_validation b) (sb_dge b) (sb_portfolio b)
    (sb_feasibility b) authority root known unknown (Z.of_nat (length root))).

(** ** Eligibility *)

Inductive VirtualSimulationStatus : Type := ELIGIBLE | BLOCKED.
#[export] Instance VirtualSimulationStatus_eq_dec : EqDecision VirtualSimulationStatus.
Proof. solve_decision. Defined.

Record VirtualSimulationEligibility : Type := mk_eligibility {
  el_status : VirtualSimulationStatus;
  el_surface : ExecutionSurface;
  el_manual_confirmation : bool;
  el_virtual_allowed : bool;
  el_auto_allowed : bool;
  el_binance_allowed : bool;
  el_live_allowed : bool;
  el_reason_codes : list string;
  el_blockers : list string;
  el_reduction : option VirtualBlockerReduction;
  el_promotion : string;
  el_live_status : string
}.
(** [VirtualSimulationEligibility.eligible] *)
Definition eligible (e : VirtualSimulationEligibility) : bool := bool_decide (el_status e = ELIGIBLE).

(** [VirtualSimulationEligibility.__post_init__] *)
Definition new_eligibility (e : VirtualSimulationEligibility) : res VirtualSimulationEligibility :=
  _require_unique_nonblank "virtual simulation reason codes" (el_reason_codes e);;
  _require_unique_nonblank "virtual simulation blockers" (el_blockers e);;
  (if negb (is_nil (el_blockers e)) then
     match el_reduction e with
     | None => Raise (ValueError "blocked virtual simulation requires root-cause reduction")
     | Some r => raise_if (negb (bool_decide (root_cause_codes r = el_blockers e)))
                   (ValueError "blocked virtual simulation root-cause reduction is inconsistent")
     end
   else raise_if (match el_reduction e with Some _ => true | None => false end)
          (ValueError "eligible virtual simulation cannot carry root-cause reduction"));;
  raise_if (negb (String.eqb (el_live_status e) LIVE_ORDER_BLOCKED))
    (ValueError "virtual simulation eligibility must remain live blocked");;
  raise_if (el_binance_allowed e || el_live_allowed e)
    (ValueError "virtual simulation eligibility cannot authorize orders");;
  (if eligible e then
     raise_if (negb (is_virtual (el_surface e))) (ValueError "eligible virtual simulation must target VIRTUAL_MARKET");;
     raise_if (negb (el_virtual_allowed e) || negb (el_auto_allowed e))
       (ValueError "eligible virtual simulation requires autonomous simulation authority");;
     raise_if (el_manual_confirmation e)
       (ValueError "eligible virtual simulation cannot require manual confirmation");;
     raise_if (negb (is_nil (el_blockers e))) (ValueError "eligible virtual simulation cannot contain blockers")
   else raise_if (is_nil (el_blockers e)) (ValueError "blocked virtual simulation requires blockers"));;
  mret e.

(** The blockers that the surface's envelope gives. *)
Definition envelope_blockers (s : ExecutionSurface) (env : ExecutionEnvelope) : list string :=
  block_if (negb (is_virtual s)) "EXECUTION_SURFACE_NOT_VIRTUAL_MARKET"
  ++ block_if (negb (virtual_simulation_allowed env)) "VIRTUAL_SIMULATION_NOT_ALLOWED"
  ++ block_if (negb (auto_simulation_allowed env)) "AUTO_SIMULATION_NOT_ALLOWED"
  ++ block_if (external_order_allowed env) "BINANCE_ORDER_AUTHORITY_LEAK"
  ++ block_if (live_order_allowed env) "LIVE_ORDER_AUTHORITY_LEAK".

(** [evaluate_virtual_simulation_eligibility] *)
Definition evaluate_virtual_simulation_eligibility (s : ExecutionSurface) (b : stage_blockers)
  : res VirtualSimulationEligibility :=
  env ← execution_envelope_for_surface s;
  reduction ← reduce_virtual_blockers b (envelope_blockers s env);
  let unique := fromkeys (root_cause_codes reduction) in
  let status := if is_nil unique then ELIGIBLE else BLOCKED in
  let free := bool_decide (status = ELIGIBLE) in
  let reasons := if free then env_reason_codes env else fromkeys (env_reason_codes env ++ unique) in
  new_eligibility (mk_eligibility status s (manual_confirmation_required env) (virtual_simulation_allowed env && free)
    (auto_simulation_allowed env && free) false false reasons unique (if is_nil unique then None else Some reduction)
    "RESEARCH_ONLY" LIVE_ORDER_BLOCKED).
End Eligibility.

(** ** Properties *)

Lemma unique_sequence_from l : forall acc,
  fold_left (fun ordered item => if str_in item ordered then ordered else ordered ++ [item]) l acc = acc ++ dedup_from acc l.
Proof.
  assert (forall (l s t : list string), (forall x, In x s <-> In x t) -> dedup_from s l = dedup_from t l) as Hext.
  { clear l. intros l. induction l as [|x l IH]; intros s t Hst; [done|]. cbn.
    destruct (str_in x s) eqn:Es, (str_in x t) eqn:Et.
    - by apply IH.
    - apply str_in_In, Hst, str_in_In in Es. congruence.
    - apply str_in_In, Hst, str_in_In in Et. congruence.
    - f_equal. apply IH. cbn. intros y. by rewrite Hst. }
  induction l as [|x l IH]; intros acc; cbn [fold_left dedup_from]; [by rewrite app_nil_r|].
  destruct (str_in x acc) eqn:E; [apply IH|]. rewrite IH, <- app_assoc. cbn. do 2 f_equal. apply Hext.
  intros y. rewrite in_app_iff. cbn. tauto.
Qed.

(** The root causes are the blockers of all stages, in order, once each. *)
Lemma unique_sequence_fromkeys groups : _unique_sequence groups = fromkeys (concat groups).
Proof. apply unique_sequence_from. Qed.

Lemma NoDup_unique (l : list string) : List.NoDup l -> all_unique String.eqb l = true.
Proof.
  intros H. apply all_unique_spec. induction H as [|x l Hx H IH]; [done|]. split; [|done].
  intros y Hy. apply String.eqb_neq. by intros ->.
Qed.

Definition clean (l : list string) : Prop := all_unique String.eqb l = true /\ existsb blank l = false.

Lemma require_unique_clean name l : _require_unique_nonblank name l = Ok tt <-> clean l.
Proof.
  unfold _require_unique_nonblank, clean. destruct (all_unique _ l); cbn; [|naive_solver].
  destruct (existsb blank l); cbn; naive_solver.
Qed.

Lemma require_groups_clean groups : require_groups groups = Ok tt <-> Forall (fun g => clean g.2) groups.
Proof.
  induction groups as [|[name l] groups IH]; [by split|]. cbn [require_groups]. rewrite Forall_cons, <- IH. cbn [snd].
  rewrite <- (require_unique_clean name l). destruct (_require_unique_nonblank name l) as [[]|]; cbn; naive_solver.
Qed.

Lemma existsb_blank_incl l k : (forall x, In x l -> In x k) -> existsb blank k = false -> existsb blank l = false.
Proof.
  intros H Hk. destruct (existsb blank l) eqn:E; [|done]. apply existsb_exists in E as (x & Hx & Hb).
  assert (existsb blank k = true); [|congruence]. apply existsb_exists. eauto.
Qed.

Lemma fromkeys_clean l : existsb blank l = false -> clean (fromkeys l).
Proof.
  intros H. split; [apply NoDup_unique, fromkeys_NoDup|]. eapply existsb_blank_incl; [|exact H]. intros x. by rewrite fromkeys_In.
Qed.

Lemma dedup_from_id l : forall seen, List.NoDup l -> (forall x, In x l -> ~ In x seen) -> dedup_from seen l = l.
Proof.
  induction l as [|x l IH]; intros seen Hn Hs; [done|]. cbn. inversion Hn as [|? ? Hx Hl]; subst.
  assert (str_in x seen = false) as -> by (apply str_in_false, Hs; by left). f_equal. apply IH; [done|].
  intros y Hy [->|Hin]; [done|]. apply (Hs y); [by right|done].
Qed.

Lemma fromkeys_idem l : fromkeys (fromkeys l) = fromkeys l.
Proof. apply dedup_from_id; [apply fromkeys_NoDup|]. intros x _ []. Qed.

(** The envelope that each surface's profile gives. *)
Definition surface_envelope (s : ExecutionSurface) : ExecutionEnvelope :=
  match s with
  | BINANCE_MARKET => mk_envelope "BINANCE_MANUAL_ONLY_V1" BINANCE_MARKET HUMAN_HAND_MANUAL_ONLY true false false true
                        false false false (reason_codes BINANCE_MARKET_MANUAL_PROFILE)
  | VIRTUAL_MARKET => mk_envelope "VIRTUAL_AUTONOMOUS_SIMULATION_V1" VIRTUAL_MARKET BOUNDED_AUTONOMOUS_SIMULATION
                        false true true true false false true (reason_codes VIRTUAL_MARKET_AUTO_PROFILE)
  end.

Lemma envelope_of_surface s : execution_envelope_for_surface s = Ok (surface_envelope s).
Proof. destruct s; vm_compute; reflexivity. Qed.

(** What the surface itself blocks. *)
Definition surface_blockers (s : ExecutionSurface) : list string :=
  match s with
  | VIRTUAL_MARKET => []
  | BINANCE_MARKET =>
      ["EXECUTION_SURFACE_NOT_VIRTUAL_MARKET"; "VIRTUAL_SIMULATION_NOT_ALLOWED"; "AUTO_SIMULATION_NOT_ALLOWED"]
  end.

Lemma existsb_app_false {A} (f : A -> bool) l k : existsb f (l ++ k) = false <-> existsb f l = false /\ existsb f k = false.
Proof. by rewrite existsb_app, orb_false_iff. Qed.

Lemma clean_concat groups : Forall clean groups -> existsb blank (concat groups) = false.
Proof. induction 1 as [|g groups (_ & Hg) _ IH]; [done|]. cbn. by rewrite existsb_app_false. Qed.

Section Reduction.
Context (is_known_blocker : string -> bool).

(** The reduction of clean stages: it succeeds, and gives the root causes. *)
Lemma reduction_exact b authority : clean authority ->
  match reduce_virtual_blockers is_known_blocker b authority with
  | Ok r => Forall clean (stages_of b) /\ root_cause_codes r = fromkeys (concat (stages_of b) ++ authority)
            /\ unknown_blockers r = List.filter (fun code => negb (is_known_blocker code)) (root_cause_codes r)
  | Raise _ => ~ Forall clean (stages_of b)
  end.
Proof.
  intros Ha. unfold reduce_virtual_blockers, new_reduction. set (root := _unique_sequence (stages_of b ++ [authority])).
  assert (root = fromkeys (concat (stages_of b) ++ authority)) as Er
    by (unfold root; rewrite unique_sequence_fromkeys, List.concat_app; cbn [concat]; by rewrite app_nil_r).
  set (known := List.filter is_known_blocker root). set (unknown := List.filter (fun code => negb (str_in code known)) root).
  set (r := mk_reduction _ _ _ _ _ _ _ _ _ _ _ _).
  destruct (require_groups (named_groups r)) as [[]|e] eqn:Eg.
  - apply require_groups_clean in Eg. unfold named_groups in Eg. rewrite !Forall_cons in Eg. cbn in Eg.
    destruct Eg as (G1 & G2 & G3 & G4 & G5 & G6 & G7 & _). rewrite !Ok_bind.
    change (_unique_sequence (stage_groups r)) with root. change (root_cause_codes r) with root.
    rewrite bool_decide_true by done. cbn [negb raise_if]. rewrite !Ok_bind.
    change (blocker_count r) with (Z.of_nat (length root)). rewrite Z.eqb_refl. cbn [negb raise_if]. rewrite !Ok_bind.
    assert (sets_differ (known_blockers r ++ unknown_blockers r) root = false) as ->.
    { unfold sets_differ. apply negb_false_iff, andb_true_iff. cbn [r known_blockers unknown_blockers].
      split; apply forallb_forall; intros x Hx; apply str_in_In.
      - apply in_app_iff in Hx as [Hx|Hx]; by apply filter_In in Hx as (Hx & _).
      - apply in_app_iff. destruct (str_in x known) eqn:E; [left; by apply str_in_In|right].
        apply filter_In. split; [done|]. by rewrite E. }
    cbn. split; [unfold stages_of; repeat (apply Forall_cons; split; [done|]); constructor|]. split; [done|].
    unfold unknown. apply filter_ext_in. intros x Hx. f_equal. unfold known. destruct (is_known_blocker x) eqn:E.
    + apply str_in_In, filter_In. by rewrite E.
    + apply str_in_false. intros Hf. apply filter_In in Hf as (_ & Hf). congruence.
  - cbn. intros Hc. assert (require_groups (named_groups r) = Ok tt) as E; [|congruence].
    apply require_groups_clean. unfold stages_of in Hc. rewrite !Forall_cons in Hc.
    destruct Hc as (G1 & G2 & G3 & G4 & G5 & G6 & G7 & _).
    assert (clean root) as Hr.
    { rewrite Er. apply fromkeys_clean, existsb_app_false. split; [|apply Ha]. apply clean_concat. unfold stages_of.
      repeat (apply Forall_cons; split; [done|]). constructor. }
    assert (forall f, clean (List.filter f root)) as Hf.
    { intros f. split.
      2: { apply (existsb_blank_incl _ root); [|apply Hr]. intros x Hx. apply filter_In in Hx as (Hx & _). done. }
      apply NoDup_unique, List.NoDup_filter. rewrite Er. apply fromkeys_NoDup. }
    unfold named_groups. repeat (apply Forall_cons; split; [cbn; auto|]). constructor.
Qed.

(** A virtual simulation is eligible exactly when it may be.  An evaluation
    succeeds exactly when the blockers of every stage are distinct and not blank;
    the outcome is eligible if and only if the surface is the virtual market and no
    stage has a blocker, its blockers are those of the stages and the surface in
    order and once each, those unknown to the registry are told apart, and it never
    allows an order. *)
Theorem eligibility_exact s b :
  (is_ok (evaluate_virtual_simulation_eligibility is_known_blocker s b) = true <-> Forall clean (stages_of b))
  /\ forall e, evaluate_virtual_simulation_eligibility is_known_blocker s b = Ok e ->
     (eligible e = true <-> s = VIRTUAL_MARKET /\ concat (stages_of b) = [])
     /\ el_blockers e = fromkeys (concat (stages_of b) ++ surface_blockers s)
     /\ match el_reduction e with
        | Some r => el_blockers e <> [] /\ root_cause_codes r = el_blockers e
                    /\ unknown_blockers r = List.filter (fun code => negb (is_known_blocker code)) (el_blockers e)
        | None => el_blockers e = []
        end
     /\ (el_virtual_allowed e = true <-> eligible e = true) /\ (el_auto_allowed e = true <-> eligible e = true)
     /\ el_binance_allowed e = false /\ el_live_allowed e = false /\ el_live_status e = LIVE_ORDER_BLOCKED.
Proof.
  unfold evaluate_virtual_simulation_eligibility. rewrite envelope_of_surface, Ok_bind. set (env := surface_envelope s).
  assert (envelope_blockers s env = surface_blockers s) as -> by (by destruct s).
  assert (clean (surface_blockers s)) as Hs by (destruct s; split; vm_compute; reflexivity).
  pose proof (reduction_exact b (surface_blockers s) Hs) as Hr.
  destruct (reduce_virtual_blockers _ _ _) as [r|]; [|split; [split; [discriminate|tauto]|intros v; discriminate]].
  destruct Hr as (Hc & Hr & Hu). rewrite Ok_bind. rewrite Hr in Hu |- *. rewrite fromkeys_idem. set (blockers := fromkeys _) in *.
  assert (clean blockers) as Hb by (apply fromkeys_clean, existsb_app_false; split; [by apply clean_concat|apply Hs]).
  assert (blockers = [] <-> s = VIRTUAL_MARKET /\ concat (stages_of b) = []) as He.
  { unfold blockers. rewrite fromkeys_nil, app_nil_iff. destruct s; cbn; naive_solver. }
  clearbody blockers. unfold new_eligibility. cbn [el_reason_codes el_blockers el_reduction el_live_status el_binance_allowed
    el_live_allowed el_surface el_virtual_allowed el_auto_allowed el_manual_confirmation].
  rewrite (proj2 (require_unique_clean "virtual simulation blockers" blockers) Hb).
  destruct (is_nil blockers) eqn:En.
  - apply is_nil_true in En as ->. destruct He as (He & _). destruct (He eq_refl) as (-> & Ec).
    cbn. split; [done|]. intros e H. apply mret_Ok in H as <-. cbn. split_and!; naive_solver.
  - rewrite bool_decide_false by done. cbn [andb].
    assert (clean (fromkeys (env_reason_codes env ++ blockers))) as Hreason.
    { apply fromkeys_clean, existsb_app_false. split; [destruct s; vm_compute; reflexivity|apply Hb]. }
    rewrite (proj2 (require_unique_clean _ _) Hreason), !Ok_bind, Hr. rewrite bool_decide_true by done. cbn.
    split; [done|]. intros e H. apply mret_Ok in H as <-. cbn. rewrite !andb_false_r. apply is_nil_false in En. split_and!; naive_solver.
Qed.
End Reduction.

(** ** A blocked and an eligible simulation *)

Definition ex_stages (risk : list string) : stage_blockers := mk_stages [] ["CANDIDATE_EXPIRED"] risk [] [] [] [].
Definition ex_known (code : string) : bool := String.eqb code "CANDIDATE_EXPIRED".

Example ex_reduced :
  (fun e => (el_blockers e, option_map unknown_blockers (el_reduction e)))
    <$> evaluate_virtual_simulation_eligibility ex_known VIRTUAL_MARKET (ex_stages ["NEW_CODE"; "CANDIDATE_EXPIRED"])
  = Ok (["CANDIDATE_EXPIRED"; "NEW_CODE"], Some ["NEW_CODE"]).
Proof. vm_compute. reflexivity. Qed.

Example ex_eligible :
  eligible <$> evaluate_virtual_simulation_eligibility ex_known VIRTUAL_MARKET (mk_stages [] [] [] [] [] [] []) = Ok true.
Proof. vm_compute. reflexivity. Qed.

Example ex_duplicate :
  is_ok (evaluate_virtual_simulation_eligibility ex_known VIRTUAL_MARKET (ex_stages ["A"; "A"])) = false.
Proof. vm_compute. reflexivity. Qed.

Lemma eligibility_exact_witness :
  exists e, evaluate_virtual_simulation_eligibility ex_known VIRTUAL_MARKET (ex_stages ["NEW_CODE"; "CANDIDATE_EXPIRED"]) = Ok e
    /\ eligible e = false /\ (eligible e = true <-> VIRTUAL_MARKET = VIRTUAL_MARKET
                                /\ concat (stages_of (ex_stages ["NEW_CODE"; "CANDIDATE_EXPIRED"])) = []).
Proof.
  eexists. split; [vm_compute; reflexivity|]. split; [reflexivity|].
  apply (eligibility_exact ex_known VIRTUAL_MARKET (ex_stages ["NEW_CODE"; "CANDIDATE_EXPIRED"])). vm_compute. reflexivity.
Defined.
