(* ===== verification/Paper.v ===== *)
(** [domain/research/paper_models.py], [domain/research/trailing.py],
    [domain/market_data.py] and [execution/paper.py]: simulated orders, candles,
    the trailing stop and the paper broker.

    Decimals are finite.  The leverage and the realised result of an order are
    never set by the broker, and are left out. *)
From S2P Require Import Prelude PyDecimal DecimalFacts PyFloat Domain Filters Attribution Candidate Risk Surface Eligibility.
From Stdlib Require Import QArith Lqa.
Local Open Scope Z_scope.
Local Open Scope bool_scope.

(** ** Candles *)

Record OHLCVCandle : Type := mk_candle {
  c_timestamp : datetime; c_open : dec; c_high : dec; c_low : dec; c_close : dec; c_volume : dec
}.
(** [OHLCVCandle(...)] *)
Definition new_candle (c : OHLCVCandle) : res OHLCVCandle :=
  raise_if (naive (c_timestamp c)) (ValueError "timestamp must be timezone-aware");;
  raise_if (dmin_list (c_open c) [c_high c; c_low c; c_close c; c_volume c] <? ZERO)%D
    (ValueError "OHLCV values cannot be negative");;
  raise_if (c_high c <? c_low c)%D (ValueError "candle low cannot exceed high");;
  raise_if ((c_high c <? dmax (c_open c) (c_close c))%D || (dmin (c_open c) (c_close c) <? c_low c)%D)
    (ValueError "invalid OHLC relationship");;
  mret c.

(** ** Orders *)

Inductive PaperOrderStatus : Type := PO_FILLED | PO_REJECTED.
#[export] Instance PaperOrderStatus_eq_dec : EqDecision PaperOrderStatus.
Proof. solve_decision. Defined.
Inductive ExitReason : Type := STOP_LOSS_EXIT | TRAILING_STOP_EXIT | TAKE_PROFIT_EXIT.
#[export] Instance ExitReason_eq_dec : EqDecision ExitReason.
Proof. solve_decision. Defined.
#[export, refine] Instance ExitReason_enum : StrEnum ExitReason := {
  members := [STOP_LOSS_EXIT; TRAILING_STOP_EXIT; TAKE_PROFIT_EXIT];
  enum_text r := match r with
    | STOP_LOSS_EXIT => "STOP_LOSS_EXIT" | TRAILING_STOP_EXIT => "TRAILING_STOP_EXIT"
    | TAKE_PROFIT_EXIT => "TAKE_PROFIT_EXIT"
    end
}.
Proof. all: solve_enum. Defined.

Record PaperOrder : Type := mk_paper_order {
  po_candidate_id : string;
  po_timestamp : datetime;
  po_symbol : string;
  po_action : Action;
  po_status : PaperOrderStatus;
  po_quantity : dec;
  requested_price : dec;
  fill_price : dec;
  fee_usdt : dec;
  po_blockers : list string;
  po_stop_loss : option dec;
  po_targets : list dec;
  po_planned_rr : option dec;
  po_evidence : TradeDecisionEvidence;
  po_methods : TradeParameterMethods
}.
(** [PaperOrder(...)] *)
Definition new_paper_order (o : PaperOrder) : res PaperOrder :=
  raise_if (naive (po_timestamp o)) (ValueError "paper order timestamp must be timezone-aware");;
  raise_if (dmin_list (po_quantity o) [requested_price o; fill_price o; fee_usdt o] <? ZERO)%D
    (ValueError "paper order numeric values cannot be negative");;
  raise_if (bool_decide (po_status o = PO_FILLED) && negb (is_nil (po_blockers o)))
    (ValueError "filled paper order cannot contain blockers");;
  mret o.

(** ** The trailing stop *)

(** [update_long_trailing_stop]: the new stop and whether it moved. *)
Definition update_long_trailing_stop (previous price atr multiplier tick : dec) : res (dec * bool) :=
  raise_if (dmin_list previous [price; atr; multiplier; tick] <=? ZERO)%D
    (ValueError "trailing-stop inputs must be positive");;
  raise_if (price <=? previous)%D (ValueError "previous_stop must remain below current_price");;
  band ← dmul multiplier atr;
  candidate ← dsub price band;
  units ← ddiv candidate tick;
  rounded ← dmul (to_integral_down units) tick;
  let new_stop := dmax previous rounded in
  mret (new_stop, (previous <? new_stop)%D).

(** ** The broker *)

Record PaperBroker : Type := mk_broker {
  fee_ratio : dec;
  slippage_ratio : dec;
  broker_surface : ExecutionSurface
}.
Definition between (d hi : dec) : bool := (ZERO <=? d)%D && (d <=? hi)%D.
(** [PaperBroker(...)] *)
Definition new_broker (b : PaperBroker) : res PaperBroker :=
  raise_if (negb (between (fee_ratio b) (lit 1 (-2)))) (ValueError "fee_ratio must be between zero and 0.01");;
  raise_if (negb (between (slippage_ratio b) (lit 2 (-2)))) (ValueError "slippage_ratio must be between zero and 0.02");;
  execution_envelope_for_surface (broker_surface b);;
  mret b.

Definition is_some {A} (o : option A) : bool := match o with Some _ => true | None => false end.

(** The blockers of [submit]. *)
Definition submit_blockers (env : ExecutionEnvelope) (c : TradeCandidate) (a : RiskAssessment) (at_ : datetime)
  (el : option VirtualSimulationEligibility) : list string :=
  fromkeys (ra_blockers a
    ++ block_if (negb (String.eqb (ra_candidate_id a) (candidate_id c))) "RISK_ASSESSMENT_CANDIDATE_MISMATCH"
    ++ block_if (negb (bool_decide (ra_scenario_id a = scenario_id c))) "RISK_ASSESSMENT_SCENARIO_MISMATCH"
    ++ block_if (negb (String.eqb (cd_market_type c) "SPOT")) "FUTURES_EXECUTION_MODEL_UNAVAILABLE"
    ++ block_if (dt_ltb at_ (cd_timestamp c)) "CANDIDATE_NOT_YET_AVAILABLE"
    ++ block_if (match entry_expiry c with Some x => dt_leb x at_ | None => false end) "CANDIDATE_EXPIRED"
    ++ block_if (negb (ra_approved a)) "RISK_NOT_APPROVED"
    ++ block_if ((ra_quantity a <=? ZERO)%D || (ra_size_usdt a <=? ZERO)%D) "INVALID_PAPER_QUANTITY"
    ++ block_if (negb (bool_decide (cd_status c = CS_READY_FOR_RISK))) "CANDIDATE_NOT_READY"
    ++ block_if (negb (is_some el) && negb (bool_decide (cd_promotion c = PAPER_APPROVED)))
         "SIMULATION_PROMOTION_REQUIRED"
    ++ (match el with
        | None => []
        | Some v =>
            (if eligible v then [] else el_blockers v)
            ++ block_if (el_binance_allowed v) "BINANCE_ORDER_AUTHORITY_LEAK"
            ++ block_if (el_live_allowed v) "LIVE_ORDER_AUTHORITY_LEAK"
            ++ block_if (negb (el_virtual_allowed v)) "VIRTUAL_SIMULATION_NOT_ALLOWED"
        end)
    ++ block_if (negb (env_paper_allowed env)) "SIMULATED_EXECUTION_PROFILE_BLOCKED"
    ++ block_if (manual_confirmation_required env) "HUMAN_HAND_MANUAL_EXECUTION_REQUIRED"
    ++ block_if (negb (auto_simulation_allowed env)) "AUTO_SIMULATION_NOT_ALLOWED").

(** The methods of a filled order, and of a rejected one. *)
Definition filled_methods (market_type : string) : TradeParameterMethods :=
  mk_methods "DETERMINISTIC_RISK_ASSESSMENT"
    (if String.eqb market_type "SPOT" then "NOT_APPLICABLE_SPOT" else "NOT_MODELED_BY_PAPER_BROKER")
    "CANDIDATE_STOP_LOSS" "CANDIDATE_ENTRY_MIDPOINT_PLUS_PAPER_SLIPPAGE" "CANDIDATE_TARGET_LEVELS"
    "FIRST_TARGET_DISTANCE_DIVIDED_BY_ENTRY_STOP_DISTANCE" "UNREALIZED_UNTIL_PAPER_POSITION_CLOSE".
Definition rejected_methods (m : TradeParameterMethods) : TradeParameterMethods :=
  mk_methods (m_quantity m) (m_leverage m) (m_stop_loss m) "NOT_FILLED_CANDIDATE_ENTRY_REFERENCE" (m_take_profit m)
    "CANDIDATE_REPORTED_RR" "NO_FILLED_POSITION".

(** [PaperBroker.submit] *)
Definition submit (b : PaperBroker) (c : TradeCandidate) (a : RiskAssessment) (at_ : datetime)
  (el : option VirtualSimulationEligibility) : res PaperOrder :=
  env ← execution_envelope_for_surface (broker_surface b);
  raise_if (naive at_) (ValueError "paper submission timestamp must be timezone-aware");;
  let blockers := submit_blockers env c a at_ el in
  requested ← entry_price c;
  methods ← new_methods (filled_methods (cd_market_type c));
  if negb (is_nil blockers) then
    methods ← new_methods (rejected_methods methods);
    new_paper_order (mk_paper_order (candidate_id c) at_ (cd_symbol c) (cd_action c) PO_REJECTED (ra_quantity a)
      requested ZERO ZERO blockers (Some (cd_stop_loss c)) (take_profit_levels c) (Some (risk_reward c))
      (cd_evidence c) methods)
  else
    let buy := bool_decide (cd_action c = BUY) in
    slippage ← (if buy then dadd ONE (slippage_ratio b) else dsub ONE (slippage_ratio b));
    fill ← dmul requested slippage;
    gross ← dmul fill (ra_quantity a);
    fee ← dmul gross (fee_ratio b);
    let sign := if buy then lit 1 0 else lit (-1) 0 in
    risk ← dsub fill (cd_stop_loss c);
    risk ← dmul sign risk;
    target ← first_target c;
    reward ← dsub target fill;
    reward ← dmul sign reward;
    rr ← (if (ZERO <? risk)%D then q ← ddiv reward risk; mret (Some q) else mret None);
    new_paper_order (mk_paper_order (candidate_id c) at_ (cd_symbol c) (cd_action c) PO_FILLED (ra_quantity a)
      requested fill fee [] (Some (cd_stop_loss c)) (take_profit_levels c) rr (cd_evidence c) methods).

(** *** Single positions *)

Record PaperPosition : Type := mk_position {
  pp_candidate_id : string;
  pp_symbol : string;
  pp_entry_price : dec;
  pp_quantity : dec;
  pp_stop_loss : dec;
  pp_trailing_stop : dec;
  pp_targets : list dec
}.
(** [PaperPosition(...)] *)
Definition new_position (p : PaperPosition) : res PaperPosition :=
  raise_if (dmin_list (pp_entry_price p) [pp_quantity p; pp_stop_loss p; pp_trailing_stop p] <=? ZERO)%D
    (ValueError "paper position values must be positive");;
  raise_if (pp_entry_price p <=? pp_stop_loss p)%D (ValueError "long paper stop loss must remain below entry");;
  raise_if (is_nil (pp_targets p) || existsb (fun t => t <=? pp_entry_price p)%D (pp_targets p))
    (ValueError "long paper targets must remain above entry");;
  mret p.

(** The stop in force, and the reason of an exit through it. *)
Definition effective_stop (stop trailing : dec) : dec := dmax stop trailing.
Definition stop_reason (stop trailing : dec) : ExitReason :=
  if (stop <? trailing)%D then TRAILING_STOP_EXIT else STOP_LOSS_EXIT.

(** [PaperBroker.evaluate_long_exit]: the reason and the price of an exit. *)
Definition evaluate_long_exit (p : PaperPosition) (c : OHLCVCandle) : res (option (ExitReason * dec)) :=
  let stop := effective_stop (pp_stop_loss p) (pp_trailing_stop p) in
  if (c_low c <=? stop)%D then
    mret (Some (stop_reason (pp_stop_loss p) (pp_trailing_stop p), dmin (c_open c) stop))
  else
    match pp_targets p with
    | [] => Raise IndexError
    | first :: _ => mret (if (first <=? c_high c)%D then Some (TAKE_PROFIT_EXIT, first) else None)
    end.

(** ** Properties *)

(** The trailing stop never moves down, moves only when it says so, and stays
    below the price band's upper end. *)
Lemma trailing_stop_monotone previous price atr multiplier tick stop moved :
  update_long_trailing_stop previous price atr multiplier tick = Ok (stop, moved) ->
  (dval previous <= dval stop)%Q /\ (moved = false -> stop = previous) /\ (0 < dval previous)%Q
  /\ (moved = true -> (dval previous < dval stop)%Q).
Proof.
  unfold update_long_trailing_stop. intros H. apply bind_Ok in H as (u & Hm & H). apply raise_if_Ok in Hm.
  do 4 (apply bind_Ok in H as (? & _ & H)). apply bind_Ok in H as (r & _ & H). apply mret_Ok in H. simplify_eq.
  destruct (dmax_spec previous r) as (H1 & _ & _). split; [done|].
  split; [|split].
  - unfold dmax. intros Hf. destruct (previous <? r)%D eqn:E; congruence.
  - by apply (dmin_list_pos _ _ Hm); left.
  - by intros Hf%dltb_spec.
Qed.

(** On positive inputs with the stop below the price the update only signals
    arithmetic. *)
Lemma trailing_stop_safely previous price atr multiplier tick :
  (forall d, In d [previous; price; atr; multiplier; tick] -> (0 < dval d)%Q) -> (dval previous < dval price)%Q ->
  safely (update_long_trailing_stop previous price atr multiplier tick)
    (fun r => (dval previous <= dval r.1)%Q).
Proof.
  intros Hpos Hlt. unfold update_long_trailing_stop. apply safely_guard; [by apply dmin_list_pos_iff|].
  apply safely_guard; [by apply dleb_false|].
  eapply safely_bind; [apply safely_dmul|]. intros band _.
  eapply safely_bind; [apply safely_dsub|]. intros candidate _.
  eapply safely_bind; [apply safely_ddiv|]. intros units _.
  eapply safely_bind; [apply safely_dmul|]. intros rounded _. cbn. apply dmax_spec.
Qed.

(** The order of a candle's prices. *)
Lemma candle_order c : new_candle c = Ok c ->
  naive (c_timestamp c) = false /\ (0 <= dval (c_low c))%Q /\ (dval (c_low c) <= dval (c_close c))%Q
  /\ (dval (c_low c) <= dval (c_open c))%Q.
Proof.
  unfold new_candle. intros H.
  do 4 (let u := fresh "u" in let Hr := fresh "Hr" in apply bind_Ok in H as (u & Hr & H); apply raise_if_Ok in Hr).
  apply orb_false_iff in Hr2 as (_ & Hl). apply dltb_false in Hl. split; [done|].
  split; [apply (proj1 (dmin_list_nonneg _ _) Hr0); cbn; tauto|].
  split; (eapply Qle_trans; [exact Hl|apply dmin_spec]).
Qed.

(** What a candidate and its assessment must satisfy to be filled. *)
Record fillable (b : PaperBroker) (c : TradeCandidate) (a : RiskAssessment) (at_ : datetime)
  (el : option VirtualSimulationEligibility) : Prop := mk_fillable {
  fl_surface : broker_surface b = VIRTUAL_MARKET;
  fl_approved : ra_approved a = true /\ ra_blockers a = [];
  fl_same : ra_candidate_id a = candidate_id c /\ ra_scenario_id a = scenario_id c;
  fl_market : cd_market_type c = "SPOT" /\ cd_status c = CS_READY_FOR_RISK;
  fl_time : instant (cd_timestamp c) <= instant at_ /\ forall e, entry_expiry c = Some e -> instant at_ < instant e;
  fl_quantity : (0 < dval (ra_quantity a))%Q /\ (0 < dval (ra_size_usdt a))%Q;
  fl_promoted : match el with
                | None => cd_promotion c = PAPER_APPROVED
                | Some v => (eligible v = true \/ el_blockers v = []) /\ el_virtual_allowed v = true
                            /\ el_binance_allowed v = false /\ el_live_allowed v = false
                end
}.

Lemma submit_blockers_exact b c a at_ el env : execution_envelope_for_surface (broker_surface b) = Ok env ->
  submit_blockers env c a at_ el = [] <-> fillable b c a at_ el.
Proof.
  rewrite envelope_of_surface. intros E. assert (env_paper_allowed env = true
    /\ (manual_confirmation_required env = false <-> broker_surface b = VIRTUAL_MARKET)
    /\ (auto_simulation_allowed env = true <-> broker_surface b = VIRTUAL_MARKET)) as (E1 & E2 & E3)
    by (destruct (broker_surface b); simplify_eq; naive_solver).
  clear E. unfold submit_blockers.
  rewrite fromkeys_nil, !app_nil_iff, !block_if_nil, !negb_false_iff, !String.eqb_eq, E1, E2, E3.
  rewrite !bool_decide_eq_true, orb_false_iff, !dleb_false, !dval_ZERO, option_test, andb_false_iff, !negb_false_iff,
    bool_decide_eq_true. unfold dt_ltb, dt_leb. rewrite Z.ltb_ge. setoid_rewrite Z.leb_gt. split.
  - intros (B & Hid & Hsc & M & T1 & T2 & Ap & Q & R & P & V & _ & S & _). split; try done.
    destruct el as [v|]; cbn in P; [|by destruct P].
    rewrite !app_nil_iff, !block_if_nil, negb_false_iff in V. destruct V as (V1 & V2 & V3 & V4).
    split; [|done]. destruct (eligible v); auto.
  - intros [S (A1 & A2) (I1 & I2) (M1 & M2) (T1 & T2) Q P]. repeat (split; [done|]).
    split; [destruct el; cbn; auto|]. split; [|done].
    destruct el as [v|]; [|done]. rewrite !app_nil_iff, !block_if_nil, negb_false_iff.
    destruct P as ([->| ->] & -> & -> & ->); [done|]. by destruct (eligible v).
Qed.

(** A paper order is filled exactly when it may be.  Whatever [submit]
    returns is FILLED if and only if the broker simulates the virtual market and
    the candidate and its assessment are [fillable]; otherwise it is REJECTED
    with the blockers, at price zero.  The order has the assessed quantity and the
    candidate's decision evidence. *)
Theorem paper_fill_exact b c a at_ el o : submit b c a at_ el = Ok o ->
  (po_status o = PO_FILLED <-> fillable b c a at_ el)
  /\ po_quantity o = ra_quantity a /\ po_candidate_id o = candidate_id c /\ po_timestamp o = at_
  /\ po_evidence o = cd_evidence c
  /\ (po_status o = PO_REJECTED -> po_blockers o <> [] /\ fill_price o = ZERO /\ fee_usdt o = ZERO).
Proof.
  unfold submit. intros H. apply bind_Ok in H as (env & He & H). apply bind_Ok in H as (u & _ & H).
  cbv zeta in H. apply bind_Ok in H as (requested & _ & H). apply bind_Ok in H as (methods & _ & H).
  rewrite <- (submit_blockers_exact _ _ _ _ _ _ He).
  destruct (submit_blockers env c a at_ el) as [|x bl] eqn:E; cbn [is_nil negb] in H.
  - do 9 (apply bind_Ok in H as (? & _ & H)). do 3 (apply bind_Ok in H as (? & _ & H)).
    apply mret_Ok in H as <-. done.
  - do 4 (apply bind_Ok in H as (? & _ & H)). apply mret_Ok in H as <-. done.
Qed.

(** ** Examples *)

Definition ex_broker : PaperBroker := mk_broker (lit 1 (-3)) (lit 5 (-4)) VIRTUAL_MARKET.
Definition ex_assessment : RiskAssessment := Eval vm_compute in
  ok_or (mk_assessment "" false ZERO ZERO ZERO [] None)
    (evaluate ex_repr ex_config ex_buy ex_snapshot (ex_context None) Filters.ex_filters VIRTUAL_MARKET).

Example ex_broker_ok : is_ok (new_broker ex_broker) = true.
Proof. vm_compute. reflexivity. Qed.

Lemma paper_fill_exact_witness : exists o,
  submit ex_broker ex_buy ex_assessment (utc 5) None = Ok o /\ po_status o = PO_FILLED
  /\ fillable ex_broker ex_buy ex_assessment (utc 5) None.
Proof.
  eexists. split; [vm_compute; reflexivity|]. split; [reflexivity|].
  edestruct (paper_fill_exact ex_broker ex_buy ex_assessment (utc 5) None) as [H _]; [vm_compute; reflexivity|].
  apply H. reflexivity.
Defined.
