(* ===== verification/PaperLifecycle.v ===== *)
(** [domain/research/paper_lifecycle.py]: the lifecycle of a simulated long
    position, with staged exits, a trailing stop and a closure review.

    The trade attribution a position carries (decision evidence, parameter
    methods and the closure assessment derived from them) is left out; the
    observer of a closure review only forwards it. *)
From S2P Require Import Prelude PyDecimal DecimalFacts PyFloat PyText Domain Filters Attribution Candidate Risk Surface Paper.
From Stdlib Require Import QArith Lqa.
Local Open Scope Z_scope.
Local Open Scope bool_scope.

Inductive PositionStatus : Type := PS_OPEN | PS_PARTIALLY_CLOSED | PS_CLOSED.
#[export] Instance PositionStatus_eq_dec : EqDecision PositionStatus.
Proof. solve_decision. Defined.
#[export, refine] Instance PositionStatus_enum : StrEnum PositionStatus := {
  members := [PS_OPEN; PS_PARTIALLY_CLOSED; PS_CLOSED];
  enum_text s := match s with
    | PS_OPEN => "OPEN" | PS_PARTIALLY_CLOSED => "PARTIALLY_CLOSED" | PS_CLOSED => "CLOSED"
    end
}.
Proof. all: solve_enum. Defined.

Record StagedExitPlan : Type := mk_plan { targets : list dec; quantity_ratios : list dec }.
(** [StagedExitPlan(...)] *)
Definition new_plan (p : StagedExitPlan) : res StagedExitPlan :=
  raise_if (is_nil (targets p) || negb (Nat.eqb (length (targets p)) (length (quantity_ratios p))))
    (ValueError "staged targets and ratios must be non-empty and aligned");;
  raise_if (existsb (fun d => d <=? ZERO)%D (targets p ++ quantity_ratios p))
    (ValueError "staged exit values must be positive");;
  raise_if (negb (decs_eqb (py_sorted dleb (targets p)) (targets p)) || negb (all_unique deqb (targets p)))
    (ValueError "staged targets must be strictly ascending");;
  total ← dsum (quantity_ratios p);
  raise_if (ONE <? total)%D (ValueError "staged exit ratios cannot exceed one");;
  mret p.

Record LifecycleExit : Type := mk_exit {
  ex_timestamp : datetime; ex_reason : ExitReason; ex_price : dec; ex_quantity : dec; ex_fee : dec; ex_pnl : dec
}.
(** [LifecycleExit(...)] *)
Definition new_exit (e : LifecycleExit) : res LifecycleExit :=
  raise_if (naive (ex_timestamp e)) (ValueError "lifecycle exit timestamp must be timezone-aware");;
  raise_if (dmin_list (ex_price e) [ex_quantity e; ex_fee e] <? ZERO)%D
    (ValueError "lifecycle exit values cannot be negative");;
  mret e.

Record ClosureContext : Type := mk_closure {
  ignored_signals : Z; htf_weakness : bool; volatility_expansion : bool; level_break : bool
}.
Definition new_closure (c : ClosureContext) : res ClosureContext :=
  raise_if (ignored_signals c <? 0) (ValueError "ignored signal count cannot be negative");; mret c.

Record PaperClosureReview : Type := mk_review {
  rv_reason : ExitReason;
  lifecycle_error : option string;
  stop_quality : string;
  trailing_quality : string;
  rv_context : ClosureContext;
  staged_exit_alternative : string;
  lesson_candidate : string
}.

Record LifecyclePosition : Type := mk_lifecycle {
  position_id : string; lp_candidate_id : string; lp_symbol : string; opened_at : datetime;
  lp_entry_price : dec; entry_fee : dec; initial_quantity : dec; remaining_quantity : dec;
  lp_stop_loss : dec; trailing_stop : dec; lp_atr : dec; plan : StagedExitPlan;
  lp_status : PositionStatus; next_target_index : nat; realized_pnl : dec; exits : list LifecycleExit;
  closure_review : option PaperClosureReview; planned_rr : option dec;
  lp_evidence : TradeDecisionEvidence; lp_methods : TradeParameterMethods;
  closure_assessment : option TradeClosureAssessment
}.

(** The fields the constructor derives. *)
Definition set_derived (rr : option dec) (a : option TradeClosureAssessment) (p : LifecyclePosition)
  : LifecyclePosition :=
  mk_lifecycle (position_id p) (lp_candidate_id p) (lp_symbol p) (opened_at p) (lp_entry_price p) (entry_fee p)
    (initial_quantity p) (remaining_quantity p) (lp_stop_loss p) (trailing_stop p) (lp_atr p) (plan p) (lp_status p)
    (next_target_index p) (realized_pnl p) (exits p) (closure_review p) rr (lp_evidence p) (lp_methods p) a.

Definition closed (p : LifecyclePosition) : bool := bool_decide (lp_status p = PS_CLOSED).

(** The assessment of a closed position, by its last exit. *)
Definition assessment_of (p : LifecyclePosition) : res (option TradeClosureAssessment) :=
  match last (exits p) with
  | Some e =>
      if closed p then
        a ← assess (lp_evidence p) (opened_at p) (lp_entry_price p) (enum_text (ex_reason e)); mret (Some a)
      else mret None
  | None => mret None
  end.

(** [LifecyclePosition(...)] with [__post_init__] *)
Definition new_lifecycle (p : LifecyclePosition) : res LifecyclePosition :=
  raise_if (blank (position_id p) || blank (lp_candidate_id p)) (ValueError "position identity is required");;
  raise_if (blank (lp_symbol p)) (ValueError "position symbol is required");;
  raise_if (naive (opened_at p)) (ValueError "position timestamp must be timezone-aware");;
  raise_if ((dmin_list (lp_entry_price p) [entry_fee p; initial_quantity p; lp_stop_loss p; trailing_stop p; lp_atr p]
               <? ZERO)%D
            || (dmin_list (lp_entry_price p) [initial_quantity p; lp_stop_loss p; trailing_stop p; lp_atr p] =? ZERO)%D)
    (ValueError "position values must be positive except zero fee");;
  raise_if (negb ((ZERO <=? remaining_quantity p)%D && (remaining_quantity p <=? initial_quantity p)%D))
    (ValueError "remaining quantity is invalid");;
  raise_if (closed p && negb (remaining_quantity p =? ZERO)%D) (ValueError "closed position cannot retain quantity");;
  raise_if (negb (closed p) && (remaining_quantity p =? ZERO)%D) (ValueError "active position must retain quantity");;
  risk ← dsub (lp_entry_price p) (lp_stop_loss p);
  first ← match targets (plan p) with t :: _ => Ok t | [] => Raise IndexError end;
  reward ← dsub first (lp_entry_price p);
  rr ← (if (ZERO <? risk)%D then q ← ddiv reward risk; mret (Some q) else mret None);
  a ← assessment_of p;
  mret (set_derived rr a p).

Record PaperLifecycleEngine : Type := mk_engine {
  le_fee_ratio : dec; le_slippage_ratio : dec; trailing_multiplier : dec; le_tick_size : dec
}.
(** [PaperLifecycleEngine(...)] *)
Definition new_engine (e : PaperLifecycleEngine) : res PaperLifecycleEngine :=
  raise_if (negb (between (le_fee_ratio e) (lit 1 (-2)))) (ValueError "fee_ratio must be between zero and 0.01");;
  raise_if (negb (between (le_slippage_ratio e) (lit 2 (-2)))) (ValueError "slippage_ratio must be between zero and 0.02");;
  raise_if (dmin (trailing_multiplier e) (le_tick_size e) <=? ZERO)%D
    (ValueError "trailing multiplier and tick size must be positive");;
  mret e.

(** The methods of an opened position, from those of its order. *)
Definition opened_methods (o : PaperOrder) (stop : dec) (pl : StagedExitPlan) : TradeParameterMethods :=
  let m := po_methods o in
  mk_methods (m_quantity m) "NOT_APPLICABLE_SPOT"
    (if match po_stop_loss o with Some s => (stop =? s)%D | None => false end then m_stop_loss m
     else "EXPLICIT_LIFECYCLE_STOP_ARGUMENT")
    (m_entry m)
    (if decs_eqb (targets pl) (po_targets o) then m_take_profit m else "EXPLICIT_STAGED_EXIT_PLAN")
    "FIRST_TARGET_DISTANCE_DIVIDED_BY_FILLED_ENTRY_STOP_DISTANCE" "PAPER_EXIT_CASHFLOWS_MINUS_ENTRY_AND_EXIT_FEES".

(** [PaperLifecycleEngine.open_position] *)
Definition open_position (o : PaperOrder) (stop atr : dec) (pl : StagedExitPlan) : res LifecyclePosition :=
  raise_if (negb (bool_decide (po_status o = PO_FILLED))) (ValueError "only filled paper orders can open positions");;
  raise_if (negb (bool_decide (po_action o = BUY))) (ValueError "paper lifecycle currently supports Spot BUY positions");;
  raise_if (fill_price o <=? stop)%D (ValueError "long stop loss must remain below entry");;
  raise_if (existsb (fun t => t <=? fill_price o)%D (targets pl)) (ValueError "long staged targets must remain above entry");;
  methods ← new_methods (opened_methods o stop pl);
  new_lifecycle (mk_lifecycle ("paper:" ++ po_candidate_id o) (po_candidate_id o) (po_symbol o) (po_timestamp o)
    (fill_price o) (fee_usdt o) (po_quantity o) (po_quantity o) stop stop atr pl PS_OPEN 0 ZERO [] None None
    (po_evidence o) methods None).

Section Engine.
Context (engine : PaperLifecycleEngine).

(** [PaperLifecycleEngine._review] *)
Definition _review (reason : ExitReason) (c : ClosureContext) (staged : bool) : PaperClosureReview :=
  let trailing := bool_decide (reason = TRAILING_STOP_EXIT) in
  mk_review reason None (if negb (bool_decide (reason = TAKE_PROFIT_EXIT)) then "PROTECTIVE" else "NOT_TRIGGERED")
    (if trailing then "PROTECTIVE" else "NOT_TRIGGERED") c
    (if staged then "USED" else "NOT_USED_REVIEW")
    (if trailing then "REVIEW_PREMATURE_TRAILING" else "REVIEW_EXIT_CONTEXT").

(** [replace(position, remaining_quantity=..., ...)] of [_apply_exit] *)
Definition after_exit (p : LifecyclePosition) (remaining : dec) (status : PositionStatus) (next : nat) (pnl : dec)
  (e : LifecycleExit) (review : option PaperClosureReview) : LifecyclePosition :=
  mk_lifecycle (position_id p) (lp_candidate_id p) (lp_symbol p) (opened_at p) (lp_entry_price p) (entry_fee p)
    (initial_quantity p) remaining (lp_stop_loss p) (trailing_stop p) (lp_atr p) (plan p) status next pnl
    (exits p ++ [e]) review (planned_rr p) (lp_evidence p) (lp_methods p) (closure_assessment p).

(** [PaperLifecycleEngine._apply_exit] *)
Definition _apply_exit (p : LifecyclePosition) (at_ : datetime) (reason : ExitReason) (price quantity : dec)
  (c : ClosureContext) (next : nat) : res LifecyclePosition :=
  gross ← dmul price quantity;
  fee ← dmul gross (le_fee_ratio engine);
  share ← dmul (entry_fee p) quantity;
  allocated ← ddiv share (initial_quantity p);
  gain ← dsub price (lp_entry_price p);
  gain ← dmul gain quantity;
  gain ← dsub gain fee;
  pnl ← dsub gain allocated;
  remaining ← dsub (remaining_quantity p) quantity;
  let done := (remaining =? ZERO)%D in
  e ← new_exit (mk_exit at_ reason price quantity fee pnl);
  total ← dadd (realized_pnl p) pnl;
  new_lifecycle (after_exit p remaining (if done then PS_CLOSED else PS_PARTIALLY_CLOSED) next total e
    (if done then Some (_review reason c (negb (is_nil (exits p)) || bool_decide (reason = TAKE_PROFIT_EXIT)))
     else None)).

(** [PaperLifecycleEngine._close_remaining] *)
Definition _close_remaining (p : LifecyclePosition) (at_ : datetime) (reason : ExitReason) (price : dec)
  (c : ClosureContext) : res LifecyclePosition :=
  _apply_exit p at_ reason price (remaining_quantity p) c (next_target_index p).

(** [ONE - self.slippage_ratio] *)
Definition slipped (price : dec) : res dec :=
  keep ← dsub ONE (le_slippage_ratio engine); dmul price keep.

(** The [while] loop over the targets that are still ahead: [stages] are the
    targets and ratios from [next_target_index] on.  [true] is the early return
    of a closed position. *)
Fixpoint take_targets (stages : list (dec * dec)) (c : OHLCVCandle) (x : ClosureContext) (p : LifecyclePosition)
  : res (LifecyclePosition * bool) :=
  match stages with
  | [] => mret (p, false)
  | (target, ratio) :: stages =>
      if (c_high c <? target)%D then mret (p, false)
      else
        planned ← dmul (initial_quantity p) ratio;
        price ← slipped target;
        p ← _apply_exit p (c_timestamp c) TAKE_PROFIT_EXIT price (dmin planned (remaining_quantity p)) x
              (S (next_target_index p));
        if closed p then mret (p, true) else take_targets stages c x p
  end.

Definition set_trailing (stop : dec) (p : LifecyclePosition) : LifecyclePosition :=
  mk_lifecycle (position_id p) (lp_candidate_id p) (lp_symbol p) (opened_at p) (lp_entry_price p) (entry_fee p)
    (initial_quantity p) (remaining_quantity p) (lp_stop_loss p) stop (lp_atr p) (plan p) (lp_status p)
    (next_target_index p) (realized_pnl p) (exits p) (closure_review p) (planned_rr p) (lp_evidence p) (lp_methods p)
    (closure_assessment p).

(** [PaperLifecycleEngine.process_candle] *)
Definition process_candle (p : LifecyclePosition) (c : OHLCVCandle) (x : ClosureContext) : res LifecyclePosition :=
  raise_if (closed p) (ValueError "closed paper position cannot process candles");;
  raise_if (dt_ltb (c_timestamp c) (opened_at p)) (ValueError "paper candle cannot precede position open time");;
  let stop := effective_stop (lp_stop_loss p) (trailing_stop p) in
  if (c_low c <=? stop)%D then
    price ← slipped (dmin (c_open c) stop);
    _close_remaining p (c_timestamp c) (stop_reason (lp_stop_loss p) (trailing_stop p)) price x
  else
    r ← take_targets (skipn (next_target_index p) (combine (targets (plan p)) (quantity_ratios (plan p)))) c x p;
    let '(p, early) := r in
    if early : bool then mret p
    else
      trailing ← update_long_trailing_stop (trailing_stop p) (c_close c) (lp_atr p) (trailing_multiplier engine)
                   (le_tick_size engine);
      new_lifecycle (set_trailing (fst trailing) p).
End Engine.

(** ** Well-formed positions *)

Record wf (p : LifecyclePosition) : Prop := mk_wf {
  wf_identity : blank (position_id p) = false /\ blank (lp_candidate_id p) = false /\ blank (lp_symbol p) = false
    /\ naive (opened_at p) = false;
  wf_positive : forall d, In d [lp_entry_price p; initial_quantity p; lp_stop_loss p; trailing_stop p; lp_atr p] ->
    (0 < dval d)%Q;
  wf_fee : (0 <= dval (entry_fee p))%Q;
  wf_remaining : (0 <= dval (remaining_quantity p))%Q /\ (dval (remaining_quantity p) <= dval (initial_quantity p))%Q;
  wf_closed : lp_status p = PS_CLOSED <-> (dval (remaining_quantity p) == 0)%Q;
  wf_targets : targets (plan p) <> [];
  wf_evidence : exists factors, load_factors (factors_json (lp_evidence p)) = Ok factors
}.

Lemma wf_set_derived rr a p : wf (set_derived rr a p) <-> wf p.
Proof. split; intros [? ? ? ? ? ? ?]; by split. Qed.

Lemma assessment_of_Ok p : (exists factors, load_factors (factors_json (lp_evidence p)) = Ok factors) ->
  exists a, assessment_of p = Ok a.
Proof.
  intros (factors & Hf). unfold assessment_of, assess. destruct (last (exits p)) as [e|]; [|by exists None].
  destruct (closed p); [|by exists None]. destruct (causal _ _); [rewrite Hf|]; by eexists.
Qed.

Lemma zero_test d : (d =? ZERO)%D = true <-> (dval d == 0)%Q.
Proof. by rewrite deqb_spec, dval_ZERO. Qed.

(** The positivity test of the constructor. *)
Lemma positive_test d fee l :
  (dmin_list d (fee :: l) <? ZERO)%D || (dmin_list d l =? ZERO)%D = false
  <-> (0 <= dval fee)%Q /\ forall x, In x (d :: l) -> (0 < dval x)%Q.
Proof.
  rewrite orb_false_iff, dmin_list_nonneg, <- dmin_list_pos_iff, deqb_false, dleb_false, dval_ZERO. split.
  - intros (H1 & H2). split; [apply H1; by right; left|].
    assert (0 <= dval (dmin_list d l))%Q as Hle.
    { apply dmin_list_ge. intros x [<-|Hx]; apply H1; [by left|by right; right]. }
    apply Qle_lteq in Hle as [|E]; [done|]. exfalso. apply H2. by symmetry.
  - intros (H1 & H2). split; [|intros E; rewrite E in H2; by apply Qlt_irrefl in H2].
    assert (forall x, In x (d :: l) -> (0 <= dval x)%Q) as Hp.
    { intros x Hx. eapply Qle_trans; [apply Qlt_le_weak, H2|by apply dmin_list_le]. }
    intros x [<-|[<-|Hx]]; [apply Hp; by left|done|apply Hp; by right].
Qed.

(** The constructor accepts exactly the well-formed positions, up to signals of
    the arithmetic, and only computes the planned ratio. *)
Lemma new_lifecycle_wf p0 p : (exists factors, load_factors (factors_json (lp_evidence p0)) = Ok factors) ->
  new_lifecycle p0 = Ok p -> wf p0 /\ exists rr a, p = set_derived rr a p0.
Proof.
  intros Hev. unfold new_lifecycle. intros H.
  do 7 (let u := fresh "u" in let Hr := fresh "Hr" in apply bind_Ok in H as (u & Hr & H); apply raise_if_Ok in Hr).
  apply bind_Ok in H as (risk & _ & H). apply bind_Ok in H as (first & Hf & H).
  apply bind_Ok in H as (reward & _ & H). apply bind_Ok in H as (rr & _ & H). apply bind_Ok in H as (a & _ & H).
  apply mret_Ok in H. split; [|by exists rr, a].
  apply orb_false_iff in Hr as (I1 & I2). apply positive_test in Hr2 as (Hfee & Hpos).
  apply negb_false_iff, andb_true_iff in Hr3 as (R1 & R2). apply dleb_spec in R1, R2. rewrite dval_ZERO in R1.
  split; try done.
  - unfold closed in Hr4, Hr5. rewrite <- zero_test.
    destruct (remaining_quantity p0 =? ZERO)%D, (bool_decide_reflect (lp_status p0 = PS_CLOSED)); cbn in *; naive_solver.
  - intros E. by rewrite E in Hf.
Qed.

Lemma new_lifecycle_safely p0 : wf p0 ->
  safely (new_lifecycle p0) (fun p => exists rr a, p = set_derived rr a p0 /\ assessment_of p0 = Ok a).
Proof.
  intros [(I1 & I2 & I3 & I4) Hpos Hfee (R1 & R2) Hc Ht Hev]. unfold new_lifecycle.
  apply safely_guard; [by rewrite I1, I2|]. apply safely_guard; [done|]. apply safely_guard; [done|].
  apply safely_guard; [apply positive_test; split; [done|]; intros x Hx; apply Hpos; cbn in *; tauto|].
  apply safely_guard.
  { rewrite negb_false_iff, andb_true_iff, !dleb_spec, dval_ZERO. done. }
  rewrite <- zero_test in Hc. unfold closed.
  apply safely_guard; [destruct (_ =? _)%D, (bool_decide_reflect (lp_status p0 = PS_CLOSED)); naive_solver|].
  apply safely_guard; [destruct (_ =? _)%D, (bool_decide_reflect (lp_status p0 = PS_CLOSED)); naive_solver|].
  eapply safely_bind; [apply safely_dsub|]. intros risk _.
  destruct (targets (plan p0)) as [|t ts]; [done|]. rewrite Ok_bind.
  eapply safely_bind; [apply safely_dsub|]. intros reward _.
  eapply (safely_bind _ _ (fun _ => True)).
  { destruct (ZERO <? risk)%D; [|done]. eapply safely_bind; [apply safely_ddiv|]. done. }
  intros rr _. destruct (assessment_of_Ok _ Hev) as (a & E). rewrite E. cbn. by exists rr, a.
Qed.

(** A closed position has its review, and the assessment of its evidence. *)
Definition reviewed (p : LifecyclePosition) : Prop :=
  closure_review p <> None
  /\ exists a, closure_assessment p = Some a /\ decision_evidence_sha256 a = de_sha256 (lp_evidence p).

Lemma assessed_exit p e a : last (exits p) = Some e -> lp_status p = PS_CLOSED -> assessment_of p = Ok a ->
  exists a', a = Some a' /\ decision_evidence_sha256 a' = de_sha256 (lp_evidence p).
Proof.
  unfold assessment_of. intros -> Hc. unfold closed. rewrite bool_decide_eq_true_2 by done. intros H.
  apply bind_Ok in H as (a' & Ha & H). apply mret_Ok in H as <-. exists a'. split; [done|].
  unfold assess in Ha. apply bind_Ok in Ha as (factors & _ & Ha). by apply mret_Ok in Ha as <-.
Qed.

(** ** One exit *)

Section Steps.
Context (engine : PaperLifecycleEngine).
Hypothesis fee_nonneg : (0 <= dval (le_fee_ratio engine))%Q.

(** What an exit keeps, and what it adds. *)
Record exited (p p' : LifecyclePosition) (at_ : datetime) (reason : ExitReason) (price quantity : dec) (next : nat)
  : Prop := mk_exited {
  xt_wf : wf p';
  xt_repr : repr (remaining_quantity p');
  xt_same : position_id p' = position_id p /\ lp_candidate_id p' = lp_candidate_id p /\ lp_symbol p' = lp_symbol p
    /\ opened_at p' = opened_at p /\ lp_entry_price p' = lp_entry_price p /\ initial_quantity p' = initial_quantity p
    /\ lp_stop_loss p' = lp_stop_loss p /\ lp_atr p' = lp_atr p /\ plan p' = plan p
    /\ lp_evidence p' = lp_evidence p /\ lp_methods p' = lp_methods p;
  xt_trailing : trailing_stop p' = trailing_stop p;
  xt_next : next_target_index p' = next;
  xt_remaining : (dval (remaining_quantity p') <= dval (remaining_quantity p))%Q;
  xt_all : (dval quantity == dval (remaining_quantity p))%Q -> lp_status p' = PS_CLOSED;
  xt_exit : exists e, exits p' = exits p ++ [e] /\ ex_timestamp e = at_ /\ ex_reason e = reason
    /\ ex_price e = price /\ ex_quantity e = quantity;
  xt_review : lp_status p' = PS_CLOSED -> reviewed p'
}.

Lemma apply_exit_safely p at_ reason price quantity x next :
  wf p -> repr (remaining_quantity p) -> naive at_ = false -> (0 <= dval price)%Q -> (0 <= dval quantity)%Q ->
  (dval quantity <= dval (remaining_quantity p))%Q ->
  safely (_apply_exit engine p at_ reason price quantity x next)
    (fun p' => exited p p' at_ reason price quantity next).
Proof.
  intros Hwf Hrepr Hat Hprice Hq Hle. unfold _apply_exit.
  eapply safely_bind; [apply safely_dmul|]. intros gross Hg.
  eapply safely_bind; [apply safely_dmul|]. intros fee Hf.
  do 2 (eapply safely_bind; [first [apply safely_dmul|apply safely_ddiv]|]; intros ? _).
  do 4 (eapply safely_bind; [first [apply safely_dmul|apply safely_dsub]|]; intros ? _).
  eapply safely_bind; [apply safely_dsub|]. intros remaining Hr. cbv zeta.
  assert (0 <= dval gross)%Q by (eapply faithful_nonneg; [exact Hg|by apply Qmult_le_0_compat]).
  assert (0 <= dval fee)%Q by (eapply faithful_nonneg; [exact Hf|by apply Qmult_le_0_compat]).
  assert (0 <= dval remaining)%Q as Hr0 by (eapply faithful_nonneg; [exact Hr|lra]).
  assert (dval remaining <= dval (remaining_quantity p))%Q as Hr1 by (apply (faithful_le _ _ Hr); [done|lra]).
  eapply (safely_bind _ _ (fun e => ex_timestamp e = at_ /\ ex_reason e = reason /\ ex_price e = price
    /\ ex_quantity e = quantity)).
  { unfold new_exit. apply safely_guard; [done|]. apply safely_guard; [|done].
    apply dmin_list_nonneg. intros d [<-|[<-|[<-|[]]]]; done. }
  intros e He. eapply safely_bind; [apply safely_dadd|]. intros total _.
  set (rv := if (remaining =? ZERO)%D then Some _ else None).
  set (p1 := after_exit p remaining _ next total e rv).
  assert (wf p1) as W1.
  { destruct Hwf as [I P F (R1 & R2) C T Ev]. split; try done; cbn -[dval].
    - split; [done|]. by eapply Qle_trans.
    - rewrite <- zero_test. by destruct (remaining =? ZERO)%D. }
  eapply safely_weaken; [by apply new_lifecycle_safely|]. intros p' (rr & ca & -> & Hca).
  assert ((dval quantity == dval (remaining_quantity p))%Q -> (remaining =? ZERO)%D = true) as Hall.
  { intros E. apply zero_test. pose proof (faithful_exact _ _ ZERO Hr repr_ZERO) as Hx. rewrite dval_ZERO in Hx.
    rewrite Hx; lra. }
  split; try done.
  - by apply wf_set_derived.
  - exact (faithful_repr _ _ Hr).
  - intros E. cbn. by rewrite (Hall E).
  - exists e. done.
  - intros Hc. split.
    + cbn in Hc |- *. subst rv. by destruct (remaining =? ZERO)%D.
    + eapply assessed_exit in Hca as (b & -> & Hb); [by exists b| |exact Hc]. cbn. by rewrite last_snoc.
Qed.

(** What any number of exits and stop updates keep. *)
Record advanced (p p' : LifecyclePosition) : Prop := mk_advanced {
  ad_wf : wf p';
  ad_repr : repr (remaining_quantity p');
  ad_same : position_id p' = position_id p /\ lp_candidate_id p' = lp_candidate_id p /\ lp_symbol p' = lp_symbol p
    /\ opened_at p' = opened_at p /\ lp_entry_price p' = lp_entry_price p /\ initial_quantity p' = initial_quantity p
    /\ lp_stop_loss p' = lp_stop_loss p /\ lp_atr p' = lp_atr p /\ plan p' = plan p
    /\ lp_evidence p' = lp_evidence p /\ lp_methods p' = lp_methods p;
  ad_trailing : (dval (trailing_stop p) <= dval (trailing_stop p'))%Q;
  ad_next : (next_target_index p <= next_target_index p')%nat;
  ad_remaining : (dval (remaining_quantity p') <= dval (remaining_quantity p))%Q;
  ad_exits : exists l, exits p' = exits p ++ l
}.

Lemma advanced_refl p : wf p -> repr (remaining_quantity p) -> advanced p p.
Proof. intros. split; try done; try apply Qle_refl. exists []. by rewrite app_nil_r. Qed.

Lemma advanced_trans p q r : advanced p q -> advanced q r -> advanced p r.
Proof.
  intros [W1 R1 S1 T1 N1 Q1 (l & E1)] [W2 R2 S2 T2 N2 Q2 (k & E2)]. split; try done.
  - destruct S1 as (? & ? & ? & ? & ? & ? & ? & ? & ? & ? & ?), S2 as (? & ? & ? & ? & ? & ? & ? & ? & ? & ? & ?).
    repeat split; etransitivity; eassumption.
  - by eapply Qle_trans.
  - lia.
  - by eapply Qle_trans.
  - exists (l ++ k). by rewrite E2, E1, app_assoc.
Qed.

Lemma exited_advanced p p' at_ reason price q next : exited p p' at_ reason price q next ->
  (next_target_index p <= next)%nat -> advanced p p'.
Proof.
  intros [W R S T N Q _ (e & E & _) _] Hn. split; try done.
  - rewrite T. apply Qle_refl.
  - by rewrite N.
  - by exists [e].
Qed.

Hypothesis slippage_bound : (0 <= dval (le_slippage_ratio engine) <= 1)%Q.

Lemma slipped_safely price : (0 <= dval price)%Q ->
  safely (slipped engine price) (fun r => (0 <= dval r)%Q /\ (repr price -> (dval r <= dval price)%Q)).
Proof.
  intros Hp. unfold slipped. eapply safely_bind; [apply safely_dsub|]. intros keep Hk.
  assert (0 <= dval keep)%Q.
  { eapply faithful_nonneg; [exact Hk|]. rewrite dval_ONE. lra. }
  assert (dval keep <= 1)%Q.
  { rewrite <- dval_ONE. apply (faithful_le _ _ Hk); [apply repr_ONE|]. rewrite dval_ONE. lra. }
  eapply safely_weaken; [apply safely_dmul|]. intros r Hr. split.
  - eapply faithful_nonneg; [exact Hr|]. by apply Qmult_le_0_compat.
  - intros Hrep. apply (faithful_le _ _ Hr); [done|].
    rewrite <- (Qmult_1_r (dval price)) at 2. rewrite !(Qmult_comm (dval price)). by apply Qmult_le_compat_r.
Qed.

Lemma take_targets_safely c x stages : forall p,
  (forall tr, In tr stages -> (0 <= dval tr.1)%Q /\ (0 <= dval tr.2)%Q) -> naive (c_timestamp c) = false ->
  wf p -> repr (remaining_quantity p) -> lp_status p <> PS_CLOSED ->
  safely (take_targets engine stages c x p)
    (fun r => advanced p r.1 /\ trailing_stop r.1 = trailing_stop p /\ r.2 = closed r.1
              /\ (closed r.1 = true -> reviewed r.1)).
Proof.
  induction stages as [|[t ratio] stages IH]; intros p Hs Hn Hwf Hrep Ho; cbn [take_targets].
  { split; [by apply advanced_refl|]. unfold closed. by rewrite bool_decide_eq_false_2. }
  destruct (c_high c <? t)%D.
  { split; [by apply advanced_refl|]. unfold closed. by rewrite bool_decide_eq_false_2. }
  destruct (Hs (t, ratio)) as (Ht & Hr); [by left|]. cbn in Ht, Hr.
  eapply safely_bind; [apply safely_dmul|]. intros planned Hplanned.
  eapply safely_bind; [by apply slipped_safely|]. intros price (Hprice & _).
  destruct (wf_remaining _ Hwf) as (Hrem & _).
  assert (0 <= dval planned)%Q as Hplan.
  { eapply faithful_nonneg; [exact Hplanned|]. apply Qmult_le_0_compat; [|done].
    apply Qlt_le_weak, (wf_positive _ Hwf). cbn. tauto. }
  eapply safely_bind.
  { apply apply_exit_safely; try done.
    - unfold dmin. by destruct (_ <? _)%D.
    - apply dmin_spec. }
  intros p1 Hx. pose proof (exited_advanced _ _ _ _ _ _ _ Hx (Nat.le_succ_diag_r _)) as Ha.
  destruct (closed p1) eqn:Ec.
  - split; [done|]. split; [apply Hx|]. split; [done|]. intros _. apply (xt_review _ _ _ _ _ _ _ Hx).
    by apply bool_decide_eq_true in Ec.
  - eapply safely_weaken.
    + apply IH; try done; [intros tr Htr; apply Hs; by right|apply Hx|apply Hx|].
      intros E. unfold closed in Ec. by rewrite E in Ec.
    + intros r (A & B & C & D). split; [by eapply advanced_trans|]. split; [|done].
      rewrite B. apply Hx.
Qed.
End Steps.

(** ** Properties *)

(** What an engine's constructor guarantees. *)
Lemma engine_bounds e : new_engine e = Ok e ->
  (0 <= dval (le_fee_ratio e))%Q /\ (0 <= dval (le_slippage_ratio e) <= 1)%Q
  /\ (0 < dval (trailing_multiplier e))%Q /\ (0 < dval (le_tick_size e))%Q.
Proof.
  unfold new_engine. intros H.
  do 3 (let u := fresh "u" in let Hr := fresh "Hr" in apply bind_Ok in H as (u & Hr & H); apply raise_if_Ok in Hr).
  unfold between in Hr, Hr0. apply negb_false_iff, andb_true_iff in Hr as (F1 & _), Hr0 as (S1 & S2).
  apply dleb_spec in F1, S1, S2. rewrite dval_ZERO in F1, S1.
  assert (dval (lit 2 (-2)) <= 1)%Q by (vm_compute; discriminate).
  split; [done|]. split; [lra|].
  split; apply (dmin_list_pos (trailing_multiplier e) [le_tick_size e] Hr1); cbn; tauto.
Qed.

(** The stages of an accepted plan are positive. *)
Lemma plan_stages pl n tr : new_plan pl = Ok pl -> In tr (skipn n (combine (targets pl) (quantity_ratios pl))) ->
  (0 <= dval tr.1)%Q /\ (0 <= dval tr.2)%Q.
Proof.
  unfold new_plan. intros H Hin.
  do 2 (let u := fresh "u" in let Hr := fresh "Hr" in apply bind_Ok in H as (u & Hr & H); apply raise_if_Ok in Hr).
  assert (In tr (combine (targets pl) (quantity_ratios pl))) as Hc.
  { rewrite <- (firstn_skipn n). apply in_app_iff. by right. }
  destruct tr as [t r]. assert (forall d, In d (targets pl ++ quantity_ratios pl) -> (0 <= dval d)%Q) as Hall.
  { intros d Hd. apply Qlt_le_weak, Qnot_le_lt. intros Hle. apply not_true_iff_false in Hr0. apply Hr0.
    apply existsb_exists. exists d. split; [done|]. apply dleb_spec. by rewrite dval_ZERO. }
  split; apply Hall, in_app_iff; [left|right]; cbn; [by eapply in_combine_l|by eapply in_combine_r].
Qed.

(** The step of [candle_advances], for the proofs below. *)
Lemma candle_advances_safely engine p c x :
  new_engine engine = Ok engine -> new_plan (plan p) = Ok (plan p) -> new_candle c = Ok c ->
  wf p -> repr (remaining_quantity p) -> lp_status p <> PS_CLOSED -> instant (opened_at p) <= instant (c_timestamp c) ->
  safely (process_candle engine p c x)
    (fun p' => advanced p p' /\ (lp_status p' = PS_CLOSED -> reviewed p')).
Proof.
  intros He Hp Hc Hwf Hrep Ho Ht. destruct (engine_bounds _ He) as (F & S & M & K).
  destruct (candle_order _ Hc) as (Hn & Hlow & Hclose & Hopen).
  pose proof (wf_positive _ Hwf) as Hpos. destruct (wf_remaining _ Hwf) as (Hrem & _).
  unfold process_candle. apply safely_guard; [by apply bool_decide_eq_false_2|].
  apply safely_guard; [unfold dt_ltb; by apply Z.ltb_ge|]. cbv zeta.
  destruct (dmax_spec (lp_stop_loss p) (trailing_stop p)) as (D1 & D2 & _). unfold effective_stop.
  assert (0 < dval (dmax (lp_stop_loss p) (trailing_stop p)))%Q as Dp.
  { eapply Qlt_le_trans; [|exact D2]. apply Hpos. cbn. tauto. }
  destruct (c_low c <=? dmax (lp_stop_loss p) (trailing_stop p))%D eqn:El.
  - eapply safely_bind.
    { apply slipped_safely; [done|]. unfold dmin. destruct (_ <? _)%D; [by apply Qlt_le_weak|exact (Qle_trans _ _ _ Hlow Hopen)]. }
    intros price (Hprice & _). unfold _close_remaining.
    eapply safely_weaken; [apply apply_exit_safely; [done..|apply Qle_refl]|]. cbn. intros p' Hx.
    split; [by eapply exited_advanced|]. by apply (xt_review _ _ _ _ _ _ _ Hx).
  - apply dleb_false in El. eapply safely_bind.
    { apply take_targets_safely; try done. intros tr. by apply plan_stages. }
    intros [p1 early] (Ha & Htr & Hearly & Hrv). cbn in Ha, Htr, Hearly, Hrv |- *. subst early.
    destruct (closed p1) eqn:Ec; [cbn; split; [done|]; auto|].
    destruct (ad_same _ _ Ha) as (_ & _ & _ & _ & _ & _ & _ & Hatr & _).
    assert (dval (trailing_stop p1) < dval (c_close c))%Q as Hlt.
    { rewrite Htr. eapply Qle_lt_trans; [exact D2|]. by eapply Qlt_le_trans. }
    eapply safely_bind.
    { apply trailing_stop_safely; [|exact Hlt]. rewrite Htr, Hatr.
      intros d [<-|[<-|[<-|[<-|[<-|[]]]]]]; try done; try (apply Hpos; cbn; tauto).
      eapply Qlt_trans; [|exact Hlt]. rewrite Htr. apply Hpos. cbn. tauto. }
    intros [stop moved] Hstop. cbn [fst] in *.
    assert (wf (set_trailing stop p1)) as W.
    { destruct (ad_wf _ _ Ha) as [I P Fe R Cl T Ev]. split; try done. cbn. intros d Hd.
      assert (0 < dval (trailing_stop p1))%Q by (apply P; cbn; tauto).
      destruct Hd as [<-|[<-|[<-|[<-|[<-|[]]]]]]; try (apply P; cbn; tauto). by eapply Qlt_le_trans. }
    eapply safely_weaken; [by apply new_lifecycle_safely|]. intros p' (rr & ca & -> & Hca). split.
    + eapply advanced_trans; [exact Ha|]. split; try done; cbn.
      * by apply wf_set_derived.
      * apply Ha.
      * apply Qle_refl.
      * exists []. by rewrite app_nil_r.
    + cbn. intros E. unfold closed in Ec. by rewrite E in Ec.
Qed.

(** A candle is never refused and never loosens a position.  For an
    accepted engine, plan and candle and a well-formed open position,
    [process_candle] returns, or stops with a signal of the decimal arithmetic,
    but raises no ValueError.  The position it returns is well-formed with the
    same identity, entry, stop and plan; the trailing stop has not moved down, the
    remaining quantity has not grown, the earlier exits are kept, and a closed
    position has its review. *)
Theorem candle_advances engine p c x :
  new_engine engine = Ok engine -> new_plan (plan p) = Ok (plan p) -> new_candle c = Ok c ->
  wf p -> repr (remaining_quantity p) -> lp_status p <> PS_CLOSED -> instant (opened_at p) <= instant (c_timestamp c) ->
  safely (process_candle engine p c x)
    (fun p' => advanced p p' /\ (lp_status p' = PS_CLOSED -> reviewed p')).
Proof. apply candle_advances_safely. Qed.

(** A touched stop closes everything, first and pessimistically.  When the
    candle's low reaches the stop in force, whatever the high, the position the
    engine returns is closed by one exit of the whole remaining quantity, for the
    reason of the stop, at a price not above the stop nor the open. *)
Theorem touched_stop_closes engine p c x p' :
  new_engine engine = Ok engine -> new_candle c = Ok c -> wf p -> repr (remaining_quantity p) ->
  repr (effective_stop (lp_stop_loss p) (trailing_stop p)) -> repr (c_open c) ->
  (dval (c_low c) <= dval (effective_stop (lp_stop_loss p) (trailing_stop p)))%Q ->
  process_candle engine p c x = Ok p' ->
  lp_status p' = PS_CLOSED /\ (dval (remaining_quantity p') == 0)%Q
  /\ exists e, exits p' = exits p ++ [e] /\ ex_quantity e = remaining_quantity p
     /\ ex_reason e = stop_reason (lp_stop_loss p) (trailing_stop p)
     /\ (dval (ex_price e) <= dval (effective_stop (lp_stop_loss p) (trailing_stop p)))%Q
     /\ (dval (ex_price e) <= dval (c_open c))%Q.
Proof.
  intros He Hc Hwf Hrep Hrs Hro Hlow. destruct (engine_bounds _ He) as (F & S & _).
  destruct (candle_order _ Hc) as (Hn & Hl & _ & Hopen).
  unfold process_candle. intros H. apply bind_Ok in H as (u & _ & H). apply bind_Ok in H as (v & _ & H).
  cbv zeta in H. set (stop := effective_stop _ _) in *.
  rewrite (proj2 (dleb_spec _ _) Hlow) in H. apply bind_Ok in H as (price & Hp & H).
  destruct (dmin_spec (c_open c) stop) as (M1 & M2 & _).
  assert (0 <= dval (dmin (c_open c) stop))%Q as Hm.
  { unfold dmin. destruct (_ <? _)%D; [by apply (Qle_trans _ _ _ Hl)|by apply (Qle_trans _ _ _ Hl)]. }
  assert (repr (dmin (c_open c) stop)) by (unfold dmin; by destruct (_ <? _)%D).
  destruct (safely_Ok _ _ _ (slipped_safely engine S _ Hm) Hp) as (Hp0 & Hple).
  assert (exited p p' (c_timestamp c) (stop_reason (lp_stop_loss p) (trailing_stop p)) price (remaining_quantity p)
            (next_target_index p)) as [W _ _ _ _ _ Hall (e & E1 & _ & E3 & E4 & E5) _].
  { pose proof (apply_exit_safely engine F p (c_timestamp c) (stop_reason (lp_stop_loss p) (trailing_stop p)) price
      (remaining_quantity p) x (next_target_index p) Hwf Hrep Hn Hp0 (proj1 (wf_remaining _ Hwf)) (Qle_refl _)) as Hx.
    unfold _close_remaining in H. by rewrite H in Hx. }
  specialize (Hall (Qeq_refl _)). split; [done|]. split; [by apply (wf_closed _ W)|].
  exists e. rewrite E4. split; [done|]. split; [done|]. split; [done|].
  split; (eapply Qle_trans; [by apply Hple|done]).
Qed.

(** The positions a broker's fills and any number of candles lead to. *)
Inductive traded (engine : PaperLifecycleEngine) : LifecyclePosition -> Prop :=
| traded_open o stop atr pl p :
    new_plan pl = Ok pl -> repr (po_quantity o) ->
    evidence_built (po_evidence o) -> open_position o stop atr pl = Ok p -> traded engine p
| traded_candle p c x p' :
    traded engine p -> new_candle c = Ok c -> process_candle engine p c x = Ok p' -> traded engine p'.

(** A candle the engine accepts advances an open position. *)
Lemma accepted_candle_advances engine p c x p' : new_engine engine = Ok engine ->
  wf p -> repr (remaining_quantity p) -> new_plan (plan p) = Ok (plan p) ->
  new_candle c = Ok c -> process_candle engine p c x = Ok p' ->
  advanced p p' /\ (lp_status p' = PS_CLOSED -> reviewed p').
Proof.
  intros He Hwf Hrep Hpl Hc H. assert (H2 := H). unfold process_candle in H2.
  apply bind_Ok in H2 as (u & Hu & H2). apply bind_Ok in H2 as (v & Hv & _). apply raise_if_Ok in Hu, Hv.
  apply bool_decide_eq_false in Hu. apply Z.ltb_ge in Hv.
  exact (safely_Ok _ _ _ (candle_advances_safely engine p c x He Hpl Hc Hwf Hrep Hu Hv) H).
Qed.

Lemma traded_sound engine p : new_engine engine = Ok engine -> traded engine p ->
  (wf p /\ repr (remaining_quantity p) /\ new_plan (plan p) = Ok (plan p))
  /\ (dval (lp_stop_loss p) <= dval (trailing_stop p))%Q
  /\ (dval (lp_stop_loss p) < dval (lp_entry_price p))%Q
  /\ (lp_status p = PS_CLOSED -> reviewed p).
Proof.
  intros He. induction 1 as [o stop atr pl p Hpl Hrep Hev H|p c x p' Ht IH Hc H].
  - unfold open_position in H.
    do 4 (let u := fresh "u" in let Hr := fresh "Hr" in apply bind_Ok in H as (u & Hr & H); apply raise_if_Ok in Hr).
    apply bind_Ok in H as (methods & _ & H).
    apply new_lifecycle_wf in H as (Hwf & rr & a & ->); [|by apply evidence_built_loads]. rewrite wf_set_derived. cbn. apply dleb_false in Hr1.
    split; [done|]. split; [apply Qle_refl|]. done.
  - destruct IH as ((Hwf & Hrep & Hpl) & I1 & I2 & _).
    pose proof (accepted_candle_advances _ _ _ _ _ He Hwf Hrep Hpl Hc H) as ([W R S T _ _ _] & V).
    destruct S as (_ & _ & _ & _ & S1 & _ & S2 & _ & S3 & _). rewrite S1, S2, S3.
    split; [done|]. split; [by eapply Qle_trans|done].
Qed.

(** C40: the invariant of every position that a fill and any candles lead to: it
    is well-formed (positive prices, remaining quantity between zero and the
    initial one, CLOSED exactly when nothing remains), its trailing stop is never
    below its initial stop, which is below its entry, and when closed it has
    its review and the assessment of its own decision evidence.  Whatever
    candle comes next, the position it leaves has a trailing stop at or above
    the one before, the same initial stop, no larger remaining quantity and no
    lower target reached, and its exits are those before and possibly more: a
    stop never moves down between two candles. *)
Theorem traded_position_invariant engine p : new_engine engine = Ok engine -> traded engine p ->
  wf p /\ (dval (lp_stop_loss p) <= dval (trailing_stop p))%Q
  /\ (dval (lp_stop_loss p) < dval (lp_entry_price p))%Q
  /\ (lp_status p = PS_CLOSED -> reviewed p)
  /\ forall c x p', new_candle c = Ok c -> process_candle engine p c x = Ok p' ->
     (dval (trailing_stop p) <= dval (trailing_stop p'))%Q /\ lp_stop_loss p' = lp_stop_loss p
     /\ (dval (remaining_quantity p') <= dval (remaining_quantity p))%Q
     /\ (next_target_index p <= next_target_index p')%nat /\ exists l, exits p' = exits p ++ l.
Proof.
  intros He Ht. pose proof (traded_sound _ _ He Ht) as ((W & R & P) & I1 & I2 & I3). do 4 (split; [done|]).
  intros c x p' Hc H. pose proof (accepted_candle_advances _ _ _ _ _ He W R P Hc H) as ([_ _ S T N Q X] & _).
  destruct S as (_ & _ & _ & _ & _ & _ & S1 & _). done.
Qed.

(** ** Examples *)

Definition ex_engine : PaperLifecycleEngine := mk_engine (lit 1 (-3)) (lit 5 (-4)) (lit 15 (-1)) (lit 1 (-2)).
Definition ex_plan : StagedExitPlan := mk_plan [lit 120 0; lit 130 0] [lit 5 (-1); lit 25 (-2)].
Definition ex_order : PaperOrder :=
  mk_paper_order "c-1" (utc 0) "BTCUSDT" BUY PO_FILLED (lit 4 0) (lit 100 0) (lit 10005 (-2)) (lit 40 (-2)) []
    (Some (lit 90 0)) [lit 120 0] None ex_evidence default_methods.
Definition ex_closure : ClosureContext := mk_closure 0 false false false.
Definition ex_candle (o h l c : Z) : OHLCVCandle :=
  mk_candle (utc (seconds 60)) (lit o 0) (lit h 0) (lit l 0) (lit c 0) (lit 1 0).
Definition ex_opened : LifecyclePosition := Eval vm_compute in
  ok_or (mk_lifecycle "" "" "" (utc 0) ZERO ZERO ZERO ZERO ZERO ZERO ZERO ex_plan PS_OPEN 0 ZERO [] None None
    ex_evidence default_methods None)
    (open_position ex_order (lit 90 0) (lit 2 0) ex_plan).

(** Both targets are reached, half and a quarter are sold, the stop follows. *)
Example ex_staged :
  let p := ok_or ex_opened (process_candle ex_engine ex_opened (ex_candle 110 135 105 128) ex_closure) in
  (lp_status p, next_target_index p, length (exits p)) = (PS_PARTIALLY_CLOSED, 2%nat, 2%nat)
  /\ (remaining_quantity p =? lit 1 0)%D && (trailing_stop p =? lit 125 0)%D = true.
Proof. vm_compute. split; reflexivity. Qed.

Lemma ex_opened_sound :
  (wf ex_opened /\ repr (remaining_quantity ex_opened) /\ new_plan (plan ex_opened) = Ok (plan ex_opened)).
Proof.
  refine (proj1 (traded_sound ex_engine ex_opened _ _)); [vm_compute; reflexivity|].
  eapply (traded_open _ ex_order (lit 90 0) (lit 2 0) ex_plan); [vm_compute; reflexivity|split; vm_compute; discriminate| |].
  { exists "RECORDED_AT_DECISION", (Some (utc 5)), "CONFIRMED_SWING_GRAPH", "CLOSE_RECLAIM", (dumps ex_factors).
    exact ex_evidence_new. }
  vm_compute. reflexivity.
Qed.

Lemma candle_advances_witness : exists p',
  process_candle ex_engine ex_opened (ex_candle 110 135 105 128) ex_closure = Ok p' /\ advanced ex_opened p'.
Proof.
  destruct ex_opened_sound as (W & R & P).
  assert (H : safely (process_candle ex_engine ex_opened (ex_candle 110 135 105 128) ex_closure)
     (fun p' => advanced ex_opened p' /\ (lp_status p' = PS_CLOSED -> reviewed p'))).
  { apply (candle_advances ex_engine ex_opened (ex_candle 110 135 105 128) ex_closure); try exact W; try exact R; try exact P;
      try (vm_compute; reflexivity); vm_compute; discriminate. }
  destruct (process_candle _ _ _ _) as [p'|e] eqn:E; [exists p'; split; [reflexivity|apply H]|].
  vm_compute in E. discriminate.
Defined.

Lemma touched_stop_closes_witness : exists p',
  process_candle ex_engine ex_opened (ex_candle 110 135 90 128) ex_closure = Ok p' /\ lp_status p' = PS_CLOSED.
Proof.
  destruct ex_opened_sound as (W & R & P). eexists. split; [vm_compute; reflexivity|].
  eapply (touched_stop_closes ex_engine ex_opened (ex_candle 110 135 90 128) ex_closure);
    try exact W; try exact R; try (vm_compute; reflexivity); try (split; vm_compute; discriminate); vm_compute; discriminate.
Defined.

Lemma traded_position_invariant_witness : exists p',
  process_candle ex_engine ex_opened (ex_candle 110 135 105 128) ex_closure = Ok p'
  /\ (dval (trailing_stop ex_opened) <= dval (trailing_stop p'))%Q /\ wf ex_opened.
Proof.
  destruct (traded_position_invariant ex_engine ex_opened) as (W & _ & _ & _ & Hnext); [vm_compute; reflexivity| |].
  - eapply (traded_open _ ex_order (lit 90 0) (lit 2 0) ex_plan); [vm_compute; reflexivity|split; vm_compute; discriminate| |].
    { exists "RECORDED_AT_DECISION", (Some (utc 5)), "CONFIRMED_SWING_GRAPH", "CLOSE_RECLAIM", (dumps ex_factors).
      exact ex_evidence_new. }
    vm_compute. reflexivity.
  - eexists. split; [vm_compute; reflexivity|]. split; [|exact W].
    refine (proj1 (Hnext (ex_candle 110 135 105 128) ex_closure _ _ _)); vm_compute; reflexivity.
Defined.
