(* ===== verification/PaperLedger.v ===== *)
(** [execution/ledger.py]: the append-only ledger of paper positions, on the
    lines of its audit file, and the positions it restores.

    Decimals of a stored position are finite and its target index is not
    negative; other texts leave what is modelled. *)
From S2P Require Import Prelude PyDecimal DecimalFacts DecimalText PyFloat Sha256 PyText JsonText IsoTime Serialize Attribution.
From S2P Require Import AuditLog Domain Candidate Paper PaperLifecycle.
From stdpp Require Import gmap strings.
Local Open Scope Z_scope.
Local Open Scope bool_scope.

(** ** Positions as primitives *)

Definition opt_value {A} (f : A -> pyval) (o : option A) : pyval := match o with Some a => f a | None => VNone end.
Definition VDec (d : dec) : pyval := VDecimal (Finite d).

Definition plan_value (p : StagedExitPlan) : pyval :=
  VData [("targets", VList (map VDec (targets p))); ("quantity_ratios", VList (map VDec (quantity_ratios p)))].

Definition exit_value (e : LifecycleExit) : pyval :=
  VData [ ("timestamp", VDatetime (ex_timestamp e)); ("reason", VEnum (enum_text (ex_reason e)));
          ("price", VDec (ex_price e)); ("quantity", VDec (ex_quantity e)); ("fee_usdt", VDec (ex_fee e));
          ("net_pnl_usdt", VDec (ex_pnl e)) ].

Definition review_value (r : PaperClosureReview) : pyval :=
  VData [ ("exit_reason", VEnum (enum_text (rv_reason r))); ("lifecycle_error", opt_value VStr (lifecycle_error r));
          ("stop_quality", VStr (stop_quality r)); ("trailing_quality", VStr (trailing_quality r));
          ("ignored_signals", VInt (ignored_signals (rv_context r))); ("htf_weakness", VBool (htf_weakness (rv_context r)));
          ("volatility_expansion", VBool (volatility_expansion (rv_context r)));
          ("level_break", VBool (level_break (rv_context r)));
          ("staged_exit_alternative", VStr (staged_exit_alternative r)); ("lesson_candidate", VStr (lesson_candidate r)) ].

Definition assessment_value (a : TradeClosureAssessment) : pyval :=
  VData [ ("decision_evidence_sha256", VStr (decision_evidence_sha256 a));
          ("decision_lineage_status", VStr (decision_lineage_status a));
          ("selected_scenario_id", opt_value VStr (selected_scenario_id a)); ("entry_quality", VStr (entry_quality a));
          ("stop_quality", VStr (as_stop_quality a)); ("target_quality", VStr (target_quality a));
          ("method_accuracy", VStr (method_accuracy a)); ("scenario_accuracy", VStr (scenario_accuracy a));
          ("execution_quality", VStr (execution_quality a)); ("rule_evaluation_status", VStr (rule_evaluation_status a)) ].

(** The fields of a position, as [to_primitive] walks them. *)
Definition position_value (p : LifecyclePosition) : pyval :=
  VData [ ("position_id", VStr (position_id p)); ("candidate_id", VStr (lp_candidate_id p)); ("symbol", VStr (lp_symbol p));
          ("opened_at", VDatetime (opened_at p)); ("entry_price", VDec (lp_entry_price p));
          ("entry_fee_usdt", VDec (entry_fee p)); ("initial_quantity", VDec (initial_quantity p));
          ("remaining_quantity", VDec (remaining_quantity p)); ("stop_loss", VDec (lp_stop_loss p));
          ("trailing_stop", VDec (trailing_stop p)); ("atr", VDec (lp_atr p)); ("plan", plan_value (plan p));
          ("status", VEnum (enum_text (lp_status p))); ("next_target_index", VInt (Z.of_nat (next_target_index p)));
          ("realized_pnl_usdt", VDec (realized_pnl p)); ("exits", VList (map exit_value (exits p)));
          ("closure_review", opt_value review_value (closure_review p)); ("leverage", VNone);
          ("planned_rr", opt_value VDec (planned_rr p)); ("decision_evidence", evidence_value (lp_evidence p));
          ("parameter_methods", methods_value (lp_methods p));
          ("closure_assessment", opt_value assessment_value (closure_assessment p)) ].

(** A primitive as a value of the domain: what [to_primitive] is given when it
    meets its own result. *)
Fixpoint of_json (j : json) : pyval :=
  match j with
  | JNull => VNone
  | JBool b => VBool b
  | JInt n => VInt n
  | JStr s => VStr s
  | JList l => VList (map of_json l)
  | JObj l => VMap (map (fun kv => (kv.1, of_json kv.2)) l)
  end.

(** ** The ledger *)

Record PaperLedger : Type := mk_ledger { ledger_path : string; _store : JsonlAuditStore }.
(** [PaperLedger(...)] with [__post_init__] *)
Definition new_ledger (p : string) : res PaperLedger := s ← new_store p true false (8 * 1024 * 1024); mret (mk_ledger p s).

(** [PaperLedger.append] *)
Definition append_position (l : PaperLedger) (p : LifecyclePosition) (type : string) (at_ : datetime)
  (out : write_outcome) : method files unit :=
  position ← lift (to_primitive (position_value p));
  event ← lift (new_audit_event (mk_audit_event type at_ [("position", of_json position)] None "1.0"));
  append (_store l) event out.

(** One line of [PaperLedger._position_payloads]. *)
Definition payload_of_line (line : list ascii) : res (option (list (string * json))) :=
  event ← loads line;
  mret (match event with
        | JObj event =>
            match get_field "payload" event with
            | JObj raw => match get_field "position" raw with JObj position => Some position | _ => None end
            | _ => None
            end
        | _ => None
        end).

(** [PaperLedger._position_payloads] *)
Definition _position_payloads (l : PaperLedger) (fs : files) : res (list (list (string * json))) :=
  match fs !! ledger_path l with
  | None => Raise OSError
  | Some text => rows ← mapM payload_of_line (str_lines text); mret (omap id rows)
  end.

(** [payload.get("position_id") == position_id] *)
Definition has_id (id : string) (payload : list (string * json)) : bool :=
  py_eqb (get_field "position_id" payload) (JStr id).

(** [PaperLedger.latest_payload] *)
Definition latest_payload (l : PaperLedger) (id : string) (fs : files) : res (option (list (string * json))) :=
  if decide (fs !! ledger_path l = None) then mret None
  else rows ← _position_payloads l fs; mret (last (List.filter (has_id id) rows)).

(** ** Positions from payloads *)

(** [Decimal(str(value))] *)
Definition finite_decimal (j : json) : res dec :=
  d ← Decimal (py_str j);
  match d with Finite d => mret d | _ => Raise (Unmodelled "non-finite decimal") end.
Definition decimal_field (key : string) (p : list (string * json)) : res dec := JsonText.lookup key p ≫= finite_decimal.

(** [Enum(str(payload[key]))] *)
Definition enum_field {A} `{StrEnum A} (key : string) (p : list (string * json)) : res A :=
  text ← text_field key p;
  match enum_parse text with Some a => mret a | None => Raise (ValueError "is not a valid member") end.

Definition time_field (key : string) (p : list (string * json)) : res datetime := text_field key p ≫= fromisoformat.
Definition int_field (key : string) (p : list (string * json)) : res Z := text_field key p ≫= fun s => py_int (JStr s).
Definition bool_field (key : string) (p : list (string * json)) : res bool := truthy <$> JsonText.lookup key p.

(** [value[key]] *)
Definition item (key : string) (j : json) : res json :=
  match j with JObj l => JsonText.lookup key l | _ => Raise TypeError end.

(** [for x in value] *)
Definition iterate (j : json) : res (list json) :=
  match j with
  | JList l => mret l
  | JStr s => mret (map (fun c => JStr (String c EmptyString)) (list_ascii_of_string s))
  | JObj l => mret (map (fun kv => JStr kv.1) l)
  | _ => Raise TypeError
  end.

Definition fields_of (j : json) : res (list (string * json)) :=
  match j with JObj l => mret l | _ => Raise TypeError end.

(** [PaperLedger._exit_from_payload] *)
Definition _exit_from_payload (j : json) : res LifecycleExit :=
  p ← fields_of j;
  timestamp ← time_field "timestamp" p;
  reason ← enum_field "reason" p;
  price ← decimal_field "price" p;
  quantity ← decimal_field "quantity" p;
  fee ← decimal_field "fee_usdt" p;
  pnl ← decimal_field "net_pnl_usdt" p;
  new_exit (mk_exit timestamp reason price quantity fee pnl).

(** [PaperLedger._review_from_payload] *)
Definition _review_from_payload (j : json) : res PaperClosureReview :=
  p ← fields_of j;
  reason ← enum_field "exit_reason" p;
  error ← JsonText.lookup "lifecycle_error" p;
  stop ← text_field "stop_quality" p;
  trailing ← text_field "trailing_quality" p;
  ignored ← int_field "ignored_signals" p;
  htf ← bool_field "htf_weakness" p;
  volatility ← bool_field "volatility_expansion" p;
  break ← bool_field "level_break" p;
  staged ← text_field "staged_exit_alternative" p;
  lesson ← text_field "lesson_candidate" p;
  mret (mk_review reason (match error with JNull => None | _ => Some (py_str error) end) stop trailing
    (mk_closure ignored htf volatility break) staged lesson).

(** [tuple(f(x) for x in value)] *)
Definition tuple_of {A} (f : json -> res A) (j : json) : res (list A) := l ← iterate j; mapM f l.

(** [StagedExitPlan(targets=..., quantity_ratios=...)] *)
Definition plan_from_payload (plan : json) : res StagedExitPlan :=
  targets ← (item "targets" plan ≫= tuple_of finite_decimal);
  ratios ← (item "quantity_ratios" plan ≫= tuple_of finite_decimal);
  new_plan (mk_plan targets ratios).

(** [int(...)] of the target index, as a position in the list of targets. *)
Definition index_field (key : string) (p : list (string * json)) : res nat :=
  n ← int_field key p; raise_if (n <? 0) (Unmodelled "negative target index");; mret (Z.to_nat n).

(** [PaperLedger._position_from_payload] *)
Definition _position_from_payload (p : list (string * json)) : res LifecyclePosition :=
  plan ← JsonText.lookup "plan" p;
  exits_payload ← JsonText.lookup "exits" p;
  position_id ← text_field "position_id" p;
  candidate_id ← text_field "candidate_id" p;
  symbol ← text_field "symbol" p;
  opened_at ← time_field "opened_at" p;
  entry_price ← decimal_field "entry_price" p;
  fee ← decimal_field "entry_fee_usdt" p;
  initial ← decimal_field "initial_quantity" p;
  remaining ← decimal_field "remaining_quantity" p;
  stop ← decimal_field "stop_loss" p;
  trailing ← decimal_field "trailing_stop" p;
  atr ← decimal_field "atr" p;
  plan ← plan_from_payload plan;
  status ← enum_field "status" p;
  next ← index_field "next_target_index" p;
  realized ← decimal_field "realized_pnl_usdt" p;
  evidence ← evidence_from_payload (get_field "decision_evidence" p);
  methods ← methods_from_payload (get_field "parameter_methods" p);
  exits ← tuple_of _exit_from_payload exits_payload;
  review ← match get_field "closure_review" p with JNull => mret None | j => Some <$> _review_from_payload j end;
  new_lifecycle (mk_lifecycle position_id candidate_id symbol opened_at entry_price fee initial remaining stop trailing
    atr plan status next realized exits review None evidence methods None).

(** [PaperLedger.latest_position] *)
Definition latest_position (l : PaperLedger) (id : string) (fs : files) : res (option LifecyclePosition) :=
  payload ← latest_payload l id fs;
  match payload with Some p => Some <$> _position_from_payload p | None => mret None end.

(** The dictionary [latest] of [PaperLedger.latest_positions]. *)
Definition latest_by_id (rows : list (list (string * json))) : list (string * list (string * json)) :=
  fold_left (fun latest row =>
    match get_field "position_id" row with
    | JStr id => if blank id then latest else dict_set String.eqb id row latest
    | _ => latest
    end) rows [].

(** [PaperLedger.latest_positions] *)
Definition latest_positions (l : PaperLedger) (fs : files) : res (list LifecyclePosition) :=
  if decide (fs !! ledger_path l = None) then mret []
  else
    rows ← _position_payloads l fs;
    let latest := latest_by_id rows in
    mapM (fun id => match dict_get String.eqb id latest with
                    | Some row => _position_from_payload row
                    | None => Raise KeyError
                    end) (sorted_strings (map fst latest)).

(** [PaperLedger.closed_positions] *)
Definition closed_positions (l : PaperLedger) (fs : files) : res (list LifecyclePosition) :=
  positions ← latest_positions l fs;
  mret (List.filter (fun p => closed p && is_some (closure_review p)) positions).

(** ** The primitives of a position *)

Definition dec_json (d : dec) : json := JStr (str_decimal d).
Definition opt_item {A} (f : A -> json) (o : option A) : json := match o with Some a => f a | None => JNull end.

Definition plan_items (p : StagedExitPlan) : list (string * json) :=
  [("targets", JList (map dec_json (targets p))); ("quantity_ratios", JList (map dec_json (quantity_ratios p)))].
Definition exit_items (e : LifecycleExit) : list (string * json) :=
  [ ("timestamp", JStr (isoformat (ex_timestamp e))); ("reason", JStr (enum_text (ex_reason e)));
    ("price", dec_json (ex_price e)); ("quantity", dec_json (ex_quantity e)); ("fee_usdt", dec_json (ex_fee e));
    ("net_pnl_usdt", dec_json (ex_pnl e)) ].
Definition review_items (r : PaperClosureReview) : list (string * json) :=
  [ ("exit_reason", JStr (enum_text (rv_reason r))); ("lifecycle_error", opt_item JStr (lifecycle_error r));
    ("stop_quality", JStr (stop_quality r)); ("trailing_quality", JStr (trailing_quality r));
    ("ignored_signals", JInt (ignored_signals (rv_context r))); ("htf_weakness", JBool (htf_weakness (rv_context r)));
    ("volatility_expansion", JBool (volatility_expansion (rv_context r)));
    ("level_break", JBool (level_break (rv_context r)));
    ("staged_exit_alternative", JStr (staged_exit_alternative r)); ("lesson_candidate", JStr (lesson_candidate r)) ].
Definition assessment_items (a : TradeClosureAssessment) : list (string * json) :=
  [ ("decision_evidence_sha256", JStr (decision_evidence_sha256 a));
    ("decision_lineage_status", JStr (decision_lineage_status a));
    ("selected_scenario_id", opt_item JStr (selected_scenario_id a)); ("entry_quality", JStr (entry_quality a));
    ("stop_quality", JStr (as_stop_quality a)); ("target_quality", JStr (target_quality a));
    ("method_accuracy", JStr (method_accuracy a)); ("scenario_accuracy", JStr (scenario_accuracy a));
    ("execution_quality", JStr (execution_quality a)); ("rule_evaluation_status", JStr (rule_evaluation_status a)) ].
Definition methods_items (m : TradeParameterMethods) : list (string * json) :=
  map (fun kv => (kv.1, JStr kv.2)) (method_fields m).

Definition position_items (p : LifecyclePosition) : list (string * json) :=
  [ ("position_id", JStr (position_id p)); ("candidate_id", JStr (lp_candidate_id p)); ("symbol", JStr (lp_symbol p));
    ("opened_at", JStr (isoformat (opened_at p))); ("entry_price", dec_json (lp_entry_price p));
    ("entry_fee_usdt", dec_json (entry_fee p)); ("initial_quantity", dec_json (initial_quantity p));
    ("remaining_quantity", dec_json (remaining_quantity p)); ("stop_loss", dec_json (lp_stop_loss p));
    ("trailing_stop", dec_json (trailing_stop p)); ("atr", dec_json (lp_atr p)); ("plan", JObj (plan_items (plan p)));
    ("status", JStr (enum_text (lp_status p))); ("next_target_index", JInt (Z.of_nat (next_target_index p)));
    ("realized_pnl_usdt", dec_json (realized_pnl p)); ("exits", JList (map (fun e => JObj (exit_items e)) (exits p)));
    ("closure_review", opt_item (fun r => JObj (review_items r)) (closure_review p)); ("leverage", JNull);
    ("planned_rr", opt_item dec_json (planned_rr p)); ("decision_evidence", JObj (evidence_items (lp_evidence p)));
    ("parameter_methods", JObj (methods_items (lp_methods p)));
    ("closure_assessment", opt_item (fun a => JObj (assessment_items a)) (closure_assessment p)) ].

Lemma primitive_list {A} (f : A -> pyval) (g : A -> json) l : (forall x, to_primitive (f x) = Ok (g x)) ->
  to_primitive (VList (map f l)) = Ok (JList (map g l)).
Proof.
  intros H. change (to_primitive (VList ?k)) with (js ← mapM to_primitive k; mret (JList js)).
  assert (mapM to_primitive (map f l) = Ok (map g l)) as ->; [|done].
  induction l as [|x l IH]; [done|]. cbn [map mapM]. by rewrite H, Ok_bind, IH.
Qed.

(** The members of an object whose values have known primitives. *)
Lemma primitive_data fields items :
  Forall2 (fun f i => f.1 = i.1 /\ to_primitive f.2 = Ok i.2) fields items ->
  to_primitive (VData fields) = Ok (JObj items).
Proof.
  intros H. change (to_primitive (VData ?l)) with (ps ← mapM (fun kv => j ← to_primitive kv.2; mret (kv.1, j)) l; mret (JObj ps)).
  assert (mapM (fun kv => j ← to_primitive kv.2; mret (kv.1, j)) fields = Ok items) as ->; [|done].
  induction H as [|[k v] [k' j] fields items [E Hv] _ IH]; [done|]. cbn [fst snd] in *. subst k'.
  cbn [mapM fst snd]. by rewrite Hv, Ok_bind, Ok_bind, IH.
Qed.

Ltac solve_fields := repeat (constructor; [split; [reflexivity|]|]); [..|constructor]; try reflexivity.

Lemma exit_primitive e : to_primitive (exit_value e) = Ok (JObj (exit_items e)).
Proof. reflexivity. Qed.

Lemma review_primitive r : to_primitive (review_value r) = Ok (JObj (review_items r)).
Proof. by destruct r as [? [?|] ? ? ? ? ?]. Qed.

Lemma assessment_primitive a : to_primitive (assessment_value a) = Ok (JObj (assessment_items a)).
Proof. by destruct a as [? ? [?|] ? ? ? ? ? ? ?]. Qed.

Lemma plan_primitive p : to_primitive (plan_value p) = Ok (JObj (plan_items p)).
Proof. apply primitive_data. solve_fields; by apply primitive_list. Qed.

Lemma position_primitive p : to_primitive (position_value p) = Ok (JObj (position_items p)).
Proof.
  apply primitive_data. unfold position_items. 
  repeat (apply Forall2_cons; split); [..|apply Forall2_nil; done]; cbn [fst snd]; (split; [reflexivity|]); try reflexivity.
  - apply plan_primitive.
  - apply primitive_list, exit_primitive.
  - destruct (closure_review p); [apply review_primitive|done].
  - by destruct (planned_rr p).
  - apply evidence_primitive.
  - destruct (closure_assessment p); [apply assessment_primitive|done].
Qed.

(** [to_primitive] on its own result sorts the keys. *)
Lemma primitive_again j : to_primitive (of_json j) = Ok (sort_keys j).
Proof.
  induction j as [|b|n|s|l IH|l IH] using json_nested_ind; try done.
  - cbn [of_json sort_keys]. change (to_primitive (VList ?k)) with (js ← mapM to_primitive k; mret (JList js)).
    assert (mapM to_primitive (map of_json l) = Ok (map sort_keys l)) as ->; [|done].
    induction IH as [|x l Hx _ IHl]; [done|]. cbn [map mapM]. by rewrite Hx, Ok_bind, IHl.
  - cbn [of_json sort_keys].
    change (to_primitive (VMap ?k)) with
      (ps ← mapM (fun kv => j ← to_primitive kv.2; mret (kv.1, j)) k; mret (JObj (py_sorted key_leb ps))).
    assert (mapM (fun kv => j ← to_primitive kv.2; mret (kv.1, j)) (map (fun kv => (kv.1, of_json kv.2)) l)
      = Ok (map (fun kv => (kv.1, sort_keys kv.2)) l)) as ->; [|done].
    induction IH as [|[k x] l Hx _ IHl]; [done|]. cbn [map mapM fst snd] in *. by rewrite Hx, !Ok_bind, IHl.
Qed.

(** ** Redaction leaves a position as it is *)

(** No key of the value, at any depth, looks like a credential. *)
Fixpoint insensitive (j : json) : bool :=
  match j with
  | JList l => forallb insensitive l
  | JObj l => forallb (fun kv => negb (_is_sensitive kv.1) && insensitive kv.2) l
  | _ => true
  end.

Lemma redact_insensitive j : insensitive j = true -> redact j = j.
Proof.
  induction j as [|b|n|s|l IH|l IH] using json_nested_ind; cbn [insensitive redact]; try done; intros H; f_equal.
  - induction IH as [|x l Hx _ IHl]; [done|]. cbn [forallb map] in *. apply andb_true_iff in H as [H1 H2].
    by rewrite Hx, IHl.
  - induction IH as [|[k x] l Hx _ IHl]; [done|]. cbn [forallb map fst snd] in *.
    apply andb_true_iff in H as [H1 H2]. apply andb_true_iff in H1 as [H0 H1]. apply negb_true_iff in H0.
    by rewrite H0, Hx, IHl.
Qed.

Lemma insensitive_sorted j : insensitive (sort_keys j) = insensitive j.
Proof.
  induction j as [|b|n|s|l IH|l IH] using json_nested_ind; cbn [insensitive sort_keys]; try done.
  - induction IH as [|x l Hx _ IHl]; [done|]. cbn [forallb map]. by rewrite Hx, IHl.
  - rewrite (forallb_perm _ _ _ (py_sorted_perm _ _)).
    induction IH as [|[k x] l Hx _ IHl]; [done|]. cbn [forallb map fst snd] in *. by rewrite Hx, IHl.
Qed.

Ltac insensitive_keys :=
  repeat match goal with |- context [_is_sensitive ?k] => replace (_is_sensitive k) with false by (vm_compute; reflexivity) end.

Lemma insensitive_strings {A} (f : A -> string) l : forallb insensitive (map (fun x => JStr (f x)) l) = true.
Proof. by induction l. Qed.

Lemma exit_insensitive e : insensitive (JObj (exit_items e)) = true.
Proof. cbn [insensitive exit_items forallb fst snd dec_json]. insensitive_keys. reflexivity. Qed.

Lemma review_insensitive r : insensitive (JObj (review_items r)) = true.
Proof.
  cbn [insensitive review_items forallb fst snd dec_json]. insensitive_keys. by destruct (lifecycle_error r).
Qed.

Lemma assessment_insensitive a : insensitive (JObj (assessment_items a)) = true.
Proof.
  cbn [insensitive assessment_items forallb fst snd dec_json]. insensitive_keys. by destruct (selected_scenario_id a).
Qed.

Lemma evidence_insensitive e : insensitive (JObj (evidence_items e)) = true.
Proof. cbn [insensitive evidence_items forallb fst snd]. insensitive_keys. by destruct (as_of e). Qed.

Lemma position_insensitive p : insensitive (JObj (position_items p)) = true.
Proof.
  assert (forall e, insensitive (JObj (evidence_items e)) = true) as Hev by apply evidence_insensitive.
  assert (forallb insensitive (map (fun e => JObj (exit_items e)) (exits p)) = true) as Hex.
  { induction (exits p) as [|e l IH]; [done|]. cbn [map forallb]. by rewrite exit_insensitive, IH. }
  cbn [insensitive position_items forallb fst snd dec_json plan_items methods_items method_fields map].
  cbn [insensitive] in Hev. rewrite Hev, Hex. unfold dec_json. rewrite !insensitive_strings. insensitive_keys.
  destruct (closure_review p) as [r|]; cbn [opt_item]; [rewrite review_insensitive|];
    (destruct (closure_assessment p) as [a|]; cbn [opt_item]; [rewrite assessment_insensitive|]);
    by destruct (planned_rr p).
Qed.

(** ** Entries and their lines *)

(** One call of [append]. *)
Record entry : Type := mk_entry { e_type : string; e_time : datetime; e_position : LifecyclePosition }.

Definition entry_event (e : entry) : AuditEvent :=
  mk_audit_event (e_type e) (e_time e) [("position", of_json (JObj (position_items (e_position e))))] None "1.0".
Definition position_json (p : LifecyclePosition) : json := sort_keys (JObj (position_items p)).
Definition entry_json (e : entry) : json :=
  JObj (body_items (entry_event e) (JObj [("position", position_json (e_position e))])).
Definition entry_line (e : entry) : list ascii := dump_raw (sort_keys (entry_json e)).

Lemma entry_insensitive e : insensitive (entry_json e) = true.
Proof.
  assert (insensitive (position_json (e_position e)) = true) as H.
  { unfold position_json. rewrite insensitive_sorted. apply position_insensitive. }
  unfold entry_json, body_items. generalize dependent (position_json (e_position e)). intros j H.
  cbn [insensitive forallb fst snd]. insensitive_keys. by rewrite H.
Qed.

Lemma entry_body e : body (entry_event e) = Ok (entry_json e).
Proof.
  unfold body. rewrite event_primitive.
  assert (to_primitive (VMap (payload (entry_event e)))
    = Ok (JObj [("position", position_json (e_position e))])) as ->.
  { change (to_primitive (VMap ?k)) with
      (ps ← mapM (fun kv => j ← to_primitive kv.2; mret (kv.1, j)) k; mret (JObj (py_sorted key_leb ps))).
    cbn [entry_event payload mapM fst snd]. by rewrite primitive_again. }
  rewrite Ok_bind. apply (f_equal Ok). apply redact_insensitive. apply entry_insensitive.
Qed.

(** Positions whose text gives them back: ASCII texts, short integers, times and
    decimals the standard library can represent, and factors within the bound. *)
Definition exit_storable (e : LifecycleExit) : bool :=
  dt_valid (ex_timestamp e) && forallb exponent_in_range [ex_price e; ex_quantity e; ex_fee e; ex_pnl e].
Definition storable (p : LifecyclePosition) : bool :=
  json_ok (JObj (position_items p)) && dt_valid (opened_at p)
  && forallb exponent_in_range [lp_entry_price p; entry_fee p; initial_quantity p; remaining_quantity p; lp_stop_loss p;
       trailing_stop p; lp_atr p; realized_pnl p]
  && forallb exponent_in_range (targets (plan p)) && forallb exponent_in_range (quantity_ratios (plan p))
  && forallb exit_storable (exits p) && time_ok (as_of (lp_evidence p))
  && (str_len (factors_json (lp_evidence p)) <=? 1000000).

(** Positions whose parts the constructors returned. *)
Record constructed (p : LifecyclePosition) : Prop := mk_constructed {
  ct_position : new_lifecycle p = Ok p;
  ct_plan : new_plan (plan p) = Ok (plan p);
  ct_exits : Forall (fun e => new_exit e = Ok e) (exits p);
  ct_methods : new_methods (lp_methods p) = Ok (lp_methods p);
  ct_evidence : evidence_built (lp_evidence p)
}.

Definition entry_ok (e : entry) : Prop :=
  is_ok (new_audit_event (entry_event e)) = true /\ constructed (e_position e) /\ storable (e_position e) = true.

Lemma storable_parts p : storable p = true ->
  json_ok (JObj (position_items p)) = true /\ dt_valid (opened_at p) = true
  /\ forallb exponent_in_range [lp_entry_price p; entry_fee p; initial_quantity p; remaining_quantity p; lp_stop_loss p;
       trailing_stop p; lp_atr p; realized_pnl p] = true
  /\ forallb exponent_in_range (targets (plan p)) = true /\ forallb exponent_in_range (quantity_ratios (plan p)) = true
  /\ forallb exit_storable (exits p) = true /\ time_ok (as_of (lp_evidence p)) = true
  /\ str_len (factors_json (lp_evidence p)) <= 1000000.
Proof. unfold storable. rewrite !andb_true_iff, Z.leb_le. tauto. Qed.

Lemma pattern_ascii s : _EVENT_TYPE_PATTERN s = true -> isascii s = true.
Proof.
  unfold _EVENT_TYPE_PATTERN, isascii. assert (forall c, is_upper_letter c = true -> is_ascii c = true) as U.
  { intros c H. assert (implb (is_upper_letter c) (is_ascii c) = true) as E; [|by rewrite H in E].
    clear. revert c. apply ascii_forall. vm_compute. reflexivity. }
  destruct (list_ascii_of_string s) as [|c l]; [done|]. intros H. apply andb_true_iff in H as (H & Hl).
  do 2 (apply andb_true_iff in H as (H & _)). cbn [forallb]. rewrite (U _ H). cbn [andb].
  rewrite forallb_forall in *. intros x Hx. specialize (Hl x Hx).
  assert (implb (is_upper_letter x || is_digit x || Ascii.eqb x "_"%char) (is_ascii x) = true) as E; [|by rewrite Hl in E].
  clear. revert x. apply ascii_forall. vm_compute. reflexivity.
Qed.

Lemma entry_json_ok e : entry_ok e -> json_ok (entry_json e) = true.
Proof.
  intros (He & _ & Hs). unfold new_audit_event in He. destruct (_EVENT_TYPE_PATTERN (event_type (entry_event e))) eqn:Ep; [|done].
  apply pattern_ascii in Ep. cbn [entry_event event_type] in Ep.
  apply storable_parts in Hs as (Hs & _).
  assert (json_ok (position_json (e_position e)) = true) as H by by apply sort_keys_ok.
  unfold entry_json, body_items. generalize dependent (position_json (e_position e)). intros j H.
  cbn [json_ok forallb fst snd entry_event event_type timestamp snapshot_id schema_version opt_json].
  rewrite Ep, H, isoformat_ascii. reflexivity.
Qed.

(** The object a position is stored as. *)
Lemma position_sorted p : exists sorted, position_json p = JObj sorted.
Proof. eexists. reflexivity. Qed.

Lemma line_payload e sorted : entry_ok e -> position_json (e_position e) = JObj sorted ->
  payload_of_line (entry_line e) = Ok (Some sorted).
Proof.
  intros He Es. pose proof (entry_json_ok e He) as Hok. unfold payload_of_line, entry_line.
  pose proof (loads_dump_raw _ [] (sort_keys_ok _ Hok) eq_refl) as Hl. rewrite app_nil_r in Hl. rewrite Hl, Ok_bind.
  destruct (sort_keys (entry_json e)) as [| | | | |items] eqn:E; try discriminate.
  unfold get_field. rewrite (get_sort_keys "payload" _ _ Hok E).
  assert (json_ok (position_json (e_position e)) = true) as Hp.
  { unfold entry_json in Hok. cbn [json_ok body_items forallb fst snd] in Hok. rewrite !andb_true_iff in Hok. tauto. }
  unfold body_items. rewrite Es in Hp |- *.
  assert (sort_keys (JObj sorted) = JObj sorted) as Hi.
  { rewrite <- Es. unfold position_json. destruct He as (_ & _ & Hs). apply sort_keys_idem. by apply storable_parts in Hs as (Hs & _). }
  cbn -[sort_keys]. assert (sort_keys (JObj [("position", JObj sorted)]) = JObj [("position", sort_keys (JObj sorted))]) as -> by done.
  rewrite Hi. done.
Qed.

(** ** Reading the fields back *)

(** [int(str(n))] *)
Lemma int_digits_all ds : forall (after : bool) acc, forallb is_digit ds = true -> after || negb (is_nil ds) = true ->
  int_digits after ds acc = Some (fold_left (fun n c => 10 * n + digit_value c)%N ds acc).
Proof.
  induction ds as [|c ds IH]; intros after acc H Ha; cbn [int_digits fold_left].
  - by destruct after.
  - cbn [forallb] in H. apply andb_true_iff in H as (Hc & H). rewrite Hc. by apply IH.
Qed.

Lemma parse_digits c l : is_digit c = true -> forallb is_digit l = true ->
  match c :: l with
  | "-"%char :: l => option_map (fun n => - Z.of_N n) (int_digits false l 0)
  | "+"%char :: l => option_map Z.of_N (int_digits false l 0)
  | l => option_map Z.of_N (int_digits false l 0)
  end = Some (Z.of_N (num_of (c :: l))).
Proof.
  intros Hc Hl. assert (int_digits false (c :: l) 0 = Some (num_of (c :: l))) as E.
  { apply int_digits_all; [cbn; by rewrite Hc|done]. }
  destruct c as [[] [] [] [] [] [] [] []]; try discriminate Hc; rewrite E; reflexivity.
Qed.

Lemma parse_str_int n : parse_int (str_int n) = Some n.
Proof.
  destruct (digits_spec (Z.abs_N n)) as (Hne & Hd & Hv). pose proof (digits_plain (Z.abs_N n)) as Hp.
  unfold parse_int, str_int, strip. destruct (Z.ltb_spec n 0).
  - rewrite ?list_ascii_string_id. rewrite strip_list_plain by (cbn [forallb]; by rewrite Hp).
    rewrite int_digits_all by (done || by destruct (digits _)). unfold num_of in Hv. rewrite Hv. cbn [option_map]. f_equal. lia.
  - rewrite ?list_ascii_string_id. rewrite strip_list_plain by done.
    destruct (digits (Z.abs_N n)) as [|c l] eqn:E; [done|]. cbn [forallb] in Hd. apply andb_true_iff in Hd as (Hc & Hl).
    rewrite parse_digits by done. rewrite Hv. f_equal. lia.
Qed.

Lemma int_text n : json_ok (JInt n) = true -> py_int (JStr (str_int n)) = Ok n.
Proof.
  intros H. unfold py_int. rewrite parse_str_int.
  assert (List.filter is_digit (list_ascii_of_string (str_int n)) = digits (Z.abs_N n)) as ->.
  { destruct (digits_spec (Z.abs_N n)) as (_ & Hd & _). rewrite forallb_forall in Hd. unfold str_int.
    rewrite list_ascii_string_id. destruct (n <? 0); [cbn [List.filter]; change (is_digit "-") with false; cbv iota|];
      by apply filter_id. }
  cbn [json_ok] in H. apply Nat.leb_le in H.
  destruct (Nat.ltb_spec int_max_str_digits (length (digits (Z.abs_N n)))); [lia|done].
Qed.

Section Fields.

Context (p : list (string * json)) (key : string).

Lemma text_get s : dict_get String.eqb key p = Some (JStr s) -> text_field key p = Ok s.
Proof. unfold text_field, JsonText.lookup. by intros ->. Qed.

Lemma decimal_get d : dict_get String.eqb key p = Some (dec_json d) -> exponent_in_range d = true ->
  decimal_field key p = Ok d.
Proof.
  unfold decimal_field, JsonText.lookup. intros -> H. rewrite Ok_bind. unfold finite_decimal, dec_json. cbn [py_str].
  by rewrite decimal_text_roundtrip.
Qed.

Lemma enum_get `{StrEnum A} (a : A) : dict_get String.eqb key p = Some (JStr (enum_text a)) -> enum_field key p = Ok a.
Proof. intros E. unfold enum_field. by rewrite (text_get _ E), Ok_bind, enum_parse_text. Qed.

Lemma time_get d : dict_get String.eqb key p = Some (JStr (isoformat d)) -> dt_valid d = true -> time_field key p = Ok d.
Proof. intros E H. unfold time_field. by rewrite (text_get _ E), Ok_bind, fromisoformat_isoformat. Qed.

Lemma int_get n : dict_get String.eqb key p = Some (JInt n) -> json_ok (JInt n) = true -> int_field key p = Ok n.
Proof.
  unfold int_field, text_field, JsonText.lookup. intros -> H. cbn [fmap res_fmap py_str py_repr].
  rewrite Ok_bind. unfold py_str, py_repr. rewrite string_list_ascii_id. by apply int_text.
Qed.

Lemma bool_get b : dict_get String.eqb key p = Some (JBool b) -> bool_field key p = Ok b.
Proof. unfold bool_field, JsonText.lookup. by intros ->. Qed.

End Fields.

(** A field of a known object, or a side condition. *)
Ltac known Hsame := first [rewrite Hsame; reflexivity | done].

Lemma exit_restores e sorted : new_exit e = Ok e -> exit_storable e = true -> same_items (exit_items e) sorted ->
  _exit_from_payload (JObj sorted) = Ok e.
Proof.
  intros He Hs Hsame. unfold exit_storable in Hs. apply andb_true_iff in Hs as (Ht & Hd).
  cbn [forallb] in Hd. rewrite !andb_true_iff in Hd. destruct Hd as (D1 & D2 & D3 & D4 & _).
  unfold _exit_from_payload. cbn [fields_of]. rewrite Ok_bind.
  erewrite time_get by known Hsame. rewrite Ok_bind.
  erewrite enum_get by known Hsame. rewrite Ok_bind.
  do 4 erewrite decimal_get by known Hsame. rewrite !Ok_bind. by destruct e.
Qed.

Lemma review_restores r sorted : json_ok (JObj (review_items r)) = true -> same_items (review_items r) sorted ->
  _review_from_payload (JObj sorted) = Ok r.
Proof.
  intros Hok Hsame. assert (json_ok (JInt (ignored_signals (rv_context r))) = true) as Hi.
  { exact (value_ok "ignored_signals" _ _ Hok eq_refl). }
  unfold _review_from_payload. cbn [fields_of]. rewrite Ok_bind.
  erewrite enum_get by known Hsame. rewrite Ok_bind.
  assert (JsonText.lookup "lifecycle_error" sorted = Ok (opt_item JStr (lifecycle_error r))) as ->.
  { unfold JsonText.lookup. rewrite Hsame. reflexivity. }
  rewrite Ok_bind. do 4 erewrite text_get by known Hsame. erewrite int_get by known Hsame.
  do 3 erewrite bool_get by known Hsame. rewrite !Ok_bind.
  destruct r as [? [?|] ? ? [? ? ? ?] ? ?]; reflexivity.
Qed.

Lemma methods_restores m sorted : new_methods m = Ok m -> same_items (methods_items m) sorted ->
  methods_from_payload (JObj sorted) = Ok m.
Proof.
  intros Hm Hsame. unfold methods_from_payload, method_of. rewrite !Hsame. destruct m. exact Hm.
Qed.

Lemma decimals_read l : forallb exponent_in_range l = true ->
  tuple_of finite_decimal (JList (map dec_json l)) = Ok l.
Proof.
  intros H. unfold tuple_of. cbn [iterate]. rewrite Ok_bind. apply Ok_mapM.
  induction l as [|d l IH]; [constructor|]. cbn [forallb] in H. apply andb_true_iff in H as (Hd & H).
  cbn [map]. constructor; [|by apply IH]. unfold finite_decimal, dec_json. cbn [py_str].
  by rewrite decimal_text_roundtrip.
Qed.

Lemma plan_restores p : new_plan p = Ok p -> json_ok (JObj (plan_items p)) = true ->
  forallb exponent_in_range (targets p) = true -> forallb exponent_in_range (quantity_ratios p) = true ->
  plan_from_payload (sort_keys (JObj (plan_items p))) = Ok p.
Proof.
  intros Hp Hok Ht Hr. destruct (sort_keys (JObj (plan_items p))) as [| | | | |sorted] eqn:E; try discriminate.
  assert (forall l, map sort_keys (map dec_json l) = map dec_json l) as Hs by (intros l; by rewrite map_map).
  unfold plan_from_payload. cbn [item]. unfold JsonText.lookup.
  rewrite !(get_sort_keys _ _ _ Hok E). cbn -[new_plan tuple_of]. rewrite !Hs.
  rewrite !decimals_read, !Ok_bind by done. by destruct p.
Qed.

Lemma exits_read l : Forall (fun e => new_exit e = Ok e) l -> forallb exit_storable l = true ->
  json_ok (JList (map (fun e => JObj (exit_items e)) l)) = true ->
  tuple_of _exit_from_payload (sort_keys (JList (map (fun e => JObj (exit_items e)) l))) = Ok l.
Proof.
  intros H Hs Hok. unfold tuple_of. cbn [sort_keys iterate]. rewrite Ok_bind, map_map. apply Ok_mapM.
  induction H as [|e l He _ IH]; [constructor|]. cbn [map forallb] in *. apply andb_true_iff in Hs as (H1 & H2).
  assert (json_ok (JObj (exit_items e)) = true /\ json_ok (JList (map (fun e => JObj (exit_items e)) l)) = true) as (K1 & K2).
  { by apply andb_true_iff. }
  constructor; [|by apply IH]. destruct (scalars_sorted _ K1 eq_refl) as (sorted & -> & Hsame).
  by apply exit_restores.
Qed.

(** A sorted field of the stored position. *)
Lemma stored_get p sorted k : json_ok (JObj (position_items p)) = true -> position_json p = JObj sorted ->
  dict_get String.eqb k sorted = sort_keys <$> dict_get String.eqb k (position_items p).
Proof. apply get_sort_keys. Qed.

(** What a stored position restores to. *)
Lemma position_restores p sorted : constructed p -> storable p = true -> position_json p = JObj sorted ->
  _position_from_payload sorted = Ok p.
Proof.
  intros [Hc Hpl Hex Hm He] Hs Es. apply storable_parts in Hs as (Hok & Ht & Hd & Hd1 & Hd2 & Hxs & Hev & Hlen).
  cbn [forallb] in Hd. rewrite !andb_true_iff in Hd. destruct Hd as (D1 & D2 & D3 & D4 & D5 & D6 & D7 & D8 & _).
  pose proof (fun k => stored_get p sorted k Hok Es) as Hget.
  assert (forall k v, dict_get String.eqb k (position_items p) = Some v -> json_ok v = true) as Hv
    by (intros k v; by apply value_ok).
  unfold _position_from_payload.
  assert (JsonText.lookup "plan" sorted = Ok (sort_keys (JObj (plan_items (plan p))))) as ->.
  { unfold JsonText.lookup. rewrite Hget. reflexivity. }
  assert (JsonText.lookup "exits" sorted = Ok (sort_keys (JList (map (fun e => JObj (exit_items e)) (exits p))))) as ->.
  { unfold JsonText.lookup. rewrite Hget. reflexivity. }
  rewrite !Ok_bind. do 3 erewrite text_get by known Hget. erewrite time_get by known Hget.
  do 8 erewrite decimal_get by known Hget. erewrite enum_get by known Hget.
  rewrite plan_restores by (done || exact (Hv "plan" _ eq_refl)). rewrite !Ok_bind.
  unfold index_field. erewrite int_get; [|rewrite Hget; reflexivity|exact (Hv "next_target_index" _ eq_refl)].
  rewrite Ok_bind. rewrite (proj2 (Z.ltb_ge _ _) (Nat2Z.is_nonneg (next_target_index p))). cbn [raise_if].
  rewrite Ok_bind, Nat2Z.id.
  change (mret (next_target_index p)) with (Ok (next_target_index p)). rewrite !Ok_bind. unfold get_field.
  assert (json_ok (JObj (evidence_items (lp_evidence p))) = true) as Ke by exact (Hv "decision_evidence" _ eq_refl).
  assert (json_ok (JObj (methods_items (lp_methods p))) = true) as Km by exact (Hv "parameter_methods" _ eq_refl).
  assert (json_ok (JList (map (fun e => JObj (exit_items e)) (exits p))) = true) as Kx by exact (Hv "exits" _ eq_refl).
  assert (json_ok (opt_item (fun r => JObj (review_items r)) (closure_review p)) = true) as Kr
    by exact (Hv "closure_review" _ eq_refl).
  destruct (scalars_sorted _ Ke (evidence_items_scalar _)) as (es & Ees & Hes).
  destruct (scalars_sorted _ Km eq_refl) as (ms & Ems & Hms).
  assert (default JNull (dict_get String.eqb "decision_evidence" sorted) = JObj es) as -> by by rewrite Hget, <- Ees.
  assert (default JNull (dict_get String.eqb "parameter_methods" sorted) = JObj ms) as -> by by rewrite Hget, <- Ems.
  assert (default JNull (dict_get String.eqb "closure_review" sorted)
    = sort_keys (opt_item (fun r => JObj (review_items r)) (closure_review p))) as -> by by rewrite Hget.
  rewrite (evidence_built_restores _ _ He Hev Hlen Hes), Ok_bind, (methods_restores _ _ Hm Hms), Ok_bind.
  rewrite (exits_read _ Hex Hxs Kx), Ok_bind.
  assert (match sort_keys (opt_item (fun r => JObj (review_items r)) (closure_review p)) with
          | JNull => mret None | j => Some <$> _review_from_payload j end = Ok (closure_review p)) as ->.
  { destruct (closure_review p) as [r|]; [|done]. cbn [opt_item] in Kr |- *.
    assert (forallb (fun kv => scalar kv.2) (review_items r) = true) as Hsc by by destruct r as [? [?|] ? ? ? ? ?].
    destruct (scalars_sorted _ Kr Hsc) as (rs & -> & Hrs). by rewrite (review_restores r rs Kr Hrs). }
  rewrite Ok_bind. destruct p. exact Hc.
Qed.

(** ** The ledger as a list of entries *)

Definition entries_text (es : list entry) : list ascii := flat_map (fun e => entry_line e ++ [newline]) es.

Definition ledger_holds (l : PaperLedger) (fs : files) (es : list entry) : Prop :=
  default [] (fs !! ledger_path l) = entries_text es /\ Forall entry_ok es.

(** Entries that fit a record, and writes that complete. *)
Definition accepted (c : entry * write_outcome) : bool :=
  (Z.of_nat (length (entry_line c.1)) <=? 8 * 1024 * 1024) && match c.2 with Written => true | _ => false end.

Fixpoint run_appends (l : PaperLedger) (calls : list (entry * write_outcome)) (fs : files) : list (res unit) * files :=
  match calls with
  | [] => ([], fs)
  | (e, out) :: calls =>
      let '(r, fs) := append_position l (e_position e) (e_type e) (e_time e) out fs in
      let '(rs, fs) := run_appends l calls fs in (r :: rs, fs)
  end.

(** A write that breaks off leaves a torn line; here it completes or is refused. *)
Definition whole (out : write_outcome) : bool := match out with BrokenOff _ => false | _ => true end.

Lemma append_position_run p l e out fs : new_ledger p = Ok l -> entry_ok e -> whole out = true ->
  append_position l (e_position e) (e_type e) (e_time e) out fs =
  if accepted (e, out) then (Ok tt, append_to p (entry_line e ++ [newline]) fs) else (Raise OSError, fs).
Proof.
  intros Hl He Ho. assert (l = mk_ledger p (mk_store p true false (8 * 1024 * 1024) None None)) as ->.
  { unfold new_ledger in Hl. apply bind_Ok in Hl as (s & Hs & Hl). apply mret_Ok in Hl as <-.
    unfold new_store in Hs. apply bind_Ok in Hs as (u & _ & Hs). by apply mret_Ok in Hs as <-. }
  clear Hl. unfold append_position. rewrite position_primitive, lift_bind.
  fold (entry_event e). pose proof (entry_json_ok e He) as Hjson. destruct He as (Hev & Hc & Hs).
  destruct (new_audit_event (entry_event e)) as [ev|x] eqn:Ev; [|discriminate].
  assert (ev = entry_event e) as ->.
  { unfold new_audit_event in Ev. do 3 (apply bind_Ok in Ev as (? & _ & Ev)). by apply mret_Ok in Ev as <-. }
  rewrite lift_bind. cbn [_store]. unfold append. rewrite get_bind, lift_bind.
  unfold _chain_state_or_fail. cbn [_legacy_path tamper_evident raise_if]. rewrite Ok_bind. cbn [catch].
  change (catch (mret ?x) _ _) with (Ok x). cbv iota.
  rewrite method_bind_run. unfold write_event, _render. pose proof (entry_body e) as Hb. unfold body in Hb.
  destruct (to_primitive (event_value (entry_event e))) as [prim|]; [|discriminate]. apply mret_Ok in Hb.
  rewrite Ok_bind, Hb, (json_ok_prints _ Hjson). cbn [negb raise_if tamper_evident].
  rewrite !Ok_bind, lift_bind. fold (entry_line e).
  change (mret (entry_line e)) with (Ok (entry_line e)). cbv iota. rewrite method_bind_run.
  rewrite append_line_run by by destruct out. cbn [path max_event_bytes]. unfold accepted. cbn [fst snd].
  rewrite Z.ltb_antisym. destruct (_ <=? _); [|done]. by destruct out.
Qed.

(** The object each entry's position is stored as. *)
Definition stored (p : LifecyclePosition) : list (string * json) :=
  match position_json p with JObj sorted => sorted | _ => [] end.

Lemma stored_json p : position_json p = JObj (stored p).
Proof. unfold stored. destruct (position_sorted p) as (sorted & E). by rewrite E. Qed.

Lemma entries_text_snoc es e : entries_text (es ++ [e]) = entries_text es ++ entry_line e ++ [newline].
Proof. unfold entries_text. rewrite flat_map_app. cbn [flat_map]. by rewrite app_nil_r. Qed.

Lemma entries_end es : ends_line (entries_text es) = true.
Proof.
  destruct es as [|e es] using rev_ind; [done|]. rewrite entries_text_snoc, app_assoc. unfold ends_line.
  by rewrite last_snoc.
Qed.

Lemma entries_lines es : str_lines (entries_text es) = map entry_line es.
Proof.
  induction es as [|e es IH] using rev_ind; [done|]. rewrite entries_text_snoc, map_app. unfold str_lines.
  rewrite (str_lines_app (length (entries_text es))) by (done || by left || apply entries_end).
  unfold str_lines in IH. rewrite IH. f_equal. unfold str_lines. change newline with (ascii_of_N 10).
  rewrite str_lines_line by apply dump_raw_unescaped. done.
Qed.

Lemma payloads_of l fs es text : fs !! ledger_path l = Some text -> ledger_holds l fs es ->
  _position_payloads l fs = Ok (map (fun e => stored (e_position e)) es).
Proof.
  intros Ef (Ht & Hok). unfold _position_payloads. rewrite Ef in Ht |- *. cbn [default] in Ht. unfold id in Ht. subst text.
  rewrite entries_lines. assert (mapM payload_of_line (map entry_line es)
    = Ok (map (fun e => Some (stored (e_position e))) es)) as ->.
  { clear Ef. apply Ok_mapM. induction Hok as [|e es He _ IH]; [constructor|]. cbn [map]. constructor; [|done].
    apply line_payload; [done|]. apply stored_json. }
  rewrite Ok_bind. clear. assert (omap id (map (fun e => Some (stored (e_position e))) es)
    = map (fun e => stored (e_position e)) es) as ->; [|done].
  induction es as [|e es IH]; [done|]. cbn. f_equal. exact IH.
Qed.

Lemma stored_id p : storable p = true -> get_field "position_id" (stored p) = JStr (position_id p).
Proof.
  intros (Hok & _)%storable_parts. unfold get_field. rewrite (stored_get p _ _ Hok (stored_json p)). done.
Qed.

Lemma entry_restores e : entry_ok e -> _position_from_payload (stored (e_position e)) = Ok (e_position e).
Proof. intros (_ & Hc & Hs). apply (position_restores _ _ Hc Hs), stored_json. Qed.

(** ** The specification: the last position of every identity *)

Definition spec_latest (id : string) (ps : list LifecyclePosition) : option LifecyclePosition :=
  last (List.filter (fun p => String.eqb (position_id p) id) ps).
Definition spec_positions (ps : list LifecyclePosition) : list LifecyclePosition :=
  omap (fun id => spec_latest id ps) (sorted_set (map position_id ps)).

Lemma last_map {A B} (f : A -> B) l : last (map f l) = f <$> last l.
Proof. induction l as [|x [|y l] IH]; [done|done|]. cbn [map] in *. by rewrite !last_cons_cons. Qed.

Lemma latest_stored id es : Forall entry_ok es ->
  last (List.filter (has_id id) (map (fun e => stored (e_position e)) es))
  = stored <$> spec_latest id (map e_position es).
Proof.
  intros Hok. unfold spec_latest. rewrite <- last_map. f_equal.
  induction Hok as [|e es He _ IH]; [done|]. cbn [map List.filter]. destruct He as (_ & _ & Hs).
  unfold has_id at 1. rewrite (stored_id _ Hs). cbn [py_eqb]. destruct (String.eqb _ id); [|done].
  cbn [map]. by rewrite IH.
Qed.

Lemma spec_latest_In id ps p : spec_latest id ps = Some p -> In p ps /\ position_id p = id.
Proof.
  unfold spec_latest. intros H. apply last_Some_elem_of in H. apply list_elem_of_In, filter_In in H.
  by rewrite String.eqb_eq in H.
Qed.

Lemma latest_restored id es p : Forall entry_ok es -> spec_latest id (map e_position es) = Some p ->
  _position_from_payload (stored p) = Ok p.
Proof.
  intros Hok (Hin & _)%spec_latest_In. apply in_map_iff in Hin as (e & <- & Hin). apply entry_restores.
  rewrite List.Forall_forall in Hok. auto.
Qed.

(** Dictionaries filled in order keep the order of the first occurrences and
    the last value of each key. *)
Lemma dict_set_keys {V} k (v : V) d : map fst (dict_set String.eqb k v d)
  = map fst d ++ (if str_in k (map fst d) then [] else [k]).
Proof.
  induction d as [|[k0 v0] d IH]; [done|]. cbn [dict_set map fst]. unfold str_in. cbn [existsb].
  destruct (String.eqb k k0) eqn:E; cbn [orb map fst].
  - by rewrite app_nil_r.
  - rewrite IH. unfold str_in. by rewrite <- app_comm_cons.
Qed.

Lemma dedup_from_app l k : forall seen,
  dedup_from seen (l ++ [k]) = dedup_from seen l ++ (if str_in k seen || str_in k l then [] else [k]).
Proof.
  induction l as [|s l IH]; intros seen; cbn [app dedup_from].
  { rewrite orb_false_r. by destruct (str_in k seen). }
  destruct (str_in s seen) eqn:E.
  - rewrite IH. f_equal. assert (str_in k seen || str_in k (s :: l) = str_in k seen || str_in k l) as ->; [|done].
    change (str_in k (s :: l)) with (String.eqb k s || str_in k l). destruct (String.eqb k s) eqn:Ek; [|done].
    apply String.eqb_eq in Ek. subst s. by rewrite E.
  - rewrite IH, <- app_comm_cons. f_equal. f_equal. unfold str_in. cbn [existsb].
    by destruct (String.eqb k s), (existsb (String.eqb k) seen).
Qed.

Lemma latest_by_id_stored es : Forall entry_ok es ->
  map fst (latest_by_id (map (fun e => stored (e_position e)) es)) = fromkeys (map position_id (map e_position es))
  /\ forall id, dict_get String.eqb id (latest_by_id (map (fun e => stored (e_position e)) es))
     = stored <$> spec_latest id (map e_position es).
Proof.
  induction es as [|e es IH] using rev_ind; intros Hok; [done|]. apply Forall_app in Hok as (Hok & He).
  apply Forall_cons in He as (He & _). destruct (IH Hok) as (Hk & Hg). unfold latest_by_id in *.
  rewrite !map_app, fold_left_app. cbn [map fold_left]. set (d := fold_left _ _ []) in *.
  destruct He as (_ & Hc & Hs). rewrite (stored_id _ Hs).
  assert (blank (position_id (e_position e)) = false) as ->.
  { apply ct_position in Hc. unfold new_lifecycle in Hc. apply bind_Ok in Hc as (u & Hu & _).
    by apply raise_if_Ok, orb_false_iff in Hu as (Hu & _). }
  split.
  - rewrite dict_set_keys, Hk. unfold fromkeys. rewrite dedup_from_app. cbn [str_in existsb orb]. f_equal.
    assert (str_in (position_id (e_position e)) (dedup_from [] (map position_id (map e_position es)))
      = str_in (position_id (e_position e)) (map position_id (map e_position es))) as ->; [|done].
    apply eq_true_iff_eq. rewrite !str_in_In. apply fromkeys_In.
  - intros id. rewrite (dict_get_set String.eqb). unfold spec_latest. rewrite List.filter_app. cbn [List.filter].
    rewrite (String.eqb_sym (position_id (e_position e))). destruct (String.eqb id (position_id (e_position e))).
    + by rewrite last_snoc.
    + rewrite app_nil_r. apply Hg.
Qed.

(** ** Reading a ledger *)

Section Read.

Context (l : PaperLedger) (fs : files) (es : list entry).
Hypothesis Hholds : ledger_holds l fs es.

Lemma no_file_no_entries : fs !! ledger_path l = None -> es = [].
Proof using Hholds.
  destruct Hholds as (Ht & _). intros E. rewrite E in Ht. cbn in Ht. destruct es as [|e es'] using rev_ind; [done|].
  rewrite entries_text_snoc in Ht. symmetry in Ht. apply app_nil_iff in Ht as (_ & Ht). by apply app_nil_iff in Ht as (_ & Ht).
Qed.

Lemma latest_position_spec id : latest_position l id fs = Ok (spec_latest id (map e_position es)).
Proof using Hholds.
  unfold latest_position, latest_payload. destruct (decide (fs !! ledger_path l = None)) as [E|E].
  - apply no_file_no_entries in E as ->. done.
  - destruct (fs !! ledger_path l) as [text|] eqn:Et; [|done].
    rewrite (payloads_of l fs es text Et Hholds), Ok_bind, latest_stored by apply Hholds.
    destruct (spec_latest id (map e_position es)) as [p|] eqn:Ep; [|done].
    change (mret (stored <$> Some p)) with (Ok (Some (stored p))). rewrite Ok_bind.
    by rewrite (latest_restored id es p (proj2 Hholds) Ep).
Qed.

Lemma spec_latest_member id ps : In id (map position_id ps) -> exists p, spec_latest id ps = Some p.
Proof.
  unfold spec_latest. intros (p & <- & Hin)%in_map_iff.
  destruct (List.filter _ ps) as [|x k] eqn:E using rev_ind; [|exists x; by rewrite last_snoc].
  exfalso. assert (In p (List.filter (fun q => String.eqb (position_id q) (position_id p)) ps)) as Hf.
  { apply filter_In. by rewrite String.eqb_refl. }
  by rewrite E in Hf.
Qed.

Lemma latest_positions_spec : latest_positions l fs = Ok (spec_positions (map e_position es)).
Proof using Hholds.
  unfold latest_positions. destruct (decide (fs !! ledger_path l = None)) as [E|E].
  { apply no_file_no_entries in E as ->. done. }
  destruct (fs !! ledger_path l) as [text|] eqn:Et; [|done].
  rewrite (payloads_of l fs es text Et Hholds), Ok_bind. cbv zeta.
  destruct (latest_by_id_stored es (proj2 Hholds)) as (Hk & Hg). rewrite Hk. unfold spec_positions, sorted_set.
  assert (forall id, In id (sorted_strings (fromkeys (map position_id (map e_position es)))) ->
    In id (map position_id (map e_position es))) as Hin.
  { intros id Hid. rewrite <- fromkeys_In. unfold sorted_strings in Hid. apply (py_sorted_In String.leb). exact Hid. }
  induction (sorted_strings _) as [|id ids IH]; [done|]. cbn [mapM]. rewrite Hg.
  destruct (spec_latest_member id (map e_position es)) as (p & Ep); [apply Hin; by left|].
  rewrite Ep. cbn [fmap option_fmap option_map]. rewrite (latest_restored id es p (proj2 Hholds) Ep), Ok_bind.
  rewrite IH by (intros x Hx; apply Hin; by right). rewrite Ok_bind.
  change (omap (fun i => spec_latest i (map e_position es)) (id :: ids)) with
    (match spec_latest id (map e_position es) with
     | Some q => q :: omap (fun i => spec_latest i (map e_position es)) ids
     | None => omap (fun i => spec_latest i (map e_position es)) ids end).
  by rewrite Ep.
Qed.

End Read.

Lemma run_appends_holds p l calls : new_ledger p = Ok l ->
  Forall (fun c => entry_ok c.1 /\ whole c.2 = true) calls -> forall fs es, ledger_holds l fs es ->
  let '(rs, fs') := run_appends l calls fs in
  rs = map (fun c => if accepted c then Ok tt else Raise OSError) calls
  /\ ledger_holds l fs' (es ++ map fst (List.filter accepted calls))
  /\ forall q, q <> p -> fs' !! q = fs !! q.
Proof.
  intros Hl. assert (ledger_path l = p) as Hp.
  { unfold new_ledger in Hl. apply bind_Ok in Hl as (s & _ & Hl). by apply mret_Ok in Hl as <-. }
  induction 1 as [|[e out] calls (He & Ho) _ IH]; intros fs es Hh; cbn [run_appends map List.filter].
  { by rewrite app_nil_r. }
  cbn [fst snd] in *. rewrite (append_position_run p l e out fs Hl He Ho). destruct (accepted (e, out)).
  - assert (ledger_holds l (append_to p (entry_line e ++ [newline]) fs) (es ++ [e])) as Hh'.
    { destruct Hh as (Ht & Hok). split.
      - rewrite Hp in *. rewrite append_to_lookup, Ht, entries_text_snoc. done.
      - apply Forall_app. split; [done|]. by constructor. }
    specialize (IH _ _ Hh'). destruct (run_appends l calls _) as [rs fs']. destruct IH as (-> & H1 & H2).
    split; [done|]. cbn [map fst]. rewrite <- app_assoc in H1. split; [done|]. intros q Hq. rewrite H2 by done.
    by apply append_to_other.
  - specialize (IH _ _ Hh). destruct (run_appends l calls fs) as [rs fs']. destruct IH as (-> & H1 & H2). done.
Qed.

(** C19: the ledger is a map from identities to last positions.  Whatever calls
    append constructed positions to a ledger, each is recorded or refused with
    the file unchanged; then [latest_position] restores exactly the last position
    recorded for an identity, every derived field included, [latest_positions]
    restores those of all identities in their order, and [closed_positions] the
    closed and reviewed ones among them.  No other file changes. *)
Theorem paper_ledger_refines p l calls fs es : new_ledger p = Ok l ->
  Forall (fun c => entry_ok c.1 /\ whole c.2 = true) calls -> ledger_holds l fs es ->
  let '(rs, fs') := run_appends l calls fs in
  let ps := map e_position (es ++ map fst (List.filter accepted calls)) in
  rs = map (fun c => if accepted c then Ok tt else Raise OSError) calls
  /\ (forall id, latest_position l id fs' = Ok (spec_latest id ps))
  /\ latest_positions l fs' = Ok (spec_positions ps)
  /\ closed_positions l fs' = Ok (List.filter (fun q => closed q && is_some (closure_review q)) (spec_positions ps))
  /\ forall q, q <> p -> fs' !! q = fs !! q.
Proof.
  intros Hl Hc Hh. pose proof (run_appends_holds p l calls Hl Hc fs es Hh) as H.
  destruct (run_appends l calls fs) as [rs fs']. destruct H as (-> & Hh' & Hf).
  split; [done|]. split; [by apply latest_position_spec|]. split; [by apply latest_positions_spec|]. split; [|done].
  unfold closed_positions. by rewrite (latest_positions_spec l fs' _ Hh').
Qed.

(** ** Positions of the lifecycle are constructed *)

Lemma new_lifecycle_again p0 p : new_lifecycle p0 = Ok p ->
  new_lifecycle p = Ok p /\ exits p = exits p0 /\ plan p = plan p0 /\ lp_methods p = lp_methods p0
  /\ lp_evidence p = lp_evidence p0.
Proof.
  intros H. assert (exists rr a, p = set_derived rr a p0) as (rr & a & ->).
  { unfold new_lifecycle in H. do 7 (apply bind_Ok in H as (? & _ & H)). do 5 (apply bind_Ok in H as (? & _ & H)).
    apply mret_Ok in H as <-. by eexists _, _. }
  split; [|done]. exact H.
Qed.

(** What a step of the engine keeps of a constructed position. *)
Lemma constructed_step p p0 p' : constructed p -> new_lifecycle p0 = Ok p' ->
  Forall (fun e => new_exit e = Ok e) (exits p0) -> plan p0 = plan p -> lp_methods p0 = lp_methods p ->
  lp_evidence p0 = lp_evidence p -> constructed p'.
Proof.
  intros [_ Hp _ Hm He] H Hex E1 E2 E3. apply new_lifecycle_again in H as (Hn & X1 & X2 & X3 & X4).
  split; [done|by rewrite X2, E1|by rewrite X1|by rewrite X3, E2|by rewrite X4, E3].
Qed.

Lemma apply_exit_constructed engine p at_ reason price quantity x next p' : constructed p ->
  _apply_exit engine p at_ reason price quantity x next = Ok p' -> constructed p'.
Proof.
  intros Hc H. unfold _apply_exit in H. do 9 (apply bind_Ok in H as (? & _ & H)). cbv zeta in H.
  apply bind_Ok in H as (e & He & H). apply bind_Ok in H as (total & _ & H).
  eapply (constructed_step p); [done|exact H| |done..]. cbn [after_exit exits]. apply Forall_app.
  split; [apply Hc|]. constructor; [|constructor]. unfold new_exit in He |- *.
  do 2 (let u := fresh "u" in let Hr := fresh "Hr" in apply bind_Ok in He as (u & Hr & He); apply raise_if_Ok in Hr).
  apply mret_Ok in He as <-. by rewrite Hr, Hr0.
Qed.

Lemma take_targets_constructed engine stages c x : forall p r, constructed p ->
  take_targets engine stages c x p = Ok r -> constructed r.1.
Proof.
  induction stages as [|[t ratio] stages IH]; intros p r Hp H; cbn [take_targets] in H.
  { by apply mret_Ok in H as <-. }
  destruct (c_high c <? t)%D; [by apply mret_Ok in H as <-|].
  do 2 (apply bind_Ok in H as (? & _ & H)). apply bind_Ok in H as (p1 & H1 & H).
  apply apply_exit_constructed in H1; [|done]. destruct (closed p1); [by apply mret_Ok in H as <-|]. by eapply IH.
Qed.

Lemma process_constructed engine p c x p' : constructed p -> process_candle engine p c x = Ok p' -> constructed p'.
Proof.
  intros Hp H. unfold process_candle in H. do 2 (apply bind_Ok in H as (? & _ & H)). cbv zeta in H.
  destruct (c_low c <=? _)%D.
  - apply bind_Ok in H as (price & _ & H). unfold _close_remaining in H. by eapply apply_exit_constructed.
  - apply bind_Ok in H as ([p1 early] & H1 & H). apply take_targets_constructed in H1; [|done]. cbn [fst] in H1.
    destruct early; [by apply mret_Ok in H as <-|]. apply bind_Ok in H as (tr & _ & H).
    eapply (constructed_step p1); [done|exact H|apply H1|done..].
Qed.

(** Every position a fill and any candles lead to can be stored, as far as its
    constructors are concerned. *)
Lemma traded_constructed engine p : traded engine p -> constructed p.
Proof.
  induction 1 as [o stop atr pl p Hpl _ Hev H|p c x p' _ IH _ H]; [|by eapply process_constructed].
  unfold open_position in H. do 4 (apply bind_Ok in H as (? & _ & H)). apply bind_Ok in H as (m & Hm & H).
  apply new_lifecycle_again in H as (Hn & X1 & X2 & X3 & X4). cbn in X1, X2, X3, X4.
  apply new_methods_Ok in Hm as (-> & Hm).
  split; [done|by rewrite X2|rewrite X1; constructor| |by rewrite X4]. rewrite X3. by apply new_methods_Ok.
Qed.

(** ** Examples *)

Definition ex_closed : LifecyclePosition := Eval vm_compute in
  ok_or ex_opened (process_candle ex_engine ex_opened (ex_candle 110 135 90 128) ex_closure).

Lemma ex_opened_traded : traded ex_engine ex_opened.
Proof.
  eapply (traded_open _ ex_order (lit 90 0) (lit 2 0) ex_plan); [vm_compute; reflexivity|split; vm_compute; discriminate| |].
  { exists "RECORDED_AT_DECISION", (Some (utc 5)), "CONFIRMED_SWING_GRAPH", "CLOSE_RECLAIM", (dumps ex_factors).
    exact ex_evidence_new. }
  vm_compute. reflexivity.
Qed.

Lemma ex_closed_traded : traded ex_engine ex_closed.
Proof.
  eapply (traded_candle _ ex_opened (ex_candle 110 135 90 128) ex_closure); [apply ex_opened_traded|vm_compute; reflexivity..].
Qed.

Definition ex_ledger : PaperLedger := mk_ledger "paper.jsonl" (mk_store "paper.jsonl" true false 8388608 None None).
Definition ex_calls : list (entry * write_outcome) :=
  [ (mk_entry "PAPER_POSITION_OPENED" (utc 0) ex_opened, Written);
    (mk_entry "PAPER_POSITION_UPDATED" (utc 1) ex_opened, Refused);
    (mk_entry "PAPER_POSITION_CLOSED" (utc (seconds 60)) ex_closed, Written) ].

Lemma paper_ledger_refines_witness : exists fs,
  latest_position ex_ledger "paper:c-1" fs = Ok (Some ex_closed) /\ closed_positions ex_ledger fs = Ok [ex_closed].
Proof.
  pose proof (paper_ledger_refines "paper.jsonl" ex_ledger ex_calls ∅ []) as H.
  destruct (run_appends ex_ledger ex_calls ∅) as [rs fs]. exists fs.
  destruct H as (_ & H1 & _ & H2 & _).
  - reflexivity.
  - repeat (constructor; [split; [split; [reflexivity|split]|reflexivity]|]); [..|constructor];
      first [vm_compute; reflexivity
            |eapply traded_constructed; first [exact ex_opened_traded|exact ex_closed_traded]].
  - split; [reflexivity|constructor].
  - specialize (H1 "paper:c-1"). rewrite H1, H2. split; vm_compute; reflexivity.
Defined.
