(* ===== verification/VirtualWallet.v ===== *)
(** [domain/research/virtual_runtime_portfolio_state.py] and
    [domain/research/virtual_runtime_portfolios.py]: the state of one virtual
    wallet, its invariants, and its payload.

    Decimals are finite. *)
From S2P Require Import Prelude PyDecimal DecimalFacts DecimalText PyText JsonText Serialize Attribution AuditLog ApprovalText Domain PaperLedger.
Local Open Scope Z_scope.
Local Open Scope bool_scope.

Inductive VirtualPositionSide : Type := LONG | SHORT.
#[export] Instance VirtualPositionSide_eq_dec : EqDecision VirtualPositionSide.
Proof. solve_decision. Defined.
#[export] Program Instance VirtualPositionSide_text : StrEnum VirtualPositionSide := {|
  members := [LONG; SHORT];
  enum_text s := match s with LONG => "LONG" | SHORT => "SHORT" end
|}.
Next Obligation. destruct a; cbn; auto. Qed.
Next Obligation. by destruct a, b. Qed.

Record VirtualPortfolioState : Type := mk_portfolio {
  portfolio_id : string;
  vp_market : string;
  cash_usdt : dec;
  equity_usdt : dec;
  initial_equity_usdt : dec;
  inventory_quantity : dec;
  inventory_cost_basis_usdt : dec;
  vp_realized_pnl : dec;
  vp_unrealized_pnl : dec;
  fees_paid_usdt : dec;
  slippage_cost_usdt : dec;
  funding_cost_usdt : dec;
  high_watermark_usdt : option dec;
  vp_max_drawdown : dec;
  current_open_risk_usdt : dec;
  vp_consecutive_losses : Z;
  position_side : option VirtualPositionSide;
  position_entry_price : option dec;
  position_mark_price : option dec;
  position_notional_usdt : option dec;
  isolated_margin_usdt : option dec;
  initial_margin_usdt : option dec;
  maintenance_margin_usdt : option dec;
  liquidation_price : option dec;
  vp_leverage : option Z;
  margin_utilization_ratio : option dec;
  open_position_count : Z;
  max_concurrent_positions : Z
}.

(** The fields filled by [__post_init__]. *)
Definition with_market_and_watermark (s : VirtualPortfolioState) (market : string) (watermark : option dec)
  : VirtualPortfolioState :=
  mk_portfolio (portfolio_id s) market (cash_usdt s) (equity_usdt s) (initial_equity_usdt s) (inventory_quantity s)
    (inventory_cost_basis_usdt s) (vp_realized_pnl s) (vp_unrealized_pnl s) (fees_paid_usdt s) (slippage_cost_usdt s)
    (funding_cost_usdt s) watermark (vp_max_drawdown s) (current_open_risk_usdt s) (vp_consecutive_losses s)
    (position_side s) (position_entry_price s) (position_mark_price s) (position_notional_usdt s)
    (isolated_margin_usdt s) (initial_margin_usdt s) (maintenance_margin_usdt s) (liquidation_price s) (vp_leverage s)
    (margin_utilization_ratio s) (open_position_count s) (max_concurrent_positions s).

(** [ZERO <= d <= ONE] *)
Definition unit_interval (d : dec) : bool := (ZERO <=? d)%D && (d <=? lit 1 0)%D.

Definition futures_scalars (s : VirtualPortfolioState) : list (option dec) :=
  [position_entry_price s; position_mark_price s; position_notional_usdt s; isolated_margin_usdt s;
   initial_margin_usdt s; maintenance_margin_usdt s; liquidation_price s; margin_utilization_ratio s].

Definition is_none {A} (o : option A) : bool := match o with None => true | Some _ => false end.

(** The checks of a Spot wallet. *)
Definition check_spot (s : VirtualPortfolioState) (watermark : dec) : res unit :=
  raise_if ((inventory_quantity s =? ZERO)%D && negb (inventory_cost_basis_usdt s =? ZERO)%D)
    (ValueError "Spot virtual portfolio cannot keep cost basis without inventory");;
  realized ← dadd watermark (vp_realized_pnl s);
  limit ← dadd realized (initial_equity_usdt s);
  raise_if (limit <? cash_usdt s)%D
    (ValueError "Spot virtual portfolio cash appears inconsistent with independent capital");;
  raise_if (negb (is_none (position_side s) && forallb is_none (futures_scalars s) && is_none (vp_leverage s)))
    (ValueError "Spot virtual portfolio cannot contain Futures position fields").

(** The checks of a Futures wallet. *)
Definition check_futures (s : VirtualPortfolioState) : res unit :=
  raise_if (negb (inventory_quantity s =? ZERO)%D || negb (inventory_cost_basis_usdt s =? ZERO)%D)
    (ValueError "USD_M_FUTURES virtual portfolio cannot carry Spot inventory state");;
  if 0 <? open_position_count s then
    raise_if (is_none (position_side s) || existsb is_none (futures_scalars s))
      (ValueError "USD_M_FUTURES open virtual position requires full margin evidence");;
    raise_if (match vp_leverage s with Some n => n <? 1 | None => true end)
      (ValueError "USD_M_FUTURES open virtual position requires positive leverage");;
    raise_if (match margin_utilization_ratio s with Some d => negb (unit_interval d) | None => true end)
      (ValueError "USD_M_FUTURES margin utilization must stay within zero and one")
  else
    raise_if (negb (is_none (position_side s)))
      (ValueError "USD_M_FUTURES flat virtual portfolio cannot keep directional position state").

(** [VirtualPortfolioState.__post_init__] *)
Definition new_portfolio (s : VirtualPortfolioState) : res VirtualPortfolioState :=
  raise_if (blank (portfolio_id s) || blank (vp_market s)) (ValueError "virtual portfolio identity is required");;
  raise_if (dmin (initial_equity_usdt s) (equity_usdt s) <=? ZERO)%D
    (ValueError "virtual portfolio equity must be positive");;
  raise_if (dmin_list (cash_usdt s) [inventory_quantity s; inventory_cost_basis_usdt s; fees_paid_usdt s;
                                     slippage_cost_usdt s; current_open_risk_usdt s] <? ZERO)%D
    (ValueError "virtual portfolio balances must be non-negative");;
  raise_if (negb (unit_interval (vp_max_drawdown s)))
    (ValueError "virtual portfolio drawdown ratio must stay within zero and one");;
  total ← dadd (vp_unrealized_pnl s) (cash_usdt s);
  floor ← dneg_op (equity_usdt s);
  raise_if (total <? floor)%D (ValueError "virtual portfolio unrealized PnL is inconsistent");;
  raise_if ((open_position_count s <? 0) || (max_concurrent_positions s <? 1))
    (ValueError "virtual portfolio capacity must be positive");;
  raise_if (vp_consecutive_losses s <? 0)
    (ValueError "virtual portfolio consecutive loss count cannot be negative");;
  let market := normalize (vp_market s) in
  raise_if (negb (str_in market ["SPOT"; "USD_M_FUTURES"]))
    (ValueError "virtual portfolio market must be SPOT or USD_M_FUTURES");;
  let watermark := default (equity_usdt s) (high_watermark_usdt s) in
  raise_if (watermark <=? ZERO)%D (ValueError "virtual portfolio high watermark must be positive");;
  raise_if (watermark <? equity_usdt s)%D (ValueError "virtual portfolio high watermark cannot trail equity");;
  (if String.eqb market "SPOT" then check_spot s watermark else check_futures s);;
  mret (with_market_and_watermark s market (Some watermark)).

(** ** Payloads *)

(** [_optional_decimal_text] *)
Definition _optional_decimal_text (o : option dec) : json :=
  match o with Some d => JStr (str_decimal d) | None => JNull end.

(** [VirtualPortfolioState.to_payload] *)
Definition to_payload (s : VirtualPortfolioState) : list (string * json) :=
  let text d := JStr (str_decimal d) in
  [("portfolio_id", JStr (portfolio_id s)); ("market", JStr (vp_market s)); ("cash_usdt", text (cash_usdt s));
   ("equity_usdt", text (equity_usdt s)); ("initial_equity_usdt", text (initial_equity_usdt s));
   ("inventory_quantity", text (inventory_quantity s));
   ("inventory_cost_basis_usdt", text (inventory_cost_basis_usdt s)); ("realized_pnl_usdt", text (vp_realized_pnl s));
   ("unrealized_pnl_usdt", text (vp_unrealized_pnl s)); ("fees_paid_usdt", text (fees_paid_usdt s));
   ("slippage_cost_usdt", text (slippage_cost_usdt s)); ("funding_cost_usdt", text (funding_cost_usdt s));
   ("high_watermark_usdt", _optional_decimal_text (high_watermark_usdt s));
   ("max_drawdown_ratio", text (vp_max_drawdown s)); ("current_open_risk_usdt", text (current_open_risk_usdt s));
   ("consecutive_losses", JInt (vp_consecutive_losses s));
   ("position_side", match position_side s with Some side => JStr (enum_text side) | None => JNull end);
   ("position_entry_price", _optional_decimal_text (position_entry_price s));
   ("position_mark_price", _optional_decimal_text (position_mark_price s));
   ("position_notional_usdt", _optional_decimal_text (position_notional_usdt s));
   ("isolated_margin_usdt", _optional_decimal_text (isolated_margin_usdt s));
   ("initial_margin_usdt", _optional_decimal_text (initial_margin_usdt s));
   ("maintenance_margin_usdt", _optional_decimal_text (maintenance_margin_usdt s));
   ("liquidation_price", _optional_decimal_text (liquidation_price s));
   ("leverage", match vp_leverage s with Some n => JInt n | None => JNull end);
   ("margin_utilization_ratio", _optional_decimal_text (margin_utilization_ratio s));
   ("open_position_count", JInt (open_position_count s));
   ("max_concurrent_positions", JInt (max_concurrent_positions s))].

(** A text field and a decimal field of a payload; the noun is that of the
    module's messages. *)
Definition text_value_of (noun : string) (value : json) (label : string) : res string :=
  match value with
  | JStr s => raise_if (blank s) (ValueError (noun ++ label ++ " must be non-empty text"));; mret (strip s)
  | _ => Raise (ValueError (noun ++ label ++ " must be non-empty text"))
  end.
Definition decimal_of (noun : string) (p : list (string * json)) (key : string) : res dec :=
  parsed ← catch (Decimal (py_str (get_field key p)))
    (fun e => match e with ValueError _ | TypeError => true | _ => is_arithmetic_error e end)
    (fun _ => Raise (ValueError (noun ++ key ++ " must be decimal")));
  match parsed with
  | Finite d => mret d
  | _ => Raise (ValueError (noun ++ key ++ " must be finite"))
  end.

(** [_required_text_value], [_required_text], [_required_decimal] *)
Definition _required_text_value (value : json) (label : string) : res string := text_value_of "virtual portfolio " value label.
Definition _required_text (p : list (string * json)) (key : string) : res string := _required_text_value (get_field key p) key.
Definition _required_decimal (p : list (string * json)) (key : string) : res dec := decimal_of "virtual portfolio " p key.

(** [_optional_decimal] *)
Definition _optional_decimal (p : list (string * json)) (key : string) : res (option dec) :=
  match get_field key p with JNull => mret None | _ => Some <$> _required_decimal p key end.

(** [_required_integer_value], [_required_integer] *)
Definition _required_integer_value (value : json) (label : string) : res Z :=
  raise_if (match value with JBool _ => true | _ => false end)
    (ValueError ("virtual portfolio " ++ label ++ " must be integer"));;
  parsed ← catch (py_int (JStr (py_str value))) (fun e => match e with ValueError _ | TypeError => true | _ => false end)
    (fun _ => Raise (ValueError ("virtual portfolio " ++ label ++ " must be integer")));
  raise_if (negb (String.eqb (str_int parsed) (py_str value)))
    (ValueError ("virtual portfolio " ++ label ++ " must be canonical integer"));;
  mret parsed.
Definition _required_integer (p : list (string * json)) (key : string) : res Z := _required_integer_value (get_field key p) key.

(** [VirtualPortfolioState.from_payload] *)
Definition from_payload (p : list (string * json)) : res VirtualPortfolioState :=
  id ← _required_text p "portfolio_id";
  market ← _required_text p "market";
  cash ← _required_decimal p "cash_usdt";
  equity ← _required_decimal p "equity_usdt";
  initial ← _required_decimal p "initial_equity_usdt";
  inventory ← _required_decimal p "inventory_quantity";
  basis ← _required_decimal p "inventory_cost_basis_usdt";
  realized ← _required_decimal p "realized_pnl_usdt";
  unrealized ← _required_decimal p "unrealized_pnl_usdt";
  fees ← _required_decimal p "fees_paid_usdt";
  slippage ← _required_decimal p "slippage_cost_usdt";
  funding ← _required_decimal p "funding_cost_usdt";
  watermark ← _optional_decimal p "high_watermark_usdt";
  drawdown ← _required_decimal p "max_drawdown_ratio";
  risk ← _required_decimal p "current_open_risk_usdt";
  losses ← _required_integer p "consecutive_losses";
  side ← match get_field "position_side" p with
         | JNull => mret None
         | value =>
             text ← _required_text_value value "position_side";
             match enum_parse text with
             | Some side => mret (Some side)
             | None => Raise (ValueError "is not a valid VirtualPositionSide")
             end
         end;
  entry ← _optional_decimal p "position_entry_price";
  mark ← _optional_decimal p "position_mark_price";
  notional ← _optional_decimal p "position_notional_usdt";
  isolated ← _optional_decimal p "isolated_margin_usdt";
  margin ← _optional_decimal p "initial_margin_usdt";
  maintenance ← _optional_decimal p "maintenance_margin_usdt";
  liquidation ← _optional_decimal p "liquidation_price";
  leverage ← match get_field "leverage" p with
             | JNull => mret None
             | value => Some <$> _required_integer_value value "leverage"
             end;
  utilization ← _optional_decimal p "margin_utilization_ratio";
  count ← _required_integer p "open_position_count";
  capacity ← _required_integer p "max_concurrent_positions";
  new_portfolio (mk_portfolio id market cash equity initial inventory basis realized unrealized fees slippage funding
    watermark drawdown risk losses side entry mark notional isolated margin maintenance liquidation leverage utilization
    count capacity).

(** [IndependentVirtualPortfolios.__post_init__] *)
Record IndependentVirtualPortfolios : Type := mk_portfolios { spot : VirtualPortfolioState; futures : VirtualPortfolioState }.
Definition new_portfolios (p : IndependentVirtualPortfolios) : res IndependentVirtualPortfolios :=
  raise_if (negb (String.eqb (vp_market (spot p)) "SPOT"))
    (ValueError "independent virtual portfolios require a SPOT portfolio");;
  raise_if (negb (String.eqb (vp_market (futures p)) "USD_M_FUTURES"))
    (ValueError "independent virtual portfolios require a USD_M_FUTURES portfolio");;
  raise_if (String.eqb (portfolio_id (spot p)) (portfolio_id (futures p)))
    (ValueError "Spot and Futures virtual portfolios must stay independent");;
  mret p.

(** [a == b], field by field; decimals are compared as numbers. *)
Definition opt_deqb (a b : option dec) : bool :=
  match a, b with Some x, Some y => (x =? y)%D | None, None => true | _, _ => false end.
Definition portfolio_eqb (a b : VirtualPortfolioState) : bool :=
  let d f := deqb (f a) (f b) in
  let o f := opt_deqb (f a) (f b) in
  String.eqb (portfolio_id a) (portfolio_id b) && String.eqb (vp_market a) (vp_market b)
  && d cash_usdt && d equity_usdt && d initial_equity_usdt && d inventory_quantity && d inventory_cost_basis_usdt
  && d vp_realized_pnl && d vp_unrealized_pnl && d fees_paid_usdt && d slippage_cost_usdt && d funding_cost_usdt
  && o high_watermark_usdt && d vp_max_drawdown && d current_open_risk_usdt
  && (vp_consecutive_losses a =? vp_consecutive_losses b)
  && bool_decide (position_side a = position_side b)
  && o position_entry_price && o position_mark_price && o position_notional_usdt && o isolated_margin_usdt
  && o initial_margin_usdt && o maintenance_margin_usdt && o liquidation_price
  && bool_decide (vp_leverage a = vp_leverage b) && o margin_utilization_ratio
  && (open_position_count a =? open_position_count b)
  && (max_concurrent_positions a =? max_concurrent_positions b).

(** ** The payload gives the state back *)

Definition scalars (s : VirtualPortfolioState) : list dec :=
  [cash_usdt s; equity_usdt s; initial_equity_usdt s; inventory_quantity s; inventory_cost_basis_usdt s;
   vp_realized_pnl s; vp_unrealized_pnl s; fees_paid_usdt s; slippage_cost_usdt s; funding_cost_usdt s;
   vp_max_drawdown s; current_open_risk_usdt s].
Definition optional_scalars (s : VirtualPortfolioState) : list (option dec) := high_watermark_usdt s :: futures_scalars s.
Definition integers (s : VirtualPortfolioState) : list Z :=
  [vp_consecutive_losses s; open_position_count s; max_concurrent_positions s]
  ++ match vp_leverage s with Some n => [n] | None => [] end.

(** A state that was constructed, and whose numbers have a text. *)
Record wallet_ok (s : VirtualPortfolioState) : Prop := mk_wallet_ok {
  wk_built : new_portfolio s = Ok s;
  wk_id : strip (portfolio_id s) = portfolio_id s /\ isascii (portfolio_id s) = true;
  wk_scalars : forallb exponent_in_range (scalars s) = true;
  wk_optional : forallb (fun o => match o with Some d => exponent_in_range d | None => true end) (optional_scalars s) = true;
  wk_integers : forallb (fun n => json_ok (JInt n)) (integers s) = true
}.

Lemma decimal_of_text noun p key d : get_field key p = JStr (str_decimal d) -> exponent_in_range d = true ->
  decimal_of noun p key = Ok d.
Proof. intros E H. unfold decimal_of. rewrite E. cbn [py_str]. by rewrite decimal_text_roundtrip. Qed.

Lemma required_decimal_text p key d : get_field key p = JStr (str_decimal d) -> exponent_in_range d = true ->
  _required_decimal p key = Ok d.
Proof. apply decimal_of_text. Qed.

Lemma optional_decimal_text p key o : get_field key p = _optional_decimal_text o ->
  match o with Some d => exponent_in_range d | None => true end = true -> _optional_decimal p key = Ok o.
Proof.
  intros E H. unfold _optional_decimal. destruct o as [d|]; cbn [_optional_decimal_text] in E.
  - by rewrite E, (required_decimal_text _ _ d).
  - by rewrite E.
Qed.

Lemma py_str_int n : py_str (JInt n) = str_int n.
Proof. cbn. apply string_list_ascii_id. Qed.

Lemma required_integer_text n label : json_ok (JInt n) = true -> _required_integer_value (JInt n) label = Ok n.
Proof.
  intros H. unfold _required_integer_value. cbn [raise_if]. rewrite Ok_bind, py_str_int, int_text by done.
  cbn [catch]. by rewrite Ok_bind, String.eqb_refl.
Qed.

Lemma text_value_stripped noun s label : strip s = s -> blank s = false -> text_value_of noun (JStr s) label = Ok s.
Proof. intros E H. unfold text_value_of. rewrite H. cbn [raise_if]. by rewrite Ok_bind, E. Qed.

Lemma required_text_stripped s label : strip s = s -> blank s = false -> _required_text_value (JStr s) label = Ok s.
Proof. apply text_value_stripped. Qed.

(** What construction guarantees about the identity. *)
Lemma new_portfolio_identity s s' : new_portfolio s = Ok s' ->
  blank (portfolio_id s) = false /\ (vp_market s' = "SPOT" \/ vp_market s' = "USD_M_FUTURES")
  /\ s' = with_market_and_watermark s (vp_market s') (Some (default (equity_usdt s) (high_watermark_usdt s))).
Proof.
  unfold new_portfolio. intros H. apply bind_Ok in H as (? & Hid & H). apply raise_if_Ok, orb_false_iff in Hid as [Hid _].
  split; [done|]. do 8 (apply bind_Ok in H as (? & _ & H)). apply bind_Ok in H as (? & Hm & H).
  do 3 (apply bind_Ok in H as (? & _ & H)). apply mret_Ok in H as <-.
  apply raise_if_Ok, negb_false_iff, str_in_In in Hm. cbn in Hm. split; [intuition auto|done].
Qed.

(** [from_payload] looks at fields only. *)
Lemma from_payload_ext p q : (forall k, get_field k p = get_field k q) -> from_payload p = from_payload q.
Proof.
  intros H. unfold from_payload, _required_text, _required_integer, _optional_decimal, _required_decimal, decimal_of. by rewrite !H.
Qed.

Lemma bind_value {A B} (m : res A) a (f : A -> res B) : m = Ok a -> (m ≫= f) = f a.
Proof. by intros ->. Qed.

#[local] Ltac restore_field lem := etransitivity; [apply bind_value, lem; [reflexivity|eassumption]|].

(** A wallet's payload, its keys in any order, restores exactly that wallet. *)
Lemma payload_restores s p : wallet_ok s -> (forall k, get_field k p = get_field k (to_payload s)) -> from_payload p = Ok s.
Proof.
  intros [Hb (Hid & _) Hs Ho Hi] Hp. rewrite (from_payload_ext _ _ Hp). clear Hp p.
  pose proof (new_portfolio_identity _ _ Hb) as (Hblank & Hm & _).
  unfold scalars, optional_scalars, futures_scalars, integers in *. cbn [forallb app] in Hs, Ho, Hi.
  repeat match goal with H : _ && _ = true |- _ => let H1 := fresh "G" in apply andb_true_iff in H as [H1 H] end.
  unfold from_payload, _required_text, _required_integer.
  change (get_field "portfolio_id" _) with (JStr (portfolio_id s)). change (get_field "market" _) with (JStr (vp_market s)).
  rewrite (required_text_stripped (portfolio_id s)), Ok_bind by done.
  rewrite (required_text_stripped (vp_market s)), Ok_bind by (by destruct Hm as [-> | ->]).
  do 10 (restore_field required_decimal_text).
  restore_field optional_decimal_text.
  do 2 (restore_field required_decimal_text).
  change (get_field "consecutive_losses" _) with (JInt (vp_consecutive_losses s)). rewrite required_integer_text, Ok_bind by done.
  change (get_field "position_side" _) with (match position_side s with Some side => JStr (enum_text side) | None => JNull end).
  assert (forall A (f : option VirtualPositionSide -> res A),
    (match match position_side s with Some side => JStr (enum_text side) | None => JNull end with
     | JNull => mret None
     | value => text ← _required_text_value value "position_side";
                match enum_parse text with Some side => mret (Some side)
                | None => Raise (ValueError "is not a valid VirtualPositionSide") end
     end ≫= f) = f (position_side s)) as Eside by (intros A f; by destruct (position_side s) as [[]|]).
  rewrite Eside.
  do 7 (restore_field optional_decimal_text).
  change (get_field "leverage" _) with (match vp_leverage s with Some n => JInt n | None => JNull end).
  assert (forall A (f : option Z -> res A),
    (match match vp_leverage s with Some n => JInt n | None => JNull end with
     | JNull => mret None | value => Some <$> _required_integer_value value "leverage" end ≫= f) = f (vp_leverage s)) as Elev.
  { intros A f. destruct (vp_leverage s) as [n|]; [|done]. rewrite required_integer_text; [done|].
    by match goal with H : forallb _ [n] = true |- _ => apply andb_true_iff in H as [H _] end. }
  rewrite Elev. restore_field optional_decimal_text.
  change (get_field "open_position_count" _) with (JInt (open_position_count s)). rewrite required_integer_text, Ok_bind by done.
  change (get_field "max_concurrent_positions" _) with (JInt (max_concurrent_positions s)).
  rewrite required_integer_text, Ok_bind by done. transitivity (new_portfolio s); [by destruct s|exact Hb].
Qed.

(** ** The payload as JSON *)

Lemma payload_scalar s : forallb (fun kv => scalar kv.2) (to_payload s) = true.
Proof.
  unfold to_payload, _optional_decimal_text. cbn [forallb snd scalar].
  repeat match goal with |- context [match ?o with Some _ => _ | None => _ end] => destruct o end; reflexivity.
Qed.

Lemma payload_ok s : wallet_ok s -> json_ok (JObj (to_payload s)) = true.
Proof.
  intros [Hb (_ & Ha) _ _ Hi]. pose proof (new_portfolio_identity _ _ Hb) as (_ & Hm & _).
  unfold integers in Hi. cbn [app forallb] in Hi. rewrite !andb_true_iff in Hi. destruct Hi as (H1 & H2 & H3 & H4).
  assert (forall o, json_ok (_optional_decimal_text o) = true) as Ho by (intros [d|]; [apply str_decimal_ascii|done]).
  assert (isascii (vp_market s) = true) as Hma by by destruct Hm as [-> | ->].
  assert (json_ok (match position_side s with Some side => JStr (enum_text side) | None => JNull end) = true) as Hside
    by by destruct (position_side s) as [[]|].
  assert (json_ok (match vp_leverage s with Some n => JInt n | None => JNull end) = true) as Hl.
  { destruct (vp_leverage s) as [n|]; [|done]. by apply andb_true_iff in H4 as (H4 & _). }
  unfold to_payload. cbv zeta.
  cbn -[isascii str_decimal _optional_decimal_text digits int_max_str_digits] in H1, H2, H3, Hl, Hside |- *.
  rewrite Ha, Hma, Hside, Hl, !Ho, !str_decimal_ascii, H1, H2, H3. reflexivity.
Qed.

(** A wallet, stored with its keys sorted, comes back. *)
Lemma stored_wallet s : wallet_ok s ->
  exists sorted, sort_keys (JObj (to_payload s)) = JObj sorted /\ from_payload sorted = Ok s.
Proof.
  intros H. destruct (scalars_sorted _ (payload_ok s H) (payload_scalar s)) as (sorted & E & Hs).
  exists sorted. split; [done|]. apply payload_restores; [done|]. intros k. unfold get_field. by rewrite Hs.
Qed.

Lemma scalar_insensitive j : scalar j = true -> insensitive j = true.
Proof. by destruct j. Qed.

Lemma payload_insensitive s : insensitive (JObj (to_payload s)) = true.
Proof.
  pose proof (payload_scalar s) as H. unfold to_payload in *. cbv zeta in *. cbn [forallb insensitive fst snd] in *.
  insensitive_keys. rewrite !andb_true_iff in *. intuition (try reflexivity; by apply scalar_insensitive).
Qed.

Lemma portfolio_eqb_refl s : portfolio_eqb s s = true.
Proof.
  unfold portfolio_eqb, opt_deqb. rewrite !String.eqb_refl, !deqb_refl, !Z.eqb_refl, !bool_decide_true by done.
  repeat match goal with |- context [match ?o with Some _ => _ | None => _ end] => destruct o end; by rewrite ?deqb_refl.
Qed.
