(* ===== verification/WalletJournal.v ===== *)
(** [virtual_wallet_journal.py]: the movements of the virtual wallets, recorded in
    a sealed audit file, and the wallets recovered from it.

    Modelled are the journal without managed positions: validation and reading of
    movements, initialization, the recording of a decision that came without a
    request, and the state file.  A movement with a managed position leaves the
    model.  The reports written beside the state file are left out.  What the
    operating system does with each write is an argument. *)
From stdpp Require Import gmap strings.
From S2P Require Import Prelude PyDecimal DecimalFacts DecimalText PyText JsonText IsoTime Serialize PosixPath AuditLog.
From S2P Require Import ApprovalText Attribution VerifiedJson Domain PaperLedger VirtualWallet.
Local Open Scope Z_scope.
Local Open Scope bool_scope.

(** ** Movements *)

Definition _MARKETS : list string := ["SPOT"; "USD_M_FUTURES"].
Definition _WALLET_NAMES (market : string) : string :=
  if String.eqb market "SPOT" then "Virtual_Spot_Wallet" else "Virtual_Futures_Wallet".
Definition _INITIAL_EQUITY_USDT : dec := lit 1000 0.
Definition _INITIAL_EVENT : string := "VIRTUAL_WALLET_INITIALIZED".
Definition _MOVEMENT_EVENT : string := "VIRTUAL_WALLET_MOVEMENT_RECORDED".

(** [_utc_timestamp] *)
Definition _utc_timestamp (value : datetime) : res datetime :=
  raise_if (naive value) (ValueError "VIRTUAL_WALLET_TIMESTAMP_INVALID");;
  mret (astimezone_utc value).

(** What a movement says besides its wallets. *)
Record movement_head : Type := mk_head {
  movement_id : string; mv_timestamp : datetime; cycle_id : string; mv_snapshot_id : string; mv_market : string;
  movement_type : string; decision_status : string; trade_action : option string
}.

(** The members of a movement with these deltas. *)
Definition movement_fields (h : movement_head) (before : option VirtualPortfolioState) (after : VirtualPortfolioState)
  (equity_delta cash_delta : dec) : list (string * json) :=
  [("movement_id", JStr (movement_id h)); ("timestamp", JStr (isoformat (mv_timestamp h)));
   ("cycle_id", JStr (cycle_id h)); ("snapshot_id", JStr (mv_snapshot_id h)); ("market", JStr (mv_market h));
   ("wallet_name", JStr (_WALLET_NAMES (mv_market h))); ("movement_type", JStr (movement_type h));
   ("decision_status", JStr (decision_status h)); ("trade_action", opt_json (trade_action h));
   ("equity_delta_usdt", JStr (str_decimal equity_delta)); ("cash_delta_usdt", JStr (str_decimal cash_delta));
   ("before", match before with Some b => JObj (to_payload b) | None => JNull end);
   ("after", JObj (to_payload after)); ("managed_position", JNull); ("position_cursor", JNull);
   ("execution_allowed", JBool false); ("promotion_status", JStr "RESEARCH_ONLY");
   ("live_eligibility_status", JStr "LIVE_ORDER_BLOCKED")].

(** [_movement_payload], without a managed position *)
Definition _movement_payload (h : movement_head) (before : option VirtualPortfolioState) (after : VirtualPortfolioState)
  : res (list (string * json)) :=
  let equity_before := match before with Some b => equity_usdt b | None => ZERO end in
  let cash_before := match before with Some b => cash_usdt b | None => ZERO end in
  equity_delta ← dsub (equity_usdt after) equity_before;
  cash_delta ← dsub (cash_usdt after) cash_before;
  mret (movement_fields h before after equity_delta cash_delta).

(** [_required_text], [_required_decimal] *)
Definition _required_text (p : list (string * json)) (key : string) : res string :=
  text_value_of "virtual wallet " (get_field key p) key.
Definition _required_decimal (p : list (string * json)) (key : string) : res dec := decimal_of "virtual wallet " p key.

Definition is_false (j : json) : bool := match j with JBool b => negb b | _ => false end.

(** A wallet inside a movement, of the movement's market. *)
Definition wallet_of (p : list (string * json)) (market drift : string) : res VirtualPortfolioState :=
  s ← from_payload p;
  raise_if (negb (String.eqb (vp_market s) market)) (ValueError drift);;
  mret s.

(** [_validated_movement] *)
Definition _validated_movement (p : list (string * json)) : res (list (string * json)) :=
  id ← _required_text p "movement_id";
  timestamp ← _required_text p "timestamp";
  at_ ← fromisoformat timestamp;
  _utc_timestamp at_;;
  _required_text p "cycle_id";;
  _required_text p "snapshot_id";;
  _required_text p "movement_type";;
  _required_text p "decision_status";;
  text ← _required_text p "market";
  let market := upper text in
  raise_if (negb (str_in market _MARKETS) || negb (py_eqb (get_field "wallet_name" p) (JStr (_WALLET_NAMES market))))
    (ValueError "VIRTUAL_WALLET_MOVEMENT_MARKET_INVALID");;
  raise_if (negb (is_false (get_field "execution_allowed" p))) (ValueError "VIRTUAL_WALLET_EXECUTION_AUTHORITY_DRIFT");;
  raise_if (negb (py_eqb (get_field "promotion_status" p) (JStr "RESEARCH_ONLY")))
    (ValueError "VIRTUAL_WALLET_PROMOTION_AUTHORITY_DRIFT");;
  raise_if (negb (py_eqb (get_field "live_eligibility_status" p) (JStr "LIVE_ORDER_BLOCKED")))
    (ValueError "VIRTUAL_WALLET_LIVE_AUTHORITY_DRIFT");;
  after ← match get_field "after" p with
          | JObj a => wallet_of a market "VIRTUAL_WALLET_AFTER_MARKET_DRIFT"
          | _ => Raise (ValueError "VIRTUAL_WALLET_AFTER_STATE_INVALID")
          end;
  before ← match get_field "before" p with
           | JNull => mret None
           | JObj b => Some <$> wallet_of b market "VIRTUAL_WALLET_BEFORE_MARKET_DRIFT"
           | _ => Raise (ValueError "VIRTUAL_WALLET_BEFORE_STATE_INVALID")
           end;
  equity_stated ← _required_decimal p "equity_delta_usdt";
  equity_delta ← dsub (equity_usdt after) (match before with Some b => equity_usdt b | None => ZERO end);
  raise_if (negb (equity_stated =? equity_delta)%D) (ValueError "VIRTUAL_WALLET_EQUITY_DELTA_DRIFT");;
  cash_stated ← _required_decimal p "cash_delta_usdt";
  cash_delta ← dsub (cash_usdt after) (match before with Some b => cash_usdt b | None => ZERO end);
  raise_if (negb (cash_stated =? cash_delta)%D) (ValueError "VIRTUAL_WALLET_CASH_DELTA_DRIFT");;
  mret (dict_set String.eqb "market" (JStr market) (dict_set String.eqb "timestamp" (JStr timestamp)
         (dict_set String.eqb "movement_id" (JStr id) p))).

(** ** The journal *)

Record VirtualWalletJournal : Type := mk_journal { ledger_path : string; state_path : Path; _store : JsonlAuditStore }.
(** [VirtualWalletJournal(...)] with [__post_init__] *)
Definition new_journal (ledger : string) (state : Path) : res VirtualWalletJournal :=
  s ← new_store ledger true true (8 * 1024 * 1024);
  mret (mk_journal ledger state s).

Abbreviation wallets := (list (string * VirtualPortfolioState)).

(** The loop of [_read_movements]: the wallets seen, the identities seen, and the
    movements read. *)
Record reading : Type := mk_reading { rd_latest : wallets; rd_ids : list string; rd_movements : list (list (string * json)) }.

Definition object_field (key : string) (p : list (string * json)) (error : string) : res (list (string * json)) :=
  match get_field key p with JObj l => mret l | _ => Raise (ValueError error) end.

Definition read_line (r : reading) (line : list ascii) : res reading :=
  event ← loads line;
  event ← match event with JObj l => mret l | _ => Raise (ValueError "VIRTUAL_WALLET_EVENT_INVALID") end;
  type ← match get_field "event_type" event with
         | JStr t => raise_if (negb (str_in t [_INITIAL_EVENT; _MOVEMENT_EVENT]))
                       (ValueError "VIRTUAL_WALLET_EVENT_TYPE_INVALID");; mret t
         | JList _ | JObj _ => Raise TypeError
         | _ => Raise (ValueError "VIRTUAL_WALLET_EVENT_TYPE_INVALID")
         end;
  payload ← object_field "payload" event "VIRTUAL_WALLET_EVENT_PAYLOAD_INVALID";
  movement ← object_field "movement" payload "VIRTUAL_WALLET_MOVEMENT_INVALID";
  validated ← _validated_movement movement;
  raise_if (negb (py_eqb (get_field "timestamp" event) (get_field "timestamp" validated)))
    (ValueError "VIRTUAL_WALLET_EVENT_TIMESTAMP_DRIFT");;
  raise_if (negb (py_eqb (get_field "movement_type" validated)
                    (JStr (if String.eqb type _INITIAL_EVENT then "INITIAL_BALANCE" else "VIRTUAL_SIMULATION_MOVEMENT"))))
    (ValueError "VIRTUAL_WALLET_MOVEMENT_TYPE_DRIFT");;
  let id := py_str (get_field "movement_id" validated) in
  raise_if (str_in id (rd_ids r)) (ValueError "VIRTUAL_WALLET_MOVEMENT_DUPLICATE");;
  let market := py_str (get_field "market" validated) in
  let previous := dict_get String.eqb market (rd_latest r) in
  match get_field "before" validated with
  | JNull => raise_if (negb (is_none previous)) (ValueError "VIRTUAL_WALLET_GENESIS_DUPLICATE")
  | JObj b =>
      before ← from_payload b;
      raise_if (negb (match previous with Some p => portfolio_eqb p before | None => false end))
        (ValueError "VIRTUAL_WALLET_MOVEMENT_CHAIN_DRIFT")
  | _ => Raise TypeError
  end;;
  after ← (object_field "after" validated "" ≫= from_payload);
  mret (mk_reading (dict_set String.eqb market after (rd_latest r)) (id :: rd_ids r) (rd_movements r ++ [validated])).

Fixpoint read_lines (r : reading) (lines : list (list ascii)) : res reading :=
  match lines with [] => mret r | line :: lines => r ← read_line r line; read_lines r lines end.

(** [_read_movements]; text files also end a line at a carriage return. *)
Definition _read_movements (j : VirtualWalletJournal) (fs : files) : res (list (list (string * json))) :=
  match fs !! ledger_path j with
  | None | Some [] => mret []
  | Some c =>
      verify_chain (_store j) fs;;
      raise_if (existsb (fun x => (N_of_ascii x =? 13)%N) c) (Unmodelled "carriage return");;
      rd_movements <$> read_lines (mk_reading [] [] []) (raw_lines c)
  end.

(** [_latest_portfolios] *)
Fixpoint latest_from (latest : wallets) (movements : list (list (string * json))) : res wallets :=
  match movements with
  | [] => mret latest
  | m :: movements =>
      after ← (object_field "after" m "" ≫= from_payload);
      latest_from (dict_set String.eqb (py_str (get_field "market" m)) after latest) movements
  end.
Definition _latest_portfolios (movements : list (list (string * json))) : res wallets := latest_from [] movements.

(** [_latest_positions]: the markets with a position; none without managed
    positions. *)
Definition _latest_positions (movements : list (list (string * json))) : res (list string) :=
  raise_if (existsb (fun m => match get_field "managed_position" m with JNull => false | _ => true end) movements)
    (Unmodelled "managed position");;
  mret [].

(** [_append_movement] *)
Definition _append_movement (j : VirtualWalletJournal) (type : string) (movement : list (string * json)) (out : write_outcome)
  : method files unit :=
  timestamp ← lift (fromisoformat (py_str (get_field "timestamp" movement)));
  event ← lift (new_audit_event (mk_audit_event type timestamp [("movement", of_json (JObj movement))]
                                   (Some (py_str (get_field "movement_id" movement))) "1.0"));
  append_verified_idempotent (_store j) event out;;
  mret tt.

(** [_initial_portfolio] *)
Definition _initial_portfolio (market : string) : res VirtualPortfolioState :=
  new_portfolio (mk_portfolio (if String.eqb market "SPOT" then "virtual-wallet:spot" else "virtual-wallet:futures") market
    _INITIAL_EQUITY_USDT _INITIAL_EQUITY_USDT (lit 1000 0) ZERO ZERO ZERO ZERO ZERO ZERO ZERO None ZERO ZERO 0
    None None None None None None None None None None 0 1).

Definition genesis_head (market : string) (timestamp : datetime) : movement_head :=
  mk_head ("virtual-wallet:" ++ market ++ ":genesis") timestamp "GENESIS" "GENESIS" market "INITIAL_BALANCE" "INITIALIZED" None.

(** One turn of the loop of [_initialize_portfolios]. *)
Definition initialize_market (j : VirtualWalletJournal) (timestamp : datetime) (market : string) (out : write_outcome)
  (portfolios : wallets) : method files wallets :=
  match dict_get String.eqb market portfolios with
  | Some _ => mret portfolios
  | None =>
      portfolio ← lift (_initial_portfolio market);
      movement ← lift (_movement_payload (genesis_head market timestamp) None portfolio);
      _append_movement j _INITIAL_EVENT movement out;;
      mret (dict_set String.eqb market portfolio portfolios)
  end.

(** [_independent_portfolios] *)
Definition _independent_portfolios (portfolios : wallets) : res IndependentVirtualPortfolios :=
  match dict_get String.eqb "SPOT" portfolios, dict_get String.eqb "USD_M_FUTURES" portfolios with
  | Some s, Some f => new_portfolios (mk_portfolios s f)
  | _, _ => Raise KeyError
  end.

(** What the operating system does with the writes of a call. *)
Record os_answers : Type := mk_answers {
  os_spot : write_outcome; os_futures : write_outcome; os_movement : write_outcome;
  os_uuid : string; os_state : write_outcome; os_replace : nat -> replace_outcome; os_after : aftermath
}.

(** [_initialize_portfolios] *)
Definition _initialize_portfolios (j : VirtualWalletJournal) (timestamp : datetime) (os : os_answers)
  : method files IndependentVirtualPortfolios :=
  fs ← get;
  lift (raise_if (bool_decide (is_Some (fs !! path_text (state_path j))) && negb (bool_decide (is_Some (fs !! ledger_path j))))
    (ValueError "VIRTUAL_WALLET_LEDGER_MISSING_FOR_EXISTING_STATE"));;
  movements ← lift (_read_movements j fs);
  portfolios ← lift (_latest_portfolios movements);
  portfolios ← initialize_market j timestamp "SPOT" (os_spot os) portfolios;
  portfolios ← initialize_market j timestamp "USD_M_FUTURES" (os_futures os) portfolios;
  lift (_independent_portfolios portfolios).

(** The payload of the state file in [_write_outputs]. *)
Definition state_payload (j : VirtualWalletJournal) (observed_at : datetime) (portfolios : IndependentVirtualPortfolios)
  (movements : list (list (string * json))) (symbols : list string) : list (string * json) :=
  [("schema_version", JStr "VirtualWalletState/v1"); ("observed_at", JStr (isoformat observed_at)); ("status", JStr "RUNNING");
   ("wallets", JObj [(_WALLET_NAMES "SPOT", JObj (to_payload (spot portfolios)));
                     (_WALLET_NAMES "USD_M_FUTURES", JObj (to_payload (futures portfolios)))]);
   ("open_position_symbols", JList (map JStr symbols)); ("movement_count", JInt (Z.of_nat (length movements)));
   ("balance_change_count", JInt (Z.of_nat (length (List.filter
      (fun m => negb (py_eqb (get_field "movement_type" m) (JStr "INITIAL_BALANCE"))) movements))));
   ("ledger_path", JStr (ledger_path j)); ("execution_allowed", JBool false); ("promotion_status", JStr "RESEARCH_ONLY");
   ("live_eligibility_status", JStr "LIVE_ORDER_BLOCKED")].

(** [_write_outputs], up to the reports *)
Definition _write_outputs (j : VirtualWalletJournal) (observed_at : datetime) (portfolios : IndependentVirtualPortfolios)
  (os : os_answers) : method files (list (string * json)) :=
  fs ← get;
  movements ← lift (_read_movements j fs);
  symbols ← lift (_latest_positions movements);
  let payload := state_payload j observed_at portfolios movements symbols in
  write_json_object_verified (state_path j) payload "VIRTUAL_WALLET_STATE_WRITE_FAILED" (Some "virtual-wallet-state")
    (Some 2%nat) (os_uuid os) (os_state os) (os_replace os) (os_after os);;
  mret payload.

(** [except (KeyError, OSError, TypeError, ValueError, json.JSONDecodeError)],
    raised again as [VirtualWalletJournalError] *)
Definition VirtualWalletJournalError : exn := RuntimeError "VirtualWalletJournalError".
Definition is_wallet_error (e : exn) : bool :=
  match e with ValueError _ | TypeError | KeyError | OSError => true | _ => false end.
Definition journal_errors {A} (m : method files A) : method files A := fun fs =>
  match m fs with
  | (Raise e, fs') => (Raise (if is_wallet_error e then VirtualWalletJournalError else e), fs')
  | r => r
  end.

(** [initialize] *)
Definition initialize (j : VirtualWalletJournal) (observed_at : datetime) (os : os_answers)
  : method files IndependentVirtualPortfolios :=
  journal_errors (
    timestamp ← lift (_utc_timestamp observed_at);
    result ← _initialize_portfolios j timestamp os;
    _write_outputs j timestamp result os;;
    mret result).

(** A decision, as the journal reads it when no request comes with it. *)
Record decision : Type := mk_decision {
  portfolio_before : VirtualPortfolioState; portfolio_after : VirtualPortfolioState;
  dc_status : string; dc_action : option string
}.

Definition cycle_head (snapshot_id : string) (timestamp : datetime) (d : decision) : movement_head :=
  let market := vp_market (portfolio_before d) in
  mk_head ("virtual-wallet:" ++ market ++ ":" ++ snapshot_id) timestamp snapshot_id snapshot_id market
    "VIRTUAL_SIMULATION_MOVEMENT" (if String.eqb (dc_status d) "" then "UNKNOWN" else dc_status d) (dc_action d).

(** [record_cycle], for a decision without a request *)
Definition record_cycle (j : VirtualWalletJournal) (snapshot_id : string) (observed_at : datetime) (d : option decision)
  (os : os_answers) : method files (list (string * json)) :=
  journal_errors (
    timestamp ← lift (_utc_timestamp observed_at);
    portfolios ← _initialize_portfolios j timestamp os;
    let current := [("SPOT", spot portfolios); ("USD_M_FUTURES", futures portfolios)] in
    match d with
    | None => result ← lift (_independent_portfolios current); _write_outputs j timestamp result os
    | Some d =>
        let before := portfolio_before d in
        let after := portfolio_after d in
        lift (raise_if (negb (String.eqb (vp_market before) (vp_market after))
                        || negb (String.eqb (portfolio_id before) (portfolio_id after)))
          (ValueError "VIRTUAL_WALLET_DECISION_IDENTITY_DRIFT"));;
        let held w := match dict_get String.eqb (vp_market before) current with
                      | Some c => portfolio_eqb c w | None => false end in
        if held after then _write_outputs j timestamp portfolios os
        else
          lift (raise_if (negb (held before)) (ValueError "VIRTUAL_WALLET_STATE_DRIFT"));;
          current ←
            (if portfolio_eqb after before then mret current
             else
               movement ← lift (_movement_payload (cycle_head snapshot_id timestamp d) (Some before) after);
               _append_movement j _MOVEMENT_EVENT movement (os_movement os);;
               mret (dict_set String.eqb (vp_market before) after current));
          result ← lift (_independent_portfolios current);
          _write_outputs j timestamp result os
    end).

(** ** Movements as they are stored *)

Record movement : Type := mk_movement {
  mv_head : movement_head; mv_before : option VirtualPortfolioState; mv_after : VirtualPortfolioState
}.
Definition market_of (m : movement) : string := mv_market (mv_head m).
Definition id_of (m : movement) : string := movement_id (mv_head m).
Definition items (m : movement) : list (string * json) :=
  match _movement_payload (mv_head m) (mv_before m) (mv_after m) with Ok l => l | Raise _ => [] end.

Definition type_of (m : movement) : string :=
  if String.eqb (movement_type (mv_head m)) "INITIAL_BALANCE" then _INITIAL_EVENT else _MOVEMENT_EVENT.
Definition event_of (m : movement) : AuditEvent :=
  mk_audit_event (type_of m) (mv_timestamp (mv_head m)) [("movement", of_json (JObj (items m)))] (Some (id_of m)) "1.0".
Definition stored_json (m : movement) : json := sort_keys (JObj (items m)).
Definition stored_items (m : movement) : list (string * json) := py_sorted key_leb (map (fun kv => (kv.1, sort_keys kv.2)) (items m)).
Definition fields_of_movement (m : movement) : list (string * json) :=
  body_items (event_of m) (JObj [("movement", stored_json m)]).

(** ASCII text without outer white space. *)
Definition plain_text (s : string) : bool := isascii s && negb (blank s) && String.eqb (strip s) s.
Definition head_ok (h : movement_head) : bool :=
  forallb plain_text [movement_id h; cycle_id h; mv_snapshot_id h; decision_status h]
  && str_in (movement_type h) ["INITIAL_BALANCE"; "VIRTUAL_SIMULATION_MOVEMENT"] && str_in (mv_market h) _MARKETS
  && match trade_action h with Some a => isascii a | None => true end
  && dt_valid (mv_timestamp h) && negb (naive (mv_timestamp h)).
Definition delta_ok (r : res dec) : bool := match r with Ok d => exponent_in_range d | Raise _ => false end.
Definition equity_before (m : movement) : dec := match mv_before m with Some b => equity_usdt b | None => ZERO end.
Definition cash_before (m : movement) : dec := match mv_before m with Some b => cash_usdt b | None => ZERO end.

(** A movement between constructed wallets of its market. *)
Record movement_ok (m : movement) : Prop := mk_movement_ok {
  mo_head : head_ok (mv_head m) = true;
  mo_after : wallet_ok (mv_after m) /\ vp_market (mv_after m) = market_of m;
  mo_before : match mv_before m with Some b => wallet_ok b /\ vp_market b = market_of m | None => True end;
  mo_equity : delta_ok (dsub (equity_usdt (mv_after m)) (equity_before m)) = true;
  mo_cash : delta_ok (dsub (cash_usdt (mv_after m)) (cash_before m)) = true
}.

Lemma plain_text_parts s : plain_text s = true -> isascii s = true /\ blank s = false /\ strip s = s.
Proof. unfold plain_text. rewrite !andb_true_iff, negb_true_iff, String.eqb_eq. tauto. Qed.

Section Movement.

Context (m : movement) (Hm : movement_ok m).

Lemma head_texts : plain_text (movement_id (mv_head m)) = true /\ plain_text (cycle_id (mv_head m)) = true
  /\ plain_text (mv_snapshot_id (mv_head m)) = true /\ plain_text (decision_status (mv_head m)) = true
  /\ plain_text (movement_type (mv_head m)) = true /\ plain_text (market_of m) = true
  /\ (market_of m = "SPOT" \/ market_of m = "USD_M_FUTURES")
  /\ match trade_action (mv_head m) with Some a => isascii a | None => true end = true
  /\ dt_valid (mv_timestamp (mv_head m)) = true /\ naive (mv_timestamp (mv_head m)) = false.
Proof using Hm.
  pose proof (mo_head m Hm) as H. unfold head_ok in H. cbn [forallb] in H. rewrite !andb_true_iff, negb_true_iff in H.
  destruct H as ((((((H1 & H2 & H3 & H4 & _) & Ht) & Hk) & Ha) & Hd) & Hn). apply str_in_In in Ht, Hk. fold (market_of m) in Hk.
  assert (market_of m = "SPOT" \/ market_of m = "USD_M_FUTURES") as Hk' by (cbn in Hk; intuition auto).
  split_and!; try done.
  - by destruct Ht as [Ht | [Ht | Ht]]; [rewrite <- Ht..|].
  - by destruct Hk' as [-> | ->].
Qed.

(** The members, with the deltas computed. *)
Lemma items_fields : exists e c, dsub (equity_usdt (mv_after m)) (equity_before m) = Ok e
  /\ dsub (cash_usdt (mv_after m)) (cash_before m) = Ok c /\ exponent_in_range e = true /\ exponent_in_range c = true
  /\ _movement_payload (mv_head m) (mv_before m) (mv_after m) = Ok (items m)
  /\ items m = movement_fields (mv_head m) (mv_before m) (mv_after m) e c.
Proof using Hm.
  pose proof (mo_equity m Hm) as He. pose proof (mo_cash m Hm) as Hc. unfold items, _movement_payload.
  fold (equity_before m) (cash_before m).
  destruct (dsub (equity_usdt _) _) as [e|]; [|discriminate]. destruct (dsub (cash_usdt _) _) as [c|]; [|discriminate].
  by exists e, c.
Qed.

Lemma items_ok : json_ok (JObj (items m)) = true.
Proof using Hm.
  destruct items_fields as (e & c & _ & _ & _ & _ & _ & ->). pose proof head_texts as (H1 & H2 & H3 & H4 & H5 & H6 & H7 & H8 & _).
  apply plain_text_parts in H1 as (H1 & _), H2 as (H2 & _), H3 as (H3 & _), H4 as (H4 & _), H5 as (H5 & _), H6 as (H6 & _).
  pose proof (payload_ok _ (proj1 (mo_after m Hm))) as Ha.
  assert (json_ok (match mv_before m with Some b => JObj (to_payload b) | None => JNull end) = true) as Hb.
  { pose proof (mo_before m Hm) as Hb. destruct (mv_before m) as [b|]; [apply payload_ok, Hb|done]. }
  assert (isascii (_WALLET_NAMES (market_of m)) = true) as Hw by (destruct H7 as [-> | ->]; reflexivity).
  assert (json_ok (opt_json (trade_action (mv_head m))) = true) as Ht by (by destruct (trade_action (mv_head m))).
  unfold market_of, movement_fields in *. generalize dependent (JObj (to_payload (mv_after m))). intros ja Ha.
  generalize dependent (match mv_before m with Some b => JObj (to_payload b) | None => JNull end). intros jb Hb.
  generalize dependent (opt_json (trade_action (mv_head m))). intros jt Ht.
  cbn [json_ok forallb fst snd]. rewrite H1, H2, H3, H4, H5, H6, Hw, Ha, Hb, Ht, isoformat_ascii, !str_decimal_ascii. reflexivity.
Qed.

Lemma movement_insensitive : insensitive (stored_json m) = true.
Proof using Hm.
  destruct items_fields as (e & c & _ & _ & _ & _ & _ & E). unfold stored_json. rewrite insensitive_sorted, E.
  pose proof (payload_insensitive (mv_after m)) as Ha.
  assert (insensitive (match mv_before m with Some b => JObj (to_payload b) | None => JNull end) = true) as Hb
    by (destruct (mv_before m); [apply payload_insensitive|done]).
  assert (insensitive (opt_json (trade_action (mv_head m))) = true) as Ht by (by destruct (trade_action (mv_head m))).
  unfold movement_fields. generalize dependent (JObj (to_payload (mv_after m))). intros ja Ha.
  generalize dependent (match mv_before m with Some b => JObj (to_payload b) | None => JNull end). intros jb Hb.
  generalize dependent (opt_json (trade_action (mv_head m))). intros jt Ht.
  cbn [insensitive forallb fst snd]. insensitive_keys. by rewrite Ha, Hb, Ht.
Qed.

Lemma movement_body : body (event_of m) = Ok (JObj (fields_of_movement m)).
Proof using Hm.
  unfold body. rewrite event_primitive.
  assert (to_primitive (VMap (payload (event_of m))) = Ok (JObj [("movement", stored_json m)])) as ->.
  { change (to_primitive (VMap ?k)) with
      (ps ← mapM (fun kv => j ← to_primitive kv.2; mret (kv.1, j)) k; mret (JObj (py_sorted key_leb ps))).
    cbn [event_of payload mapM fst snd]. by rewrite primitive_again. }
  rewrite Ok_bind. apply (f_equal Ok). apply redact_insensitive. pose proof movement_insensitive as H.
  unfold fields_of_movement, body_items. generalize dependent (stored_json m). intros j H.
  cbn [insensitive forallb fst snd]. insensitive_keys. by rewrite H.
Qed.

Lemma movement_json_ok : json_ok (JObj (fields_of_movement m)) = true.
Proof using Hm.
  pose proof (sort_keys_ok _ items_ok) as H. pose proof head_texts as (Hi & _). apply plain_text_parts in Hi as (Hi & _).
  unfold fields_of_movement, body_items. fold (stored_json m) in H. generalize dependent (stored_json m). intros j H.
  assert (isascii (event_type (event_of m)) = true) as Ht by (cbn; unfold type_of; by destruct (String.eqb _ _)).
  cbn [json_ok forallb fst snd event_of timestamp snapshot_id schema_version opt_json]. unfold id_of.
  rewrite Ht, H, Hi, isoformat_ascii. reflexivity.
Qed.

Lemma movement_event : new_audit_event (event_of m) = Ok (event_of m).
Proof using Hm.
  pose proof head_texts as (Hi & _ & _ & _ & _ & _ & _ & _ & _ & Hn). apply plain_text_parts in Hi as (_ & Hi & _).
  unfold new_audit_event. cbn [event_of event_type timestamp snapshot_id]. unfold id_of. rewrite Hn, Hi.
  unfold type_of. by destruct (String.eqb _ _).
Qed.

End Movement.

(** ** Reading a stored movement *)

Lemma dict_set_same k (v : json) l : dict_get String.eqb k l = Some v -> dict_set String.eqb k v l = l.
Proof.
  induction l as [|[k0 v0] l IH]; [done|]. cbn [dict_get dict_set]. destruct (String.eqb_spec k k0) as [->|].
  - by intros [= ->].
  - intros H. by rewrite IH.
Qed.

(** The text of a time has no white space. *)
Definition spaceless (s : string) : bool := forallb (fun c => negb (is_space c)) (list_ascii_of_string s).

Lemma spaceless_app s t : spaceless (s ++ t) = spaceless s && spaceless t.
Proof. unfold spaceless. by rewrite list_ascii_app, forallb_app. Qed.

Lemma digits_spaceless l : forallb is_digit l = true -> forallb (fun c => negb (is_space c)) l = true.
Proof.
  rewrite !forallb_forall. intros H c Hc. specialize (H c Hc).
  assert (implb (is_digit c) (negb (is_space c)) = true) as E; [|by rewrite H in E].
  clear. revert c. apply ascii_forall. vm_compute. reflexivity.
Qed.

Lemma padded_spaceless w n : spaceless (padded w n) = true.
Proof.
  unfold spaceless, padded. cbv zeta. rewrite list_ascii_string_id. apply digits_spaceless.
  rewrite forallb_app. destruct (digits_spec (Z.abs_N n)) as (_ & -> & _).
  rewrite andb_true_r. by induction (w - _)%nat.
Qed.

Lemma isoformat_plain d : plain_text (isoformat d) = true.
Proof.
  assert (forall us, spaceless (fraction_text us) = true) as Hf.
  { intros us. unfold fraction_text. destruct (us =? 0); [done|]. by rewrite spaceless_app, padded_spaceless. }
  assert (spaceless (isoformat d) = true) as H.
  { unfold isoformat, offset_text. destruct (civil _) as [[y m] day].
    destruct (dt_offset d) as [o|]; cbv zeta; rewrite !spaceless_app, !padded_spaceless, ?Hf; [|done].
    destruct (o <? 0); match goal with |- context [if ?b then EmptyString else _] => destruct b end;
      by rewrite ?spaceless_app, ?padded_spaceless, ?Hf. }
  pose proof (strip_no_space _ H) as Hs. unfold plain_text. rewrite isoformat_ascii, Hs, String.eqb_refl, stripped_not_blank.
  - done.
  - done.
  - unfold isoformat. destruct (civil _) as [[y m] day]. intros E. apply (f_equal (fun s => length (list_ascii_of_string s))) in E.
    rewrite !list_ascii_app, !length_app in E. cbn in E. lia.
Qed.

Section Stored.

Context (m : movement) (Hm : movement_ok m).

Lemma stored_get_field k : dict_get String.eqb k (stored_items m) = sort_keys <$> dict_get String.eqb k (items m).
Proof using Hm. by apply (get_sort_keys _ _ _ (items_ok m Hm)). Qed.

(** The scalar members of a stored movement. *)
Lemma stored_scalar k j : dict_get String.eqb k (items m) = Some j -> scalar j = true ->
  get_field k (stored_items m) = j /\ dict_get String.eqb k (stored_items m) = Some j.
Proof using Hm.
  intros E Hs. unfold get_field. rewrite stored_get_field, E. cbn [fmap option_fmap option_map]. by rewrite scalar_sorted.
Qed.

Lemma items_get k j : (forall e c, dict_get String.eqb k (movement_fields (mv_head m) (mv_before m) (mv_after m) e c) = Some j) ->
  dict_get String.eqb k (items m) = Some j.
Proof using Hm. intros H. destruct (items_fields m Hm) as (e & c & _ & _ & _ & _ & _ & ->). apply H. Qed.

Lemma stored_text k s : (forall e c, dict_get String.eqb k (movement_fields (mv_head m) (mv_before m) (mv_after m) e c) = Some (JStr s)) ->
  plain_text s = true -> _required_text (stored_items m) k = Ok s.
Proof using Hm.
  intros E Hs. apply items_get in E. apply plain_text_parts in Hs as (_ & Hb & Hs).
  unfold _required_text. destruct (stored_scalar _ _ E eq_refl) as (-> & _). by apply text_value_stripped.
Qed.

Lemma stored_after : exists after, get_field "after" (stored_items m) = JObj after /\ from_payload after = Ok (mv_after m).
Proof using Hm.
  destruct (stored_wallet _ (proj1 (mo_after m Hm))) as (sorted & E & H). exists sorted. split; [|done].
  unfold get_field. rewrite stored_get_field, (items_get "after" (JObj (to_payload (mv_after m)))) by done.
  cbn [fmap option_fmap option_map default]. exact E.
Qed.

Lemma stored_before : match mv_before m with
  | None => get_field "before" (stored_items m) = JNull
  | Some b => exists before, get_field "before" (stored_items m) = JObj before /\ from_payload before = Ok b
  end.
Proof using Hm.
  pose proof (mo_before m Hm) as Hb. unfold get_field.
  rewrite stored_get_field, (items_get "before" (match mv_before m with Some b => JObj (to_payload b) | None => JNull end)) by done.
  destruct (mv_before m) as [b|]; [|done]. destruct (stored_wallet _ (proj1 Hb)) as (sorted & E & H). by exists sorted.
Qed.

Lemma stored_timestamp : _required_text (stored_items m) "timestamp" = Ok (isoformat (mv_timestamp (mv_head m)))
  /\ get_field "timestamp" (stored_items m) = JStr (isoformat (mv_timestamp (mv_head m))).
Proof using Hm.
  split; [apply stored_text; [done|apply isoformat_plain]|]. by eapply stored_scalar; [apply items_get|].
Qed.

Lemma stored_flags : get_field "wallet_name" (stored_items m) = JStr (_WALLET_NAMES (market_of m))
  /\ get_field "execution_allowed" (stored_items m) = JBool false
  /\ get_field "promotion_status" (stored_items m) = JStr "RESEARCH_ONLY"
  /\ get_field "live_eligibility_status" (stored_items m) = JStr "LIVE_ORDER_BLOCKED"
  /\ get_field "movement_type" (stored_items m) = JStr (movement_type (mv_head m))
  /\ get_field "managed_position" (stored_items m) = JNull
  /\ get_field "movement_id" (stored_items m) = JStr (id_of m) /\ get_field "market" (stored_items m) = JStr (market_of m).
Proof using Hm. split_and!; by eapply stored_scalar; [apply items_get|]. Qed.

Lemma stored_deltas e c : items m = movement_fields (mv_head m) (mv_before m) (mv_after m) e c ->
  exponent_in_range e = true -> exponent_in_range c = true ->
  _required_decimal (stored_items m) "equity_delta_usdt" = Ok e /\ _required_decimal (stored_items m) "cash_delta_usdt" = Ok c.
Proof using Hm.
  intros E Re Rc. unfold _required_decimal.
  split; apply decimal_of_text; try done; (eapply stored_scalar; [rewrite E|]; done).
Qed.

Lemma wallet_of_stored p s market drift : from_payload p = Ok s -> vp_market s = market -> wallet_of p market drift = Ok s.
Proof using. intros H <-. unfold wallet_of. rewrite H, Ok_bind, String.eqb_refl. done. Qed.

Lemma sorted_set k v : dict_get String.eqb k (items m) = Some v -> scalar v = true -> dict_set String.eqb k v (stored_items m) = stored_items m.
Proof using Hm. intros E Hs. apply dict_set_same. by apply stored_scalar. Qed.

(** A stored movement is valid, and validation leaves it as it is. *)
Lemma movement_validated : _validated_movement (stored_items m) = Ok (stored_items m).
Proof using Hm.
  pose proof (head_texts m Hm) as (H1 & H2 & H3 & H4 & H5 & H6 & H7 & _ & Hd & Hn).
  destruct (items_fields m Hm) as (e & c & He & Hc & Re & Rc & _ & E).
  destruct (stored_deltas e c E Re Rc) as (De & Dc). pose proof stored_flags as (F1 & F2 & F3 & F4 & _).
  destruct stored_after as (after & Ea & Ra). pose proof stored_before as Hb.
  unfold _validated_movement.
  rewrite (stored_text "movement_id" _ ltac:(done) H1), Ok_bind, (proj1 stored_timestamp), Ok_bind, fromisoformat_isoformat, Ok_bind by done.
  unfold _utc_timestamp. rewrite Hn. cbn [raise_if]. rewrite !Ok_bind.
  rewrite (stored_text "cycle_id" _ ltac:(done) H2), Ok_bind, (stored_text "snapshot_id" _ ltac:(done) H3), Ok_bind.
  rewrite (stored_text "movement_type" _ ltac:(done) H5), Ok_bind, (stored_text "decision_status" _ ltac:(done) H4), Ok_bind.
  rewrite (stored_text "market" (market_of m) ltac:(done) H6), Ok_bind. cbv zeta.
  assert (upper (market_of m) = market_of m /\ str_in (market_of m) _MARKETS = true) as (Hu & Hk) by by destruct H7 as [-> | ->].
  rewrite Hu, Hk, F1, F2, F3, F4, Ea. cbn [py_eqb is_false negb orb raise_if]. rewrite !String.eqb_refl. cbn [negb raise_if].
  rewrite !Ok_bind.
  rewrite (wallet_of_stored _ _ _ _ Ra (proj2 (mo_after m Hm))), Ok_bind.
  assert (match get_field "before" (stored_items m) with
          | JNull => mret None
          | JObj b => Some <$> wallet_of b (market_of m) "VIRTUAL_WALLET_BEFORE_MARKET_DRIFT"
          | _ => Raise (ValueError "VIRTUAL_WALLET_BEFORE_STATE_INVALID")
          end = Ok (mv_before m)) as ->.
  { pose proof (mo_before m Hm) as Mb. destruct (mv_before m) as [b|]; [|by rewrite Hb].
    destruct Hb as (before & -> & Rb). by rewrite (wallet_of_stored _ _ _ _ Rb (proj2 Mb)). }
  rewrite Ok_bind, De, Ok_bind. fold (equity_before m) (cash_before m). rewrite He, Ok_bind, deqb_refl. cbn [negb raise_if].
  rewrite Ok_bind, Dc, Ok_bind, Hc, Ok_bind, deqb_refl. cbn [negb raise_if]. rewrite Ok_bind.
  rewrite (sorted_set "movement_id"), (sorted_set "timestamp"), (sorted_set "market") by (done || by apply items_get). done.
Qed.

End Stored.

(** ** A journal as a chain of movements *)

Definition body_of (m : movement) : json := JObj (fields_of_movement m).

(** The wallets after some movements. *)
Definition balances (latest : wallets) (ms : list movement) : wallets :=
  fold_left (fun l m => dict_set String.eqb (market_of m) (mv_after m) l) ms latest.

(** A movement starts from the market's current wallet, or from none. *)
Definition links (latest : wallets) (m : movement) : bool :=
  match dict_get String.eqb (market_of m) latest, mv_before m with
  | None, None => true
  | Some current, Some before => portfolio_eqb current before
  | _, _ => false
  end.

Fixpoint chained (latest : wallets) (ids : list string) (ms : list movement) : Prop :=
  match ms with
  | [] => True
  | m :: ms => movement_ok m /\ str_in (id_of m) ids = false /\ links latest m = true
               /\ chained (dict_set String.eqb (market_of m) (mv_after m) latest) (id_of m :: ids) ms
  end.

Lemma chained_snoc ms m : forall latest ids, chained latest ids (ms ++ [m]) <->
  chained latest ids ms /\ movement_ok m /\ str_in (id_of m) (ids ++ map id_of ms) = false /\ links (balances latest ms) m = true.
Proof.
  induction ms as [|x ms IH]; intros latest ids; cbn [app chained map].
  - rewrite app_nil_r. cbn [balances fold_left]. tauto.
  - rewrite IH. change (balances latest (x :: ms)) with (balances (dict_set String.eqb (market_of x) (mv_after x) latest) ms).
    assert (str_in (id_of m) ((id_of x :: ids) ++ map id_of ms) = str_in (id_of m) (ids ++ id_of x :: map id_of ms)) as ->.
    { unfold str_in. rewrite !existsb_app. cbn [existsb]. by destruct (String.eqb _ _), (existsb _ ids). }
    tauto.
Qed.

Lemma chained_ok ms : forall latest ids, chained latest ids ms -> Forall movement_ok ms.
Proof. induction ms as [|m ms IH]; intros latest ids H; [constructor|]. destruct H as (Hm & _ & _ & H). constructor; eauto. Qed.

Section Line.

Context (m : movement) (Hm : movement_ok m) (st : string * Z) (Hst : state_ok st = true).

Lemma fields_recordable : recordable (body_of m) = true.
Proof using Hm. exact (body_recordable _ _ (movement_body m Hm) (movement_json_ok m Hm)). Qed.

(** The members of a recorded event. *)
Lemma recorded_field k : In k identity_keys ->
  get_field k (record_fields st (fields_of_movement m)) = sort_keys (get_field k (fields_of_movement m)).
Proof using Hm. intros H. apply (get_recorded st _ k fields_recordable H). Qed.

Lemma stored_again : sort_keys (JObj (stored_items m)) = JObj (stored_items m).
Proof using Hm. apply (sort_keys_idem (JObj (items m))). by apply items_ok. Qed.

Lemma recorded_payload : get_field "payload" (record_fields st (fields_of_movement m)) = JObj [("movement", JObj (stored_items m))].
Proof using Hm.
  rewrite recorded_field by (cbn; tauto).
  change (get_field "payload" (fields_of_movement m)) with (JObj [("movement", JObj (stored_items m))]).
  change (sort_keys (JObj [("movement", JObj (stored_items m))])) with (JObj [("movement", sort_keys (JObj (stored_items m)))]).
  by rewrite stored_again.
Qed.

Lemma expected_type : (if String.eqb (type_of m) _INITIAL_EVENT then "INITIAL_BALANCE" else "VIRTUAL_SIMULATION_MOVEMENT")
  = movement_type (mv_head m).
Proof using Hm.
  pose proof (mo_head m Hm) as H. unfold head_ok in H. rewrite !andb_true_iff in H. destruct H as (((((_ & H) & _) & _) & _) & _).
  apply str_in_In in H. unfold type_of. destruct H as [<- | [<- | []]]; reflexivity.
Qed.

(** A recorded movement that continues the wallets read so far is read. *)
Lemma read_recorded r : str_in (id_of m) (rd_ids r) = false -> links (rd_latest r) m = true ->
  read_line r (line_of st (body_of m) ++ [newline]) =
  Ok (mk_reading (dict_set String.eqb (market_of m) (mv_after m) (rd_latest r)) (id_of m :: rd_ids r)
        (rd_movements r ++ [stored_items m])).
Proof using Hm Hst.
  intros Hid Hl. pose proof (stored_flags m Hm) as (_ & _ & _ & _ & F1 & _ & F2 & F3).
  destruct (stored_after m Hm) as (after & Ea & Ra). pose proof (stored_before m Hm) as Hb.
  unfold read_line, body_of. rewrite record_loads, Ok_bind by (apply fields_recordable || done). rewrite Ok_bind.
  rewrite !recorded_field by (cbn; tauto). change (get_field "event_type" (fields_of_movement m)) with (JStr (type_of m)).
  change (get_field "timestamp" (fields_of_movement m)) with (JStr (isoformat (mv_timestamp (mv_head m)))).
  cbn [sort_keys]. assert (str_in (type_of m) [_INITIAL_EVENT; _MOVEMENT_EVENT] = true) as ->
    by (unfold type_of; by destruct (String.eqb _ _)).
  cbn [negb raise_if]. rewrite !Ok_bind. unfold object_field. rewrite recorded_payload, Ok_bind.
  change (get_field "movement" [("movement", JObj (stored_items m))]) with (JObj (stored_items m)).
  cbn match. rewrite Ok_bind, movement_validated, Ok_bind, (proj2 (stored_timestamp m Hm)), F1, F2, F3, Ea by done.
  cbn [py_eqb]. rewrite expected_type, !String.eqb_refl. cbn [negb raise_if py_str]. rewrite !Ok_bind, Hid.
  cbn [raise_if]. rewrite Ok_bind, Ra.
  unfold links in Hl. destruct (mv_before m) as [b|].
  - destruct Hb as (before & -> & ->). destruct (dict_get _ _ _) as [p|]; [|discriminate].
    cbn -[get_field dict_get portfolio_eqb]. rewrite Hl. reflexivity.
  - rewrite Hb. destruct (dict_get _ _ _); [discriminate|]. reflexivity.
Qed.

End Line.

Lemma read_chain ms : forall st r, chained (rd_latest r) (rd_ids r) ms -> state_fits st (length ms) ->
  read_lines r (map (fun t => t ++ [newline]) (log_lines st (map body_of ms))) =
  Ok (mk_reading (balances (rd_latest r) ms) (rev (map id_of ms) ++ rd_ids r) (rd_movements r ++ map stored_items ms)).
Proof.
  induction ms as [|m ms IH]; intros st r Hc Hst; cbn [map log_lines read_lines].
  { rewrite app_nil_r. by destruct r. }
  destruct Hc as (Hm & Hid & Hl & Hc). rewrite read_recorded by (done || by eapply state_fits_ok).
  rewrite Ok_bind, IH; [|done|by apply state_fits_next]. cbn [rd_latest rd_ids rd_movements rev].
  by rewrite <- !app_assoc.
Qed.

Lemma latest_chain ms : Forall movement_ok ms -> forall latest,
  latest_from latest (map stored_items ms) = Ok (balances latest ms).
Proof.
  induction 1 as [|m ms Hm _ IH]; intros latest; [done|]. cbn [map latest_from].
  destruct (stored_after m Hm) as (after & Ea & Ra). unfold object_field. rewrite Ea, Ok_bind, Ra, Ok_bind.
  destruct (stored_flags m Hm) as (_ & _ & _ & _ & _ & _ & _ & ->). cbn [py_str]. rewrite IH. done.
Qed.

(** ** The journal's file *)

(** The journal's file holds these movements, sealed in order, each starting
    where the one before it of its market ended. *)
Record journal_holds (j : VirtualWalletJournal) (fs : files) (ms : list movement) : Prop := mk_holds {
  jh_log : holds (_store j) fs (map body_of ms);
  jh_chain : chained [] [] ms;
  jh_room : Z.of_nat (length ms) + 1 < maximum_records
}.

Lemma log_without_returns es : existsb (fun x => (N_of_ascii x =? 13)%N) (log_text es) = false.
Proof.
  unfold log_text, lines_text. generalize genesis. induction es as [|e es IH]; intros st; [done|].
  cbn [log_lines flat_map]. rewrite !existsb_app, IH, orb_false_r. apply orb_false_iff. split; [|done].
  apply Bool.not_true_iff_false. intros (c & Hin & Hc)%existsb_exists. pose proof (dump_raw_unescaped (sort_keys (sealed st e))) as H.
  rewrite forallb_forall in H. specialize (H c Hin).
  assert (implb (unescaped c) (negb (N_of_ascii c =? 13)%N) = true) as E; [|by rewrite H, Hc in E].
  clear. revert c. apply ascii_forall. vm_compute. reflexivity.
Qed.

Lemma identity_unique ms m : str_in (id_of m) (map id_of ms) = false ->
  List.find (same_identity (event_of m)) (map body_of ms) = None.
Proof.
  induction ms as [|x ms IH]; [done|]. cbn [map]. unfold str_in. cbn [existsb]. intros (Hx & H)%orb_false_iff.
  cbn [List.find]. assert (same_identity (event_of m) (body_of x) = false) as ->; [|by apply IH].
  unfold same_identity, body_of. apply andb_false_iff. right.
  change (get_field "snapshot_id" (fields_of_movement x)) with (JStr (id_of x)). cbn [event_of snapshot_id opt_json py_eqb].
  by rewrite String.eqb_sym.
Qed.

(** Movements that fit a record, and writes that complete. *)
Definition accepted (ms : list movement) (m : movement) (out : write_outcome) : bool :=
  (Z.of_nat (length (line_of (log_state genesis (map body_of ms)) (body_of m))) <=? 8 * 1024 * 1024)
  && match out with Written => true | _ => false end.

Section Journal.

Context (j : VirtualWalletJournal) (Hj : new_journal (ledger_path j) (state_path j) = Ok j).
Context (Hpath : blank (ledger_path j) = false).

Lemma journal_store : _store j = mk_store (ledger_path j) true true (8 * 1024 * 1024) None None.
Proof using Hj.
  unfold new_journal in Hj. apply bind_Ok in Hj as (s & Hs & H). apply mret_Ok in H. rewrite <- H at 1.
  unfold new_store in Hs. apply bind_Ok in Hs as (u & _ & Hs). by apply mret_Ok in Hs as <-.
Qed.

Lemma journal_legacy fs : legacy_ok (_store j) fs.
Proof using Hj. unfold legacy_ok. by rewrite journal_store. Qed.

(** Reading gives back the movements, and with them the wallets. *)
Lemma read_movements_exact fs ms : journal_holds j fs ms -> _read_movements j fs = Ok (map stored_items ms).
Proof using Hj.
  intros [Hl Hc Hn]. unfold _read_movements. pose proof Hl as (Ht & Hr). rewrite journal_store in Ht. cbn [path] in Ht.
  assert (ms = [] \/ log_text (map body_of ms) <> []) as [-> | Hne].
  { destruct ms; [by left|right]. by intros H%log_text_nil. }
  - destruct (fs !! ledger_path j) as [c|]; [|done]. change (c = []) in Ht. by subst c.
  - destruct (fs !! ledger_path j) as [c|]; [|by rewrite <- Ht in Hne]. change (c = log_text (map body_of ms)) in Ht. subst c.
    destruct (log_text (map body_of ms)) as [|x c] eqn:E; [done|]. rewrite <- E.
    unfold verify_chain. rewrite (chain_state_log (_store j) _ fs (map body_of ms) ltac:(by rewrite journal_store) (journal_legacy fs) Hl)
      by by rewrite length_map.
    cbn [fmap res_fmap]. rewrite Ok_bind, log_without_returns. cbn [raise_if]. rewrite Ok_bind, raw_lines_log.
    rewrite read_chain; [done|done|]. by apply genesis_fits.
Qed.

Lemma latest_portfolios_exact fs ms : journal_holds j fs ms ->
  (read ← _read_movements j fs; _latest_portfolios read) = Ok (balances [] ms).
Proof using Hj.
  intros H. rewrite (read_movements_exact fs ms H), Ok_bind. apply latest_chain. eapply chained_ok, H.
Qed.

Lemma no_positions ms : Forall movement_ok ms -> _latest_positions (map stored_items ms) = Ok [].
Proof using.
  intros H. unfold _latest_positions.
  assert (existsb (fun m => match get_field "managed_position" m with JNull => false | _ => true end) (map stored_items ms) = false)
    as ->; [|done].
  induction H as [|m ms Hm _ IH]; [done|]. cbn [map existsb]. rewrite IH.
  by destruct (stored_flags m Hm) as (_ & _ & _ & _ & _ & -> & _).
Qed.

(** What the store is asked to append. *)
Lemma append_movement_run fs ms m out : journal_holds j fs ms -> movement_ok m -> whole out = true ->
  exists r fs', _append_movement j (type_of m) (items m) out fs = (match r with Failed e => Raise e | _ => Ok tt end, fs')
  /\ r = fst (spec_call (_store j) (AppendVerifiedIdempotent, event_of m, out) (body_of m) (map body_of ms))
  /\ holds (_store j) fs' (snd (spec_call (_store j) (AppendVerifiedIdempotent, event_of m, out) (body_of m) (map body_of ms)))
  /\ forall q, q <> ledger_path j -> fs' !! q = fs !! q.
Proof using Hj Hpath.
  intros [Hlog Hc Hn] Hm Ho. unfold _append_movement.
  assert (get_field "timestamp" (items m) = JStr (isoformat (mv_timestamp (mv_head m)))
    /\ get_field "movement_id" (items m) = JStr (id_of m)) as (-> & ->).
  { destruct (items_fields m Hm) as (e & c & _ & _ & _ & _ & _ & ->). done. }
  pose proof (head_texts m Hm) as (_ & _ & _ & _ & _ & _ & _ & _ & Hd & _). cbn [py_str].
  rewrite lift_bind, fromisoformat_isoformat by done. fold (event_of m). rewrite lift_bind, movement_event by done.
  pose proof (run_call_spec (_store j) ltac:(by rewrite journal_store) ltac:(by rewrite journal_store)
    (AppendVerifiedIdempotent, event_of m, out) (body_of m) fs (map body_of ms)) as H.
  specialize (H ltac:(split_and!; [by apply movement_event|by apply movement_body|by apply movement_json_ok|by destruct out])
    (journal_legacy fs) Hlog ltac:(by rewrite length_map)).
  rewrite method_bind_run. unfold run_call in H. destruct (append_verified_idempotent _ _ _ _) as [r fs'].
  destruct (spec_call _ _ _ _) as [o es]. destruct H as (Ho' & Hh & _ & Hf). rewrite journal_store in Hf. exists o, fs'.
  split; [|by split_and!]. rewrite <- Ho'. by destruct r as [[]|].
Qed.

(** Appending a movement with an identity of its own. *)
Lemma append_movement_exact fs ms m out : journal_holds j fs ms -> movement_ok m ->
  str_in (id_of m) (map id_of ms) = false -> links (balances [] ms) m = true -> whole out = true ->
  Z.of_nat (length ms) + 2 < maximum_records ->
  exists fs', _append_movement j (type_of m) (items m) out fs = (if accepted ms m out then Ok tt else Raise OSError, fs')
  /\ journal_holds j fs' (if accepted ms m out then ms ++ [m] else ms)
  /\ forall q, q <> ledger_path j -> fs' !! q = fs !! q.
Proof using Hj Hpath.
  intros Hh Hm Hid Hl Ho Hn. destruct (append_movement_run fs ms m out Hh Hm Ho) as (r & fs' & E & Hr & Hlog & Hf).
  exists fs'. destruct Hh as [_ Hc _]. assert (chained [] [] (ms ++ [m])) as Hc' by by apply chained_snoc.
  unfold spec_call in Hr, Hlog. cbv zeta in Hr, Hlog. rewrite (identity_unique ms m Hid) in Hr, Hlog.
  assert (max_event_bytes (_store j) = 8 * 1024 * 1024) as Eb by by rewrite journal_store.
  rewrite Eb in Hr, Hlog. unfold accepted. rewrite Z.leb_antisym. rewrite E.
  destruct (8 * 1024 * 1024 <? _), out; try discriminate Ho; cbn [orb negb andb fst snd] in *; rewrite Hr;
    split_and!; try done; split; try done; rewrite ?map_app, ?length_app; try done; cbn [length]; lia.
Qed.

(** Appending a movement that is recorded already changes nothing. *)
Lemma append_movement_again fs ms m out : journal_holds j fs ms -> movement_ok m -> whole out = true ->
  List.find (same_identity (event_of m)) (map body_of ms) = Some (body_of m) ->
  exists fs', _append_movement j (type_of m) (items m) out fs = (Ok tt, fs')
  /\ journal_holds j fs' ms /\ forall q, q <> ledger_path j -> fs' !! q = fs !! q.
Proof using Hj Hpath.
  intros Hh Hm Ho Hfind. destruct (append_movement_run fs ms m out Hh Hm Ho) as (r & fs' & E & Hr & Hlog & Hf).
  exists fs'. unfold spec_call in Hr, Hlog. cbv zeta in Hr, Hlog. rewrite Hfind in Hr, Hlog.
  rewrite (identity_of_body _ _ (movement_body m Hm) : identity_of (body_of m) = body_of m) in Hr, Hlog.
  rewrite (py_eqb_refl (body_of m) (movement_json_ok m Hm)) in Hr, Hlog. cbn [fst snd] in Hr, Hlog. rewrite E, Hr.
  destruct Hh as [_ Hc Hn]. by split_and!.
Qed.

End Journal.

(** ** A cycle *)

(** The wallets by market. *)
Definition pair_of (latest : wallets) : option IndependentVirtualPortfolios :=
  match dict_get String.eqb "SPOT" latest, dict_get String.eqb "USD_M_FUTURES" latest with
  | Some s, Some f => Some (mk_portfolios s f)
  | _, _ => None
  end.

Definition wallet_in (p : IndependentVirtualPortfolios) (market : string) : VirtualPortfolioState :=
  if String.eqb market "SPOT" then spot p else futures p.

(** The movement a decision leads to. *)
Definition decided (snapshot_id : string) (at_ : datetime) (d : decision) : movement :=
  mk_movement (cycle_head snapshot_id (astimezone_utc at_) d) (Some (portfolio_before d)) (portfolio_after d).

(** The movement is appended: the wallet is the decision's before, and changes. *)
Definition moves (p : IndependentVirtualPortfolios) (d : decision) : bool :=
  let current := wallet_in p (vp_market (portfolio_before d)) in
  negb (portfolio_eqb current (portfolio_after d)) && portfolio_eqb current (portfolio_before d)
  && negb (portfolio_eqb (portfolio_after d) (portfolio_before d)).

(** The decision concerns the wallet as it is: its result, or its start. *)
Definition concerns (p : IndependentVirtualPortfolios) (d : decision) : bool :=
  let current := wallet_in p (vp_market (portfolio_before d)) in
  portfolio_eqb current (portfolio_after d) || portfolio_eqb current (portfolio_before d).

(** The state file is replaced, and the write is confirmed. *)
Definition state_placed (os : os_answers) : bool := placed (os_state os) (os_replace os).
Definition state_written (os : os_answers) : bool :=
  state_placed os && (unlinked (os_after os) && readable (os_after os)).

Section Cycle.

Context (j : VirtualWalletJournal) (Hj : new_journal (ledger_path j) (state_path j) = Ok j).
Context (os : os_answers).

(** The paths are those of two files, and texts of their own. *)
Record paths_ok : Prop := mk_paths_ok {
  po_ledger : blank (ledger_path j) = false /\ isascii (ledger_path j) = true;
  po_state : valid_name (name (state_path j)) = true /\ blank (path_text (state_path j)) = false;
  po_uuid : str_contains_char slash (os_uuid os) = false;
  po_apart : path_text (state_path j) <> ledger_path j;
  po_temporary : path_text (temporary_of (state_path j) (os_uuid os)) <> ledger_path j
}.
Context (Hpaths : paths_ok).

Definition ST_ERROR : string := "VIRTUAL_WALLET_STATE_WRITE_FAILED".

(** The state file of a journal with these movements. *)
Definition state_of (at_ : datetime) (p : IndependentVirtualPortfolios) (ms : list movement) : list (string * json) :=
  state_payload j at_ p (map stored_items ms) [].

Lemma state_ok_json at_ p ms : wallet_ok (spot p) -> wallet_ok (futures p) -> Z.of_nat (length ms) + 1 < maximum_records ->
  json_ok (JObj (state_of at_ p ms)) = true.
Proof using Hpaths.
  intros Hs Hf Hn. apply payload_ok in Hs, Hf. destruct Hpaths as [(_ & Ha) _ _ _ _].
  unfold state_of, state_payload.
  assert (forall l : list (list (string * json)), (length l <= length ms)%nat -> json_ok (JInt (Z.of_nat (length l))) = true) as Hlen
    by (intros l Hl; apply position_ok; lia).
  pose proof (Hlen (map stored_items ms) ltac:(by rewrite length_map)) as H1.
  pose proof (Hlen (List.filter (fun m => negb (py_eqb (get_field "movement_type" m) (JStr "INITIAL_BALANCE"))) (map stored_items ms))
    ltac:(etransitivity; [apply List.filter_length_le|by rewrite length_map])) as H2.
  generalize dependent (JObj (to_payload (spot p))). intros js Hs.
  generalize dependent (JObj (to_payload (futures p))). intros jf Hf.
  generalize dependent (JInt (Z.of_nat (length (map stored_items ms)))). intros j1 H1.
  generalize dependent (JInt (Z.of_nat (length (List.filter (fun m => negb (py_eqb (get_field "movement_type" m) (JStr "INITIAL_BALANCE"))) (map stored_items ms))))). intros j2 H2.
  cbn [json_ok forallb fst snd map]. rewrite Hs, Hf, H1, H2, Ha, isoformat_ascii. reflexivity.
Qed.

(** Writing the state file: it is written whole, or left as it was. *)
Lemma write_outputs_exact fs ms at_ p : journal_holds j fs ms -> wallet_ok (spot p) -> wallet_ok (futures p) ->
  exists e fs', is_wallet_error e = true
  /\ _write_outputs j at_ p os fs = (if state_written os then Ok (state_of at_ p ms) else Raise e, fs')
  /\ journal_holds j fs' ms
  /\ (if state_placed os then read_json_object (state_path j) ST_ERROR fs' = Ok (sorted_items (state_of at_ p ms))
      else fs' !! path_text (state_path j) = fs !! path_text (state_path j)).
Proof using Hj Hpaths.
  intros Hh Hs Hf. pose proof Hh as [Hl Hc Hn]. pose proof (state_ok_json at_ p ms Hs Hf Hn) as Hok.
  destruct Hpaths as [(Hb & _) (Hname & Hsb) Hu Hapart Htmp].
  unfold _write_outputs. rewrite get_bind, lift_bind, (read_movements_exact j Hj fs ms Hh), lift_bind.
  rewrite no_positions by eapply chained_ok, Hc. fold (state_of at_ p ms). cbv zeta. rewrite method_bind_run.
  edestruct (verified_write_run (state_path j)) as (fs' & -> & _ & Hframe & Hst); [exact Hname|exact Hu|exact Hok|exact Hsb|reflexivity|].
  unfold write_result, state_written, state_placed, fail_verification. rewrite Hsb. cbn [orb].
  assert (journal_holds j fs' ms) as Hh'.
  { split; [|done..]. unfold holds in *. rewrite (journal_store j Hj) in *. cbn [path] in *. rewrite Hframe by done. exact Hl. }
  destruct (placed (os_state os) (os_replace os)) eqn:Ep, (unlinked (os_after os)), (readable (os_after os)); cbn [andb] in *;
    eexists _, fs'; (split; [|split; [reflexivity|split; [exact Hh'|]]]); try done;
    try (unfold read_json_object; by rewrite Hst, payload_loads).
  exact (eq_refl (is_wallet_error OSError)).
Qed.

(** Recovery of a journal that has both wallets. *)
Lemma initialize_known fs ms at_ p : journal_holds j fs ms -> pair_of (balances [] ms) = Some p -> new_portfolios p = Ok p ->
  _initialize_portfolios j at_ os fs = (Ok p, fs).
Proof using Hj.
  intros Hh Hp Hn. unfold _initialize_portfolios. rewrite get_bind, lift_raise_if_bind.
  assert (bool_decide (is_Some (fs !! ledger_path j)) = true) as ->.
  { apply bool_decide_eq_true. destruct (fs !! ledger_path j) eqn:E; [by eexists|exfalso].
    destruct Hh as [(Ht & _) _ _]. rewrite (journal_store j Hj) in Ht. cbn [path] in Ht. rewrite E in Ht.
    symmetry in Ht. apply log_text_nil in Ht. apply map_eq_nil in Ht. by subst ms. }
  cbn [negb]. rewrite andb_false_r. cbv iota. pose proof (latest_portfolios_exact j Hj fs ms Hh) as Hl.
  rewrite lift_bind. destruct (_read_movements j fs) as [read|]; [|discriminate]. rewrite Ok_bind in Hl. rewrite lift_bind, Hl.
  unfold initialize_market. unfold pair_of in Hp. destruct (dict_get _ "SPOT" _) as [s|] eqn:Es; [|discriminate].
  destruct (dict_get _ "USD_M_FUTURES" _) as [f|] eqn:Ef; [|discriminate]. injection Hp as <-.
  rewrite method_bind_run, mret_run. cbv iota. rewrite Ef, method_bind_run, mret_run. cbv iota.
  unfold _independent_portfolios. rewrite Es, Ef. unfold lift. by rewrite Hn.
Qed.

(** The wallets a journal recovers were constructed. *)
Lemma balances_ok ms : forall latest k w, Forall movement_ok ms ->
  (forall k w, dict_get String.eqb k latest = Some w -> wallet_ok w /\ vp_market w = k) ->
  dict_get String.eqb k (balances latest ms) = Some w -> wallet_ok w /\ vp_market w = k.
Proof using.
  induction ms as [|m ms IH]; intros latest k w Hms Hl; [apply Hl|]. apply Forall_cons in Hms as (Hm & Hms).
  apply (IH (dict_set String.eqb (market_of m) (mv_after m) latest) k w Hms). intros k' w'.
  rewrite (dict_get_set String.eqb). destruct (String.eqb_spec k' (market_of m)) as [->|]; [|apply Hl].
  intros [= <-]. apply mo_after, Hm.
Qed.

Lemma pair_ok fs ms p : journal_holds j fs ms -> pair_of (balances [] ms) = Some p ->
  (wallet_ok (spot p) /\ vp_market (spot p) = "SPOT") /\ (wallet_ok (futures p) /\ vp_market (futures p) = "USD_M_FUTURES").
Proof using.
  intros [_ Hc _] Hp. apply chained_ok in Hc. unfold pair_of in Hp. destruct (dict_get _ "SPOT" _) as [s|] eqn:Es; [|discriminate].
  destruct (dict_get _ "USD_M_FUTURES" _) as [f|] eqn:Ef; [|discriminate]. injection Hp as <-.
  split; (eapply balances_ok; [exact Hc| |eassumption]); intros k w H; discriminate H.
Qed.

(** A wallet changed in its market. *)
Definition set_wallet (p : IndependentVirtualPortfolios) (market : string) (w : VirtualPortfolioState) : IndependentVirtualPortfolios :=
  if String.eqb market "SPOT" then mk_portfolios w (futures p) else mk_portfolios (spot p) w.

Lemma pair_set latest p market w : pair_of latest = Some p -> market = "SPOT" \/ market = "USD_M_FUTURES" ->
  pair_of (dict_set String.eqb market w latest) = Some (set_wallet p market w).
Proof using.
  intros Hp Hm. unfold pair_of in *. rewrite !(dict_get_set String.eqb). destruct (dict_get _ "SPOT" _) as [s|]; [|discriminate].
  destruct (dict_get _ "USD_M_FUTURES" _) as [f|]; [|discriminate]. injection Hp as <-. by destruct Hm as [-> | ->].
Qed.

(** The last lines of a cycle. *)
Lemma finish_cycle fs ms p at_ current : journal_holds j fs ms -> pair_of (balances [] ms) = Some p ->
  pair_of current = Some p -> new_portfolios p = Ok p ->
  exists e fs', is_wallet_error e = true
  /\ (result ← lift (_independent_portfolios current); _write_outputs j at_ result os) fs
    = (if state_written os then Ok (state_of at_ p ms) else Raise e, fs')
  /\ journal_holds j fs' ms
  /\ (if state_placed os then read_json_object (state_path j) ST_ERROR fs' = Ok (sorted_items (state_of at_ p ms))
      else fs' !! path_text (state_path j) = fs !! path_text (state_path j)).
Proof using Hj Hpaths.
  intros Hh Hp Hc Hn. destruct (pair_ok fs ms p Hh Hp) as ((Hs & _) & Hf & _).
  assert (_independent_portfolios current = Ok p) as E.
  { unfold _independent_portfolios. unfold pair_of in Hc. destruct (dict_get _ "SPOT" current); [|discriminate].
    destruct (dict_get _ "USD_M_FUTURES" current); [|discriminate]. congruence. }
  rewrite lift_bind, E. by apply write_outputs_exact.
Qed.

(** A cycle whose steps fail with errors the journal wraps. *)
Lemma journal_errors_run {A} (m : method files A) fs (ok : bool) a e fs' : is_wallet_error e = true ->
  m fs = (if ok then Ok a else Raise e, fs') ->
  journal_errors m fs = (if ok then Ok a else Raise VirtualWalletJournalError, fs').
Proof using. unfold journal_errors. intros He ->. destruct ok; [done|]. by rewrite He. Qed.

(** The decision's movement, from the parts the code computes. *)
Lemma decided_parts snapshot_id at_ d : let m := decided snapshot_id at_ d in movement_ok m ->
  (vp_market (portfolio_before d) = "SPOT" \/ vp_market (portfolio_before d) = "USD_M_FUTURES")
  /\ vp_market (portfolio_after d) = vp_market (portfolio_before d)
  /\ _movement_payload (cycle_head snapshot_id (astimezone_utc at_) d) (Some (portfolio_before d)) (portfolio_after d) = Ok (items m)
  /\ type_of m = _MOVEMENT_EVENT.
Proof using.
  cbv zeta. intros Hm. destruct (items_fields _ Hm) as (e & c & _ & _ & _ & _ & E & _).
  pose proof (head_texts _ Hm) as (_ & _ & _ & _ & _ & _ & Hk & _). pose proof (proj2 (mo_after _ Hm)) as Ha. by split_and!.
Qed.

(** A decision that moves its wallet keeps the wallets independent. *)
Lemma moved_pair p d : let market := vp_market (portfolio_before d) in
  new_portfolios p = Ok p -> (market = "SPOT" \/ market = "USD_M_FUTURES") -> vp_market (portfolio_after d) = market ->
  portfolio_id (portfolio_after d) = portfolio_id (portfolio_before d) -> moves p d = true ->
  new_portfolios (set_wallet p market (portfolio_after d)) = Ok (set_wallet p market (portfolio_after d)).
Proof using.
  cbv zeta. intros Hn Hk Hm Hid Hmv. unfold moves in Hmv. rewrite !andb_true_iff in Hmv. destruct Hmv as ((_ & He) & _).
  assert (portfolio_id (wallet_in p (vp_market (portfolio_before d))) = portfolio_id (portfolio_before d)) as Ei.
  { unfold portfolio_eqb in He. cbv zeta in He. repeat (apply andb_true_iff in He as (He & _)). by apply String.eqb_eq. }
  unfold new_portfolios, set_wallet, wallet_in in *. destruct p as [s f]. cbn [spot futures] in *.
  apply bind_Ok in Hn as (? & H1 & Hn). apply bind_Ok in Hn as (? & H2 & Hn). apply bind_Ok in Hn as (? & H3 & _).
  apply raise_if_Ok in H1, H2, H3. destruct Hk as [Hk | Hk]; rewrite Hk in *; cbn [String.eqb Ascii.eqb Bool.eqb spot futures] in *.
  - rewrite Hm, Hid, <- Ei, H2, H3. done.
  - rewrite Hm, Hid, <- Ei, H1, H3. done.
Qed.

(** The movements after a cycle. *)
Definition after_cycle (p : IndependentVirtualPortfolios) (ms : list movement) (m : movement) (d : decision) : list movement :=
  if moves p d && accepted ms m (os_movement os) then ms ++ [m] else ms.

(** What a cycle leaves behind: the journal, its result, and the state file. *)
Definition cycle_end (fs : files) (at_ : datetime) (ok shown : bool) (ms' : list movement)
  (r : res (list (string * json))) (fs' : files) : Prop :=
  journal_holds j fs' ms'
  /\ exists p', pair_of (balances [] ms') = Some p'
  /\ r = (if ok then Ok (state_of (astimezone_utc at_) p' ms') else Raise VirtualWalletJournalError)
  /\ (if shown then read_json_object (state_path j) ST_ERROR fs' = Ok (sorted_items (state_of (astimezone_utc at_) p' ms'))
      else fs' !! path_text (state_path j) = fs !! path_text (state_path j)).

(** The wallets as the dictionary of a cycle, and the end of a cycle. *)
Definition by_market (p : IndependentVirtualPortfolios) : wallets := [("SPOT", spot p); ("USD_M_FUTURES", futures p)].
Definition finish (at_ : datetime) (current : wallets) : method files (list (string * json)) :=
  result ← lift (_independent_portfolios current); _write_outputs j (astimezone_utc at_) result os.

Section Decision.

Context (fs : files) (ms : list movement) (p : IndependentVirtualPortfolios) (snapshot_id : string) (at_ : datetime) (d : decision).
Context (Hh : journal_holds j fs ms) (Hp : pair_of (balances [] ms) = Some p) (Hn : new_portfolios p = Ok p).
Context (Hm : movement_ok (decided snapshot_id at_ d)) (Hid : portfolio_id (portfolio_after d) = portfolio_id (portfolio_before d)).

(** A cycle that records no movement and writes the state file. *)
Lemma cycle_unmoved (current : wallets) : pair_of current = Some p -> moves p d = false ->
  let '(r, fs') := journal_errors (finish at_ current) fs in
  cycle_end fs at_ (state_written os) (state_placed os) (after_cycle p ms (decided snapshot_id at_ d) d) r fs'.
Proof using Hj Hpaths Hh Hp Hn.
  intros Hc Hmv. destruct (finish_cycle fs ms p (astimezone_utc at_) current Hh Hp Hc Hn) as (e & fs' & He & E & Hh' & Hs).
  fold (finish at_ current) in E. rewrite (journal_errors_run _ _ _ _ _ _ He E). unfold after_cycle. rewrite Hmv. split; [done|]. by exists p.
Qed.

(** A cycle that moves a wallet. *)
Lemma cycle_moved (current : wallets) : pair_of current = Some p -> moves p d = true ->
  str_in (id_of (decided snapshot_id at_ d)) (map id_of ms) = false -> whole (os_movement os) = true ->
  Z.of_nat (length ms) + 2 < maximum_records ->
  let m := decided snapshot_id at_ d in
  let market := vp_market (portfolio_before d) in
  let '(r, fs') := journal_errors (
    _append_movement j _MOVEMENT_EVENT (items m) (os_movement os);;
    finish at_ (dict_set String.eqb market (portfolio_after d) current)) fs in
  cycle_end fs at_ (accepted ms m (os_movement os) && state_written os) (accepted ms m (os_movement os) && state_placed os)
    (after_cycle p ms m d) r fs'.
Proof using Hj Hpaths Hh Hp Hn Hm Hid.
  intros Hc Hmv Hfresh Hw Hroom. cbv zeta. destruct (decided_parts snapshot_id at_ d Hm) as (Hk & Ha & _ & Et).
  set (m := decided snapshot_id at_ d) in *.
  assert (links (balances [] ms) m = true) as Hl.
  { unfold links. change (market_of m) with (vp_market (portfolio_before d)). cbn [m decided mv_before].
    unfold moves in Hmv. rewrite !andb_true_iff in Hmv. destruct Hmv as ((_ & He) & _).
    unfold pair_of in Hp. destruct (dict_get _ "SPOT" _) as [s|] eqn:Es; [|discriminate].
    destruct (dict_get _ "USD_M_FUTURES" _) as [f|] eqn:Ef; [|discriminate]. injection Hp as <-. unfold wallet_in in He.
    destruct Hk as [Hk | Hk]; rewrite Hk in *; by rewrite ?Es, ?Ef. }
  destruct (append_movement_exact j Hj (proj1 (po_ledger Hpaths)) fs ms m (os_movement os) Hh Hm Hfresh Hl Hw Hroom)
    as (fs1 & E1 & Hh1 & Hf1).
  rewrite Et in E1. unfold after_cycle. rewrite Hmv. cbn [andb]. destruct (accepted ms m (os_movement os)); cbn [andb].
  - pose proof (moved_pair p d Hn Hk Ha Hid Hmv) as Hn1.
    pose proof (pair_set _ _ _ (portfolio_after d) Hp Hk) as Hp1. pose proof (pair_set _ _ _ (portfolio_after d) Hc Hk) as Hc1.
    assert (pair_of (balances [] (ms ++ [m])) = Some (set_wallet p (vp_market (portfolio_before d)) (portfolio_after d))) as Hp2
      by (unfold balances in *; by rewrite fold_left_app).
    destruct (finish_cycle fs1 (ms ++ [m]) _ (astimezone_utc at_) _ Hh1 Hp2 Hc1 Hn1) as (e2 & fs2 & He2 & E2 & Hh2 & Hs2).
    fold (finish at_ (dict_set String.eqb (vp_market (portfolio_before d)) (portfolio_after d) current)) in E2.
    set (rest := finish at_ _) in *. assert (journal_errors (_append_movement j _MOVEMENT_EVENT (items m) (os_movement os);; rest) fs
      = journal_errors rest fs1) as ->
      by (unfold journal_errors; by rewrite method_bind_run, E1).
    rewrite (journal_errors_run _ _ _ _ _ _ He2 E2). split; [done|]. eexists. split; [exact Hp2|]. split; [done|].
    destruct (state_placed os); [done|]. rewrite Hs2. apply Hf1. apply Hpaths.
  - unfold journal_errors. rewrite method_bind_run, E1. split; [done|]. exists p. split; [done|]. split; [done|].
    apply Hf1. apply Hpaths.
Qed.

(** A cycle, by the wallet the decision finds. *)
Lemma record_cycle_run : naive at_ = false ->
  let market := vp_market (portfolio_before d) in
  let current := wallet_in p market in
  record_cycle j snapshot_id at_ (Some d) os fs =
  if portfolio_eqb current (portfolio_after d) then journal_errors (finish at_ (by_market p)) fs
  else if negb (portfolio_eqb current (portfolio_before d)) then (Raise VirtualWalletJournalError, fs)
  else if portfolio_eqb (portfolio_after d) (portfolio_before d) then journal_errors (finish at_ (by_market p)) fs
  else journal_errors (_append_movement j _MOVEMENT_EVENT (items (decided snapshot_id at_ d)) (os_movement os);;
                       finish at_ (dict_set String.eqb market (portfolio_after d) (by_market p))) fs.
Proof using Hj Hh Hp Hn Hm Hid.
  intros Ht. cbv zeta. destruct (decided_parts snapshot_id at_ d Hm) as (Hk & Ha & Ei & _).
  unfold record_cycle, _utc_timestamp, journal_errors. rewrite Ht. cbn [raise_if]. rewrite Ok_bind, lift_bind.
  cbn [mret res_ret]. rewrite method_bind_run, (initialize_known fs ms _ p Hh Hp Hn). cbv iota. fold (by_market p). cbv zeta.
  rewrite Ha, Hid, !String.eqb_refl. cbn [negb orb]. rewrite lift_raise_if_bind.
  assert (dict_get String.eqb (vp_market (portfolio_before d)) (by_market p) = Some (wallet_in p (vp_market (portfolio_before d)))) as ->
    by (by destruct Hk as [-> | ->]).
  assert (_independent_portfolios (by_market p) = Ok p) as Ef.
  { change (new_portfolios (mk_portfolios (spot p) (futures p)) = Ok p).
    assert (mk_portfolios (spot p) (futures p) = p) as -> by (by destruct p). exact Hn. }
  destruct (portfolio_eqb (wallet_in p _) (portfolio_after d)).
  { unfold finish. by rewrite lift_bind, Ef. }
  rewrite lift_raise_if_bind. destruct (portfolio_eqb (wallet_in p _) (portfolio_before d)); [|done]. cbn [negb].
  destruct (portfolio_eqb (portfolio_after d) (portfolio_before d)); [done|].
  rewrite method_bind_run, lift_bind, Ei, !method_bind_run.
  by destruct (_append_movement _ _ _ _ fs) as [[]].
Qed.

End Decision.

(** C20: recording a cycle moves one wallet, once, or changes nothing.  On a
    journal that holds a chain of movements with both wallets, and for a
    decision that, when it moves a wallet, has an identity (of its snapshot and
    time) no recorded movement has, a cycle appends
    the decision's movement exactly when the wallet is the decision's start and
    the decision changes it, the record fits and its write completes.  It fails
    exactly when the wallet is neither the decision's start nor its result, or
    one of the two writes fails; a cycle whose wallet is the result already
    succeeds without recording anything, so a cycle that failed after its
    movement can be repeated.  Reading the journal again gives exactly the
    wallets after the movements it then holds, and after a success the state
    file shows those wallets; it also shows them when the state file was
    replaced but could not be read back, and otherwise a failure leaves it as it
    was.  The movement's write is complete or refused before a byte is written.  A wallet that moves under an identity recorded before is excluded:
    [repeated_cycle_diverges] shows the state file ahead of the journal then. *)
Theorem wallet_journal_refines fs ms p snapshot_id at_ d :
  journal_holds j fs ms -> pair_of (balances [] ms) = Some p -> new_portfolios p = Ok p -> naive at_ = false ->
  movement_ok (decided snapshot_id at_ d) -> portfolio_id (portfolio_after d) = portfolio_id (portfolio_before d) ->
  (moves p d = true -> str_in (id_of (decided snapshot_id at_ d)) (map id_of ms) = false) -> whole (os_movement os) = true ->
  Z.of_nat (length ms) + 2 < maximum_records ->
  let m := decided snapshot_id at_ d in
  let '(r, fs') := record_cycle j snapshot_id at_ (Some d) os fs in
  let ms' := after_cycle p ms m d in
  cycle_end fs at_ (concerns p d && implb (moves p d) (accepted ms m (os_movement os)) && state_written os)
    (concerns p d && implb (moves p d) (accepted ms m (os_movement os)) && state_placed os) ms' r fs'
  /\ (movements ← _read_movements j fs'; _latest_portfolios movements) = Ok (balances [] ms').
Proof using Hj Hpaths.
  intros Hh Hp Hn Ht Hm Hid Hfresh Hw Hroom. cbv zeta.
  destruct (record_cycle j snapshot_id at_ (Some d) os fs) as [r fs'] eqn:E.
  assert (pair_of (by_market p) = Some p) as Hc by by destruct p.
  rewrite (record_cycle_run fs ms p snapshot_id at_ d Hh Hp Hn Hm Hid Ht) in E.
  pose proof (cycle_unmoved fs ms p snapshot_id at_ d Hh Hp Hn _ Hc) as Hu.
  pose proof (cycle_moved fs ms p snapshot_id at_ d Hh Hp Hn Hm Hid _ Hc) as Hv. cbv zeta in E, Hv.
  set (m := decided snapshot_id at_ d) in *. set (current := wallet_in p _) in E.
  assert (cycle_end fs at_ (concerns p d && implb (moves p d) (accepted ms m (os_movement os)) && state_written os)
    (concerns p d && implb (moves p d) (accepted ms m (os_movement os)) && state_placed os)
    (after_cycle p ms m d) r fs') as H; [|split; [done|apply (latest_portfolios_exact j Hj), H]].
  assert (moves p d = negb (portfolio_eqb current (portfolio_after d)) && portfolio_eqb current (portfolio_before d)
    && negb (portfolio_eqb (portfolio_after d) (portfolio_before d))) as Em by reflexivity.
  assert (concerns p d = portfolio_eqb current (portfolio_after d) || portfolio_eqb current (portfolio_before d)) as -> by reflexivity.
  destruct (portfolio_eqb current (portfolio_after d)); [|destruct (portfolio_eqb current (portfolio_before d));
    [destruct (portfolio_eqb (portfolio_after d) (portfolio_before d))|]]; cbn [negb andb orb] in Em, E; rewrite Em.
  - specialize (Hu Em). rewrite E in Hu. exact Hu.
  - specialize (Hu Em). rewrite E in Hu. exact Hu.
  - specialize (Hv Em (Hfresh Em) Hw Hroom). rewrite E in Hv. exact Hv.
  - injection E as <- <-. unfold after_cycle. rewrite Em. split; [done|]. by exists p.
Qed.


(** ** Creation *)

(** The wallet a market starts with, and the movement that records it. *)
Definition initial_wallet (market : string) : VirtualPortfolioState :=
  mk_portfolio (if String.eqb market "SPOT" then "virtual-wallet:spot" else "virtual-wallet:futures") market
    (lit 1000 0) (lit 1000 0) (lit 1000 0) ZERO ZERO ZERO ZERO ZERO ZERO ZERO (Some (lit 1000 0)) ZERO ZERO 0
    None None None None None None None None None None 0 1.
Definition genesis_movement (market : string) (at_ : datetime) : movement :=
  mk_movement (genesis_head market (astimezone_utc at_)) None (initial_wallet market).

Lemma initial_portfolio_exact market : market = "SPOT" \/ market = "USD_M_FUTURES" ->
  _initial_portfolio market = Ok (initial_wallet market).
Proof using. intros [-> | ->]; vm_compute; reflexivity. Qed.

Lemma genesis_movement_ok market at_ : market = "SPOT" \/ market = "USD_M_FUTURES" -> dt_valid (astimezone_utc at_) = true ->
  movement_ok (genesis_movement market at_).
Proof using.
  intros Hk Ht. split; [|split|done|..].
  - unfold head_ok. cbn [genesis_movement mv_head genesis_head movement_id cycle_id mv_snapshot_id decision_status
      movement_type mv_market trade_action mv_timestamp]. rewrite Ht. destruct Hk as [-> | ->]; reflexivity.
  - destruct Hk as [-> | ->]; (split; [vm_compute; reflexivity|split; vm_compute; reflexivity|vm_compute; reflexivity..]).
  - done.
  - destruct Hk as [-> | ->]; vm_compute; reflexivity.
  - destruct Hk as [-> | ->]; vm_compute; reflexivity.
Qed.

(** One market's wallet is created. *)
Lemma initialize_market_exact fs ms market at_ out portfolios : journal_holds j fs ms -> portfolios = balances [] ms ->
  market = "SPOT" \/ market = "USD_M_FUTURES" -> dict_get String.eqb market portfolios = None ->
  dt_valid (astimezone_utc at_) = true -> whole out = true -> Z.of_nat (length ms) + 2 < maximum_records ->
  str_in (id_of (genesis_movement market at_)) (map id_of ms) = false ->
  accepted ms (genesis_movement market at_) out = true ->
  exists fs', initialize_market j (astimezone_utc at_) market out portfolios fs
    = (Ok (balances [] (ms ++ [genesis_movement market at_])), fs')
  /\ journal_holds j fs' (ms ++ [genesis_movement market at_]) /\ forall q, q <> ledger_path j -> fs' !! q = fs !! q.
Proof using Hj Hpaths.
  intros Hh -> Hk Hnone Ht Hw Hroom Hfresh Hacc. set (m := genesis_movement market at_) in *.
  pose proof (genesis_movement_ok market at_ Hk Ht) as Hm. fold m in Hm.
  assert (links (balances [] ms) m = true) as Hl by (unfold links; cbn [m genesis_movement market_of mv_head genesis_head mv_market]; by rewrite Hnone).
  destruct (append_movement_exact j Hj (proj1 (po_ledger Hpaths)) fs ms m out Hh Hm Hfresh Hl Hw Hroom) as (fs' & E & Hh' & Hf).
  rewrite Hacc in E, Hh'. exists fs'. split; [|done]. unfold initialize_market. rewrite Hnone, lift_bind, initial_portfolio_exact by done.
  destruct (items_fields m Hm) as (e & c & _ & _ & _ & _ & Ei & _). cbn [m genesis_movement mv_head mv_before mv_after] in Ei.
  rewrite lift_bind, Ei, method_bind_run. change _INITIAL_EVENT with (type_of m). fold m. rewrite E. cbv iota. rewrite mret_run.
  unfold balances. by rewrite fold_left_app.
Qed.

Lemma accepted_whole ms m out : accepted ms m out = true -> whole out = true.
Proof using. unfold accepted. intros (_ & H)%andb_true_iff. by destruct out. Qed.

Lemma no_movements fs : fs !! ledger_path j = None -> journal_holds j fs [].
Proof using Hj.
  intros Hl. split; [|done|reflexivity]. rewrite (journal_store j Hj). split; [|done]. cbn [path]. by rewrite Hl.
Qed.

Lemma initial_pair at_ : _independent_portfolios (balances [] [genesis_movement "SPOT" at_; genesis_movement "USD_M_FUTURES" at_])
  = Ok (mk_portfolios (initial_wallet "SPOT") (initial_wallet "USD_M_FUTURES")).
Proof using. reflexivity. Qed.

(** A new journal gets both wallets, each with the initial balance. *)
Lemma journal_created fs at_ : let g1 := genesis_movement "SPOT" at_ in let g2 := genesis_movement "USD_M_FUTURES" at_ in
  fs !! ledger_path j = None -> fs !! path_text (state_path j) = None -> dt_valid (astimezone_utc at_) = true ->
  accepted [] g1 (os_spot os) = true -> accepted [g1] g2 (os_futures os) = true ->
  exists fs', _initialize_portfolios j (astimezone_utc at_) os fs
    = (Ok (mk_portfolios (initial_wallet "SPOT") (initial_wallet "USD_M_FUTURES")), fs')
  /\ journal_holds j fs' [g1; g2] /\ forall q, q <> ledger_path j -> fs' !! q = fs !! q.
Proof using Hj Hpaths.
  cbv zeta. intros Hl Hs Ht H1 H2.
  pose proof (no_movements fs Hl) as Hh.
  destruct (initialize_market_exact fs [] "SPOT" at_ (os_spot os) [] Hh eq_refl (or_introl eq_refl) eq_refl Ht (accepted_whole _ _ _ H1) eq_refl eq_refl H1)
    as (fs1 & E1 & Hh1 & Hf1). cbn [app] in Hh1, E1.
  destruct (initialize_market_exact fs1 _ "USD_M_FUTURES" at_ (os_futures os) _ Hh1 eq_refl (or_intror eq_refl) eq_refl Ht
    (accepted_whole _ _ _ H2) eq_refl eq_refl H2) as (fs2 & E2 & Hh2 & Hf2). cbn [app] in E2, Hh2.
  exists fs2. split_and!; [|done|intros q Hq; by rewrite Hf2, Hf1].
  unfold _initialize_portfolios. rewrite get_bind, lift_raise_if_bind.
  rewrite (bool_decide_eq_false_2 (is_Some (fs !! path_text (state_path j)))) by (rewrite Hs; apply is_Some_None). cbn [andb].
  rewrite lift_bind, (read_movements_exact j Hj fs [] Hh), lift_bind. cbn [map].
  change (_latest_portfolios []) with (Ok (@nil (string * VirtualPortfolioState))). cbv iota.
  rewrite method_bind_run, E1. cbv iota. rewrite method_bind_run, E2. cbv iota. unfold lift. by rewrite initial_pair.
Qed.

(** ** A movement recorded before *)

(** The store reports a movement it holds already without an error, and a cycle
    does not look at that report.  Repeating an earlier cycle, with its snapshot
    and its time, after the wallet came back to where that cycle started succeeds
    and writes a state file with the wallet moved, while the journal keeps the
    wallet where it was. *)
Lemma repeated_cycle_diverges fs ms p snapshot_id at_ d :
  journal_holds j fs ms -> pair_of (balances [] ms) = Some p -> new_portfolios p = Ok p -> naive at_ = false ->
  movement_ok (decided snapshot_id at_ d) -> portfolio_id (portfolio_after d) = portfolio_id (portfolio_before d) ->
  whole (os_movement os) = true -> moves p d = true -> state_written os = true ->
  let m := decided snapshot_id at_ d in
  let p' := set_wallet p (vp_market (portfolio_before d)) (portfolio_after d) in
  List.find (same_identity (event_of m)) (map body_of ms) = Some (body_of m) ->
  exists fs', record_cycle j snapshot_id at_ (Some d) os fs = (Ok (state_of (astimezone_utc at_) p' ms), fs')
  /\ read_json_object (state_path j) ST_ERROR fs' = Ok (sorted_items (state_of (astimezone_utc at_) p' ms))
  /\ (movements ← _read_movements j fs'; _latest_portfolios movements) = Ok (balances [] ms).
Proof using Hj Hpaths.
  cbv zeta. intros Hh Hp Hn Ht Hm Hid Hw Hmv Hst Hfind. rewrite (record_cycle_run fs ms p snapshot_id at_ d Hh Hp Hn Hm Hid Ht).
  pose proof Hmv as Hmv'. unfold moves in Hmv'. rewrite !andb_true_iff, !negb_true_iff in Hmv'. destruct Hmv' as ((-> & ->) & ->). cbn [negb].
  destruct (decided_parts snapshot_id at_ d Hm) as (Hk & Ha & _ & Et).
  destruct (append_movement_again j Hj (proj1 (po_ledger Hpaths)) fs ms _ (os_movement os) Hh Hm Hw Hfind) as (fs1 & E1 & Hh1 & _).
  rewrite Et in E1. assert (pair_of (by_market p) = Some p) as Hc by by destruct p.
  pose proof (pair_set _ _ _ (portfolio_after d) Hc Hk) as Hc1. pose proof (moved_pair p d Hn Hk Ha Hid Hmv) as Hn1.
  set (p' := set_wallet p _ _) in *.
  assert (wallet_ok (spot p') /\ wallet_ok (futures p')) as (Hs & Hf).
  { destruct (pair_ok fs ms p Hh Hp) as ((Hs & _) & Hf & _). pose proof (proj1 (mo_after _ Hm)) as Hw'.
    unfold p', set_wallet. by destruct (String.eqb _ _). }
  destruct (write_outputs_exact fs1 ms (astimezone_utc at_) p' Hh1 Hs Hf) as (e & fs2 & _ & E2 & Hh2 & Hr). rewrite Hst in E2.
  apply andb_true_iff in Hst as (Hpl & _). rewrite Hpl in Hr.
  exists fs2. split_and!; [|done|by apply (latest_portfolios_exact j Hj)].
  unfold journal_errors. rewrite method_bind_run, E1. unfold finish. rewrite lift_bind.
  assert (_independent_portfolios (dict_set String.eqb (vp_market (portfolio_before d)) (portfolio_after d) (by_market p)) = Ok p') as ->;
    [|by rewrite E2].
  unfold _independent_portfolios. unfold pair_of in Hc1. destruct (dict_get _ "SPOT" (dict_set _ _ _ _)); [|discriminate].
  destruct (dict_get _ "USD_M_FUTURES" (dict_set _ _ _ _)); [|discriminate]. injection Hc1 as ->. exact Hn1.
Qed.

End Cycle.

(** ** Examples *)

Definition ex_journal : VirtualWalletJournal :=
  mk_journal "wallets.jsonl" (mk_path "/state/" "wallets.json") (mk_store "wallets.jsonl" true true 8388608 None None).
Definition ex_os : os_answers := mk_answers Written Written Written "5f" Written (fun _ => Replaced) (mk_aftermath true true).
Definition ex_at : datetime := utc 0.
Definition ex_start : list movement := [genesis_movement "SPOT" ex_at; genesis_movement "USD_M_FUTURES" ex_at].
Definition ex_pair : IndependentVirtualPortfolios := mk_portfolios (initial_wallet "SPOT") (initial_wallet "USD_M_FUTURES").

(** A Spot purchase. *)
Definition ex_bought : VirtualPortfolioState :=
  mk_portfolio "virtual-wallet:spot" "SPOT" (lit 899 0) (lit 999 0) (lit 1000 0) (lit 2 0) (lit 100 0) ZERO ZERO (lit 1 0) ZERO ZERO
    (Some (lit 1000 0)) ZERO (lit 20 0) 0 None None None None None None None None None None 1 1.
Definition ex_buy : decision := mk_decision (initial_wallet "SPOT") ex_bought "VIRTUAL_ENTRY_RECORDED" (Some "BUY").
Definition ex_undo : decision := mk_decision ex_bought (initial_wallet "SPOT") "VIRTUAL_EXIT_RECORDED" (Some "SELL").

Lemma ex_paths : paths_ok ex_journal ex_os.
Proof. split; [split; reflexivity|split; reflexivity|reflexivity|discriminate|discriminate]. Qed.

Lemma ex_wallet_ok : wallet_ok ex_bought /\ wallet_ok (initial_wallet "SPOT").
Proof. split; (split; [vm_compute; reflexivity|split; vm_compute; reflexivity|vm_compute; reflexivity..]). Qed.

Lemma ex_buy_ok : movement_ok (decided "snap-1" ex_at ex_buy).
Proof.
  destruct ex_wallet_ok as (Hb & Hi). split; [vm_compute; reflexivity|by split|by split|vm_compute; reflexivity..].
Qed.
Lemma ex_undo_ok : movement_ok (decided "snap-2" (utc 1) ex_undo).
Proof.
  destruct ex_wallet_ok as (Hb & Hi). split; [vm_compute; reflexivity|by split|by split|vm_compute; reflexivity..].
Qed.

(** A file that holds a chain of movements. *)
Definition file_of (ms : list movement) : files := {[ "wallets.jsonl" := log_text (map body_of ms) ]}.

Lemma file_holds ms : chained [] [] ms -> Z.of_nat (length ms) + 1 < maximum_records -> journal_holds ex_journal (file_of ms) ms.
Proof.
  intros Hc Hn. split; [|done|done]. split.
  - unfold file_of. cbn [_store ex_journal path]. by rewrite lookup_singleton_eq.
  - apply chained_ok in Hc. clear Hn. induction Hc as [|m ms Hm _ IH]; [done|]. cbn [map forallb].
    by rewrite (fields_recordable m Hm), IH.
Qed.

Lemma ex_start_chained : chained [] [] ex_start.
Proof.
  split; [apply genesis_movement_ok; [by left|reflexivity]|]. split; [reflexivity|]. split; [reflexivity|].
  split; [apply genesis_movement_ok; [by right|reflexivity]|]. split; [reflexivity|]. split; [reflexivity|done].
Qed.

Lemma wallet_journal_refines_witness : exists fs,
  (movements ← _read_movements ex_journal fs; _latest_portfolios movements)
  = Ok (balances [] (after_cycle ex_os ex_pair ex_start (decided "snap-1" ex_at ex_buy) ex_buy)).
Proof.
  pose proof (wallet_journal_refines ex_journal eq_refl ex_os ex_paths (file_of ex_start) ex_start ex_pair "snap-1" ex_at ex_buy
    (file_holds ex_start ex_start_chained eq_refl) eq_refl eq_refl eq_refl ex_buy_ok eq_refl (fun _ => eq_refl) eq_refl eq_refl) as H.
  cbv zeta in H. destruct (record_cycle _ _ _ _ _ _) as [r fs']. exists fs'. exact (proj2 H).
Defined.

(** The wallet bought, sold back, and the purchase recorded again. *)
Definition ex_back : list movement := ex_start ++ [decided "snap-1" ex_at ex_buy; decided "snap-2" (utc 1) ex_undo].

Lemma ex_back_chained : chained [] [] ex_back.
Proof.
  unfold ex_back. change [?a; ?b] with ([a] ++ [b]). rewrite app_assoc.
  apply chained_snoc. split; [apply chained_snoc|]; split_and!;
    first [exact ex_start_chained|exact ex_buy_ok|exact ex_undo_ok|vm_compute; reflexivity].
Qed.

Example ex_repeated : exists fs wallets,
  record_cycle ex_journal "snap-1" ex_at (Some ex_buy) ex_os (file_of ex_back) = (Ok wallets, fs)
  /\ read_json_object (state_path ex_journal) ST_ERROR fs
     = Ok (sorted_items (state_of ex_journal (astimezone_utc ex_at) (mk_portfolios ex_bought (initial_wallet "USD_M_FUTURES")) ex_back))
  /\ (movements ← _read_movements ex_journal fs; _latest_portfolios movements)
     = Ok [("SPOT", initial_wallet "SPOT"); ("USD_M_FUTURES", initial_wallet "USD_M_FUTURES")].
Proof.
  destruct (repeated_cycle_diverges ex_journal eq_refl ex_os ex_paths (file_of ex_back) ex_back ex_pair "snap-1" ex_at ex_buy
    (file_holds ex_back ex_back_chained eq_refl) eq_refl eq_refl eq_refl ex_buy_ok eq_refl eq_refl eq_refl eq_refl eq_refl)
    as (fs & E & H1 & H2).
  eexists _, _. split; [exact E|]. split; [exact H1|exact H2].
Qed.
