(* ===== verification/CandleViews.v ===== *)
(** [research/backtesting/engine.py], [_CandleHistory] and [_CandleTail]: the
    views of a candle tuple that stand for its prefixes and suffixes without
    copying them, with Python's indexing and slicing.

    [history_is_prefix] and [tail_is_suffix] let the other files use plain lists:
    [firstn] for what a signal provider sees, [skipn] for what a replay sees. *)
From S2P Require Import Prelude.
Local Open Scope Z_scope.
Local Open Scope bool_scope.

(** ** Python sequences *)

(** [slice(start, stop, step)] *)
Record slice : Type := mk_slice { sl_start : option Z; sl_stop : option Z; sl_step : option Z }.

(** [slice.indices(n)] *)
Definition bound_of (value : option Z) (n lower upper missing : Z) : Z :=
  match value with
  | None => missing
  | Some v => if v <? 0 then Z.max (v + n) lower else Z.min v upper
  end.
Definition indices (s : slice) (n : Z) : res (Z * Z * Z) :=
  let step := default 1 (sl_step s) in
  if step =? 0 then Raise (ValueError "slice step cannot be zero")
  else if step <? 0 then mret (bound_of (sl_start s) n (-1) (n - 1) (n - 1), bound_of (sl_stop s) n (-1) (n - 1) (-1), step)
  else mret (bound_of (sl_start s) n 0 n 0, bound_of (sl_stop s) n 0 n n, step).

(** [range(start, stop, step)] *)
Definition range_count (start stop step : Z) : Z :=
  if step <? 0 then (start - stop - step - 1) / - step else (stop - start + step - 1) / step.
Definition range (start stop step : Z) : list Z :=
  map (fun k => start + step * Z.of_nat k) (seq 0 (Z.to_nat (range_count start stop step))).

Section Views.
Context {A : Type}.

Definition size (l : list A) : Z := Z.of_nat (length l).
(** [l[i]] and [l[s]] of a tuple *)
Definition item (l : list A) (i : Z) : res A :=
  let k := if i <? 0 then i + size l else i in
  if (k <? 0) || (size l <=? k) then Raise IndexError
  else match nth_error l (Z.to_nat k) with Some x => mret x | None => Raise IndexError end.
Definition items (l : list A) (s : slice) : res (list A) :=
  '(start, stop, step) ← indices s (size l); mapM (item l) (range start stop step).

(** ** [_CandleHistory] *)

Record _CandleHistory : Type := mk_history { ch_candles : list A; ch_length : Z }.
(** [__getitem__] with an index *)
Definition history_item (h : _CandleHistory) (index : Z) : res A :=
  let normalized := if index <? 0 then index + ch_length h else index in
  if (normalized <? 0) || (ch_length h <=? normalized) then Raise IndexError else item (ch_candles h) normalized.
(** [__getitem__] with a slice *)
Definition history_items (h : _CandleHistory) (s : slice) : res (list A) :=
  '(start, stop, step) ← indices s (ch_length h);
  if step <? 0 then mapM (item (ch_candles h)) (range start stop step)
  else items (ch_candles h) (mk_slice (Some start) (Some stop) (Some step)).

(** ** [_CandleTail] *)

Record _CandleTail : Type := mk_tail { ct_candles : list A; ct_start : Z }.
Definition tail_length (t : _CandleTail) : Z := size (ct_candles t) - ct_start t.
Definition tail_item (t : _CandleTail) (index : Z) : res A :=
  let normalized := if index <? 0 then index + tail_length t else index in
  if (normalized <? 0) || (tail_length t <=? normalized) then Raise IndexError
  else item (ct_candles t) (ct_start t + normalized).
Definition tail_items (t : _CandleTail) (s : slice) : res (list A) :=
  '(start, stop, step) ← indices s (tail_length t);
  mapM (fun offset => item (ct_candles t) (ct_start t + offset)) (range start stop step).

(** ** The views are the lists they stand for *)

Lemma item_at (l : list A) k : 0 <= k < size l -> exists x, nth_error l (Z.to_nat k) = Some x /\ item l k = Ok x.
Proof.
  intros H. unfold item, size in *. destruct (nth_error l (Z.to_nat k)) as [x|] eqn:E.
  - exists x. split; [done|]. destruct (Z.ltb_spec k 0); [lia|]. destruct (Z.ltb_spec k 0); [lia|].
    destruct (Z.leb_spec (Z.of_nat (length l)) k); [lia|]. cbn. by rewrite E.
  - apply nth_error_None in E. lia.
Qed.

Lemma item_firstn (l : list A) n k : 0 <= k < Z.of_nat n -> (n <= length l)%nat -> item (firstn n l) k = item l k.
Proof.
  intros Hk Hn. destruct (item_at l k) as (x & Ex & ->); [unfold size; lia|].
  destruct (item_at (firstn n l) k) as (y & Ey & ->); [unfold size; rewrite length_firstn; lia|].
  rewrite nth_error_firstn in Ey. destruct (Nat.ltb_spec (Z.to_nat k) n); [congruence|lia].
Qed.

Lemma item_skipn (l : list A) n k : 0 <= k < Z.of_nat (length l - n) -> item (skipn n l) k = item l (Z.of_nat n + k).
Proof.
  intros Hk. destruct (item_at l (Z.of_nat n + k)) as (x & Ex & ->); [unfold size; lia|].
  destruct (item_at (skipn n l) k) as (y & Ey & ->); [unfold size; rewrite length_skipn; lia|].
  rewrite nth_error_skipn in Ey. replace (n + Z.to_nat k)%nat with (Z.to_nat (Z.of_nat n + k)) in Ey by lia. congruence.
Qed.

(** The offsets of a slice are inside the sequence. *)
Lemma range_inside s n start stop step k : 0 <= n -> indices s n = Ok (start, stop, step) -> In k (range start stop step) ->
  0 <= k < n.
Proof.
  intros Hn Hi Hk. unfold range in Hk. apply in_map_iff in Hk as (j & <- & Hj). apply in_seq in Hj as (_ & Hj).
  unfold indices in Hi. destruct (Z.eqb_spec (default 1 (sl_step s)) 0) as [|Hz]; [done|].
  set (d := default 1 (sl_step s)) in *. unfold range_count in Hj.
  destruct (Z.ltb_spec d 0) as [Hd|Hd]; apply mret_Ok in Hi; injection Hi as E1 E2 <-.
  - rewrite (proj2 (Z.ltb_lt _ _) Hd) in Hj. assert (-1 <= stop /\ start <= n - 1) as (H1 & H2).
    { rewrite <- E1, <- E2. unfold bound_of. split; repeat case_match; lia. }
    assert (Z.of_nat j < (start - stop - d - 1) / - d) as Hq by lia.
    pose proof (Z.mul_div_le (start - stop - d - 1) (- d) ltac:(lia)). nia.
  - destruct (Z.ltb_spec d 0); [lia|]. assert (0 <= start /\ stop <= n) as (H1 & H2).
    { rewrite <- E1, <- E2. unfold bound_of. split; repeat case_match; lia. }
    assert (Z.of_nat j < (stop - start + d - 1) / d) as Hq by lia.
    pose proof (Z.mul_div_le (stop - start + d - 1) d ltac:(lia)). nia.
Qed.

Lemma mapM_ext_in {X B} (f g : X -> res B) l : (forall x, In x l -> f x = g x) -> mapM f l = mapM g l.
Proof.
  induction l as [|x l IH]; intros H; [done|]. cbn. rewrite (H x) by (by left).
  destruct (g x); [|done]. rewrite !Ok_bind, IH; [done|]. intros; apply H; by right.
Qed.

(** What a history of length [n] shows is the prefix of length [n], and a tail
    from [n] is the suffix from [n]: at every index, positive or negative, and for
    every slice, with the same exceptions. *)
Lemma history_is_prefix candles n : (n <= length candles)%nat ->
  let h := mk_history candles (Z.of_nat n) in
  (forall i, history_item h i = item (firstn n candles) i) /\ (forall s, history_items h s = items (firstn n candles) s).
Proof.
  intros Hn. assert (size (firstn n candles) = Z.of_nat n) as Es by (unfold size; rewrite length_firstn; lia).
  split; [intros i|intros s].
  - unfold history_item. cbn [ch_candles ch_length]. set (k := if i <? 0 then i + Z.of_nat n else i).
    destruct ((k <? 0) || (Z.of_nat n <=? k)) eqn:E; [unfold item; rewrite Es; fold k; by rewrite E|].
    rewrite <- (item_firstn candles n k) by lia. unfold item at 2. rewrite Es. fold k. rewrite E.
    unfold item. rewrite Es. destruct (Z.ltb_spec k 0); [lia|]. destruct (Z.ltb_spec k 0); [lia|].
    destruct (Z.leb_spec (Z.of_nat n) k); [lia|]. done.
  - unfold history_items, items at 2. rewrite Es. cbn [ch_candles ch_length].
    destruct (indices s (Z.of_nat n)) as [[[start stop] step]|] eqn:E; [|done]. rewrite !Ok_bind.
    assert (mapM (item candles) (range start stop step) = mapM (item (firstn n candles)) (range start stop step)) as Em.
    { apply mapM_ext_in. intros k Hk. symmetry. apply item_firstn; [|done]. eapply range_inside; [|done|done]. lia. }
    destruct (Z.ltb_spec step 0) as [Hs|Hs]; [done|]. unfold items. rewrite <- Em.
    assert (indices (mk_slice (Some start) (Some stop) (Some step)) (size candles) = Ok (start, stop, step)) as ->;
      [|done].
    unfold indices in E |- *. cbn [sl_step sl_start sl_stop default from_option id].
    destruct (Z.eqb_spec (default 1 (sl_step s)) 0) as [|Hz]; [done|]. set (d := default 1 (sl_step s)) in *.
    destruct (Z.ltb_spec d 0); apply mret_Ok in E; injection E as E1 E2 <-; [lia|].
    destruct (Z.eqb_spec d 0); [done|]. destruct (Z.ltb_spec d 0); [lia|]. unfold mret, res_ret. repeat f_equal.
    + rewrite <- E1. unfold bound_of, size. repeat case_match; lia.
    + rewrite <- E2. unfold bound_of, size. repeat case_match; lia.
Qed.

Lemma tail_is_suffix candles n : (n <= length candles)%nat ->
  let t := mk_tail candles (Z.of_nat n) in
  (forall i, tail_item t i = item (skipn n candles) i) /\ (forall s, tail_items t s = items (skipn n candles) s).
Proof.
  intros Hn. assert (size (skipn n candles) = size candles - Z.of_nat n) as Es by (unfold size; rewrite length_skipn; lia).
  split; [intros i|intros s].
  - unfold tail_item, tail_length. cbn [ct_candles ct_start]. rewrite <- Es. unfold item at 2.
    set (k := if i <? 0 then i + size (skipn n candles) else i).
    destruct ((k <? 0) || (size (skipn n candles) <=? k)) eqn:E; [done|].
    rewrite Es in E. unfold size in E. rewrite <- item_skipn by lia.
    destruct (item_at (skipn n candles) k) as (x & Ex & ->); [unfold size; rewrite length_skipn; lia|]. by rewrite Ex.
  - unfold tail_items, items, tail_length. cbn [ct_candles ct_start]. rewrite <- Es.
    destruct (indices s _) as [[[start stop] step]|] eqn:E; [|done]. rewrite !Ok_bind.
    apply mapM_ext_in. intros k Hk. symmetry. apply item_skipn.
    apply (range_inside s (size (skipn n candles))) in Hk; [|unfold size; lia|done].
    unfold size in Hk. rewrite length_skipn in Hk. lia.
Qed.
End Views.
Arguments _CandleHistory : clear implicits.
Arguments _CandleTail : clear implicits.
