(* ===== verification/Backtest.v ===== *)
(** [domain/research/backtest_models.py], [domain/research/liquidity.py],
    [research/backtesting/exit_engine.py] and the trade-level operations of
    [research/backtesting/engine.py]: the assumptions and intents of a Spot
    backtest, the conservative fill, one open trade from its entry to its
    closure.  [Backtester] has the bar loop, [BacktestReplay] the
    counterfactuals.

    Decimals are finite.  A [TradeRecord] holds several results twice, under a
    short and a long name ([MAE], [MFE], [holding_time], [gross_pnl], [fees],
    [slippage], [net_pnl]); the engine gives both the same value and the model
    has them once.  Fields that only ever hold their constant default (the
    leverage, [excursion_observation], [execution_allowed]) are left out. *)
From S2P Require Import Prelude PyDecimal DecimalFacts PyFloat PyText Domain Attribution TradeLedger Filters Candidate Risk Surface Paper.
From Stdlib Require Import QArith Qminmax Lqa.
Local Open Scope Z_scope.
Local Open Scope bool_scope.

(** ** [Decimal.quantize] *)

Inductive rounding : Type := ROUND_DOWN | ROUND_UP.

(** The coefficient at the exponent [e], towards or away from zero. *)
Definition rescale (r : rounding) (c : N) (from e : Z) : N :=
  if e <=? from then (c * pow10 (from - e))%N
  else
    let k := pow10 (e - from) in
    match r with
    | ROUND_DOWN => (c / k)%N
    | ROUND_UP => if (c mod k =? 0)%N then (c / k)%N else (c / k + 1)%N
    end.

(** [d.quantize(e, rounding=r)]: only the exponent of [e] matters. *)
Definition quantize (d e : dec) (r : rounding) : res dec :=
  if negb ((Etiny <=? dexp e) && (dexp e <=? Emax)) then Raise DecimalInvalidOperation
  else if (dcoef d =? 0)%N then dfix (dneg d) 0 (dexp e)
  else if (Emax <? adjusted d) || (prec <? adjusted d - dexp e + 1) then Raise DecimalInvalidOperation
  else
    let c := rescale r (dcoef d) (dexp d) (dexp e) in
    if (Emax <? adjusted (mk_dec (dneg d) c (dexp e))) || (prec <? ndigits c) then Raise DecimalInvalidOperation
    else dfix (dneg d) c (dexp e).

(** [old in text] *)
Definition has_text (old text : string) : bool :=
  (fix go (l : list ascii) : bool :=
     match is_prefix (list_ascii_of_string old) l with
     | Some _ => true
     | None => match l with [] => false | _ :: l' => go l' end
     end) (list_ascii_of_string text).

(** ["FUTURES" in market.upper()] *)
Definition is_futures (market : string) : bool := has_text "FUTURES" (upper market).

(** ** Liquidity stress *)

Record LiquidityStressConfig : Type := mk_stress {
  max_volume_participation : dec; minimum_fill_ratio : dec; impact_ratio : dec; maximum_impact_ratio : dec
}.
(** [LiquidityStressConfig.__post_init__] *)
Definition new_stress (c : LiquidityStressConfig) : res LiquidityStressConfig :=
  raise_if (existsb (fun d => d <? ZERO)%D
      [max_volume_participation c; minimum_fill_ratio c; impact_ratio c; maximum_impact_ratio c])
    (ValueError "liquidity stress ratios must be finite and non-negative");;
  raise_if (negb ((ZERO <? max_volume_participation c)%D && (max_volume_participation c <=? ONE)%D))
    (ValueError "maximum volume participation must be in (0, 1]");;
  raise_if (negb ((ZERO <? minimum_fill_ratio c)%D && (minimum_fill_ratio c <=? ONE)%D))
    (ValueError "minimum fill ratio must be in (0, 1]");;
  raise_if (maximum_impact_ratio c <? impact_ratio c)%D (ValueError "base impact cannot exceed maximum impact");;
  mret c.

Record LiquidityFillDecision : Type := mk_fill_decision {
  requested_quantity : dec; filled_quantity : dec; remaining_quantity : dec; fill_ratio : dec;
  price_impact_ratio : dec; lf_blockers : list string
}.

(** [assess_liquidity_fill] *)
Definition assess_liquidity_fill (requested volume : dec) (c : LiquidityStressConfig) : res LiquidityFillDecision :=
  raise_if (requested <=? ZERO)%D (ValueError "requested fill quantity must be finite and positive");;
  raise_if (volume <? ZERO)%D (ValueError "candle volume must be finite and non-negative");;
  capacity ← dmul volume (max_volume_participation c);
  let filled := dmin requested capacity in
  ratio ← ddiv filled requested;
  let blockers :=
    if (filled <=? ZERO)%D then ["LIQUIDITY_FILL_UNAVAILABLE"]
    else if (ratio <? minimum_fill_ratio c)%D then ["LIQUIDITY_PARTIAL_FILL_BELOW_MINIMUM"] else [] in
  utilization ← (if (ZERO <? capacity)%D then ddiv filled capacity else mret ZERO);
  scaled ← dmul (impact_ratio c) utilization;
  let impact := dmin (maximum_impact_ratio c) scaled in
  remaining ← dsub requested filled;
  mret (mk_fill_decision requested filled remaining ratio impact blockers).

(** ** The funnel *)

Inductive VirtualMarketFunnelStage : Type :=
| DISCOVERED | READY_FOR_RISK | RISK_PASS | VALIDATION_PASS | DGE_PASS | VIRTUAL_ORDER | FILLED | CLOSED.
#[export] Instance VirtualMarketFunnelStage_eq_dec : EqDecision VirtualMarketFunnelStage.
Proof. solve_decision. Defined.
#[export, refine] Instance VirtualMarketFunnelStage_enum : StrEnum VirtualMarketFunnelStage := {
  members := [DISCOVERED; READY_FOR_RISK; RISK_PASS; VALIDATION_PASS; DGE_PASS; VIRTUAL_ORDER; FILLED; CLOSED];
  enum_text s := match s with
    | DISCOVERED => "DISCOVERED" | READY_FOR_RISK => "READY_FOR_RISK" | RISK_PASS => "RISK_PASS"
    | VALIDATION_PASS => "VALIDATION_PASS" | DGE_PASS => "DGE_PASS" | VIRTUAL_ORDER => "VIRTUAL_ORDER"
    | FILLED => "FILLED" | CLOSED => "CLOSED"
    end
}.
Proof. all: solve_enum. Defined.

Definition _UPSTREAM_FUNNEL_STAGES : list string :=
  map enum_text [DISCOVERED; READY_FOR_RISK; RISK_PASS; VALIDATION_PASS; DGE_PASS].

(** ** Assumptions and intents *)

Record BacktestConfig : Type := mk_config {
  initial_cash_usdt : dec; bc_quantity : dec; bc_fee_ratio : dec; bc_slippage_ratio : dec;
  trailing_multiplier : dec; tick_size : dec; step_size : dec; minimum_notional : dec;
  liquidity_stress : option LiquidityStressConfig
}.
(** [BacktestConfig.__post_init__] *)
Definition new_config (c : BacktestConfig) : res BacktestConfig :=
  raise_if ((initial_cash_usdt c <=? ZERO)%D || (bc_quantity c <=? ZERO)%D)
    (ValueError "initial cash and quantity must be positive");;
  raise_if (negb ((ZERO <? bc_fee_ratio c)%D && (bc_fee_ratio c <=? lit 1 (-2))%D))
    (ValueError "fee_ratio must be between zero and 0.01");;
  raise_if (negb ((ZERO <? bc_slippage_ratio c)%D && (bc_slippage_ratio c <=? lit 2 (-2))%D))
    (ValueError "slippage_ratio must be between zero and 0.02");;
  raise_if (trailing_multiplier c <=? ZERO)%D (ValueError "trailing_multiplier must be positive");;
  raise_if (tick_size c <=? ZERO)%D (ValueError "tick_size must be positive");;
  raise_if (step_size c <=? ZERO)%D (ValueError "step_size must be positive");;
  raise_if (minimum_notional c <=? ZERO)%D (ValueError "minimum_notional must be positive");;
  mret c.

Record BacktestIntent : Type := mk_intent {
  bi_signal_id : string;
  bi_timestamp : datetime;
  bi_stop_loss : dec;
  bi_take_profit : dec;
  bi_atr : dec;
  bi_reason_codes : list string;
  bi_take_profit_levels : list dec;
  partial_exit_ratio : dec;
  bi_strategy_id : string;
  bi_strategy_version : string;
  bi_config_version : string;
  bi_config_hash : string;
  bi_market : string;
  bi_symbol : string;
  bi_regime : string;
  bi_timeframe : string;
  bi_snapshot_id : string;
  bi_decision_id : string;
  bi_opportunity_id : string;
  bi_evidence : TradeDecisionEvidence;
  breakeven_trigger_r : option dec;
  trailing_atr_multiple : option dec;
  maximum_holding_bars : option Z;
  bi_entry_score : dec;
  bi_evidence_score : dec;
  bi_dge_status : string;
  bi_blocker_history : list string;
  funnel_stages : list string
}.

Definition set_identity (symbol timeframe snapshot decision opportunity : string) (i : BacktestIntent) : BacktestIntent :=
  mk_intent (bi_signal_id i) (bi_timestamp i) (bi_stop_loss i) (bi_take_profit i) (bi_atr i) (bi_reason_codes i)
    (bi_take_profit_levels i) (partial_exit_ratio i) (bi_strategy_id i) (bi_strategy_version i) (bi_config_version i)
    (bi_config_hash i) (bi_market i) symbol (bi_regime i) timeframe snapshot decision opportunity (bi_evidence i)
    (breakeven_trigger_r i) (trailing_atr_multiple i) (maximum_holding_bars i) (bi_entry_score i) (bi_evidence_score i)
    (bi_dge_status i) (bi_blocker_history i) (funnel_stages i).

(** [BacktestIntent.targets] *)
Definition targets (i : BacktestIntent) : list dec :=
  if is_nil (bi_take_profit_levels i) then [bi_take_profit i] else bi_take_profit_levels i.

(** [a == b] on tuples of numbers *)
Fixpoint decs_eqb (a b : list dec) : bool :=
  match a, b with
  | [], [] => true
  | x :: a', y :: b' => deqb x y && decs_eqb a' b'
  | _, _ => false
  end.

(** [not value.strip()] for the first of the named fields *)
Fixpoint require_fields (fields : list (string * string)) : res unit :=
  match fields with
  | [] => mret tt
  | (name, value) :: rest => raise_if (blank value) (ValueError (name ++ " is required"));; require_fields rest
  end.

Definition some_nonpositive (o : option dec) : bool := match o with Some d => (d <=? ZERO)%D | None => false end.

(** [BacktestIntent.__post_init__] *)
Definition new_intent (i : BacktestIntent) : res BacktestIntent :=
  raise_if (blank (bi_signal_id i) || is_nil (bi_reason_codes i))
    (ValueError "signal identity and reason codes are required");;
  raise_if (naive (bi_timestamp i)) (ValueError "signal timestamp must be timezone-aware");;
  raise_if (dmin_list (bi_stop_loss i) [bi_take_profit i; bi_atr i] <=? ZERO)%D
    (ValueError "signal price geometry values must be positive");;
  raise_if (negb (decs_eqb (py_sorted dleb (set_of deqb (targets i))) (targets i)))
    (ValueError "take-profit levels must be unique and increasing");;
  raise_if (negb ((ZERO <? partial_exit_ratio i)%D && (partial_exit_ratio i <? ONE)%D))
    (ValueError "partial_exit_ratio must be between zero and one");;
  require_fields [("strategy_id", bi_strategy_id i); ("strategy_version", bi_strategy_version i);
    ("strategy_config_version", bi_config_version i); ("strategy_config_hash", bi_config_hash i);
    ("market", bi_market i); ("regime", bi_regime i)];;
  raise_if (some_nonpositive (breakeven_trigger_r i))
    (ValueError "breakeven_trigger_r must be positive when configured");;
  raise_if (some_nonpositive (trailing_atr_multiple i))
    (ValueError "trailing_atr_multiple must be positive when configured");;
  raise_if (match maximum_holding_bars i with Some n => n <? 1 | None => false end)
    (ValueError "maximum_holding_bars must be positive when configured");;
  raise_if (bi_entry_score i <? ZERO)%D (ValueError "entry_score must be non-negative");;
  raise_if (bi_evidence_score i <? ZERO)%D (ValueError "evidence_score must be non-negative");;
  raise_if (blank (bi_dge_status i)) (ValueError "dge_status is required");;
  let i := if blank (bi_opportunity_id i)
           then set_identity (bi_symbol i) (bi_timeframe i) (bi_snapshot_id i) (bi_decision_id i)
                  ("opportunity:" ++ bi_signal_id i) i
           else i in
  raise_if (negb (all_unique String.eqb (bi_blocker_history i))) (ValueError "blocker_history must be unique");;
  raise_if (existsb blank (bi_blocker_history i)) (ValueError "blocker_history cannot contain blanks");;
  raise_if (negb (all_unique String.eqb (funnel_stages i))) (ValueError "funnel_stages must be unique");;
  raise_if (is_nil (funnel_stages i)) (ValueError "funnel_stages must not be empty");;
  raise_if (existsb (fun s => negb (str_in s _UPSTREAM_FUNNEL_STAGES)) (funnel_stages i))
    (ValueError "funnel_stages contain unsupported virtual-market stages");;
  mret i.

(** [a or b] on texts *)
Definition or_text (a b : string) : string := if String.eqb a "" then b else a.

(** [BacktestIntent.closed_trade_attribution] *)
Definition closed_trade_attribution (i : BacktestIntent) : res ClosedTradeAttribution :=
  new_attribution (mk_attribution (bi_strategy_id i) (bi_strategy_version i) (bi_config_version i) (bi_config_hash i)
    (bi_market i) (or_text (normalize (bi_symbol i)) "UNKNOWN_SYMBOL") (bi_regime i)
    (or_text (strip (bi_timeframe i)) "UNKNOWN") (or_text (strip (bi_snapshot_id i)) (bi_signal_id i))
    (or_text (strip (bi_decision_id i)) ("decision:" ++ bi_signal_id i)) (bi_opportunity_id i) (bi_evidence i)).

(** ** Exits *)

(** [_canonical_exit_reason] *)
Definition _canonical_exit_reason (r : ExitReason) : BacktestExitReason :=
  match r with STOP_LOSS_EXIT => HARD_STOP | TRAILING_STOP_EXIT => TRAILING_STOP | TAKE_PROFIT_EXIT => TARGET end.

(** [VirtualExitEngine.evaluate_long_exit]: the reason and the price *)
Definition virtual_long_exit (i : BacktestIntent) (p : PaperPosition) (c : OHLCVCandle) (bars_held : Z)
  : res (option (BacktestExitReason * dec)) :=
  paper_exit ← evaluate_long_exit p c;
  mret (match paper_exit with
        | Some (reason, price) => Some (_canonical_exit_reason reason, price)
        | None =>
            match maximum_holding_bars i with
            | Some n => if n <? bars_held then Some (TIME_EXIT, c_close c) else None
            | None => None
            end
        end).

(** [VirtualExitEngine.end_of_data_exit] *)
Definition end_of_data_exit (c : OHLCVCandle) : BacktestExitReason * dec := (END_OF_DATA, c_close c).

(** ** Records of the lifecycle *)

Record RejectedSignal : Type := mk_rejected {
  rj_signal_id : string; rj_timestamp : datetime; rj_blockers : list string
}.
Record ClosureReview : Type := mk_review {
  cr_exit_reason : BacktestExitReason; cr_lifecycle_error : option string; cr_stop_quality : string;
  trailing_quality : string; cr_ignored_signals : Z; htf_weakness : bool; volatility_expansion : bool;
  level_break : bool; staged_exit_alternative : string; lesson_candidate : string
}.
Record StagedExitRecord : Type := mk_staged {
  se_timestamp : datetime; se_price : dec; se_quantity : dec; se_fee : dec; se_pnl : dec
}.
Record EquityPoint : Type := mk_equity { ep_timestamp : datetime; equity_usdt : dec; position_quantity : dec }.
Record FalseBreakoutRecord : Type := mk_false_breakout {
  fb_signal_id : string; fb_entry : datetime; fb_exit : datetime; fb_net_pnl : dec
}.

Record TradeRecord : Type := mk_trade {
  tr_trade_id : string;
  tr_signal_id : string;
  tr_entry_timestamp : datetime;
  tr_exit_timestamp : datetime;
  tr_entry_price : dec;
  tr_exit_price : dec;
  tr_quantity : dec;
  tr_entry_fee : dec;
  tr_exit_fee : dec;
  tr_net_pnl : dec;
  tr_return_ratio : dec;
  tr_exit_reason : BacktestExitReason;
  closure_review : ClosureReview;
  tr_entry_reason : list string;
  tr_staged_exits : list StagedExitRecord;
  tr_attribution : ClosedTradeAttribution;
  tr_stop_loss : dec;
  tr_targets : list dec;
  tr_entry_reference : dec;
  tr_methods : TradeParameterMethods;
  tr_gross_pnl : dec;
  tr_fee_cost : dec;
  tr_slippage_cost : dec;
  tr_funding_cost : dec;
  tr_realized_r : dec;
  tr_mfe : dec;
  tr_mae : dec;
  tr_holding_period : Z;
  tr_direction : TradeDirection;
  tr_risk_at_entry : dec;
  tr_planned_rr : dec;
  tr_entry_score : dec;
  tr_evidence_score : dec;
  tr_dge_status : string;
  tr_blocker_history : list string
}.

#[export] Instance trade_edge : EdgeTrade TradeRecord := {
  et_attribution := tr_attribution;
  et_gross := tr_gross_pnl; et_fee := tr_fee_cost; et_slippage := tr_slippage_cost; et_funding := tr_funding_cost;
  et_net := tr_net_pnl; et_realized_r := tr_realized_r; et_mfe := tr_mfe; et_mae := tr_mae;
  et_holding t := mret (tr_holding_period t)
}.

(** [TradeOutcome]: the trade's own fields and the assessment of its evidence. *)
Record TradeOutcome : Type := mk_outcome { oc_trade : TradeRecord; oc_assessment : TradeClosureAssessment }.
(** [TradeRecord.trade_outcome] *)
Definition trade_outcome (t : TradeRecord) : res TradeOutcome :=
  a ← assess (ca_evidence (tr_attribution t)) (tr_entry_timestamp t) (tr_entry_price t) (enum_text (tr_exit_reason t));
  mret (mk_outcome t a).

(** [_OpenTrade] *)
Record _OpenTrade : Type := mk_open {
  ot_intent : BacktestIntent;
  ot_entry_timestamp : datetime;
  ot_entry_reference : dec;
  ot_entry_price : dec;
  ot_entry_fee : dec;
  ot_position : PaperPosition;
  original_quantity : dec;
  ot_ignored_signals : Z;
  ot_staged_exits : list StagedExitRecord;
  realized_partial_pnl : dec;
  realized_exit_slippage : dec;
  ot_mfe : dec;
  ot_mae : dec;
  bars_held : Z;
  breakeven_armed : bool;
  ot_blocker_history : list string
}.

Definition with_progress (mfe mae : dec) (bars : Z) (o : _OpenTrade) : _OpenTrade :=
  mk_open (ot_intent o) (ot_entry_timestamp o) (ot_entry_reference o) (ot_entry_price o) (ot_entry_fee o) (ot_position o)
    (original_quantity o) (ot_ignored_signals o) (ot_staged_exits o) (realized_partial_pnl o) (realized_exit_slippage o)
    mfe mae bars (breakeven_armed o) (ot_blocker_history o).
Definition with_stop (p : PaperPosition) (armed : bool) (o : _OpenTrade) : _OpenTrade :=
  mk_open (ot_intent o) (ot_entry_timestamp o) (ot_entry_reference o) (ot_entry_price o) (ot_entry_fee o) p
    (original_quantity o) (ot_ignored_signals o) (ot_staged_exits o) (realized_partial_pnl o) (realized_exit_slippage o)
    (ot_mfe o) (ot_mae o) (bars_held o) armed (ot_blocker_history o).
Definition with_stage (p : PaperPosition) (staged : StagedExitRecord) (pnl slippage : dec) (o : _OpenTrade) : _OpenTrade :=
  mk_open (ot_intent o) (ot_entry_timestamp o) (ot_entry_reference o) (ot_entry_price o) (ot_entry_fee o) p
    (original_quantity o) (ot_ignored_signals o) (ot_staged_exits o ++ [staged]) pnl slippage
    (ot_mfe o) (ot_mae o) (bars_held o) (breakeven_armed o) (ot_blocker_history o).
Definition with_ignored (blockers : list string) (o : _OpenTrade) : _OpenTrade :=
  mk_open (ot_intent o) (ot_entry_timestamp o) (ot_entry_reference o) (ot_entry_price o) (ot_entry_fee o) (ot_position o)
    (original_quantity o) (ot_ignored_signals o + 1) (ot_staged_exits o) (realized_partial_pnl o) (realized_exit_slippage o)
    (ot_mfe o) (ot_mae o) (bars_held o) (breakeven_armed o) (ot_blocker_history o ++ blockers).

(** [replace(position, trailing_stop=...)] *)
Definition with_trailing (stop : dec) (p : PaperPosition) : res PaperPosition :=
  new_position (mk_position (pp_candidate_id p) (pp_symbol p) (pp_entry_price p) (pp_quantity p) (pp_stop_loss p) stop
    (pp_targets p)).

(** ** The engine's operations on one trade *)

Section Engine.
Context (cfg : BacktestConfig).

Definition _round_quantity (q : dec) : res dec := quantize q (step_size cfg) ROUND_DOWN.
Definition _round_price (p : dec) (r : rounding) : res dec := quantize p (tick_size cfg) r.

(** [_entry_fill] *)
Definition _entry_fill (c : OHLCVCandle) : res LiquidityFillDecision :=
  requested ← _round_quantity (bc_quantity cfg);
  if (requested <=? ZERO)%D then
    mret (mk_fill_decision (bc_quantity cfg) ZERO (bc_quantity cfg) ZERO ZERO ["STEP_SIZE_ROUNDED_QUANTITY_IS_ZERO"])
  else
    match liquidity_stress cfg with
    | None => mret (mk_fill_decision requested requested ZERO ONE ZERO [])
    | Some stress =>
        assessed ← assess_liquidity_fill requested (c_volume c) stress;
        rounded ← _round_quantity (filled_quantity assessed);
        if (rounded <=? ZERO)%D then
          mret (mk_fill_decision (requested_quantity assessed) ZERO requested ZERO (price_impact_ratio assessed)
            (fromkeys (lf_blockers assessed ++ ["STEP_SIZE_ROUNDED_QUANTITY_IS_ZERO"])))
        else
          remaining ← dsub requested rounded;
          ratio ← ddiv rounded requested;
          mret (mk_fill_decision (requested_quantity assessed) rounded remaining ratio (price_impact_ratio assessed)
            (lf_blockers assessed))
    end.

(** The price of an entry at the open of [c]. *)
Definition entry_at (c : OHLCVCandle) (fill : LiquidityFillDecision) : res dec :=
  factor ← dadd ONE (bc_slippage_ratio cfg);
  factor ← dadd factor (price_impact_ratio fill);
  raw ← dmul (c_open c) factor;
  _round_price raw ROUND_UP.

(** [_open_trade] *)
Definition _open_trade (i : BacktestIntent) (c : OHLCVCandle) : res _OpenTrade :=
  fill ← _entry_fill c;
  entry ← entry_at c fill;
  notional ← dmul entry (filled_quantity fill);
  fee ← dmul notional (bc_fee_ratio cfg);
  position ← new_position (mk_position (bi_signal_id i) "BACKTEST" entry (filled_quantity fill) (bi_stop_loss i)
    (bi_stop_loss i) (targets i));
  mret (mk_open i (c_timestamp c) (c_open c) entry fee position (filled_quantity fill) 0 [] ZERO ZERO ZERO ZERO 0 false []).

(** [_entry_blockers] *)
Definition _entry_blockers (i : BacktestIntent) (c : OHLCVCandle) (available_cash : dec) : res (list string) :=
  fill ← _entry_fill c;
  entry ← entry_at c fill;
  notional ← dmul entry (filled_quantity fill);
  with_fee ← dadd ONE (bc_fee_ratio cfg);
  required ← dmul notional with_fee;
  let invalid_geometry := (entry <=? bi_stop_loss i)%D || existsb (fun t => t <=? entry)%D (targets i) in
  mret (lf_blockers fill
    ++ block_if invalid_geometry "INVALID_NEXT_BAR_GEOMETRY"
    ++ block_if (available_cash <? required)%D "INSUFFICIENT_BACKTEST_CASH"
    ++ block_if (notional <? minimum_notional cfg)%D "MIN_NOTIONAL_NOT_REACHED").

(** [_update_excursions], and the bar that is counted with it *)
Definition _update_excursions (o : _OpenTrade) (c : OHLCVCandle) : res _OpenTrade :=
  up ← dsub (c_high c) (ot_entry_price o);
  favorable ← dmul (dmax up ZERO) (original_quantity o);
  down ← dsub (ot_entry_price o) (c_low c);
  adverse ← dmul (dmax down ZERO) (original_quantity o);
  mret (with_progress (dmax (ot_mfe o) favorable) (dmax (ot_mae o) adverse) (bars_held o + 1) o).

(** The initial risk of a trade. *)
Definition initial_risk (o : _OpenTrade) : res dec :=
  distance ← dsub (ot_entry_price o) (bi_stop_loss (ot_intent o));
  dmul distance (original_quantity o).

(** [_breakeven_trigger_reached] *)
Definition _breakeven_trigger_reached (o : _OpenTrade) : res bool :=
  match breakeven_trigger_r (ot_intent o) with
  | None => mret false
  | Some trigger =>
      risk ← initial_risk o;
      if (risk <=? ZERO)%D then mret false
      else threshold ← dmul risk trigger; mret (threshold <=? ot_mfe o)%D
  end.

(** [intent.trailing_atr_multiple or self.config.trailing_multiplier] *)
Definition trailing_multiple (i : BacktestIntent) : dec :=
  match trailing_atr_multiple i with
  | Some m => if is_zero m then trailing_multiplier cfg else m
  | None => trailing_multiplier cfg
  end.

(** [_updated_trailing_stop] *)
Definition _updated_trailing_stop (o : _OpenTrade) (armed : bool) (close : dec) : res dec :=
  let current := pp_trailing_stop (ot_position o) in
  updated ← (if (current <? close)%D
             then fst <$> update_long_trailing_stop current close (bi_atr (ot_intent o)) (trailing_multiple (ot_intent o))
                    (tick_size cfg)
             else mret current);
  mret (if armed then dmax updated (ot_entry_price o) else updated).

(** What an open trade that survives a bar becomes. *)
Definition protect (o : _OpenTrade) (close : dec) : res _OpenTrade :=
  reached ← _breakeven_trigger_reached o;
  let armed := reached || breakeven_armed o in
  stop ← _updated_trailing_stop o armed close;
  position ← with_trailing stop (ot_position o);
  mret (with_stop position armed o).

(** [_partial_exit]: the stage and the trade it leaves *)
Definition _partial_exit (o : _OpenTrade) (c : OHLCVCandle) (price : dec) : res (StagedExitRecord * _OpenTrade) :=
  let p := ot_position o in
  quantity ← dmul (pp_quantity p) (partial_exit_ratio (ot_intent o));
  keep ← dsub ONE (bc_slippage_ratio cfg);
  raw ← dmul price keep;
  exit_price ← _round_price raw ROUND_DOWN;
  value ← dmul exit_price quantity;
  fee ← dmul value (bc_fee_ratio cfg);
  share ← ddiv quantity (original_quantity o);
  entry_fee ← dmul (ot_entry_fee o) share;
  proceeds ← dsub value fee;
  cost ← dmul (ot_entry_price o) quantity;
  cost ← dadd cost entry_fee;
  pnl ← dsub proceeds cost;
  let staged := mk_staged (c_timestamp c) exit_price quantity fee pnl in
  partial_pnl ← dadd (realized_partial_pnl o) pnl;
  slip ← dsub price exit_price;
  slip ← dmul slip quantity;
  slippage ← dadd (realized_exit_slippage o) slip;
  rest ← dsub (pp_quantity p) quantity;
  position ← new_position (mk_position (pp_candidate_id p) (pp_symbol p) (pp_entry_price p) rest (pp_stop_loss p)
    (pp_trailing_stop p) (tl (pp_targets p)));
  mret (staged, with_stage position staged partial_pnl slippage o).

(** [_closure_review] *)
Definition _closure_review (r : BacktestExitReason) (ignored : Z) : ClosureReview :=
  mk_review r None (if has_text "STOP" (enum_text r) then "PROTECTIVE" else "NOT_TRIGGERED")
    (if bool_decide (r = TRAILING_STOP) then "TRIGGERED" else "NOT_TRIGGERED") ignored false false false "REVIEW_REQUIRED"
    "REVIEW_EXIT_CONTEXT".

(** [_funding_cost] *)
Definition _funding_cost (i : BacktestIntent) : dec := if is_futures (bi_market i) then ZERO else ZERO.

(** [_realized_r_multiple] *)
Definition _realized_r_multiple (o : _OpenTrade) (net_pnl : dec) : res dec :=
  risk ← initial_risk o;
  if (risk <=? ZERO)%D then mret ZERO else ddiv net_pnl risk.

(** The methods of a closed trade. *)
Definition trade_methods : TradeParameterMethods :=
  mk_methods "BACKTEST_CONFIG_QUANTITY_WITH_STEP_AND_LIQUIDITY_FILTERS" "NOT_APPLICABLE_SPOT"
    "INTENT_STOP_WITH_DECISION_EVIDENCE" "NEXT_CANDLE_OPEN_PLUS_SLIPPAGE_AND_PRICE_IMPACT"
    "INTENT_TARGETS_WITH_DECISION_EVIDENCE" "FIRST_TARGET_DISTANCE_DIVIDED_BY_FILLED_ENTRY_STOP_DISTANCE"
    "SPOT_FILL_CASHFLOWS_MINUS_FEES_SLIPPAGE_FUNDING".

(** The figures of a closure. *)
Record closure_figures : Type := mk_figures {
  cf_exit_price : dec; cf_exit_fee : dec; cf_net_pnl : dec; cf_return_ratio : dec; cf_fee_cost : dec;
  cf_slippage_cost : dec; cf_gross_pnl : dec; cf_risk : dec; cf_planned_rr : dec; cf_realized_r : dec; cf_staged_fees : dec
}.
Definition closure (o : _OpenTrade) (reference : dec) : res closure_figures :=
  keep ← dsub ONE (bc_slippage_ratio cfg);
  raw ← dmul reference keep;
  exit_price ← _round_price raw ROUND_DOWN;
  let remaining := pp_quantity (ot_position o) in
  value ← dmul exit_price remaining;
  exit_fee ← dmul value (bc_fee_ratio cfg);
  cost ← dmul (ot_entry_price o) remaining;
  share ← ddiv remaining (original_quantity o);
  fee_share ← dmul (ot_entry_fee o) share;
  entry_cost ← dadd cost fee_share;
  exit_value ← dsub value exit_fee;
  remaining_pnl ← dsub exit_value entry_cost;
  net_pnl ← dadd (realized_partial_pnl o) remaining_pnl;
  full ← dmul (ot_entry_price o) (original_quantity o);
  full_cost ← dadd full (ot_entry_fee o);
  return_ratio ← ddiv net_pnl full_cost;
  fees ← dadd (ot_entry_fee o) exit_fee;
  staged_fees ← dsum (map se_fee (ot_staged_exits o));
  fee_cost ← dadd fees staged_fees;
  entry_slip ← dsub (ot_entry_price o) (ot_entry_reference o);
  entry_slip ← dmul entry_slip (original_quantity o);
  exit_slip ← dsub reference exit_price;
  exit_slip ← dmul exit_slip remaining;
  exit_slip ← dadd (realized_exit_slippage o) exit_slip;
  slippage_cost ← dadd entry_slip exit_slip;
  gross ← dadd net_pnl fee_cost;
  gross ← dadd gross slippage_cost;
  gross ← dadd gross (_funding_cost (ot_intent o));
  risk ← initial_risk o;
  planned ← (if (ZERO <? risk)%D
             then reward ← dsub (bi_take_profit (ot_intent o)) (ot_entry_price o);
                  reward ← dmul reward (original_quantity o);
                  ddiv reward risk
             else mret ZERO);
  realized ← _realized_r_multiple o net_pnl;
  mret (mk_figures exit_price exit_fee net_pnl return_ratio fee_cost slippage_cost gross risk planned realized staged_fees).

(** [_close_trade] *)
Definition _close_trade (o : _OpenTrade) (c : OHLCVCandle) (reason : BacktestExitReason) (reference : dec)
  : res TradeRecord :=
  f ← closure o reference;
  let i := ot_intent o in
  exit_fees ← dadd (cf_exit_fee f) (cf_staged_fees f);
  attribution ← closed_trade_attribution i;
  methods ← new_methods trade_methods;
  holding ← whole_seconds (ot_entry_timestamp o) (c_timestamp c);
  mret (mk_trade ("trade:" ++ bi_signal_id i) (bi_signal_id i) (ot_entry_timestamp o) (c_timestamp c) (ot_entry_price o)
    (cf_exit_price f) (original_quantity o) (ot_entry_fee o) exit_fees (cf_net_pnl f) (cf_return_ratio f) reason
    (_closure_review reason (ot_ignored_signals o)) (bi_reason_codes i) (ot_staged_exits o) attribution (bi_stop_loss i)
    (targets i) (ot_entry_reference o) methods (cf_gross_pnl f) (cf_fee_cost f) (cf_slippage_cost f)
    (_funding_cost i) (cf_realized_r f) (ot_mfe o) (ot_mae o) holding LONG (cf_risk f) (cf_planned_rr f)
    (bi_entry_score i) (bi_evidence_score i) (bi_dge_status i) (fromkeys (bi_blocker_history i ++ ot_blocker_history o))).

(** [_equity_point] *)
Definition _equity_point (c : OHLCVCandle) (cash : dec) (open_trade : option _OpenTrade) : res EquityPoint :=
  match open_trade with
  | None => mret (mk_equity (c_timestamp c) cash ZERO)
  | Some o =>
      let quantity := pp_quantity (ot_position o) in
      value ← dmul (c_close c) quantity;
      keep ← dsub ONE (bc_fee_ratio cfg);
      estimated ← dmul value keep;
      cost ← dmul (ot_entry_price o) quantity;
      share ← ddiv quantity (original_quantity o);
      fee ← dmul (ot_entry_fee o) share;
      remaining_cost ← dadd cost fee;
      unrealized ← dsub estimated remaining_cost;
      equity ← dadd cash unrealized;
      mret (mk_equity (c_timestamp c) equity quantity)
  end.

(** [_false_breakout] *)
Definition _false_breakout (i : BacktestIntent) (t : TradeRecord) : option FalseBreakoutRecord :=
  if negb (existsb (has_text "BREAKOUT") (bi_reason_codes i)) || negb (bool_decide (tr_exit_reason t ∈ [HARD_STOP; TRAILING_STOP]))
  then None
  else Some (mk_false_breakout (tr_signal_id t) (tr_entry_timestamp t) (tr_exit_timestamp t) (tr_net_pnl t)).
End Engine.

(** ** What construction guarantees *)

Ltac guards H :=
  repeat (let u := fresh "u" in let Hg := fresh "Hg" in
          apply bind_Ok in H as (u & Hg & H);
          lazymatch type of Hg with raise_if _ _ = Ok _ => apply raise_if_Ok in Hg | _ => idtac end).

Lemma pos_of d : (d <=? ZERO)%D = false -> (0 < dval d)%Q.
Proof. rewrite dleb_false, dval_ZERO. done. Qed.
Lemma nonneg_of d : (d <? ZERO)%D = false -> (0 <= dval d)%Q.
Proof. rewrite dltb_false, dval_ZERO. done. Qed.

Record valid_stress (c : LiquidityStressConfig) : Prop := mk_valid_stress {
  vst_participation : (0 < dval (max_volume_participation c) <= 1)%Q; vst_minimum : (0 < dval (minimum_fill_ratio c) <= 1)%Q;
  vst_impact : (0 <= dval (impact_ratio c) <= dval (maximum_impact_ratio c))%Q
}.

Record valid_config (c : BacktestConfig) : Prop := mk_valid_config {
  vcf_cash : (0 < dval (initial_cash_usdt c))%Q; vcf_quantity : (0 < dval (bc_quantity c))%Q;
  vcf_fee : (0 < dval (bc_fee_ratio c))%Q; vcf_slippage : (0 < dval (bc_slippage_ratio c) <= 2 # 100)%Q;
  vcf_trailing : (0 < dval (trailing_multiplier c))%Q; vcf_tick : (0 < dval (tick_size c))%Q;
  vcf_step : (0 < dval (step_size c))%Q; vcf_notional : (0 < dval (minimum_notional c))%Q;
  vcf_stress : forall s, liquidity_stress c = Some s -> valid_stress s
}.

Lemma new_stress_valid c c' : new_stress c = Ok c' -> c' = c /\ valid_stress c.
Proof.
  unfold new_stress. intros H. guards H. apply mret_Ok in H as <-. split; [done|].
  cbn [existsb] in Hg. rewrite !orb_false_iff in Hg. destruct Hg as (_ & _ & H3 & _).
  apply negb_false_iff, andb_true_iff in Hg0 as (A1 & A2), Hg1 as (B1 & B2).
  apply dltb_spec in A1, B1. apply dleb_spec in A2, B2. apply dltb_false in Hg2. apply nonneg_of in H3.
  rewrite dval_ZERO in A1, B1. rewrite dval_ONE in A2, B2. done.
Qed.

Lemma new_config_valid c c' : (forall s, liquidity_stress c = Some s -> new_stress s = Ok s) ->
  new_config c = Ok c' -> c' = c /\ valid_config c.
Proof.
  unfold new_config. intros Hst H. guards H. apply mret_Ok in H as <-. split; [done|].
  apply orb_false_iff in Hg as (H1 & H2). apply negb_false_iff, andb_true_iff in Hg0 as (H3 & _), Hg1 as (H4 & H5).
  apply dltb_spec in H3, H4. apply dleb_spec in H5. rewrite dval_ZERO in H3, H4.
  split; try (by apply pos_of); try done. intros s Hs. by apply (new_stress_valid s s), Hst.
Qed.

(** The intent with its opportunity, and what the engine relies on. *)
Record valid_intent (i : BacktestIntent) : Prop := mk_valid_intent {
  vi_signal : blank (bi_signal_id i) = false /\ bi_reason_codes i <> [] /\ naive (bi_timestamp i) = false;
  vi_stop : (0 < dval (bi_stop_loss i))%Q; vi_atr : (0 < dval (bi_atr i))%Q;
  vi_ratio : (0 < dval (partial_exit_ratio i) < 1)%Q;
  vi_names : Forall (fun s => blank s = false) [bi_strategy_id i; bi_strategy_version i; bi_config_version i;
    bi_config_hash i; bi_market i; bi_regime i; bi_dge_status i; bi_opportunity_id i];
  vi_multiple : forall m, trailing_atr_multiple i = Some m -> (0 < dval m)%Q;
  vi_stages : forall s, In s (funnel_stages i) -> In s _UPSTREAM_FUNNEL_STAGES
}.

Lemma require_fields_Ok fields u : require_fields fields = Ok u -> Forall (fun kv => blank kv.2 = false) fields.
Proof.
  induction fields as [|[k v] l IH]; [constructor|]. cbn. intros H. guards H.
  constructor; [done|]. by apply IH.
Qed.

Lemma upstream_stages l : existsb (fun s => negb (str_in s _UPSTREAM_FUNNEL_STAGES)) l = false ->
  forall s, In s l -> In s _UPSTREAM_FUNNEL_STAGES.
Proof.
  intros H s Hs. apply str_in_In. destruct (str_in s _) eqn:E; [done|].
  assert (existsb (fun s => negb (str_in s _UPSTREAM_FUNNEL_STAGES)) l = true); [|congruence].
  apply existsb_exists. exists s. by rewrite E.
Qed.

Lemma new_intent_valid raw i : new_intent raw = Ok i -> valid_intent i.
Proof.
  unfold new_intent. intros H. do 12 (let u := fresh "u" in let Hg := fresh "Hg" in
    apply bind_Ok in H as (u & Hg & H); try apply raise_if_Ok in Hg).
  cbv zeta in H. guards H. apply mret_Ok in H.
  apply orb_false_iff in Hg as (Hs & Hr). apply is_nil_false in Hr. apply negb_false_iff, andb_true_iff in Hg3 as (R1 & R2).
  apply dltb_spec in R1, R2. rewrite dval_ZERO in R1. rewrite dval_ONE in R2.
  pose proof (dmin_list_pos _ _ Hg1) as Hp. apply require_fields_Ok in Hg4.
  rewrite !Forall_cons in Hg4. destruct Hg4 as (N1 & N2 & N3 & N4 & N5 & N6 & _). cbn in N1, N2, N3, N4, N5, N6.
  assert (forall m, trailing_atr_multiple raw = Some m -> (0 < dval m)%Q) as Hm
    by (intros m E; rewrite E in Hg6; by apply pos_of).
  assert (blank ("opportunity:" ++ bi_signal_id raw) = false) as Hb by (rewrite blank_app; done).
  destruct (blank (bi_opportunity_id raw)) eqn:Eo; subst i; split; cbn; try done; try (by apply Hp; cbn; tauto);
    try (by apply upstream_stages);
    repeat (apply Forall_cons; split; [assumption|]); constructor.
Qed.

Lemma new_intent_fields raw i : new_intent raw = Ok i ->
  bi_signal_id i = bi_signal_id raw /\ bi_timestamp i = bi_timestamp raw.
Proof.
  unfold new_intent. intros H. guards H. cbv zeta in H. guards H. apply mret_Ok in H as <-.
  destruct (blank (bi_opportunity_id raw)); done.
Qed.

Lemma trailing_multiple_pos cfg i : valid_config cfg -> valid_intent i -> (0 < dval (trailing_multiple cfg i))%Q.
Proof.
  intros Hc Hi. unfold trailing_multiple. destruct (trailing_atr_multiple i) as [m|] eqn:E; [|apply Hc].
  destruct (is_zero m); [apply Hc|by apply (vi_multiple i Hi)].
Qed.

(** What a fresh trade is. *)
Lemma open_trade_Ok cfg i c o : _open_trade cfg i c = Ok o -> exists fill entry fee,
  _entry_fill cfg c = Ok fill /\ entry_at cfg c fill = Ok entry
  /\ new_position (ot_position o) = Ok (ot_position o)
  /\ o = mk_open i (c_timestamp c) (c_open c) entry fee
           (mk_position (bi_signal_id i) "BACKTEST" entry (filled_quantity fill) (bi_stop_loss i) (bi_stop_loss i) (targets i))
           (filled_quantity fill) 0 [] ZERO ZERO ZERO ZERO 0 false [].
Proof.
  unfold _open_trade. intros H. apply bind_Ok in H as (fill & Hf & H). apply bind_Ok in H as (entry & He & H).
  apply bind_Ok in H as (notional & _ & H). apply bind_Ok in H as (fee & _ & H). apply bind_Ok in H as (p & Hp & H).
  apply mret_Ok in H as <-. exists fill, entry, fee. split; [done|]. split; [done|]. cbn.
  assert (p = mk_position (bi_signal_id i) "BACKTEST" entry (filled_quantity fill) (bi_stop_loss i) (bi_stop_loss i) (targets i))
    as -> by (unfold new_position in Hp; guards Hp; by apply mret_Ok in Hp).
  done.
Qed.

(** ** Quantized values *)

Lemma dfix_small s c e : Etiny <= e -> e <= Emax -> e + ndigits c - 1 <= Emax -> ndigits c <= prec ->
  dfix s c e = Ok (mk_dec s c e).
Proof.
  intros H1 H2 H3 H4. unfold dfix. destruct (N.eqb_spec c 0) as [->|Hc].
  - do 2 f_equal. lia.
  - destruct (Z.ltb_spec Etop (ndigits c + e - prec)); [unfold Etop, Emax in *; lia|].
    destruct (Z.ltb_spec e (Z.max (ndigits c + e - prec) Etiny)); [lia|done].
Qed.

Lemma rescale_bounds r c from e :
  match r with
  | ROUND_DOWN => (mag (rescale r c from e) e <= mag c from < mag (rescale r c from e) e + Qexp10 e)%Q
  | ROUND_UP => (mag c from <= mag (rescale r c from e) e < mag c from + Qexp10 e)%Q
  end.
Proof.
  pose proof (Qexp10_pos e) as Hp. unfold rescale. destruct (Z.leb_spec e from) as [H|H].
  - pose proof (mag_shift c from e H). destruct r; lra.
  - pose proof (pow10_pos (e - from)) as Hk. set (k := pow10 (e - from)) in *.
    assert (forall n, mag n e == mag (n * k) from)%Q as Em by (intros n; apply mag_shift; lia).
    assert (forall n, mag n e + Qexp10 e == mag ((n + 1) * k) from)%Q as Em1.
    { intros n. rewrite <- Em. unfold mag. rewrite N2Z.inj_add, inject_Z_plus. ring. }
    assert (mag c from + Qexp10 e == mag (c + k) from)%Q as Ec.
    { transitivity (mag c from + mag k from)%Q; [|unfold mag; rewrite N2Z.inj_add, inject_Z_plus; ring].
      rewrite <- (N.mul_1_l k), <- Em. unfold mag. simpl. ring. }
    pose proof (N.div_mod c k ltac:(lia)) as D. pose proof (N.mod_lt c k ltac:(lia)) as L.
    revert D L. generalize (c / k)%N as n, (c mod k)%N as m. intros n m D L. destruct r.
    + rewrite Em1, Em, mag_le_iff, mag_lt_iff. split; nia.
    + destruct (N.eqb_spec m 0); rewrite Em, Ec, mag_le_iff, mag_lt_iff; split; nia.
Qed.

(** A quantized value is within one unit of the exponent, on the side the rounding
    says. *)
Lemma quantize_bounds d e r q : quantize d e r = Ok q -> (0 <= dval d)%Q ->
  (0 <= dval q)%Q
  /\ match r with
     | ROUND_DOWN => (dval q <= dval d < dval q + Qexp10 (dexp e))%Q
     | ROUND_UP => (dval d <= dval q < dval d + Qexp10 (dexp e))%Q
     end.
Proof.
  unfold quantize. intros H Hd. destruct (Z.leb_spec Etiny (dexp e)) as [H1|]; [|done].
  destruct (Z.leb_spec (dexp e) Emax) as [H2|]; [|done]. cbn [negb andb] in H.
  pose proof (Qexp10_pos (dexp e)) as Hp. destruct (N.eqb_spec (dcoef d) 0) as [Ez|Hz].
  - rewrite dfix_small in H by (unfold prec; cbn; lia). injection H as <-.
    pose proof (dval_zero d Ez). pose proof (dval_zero (mk_dec (dneg d) 0 (dexp e)) eq_refl). destruct r; lra.
  - destruct (_ || _); [done|]. destruct (_ || _) eqn:E; [done|]. apply orb_false_iff in E as (E1 & E2).
    rewrite dfix_small in H by (unfold adjusted in E1; cbn in E1; lia). injection H as <-.
    assert (dneg d = false) as Hs.
    { destruct (dneg d) eqn:Es; [|done]. pose proof (dval_mag d) as E. rewrite Es in E. pose proof (Qexp10_pos (dexp d)).
      assert (mag 0 (dexp d) < mag (dcoef d) (dexp d))%Q by (apply mag_lt_iff; lia). rewrite mag_zero in *. lra. }
    rewrite Hs. pose proof (dval_mag (mk_dec false (rescale r (dcoef d) (dexp d) (dexp e)) (dexp e))) as Eq.
    cbn [dneg dcoef dexp] in Eq. pose proof (dval_mag d) as Ed. rewrite Hs in Ed.
    pose proof (rescale_bounds r (dcoef d) (dexp d) (dexp e)) as B. split; [by apply dval_nonneg|].
    destruct r; lra.
Qed.

(** ** Conservative fills *)

Lemma assess_fill_bounds requested volume stress d : valid_stress stress ->
  assess_liquidity_fill requested volume stress = Ok d -> exists capacity,
  dmul volume (max_volume_participation stress) = Ok capacity /\ filled_quantity d = dmin requested capacity
  /\ (0 <= dval (price_impact_ratio d) <= dval (maximum_impact_ratio stress))%Q
  /\ (0 < dval requested)%Q /\ (0 <= dval capacity)%Q.
Proof.
  intros [Hp _ Hi]. unfold assess_liquidity_fill. intros H. guards H. apply mret_Ok in H as <-. cbn.
  apply pos_of in Hg. apply nonneg_of in Hg0. exists u1. split; [done|]. split; [done|].
  apply dmul_faithful in Hg1, Hg4. assert (0 <= dval u1)%Q as Hx
    by (apply (faithful_nonneg _ _ Hg1); apply Qmult_le_0_compat; lra).
  split; [|done]. destruct (dmin_spec (maximum_impact_ratio stress) u4) as (M1 & M2 & M3).
  assert (0 <= dval u3)%Q as Hu.
  { destruct (ZERO <? u1)%D eqn:E; [|by apply mret_Ok in Hg3 as <-]. apply ddiv_faithful in Hg3. apply dltb_spec in E.
    rewrite dval_ZERO in E. apply (faithful_nonneg _ _ Hg3). apply Qle_shift_div_l; [done|].
    destruct (dmin_spec requested u1) as (_ & _ & [->| ->]); lra. }
  assert (0 <= dval u4)%Q as Hs by (apply (faithful_nonneg _ _ Hg4); apply Qmult_le_0_compat; lra).
  split; [|done]. destruct M3 as [->| ->]; lra.
Qed.

Lemma position_parts p : new_position p = Ok p <->
  (forall d, In d [pp_entry_price p; pp_quantity p; pp_stop_loss p; pp_trailing_stop p] -> (0 < dval d)%Q)
  /\ (dval (pp_stop_loss p) < dval (pp_entry_price p))%Q
  /\ pp_targets p <> [] /\ (forall t, In t (pp_targets p) -> (dval (pp_entry_price p) < dval t)%Q).
Proof.
  unfold new_position. rewrite <- dmin_list_pos_iff, <- is_nil_false.
  assert (existsb (fun t => t <=? pp_entry_price p)%D (pp_targets p) = false <->
    forall t, In t (pp_targets p) -> (dval (pp_entry_price p) < dval t)%Q) as <-.
  { induction (pp_targets p) as [|t l IH]; [by split|]. cbn. rewrite orb_false_iff, IH, dleb_false. naive_solver. }
  rewrite <- dleb_false. destruct (dmin_list _ _ <=? ZERO)%D; cbn; [naive_solver|].
  destruct (pp_entry_price p <=? pp_stop_loss p)%D; cbn; [naive_solver|].
  destruct (is_nil _); cbn; [naive_solver|]. by destruct (existsb _ _); cbn; naive_solver.
Qed.

Section Conservative.
Context (cfg : BacktestConfig) (Hcfg : valid_config cfg).

(** What an entry may fill. *)
Record fill_bounds (c : OHLCVCandle) (f : LiquidityFillDecision) : Prop := mk_fill_bounds {
  fb_quantity : (0 <= dval (filled_quantity f) <= dval (bc_quantity cfg))%Q;
  fb_impact : (0 <= dval (price_impact_ratio f))%Q;
  fb_positive : lf_blockers f = [] -> (0 < dval (filled_quantity f))%Q;
  fb_capacity : forall stress capacity, liquidity_stress cfg = Some stress ->
    dmul (c_volume c) (max_volume_participation stress) = Ok capacity -> (dval (filled_quantity f) <= Qmax 0 (dval capacity))%Q
}.

Lemma round_quantity_bounds q r : _round_quantity cfg q = Ok r -> (0 <= dval q)%Q -> (0 <= dval r <= dval q)%Q.
Proof. intros H Hq. apply quantize_bounds in H as (H1 & H2); [|done]. cbn in H2. lra. Qed.

Lemma entry_fill_bounds c f : _entry_fill cfg c = Ok f -> fill_bounds c f.
Proof.
  unfold _entry_fill. intros H. apply bind_Ok in H as (requested & Hr & H). pose proof (vcf_quantity cfg Hcfg) as Hq.
  apply round_quantity_bounds in Hr; [|lra]. destruct (requested <=? ZERO)%D eqn:E0.
  { apply mret_Ok in H as <-. split; cbn; rewrite ?dval_ZERO; try done; [lra|]. intros. apply Q.le_max_l. }
  apply pos_of in E0. destruct (liquidity_stress cfg) as [stress|] eqn:Es.
  - pose proof (vcf_stress cfg Hcfg _ Es) as Hs. apply bind_Ok in H as (d & Hd & H).
    apply (assess_fill_bounds _ _ _ _ Hs) in Hd as (capacity & Hc & Hf & Hi & _ & Hn).
    apply bind_Ok in H as (rounded & Hr2 & H).
    destruct (dmin_spec requested capacity) as (M1 & M2 & M3). rewrite Hf in *.
    assert (0 <= dval (dmin requested capacity))%Q as Hm by (destruct M3 as [E|E]; rewrite E; lra).
    apply round_quantity_bounds in Hr2; [|done].
    destruct (rounded <=? ZERO)%D eqn:E1.
    + apply mret_Ok in H as <-. split; cbn; rewrite ?dval_ZERO; try lra; [|intros; apply Q.le_max_l].
      intros F. exfalso. assert (In "STEP_SIZE_ROUNDED_QUANTITY_IS_ZERO" (fromkeys (lf_blockers d ++ ["STEP_SIZE_ROUNDED_QUANTITY_IS_ZERO"]))) as Hin
        by (rewrite fromkeys_In, in_app_iff; right; by left). by rewrite F in Hin.
    + guards H. apply mret_Ok in H as <-. apply pos_of in E1. split; cbn; try lra; try done.
      intros stress' capacity' Es' Hc'. rewrite Es in Es'. injection Es' as <-. rewrite Hc in Hc'. injection Hc' as <-.
      eapply Qle_trans; [|apply Q.le_max_r]. lra.
  - apply mret_Ok in H as <-. split; cbn; rewrite ?dval_ZERO; try lra; try done.
    intros stress capacity Es'. by rewrite Es in Es'.
Qed.

Lemma entry_at_bounds c f entry : (0 <= dval (c_open c))%Q -> repr (c_open c) -> (0 <= dval (price_impact_ratio f))%Q ->
  entry_at cfg c f = Ok entry -> (dval (c_open c) <= dval entry)%Q.
Proof.
  intros H0 Hr Hi H. unfold entry_at in H. guards H. destruct (vcf_slippage cfg Hcfg) as (Hs & _).
  apply dadd_faithful in Hg, Hg0. apply dmul_faithful in Hg1.
  assert (1 <= dval u)%Q as H1 by (rewrite <- dval_ONE; apply (faithful_ge _ _ Hg); [apply repr_ONE|rewrite dval_ONE; lra]).
  assert (1 <= dval u0)%Q as H2 by (rewrite <- dval_ONE; apply (faithful_ge _ _ Hg0); [apply repr_ONE|rewrite dval_ONE; lra]).
  assert (dval (c_open c) <= dval u1)%Q as H3 by (apply (faithful_ge _ _ Hg1); [done|]; nra).
  apply quantize_bounds in H as (_ & H); [|lra]. cbn in H. lra.
Qed.

Lemma closure_exit o reference f : closure cfg o reference = Ok f -> (0 <= dval reference)%Q -> repr reference ->
  (dval (cf_exit_price f) <= dval reference)%Q.
Proof.
  unfold closure. intros H H0 Hr. apply bind_Ok in H as (keep & Hk & H). apply bind_Ok in H as (raw & Hraw & H).
  apply bind_Ok in H as (price & Hp & H). guards H. apply mret_Ok in H as <-. cbn [cf_exit_price].
  destruct (vcf_slippage cfg Hcfg) as (Hs & Hs'). apply dsub_faithful in Hk. pose proof dval_ONE as H1. apply dmul_faithful in Hraw.
  assert (dval keep <= 1)%Q as K1 by (rewrite <- dval_ONE; apply (faithful_le _ _ Hk); [apply repr_ONE|lra]).
  assert (0 <= dval keep)%Q as K0 by (apply (faithful_nonneg _ _ Hk); lra).
  assert (0 <= dval raw)%Q as R0 by (apply (faithful_nonneg _ _ Hraw); nra).
  assert (dval raw <= dval reference)%Q as R1 by (apply (faithful_le _ _ Hraw); [done|]; nra).
  apply quantize_bounds in Hp as (_ & Hp); [|done]. cbn in Hp. lra.
Qed.

(** The exit decision, by its reason. *)
Lemma virtual_exit_price i p c bars reason price : virtual_long_exit i p c bars = Ok (Some (reason, price)) ->
  match reason with
  | HARD_STOP | TRAILING_STOP =>
      (dval (c_low c) <= dval (dmax (pp_stop_loss p) (pp_trailing_stop p)))%Q
      /\ (dval price <= dval (c_open c))%Q /\ (dval price <= dval (dmax (pp_stop_loss p) (pp_trailing_stop p)))%Q
  | TARGET => (dval price <= dval (c_high c))%Q /\ head (pp_targets p) = Some price
  | TIME_EXIT => price = c_close c
  | _ => False
  end.
Proof.
  unfold virtual_long_exit, evaluate_long_exit, effective_stop. intros H. apply bind_Ok in H as (e & He & H).
  apply mret_Ok in H. set (stop := dmax _ _) in *. destruct (c_low c <=? stop)%D eqn:E.
  - apply mret_Ok in He as <-. injection H as <- <-. apply dleb_spec in E. destruct (dmin_spec (c_open c) stop) as (H1 & H2 & _).
    unfold stop_reason. by destruct (_ <? _)%D.
  - destruct (pp_targets p) as [|t ts]; [done|]. apply mret_Ok in He as <-. destruct (t <=? c_high c)%D eqn:Et.
    + injection H as <- <-. by apply dleb_spec in Et.
    + destruct (maximum_holding_bars i) as [n|]; [|done]. destruct (n <? bars); [|done]. by injection H as <- <-.
Qed.

Lemma close_trade_Ok o c reason reference t : _close_trade cfg o c reason reference = Ok t -> exists f,
  closure cfg o reference = Ok f /\ tr_exit_price t = cf_exit_price f /\ tr_net_pnl t = cf_net_pnl f
  /\ tr_signal_id t = bi_signal_id (ot_intent o) /\ tr_entry_timestamp t = ot_entry_timestamp o
  /\ tr_exit_timestamp t = c_timestamp c /\ tr_exit_reason t = reason /\ tr_entry_price t = ot_entry_price o
  /\ tr_quantity t = original_quantity o /\ ca_market (tr_attribution t) = bi_market (ot_intent o).
Proof.
  unfold _close_trade. intros H. apply bind_Ok in H as (f & Hf & H). cbv zeta in H.
  apply bind_Ok in H as (? & _ & H). apply bind_Ok in H as (a & Ha & H). apply bind_Ok in H as (? & _ & H).
  apply bind_Ok in H as (? & _ & H). apply mret_Ok in H as <-. exists f. cbn. repeat (split; [done|]).
  unfold closed_trade_attribution, new_attribution in Ha. apply bind_Ok in Ha as (? & _ & Ha). by apply mret_Ok in Ha as <-.
Qed.

(** C24: the simulated fills are conservative.  A trade is opened at or above the
    open of its candle, with a positive quantity that exceeds neither the
    configured quantity nor the part of the candle's volume the stress assumptions
    allow, and with its stop below and its targets above the entry.  It is closed
    at or below the price of the exit decision, and a decision to stop is priced at
    or below both the stop and the open of its candle. *)
Theorem fills_are_conservative i c o : _open_trade cfg i c = Ok o -> new_candle c = Ok c -> repr (c_open c) ->
  (dval (c_open c) <= dval (ot_entry_price o))%Q
  /\ (0 < dval (original_quantity o) <= dval (bc_quantity cfg))%Q
  /\ (forall stress capacity, liquidity_stress cfg = Some stress ->
        dmul (c_volume c) (max_volume_participation stress) = Ok capacity ->
        (dval (original_quantity o) <= dval capacity)%Q)
  /\ (dval (bi_stop_loss i) < dval (ot_entry_price o))%Q
  /\ (forall t, In t (targets i) -> (dval (ot_entry_price o) < dval t)%Q)
  /\ (forall o' c' reason price t,
        virtual_long_exit (ot_intent o') (ot_position o') c' (bars_held o') = Ok (Some (reason, price)) ->
        _close_trade cfg o' c' reason price = Ok t -> repr price -> (0 <= dval price)%Q ->
        (dval (tr_exit_price t) <= dval price)%Q
        /\ (reason = HARD_STOP \/ reason = TRAILING_STOP -> (dval price <= dval (c_open c'))%Q
             /\ (dval price <= dval (dmax (pp_stop_loss (ot_position o')) (pp_trailing_stop (ot_position o'))))%Q)).
Proof.
  intros Ho Hc Hr. apply open_trade_Ok in Ho as (fill & entry & fee & Hf & He & Hp & ->).
  apply position_parts in Hp as (P1 & P2 & _ & P4). cbn in P1, P2, P4. cbn.
  apply (entry_fill_bounds c) in Hf as [B1 B2 B3 B4]. apply candle_order in Hc as (_ & C1 & _ & C2).
  assert (0 < dval (filled_quantity fill))%Q as Hq by (apply P1; tauto).
  split; [by eapply entry_at_bounds; [lra|..]|]. split; [lra|]. split.
  { intros stress capacity Hs Hcap. specialize (B4 _ _ Hs Hcap). destruct (Q.max_spec 0 (dval capacity)) as [(? & E)|(? & E)]; rewrite E in B4; lra. }
  split; [done|]. split; [done|]. intros o' c' reason price t Hx Ht Hrp Hp0.
  apply close_trade_Ok in Ht as (f & Hf & -> & _). split; [by eapply closure_exit|].
  apply virtual_exit_price in Hx. intros [->| ->]; tauto.
Qed.
End Conservative.

(** ** Examples *)

Definition ex_backtest : BacktestConfig :=
  mk_config (lit 1000 0) (lit 1 0) (lit 1 (-3)) (lit 5 (-4)) (lit 15 (-1)) (lit 1 (-2)) (lit 1 (-8)) (lit 5 0) None.
Definition ex_signal (minute : Z) (targets : list dec) : BacktestIntent :=
  mk_intent ("signal-" ++ str_int minute) (utc (seconds (60 * minute))) (lit 90 0) (lit 110 0) (lit 2 0) ["BREAKOUT_RETEST"]
    targets (lit 5 (-1)) "trend" "1" "1" "default" "SPOT" "" "BULL" "" "" "" ""
    (ok_or (mk_evidence "" None "" "" "" "") default_evidence) (Some (lit 1 0)) None (Some 50) ZERO ZERO "PASS" []
    ["DISCOVERED"; "READY_FOR_RISK"].
Definition ex_bar (minute o h l c : Z) : OHLCVCandle :=
  mk_candle (utc (seconds (60 * minute))) (lit o 0) (lit h 0) (lit l 0) (lit c 0) (lit 500 0).

Lemma ex_backtest_valid : valid_config ex_backtest.
Proof. apply (new_config_valid ex_backtest ex_backtest); [done|vm_compute; reflexivity]. Qed.

Definition ex_fresh : BacktestIntent := Eval vm_compute in ok_or (ex_signal 1 []) (new_intent (ex_signal 1 [])).
Lemma ex_fresh_valid : valid_intent ex_fresh.
Proof. apply (new_intent_valid (ex_signal 1 [])). vm_compute. reflexivity. Qed.

Lemma fills_are_conservative_witness : exists o, _open_trade ex_backtest ex_fresh (ex_bar 2 100 105 99 104) = Ok o
  /\ (dval (lit 100 0) <= dval (ot_entry_price o))%Q /\ ot_entry_price o = lit 10005 (-2).
Proof.
  eexists. split; [vm_compute; reflexivity|]. split; [|reflexivity].
  refine (proj1 (fills_are_conservative ex_backtest ex_backtest_valid ex_fresh (ex_bar 2 100 105 99 104) _ _ _ _)).
  - vm_compute. reflexivity.
  - vm_compute. reflexivity.
  - split; vm_compute; discriminate.
Defined.

(** With the tick size as the exchange writes it, ["0.01000000"], entries are
    rounded to its eight places and not to the tick: the entry is no multiple of it. *)
Definition ex_written_tick : BacktestConfig :=
  mk_config (lit 1000 0) (lit 1 0) (lit 1 (-3)) (lit 5 (-4)) (lit 15 (-1)) (lit 1000000 (-8)) (lit 1 (-8)) (lit 5 0) None.
Lemma entry_off_tick : exists o r, new_config ex_written_tick = Ok ex_written_tick
  /\ _open_trade ex_written_tick ex_fresh (mk_candle (utc 0) (lit 10001 (-2)) (lit 105 0) (lit 99 0) (lit 104 0) (lit 500 0)) = Ok o
  /\ dmod (ot_entry_price o) (tick_size ex_written_tick) = Ok r /\ is_zero r = false.
Proof. do 2 eexists. do 3 (split; [vm_compute; reflexivity|]). reflexivity. Qed.

(** The planned reward of a staged trade is that of [take_profit], whatever its
    first target is. *)
Definition ex_staged : BacktestIntent := Eval vm_compute in
  ok_or ex_fresh (new_intent (ex_signal 1 [lit 102 0; lit 110 0])).
Lemma planned_rr_of_last_target : exists o t, _open_trade ex_backtest ex_staged (ex_bar 2 100 105 99 104) = Ok o
  /\ _close_trade ex_backtest o (ex_bar 2 100 105 99 104) END_OF_DATA (lit 104 0) = Ok t
  /\ m_risk_reward (tr_methods t) = "FIRST_TARGET_DISTANCE_DIVIDED_BY_FILLED_ENTRY_STOP_DISTANCE"
  /\ exists risk reward first_rr, dsub (ot_entry_price o) (bi_stop_loss ex_staged) = Ok risk
       /\ dsub (lit 102 0) (ot_entry_price o) = Ok reward /\ ddiv reward risk = Ok first_rr
       /\ (first_rr <? tr_planned_rr t)%D = true.
Proof.
  do 2 eexists. do 3 (split; [vm_compute; reflexivity|]). do 3 eexists. do 3 (split; [vm_compute; reflexivity|]). reflexivity.
Qed.
