(* ===== verification/BacktestReplay.v ===== *)
(** [research/backtesting/engine.py], the counterfactual replay of rejected
    candidates: the general replay through the exit engine, the single-target
    replay that avoids it, and the ledger of missed opportunities.

    [single_target_replay] proves the second replay equal to the first. *)
From S2P Require Import Prelude PyDecimal DecimalFacts PyFloat Domain Attribution TradeLedger Paper Backtest.
From Stdlib Require Import QArith.
Local Open Scope Z_scope.
Local Open Scope bool_scope.

Section Replay.
Context (cfg : BacktestConfig).

(** ** The general replay *)

(** One bar of an open trade, once its excursions are counted: closed, or open
    with its stop protected; [staged] is what a staged target does. *)
Definition staged_target (reason : BacktestExitReason) (o : _OpenTrade) : bool :=
  bool_decide (reason = TARGET) && (1 <? Z.of_nat (length (pp_targets (ot_position o)))).

(** [_simulate_counterfactual_trade_general], the loop over the bars that are left *)
Fixpoint replay_bars (o : _OpenTrade) (candles : list OHLCVCandle) (last : OHLCVCandle) : res TradeRecord :=
  match candles with
  | [] => let '(reason, price) := end_of_data_exit last in _close_trade cfg o last reason price
  | c :: rest =>
      o ← _update_excursions o c;
      event ← virtual_long_exit (ot_intent o) (ot_position o) c (bars_held o);
      match event with
      | Some (reason, price) =>
          if staged_target reason o then
            staged ← _partial_exit cfg o c price;
            o ← protect cfg staged.2 (c_close c);
            replay_bars o rest last
          else _close_trade cfg o c reason price
      | None => o ← protect cfg o (c_close c); replay_bars o rest last
      end
  end.
Definition _simulate_counterfactual_trade_general (o : _OpenTrade) (candles : list OHLCVCandle) : res TradeRecord :=
  match List.last (map Some candles) None with
  | Some last => replay_bars o candles last
  | None => Raise IndexError
  end.

(** ** The single-target replay *)

(** The local variables of the loop. *)
Record fast_state : Type := mk_fast { fs_trailing : dec; fs_bars : Z; fs_armed : bool; fs_mfe : dec; fs_mae : dec }.

(** What the replay computes before its loop: the trigger threshold and the
    trailing distance. *)
Definition fast_limits (o : _OpenTrade) : res (option dec * dec) :=
  risk ← initial_risk o;
  threshold ← match breakeven_trigger_r (ot_intent o) with
              | Some trigger => if (ZERO <? risk)%D then Some <$> dmul risk trigger else mret None
              | None => mret None
              end;
  distance ← dmul (trailing_multiple cfg (ot_intent o)) (bi_atr (ot_intent o));
  mret (threshold, distance).

(** [_close_single_target_counterfactual] *)
Definition _close_single_target_counterfactual (o : _OpenTrade) (s : fast_state) (c : OHLCVCandle)
  (reason : BacktestExitReason) (reference : dec) : res TradeRecord :=
  position ← with_trailing (fs_trailing s) (ot_position o);
  _close_trade cfg (with_stop position (fs_armed s) (with_progress (fs_mfe s) (fs_mae s) (fs_bars s) o)) c reason reference.

(** The trailing stop after a bar that closes at [close]. *)
Definition fast_trailing (o : _OpenTrade) (trailing distance : dec) (armed : bool) (close : dec) : res dec :=
  moved ← (if (trailing <? close)%D
           then candidate ← dsub close distance;
                quotient ← ddiv candidate (tick_size cfg);
                rounded ← dmul (to_integral_down quotient) (tick_size cfg);
                mret (dmax trailing rounded)
           else mret trailing);
  mret (if armed then dmax moved (ot_entry_price o) else moved).

(** [_simulate_single_target_counterfactual], the loop *)
Fixpoint fast_bars (o : _OpenTrade) (target : dec) (threshold : option dec) (distance : dec) (s : fast_state)
  (candles : list OHLCVCandle) (last : OHLCVCandle) : res TradeRecord :=
  match candles with
  | [] => _close_single_target_counterfactual o s last END_OF_DATA (c_close last)
  | c :: rest =>
      up ← dsub (c_high c) (ot_entry_price o);
      favorable ← dmul (dmax up ZERO) (original_quantity o);
      down ← dsub (ot_entry_price o) (c_low c);
      adverse ← dmul (dmax down ZERO) (original_quantity o);
      let mfe := dmax (fs_mfe s) favorable in
      let s := mk_fast (fs_trailing s) (fs_bars s + 1) (fs_armed s) mfe (dmax (fs_mae s) adverse) in
      let stop := dmax (pp_stop_loss (ot_position o)) (fs_trailing s) in
      if (c_low c <=? stop)%D then
        _close_single_target_counterfactual o s c
          (if (pp_stop_loss (ot_position o) <? fs_trailing s)%D then TRAILING_STOP else HARD_STOP)
          (dmin (c_open c) stop)
      else if (target <=? c_high c)%D then _close_single_target_counterfactual o s c TARGET target
      else if match maximum_holding_bars (ot_intent o) with Some n => n <? fs_bars s | None => false end
      then _close_single_target_counterfactual o s c TIME_EXIT (c_close c)
      else
        let armed := match threshold with Some t => (t <=? mfe)%D | None => false end || fs_armed s in
        trailing ← fast_trailing o (fs_trailing s) distance armed (c_close c);
        fast_bars o target threshold distance (mk_fast trailing (fs_bars s) armed mfe (fs_mae s)) rest last
  end.
Definition _simulate_single_target_counterfactual (o : _OpenTrade) (candles : list OHLCVCandle) : res TradeRecord :=
  match pp_targets (ot_position o), List.last (map Some candles) None with
  | target :: _, Some last =>
      limits ← fast_limits o;
      fast_bars o target limits.1 limits.2 (mk_fast (pp_trailing_stop (ot_position o)) 0 false ZERO ZERO) candles last
  | _, _ => Raise IndexError
  end.

(** [_simulate_counterfactual_trade] *)
Definition _simulate_counterfactual_trade (i : BacktestIntent) (candles : list OHLCVCandle) : res (option TradeRecord) :=
  match candles with
  | [] => mret None
  | first :: _ =>
      if is_futures (bi_market i) then mret None
      else
        opened ← catch (Some <$> _open_trade cfg i first) is_value_error (fun _ => mret None);
        match opened with
        | None => mret None
        | Some o =>
            Some <$> (if Z.of_nat (length (targets i)) =? 1 then _simulate_single_target_counterfactual o candles
                      else _simulate_counterfactual_trade_general o candles)
        end
  end.

(** ** Missed opportunities *)

Inductive MissedOpportunityCategory : Type := GOOD_BLOCK | BAD_BLOCK | NEUTRAL_BLOCK | INSUFFICIENT_EVIDENCE.
#[export] Instance MissedOpportunityCategory_eq_dec : EqDecision MissedOpportunityCategory.
Proof. solve_decision. Defined.

(** [_RejectedCandidate] *)
Record _RejectedCandidate : Type := mk_candidate {
  rc_intent : BacktestIntent; rc_blockers : list string; rc_entry_index : Z; rc_observation_id : string
}.

(** [MissedOpportunityRecord]; the identities it copies from the intent (strategy,
    regime, market, time, reasons, evidence) are the intent's own fields. *)
Record MissedOpportunityRecord : Type := mk_missed {
  mo_intent : BacktestIntent;
  mo_symbol : string;
  mo_direction : TradeDirection;
  mo_blockers : list string;
  mo_observation_id : string;
  counterfactual_result : MissedOpportunityCategory;
  forward_trade_outcome : option TradeOutcome;
  forward_realized_r : option dec;
  forward_net_pnl : option dec;
  improvement_candidate_id : option string;
  proposed_quantity : dec;
  proposed_stop_loss : dec;
  proposed_targets : list dec;
  mo_methods : TradeParameterMethods
}.
(** [MissedOpportunityRecord.__post_init__] *)
Definition new_missed (m : MissedOpportunityRecord) : res MissedOpportunityRecord :=
  raise_if (blank (mo_observation_id m)) (ValueError "missed opportunity requires pre-veto observation identity");;
  mret m.

(** [_classify_counterfactual] *)
Definition _classify_counterfactual (t : TradeRecord) : MissedOpportunityCategory :=
  if (ZERO <? tr_realized_r t)%D then BAD_BLOCK
  else if (tr_realized_r t <? ZERO)%D then GOOD_BLOCK else NEUTRAL_BLOCK.

(** The symbol of an intent, as the records name it. *)
Definition record_symbol (i : BacktestIntent) : string := or_text (normalize (bi_symbol i)) "UNKNOWN_SYMBOL".

Definition unavailable_methods : TradeParameterMethods :=
  mk_methods "BACKTEST_CONFIG_QUANTITY_BEFORE_FILL_FILTERS" "NOT_APPLICABLE_SPOT" "INTENT_STOP_WITH_DECISION_EVIDENCE"
    "NOT_FILLED_NEXT_CANDLE_OPEN_REQUIRED" "INTENT_TARGETS_WITH_DECISION_EVIDENCE" "UNAVAILABLE_WITHOUT_ENTRY_FILL"
    "UNAVAILABLE_WITHOUT_FORWARD_EVIDENCE".
(** [replace(trade.parameter_methods, ...)] *)
Definition forward_methods (m : TradeParameterMethods) : TradeParameterMethods :=
  mk_methods (m_quantity m) (m_leverage m) (m_stop_loss m) "NOT_FILLED_NEXT_CANDLE_OPEN_REQUIRED" (m_take_profit m)
    "SEE_FORWARD_OUTCOME_FOR_SIMULATED_FILL_RR" "COUNTERFACTUAL_FORWARD_OUTCOME_ONLY".

(** [_insufficient_evidence_record] *)
Definition _insufficient_evidence_record (r : _RejectedCandidate) : res MissedOpportunityRecord :=
  let i := rc_intent r in
  methods ← new_methods unavailable_methods;
  new_missed (mk_missed i (record_symbol i) LONG (rc_blockers r) (rc_observation_id r) INSUFFICIENT_EVIDENCE None None None
    None (bc_quantity cfg) (bi_stop_loss i) (targets i) methods).

(** [_missed_opportunity_record], over the candles from the entry on *)
Definition _missed_opportunity_record (candles : list OHLCVCandle) (r : _RejectedCandidate)
  : res MissedOpportunityRecord :=
  let i := rc_intent r in
  if (Z.of_nat (length candles) <=? rc_entry_index r) || str_in "DATA_UNAVAILABLE" (rc_blockers r)
  then _insufficient_evidence_record r
  else
    trade ← _simulate_counterfactual_trade i (skipn (Z.to_nat (rc_entry_index r)) candles);
    match trade with
    | None => _insufficient_evidence_record r
    | Some t =>
        let category := _classify_counterfactual t in
        let improvement :=
          if bool_decide (category = BAD_BLOCK)
          then Some ("improvement:" ++ lower (bi_strategy_id i) ++ ":" ++ lower (bi_regime i) ++ ":"
                     ++ lower (bi_signal_id i))%string
          else None in
        outcome ← trade_outcome t;
        methods ← new_methods (forward_methods (tr_methods t));
        new_missed (mk_missed i (record_symbol i) LONG (rc_blockers r) (rc_observation_id r) category (Some outcome)
          (Some (tr_realized_r t)) (Some (tr_net_pnl t)) improvement (bc_quantity cfg) (bi_stop_loss i) (targets i) methods)
    end.

(** [_missed_opportunity_ledger] *)
Definition _missed_opportunity_ledger (candidates : list _RejectedCandidate) (candles : list OHLCVCandle)
  : res (list MissedOpportunityRecord) := mapM (_missed_opportunity_record candles) candidates.
End Replay.

(** ** The two replays agree *)

Section Agreement.
Context (cfg : BacktestConfig) (o : _OpenTrade).

Definition at_stop (stop : dec) (p : PaperPosition) : PaperPosition :=
  mk_position (pp_candidate_id p) (pp_symbol p) (pp_entry_price p) (pp_quantity p) (pp_stop_loss p) stop (pp_targets p).
(** The open trade the loop variables stand for. *)
Definition at_state (s : fast_state) : _OpenTrade :=
  with_stop (at_stop (fs_trailing s) (ot_position o)) (fs_armed s) (with_progress (fs_mfe s) (fs_mae s) (fs_bars s) o).

Context (Hvalid : new_position (ot_position o) = Ok (ot_position o)).
Context (Hatr : (0 < dval (bi_atr (ot_intent o)))%Q) (Hmult : (0 < dval (trailing_multiple cfg (ot_intent o)))%Q)
  (Htick : (0 < dval (tick_size cfg))%Q).

Lemma with_trailing_ok stop : (0 < dval stop)%Q -> with_trailing stop (ot_position o) = Ok (at_stop stop (ot_position o)).
Proof.
  intros Hs. unfold with_trailing. apply position_parts. apply position_parts in Hvalid as (H1 & H2 & H3 & H4).
  cbn. cbn in H1. naive_solver.
Qed.

Lemma close_fast s c reason price : (0 < dval (fs_trailing s))%Q ->
  _close_single_target_counterfactual cfg o s c reason price = _close_trade cfg (at_state s) c reason price.
Proof. intros Hs. unfold _close_single_target_counterfactual. by rewrite with_trailing_ok. Qed.

Lemma fast_trailing_pos trailing distance armed close stop : (0 < dval trailing)%Q ->
  fast_trailing cfg o trailing distance armed close = Ok stop -> (0 < dval stop)%Q.
Proof.
  intros Ht H. unfold fast_trailing in H. apply bind_Ok in H as (moved & Hm & H). apply mret_Ok in H as <-.
  assert (0 < dval moved)%Q as Hp.
  { destruct (trailing <? close)%D; [|by apply mret_Ok in Hm as <-].
    do 3 (apply bind_Ok in Hm as (? & _ & Hm)). apply mret_Ok in Hm as <-.
    eapply Qlt_le_trans; [exact Ht|apply dmax_spec]. }
  destruct armed; [|done]. eapply Qlt_le_trans; [exact Hp|apply dmax_spec].
Qed.

(** Protecting the trade is what the loop does to its variables. *)
Lemma protect_fast s threshold distance close : (0 < dval (fs_trailing s))%Q -> fast_limits cfg o = Ok (threshold, distance) ->
  let armed := match threshold with Some t => (t <=? fs_mfe s)%D | None => false end || fs_armed s in
  protect cfg (at_state s) close
  = (trailing ← fast_trailing cfg o (fs_trailing s) distance armed close;
     mret (at_state (mk_fast trailing (fs_bars s) armed (fs_mfe s) (fs_mae s)))).
Proof.
  intros Hs Hl armed. unfold fast_limits in Hl. apply bind_Ok in Hl as (risk & Hr & Hl).
  apply bind_Ok in Hl as (thr & Ht & Hl). apply bind_Ok in Hl as (dist & Hd & Hl). apply mret_Ok in Hl. simplify_eq.
  assert (_breakeven_trigger_reached (at_state s) =
    Ok (match threshold with Some t => (t <=? fs_mfe s)%D | None => false end)) as Hb.
  { unfold _breakeven_trigger_reached. change (ot_intent (at_state s)) with (ot_intent o).
    destruct (breakeven_trigger_r (ot_intent o)) as [trigger|]; [|by apply mret_Ok in Ht as <-].
    change (initial_risk (at_state s)) with (initial_risk o). rewrite Hr, Ok_bind.
    destruct (ZERO <? risk)%D eqn:E.
    - apply dltb_spec, dleb_false in E. rewrite E. destruct (dmul risk trigger) as [t|]; [|done].
      cbn in Ht. by injection Ht as <-.
    - apply dltb_false, dleb_spec in E. rewrite E. by apply mret_Ok in Ht as <-. }
  unfold protect. rewrite Hb, Ok_bind. change (breakeven_armed (at_state s)) with (fs_armed s). fold armed.
  assert (_updated_trailing_stop cfg (at_state s) armed close = fast_trailing cfg o (fs_trailing s) distance armed close)
    as ->.
  { unfold _updated_trailing_stop, fast_trailing. cbn [at_state with_stop ot_position at_stop pp_trailing_stop ot_intent
      with_progress ot_entry_price].
    destruct (fs_trailing s <? close)%D eqn:E; [|done]. unfold update_long_trailing_stop. rewrite Hd.
    rewrite (proj2 (dmin_list_pos_iff _ _)).
    2: { apply dltb_spec in E. cbn. intros d Hin. repeat (destruct Hin as [<-|Hin]; [by eauto using Qlt_trans|]). done. }
    rewrite (proj2 (dleb_false _ _)) by (by apply dltb_spec).
    cbn. destruct (dsub close distance) as [cand|]; [|done]. cbn. destruct (ddiv cand _) as [u|]; [|done]. cbn.
    destruct (dmul (to_integral_down u) (tick_size cfg)); reflexivity. }
  destruct (fast_trailing _ _ _ _ _ _) as [stop|] eqn:E; [|done]. rewrite !Ok_bind.
  apply fast_trailing_pos in E; [|done].
  change (with_trailing stop (ot_position (at_state s))) with (with_trailing stop (ot_position o)).
  by rewrite with_trailing_ok.
Qed.

Lemma fast_bars_general target threshold distance candles last : pp_targets (ot_position o) = [target] ->
  fast_limits cfg o = Ok (threshold, distance) -> forall s, (0 < dval (fs_trailing s))%Q ->
  fast_bars cfg o target threshold distance s candles last = replay_bars cfg (at_state s) candles last.
Proof.
  intros Ht Hl. induction candles as [|c candles IH]; intros s Hs; [by apply close_fast|].
  cbn [fast_bars replay_bars]. unfold _update_excursions.
  change (ot_entry_price (at_state s)) with (ot_entry_price o).
  change (original_quantity (at_state s)) with (original_quantity o).
  change (ot_mfe (at_state s)) with (fs_mfe s). change (ot_mae (at_state s)) with (fs_mae s).
  change (bars_held (at_state s)) with (fs_bars s).
  destruct (dsub (c_high c) _) as [up|]; [|done]. rewrite !Ok_bind.
  destruct (dmul (dmax up ZERO) _) as [favorable|]; [|done]. rewrite !Ok_bind.
  destruct (dsub _ (c_low c)) as [down|]; [|done]. rewrite !Ok_bind.
  destruct (dmul (dmax down ZERO) _) as [adverse|]; [|done]. rewrite !Ok_bind. cbv zeta.
  set (s' := mk_fast (fs_trailing s) (fs_bars s + 1) (fs_armed s) (dmax (fs_mfe s) favorable) (dmax (fs_mae s) adverse)).
  change (mret ?x ≫= ?f) with (f x). cbv beta.
  change (with_progress _ _ _ (at_state s)) with (at_state s').
  unfold virtual_long_exit, evaluate_long_exit.
  change (pp_stop_loss (ot_position (at_state s'))) with (pp_stop_loss (ot_position o)).
  change (pp_trailing_stop (ot_position (at_state s'))) with (fs_trailing s).
  change (pp_targets (ot_position (at_state s'))) with (pp_targets (ot_position o)).
  change (ot_intent (at_state s')) with (ot_intent o). change (bars_held (at_state s')) with (fs_bars s').
  unfold effective_stop, stop_reason. rewrite Ht.
  change (fs_trailing s) with (fs_trailing s').
  destruct (c_low c <=? dmax (pp_stop_loss (ot_position o)) (fs_trailing s'))%D.
  { change (mret ?x ≫= ?f) with (f x). cbv beta iota. change (mret ?x ≫= ?f) with (f x). cbv beta iota.
    rewrite close_fast by done. by destruct (_ <? _)%D. }
  destruct (target <=? c_high c)%D; change (mret ?x ≫= ?f) with (f x); cbv beta iota; change (mret ?x ≫= ?f) with (f x);
    cbv beta iota.
  { rewrite close_fast by done. unfold staged_target.
    change (pp_targets (ot_position (at_state s'))) with (pp_targets (ot_position o)). by rewrite Ht. }
  destruct (maximum_holding_bars (ot_intent o)) as [n|]; [destruct (n <? fs_bars s')|].
  { by rewrite close_fast. }
  all: rewrite (protect_fast s' threshold distance) by done; cbv zeta;
    change (dmax (fs_mfe s) favorable) with (fs_mfe s').
  all: match goal with |- (?m ≫= _) = _ => destruct m as [trailing|] eqn:E; [|done] end; rewrite !Ok_bind;
    change (mret ?x ≫= ?f) with (f x); cbv beta.
  all: apply IH; cbn; by eapply fast_trailing_pos.
Qed.
End Agreement.

(** C23: the single-target replay is the general replay.  For a trade that the
    engine has opened from a valid intent with one target, the replay that keeps
    its state in local variables gives the very result of the general one, on
    every candle sequence, errors included; the one difference is that it computes
    its threshold and its trailing distance first, so that an overflow there comes
    before the bars. *)
Theorem single_target_replay cfg i c o target candles : valid_config cfg -> valid_intent i ->
  _open_trade cfg i c = Ok o -> targets i = [target] -> candles <> [] ->
  _simulate_single_target_counterfactual cfg o candles
  = (fast_limits cfg o;; _simulate_counterfactual_trade_general cfg o candles).
Proof.
  intros Hc Hi Ho Ht Hne. apply open_trade_Ok in Ho as (fill & entry & fee & _ & _ & Hp & ->). set (o := mk_open _ _ _ _ _ _ _ _ _ _ _ _ _ _ _ _) in *.
  unfold _simulate_single_target_counterfactual, _simulate_counterfactual_trade_general.
  change (pp_targets (ot_position o)) with (targets i). rewrite Ht.
  destruct (List.last (map Some candles) None) as [last|] eqn:El.
  - destruct (fast_limits cfg o) as [[threshold distance]|] eqn:E; [|done]. rewrite !Ok_bind.
    apply (fast_bars_general cfg o Hp (vi_atr i Hi) (trailing_multiple_pos cfg i Hc Hi) (vcf_tick cfg Hc)); [done|done|].
    apply (vi_stop i Hi).
  - destruct candles as [|c0 candles _] using rev_ind; [done|]. rewrite map_app in El. cbn [map] in El. by rewrite List.last_last in El.
Qed.

(** ** Examples *)

Lemma single_target_replay_witness : exists o t, _open_trade ex_backtest ex_fresh (ex_bar 2 100 105 99 104) = Ok o
  /\ _simulate_single_target_counterfactual ex_backtest o [ex_bar 2 100 105 99 104; ex_bar 3 104 108 103 107; ex_bar 4 107 108 99 101]
     = Ok t
  /\ (fast_limits ex_backtest o;;
      _simulate_counterfactual_trade_general ex_backtest o
        [ex_bar 2 100 105 99 104; ex_bar 3 104 108 103 107; ex_bar 4 107 108 99 101]) = Ok t
  /\ tr_exit_reason t = TRAILING_STOP.
Proof.
  do 2 eexists. split; [vm_compute; reflexivity|]. split; [vm_compute; reflexivity|]. split; [|reflexivity].
  rewrite <- (single_target_replay ex_backtest ex_fresh (ex_bar 2 100 105 99 104) _ (lit 110 0)
    [ex_bar 2 100 105 99 104; ex_bar 3 104 108 103 107; ex_bar 4 107 108 99 101] ex_backtest_valid ex_fresh_valid);
    [vm_compute; reflexivity|vm_compute; reflexivity|reflexivity|discriminate].
Defined.
