(* ===== verification/BacktestMetrics.v ===== *)
(** [research/backtesting/metrics.py]: the performance figures of a backtest, in
    binary64.

    [sum] over floats is the compensated summation of the interpreter the project
    requires (3.14).  [value ** 2] is the C library's [pow], the parameter
    [square]. *)
From S2P Require Import Prelude PyDecimal PyFloat Domain Attribution TradeLedger Backtest BacktestReplay.
Local Open Scope Z_scope.
Local Open Scope bool_scope.

(** ** Floats *)

Definition fdiv : float -> float -> float := SFdiv 53 1024.
Definition fabs (x : float) : float := SFabs x.
Definition fone : float := float_of 1 0.
Definition is_finite (x : float) : bool :=
  match x with S754_finite _ _ _ | S754_zero _ => true | _ => false end.

(** [x / y] on floats *)
Definition float_div (x y : float) : res float :=
  if feq y fzero then Raise (RuntimeError "float division by zero") else mret (fdiv x y).
(** [x / n] for an integer [n] *)
Definition float_div_int (x : float) (n : Z) : res float := d ← float_of_int n; float_div x d.
(** [math.sqrt] *)
Definition math_sqrt (x : float) : res float :=
  if flt x fzero then Raise (ValueError "expected a nonnegative input") else mret (SFsqrt 53 1024 x).

(** [float(d)]: the nearest float; beyond the range, an infinity. *)
Definition float_of_dec (d : dec) : float :=
  if (dcoef d =? 0)%N then S754_zero (dneg d)
  else
    let n := dint d in
    match (if 0 <=? dexp d then true_div (n * 10 ^ dexp d) 1 else true_div n (10 ^ (- dexp d))) with
    | Ok f => f
    | Raise _ => S754_infinity (dneg d)
    end.

(** [sum] of floats: the running sum with its compensation. *)
Definition cs_add (total : float * float) (x : float) : float * float :=
  let '(hi, lo) := total in
  let t := fadd hi x in
  if fle (fabs x) (fabs hi) then (t, fadd lo (fadd (fsub hi t) x)) else (t, fadd lo (fadd (fsub x t) hi)).
Definition cs_to_float (total : float * float) : float :=
  if negb (feq total.2 fzero) && is_finite total.2 then fadd total.1 total.2 else total.1.
Definition fsum (l : list float) : float :=
  match l with [] => fzero | x :: l' => cs_to_float (fold_left cs_add l' (fadd fzero x, fzero)) end.

(** ** The figures *)

Record BacktestMetrics : Type := mk_metrics {
  net_return : float; max_drawdown : float; profit_factor : option float; expectancy_usdt : float; sharpe : option float;
  win_rate : float; bm_trade_count : Z; buy_and_hold_return : float; bm_market : string; sortino : option float;
  expectancy_r : option float; average_win_usdt : option float; average_loss_usdt : option float; exposure_ratio : float;
  turnover_ratio : float; fee_drag_ratio : float; slippage_drag_ratio : float; average_mae_r : option float;
  average_mfe_capture : option float; max_consecutive_losses : Z; time_under_water_seconds : Z;
  dge_saved_loss_usdt : float; dge_missed_profit_usdt : float
}.
(** [BacktestMetrics.__post_init__] *)
Definition new_metrics (m : BacktestMetrics) : res BacktestMetrics :=
  raise_if (existsb (fun x => negb (is_finite x))
      [net_return m; max_drawdown m; expectancy_usdt m; win_rate m; buy_and_hold_return m; exposure_ratio m;
       turnover_ratio m; fee_drag_ratio m; slippage_drag_ratio m; dge_saved_loss_usdt m; dge_missed_profit_usdt m])
    (ValueError "backtest metrics must be finite");;
  mret m.

Section Metrics.
Context (square : float -> res float).

(** [_closed_trade_equity] *)
Definition _closed_trade_equity (pnl : list float) (initial_cash : float) : list float :=
  (fix go (equity : float) (l : list float) : list float :=
     equity :: match l with [] => [] | x :: l' => go (fadd equity x) l' end) initial_cash pnl.

(** [_max_drawdown] *)
Definition drawdown_step (state : float * float) (equity : float) : res (float * float) :=
  let '(peak, worst) := state in
  let peak := fmax peak equity in
  if flt fzero peak then drop ← float_div (fsub peak equity) peak; mret (peak, fmax worst drop) else mret (peak, worst).
Fixpoint drawdowns (state : float * float) (values : list float) : res (float * float) :=
  match values with [] => mret state | x :: rest => state ← drawdown_step state x; drawdowns state rest end.
Definition _max_drawdown (values : list float) : res float :=
  match values with [] => mret fzero | x :: _ => snd <$> drawdowns (x, fzero) values end.

Definition count_of {A} (l : list A) : Z := Z.of_nat (length l).
Definition mean (l : list float) : res float := float_div_int (fsum l) (count_of l).
Definition mean_opt (l : list float) : res (option float) := if is_nil l then mret None else Some <$> mean l.

(** [mean / sqrt(variance) * sqrt(len(values))], unless the variance is zero *)
Definition risk_adjusted (average variance : float) (n : Z) : res (option float) :=
  if feq variance fzero then mret None
  else
    deviation ← math_sqrt variance;
    ratio ← float_div average deviation;
    count ← float_of_int n;
    root ← math_sqrt count;
    mret (Some (fmul ratio root)).

(** [_sample_sharpe] *)
Definition _sample_sharpe (values : list float) : res (option float) :=
  if count_of values <? 2 then mret None
  else
    average ← mean values;
    squares ← mapM (fun v => square (fsub v average)) values;
    variance ← float_div_int (fsum squares) (count_of values - 1);
    risk_adjusted average variance (count_of values).

(** [_sortino] *)
Definition _sortino (values : list float) : res (option float) :=
  if count_of values <? 2 then mret None
  else
    average ← mean values;
    let downside := map (fun v => fmin fzero v) values in
    variance ← float_div_int (fsum (map (fun v => fmul v v) downside)) (count_of downside);
    risk_adjusted average variance (count_of values).

(** [_average_realized_r] *)
Definition _average_realized_r (trades : list TradeRecord) : res (option float) :=
  mean_opt (map (fun t => float_of_dec (tr_realized_r t)) trades).

(** [_exposure_ratio] *)
Definition _exposure_ratio (trades : list TradeRecord) (duration : Z) : res float :=
  if duration <=? 0 then mret fzero
  else ratio ← true_div (foldr Z.add 0 (map tr_holding_period trades)) duration; mret (fmin ratio fone).

(** [_turnover_ratio] *)
Definition _turnover_ratio (trades : list TradeRecord) (initial_cash : float) : res float :=
  if fle initial_cash fzero then mret fzero
  else
    values ← mapM (fun t => price ← dadd (tr_entry_price t) (tr_exit_price t);
                            value ← dmul price (tr_quantity t); mret (float_of_dec value)) trades;
    float_div (fsum values) initial_cash.

(** [_drag_ratio] *)
Definition _drag_ratio (cost initial_cash : float) : res float :=
  if fle initial_cash fzero then mret fzero else float_div cost initial_cash.

(** [_average_excursion_r(trades, favorable=False)] *)
Fixpoint adverse_in_r (trades : list TradeRecord) : res (list float) :=
  match trades with
  | [] => mret []
  | t :: rest =>
      let risk := float_of_dec (tr_risk_at_entry t) in
      if fle risk fzero then adverse_in_r rest
      else x ← float_div (float_of_dec (tr_mae t)) risk; rest ← adverse_in_r rest; mret (x :: rest)
  end.
Definition _average_excursion_r (trades : list TradeRecord) : res (option float) :=
  values ← adverse_in_r trades; mean_opt values.

(** [_average_mfe_capture] *)
Fixpoint captures (trades : list TradeRecord) : res (list float) :=
  match trades with
  | [] => mret []
  | t :: rest =>
      let risk := float_of_dec (tr_risk_at_entry t) in
      if fle risk fzero then captures rest
      else
        mfe_r ← float_div (float_of_dec (tr_mfe t)) risk;
        if fle mfe_r fzero then captures rest
        else x ← float_div (float_of_dec (tr_realized_r t)) mfe_r; rest ← captures rest; mret (x :: rest)
  end.
Definition _average_mfe_capture (trades : list TradeRecord) : res (option float) :=
  values ← captures trades; mean_opt values.

(** [_max_consecutive_losses]: the streak and the longest so far *)
Definition streak_step (state : Z * Z) (value : float) : Z * Z :=
  if flt value fzero then (state.1 + 1, Z.max state.2 (state.1 + 1)) else (0, state.2).
Definition _max_consecutive_losses (values : list float) : Z := (fold_left streak_step values (0, 0)).2.

(** [_time_under_water_seconds] *)
Definition water_step (step : Z) (state : float * Z) (equity : float) : float * Z :=
  let peak := fmax state.1 equity in (peak, if flt equity peak then state.2 + step else state.2).
Definition _time_under_water_seconds (values : list float) (duration : Z) : Z :=
  match values with
  | first :: (_ :: _) as rest =>
      if duration <=? 0 then 0
      else (fold_left (water_step (duration / Z.max (count_of values - 1) 1)) (tl values) (first, 0)).2
  | _ => 0
  end.

(** [record.forward_net_pnl or 0.0] *)
Definition forward_pnl (m : MissedOpportunityRecord) : float :=
  match forward_net_pnl m with Some d => if is_zero d then fzero else float_of_dec d | None => fzero end.
Definition blocked_as (category : MissedOpportunityCategory) (missed : list MissedOpportunityRecord)
  : list MissedOpportunityRecord := List.filter (fun m => bool_decide (counterfactual_result m = category)) missed.

(** [calculate_metrics] *)
Definition calculate_metrics (trades : list TradeRecord) (initial_cash benchmark : float) (observations : list float)
  (market : string) (duration : Z) (missed : list MissedOpportunityRecord) : res BacktestMetrics :=
  let pnl := map (fun t => float_of_dec (tr_net_pnl t)) trades in
  let total_pnl := fsum pnl in
  net_return ← float_div total_pnl initial_cash;
  let wins := List.filter (fun v => flt fzero v) pnl in
  let losses := List.filter (fun v => flt v fzero) pnl in
  let gross_loss := fabs (fsum losses) in
  profit_factor ← (if flt fzero gross_loss then Some <$> float_div (fsum wins) gross_loss else mret None);
  expectancy ← (if is_nil pnl then mret fzero else float_div_int total_pnl (count_of pnl));
  win_rate ← (if is_nil pnl then mret fzero else true_div (count_of wins) (count_of pnl));
  sharpe ← _sample_sharpe pnl;
  sortino ← _sortino pnl;
  let equity_values := if is_nil observations then _closed_trade_equity pnl initial_cash else observations in
  max_drawdown ← _max_drawdown equity_values;
  expectancy_r ← _average_realized_r trades;
  average_win ← mean_opt wins;
  average_loss ← mean_opt losses;
  exposure_ratio ← _exposure_ratio trades duration;
  turnover_ratio ← _turnover_ratio trades initial_cash;
  fee_drag ← _drag_ratio (fsum (map (fun t => float_of_dec (tr_fee_cost t)) trades)) initial_cash;
  slippage_drag ← _drag_ratio (fsum (map (fun t => float_of_dec (tr_slippage_cost t)) trades)) initial_cash;
  average_mae_r ← _average_excursion_r trades;
  average_mfe_capture ← _average_mfe_capture trades;
  let saved := fsum (map (fun m => fabs (forward_pnl m)) (blocked_as GOOD_BLOCK missed)) in
  let missed_profit := fsum (map (fun m => fmax (forward_pnl m) fzero) (blocked_as BAD_BLOCK missed)) in
  new_metrics (mk_metrics net_return max_drawdown profit_factor expectancy sharpe win_rate (count_of trades) benchmark
    market sortino expectancy_r average_win average_loss exposure_ratio turnover_ratio fee_drag slippage_drag
    average_mae_r average_mfe_capture (_max_consecutive_losses pnl) (_time_under_water_seconds equity_values duration)
    saved missed_profit).
End Metrics.

(** ** Properties *)

(** The time under water is never longer than the backtest. *)
Lemma water_bound step l : 0 <= step -> forall state,
  state.2 <= (fold_left (water_step step) l state).2 <= state.2 + step * count_of l.
Proof.
  intros Hs. unfold count_of. induction l as [|x l IH]; intros [peak u]; cbn [fold_left length]; [cbn; lia|].
  rewrite Nat2Z.inj_succ. unfold water_step at 2 4. cbn [fst snd].
  specialize (IH (fmax peak x, if flt x (fmax peak x) then u + step else u)). cbn [snd] in IH.
  destruct (flt x (fmax peak x)); lia.
Qed.

Lemma time_under_water_bounded values duration : 0 <= _time_under_water_seconds values duration <= Z.max 0 duration.
Proof.
  unfold _time_under_water_seconds. destruct values as [|first [|second rest]]; try lia.
  destruct (Z.leb_spec duration 0); [lia|]. cbn [tl].
  set (n := count_of (first :: second :: rest) - 1).
  assert (n = count_of (second :: rest) /\ 1 <= n) as (En & Hn) by (unfold n, count_of; cbn [length]; lia).
  replace (Z.max n 1) with n by lia. pose proof (Z.div_pos duration n ltac:(lia) ltac:(lia)).
  pose proof (water_bound (duration / n) (second :: rest) ltac:(lia) (first, 0)) as Hw. cbn [snd] in Hw.
  rewrite <- En in Hw. pose proof (Z.mul_div_le duration n ltac:(lia)). lia.
Qed.

(** The longest streak is the length of the longest block of losses. *)
Definition losing (l : list float) : Prop := Forall (fun v => flt v fzero = true) l.
Lemma streak_spec l : forall state,
  let r := fold_left streak_step l state in
  0 <= state.1 <= state.2 ->
  0 <= r.1 <= r.2 /\ state.2 <= r.2
  /\ (forall a b c, l = a ++ b ++ c -> losing b -> Z.of_nat (length b) <= r.2)
  /\ (forall b c, l = b ++ c -> losing b -> state.1 + Z.of_nat (length b) <= r.2)
  /\ (r.2 = state.2
      \/ (exists a b c, l = a ++ b ++ c /\ losing b /\ Z.of_nat (length b) = r.2)
      \/ (exists b c, l = b ++ c /\ losing b /\ state.1 + Z.of_nat (length b) = r.2)).
Proof.
  induction l as [|x l IH]; intros state r Hs.
  - subst r. cbn. split; [lia|]. split; [lia|]. split; [|split; [|by left]].
    + intros [|? a] [|? b] c; try done. cbn. lia.
    + intros [|? b] c; try done. cbn. lia.
  - subst r. cbn [fold_left]. specialize (IH (streak_step state x)). cbv zeta in IH.
    set (r := fold_left streak_step l (streak_step state x)) in *. unfold streak_step in IH.
    destruct (flt x fzero) eqn:E; cbn [fst snd] in IH.
    + destruct IH as (I1 & I2 & I3 & I4 & I5); [lia|]. split; [done|]. split; [lia|].
      assert (forall b c, x :: l = b ++ c -> losing b -> state.1 + Z.of_nat (length b) <= r.2) as Hb.
      { intros [|y b] c Eb Hl; [cbn; specialize (I4 [] l eq_refl ltac:(constructor)); cbn in I4; lia|].
        injection Eb as <- Eb. apply Forall_cons in Hl as (_ & Hl). specialize (I4 _ _ Eb Hl). cbn [length]. lia. }
      split; [|split; [done|]].
      * intros [|y a] b c Ea Hl; [specialize (Hb b c Ea Hl); lia|]. injection Ea as <- Ea. by eapply I3.
      * destruct I5 as [I5|[(a & b & c & -> & Hl & En)|(b & c & -> & Hl & En)]].
        -- destruct (Z.max_spec state.2 (state.1 + 1)) as [(_ & Em)|(_ & Em)]; rewrite Em in I5; [|by left].
           right. right. exists [x], l. split; [done|]. split; [by repeat constructor|]. cbn. lia.
        -- right. left. by exists (x :: a), b, c.
        -- right. right. exists (x :: b), c. split; [done|]. split; [by constructor|]. cbn [length]. lia.
    + destruct IH as (I1 & I2 & I3 & I4 & I5); [lia|]. split; [done|]. split; [lia|]. split; [|split].
      * intros [|y a] b c Ea Hl; [|injection Ea as <- Ea; by eapply I3]. destruct b as [|y b]; [cbn; lia|].
        injection Ea as <- Ea. apply Forall_cons in Hl as (Hx & _). congruence.
      * intros [|y b] c Eb Hl; [cbn; lia|]. injection Eb as <- Eb. apply Forall_cons in Hl as (Hx & _). congruence.
      * destruct I5 as [I5|[(a & b & c & -> & Hl & En)|(b & c & -> & Hl & En)]]; [by left| |].
        -- right. left. by exists (x :: a), b, c.
        -- right. left. exists [x], b, c. split; [done|]. split; [done|]. lia.
Qed.

Lemma longest_losing_streak values :
  let n := _max_consecutive_losses values in
  (exists a b c, values = a ++ b ++ c /\ losing b /\ Z.of_nat (length b) = n)
  /\ (forall a b c, values = a ++ b ++ c -> losing b -> Z.of_nat (length b) <= n).
Proof.
  unfold _max_consecutive_losses. destruct (streak_spec values (0, 0)) as (I1 & I2 & I3 & I4 & I5); [cbn; lia|].
  split; [|done]. destruct I5 as [I5|[(a & b & c & -> & Hl & En)|(b & c & -> & Hl & En)]].
  - exists [], [], values. split; [done|]. split; [constructor|]. cbn in *. lia.
  - by exists a, b, c.
  - exists [], b, c. split; [done|]. split; [done|]. cbn in En. lia.
Qed.
