(* ===== verification/Backtester.v ===== *)
(** [research/backtesting/engine.py], the bar loop of [BacktestEngine.run] with
    the observations, rejections and telemetry it records, and the result it
    builds from them.  [Backtest] has the operations on one trade,
    [BacktestReplay] the ledger of missed opportunities, [BacktestMetrics] the
    performance figures.

    The state of the loop is a record, each block of the loop's body a function
    on it.  The signal provider is any function of the candles seen so far. *)
From S2P Require Import Prelude PyDecimal DecimalFacts PyFloat PyText Domain Attribution TradeLedger Paper Backtest BacktestReplay BacktestMetrics.
From Stdlib Require Import QArith Sorted.
Local Open Scope Z_scope.
Local Open Scope bool_scope.

(** ** Observations *)

Record PreVetoOpportunityRecord : Type := mk_observation {
  pv_observation_id : string; pv_signal_id : string; pv_snapshot_id : string; pv_strategy_id : string;
  pv_strategy_version : string; pv_regime : string; pv_symbol : string; pv_market : string;
  pv_direction : TradeDirection; pv_observed_at : datetime; pv_reference_price : dec; pv_stop_loss : dec;
  pv_targets : list dec; pv_entry_reason : list string; pv_dge_status : string; pv_blockers : list string;
  assessment_status : string; pv_execution_allowed : bool; pv_promotion_status : string; pv_live_status : string
}.
(** [PreVetoOpportunityRecord.__post_init__] *)
Definition new_observation (r : PreVetoOpportunityRecord) : res PreVetoOpportunityRecord :=
  raise_if (existsb blank [pv_observation_id r; pv_signal_id r; pv_snapshot_id r; pv_strategy_id r; pv_strategy_version r;
      pv_regime r; pv_symbol r; pv_market r; pv_dge_status r])
    (ValueError "pre-veto opportunity identity is required");;
  raise_if (naive (pv_observed_at r)) (ValueError "pre-veto opportunity timestamp must be timezone-aware");;
  raise_if (is_nil (pv_targets r) || is_nil (pv_entry_reason r)) (ValueError "pre-veto opportunity evidence is required");;
  raise_if (dmin_list (pv_reference_price r) (pv_stop_loss r :: pv_targets r) <=? ZERO)%D
    (ValueError "pre-veto opportunity geometry must be positive");;
  raise_if (negb (is_nil (pv_blockers r))) (ValueError "pre-veto opportunity cannot contain post-veto blockers");;
  raise_if (negb (String.eqb (assessment_status r) "PENDING_FORWARD_REVIEW"))
    (ValueError "pre-veto opportunity must begin pending forward review");;
  raise_if (pv_execution_allowed r || negb (String.eqb (pv_promotion_status r) "RESEARCH_ONLY")
      || negb (String.eqb (pv_live_status r) LIVE_ORDER_BLOCKED))
    (ValueError "pre-veto opportunity cannot grant execution authority");;
  mret r.

(** [_pre_veto_observation_id] *)
Definition _pre_veto_observation_id (i : BacktestIntent) (index : Z) : string :=
  ("pre-veto:" ++ lower (bi_market i) ++ ":" ++ or_text (bi_snapshot_id i) (bi_signal_id i) ++ ":" ++ str_int index ++ ":"
   ++ bi_signal_id i)%string.

(** [_pre_veto_observation] *)
Definition _pre_veto_observation (i : BacktestIntent) (c : OHLCVCandle) (index : Z) : res PreVetoOpportunityRecord :=
  new_observation (mk_observation (_pre_veto_observation_id i index) (bi_signal_id i)
    (or_text (bi_snapshot_id i) (bi_signal_id i)) (bi_strategy_id i) (bi_strategy_version i) (bi_regime i)
    (record_symbol i) (bi_market i) LONG (bi_timestamp i) (c_close c) (bi_stop_loss i) (targets i) (bi_reason_codes i)
    (bi_dge_status i) [] "PENDING_FORWARD_REVIEW" false "RESEARCH_ONLY" LIVE_ORDER_BLOCKED).

(** [PreVetoOpportunityLedger.__post_init__] *)
Definition new_observations (l : list PreVetoOpportunityRecord) : res (list PreVetoOpportunityRecord) :=
  raise_if (negb (all_unique String.eqb (map pv_observation_id l)))
    (ValueError "pre-veto opportunity identities must be unique");;
  mret l.

(** ** Telemetry *)

Definition counts : Type := list (string * Z).

(** [default_virtual_market_stage_counts] *)
Definition default_virtual_market_stage_counts : counts := map (fun s => (enum_text s, 0)) (@members VirtualMarketFunnelStage _).

(** [stage_counts[key] += 1] *)
Definition count_stage (key : string) (d : counts) : res counts :=
  match dict_get String.eqb key d with Some n => mret (dict_set String.eqb key (n + 1) d) | None => Raise KeyError end.
Fixpoint count_stages (keys : list string) (d : counts) : res counts :=
  match keys with [] => mret d | key :: rest => d ← count_stage key d; count_stages rest d end.

(** [_record_reason_codes] *)
Definition _record_reason_codes (d : counts) (codes : list string) : counts :=
  fold_left (fun d code => dict_set String.eqb code (default 0 (dict_get String.eqb code d) + 1) d) codes d.

Record VirtualMarketFunnelTelemetry : Type := mk_telemetry { stage_counts : counts; reason_code_counts : counts }.
(** [VirtualMarketFunnelTelemetry.__post_init__] *)
Definition new_telemetry (t : VirtualMarketFunnelTelemetry) : res VirtualMarketFunnelTelemetry :=
  raise_if (negb (bool_decide (map fst (stage_counts t) = map enum_text (@members VirtualMarketFunnelStage _))))
    (ValueError "virtual market stage counts must use the canonical order");;
  raise_if (existsb (fun kv => kv.2 <? 0) (stage_counts t))
    (ValueError "virtual market stage counts must be non-negative");;
  raise_if (negb (all_unique String.eqb (map fst (reason_code_counts t))))
    (ValueError "virtual market reason codes must be unique");;
  raise_if (existsb (fun kv => blank kv.1) (reason_code_counts t))
    (ValueError "virtual market reason codes cannot be blank");;
  raise_if (existsb (fun kv => kv.2 <? 1) (reason_code_counts t))
    (ValueError "virtual market reason-code counts must be positive");;
  mret t.

(** ** The state of the loop *)

Record audit_event : Type := mk_audit { au_type : string; au_identifier : string; au_timestamp : datetime }.

Record RunState : Type := mk_run {
  rs_trades : list TradeRecord;
  rs_rejected : list RejectedSignal;
  rs_audit : list audit_event;
  rs_equity : list EquityPoint;
  rs_false_breakouts : list FalseBreakoutRecord;
  rs_candidates : list _RejectedCandidate;
  rs_observations : list PreVetoOpportunityRecord;
  rs_stages : counts;
  rs_reasons : counts;
  rs_pending : option (BacktestIntent * string);
  rs_open : option _OpenTrade;
  rs_no_trade : Z;
  rs_cash : dec
}.

Definition set_open (o : option _OpenTrade) (s : RunState) : RunState :=
  mk_run (rs_trades s) (rs_rejected s) (rs_audit s) (rs_equity s) (rs_false_breakouts s) (rs_candidates s)
    (rs_observations s) (rs_stages s) (rs_reasons s) (rs_pending s) o (rs_no_trade s) (rs_cash s).
Definition set_pending (p : option (BacktestIntent * string)) (s : RunState) : RunState :=
  mk_run (rs_trades s) (rs_rejected s) (rs_audit s) (rs_equity s) (rs_false_breakouts s) (rs_candidates s)
    (rs_observations s) (rs_stages s) (rs_reasons s) p (rs_open s) (rs_no_trade s) (rs_cash s).
Definition set_stages (d : counts) (s : RunState) : RunState :=
  mk_run (rs_trades s) (rs_rejected s) (rs_audit s) (rs_equity s) (rs_false_breakouts s) (rs_candidates s)
    (rs_observations s) d (rs_reasons s) (rs_pending s) (rs_open s) (rs_no_trade s) (rs_cash s).
Definition set_cash (cash : dec) (s : RunState) : RunState :=
  mk_run (rs_trades s) (rs_rejected s) (rs_audit s) (rs_equity s) (rs_false_breakouts s) (rs_candidates s)
    (rs_observations s) (rs_stages s) (rs_reasons s) (rs_pending s) (rs_open s) (rs_no_trade s) cash.
Definition set_equity (l : list EquityPoint) (s : RunState) : RunState :=
  mk_run (rs_trades s) (rs_rejected s) (rs_audit s) l (rs_false_breakouts s) (rs_candidates s)
    (rs_observations s) (rs_stages s) (rs_reasons s) (rs_pending s) (rs_open s) (rs_no_trade s) (rs_cash s).
Definition add_no_trade (s : RunState) : RunState :=
  mk_run (rs_trades s) (rs_rejected s) (rs_audit s) (rs_equity s) (rs_false_breakouts s) (rs_candidates s)
    (rs_observations s) (rs_stages s) (rs_reasons s) (rs_pending s) (rs_open s) (rs_no_trade s + 1) (rs_cash s).
Definition add_observation (o : PreVetoOpportunityRecord) (s : RunState) : RunState :=
  mk_run (rs_trades s) (rs_rejected s) (rs_audit s) (rs_equity s) (rs_false_breakouts s) (rs_candidates s)
    (rs_observations s ++ [o]) (rs_stages s) (rs_reasons s) (rs_pending s) (rs_open s) (rs_no_trade s) (rs_cash s).
Definition add_trade (t : TradeRecord) (fb : option FalseBreakoutRecord) (s : RunState) : RunState :=
  mk_run (rs_trades s ++ [t]) (rs_rejected s) (rs_audit s) (rs_equity s)
    (rs_false_breakouts s ++ match fb with Some f => [f] | None => [] end) (rs_candidates s)
    (rs_observations s) (rs_stages s) (rs_reasons s) (rs_pending s) (rs_open s) (rs_no_trade s) (rs_cash s).

(** [audit.append(self._event(...))] *)
Definition log (kind identifier : string) (c : OHLCVCandle) (s : RunState) : RunState :=
  mk_run (rs_trades s) (rs_rejected s) (rs_audit s ++ [mk_audit kind identifier (c_timestamp c)]) (rs_equity s)
    (rs_false_breakouts s) (rs_candidates s) (rs_observations s) (rs_stages s) (rs_reasons s) (rs_pending s) (rs_open s)
    (rs_no_trade s) (rs_cash s).

(** The reasons, the rejected signal and the rejected candidate of a refusal. *)
Definition reject (i : BacktestIntent) (blockers : list string) (entry_index : Z) (observation : string) (s : RunState)
  : RunState :=
  mk_run (rs_trades s) (rs_rejected s ++ [mk_rejected (bi_signal_id i) (bi_timestamp i) blockers]) (rs_audit s)
    (rs_equity s) (rs_false_breakouts s) (rs_candidates s ++ [mk_candidate i blockers entry_index observation])
    (rs_observations s) (rs_stages s) (_record_reason_codes (rs_reasons s) blockers) (rs_pending s) (rs_open s)
    (rs_no_trade s) (rs_cash s).

Definition initial_state (cfg : BacktestConfig) : RunState :=
  mk_run [] [] [] [] [] [] [] default_virtual_market_stage_counts [] None None 0 (initial_cash_usdt cfg).

(** ** The blocks of the loop *)

(** [_normalize_intent] *)
Definition _normalize_intent (symbol timeframe : string) (i : BacktestIntent) : res BacktestIntent :=
  let symbol' := or_text (normalize (bi_symbol i)) (normalize symbol) in
  let timeframe' := or_text (strip (bi_timeframe i)) (strip timeframe) in
  let snapshot := or_text (strip (bi_snapshot_id i))
    ("snapshot:" ++ symbol' ++ ":" ++ timeframe' ++ ":" ++ bi_signal_id i) in
  let decision := or_text (strip (bi_decision_id i)) ("decision:" ++ bi_signal_id i) in
  new_intent (set_identity symbol' timeframe' snapshot decision (bi_opportunity_id i) i).

(** [_intent_blockers] *)
Definition _intent_blockers (i : BacktestIntent) (c : OHLCVCandle) (open_trade pending : bool) : list string :=
  block_if (is_futures (bi_market i)) "DATA_UNAVAILABLE"
  ++ block_if (negb (dt_eqb (bi_timestamp i) (c_timestamp c))) "SIGNAL_TIMESTAMP_MISMATCH"
  ++ block_if open_trade "POSITION_ALREADY_OPEN"
  ++ block_if pending "ENTRY_ALREADY_PENDING".

(** [pending_observation_id or self._pre_veto_observation_id(pending, index)] *)
Definition pending_observation (i : BacktestIntent) (observation : string) (index : Z) : string :=
  or_text observation (_pre_veto_observation_id i index).

Section Run.
Context (cfg : BacktestConfig) (symbol timeframe : string).

(** The pending entry, at the open of the bar. *)
Definition enter_block (index : Z) (c : OHLCVCandle) (s : RunState) : res RunState :=
  match rs_pending s, rs_open s with
  | Some (i, observation), None =>
      blockers ← _entry_blockers cfg i c (rs_cash s);
      if negb (is_nil blockers) then
        mret (set_pending None
          (log "ENTRY_REJECTED" (bi_signal_id i) c
            (reject i blockers index (pending_observation i observation (index - 1)) s)))
      else
        o ← _open_trade cfg i c;
        stages ← count_stage (enum_text FILLED) (rs_stages s);
        let kind := if (original_quantity o <? bc_quantity cfg)%D then "ENTRY_PARTIALLY_FILLED" else "ENTRY_FILLED" in
        mret (set_pending None (log kind (bi_signal_id i) c (set_stages stages (set_open (Some o) s))))
  | _, _ => mret s
  end.

(** A closure, shared by the loop and the end of the data. *)
Definition close_block (c : OHLCVCandle) (reason : BacktestExitReason) (price : dec) (o : _OpenTrade)
  (breakouts : bool) (s : RunState) : res RunState :=
  t ← _close_trade cfg o c reason price;
  stages ← count_stage (enum_text CLOSED) (rs_stages s);
  gain ← dsub (tr_net_pnl t) (realized_partial_pnl o);
  cash ← dadd (rs_cash s) gain;
  mret (log (enum_text reason) (tr_trade_id t) c
    (set_open None (set_cash cash (set_stages stages
      (add_trade t (if breakouts then _false_breakout (ot_intent o) t else None) s))))).

(** The open trade during the bar. *)
Definition manage_block (c : OHLCVCandle) (s : RunState) : res RunState :=
  match rs_open s with
  | None => mret s
  | Some o =>
      o ← _update_excursions o c;
      event ← virtual_long_exit (ot_intent o) (ot_position o) c (bars_held o);
      match event with
      | Some (reason, price) =>
          if staged_target reason o then
            staged ← _partial_exit cfg o c price;
            cash ← dadd (rs_cash s) (se_pnl staged.1);
            o' ← protect cfg staged.2 (c_close c);
            mret (set_open (Some o') (log "PARTIAL_TAKE_PROFIT" (bi_signal_id (ot_intent o)) c (set_cash cash s)))
          else close_block c reason price o true s
      | None => o' ← protect cfg o (c_close c); mret (set_open (Some o') s)
      end
  end.

(** The equity at the close of the bar. *)
Definition equity_block (c : OHLCVCandle) (s : RunState) : res RunState :=
  point ← _equity_point cfg c (rs_cash s) (rs_open s);
  mret (set_equity (rs_equity s ++ [point]) s).

(** The provider's intent on the history up to the bar. *)
Definition signal_block (index : Z) (c : OHLCVCandle) (intent : option BacktestIntent) (s : RunState) : res RunState :=
  match intent with
  | None => mret (add_no_trade s)
  | Some i =>
      i ← _normalize_intent symbol timeframe i;
      observation ← _pre_veto_observation i c index;
      let s := log "OPPORTUNITY_OBSERVED_PRE_VETO" (pv_observation_id observation) c (add_observation observation s) in
      stages ← count_stages (funnel_stages i) (rs_stages s);
      let s := set_stages stages s in
      let blockers := _intent_blockers i c (is_some (rs_open s)) (is_some (rs_pending s)) in
      if negb (is_nil blockers) then
        mret (set_open (with_ignored blockers <$> rs_open s)
          (reject i blockers (index + 1) (pv_observation_id observation) s))
      else
        stages ← count_stage (enum_text VIRTUAL_ORDER) (rs_stages s);
        mret (set_pending (Some (i, pv_observation_id observation)) (set_stages stages s))
  end.

(** One bar. *)
Definition bar (provider : list OHLCVCandle -> res (option BacktestIntent)) (history : list OHLCVCandle) (index : Z)
  (c : OHLCVCandle) (s : RunState) : res RunState :=
  s ← enter_block index c s;
  s ← manage_block c s;
  s ← equity_block c s;
  intent ← provider history;
  signal_block index c intent s.

(** [for index, candle in enumerate(candles)]: the provider sees the history up to
    the bar, a [_CandleHistory] over the candles. *)
Fixpoint run_bars (provider : list OHLCVCandle -> res (option BacktestIntent)) (all : list OHLCVCandle) (index : nat)
  (rest : list OHLCVCandle) (s : RunState) : res RunState :=
  match rest with
  | [] => mret s
  | c :: rest =>
      s ← bar provider (firstn (S index) all) (Z.of_nat index) c s;
      run_bars provider all (S index) rest s
  end.

(** What is left after the last bar. *)
Definition finish_pending (count : Z) (s : RunState) : RunState :=
  match rs_pending s with
  | Some (i, observation) =>
      set_pending None (reject i ["NO_NEXT_BAR"] count (pending_observation i observation (count - 1)) s)
  | None => s
  end.
Definition finish_open (last : OHLCVCandle) (s : RunState) : res RunState :=
  match rs_open s with
  | None => mret s
  | Some o =>
      let '(reason, price) := end_of_data_exit last in
      s' ← close_block last reason price o false s;
      point ← _equity_point cfg last (rs_cash s') None;
      mret (set_equity (removelast (rs_equity s') ++ [point]) s')
  end.

(** [_validate_inputs] *)
Definition _validate_inputs (candles : list OHLCVCandle) : res unit :=
  raise_if (blank symbol || blank timeframe) (ValueError "symbol and timeframe are required");;
  raise_if (Z.of_nat (length candles) <? 2) (ValueError "at least two closed candles are required");;
  let timestamps := map (fun c => instant (c_timestamp c)) candles in
  raise_if (negb (bool_decide (py_sorted Z.leb timestamps = timestamps)) || negb (all_unique Z.eqb timestamps))
    (ValueError "candles must be unique and strictly chronological").

(** The views by symbol and timeframe are the engine's own. *)
Definition engine_edges (trades : list TradeRecord) : res TradeEdgeLedger :=
  strategy ← _trade_edge_views strategy_key (fun a => (Some (ca_strategy_id a), None, None, None)) trades;
  regime ← _trade_edge_views regime_key (fun a => (None, Some (ca_regime a), None, None)) trades;
  both ← _trade_edge_views strategy_regime_key (fun a => (Some (ca_strategy_id a), Some (ca_regime a), None, None)) trades;
  by_sym ← _trade_edge_views (fun a => [ca_symbol a]) (fun a => (None, None, Some (ca_symbol a), None)) trades;
  by_tf ← _trade_edge_views (fun a => [ca_timeframe a]) (fun a => (None, None, None, Some (ca_timeframe a))) trades;
  mret (mk_edges strategy regime both by_sym by_tf).
End Run.

(** ** The result *)

(** [_buy_and_hold_return] *)
Definition _buy_and_hold_return (cfg : BacktestConfig) (first last : OHLCVCandle) : res float :=
  up ← dadd ONE (bc_slippage_ratio cfg);
  entry ← dmul (c_open first) up;
  down ← dsub ONE (bc_slippage_ratio cfg);
  exit_price ← dmul (c_close last) down;
  with_fee ← dadd ONE (bc_fee_ratio cfg);
  entry_cost ← dmul entry with_fee;
  less_fee ← dsub ONE (bc_fee_ratio cfg);
  exit_value ← dmul exit_price less_fee;
  gain ← dsub exit_value entry_cost;
  ratio ← ddiv gain entry_cost;
  mret (float_of_dec ratio).

(** [_result_market] *)
Definition _result_market (trades : list TradeRecord) (missed : list MissedOpportunityRecord) : string :=
  match trades, missed with
  | t :: _, _ => ca_market (tr_attribution t)
  | [], m :: _ => bi_market (mo_intent m)
  | [], [] => "SPOT"
  end.

(** [PerformanceEngineReport], as [_performance_engine_report] builds it *)
Record PerformanceEngineReport : Type := mk_report {
  spot_metrics : option BacktestMetrics; futures_metrics : option BacktestMetrics
}.
Definition _performance_engine_report (m : BacktestMetrics) : PerformanceEngineReport :=
  if is_futures (bm_market m) then mk_report None (Some m) else mk_report (Some m) None.

Record BacktestResult : Type := mk_result {
  br_symbol : string;
  br_timeframe : string;
  br_started_at : datetime;
  br_ended_at : datetime;
  br_assumptions : BacktestConfig;
  br_trades : list TradeRecord;
  br_rejected : list RejectedSignal;
  br_no_trade_count : Z;
  br_metrics : BacktestMetrics;
  br_audit : list audit_event;
  br_equity : list EquityPoint;
  br_false_breakouts : list FalseBreakoutRecord;
  br_telemetry : VirtualMarketFunnelTelemetry;
  br_edges : TradeEdgeLedger;
  br_outcomes : list TradeOutcome;
  br_report : PerformanceEngineReport;
  br_missed : list MissedOpportunityRecord;
  br_observations : list PreVetoOpportunityRecord
}.

(** The counts of the funnel, in the order of the stages. *)
Definition telemetry_of (s : RunState) : res VirtualMarketFunnelTelemetry :=
  stages ← mapM (fun stage => match dict_get String.eqb (enum_text stage) (rs_stages s) with
                              | Some n => mret (enum_text stage, n)
                              | None => Raise KeyError
                              end) (@members VirtualMarketFunnelStage _);
  new_telemetry (mk_telemetry stages (py_sorted (fun a b => String.leb a.1 b.1) (rs_reasons s))).

Section Result.
Context (square : float -> res float) (cfg : BacktestConfig) (symbol timeframe : string).

(** What [run] returns of a finished loop. *)
Definition result_of (candles : list OHLCVCandle) (first last : OHLCVCandle) (s : RunState) : res BacktestResult :=
  benchmark ← _buy_and_hold_return cfg first last;
  missed ← _missed_opportunity_ledger cfg (rs_candidates s) candles;
  let market := _result_market (rs_trades s) missed in
  duration ← whole_seconds (c_timestamp first) (c_timestamp last);
  metrics ← calculate_metrics square (rs_trades s) (float_of_dec (initial_cash_usdt cfg)) benchmark
              (map (fun p => float_of_dec (equity_usdt p)) (rs_equity s)) market duration missed;
  telemetry ← telemetry_of s;
  edges ← engine_edges (rs_trades s);
  outcomes ← mapM trade_outcome (rs_trades s);
  observations ← new_observations (rs_observations s);
  mret (mk_result (normalize symbol) timeframe (c_timestamp first) (c_timestamp last) cfg (rs_trades s) (rs_rejected s)
    (rs_no_trade s) metrics (rs_audit s) (rs_equity s) (rs_false_breakouts s) telemetry edges outcomes
    (_performance_engine_report metrics) missed observations).

(** [BacktestEngine.run] *)
Definition run (candles : list OHLCVCandle) (provider : list OHLCVCandle -> res (option BacktestIntent))
  : res BacktestResult :=
  _validate_inputs symbol timeframe candles;;
  s ← run_bars cfg symbol timeframe provider candles 0 candles (initial_state cfg);
  match candles, List.last (map Some candles) None with
  | first :: _, Some last =>
      s ← finish_open cfg last (finish_pending (Z.of_nat (length candles)) s);
      result_of candles first last s
  | _, _ => Raise IndexError
  end.
End Result.

(** ** The accounts of the loop *)

Definition stage_count (stage : VirtualMarketFunnelStage) (d : counts) : Z :=
  default 0 (dict_get String.eqb (enum_text stage) d).
Definition reason_count (code : string) (d : counts) : Z := default 0 (dict_get String.eqb code d).

#[local] Arguments stage_count : simpl never.
#[local] Arguments reason_count : simpl never.
#[local] Arguments _record_reason_codes : simpl never.

Lemma count_stage_get key d d' k : count_stage key d = Ok d' ->
  default 0 (dict_get String.eqb k d') = default 0 (dict_get String.eqb k d) + (if String.eqb k key then 1 else 0).
Proof.
  unfold count_stage. destruct (dict_get String.eqb key d) as [n|] eqn:E; [|done]. intros H. apply mret_Ok in H as <-.
  rewrite (dict_get_set String.eqb). destruct (String.eqb_spec k key) as [->|]; [|lia]. by rewrite E.
Qed.

Lemma count_stages_get keys k : ~ In k keys -> forall d d', count_stages keys d = Ok d' ->
  default 0 (dict_get String.eqb k d') = default 0 (dict_get String.eqb k d).
Proof.
  induction keys as [|key keys IH]; cbn; intros Hk d d' H; [by apply mret_Ok in H as <-|].
  apply bind_Ok in H as (d1 & H1 & H). rewrite (IH ltac:(tauto) _ _ H), (count_stage_get _ _ _ k H1).
  destruct (String.eqb_spec k key) as [->|]; [tauto|lia].
Qed.

Lemma record_reasons_get codes k : forall d,
  reason_count k (_record_reason_codes d codes) = reason_count k d + Z.of_nat (count_occ string_dec codes k).
Proof.
  unfold reason_count, _record_reason_codes. induction codes as [|code codes IH]; intros d; cbn [fold_left count_occ]; [lia|].
  rewrite IH, (dict_get_set String.eqb). destruct (string_dec code k) as [->|Hk].
  - rewrite String.eqb_refl. cbn [default from_option id]. lia.
  - destruct (String.eqb_spec k code); [congruence|lia].
Qed.

Definition signals_open (s : RunState) : list string :=
  match rs_open s with Some o => [bi_signal_id (ot_intent o)] | None => [] end.
Definition signals_pending (s : RunState) : list string :=
  match rs_pending s with Some (i, _) => [bi_signal_id i] | None => [] end.
Definition exit_at (t : TradeRecord) : Z := instant (tr_exit_timestamp t).
Definition entry_time (t : TradeRecord) : Z := instant (tr_entry_timestamp t).
(** One trade after the other. *)
Definition sequential : list TradeRecord -> Prop := StronglySorted (fun a b => exit_at a < entry_time b).

(** The same refusal, for the report and for the counterfactual. *)
Definition same_refusal (r : RejectedSignal) (c : _RejectedCandidate) : Prop :=
  rj_signal_id r = bi_signal_id (rc_intent c) /\ rj_timestamp r = bi_timestamp (rc_intent c) /\ rj_blockers r = rc_blockers c.

(** The invariant of the loop after [bars] signals, with one equity point for each
    of [points], at the instant [now]. *)
Record accounts (bars : Z) (points : list datetime) (now : Z) (s : RunState) : Prop := mk_accounts {
  acc_signals : Permutation (map pv_signal_id (rs_observations s))
    (map rj_signal_id (rs_rejected s) ++ map tr_signal_id (rs_trades s) ++ signals_pending s ++ signals_open s);
  acc_bars : rs_no_trade s + Z.of_nat (length (rs_observations s)) = bars;
  acc_equity : map ep_timestamp (rs_equity s) = points;
  acc_refusals : Forall2 same_refusal (rs_rejected s) (rs_candidates s);
  acc_filled : stage_count FILLED (rs_stages s) = Z.of_nat (length (rs_trades s) + length (signals_open s));
  acc_closed : stage_count CLOSED (rs_stages s) = Z.of_nat (length (rs_trades s));
  acc_reasons : forall code, reason_count code (rs_reasons s)
    = Z.of_nat (count_occ string_dec (concat (map rj_blockers (rs_rejected s))) code);
  acc_single : rs_pending s <> None -> rs_open s = None;
  acc_sequential : sequential (rs_trades s);
  acc_trades : Forall (fun t => entry_time t <= exit_at t <= now) (rs_trades s);
  acc_open : forall o, rs_open s = Some o -> instant (ot_entry_timestamp o) <= now
    /\ Forall (fun t => exit_at t < instant (ot_entry_timestamp o)) (rs_trades s)
}.

Lemma initial_accounts cfg now : accounts 0 [] now (initial_state cfg).
Proof. split; cbn; try done; constructor. Qed.

Lemma concat_snoc {A} (l : list (list A)) x : concat (l ++ [x]) = concat l ++ x.
Proof. rewrite concat_app. cbn. by rewrite app_nil_r. Qed.

Lemma sequential_snoc l t : sequential l -> Forall (fun a => exit_at a < entry_time t) l -> sequential (l ++ [t]).
Proof.
  unfold sequential. induction 1 as [|a l Hs IH Ha]; intros Hf; cbn; [by repeat constructor|].
  apply Forall_cons in Hf as (H1 & H2). constructor; [by apply IH|]. apply Forall_app. split; [done|by constructor].
Qed.

Section Accounts.
Context (cfg : BacktestConfig) (symbol timeframe : string).

Lemma enter_accounts bars points now index c s s' : enter_block cfg index c s = Ok s' -> accounts bars points now s ->
  now < instant (c_timestamp c) -> accounts bars points (instant (c_timestamp c)) s' /\ rs_pending s' = None.
Proof.
  unfold enter_block. intros H [A1 A2 A3 A4 A5 A6 A7 A8 A9 A10 A11] Hn.
  assert (Forall (fun t => entry_time t <= exit_at t <= instant (c_timestamp c)) (rs_trades s)) as A10'
    by (eapply List.Forall_impl; [|exact A10]; cbn; lia).
  destruct (rs_pending s) as [[i observation]|] eqn:Ep.
  2: { apply mret_Ok in H as <-. split; [|done]. split; try done. intros o Ho. apply A11 in Ho as (? & ?). split; [lia|done]. }
  assert (rs_open s = None) as Eo by (by apply A8). rewrite Eo in H.
  unfold signals_pending, signals_open in *. rewrite Ep, Eo, ?app_nil_r in *.
  apply bind_Ok in H as (blockers & _ & H). destruct (negb (is_nil blockers)).
  - apply mret_Ok in H as <-. split; [|done]. split; unfold signals_pending, signals_open; cbn; rewrite ?Eo; try done.
    + rewrite A1, map_app, app_nil_r. cbn. rewrite <- app_assoc. apply Permutation_app_head, Permutation_app_comm.
    + apply Forall2_app; [done|]. by repeat constructor.
    + intros code. rewrite record_reasons_get, A7, map_app. cbn [map]. rewrite concat_snoc, count_occ_app. cbn. lia.
  - apply bind_Ok in H as (o & Ho & H). apply bind_Ok in H as (stages & Hst & H). apply mret_Ok in H as <-.
    apply open_trade_Ok in Ho as (fill & entry & fee & _ & _ & _ & ->). split; [|done].
    split; unfold signals_pending, signals_open; cbn; try done.
    + unfold stage_count in *. rewrite (count_stage_get _ _ _ _ Hst), A5. cbn. lia.
    + unfold stage_count in *. rewrite (count_stage_get _ _ _ _ Hst), A6. cbn. lia.
    + intros o [= <-]. cbn. split; [lia|]. eapply List.Forall_impl; [|exact A10]. cbn. lia.
Qed.

(** The same trade, later. *)
Definition same_trade (o o' : _OpenTrade) : Prop :=
  ot_intent o' = ot_intent o /\ ot_entry_timestamp o' = ot_entry_timestamp o.

Lemma excursions_same o c o' : _update_excursions o c = Ok o' -> same_trade o o'.
Proof. unfold _update_excursions. intros H. guards H. by apply mret_Ok in H as <-. Qed.
Lemma protect_same o close o' : protect cfg o close = Ok o' -> same_trade o o'.
Proof. unfold protect. intros H. guards H. by apply mret_Ok in H as <-. Qed.
Lemma partial_same o c price r : _partial_exit cfg o c price = Ok r -> same_trade o r.2.
Proof. unfold _partial_exit. intros H. guards H. by apply mret_Ok in H as <-. Qed.
Lemma same_trans a b c : same_trade a b -> same_trade b c -> same_trade a c.
Proof. unfold same_trade. intros (-> & ->) (-> & ->). done. Qed.

Lemma close_accounts bars points c reason price o o0 breakouts s s' :
  close_block cfg c reason price o breakouts s = Ok s' -> accounts bars points (instant (c_timestamp c)) s ->
  rs_open s = Some o0 -> same_trade o0 o -> rs_pending s = None ->
  accounts bars points (instant (c_timestamp c)) s' /\ rs_open s' = None /\ rs_pending s' = None.
Proof.
  unfold close_block. intros H [A1 A2 A3 A4 A5 A6 A7 A8 A9 A10 A11] Eo (Hi & He) Ep.
  apply bind_Ok in H as (t & Ht & H). apply bind_Ok in H as (stages & Hst & H). guards H. apply mret_Ok in H as <-.
  apply close_trade_Ok in Ht as (f & _ & _ & _ & Hid & Hen & Hex & _). destruct (A11 _ Eo) as (B1 & B2).
  rewrite Hi in Hid. rewrite He in Hen.
  unfold signals_pending, signals_open in *. rewrite Ep, Eo in *. split; [|by cbn].
  split; unfold signals_pending, signals_open; cbn; rewrite ?Ep; try done.
  - rewrite A1, map_app, app_nil_r. cbn. by rewrite Hid.
  - unfold stage_count in *. rewrite (count_stage_get _ _ _ _ Hst), A5, length_app. cbn. lia.
  - unfold stage_count in *. rewrite (count_stage_get _ _ _ _ Hst), A6, length_app. cbn. lia.
  - apply sequential_snoc; [done|]. unfold entry_time. by rewrite Hen.
  - apply Forall_app. split; [done|]. constructor; [|done]. unfold entry_time, exit_at. rewrite Hen, Hex. lia.
Qed.

(** Replacing the open trade by a later state of it changes no account. *)
Lemma same_accounts bars points now s o o' s' : accounts bars points now s -> rs_open s = Some o -> same_trade o o' ->
  rs_trades s' = rs_trades s -> rs_rejected s' = rs_rejected s -> rs_candidates s' = rs_candidates s ->
  rs_observations s' = rs_observations s -> rs_stages s' = rs_stages s -> rs_reasons s' = rs_reasons s ->
  rs_pending s' = rs_pending s -> rs_no_trade s' = rs_no_trade s -> rs_equity s' = rs_equity s -> rs_open s' = Some o' ->
  accounts bars points now s'.
Proof.
  intros [A1 A2 A3 A4 A5 A6 A7 A8 A9 A10 A11] Eo (Hi & He) E1 E2 E3 E4 E5 E6 E7 E8 E9 E10.
  unfold signals_pending, signals_open in *. rewrite Eo in *.
  split; unfold signals_pending, signals_open; rewrite ?E1, ?E2, ?E3, ?E4, ?E5, ?E6, ?E7, ?E8, ?E9, ?E10, ?Hi; try done.
  - intros Hp. discriminate (A8 Hp).
  - intros o1 [= <-]. rewrite He. by apply A11.
Qed.

Lemma manage_accounts bars points c s s' : manage_block cfg c s = Ok s' ->
  accounts bars points (instant (c_timestamp c)) s -> rs_pending s = None ->
  accounts bars points (instant (c_timestamp c)) s' /\ rs_pending s' = None.
Proof.
  unfold manage_block. intros H A Ep. destruct (rs_open s) as [o0|] eqn:Eo; [|by apply mret_Ok in H as <-].
  apply bind_Ok in H as (o & Ho & H). apply excursions_same in Ho. apply bind_Ok in H as (event & _ & H).
  destruct event as [[reason price]|].
  - destruct (staged_target reason o).
    + apply bind_Ok in H as (staged & Hs & H). apply partial_same in Hs. apply bind_Ok in H as (cash & _ & H).
      apply bind_Ok in H as (o' & Hp & H). apply protect_same in Hp. apply mret_Ok in H as <-. split; [|done].
      apply (same_accounts _ _ _ s o0 o'); try done. eauto using same_trans.
    + eapply close_accounts in H as (H1 & _ & H2); [|done..]. done.
  - apply bind_Ok in H as (o' & Hp & H). apply protect_same in Hp. apply mret_Ok in H as <-. split; [|done].
    apply (same_accounts _ _ _ s o0 o'); try done. eauto using same_trans.
Qed.

Lemma equity_point_time c cash o p : _equity_point cfg c cash o = Ok p -> ep_timestamp p = c_timestamp c.
Proof.
  unfold _equity_point. intros H. destruct o as [o|]; [|by apply mret_Ok in H as <-].
  cbv zeta in H. guards H. by apply mret_Ok in H as <-.
Qed.

Lemma equity_accounts bars points now c s s' : equity_block cfg c s = Ok s' -> accounts bars points now s ->
  accounts bars (points ++ [c_timestamp c]) now s' /\ rs_pending s' = rs_pending s.
Proof.
  unfold equity_block. intros H [A1 A2 A3 A4 A5 A6 A7 A8 A9 A10 A11]. apply bind_Ok in H as (p & Hp & H).
  apply mret_Ok in H as <-. apply equity_point_time in Hp. split; [|done]. split; try done. cbn. by rewrite map_app, A3, <- Hp.
Qed.

Lemma normalize_signal i i' : _normalize_intent symbol timeframe i = Ok i' ->
  bi_signal_id i' = bi_signal_id i /\ bi_timestamp i' = bi_timestamp i /\ valid_intent i'.
Proof.
  unfold _normalize_intent. intros H. pose proof (new_intent_valid _ _ H). by apply new_intent_fields in H as (-> & ->).
Qed.

Lemma observation_signal i c index r : _pre_veto_observation i c index = Ok r ->
  pv_signal_id r = bi_signal_id i /\ pv_observed_at r = bi_timestamp i /\ pv_observation_id r = _pre_veto_observation_id i index.
Proof. unfold _pre_veto_observation, new_observation. intros H. guards H. by apply mret_Ok in H as <-. Qed.

Lemma upstream_not_traded i s : valid_intent i -> s ∈ [FILLED; CLOSED] -> ~ In (enum_text s) (funnel_stages i).
Proof.
  intros Hv Hs Hin. apply (vi_stages i Hv) in Hin. cbn in Hin. 
  apply elem_of_cons in Hs as [->|Hs]; [naive_solver|]. apply list_elem_of_singleton in Hs as ->. naive_solver.
Qed.

Lemma signal_accounts bars points now index c intent s s' : signal_block symbol timeframe index c intent s = Ok s' ->
  accounts bars points now s -> rs_pending s = None -> accounts (bars + 1) points now s'.
Proof.
  unfold signal_block. intros H A Ep. destruct intent as [i0|].
  2: { apply mret_Ok in H as <-. destruct A as [A1 A2 A3 A4 A5 A6 A7 A8 A9 A10 A11]. split; try done. cbn. lia. }
  apply bind_Ok in H as (i & Hi & H). apply normalize_signal in Hi as (_ & _ & Hv). apply bind_Ok in H as (r & Hr & H).
  apply observation_signal in Hr as (Hr & _). cbv zeta in H. apply bind_Ok in H as (stages & Hst & H).
  destruct A as [A1 A2 A3 A4 A5 A6 A7 A8 A9 A10 A11].
  assert (forall k, k ∈ [FILLED; CLOSED] -> stage_count k stages = stage_count k (rs_stages s)) as Hk
    by (intros k Hin; by apply (count_stages_get _ _ (upstream_not_traded i k Hv Hin) _ _ Hst)).
  cbn [set_stages log add_observation rs_open rs_pending] in H. unfold signals_pending, signals_open in *. rewrite Ep in *.
  destruct (negb (is_nil _)) eqn:Eb.
  - apply mret_Ok in H as <-. set (blockers := _intent_blockers _ _ _ _) in *.
    split; unfold signals_pending, signals_open; cbn; rewrite ?Ep; try done.
    + rewrite !map_app, A1. cbn. rewrite Hr, <- !app_assoc. cbn.
      destruct (rs_open s) as [o|]; cbn; solve_Permutation.
    + rewrite length_app. cbn. lia.
    + apply Forall2_app; [done|]. by repeat constructor.
    + rewrite Hk by left. rewrite A5. by destruct (rs_open s).
    + rewrite Hk by (right; left). done.
    + intros code. rewrite record_reasons_get, A7, map_app. cbn [map]. rewrite concat_snoc, count_occ_app. cbn. lia.
    + intros o. destruct (rs_open s) as [o0|] eqn:Eo; [|done]. cbn. intros [= <-]. apply (A11 o0 eq_refl).
  - apply bind_Ok in H as (stages' & Hst' & H). apply mret_Ok in H as <-. apply negb_false_iff, is_nil_true in Eb.
    assert (rs_open s = None) as Eo.
    { unfold _intent_blockers in Eb. rewrite !app_nil_iff, !block_if_nil in Eb. by destruct (rs_open s); naive_solver. }
    rewrite Eo in *. split; unfold signals_pending, signals_open; cbn; rewrite ?Eo; try done.
    + rewrite map_app, A1. cbn. rewrite Hr, !app_nil_r. by rewrite <- app_assoc.
    + rewrite length_app. cbn. lia.
    + unfold stage_count in *. rewrite (count_stage_get _ _ _ _ Hst'). fold (stage_count FILLED stages). rewrite Hk by left. unfold stage_count. rewrite A5. cbn. lia.
    + unfold stage_count in *. rewrite (count_stage_get _ _ _ _ Hst'). fold (stage_count CLOSED stages). rewrite Hk by (right; left). unfold stage_count. rewrite A6. cbn. lia.
Qed.
(** ** The whole run *)

Lemma bar_accounts provider history bars points now index c s s' :
  bar cfg symbol timeframe provider history index c s = Ok s' -> accounts bars points now s -> now < instant (c_timestamp c) ->
  accounts (bars + 1) (points ++ [c_timestamp c]) (instant (c_timestamp c)) s'.
Proof.
  unfold bar. intros H A Hn. apply bind_Ok in H as (s1 & H1 & H). eapply enter_accounts in H1 as (A1 & P1); [|done..].
  apply bind_Ok in H as (s2 & H2 & H). eapply manage_accounts in H2 as (A2 & P2); [|done..].
  apply bind_Ok in H as (s3 & H3 & H). eapply equity_accounts in H3 as (A3 & P3); [|done..].
  apply bind_Ok in H as (intent & _ & H). eapply signal_accounts; [done|done|congruence].
Qed.

Definition chronological (candles : list OHLCVCandle) : Prop :=
  StronglySorted (fun a b => instant (c_timestamp a) < instant (c_timestamp b)) candles.
Fixpoint last_instant (candles : list OHLCVCandle) (now : Z) : Z :=
  match candles with [] => now | c :: rest => last_instant rest (instant (c_timestamp c)) end.

Lemma run_bars_accounts provider all rest : forall index bars points now s s',
  run_bars cfg symbol timeframe provider all index rest s = Ok s' -> chronological rest ->
  Forall (fun c => now < instant (c_timestamp c)) rest -> accounts bars points now s ->
  accounts (bars + Z.of_nat (length rest)) (points ++ map c_timestamp rest) (last_instant rest now) s'.
Proof.
  induction rest as [|c rest IH]; intros index bars points now s s' H Hc Hf A; cbn [run_bars] in H.
  - apply mret_Ok in H as <-. cbn. by rewrite Z.add_0_r, app_nil_r.
  - apply bind_Ok in H as (s1 & H1 & H). apply Forall_cons in Hf as (Hn & _).
    apply StronglySorted_inv in Hc as (Hc & Hf). eapply bar_accounts in H1; [|done..].
    eapply IH in H; [|done|done|exact H1]. cbn [length map]. rewrite Nat2Z.inj_succ.
    replace (bars + Z.succ (Z.of_nat (length rest))) with (bars + 1 + Z.of_nat (length rest)) by lia.
    by rewrite <- app_assoc in H.
Qed.

Lemma last_instant_spec candles last : List.last (map Some candles) None = Some last -> forall now,
  last_instant candles now = instant (c_timestamp last) /\ exists front, candles = front ++ [last].
Proof.
  destruct candles as [|c front _] using rev_ind; [done|]. rewrite map_app. cbn [map]. rewrite List.last_last.
  intros [= ->] now. split; [|by exists front]. revert now. induction front as [|c front IH]; intros now; [done|]. apply IH.
Qed.

Lemma validate_chronological candles u : _validate_inputs symbol timeframe candles = Ok u ->
  chronological candles /\ 2 <= Z.of_nat (length candles).
Proof.
  unfold _validate_inputs. intros H. guards H. cbv zeta in H. apply raise_if_Ok in H.
  apply Z.ltb_ge in Hg0. split; [|done]. apply orb_false_iff in H as (Hs & Hu).
  apply negb_false_iff, bool_decide_eq_true in Hs. apply negb_false_iff, all_unique_spec in Hu. unfold chronological.
  assert (ordered Z.leb (map (fun c => instant (c_timestamp c)) candles)) as Ho
    by (rewrite <- Hs; apply py_sorted_ordered; [lia|intros ? ? ?; rewrite !Z.leb_le; lia]).
  clear Hs Hg0. induction candles as [|c candles IH]; [constructor|]. cbn in Hu, Ho. destruct Hu as (Hu1 & Hu), Ho as (Ho1 & Ho).
  constructor; [auto|]. apply List.Forall_forall. intros c' Hin.
  specialize (Ho1 _ (in_map _ _ _ Hin)). specialize (Hu1 _ (in_map _ _ _ Hin)). cbn in *. lia.
Qed.

Lemma finish_pending_accounts bars points now count s : accounts bars points now s ->
  accounts bars points now (finish_pending count s) /\ rs_pending (finish_pending count s) = None.
Proof.
  intros A. unfold finish_pending. destruct (rs_pending s) as [[i observation]|] eqn:Ep; [|done].
  destruct A as [A1 A2 A3 A4 A5 A6 A7 A8 A9 A10 A11]. assert (rs_open s = None) as Eo by (by apply A8; rewrite Ep).
  unfold signals_pending, signals_open in *. rewrite Ep, Eo in *. split; [|done].
  split; unfold signals_pending, signals_open; cbn; rewrite ?Eo; try done.
  - rewrite A1, map_app. cbn. rewrite !app_nil_r, <- app_assoc. apply Permutation_app_head, Permutation_app_comm.
  - apply Forall2_app; [done|]. by repeat constructor.
  - intros code. rewrite record_reasons_get, A7, map_app. cbn [map]. rewrite concat_snoc, count_occ_app. cbn. lia.
Qed.

Lemma set_equity_accounts bars points now l s : accounts bars points now s -> map ep_timestamp l = points ->
  accounts bars points now (set_equity l s).
Proof. intros [A1 A2 A3 A4 A5 A6 A7 A8 A9 A10 A11] H. by split. Qed.

Lemma finish_open_accounts bars points last s s' : finish_open cfg last s = Ok s' ->
  accounts bars (points ++ [c_timestamp last]) (instant (c_timestamp last)) s -> rs_pending s = None ->
  accounts bars (points ++ [c_timestamp last]) (instant (c_timestamp last)) s' /\ rs_pending s' = None /\ rs_open s' = None.
Proof.
  unfold finish_open. intros H A Ep. destruct (rs_open s) as [o|] eqn:Eo; [|by apply mret_Ok in H as <-].
  cbn [end_of_data_exit] in H. apply bind_Ok in H as (s1 & H1 & H).
  eapply close_accounts in H1 as (A1 & E1 & P1); [|done|exact Eo|done|done].
  apply bind_Ok in H as (p & Hp & H). apply mret_Ok in H as <-. apply equity_point_time in Hp. split; [|done].
  apply set_equity_accounts; [done|]. pose proof (acc_equity _ _ _ _ A1) as Ee.
  destruct (rs_equity s1) as [|q l _] using rev_ind; [by destruct points|]. rewrite removelast_last.
  rewrite map_app in *. cbn [map] in *. rewrite Hp. apply app_inj_tail in Ee as (<- & _). done.
Qed.

Lemma missed_of candles c m : _missed_opportunity_record cfg candles c = Ok m ->
  mo_intent m = rc_intent c /\ mo_blockers m = rc_blockers c.
Proof.
  assert (forall m, _insufficient_evidence_record cfg c = Ok m -> mo_intent m = rc_intent c /\ mo_blockers m = rc_blockers c) as Hi.
  { clear m. intros m H. unfold _insufficient_evidence_record, new_missed in H. guards H. by apply mret_Ok in H as <-. }
  unfold _missed_opportunity_record. destruct (_ || _); [apply Hi|]. intros H. apply bind_Ok in H as ([t|] & _ & H); [|auto].
  cbv zeta in H. unfold new_missed in H. guards H. by apply mret_Ok in H as <-.
Qed.

Lemma telemetry_stages s t stage : telemetry_of s = Ok t ->
  dict_get String.eqb (enum_text stage) (stage_counts t) = Some (stage_count stage (rs_stages s)).
Proof.
  unfold telemetry_of. intros H. apply bind_Ok in H as (stages & Hs & H). unfold new_telemetry in H. guards H.
  apply mret_Ok in H as <-. cbn [stage_counts]. apply mapM_Ok in Hs.
  assert (forall kv, In kv stages -> exists st, kv = (enum_text st, stage_count st (rs_stages s))) as Hk.
  { intros kv Hin. destruct (Forall2_In_r _ _ _ _ Hs Hin) as (st & _ & Hst). exists st. unfold stage_count.
    destruct (dict_get _ _ _); [|done]. by apply mret_Ok in Hst as <-. }
  cbn [stage_counts] in Hg. apply negb_false_iff, bool_decide_eq_true in Hg.
  assert (In (enum_text stage) (map fst stages)) as Hin
    by (rewrite Hg; apply in_map, members_complete).
  apply in_map_iff in Hin as (kv & Ek & Hin). destruct (Hk _ Hin) as (st & ->). cbn [fst] in Ek. apply enum_text_inj in Ek as ->.
  apply dict_get_distinct; [|done]. rewrite Hg. vm_compute. naive_solver.
Qed.

Lemma telemetry_reasons s t code : telemetry_of s = Ok t ->
  reason_count code (reason_code_counts t) = reason_count code (rs_reasons s).
Proof.
  unfold telemetry_of. intros H. apply bind_Ok in H as (stages & _ & H). unfold new_telemetry in H. guards H.
  apply mret_Ok in H as <-. cbn [reason_code_counts] in *. apply negb_false_iff, all_unique_spec in Hg1.
  unfold reason_count. f_equal. symmetry. apply dict_get_perm; [apply py_sorted_perm|done].
Qed.
End Accounts.

(** C21: a backtest accounts for every bar, signal and trade.  Every bar has one
    equity point and either no signal or one that is observed; every observed
    signal ends as one rejection or as one closed trade, every rejection has its
    counterfactual record with the same blockers, and the telemetry counts the
    trades and the rejection reasons exactly.  Trades follow each other: each is
    closed strictly before the next is opened. *)
Theorem backtest_accounts square cfg symbol timeframe candles provider r :
  run square cfg symbol timeframe candles provider = Ok r ->
  let trades := br_trades r in
  let rejected := br_rejected r in
  br_no_trade_count r + Z.of_nat (length rejected) + Z.of_nat (length trades) = Z.of_nat (length candles)
  /\ Permutation (map pv_signal_id (br_observations r)) (map rj_signal_id rejected ++ map tr_signal_id trades)
  /\ map ep_timestamp (br_equity r) = map c_timestamp candles
  /\ dict_get String.eqb "FILLED" (stage_counts (br_telemetry r)) = Some (Z.of_nat (length trades))
  /\ dict_get String.eqb "CLOSED" (stage_counts (br_telemetry r)) = Some (Z.of_nat (length trades))
  /\ (forall code, reason_count code (reason_code_counts (br_telemetry r))
        = Z.of_nat (count_occ string_dec (concat (map rj_blockers rejected)) code))
  /\ Forall2 (fun x m => rj_signal_id x = bi_signal_id (mo_intent m) /\ rj_blockers x = mo_blockers m) rejected (br_missed r)
  /\ sequential trades /\ Forall (fun t => entry_time t <= exit_at t) trades.
Proof.
  unfold run. intros H. apply bind_Ok in H as (u & Hv & H). apply validate_chronological in Hv as (Hc & Hl).
  apply bind_Ok in H as (s & Hs & H). destruct candles as [|first rest] eqn:Ec; [done|]. rewrite <- Ec in *.
  destruct (List.last (map Some candles) None) as [last|] eqn:El; [|done].
  apply (run_bars_accounts _ _ _ _ _ _ _ 0 [] (instant (c_timestamp first) - 1)) in Hs; [|done| |apply initial_accounts].
  2: { rewrite Ec in Hc |- *. apply StronglySorted_inv in Hc as (_ & Hc). constructor; [lia|].
       eapply List.Forall_impl; [|exact Hc]. cbn. lia. }
  destruct (last_instant_spec _ _ El (instant (c_timestamp first) - 1)) as (En & front & Ef). rewrite En in Hs. cbn [app] in Hs.
  apply bind_Ok in H as (s' & Hf & H). rewrite Ef, map_app in Hs. cbn [map] in Hs.
  apply (finish_pending_accounts _ _ _ (Z.of_nat (length candles))) in Hs as (A1 & P1).
  eapply finish_open_accounts in Hf as (A2 & P2 & O2); [|exact A1|done].
  unfold result_of in H. apply bind_Ok in H as (benchmark & _ & H). apply bind_Ok in H as (missed & Hm & H). cbv zeta in H.
  apply bind_Ok in H as (duration & _ & H). apply bind_Ok in H as (metrics & _ & H). apply bind_Ok in H as (telemetry & Ht & H).
  do 3 (apply bind_Ok in H as (? & ? & H)). apply mret_Ok in H as <-. cbn [br_no_trade_count br_rejected br_trades
    br_observations br_equity br_telemetry br_missed]. cbv zeta.
  match goal with Ho : new_observations _ = Ok _ |- _ => unfold new_observations in Ho; guards Ho; apply mret_Ok in Ho as <- end.
  destruct A2 as [B1 B2 B3 B4 B5 B6 B7 B8 B9 B10 B11]. unfold signals_pending, signals_open in *. rewrite P2, O2, ?app_nil_r in *.
  assert (length (rs_observations s') = (length (rs_rejected s') + length (rs_trades s'))%nat) as Hlen
    by (apply Permutation_length in B1; by rewrite !length_map, length_app, !length_map in B1).
  split; [rewrite <- Ef in B2; lia|]. split; [done|]. split; [by rewrite B3, Ef, map_app|].
  split; [etransitivity; [exact (telemetry_stages _ _ FILLED Ht)|]; rewrite B5; f_equal; cbn; lia|].
  split; [etransitivity; [exact (telemetry_stages _ _ CLOSED Ht)|]; by rewrite B6|].
  split; [intros code; by rewrite (telemetry_reasons _ _ _ Ht), B7|].
  split.
  - apply mapM_Ok in Hm. clear -B4 Hm. revert B4. generalize (rs_rejected s') as rejected. revert missed Hm.
    induction (rs_candidates s') as [|c l IH]; intros missed Hm rejected B4; inversion B4 as [|x ? l' ? (E1 & _ & E2) B5];
      inversion Hm as [|? m ? ms Em Hm']; simplify_eq; constructor; [|by apply IH].
    apply missed_of in Em as (-> & ->). by rewrite E1, E2.
  - split; [done|]. eapply List.Forall_impl; [|exact B10]. cbn. lia.
Qed.

(** ** No bar depends on what follows it *)

Definition grows {A} (l l' : list A) : Prop := exists k, l' = l ++ k.
Lemma grows_refl {A} (l : list A) : grows l l.
Proof. exists []. by rewrite app_nil_r. Qed.
Lemma grows_snoc {A} (l k : list A) : grows l (l ++ k).
Proof. by exists k. Qed.
Lemma grows_trans {A} (a b c : list A) : grows a b -> grows b c -> grows a c.
Proof. intros (k & ->) (m & ->). exists (k ++ m). by rewrite app_assoc. Qed.

(** What a later state keeps of an earlier one. *)
Record keeps (s s' : RunState) : Prop := mk_keeps {
  kp_trades : grows (rs_trades s) (rs_trades s'); kp_rejected : grows (rs_rejected s) (rs_rejected s');
  kp_audit : grows (rs_audit s) (rs_audit s'); kp_observations : grows (rs_observations s) (rs_observations s');
  kp_breakouts : grows (rs_false_breakouts s) (rs_false_breakouts s')
}.
Create HintDb grows discriminated.
#[local] Hint Resolve grows_refl grows_snoc : grows.

Lemma keeps_refl s : keeps s s.
Proof. split; auto with grows. Qed.
Lemma keeps_trans a b c : keeps a b -> keeps b c -> keeps a c.
Proof. intros [] []. split; by eapply grows_trans. Qed.

Section Causality.
Context (cfg : BacktestConfig) (symbol timeframe : string).

Lemma enter_keeps index c s s' : enter_block cfg index c s = Ok s' -> keeps s s' /\ rs_equity s' = rs_equity s.
Proof.
  unfold enter_block. intros H. destruct (rs_pending s) as [[i observation]|], (rs_open s);
    try (apply mret_Ok in H as <-; by split; [apply keeps_refl|]).
  apply bind_Ok in H as (blockers & _ & H). destruct (negb _).
  - apply mret_Ok in H as <-. split; [|done]. split; cbn; auto with grows.
  - guards H. apply mret_Ok in H as <-. split; [|done]. split; cbn; auto with grows.
Qed.

Lemma close_keeps c reason price o breakouts s s' : close_block cfg c reason price o breakouts s = Ok s' ->
  keeps s s' /\ rs_equity s' = rs_equity s.
Proof.
  unfold close_block. intros H. guards H. apply mret_Ok in H as <-. split; [|done]. split; cbn; auto with grows.
Qed.

Lemma manage_keeps c s s' : manage_block cfg c s = Ok s' -> keeps s s' /\ rs_equity s' = rs_equity s.
Proof.
  unfold manage_block. intros H. destruct (rs_open s) as [o|]; [|apply mret_Ok in H as <-; by split; [apply keeps_refl|]].
  apply bind_Ok in H as (o' & _ & H). apply bind_Ok in H as (event & _ & H). destruct event as [[reason price]|].
  - destruct (staged_target reason o'); [|by eapply close_keeps].
    guards H. apply mret_Ok in H as <-. split; [|done]. split; cbn; auto with grows.
  - guards H. apply mret_Ok in H as <-. split; [|done]. split; cbn; auto with grows.
Qed.

Lemma signal_keeps index c intent s s' : signal_block symbol timeframe index c intent s = Ok s' ->
  keeps s s' /\ rs_equity s' = rs_equity s.
Proof.
  unfold signal_block. intros H. destruct intent as [i0|].
  2: { apply mret_Ok in H as <-. split; [|done]. split; cbn; auto with grows. }
  do 2 (apply bind_Ok in H as (? & _ & H)). cbv zeta in H. apply bind_Ok in H as (stages & _ & H). destruct (negb _).
  - apply mret_Ok in H as <-. split; [|done]. split; cbn; auto with grows.
  - guards H. apply mret_Ok in H as <-. split; [|done]. split; cbn; auto with grows.
Qed.

Lemma bar_keeps provider history index c s s' : bar cfg symbol timeframe provider history index c s = Ok s' ->
  keeps s s' /\ exists p, rs_equity s' = rs_equity s ++ [p].
Proof.
  unfold bar. intros H. apply bind_Ok in H as (s1 & H1 & H). apply enter_keeps in H1 as (K1 & E1).
  apply bind_Ok in H as (s2 & H2 & H). apply manage_keeps in H2 as (K2 & E2).
  apply bind_Ok in H as (s3 & H3 & H). apply bind_Ok in H as (intent & _ & H). apply signal_keeps in H as (K4 & E4).
  unfold equity_block in H3. apply bind_Ok in H3 as (p & _ & H3). apply mret_Ok in H3 as <-. split.
  - eapply keeps_trans; [exact K1|]. eapply keeps_trans; [exact K2|]. eapply keeps_trans; [|exact K4].
    split; cbn; auto with grows.
  - exists p. by rewrite E4, <- E1, <- E2.
Qed.

Lemma run_bars_keeps provider all rest : forall index s s', run_bars cfg symbol timeframe provider all index rest s = Ok s' ->
  keeps s s' /\ exists points, rs_equity s' = rs_equity s ++ points /\ length points = length rest.
Proof.
  induction rest as [|c rest IH]; intros index s s' H; cbn [run_bars] in H.
  - apply mret_Ok in H as <-. split; [apply keeps_refl|]. exists []. by rewrite app_nil_r.
  - apply bind_Ok in H as (s1 & H1 & H). apply bar_keeps in H1 as (K1 & p & E1). apply IH in H as (K2 & points & E2 & El).
    split; [by eapply keeps_trans|]. exists (p :: points). rewrite E2, E1, <- app_assoc. cbn. by rewrite El.
Qed.

Lemma run_bars_app provider all a : forall b index s, run_bars cfg symbol timeframe provider all index (a ++ b) s
  = (s ← run_bars cfg symbol timeframe provider all index a s;
     run_bars cfg symbol timeframe provider all (index + length a) b s).
Proof.
  induction a as [|c a IH]; intros b index s; cbn [run_bars app length]; [by rewrite Nat.add_0_r|].
  destruct (bar _ _ _ _ _ _ _ _) as [s1|]; [|done]. rewrite !Ok_bind, IH. by rewrite Nat.add_succ_r.
Qed.

(** The bars of a prefix see only the prefix. *)
Lemma run_bars_prefix provider provider' pre post :
  (forall n, (n <= length pre)%nat -> provider (firstn n pre) = provider' (firstn n pre)) ->
  forall rest past s, pre = past ++ rest ->
  run_bars cfg symbol timeframe provider (pre ++ post) (length past) rest s
  = run_bars cfg symbol timeframe provider' pre (length past) rest s.
Proof.
  intros Hp. induction rest as [|c rest IH]; intros past s E; [done|]. cbn [run_bars].
  assert ((S (length past) <= length pre)%nat) as Hle by (rewrite E, length_app; cbn; lia).
  assert (bar cfg symbol timeframe provider (firstn (S (length past)) (pre ++ post)) (Z.of_nat (length past)) c s
    = bar cfg symbol timeframe provider' (firstn (S (length past)) pre) (Z.of_nat (length past)) c s) as ->.
  { rewrite firstn_app. replace (S (length past) - length pre)%nat with 0%nat by lia. rewrite firstn_O, app_nil_r.
    unfold bar. by rewrite Hp. }
  destruct (bar _ _ _ _ _ _ _ _) as [s1|]; [|done]. rewrite !Ok_bind.
  specialize (IH (past ++ [c]) s1). rewrite length_app in IH. cbn in IH. rewrite Nat.add_1_r in IH. apply IH.
  by rewrite <- app_assoc.
Qed.

Lemma finish_keeps last s s' : finish_open cfg last s = Ok s' ->
  keeps s s' /\ exists p, rs_equity s' = rs_equity s \/ rs_equity s' = removelast (rs_equity s) ++ [p].
Proof.
  unfold finish_open. intros H. destruct (rs_open s) as [o|].
  2: { apply mret_Ok in H as <-. split; [apply keeps_refl|]. exists (mk_equity (utc 0) ZERO ZERO). by left. }
  cbn [end_of_data_exit] in H. apply bind_Ok in H as (s1 & H1 & H). apply close_keeps in H1 as (K & E).
  apply bind_Ok in H as (p & _ & H). apply mret_Ok in H as <-. split; [|exists p; right; cbn; by rewrite E].
  eapply keeps_trans; [exact K|]. split; cbn; auto with grows.
Qed.

Lemma finish_pending_keeps count s : keeps s (finish_pending count s) /\ rs_equity (finish_pending count s) = rs_equity s.
Proof.
  unfold finish_pending. destruct (rs_pending s) as [[i observation]|]; [|split; [apply keeps_refl|done]].
  split; [|done]. split; cbn; auto with grows.
Qed.
End Causality.

(** C22: a backtest does not look ahead.  When a run over [pre ++ post] succeeds, the
    bars of [pre] alone reach a state, for any provider that answers alike on the
    prefixes of [pre], and the result keeps all that this state has recorded: its
    trades, rejections, observations, audit events and false breakouts are prefixes
    of the result's, and so is its equity when bars follow. *)
Theorem backtest_causal square cfg symbol timeframe pre post provider provider' r :
  run square cfg symbol timeframe (pre ++ post) provider = Ok r ->
  (forall n, (n <= length pre)%nat -> provider (firstn n pre) = provider' (firstn n pre)) ->
  exists s, run_bars cfg symbol timeframe provider' pre 0 pre (initial_state cfg) = Ok s
  /\ grows (rs_trades s) (br_trades r) /\ grows (rs_rejected s) (br_rejected r)
  /\ grows (rs_observations s) (br_observations r) /\ grows (rs_audit s) (br_audit r)
  /\ grows (rs_false_breakouts s) (br_false_breakouts r)
  /\ (post <> [] -> grows (rs_equity s) (br_equity r)).
Proof.
  unfold run. intros H Hp. apply bind_Ok in H as (u & _ & H). apply bind_Ok in H as (s2 & Hs & H).
  rewrite run_bars_app in Hs. apply bind_Ok in Hs as (s & Hs & Hs2).
  rewrite (run_bars_prefix cfg symbol timeframe provider provider' pre post Hp pre []) in Hs by done.
  exists s. split; [done|]. apply run_bars_keeps in Hs2 as (K1 & points & E1 & El).
  destruct (pre ++ post) as [|first rest] eqn:Ec; [done|]. rewrite <- Ec in *.
  destruct (List.last (map Some (pre ++ post)) None) as [last|]; [|done].
  apply bind_Ok in H as (s3 & Hf & H). apply finish_keeps in Hf as (K2 & p & E3).
  destruct (finish_pending_keeps (Z.of_nat (length (pre ++ post))) s2) as (K3 & E2). rewrite E2 in E3.
  pose proof (keeps_trans _ _ _ K1 (keeps_trans _ _ _ K3 K2)) as [G1 G2 G3 G4 G5].
  unfold result_of in H. do 8 (apply bind_Ok in H as (? & ? & H)). apply mret_Ok in H as <-.
  match goal with Ho : new_observations _ = Ok _ |- _ => unfold new_observations in Ho; guards Ho; apply mret_Ok in Ho as <- end.
  cbn. do 5 (split; [done|]). intros Hpost. destruct E3 as [->|E3]; [by exists points|]. rewrite E3, E1.
  destruct points as [|q points _] using rev_ind; [by destruct post|].
  rewrite app_assoc, removelast_last, <- app_assoc. by eexists.
Qed.

(** ** Examples *)

Definition ex_square (x : float) : res float := mret (fmul x x).
Definition ex_candles : list OHLCVCandle :=
  [ex_bar 1 99 101 98 100; ex_bar 2 100 105 99 104; ex_bar 3 104 112 103 111; ex_bar 4 111 113 100 101].
(** A signal on the first two bars: the first is traded, the second refused. *)
Definition ex_provider (history : list OHLCVCandle) : res (option BacktestIntent) :=
  mret (match length history with
        | 1%nat => Some (ex_signal 1 [])
        | 2%nat => Some (ex_signal 2 [])
        | _ => None
        end).

Lemma backtest_accounts_witness : exists r, run ex_square ex_backtest "BTCUSDT" "1m" ex_candles ex_provider = Ok r
  /\ length (br_trades r) = 1%nat /\ length (br_rejected r) = 1%nat
  /\ map tr_exit_reason (br_trades r) = [TARGET] /\ map rj_blockers (br_rejected r) = [["POSITION_ALREADY_OPEN"]]
  /\ br_no_trade_count r + 1 + 1 = 4.
Proof.
  eexists. split; [vm_compute; reflexivity|]. do 4 (split; [vm_compute; reflexivity|]).
  refine (proj1 (backtest_accounts ex_square ex_backtest "BTCUSDT" "1m" ex_candles ex_provider _ _)).
  vm_compute. reflexivity.
Defined.

(** Another provider, that fails once it has seen the fourth bar. *)
Definition ex_other (history : list OHLCVCandle) : res (option BacktestIntent) :=
  if (3 <? length history)%nat then Raise TypeError else ex_provider history.
Lemma backtest_causal_witness : exists r s, run ex_square ex_backtest "BTCUSDT" "1m" ex_candles ex_provider = Ok r
  /\ run_bars ex_backtest "BTCUSDT" "1m" ex_other (firstn 3 ex_candles) 0 (firstn 3 ex_candles) (initial_state ex_backtest) = Ok s
  /\ length (rs_trades s) = 1%nat /\ grows (rs_trades s) (br_trades r) /\ grows (rs_equity s) (br_equity r).
Proof.
  eexists. edestruct (backtest_causal ex_square ex_backtest "BTCUSDT" "1m" (firstn 3 ex_candles) (skipn 3 ex_candles)
    ex_provider ex_other) as (s & Hs & G1 & _ & _ & _ & _ & G6); [vm_compute; reflexivity| |].
  - intros [|[|[|[|n]]]] Hn; reflexivity.
  - exists s. split; [vm_compute; reflexivity|]. split; [exact Hs|]. split; [|split; [exact G1|apply G6; discriminate]].
    assert (E := Hs). vm_compute in E. injection E as <-. reflexivity.
Defined.
