(* ===== verification/Journal.v ===== *)
(** [events/journal.py], [DiskEventJournal]: the append-only JSON-lines file of
    hash-linked events shared by several processes, each with a cached tail,
    and its checkpoint. *)
From S2P Require Import Prelude PyDecimal DecimalFacts DecimalText Sha256 PyText JsonText IsoTime Events.
Local Open Scope Z_scope.
Local Open Scope bool_scope.

(** ** The file system *)

(** What [os.fstat] and the NTFS change journal say of one version of a file. *)
Record file_stat : Type := mk_stat {
  st_dev : Z; st_ino : Z; st_mtime_ns : Z; st_ctime_ns : Z; file_usn : option Z
}.

Record file : Type := mk_file { content : list ascii; stat : file_stat }.

Record JournalFileSignature : Type := mk_signature {
  sig_dev : Z; sig_ino : Z; sig_size : Z; sig_mtime_ns : Z; sig_ctime_ns : Z;
  change_token : option Z
}.

#[export] Instance JournalFileSignature_eq_dec : EqDecision JournalFileSignature.
Proof. solve_decision. Defined.

Definition size (f : file) : Z := Z.of_nat (length (content f)).

(** [_file_change_token]; [nt] is [os.name == "nt"], where the token is what the
    device call returned. *)
Definition _file_change_token (nt : bool) (st : file_stat) : option Z :=
  if nt then file_usn st else Some (st_ctime_ns st).

(** [_file_signatures_allow_cache_reuse] *)
Definition _file_signatures_allow_cache_reuse (cached current : option JournalFileSignature) : bool :=
  match cached, current with
  | Some a, Some b =>
      match change_token a, change_token b with
      | Some _, Some _ => bool_decide (a = b)
      | _, _ => false
      end
  | _, _ => false
  end.

(** The outcome of writing bytes to the end of the file: refused before a byte
    was written, broken off with an [OSError] after some of them (all of them
    when only [fsync] failed), or complete. *)
Inductive write_outcome : Type :=
| Refused
| BrokenOff (reached : nat) (st : file_stat)
| Written (st : file_stat).

(** ** Records *)

(** The identities are a set; the order of the list plays no part. *)
Record _JournalAppendState : Type := mk_append_state {
  event_count : Z;
  tail_ids : list string;
  latest_event : option DomainEvent;
  file_signature : option JournalFileSignature
}.

(** [_JournalAppendState.record] *)
Definition record (e : DomainEvent) (s : option JournalFileSignature) (st : _JournalAppendState) : _JournalAppendState :=
  mk_append_state (event_count st + 1) (tail_ids st ++ [event_id e]) (Some e) s.

(** [_JournalAppendState.validate] *)
Definition validate (e : DomainEvent) (capacity : Z) (st : _JournalAppendState) : res unit :=
  _validate_next_event e capacity (event_count st) (tail_ids st) (latest_event st).

Record JournalCheckpoint : Type := mk_checkpoint {
  cp_sequence : Z; cp_event_hash : string; cp_created_at : datetime; cp_schema_version : string
}.

(** [JournalCheckpoint.__post_init__] *)
Definition new_checkpoint (c : JournalCheckpoint) : res JournalCheckpoint :=
  raise_if ((cp_sequence c <? 1) || negb (str_len (cp_event_hash c) =? 64))
    (ValueError "checkpoint sequence and event hash are invalid");;
  raise_if (naive (cp_created_at c)) (ValueError "checkpoint timestamp must be timezone-aware");;
  mret c.

Record JournalRecovery : Type := mk_recovery {
  recovered_events : list DomainEvent;
  recovered_checkpoint : option JournalCheckpoint;
  replay_from_sequence : Z;
  execution_allowed : bool;
  live_eligibility_status : string
}.

(** [JournalRecovery(events, checkpoint, replay_from)] *)
Definition recovery (es : list DomainEvent) (c : option JournalCheckpoint) (from : Z) : JournalRecovery :=
  mk_recovery es c from false LIVE_ORDER_BLOCKED.

(** [JournalRecovery.events_after_checkpoint] *)
Definition events_after_checkpoint (r : JournalRecovery) : list DomainEvent :=
  List.filter (fun e => replay_from_sequence r <=? sequence e) (recovered_events r).

Record journal_config : Type := mk_config {
  nt : bool;
  maximum_event_bytes : Z;
  maximum_journal_bytes : Z
}.

(** [DiskEventJournal.__post_init__] *)
Definition new_journal (c : journal_config) : res journal_config :=
  raise_if ((Z.min (maximum_event_bytes c) (maximum_journal_bytes c) <? 256)
            || (maximum_journal_bytes c <? maximum_event_bytes c))
    (ValueError "journal size limits are invalid");;
  mret c.

(** ** Decoding *)

(** [except (KeyError, TypeError, ValueError, json.JSONDecodeError)] *)
Definition is_decode_error (e : exn) : bool :=
  match e with KeyError | TypeError | ValueError _ => true | _ => false end.

(** [(str(item[0]), str(item[1]))] *)
Definition decode_item (item : json) : res (string * string) :=
  k ← subscript 0 item; v ← subscript 1 item; mret (py_str k, py_str v).

(** [DiskEventJournal._decode_event] *)
Definition _decode_event (j : json) : res DomainEvent :=
  match j with
  | JObj fields =>
      raw_payload ← lookup "payload" fields;
      match raw_payload with
      | JList items =>
          event_payload ← mapM decode_item items;
          id ← text_field "event_id" fields;
          agg ← text_field "aggregate_id" fields;
          ty ← text_field "event_type" fields;
          seq ← (lookup "sequence" fields ≫= py_int);
          at_ ← (text_field "occurred_at" fields ≫= fromisoformat);
          prev ← text_field "previous_hash" fields;
          hash ← text_field "event_hash" fields;
          new_event (mk_event id agg ty seq at_ event_payload prev hash)
      | _ => Raise TypeError
      end
  | _ => Raise TypeError
  end.

(** [bytes.splitlines()] *)
Definition newline : ascii := ascii_of_N 10.
Definition carriage_return : ascii := ascii_of_N 13.

Fixpoint lines_from (line : list ascii) (l : list ascii) : list (list ascii) :=
  match l with
  | [] => if is_nil line then [] else [rev line]
  | c :: l' =>
      if Ascii.eqb c newline then rev line :: lines_from [] l'
      else if Ascii.eqb c carriage_return then
        rev line :: match l' with
                    | d :: l'' => if Ascii.eqb d newline then lines_from [] l'' else lines_from [] l'
                    | [] => []
                    end
      else lines_from (c :: line) l'
  end.
Definition splitlines (l : list ascii) : list (list ascii) := lines_from [] l.

(** ** The journal object *)

(** The files, and the object's own [_append_state]. *)
Record journal : Type := mk_journal {
  journal_file : option file;
  checkpoint_file : option (list ascii);
  _append_state : option _JournalAppendState
}.

Definition set_append_state (s : option _JournalAppendState) (j : journal) : journal :=
  mk_journal (journal_file j) (checkpoint_file j) s.

Definition event_json (e : DomainEvent) : json :=
  JObj [ ("aggregate_id", JStr (aggregate_id e)); ("event_hash", JStr (event_hash e));
         ("event_id", JStr (event_id e)); ("event_type", JStr (event_type e));
         ("occurred_at", JStr (isoformat (occurred_at e))); ("payload", payload_json (payload e));
         ("previous_hash", JStr (previous_hash e)); ("sequence", JInt (sequence e)) ].

Definition event_line (e : DomainEvent) : list ascii := dump (event_json e) ++ [newline].

Section Journal.

Context (cfg : journal_config).

(** [DiskEventJournal._capacity] *)
Definition _capacity : Z := Z.min 1000000 (Z.max 1 (maximum_journal_bytes cfg / 256)).

(** [DiskEventJournal._encode_event] *)
Definition _encode_event (e : DomainEvent) : res (list ascii) :=
  let encoded := event_line e in
  raise_if (maximum_event_bytes cfg <? Z.of_nat (length encoded))
    (OverflowError "event record exceeds byte capacity");;
  mret encoded.

(** [DiskEventJournal._file_signature_unlocked] *)
Definition signature (f : file) : JournalFileSignature :=
  mk_signature (st_dev (stat f)) (st_ino (stat f)) (size f) (st_mtime_ns (stat f)) (st_ctime_ns (stat f))
    (_file_change_token (nt cfg) (stat f)).

Definition _file_signature_unlocked (f : option file) : option JournalFileSignature :=
  signature <$> f.

(** One line of the loop of [_load_unlocked]. *)
Definition decode_line (line_number : Z) (raw_line : list ascii) : res DomainEvent :=
  raise_if (is_nil raw_line || (maximum_event_bytes cfg <? Z.of_nat (length raw_line) + 1))
    (EventJournalCorruptionError ("event record " ++ str_int line_number ++ " is empty or oversized"));;
  catch (payload ← loads raw_line; _decode_event payload) is_decode_error
    (fun _ => Raise (EventJournalCorruptionError ("event record " ++ str_int line_number ++ " is invalid"))).

Fixpoint decode_lines (line_number : Z) (lines : list (list ascii)) : res (list DomainEvent) :=
  match lines with
  | [] => mret []
  | raw :: lines =>
      e ← decode_line line_number raw; es ← decode_lines (line_number + 1) lines; mret (e :: es)
  end.

(** [validator.replay(events)] of a new bus *)
Definition validate_chain (es : list DomainEvent) : res unit :=
  b ← new_bus _capacity;
  fst (Events.replay (fun _ _ => mret tt : method unit unit) es (b, tt)).

Definition is_chain_error (e : exn) : bool :=
  match e with OverflowError _ | ValueError _ => true | _ => false end.

Definition ends_with_newline (l : list ascii) : bool :=
  match last l with Some c => Ascii.eqb c newline | None => false end.

(** The contents of a journal file. *)
Definition parse_journal (data : list ascii) : res (list DomainEvent) :=
  raise_if (maximum_journal_bytes cfg <? Z.of_nat (length data))
    (EventJournalCorruptionError "event journal exceeds byte capacity");;
  raise_if (negb (is_nil data) && negb (ends_with_newline data))
    (EventJournalCorruptionError "event journal has a partial final record");;
  events ← decode_lines 1 (splitlines data);
  catch (validate_chain events) is_chain_error
    (fun _ => Raise (EventJournalCorruptionError "event journal chain is invalid"));;
  mret events.

Definition loaded_state (es : list DomainEvent) (s : option JournalFileSignature) : _JournalAppendState :=
  mk_append_state (Z.of_nat (length es)) (map event_id es) (last es) s.

(** [_load_unlocked], with the file as each of its three accesses finds it. *)
Definition load_observed (first data_ final : option file) : method journal (list DomainEvent) :=
  modify (set_append_state None);;
  match _file_signature_unlocked first with
  | None =>
      modify (set_append_state (Some (mk_append_state 0 [] None None)));; mret []
  | initial_signature =>
      match data_ with
      | None => lift (Raise OSError)
      | Some f =>
          let final_signature := _file_signature_unlocked final in
          lift (raise_if (negb (bool_decide (final_signature = initial_signature)))
            (EventJournalCorruptionError "event journal changed during validation"));;
          events ← lift (parse_journal (content f));
          modify (set_append_state (Some (loaded_state events final_signature)));;
          mret events
      end
  end.

(** Under the file lock every access finds the same file. *)
Definition _load_unlocked : method journal (list DomainEvent) :=
  j ← get; load_observed (journal_file j) (journal_file j) (journal_file j).

(** [_append_state_for_current_file_unlocked] *)
Definition _append_state_for_current_file_unlocked : method journal _JournalAppendState :=
  j ← get;
  let current := _file_signature_unlocked (journal_file j) in
  match _append_state j with
  | Some st =>
      if _file_signatures_allow_cache_reuse (file_signature st) current then mret st
      else
        _load_unlocked;; j ← get;
        match _append_state j with
        | Some st => mret st
        | None => lift (Raise (RuntimeError "event journal append state was not initialized"))
        end
  | None =>
      _load_unlocked;; j ← get;
      match _append_state j with
      | Some st => mret st
      | None => lift (Raise (RuntimeError "event journal append state was not initialized"))
      end
  end.

Definition old_content (f : option file) : list ascii := match f with Some f => content f | None => [] end.

(** [open("ab")]: the bytes go to the end of the file, which is created when
    there is none. *)
Definition write_file (bytes : list ascii) (st : file_stat) (j : journal) : journal :=
  mk_journal (Some (mk_file (old_content (journal_file j) ++ bytes) st)) (checkpoint_file j) (_append_state j).

(** [_append_validated_unlocked]; [out] is what the operating system does. *)
Definition _append_validated_unlocked (e : DomainEvent) (state : _JournalAppendState) (out : write_outcome) :
  method journal unit :=
  lift (validate e _capacity state);;
  encoded ← lift (_encode_event e);
  j ← get;
  lift (raise_if (maximum_journal_bytes cfg <?
                  Z.of_nat (length (old_content (journal_file j))) + Z.of_nat (length encoded))
    (OverflowError "event journal byte capacity exceeded"));;
  match out with
  | Refused => lift (Raise OSError)
  | BrokenOff reached st => modify (write_file (firstn reached encoded) st);; lift (Raise OSError)
  | Written st =>
      modify (write_file encoded st);;
      j ← get;
      match _file_signature_unlocked (journal_file j) with
      | None => lift (Raise (RuntimeError "event journal append destination is unavailable"))
      | s => modify (set_append_state (Some (record e s state)))
      end
  end.

(** [append] *)
Definition append (e : DomainEvent) (out : write_outcome) : method journal unit :=
  state ← _append_state_for_current_file_unlocked;
  _append_validated_unlocked e state out.

(** [append_next] *)
Definition append_next (event_factory : Z -> string -> res DomainEvent) (out : write_outcome) :
  method journal DomainEvent :=
  state ← _append_state_for_current_file_unlocked;
  e ← lift (event_factory (event_count state + 1)
              (match latest_event state with Some l => event_hash l | None => GENESIS end));
  _append_validated_unlocked e state out;;
  mret e.

(** [load] *)
Definition load : method journal (list DomainEvent) := _load_unlocked.

(** [_read_checkpoint_unlocked] *)
Definition decode_checkpoint (data : list ascii) : res JournalCheckpoint :=
  catch
    (payload ← loads data;
     match payload with
     | JObj fields =>
         seq ← (lookup "sequence" fields ≫= py_int);
         hash ← text_field "event_hash" fields;
         at_ ← (text_field "created_at" fields ≫= fromisoformat);
         schema ← text_field "schema_version" fields;
         new_checkpoint (mk_checkpoint seq hash at_ schema)
     | _ => Raise TypeError
     end)
    is_decode_error
    (fun _ => Raise (EventJournalCorruptionError "checkpoint is invalid")).

Definition _read_checkpoint_unlocked (f : option (list ascii)) : res (option JournalCheckpoint) :=
  match f with None => mret None | Some data => Some <$> decode_checkpoint data end.

(** [recover] *)
Definition recover : method journal JournalRecovery :=
  events ← _load_unlocked;
  j ← get;
  checkpoint ← lift (_read_checkpoint_unlocked (checkpoint_file j));
  match checkpoint with
  | None => mret (recovery events None 1)
  | Some c =>
      lift (raise_if (Z.of_nat (length events) <? cp_sequence c)
        (EventJournalCorruptionError "checkpoint sequence exceeds journal"));;
      match nth_error events (Z.to_nat (cp_sequence c - 1)) with
      | None => lift (Raise IndexError)
      | Some matched =>
          lift (raise_if (negb (String.eqb (event_hash matched) (cp_event_hash c)))
            (EventJournalCorruptionError "checkpoint hash does not match journal"));;
          mret (recovery events (Some c) (cp_sequence c + 1))
      end
  end.

Definition checkpoint_json (c : JournalCheckpoint) : json :=
  JObj [ ("created_at", JStr (isoformat (cp_created_at c))); ("event_hash", JStr (cp_event_hash c));
         ("schema_version", JStr (cp_schema_version c)); ("sequence", JInt (cp_sequence c)) ].

Definition checkpoint_text (c : JournalCheckpoint) : list ascii := dump (checkpoint_json c) ++ [newline].

(** [checkpoint]: the new file replaces the old one at once, or an [OSError]
    leaves it alone. *)
Definition checkpoint (created_at : option datetime) (now : datetime) (replaced : bool) :
  method journal JournalCheckpoint :=
  events ← _load_unlocked;
  match last events with
  | None => lift (Raise (ValueError "cannot checkpoint an empty journal"))
  | Some latest =>
      c ← lift (new_checkpoint (mk_checkpoint (sequence latest) (event_hash latest) (default now created_at) "1.0"));
      lift (raise_if (negb replaced) OSError);;
      modify (fun j => mk_journal (journal_file j) (Some (checkpoint_text c)) (_append_state j));;
      mret c
  end.

End Journal.

(** ** The text of an event *)

(** An event the constructor accepts, with ASCII text and a calendar time. *)
Definition storable (e : DomainEvent) : bool :=
  is_ok (new_event e) && isascii (event_id e) && isascii (aggregate_id e)
  && isascii (event_type e) && isascii (previous_hash e)
  && forallb (fun kv => isascii kv.1 && isascii kv.2) (payload e)
  && dt_valid (occurred_at e) && (sequence e <=? 1000000).

Lemma new_event_Ok e e' : new_event e = Ok e' ->
  e' = e /\ 1 <= sequence e /\ naive (occurred_at e) = false /\ event_hash e = event_digest e /\
  blank (event_id e) = false.
Proof. unfold new_event. intros H. inv_res. zify_bool. subst. auto. Qed.

Lemma storable_spec e : storable e = true ->
  new_event e = Ok e /\ isascii (event_id e) = true /\ isascii (aggregate_id e) = true /\
  isascii (event_type e) = true /\ isascii (previous_hash e) = true /\ isascii (event_hash e) = true /\
  forallb (fun kv => isascii kv.1 && isascii kv.2) (payload e) = true /\
  dt_valid (occurred_at e) = true /\ 1 <= sequence e <= 1000000.
Proof.
  unfold storable. intros H. destruct (new_event e) as [e'|x] eqn:E; [|by cbn in H].
  apply new_event_Ok in E as E'. destruct E' as (-> & Hs & _ & Hh & _). inv_res. zify_bool.
  split_and!; try done. rewrite Hh. apply sha256_ascii.
Qed.

Lemma event_json_ok e : storable e = true -> json_ok (event_json e) = true.
Proof.
  intros (_ & H1 & H2 & H3 & H4 & H5 & H6 & H7 & H8)%storable_spec.
  unfold event_json. cbn [json_ok forallb fst snd map].
  rewrite H1, H2, H3, H4, H5, isoformat_ascii.
  assert (json_ok (payload_json (payload e)) = true) as ->.
  { unfold payload_json. cbn [json_ok]. clear -H6. induction (payload e) as [|kv p IH]; [done|].
    cbn [map forallb] in *. apply andb_true_iff in H6 as [[Hk Hv]%andb_true_iff Hp].
    cbn [json_ok forallb]. by rewrite Hk, Hv, IH. }
  pose proof (small_int_ok (sequence e) ltac:(lia)) as Hi. cbn [json_ok] in Hi. rewrite Hi.
  vm_compute. reflexivity.
Qed.

Lemma decode_payload p : mapM decode_item (map (fun kv : string * string => JList [JStr kv.1; JStr kv.2]) p) = Ok p.
Proof.
  apply Ok_mapM. induction p as [|[k v] p IH]; constructor; done.
Qed.

Lemma decode_event_json e : storable e = true -> _decode_event (event_json e) = Ok e.
Proof.
  intros (H & _ & _ & _ & _ & _ & _ & Ht & _)%storable_spec.
  unfold event_json, _decode_event, text_field, lookup. cbn [dict_get].
  cbn -[isoformat fromisoformat decode_item new_event payload_json].
  unfold payload_json. rewrite decode_payload, Ok_bind, fromisoformat_isoformat by done. rewrite Ok_bind.
  by destruct e.
Qed.

(** ** Reading back a journal *)

Definition event_chars (e : DomainEvent) : list ascii := dump (event_json e).
Definition journal_text (es : list DomainEvent) : list ascii := flat_map event_line es.

Lemma lines_from_text l : forall line rest, forallb printable l = true ->
  lines_from line (l ++ newline :: rest) = (rev line ++ l) :: lines_from [] rest.
Proof.
  induction l as [|c l IH]; intros line rest H.
  { cbn [app lines_from]. by rewrite Ascii.eqb_refl, app_nil_r. }
  cbn [forallb] in H. apply andb_true_iff in H as [Hc Hl]. cbn [app lines_from].
  assert (Ascii.eqb c newline = false /\ Ascii.eqb c carriage_return = false) as [-> ->].
  { split; apply Ascii.eqb_neq; intros ->; discriminate Hc. }
  rewrite IH by done. cbn [rev]. by rewrite <- app_assoc.
Qed.

Lemma splitlines_journal es : splitlines (journal_text es) = map event_chars es.
Proof.
  unfold splitlines. induction es as [|e es IH]; [done|]. unfold journal_text, event_line in *. cbn [flat_map map].
  rewrite <- app_assoc. cbn [app]. rewrite lines_from_text by apply dump_printable. by rewrite IH.
Qed.

Section Facts.

Context (cfg : journal_config).

(** One event fits a record of the journal. *)
Definition fits (e : DomainEvent) : Prop :=
  storable e = true /\ Z.of_nat (length (event_line e)) <= maximum_event_bytes cfg.

Record stored (es : list DomainEvent) : Prop := mk_stored {
  stored_chain : chain es;
  stored_fits : Forall fits es;
  stored_count : Z.of_nat (length es) <= _capacity cfg;
  stored_size : Z.of_nat (length (journal_text es)) <= maximum_journal_bytes cfg
}.

Lemma event_line_length e : length (event_line e) = S (length (event_chars e)).
Proof. unfold event_line, event_chars. rewrite length_app. cbn [length]. lia. Qed.

Lemma decode_line_event n e : fits e -> decode_line cfg n (event_chars e) = Ok e.
Proof.
  intros [Hs Hl]. rewrite event_line_length in Hl. unfold decode_line.
  destruct (dump_opens escape_char [] (event_json e)) as (c & t & E & _).
  assert (is_nil (event_chars e) || (maximum_event_bytes cfg <? Z.of_nat (length (event_chars e)) + 1) = false) as ->.
  { unfold event_chars, dump in *. rewrite E in *. apply Z.ltb_ge. cbn [is_nil orb]. lia. }
  cbn [raise_if]. rewrite Ok_bind. unfold event_chars. clear E.
  rewrite <- (app_nil_r (dump _)), loads_dump by (done || by apply event_json_ok).
  rewrite Ok_bind, decode_event_json by done. done.
Qed.

Lemma decode_lines_events es : Forall fits es -> forall n, decode_lines cfg n (map event_chars es) = Ok es.
Proof.
  induction 1 as [|e es He _ IH]; intros n; [done|]. cbn [map decode_lines].
  by rewrite decode_line_event, Ok_bind, IH, Ok_bind.
Qed.

Lemma capacity_bounds : 1 <= _capacity cfg <= 1000000.
Proof. unfold _capacity. lia. Qed.

Lemma new_bus_capacity : new_bus (_capacity cfg) = Ok (mk_bus (_capacity cfg) [] [] []).
Proof.
  unfold new_bus. pose proof capacity_bounds.
  assert (negb ((1 <=? _capacity cfg) && (_capacity cfg <=? 1000000)) = false) as -> by lia. done.
Qed.

Lemma validate_chain_Ok es : chain es -> Z.of_nat (length es) <= _capacity cfg -> validate_chain cfg es = Ok tt.
Proof.
  intros Hc Hl. unfold validate_chain. rewrite new_bus_capacity, Ok_bind.
  rewrite replay_quiet; [done|done| |done|done].
  split; [constructor|done|]. cbn. pose proof capacity_bounds. lia.
Qed.

Lemma validate_chain_sound es u : validate_chain cfg es = Ok u -> chain es.
Proof.
  unfold validate_chain. rewrite new_bus_capacity, Ok_bind. destruct (Events.replay _ es _) as [r [b w]] eqn:E.
  cbn [fst]. intros ->. destruct u. apply replay_sound in E as [[Hc _ _] He]; [by rewrite He in Hc|].
  split; [constructor|done|]. cbn. pose proof capacity_bounds. lia.
Qed.

Lemma last_snoc {A} (l : list A) x : last (l ++ [x]) = Some x.
Proof. by rewrite last_app. Qed.

Lemma journal_text_snoc es e : journal_text (es ++ [e]) = journal_text es ++ event_line e.
Proof. unfold journal_text. rewrite flat_map_app. cbn [flat_map]. by rewrite app_nil_r. Qed.

Lemma journal_text_ends es : es <> [] -> ends_with_newline (journal_text es) = true.
Proof.
  destruct es as [|e es] using rev_ind; [done|]. intros _. rewrite journal_text_snoc.
  unfold ends_with_newline, event_line. rewrite app_assoc, last_snoc. apply Ascii.eqb_refl.
Qed.

Lemma parse_journal_text es : stored es -> parse_journal cfg (journal_text es) = Ok es.
Proof.
  intros [Hc Hf Hn Hs]. unfold parse_journal.
  rewrite (proj2 (Z.ltb_ge _ _) Hs). cbn [raise_if]. rewrite Ok_bind.
  assert (negb (is_nil (journal_text es)) && negb (ends_with_newline (journal_text es)) = false) as ->.
  { destruct es as [|e es]; [done|]. rewrite journal_text_ends by done. apply andb_false_r. }
  cbn [raise_if]. rewrite Ok_bind, splitlines_journal, decode_lines_events, Ok_bind by done.
  by rewrite validate_chain_Ok.
Qed.

(** A record broken off before its last byte is noticed on every load. *)
Lemma parse_journal_torn es part : part <> [] -> ends_with_newline part = false ->
  exists msg, parse_journal cfg (journal_text es ++ part) = Raise (EventJournalCorruptionError msg).
Proof.
  intros Hp He. unfold parse_journal. destruct (_ <? _); [by eexists|]. cbn [raise_if]. rewrite Ok_bind.
  assert (negb (is_nil (journal_text es ++ part)) && negb (ends_with_newline (journal_text es ++ part)) = true) as ->.
  { destruct part as [|c part] using rev_ind; [done|].
    unfold ends_with_newline in *. rewrite app_assoc, last_snoc in *. rewrite He.
    by destruct ((journal_text es ++ part) ++ [c]) eqn:E; [destruct (journal_text es ++ part)|]. }
  by eexists.
Qed.

End Facts.

(** ** The properties *)

(** C33: a journal text is read back.  The lines written for the events of a
    chain that fits the limits decode to exactly those events. *)
Theorem journal_roundtrip cfg es : stored cfg es -> parse_journal cfg (journal_text es) = Ok es.
Proof. apply parse_journal_text. Qed.

Lemma decode_lines_sound cfg lines : forall n es, decode_lines cfg n lines = Ok es ->
  length es = length lines /\ Forall (fun e => new_event e = Ok e) es.
Proof.
  induction lines as [|raw lines IH]; intros n es H; cbn [decode_lines] in H.
  { apply mret_Ok in H. by subst. }
  apply bind_Ok in H as (e & He & H). apply bind_Ok in H as (es' & Hes & H). apply mret_Ok in H. subst.
  destruct (IH _ _ Hes) as [IH1 IH2]. split; [cbn; by rewrite IH1|]. constructor; [|done].
  unfold decode_line in He. apply bind_Ok in He as (u & _ & He).
  apply catch_Ok in He as [He|(x & _ & _ & ?)]; [|done].
  apply bind_Ok in He as (p & _ & He). unfold _decode_event in He.
  destruct p as [| | | | |fields]; try done. apply bind_Ok in He as (rp & _ & He).
  destruct rp as [| | | |items|]; try done.
  do 8 (apply bind_Ok in He as (? & _ & He)). by destruct (new_event_Ok _ _ He) as (-> & _).
Qed.

(** Loading skips nothing and trusts nothing.  Whatever bytes the file has,
    a load that returns gives one event for every line, each accepted by the
    constructor with its own content hash, and together an unbroken chain. *)
Theorem load_never_skips cfg data es : parse_journal cfg data = Ok es ->
  length es = length (splitlines data) /\ Forall (fun e => new_event e = Ok e) es /\ chain es.
Proof.
  intros H. unfold parse_journal in H. apply bind_Ok in H as (? & _ & H). apply bind_Ok in H as (? & _ & H).
  apply bind_Ok in H as (es' & Hd & H). apply bind_Ok in H as (u & Hc & H). apply mret_Ok in H. subst es'.
  apply catch_Ok in Hc as [Hc|(y & _ & _ & ?)]; [|done].
  destruct (decode_lines_sound _ _ _ _ Hd). split; [done|]. split; [done|]. by eapply validate_chain_sound.
Qed.

(** A record can escape the corruption error.  A line whose payload holds an
    item with fewer than two entries makes [load] raise [IndexError], which is
    not among the exceptions turned into [EventJournalCorruptionError]. *)
Theorem short_item_escapes cfg : 256 <= maximum_event_bytes cfg -> 256 <= maximum_journal_bytes cfg ->
  parse_journal cfg (dump (JObj [("payload", JList [JList []])]) ++ [newline]) = Raise IndexError.
Proof.
  intros H1 H2. unfold parse_journal.
  set (data := _ ++ [newline]). assert (length data = 17%nat) as Hl by done. rewrite Hl.
  rewrite (proj2 (Z.ltb_ge _ _)) by lia.
  assert (negb (is_nil data) && negb (ends_with_newline data) = false) as -> by (vm_compute; reflexivity).
  cbn [raise_if]. rewrite !Ok_bind.
  assert (splitlines data = [removelast data]) as -> by (vm_compute; reflexivity).
  cbn [decode_lines]. unfold decode_line.
  assert (Z.of_nat (length (removelast data)) + 1 = 17) as -> by (vm_compute; reflexivity).
  rewrite (proj2 (Z.ltb_ge _ _)) by lia.
  assert (is_nil (removelast data) = false) as -> by (vm_compute; reflexivity).
  cbn [orb raise_if]. rewrite Ok_bind.
  assert ((payload ← loads (removelast data); _decode_event payload) = Raise IndexError) as -> by (vm_compute; reflexivity).
  done.
Qed.

(** ** Witnesses *)

Definition ex_config : journal_config := mk_config false 65536 134217728.
Lemma ex_stored : stored ex_config ex_chain.
Proof.
  split; [apply ex_chain_chain| | |].
  - repeat constructor; vm_compute; done.
  - vm_compute. discriminate.
  - vm_compute. discriminate.
Qed.

Definition ex_first : DomainEvent := Eval vm_compute in hd (ex_event "e" 1 [] GENESIS) ex_chain.

Lemma journal_roundtrip_witness : parse_journal ex_config (journal_text ex_chain) = Ok ex_chain.
Proof. apply (journal_roundtrip ex_config ex_chain). apply ex_stored. Defined.

Lemma load_never_skips_witness : length ex_chain = length (splitlines (journal_text ex_chain)) /\
  Forall (fun e => new_event e = Ok e) ex_chain /\ chain ex_chain.
Proof. apply (load_never_skips ex_config). vm_compute. reflexivity. Defined.

Lemma short_item_escapes_witness :
  parse_journal ex_config (dump (JObj [("payload", JList [JList []])]) ++ [newline]) = Raise IndexError.
Proof. apply (short_item_escapes ex_config); vm_compute; discriminate. Defined.
