(* ===== verification/JournalLog.v ===== *)
(** What [DiskEventJournal] promises when several processes share the file: a
    single append-only log, implemented through cached tails, change tokens and
    writes that may break off. *)
From S2P Require Import Prelude PyDecimal DecimalFacts DecimalText Sha256 PyText JsonText IsoTime Events Journal.
Local Open Scope Z_scope.
Local Open Scope bool_scope.

(** ** Several processes on one journal *)

Inductive call : Type :=
| Append (e : DomainEvent) (out : write_outcome)
| AppendNext (event_factory : Z -> string -> res DomainEvent) (out : write_outcome)
| Load
| Recover
| Checkpoint (created_at : option datetime) (now : datetime) (replaced : bool).

Inductive reply : Type :=
| Done
| AnEvent (e : DomainEvent)
| Loaded (es : list DomainEvent)
| Recovered (r : JournalRecovery)
| Checkpointed (c : JournalCheckpoint).

Definition exec (cfg : journal_config) (c : call) : method journal reply :=
  match c with
  | Append e out => append cfg e out;; mret Done
  | AppendNext factory out => e ← append_next cfg factory out; mret (AnEvent e)
  | Load => es ← load cfg; mret (Loaded es)
  | Recover => r ← recover cfg; mret (Recovered r)
  | Checkpoint at_ now replaced => c ← checkpoint cfg at_ now replaced; mret (Checkpointed c)
  end.

(** The files and every process's cached tail; [sys_clock] bounds the change
    tokens the operating system has given out. *)
Record system : Type := mk_system {
  sys_file : option file;
  sys_checkpoint : option (list ascii);
  sys_caches : N -> option _JournalAppendState;
  sys_clock : Z
}.

Definition outcome_stat (out : write_outcome) : option file_stat :=
  match out with Refused => None | BrokenOff _ st | Written st => Some st end.

Definition call_stat (c : call) : option file_stat :=
  match c with Append _ out | AppendNext _ out => outcome_stat out | _ => None end.

Definition call_token (cfg : journal_config) (c : call) : option Z :=
  st ← call_stat c; _file_change_token (nt cfg) st.

(** One call of process [i], alone under the file lock. *)
Definition sys_exec (cfg : journal_config) (i : N) (c : call) (s : system) : res reply * system :=
  let '(r, j) := exec cfg c (mk_journal (sys_file s) (sys_checkpoint s) (sys_caches s i)) in
  (r, mk_system (journal_file j) (checkpoint_file j)
        (fun k => if N.eqb k i then _append_state j else sys_caches s k)
        (Z.max (sys_clock s) (default (sys_clock s) (call_token cfg c)))).

(** A version of the file gets no change token an earlier version had. *)
Definition fresh_token (cfg : journal_config) (s : system) (c : call) : Prop :=
  match call_token cfg c with Some t => sys_clock s < t | None => True end.

(** Arguments are objects their constructors accept. *)
Definition call_ok (c : call) : Prop :=
  match c with
  | Append e _ => storable e = true
  | AppendNext factory _ => forall n h e, factory n h = Ok e -> storable e = true
  | Load | Recover => True
  | Checkpoint at_ now _ => dt_valid (default now at_) = true
  end.

(** *** What it promises: one append-only log *)

Record log : Type := mk_log {
  entries : list DomainEvent;
  damaged : bool;
  cursor : option JournalCheckpoint
}.

Definition log_admits (cfg : journal_config) (es : list DomainEvent) (e : DomainEvent) : res unit :=
  _validate_next_event e (_capacity cfg) (Z.of_nat (length es)) (map event_id es) (last es);;
  _encode_event cfg e;;
  raise_if (maximum_journal_bytes cfg <? Z.of_nat (length (journal_text es)) + Z.of_nat (length (event_line e)))
    (OverflowError "event journal byte capacity exceeded").

(** What an append that raised [OSError] may have done. *)
Definition may_leave (l : log) (e : DomainEvent) (es : list DomainEvent) (d : bool) : Prop :=
  (es = entries l /\ d = false) \/ (es = entries l ++ [e] /\ d = false) \/ (es = entries l /\ d = true).

(** An append: refused with its reason, acknowledged, or lost, when it may have
    happened, not happened, or damaged the log. *)
Inductive log_append (cfg : journal_config) (e : DomainEvent) (l : log) : bool -> res unit -> log -> Prop :=
| append_refused written x : log_admits cfg (entries l) e = Raise x ->
    log_append cfg e l written (Raise x) l
| append_written : log_admits cfg (entries l) e = Ok tt ->
    log_append cfg e l true (Ok tt) (mk_log (entries l ++ [e]) false (cursor l))
| append_lost es d : log_admits cfg (entries l) e = Ok tt ->
    may_leave l e es d ->
    log_append cfg e l false (Raise OSError) (mk_log es d (cursor l)).

Definition is_written (out : write_outcome) : bool := match out with Written _ => true | _ => false end.

(** The replies and successors of a log.  A damaged log answers every call with
    a corruption error. *)
Inductive log_step (cfg : journal_config) : log -> call -> res reply -> log -> Prop :=
| log_damaged l c msg : damaged l = true ->
    log_step cfg l c (Raise (EventJournalCorruptionError msg)) l
| log_appends l e out r l' : damaged l = false -> log_append cfg e l (is_written out) r l' ->
    log_step cfg l (Append e out) ((fun _ => Done) <$> r) l'
| log_factory_raises l factory out x : damaged l = false ->
    factory (Z.of_nat (length (entries l)) + 1) (tail_hash (entries l)) = Raise x ->
    log_step cfg l (AppendNext factory out) (Raise x) l
| log_appends_next l factory out e r l' : damaged l = false ->
    factory (Z.of_nat (length (entries l)) + 1) (tail_hash (entries l)) = Ok e ->
    log_append cfg e l (is_written out) r l' ->
    log_step cfg l (AppendNext factory out) ((fun _ => AnEvent e) <$> r) l'
| log_load l : damaged l = false -> log_step cfg l Load (Ok (Loaded (entries l))) l
| log_recover l : damaged l = false ->
    log_step cfg l Recover
      (Ok (Recovered (recovery (entries l) (cursor l)
            (match cursor l with Some c => cp_sequence c + 1 | None => 1 end)))) l
| log_checkpoint_refused l at_ now replaced x : damaged l = false ->
    match last (entries l) with
    | None => x = ValueError "cannot checkpoint an empty journal"
    | Some e => naive (default now at_) = true /\ is_value_error x = true \/ replaced = false /\ x = OSError
    end ->
    log_step cfg l (Checkpoint at_ now replaced) (Raise x) l
| log_checkpoint l at_ now e : damaged l = false -> last (entries l) = Some e ->
    naive (default now at_) = false ->
    let c := mk_checkpoint (sequence e) (event_hash e) (default now at_) "1.0" in
    log_step cfg l (Checkpoint at_ now true) (Ok (Checkpointed c)) (mk_log (entries l) false (Some c)).

(** *** The refinement *)

Section Refinement.

Context (cfg : journal_config).

(** A cached tail that agrees with the log, apart from its signature. *)
Definition matches (st : _JournalAppendState) (es : list DomainEvent) : Prop :=
  event_count st = Z.of_nat (length es) /\ tail_ids st = map event_id es /\ latest_event st = last es.

(** A cache is used only when its token is the file's, and then it is the tail
    of an undamaged log. *)
Definition cache_ok (clock : Z) (f : option file) (l : log) (c : option _JournalAppendState) : Prop :=
  forall st sig t, c = Some st -> file_signature st = Some sig -> change_token sig = Some t ->
  t <= clock /\ (signature cfg <$> f = Some sig -> damaged l = false /\ matches st (entries l)).

(** The bytes of the file. *)
Definition holds (f : option file) (l : log) : Prop :=
  exists part, old_content f = journal_text (entries l) ++ part /\
    if damaged l then part <> [] /\ ends_with_newline part = false else part = [].

Definition file_token_ok (clock : Z) (f : option file) : Prop :=
  forall g t, f = Some g -> change_token (signature cfg g) = Some t -> t <= clock.

Definition checkpoint_ok (l : log) (data : option (list ascii)) : Prop :=
  data = checkpoint_text <$> cursor l /\
  forall c, cursor l = Some c -> new_checkpoint c = Ok c /\ dt_valid (cp_created_at c) = true /\
    cp_schema_version c = "1.0" /\
    exists e, nth_error (entries l) (Z.to_nat (cp_sequence c - 1)) = Some e /\
      event_hash e = cp_event_hash c /\ sequence e = cp_sequence c.

Record refines (s : system) (l : log) : Prop := mk_refines {
  ref_stored : stored cfg (entries l);
  ref_content : holds (sys_file s) l;
  ref_token : file_token_ok (sys_clock s) (sys_file s);
  ref_caches : forall i, cache_ok (sys_clock s) (sys_file s) l (sys_caches s i);
  ref_checkpoint : checkpoint_ok l (sys_checkpoint s)
}.

(** The parts that concern one object, with its cache. *)
Record object_ok (clock : Z) (l : log) (j : journal) : Prop := mk_object_ok {
  obj_stored : stored cfg (entries l);
  obj_content : holds (journal_file j) l;
  obj_token : file_token_ok clock (journal_file j);
  obj_cache : cache_ok clock (journal_file j) l (_append_state j);
  obj_checkpoint : checkpoint_ok l (checkpoint_file j)
}.

Lemma loaded_matches es s : matches (loaded_state es s) es.
Proof. done. Qed.

Lemma load_clean clock l j : object_ok clock l j -> damaged l = false ->
  exists j', _load_unlocked cfg j = (Ok (entries l), j') /\
    journal_file j' = journal_file j /\ checkpoint_file j' = checkpoint_file j /\
    exists st, _append_state j' = Some st /\ matches st (entries l) /\
      file_signature st = signature cfg <$> journal_file j.
Proof.
  intros [Hs (part & Hc & Hd) Ht Ha _] Hl. rewrite Hl in Hd. subst part. rewrite app_nil_r in Hc.
  unfold _load_unlocked. rewrite get_bind. unfold load_observed, _file_signature_unlocked.
  rewrite modify_bind. destruct (journal_file j) as [f|] eqn:Ef; cbn [old_content fmap option_fmap option_map] in *.
  - rewrite bool_decide_eq_true_2 by done. cbn [negb]. rewrite lift_raise_if_bind.
    rewrite Hc, lift_bind, parse_journal_text by done. rewrite modify_bind, mret_run.
    eexists. split; [done|]. cbn. rewrite Ef. split; [done|]. split; [done|]. eexists. done.
  - assert (entries l = []) as En.
    { destruct (entries l) as [|e es]; [done|]. unfold journal_text in Hc. cbn [flat_map] in Hc.
      apply (f_equal (@length _)) in Hc. rewrite length_app, event_line_length in Hc. cbn in Hc. lia. }
    rewrite modify_bind, mret_run, En. eexists. split; [done|]. cbn. rewrite Ef. split; [done|]. split; [done|].
    eexists. done.
Qed.

Lemma load_damaged clock l j : object_ok clock l j -> damaged l = true ->
  exists msg, _load_unlocked cfg j =
    (Raise (EventJournalCorruptionError msg), set_append_state None j).
Proof.
  intros [Hs (part & Hc & Hd) Ht Ha _] Hl. rewrite Hl in Hd. destruct Hd as [Hp He].
  destruct (parse_journal_torn cfg (entries l) part Hp He) as [msg Hm]. exists msg.
  unfold _load_unlocked. rewrite get_bind. unfold load_observed, _file_signature_unlocked.
  rewrite modify_bind. destruct (journal_file j) as [f|] eqn:Ef; cbn [old_content fmap option_fmap option_map] in *.
  - rewrite bool_decide_eq_true_2 by done. cbn [negb]. rewrite lift_raise_if_bind.
    by rewrite Hc, lift_bind, Hm.
  - by destruct (journal_text (entries l)), part.
Qed.

(** The object with the cache a load leaves. *)
Lemma object_recached clock l j j' : object_ok clock l j ->
  journal_file j' = journal_file j -> checkpoint_file j' = checkpoint_file j ->
  (_append_state j' = None \/ damaged l = false /\ exists st, _append_state j' = Some st /\
     matches st (entries l) /\ file_signature st = signature cfg <$> journal_file j) ->
  object_ok clock l j'.
Proof.
  intros [H1 H2 H3 H4 H5] Ef Ec Hst. split; [done|by rewrite Ef|by rewrite Ef| |by rewrite Ec].
  intros st0 sig t E1 E2 E3. destruct Hst as [Hn|(Hd & st & Es & Hm & Hsig)]; [congruence|].
  rewrite Es in E1. injection E1 as <-. rewrite Ef. split; [|done].
  rewrite Hsig in E2. destruct (journal_file j) as [f|] eqn:Ej; [|done].
  injection E2 as <-. by apply (H3 f).
Qed.

(** The tail an append starts from. *)
Lemma state_clean clock l j : object_ok clock l j -> damaged l = false ->
  exists st j', _append_state_for_current_file_unlocked cfg j = (Ok st, j') /\
    matches st (entries l) /\ journal_file j' = journal_file j /\ checkpoint_file j' = checkpoint_file j /\
    object_ok clock l j'.
Proof.
  intros Hj Hl. destruct (load_clean clock l j Hj Hl) as (j' & El & Ef & Ec & st & Es & Hm & Hsig).
  assert (object_ok clock l j') as Hj' by (eapply object_recached; eauto 10).
  assert (forall m, m = (_load_unlocked cfg;; j0 ← get;
      match _append_state j0 with
      | Some st => mret st
      | None => lift (Raise (RuntimeError "event journal append state was not initialized"))
      end : method journal _) -> m j = (Ok st, j')) as G.
  { intros m ->. rewrite method_bind_run, El, get_bind, Es. done. }
  unfold _append_state_for_current_file_unlocked. rewrite get_bind. cbv zeta.
  destruct (_append_state j) as [st0|] eqn:Ea; [|exists st, j'; split; [by apply G|done]].
  destruct (_file_signatures_allow_cache_reuse _ _) eqn:Er; [|exists st, j'; split; [by apply G|done]].
  exists st0, j. split; [done|]. split; [|done]. destruct Hj as [H1 H2 H3 H4 H5].
  unfold _file_signatures_allow_cache_reuse, _file_signature_unlocked in Er.
  destruct (file_signature st0) as [a|] eqn:E1; [|done].
  destruct (signature cfg <$> journal_file j) as [b|] eqn:E2; [|done].
  destruct (change_token a) as [t|] eqn:E3; [|done]. destruct (change_token b); [|done].
  apply bool_decide_eq_true in Er as ->. rewrite Ea in H4.
  by destruct (H4 st0 b t eq_refl E1 E3) as [_ [_ ?]].
Qed.

Lemma state_damaged clock l j : object_ok clock l j -> damaged l = true ->
  exists msg, _append_state_for_current_file_unlocked cfg j =
    (Raise (EventJournalCorruptionError msg), set_append_state None j).
Proof.
  intros Hj Hl. destruct (load_damaged clock l j Hj Hl) as (msg & El). exists msg.
  unfold _append_state_for_current_file_unlocked. rewrite get_bind. cbv zeta.
  destruct (_append_state j) as [st0|] eqn:Ea; [|by rewrite method_bind_run, El].
  destruct (_file_signatures_allow_cache_reuse _ _) eqn:Er; [|by rewrite method_bind_run, El].
  destruct Hj as [H1 H2 H3 H4 H5].
  unfold _file_signatures_allow_cache_reuse, _file_signature_unlocked in Er.
  destruct (file_signature st0) as [a|] eqn:E1; [|done].
  destruct (signature cfg <$> journal_file j) as [b|] eqn:E2; [|done].
  destruct (change_token a) as [t|] eqn:E3; [|done]. destruct (change_token b); [|done].
  apply bool_decide_eq_true in Er as ->. rewrite Ea in H4.
  destruct (H4 st0 b t eq_refl E1 E3) as [_ [? _]]; [done|congruence].
Qed.

(** **** Appending *)

Definition clock_after (clock : Z) (out : write_outcome) : Z :=
  Z.max clock (default clock (st ← outcome_stat out; _file_change_token (nt cfg) st)).

Definition fresh_stat (clock : Z) (st : file_stat) : Prop :=
  forall t, _file_change_token (nt cfg) st = Some t -> clock < t.

(** A new version of the file makes every cached tail stale. *)
Lemma cache_stale clock clock' f l l' c bytes st : clock <= clock' -> fresh_stat clock st ->
  cache_ok clock f l c -> cache_ok clock' (Some (mk_file bytes st)) l' c.
Proof.
  intros Hc Hf H st0 sig t E1 E2 E3. destruct (H st0 sig t E1 E2 E3) as [Ht _]. split; [lia|].
  intros [= Hs]. exfalso. rewrite <- Hs in E3. apply (Hf t) in E3. lia.
Qed.

Lemma written_token clock bytes st : file_token_ok (Z.max clock (default clock (_file_change_token (nt cfg) st)))
  (Some (mk_file bytes st)).
Proof. intros g t [= <-] E. cbn in E. rewrite E. cbn. lia. Qed.

Lemma log_admits_Ok l e : stored cfg (entries l) -> storable e = true ->
  log_admits cfg (entries l) e = Ok tt -> stored cfg (entries l ++ [e]).
Proof.
  intros [Hc Hf Hn Hs] He H. unfold log_admits, _encode_event in H. cbv zeta in H. inv_res. zify_bool.
  destruct a. apply validate_next_event_spec in Hm as (H1 & H2 & H3 & H4 & H5); [|done].
  split.
  - by apply chain_snoc.
  - apply Forall_app. split; [done|]. constructor; [|done]. split; [done|lia].
  - rewrite length_app. cbn [length]. lia.
  - rewrite journal_text_snoc, length_app. lia.
Qed.

Lemma checkpoint_ok_snoc l e d data : checkpoint_ok l data ->
  checkpoint_ok (mk_log (entries l ++ [e]) d (cursor l)) data.
Proof.
  intros [H1 H2]. split; [done|]. intros c Hc. destruct (H2 c Hc) as (A & B & C & x & Hx & D).
  split_and!; try done. exists x. split; [|done]. cbn [entries]. rewrite nth_error_app1; [done|].
  apply nth_error_Some. by rewrite Hx.
Qed.

(** What the first bytes of a record leave behind. *)
Lemma broken_off l f e (k : nat) st : holds f l -> damaged l = false ->
  exists es d, may_leave l e es d /\
    holds (Some (mk_file (old_content f ++ firstn k (event_line e)) st)) (mk_log es d (cursor l)).
Proof.
  intros (part & Hc & Hd) Hl. rewrite Hl in Hd. subst part. rewrite app_nil_r in Hc.
  destruct k as [|k]; [|destruct (Nat.le_gt_cases (length (event_line e)) (S k)) as [Hk|Hk]].
  - exists (entries l), false. split; [by left|]. exists []. cbn. by rewrite Hc.
  - exists (entries l ++ [e]), false. split; [by right; left|]. exists [].
    cbn [old_content content entries damaged]. by rewrite firstn_all2, Hc, journal_text_snoc, app_nil_r by done.
  - exists (entries l), true. split; [by right; right|]. exists (firstn (S k) (event_line e)).
    cbn [old_content content entries damaged]. split; [by rewrite Hc|].
    rewrite event_line_length in Hk. unfold event_line.
    assert (firstn (S k) (event_chars e ++ [newline]) = firstn (S k) (event_chars e)) as E.
    { rewrite firstn_app. replace (S k - length (event_chars e))%nat with 0%nat by lia. by rewrite app_nil_r. }
    fold (event_chars e). rewrite E. pose proof (dump_printable (event_json e)) as Hp. fold (event_chars e) in Hp.
    rewrite <- (firstn_skipn (S k) (event_chars e)), forallb_app in Hp. apply andb_true_iff in Hp as [Hp _].
    assert (length (firstn (S k) (event_chars e)) = S k) as Hlen by (rewrite length_firstn; lia).
    destruct (firstn (S k) (event_chars e)) as [|c t _] using rev_ind; [done|]. split; [by destruct t|].
    unfold ends_with_newline. rewrite last_snoc. rewrite forallb_app in Hp. cbn [forallb] in Hp.
    apply Ascii.eqb_neq. intros ->. by apply andb_true_iff in Hp as [_ Hp].
Qed.

(** The operating system's part of an append. *)
Definition write_stage (e : DomainEvent) (st : _JournalAppendState) (out : write_outcome) (j : journal) :
  res unit * journal :=
  match out with
  | Refused => (Raise OSError, j)
  | BrokenOff reached s => (Raise OSError, write_file (firstn reached (event_line e)) s j)
  | Written s =>
      let j' := write_file (event_line e) s j in
      (Ok tt, set_append_state (Some (record e (_file_signature_unlocked cfg (journal_file j')) st)) j')
  end.

Lemma append_run l j e st out : holds (journal_file j) l -> damaged l = false -> matches st (entries l) ->
  _append_validated_unlocked cfg e st out j =
  match log_admits cfg (entries l) e with Raise x => (Raise x, j) | Ok _ => write_stage e st out j end.
Proof.
  intros (part & Hc & Hd) Hl (M1 & M2 & M3). rewrite Hl in Hd. subst part. rewrite app_nil_r in Hc.
  unfold _append_validated_unlocked, validate, log_admits, _encode_event. cbv zeta.
  rewrite M1, M2, M3, lift_bind.
  destruct (_validate_next_event _ _ _ _ _) as [[]|x]; [|done]. rewrite Ok_bind, lift_bind.
  destruct (maximum_event_bytes cfg <? _); [done|]. cbn [raise_if]. rewrite !Ok_bind.
  change (mret (event_line e) : res _) with (Ok (event_line e)). cbv iota.
  rewrite get_bind, Hc, lift_raise_if_bind.
  destruct (maximum_journal_bytes cfg <? _); [done|]. by destruct out.
Qed.

(** What a call on one object does to the log and to every cache. *)
Definition advances (clock clock' : Z) (l : log) (j : journal) (l' : log) (j' : journal) : Prop :=
  object_ok clock' l' j' /\
  forall c, cache_ok clock (journal_file j) l c -> cache_ok clock' (journal_file j') l' c.

Lemma advances_same clock clock' l j j' : clock <= clock' -> object_ok clock l j' ->
  journal_file j' = journal_file j -> advances clock clock' l j l j'.
Proof.
  intros Hle [Hs Hc Ht Ha Hcp] Hf.
  assert (forall f c, cache_ok clock f l c -> cache_ok clock' f l c) as Hmono.
  { intros f c Hk s sig t E1 E2 E3. destruct (Hk s sig t E1 E2 E3). split; [lia|done]. }
  split; [|rewrite Hf; by intros c; apply Hmono].
  split; try done; [|by apply Hmono]. intros g t E1 E2. specialize (Ht g t E1 E2). lia.
Qed.

Lemma write_advances clock l j es d bytes s st' :
  object_ok clock l j -> stored cfg es -> fresh_stat clock s ->
  checkpoint_ok (mk_log es d (cursor l)) (checkpoint_file j) ->
  holds (Some (mk_file (old_content (journal_file j) ++ bytes) s)) (mk_log es d (cursor l)) ->
  (st' = _append_state j \/ d = false /\ exists st, st' = Some st /\ matches st es /\
     file_signature st = Some (signature cfg (mk_file (old_content (journal_file j) ++ bytes) s))) ->
  advances clock (Z.max clock (default clock (_file_change_token (nt cfg) s))) l j
    (mk_log es d (cursor l)) (set_append_state st' (write_file bytes s j)).
Proof.
  intros Hj Hs Hf Hcp Hh Hst. pose proof Hj as [_ _ _ Ha _].
  set (clock' := Z.max clock _). assert (clock <= clock') as Hle by (unfold clock'; lia).
  assert (forall c, cache_ok clock (journal_file j) l c ->
    cache_ok clock' (Some (mk_file (old_content (journal_file j) ++ bytes) s)) (mk_log es d (cursor l)) c) as Hstale
    by (intros c; by apply cache_stale).
  split; [|done]. split; try done; [apply written_token|]. cbn [_append_state set_append_state journal_file write_file].
  destruct Hst as [->|(Hd & st & -> & Hm & Hsig)]; [by apply Hstale|].
  intros st0 sig t [= <-] E2 E3. split; [|done]. rewrite Hsig in E2. injection E2 as <-.
  by eapply written_token.
Qed.

Lemma write_stage_advances clock l j e st out r j' :
  object_ok clock l j -> damaged l = false -> matches st (entries l) -> storable e = true ->
  (forall s, outcome_stat out = Some s -> fresh_stat clock s) ->
  log_admits cfg (entries l) e = Ok tt -> write_stage e st out j = (r, j') ->
  exists l', log_append cfg e l (is_written out) r l' /\ advances clock (clock_after clock out) l j l' j'.
Proof.
  intros Hj Hl Hm He Hf Hadm H. pose proof Hj as [Hs Hc _ _ Hcp].
  pose proof (log_admits_Ok l e Hs He Hadm) as Hs'.
  destruct out as [|k s|s]; cbn [write_stage] in H; cbn [outcome_stat] in Hf.
  - injection H as <- <-. exists (mk_log (entries l) false (cursor l)). split; [by apply append_lost; [|left]|].
    destruct l as [es d c]. cbn in *. subst d. apply advances_same; [unfold clock_after; lia|done|done].
  - injection H as <- <-. destruct (broken_off l (journal_file j) e k s Hc Hl) as (es & d & Hes & Hh).
    exists (mk_log es d (cursor l)). split; [by apply append_lost|].
    change (write_file _ s j) with (set_append_state (_append_state j) (write_file (firstn k (event_line e)) s j)).
    apply write_advances; auto; destruct Hes as [[-> ->]|[[-> ->]|[-> ->]]]; try done; by apply checkpoint_ok_snoc.
  - injection H as <- <-. exists (mk_log (entries l ++ [e]) false (cursor l)). split; [by apply append_written|].
    apply write_advances; auto; [by apply checkpoint_ok_snoc| |].
    + destruct Hc as (part & Hc & Hd). rewrite Hl in Hd. subst part. rewrite app_nil_r in Hc.
      exists []. cbn [old_content content entries damaged]. by rewrite Hc, journal_text_snoc, app_nil_r.
    + right. split; [done|]. eexists. split; [done|]. split; [|done].
      destruct Hm as (M1 & M2 & M3). unfold matches, record. cbn [event_count tail_ids latest_event].
      rewrite M1, M2, length_app, map_app, last_snoc. cbn [length map]. split_and!; [lia|done|done].
Qed.

Lemma append_advances clock l j e st out r j' :
  object_ok clock l j -> damaged l = false -> matches st (entries l) -> storable e = true ->
  (forall s, outcome_stat out = Some s -> fresh_stat clock s) ->
  _append_validated_unlocked cfg e st out j = (r, j') ->
  exists l', log_append cfg e l (is_written out) r l' /\ advances clock (clock_after clock out) l j l' j'.
Proof.
  intros Hj Hl Hm He Hf H. rewrite (append_run l) in H; [|by destruct Hj|done|done].
  destruct (log_admits cfg (entries l) e) as [[]|x] eqn:Hadm.
  - by eapply write_stage_advances.
  - injection H as <- <-. exists l. split; [by apply append_refused|].
    apply advances_same; [unfold clock_after; lia|done|done].
Qed.

(** **** The checkpoint *)

Lemma checkpoint_text_back c : new_checkpoint c = Ok c -> dt_valid (cp_created_at c) = true ->
  isascii (cp_event_hash c) = true -> isascii (cp_schema_version c) = true ->
  0 <= cp_sequence c <= 1000000 -> decode_checkpoint (checkpoint_text c) = Ok c.
Proof.
  intros Hc Ht H1 H2 H3. unfold decode_checkpoint, checkpoint_text. rewrite loads_dump; [| |done].
  - rewrite Ok_bind. unfold checkpoint_json, text_field, lookup.
    cbn -[isoformat fromisoformat new_checkpoint].
    rewrite fromisoformat_isoformat by done. rewrite Ok_bind. destruct c. cbn in *. by rewrite Hc.
  - unfold checkpoint_json. cbn [json_ok forallb fst snd map].
    apply small_int_ok in H3. cbn [json_ok] in H3. rewrite isoformat_ascii, H1, H2, H3. vm_compute. reflexivity.
Qed.

Lemma stored_event es i e : stored cfg es -> nth_error es i = Some e ->
  storable e = true /\ sequence e = Z.of_nat i + 1.
Proof.
  intros [Hc Hf _ _] H. split; [|by eapply chain_position].
  rewrite Forall_forall in Hf. apply nth_error_In in H. apply list_elem_of_In in H. by apply Hf in H as [? _].
Qed.

Lemma read_cursor l data : stored cfg (entries l) -> checkpoint_ok l data ->
  _read_checkpoint_unlocked data = Ok (cursor l).
Proof.
  intros Hs [-> Hc]. destruct (cursor l) as [c|]; [|done].
  destruct (Hc c eq_refl) as (Hn & Ht & Hv & e & He & Hh & Hq).
  destruct (stored_event _ _ _ Hs He) as [Hst _].
  apply storable_spec in Hst as (_ & _ & _ & _ & _ & Hha & _ & _ & Hseq).
  cbn [_read_checkpoint_unlocked fmap option_fmap option_map].
  rewrite checkpoint_text_back; [done|done|done|congruence|by rewrite Hv|lia].
Qed.

(** **** Calls *)

Definition clock_of (clock : Z) (c : call) : Z := Z.max clock (default clock (call_token cfg c)).

Lemma clock_of_call clock e out : clock_of clock (Append e out) = clock_after clock out.
Proof. done. Qed.

Lemma load_advances clock clock' l j r j' : object_ok clock l j -> clock <= clock' ->
  _load_unlocked cfg j = (r, j') -> checkpoint_file j' = checkpoint_file j /\
  advances clock clock' l j l j' /\ object_ok clock l j' /\
  if damaged l then exists msg, r = Raise (EventJournalCorruptionError msg)
  else r = Ok (entries l).
Proof.
  intros Hj Hle H. destruct (damaged l) eqn:Hl.
  - destruct (load_damaged clock l j Hj Hl) as [msg E]. rewrite E in H. injection H as <- <-.
    assert (object_ok clock l (set_append_state None j)) as Hj' by (eapply object_recached; eauto).
    split; [done|]. split; [by apply advances_same|]. eauto.
  - destruct (load_clean clock l j Hj Hl) as (j1 & E & Ef & Ec & st & Es & Hm & Hsig).
    rewrite E in H. injection H as <- <-.
    assert (object_ok clock l j1) as Hj' by (eapply object_recached; eauto 10).
    split; [done|]. split; [by apply advances_same|]. done.
Qed.

Lemma advances_from clock clock' l j j1 l' j' : journal_file j1 = journal_file j ->
  advances clock clock' l j1 l' j' -> advances clock clock' l j l' j'.
Proof. intros E [H1 H2]. split; [done|]. by rewrite E in H2. Qed.

Lemma damaged_call clock clock' l j c r j' : object_ok clock l j -> clock <= clock' -> damaged l = true ->
  exec cfg c j = (r, j') -> log_step cfg l c r l /\ advances clock clock' l j l j'.
Proof.
  intros Hj Hle Hl H. destruct (load_damaged clock l j Hj Hl) as [msg E].
  destruct (state_damaged clock l j Hj Hl) as [msg' E'].
  assert (advances clock clock' l j l (set_append_state None j)) as Hadv.
  { apply advances_same; [done|eapply object_recached; eauto|done]. }
  destruct c; cbn [exec] in H;
    [unfold append in H; rewrite !method_bind_run, E' in H
    |unfold append_next in H; rewrite !method_bind_run, E' in H
    |unfold load in H; rewrite !method_bind_run, E in H
    |unfold recover in H; rewrite !method_bind_run, E in H
    |unfold checkpoint in H; rewrite !method_bind_run, E in H];
    injection H as <- <-; split; try done; by apply log_damaged.
Qed.

Lemma append_call clock l j e out r j' : object_ok clock l j -> damaged l = false -> storable e = true ->
  (forall s, outcome_stat out = Some s -> fresh_stat clock s) ->
  append cfg e out j = (r, j') ->
  exists l', log_append cfg e l (is_written out) r l' /\ advances clock (clock_after clock out) l j l' j'.
Proof.
  intros Hj Hl He Hf H. destruct (state_clean clock l j Hj Hl) as (st & j1 & E & Hm & Ef & _ & Hj1).
  unfold append in H. rewrite method_bind_run, E in H.
  destruct (append_advances clock l j1 e st out r j' Hj1 Hl Hm He Hf H) as (l' & Hs & Ha).
  exists l'. split; [done|by eapply advances_from].
Qed.

Lemma append_next_call clock l j factory out r j' : object_ok clock l j -> damaged l = false ->
  (forall n h e, factory n h = Ok e -> storable e = true) ->
  (forall s, outcome_stat out = Some s -> fresh_stat clock s) ->
  exec cfg (AppendNext factory out) j = (r, j') ->
  exists l', log_step cfg l (AppendNext factory out) r l' /\ advances clock (clock_after clock out) l j l' j'.
Proof.
  intros Hj Hl He Hf H. destruct (state_clean clock l j Hj Hl) as (st & j1 & E & Hm & Ef & _ & Hj1).
  cbn [exec] in H. unfold append_next in H. rewrite !method_bind_run, E in H.
  pose proof Hm as (M1 & M2 & M3). rewrite M1, M3, lift_bind in H. fold (tail_hash (entries l)) in H.
  destruct (factory _ _) as [e|x] eqn:Ee.
  - rewrite method_bind_run in H. destruct (_append_validated_unlocked cfg e st out j1) as [ra j2] eqn:Ea.
    destruct (append_advances clock l j1 e st out ra j2 Hj1 Hl Hm (He _ _ _ Ee) Hf Ea) as (l' & Hs & Hadv).
    exists l'. assert ((r, j') = ((fun _ => AnEvent e) <$> ra, j2)) as Er by (by destruct ra).
    injection Er as -> ->. split; [by apply log_appends_next|by eapply advances_from].
  - injection H as <- <-. exists l. split; [by apply log_factory_raises|].
    apply advances_same; [unfold clock_after; lia|done|done].
Qed.

Lemma recover_call clock l j r j' : object_ok clock l j -> damaged l = false ->
  exec cfg Recover j = (r, j') -> log_step cfg l Recover r l /\ advances clock clock l j l j'.
Proof.
  intros Hj Hl H. cbn [exec] in H. unfold recover in H. rewrite !method_bind_run in H.
  destruct (_load_unlocked cfg j) as [rl j1] eqn:E.
  destruct (load_advances clock clock l j rl j1 Hj (Z.le_refl _) E) as (Ec & Ha & _ & Hr).
  rewrite Hl in Hr. subst rl. pose proof Hj as [Hs _ _ _ Hcp].
  rewrite get_bind, lift_bind, Ec, (read_cursor l) in H by done.
  pose proof (log_recover cfg l Hl) as Hstep. destruct (cursor l) as [c|] eqn:Ecur.
  - destruct (proj2 Hcp c Ecur) as (_ & _ & _ & e & He & Hh & Hq).
    assert ((Z.of_nat (length (entries l)) <? cp_sequence c) = false) as Elt.
    { destruct (stored_event _ _ _ Hs He) as [_ Hseq]. apply Z.ltb_ge.
      assert (Z.to_nat (cp_sequence c - 1) < length (entries l))%nat by (apply nth_error_Some; by rewrite He). lia. }
    rewrite lift_raise_if_bind, Elt, He in H.
    rewrite lift_raise_if_bind, Hh, String.eqb_refl in H. cbn [negb] in H.
    injection H as <- <-. by split.
  - injection H as <- <-. by split.
Qed.

Lemma new_checkpoint_of e at_ : storable e = true ->
  new_checkpoint (mk_checkpoint (sequence e) (event_hash e) at_ "1.0") =
  if naive at_ then Raise (ValueError "checkpoint timestamp must be timezone-aware")
  else Ok (mk_checkpoint (sequence e) (event_hash e) at_ "1.0").
Proof.
  intros (Hn & _)%storable_spec. apply new_event_Ok in Hn as (_ & H1 & _ & Hh & _).
  unfold new_checkpoint. cbn [cp_sequence cp_event_hash cp_created_at]. rewrite Hh.
  pose proof sha256_text as Hsha. unfold event_digest, compute_hash.
  match goal with |- context [sha256 ?t] => specialize (Hsha t); unfold is_sha256_text in Hsha end.
  apply andb_true_iff in Hsha as [Hlen _]. rewrite Hlen.
  destruct (Z.ltb_spec (sequence e) 1); [lia|]. cbn [orb negb raise_if]. rewrite Ok_bind.
  by destruct (naive _).
Qed.

Lemma last_position {A} (l : list A) x : last l = Some x ->
  nth_error l (pred (length l)) = Some x /\ (0 < length l)%nat.
Proof.
  destruct l as [|y l _] using rev_ind; [done|]. rewrite last_snoc. intros [= ->].
  rewrite length_app. cbn [length]. rewrite nth_error_app2 by lia.
  replace (pred (length l + 1) - length l)%nat with 0%nat by lia. split; [done|lia].
Qed.

Lemma checkpoint_call clock l j at_ now replaced r j' : object_ok clock l j -> damaged l = false ->
  dt_valid (default now at_) = true -> exec cfg (Checkpoint at_ now replaced) j = (r, j') ->
  exists l', log_step cfg l (Checkpoint at_ now replaced) r l' /\ advances clock clock l j l' j'.
Proof.
  intros Hj Hl Hv H. cbn [exec] in H. unfold checkpoint in H. rewrite !method_bind_run in H.
  destruct (_load_unlocked cfg j) as [rl j1] eqn:E.
  destruct (load_advances clock clock l j rl j1 Hj (Z.le_refl _) E) as (_ & Ha & Hj1 & Hr).
  rewrite Hl in Hr. subst rl. pose proof Hj as [Hs _ _ _ _].
  destruct (last (entries l)) as [e|] eqn:El.
  2:{ injection H as <- <-. exists l. split; [|done]. apply log_checkpoint_refused; [done|]. by rewrite El. }
  set (c := mk_checkpoint (sequence e) (event_hash e) (default now at_) "1.0") in *.
  destruct (last_position _ _ El) as [Hnth Hpos].
  destruct (stored_event _ _ _ Hs Hnth) as [Hst Hseq].
  pose proof (new_checkpoint_of e (default now at_) Hst) as Hnew. fold c in Hnew.
  rewrite lift_bind, Hnew in H. destruct (naive (default now at_)) eqn:Hna.
  { injection H as <- <-. exists l. split; [|done]. apply log_checkpoint_refused; [done|]. rewrite El. by left. }
  rewrite lift_raise_if_bind in H. destruct replaced; cbn [negb] in H.
  2:{ injection H as <- <-. exists l. split; [|done]. apply log_checkpoint_refused; [done|]. rewrite El. by right. }
  rewrite modify_bind, mret_run in H. injection H as <- <-.
  exists (mk_log (entries l) false (Some c)). split; [by apply log_checkpoint|].
  destruct l as [ents d cur]. cbn [entries damaged cursor] in *. subst d.
  destruct Hj1 as [H1 H2 H3 H4 H5], Ha as [_ Ha]. split; [|exact Ha].
  split; try done. split; [done|]. intros c' [= <-].
  split_and!; [done|done|done|]. exists e. split; [|done]. cbn [cp_sequence c entries].
  by replace (Z.to_nat (sequence e - 1)) with (pred (length ents)) by lia.
Qed.

Lemma exec_refines clock l j c r j' : object_ok clock l j -> call_ok c ->
  (forall s, call_stat c = Some s -> fresh_stat clock s) -> exec cfg c j = (r, j') ->
  exists l', log_step cfg l c r l' /\ advances clock (clock_of clock c) l j l' j'.
Proof.
  intros Hj Hok Hf H. assert (clock <= clock_of clock c) as Hle by (unfold clock_of; lia).
  destruct (damaged l) eqn:Hl; [exists l; by eapply damaged_call|].
  assert (clock_of clock Load = clock) as Hsame by (unfold clock_of; cbn; lia).
  destruct c as [e out|factory out| | |at_ now replaced]; cbn [call_ok call_stat] in *.
  - cbn [exec] in H. rewrite method_bind_run in H. destruct (append cfg e out j) as [ra j1] eqn:E.
    destruct (append_call clock l j e out ra j1 Hj Hl Hok Hf E) as (l' & Hs & Ha). exists l'.
    assert ((r, j') = ((fun _ => Done) <$> ra, j1)) as Er by (by destruct ra as [[]|]).
    injection Er as -> ->. split; [by apply log_appends|done].
  - by eapply append_next_call.
  - cbn [exec] in H. unfold load in H. rewrite method_bind_run in H.
    destruct (_load_unlocked cfg j) as [rl j1] eqn:E.
    destruct (load_advances clock (clock_of clock Load) l j rl j1 Hj Hle E) as (_ & Ha & _ & Hr).
    rewrite Hl in Hr. subst rl. injection H as <- <-. exists l. split; [by apply log_load|done].
  - change (clock_of clock Recover) with (clock_of clock Load). rewrite Hsame.
    exists l. by apply recover_call.
  - change (clock_of clock (Checkpoint at_ now replaced)) with (clock_of clock Load). rewrite Hsame.
    by eapply checkpoint_call.
Qed.

End Refinement.

(** ** The properties *)

Lemma call_fresh cfg s c : fresh_token cfg s c ->
  forall st, call_stat c = Some st -> fresh_stat cfg (sys_clock s) st.
Proof. unfold fresh_token, call_token, fresh_stat. intros H st E t Et. rewrite E in H. cbn in H. by rewrite Et in H. Qed.

(** C2: the journal is one append-only log.  Processes share the file, each with
    a cached tail; calls run one at a time under the file lock, and no version
    of the file gets a change token an earlier version had.  Then every call of
    every process answers and moves like a single log: an append is refused with
    its reason, or added and acknowledged, or raises [OSError] when it may have
    been added, dropped or torn; loading returns the log; a checkpoint is the
    cursor of the last event; and a torn log answers every later call with a
    corruption error. *)
Theorem journal_refines_log cfg s l i c r s' :
  refines cfg s l -> call_ok c -> fresh_token cfg s c -> sys_exec cfg i c s = (r, s') ->
  exists l', log_step cfg l c r l' /\ refines cfg s' l'.
Proof.
  intros [Hs Hc Ht Hca Hcp] Hok Hf H. unfold sys_exec in H.
  set (j := mk_journal _ _ _) in H. destruct (exec cfg c j) as [r0 j'] eqn:E. injection H as <- <-.
  assert (object_ok cfg (sys_clock s) l j) as Hj by (split; [done|done|done|apply Hca|done]).
  destruct (exec_refines cfg (sys_clock s) l j c r0 j' Hj Hok (call_fresh _ _ _ Hf) E) as (l' & Hstep & [Hj' Hcaches]).
  exists l'. split; [done|]. destruct Hj' as [H1 H2 H3 H4 H5]. split; try done.
  intros k. cbn [sys_caches sys_file sys_clock]. destruct (N.eqb k i); [exact H4|]. by apply Hcaches, Hca.
Qed.

Lemma chain_filter es : chain es -> forall n,
  List.filter (fun e => Z.of_nat n + 1 <=? sequence e) es = skipn n es.
Proof.
  intros H. induction H as [|es e Hc IH _ Hseq _ _]; intros n; [by destruct n|].
  rewrite List.filter_app, IH, skipn_app. f_equal. cbn [List.filter]. rewrite Hseq.
  destruct (Z.leb_spec (Z.of_nat n + 1) (Z.of_nat (length es) + 1)).
  - by replace (n - length es)%nat with 0%nat by lia.
  - destruct (n - length es)%nat as [|k] eqn:E; [lia|]. by destruct k.
Qed.

(** A restart resumes after the checkpoint.  On a journal whose last
    checkpoint was taken at some event, recovery returns every event together
    with exactly the later ones as the events to replay. *)
Theorem recovery_resumes cfg s l i r s' : refines cfg s l -> damaged l = false ->
  sys_exec cfg i Recover s = (r, s') ->
  exists rec, r = Ok (Recovered rec) /\ recovered_events rec = entries l /\
    events_after_checkpoint rec =
      skipn (match cursor l with Some c => Z.to_nat (cp_sequence c) | None => 0%nat end) (entries l) /\
    execution_allowed rec = false.
Proof.
  intros [Hs Hc Ht Hca Hcp] Hl H. unfold sys_exec in H. set (j := mk_journal _ _ _) in H.
  destruct (exec cfg Recover j) as [r0 j'] eqn:E. injection H as <- _.
  assert (object_ok cfg (sys_clock s) l j) as Hj by (split; [done|done|done|apply Hca|done]).
  destruct (recover_call cfg (sys_clock s) l j r0 j' Hj Hl E) as [Hstep _].
  eexists. split; [inversion Hstep; subst; [congruence|done]|]. split; [done|]. split; [|done].
  unfold events_after_checkpoint. cbn [recovered_events replay_from_sequence recovery].
  pose proof (stored_chain _ _ Hs) as Hch. destruct (cursor l) as [c|] eqn:Ecur.
  - destruct (proj2 Hcp c Ecur) as (_ & _ & _ & e & He & _ & Hq).
    destruct (stored_event _ _ _ _ Hs He) as [_ Hseq].
    rewrite <- (chain_filter _ Hch (Z.to_nat (cp_sequence c))). f_equal.
    by rewrite Z2Nat.id by lia.
  - exact (chain_filter _ Hch 0).
Qed.

(** ** Witnesses *)

(** The state every journal starts from. *)
Definition no_file (clock : Z) : system := mk_system None None (fun _ => None) clock.
Definition no_events : log := mk_log [] false None.

Lemma refines_empty cfg cfg' clock : new_journal cfg = Ok cfg' -> refines cfg (no_file clock) no_events.
Proof.
  intros H. unfold new_journal in H. inv_res. zify_bool. pose proof (capacity_bounds cfg).
  split; cbn; [split; cbn; [constructor|constructor|lia|lia]|by exists []|done|done|done].
Qed.

Definition ex_stat (n : Z) : file_stat := mk_stat 1 2 n n None.

(** The first event of a new journal. *)
Lemma journal_refines_log_witness : exists l',
  log_step ex_config no_events (Append ex_first (Written (ex_stat 7))) (Ok Done) l' /\
  refines ex_config (sys_exec ex_config 1 (Append ex_first (Written (ex_stat 7))) (no_file 0)).2 l'.
Proof.
  apply (journal_refines_log ex_config (no_file 0) no_events 1 (Append ex_first (Written (ex_stat 7)))).
  - by apply (refines_empty ex_config ex_config).
  - vm_compute. reflexivity.
  - vm_compute. reflexivity.
  - assert ((sys_exec ex_config 1 (Append ex_first (Written (ex_stat 7))) (no_file 0)).1 = Ok Done) as E
      by (vm_compute; reflexivity).
    by rewrite <- E, <- surjective_pairing.
Defined.

Definition ex_log : log :=
  mk_log ex_chain false (Some (mk_checkpoint 1 (event_hash ex_first) (utc 5000000) "1.0")).
Definition ex_system : system :=
  mk_system (Some (mk_file (journal_text ex_chain) (ex_stat 3))) (checkpoint_text <$> cursor ex_log)
    (fun _ => None) 3.

Lemma ex_refines : refines ex_config ex_system ex_log.
Proof.
  split; cbn [entries ex_log].
  - apply ex_stored.
  - exists []. split; [by rewrite app_nil_r|done].
  - intros g t [= <-] [= <-]. done.
  - done.
  - split; [done|]. intros c [= <-]. split; [vm_compute; reflexivity|]. split; [vm_compute; reflexivity|].
    split; [done|]. exists ex_first. vm_compute. done.
Qed.

Lemma recovery_resumes_witness : exists rec,
  (sys_exec ex_config 0 Recover ex_system).1 = Ok (Recovered rec) /\ recovered_events rec = ex_chain /\
  events_after_checkpoint rec = skipn 1 ex_chain /\ execution_allowed rec = false.
Proof.
  apply (recovery_resumes ex_config ex_system ex_log 0 _ (sys_exec ex_config 0 Recover ex_system).2).
  - apply ex_refines.
  - done.
  - by rewrite <- surjective_pairing.
Defined.
