(* ===== verification/Delivery.v ===== *)
(** [events/delivery.py]: durable consumers of the event journal.  Each has a
    checkpoint file, replaced after every event its handler returned for; the
    theorems make it a cursor over the log with at-least-once, in-order
    delivery. *)
From S2P Require Import Prelude PyDecimal DecimalFacts DecimalText Sha256 PyText JsonText IsoTime Events Journal.
Local Open Scope Z_scope.
Local Open Scope bool_scope.

(** ** Identities and keys *)

(** [[A-Za-z0-9][A-Za-z0-9_.:-]{0,127}] on the whole text *)
Definition consumer_char (c : ascii) : bool :=
  is_alpha c || is_digit c || existsb (Ascii.eqb c) ["_"%char; "."%char; ":"%char; "-"%char].
Definition consumer_id_matches (s : string) : bool :=
  match list_ascii_of_string s with
  | c :: l => (is_alpha c || is_digit c) && forallb consumer_char l && (length l <=? 127)%nat
  | [] => false
  end.

(** [_validate_consumer_id] *)
Definition _validate_consumer_id (consumer_id : string) : res unit :=
  raise_if (negb (consumer_id_matches consumer_id)) (ValueError "durable consumer identity is invalid").

(** [durable_event_idempotency_key] *)
Definition durable_event_idempotency_key (consumer_id : string) (e : DomainEvent) : res string :=
  _validate_consumer_id consumer_id;;
  mret (sha256 (dumps (JObj
    [ ("consumer_id", JStr consumer_id); ("event_hash", JStr (event_hash e));
      ("event_id", JStr (event_id e)); ("sequence", JInt (sequence e)) ]))).

Record DurableEventDelivery : Type := mk_delivery {
  dl_consumer_id : string;
  dl_event : DomainEvent;
  dl_idempotency_key : string;
  dl_execution_allowed : bool;
  dl_live_eligibility_status : string
}.

(** [DurableEventDelivery.__post_init__] *)
Definition new_delivery (d : DurableEventDelivery) : res DurableEventDelivery :=
  _validate_consumer_id (dl_consumer_id d);;
  expected ← durable_event_idempotency_key (dl_consumer_id d) (dl_event d);
  raise_if (negb (String.eqb (dl_idempotency_key d) expected))
    (ValueError "durable delivery idempotency key is invalid");;
  raise_if (dl_execution_allowed d) (ValueError "durable delivery cannot grant execution authority");;
  raise_if (negb (String.eqb (dl_live_eligibility_status d) LIVE_ORDER_BLOCKED))
    (ValueError "durable delivery cannot grant live eligibility");;
  mret d.

(** ** Checkpoints *)

Definition _CHECKPOINT_SCHEMA_VERSION : string := "1.0".
Definition _CHECKPOINT_KEYS : list string :=
  ["consumer_id"; "event_hash"; "event_id"; "schema_version"; "sequence"; "updated_at"].

Record DurableConsumerCheckpoint : Type := mk_consumer_checkpoint {
  cc_consumer_id : string;
  cc_sequence : Z;
  cc_event_id : string;
  cc_event_hash : string;
  cc_updated_at : datetime;
  cc_schema_version : string
}.

(** [_is_sha256] *)
Definition _is_sha256 (s : string) : bool :=
  (str_len s =? 64) && forallb is_hex_lower (list_ascii_of_string s).

(** [DurableConsumerCheckpoint.__post_init__] *)
Definition new_consumer_checkpoint (c : DurableConsumerCheckpoint) : res DurableConsumerCheckpoint :=
  _validate_consumer_id (cc_consumer_id c);;
  raise_if (cc_sequence c <? 1) (ValueError "durable consumer checkpoint sequence is invalid");;
  raise_if (blank (cc_event_id c)) (ValueError "durable consumer checkpoint event identity is invalid");;
  raise_if (negb (_is_sha256 (cc_event_hash c))) (ValueError "durable consumer checkpoint event hash is invalid");;
  raise_if (naive (cc_updated_at c))
    (ValueError "durable consumer checkpoint timestamp must be timezone-aware");;
  raise_if (negb (String.eqb (cc_schema_version c) _CHECKPOINT_SCHEMA_VERSION))
    (ValueError "durable consumer checkpoint schema is unsupported");;
  mret c.

(** [_unique_json_object] *)
Definition _unique_json_object (pairs : list (string * json)) : res (list (string * json)) :=
  raise_if (negb (all_unique String.eqb (map fst pairs)))
    (ValueError "checkpoint JSON contains a duplicate object key");;
  mret pairs.

Definition corrupted (msg : string) : exn := DurableEventCheckpointCorruptionError msg.

(** [type(payload[field]) is str], with the text *)
Definition plain_text (key : string) (fields : list (string * json)) : res string :=
  match dict_get String.eqb key fields with
  | Some (JStr s) => Ok s
  | Some _ => Raise TypeError
  | None => Raise KeyError
  end.

Definition plain_int (key : string) (fields : list (string * json)) : res Z :=
  match dict_get String.eqb key fields with
  | Some (JInt n) => Ok n
  | Some _ => Raise TypeError
  | None => Raise KeyError
  end.

(** The part of [_read_unlocked] inside its [try]. *)
Definition parse_consumer_checkpoint (encoded : list ascii) : res DurableConsumerCheckpoint :=
  text ← decode_text encoded;
  payload ← loads_with _unique_json_object text;
  match payload with
  | JObj fields =>
      raise_if (negb (forallb (fun k => str_in k _CHECKPOINT_KEYS) (map fst fields)
                      && forallb (fun k => str_in k (map fst fields)) _CHECKPOINT_KEYS)) TypeError;;
      seq ← plain_int "sequence" fields;
      id ← plain_text "consumer_id" fields;
      hash ← plain_text "event_hash" fields;
      eid ← plain_text "event_id" fields;
      schema ← plain_text "schema_version" fields;
      updated ← plain_text "updated_at" fields;
      at_ ← fromisoformat updated;
      new_consumer_checkpoint (mk_consumer_checkpoint id seq eid hash at_ schema)
  | _ => Raise TypeError
  end.

(** [_next_index] *)
Definition _next_index (checkpoint : option DurableConsumerCheckpoint) (consumer_id : string)
  (events : list DomainEvent) : res nat :=
  match checkpoint with
  | None => mret 0%nat
  | Some c =>
      raise_if (negb (String.eqb (cc_consumer_id c) consumer_id))
        (corrupted "durable consumer checkpoint identity does not match consumer");;
      raise_if (Z.of_nat (length events) <? cc_sequence c)
        (corrupted "durable consumer checkpoint sequence exceeds journal");;
      match nth_error events (Z.to_nat (cc_sequence c - 1)) with
      | None => Raise IndexError
      | Some matched =>
          raise_if (negb (sequence matched =? cc_sequence c))
            (corrupted "durable consumer checkpoint sequence does not match journal");;
          raise_if (negb (String.eqb (event_id matched) (cc_event_id c)))
            (corrupted "durable consumer checkpoint event identity does not match journal");;
          raise_if (negb (String.eqb (event_hash matched) (cc_event_hash c)))
            (corrupted "durable consumer checkpoint event hash does not match journal");;
          mret (Z.to_nat (cc_sequence c))
      end
  end.

(** [_checkpoint_matches_previous_event] *)
Definition _checkpoint_matches_previous_event (c : DurableConsumerCheckpoint) (e : DomainEvent)
  (previous : option DomainEvent) : bool :=
  match previous with
  | None => false
  | Some p =>
      (cc_sequence c =? sequence e - 1) && (sequence p =? cc_sequence c)
      && String.eqb (event_id p) (cc_event_id c) && String.eqb (event_hash p) (cc_event_hash c)
      && String.eqb (previous_hash e) (event_hash p)
  end.

(** [_validated_event_snapshot] *)
Definition _validated_event_snapshot (events : list DomainEvent) : res (list DomainEvent) :=
  raise_if (1000000 <? Z.of_nat (length events)) DurableEventDeliveryError;;
  catch
    (b ← new_bus (Z.max 1 (Z.of_nat (length events)));
     fst (Events.replay (fun _ _ => mret tt : method unit unit) events (b, tt)))
    is_chain_error (fun _ => Raise DurableEventDeliveryError);;
  mret events.

Definition consumer_checkpoint_json (c : DurableConsumerCheckpoint) : json :=
  JObj [ ("consumer_id", JStr (cc_consumer_id c)); ("event_hash", JStr (cc_event_hash c));
         ("event_id", JStr (cc_event_id c)); ("schema_version", JStr (cc_schema_version c));
         ("sequence", JInt (cc_sequence c)); ("updated_at", JStr (isoformat (cc_updated_at c))) ].
Definition encode_checkpoint (c : DurableConsumerCheckpoint) : list ascii :=
  dump (consumer_checkpoint_json c) ++ [newline].

(** ** The store *)

(** Files under the store's root, by name. *)
Definition files : Type := list (string * list ascii).

Section Store.

(** [W] is the world of the handlers and of the operating system: what a
    handler does, the clock, and whether the bytes of a new checkpoint file
    reach the disk before it replaces the old one. *)
Context {W : Type} (consumer : DurableEventDelivery -> method W unit) (now : W -> datetime)
  (disk : W -> bool * W) (maximum_checkpoint_bytes : Z).

(** [DiskConsumerCheckpointStore.__post_init__] *)
Definition new_store : res unit :=
  raise_if (negb ((256 <=? maximum_checkpoint_bytes) && (maximum_checkpoint_bytes <=? 1048576)))
    (ValueError "durable checkpoint size limit is invalid").

(** [_consumer_path] *)
Definition _consumer_path (consumer_id suffix : string) : res string :=
  _validate_consumer_id consumer_id;;
  mret (sha256 consumer_id ++ suffix)%string.

Definition checkpoint_name (consumer_id : string) : string := (sha256 consumer_id ++ ".checkpoint.json")%string.

(** [except DurableEventCheckpointCorruptionError: raise] before the others *)
Definition is_checkpoint_error (e : exn) : bool :=
  match e with KeyError | TypeError | ValueError _ => true | _ => false end.

(** [_read_unlocked] *)
Definition _read_unlocked (consumer_id : string) (fs : files) : res (option DurableConsumerCheckpoint) :=
  target ← _consumer_path consumer_id ".checkpoint.json";
  match dict_get String.eqb target fs with
  | None => mret None
  | Some encoded =>
      raise_if (maximum_checkpoint_bytes <? Z.of_nat (length encoded))
        (corrupted "durable consumer checkpoint exceeds byte capacity");;
      checkpoint ← catch (parse_consumer_checkpoint encoded) is_checkpoint_error
        (fun _ => Raise (corrupted "durable consumer checkpoint is invalid"));
      raise_if (negb (String.eqb (cc_consumer_id checkpoint) consumer_id))
        (corrupted "durable consumer checkpoint identity does not match consumer");;
      mret (Some checkpoint)
  end.

(** [_write_unlocked]: the temporary file replaces the target at once, or is
    removed and the target stays. *)
Definition _write_unlocked (consumer_id : string) (e : DomainEvent) : method (files * W) DurableConsumerCheckpoint :=
  fun '(fs, w) =>
    match new_consumer_checkpoint (mk_consumer_checkpoint consumer_id (sequence e) (event_id e) (event_hash e)
            (now w) _CHECKPOINT_SCHEMA_VERSION) with
    | Raise x => (Raise x, (fs, w))
    | Ok checkpoint =>
        match _consumer_path consumer_id ".checkpoint.json" with
        | Raise x => (Raise x, (fs, w))
        | Ok target =>
            let encoded := encode_checkpoint checkpoint in
            if maximum_checkpoint_bytes <? Z.of_nat (length encoded)
            then (Raise (OverflowError "durable consumer checkpoint exceeds byte capacity"), (fs, w))
            else
              let '(reached, w) := disk w in
              if reached then (Ok checkpoint, (dict_set String.eqb target encoded fs, w))
              else (Raise OSError, (fs, w))
        end
    end.

(** [_deliver_event_unlocked] *)
Definition _deliver_event_unlocked (consumer_id : string) (e : DomainEvent) :
  method (files * W) DurableConsumerCheckpoint := fun '(fs, w) =>
  match (key ← durable_event_idempotency_key consumer_id e;
         new_delivery (mk_delivery consumer_id e key false LIVE_ORDER_BLOCKED)) with
  | Raise x => (Raise x, (fs, w))
  | Ok delivery =>
      match consumer delivery w with
      | (Raise _, w) => (Raise DurableEventDeliveryError, (fs, w))
      | (Ok _, w) =>
          match _write_unlocked consumer_id e (fs, w) with
          | (Raise _, st) => (Raise DurableEventDeliveryError, st)
          | (Ok checkpoint, st) => (Ok checkpoint, st)
          end
      end
  end.

(** The loop of [deliver_pending]. *)
Fixpoint deliver_all (consumer_id : string) (es : list DomainEvent)
  (checkpoint : option DurableConsumerCheckpoint) : method (files * W) (option DurableConsumerCheckpoint) :=
  match es with
  | [] => mret checkpoint
  | e :: es => c ← _deliver_event_unlocked consumer_id e; deliver_all consumer_id es (Some c)
  end.

(** [deliver_pending] *)
Definition deliver_pending (consumer_id : string) (events : list DomainEvent) :
  method (files * W) (option DurableConsumerCheckpoint) :=
  lift (_validate_consumer_id consumer_id);;
  event_snapshot ← lift (_validated_event_snapshot events);
  st ← get;
  checkpoint ← lift (_read_unlocked consumer_id st.1);
  next_index ← lift (_next_index checkpoint consumer_id event_snapshot);
  deliver_all consumer_id (skipn next_index event_snapshot) checkpoint.

(** [deliver_next] *)
Definition deliver_next (consumer_id : string) (e : DomainEvent) (previous : option DomainEvent) :
  method (files * W) bool :=
  lift (_validate_consumer_id consumer_id);;
  st ← get;
  checkpoint ← lift (_read_unlocked consumer_id st.1);
  match checkpoint with
  | None =>
      if negb (sequence e =? 1) then mret false
      else _deliver_event_unlocked consumer_id e;; mret true
  | Some c =>
      if cc_sequence c =? sequence e then
        lift (raise_if (negb (String.eqb (cc_event_id c) (event_id e))
                        || negb (String.eqb (cc_event_hash c) (event_hash e)))
          (corrupted "durable consumer checkpoint does not match delivered event"));;
        mret true
      else if negb (_checkpoint_matches_previous_event c e previous) then mret false
      else _deliver_event_unlocked consumer_id e;; mret true
  end.

(** [load_verified] *)
Definition load_verified (consumer_id : string) (events : list DomainEvent) :
  method (files * W) (option DurableConsumerCheckpoint) :=
  lift (_validate_consumer_id consumer_id);;
  event_snapshot ← lift (_validated_event_snapshot events);
  st ← get;
  checkpoint ← lift (_read_unlocked consumer_id st.1);
  lift (_next_index checkpoint consumer_id event_snapshot);;
  mret checkpoint.

End Store.

(** ** Checkpoint files *)

Lemma consumer_id_ascii id : consumer_id_matches id = true -> isascii id = true.
Proof.
  unfold consumer_id_matches, isascii. destruct (list_ascii_of_string id) as [|c l]; [done|].
  intros H. apply andb_true_iff in H as [H _]. apply andb_true_iff in H as [Hc Hl].
  assert (forall x, consumer_char x = true -> is_ascii x = true) as Hx.
  { intros x H. assert (implb (consumer_char x) (is_ascii x) = true) as E; [|by rewrite H in E].
    clear. revert x. apply ascii_forall. vm_compute. reflexivity. }
  cbn [forallb]. rewrite (Hx c) by (unfold consumer_char; by rewrite Hc). cbn [andb].
  rewrite forallb_forall in *. auto.
Qed.

Lemma consumer_checkpoint_back c :
  new_consumer_checkpoint c = Ok c -> isascii (cc_event_id c) = true -> cc_sequence c <= 1000000 ->
  dt_valid (cc_updated_at c) = true -> parse_consumer_checkpoint (encode_checkpoint c) = Ok c.
Proof.
  intros Hc He Hs Ht. unfold parse_consumer_checkpoint, encode_checkpoint.
  rewrite dump_decodes by done. rewrite Ok_bind.
  pose proof Hc as Hn. unfold new_consumer_checkpoint, _validate_consumer_id in Hn. inv_res. zify_bool.
  assert (json_ok (consumer_checkpoint_json c) = true) as Hok.
  { unfold consumer_checkpoint_json. cbn [json_ok forallb fst snd map].
    rewrite (consumer_id_ascii _ Hm), He, isoformat_ascii. unfold _is_sha256 in Hm2.
    apply andb_true_iff in Hm2 as [_ Hh].
    pose proof (small_int_ok (cc_sequence c) ltac:(lia)) as Hi. cbn [json_ok] in Hi.
    rewrite (hex_text_ascii _ Hh), Hm4, Hi.
    vm_compute. reflexivity. }
  rewrite (dump_reads_with _unique_json_object); [|intros ps Hps; unfold _unique_json_object; by rewrite Hps|done|done].
  rewrite Ok_bind. unfold consumer_checkpoint_json. cbn -[isoformat fromisoformat new_consumer_checkpoint].
  rewrite fromisoformat_isoformat by done. rewrite Ok_bind. by destruct c.
Qed.

(** ** The cursor *)

Section Cursor.

Context {V : Type} (inner : DurableEventDelivery -> method V unit) (now : V -> datetime)
  (disk : V -> bool * V) (maximum : Z).
Context (clock_ok : forall v, dt_valid (now v) = true /\ naive (now v) = false).

(** The handler, with every delivery it was called with written down. *)
Definition recorded (d : DurableEventDelivery) : method (list DurableEventDelivery * V) unit :=
  fun '(log, v) => let '(r, v) := inner d v in (r, (log ++ [d], v)).
Definition now_recorded (w : list DurableEventDelivery * V) : datetime := now w.2.
Definition disk_recorded (w : list DurableEventDelivery * V) : bool * (list DurableEventDelivery * V) :=
  let '(b, v) := disk w.2 in (b, (w.1, v)).

(** The delivery of an event: always the same key for the same event. *)
Definition delivery_of (id : string) (e : DomainEvent) : DurableEventDelivery :=
  mk_delivery id e (ok_or "" (durable_event_idempotency_key id e)) false LIVE_ORDER_BLOCKED.

(** The checkpoint file of consumer [id] says that the first [n] events were
    handled. *)
Definition cursor_at (fs : files) (id : string) (es : list DomainEvent) (n : nat) : Prop :=
  match n with
  | O => dict_get String.eqb (checkpoint_name id) fs = None
  | S k => exists e at_, nth_error es k = Some e /\ dt_valid at_ = true /\ naive at_ = false /\
      let c := mk_consumer_checkpoint id (sequence e) (event_id e) (event_hash e) at_ _CHECKPOINT_SCHEMA_VERSION in
      Z.of_nat (length (encode_checkpoint c)) <= maximum /\
      dict_get String.eqb (checkpoint_name id) fs = Some (encode_checkpoint c)
  end.

Context (id : string) (id_ok : consumer_id_matches id = true).

Lemma id_valid : _validate_consumer_id id = Ok tt.
Proof. unfold _validate_consumer_id. by rewrite id_ok. Qed.

Lemma consumer_path_ok : _consumer_path id ".checkpoint.json" = Ok (checkpoint_name id).
Proof. unfold _consumer_path. by rewrite id_valid. Qed.

Lemma checkpoint_of_event e at_ : storable e = true -> naive at_ = false ->
  let c := mk_consumer_checkpoint id (sequence e) (event_id e) (event_hash e) at_ _CHECKPOINT_SCHEMA_VERSION in
  new_consumer_checkpoint c = Ok c.
Proof.
  intros (Hn & _ & _ & _ & _ & _ & _ & _ & Hs)%storable_spec Ha.
  apply new_event_Ok in Hn as (_ & _ & _ & Hh & Hb). unfold new_consumer_checkpoint.
  cbn [cc_consumer_id cc_sequence cc_event_id cc_event_hash cc_updated_at cc_schema_version].
  rewrite id_valid, Hb, Ha, Hh. unfold event_digest, compute_hash.
  match goal with |- context [_is_sha256 (sha256 ?t)] => pose proof (sha256_text t) as Ht end.
  unfold is_sha256_text in Ht. unfold _is_sha256. rewrite Ht, (proj2 (Z.ltb_ge _ 1)) by lia. done.
Qed.

(** Reading a cursor gives its position back. *)
Lemma read_cursor_at fs es n : chain es -> Forall (fun e => storable e = true) es -> cursor_at fs id es n ->
  exists c, _read_unlocked maximum id fs = Ok c /\ _next_index c id es = Ok n /\
    match n with
    | O => c = None
    | S k => exists e at_, nth_error es k = Some e /\ c = Some
        (mk_consumer_checkpoint id (sequence e) (event_id e) (event_hash e) at_ _CHECKPOINT_SCHEMA_VERSION)
    end.
Proof.
  intros Hch Hst Hc. unfold _read_unlocked. rewrite consumer_path_ok, Ok_bind.
  destruct n as [|k]; cbn [cursor_at] in Hc.
  { rewrite Hc. exists None. done. }
  destruct Hc as (e & at_ & He & Hv & Hn & Hl & ->). cbv zeta in *.
  set (c := mk_consumer_checkpoint _ _ _ _ _ _) in *.
  assert (storable e = true) as Hse.
  { rewrite Forall_forall in Hst. apply Hst, list_elem_of_In. by eapply nth_error_In. }
  pose proof (chain_position _ _ _ Hch He) as Hseq.
  pose proof (checkpoint_of_event e at_ Hse Hn) as Hnew. cbv zeta in Hnew. fold c in Hnew.
  apply storable_spec in Hse as (_ & Hida & _ & _ & _ & _ & _ & _ & Hs).
  rewrite (proj2 (Z.ltb_ge _ _)) by done. cbn [raise_if]. rewrite Ok_bind.
  rewrite consumer_checkpoint_back; [|done|done|cbn; lia|done]. cbn [catch]. rewrite Ok_bind.
  change (cc_consumer_id c) with id. rewrite String.eqb_refl. cbn [negb raise_if]. rewrite Ok_bind.
  exists (Some c). split; [done|]. split; [|eauto].
  unfold _next_index. change (cc_consumer_id c) with id. rewrite String.eqb_refl. cbn [negb raise_if].
  change (cc_sequence c) with (sequence e). change (cc_event_id c) with (event_id e).
  change (cc_event_hash c) with (event_hash e). rewrite Ok_bind.
  assert (k < length es)%nat by (apply nth_error_Some; by rewrite He).
  rewrite (proj2 (Z.ltb_ge _ _)) by lia. cbn [raise_if]. rewrite Ok_bind.
  replace (Z.to_nat (sequence e - 1)) with k by lia. rewrite He, Z.eqb_refl, !String.eqb_refl.
  cbn [negb raise_if]. rewrite !Ok_bind. change (Ok (Z.to_nat (sequence e)) = Ok (S k)). f_equal. lia.
Qed.

Lemma key_Ok e : exists k, durable_event_idempotency_key id e = Ok k.
Proof. unfold durable_event_idempotency_key. rewrite id_valid. by eexists. Qed.

Lemma delivery_built e :
  (key ← durable_event_idempotency_key id e; new_delivery (mk_delivery id e key false LIVE_ORDER_BLOCKED))
  = Ok (delivery_of id e).
Proof.
  unfold delivery_of. destruct (key_Ok e) as [k E]. rewrite E, Ok_bind. unfold new_delivery.
  cbn [dl_consumer_id dl_event dl_idempotency_key dl_execution_allowed dl_live_eligibility_status].
  by rewrite id_valid, Ok_bind, E, Ok_bind, !String.eqb_refl.
Qed.

Definition same_elsewhere (fs fs' : files) : Prop := forall name, name <> checkpoint_name id ->
  dict_get String.eqb name fs' = dict_get String.eqb name fs.

(** One event: the handler is called, and the cursor moves when both the
    handler and the checkpoint succeed. *)
Lemma deliver_event es n e fs log v r st' :
  nth_error es n = Some e -> storable e = true -> cursor_at fs id es n ->
  _deliver_event_unlocked recorded now_recorded disk_recorded maximum id e (fs, (log, v)) = (r, st') ->
  exists fs' v', st' = (fs', (log ++ [delivery_of id e], v')) /\ same_elsewhere fs fs' /\
    match r with
    | Ok _ => cursor_at fs' id es (S n)
    | Raise x => x = DurableEventDeliveryError /\ fs' = fs
    end.
Proof.
  intros He Hse Hc H. unfold _deliver_event_unlocked in H. rewrite delivery_built in H.
  unfold recorded in H. destruct (inner (delivery_of id e) v) as [ri v1]. destruct ri as [[]|x].
  2:{ injection H as <- <-. exists fs, v1. done. }
  unfold _write_unlocked in H. change (now_recorded (log ++ [delivery_of id e], v1)) with (now v1) in H.
  destruct (clock_ok v1) as [Hv Hn]. rewrite checkpoint_of_event in H by done.
  rewrite consumer_path_ok in H. cbv iota zeta in H.
  destruct (Z.ltb_spec maximum (Z.of_nat (length (encode_checkpoint
    (mk_consumer_checkpoint id (sequence e) (event_id e) (event_hash e) (now v1) _CHECKPOINT_SCHEMA_VERSION)))))
    as [|Hl].
  { injection H as <- <-. exists fs, v1. done. }
  unfold disk_recorded in H. cbn [snd fst] in H. destruct (disk v1) as [[] v2]; injection H as <- <-.
  2:{ exists fs, v2. done. }
  eexists _, v2. split; [done|]. split.
  - intros name Hname. rewrite (dict_get_set String.eqb). by apply String.eqb_neq in Hname as ->.
  - exists e, (now v1). split; [done|]. split; [done|]. split; [done|]. split; [done|].
    by rewrite (dict_get_set String.eqb), String.eqb_refl.
Qed.

(** A run of deliveries from the cursor: the handler saw the next [m] events in
    order, the first [k] of them moved the cursor, and at most the last one did
    not. *)
Definition delivered (es : list DomainEvent) (n : nat) (fs : files) (log : list DurableEventDelivery)
  (fs' : files) (log' : list DurableEventDelivery) (complete : bool) : Prop :=
  exists k m, (k <= m <= S k)%nat /\ (n + m <= length es)%nat /\
    log' = log ++ map (delivery_of id) (firstn m (skipn n es)) /\
    cursor_at fs' id es (n + k) /\ same_elsewhere fs fs' /\
    (complete = true -> m = k /\ n + k = length es)%nat.

Lemma deliver_all_delivered es : Forall (fun e => storable e = true) es ->
  forall segment n c fs log v r fs' log' v', segment = skipn n es -> cursor_at fs id es n ->
  (n <= length es)%nat ->
  deliver_all recorded now_recorded disk_recorded maximum id segment c (fs, (log, v)) = (r, (fs', (log', v'))) ->
  delivered es n fs log fs' log' (is_ok r) /\ (is_ok r = false -> r = Raise DurableEventDeliveryError).
Proof.
  intros Hst. induction segment as [|e segment IH]; intros n c fs log v r fs' log' v' Hseg Hc Hn H.
  - cbn [deliver_all] in H. injection H as <- <- <- _. split; [|done].
    assert (length es <= n)%nat as Hle.
    { apply (f_equal (@length _)) in Hseg. rewrite length_skipn in Hseg. cbn in Hseg. lia. }
    exists 0%nat, 0%nat. rewrite Nat.add_0_r. cbn [firstn map]. rewrite app_nil_r. split_and!; try done; lia.
  - assert (nth_error es n = Some e) as He.
    { rewrite <- (firstn_skipn n es), <- Hseg. rewrite nth_error_app2; rewrite length_firstn; [|lia].
      by replace (n - n `min` length es)%nat with 0%nat by lia. }
    assert (storable e = true) as Hse.
    { rewrite Forall_forall in Hst. apply Hst, list_elem_of_In. by eapply nth_error_In. }
    assert (n < length es)%nat as Hlt by (apply nth_error_Some; by rewrite He).
    assert (segment = skipn (S n) es) as Hseg'.
    { replace (S n) with (1 + n)%nat by lia. rewrite <- skipn_skipn, <- Hseg. done. }
    cbn [deliver_all] in H. rewrite method_bind_run in H.
    destruct (_deliver_event_unlocked _ _ _ _ _ _ _) as [r1 st1] eqn:E.
    destruct (deliver_event es n e fs log v r1 st1 He Hse Hc E) as (fs1 & v1 & -> & Hsame & Hr).
    destruct r1 as [c1|x].
    + destruct (IH (S n) _ _ _ _ _ _ _ _ Hseg' Hr ltac:(lia) H) as [(k & m & Hkm & Hm & Hlog & Hcur & Hs & Hd) Hx].
      split; [|done]. exists (S k), (S m). rewrite <- Hseg. cbn [firstn map]. rewrite Hseg', Hlog, <- app_assoc.
      replace (n + S k)%nat with (S n + k)%nat by lia.
      split_and!; try done; try lia; [intros name Hname; by rewrite Hs, Hsame|].
      intros Hd'. destruct (Hd Hd'). lia.
    + destruct Hr as [-> ->]. injection H as <- <- <- _. split; [|done].
      exists 0%nat, 1%nat. rewrite Nat.add_0_r, <- Hseg. split_and!; try done; lia.
Qed.

Lemma snapshot_Ok es : chain es -> Z.of_nat (length es) <= 1000000 -> _validated_event_snapshot es = Ok es.
Proof.
  intros Hc Hl. unfold _validated_event_snapshot. rewrite (proj2 (Z.ltb_ge 1000000 _)) by lia.
  cbn [raise_if]. rewrite Ok_bind. unfold new_bus.
  assert (negb ((1 <=? Z.max 1 (Z.of_nat (length es))) && (Z.max 1 (Z.of_nat (length es)) <=? 1000000)) = false) as -> by lia.
  cbn [raise_if]. rewrite !Ok_bind. unfold mret at 1, res_ret. cbn [catch mbind res_bind].
  rewrite replay_quiet; [done|done| |done|cbn; lia]. split; [constructor|done|cbn; lia].
Qed.

Lemma deliver_pending_delivered es n fs log v r fs' log' v' :
  chain es -> Forall (fun e => storable e = true) es -> Z.of_nat (length es) <= 1000000 -> (n <= length es)%nat ->
  cursor_at fs id es n ->
  deliver_pending recorded now_recorded disk_recorded maximum id es (fs, (log, v)) = (r, (fs', (log', v'))) ->
  delivered es n fs log fs' log' (is_ok r) /\ (is_ok r = false -> r = Raise DurableEventDeliveryError).
Proof.
  intros Hch Hst Hl Hn Hc H. unfold deliver_pending in H.
  rewrite id_valid, lift_bind, snapshot_Ok, lift_bind, get_bind in H by done. cbn [fst] in H.
  destruct (read_cursor_at fs es n Hch Hst Hc) as (c & Er & Ei & _).
  rewrite Er, lift_bind, Ei, lift_bind in H.
  by eapply deliver_all_delivered.
Qed.

Lemma deliver_then es n e fs log v r st' :
  nth_error es n = Some e -> storable e = true -> cursor_at fs id es n ->
  (_deliver_event_unlocked recorded now_recorded disk_recorded maximum id e;; mret true) (fs, (log, v)) = (r, st') ->
  exists fs' v', st' = (fs', (log ++ [delivery_of id e], v')) /\ same_elsewhere fs fs' /\
    (r = Ok true /\ cursor_at fs' id es (S n) \/ r = Raise DurableEventDeliveryError /\ fs' = fs).
Proof.
  intros He Hse Hc H. rewrite method_bind_run in H.
  destruct (_deliver_event_unlocked _ _ _ _ _ _ _) as [rk stk] eqn:E.
  destruct (deliver_event es n e fs log v rk stk He Hse Hc E) as (fs' & v' & -> & Hs & Hr).
  exists fs', v'. destruct rk as [c|x].
  - injection H as <- <-. split; [done|]. split; [done|]. by left.
  - destruct Hr as [-> ->]. injection H as <- <-. split; [done|]. split; [done|]. by right.
Qed.

(** [deliver_next] at the end of the chain: the last event is delivered when the
    cursor is just before it, acknowledged when it is past it, and otherwise a
    catch-up is asked for. *)
Lemma deliver_next_run es e n fs log v r st' :
  chain (es ++ [e]) -> Forall (fun x => storable x = true) (es ++ [e]) ->
  (n <= length (es ++ [e]))%nat -> cursor_at fs id (es ++ [e]) n ->
  deliver_next recorded now_recorded disk_recorded maximum id e (last es) (fs, (log, v)) = (r, st') ->
  if (n =? length es)%nat then
    exists fs' v', st' = (fs', (log ++ [delivery_of id e], v')) /\ same_elsewhere fs fs' /\
      (r = Ok true /\ cursor_at fs' id (es ++ [e]) (S n) \/ r = Raise DurableEventDeliveryError /\ fs' = fs)
  else st' = (fs, (log, v)) /\ r = Ok (length es <? n)%nat.
Proof.
  intros Hch Hst Hn Hc H. pose proof Hch as Hsn. apply chain_snoc_inv in Hsn as (Hpre & _ & Hseq & Hprev & _).
  rewrite length_app in Hn. cbn [length] in Hn.
  assert (nth_error (es ++ [e]) (length es) = Some e) as Hlast.
  { by rewrite nth_error_app2, Nat.sub_diag by lia. }
  assert (storable e = true) as Hse.
  { rewrite Forall_forall in Hst. apply Hst, list_elem_of_In. by eapply nth_error_In. }
  unfold deliver_next in H. rewrite id_valid, lift_bind, get_bind in H. cbn [fst] in H.
  destruct (read_cursor_at fs _ n Hch Hst Hc) as (c & Er & _ & Hcn). rewrite Er, lift_bind in H.
  destruct n as [|k].
  { subst c. destruct es as [|x es].
    - rewrite Hseq in H. cbn [length Nat.eqb] in *. by eapply (deliver_then [e] 0).
    - cbn [length Nat.eqb] in *. rewrite Hseq in H.
      destruct (Z.eqb_spec (Z.of_nat (S (length es)) + 1) 1); [lia|]. injection H as <- <-. done. }
  destruct Hcn as (x & at_ & Hx & ->). pose proof (chain_position _ _ _ Hch Hx) as Hxs.
  cbn [cc_sequence cc_event_id cc_event_hash] in H.
  destruct (Z.eqb_spec (sequence x) (sequence e)) as [Heq|Hne].
  - assert (k = length es) as -> by lia. rewrite Hlast in Hx. injection Hx as <-.
    rewrite !String.eqb_refl in H. cbn [negb orb] in H. rewrite lift_raise_if_bind in H.
    injection H as <- <-. destruct (Nat.eqb_spec (S (length es)) (length es)); [lia|].
    by rewrite (proj2 (Nat.ltb_lt _ _)) by lia.
  - assert (k < length es)%nat as Hk by lia. rewrite nth_error_app1 in Hx by done.
    unfold _checkpoint_matches_previous_event in H. cbn [cc_sequence cc_event_id cc_event_hash] in H.
    destruct (Nat.eqb_spec (S k) (length es)) as [Hkl|Hkl].
    + assert (last es = Some x) as El.
      { destruct es as [|y es _] using rev_ind; [done|]. rewrite length_app in *. cbn [length] in *.
        rewrite nth_error_app2 in Hx by lia. replace (k - length es)%nat with 0%nat in Hx by lia.
        injection Hx as ->. apply last_snoc. }
      assert (previous_hash e = event_hash x) as Hp by (rewrite Hprev; unfold tail_hash; by rewrite El).
      rewrite El, Hp, !String.eqb_refl, Z.eqb_refl in H.
      destruct (Z.eqb_spec (sequence x) (sequence e - 1)); [|lia]. cbn [andb negb] in H.
      by eapply (deliver_then (es ++ [e]) (S k)); [rewrite Hkl| | |].
    + assert ((sequence x =? sequence e - 1) = false) as Hf by (apply Z.eqb_neq; lia).
      rewrite Hf in H. rewrite (proj2 (Nat.ltb_ge _ _)) by lia.
      destruct (last es); cbn [andb negb] in H; injection H as <- <-; done.
Qed.

End Cursor.

(** ** The properties *)

(** C34: at least once, in order.  Whatever the handler does to a state of its
    own or raises and whichever checkpoint writes fail, one call of [deliver_pending] on a chain of
    events hands the handler consecutive events from the consumer's cursor on,
    without a hole; the cursor moves past those that were handled and
    checkpointed, so at most the last delivery will be repeated, with the same
    idempotency key; a call that returns has delivered every event; and the
    files of other consumers are not touched. *)
Theorem delivery_at_least_once {V} (inner : DurableEventDelivery -> method V unit) (now : V -> datetime)
  (disk : V -> bool * V) maximum id es n fs log v r fs' log' v' :
  (forall v, dt_valid (now v) = true /\ naive (now v) = false) -> consumer_id_matches id = true ->
  chain es -> Forall (fun e => storable e = true) es -> Z.of_nat (length es) <= 1000000 ->
  (n <= length es)%nat -> cursor_at maximum fs id es n ->
  deliver_pending (recorded inner) (now_recorded now) (disk_recorded disk) maximum id es (fs, (log, v)) =
    (r, (fs', (log', v'))) ->
  exists k m, (k <= m <= S k)%nat /\ (n + m <= length es)%nat /\
    log' = log ++ map (delivery_of id) (firstn m (skipn n es)) /\
    cursor_at maximum fs' id es (n + k) /\ same_elsewhere id fs fs' /\
    match r with
    | Ok _ => m = k /\ (n + k = length es)%nat
    | Raise x => x = DurableEventDeliveryError
    end.
Proof.
  intros Hnow Hid Hch Hst Hl Hn Hc H.
  destruct (deliver_pending_delivered inner now disk maximum Hnow id Hid es n fs log v r fs' log' v'
    Hch Hst Hl Hn Hc H) as [(k & m & Hkm & Hm & Hlog & Hcur & Hs & Hd) Hx].
  exists k, m. split_and!; try done; try lia. destruct r as [c|x]; [by apply Hd|].
  by injection (Hx eq_refl).
Qed.

(** The newest event goes to a consumer exactly when it is next in line.
    [deliver_next] on the last event of a chain delivers it when the cursor is
    right before it, acknowledges it without a second delivery when the cursor
    is past it, and otherwise delivers nothing and asks for a catch-up. *)
Theorem deliver_next_exact {V} (inner : DurableEventDelivery -> method V unit) (now : V -> datetime)
  (disk : V -> bool * V) maximum id es e n fs log v r st' :
  (forall v, dt_valid (now v) = true /\ naive (now v) = false) -> consumer_id_matches id = true ->
  chain (es ++ [e]) -> Forall (fun x => storable x = true) (es ++ [e]) ->
  (n <= length (es ++ [e]))%nat -> cursor_at maximum fs id (es ++ [e]) n ->
  deliver_next (recorded inner) (now_recorded now) (disk_recorded disk) maximum id e (last es) (fs, (log, v)) =
    (r, st') ->
  if (n =? length es)%nat then
    exists fs' v', st' = (fs', (log ++ [delivery_of id e], v')) /\ same_elsewhere id fs fs' /\
      (r = Ok true /\ cursor_at maximum fs' id (es ++ [e]) (S n) \/ r = Raise DurableEventDeliveryError /\ fs' = fs)
  else st' = (fs, (log, v)) /\ r = Ok (length es <? n)%nat.
Proof. intros Hnow Hid. by apply deliver_next_run. Qed.

(** ** Witnesses *)

(** A handler that refuses every third call, and a disk that always works. *)
Definition ex_handler (d : DurableEventDelivery) : method nat unit := fun n =>
  (if (n mod 3 =? 2)%nat then Raise OSError else Ok tt, S n).
Definition ex_now (n : nat) : datetime := utc 1000000.
Definition ex_disk (n : nat) : bool * nat := (true, n).

Lemma ex_now_ok n : dt_valid (ex_now n) = true /\ naive (ex_now n) = false.
Proof. done. Qed.

Lemma ex_chain_storable : Forall (fun e => storable e = true) ex_chain.
Proof. repeat constructor; vm_compute; reflexivity. Qed.

Definition ex_run : res (option DurableConsumerCheckpoint) * (files * (list DurableEventDelivery * nat)) :=
  deliver_pending (recorded ex_handler) (now_recorded ex_now) (disk_recorded ex_disk) 65536 "ledger" ex_chain
    ([], ([], 1%nat)).

(** The first event is handled, the second refused. *)
Example ex_run_refused : fst ex_run = Raise DurableEventDeliveryError /\ length (fst (snd (snd ex_run))) = 2%nat.
Proof. vm_compute. done. Qed.

Lemma delivery_at_least_once_witness : exists k m, (k <= m <= S k)%nat /\ (0 + m <= length ex_chain)%nat /\
  fst (snd (snd ex_run)) = [] ++ map (delivery_of "ledger") (firstn m (skipn 0 ex_chain)) /\
  cursor_at 65536 (fst (snd ex_run)) "ledger" ex_chain (0 + k) /\ same_elsewhere "ledger" [] (fst (snd ex_run)) /\
  match fst ex_run with
  | Ok _ => m = k /\ (0 + k = length ex_chain)%nat
  | Raise x => x = DurableEventDeliveryError
  end.
Proof.
  apply (delivery_at_least_once ex_handler ex_now ex_disk 65536 "ledger" ex_chain 0 [] [] 1%nat _ _ _
    (snd (snd (snd ex_run)))).
  - apply ex_now_ok.
  - reflexivity.
  - apply ex_chain_chain.
  - apply ex_chain_storable.
  - vm_compute. discriminate.
  - apply Nat.le_0_l.
  - reflexivity.
  - unfold ex_run. by destruct (deliver_pending _ _ _ _ _ _ _) as [r [fs [log v]]].
Defined.

(** A consumer that never saw the first event asks for a catch-up. *)
Lemma deliver_next_exact_witness : exists e1 e2, ex_chain = [e1; e2] /\
  deliver_next (recorded ex_handler) (now_recorded ex_now) (disk_recorded ex_disk) 65536 "ledger" e2 (Some e1)
    ([], ([], 0%nat)) = (Ok false, ([], ([], 0%nat))).
Proof.
  exists (hd ex_first ex_chain), (hd ex_first (tl ex_chain)). split; [reflexivity|].
  destruct (deliver_next _ _ _ _ _ _ _ _) as [r st'] eqn:E.
  destruct (deliver_next_exact ex_handler ex_now ex_disk 65536 "ledger" [hd ex_first ex_chain]
    (hd ex_first (tl ex_chain)) 0 [] [] 0%nat r st' ex_now_ok eq_refl ex_chain_chain ex_chain_storable
    (Nat.le_0_l _) eq_refl E) as [-> ->]. reflexivity.
Defined.
