(* ===== verification/EventRuntime.v ===== *)
(** [events/journal.py], [JournaledEventRuntime]: an event is appended to the
    journal, then published on the bus, then handed to the durable consumers.
    Subscribers and consumers act on a state of their own and may raise; calls of
    the same runtime from inside them are not modelled. *)
From S2P Require Import Prelude PyDecimal DecimalFacts DecimalText Sha256 PyText JsonText IsoTime Events Journal JournalLog Delivery.
Local Open Scope Z_scope.
Local Open Scope bool_scope.

(** [except (OSError, RuntimeError, ValueError)]: the three corruption and
    delivery errors of the package are RuntimeErrors. *)
Definition is_delivery_failure (x : exn) : bool :=
  match x with
  | OSError | RuntimeError _ | ValueError _ | EventJournalCorruptionError _
  | DurableEventCheckpointCorruptionError _ | DurableEventDeliveryError
  | AuthorizationAlreadyConsumedError | AuthorizationLedgerUnavailableError
  | ExchangeHttpError _ | ExchangePayloadError _ => true
  | _ => false
  end.

(** [_raise_delivery_failures] *)
Definition _raise_delivery_failures (failures : list exn) : res unit :=
  match failures with
  | [] => Ok tt
  | [x] => Raise x
  | _ => Raise (ExceptionGroup failures)
  end.

Section Runtime.

(** [W] is the world the subscribers, the durable handlers, the clock and the
    checkpoint disk share. *)
Context {W : Type} (handler : N -> DomainEvent -> method W unit)
  (consumer : N -> DurableEventDelivery -> method W unit) (now : W -> datetime) (disk : W -> bool * W)
  (cfg : journal_config) (maximum_checkpoint_bytes : Z).

Record runtime : Type := mk_runtime {
  rt_journal : journal;
  rt_bus : bus;
  rt_files : files;
  _durable_consumers : list (string * N);
  _latest_event : option DomainEvent;
  rt_world : W
}.

(** [__post_init__], over a bus that may hold events. *)
Definition new_runtime (j : journal) (b : bus) (fs : files) (w : W) : runtime :=
  mk_runtime j b fs [] (last (events b)) w.

(** [JournaledEventRuntime.open] *)
Definition open (capacity : Z) (j : journal) (fs : files) (w : W) : res runtime :=
  match recover cfg j with
  | (Raise x, _) => Raise x
  | (Ok recovery, j) =>
      b ← new_bus capacity;
      match Events.replay handler (recovered_events recovery) (b, w) with
      | (Raise x, _) => Raise x
      | (Ok _, (b, w)) => Ok (new_runtime j b fs w)
      end
  end.

(** [subscribe_durable]; a consumer is named by its number. *)
Definition subscribe_durable (consumer_id : string) (c : N) (rt : runtime) : res unit * runtime :=
  if dict_mem String.eqb consumer_id (_durable_consumers rt)
  then (Raise (ValueError "durable event consumer is already registered"), rt)
  else
    match load cfg (rt_journal rt) with
    | (Raise x, j) =>
        (Raise x, mk_runtime j (rt_bus rt) (rt_files rt) (_durable_consumers rt) (_latest_event rt) (rt_world rt))
    | (Ok history, j) =>
        match deliver_pending (consumer c) now disk maximum_checkpoint_bytes consumer_id history
                (rt_files rt, rt_world rt) with
        | (Raise x, (fs, w)) =>
            (Raise x, mk_runtime j (rt_bus rt) fs (_durable_consumers rt) (_latest_event rt) w)
        | (Ok _, (fs, w)) =>
            (Ok tt, mk_runtime j (rt_bus rt) fs
                      (dict_set String.eqb consumer_id c (_durable_consumers rt)) (_latest_event rt) w)
        end
    end.

(** The variables of the loop over the consumers. *)
Record dispatch : Type := mk_dispatch {
  dp_journal : journal;
  dp_files : files;
  dp_world : W;
  full_history : option (list DomainEvent);
  failures : list exn
}.

Definition fail_with (x : exn) (d : dispatch) : dispatch :=
  mk_dispatch (dp_journal d) (dp_files d) (dp_world d) (full_history d) (failures d ++ [x]).

(** [full_history = self.journal.load()] with its failures collected. *)
Definition load_history (d : dispatch) : res unit * dispatch :=
  match load cfg (dp_journal d) with
  | (Ok history, j) => (Ok tt, mk_dispatch j (dp_files d) (dp_world d) (Some history) (failures d))
  | (Raise x, j) =>
      let d := mk_dispatch j (dp_files d) (dp_world d) (full_history d) (failures d) in
      if is_delivery_failure x then (Ok tt, fail_with x d) else (Raise x, d)
  end.

(** [deliver_pending] over the loaded history, when there is one. *)
Definition catch_up (consumer_id : string) (c : N) (d : dispatch) : res unit * dispatch :=
  match full_history d with
  | None => (Ok tt, d)
  | Some history =>
      let '(r, (fs, w)) := deliver_pending (consumer c) now disk maximum_checkpoint_bytes consumer_id history
                             (dp_files d, dp_world d) in
      let d := mk_dispatch (dp_journal d) fs w (full_history d) (failures d) in
      match r with
      | Ok _ => (Ok tt, d)
      | Raise x => if is_delivery_failure x then (Ok tt, fail_with x d) else (Raise x, d)
      end
  end.

(** One turn of the loop of [publish]. *)
Definition dispatch_one (e : DomainEvent) (previous : option DomainEvent) (bus_committed : bool)
  (consumer_id : string) (c : N) (d : dispatch) : res unit * dispatch :=
  match full_history d, bus_committed with
  | None, true =>
      let '(r, (fs, w)) := deliver_next (consumer c) now disk maximum_checkpoint_bytes consumer_id e previous
                             (dp_files d, dp_world d) in
      let d := mk_dispatch (dp_journal d) fs w (full_history d) (failures d) in
      match r with
      | Raise x => if is_delivery_failure x then (Ok tt, fail_with x d) else (Raise x, d)
      | Ok true => (Ok tt, d)
      | Ok false =>
          match load_history d with
          | (Raise x, d) => (Raise x, d)
          | (Ok _, d) => catch_up consumer_id c d
          end
      end
  | _, _ => catch_up consumer_id c d
  end.

Fixpoint dispatch_all (e : DomainEvent) (previous : option DomainEvent) (bus_committed : bool)
  (consumers : list (string * N)) (d : dispatch) : res unit * dispatch :=
  match consumers with
  | [] => (Ok tt, d)
  | (consumer_id, c) :: consumers =>
      match dispatch_one e previous bus_committed consumer_id c d with
      | (Raise x, d) => (Raise x, d)
      | (Ok _, d) => dispatch_all e previous bus_committed consumers d
      end
  end.

(** [sorted(self._durable_consumers)]; identities are different. *)
Definition consumers_in_order (rt : runtime) : list (string * N) :=
  py_sorted (fun a b => String.leb a.1 b.1) (_durable_consumers rt).

(** [publish], with subscribers and consumers that do not call the runtime
    again, as its re-entrant lock would let them *)
Definition publish (e : DomainEvent) (out : write_outcome) (rt : runtime) : res unit * runtime :=
  let '(ra, j) := append cfg e out (rt_journal rt) in
  match ra with
  | Raise x =>
      (Raise x, mk_runtime j (rt_bus rt) (rt_files rt) (_durable_consumers rt) (_latest_event rt) (rt_world rt))
  | Ok _ =>
      let previous := _latest_event rt in
      let '(rb, (b, w)) := Events.publish handler e (rt_bus rt, rt_world rt) in
      let bus_committed :=
        match rb with
        | Ok _ => true
        | Raise _ => match last (events b) with Some l => bool_decide (l = e) | None => false end
        end in
      let latest := if bus_committed then Some e else previous in
      let d := mk_dispatch j (rt_files rt) w None (match rb with Ok _ => [] | Raise x => [x] end) in
      let '(rl, d) :=
        if negb (is_nil (_durable_consumers rt)) && negb bus_committed then load_history d else (Ok tt, d) in
      let finish r d :=
        (r, mk_runtime (dp_journal d) b (dp_files d) (_durable_consumers rt) latest (dp_world d)) in
      match rl with
      | Raise x => finish (Raise x) d
      | Ok _ =>
          let '(rd, d) := dispatch_all e previous bus_committed (consumers_in_order rt) d in
          match rd with
          | Raise x => finish (Raise x) d
          | Ok _ => finish (_raise_delivery_failures (failures d)) d
          end
      end
  end.

End Runtime.

(** ** The bus never runs ahead of the journal *)

Section Facts.

Context {W : Type} (handler : N -> DomainEvent -> method W unit)
  (consumer : N -> DurableEventDelivery -> method W unit) (now : W -> datetime) (disk : W -> bool * W)
  (cfg : journal_config) (maximum : Z).

(** The journal implements its log, and the bus holds a prefix of it. *)
Record runtime_ok (clock : Z) (l : log) (rt : runtime (W := W)) : Prop := mk_runtime_ok {
  rt_object : object_ok cfg clock l (rt_journal rt);
  rt_bus_ok : bus_ok (rt_bus rt);
  rt_prefix : exists rest, entries l = events (rt_bus rt) ++ rest;
  rt_latest : _latest_event rt = last (events (rt_bus rt))
}.

Lemma load_keeps clock l j r j' : object_ok cfg clock l j -> load cfg j = (r, j') -> object_ok cfg clock l j'.
Proof. intros Hj H. by apply (load_advances cfg clock clock l j r j' Hj (Z.le_refl _)) in H as (_ & _ & H & _). Qed.

Definition keeps (clock : Z) (l : log) (f : dispatch (W := W) -> res unit * dispatch (W := W)) : Prop :=
  forall d, object_ok cfg clock l (dp_journal d) -> object_ok cfg clock l (dp_journal (f d).2).

Lemma load_history_keeps clock l : keeps clock l (load_history cfg).
Proof.
  intros d Hd. unfold load_history. destruct (load cfg (dp_journal d)) as [r j] eqn:E.
  apply load_keeps with (1 := Hd) in E. destruct r as [es|x]; [done|]. by destruct (is_delivery_failure x).
Qed.

Lemma catch_up_keeps clock l id c : keeps clock l (catch_up consumer now disk maximum id c).
Proof.
  intros d Hd. unfold catch_up. destruct (full_history d) as [h|]; [|done].
  destruct (deliver_pending _ _ _ _ _ _ _) as [r [fs w]]. destruct r as [o|x]; [done|].
  by destruct (is_delivery_failure x).
Qed.

Lemma dispatch_one_keeps clock l e previous committed id c :
  keeps clock l (dispatch_one consumer now disk cfg maximum e previous committed id c).
Proof.
  intros d Hd. unfold dispatch_one. pose proof (catch_up_keeps clock l id c) as Hc.
  destruct (full_history d), committed; try by apply Hc.
  destruct (deliver_next _ _ _ _ _ _ _ _) as [r [fs w]]. set (d1 := mk_dispatch _ fs w _ _).
  assert (object_ok cfg clock l (dp_journal d1)) as Hd1 by done.
  destruct r as [[]|x]; [done| |by destruct (is_delivery_failure x)].
  pose proof (load_history_keeps clock l d1 Hd1) as Hl. destruct (load_history cfg d1) as [[[]|x] d2]; [|done].
  by apply Hc.
Qed.

Lemma dispatch_all_keeps clock l e previous committed cs :
  keeps clock l (dispatch_all consumer now disk cfg maximum e previous committed cs).
Proof.
  induction cs as [|[id c] cs IH]; intros d Hd; [done|]. cbn [dispatch_all].
  pose proof (dispatch_one_keeps clock l e previous committed id c d Hd) as H1.
  destruct (dispatch_one _ _ _ _ _ _ _ _ _ _ d) as [[[]|x] d1]; [|done]. by apply IH.
Qed.

(** What the bus does with an event the log has just admitted. *)
Lemma bus_follows l b w e rb b' w' : bus_ok b -> (exists rest, entries l = events b ++ rest) ->
  stored cfg (entries l) -> log_admits cfg (entries l) e = Ok tt ->
  Events.publish handler e (b, w) = (rb, (b', w')) ->
  let committed := match rb with
    | Ok _ => true
    | Raise _ => match last (events b') with Some x => bool_decide (x = e) | None => false end end in
  bus_ok b' /\ (exists rest, entries l ++ [e] = events b' ++ rest) /\
  (if committed then Some e else last (events b)) = last (events b') /\
  (b' = b \/ events b' = events b ++ [e]).
Proof.
  intros Hb [rest Hr] Hs Ha H. unfold log_admits in Ha. inv_res. destruct a.
  apply validate_next_event_spec in Hm as (_ & Hid & Hseq & _); [|done].
  apply publish_run in H as [[-> (x & -> & _)]|[-> V]].
  - split; [done|]. split; [exists (rest ++ [e]); by rewrite Hr, app_assoc|]. split; [|by left].
    destruct (last (events b)) as [y|] eqn:El; [|done]. destruct (bool_decide_reflect (y = e)) as [->|]; [|done].
    exfalso. apply Hid. rewrite Hr, map_app. apply in_app_iff. left. apply in_map.
    destruct (last_position _ _ El) as [Hn _]. by eapply nth_error_In.
  - apply commit_ok in V as Hb'; [|done]. split; [done|]. cbn [events commit].
    apply validate_next_event_spec in V as (_ & _ & Hseq' & _); [|apply Hb].
    assert (rest = []) as ->.
    { apply (f_equal (@length _)) in Hr. rewrite length_app in Hr. destruct rest; [done|]. cbn in Hr. lia. }
    rewrite app_nil_r in Hr. split; [exists []; by rewrite Hr, app_nil_r|]. split; [|by right].
    rewrite last_snoc. destruct rb as [[]|x]; [done|]. by rewrite bool_decide_eq_true_2.
Qed.

Lemma append_call_any clock l j e out r j' : object_ok cfg clock l j -> storable e = true ->
  (forall s, outcome_stat out = Some s -> fresh_stat cfg clock s) -> append cfg e out j = (r, j') ->
  (exists x l', r = Raise x /\ object_ok cfg (clock_after cfg clock out) l' j' /\
     (l' = l \/ exists es d, may_leave l e es d /\ l' = mk_log es d (cursor l))) \/
  (r = Ok tt /\ log_admits cfg (entries l) e = Ok tt /\ stored cfg (entries l) /\
     object_ok cfg (clock_after cfg clock out) (mk_log (entries l ++ [e]) false (cursor l)) j').
Proof.
  intros Hj He Hf H. destruct (damaged l) eqn:Hl.
  - assert (exec cfg (Append e out) j = ((fun _ => Done) <$> r, j')) as Hx.
    { cbn [exec]. rewrite method_bind_run, H. by destruct r as [[]|]. }
    destruct (state_damaged cfg clock l j Hj Hl) as [msg E]. unfold append in H.
    rewrite method_bind_run, E in H. injection H as <- <-. left. exists (EventJournalCorruptionError msg), l.
    split; [done|]. split; [|by left].
    destruct (damaged_call cfg clock (clock_after cfg clock out) l j (Append e out) _ _ Hj
      ltac:(unfold clock_after; lia) Hl Hx) as [_ [Ho _]]. exact Ho.
  - destruct (append_call cfg clock l j e out r j' Hj Hl He Hf H) as (l' & Hs & [Ho _]).
    inversion Hs as [written x Hadm|Hadm|es d Hadm Hmay]; subst.
    + left. eauto 10.
    + right. split; [done|]. split; [done|]. split; [apply Hj|done].
    + left. eexists _, _. split; [done|]. split; [done|]. eauto.
Qed.

Lemma publish_ok clock l rt e out r rt' :
  runtime_ok clock l rt -> storable e = true ->
  (forall s, outcome_stat out = Some s -> fresh_stat cfg clock s) ->
  publish handler consumer now disk cfg maximum e out rt = (r, rt') ->
  exists l', runtime_ok (clock_after cfg clock out) l' rt' /\
    ((is_ok r = false /\ rt_bus rt' = rt_bus rt /\ rt_files rt' = rt_files rt /\ rt_world rt' = rt_world rt /\
      (l' = l \/ exists es d, may_leave l e es d /\ l' = mk_log es d (cursor l))) \/
     (l' = mk_log (entries l ++ [e]) false (cursor l) /\
      (rt_bus rt' = rt_bus rt \/ events (rt_bus rt') = events (rt_bus rt) ++ [e]))).
Proof.
  intros [Hj Hb Hp Hlat] He Hf H. unfold publish in H.
  destruct (append cfg e out (rt_journal rt)) as [ra j] eqn:Ea.
  destruct (append_call_any clock l _ e out ra j Hj He Hf Ea) as [(x & l' & -> & Ho & Hl')|(-> & Hadm & Hs & Ho)].
  - injection H as <- <-. exists l'. split; [|left; by split_and!]. split; cbn; try done.
    destruct Hp as [rest Hr]. destruct Hl' as [->|(es & d & [[-> _]|[[-> _]|[-> _]]] & ->)]; cbn [entries]; eauto.
    exists (rest ++ [e]). by rewrite Hr, app_assoc.
  - set (l' := mk_log (entries l ++ [e]) false (cursor l)) in *. exists l'.
    destruct (Events.publish handler e (rt_bus rt, rt_world rt)) as [rb [b w]] eqn:Eb.
    destruct (bus_follows l _ _ e rb b w Hb Hp Hs Hadm Eb) as (Hb' & Hp' & Hlat' & Hor).
    set (committed := match rb with Ok _ => true | Raise _ => _ end) in *.
    rewrite <- Hlat in Hlat'.
    set (d0 := mk_dispatch j _ w None _) in *.
    assert (object_ok cfg (clock_after cfg clock out) l' (dp_journal d0)) as Hd0 by done.
    set (step := if _ && _ then load_history cfg d0 else (Ok tt, d0)) in H.
    assert (object_ok cfg (clock_after cfg clock out) l' (dp_journal step.2)) as Hd1.
    { unfold step. destruct (_ && _); [by apply load_history_keeps|done]. }
    destruct step as [rl d1]. cbn [snd] in Hd1.
    pose proof (dispatch_all_keeps _ l' e (_latest_event rt) committed (consumers_in_order rt) d1 Hd1) as Hd2.
    split; [|right; split; [done|]].
    + destruct rl as [[]|x]; [destruct (dispatch_all _ _ _ _ _ _ _ _ _ d1) as [[[]|x] d2]|];
        injection H as <- <-; split; cbn; done.
    + destruct rl as [[]|x]; [destruct (dispatch_all _ _ _ _ _ _ _ _ _ d1) as [[[]|x] d2]|];
        injection H as <- <-; cbn; destruct Hor as [->|]; auto.
Qed.

End Facts.

(** C35: the journal comes first.  From a runtime whose bus holds a prefix of the
    durable log, whatever the operating system does, and whatever the subscribers
    and the durable handlers do to a state of their own or raise (they do not
    publish on this runtime while it calls them), [publish] leaves such a
    runtime again.  Either it raised before
    anything but the journal changed, or the event is the last entry of the log
    and only then did the bus, the handlers and their checkpoints see it. *)
Theorem publish_persists_first {W} (handler : N -> DomainEvent -> method W unit)
  (consumer : N -> DurableEventDelivery -> method W unit) now disk cfg maximum clock l rt e out r rt' :
  runtime_ok cfg clock l rt -> storable e = true ->
  (forall s, outcome_stat out = Some s -> fresh_stat cfg clock s) ->
  publish handler consumer now disk cfg maximum e out rt = (r, rt') ->
  exists l', runtime_ok cfg (clock_after cfg clock out) l' rt' /\
    ((is_ok r = false /\ rt_bus rt' = rt_bus rt /\ rt_files rt' = rt_files rt /\ rt_world rt' = rt_world rt /\
      (l' = l \/ exists es d, may_leave l e es d /\ l' = mk_log es d (cursor l))) \/
     (l' = mk_log (entries l ++ [e]) false (cursor l) /\
      (rt_bus rt' = rt_bus rt \/ events (rt_bus rt') = events (rt_bus rt) ++ [e]))).
Proof. apply publish_ok. Qed.

(** ** Witness *)

Definition ex_consumer (c : N) (d : DurableEventDelivery) : method nat unit := ex_handler d.
Definition ex_subscriber (s : N) (e : DomainEvent) : method nat unit := fun n => (Raise (ValueError "subscriber"), n).

Definition ex_runtime : runtime (W := nat) :=
  mk_runtime (mk_journal None None None) (mk_bus 10 [] [] [7%N]) [] [("ledger", 1%N); ("audit", 2%N)] None 0%nat.
Definition ex_published : res unit * runtime (W := nat) :=
  publish ex_subscriber ex_consumer ex_now ex_disk ex_config 65536 ex_first (Written (ex_stat 7)) ex_runtime.

(** The subscriber raises and both consumers still get the event. *)
Example ex_published_result : fst ex_published = Raise (ValueError "subscriber") /\ rt_world (snd ex_published) = 2%nat.
Proof. vm_compute. done. Qed.

Lemma publish_persists_first_witness : exists l',
  runtime_ok ex_config (clock_after ex_config 0 (Written (ex_stat 7))) l' ex_published.2 /\
  ((is_ok ex_published.1 = false /\ rt_bus ex_published.2 = rt_bus ex_runtime /\
    rt_files ex_published.2 = [] /\ rt_world ex_published.2 = 0%nat /\
    (l' = no_events \/ exists es d, may_leave no_events ex_first es d /\ l' = mk_log es d None)) \/
   (l' = mk_log ([] ++ [ex_first]) false None /\
    (rt_bus ex_published.2 = rt_bus ex_runtime \/ events (rt_bus ex_published.2) = [] ++ [ex_first]))).
Proof.
  apply (publish_persists_first ex_subscriber ex_consumer ex_now ex_disk ex_config 65536 0 no_events ex_runtime
    ex_first (Written (ex_stat 7))).
  - split; [|split; [constructor|reflexivity|vm_compute; discriminate]|by exists []|reflexivity].
    destruct (refines_empty ex_config ex_config 0 eq_refl) as [H1 H2 H3 H4 H5]. by split.
  - vm_compute. reflexivity.
  - intros s [= <-] t [= <-]. reflexivity.
  - apply surjective_pairing.
Defined.
