(* ===== verification/Cpcv.v ===== *)
(** [validation/cpcv.py]: combinatorial purged cross-validation.  The samples
    are cut into contiguous groups; every choice of test groups gives a split
    whose training samples are purged of labels that overlap a tested one and
    embargoed behind every test group. *)
From S2P Require Import Prelude PyText.
Local Open Scope Z_scope.
Local Open Scope bool_scope.

Record CPCVConfig : Type := mk_cpcv_config {
  group_count : Z;
  test_group_count : Z;
  embargo_samples : Z;
  minimum_splits : Z
}.

(** [CPCVConfig.__post_init__] *)
Definition new_cpcv_config (c : CPCVConfig) : res CPCVConfig :=
  raise_if (negb ((3 <=? group_count c) && (group_count c <=? 20)))
    (ValueError "CPCV group count must be between 3 and 20");;
  raise_if (negb ((1 <=? test_group_count c) && (test_group_count c <? group_count c)))
    (ValueError "CPCV test groups must be fewer than all groups");;
  raise_if ((embargo_samples c <? 0) || (minimum_splits c <? 1))
    (ValueError "CPCV embargo and minimum splits are invalid");;
  mret c.

Record CPCVSplit : Type := mk_split {
  split_id : string;
  test_groups : list nat;
  train_indices : list nat;
  test_indices : list nat;
  purged_count : nat;
  embargoed_count : nat
}.

Record CPCVDiagnosticReport : Type := mk_report {
  sample_count : nat;
  split_count : nat;
  test_coverage_count : nat;
  minimum_train_size : nat;
  splits : list CPCVSplit;
  blockers : list string;
  diagnostic_passed : bool
}.

(** [CPCVDiagnosticReport.__post_init__] *)
Definition new_report (r : CPCVDiagnosticReport) (promotion_status : string) (execution_allowed : bool)
  : res CPCVDiagnosticReport :=
  raise_if (execution_allowed || negb (String.eqb promotion_status "RESEARCH_ONLY"))
    (ValueError "CPCV diagnostic cannot grant promotion or execution");;
  raise_if (Bool.eqb (diagnostic_passed r) (negb (is_nil (blockers r))))
    (ValueError "CPCV diagnostic status must match blockers");;
  mret r.

(** [itertools.combinations] *)
Fixpoint combinations {A} (k : nat) (l : list A) : list (list A) :=
  match k, l with
  | O, _ => [[]]
  | S k', [] => []
  | S k', x :: l' => map (cons x) (combinations k' l') ++ combinations k l'
  end.

(** The loop of [_groups], from a group id and a first index on. *)
Fixpoint groups_from (base remainder count group_id start : nat) : list (list nat) :=
  match count with
  | O => []
  | S count =>
      let size := (base + if (group_id <? remainder)%nat then 1 else 0)%nat in
      List.seq start size :: groups_from base remainder count (S group_id) (start + size)
  end.

(** [_groups] *)
Definition _groups (samples count : nat) : list (list nat) :=
  groups_from (samples / count) (samples mod count) count 0 0.

(** [_overlaps] *)
Definition _overlaps (left right : Z * Z) : bool := (left.1 <=? right.2) && (right.1 <=? left.2).

Definition mem (n : nat) (l : list nat) : bool := existsb (Nat.eqb n) l.

Definition enumerate {A} (l : list A) : list (nat * A) := combine (List.seq 0 (length l)) l.

Section Split.

Context (ends : list Z) (embargo : Z) (groups : list (list nat)).

(** A sample and the end of its label. *)
Definition interval (i : nat) : Z * Z := (Z.of_nat i, nth i ends 0).

Definition tested (ids : list nat) : list nat := flat_map (fun g => nth g groups []) ids.

Definition untested (ids : list nat) : list nat :=
  flat_map (fun '(g, group) => if mem g ids then [] else group) (enumerate groups).

Definition purged (ids : list nat) (i : nat) : bool :=
  existsb (fun j => _overlaps (interval i) (interval j)) (tested ids).

(** [group[-1] < index <= group[-1] + embargo] of a test group *)
Definition behind (group : list nat) (i : nat) : bool :=
  let e := Z.of_nat (List.last group 0%nat) in (e <? Z.of_nat i) && (Z.of_nat i <=? e + embargo).

Definition embargoed (ids : list nat) (i : nat) : bool :=
  negb (purged ids i) && existsb (fun '(g, group) => mem g ids && behind group i) (enumerate groups).

Definition build_split (index : nat) (ids : list nat) : CPCVSplit :=
  let raw_train := untested ids in
  mk_split ("cpcv:" ++ padded 3 (Z.of_nat index)) ids
    (List.filter (fun i => negb (purged ids i || embargoed ids i)) raw_train) (tested ids)
    (length (List.filter (purged ids) raw_train)) (length (List.filter (embargoed ids) raw_train)).

End Split.

Definition distinct_count (l : list nat) : nat := length (set_of Nat.eqb l).

(** [min(..., default=0)] *)
Definition minimum (l : list nat) : nat := match l with [] => 0%nat | x :: l => fold_left Nat.min l x end.

(** [build_cpcv_diagnostic] *)
Definition build_cpcv_diagnostic (ends : list Z) (c : CPCVConfig) : res CPCVDiagnosticReport :=
  let n := length ends in
  raise_if (Z.of_nat n <? group_count c) (ValueError "CPCV requires at least one sample per group");;
  raise_if (existsb (fun '(i, e) => (e <? Z.of_nat i) || (Z.of_nat n <=? e)) (enumerate ends))
    (ValueError "CPCV label end indices must be causal and bounded");;
  let k := Z.to_nat (group_count c) in
  let groups := _groups n k in
  let choices := combinations (Z.to_nat (test_group_count c)) (List.seq 0 k) in
  let splits := map (fun '(i, ids) => build_split ends (embargo_samples c) groups (S i) ids) (enumerate choices) in
  let coverage := distinct_count (flat_map test_indices splits) in
  let minimum_train := minimum (map (fun s => length (train_indices s)) splits) in
  let blockers := block_if (Z.of_nat (length splits) <? minimum_splits c) "CPCV_SPLIT_COUNT_INSUFFICIENT"
    ++ block_if (negb (Nat.eqb coverage n)) "CPCV_TEST_COVERAGE_INCOMPLETE"
    ++ block_if (minimum_train <? 2)%nat "CPCV_TRAIN_SAMPLE_INSUFFICIENT" in
  let unique := fromkeys blockers in
  new_report (mk_report n (length splits) coverage minimum_train splits unique (is_nil unique)) "RESEARCH_ONLY" false.

(** ** Combinations *)

(** Binomial coefficients, as Pascal's triangle. *)
Fixpoint choose (n k : nat) : nat :=
  match k, n with
  | O, _ => 1
  | S k', O => 0
  | S k', S n' => choose n' k' + choose n' k
  end.

Lemma choose_0 n : choose n 0 = 1%nat.
Proof. by destruct n. Qed.

Lemma combinations_0 {A} (l : list A) : combinations 0 l = [[]].
Proof. by destruct l. Qed.

Lemma combinations_length {A} (l : list A) : forall k, length (combinations k l) = choose (length l) k.
Proof.
  induction l as [|x l IH]; intros [|k]; try done. cbn [combinations length choose].
  by rewrite length_app, length_map, !IH.
Qed.

(** Choices extended by [y], among which [mem x] selects. *)
Lemma filter_mem_cons x y c :
  List.filter (mem x) (map (cons y) c) = map (cons y) (if Nat.eqb x y then c else List.filter (mem x) c).
Proof.
  induction c as [|z c IH]; [by destruct (Nat.eqb x y)|]. cbn [map List.filter].
  change (mem x (y :: z)) with (Nat.eqb x y || mem x z). rewrite IH.
  destruct (Nat.eqb x y); [done|]. cbn [orb]. by destruct (mem x z).
Qed.

Lemma combinations_without x (l : list nat) : ~ In x l -> forall k, List.filter (mem x) (combinations k l) = [].
Proof.
  induction l as [|y l IH]; intros Hx [|k]; try done. cbn [combinations].
  assert (~ In x l) as Hl by (intros H; apply Hx; by right).
  rewrite List.filter_app, (IH Hl), filter_mem_cons, (IH Hl), app_nil_r.
  by rewrite (proj2 (Nat.eqb_neq x y)) by (intros ->; apply Hx; by left).
Qed.

(** The choices that contain a given element. *)
Lemma combinations_with x (l : list nat) : List.NoDup l -> In x l -> forall k,
  length (List.filter (mem x) (combinations (S k) l)) = choose (length l - 1) k.
Proof.
  induction l as [|y l IH]; intros Hd Hx k; [done|]. apply NoDup_cons_iff in Hd as [Hy Hd].
  cbn [combinations length]. rewrite List.filter_app, length_app, Nat.sub_succ, Nat.sub_0_r, filter_mem_cons, length_map.
  destruct (Nat.eqb_spec x y) as [->|Hne].
  - by rewrite combinations_length, combinations_without, Nat.add_0_r.
  - destruct Hx as [->|Hx]; [done|]. specialize (IH Hd Hx). rewrite IH. destruct k as [|k].
    + by rewrite combinations_0, !choose_0.
    + rewrite IH. destruct l as [|z l]; [done|]. cbn [length]. by rewrite Nat.sub_succ, Nat.sub_0_r.
Qed.

Lemma choose_pos n : forall k, (k <= n)%nat -> (1 <= choose n k)%nat.
Proof.
  induction n as [|n IH]; intros [|k] H; cbn [choose]; try lia. specialize (IH k). lia.
Qed.

Lemma combinations_incl {A} (l : list A) : forall k c, In c (combinations k l) -> incl c l /\ length c = k.
Proof.
  induction l as [|x l IH]; intros [|k] c; cbn [combinations].
  - intros [<-|[]]. split; [intros y []|done].
  - intros [].
  - intros [<-|[]]. split; [intros y []|done].
  - intros [(d & <- & [H1 H2]%IH)%in_map_iff|[H1 H2]%IH]%in_app_iff; split; cbn [length]; try lia.
    + intros y [->|Hy]; [by left|right; by apply H1].
    + intros y Hy. right. by apply H1.
Qed.

Lemma combinations_NoDup {A} (l : list A) : List.NoDup l -> forall k c, In c (combinations k l) -> List.NoDup c.
Proof.
  induction 1 as [|x l Hx Hl IH]; intros [|k] c; cbn [combinations].
  - intros [<-|[]]. constructor.
  - intros [].
  - intros [<-|[]]. constructor.
  - intros [(d & <- & Hd)%in_map_iff|Hd]%in_app_iff; [|by eapply IH]. constructor; [|by eapply IH].
    intros Hin. apply Hx. by apply (combinations_incl l k d Hd).
Qed.

(** ** Groups *)

Lemma groups_length base remainder count : forall g s, length (groups_from base remainder count g s) = count.
Proof. induction count as [|n IH]; intros g s; [done|]. cbn. by rewrite IH. Qed.

(** The groups follow one another without gaps. *)
Lemma groups_concat base remainder count : forall g s,
  concat (groups_from base remainder count g s) = List.seq s (base * count + (Nat.min remainder (g + count) - Nat.min remainder g)).
Proof.
  induction count as [|n IH]; intros g s.
  - cbn. replace (base * 0 + _)%nat with 0%nat by lia. done.
  - cbn [groups_from concat]. cbv zeta. rewrite IH, <- List.seq_app. f_equal.
    destruct (Nat.ltb_spec g remainder); lia.
Qed.

Lemma groups_nonempty base remainder count : (1 <= base)%nat -> forall g s,
  Forall (fun l => l <> []) (groups_from base remainder count g s).
Proof.
  intros Hb. induction count as [|n IH]; intros g s; cbn; [constructor|]. constructor; [|apply IH].
  destruct base; [lia|]. done.
Qed.

Lemma mem_true n l : mem n l = true <-> In n l.
Proof.
  unfold mem. rewrite existsb_exists. split.
  - by intros (x & Hx & ->%Nat.eqb_eq).
  - intros H. exists n. by rewrite Nat.eqb_refl.
Qed.

Lemma mem_false n l : mem n l = false <-> ~ In n l.
Proof. rewrite <- mem_true. by destruct (mem n l). Qed.

Lemma enumerate_from {A} (d : A) l : forall s,
  combine (List.seq s (length l)) l = map (fun i => (i, nth (i - s) l d)) (List.seq s (length l)).
Proof.
  induction l as [|x l IH]; intros s; [done|]. cbn [length List.seq combine map]. rewrite IH, Nat.sub_diag. f_equal.
  apply map_ext_in. intros i [H _]%in_seq. by replace (i - s)%nat with (S (i - S s)) by lia.
Qed.

Lemma enumerate_nth {A} (d : A) l : enumerate l = map (fun i => (i, nth i l d)) (List.seq 0 (length l)).
Proof. unfold enumerate. rewrite (enumerate_from d). apply map_ext. intros i. by rewrite Nat.sub_0_r. Qed.

Lemma enumerate_In {A} (d : A) l i x : In (i, x) (enumerate l) <-> (i < length l)%nat /\ x = nth i l d.
Proof.
  rewrite (enumerate_nth d), in_map_iff. split.
  - intros (j & [= -> <-] & H%in_seq). split; [lia|done].
  - intros [H ->]. exists i. split; [done|]. apply in_seq. lia.
Qed.

Lemma existsb_false_iff {A} (f : A -> bool) l : existsb f l = false <-> forall x, In x l -> f x = false.
Proof.
  induction l as [|y l IH]; cbn; [tauto|]. rewrite orb_false_iff, IH. split.
  - by intros [H1 H2] x [<-|Hx]; [|apply H2].
  - intros H. split; auto.
Qed.

Lemma set_of_In (l : list nat) x : In x (set_of Nat.eqb l) <-> In x l.
Proof.
  induction l as [|y l IH]; [done|]. cbn [set_of In]. rewrite filter_In, IH, negb_true_iff, Nat.eqb_neq.
  destruct (Nat.eq_dec y x); tauto.
Qed.

Lemma set_of_NoDup (l : list nat) : List.NoDup (set_of Nat.eqb l).
Proof.
  induction l as [|y l IH]; [constructor|]. cbn [set_of]. constructor; [|by apply List.NoDup_filter].
  by rewrite filter_In, Nat.eqb_refl; intros [_ [=]].
Qed.

Lemma NoDup_app_apart {A} (l l' : list A) x : List.NoDup (l ++ l') -> In x l -> ~ In x l'.
Proof.
  induction l as [|y l IH]; [done|]. intros [Hy Hd]%NoDup_cons_iff [->|Hx]; [|by apply IH].
  intros H. apply Hy, in_app_iff. by right.
Qed.

(** ** A split *)

Section SplitFacts.

Context (ends : list Z) (embargo : Z) (n k : nat) (Hk : (1 <= k)%nat) (Hn : (k <= n)%nat).

#[local] Notation groups := (_groups n k).

Lemma groups_partition : length groups = k /\ concat groups = List.seq 0 n.
Proof.
  unfold _groups. rewrite groups_length, groups_concat. split; [done|]. f_equal.
  pose proof (Nat.div_mod_eq n k). pose proof (Nat.mod_upper_bound n k). lia.
Qed.

Lemma concat_nth (l : list (list nat)) : concat l = flat_map (fun g => nth g l []) (List.seq 0 (length l)).
Proof.
  rewrite flat_map_concat_map. f_equal.
  induction l as [|x l IH]; [done|]. cbn [length List.seq map nth]. f_equal. rewrite <- seq_shift, map_map. exact IH.
Qed.

Lemma untested_flat ids : untested groups ids =
  flat_map (fun g => nth g groups []) (List.filter (fun g => negb (mem g ids)) (List.seq 0 k)).
Proof.
  unfold untested. rewrite (enumerate_nth []), (proj1 groups_partition).
  induction (List.seq 0 k) as [|g l IH]; [done|]. cbn [map flat_map List.filter]. rewrite IH.
  by destruct (mem g ids).
Qed.

Lemma choice_partition ids : List.NoDup ids -> incl ids (List.seq 0 k) ->
  Permutation (ids ++ List.filter (fun g => negb (mem g ids)) (List.seq 0 k)) (List.seq 0 k).
Proof.
  intros Hd Hi. apply Permutation.NoDup_Permutation.
  - apply List.NoDup_app; [done|apply List.NoDup_filter, List.seq_NoDup|].
    intros g Hg [_ H]%filter_In. by rewrite (proj2 (mem_true g ids)) in H.
  - apply List.seq_NoDup.
  - intros g. rewrite in_app_iff, filter_In, negb_true_iff, mem_false. split.
    + intros [H|[H _]]; auto.
    + intros H. destruct (in_dec Nat.eq_dec g ids); auto.
Qed.

(** The tested and the untested samples are a partition of the samples. *)
Lemma split_partition ids : List.NoDup ids -> incl ids (List.seq 0 k) ->
  Permutation (tested groups ids ++ untested groups ids) (List.seq 0 n).
Proof.
  intros Hd Hi. destruct groups_partition as [Hl <-]. unfold tested.
  rewrite untested_flat, <- flat_map_app, concat_nth, Hl. by apply Permutation_flat_map, choice_partition.
Qed.

(** The group of a sample. *)
Lemma sample_group i : (i < n)%nat -> exists g, (g < k)%nat /\ In i (nth g groups []) /\
  forall g', (g' < k)%nat -> In i (nth g' groups []) -> g' = g.
Proof.
  intros Hin. destruct groups_partition as [Hl Hc]. assert (In i (concat groups)) as H by (rewrite Hc; apply in_seq; lia).
  rewrite concat_nth, Hl in H. apply in_flat_map in H as (g & Hg%in_seq & Hi). exists g. do 2 (split; [lia || done|]).
  intros g' Hg' Hi'. destruct (Nat.eq_dec g' g) as [|Hne]; [done|exfalso].
  assert (List.NoDup (tested groups [g; g'] ++ untested groups [g; g'])) as Hd.
  { eapply Permutation_NoDup; [apply Permutation_sym, split_partition|apply List.seq_NoDup].
    - constructor; [intros [?|[]]; congruence|]. constructor; [intros []|constructor].
    - intros x [<-|[<-|[]]]; apply in_seq; lia. }
  unfold tested in Hd. cbn [flat_map] in Hd. rewrite app_nil_r, <- app_assoc in Hd.
  apply (NoDup_app_apart _ _ i Hd); [done|]. apply in_app_iff. by left.
Qed.

End SplitFacts.

Lemma filter_counts {A} (p q : A -> bool) l : (forall x, p x = true -> q x = false) ->
  (length (List.filter (fun x => negb (p x || q x)) l) + length (List.filter p l) + length (List.filter q l) = length l)%nat.
Proof.
  intros H. induction l as [|x l IH]; [done|]. specialize (H x). cbn [List.filter length].
  destruct (p x), (q x); cbn [orb negb length]; try lia; discriminate (H eq_refl).
Qed.

Lemma NoDup_app_filter {A} (f : A -> bool) l l' : List.NoDup (l ++ l') -> List.NoDup (l ++ List.filter f l').
Proof.
  induction l as [|x l IH]; cbn [app]; [apply List.NoDup_filter|].
  intros [Hx Hd]%NoDup_cons_iff. constructor; [|by apply IH]. rewrite in_app_iff in Hx |- *. rewrite filter_In. tauto.
Qed.

(** ** The report *)

(** The splits of a set of samples. *)
Notation choices c := (combinations (Z.to_nat (test_group_count c)) (List.seq 0 (Z.to_nat (group_count c)))).
Notation group_list ends c := (_groups (length ends) (Z.to_nat (group_count c))).

Definition all_splits (ends : list Z) (c : CPCVConfig) : list CPCVSplit :=
  map (fun '(i, ids) => build_split ends (embargo_samples c) (group_list ends c) (S i) ids) (enumerate (choices c)).

Definition valid_config (c : CPCVConfig) : Prop :=
  3 <= group_count c <= 20 /\ 1 <= test_group_count c < group_count c /\ 0 <= embargo_samples c /\ 1 <= minimum_splits c.

Lemma config_bounds c : new_cpcv_config c = Ok c -> valid_config c.
Proof. unfold new_cpcv_config, valid_config. intros H. inv_res. zify_bool. lia. Qed.

Lemma choice_valid c ids : In ids (choices c) ->
  List.NoDup ids /\ incl ids (List.seq 0 (Z.to_nat (group_count c))) /\ length ids = Z.to_nat (test_group_count c).
Proof.
  intros H. split; [|by apply combinations_incl]. eapply combinations_NoDup; [apply List.seq_NoDup|done].
Qed.

Lemma split_of_choice ends c s : In s (all_splits ends c) -> exists i ids,
  In ids (choices c) /\ s = build_split ends (embargo_samples c) (group_list ends c) (S i) ids.
Proof.
  unfold all_splits. intros ((i & ids) & <- & H)%in_map_iff. exists i, ids. split; [|done]. by apply in_combine_r in H.
Qed.

Lemma splits_length ends c : length (all_splits ends c) = choose (Z.to_nat (group_count c)) (Z.to_nat (test_group_count c)).
Proof.
  unfold all_splits, enumerate. rewrite length_map, length_combine, length_seq, combinations_length, length_seq. lia.
Qed.

(** The splits that test a sample are as many as the choices that contain its group. *)
Lemma splits_testing ends c i g : (Z.to_nat (group_count c) <= length ends)%nat -> (1 <= Z.to_nat (group_count c))%nat ->
  (g < Z.to_nat (group_count c))%nat -> In i (nth g (group_list ends c) []) ->
  (forall g', (g' < Z.to_nat (group_count c))%nat -> In i (nth g' (group_list ends c) []) -> g' = g) ->
  length (List.filter (fun s => mem i (test_indices s)) (all_splits ends c)) = length (List.filter (mem g) (choices c)).
Proof.
  intros Hn Hk Hg Hi Hu. unfold all_splits, enumerate.
  assert (forall ids, In ids (choices c) -> mem i (tested (group_list ends c) ids) = mem g ids) as Hm.
  { intros ids (_ & Hincl & _)%choice_valid. apply Bool.eq_true_iff_eq. rewrite !mem_true. unfold tested.
    rewrite in_flat_map. split; [|intros H; by exists g].
    intros (g' & Hg' & Hi'). rewrite <- (Hu g'); [done| |done]. apply Hincl, in_seq in Hg'. lia. }
  revert Hm. generalize (choices c) as l. generalize 0%nat as a. intros a l. revert a.
  induction l as [|ids l IH]; intros a Hm; [done|].
  cbn [length List.seq combine map List.filter]. cbn [build_split test_indices]. rewrite (Hm ids) by (by left).
  destruct (mem g ids); cbn [length]; rewrite IH; auto with datatypes.
Qed.

Lemma new_report_ok r : diagnostic_passed r = is_nil (blockers r) -> new_report r "RESEARCH_ONLY" false = Ok r.
Proof. unfold new_report. intros ->. by destruct (is_nil (blockers r)). Qed.

Lemma build_runs ends c : group_count c <= Z.of_nat (length ends) ->
  (forall i, (i < length ends)%nat -> Z.of_nat i <= nth i ends 0 < Z.of_nat (length ends)) ->
  exists r, build_cpcv_diagnostic ends c = Ok r.
Proof.
  intros Hn He. unfold build_cpcv_diagnostic. rewrite (proj2 (Z.ltb_ge _ _) Hn). cbn [raise_if mbind res_bind].
  destruct (existsb _ _) eqn:Ex.
  - apply existsb_exists in Ex as ((i & e) & [Hi ->]%(enumerate_In 0) & H). specialize (He i Hi). zify_bool. lia.
  - cbn [raise_if mbind res_bind]. eexists. by apply new_report_ok.
Qed.

Lemma build_report ends c r : build_cpcv_diagnostic ends c = Ok r ->
  group_count c <= Z.of_nat (length ends) /\ splits r = all_splits ends c /\ sample_count r = length ends /\
  split_count r = length (splits r) /\ test_coverage_count r = distinct_count (flat_map test_indices (splits r)) /\
  minimum_train_size r = minimum (map (fun s => length (train_indices s)) (splits r)) /\
  (forall b, In b (blockers r) <->
    In b (block_if (Z.of_nat (split_count r) <? minimum_splits c) "CPCV_SPLIT_COUNT_INSUFFICIENT"
      ++ block_if (negb (Nat.eqb (test_coverage_count r) (length ends))) "CPCV_TEST_COVERAGE_INCOMPLETE"
      ++ block_if (minimum_train_size r <? 2)%nat "CPCV_TRAIN_SAMPLE_INSUFFICIENT")) /\
  diagnostic_passed r = is_nil (blockers r).
Proof.
  unfold build_cpcv_diagnostic, new_report. intros H. apply bind_Ok in H as (? & Hn & H).
  apply raise_if_Ok in Hn. zify_bool. apply bind_Ok in H as (? & _ & H). do 2 (apply bind_Ok in H as (? & _ & H)).
  apply mret_Ok in H. subst r. cbn [splits sample_count split_count test_coverage_count minimum_train_size blockers diagnostic_passed].
  do 6 (split; [done|]). split; [|done]. intros b. apply fromkeys_In.
Qed.

Lemma minimum_ge l m : l <> [] -> (m <= minimum l)%nat <-> forall x, In x l -> (m <= x)%nat.
Proof.
  destruct l as [|x l]; [done|]. intros _. cbn [minimum]. revert x.
  induction l as [|y l IH]; intros x; cbn [fold_left].
  - split; [by intros H z [<-|[]]|]. intros H. apply H. by left.
  - rewrite IH. split.
    + intros H z [<-|[<-|Hz]]; [| |apply H; by right]; specialize (H _ (or_introl eq_refl)); lia.
    + intros H z [<-|Hz]; [|apply H; right; by right].
      pose proof (H x (or_introl eq_refl)). pose proof (H y (or_intror (or_introl eq_refl))). lia.
Qed.

(** Every sample is tested equally often. *)
Lemma each_tested ends c : valid_config c -> group_count c <= Z.of_nat (length ends) -> forall i, (i < length ends)%nat ->
  length (List.filter (fun s => mem i (test_indices s)) (all_splits ends c)) =
    choose (Z.to_nat (group_count c) - 1) (Z.to_nat (test_group_count c) - 1).
Proof.
  intros Hc Hn i Hi. unfold valid_config in Hc.
  assert (1 <= Z.to_nat (group_count c) <= length ends)%nat as [H1 H2] by lia.
  destruct (sample_group _ _ H1 H2 i Hi) as (g & Hg & Hig & Hu). rewrite (splits_testing ends c i g) by done.
  replace (Z.to_nat (test_group_count c)) with (S (Z.to_nat (test_group_count c) - 1)) at 1 by lia.
  rewrite combinations_with, length_seq; [done|apply List.seq_NoDup|apply in_seq; lia].
Qed.

Lemma coverage_full ends c : valid_config c -> group_count c <= Z.of_nat (length ends) ->
  distinct_count (flat_map test_indices (all_splits ends c)) = length ends.
Proof.
  intros Hc Hn. pose proof (each_tested ends c Hc Hn) as Htest. unfold valid_config in Hc.
  assert (1 <= Z.to_nat (group_count c) <= length ends)%nat as [H1 H2] by lia.
  transitivity (length (List.seq 0 (length ends))); [|apply length_seq]. unfold distinct_count.
  apply Permutation_length, Permutation.NoDup_Permutation; [apply set_of_NoDup|apply List.seq_NoDup|].
  intros i. rewrite set_of_In, in_flat_map. split.
  - intros (s & (idx & ids & Hids & ->)%split_of_choice & Hi). apply choice_valid in Hids as (Hd & Hincl & _).
    eapply Permutation_in; [by apply (split_partition _ _ H1 H2 ids)|]. apply in_app_iff. by left.
  - intros Hi%in_seq. specialize (Htest i ltac:(lia)). destruct (List.filter _ _) as [|s l] eqn:E.
    + pose proof (choose_pos (Z.to_nat (group_count c) - 1) (Z.to_nat (test_group_count c) - 1) ltac:(lia)).
      cbn in Htest. lia.
    + assert (In s (s :: l)) as Hin by (by left). rewrite <- E in Hin.
      apply filter_In in Hin as [Hin Hm%mem_true]. by exists s.
Qed.

Lemma minimum_train_iff ends c : valid_config c ->
  (2 <= minimum (map (fun s => length (train_indices s)) (all_splits ends c)))%nat <->
  forall s, In s (all_splits ends c) -> (2 <= length (train_indices s))%nat.
Proof.
  intros Hc. unfold valid_config in Hc. rewrite minimum_ge.
  - split; [intros H s Hin; by apply H, (in_map (fun s => length (train_indices s)))|].
    intros H x (s & <- & Hin)%in_map_iff. by apply H.
  - intros Hnil%map_eq_nil. pose proof (splits_length ends c) as Hlen. rewrite Hnil in Hlen.
    pose proof (choose_pos (Z.to_nat (group_count c)) (Z.to_nat (test_group_count c)) ltac:(lia)). cbn in Hlen. lia.
Qed.

(** ** Properties *)

(** C27: no information about a tested sample reaches the training samples.
    In every split of a report the label of a training sample neither overlaps
    the label of a tested one nor starts within the embargo behind a test
    group; training and tested samples are disjoint, and with the purged and
    the embargoed samples they are all the samples. *)
Theorem cpcv_no_leakage ends c r s : new_cpcv_config c = Ok c -> build_cpcv_diagnostic ends c = Ok r ->
  In s (splits r) ->
  (forall i j, In i (train_indices s) -> In j (test_indices s) ->
    nth i ends 0 < Z.of_nat j \/ nth j ends 0 < Z.of_nat i) /\
  (forall i g, In i (train_indices s) -> In g (test_groups s) ->
    let e := Z.of_nat (List.last (nth g (_groups (length ends) (Z.to_nat (group_count c))) []) 0%nat) in
    Z.of_nat i <= e \/ e + embargo_samples c < Z.of_nat i) /\
  List.NoDup (test_indices s ++ train_indices s) /\
  (length (train_indices s) + purged_count s + embargoed_count s + length (test_indices s) = length ends)%nat.
Proof.
  intros Hc%config_bounds (Hn & -> & _)%build_report (idx & ids & Hids & ->)%split_of_choice.
  apply choice_valid in Hids as (Hd & Hi & _).
  assert (1 <= Z.to_nat (group_count c) <= length ends)%nat as [H1 H2] by (unfold valid_config in Hc; lia).
  cbn [build_split train_indices test_indices test_groups purged_count embargoed_count].
  pose proof (split_partition _ _ H1 H2 ids Hd Hi) as Hp. split; [|split; [|split]].
  - intros i j [_ Hi']%filter_In Hj. apply negb_true_iff, orb_false_iff in Hi' as [Hi' _].
    unfold purged in Hi'. rewrite existsb_false_iff in Hi'. specialize (Hi' j Hj). unfold _overlaps, interval in Hi'.
    cbn [fst snd] in Hi'. zify_bool. lia.
  - intros i g [_ Hi']%filter_In Hg. apply negb_true_iff, orb_false_iff in Hi' as [Hu Hi'].
    unfold embargoed in Hi'. rewrite Hu in Hi'. cbn [negb andb] in Hi'. rewrite existsb_false_iff in Hi'.
    specialize (Hi' (g, nth g (_groups (length ends) (Z.to_nat (group_count c))) [])). cbn beta iota in Hi'.
    rewrite (proj2 (mem_true g ids)), andb_true_l in Hi' by done. unfold behind in Hi'. cbv zeta in Hi'.
    apply andb_false_iff in Hi' as [Hi'|Hi']; [zify_bool; lia..|].
    apply (enumerate_In []). split; [|done]. rewrite (proj1 (groups_partition _ _ H1 H2)). apply Hi, in_seq in Hg. lia.
  - apply NoDup_app_filter. eapply Permutation_NoDup; [apply Permutation_sym, Hp|apply List.seq_NoDup].
  - apply Permutation_length in Hp. rewrite length_app, length_seq in Hp.
    rewrite filter_counts; [lia|]. intros x Hx. unfold embargoed. by rewrite Hx.
Qed.

(** The diagnostic of any set of causal, bounded labels is complete:
    there are as many splits as choices of test groups, every sample is tested
    in exactly C(groups - 1, tested - 1) of them, so the coverage blocker is
    never raised, and the diagnostic passes iff there are enough splits and
    each keeps two training samples. *)
Theorem cpcv_complete ends c : new_cpcv_config c = Ok c -> group_count c <= Z.of_nat (length ends) ->
  (forall i, (i < length ends)%nat -> Z.of_nat i <= nth i ends 0 < Z.of_nat (length ends)) ->
  let k := Z.to_nat (group_count c) in let t := Z.to_nat (test_group_count c) in
  exists r, build_cpcv_diagnostic ends c = Ok r /\
    split_count r = choose k t /\
    (forall i, (i < length ends)%nat ->
      length (List.filter (fun s => mem i (test_indices s)) (splits r)) = choose (k - 1) (t - 1)) /\
    test_coverage_count r = length ends /\
    (diagnostic_passed r = true <->
      minimum_splits c <= Z.of_nat (choose k t) /\ forall s, In s (splits r) -> (2 <= length (train_indices s))%nat).
Proof.
  intros Hc%config_bounds Hn He k t. destruct (build_runs ends c Hn He) as (r & Hr). exists r. split; [done|].
  apply build_report in Hr as (_ & Hs & _ & Hl & Hcov & Hmin & Hb & Hpass). rewrite Hs in *.
  rewrite splits_length in Hl. assert (test_coverage_count r = length ends) as Hall by (by rewrite Hcov; apply coverage_full).
  split; [done|]. split; [by apply each_tested|]. split; [done|].
  rewrite Hpass, is_nil_true. rewrite Hall, Nat.eqb_refl, Hl in Hb. cbn [negb block_if app] in Hb. fold k t in Hb.
  rewrite <- (minimum_train_iff ends c Hc), <- Hmin. split.
  - intros Hnil. rewrite Hnil in Hb.
    destruct (Z.of_nat (choose k t) <? minimum_splits c) eqn:E1; [by destruct (proj2 (Hb _) (or_introl eq_refl))|].
    destruct (minimum_train_size r <? 2)%nat eqn:E2; [by destruct (proj2 (Hb _) (or_introl eq_refl))|].
    apply Nat.ltb_ge in E2. zify_bool. lia.
  - intros [E1 E2]. rewrite (proj2 (Z.ltb_ge _ _) E1), (proj2 (Nat.ltb_ge _ _) E2) in Hb.
    destruct (blockers r) as [|b l]; [done|]. by destruct (proj1 (Hb b) (or_introl eq_refl)).
Qed.

Definition ex_config : CPCVConfig := mk_cpcv_config 4 2 1 6.
Definition ex_ends : list Z := [1; 1; 3; 3; 5; 5; 6; 7; 9; 10; 11; 11].

Lemma ex_ends_ok i : (i < length ex_ends)%nat -> Z.of_nat i <= nth i ex_ends 0 < Z.of_nat (length ex_ends).
Proof. do 12 (destruct i as [|i]; [cbn; lia|]). cbn. lia. Qed.

Lemma cpcv_complete_witness : exists r, build_cpcv_diagnostic ex_ends ex_config = Ok r /\ split_count r = 6%nat /\
  test_coverage_count r = 12%nat.
Proof.
  destruct (cpcv_complete ex_ends ex_config eq_refl ltac:(cbn; lia) ex_ends_ok) as (r & Hr & Hs & _ & Hc & _).
  exists r. split; [exact Hr|]. split; [exact Hs|exact Hc].
Defined.

Definition ex_split : CPCVSplit := build_split ex_ends 1 (_groups 12 4) 1 [0%nat; 1%nat].

Definition ex_report : CPCVDiagnosticReport :=
  mk_report 12 6 12 3 (all_splits ex_ends ex_config) [] true.

Lemma ex_report_built : build_cpcv_diagnostic ex_ends ex_config = Ok ex_report.
Proof. vm_compute. reflexivity. Qed.

Lemma cpcv_no_leakage_witness :
  (length (train_indices ex_split) + purged_count ex_split + embargoed_count ex_split + 6 = 12)%nat.
Proof.
  refine (proj2 (proj2 (proj2 (cpcv_no_leakage ex_ends ex_config ex_report ex_split eq_refl ex_report_built _)))).
  vm_compute. left. reflexivity.
Defined.
