(* ===== verification/CostBasis.v ===== *)
(** [portfolio/cost_basis.py]: the weighted-average cost of a Spot holding,
    reconstructed from the paged trade history of an account and reconciled
    with the wallet.  The exchange's reader is a parameter, free to answer
    each call differently. *)
From S2P Require Import Prelude PyDecimal DecimalFacts DecimalText PyFloat PyText JsonText Filters.
From Stdlib Require Import QArith Qabs Qminmax Lqa.
Local Open Scope Z_scope.
Local Open Scope bool_scope.

Definition MATCH_TOLERANCE : dec := lit 1 (-8).

(** ** Trades *)

Record SpotTradeFill : Type := mk_fill {
  trade_id : Z;
  symbol : string;
  price : dec;
  quantity : dec;
  quote_quantity : dec;
  commission : dec;
  commission_asset : string;
  is_buyer : bool;
  time_ms : Z
}.

(** [SpotTradeFill.__post_init__] *)
Definition new_fill (f : SpotTradeFill) : res SpotTradeFill :=
  raise_if ((trade_id f <? 0) || String.eqb (symbol f) ""
      || dltb (dmin_list (price f) [quantity f; quote_quantity f; commission f]) ZERO
      || deqb (price f) ZERO || deqb (quantity f) ZERO
      || String.eqb (commission_asset f) "" || (time_ms f <? 0))
    (ValueError "Spot trade fill is invalid");;
  mret f.

(** A value of a payload object, and what a payload and its rows may be. *)
Inductive cell : Type :=
| Scalar (v : FilterValue)
| Container.

Abbreviation trade_fields := (list (string * cell)).

Inductive trade_row : Type :=
| Mapping (fields : trade_fields)
| NotMapping.

Inductive trade_payload : Type :=
| Rows (rows : list trade_row)
| NotArray.

Definition get_cell (fields : trade_fields) (name : string) (dflt : cell) : cell :=
  default dflt (dict_get String.eqb name fields).

(** [_integer] *)
Definition _integer (value : cell) (name : string) : res Z :=
  let error := ValueError (name ++ " must be an integer") in
  parsed ← match value with
           | Scalar (FInt n) => Ok n
           | Scalar (FStr s) => match py_int (JStr s) with Ok n => Ok n | Raise _ => Raise error end
           | _ => Raise error
           end;
  raise_if (parsed <? 0) (ValueError (name ++ " cannot be negative"));;
  mret parsed.

(** [_text] *)
Definition _text (value : cell) (name : string) : res string :=
  match value with
  | Scalar (FStr s) =>
      raise_if (blank s) (ValueError (name ++ " must be text"));;
      mret (normalize s)
  | _ => Raise (ValueError (name ++ " must be text"))
  end.

(** [_boolean] *)
Definition _boolean (value : cell) (name : string) : res bool :=
  match value with
  | Scalar (FBool b) => Ok b
  | _ => Raise (ValueError (name ++ " must be boolean"))
  end.

(** [_symbol] *)
Definition _symbol (value : string) : res string :=
  let normalized := normalize value in
  raise_if (String.eqb normalized "" || negb (isascii normalized) || negb (isalnum normalized))
    (ValueError "symbol must be ASCII alphanumeric");;
  mret normalized.

(** [s[:-len(quote)]] of a longer text that ends with [quote] *)
Definition without_suffix (quote s : string) : option string :=
  match is_prefix (rev (list_ascii_of_string quote)) (rev (list_ascii_of_string s)) with
  | Some (c :: l) => Some (string_of_list_ascii (rev (c :: l)))
  | _ => None
  end.

Fixpoint first_quote (quotes : list string) (s : string) : res (string * string) :=
  match quotes with
  | [] => Raise (ValueError "symbol quote asset is unsupported")
  | quote :: quotes =>
      match without_suffix quote s with Some base => Ok (base, quote) | None => first_quote quotes s end
  end.

(** [_assets] *)
Definition _assets (s : string) : res (string * string) :=
  first_quote ["USDT"; "FDUSD"; "USDC"; "BTC"; "ETH"; "BNB"] s.

(** ** The report *)

Record CostBasisReport : Type := mk_report {
  report_symbol : string;
  base_asset : string;
  quote_asset : string;
  report_quantity : dec;
  average_cost_quote : option dec;
  realized_pnl_quote : dec;
  report_quote_fees : dec;
  trade_count : Z;
  blockers : list string
}.

(** [CostBasisReport.__post_init__], where the execution flags have their
    defaults and every number is finite *)
Definition new_report (r : CostBasisReport) : res CostBasisReport :=
  raise_if (String.eqb (report_symbol r) "" || String.eqb (base_asset r) "" || String.eqb (quote_asset r) ""
      || dltb (report_quantity r) ZERO || (trade_count r <? 0))
    (ValueError "cost basis report is invalid");;
  raise_if (match average_cost_quote r with Some a => dltb a ZERO | None => false end)
    (ValueError "average cost is invalid");;
  mret r.

Record CostBasisService : Type := mk_service { maximum_history_pages : Z }.

(** [CostBasisService.__post_init__] *)
Definition new_service (s : CostBasisService) : res CostBasisService :=
  raise_if (negb ((1 <=? maximum_history_pages s) && (maximum_history_pages s <=? 100)))
    (ValueError "maximum history pages must be between 1 and 100");;
  mret s.

(** What the loop over the fills of [evaluate] keeps. *)
Record book : Type := mk_book {
  b_quantity : dec;
  b_cost : dec;
  b_realized : dec;
  b_quote_fees : dec;
  b_blockers : list string;
  b_seen : list Z
}.

Definition empty_book (history_blockers : list string) : book := mk_book ZERO ZERO ZERO ZERO history_blockers [].

Definition fee_in (asset : string) (f : SpotTradeFill) : dec :=
  if String.eqb (commission_asset f) asset then commission f else ZERO.

Definition unconverted (base quote : string) (f : SpotTradeFill) : bool :=
  dltb ZERO (commission f) && negb (str_in (commission_asset f) [base; quote]).

(** A purchase and a sale, after the fee of the fill was booked. *)
Definition buy (base quote : string) (b : book) (fees : dec) (found : list string) (f : SpotTradeFill) : res book :=
  let seen := trade_id f :: b_seen b in
  acquired ← dsub (quantity f) (fee_in base f);
  if dleb acquired ZERO then
    Ok (mk_book (b_quantity b) (b_cost b) (b_realized b) fees (found ++ ["INVALID_NET_ACQUIRED_QUANTITY"]) seen)
  else
    q ← dadd (b_quantity b) acquired;
    paid ← dadd (quote_quantity f) (fee_in quote f);
    c ← dadd (b_cost b) paid;
    mret (mk_book q c (b_realized b) fees found seen).

Definition sell (base quote : string) (b : book) (fees : dec) (found : list string) (f : SpotTradeFill) : res book :=
  let seen := trade_id f :: b_seen b in
  asked ← dadd (quantity f) (fee_in base f);
  let over := dltb (b_quantity b) asked in
  let found := found ++ block_if over "SELL_EXCEEDS_RECONSTRUCTED_INVENTORY" in
  let disposed := if over then b_quantity b else asked in
  if dleb disposed ZERO then
    Ok (mk_book (b_quantity b) (b_cost b) (b_realized b) fees found seen)
  else
    average ← (if dltb ZERO (b_quantity b) then ddiv (b_cost b) (b_quantity b) else Ok ZERO);
    proceeds ← dsub (quote_quantity f) (fee_in quote f);
    sold ← dmul average disposed;
    gain ← dsub proceeds sold;
    realized ← dadd (b_realized b) gain;
    q ← dsub (b_quantity b) disposed;
    c ← dsub (b_cost b) sold;
    mret (mk_book q c realized fees found seen).

(** One turn of the loop. *)
Definition account (base quote : string) (b : book) (f : SpotTradeFill) : res book :=
  if existsb (Z.eqb (trade_id f)) (b_seen b) then
    Ok (mk_book (b_quantity b) (b_cost b) (b_realized b) (b_quote_fees b)
          (b_blockers b ++ ["DUPLICATE_TRADE_ID"]) (b_seen b))
  else
    let found := b_blockers b ++ block_if (unconverted base quote f) "TRADE_FEE_CONVERSION_UNAVAILABLE" in
    fees ← dadd (b_quote_fees b) (fee_in quote f);
    if is_buyer f then buy base quote b fees found f else sell base quote b fees found f.

Fixpoint account_all (base quote : string) (b : book) (l : list SpotTradeFill) : res book :=
  match l with
  | [] => Ok b
  | f :: l => b' ← account base quote b f; account_all base quote b' l
  end.

(** The order of [(item.time_ms, item.trade_id)] *)
Definition fill_leb (a b : SpotTradeFill) : bool :=
  (time_ms a <? time_ms b) || (time_ms a =? time_ms b) && (trade_id a <=? trade_id b).

Section Service.

(** [str] of a float, and the answer of the reader to its n-th call. *)
Context (float_repr : float -> string).
Context (trades : nat -> string -> Z -> Z -> res trade_payload).

(** [str(value)]; a container's text is no number, a too long integer has none. *)
Definition str_cell (value : cell) : option string :=
  match value with
  | Container => None
  | Scalar (FInt n) =>
      if (int_max_str_digits <? length (digits (Z.abs_N n)))%nat then None else Some (str_int n)
  | Scalar v => Some (str_value float_repr v)
  end.

(** [_decimal] *)
Definition _decimal (value : cell) (name : string) : res dec :=
  match str_cell value ≫= parse_decimal with
  | None => Raise (ValueError (name ++ " must be decimal-compatible"))
  | Some (Finite d) =>
      raise_if (dltb d ZERO) (ValueError (name ++ " must be finite and non-negative"));;
      mret d
  | Some _ => Raise (ValueError (name ++ " must be finite and non-negative"))
  end.

(** [_fill] *)
Definition _fill (fields : trade_fields) (sym : string) : res SpotTradeFill :=
  let get name := get_cell fields name (Scalar FNone) in
  id ← _integer (get "id") "id";
  p ← _decimal (get "price") "price";
  q ← _decimal (get "qty") "qty";
  qq ← _decimal (get "quoteQty") "quoteQty";
  c ← _decimal (get_cell fields "commission" (Scalar (FStr "0"))) "commission";
  asset ← _text (get "commissionAsset") "commissionAsset";
  buyer ← _boolean (get "isBuyer") "isBuyer";
  time ← _integer (get "time") "time";
  new_fill (mk_fill id sym p q qq c asset buyer time).

(** The fills of the rows that are objects. *)
Fixpoint read_rows (sym : string) (rows : list trade_row) : res (list SpotTradeFill) :=
  match rows with
  | [] => Ok []
  | Mapping fields :: rows => f ← _fill fields sym; l ← read_rows sym rows; mret (f :: l)
  | NotMapping :: rows => read_rows sym rows
  end.

(** The checked page of one call. *)
Definition read_page (call : nat) (sym : string) (from_id limit : Z) : res (list SpotTradeFill) :=
  payload ← trades call sym from_id limit;
  match payload with
  | NotArray => Raise (ValueError "trade history must be an array")
  | Rows rows =>
      raise_if (limit <? Z.of_nat (length rows)) (ValueError "trade history page exceeds requested limit");;
      page ← read_rows sym rows;
      raise_if (negb (Nat.eqb (length page) (length rows))) (ValueError "trade history rows must be objects");;
      mret page
  end.

Definition max_id (page : list SpotTradeFill) : Z :=
  match page with [] => -1 | f :: l => fold_left Z.max (map trade_id l) (trade_id f) end.

(** The loop of [_load_trade_history], [pages] turns before its end. *)
Fixpoint load_pages (pages call : nat) (sym : string) (limit from_id : Z) (fills : list SpotTradeFill)
  : res (list SpotTradeFill * list string) :=
  match pages with
  | O => Ok (fills, ["TRADE_HISTORY_PAGE_LIMIT_REACHED"])
  | S pages =>
      page ← read_page call sym from_id limit;
      if existsb (fun f => trade_id f <? from_id) page then Ok (fills, ["TRADE_HISTORY_PAGINATION_STALLED"])
      else
        let fills := fills ++ page in
        if Z.of_nat (length page) <? limit then Ok (fills, [])
        else
          let next_from_id := max_id page + 1 in
          if next_from_id <=? from_id then Ok (fills, ["TRADE_HISTORY_PAGINATION_STALLED"])
          else load_pages pages (S call) sym limit next_from_id fills
  end.

(** [CostBasisService._load_trade_history] *)
Definition _load_trade_history (s : CostBasisService) (sym : string) (limit : Z) : res (list SpotTradeFill * list string) :=
  load_pages (Z.to_nat (maximum_history_pages s)) 0 sym limit 0 [].

(** [CostBasisService.evaluate] after its checks of the arguments. *)
Definition report_of (sym base quote : string) (wallet : dec) (fills : list SpotTradeFill) (history_blockers : list string)
  : res CostBasisReport :=
  let ordered := py_sorted fill_leb fills in
  b ← account_all base quote (empty_book history_blockers) ordered;
  gap ← dsub (b_quantity b) wallet;
  gap ← dabs gap;
  average ← (if dltb ZERO (b_quantity b)
             then a ← ddiv (b_cost b) (b_quantity b); mret (Some a) else mret None);
  let found := b_blockers b ++ block_if (dltb MATCH_TOLERANCE gap) "WALLET_TRADE_HISTORY_QUANTITY_MISMATCH"
    ++ block_if (is_nil ordered) "TRADE_HISTORY_UNAVAILABLE" in
  new_report (mk_report sym base quote (b_quantity b) average (b_realized b) (b_quote_fees b)
    (Z.of_nat (length ordered)) (fromkeys found)).

(** [CostBasisService.evaluate] *)
Definition evaluate (s : CostBasisService) (sym : string) (wallet_quantity : pydec) (limit : Z) : res CostBasisReport :=
  normalized ← _symbol sym;
  '(base, quote) ← _assets normalized;
  match wallet_quantity with
  | Finite wallet =>
      raise_if (dltb wallet ZERO) (ValueError "wallet quantity must be finite and non-negative");;
      raise_if (negb ((1 <=? limit) && (limit <=? 1000))) (ValueError "trade history limit must be between 1 and 1000");;
      '(fills, history_blockers) ← _load_trade_history s normalized limit;
      report_of normalized base quote wallet fills history_blockers
  | _ => Raise (ValueError "wallet quantity must be finite and non-negative")
  end.

End Service.

(** ** Paging *)

Definition history := list (trade_row * SpotTradeFill).
Definition fills_of (h : history) : list SpotTradeFill := map snd h.

(** The reader pages the history: the rows from an id on, up to the limit. *)
Definition pages_history (trades : nat -> string -> Z -> Z -> res trade_payload) (sym : string) (h : history) : Prop :=
  forall call from_id limit, trades call sym from_id limit =
    Ok (Rows (map fst (firstn (Z.to_nat limit) (List.filter (fun e => from_id <=? trade_id e.2) h)))).

Definition row_reads (fr : float -> string) (sym : string) (e : trade_row * SpotTradeFill) : Prop :=
  exists fields, e.1 = Mapping fields /\ _fill fr fields sym = Ok e.2.

(** Ids increase along the history, from [from_id] on. *)
Fixpoint ids_from (from_id : Z) (h : history) : Prop :=
  match h with
  | [] => True
  | e :: h => from_id <= trade_id e.2 /\ ids_from (trade_id e.2 + 1) h
  end.

Lemma ids_from_weaken a b h : b <= a -> ids_from a h -> ids_from b h.
Proof. destruct h as [|e h]; [done|]. intros H [H1 H2]. split; [lia|done]. Qed.

Lemma ids_from_all a h : ids_from a h -> forall e, In e h -> a <= trade_id e.2.
Proof.
  revert a. induction h as [|x h IH]; intros a; [done|]. intros [H1 H2] e [<-|He]; [done|].
  specialize (IH _ H2 e He). lia.
Qed.

Lemma filter_from_all a h : ids_from a h -> List.filter (fun e => a <=? trade_id e.2) h = h.
Proof. intros H. apply filter_id. intros e He. apply Z.leb_le. by eapply ids_from_all. Qed.

Lemma filter_from_none a (h : history) : (forall e, In e h -> trade_id e.2 < a) ->
  List.filter (fun e => a <=? trade_id e.2) h = [].
Proof.
  induction h as [|x h IH]; [done|]. intros H. cbn [List.filter].
  rewrite (proj2 (Z.leb_gt _ _) (H x (or_introl eq_refl))). apply IH. intros e He. apply H. by right.
Qed.

Lemma read_rows_history fr sym h : Forall (row_reads fr sym) h -> read_rows fr sym (map fst h) = Ok (fills_of h).
Proof.
  induction 1 as [|[r f] h (fields & Hr & Hf) _ IH]; [done|]. cbn [fst snd] in *. subst r.
  cbn [map fst read_rows]. rewrite Hf. cbn [mbind res_bind]. rewrite IH. done.
Qed.

Lemma max_id_from a h : ids_from a h -> h <> [] ->
  a <= max_id (fills_of h) /\ (forall e, In e h -> trade_id e.2 <= max_id (fills_of h)) /\
  exists e, In e h /\ trade_id e.2 = max_id (fills_of h).
Proof.
  destruct h as [|x h]; [done|]. intros [H1 H2] _. unfold max_id, fills_of. cbn [map].
  assert (forall l m, m <= fold_left Z.max (map trade_id (map snd l)) m /\
    (forall e : trade_row * SpotTradeFill, In e l -> trade_id e.2 <= fold_left Z.max (map trade_id (map snd l)) m) /\
    (fold_left Z.max (map trade_id (map snd l)) m = m \/
     exists e, In e l /\ trade_id e.2 = fold_left Z.max (map trade_id (map snd l)) m)) as Hf.
  { induction l as [|y l IH]; intros m; cbn; [split; [lia|split; [done|by left]]|].
    destruct (IH (Z.max m (trade_id y.2))) as (I1 & I2 & I3). split; [lia|split].
    - intros e [<-|He]; [lia|]. specialize (I2 e He). lia.
    - destruct I3 as [I3|(e & He & I3)]; [|right; exists e; tauto].
      destruct (Z.max_spec m (trade_id y.2)) as [[_ E]|[_ E]]; rewrite E in *; [right; exists y; rewrite I3; tauto|by left]. }
  destruct (Hf h (trade_id x.2)) as (F1 & F2 & F3). split; [lia|split].
  - intros e [<-|He]; [done|by apply F2].
  - destruct F3 as [F3|(e & He & F3)]; [exists x|exists e]; split; try done; [by left|by right].
Qed.

Lemma ids_from_split a n h : ids_from a h -> firstn n h <> [] ->
  ids_from (max_id (fills_of (firstn n h)) + 1) (skipn n h) /\ ids_from a (firstn n h).
Proof.
  revert a h. induction n as [|n IH]; intros a [|x h]; try done. cbn [firstn skipn]. intros [H1 H2] _.
  destruct (firstn n h) as [|y l] eqn:E.
  - split; [|by split]. destruct h as [|z h], n; try discriminate; cbn; done.
  - rewrite <- E in *. destruct (IH _ h H2) as [I1 I2]; [by rewrite E|].
    split; [|by split]. eapply ids_from_weaken; [|exact I1].
    destruct (max_id_from _ (firstn n h) I2 ltac:(by rewrite E)) as (M1 & M2 & M3).
    destruct (max_id_from a (x :: firstn n h) (conj H1 I2) ltac:(done)) as (_ & _ & e & [<-|He] & <-); [lia|].
    specialize (M2 e He). lia.
Qed.

Lemma In_firstn {A} n (l : list A) x : In x (firstn n l) -> In x l.
Proof. intros H. rewrite <- (firstn_skipn n l). apply in_app_iff. by left. Qed.

Section Paging.

Context (fr : float -> string) (trades : nat -> string -> Z -> Z -> res trade_payload) (sym : string) (limit : Z).
Context (Hlimit : 1 <= limit).

(** One call, after the [old] part of the history was read. *)
Lemma read_page_history call old rest from_id : pages_history trades sym (old ++ rest) ->
  Forall (row_reads fr sym) rest -> (forall e, In e old -> trade_id e.2 < from_id) -> ids_from from_id rest ->
  read_page fr trades call sym from_id limit = Ok (fills_of (firstn (Z.to_nat limit) rest)).
Proof.
  intros Hr Hrows Hold Hrest. unfold read_page. rewrite Hr. cbn [mbind res_bind].
  rewrite List.filter_app, (filter_from_none _ old), (filter_from_all _ rest) by done. cbn [app].
  rewrite length_map, length_firstn, (proj2 (Z.ltb_ge limit _)) by lia. cbn [raise_if mbind res_bind].
  rewrite read_rows_history by (by apply Forall_take). cbn [mbind res_bind].
  unfold fills_of. by rewrite length_map, length_firstn, Nat.eqb_refl.
Qed.

Lemma load_pages_history pages : forall call old rest from_id,
  pages_history trades sym (old ++ rest) -> Forall (row_reads fr sym) rest ->
  (forall e, In e old -> trade_id e.2 < from_id) -> ids_from from_id rest ->
  load_pages fr trades pages call sym limit from_id (fills_of old) =
    Ok (if (length rest <? pages * Z.to_nat limit)%nat then (fills_of (old ++ rest), [])
        else (fills_of (old ++ firstn (pages * Z.to_nat limit) rest), ["TRADE_HISTORY_PAGE_LIMIT_REACHED"])).
Proof.
  induction pages as [|pages IH]; intros call old rest from_id Hr Hrows Hold Hrest.
  { cbn [load_pages Nat.mul]. by rewrite firstn_O, app_nil_r. }
  cbn [load_pages]. rewrite (read_page_history call old rest) by done. cbn [mbind res_bind].
  set (page := firstn (Z.to_nat limit) rest).
  assert (existsb (fun f => trade_id f <? from_id) (fills_of page) = false) as ->.
  { apply not_true_iff_false. intros (f & ((r & f') & <- & He)%in_map_iff & Hf)%existsb_exists.
    apply In_firstn, (ids_from_all _ _ Hrest) in He. cbn in *. zify_bool. lia. }
  assert (fills_of old ++ fills_of page = fills_of (old ++ page)) as -> by (unfold fills_of; by rewrite map_app).
  assert (length (fills_of page) = Nat.min (Z.to_nat limit) (length rest)) as Hlen.
  { unfold fills_of, page. by rewrite length_map, length_firstn. }
  rewrite Hlen. destruct (Z.ltb_spec (Z.of_nat (Nat.min (Z.to_nat limit) (length rest))) limit) as [Hs|Hs].
  - rewrite (proj2 (Nat.ltb_lt _ _)) by nia. unfold page. by rewrite firstn_all2 by lia.
  - assert (page <> []) as Hne by (intros E; rewrite E in Hlen; cbn in Hlen; lia).
    destruct (ids_from_split _ _ _ Hrest Hne) as [Hskip Hpage].
    destruct (max_id_from _ _ Hpage Hne) as (M1 & M2 & _). fold page in Hskip, M1, M2.
    rewrite (proj2 (Z.leb_gt (max_id (fills_of page) + 1) from_id)) by lia.
    rewrite (IH (S call) (old ++ page) (skipn (Z.to_nat limit) rest) (max_id (fills_of page) + 1)).
    + rewrite <- !app_assoc, length_skipn. unfold page. rewrite firstn_skipn. f_equal.
      assert ((length rest - Z.to_nat limit <? pages * Z.to_nat limit)%nat = (length rest <? S pages * Z.to_nat limit)%nat) as ->.
      { apply Bool.eq_true_iff_eq. rewrite !Nat.ltb_lt. lia. }
      destruct (length rest <? _)%nat; [done|]. do 3 f_equal. cbn [Nat.mul]. by rewrite take_take_drop.
    + unfold page. by rewrite <- app_assoc, firstn_skipn.
    + by apply Forall_drop.
    + intros e [He|He]%in_app_iff; [specialize (Hold e He)|specialize (M2 e He)]; lia.
    + done.
Qed.

End Paging.

(** ** Inventory *)

(** Multiples of [10^-8], the scale of the exchange's quantities, below a bound. *)
Definition on_grid (x : Q) : Prop := exists n : Z, (x == inject_Z n * Qexp10 (-8))%Q.
Definition grid_bound : Q := Qexp10 20.

Lemma on_grid_add x y : on_grid x -> on_grid y -> on_grid (x + y).
Proof. intros [n Hn] [m Hm]. exists (n + m). rewrite inject_Z_plus, Hn, Hm. ring. Qed.

Lemma on_grid_opp x : on_grid x -> on_grid (- x).
Proof. intros [n Hn]. exists (- n). rewrite inject_Z_opp, Hn. ring. Qed.

Lemma on_grid_proper x y : (x == y)%Q -> on_grid x -> on_grid y.
Proof. intros E [n H]. exists n. by rewrite <- E. Qed.

#[export] Instance on_grid_iff : Proper (Qeq ==> iff) on_grid.
Proof. intros x y E. split; apply on_grid_proper; [done|by symmetry]. Qed.

(** A number of the grid within the bound is a decimal of the context. *)
Lemma grid_repr x : on_grid x -> (Qabs x < grid_bound)%Q -> exists d, repr d /\ (dval d == x)%Q.
Proof.
  intros [n Hn] Hb. exists (mk_dec (n <? 0) (Z.abs_N n) (-8)). split.
  - assert (Z.of_N (Z.abs_N n) < 10 ^ 28) as H.
    { rewrite Hn, Qabs_Qmult in Hb. unfold grid_bound in Hb. rewrite (Qabs_pos (Qexp10 (-8))) in Hb by (apply Qlt_le_weak, Qexp10_pos).
      change (Qexp10 20) with (Qexp10 (28 + -8)) in Hb. rewrite Qexp10_plus in Hb.
      apply Qmult_lt_r in Hb; [|apply Qexp10_pos]. rewrite Qexp10_Z in Hb by lia.
      change (Qabs (inject_Z n)) with (inject_Z (Z.abs n)) in Hb. rewrite <- Zlt_Qlt in Hb. lia. }
    split; cbn [dcoef dexp]; [|unfold Etiny, Emin, prec; lia]. apply ndigits_le_iff; unfold prec; lia.
  - rewrite Hn. unfold dval, dint. cbn [dneg dcoef dexp].
    replace (if n <? 0 then - Z.of_N (Z.abs_N n) else Z.of_N (Z.abs_N n)) with n; [reflexivity|].
    destruct (Z.ltb_spec n 0); lia.
Qed.

(** On the grid, sums and differences are exact. *)
Lemma grid_exact x r : faithful x r -> on_grid x -> (Qabs x < grid_bound)%Q -> (dval r == x)%Q.
Proof. intros Hf Hg Hb. destruct (grid_repr x Hg Hb) as (d & Hd & E). by eapply faithful_exact. Qed.

Lemma on_grid_abs x : on_grid x -> on_grid (Qabs x).
Proof.
  intros H. destruct (Qlt_le_dec x 0) as [E|E]; [rewrite Qabs_neg by lra; by apply on_grid_opp|by rewrite Qabs_pos].
Qed.

Lemma Qabs_abs x : (Qabs (Qabs x) == Qabs x)%Q.
Proof. apply Qabs_pos, Qabs_nonneg. Qed.

Lemma safely_dabs a : safely (dabs a) (faithful (Qabs (dval a))).
Proof. destruct (dabs a) eqn:E; cbn; [by apply dabs_faithful|]. by apply dfix_raise in E as ->. Qed.

(** Numbers written with at most eight decimals are on the grid. *)
Lemma on_grid_dec d : -8 <= dexp d -> on_grid (dval d).
Proof. intros H. exists (int_at (-8) d). by apply dval_int_at. Qed.

Lemma grid_exponents l : forallb (fun f => (-8 <=? dexp (quantity f)) && (-8 <=? dexp (commission f))) l = true ->
  Forall (fun f => on_grid (dval (quantity f)) /\ on_grid (dval (commission f))) l.
Proof.
  rewrite forallb_forall, List.Forall_forall. intros H f Hf. specialize (H f Hf). zify_bool.
  split; apply on_grid_dec; lia.
Qed.

(** The inventory a fill leaves, without rounding: a purchase adds what is
    left after a fee in the base asset, a sale removes at most what is held. *)
Definition net_step (base : string) (q : Q) (f : SpotTradeFill) : Q :=
  let fee := dval (fee_in base f) in
  if is_buyer f then q + Qmax 0 (dval (quantity f) - fee) else q - Qmin q (dval (quantity f) + fee).

Definition net_inventory (base : string) (l : list SpotTradeFill) : Q := fold_left (net_step base) l 0%Q.

(** The first fill of every trade id. *)
Fixpoint first_of_each (seen : list Z) (l : list SpotTradeFill) : list SpotTradeFill :=
  match l with
  | [] => []
  | f :: l =>
      if existsb (Z.eqb (trade_id f)) seen then first_of_each seen l
      else f :: first_of_each (trade_id f :: seen) l
  end.

(** A fill whose fee and quantity can be accounted for at inventory [q]. *)
Definition covered_at (base quote : string) (q : Q) (f : SpotTradeFill) : Prop :=
  ((0 < dval (commission f))%Q -> commission_asset f = base \/ commission_asset f = quote) /\
  (if is_buyer f then dval (fee_in base f) < dval (quantity f)
   else dval (quantity f) + dval (fee_in base f) <= q)%Q.

Fixpoint covered (base quote : string) (q : Q) (l : list SpotTradeFill) : Prop :=
  match l with
  | [] => True
  | f :: l => covered_at base quote q f /\ covered base quote (net_step base q f) l
  end.

Definition Qgtb (x y : Q) : bool := negb (Qle_bool x y).

Lemma Qgtb_true x y : Qgtb x y = true <-> (y < x)%Q.
Proof. unfold Qgtb. rewrite negb_true_iff, <- not_true_iff_false, Qle_bool_iff. split; [apply Qnot_le_lt|apply Qlt_not_le]. Qed.

Lemma Qgtb_false x y : Qgtb x y = false <-> (x <= y)%Q.
Proof. unfold Qgtb. by rewrite negb_false_iff, Qle_bool_iff. Qed.

Lemma not_le_bool x y : Qle_bool x y = false <-> (y < x)%Q.
Proof. by rewrite <- Qgtb_true, <- negb_true_iff. Qed.

Lemma Qgtb_dltb a b x y : (dval a == x)%Q -> (dval b == y)%Q -> dltb a b = Qgtb y x.
Proof. intros Ha Hb. apply eq_true_iff_eq. by rewrite dltb_spec, Qgtb_true, Ha, Hb. Qed.

(** The blockers a fill causes at inventory [q], and those of all fills, in
    their order. *)
Definition fill_codes (base quote : string) (q : Q) (f : SpotTradeFill) : list string :=
  let fee := dval (fee_in base f) in
  block_if (Qgtb (dval (commission f)) 0 && negb (str_in (commission_asset f) [base; quote]))
    "TRADE_FEE_CONVERSION_UNAVAILABLE"
  ++ if is_buyer f then block_if (Qle_bool (dval (quantity f)) fee) "INVALID_NET_ACQUIRED_QUANTITY"
     else block_if (Qgtb (dval (quantity f) + fee) q) "SELL_EXCEEDS_RECONSTRUCTED_INVENTORY".

Fixpoint fills_codes (base quote : string) (seen : list Z) (q : Q) (l : list SpotTradeFill) : list string :=
  match l with
  | [] => []
  | f :: l =>
      if existsb (Z.eqb (trade_id f)) seen then "DUPLICATE_TRADE_ID" :: fills_codes base quote seen q l
      else fill_codes base quote q f ++ fills_codes base quote (trade_id f :: seen) (net_step base q f) l
  end.

(** The blockers of a report: those of the load, of the fills, of the wallet
    and of an empty history. *)
Definition report_codes (base quote : string) (wallet : dec) (fills : list SpotTradeFill) (hb : list string) : list string :=
  let ordered := py_sorted fill_leb fills in
  let held := net_inventory base (first_of_each [] ordered) in
  hb ++ fills_codes base quote [] 0 ordered
  ++ block_if (Qgtb (Qabs (held - dval wallet)) (Qexp10 (-8))) "WALLET_TRADE_HISTORY_QUANTITY_MISMATCH"
  ++ block_if (is_nil fills) "TRADE_HISTORY_UNAVAILABLE".

Definition volume (l : list SpotTradeFill) : Q := fold_right (fun f v => dval (quantity f) + dval (commission f) + v)%Q 0%Q l.

Record fill_ok (f : SpotTradeFill) : Prop := mk_fill_ok {
  ok_quantity : (0 < dval (quantity f))%Q;
  ok_commission : (0 <= dval (commission f))%Q;
  ok_quantity_grid : on_grid (dval (quantity f));
  ok_commission_grid : on_grid (dval (commission f))
}.

Lemma fee_in_bounds asset f : fill_ok f ->
  (0 <= dval (fee_in asset f) <= dval (commission f))%Q /\ on_grid (dval (fee_in asset f)).
Proof.
  intros [_ Hc _ Hg]. unfold fee_in. destruct (String.eqb _ _).
  - split; [split; [done|apply Qle_refl]|done].
  - rewrite dval_ZERO. split; [split; [apply Qle_refl|done]|]. by exists 0.
Qed.

Lemma unconverted_spec base quote f : unconverted base quote f = false <->
  ((0 < dval (commission f))%Q -> commission_asset f = base \/ commission_asset f = quote).
Proof.
  unfold unconverted, str_in. cbn [existsb]. rewrite andb_false_iff, negb_false_iff, !orb_true_iff, !String.eqb_eq, dltb_false, dval_ZERO.
  split.
  - intros [H|[H|[H|H]]] Hp; auto; [lra|done].
  - intros H. destruct (Qlt_le_dec 0 (dval (commission f))) as [Hp|Hp]; [right|by left]. destruct (H Hp); auto.
Qed.

Lemma fill_codes_nil base quote q f : fill_codes base quote q f = [] <-> covered_at base quote q f.
Proof.
  unfold fill_codes, covered_at. rewrite app_nil_iff, block_if_nil.
  assert (Qgtb (dval (commission f)) 0 && negb (str_in (commission_asset f) [base; quote]) = unconverted base quote f) as ->
    by (unfold unconverted; f_equal; symmetry; apply Qgtb_dltb; [apply dval_ZERO|done]).
  rewrite unconverted_spec. destruct (is_buyer f); rewrite block_if_nil; [|by rewrite Qgtb_false].
  by rewrite not_le_bool.
Qed.

(** The book agrees with the inventory [q] and has the blockers [codes]. *)
Record book_at (q : Q) (codes : list string) (seen : list Z) (b : book) : Prop := mk_book_at {
  at_quantity : (dval (b_quantity b) == q)%Q;
  at_codes : b_blockers b = codes;
  at_seen : b_seen b = seen
}.

Lemma account_duplicate base quote b f : existsb (Z.eqb (trade_id f)) (b_seen b) = true ->
  safely (account base quote b f) (fun b' => b_quantity b' = b_quantity b
    /\ b_blockers b' = b_blockers b ++ ["DUPLICATE_TRADE_ID"] /\ b_seen b' = b_seen b).
Proof. intros H. unfold account. by rewrite H. Qed.

Section Account.

Context (base quote : string) (b : book) (f : SpotTradeFill) (q : Q) (fees : dec) (found : list string).
Context (Hq : (dval (b_quantity b) == q)%Q) (Hf : fill_ok f) (H0 : (0 <= q)%Q) (Hg : on_grid q).
Context (Hb : (q + (dval (quantity f) + dval (commission f)) < grid_bound)%Q).

#[local] Notation fee := (dval (fee_in base f)).

Lemma buy_spec : safely (buy base quote b fees found f)
  (book_at (q + Qmax 0 (dval (quantity f) - fee)) 
     (found ++ block_if (Qle_bool (dval (quantity f)) fee) "INVALID_NET_ACQUIRED_QUANTITY") (trade_id f :: b_seen b)).
Proof.
  pose proof Hf as [Fq Fc Gq Gc]. destruct (fee_in_bounds base f Hf) as [[B1 B2] Gb]. unfold buy.
  eapply safely_bind; [apply safely_dsub|]. intros a Ha.
  apply grid_exact in Ha; [|apply on_grid_add; [done|by apply on_grid_opp]|apply Qabs_Qlt_condition; split; lra].
  destruct (dleb a ZERO) eqn:E; zify_dec; rewrite dval_ZERO, Ha in E.
  - split; cbn [b_blockers b_quantity b_seen]; [rewrite Q.max_l by lra; lra| |done].
    by rewrite (proj2 (Qle_bool_iff _ _)) by lra.
  - eapply safely_bind; [apply safely_dadd|]. intros q' Hq'.
    do 2 (eapply safely_bind; [apply safely_dadd|]; intros ? _).
    split; cbn [b_blockers b_quantity b_seen]; [|by rewrite (proj2 (not_le_bool _ _)), app_nil_r by lra|done].
    rewrite Q.max_r by lra. rewrite <- Ha, <- Hq. apply grid_exact in Hq'; [done| |].
    + rewrite Hq, Ha. apply on_grid_add; [done|]. apply on_grid_add; [done|by apply on_grid_opp].
    + rewrite Hq, Ha. apply Qabs_Qlt_condition; split; lra.
Qed.

Lemma sell_spec : safely (sell base quote b fees found f)
  (book_at (q - Qmin q (dval (quantity f) + fee)) 
     (found ++ block_if (Qgtb (dval (quantity f) + fee) q) "SELL_EXCEEDS_RECONSTRUCTED_INVENTORY") (trade_id f :: b_seen b)).
Proof.
  pose proof Hf as [Fq Fc Gq Gc]. destruct (fee_in_bounds base f Hf) as [[B1 B2] Gb]. unfold sell.
  eapply safely_bind; [apply safely_dadd|]. intros a Ha.
  apply grid_exact in Ha; [|by apply on_grid_add|apply Qabs_Qlt_condition; split; lra]. cbv zeta.
  set (disposed := if dltb (b_quantity b) a then b_quantity b else a).
  assert (dval disposed == Qmin q (dval (quantity f) + fee))%Q as Hd.
  { unfold disposed. destruct (dltb (b_quantity b) a) eqn:E; zify_dec; rewrite Hq, Ha in E;
      [rewrite Q.min_l by lra|rewrite Q.min_r by lra]; done. }
  assert (dltb (b_quantity b) a = Qgtb (dval (quantity f) + fee) q) as Ho by by apply Qgtb_dltb.
  assert (on_grid (dval disposed) /\ (dval disposed <= q)%Q) as [Gd Ld].
  { rewrite Hd. split; [|apply Q.le_min_l]. destruct (Q.min_spec q (dval (quantity f) + fee)) as [[_ M]|[_ M]]; rewrite M;
      [done|by apply on_grid_add]. }
  destruct (dleb disposed ZERO) eqn:E; zify_dec; rewrite dval_ZERO in E.
  - split; cbn [b_blockers b_quantity b_seen]; [|by rewrite Ho|done]. rewrite <- Hd, Hq.
    assert (0 <= Qmin q (dval (quantity f) + fee))%Q by (apply Q.min_glb; lra). lra.
  - eapply (safely_bind _ _ (fun _ => True)).
    { destruct (dltb ZERO _); [|done]. eapply safely_weaken; [apply safely_ddiv|done]. }
    intros avg _. do 4 (eapply safely_bind; [apply safely_dsub || apply safely_dmul || apply safely_dadd|]; intros ? _).
    eapply safely_bind; [apply safely_dsub|]. intros q' Hq'. eapply safely_bind; [apply safely_dsub|]. intros c' _.
    split; cbn [b_blockers b_quantity b_seen]; [|by rewrite Ho|done].
    rewrite <- Hd, <- Hq. apply grid_exact in Hq'; [done| |].
    + rewrite Hq. apply on_grid_add; [done|by apply on_grid_opp].
    + rewrite Hq. apply Qabs_Qlt_condition; split; lra.
Qed.

End Account.

Lemma account_spec base quote b f q : (dval (b_quantity b) == q)%Q -> fill_ok f ->
  (0 <= q)%Q -> on_grid q -> (q + (dval (quantity f) + dval (commission f)) < grid_bound)%Q ->
  existsb (Z.eqb (trade_id f)) (b_seen b) = false ->
  safely (account base quote b f)
    (book_at (net_step base q f) (b_blockers b ++ fill_codes base quote q f) (trade_id f :: b_seen b)).
Proof.
  intros Hq Hf H0 Hg Hb Hs. unfold account. rewrite Hs. cbv zeta.
  eapply safely_bind; [apply safely_dadd|]. intros fees _. unfold net_step, fill_codes, unconverted.
  rewrite (Qgtb_dltb ZERO (commission f) 0 (dval (commission f)) dval_ZERO (Qeq_refl _)), app_assoc.
  destruct (is_buyer f); [by apply buy_spec|by apply sell_spec].
Qed.

Lemma net_step_bounds base q f : fill_ok f -> (0 <= q)%Q -> on_grid q ->
  (0 <= net_step base q f)%Q /\ on_grid (net_step base q f) /\
  (net_step base q f <= q + (dval (quantity f) + dval (commission f)))%Q.
Proof.
  intros Hf H0 Hg. pose proof Hf as [Fq Fc Gq Gc]. destruct (fee_in_bounds base f Hf) as [[B1 B2] Gb].
  unfold net_step. destruct (is_buyer f).
  - destruct (Q.max_spec 0 (dval (quantity f) - dval (fee_in base f))) as [[? M]|[? M]]; rewrite M;
      (split; [lra|split; [|lra]]); [by apply on_grid_add, on_grid_add, on_grid_opp|].
    apply on_grid_add; [done|by exists 0].
  - destruct (Q.min_spec q (dval (quantity f) + dval (fee_in base f))) as [[? M]|[? M]]; rewrite M;
      (split; [lra|split; [|lra]]); apply on_grid_add; auto using on_grid_opp, on_grid_add.
Qed.

#[export] Instance net_step_proper base : Proper (Qeq ==> eq ==> Qeq) (net_step base).
Proof. intros q q' E f f' <-. unfold net_step. destruct (is_buyer f); by rewrite E. Qed.

(** No trade id twice, and none of those seen. *)
Definition all_fresh (seen : list Z) (l : list SpotTradeFill) : Prop :=
  List.NoDup (map trade_id l) /\ forall f, In f l -> ~ In (trade_id f) seen.

Lemma seen_spec n l : existsb (Z.eqb n) l = true <-> In n l.
Proof.
  rewrite existsb_exists. split; [by intros (x & Hx & ->%Z.eqb_eq)|]. intros H. exists n. by rewrite Z.eqb_refl.
Qed.

Lemma all_fresh_cons seen f l :
  all_fresh seen (f :: l) <-> ~ In (trade_id f) seen /\ all_fresh (trade_id f :: seen) l.
Proof.
  unfold all_fresh. cbn [map]. rewrite NoDup_cons_iff. split.
  - intros [[H1 H2] H3]. split; [apply H3; by left|]. split; [done|]. intros g Hg [E|H]; [|by apply (H3 g (or_intror Hg))].
    apply H1. rewrite E. by apply in_map.
  - intros [H1 [H2 H3]]. split; [split; [|done]|].
    + intros (g & E & Hg)%in_map_iff. apply (H3 g Hg). left. by rewrite E.
    + intros g [<-|Hg]; [done|]. intros H. apply (H3 g Hg). by right.
Qed.

Lemma fills_codes_nil base quote l : forall seen q,
  fills_codes base quote seen q l = [] <-> all_fresh seen l /\ covered base quote q l.
Proof.
  induction l as [|f l IH]; intros seen q; cbn [fills_codes covered].
  { split; [|done]. intros _. repeat split; [constructor|done]. }
  rewrite all_fresh_cons. destruct (existsb (Z.eqb (trade_id f)) seen) eqn:E.
  - apply seen_spec in E. split; [done|tauto].
  - assert (~ In (trade_id f) seen) by (by rewrite <- seen_spec, E). rewrite app_nil_iff, fill_codes_nil, IH. tauto.
Qed.

Lemma account_all_spec base quote l : forall b q,
  (dval (b_quantity b) == q)%Q -> Forall fill_ok l -> (0 <= q)%Q -> on_grid q -> (q + volume l < grid_bound)%Q ->
  safely (account_all base quote b l) (fun b' =>
    (dval (b_quantity b') == fold_left (net_step base) (first_of_each (b_seen b) l) q)%Q /\
    (0 <= dval (b_quantity b') < grid_bound)%Q /\ on_grid (dval (b_quantity b')) /\
    b_blockers b' = b_blockers b ++ fills_codes base quote (b_seen b) q l).
Proof.
  induction l as [|f l IH]; intros b q Hq Hl H0 Hg Hv.
  { cbn in *. split; [done|]. rewrite Hq, app_nil_r. split; [split; lra|done]. }
  apply Forall_cons in Hl as [Hf Hl]. cbn [volume fold_right] in Hv.
  assert (0 <= volume l)%Q as Hvol.
  { clear -Hl. induction Hl as [|g l [? ? _ _] _ IHl]; cbn [volume fold_right]; [lra|]. fold (volume l). lra. }
  fold (volume l) in Hv. pose proof (ok_quantity f Hf). pose proof (ok_commission f Hf).
  cbn [account_all first_of_each fills_codes]. destruct (existsb (Z.eqb (trade_id f)) (b_seen b)) eqn:Es.
  - eapply safely_bind; [by apply account_duplicate|]. intros b' (Eq & Eb & Esn). rewrite <- Esn.
    eapply safely_weaken; [apply (IH b' q); [by rewrite Eq|done..|lra]|].
    cbn beta. intros b'' (A1 & A2 & A3 & A4). do 3 (split; [done|]). by rewrite A4, Eb, <- app_assoc.
  - eapply safely_bind; [apply (account_spec base quote b f q); try done; lra|]. intros b' [Bq Bc Bs].
    destruct (net_step_bounds base q f Hf H0 Hg) as (N1 & N2 & N3). rewrite <- Bs.
    eapply safely_weaken; [apply (IH b' (net_step base q f)); try done; lra|].
    cbn beta. intros b'' (A1 & A2 & A3 & A4). do 3 (split; [done|]). by rewrite A4, Bc, <- app_assoc.
Qed.

Lemma all_fresh_perm l l' : Permutation l l' -> all_fresh [] l <-> List.NoDup (map trade_id l').
Proof.
  intros Hp. unfold all_fresh. split.
  - intros [H _]. by eapply Permutation_NoDup; [apply Permutation_map|].
  - intros H. split; [by eapply Permutation_NoDup; [apply Permutation_map; symmetry|]|]. by intros f _ [].
Qed.

Lemma report_accepted r : report_symbol r <> "" -> base_asset r <> "" -> quote_asset r <> "" ->
  (0 <= dval (report_quantity r))%Q -> 0 <= trade_count r ->
  new_report r = Ok r \/ new_report r = Raise (ValueError "average cost is invalid").
Proof.
  intros H1 H2 H3 H4 H5. unfold new_report.
  apply String.eqb_neq in H1, H2, H3. rewrite H1, H2, H3.
  rewrite (proj2 (dltb_false (report_quantity r) ZERO)) by (by rewrite dval_ZERO).
  rewrite (proj2 (Z.ltb_ge _ _) H5). cbn [orb raise_if mbind res_bind].
  destruct (average_cost_quote r) as [a|]; [|by left]. destruct (dltb a ZERO); [by right|by left].
Qed.

(** What a report says of the holding, with the trades and the wallet given:
    its blockers are the list of [report_codes] without repetitions, and what
    it takes for there to be none. *)
Definition reports (base quote : string) (wallet : dec) (fills : list SpotTradeFill) (hb : list string) (r : CostBasisReport) : Prop :=
  let ordered := py_sorted fill_leb fills in
  let held := net_inventory base (first_of_each [] ordered) in
  (dval (report_quantity r) == held)%Q /\
  (average_cost_quote r = None <-> (held == 0)%Q) /\
  blockers r = fromkeys (report_codes base quote wallet fills hb) /\
  (blockers r = [] <-> hb = [] /\ fills <> [] /\ List.NoDup (map trade_id fills) /\
    covered base quote 0 ordered /\ (Qabs (held - dval wallet) <= Qexp10 (-8))%Q).

Lemma report_of_spec sym base quote wallet fills hb : sym <> "" -> base <> "" -> quote <> "" ->
  Forall fill_ok fills -> on_grid (dval wallet) -> (0 <= dval wallet < grid_bound)%Q ->
  (volume (py_sorted fill_leb fills) < grid_bound)%Q ->
  match report_of sym base quote wallet fills hb with
  | Ok r => reports base quote wallet fills hb r
  | Raise e => is_arithmetic_error e = true \/ e = ValueError "average cost is invalid"
  end.
Proof.
  intros Hs Hba Hqu Hf Hgw Hbw Hv. unfold report_of, reports. cbv zeta. set (ordered := py_sorted fill_leb fills) in *.
  assert (Permutation ordered fills) as Hperm by apply py_sorted_perm.
  assert (Forall fill_ok ordered) as Hfo by (by rewrite Hperm).
  pose proof (account_all_spec base quote ordered (empty_book hb) 0) as Ha.
  destruct (account_all base quote (empty_book hb) ordered) as [b|e]; cbn [mbind res_bind];
    [|left; apply Ha; [done..|lra|by exists 0|lra]].
  destruct Ha as (A1 & [A2 A2'] & A3 & A4); [done..|lra|by exists 0|lra|]. cbn [empty_book b_seen b_blockers] in *.
  fold (net_inventory base (first_of_each [] ordered)) in A1. set (held := net_inventory base _) in *.
  pose proof (safely_dsub (b_quantity b) wallet) as Hg. destruct (dsub _ _) as [gap|e]; cbn [mbind res_bind]; [|by left].
  assert (on_grid (dval (b_quantity b) - dval wallet)) as Gg by (apply on_grid_add; [done|by apply on_grid_opp]).
  assert (Qabs (dval (b_quantity b) - dval wallet) < grid_bound)%Q as Bg by (apply Qabs_Qlt_condition; split; lra).
  apply grid_exact in Hg; [|done..].
  pose proof (safely_dabs gap) as Hg'. destruct (dabs gap) as [gap'|e]; cbn [mbind res_bind]; [|by left].
  apply grid_exact in Hg'; [|rewrite Hg..]; [|by apply on_grid_abs|by rewrite Qabs_abs].
  assert (dltb MATCH_TOLERANCE gap' = Qgtb (Qabs (held - dval wallet)) (Qexp10 (-8))) as Ht.
  { apply Qgtb_dltb; [|by rewrite Hg', Hg, A1]. change (dval MATCH_TOLERANCE) with (1 * Qexp10 (-8))%Q. by rewrite Qmult_1_l. }
  match goal with |- context [mbind ?f (if dltb ZERO (b_quantity b) then ?a else ?z)] =>
    assert (match (if dltb ZERO (b_quantity b) then a else z) with
            | Ok avg => avg = None <-> (held == 0)%Q | Raise e => is_arithmetic_error e = true end) as Havg;
    [|destruct (if dltb ZERO (b_quantity b) then a else z) as [avg|e]; cbn [mbind res_bind]; [|by left]]
  end.
  { destruct (dltb ZERO (b_quantity b)) eqn:E; zify_dec; rewrite dval_ZERO, A1 in E.
    - pose proof (safely_ddiv (b_cost b) (b_quantity b)) as Hd.
      destruct (ddiv _ _); [|done]. cbn. split; [done|]. intros E'. lra.
    - cbn. split; [|done]. intros _. lra. }
  match goal with |- context [new_report ?r] => destruct (report_accepted r) as [->| ->]; [..|by right] end;
    try done; cbn [report_quantity trade_count]; [lia|].
  cbn [report_quantity average_cost_quote blockers]. split; [done|]. split; [done|].
  assert (is_nil ordered = is_nil fills) as Hnil.
  { apply eq_true_iff_eq. rewrite !is_nil_true. split; intros E; rewrite E in Hperm;
      [by apply Permutation_nil|by apply Permutation_nil, Permutation_sym]. }
  unfold report_codes. fold ordered. fold held. rewrite A4, Ht, Hnil, <- !app_assoc. split; [done|].
  rewrite fromkeys_nil, !app_nil_iff, !block_if_nil, fills_codes_nil, Qgtb_false, (all_fresh_perm ordered fills Hperm),
    is_nil_false. tauto.
Qed.

(** ** Loaded trades are valid *)

Definition fill_valid (f : SpotTradeFill) : Prop := (0 < dval (quantity f))%Q /\ (0 <= dval (commission f))%Q.

Lemma new_fill_valid f g : new_fill f = Ok g -> fill_valid g.
Proof.
  unfold new_fill. intros H. apply bind_Ok in H as (u & H & Hg). apply mret_Ok in Hg. subst g.
  apply raise_if_Ok in H. rewrite !orb_false_iff in H. destruct H as [[[[[[_ _] Hmin] _] Hq] _] _].
  rewrite dmin_list_nonneg in Hmin. zify_dec. rewrite dval_ZERO in Hq. split.
  - assert (0 <= dval (quantity f))%Q by (apply Hmin; right; by left). lra.
  - apply Hmin. do 3 right. by left.
Qed.

Section Loaded.

Context (fr : float -> string) (trades : nat -> string -> Z -> Z -> res trade_payload) (sym : string).

Lemma fill_row_valid fields f : _fill fr fields sym = Ok f -> fill_valid f.
Proof. unfold _fill. intros H. do 8 (apply bind_Ok in H as (? & _ & H)). by eapply new_fill_valid. Qed.

Lemma read_rows_valid rows : forall l, read_rows fr sym rows = Ok l -> Forall fill_valid l.
Proof.
  induction rows as [|[fields|] rows IH]; intros l; cbn [read_rows].
  - by intros [= <-].
  - intros H. apply bind_Ok in H as (f & Hf & H). apply bind_Ok in H as (l' & Hl & H). apply mret_Ok in H. subst l.
    constructor; [by eapply fill_row_valid|by apply IH].
  - apply IH.
Qed.

Lemma read_page_valid call from_id limit l : read_page fr trades call sym from_id limit = Ok l -> Forall fill_valid l.
Proof.
  unfold read_page. intros H. apply bind_Ok in H as ([rows|] & _ & H); [|done].
  apply bind_Ok in H as (? & _ & H). apply bind_Ok in H as (page & Hp & H). apply bind_Ok in H as (? & _ & H).
  apply mret_Ok in H. subst l. by eapply read_rows_valid.
Qed.

Lemma load_pages_valid limit pages : forall call from_id fills l hb, Forall fill_valid fills ->
  load_pages fr trades pages call sym limit from_id fills = Ok (l, hb) -> Forall fill_valid l.
Proof.
  induction pages as [|pages IH]; intros call from_id fills l hb Hf; cbn [load_pages]; [by intros [= <- _]|].
  intros H. apply bind_Ok in H as (page & Hp%read_page_valid & H).
  destruct (existsb _ page); [by injection H as <- _|].
  assert (Forall fill_valid (fills ++ page)) by (by apply Forall_app).
  destruct (_ <? limit); [by injection H as <- _|]. destruct (_ <=? from_id); [by injection H as <- _|].
  by eapply IH.
Qed.

End Loaded.

Lemma _symbol_nonempty raw sym : _symbol raw = Ok sym -> sym <> "".
Proof.
  unfold _symbol. intros H. apply bind_Ok in H as (? & H & Hs). apply mret_Ok in Hs. subst sym.
  apply raise_if_Ok in H. rewrite !orb_false_iff in H. apply String.eqb_neq. tauto.
Qed.

Lemma without_suffix_nonempty quote s base : without_suffix quote s = Some base -> base <> "".
Proof.
  unfold without_suffix. destruct (is_prefix _ _) as [[|c l]|]; [done| |done]. intros [= <-] H.
  apply (f_equal list_ascii_of_string) in H. rewrite list_ascii_string_id in H. rename H into E. apply (f_equal (@length ascii)) in E. rewrite length_app in E. cbn in E. lia.
Qed.

Lemma _assets_nonempty sym base quote : _assets sym = Ok (base, quote) -> base <> "" /\ quote <> "".
Proof.
  unfold _assets. assert (Forall (fun q => q <> "") ["USDT"; "FDUSD"; "USDC"; "BTC"; "ETH"; "BNB"]) as Hall by (repeat constructor; done).
  induction Hall as [|q l Hq _ IH]; cbn [first_quote]; [done|].
  destruct (without_suffix q sym) eqn:E; [|exact IH]. intros [= <- <-]. split; [by eapply without_suffix_nonempty|done].
Qed.

(** ** Properties *)

(** C30: paging is complete.  Against a reader that serves a history of trades
    with increasing ids page by page, the loaded fills are the whole history
    without a blocker when it is shorter than the pages allow, and otherwise
    its first part with the blocker that says so. *)
Theorem history_complete fr trades s sym limit h : 1 <= limit ->
  pages_history trades sym h -> Forall (row_reads fr sym) h -> ids_from 0 h ->
  let allowed := (Z.to_nat (maximum_history_pages s) * Z.to_nat limit)%nat in
  _load_trade_history fr trades s sym limit =
    Ok (if (length h <? allowed)%nat then (fills_of h, [])
        else (fills_of (firstn allowed h), ["TRADE_HISTORY_PAGE_LIMIT_REACHED"])).
Proof.
  intros Hl Hp Hr Hi allowed. unfold _load_trade_history.
  change (@nil SpotTradeFill) with (fills_of []). by rewrite (load_pages_history _ _ _ _ Hl _ 0 [] h).
Qed.

(** C29: the reconstructed holding is exact on the grid.  Whatever the reader
    answered, if the wallet, the loaded quantities and the fees are multiples of
    10^-8, and the wallet and the sum of the quantities and fees stay below
    10^20, then no quantity was rounded: the reported one is the balance of the
    distinct fills in time order, and there is an average cost unless it is
    zero.  The blockers are exactly, in this order and each once, those of the
    load, then fill by fill a repeated trade id, a fee in a third asset, a
    purchase that nets nothing and a sale beyond the holding of that moment,
    then a wallet that differs by more than 10^-8 and an empty history; so the
    report is free of them iff none of these happened.  Otherwise an arithmetic
    signal or the refusal of a negative average is raised. *)
Theorem holding_exact fr trades s raw sym base quote wallet limit fills hb :
  _symbol raw = Ok sym -> _assets sym = Ok (base, quote) -> 1 <= limit <= 1000 ->
  (0 <= dval wallet < grid_bound)%Q -> on_grid (dval wallet) ->
  _load_trade_history fr trades s sym limit = Ok (fills, hb) ->
  Forall (fun f => on_grid (dval (quantity f)) /\ on_grid (dval (commission f))) fills ->
  (volume (py_sorted fill_leb fills) < grid_bound)%Q ->
  match evaluate fr trades s raw (Finite wallet) limit with
  | Ok r => reports base quote wallet fills hb r
  | Raise e => is_arithmetic_error e = true \/ e = ValueError "average cost is invalid"
  end.
Proof.
  intros Hs Ha Hl [Hw1 Hw2] Hg Hload Hgrid Hv. unfold evaluate. rewrite Hs. cbn [mbind res_bind]. rewrite Ha.
  cbn [mbind res_bind]. rewrite (proj2 (dltb_false wallet ZERO)) by (by rewrite dval_ZERO).
  assert ((1 <=? limit) && (limit <=? 1000) = true) as -> by (zify_bool; lia).
  cbn [negb raise_if mbind res_bind]. rewrite Hload. cbn [mbind res_bind].
  apply _assets_nonempty in Ha as [Hb Hq]. apply report_of_spec; try done; [by eapply _symbol_nonempty|].
  apply load_pages_valid in Hload; [|constructor]. rewrite List.Forall_forall in Hload, Hgrid |- *.
  intros f Hf. destruct (Hload f Hf), (Hgrid f Hf). by split.
Qed.

(** ** Examples *)

Definition ex_row (id : Z) (price qty quote fee asset : string) (buyer : bool) (time : Z) : trade_row :=
  Mapping [("id", Scalar (FInt id)); ("price", Scalar (FStr price)); ("qty", Scalar (FStr qty));
           ("quoteQty", Scalar (FStr quote)); ("commission", Scalar (FStr fee)); ("commissionAsset", Scalar (FStr asset));
           ("isBuyer", Scalar (FBool buyer)); ("time", Scalar (FInt time))].

Definition ex_repr (_ : float) : string := "1.5".

Definition ex_rows : list trade_row :=
  [ex_row 3 "100.00" "1.00000000" "100.00" "0.001" "BTC" true 10;
   ex_row 5 "110.00" "0.50000000" "55.00" "0.05" "usdt" false 20;
   ex_row 9 "120.00" "0.25000000" "30.00" "0" "BNB" true 30].

Definition history_of (rows : list trade_row) : history :=
  match read_rows ex_repr "BTCUSDT" rows with Ok l => combine rows l | Raise _ => [] end.

Definition ex_history : history := history_of ex_rows.

Definition ex_trades (h : history) (_ : nat) (_ : string) (from_id limit : Z) : res trade_payload :=
  Ok (Rows (map fst (firstn (Z.to_nat limit) (List.filter (fun e => from_id <=? trade_id e.2) h)))).

Definition ex_service : CostBasisService := mk_service 2.

Lemma combine_reads fr sym rows : forall l, (forall r, In r rows -> r <> NotMapping) ->
  read_rows fr sym rows = Ok l -> Forall (row_reads fr sym) (combine rows l).
Proof.
  induction rows as [|[fields|] rows IH]; intros l Hm H; [constructor| |by destruct (Hm _ (or_introl eq_refl))].
  cbn [read_rows] in H. apply bind_Ok in H as (f & Hf & H). apply bind_Ok in H as (l' & Hl & H). apply mret_Ok in H. subst l.
  cbn [combine]. constructor; [by exists fields|]. apply IH; [|done]. intros r Hr. apply Hm. by right.
Qed.

Lemma ex_history_reads : Forall (row_reads ex_repr "BTCUSDT") ex_history.
Proof.
  unfold ex_history, history_of. destruct (read_rows _ _ _) eqn:E; [|constructor].
  apply combine_reads; [|done]. intros r [<-|[<-|[<-|[]]]]; done.
Qed.

Lemma history_complete_witness :
  _load_trade_history ex_repr (ex_trades ex_history) ex_service "BTCUSDT" 2 = Ok (fills_of ex_history, []).
Proof.
  apply (history_complete ex_repr (ex_trades ex_history) ex_service "BTCUSDT" 2 ex_history); [lia|done| |].
  - exact ex_history_reads.
  - vm_compute. repeat split; discriminate.
Defined.

Definition ex_wallet : dec := lit 749 (-3).

Lemma ex_loaded : _load_trade_history ex_repr (ex_trades ex_history) ex_service "BTCUSDT" 2 = Ok (fills_of ex_history, []).
Proof. vm_compute. reflexivity. Qed.

Lemma ex_grid : Forall (fun f => on_grid (dval (quantity f)) /\ on_grid (dval (commission f))) (fills_of ex_history).
Proof. apply grid_exponents. vm_compute. reflexivity. Qed.

Lemma holding_exact_witness :
  match evaluate ex_repr (ex_trades ex_history) ex_service " btcusdt" (Finite ex_wallet) 2 with
  | Ok r => reports "BTC" "USDT" ex_wallet (fills_of ex_history) [] r
  | Raise e => is_arithmetic_error e = true \/ e = ValueError "average cost is invalid"
  end.
Proof.
  apply (holding_exact ex_repr (ex_trades ex_history) ex_service " btcusdt" "BTCUSDT" "BTC" "USDT" ex_wallet 2).
  - vm_compute. reflexivity.
  - vm_compute. reflexivity.
  - lia.
  - split; [vm_compute; discriminate|vm_compute; reflexivity].
  - by apply on_grid_dec.
  - exact ex_loaded.
  - exact ex_grid.
  - vm_compute. reflexivity.
Defined.

(** The report of the example: the fee in BNB of the last fill is zero. *)
Lemma ex_report : exists r, evaluate ex_repr (ex_trades ex_history) ex_service " btcusdt" (Finite ex_wallet) 2 = Ok r /\
  blockers r = [] /\ deqb (report_quantity r) ex_wallet = true.
Proof. eexists. split; [vm_compute; reflexivity|]. split; vm_compute; reflexivity. Qed.

(** The cost is not reset when the holding is sold out: what rounding left of
    it, here [-10^-27], makes the average of a later purchase negative, and
    the evaluation is refused although every trade is valid. *)
Definition residue_rows : list trade_row :=
  [ex_row 1 "0.14285714" "14" "2" "0" "USDT" true 10;
   ex_row 2 "0.14285714" "14" "2" "0" "USDT" false 20;
   ex_row 3 "0.00000001" "0.1" "0.00000000" "0" "USDT" true 30].

Lemma residue_spoils_average :
  evaluate ex_repr (fun _ _ _ _ => Ok (Rows residue_rows)) ex_service "ABCUSDT" (Finite (lit 1 (-1))) 10 =
    Raise (ValueError "average cost is invalid").
Proof. vm_compute. reflexivity. Qed.
