(* ===== verification/PublicStream.v ===== *)
(** [exchange/public_stream.py]: the parser of Binance's public kline messages
    and the ingestor that drives the stream recovery machine with them and
    decides which closed klines become decision candles.  A raw message is the
    list of its bytes. *)
From S2P Require Import Prelude PyDecimal DecimalFacts DecimalText PyFloat PyText Sha256 JsonText Events StreamRecovery Paper.
From Stdlib Require Import QArith Floats.SpecFloat Lqa Sorted.
Local Open Scope Z_scope.
Local Open Scope bool_scope.

Definition SUPPORTED_DECISION_INTERVALS : list string := ["1m"; "5m"; "15m"; "1h"; "4h"; "1d"].

(** [data/timeframes.py] *)
Definition _TIMEFRAME_SECONDS : list (string * Z) :=
  [("1s", 1); ("1m", 60); ("3m", 180); ("5m", 300); ("15m", 900); ("30m", 1800); ("1h", 3600); ("2h", 7200);
   ("4h", 14400); ("6h", 21600); ("8h", 28800); ("12h", 43200); ("1d", 86400); ("3d", 259200); ("1w", 604800);
   ("1M", 2592000)].

(** [timeframe_duration], in microseconds *)
Definition timeframe_duration (timeframe : string) : res Z :=
  match dict_get String.eqb timeframe _TIMEFRAME_SECONDS with
  | Some n => Ok (seconds n)
  | None => Raise (ValueError ("unsupported timeframe: " ++ timeframe))
  end.

(** ** Messages *)

Record BinanceSpotStreamPolicy : Type := mk_stream_policy {
  maximum_message_bytes : Z;
  maximum_streams_per_connection : Z;
  maximum_control_messages_per_second : Z;
  pong_deadline : Z
}.

(** [BinanceSpotStreamPolicy.__post_init__] *)
Definition new_stream_policy (p : BinanceSpotStreamPolicy) : res BinanceSpotStreamPolicy :=
  raise_if ((Z.min (maximum_message_bytes p)
               (Z.min (maximum_streams_per_connection p) (maximum_control_messages_per_second p)) <? 1)
            || (pong_deadline p <=? 0))
    (ValueError "Binance Spot stream policy is invalid");;
  mret p.

Definition default_stream_policy : BinanceSpotStreamPolicy := mk_stream_policy 65536 1024 5 (seconds 60).

(** [BinanceSpotStreamPolicy.validate_subscriptions] *)
Definition validate_subscriptions (p : BinanceSpotStreamPolicy) (subscriptions : list string) : res unit :=
  raise_if (is_nil subscriptions
            || (maximum_streams_per_connection p <? Z.of_nat (length subscriptions))
            || negb (all_unique String.eqb subscriptions)
            || existsb (fun s => String.eqb s "" || negb (String.eqb s (lower s))) subscriptions)
    (ValueError "stream subscriptions must be unique bounded lowercase text").

Record SpotKlineUpdate : Type := mk_kline {
  event_time : datetime;
  k_symbol : string;
  interval : string;
  open_time : datetime;
  close_time : datetime;
  first_trade_id : Z;
  last_trade_id : Z;
  k_open : dec;
  k_high : dec;
  k_low : dec;
  k_close : dec;
  k_volume : dec;
  trade_count : Z;
  is_closed : bool
}.

Definition dt_add (d : datetime) (us : Z) : datetime := mk_datetime (dt_local d + us) (dt_offset d).

(** [SpotKlineUpdate.__post_init__], on finite decimals *)
Definition new_kline (k : SpotKlineUpdate) : res SpotKlineUpdate :=
  raise_if (existsb naive [event_time k; open_time k; close_time k]) (ValueError "kline timestamps must be timezone-aware");;
  raise_if (String.eqb (k_symbol k) "" || negb (String.eqb (k_symbol k) (upper (k_symbol k)))
            || negb (isascii (k_symbol k)) || negb (isalnum (k_symbol k)))
    (ValueError "kline symbol must be normalized ASCII text");;
  raise_if (negb (str_in (interval k) SUPPORTED_DECISION_INTERVALS)) (ValueError "kline interval is unsupported");;
  duration ← timeframe_duration (interval k);
  let expected_close := dt_add (dt_add (open_time k) duration) (-1000) in
  raise_if (negb (dt_eqb (close_time k) expected_close) || dt_ltb (event_time k) (open_time k)
            || is_closed k && dt_ltb (event_time k) (close_time k))
    (ValueError "kline time bounds are invalid");;
  raise_if (existsb (fun v => dltb v ZERO) [k_open k; k_high k; k_low k; k_close k; k_volume k])
    (ValueError "kline values must be finite and non-negative");;
  raise_if (dltb (dmin (k_open k) (k_close k)) (k_low k) || dltb (k_high k) (dmax (k_open k) (k_close k)))
    (ValueError "kline OHLC relationship is invalid");;
  let no_trades := trade_count k =? 0 in
  raise_if ((trade_count k <? 0) || no_trades && (negb (first_trade_id k =? -1) || negb (last_trade_id k =? -1)))
    (ValueError "empty kline trade lineage is invalid");;
  raise_if (negb no_trades && ((first_trade_id k <? 0) || (last_trade_id k <? first_trade_id k)))
    (ValueError "kline trade lineage is invalid");;
  mret k.

(** [SpotKlineUpdate.sequence_bounds] *)
Definition sequence_bounds (k : SpotKlineUpdate) : option (Z * Z) :=
  if trade_count k =? 0 then None else Some (first_trade_id k, last_trade_id k).

(** [SpotKlineUpdate.as_candle] *)
Definition as_candle (k : SpotKlineUpdate) : res OHLCVCandle :=
  raise_if (negb (is_closed k)) (ValueError "open kline cannot become a decision candle");;
  new_candle (mk_candle (open_time k) (k_open k) (k_high k) (k_low k) (k_close k) (k_volume k)).

Definition epoch : Z := seconds 62135596800.

(** [int(t.timestamp() * 1_000)] *)
Definition timestamp_ms (t : datetime) : res Z :=
  s ← total_seconds (instant t - epoch);
  mret (float_trunc (fmul s (float_of 1000 0))).

(** [SpotKlineUpdate.to_domain_event] *)
Definition to_domain_event (k : SpotKlineUpdate) (sequence : Z) (previous_hash : string) : res DomainEvent :=
  raise_if (negb (is_closed k)) (ValueError "open kline cannot be journaled as closed");;
  ms ← timestamp_ms (open_time k);
  create_event ("binance:" ++ k_symbol k ++ ":" ++ interval k ++ ":" ++ str_int ms)
    ("market:" ++ k_symbol k ++ ":" ++ interval k) "SPOT_KLINE_CLOSED" sequence (event_time k)
    [("close", str_decimal (k_close k)); ("close_time", isoformat (close_time k));
     ("first_trade_id", str_int (first_trade_id k)); ("high", str_decimal (k_high k));
     ("interval", interval k); ("last_trade_id", str_int (last_trade_id k)); ("low", str_decimal (k_low k));
     ("open", str_decimal (k_open k)); ("open_time", isoformat (open_time k)); ("symbol", k_symbol k);
     ("trade_count", str_int (trade_count k)); ("volume", str_decimal (k_volume k))] previous_hash.

Inductive SpotStreamMessage : Type :=
| Kline (k : SpotKlineUpdate)
| SpotStreamServerShutdown (at_ : datetime).

(** ** Parsing *)

Definition _mapping (value : json) (name : string) : res (list (string * json)) :=
  match value with JObj ps => Ok ps | _ => Raise (ExchangePayloadError (name ++ " must be an object")) end.

Definition _text (value : json) (name : string) : res string :=
  match value with
  | JStr s => if String.eqb s "" then Raise (ExchangePayloadError (name ++ " must be non-empty text")) else Ok s
  | _ => Raise (ExchangePayloadError (name ++ " must be non-empty text"))
  end.

Definition _integer (value : json) (name : string) : res Z :=
  match value with JInt n => Ok n | _ => Raise (ExchangePayloadError (name ++ " must be an integer")) end.

(** [datetime.fromtimestamp(milliseconds / 1_000, tz=UTC)]: before [2**32]
    seconds the float quotient is within a quarter of a microsecond, so its
    rounding is exact; later instants leave the model. *)
Definition _milliseconds (value : json) (name : string) : res datetime :=
  milliseconds ← _integer value name;
  raise_if (milliseconds <? 0) (ExchangePayloadError (name ++ " must be non-negative"));;
  raise_if (4294967296000 <=? milliseconds) (Unmodelled "far timestamp");;
  mret (utc (epoch + milliseconds * 1000)).

Definition _decimal (value : json) (name : string) : res dec :=
  match match value with JStr s => Some s | JInt n => Some (str_int n) | _ => None end with
  | None => Raise (ExchangePayloadError (name ++ " must be numeric text"))
  | Some s =>
      match parse_decimal s with
      | None => Raise (ExchangePayloadError (name ++ " must be decimal-compatible"))
      | Some (Finite d) => Ok d
      | Some _ => Raise (ExchangePayloadError (name ++ " must be finite"))
      end
  end.

Definition _boolean (value : json) (name : string) : res bool :=
  match value with JBool b => Ok b | _ => Raise (ExchangePayloadError (name ++ " must be boolean")) end.

(** [payload.get(key)] *)
Definition get_json (fields : list (string * json)) (key : string) : json :=
  default JNull (dict_get String.eqb key fields).

(** The construction of the update in [parse]. *)
Definition kline_of (event_time : datetime) (sym : string) (fields : list (string * json)) : res SpotKlineUpdate :=
  let kline := get_json fields in
  i ← _text (kline "i") "interval";
  t ← _milliseconds (kline "t") "open time";
  tc ← _milliseconds (kline "T") "close time";
  f ← _integer (kline "f") "first trade ID";
  l ← _integer (kline "L") "last trade ID";
  o ← _decimal (kline "o") "open";
  h ← _decimal (kline "h") "high";
  lo ← _decimal (kline "l") "low";
  c ← _decimal (kline "c") "close";
  v ← _decimal (kline "v") "volume";
  n ← _integer (kline "n") "trade count";
  x ← _boolean (kline "x") "closed";
  new_kline (mk_kline event_time sym i t tc f l o h lo c v n x).

Definition is_json_error (e : exn) : bool :=
  match e with ValueError m => String.eqb m "JSONDecodeError" | _ => false end.

(** [BinanceSpotKlineParser.parse] after the envelope was opened. *)
Definition parse_payload (stream_name : option string) (payload : list (string * json)) : res SpotStreamMessage :=
  event_type ← _text (get_json payload "e") "event type";
  event_time ← _milliseconds (get_json payload "E") "event time";
  if String.eqb event_type "serverShutdown" then mret (SpotStreamServerShutdown event_time)
  else
    raise_if (negb (String.eqb event_type "kline")) (ExchangePayloadError "unsupported public stream event");;
    kline ← _mapping (get_json payload "k") "kline";
    sym ← _text (get_json payload "s") "symbol";
    kline_sym ← _text (get_json kline "s") "kline symbol";
    raise_if (negb (String.eqb kline_sym sym)) (ExchangePayloadError "kline symbol identity mismatch");;
    update ← catch (kline_of event_time sym kline) is_value_error
               (fun _ => Raise (ExchangePayloadError "kline payload contract is invalid"));
    let expected_stream := (lower (k_symbol update) ++ "@kline_" ++ interval update)%string in
    raise_if (match stream_name with Some s => negb (String.eqb s expected_stream) | None => false end)
      (ExchangePayloadError "combined stream identity mismatch");;
    mret (Kline update).

(** [BinanceSpotKlineParser.parse] *)
Definition parse (p : BinanceSpotStreamPolicy) (encoded : list ascii) : res SpotStreamMessage :=
  raise_if (is_nil encoded || (maximum_message_bytes p <? Z.of_nat (length encoded)))
    (ExchangePayloadError "stream message size is invalid");;
  decoded ← catch (loads encoded) is_json_error
              (fun _ => Raise (ExchangePayloadError "stream message is invalid JSON"));
  envelope ← _mapping decoded "stream message";
  if dict_mem String.eqb "stream" envelope || dict_mem String.eqb "data" envelope then
    stream_name ← _text (get_json envelope "stream") "stream";
    payload ← _mapping (get_json envelope "data") "data";
    parse_payload (Some stream_name) payload
  else parse_payload None envelope.

(** ** Ingestion *)

Record KlineIngestResult : Type := mk_ingest_result {
  in_transition : StreamTransition;
  update : option SpotKlineUpdate;
  candle : option OHLCVCandle;
  in_blockers : list string;
  decision_eligible : bool
}.

Definition is_some {A} (o : option A) : bool := match o with Some _ => true | None => false end.

(** [KlineIngestResult.__post_init__], with the default execution flag *)
Definition new_ingest_result (r : KlineIngestResult) : res KlineIngestResult :=
  raise_if (negb (Bool.eqb (decision_eligible r) (is_some (candle r) && is_nil (in_blockers r))))
    (ValueError "kline decision eligibility must fail closed");;
  mret r.

Record PublicKlineIngestor : Type := mk_ingestor {
  in_symbol : string;
  in_interval : string;
  recovery : stream;
  parser_policy : BinanceSpotStreamPolicy;
  _latest_closed_at : option datetime
}.

(** [PublicKlineIngestor(...)] *)
Definition new_ingestor (sym inter : string) (r : stream) (p : BinanceSpotStreamPolicy) : res PublicKlineIngestor :=
  let normalized := normalize sym in
  raise_if (String.eqb normalized "" || negb (isascii normalized) || negb (isalnum normalized)
            || negb (str_in inter SUPPORTED_DECISION_INTERVALS))
    (ValueError "public kline ingestor identity is invalid");;
  mret (mk_ingestor normalized inter r p None).

Definition with_recovery (r : stream) (x : PublicKlineIngestor) : PublicKlineIngestor :=
  mk_ingestor (in_symbol x) (in_interval x) r (parser_policy x) (_latest_closed_at x).
Definition with_latest (t : datetime) (x : PublicKlineIngestor) : PublicKlineIngestor :=
  mk_ingestor (in_symbol x) (in_interval x) (recovery x) (parser_policy x) (Some t).

(** A call on the ingestor's recovery object. *)
Definition on_recovery {A} (m : method stream A) : method PublicKlineIngestor A :=
  fun x => match m (recovery x) with (r, s) => (r, with_recovery s x) end.

(** [PublicKlineIngestor.bootstrap] *)
Definition bootstrap (snapshot_sequence : Z) (at_ : datetime) : method PublicKlineIngestor StreamTransition :=
  on_recovery start;;
  on_recovery (connected (Some at_));;
  on_recovery (apply_snapshot snapshot_sequence at_).

Definition refuse (t : StreamTransition) (k : option SpotKlineUpdate) (blockers : list string)
  : method PublicKlineIngestor KlineIngestResult :=
  lift (new_ingest_result (mk_ingest_result t k None blockers false)).

(** [PublicKlineIngestor.ingest] of a kline of the ingestor's identity. *)
Definition ingest_kline (message : SpotKlineUpdate) (queue_depth : Z) : method PublicKlineIngestor KlineIngestResult :=
  match sequence_bounds message with
  | None =>
      t ← on_recovery reject_unsequenced_update;
      refuse t (Some message) ["KLINE_TRADE_SEQUENCE_UNAVAILABLE"]
  | Some (first, last) =>
      t ← on_recovery (apply_update first last (event_time message) queue_depth);
      if negb (is_nil (tr_blockers t)) then refuse t (Some message) (tr_blockers t)
      else if negb (is_closed message) then refuse t (Some message) ["OPEN_KLINE_NOT_DECISION_ELIGIBLE"]
      else
        x ← get;
        if match _latest_closed_at x with Some u => dt_leb (close_time message) u | None => false end
        then refuse t (Some message) ["DUPLICATE_OR_OLD_CLOSED_KLINE"]
        else
          modify (with_latest (close_time message));;
          c ← lift (as_candle message);
          lift (new_ingest_result (mk_ingest_result t (Some message) (Some c) [] true))
  end.

(** [PublicKlineIngestor.ingest] *)
Definition ingest (raw_message : list ascii) (queue_depth : Z) : method PublicKlineIngestor KlineIngestResult :=
  x ← get;
  message ← lift (parse (parser_policy x) raw_message);
  match message with
  | SpotStreamServerShutdown _ =>
      t ← on_recovery server_shutdown;
      refuse t None (tr_blockers t)
  | Kline k =>
      if negb (String.eqb (k_symbol k) (in_symbol x)) || negb (String.eqb (interval k) (in_interval x))
      then lift (Raise (ExchangePayloadError "kline stream does not match ingestor identity"))
      else ingest_kline k queue_depth
  end.

(** ** Valid klines and their candles *)

Lemma new_kline_id k k' : new_kline k = Ok k' -> k' = k.
Proof. unfold new_kline. intros H. inv_res. done. Qed.

Lemma parse_valid p raw k : parse p raw = Ok (Kline k) -> new_kline k = Ok k.
Proof.
  assert (forall name payload, parse_payload name payload = Ok (Kline k) -> new_kline k = Ok k) as Hp.
  { intros name payload H. unfold parse_payload in H. do 2 (apply bind_Ok in H as (? & _ & H)).
    destruct (String.eqb _ _); [by apply mret_Ok in H|]. do 5 (apply bind_Ok in H as (? & _ & H)).
    apply bind_Ok in H as (k' & Hk & H). apply bind_Ok in H as (? & _ & H). apply mret_Ok in H. injection H as <-.
    unfold catch in Hk. destruct (kline_of _ _ _) as [k''|e] eqn:E; [|by destruct (is_value_error e)].
    injection Hk as ->. unfold kline_of in E. do 12 (apply bind_Ok in E as (? & _ & E)).
    pose proof E as E'. apply new_kline_id in E' as ->. exact E. }
  unfold parse. intros H. do 3 (apply bind_Ok in H as (? & _ & H)).
  destruct (_ || _); [|by eapply Hp]. do 2 (apply bind_Ok in H as (? & _ & H)). by eapply Hp.
Qed.

(** What a valid kline guarantees. *)
Record kline_ok (k : SpotKlineUpdate) : Prop := mk_kline_ok {
  kl_aware : naive (event_time k) = false /\ naive (open_time k) = false /\ naive (close_time k) = false;
  kl_times : exists d, timeframe_duration (interval k) = Ok d /\ instant (close_time k) = instant (open_time k) + d - 1000;
  kl_nonneg : forall v, In v [k_open k; k_high k; k_low k; k_close k; k_volume k] -> (0 <= dval v)%Q;
  kl_low : (dval (k_low k) <= dval (dmin (k_open k) (k_close k)))%Q;
  kl_high : (dval (dmax (k_open k) (k_close k)) <= dval (k_high k))%Q
}.

Lemma instant_add t d : instant (dt_add t d) = instant t + d.
Proof. unfold instant, dt_add. cbn. lia. Qed.

Lemma new_kline_ok k : new_kline k = Ok k -> kline_ok k.
Proof.
  unfold new_kline. intros H. apply bind_Ok in H as (? & H1%raise_if_Ok & H).
  do 2 (apply bind_Ok in H as (? & _ & H)). apply bind_Ok in H as (d & Hd & H).
  apply bind_Ok in H as (? & H2%raise_if_Ok & H). apply bind_Ok in H as (? & H3%raise_if_Ok & H).
  apply bind_Ok in H as (? & H4%raise_if_Ok & _).
  cbn [existsb] in H1. repeat rewrite orb_false_iff in H1. repeat rewrite orb_false_iff in H2. rewrite orb_false_iff in H4.
  destruct H1 as (A1 & A2 & A3 & _), H2 as [[T _] _], H4 as [L1 L2]. zify_dec.
  apply negb_false_iff in T. unfold dt_eqb in T. rewrite !instant_add in T. apply Z.eqb_eq in T.
  split; [done| |intros v Hv|done|done].
  - exists d. split; [done|lia].
  - assert (dltb v ZERO = false) as Hf; [|apply dltb_false in Hf; by rewrite dval_ZERO in Hf].
    apply not_true_iff_false. intros Ht. apply not_true_iff_false in H3. apply H3, existsb_exists. eauto.
Qed.

Definition candle_of (k : SpotKlineUpdate) : OHLCVCandle :=
  mk_candle (open_time k) (k_open k) (k_high k) (k_low k) (k_close k) (k_volume k).

(** A valid closed kline is a valid candle: [as_candle] never raises after the
    ingestor has recorded its close time. *)
Lemma as_candle_succeeds k : kline_ok k -> is_closed k = true -> as_candle k = Ok (candle_of k).
Proof.
  intros [[_ [Ho _]] _ Hn Hl Hh] Hc. unfold as_candle, new_candle. rewrite Hc.
  fold (candle_of k). cbn [negb raise_if mbind res_bind c_timestamp c_open c_high c_low c_close c_volume candle_of].
  rewrite Ho. cbn [raise_if mbind res_bind].
  rewrite (proj2 (dmin_list_nonneg (k_open k) _)) by (intros x Hx; by apply Hn). cbn [raise_if mbind res_bind].
  destruct (dmin_spec (k_open k) (k_close k)) as (M1 & _). destruct (dmax_spec (k_open k) (k_close k)) as (M2 & _).
  rewrite (proj2 (dltb_false (k_high k) (k_low k))) by lra. cbn [raise_if mbind res_bind].
  by rewrite (proj2 (dltb_false _ _) Hl), (proj2 (dltb_false _ _) Hh).
Qed.

(** ** The recovery machine under an update *)

(** An update that [apply_update] neither refuses nor blocks at position [c]. *)
Definition continues (s : stream) (first last : Z) (t : datetime) (queue : Z) (c : Z) : Prop :=
  state s = LIVE /\ 1 <= first <= last /\ 0 <= queue <= maximum_queue_depth (policy s) /\
  earlier_than t (last_event_at s) = false /\ last_sequence s = Some c /\ first <= c + 1.

Lemma apply_update_cases first last t queue s : naive t = false ->
  match apply_update first last t queue s with
  | (Ok tr, s') =>
      (tr_blockers tr = [] <-> exists c, continues s first last t queue c) /\
      (forall c, continues s first last t queue c -> last_sequence s' = Some (Z.max c last) /\ state s' = LIVE)
  | (Raise e, s') => s' = s /\ forall c, ~ continues s first last t queue c
  end.
Proof.
  intros Ht. unfold apply_update, _result, _result_retry. rewrite require_state_bind. cbn [existsb].
  destruct (bool_decide (state s = LIVE)) eqn:Es; [apply bool_decide_eq_true in Es|apply bool_decide_eq_false in Es]; cbn [orb];
    [|split; [done|]; by intros c (? & _)].
  rewrite validate_bind, Ht.
  destruct (Z.ltb_spec last 1); [split; [done|]; intros c (_ & ? & _); lia|].
  destruct (earlier_than t (last_event_at s)) eqn:Ee; [split; [done|]; intros c (_ & _ & _ & ? & _); congruence|].
  rewrite lift_raise_if_bind.
  destruct ((first <? 1) || (last <? first) || (queue <? 0)) eqn:Eg;
    [split; [done|]; intros c (_ & ? & ? & _); zify_bool; lia|]. zify_bool.
  rewrite get_bind. destruct (Z.ltb_spec (maximum_queue_depth (policy s)) queue).
  { cbn. split; [split; [done|]; intros (c & _ & _ & ? & _); lia|]. intros c (_ & _ & ? & _); lia. }
  destruct (last_sequence s) as [current|] eqn:El; [|cbn; split; [done|]; intros c (_ & _ & _ & _ & ? & _); congruence].
  assert (forall c, continues s first last t queue c <-> c = current /\ first <= current + 1) as Hc.
  { intros c. unfold continues. rewrite El. split.
    - intros (_ & _ & _ & _ & [= <-] & ?). done.
    - intros [-> ?]. do 4 (split; [done || lia|]). done. }
  destruct (Z.ltb_spec last (current + 1)); [|destruct (Z.ltb_spec (current + 1) first)].
  - cbn. split.
    + split; [|done]. intros _. exists current. apply Hc. lia.
    + intros c [-> ?]%Hc. rewrite El. split; [f_equal; lia|done].
  - destruct (maximum_sequence_gap (policy s) <? _); cbn; (split; [split; [done|]|]); [intros (c & [-> ?]%Hc); lia|intros c [-> ?]%Hc; lia
      |intros (c & [-> ?]%Hc); lia|intros c [-> ?]%Hc; lia].
  - cbn. split.
    + split; [|done]. intros _. exists current. apply Hc. lia.
    + intros c [-> ?]%Hc. cbn [last_sequence state with_sequence]. split; [f_equal; lia|done].
Qed.

(** ** Ingesting one kline *)

(** A kline that becomes a decision candle: it is closed and newer than the
    last one, and the recovery machine takes it without a gap. *)
Definition eligible (x : PublicKlineIngestor) (k : SpotKlineUpdate) (queue : Z) : Prop :=
  trade_count k <> 0 /\ is_closed k = true /\
  (forall t, _latest_closed_at x = Some t -> instant t < instant (close_time k)) /\
  exists c, continues (recovery x) (first_trade_id k) (last_trade_id k) (event_time k) queue c.

(** The outcome of a call: a refusal keeps the last close time, an accepted
    candle records it and moves the position of the stream to its last trade. *)
Definition ingested (x : PublicKlineIngestor) (k : SpotKlineUpdate) (queue : Z)
  (o : res KlineIngestResult) (x' : PublicKlineIngestor) : Prop :=
  match o with
  | Ok r =>
      (decision_eligible r = true <-> eligible x k queue) /\
      (decision_eligible r = false -> candle r = None /\ in_blockers r <> [] /\ _latest_closed_at x' = _latest_closed_at x) /\
      (decision_eligible r = true -> update r = Some k /\ candle r = Some (candle_of k) /\ in_blockers r = [] /\
        _latest_closed_at x' = Some (close_time k) /\ state (recovery x') = LIVE /\
        exists c, last_sequence (recovery x) = Some c /\ last_sequence (recovery x') = Some (Z.max c (last_trade_id k)))
  | Raise _ => x' = x /\ ~ eligible x k queue
  end.

Lemma refused x k queue t upd blockers x' : blockers <> [] -> ~ eligible x k queue -> _latest_closed_at x' = _latest_closed_at x ->
  match refuse t upd blockers x' with (o, x'') => ingested x k queue o x'' end.
Proof.
  intros Hb He Hx. unfold refuse, new_ingest_result. cbn. split; [split; [done|tauto]|]. split; [|done]. done.
Qed.

Lemma ingest_kline_spec x k queue : kline_ok k ->
  match ingest_kline k queue x with (o, x') => ingested x k queue o x' end.
Proof.
  intros Hk. unfold ingest_kline, sequence_bounds. destruct (Z.eqb_spec (trade_count k) 0) as [Hz|Hz].
  - rewrite method_bind_run. unfold on_recovery, reject_unsequenced_update. rewrite require_state_bind.
    destruct (existsb _ _); [|split; [by destruct x|by intros [? _]]].
    apply refused; [done|by intros [? _]|done].
  - rewrite method_bind_run. unfold on_recovery.
    pose proof (apply_update_cases (first_trade_id k) (last_trade_id k) (event_time k) queue (recovery x) (proj1 (kl_aware k Hk))) as Hu.
    destruct (apply_update _ _ _ _ _) as [[t|e] s'].
    2:{ destruct Hu as [-> Hu]. split; [by destruct x|]. intros (_ & _ & _ & c & Hc). by apply (Hu c). }
    destruct Hu as [Hb Hs]. destruct (is_nil (tr_blockers t)) eqn:En; cbn [negb];
      [apply is_nil_true in En|apply is_nil_false in En].
    2:{ apply refused; [done| |done]. intros (_ & _ & _ & c & Hc). apply En, Hb. by exists c. }
    destruct (is_closed k) eqn:Ec; cbn [negb]; [|apply refused; [done| |done]; by intros (_ & ? & _); congruence].
    rewrite get_bind. cbn [_latest_closed_at with_recovery].
    destruct (match _latest_closed_at x with Some u => dt_leb (close_time k) u | None => false end) eqn:El.
    { apply refused; [done| |done]. intros (_ & _ & Hl & _). destruct (_latest_closed_at x) as [u|]; [|done].
      specialize (Hl u eq_refl). unfold dt_leb in El. zify_bool. lia. }
    rewrite modify_bind, lift_bind, (as_candle_succeeds k Hk Ec). cbn.
    apply Hb in En as [c Hc]. destruct (Hs c Hc) as [Hp Hl]. split; [|split; [done|]].
    + split; [intros _|done]. split; [done|]. split; [done|]. split; [|by exists c].
      intros u Hu. rewrite Hu in El. unfold dt_leb in El. zify_bool. lia.
    + intros _. do 5 (split; [done|]). exists c. split; [apply Hc|done].
Qed.

(** ** Sequences of calls *)

(** Calls on an ingestor, and on its recovery machine. *)
Inductive action : Type :=
| Ingest (raw : list ascii) (queue : Z)
| Bootstrap (sequence : Z) (at_ : datetime)
| OnRecovery (c : StreamRecovery.call).

Definition step (a : action) (x : PublicKlineIngestor) : list KlineIngestResult * PublicKlineIngestor :=
  match a with
  | Ingest raw queue => match ingest raw queue x with (Ok r, x') => ([r], x') | (Raise _, x') => ([], x') end
  | Bootstrap n t => ([], snd (bootstrap n t x))
  | OnRecovery c => ([], snd (on_recovery (perform c) x))
  end.

(** The results of a sequence of calls; a raising call gives none. *)
Fixpoint run_actions (x : PublicKlineIngestor) (l : list action) : list KlineIngestResult :=
  match l with
  | [] => []
  | a :: l => let '(rs, x') := step a x in rs ++ run_actions x' l
  end.

(** The candles handed to decisions. *)
Definition decided (rs : list KlineIngestResult) : list OHLCVCandle :=
  flat_map (fun r => if decision_eligible r then match candle r with Some c => [c] | None => [] end else []) rs.

(** A result that came from a valid closed kline of the identity, newer than [t]. *)
Definition sound_result (sym inter : string) (latest : option datetime) (r : KlineIngestResult) : Prop :=
  decision_eligible r = true -> exists k, update r = Some k /\ kline_ok k /\ is_closed k = true /\
    k_symbol k = sym /\ interval k = inter /\ candle r = Some (candle_of k) /\ in_blockers r = [] /\
    forall t, latest = Some t -> instant t < instant (close_time k).

Definition same_identity (x x' : PublicKlineIngestor) : Prop :=
  in_symbol x' = in_symbol x /\ in_interval x' = in_interval x.

Lemma on_recovery_frame {A} (m : method stream A) x :
  let x' := snd (on_recovery m x) in same_identity x x' /\ _latest_closed_at x' = _latest_closed_at x.
Proof. unfold on_recovery. destruct (m (recovery x)). done. Qed.

Lemma bootstrap_frame n t x :
  let x' := snd (bootstrap n t x) in same_identity x x' /\ _latest_closed_at x' = _latest_closed_at x.
Proof.
  unfold bootstrap. rewrite method_bind_run. pose proof (on_recovery_frame start x) as H1.
  destruct (on_recovery start x) as [[?|?] x1]; cbn in *; [|done]. rewrite method_bind_run.
  pose proof (on_recovery_frame (connected (Some t)) x1) as H2.
  destruct (on_recovery (connected (Some t)) x1) as [[?|?] x2]; cbn in *; unfold same_identity in *;
    [|intuition congruence].
  pose proof (on_recovery_frame (apply_snapshot n t) x2) as H3.
  destruct (on_recovery (apply_snapshot n t) x2) as [? x3]; cbn in *; unfold same_identity in *; intuition congruence.
Qed.

Lemma ingest_kline_frame k queue x : let x' := snd (ingest_kline k queue x) in same_identity x x'.
Proof.
  unfold ingest_kline. destruct (sequence_bounds k) as [[f l]|]; rewrite method_bind_run; cbv zeta.
  - pose proof (on_recovery_frame (apply_update f l (event_time k) queue) x) as [H _].
    destruct (on_recovery _ x) as [[t|e] x1]; cbn [snd] in *; [|done].
    destruct (negb (is_nil _)); [done|]. destruct (negb (is_closed k)); [done|]. rewrite get_bind.
    destruct (match _latest_closed_at x1 with Some _ => _ | None => _ end); [done|].
    rewrite modify_bind, lift_bind. by destruct (as_candle k).
  - pose proof (on_recovery_frame reject_unsequenced_update x) as [H _].
    by destruct (on_recovery _ x) as [[t|e] x1].
Qed.

(** One call: the identity stays, and its result is sound. *)
Lemma step_sound a x : let '(rs, x') := step a x in
  same_identity x x' /\ Forall (sound_result (in_symbol x) (in_interval x) (_latest_closed_at x)) rs /\
  ((decided rs = [] /\ _latest_closed_at x' = _latest_closed_at x) \/
   exists k, rs <> [] /\ decided rs = [candle_of k] /\ kline_ok k /\ interval k = in_interval x /\
     _latest_closed_at x' = Some (close_time k) /\
     forall t, _latest_closed_at x = Some t -> instant t < instant (close_time k)).
Proof.
  destruct a as [raw queue|n t|c]; cbn [step].
  2:{ pose proof (bootstrap_frame n t x) as [H1 H2]. split; [done|]. split; [constructor|by left]. }
  2:{ pose proof (on_recovery_frame (perform c) x) as [H1 H2]. split; [done|]. split; [constructor|by left]. }
  unfold ingest. rewrite get_bind, lift_bind. destruct (parse _ raw) as [[k|t]|e] eqn:Ep; [| |by repeat split; [constructor|left]].
  - destruct (negb (String.eqb (k_symbol k) _) || _) eqn:Ei; [by repeat split; [constructor|left]|].
    rewrite orb_false_iff, !negb_false_iff, !String.eqb_eq in Ei. destruct Ei as [Es Ei].
    apply parse_valid, new_kline_ok in Ep. pose proof (ingest_kline_frame k queue x) as Hid.
    pose proof (ingest_kline_spec x k queue Ep) as Hs. destruct (ingest_kline k queue x) as [[r|e] x']; cbn in Hid, Hs.
    2:{ destruct Hs as [-> _]. split; [done|]. split; [constructor|by left]. }
    destruct Hs as (H1 & H2 & H3). split; [done|]. destruct (decision_eligible r) eqn:Ed.
    + destruct (H3 eq_refl) as (U & C & B & L & _). destruct (proj1 H1 eq_refl) as (_ & Hc & Hl & _). split.
      * constructor; [|constructor]. intros _. exists k. tauto.
      * right. exists k. unfold decided. cbn [flat_map]. rewrite Ed, C. done.
    + destruct (H2 eq_refl) as (_ & _ & L). split; [constructor; [|constructor]; unfold sound_result; congruence|].
      left. unfold decided. cbn [flat_map]. by rewrite Ed.
  - rewrite method_bind_run. pose proof (on_recovery_frame server_shutdown x) as [H1 H2].
    destruct (on_recovery server_shutdown x) as [[r|e] x1]; cbn [snd] in *;
      [|split; [done|split; [constructor|by left]]].
    unfold refuse. cbn. split; [done|]. split; [constructor; [done|constructor]|by left].
Qed.

Lemma run_ordered inter d l : timeframe_duration inter = Ok d -> forall x, in_interval x = inter ->
  StronglySorted (fun a b => instant (c_timestamp a) < instant (c_timestamp b)) (decided (run_actions x l)) /\
  forall t c, _latest_closed_at x = Some t -> In c (decided (run_actions x l)) -> instant t < instant (c_timestamp c) + d - 1000.
Proof.
  intros Hd. induction l as [|a l IH]; intros x Hx; [split; [constructor|done]|].
  cbn [run_actions]. pose proof (step_sound a x) as Hs. destruct (step a x) as [rs x'].
  destruct Hs as ([_ Hi] & _ & Hs). rewrite Hx in Hi. destruct (IH x' Hi) as [IH1 IH2].
  unfold decided. rewrite flat_map_app. fold (decided rs) (decided (run_actions x' l)).
  destruct Hs as [[-> Hl]|(k & _ & -> & Hk & Hint & Hl & Hnew)]; cbn [app].
  - rewrite Hl in IH2. by split.
  - destruct (kl_times k Hk) as (d' & Hd' & Ht). rewrite Hint, Hx, Hd in Hd'. injection Hd' as <-. split.
    + constructor; [done|]. apply List.Forall_forall. intros c Hc. specialize (IH2 _ c Hl Hc). cbn [c_timestamp candle_of]. lia.
    + intros t c Hlt [<-|Hc]; [specialize (Hnew t Hlt); cbn [c_timestamp candle_of]; lia|].
      specialize (IH2 _ c Hl Hc). specialize (Hnew t Hlt). lia.
Qed.

Lemma run_sound l : forall x, Forall (sound_result (in_symbol x) (in_interval x) None) (run_actions x l).
Proof.
  induction l as [|a l IH]; intros x; [constructor|]. cbn [run_actions]. pose proof (step_sound a x) as Hs.
  destruct (step a x) as [rs x']. destruct Hs as ([H1 H2] & Hr & _). apply Forall_app. split.
  - eapply Forall_impl; [exact Hr|]. intros r H Hd. destruct (H Hd) as (k & A1 & A2 & A3 & A4 & A5 & A6 & A7 & _).
    by exists k.
  - rewrite <- H1, <- H2. apply IH.
Qed.

Lemma supported_duration inter : str_in inter SUPPORTED_DECISION_INTERVALS = true -> exists d, timeframe_duration inter = Ok d.
Proof.
  unfold str_in, SUPPORTED_DECISION_INTERVALS. intros (i & Hi & ->%String.eqb_eq)%existsb_exists.
  destruct Hi as [<-|[<-|[<-|[<-|[<-|[<-|[]]]]]]]; by eexists.
Qed.

(** ** Properties *)

(** Which klines become decision candles.  For a message that parses to a
    kline of the ingestor's identity, the call returns a candle (the kline's
    own values) exactly when the kline is closed, has trades, is newer than the
    last accepted one, and continues the LIVE stream without a gap; the stream
    then stands at the later of its position and the last trade.  Every other
    result is blocked and keeps the last close time, and a call that raises
    changes nothing. *)
Theorem kline_eligibility_exact x raw k queue : parse (parser_policy x) raw = Ok (Kline k) ->
  k_symbol k = in_symbol x -> interval k = in_interval x ->
  match ingest raw queue x with (o, x') => ingested x k queue o x' end.
Proof.
  intros Hp Hs Hi. unfold ingest. rewrite get_bind, lift_bind, Hp, Hs, Hi, !String.eqb_refl. cbn [negb orb].
  by apply ingest_kline_spec, new_kline_ok, (parse_valid _ _ _ Hp).
Qed.

(** C31: decision candles never repeat or go back.  Over any sequence of
    messages, reconnections and recovery calls, accepted or raising, the
    candles an ingestor hands to decisions have strictly increasing times, and
    each comes, without a blocker, from a valid closed kline of the
    ingestor's symbol and interval. *)
Theorem candles_in_order sym inter r p x l : new_ingestor sym inter r p = Ok x ->
  StronglySorted (fun a b => instant (c_timestamp a) < instant (c_timestamp b)) (decided (run_actions x l)) /\
  Forall (sound_result (normalize sym) inter None) (run_actions x l).
Proof.
  unfold new_ingestor. intros H. apply bind_Ok in H as (? & H%raise_if_Ok & Hx). apply mret_Ok in Hx. subst x.
  apply orb_false_iff in H as [_ H%negb_false_iff]. destruct (supported_duration inter H) as [d Hd].
  split; [by eapply run_ordered|]. apply (run_sound l (mk_ingestor (normalize sym) inter r p None)).
Qed.

(** ** Examples *)

Definition ex_start : Z := 1700000040000.

(** The kline message of a minute, with its last trades. *)
Definition ex_message (minute first last trades : Z) (closed : bool) : list ascii :=
  let t := ex_start + minute * 60000 in
  dump (JObj [("e", JStr "kline"); ("E", JInt (t + 60000)); ("s", JStr "BTCUSDT");
    ("k", JObj [("t", JInt t); ("T", JInt (t + 59999)); ("s", JStr "BTCUSDT"); ("i", JStr "1m"); ("f", JInt first);
      ("L", JInt last); ("o", JStr "100.5"); ("h", JStr "101"); ("l", JStr "99.75"); ("c", JStr "100"); ("v", JStr "2.50");
      ("n", JInt trades); ("x", JBool closed)])]).

Definition ex_at : datetime := utc (epoch + ex_start * 1000).
Definition ex_ingestor : PublicKlineIngestor :=
  mk_ingestor "BTCUSDT" "1m" (new_stream default_policy) default_stream_policy None.

Definition ex_actions : list action :=
  [Bootstrap 10 ex_at; Ingest (ex_message 0 5 14 10 true) 0; Ingest (ex_message 0 5 14 10 true) 0;
   Ingest (ex_message 1 15 15 1 false) 0; Ingest (ex_message 1 15 17 3 true) 0; Ingest (ex_message 2 30 31 2 true) 0;
   OnRecovery BeginBackfill; OnRecovery (ApplySnapshot 40 (utc (epoch + (ex_start + 400000) * 1000)));
   Ingest (ex_message 6 35 41 7 true) 0].

(** Three klines become candles; the repeated one and the one behind a gap do not. *)
Example ex_decided : map (fun c => (instant (c_timestamp c) - epoch) / 60000000) (decided (run_actions ex_ingestor ex_actions)) =
  map (fun m => ex_start / 60000 + m) [0; 1; 6].
Proof. vm_compute. reflexivity. Qed.

Lemma candles_in_order_witness : length (decided (run_actions ex_ingestor ex_actions)) = 3%nat /\
  StronglySorted (fun a b => instant (c_timestamp a) < instant (c_timestamp b)) (decided (run_actions ex_ingestor ex_actions)).
Proof.
  split; [vm_compute; reflexivity|].
  exact (proj1 (candles_in_order " btcusdt" "1m" (new_stream default_policy) default_stream_policy ex_ingestor ex_actions eq_refl)).
Defined.

Definition ex_live : PublicKlineIngestor := snd (bootstrap 10 ex_at ex_ingestor).

Definition ex_kline : SpotKlineUpdate :=
  mk_kline (utc (epoch + (ex_start + 60000) * 1000)) "BTCUSDT" "1m" (utc (epoch + ex_start * 1000))
    (utc (epoch + (ex_start + 59999) * 1000)) 5 14 (lit 1005 (-1)) (lit 101 0) (lit 9975 (-2)) (lit 100 0) (lit 250 (-2)) 10 true.

Lemma ex_parsed : parse (parser_policy ex_live) (ex_message 0 5 14 10 true) = Ok (Kline ex_kline).
Proof. vm_compute. reflexivity. Qed.

Lemma kline_eligibility_exact_witness :
  match ingest (ex_message 0 5 14 10 true) 0 ex_live with (o, x') => ingested ex_live ex_kline 0 o x' end.
Proof.
  exact (kline_eligibility_exact ex_live (ex_message 0 5 14 10 true) ex_kline 0 ex_parsed eq_refl eq_refl).
Defined.

(** The event id of a kline names its open time in milliseconds, through a
    float product that is truncated: for an open time off the whole second it
    can be one millisecond early. *)
Lemma event_id_truncated : timestamp_ms (utc (epoch + 2163044555936 * 1000)) = Ok 2163044555935.
Proof. vm_compute. reflexivity. Qed.
