(* ===== verification/MarketClient.v ===== *)
(** [exchange/client.py] and [exchange/models.py]: the public market client.
    Every answer of the transport is a parameter; the client checks its shape
    and turns it into prices, symbol metadata and klines.  Floats and other
    values the decoder of the model refuses do not occur in a payload. *)
From S2P Require Import Prelude PyDecimal DecimalFacts DecimalText PyText JsonText Filters Paper PublicStream.
From Stdlib Require Import QArith Lqa.
Local Open Scope Z_scope.
Local Open Scope bool_scope.

Definition SUPPORTED_INTERVALS : list string :=
  ["1s"; "1m"; "3m"; "5m"; "15m"; "30m"; "1h"; "2h"; "4h"; "6h"; "8h"; "12h"; "1d"; "3d"; "1w"; "1M"].

(** ** Models *)

Record BookTicker : Type := mk_book_ticker { bid : dec; ask : dec }.

(** [BookTicker.__post_init__] *)
Definition new_book_ticker (b : BookTicker) : res BookTicker :=
  raise_if (dltb (bid b) ZERO || dltb (ask b) ZERO) (ValueError "bid and ask cannot be negative");;
  raise_if (dltb (ask b) (bid b)) (ValueError "bid cannot exceed ask");;
  mret b.

(** [BookTicker.spread] *)
Definition spread (b : BookTicker) : res dec := dsub (ask b) (bid b).

Record MarketKline : Type := mk_market_kline {
  mk_open_time : datetime; mk_close_time : datetime;
  mk_open : dec; mk_high : dec; mk_low : dec; mk_close : dec; mk_volume : dec
}.

(** [MarketKline.to_candle] *)
Definition to_candle (k : MarketKline) : res OHLCVCandle :=
  new_candle (mk_candle (mk_open_time k) (mk_open k) (mk_high k) (mk_low k) (mk_close k) (mk_volume k)).

(** [MarketKline.__post_init__] *)
Definition new_market_kline (k : MarketKline) : res MarketKline :=
  raise_if (naive (mk_open_time k) || naive (mk_close_time k)) (ValueError "kline timestamps must be timezone-aware");;
  raise_if (negb (dt_ltb (mk_open_time k) (mk_close_time k))) (ValueError "kline open_time must precede close_time");;
  to_candle k;;
  mret k.

Record SymbolInfo : Type := mk_symbol_info {
  si_symbol : string;
  status : string;
  si_base_asset : string;
  si_quote_asset : string;
  si_filters : list (string * filter_fields)
}.

(** [SymbolInfo.__post_init__] *)
Definition new_symbol_info (s : SymbolInfo) : res SymbolInfo :=
  raise_if (existsb blank [si_symbol s; status s; si_base_asset s; si_quote_asset s])
    (ValueError "symbol metadata fields cannot be empty");;
  mret (mk_symbol_info (normalize (si_symbol s)) (status s) (si_base_asset s) (si_quote_asset s) (si_filters s)).

(** ** Checks of a payload *)

Definition _sequence (value : json) (field_name : string) : res (list json) :=
  match value with JList l => Ok l | _ => Raise (ExchangePayloadError (field_name ++ " must be an array")) end.

Definition _string (value : json) (field_name : string) : res string :=
  match value with
  | JStr s => if blank s then Raise (ExchangePayloadError (field_name ++ " must be non-empty text")) else Ok s
  | _ => Raise (ExchangePayloadError (field_name ++ " must be non-empty text"))
  end.

Definition _symbol (value : string) : res string :=
  let normalized := normalize value in
  raise_if (String.eqb normalized "" || negb (isascii normalized) || negb (isalnum normalized))
    (ValueError "symbol must be non-empty ASCII alphanumeric text");;
  mret normalized.

(** [datetime.fromtimestamp(milliseconds / 1000, tz=UTC)], on the instants
    where it is exact *)
Definition utc_milliseconds (milliseconds : Z) : res datetime :=
  raise_if ((milliseconds <? 0) || (4294967296000 <=? milliseconds)) (Unmodelled "far timestamp");;
  mret (utc (epoch + milliseconds * 1000)).

Definition _milliseconds (value : json) (field_name : string) : res datetime :=
  milliseconds ← _integer value field_name;
  utc_milliseconds milliseconds.

(** [_decimal]: a finite, non-negative number *)
Definition _decimal (value : json) (field_name : string) : res dec :=
  match match value with JStr s => Some s | JInt n => Some (str_int n) | _ => None end with
  | None => Raise (ExchangePayloadError (field_name ++ " must be numeric text"))
  | Some s =>
      match parse_decimal s with
      | None => Raise (ExchangePayloadError (field_name ++ " must be decimal-compatible"))
      | Some (Finite d) =>
          raise_if (dltb d ZERO) (ExchangePayloadError (field_name ++ " must be finite and non-negative"));;
          mret d
      | Some _ => Raise (ExchangePayloadError (field_name ++ " must be finite and non-negative"))
      end
  end.

Definition _filter_value (value : json) : res FilterValue :=
  match value with
  | JNull => Ok FNone
  | JStr s => Ok (FStr s)
  | JInt n => Ok (FInt n)
  | JBool b => Ok (FBool b)
  | _ => Raise (ExchangePayloadError "exchange filter contains an unsupported value")
  end.

(** The values of a filter but its type. *)
Fixpoint filter_values (fields : list (string * json)) : res filter_fields :=
  match fields with
  | [] => Ok []
  | (key, value) :: fields =>
      if String.eqb key "filterType" then filter_values fields
      else v ← _filter_value value; l ← filter_values fields; mret ((key, v) :: l)
  end.

(** The loop over the filters: a later filter of a type replaces an earlier one. *)
Fixpoint parse_filters (parsed : list (string * filter_fields)) (l : list json) : res (list (string * filter_fields)) :=
  match l with
  | [] => Ok parsed
  | raw_filter :: l =>
      filter_mapping ← _mapping raw_filter "filter";
      filter_type ← match get_json filter_mapping "filterType" with
                    | JStr s => if String.eqb s "" then Raise (ExchangePayloadError "exchange filterType is invalid") else Ok s
                    | _ => Raise (ExchangePayloadError "exchange filterType is invalid")
                    end;
      values ← filter_values filter_mapping;
      parse_filters (dict_set String.eqb filter_type values parsed) l
  end.

(** ** The client *)

Section Client.

(** [JsonTransport.get_json]: path and parameters to a decoded payload. *)
Context (transport : string -> list (string * json) -> res json).

(** [BinancePublicClient.server_time] *)
Definition server_time : res datetime :=
  answer ← transport "/api/v3/time" [];
  payload ← _mapping answer "time";
  _milliseconds (get_json payload "serverTime") "serverTime".

(** [BinancePublicClient.exchange_info] *)
Definition exchange_info (sym : string) : res SymbolInfo :=
  normalized ← _symbol sym;
  answer ← transport "/api/v3/exchangeInfo" [("symbol", JStr normalized)];
  payload ← _mapping answer "exchangeInfo";
  symbols ← _sequence (get_json payload "symbols") "symbols";
  match symbols with
  | [only] =>
      item ← _mapping only "symbol";
      filters_payload ← _sequence (get_json item "filters") "filters";
      parsed ← parse_filters [] filters_payload;
      s ← _string (get_json item "symbol") "symbol";
      st ← _string (get_json item "status") "status";
      b ← _string (get_json item "baseAsset") "baseAsset";
      q ← _string (get_json item "quoteAsset") "quoteAsset";
      new_symbol_info (mk_symbol_info s st b q parsed)
  | _ => Raise (ExchangePayloadError "exchangeInfo must contain exactly one symbol")
  end.

(** [BinancePublicClient.ticker_price] *)
Definition ticker_price (sym : string) : res dec :=
  normalized ← _symbol sym;
  answer ← transport "/api/v3/ticker/price" [("symbol", JStr normalized)];
  payload ← _mapping answer "tickerPrice";
  _decimal (get_json payload "price") "price".

(** [BinancePublicClient.book_ticker] *)
Definition book_ticker (sym : string) : res BookTicker :=
  normalized ← _symbol sym;
  answer ← transport "/api/v3/ticker/bookTicker" [("symbol", JStr normalized)];
  payload ← _mapping answer "bookTicker";
  b ← _decimal (get_json payload "bidPrice") "bidPrice";
  a ← _decimal (get_json payload "askPrice") "askPrice";
  new_book_ticker (mk_book_ticker b a).

(** One row of [klines]. *)
Definition market_kline (raw_kline : json) : res MarketKline :=
  values ← _sequence raw_kline "kline";
  raise_if (length values <? 7)%nat (ExchangePayloadError "kline must contain at least seven values");;
  let value i := nth i values JNull in
  ot ← _milliseconds (value 0%nat) "kline.open_time";
  ct ← _milliseconds (value 6%nat) "kline.close_time";
  o ← _decimal (value 1%nat) "kline.open";
  h ← _decimal (value 2%nat) "kline.high";
  l ← _decimal (value 3%nat) "kline.low";
  c ← _decimal (value 4%nat) "kline.close";
  v ← _decimal (value 5%nat) "kline.volume";
  new_market_kline (mk_market_kline ot ct o h l c v).

Fixpoint market_klines (rows : list json) : res (list MarketKline) :=
  match rows with
  | [] => Ok []
  | row :: rows => k ← market_kline row; l ← market_klines rows; mret (k :: l)
  end.

(** [BinancePublicClient.klines] *)
Definition klines (sym inter : string) (limit : Z) (market_type : string) : res (list MarketKline) :=
  normalized ← _symbol sym;
  raise_if (negb (str_in inter SUPPORTED_INTERVALS)) (ValueError ("unsupported Binance interval: " ++ inter));;
  raise_if (negb ((1 <=? limit) && (limit <=? 1000))) (ValueError "kline limit must be between 1 and 1000");;
  match dict_get String.eqb market_type [("SPOT", "/api/v3/klines"); ("USD_M_FUTURES", "/fapi/v1/klines")] with
  | None => Raise (ValueError "public kline market is unsupported")
  | Some path =>
      answer ← transport path [("symbol", JStr normalized); ("interval", JStr inter); ("limit", JInt limit)];
      payload ← _sequence answer "klines";
      market_klines payload
  end.

End Client.

(** ** What the client hands on *)

Lemma decimal_nonneg v name d : _decimal v name = Ok d -> (0 <= dval d)%Q.
Proof.
  unfold _decimal. destruct (match v with JStr _ => _ | _ => _ end) as [s|]; [|done].
  destruct (parse_decimal s) as [[x| |]|]; try done. intros H. apply bind_Ok in H as (? & H%raise_if_Ok & Hd).
  apply mret_Ok in Hd. subst d. apply dltb_false in H. by rewrite dval_ZERO in H.
Qed.

Lemma ticker_price_nonneg transport sym d : ticker_price transport sym = Ok d -> (0 <= dval d)%Q.
Proof. unfold ticker_price. intros H. do 3 (apply bind_Ok in H as (? & _ & H)). by eapply decimal_nonneg. Qed.

Lemma book_ticker_ordered transport sym b : book_ticker transport sym = Ok b ->
  (0 <= dval (bid b))%Q /\ (dval (bid b) <= dval (ask b))%Q.
Proof.
  unfold book_ticker. intros H. do 3 (apply bind_Ok in H as (? & _ & H)).
  apply bind_Ok in H as (lo & Hb%decimal_nonneg & H). apply bind_Ok in H as (hi & _ & H).
  unfold new_book_ticker in H. apply bind_Ok in H as (? & _ & H). apply bind_Ok in H as (? & Hle%raise_if_Ok & H).
  apply mret_Ok in H. subst b. cbn [bid ask] in *. by apply dltb_false in Hle.
Qed.
