(* ===== verification/OrderPreview.v ===== *)
(** [execution/order_preview.py]: the preview of a Spot order, from the public
    market data of a client and the symbol's filters, without any authority.
    Quantities and prices given by the caller are finite. *)
From S2P Require Import Prelude PyDecimal DecimalFacts DecimalText PyFloat PyText JsonText Filters OrderCommand MarketClient.
From Stdlib Require Import QArith Lqa.
Local Open Scope Z_scope.
Local Open Scope bool_scope.

Record SpotOrderPreview : Type := mk_preview {
  command : SpotOrderCommand;
  validation_price : dec;
  latest_spot_price : dec;
  pv_bid : dec;
  pv_ask : dec;
  spread_bps : pydec;
  pv_blockers : list string;
  warnings : list string;
  exchange_info_valid : bool;
  price_filter_valid : bool;
  lot_size_valid : bool;
  notional_filter_valid : bool;
  tick_size_valid : bool;
  step_size_valid : bool;
  latest_spot_price_confirmed : bool;
  spread_acceptable : bool;
  slippage_acceptable : bool
}.

(** [SpotOrderPreview.status] *)
Definition preview_status (p : SpotOrderPreview) : string := if is_nil (pv_blockers p) then "READY" else "BLOCKED".

(** [except ValueError, ExchangeError, RuntimeError] *)
Definition is_evidence_error (e : exn) : bool :=
  match e with
  | ValueError _ | RuntimeError _ | ExchangePayloadError _ | ExchangeHttpError _ => true
  | _ => false
  end.

(** [spread_bps > cap] *)
Definition above_cap (s : pydec) (cap : dec) : bool :=
  match s with Finite d => dltb cap d | Infinite neg => negb neg | NaN => false end.

Section Builder.

Context (float_repr : float -> string).
Context (exchange_info : string -> res SymbolInfo) (ticker_price : string -> res dec) (book_ticker : string -> res BookTicker).

(** The public evidence [build] starts from. *)
Definition evidence (sym : string) : res (SymbolFilters * dec * BookTicker) :=
  catch (info ← exchange_info sym;
         filters ← from_symbol_info float_repr (si_filters info);
         latest ← ticker_price sym;
         book ← book_ticker sym;
         mret (filters, latest, book))
    is_evidence_error (fun _ => Raise (ValueError "public Spot preview evidence is unavailable")).

Definition price_evidence_invalid (latest : dec) (book : BookTicker) : bool :=
  dleb latest ZERO || dleb (bid book) ZERO || dleb (ask book) ZERO || dltb (ask book) (bid book).

(** [(ask - bid) / latest * 10000], infinite without a price *)
Definition spread_of (latest : dec) (book : BookTicker) : res pydec :=
  if dltb ZERO latest then
      gap ← dsub (ask book) (bid book);
    ratio ← ddiv gap latest;
    bps ← dmul ratio (lit 10000 0);
    mret (Finite bps)
  else Ok (Infinite false).

(** [SpotOrderPreviewBuilder.build] *)
Definition build (spread_cap_bps : dec) (sym sd ty : string) (qty : dec) (client : string) (limit_price : option dec)
  (tif : option string) : res SpotOrderPreview :=
  let normalized_type := normalize ty in
  '(filters, latest, book) ← evidence sym;
  let invalid := price_evidence_invalid latest book in
  spread ← spread_of latest book;
  match (if String.eqb normalized_type "MARKET" then Some latest else limit_price) with
  | None => Raise (ValueError "LIMIT preview requires price")
  | Some asked_price =>
      rounded_price ← price_round_down (Filters.price filters) asked_price;
      rounded_quantity ← lot_round_down (lot_size filters) qty;
      let rounded_warnings :=
        block_if (negb (deqb rounded_price asked_price)) "PRICE_ROUNDED_DOWN_TO_TICK_SIZE" ++
        block_if (negb (deqb rounded_quantity qty)) "QUANTITY_ROUNDED_DOWN_TO_STEP_SIZE" in
      let command_price := if String.eqb normalized_type "LIMIT" then Some (Finite rounded_price) else None in
      order ← new_command sym sd normalized_type (Finite rounded_quantity) client command_price tif;
      filter_blockers ← validate_order filters rounded_price rounded_quantity;
      let wide := above_cap spread spread_cap_bps in
      let found := block_if invalid "PUBLIC_PRICE_EVIDENCE_INVALID" ++ filter_blockers
        ++ block_if wide "SPREAD_EXCEEDS_LIVE_CAP" in
      let valid := is_nil filter_blockers && negb (str_in "PUBLIC_PRICE_EVIDENCE_INVALID" found) in
      mret (mk_preview order rounded_price latest (bid book) (ask book) spread (fromkeys found) (fromkeys rounded_warnings)
        true valid valid valid valid valid (dltb ZERO latest) (negb wide) (negb wide))
  end.

End Builder.

(** [SpotOrderPreviewBuilder.__post_init__] *)
Definition new_builder (spread_cap_bps : dec) : res dec :=
  raise_if (dleb spread_cap_bps ZERO) (ValueError "spread cap must be positive");;
  mret spread_cap_bps.

(** ** What a preview says *)

(** An order the public market and the filters allow. *)
Record previewable (f : SymbolFilters) (latest : dec) (b : BookTicker) (cap : dec) (p : SpotOrderPreview) : Prop := mk_previewable {
  pv_price : (0 < dval latest)%Q;
  pv_book : (0 < dval (bid b))%Q /\ (dval (bid b) <= dval (ask b))%Q;
  pv_spread : exists s, spread_bps p = Finite s /\ (dval s <= dval cap)%Q;
  pv_conforms : order_conforms f (validation_price p) (quantity (command p))
}.

Lemma price_evidence_spec latest b : price_evidence_invalid latest b = false <->
  (0 < dval latest)%Q /\ (0 < dval (bid b))%Q /\ (dval (bid b) <= dval (ask b))%Q.
Proof.
  unfold price_evidence_invalid. rewrite !orb_false_iff, !dleb_false, dltb_false, dval_ZERO. split; [intros [[[? ?] ?] ?]|intros (?&?&?)]; repeat split; lra.
Qed.

Lemma spread_cases latest b s : spread_of latest b = Ok s -> (0 < dval latest)%Q -> exists d, s = Finite d.
Proof.
  unfold spread_of. intros H Hp. rewrite (proj2 (dltb_spec ZERO latest)) in H by (by rewrite dval_ZERO).
  do 3 (apply bind_Ok in H as (? & _ & H)). apply mret_Ok in H. subst s. by eexists.
Qed.

(** A command carries the quantity, type and price it was built from. *)
Lemma new_command_fields sym sd ty q client lp tif c : new_command sym sd ty (Finite q) client lp tif = Ok c ->
  quantity c = q /\ order_type c = normalize ty /\ option_map Finite (price c) = lp.
Proof.
  unfold new_command. cbv zeta. intros H. apply bind_Ok in H as (? & _ & H). apply bind_Ok in H as (? & Ht%raise_if_Ok & H).
  apply bind_Ok in H as (qq & Hq & H). apply bind_Ok in H as (? & _ & H). apply bind_Ok in H as (r & Hp & H).
  apply mret_Ok in H. subst c. cbn [quantity order_type price].
  apply orb_false_iff in Ht as [_ Ht%negb_false_iff]. apply price_terms_Ok in Hp; [|done].
  destruct (positive_finite (Finite q)) as [y|] eqn:Eq; [|done]. injection Hq as ->.
  apply positive_finite_Some in Eq as [[= ->] _]. do 2 (split; [done|]).
  by destruct Hp as [(_ & (z & -> & -> & _) & _)|(_ & -> & -> & _)].
Qed.

(** The steps of a preview that was built. *)
Lemma build_inv fr info tick book cap sym sd ty qty client lp tif p filters latest b :
  build fr info tick book cap sym sd ty qty client lp tif = Ok p ->
  evidence fr info tick book sym = Ok (filters, latest, b) ->
  exists asked bl,
    (if String.eqb (normalize ty) "MARKET" then Some latest else lp) = Some asked /\
    spread_of latest b = Ok (spread_bps p) /\
    price_round_down (Filters.price filters) asked = Ok (validation_price p) /\
    lot_round_down (lot_size filters) qty = Ok (quantity (command p)) /\
    new_command sym sd (normalize ty) (Finite (quantity (command p))) client
      (if String.eqb (normalize ty) "LIMIT" then Some (Finite (validation_price p)) else None) tif = Ok (command p) /\
    validate_order filters (validation_price p) (quantity (command p)) = Ok bl /\
    pv_blockers p = fromkeys (block_if (price_evidence_invalid latest b) "PUBLIC_PRICE_EVIDENCE_INVALID" ++ bl
      ++ block_if (above_cap (spread_bps p) cap) "SPREAD_EXCEEDS_LIVE_CAP").
Proof.
  unfold build. intros H He. rewrite He in H. cbn [mbind res_bind] in H. apply bind_Ok in H as (s & Hs & H).
  destruct (if String.eqb (normalize ty) "MARKET" then Some latest else lp) as [asked|] eqn:Ea; [|done].
  apply bind_Ok in H as (rp & Hrp & H). apply bind_Ok in H as (rq & Hrq & H).
  apply bind_Ok in H as (c & Hc & H). apply bind_Ok in H as (bl & Hbl & H). apply mret_Ok in H. subst p.
  cbn [validation_price spread_bps command pv_blockers].
  assert (quantity c = rq) as ->; [|exists asked, bl; repeat (split; [done|]); done].
  by apply new_command_fields in Hc as [-> _].
Qed.

(** ** Properties *)

(** C32: a ready preview is an order that can be placed.  A built preview is
    READY exactly when the last price is positive, the book has a positive bid
    below its ask, the spread is within the cap, and the rounded order conforms
    to the exchange's filters; its command is well formed and carries the
    rounded quantity and, for a LIMIT order, the rounded limit price, while a
    MARKET order carries no price and was checked at the rounded last price. *)
Theorem preview_ready_exact fr info tick book cap sym sd ty qty client lp tif p filters latest b :
  build fr info tick book cap sym sd ty qty client lp tif = Ok p ->
  evidence fr info tick book sym = Ok (filters, latest, b) ->
  plain (validation_price p) -> plain (quantity (command p)) ->
  plain (tick_size (Filters.price filters)) -> plain (step_size (lot_size filters)) ->
  (preview_status p = "READY" <-> previewable filters latest b cap p) /\
  command_ok (command p) /\ lot_round_down (lot_size filters) qty = Ok (quantity (command p)) /\
  (normalize ty = "LIMIT" -> price (command p) = Some (validation_price p) /\
     exists asked, lp = Some asked /\ price_round_down (Filters.price filters) asked = Ok (validation_price p)) /\
  (normalize ty = "MARKET" -> price (command p) = None /\
     price_round_down (Filters.price filters) latest = Ok (validation_price p)).
Proof.
  intros H He P1 P2 P3 P4. destruct (build_inv _ _ _ _ _ _ _ _ _ _ _ _ _ _ _ _ H He) as (asked & bl & Ha & Hs & Hp & Hq & Hc & Hbl & Hf).
  pose proof (new_command_ok _ _ _ _ _ _ _ _ Hc) as Hok. apply new_command_fields in Hc as (_ & _ & Hprice).
  split; [|split; [done|split; [done|split]]].
  - unfold preview_status. rewrite Hf. apply validate_order_exact in Hbl; [|done..].
    transitivity (price_evidence_invalid latest b = false /\ bl = [] /\ above_cap (spread_bps p) cap = false).
    { rewrite <- !(block_if_nil (price_evidence_invalid latest b) "PUBLIC_PRICE_EVIDENCE_INVALID"),
        <- !(block_if_nil (above_cap (spread_bps p) cap) "SPREAD_EXCEEDS_LIVE_CAP"), <- !app_nil_iff, <- fromkeys_nil.
      destruct (fromkeys _); done. }
    rewrite price_evidence_spec, Hbl. split.
    + intros ((A1 & A2) & A3 & A4). split; [done|done| |done].
      destruct (spread_cases _ _ _ Hs A1) as [d Hd]. exists d. split; [done|]. rewrite Hd in A4. by apply dltb_false.
    + intros [A1 A2 (d & Hd & Hle) A4]. split; [done|]. split; [done|]. rewrite Hd. by apply dltb_false.
  - intros Hl. rewrite Hl in *. cbn [String.eqb] in *. destruct (price (command p)) as [x|]; [|done].
    injection Hprice as ->. split; [done|]. by exists asked.
  - intros Hm. rewrite Hm in *. destruct (price (command p)) as [x|]; [done|]. injection Ha as <-. done.
Qed.

(** ** Example: the client's evidence for a LIMIT order *)

Definition ex_filter (ty : string) (l : list (string * string)) : json :=
  JObj (("filterType", JStr ty) :: map (fun kv => (kv.1, JStr kv.2)) l).

Definition ex_transport (path : string) (_ : list (string * json)) : res json :=
  if String.eqb path "/api/v3/exchangeInfo" then
    Ok (JObj [("symbols", JList [JObj [("symbol", JStr "BTCUSDT"); ("status", JStr "TRADING"); ("baseAsset", JStr "BTC");
      ("quoteAsset", JStr "USDT"); ("filters", JList
        [ex_filter "PRICE_FILTER" [("minPrice", "0.01"); ("maxPrice", "1000000.00"); ("tickSize", "0.01")];
         ex_filter "LOT_SIZE" [("minQty", "0.00001"); ("maxQty", "9000"); ("stepSize", "0.00001")];
         ex_filter "NOTIONAL" [("minNotional", "5"); ("maxNotional", "9000000")]])]])])
  else if String.eqb path "/api/v3/ticker/price" then Ok (JObj [("price", JStr "65000.5")])
  else Ok (JObj [("bidPrice", JStr "65000.4"); ("askPrice", JStr "65000.6")]).

Definition ex_float (_ : float) : string := "0".

Definition ex_build (qty price : dec) : res SpotOrderPreview :=
  build ex_float (exchange_info ex_transport) (ticker_price ex_transport) (book_ticker ex_transport) (lit 50 0)
    "btcusdt" "buy" "limit" qty "client-1" (Some price) (Some "GTC").

Definition ex_preview : SpotOrderPreview :=
  match ex_build (lit 123456 (-7)) (lit 6500012345 (-5)) with
  | Ok p => p
  | Raise _ => mk_preview (mk_command "" "" "" ZERO "" None None) ZERO ZERO ZERO ZERO NaN [] [] false false false false false
                 false false false false
  end.

Definition ex_evidence : SymbolFilters * dec * BookTicker :=
  match evidence ex_float (exchange_info ex_transport) (ticker_price ex_transport) (book_ticker ex_transport) "btcusdt" with
  | Ok e => e
  | Raise _ => (mk_filters (mk_price_filter ZERO ZERO ZERO) (mk_lot_filter ZERO ZERO ZERO) (mk_notional_filter ZERO ZERO), ZERO,
                mk_book_ticker ZERO ZERO)
  end.

Lemma ex_built : ex_build (lit 123456 (-7)) (lit 6500012345 (-5)) = Ok ex_preview.
Proof. vm_compute. reflexivity. Qed.

Lemma ex_evidence_read :
  evidence ex_float (exchange_info ex_transport) (ticker_price ex_transport) (book_ticker ex_transport) "btcusdt" =
    Ok (ex_evidence.1.1, ex_evidence.1.2, ex_evidence.2).
Proof. vm_compute. reflexivity. Qed.

Example ex_warnings : (preview_status ex_preview, warnings ex_preview) =
  ("READY", ["PRICE_ROUNDED_DOWN_TO_TICK_SIZE"; "QUANTITY_ROUNDED_DOWN_TO_STEP_SIZE"]).
Proof. vm_compute. reflexivity. Qed.

Lemma preview_ready_exact_witness : previewable ex_evidence.1.1 ex_evidence.1.2 ex_evidence.2 (lit 50 0) ex_preview.
Proof.
  apply (proj1 (preview_ready_exact ex_float (exchange_info ex_transport) (ticker_price ex_transport) (book_ticker ex_transport)
    (lit 50 0) "btcusdt" "buy" "limit" (lit 123456 (-7)) "client-1" (Some (lit 6500012345 (-5))) (Some "GTC")
    ex_preview ex_evidence.1.1 ex_evidence.1.2 ex_evidence.2 ex_built ex_evidence_read
    ltac:(split; vm_compute; done) ltac:(split; vm_compute; done) ltac:(split; vm_compute; done) ltac:(split; vm_compute; done))).
  vm_compute. reflexivity.
Defined.
